(* ===== verification/_CoqProject ===== *)
-Q . S2P
Prelude.v
Mem.v
PhysMem.v
Vmm.v
DzFS.v
DzFSOpen.v
Sched.v
SchedInv.v
KMalloc.v
KMallocFacts.v
Digits.v
Printf.v
CLib.v
LibcString.v
Stdio.v
Spinlock.v
Serial.v
Rtc.v
Ps2.v
UMalloc.v
Files.v
Syscalls.v
FilesInv.v
FilesFacts.v
KernelEnv.v
KernelEnvFacts.v
DriverSign.v
Drivers.v
Proc.v
ProcFacts.v
ProcInv.v
ProcDemo.v
UserPages.v
KernelMap.v
Exec.v
ExecFacts.v
ExecDemo.v
Nvme.v
NvmeFacts.v
NvmeStart.v
NvmeDemo.v
Ports.v
Pci.v
PciFacts.v
PciScan.v
PciDemo.v
Apic.v
ApicFacts.v
ApicDemo.v
ApicVmm.v
ApicVmmDemo.v
Descriptors.v
DescriptorsFacts.v
Ps2Ctl.v
Ps2CtlFacts.v
Ps2CtlDemo.v
Boot.v
BootFacts.v
BootDemo.v
SerialPort.v
SerialPortFacts.v
SerialPortDemo.v
Kernel.v
Ps2Irq.v
Ps2IrqDemo.v
Context.v
Dispatch.v
DispatchFacts.v
Preempt.v
PreemptDemo.v
