(* ===== verification/Prelude.v ===== *)
(** * dzOS kernel: a verification development

    dzOS is a small x86-64 operating system in C: a kernel under
    src/kernel/src, the library of its user programs under src/libc/src and
    the tools that prepare a disk.  This library models the parts of it that
    compute, and proves what they do.  Names of the source are kept; a
    definition's comment says which function it is where the name does not.

    ** The parts and their files

    Shared: Prelude.v (integers at their width, outcomes, state passing,
    arrays, automation), Mem.v (byte memory, little-endian words, [memset],
    [memcpy]), Digits.v (numerals).

    - Physical pages, mem/mem.c: PhysMem.v.
    - Page tables and user pointers, mem/vmm.c and vmm.h: Vmm.v, whose lemmas
      on trees of tables are about any range of addresses ([va_space]); the
      frames behind the pages of a program: UserPages.v; the kernel's half and
      the mappings of devices there: KernelMap.v.
    - The kernel heap, mem/kmalloc.c: KMalloc.v, KMallocFacts.v; the heap of
      user programs, libc/src/malloc.c: UMalloc.v.
    - The file system on a disk, fs/dzfs.c and dzfs.h: DzFS.v, DzFSOpen.v;
      inodes, descriptors and devices, fs/fs.c, file.c, device.c: Files.v,
      FilesInv.v, FilesFacts.v; the calls on them, fs/syscall.c: Syscalls.v;
      what the calls need of a process, and the framebuffer: KernelEnv.v,
      KernelEnvFacts.v.
    - The scheduler, userspace/scheduler.c: Sched.v, SchedInv.v; the switches
      between processes, context.S, and the timer's stub: Context.v; the
      scheduler's loop with the registers, cpu/fpu.c and the timer's handler:
      Dispatch.v, DispatchFacts.v, Preempt.v, PreemptDemo.v.
    - Processes and condition variables, userspace/proc.c, common/condvar.c:
      Proc.v, ProcFacts.v, ProcInv.v, ProcDemo.v.
    - The program loader, userspace/exec.c: Exec.v, ExecFacts.v, ExecDemo.v.
    - Locks, common/spinlock.c and cpu/smp.c: Spinlock.v.
    - Text: common/printf.c in Printf.v, common/lib.c in CLib.v; libc's
      string.c, ctype.c, stdlib.c in LibcString.v and stdio.c in Stdio.v.
    - Drivers: the manager, drivers/device_manager.c, in Drivers.v, the
      signatures, driver_sign.c, in DriverSign.v, the clock in Rtc.v.
    - Instructions for ports and model specific registers, cpu/asm.h: Ports.v.
    - The serial port, drivers/drv_serial.c: its ring buffer in Serial.v, the
      port and the console of common/printf.c in SerialPort.v,
      SerialPortFacts.v, SerialPortDemo.v.
    - Keyboard and mouse, drivers/drv_ps2.c and hw_ps2.c: the bytes in Ps2.v,
      detection and set-up in Ps2Ctl.v, Ps2CtlFacts.v, Ps2CtlDemo.v, the
      interrupts in Ps2Irq.v, Ps2IrqDemo.v.
    - The PCI bus, drivers/hw_pci.c: Pci.v, PciFacts.v, PciScan.v, PciDemo.v.
    - The disk, drivers/drv_nvme.c: Nvme.v, NvmeFacts.v, NvmeStart.v,
      NvmeDemo.v.
    - Interrupt controllers and the local timer, device/pic.c: Apic.v,
      ApicFacts.v, ApicDemo.v; the same over the kernel's own page tables:
      ApicVmm.v, ApicVmmDemo.v.
    - Descriptor tables, cpu/gdt.c, idt.c, smp.c, and the registers of the
      system calls, userspace/syscall.c: Descriptors.v, DescriptorsFacts.v.
    - Start-up of the devices, device_manager.c, builtin_drivers.c and
      kernel.c: Boot.v, BootFacts.v, BootDemo.v; random numbers, the heap's
      self-test and the power-off, kernel.c and common/power.c: Kernel.v.

    They are composed as the kernel composes them: [proc_exec] (Exec.v) runs
    [fs_open] and [file_read] (Files.v) on the file system (DzFS.v),
    [proc_allocate] (Proc.v) with the page tables of Vmm.v on the pages of
    PhysMem.v, and [sched_fork] of Sched.v; [scheduler_round] (Dispatch.v)
    runs the table of processes with the switches of Context.v and the local
    APIC of Apic.v; [device_manager_init] (Boot.v) runs both scans on the heap
    of KMalloc.v and binds what they find to the drivers.  Where one part only relies on
    what another promises there is a class with its laws: [BlockDevice] and
    [BlockDeviceLaws] between the file system and the disk, [KernelEnv] between
    the system calls and a process, [ExecEnv] and [ExecEnvLaws] between the
    loader and the process table.  Hardware is a class with its documented
    behaviour as laws, and an instance on which the theorems are applied:
    [PortIO] and [MsrIO] for the instructions, [PciLaws], [NvmeController] and
    [NvmeLaws], [Board] and [BoardLaws] for memory, the I/O APIC and the local
    APIC, [MsrLaws], [Ps2Controller] and [Ps2Board], [Uart] and [SerialBoard],
    and [PciPs2] for a machine with two of them.  The disk of NvmeFacts.v is
    an instance of [BlockDevice].  The part of [BoardLaws] that the memory
    manager promises is proved in ApicVmm.v of [vmm_map_physical] and
    [vmm_init_lapic] as they are in Vmm.v, from the laws of the devices by
    physical address ([Bus], [BusLaws]).

    ** How the code is modelled

    An unsigned integer of [w] bits is a [Z] and every operation that may
    leave the range is wrapped ([wrap], [sgn]).  Pointers are addresses.  A
    function of the kernel is a computation [ST S A]: it passes the state [S]
    on and ends in one of the [outcome]s: a value, a panic with its message,
    [Undef] (an access outside of what the code addresses, or undefined
    behaviour) or [NoFuel].  Loops over a known range recurse on it.  Loops to
    a condition take fuel: theorems give an amount that is enough (a number of
    list nodes, of free pages, of bytes) and conclude a value, so that
    [NoFuel] and [Undef] are excluded and the loop is shown to end.

    Every invariant is over the steps the code can take, in any order, from
    the state it starts in: [reachable] in Spinlock.v, Files.v, SchedInv.v and
    ProcInv.v is the reflexive transitive closure of a step relation.

    ** What is shown

    - Memory: an allocated page is on no list and is cleared or filled;
      mapping, translation, user pointer checks and user strings agree with
      what the hardware makes of the tables; mappings of devices lie behind
      each other and stay; both heaps hand out blocks that do not overlap and
      take them back, and fail only when the system has no memory left.
    - Files: reading and writing a file of dzFS is reading and writing a list
      of bytes, and fails only on a disk without a free block; a created file
      is found again; reference counts are, in every reachable state, the
      number of references, those included that processes leave behind when
      they end and are reclaimed; seeking stays in bounds.
    - Processes: the run queue is well formed in every reachable state and the
      picker takes the least virtual run time of the highest priority; the
      table of processes is a list; a wake-up finds exactly the processes that
      wait; a loaded program has its segments at its addresses, zeros behind
      them and a stack; locks exclude each other.
    - Errors: layouts of executables that stop the kernel, calls that wait and
      stop it, arguments that are lost, stacks that two processes share: what
      the theorems found is listed with them.
    - The processor: an interrupt of the timer returns or switches; a preempted
      process goes on where it was with its registers but two; floating point
      registers that are saved lazily still belong to their processes; which
      vectors have gates.  The compiled code of the kernel may change the unit
      at any step; an ended process is freed once the scheduler runs again.
    - Hardware: the scan of the PCI bus registers every function with the
      sizes of its ranges; the disk is brought up and transfers are exact; the
      tables of the firmware lead to the I/O APIC; an enabled line goes to its
      vector; after start-up the table of devices is what the machine has,
      each bound to its driver; a received byte ends in the ring buffer, those
      who wait for it are woken, and the interrupt is acknowledged once.
    - Text and devices: the printers consume a format exactly up to its end,
      whatever its conversions, and both families agree; encoders are
      inverted by decoders; the ring buffer is a queue; every initialised
      device is bound to a driver of its bus and class.

    Each theorem with hypotheses has a witness that applies it to a concrete
    state; the Demo files hold the larger ones.

    ** Not modelled

    - Assembly but for the context switches and the stub of the timer: the
      entry of the system calls, the other stubs, the loading of segments, the
      arithmetic helpers of fpu.S, the calibration of the clock, cache and TLB
      maintenance.
    - The text of floating point numbers, log output and statistics, and the
      drawing of characters (a library that is not part of the repository).
    - Interleaving of cores, except in Spinlock.v: elsewhere one call runs at
      a time, which is what the one core the kernel starts does between
      interrupts.
    - The order of [kmain] as one computation: its parts are modelled on the
      state each needs; the boot loader's structures are arguments.
    - libc's [strdup] and [_start]. *)
From Stdlib Require Export ZArith Lia Bool String Sorted.
From stdpp Require Export prelude list gmap.
#[global] Open Scope Z_scope.

(** ** Machine-width integers *)

(** [wrap w z] is [z] converted to a [w]-bit unsigned integer. *)
Definition wrap (w z : Z) : Z := z mod 2 ^ w.

(** [sgn w z] is [z] converted to a [w]-bit two's complement integer. *)
Definition sgn (w z : Z) : Z :=
  let u := wrap w z in if u <? 2 ^ (w - 1) then u else u - 2 ^ w.

Declare Scope c_scope.
Delimit Scope c_scope with C.
Notation "'u8' z" := (wrap 8 z) (at level 9, z at level 9) : c_scope.
Notation "'u16' z" := (wrap 16 z) (at level 9, z at level 9) : c_scope.
Notation "'u32' z" := (wrap 32 z) (at level 9, z at level 9) : c_scope.
Notation "'u64' z" := (wrap 64 z) (at level 9, z at level 9) : c_scope.
Notation "'i32' z" := (sgn 32 z) (at level 9, z at level 9) : c_scope.
Notation "'i64' z" := (sgn 64 z) (at level 9, z at level 9) : c_scope.
#[global] Open Scope c_scope.

(** C's truth value of an integer. *)
Definition truth (z : Z) : bool := negb (z =? 0).

(** [#define PAGE_SIZE 4096u] (kernel/src/mem/mem.h). *)
Definition PAGE_SIZE : Z := 4096.

(** The mask [~(PAGE_SIZE - 1)].  [PAGE_SIZE] is an [unsigned int], so the
    complement is taken at 32 bits and zero-extended when it meets a 64-bit
    operand: the mask also clears bits 32..63 of an address. *)
Definition PAGE_MASK : Z := wrap 32 (Z.lnot (PAGE_SIZE - 1)).

(** [#define PAGE_ROUND_UP(sz) (((sz) + PAGE_SIZE - 1) & ~(PAGE_SIZE - 1))] on a 64-bit [sz]. *)
Definition PAGE_ROUND_UP (sz : Z) : Z := Z.land (wrap 64 (sz + PAGE_SIZE - 1)) PAGE_MASK.

(** [#define PAGE_ROUND_DOWN(a) ((a) & ~(PAGE_SIZE - 1))] (kernel/src/mem/vmm.c). *)
Definition PAGE_ROUND_DOWN (a : Z) : Z := Z.land a PAGE_MASK.

(** ** Outcomes of kernel code

    [panic] stops the machine, so it is an outcome of its own; [Undef] is an
    access outside the object the code addresses; [NoFuel] is the only
    outcome the C code does not have, and the theorems about loops exclude
    it. *)
Inductive outcome (A : Type) : Type :=
| Ret (a : A)
| Panic (msg : string)
| Undef
| NoFuel.
Arguments Ret {A} a.
Arguments Panic {A} msg.
Arguments Undef {A}.
Arguments NoFuel {A}.

#[export] Instance outcome_ret : MRet outcome := fun _ a => Ret a.
#[export] Instance outcome_bind : MBind outcome := fun _ _ f m =>
  match m with
  | Ret a => f a
  | Panic s => Panic s
  | Undef => Undef
  | NoFuel => NoFuel
  end.

(** State passing over outcomes, for components whose operations thread a
    state record through many calls. *)
Definition ST (S A : Type) : Type := S -> outcome (A * S).
#[export] Instance st_ret {S} : MRet (ST S) := fun _ a s => Ret (a, s).
#[export] Instance st_bind {S} : MBind (ST S) := fun _ _ f m s =>
  match m s with
  | Ret (a, s') => f a s'
  | Panic msg => Panic msg
  | Undef => Undef
  | NoFuel => NoFuel
  end.
Definition st_get {S} : ST S S := fun s => Ret (s, s).
Definition st_put {S} (s : S) : ST S unit := fun _ => Ret (tt, s).
Definition st_modify {S} (f : S -> S) : ST S unit := fun s => Ret (tt, f s).
Definition st_panic {S A} (msg : string) : ST S A := fun _ => Panic msg.
Definition st_undef {S A} : ST S A := fun _ => Undef.
Definition st_nofuel {S A} : ST S A := fun _ => NoFuel.

(** [seqZ lo n] of stdpp lists [lo, ..., lo+n-1]; [for_list] folds a loop
    body over such a list, stopping at the first non-[Ret] outcome. *)
Fixpoint for_list {A B} (f : A -> B -> outcome A) (l : list B) (a : A) : outcome A :=
  match l with
  | [] => Ret a
  | b :: l' => match f a b with
               | Ret a' => for_list f l' a'
               | o => o
               end
  end.

(** A loop whose body may return from the function: [Some r] stops it. *)
Fixpoint for_ret {A B R} (f : A -> B -> outcome (A * option R)) (l : list B) (a : A)
    : outcome (A * option R) :=
  match l with
  | [] => Ret (a, None)
  | b :: l' => match f a b with
               | Ret (a', None) => for_ret f l' a'
               | o => o
               end
  end.

(** The same over state-passing bodies. *)
Definition st_for {S B R} (f : B -> ST S (option R)) (l : list B) : ST S (option R) :=
  fun s =>
    match for_ret (fun s b => match f b s with
                              | Ret (r, s') => Ret (s', r)
                              | Panic m => Panic m
                              | Undef => Undef
                              | NoFuel => NoFuel
                              end) l s with
    | Ret (s', r) => Ret (r, s')
    | Panic m => Panic m
    | Undef => Undef
    | NoFuel => NoFuel
    end.

(** [reads f]: a computation that only reads the state; [updates f]: one that
    cannot stop. *)
Definition reads {S A} (f : S -> A) : ST S A := fun s => Ret (f s, s).
Definition updates {S A} (f : S -> A * S) : ST S A := fun s => Ret (f s).
Definition effect {S} (f : S -> outcome S) : ST S unit :=
  fun s => match f s with
           | Ret s' => Ret (tt, s')
           | Panic m => Panic m
           | Undef => Undef
           | NoFuel => NoFuel
           end.

(** *** Sequencing *)

Lemma bind_step {S A B} (m : ST S A) (f : A -> ST S B) s a s' :
  m s = Ret (a, s') -> (m ≫= f) s = f a s'.
Proof. intros E. unfold mbind, st_bind. by rewrite E. Qed.

(** [runs_to m P s]: from [s], [m] ends normally with a result and a state
    that satisfy [P]. *)
Definition runs_to {S A} (m : ST S A) (P : A -> S -> Prop) (s : S) : Prop :=
  exists a s', m s = Ret (a, s') /\ P a s'.

Lemma runs_bind {S A B} (m : ST S A) (f : A -> ST S B) P s :
  runs_to m (fun a s' => runs_to (f a) P s') s -> runs_to (m ≫= f) P s.
Proof. intros (a & s' & E & b & s2 & E2 & H). exists b, s2. by rewrite (bind_step m f s a s' E). Qed.

Lemma runs_weaken {S A} (m : ST S A) (P P' : A -> S -> Prop) s :
  runs_to m P s -> (forall a s', P a s' -> P' a s') -> runs_to m P' s.
Proof. intros (a & s' & E & H) HP. exists a, s'. eauto. Qed.

Lemma runs_ret {S A} (a : A) (P : A -> S -> Prop) s : P a s -> runs_to (mret a) P s.
Proof. intros H. by exists a, s. Qed.

(** [ends m Q s]: whenever [m], run from [s], ends normally, its result and
    state satisfy [Q]. *)
Definition ends {S A} (m : ST S A) (Q : A -> S -> Prop) (s : S) : Prop :=
  forall a s', m s = Ret (a, s') -> Q a s'.

Lemma ends_bind {S A B} (m : ST S A) (f : A -> ST S B) Q s :
  ends m (fun a s' => ends (f a) Q s') s -> ends (m ≫= f) Q s.
Proof.
  intros Hm b s2 E. unfold mbind, st_bind in E. destruct (m s) as [[a s1]| | |] eqn:Em; try done.
  exact (Hm a s1 Em b s2 E).
Qed.

Lemma ends_ret {S A} (a : A) (Q : A -> S -> Prop) s : Q a s -> ends (mret a) Q s.
Proof. intros HQ b s' E. injection E as <- <-. done. Qed.
Lemma ends_reads {S A} (f : S -> A) (Q : A -> S -> Prop) s : Q (f s) s -> ends (reads f) Q s.
Proof. intros HQ b s' E. injection E as <- <-. done. Qed.
Lemma ends_modify {S} (f : S -> S) (Q : unit -> S -> Prop) s : Q tt (f s) -> ends (st_modify f) Q s.
Proof. intros HQ b s' E. injection E as <- <-. done. Qed.
Lemma ends_panic {S A} msg (Q : A -> S -> Prop) s : ends (st_panic msg) Q s.
Proof. done. Qed.
Lemma ends_undef {S A} (Q : A -> S -> Prop) s : ends st_undef Q s.
Proof. done. Qed.
Lemma ends_weaken {S A} (m : ST S A) (P Q : A -> S -> Prop) s :
  ends m P s -> (forall a s', P a s' -> Q a s') -> ends m Q s.
Proof. intros HP HPQ a s' E. by apply HPQ, HP. Qed.

(** A computation on a part of the state, read by [get] and put back by
    [put]. *)
Definition zoom {S T A} (get : S -> T) (put : T -> S -> S) (m : ST T A) : ST S A := fun s =>
  match m (get s) with
  | Ret (a, t) => Ret (a, put t s)
  | Panic msg => Panic msg
  | Undef => Undef
  | NoFuel => NoFuel
  end.

Lemma ends_zoom {S T A} (get : S -> T) (put : T -> S -> S) (m : ST T A) Q s :
  ends m (fun a t => Q a (put t s)) (get s) -> ends (zoom get put m) Q s.
Proof.
  intros Hm a s' E. unfold zoom in E. destruct (m (get s)) as [[b t]| | |] eqn:Em; try done.
  injection E as <- <-. exact (Hm b t Em).
Qed.

Lemma zoom_run {S T A} (get : S -> T) (put : T -> S -> S) (m : ST T A) s a t :
  m (get s) = Ret (a, t) -> zoom get put m s = Ret (a, put t s).
Proof. intros E. unfold zoom. by rewrite E. Qed.

(** ** Automation *)

Create HintDb word.
Create Rewrite HintDb word.

(** Destruct the innermost boolean test of the goal or a hypothesis and turn
    it into a proposition. *)
Ltac bool_to_prop :=
  repeat match goal with
  | H : _ && _ = true |- _ => apply andb_true_iff in H as [? ?]
  | H : _ || _ = false |- _ => apply orb_false_iff in H as [? ?]
  | H : negb _ = true |- _ => apply negb_true_iff in H
  | H : negb _ = false |- _ => apply negb_false_iff in H
  | H : (_ =? _) = true |- _ => apply Z.eqb_eq in H
  | H : (_ =? _) = false |- _ => apply Z.eqb_neq in H
  | H : (_ <? _) = true |- _ => apply Z.ltb_lt in H
  | H : (_ <? _) = false |- _ => apply Z.ltb_ge in H
  | H : (_ <=? _) = true |- _ => apply Z.leb_le in H
  | H : (_ <=? _) = false |- _ => apply Z.leb_gt in H
  end.

Ltac zcase :=
  match goal with
  | |- context [?a =? ?b] => destruct (Z.eqb_spec a b)
  | |- context [?a <? ?b] => destruct (Z.ltb_spec a b)
  | |- context [?a <=? ?b] => destruct (Z.leb_spec a b)
  end.
Ltac zcases := repeat (zcase; simpl; try lia).

(** Arithmetic with divisions and remainders by constants. *)
Ltac zify_div := Z.to_euclidean_division_equations; lia.

(** Case analysis on the scrutinee of a [match] or [if] in a hypothesis. *)
Ltac case_in H :=
  match type of H with
  | context [match ?x with _ => _ end] => destruct x eqn:?
  end.

(** ** Lemmas on wrapped integers *)

Lemma wrap_range w z : 0 <= w -> 0 <= wrap w z < 2 ^ w.
Proof. intros. apply Z.mod_pos_bound. apply Z.pow_pos_nonneg; lia. Qed.

Lemma wrap_small w z : 0 <= z < 2 ^ w -> wrap w z = z.
Proof. intros. by apply Z.mod_small. Qed.

Lemma wrap_0 w : wrap w 0 = 0.
Proof. apply Zmod_0_l. Qed.

Lemma wrap_wrap w z : 0 <= w -> wrap w (wrap w z) = wrap w z.
Proof. intros. by apply wrap_small, wrap_range. Qed.

Lemma wrap_land w z : 0 <= w -> wrap w z = Z.land z (Z.ones w).
Proof. intros. by rewrite Z.land_ones. Qed.

Lemma wrap_add_l w a b : wrap w (wrap w a + b) = wrap w (a + b).
Proof. unfold wrap. apply Zplus_mod_idemp_l. Qed.

Lemma wrap_add_r w a b : wrap w (a + wrap w b) = wrap w (a + b).
Proof. unfold wrap. apply Zplus_mod_idemp_r. Qed.

Lemma wrap_sub_l w a b : wrap w (wrap w a - b) = wrap w (a - b).
Proof. unfold wrap. apply Zminus_mod_idemp_l. Qed.

Lemma wrap_sub_r w a b : wrap w (a - wrap w b) = wrap w (a - b).
Proof. unfold wrap. apply Zminus_mod_idemp_r. Qed.

Lemma sgn_range w z : 0 < w -> - 2 ^ (w - 1) <= sgn w z < 2 ^ (w - 1).
Proof.
  intros Hw. unfold sgn. pose proof (wrap_range w z ltac:(lia)).
  assert (2 ^ w = 2 * 2 ^ (w - 1)).
  { rewrite <- Z.pow_succ_r by lia. f_equal; lia. }
  cbv zeta. destruct (Z.ltb_spec (wrap w z) (2 ^ (w - 1))); lia.
Qed.

Lemma sgn_small w z : 0 < w -> - 2 ^ (w - 1) <= z < 2 ^ (w - 1) -> sgn w z = z.
Proof.
  intros Hw Hz. unfold sgn, wrap. cbv zeta.
  assert (2 ^ w = 2 * 2 ^ (w - 1)) as E.
  { rewrite <- Z.pow_succ_r by lia. f_equal; lia. }
  destruct (Z.ltb_spec (z mod 2 ^ w) (2 ^ (w - 1))) as [H|H];
  destruct (Z_lt_le_dec z 0) as [N|N].
  - rewrite <- (Z.mod_unique z (2 ^ w) (-1) (z + 2 ^ w)) in H by lia. lia.
  - apply Z.mod_small; lia.
  - rewrite <- (Z.mod_unique z (2 ^ w) (-1) (z + 2 ^ w)) by lia. lia.
  - rewrite Z.mod_small in H by lia. lia.
Qed.

#[export] Hint Rewrite wrap_wrap wrap_add_l wrap_add_r wrap_sub_l wrap_sub_r
  using lia : word.

(** ** Testing bits *)

Lemma testbit_range w z i : 0 <= z < 2 ^ w -> 0 <= w <= i -> Z.testbit z i = false.
Proof.
  intros Hz Hi. rewrite <- (Z.mod_small z (2 ^ w)) by done.
  apply Z.mod_pow2_bits_high. lia.
Qed.

Lemma land_mask_range a m w : 0 <= m < 2 ^ w -> 0 <= w -> 0 <= Z.land a m < 2 ^ w.
Proof.
  intros Hm Hw. rewrite <- (Z.mod_small m (2 ^ w)) by done.
  rewrite <- Z.land_ones by done.
  rewrite Z.land_assoc, Z.land_ones by done.
  apply Z.mod_pos_bound. lia.
Qed.

Lemma lor_range a b w : 0 <= a < 2 ^ w -> 0 <= b < 2 ^ w -> 0 <= w -> 0 <= Z.lor a b < 2 ^ w.
Proof.
  intros Ha Hb Hw.
  rewrite <- (Z.mod_small a (2 ^ w)), <- (Z.mod_small b (2 ^ w)) by done.
  rewrite <- !Z.land_ones, <- Z.land_lor_distr_l, Z.land_ones by done.
  apply Z.mod_pos_bound. apply Z.pow_pos_nonneg; lia.
Qed.

(** A one-bit mask tests that bit. *)
Lemma truth_land_bit z k : 0 <= k -> truth (Z.land z (Z.shiftl 1 k)) = Z.testbit z k.
Proof.
  intros Hk. unfold truth. rewrite Z.shiftl_1_l. destruct (Z.testbit z k) eqn:E.
  - apply negb_true_iff, Z.eqb_neq. intros H.
    assert (Z.testbit (Z.land z (2 ^ k)) k = true) as H'
      by (by rewrite Z.land_spec, E, Z.pow2_bits_true).
    by rewrite H, Z.bits_0 in H'.
  - apply negb_false_iff, Z.eqb_eq. apply Z.bits_inj'. intros i Hi.
    rewrite Z.land_spec, Z.bits_0. destruct (Z.eq_dec i k) as [->|]; [by rewrite E|].
    by rewrite Z.pow2_bits_false, andb_false_r.
Qed.

(** Clearing the low [k] bits of [z] by subtraction. *)
Lemma land_not_ones z k : 0 <= k -> Z.land z (Z.lnot (Z.ones k)) = z - z mod 2 ^ k.
Proof.
  intros Hk. rewrite <- Z.ldiff_land, Z.ldiff_ones_r by done.
  rewrite Z.shiftr_div_pow2, Z.shiftl_mul_pow2 by done.
  pose proof (Z.div_mod z (2 ^ k)). assert (0 < 2 ^ k) by (apply Z.pow_pos_nonneg; lia). lia.
Qed.

(** ** Loops over lists *)

Lemma for_list_app {A B} (f : A -> B -> outcome A) l1 l2 a :
  for_list f (l1 ++ l2) a =
  match for_list f l1 a with Ret a' => for_list f l2 a' | o => o end.
Proof.
  revert a. induction l1 as [|b l1 IH]; intros a; simpl; [done|].
  destruct (f a b); auto.
Qed.

Lemma for_list_inv {A B} (f : A -> B -> outcome A) (P : A -> Prop) l a a' :
  (forall a b a', b ∈ l -> P a -> f a b = Ret a' -> P a') ->
  P a -> for_list f l a = Ret a' -> P a'.
Proof.
  revert a. induction l as [|b l IH]; intros a Hf Ha H; simpl in H.
  - by inv H.
  - destruct (f a b) eqn:E; try done. eapply IH; [| |exact H].
    + intros. eapply Hf; [by right| |]; eauto.
    + eapply Hf; [by left| |]; eauto.
Qed.

(** ** List updates indexed by [Z] (the C code's arrays) *)

(** [l.[i]]: the element of an array at a C index; [None] outside of it. *)
Definition zget {A} (l : list A) (i : Z) : option A :=
  if i <? 0 then None else l !! Z.to_nat i.

(** [zset l i x] is [l] with [l.[i] = x]; the list is unchanged when [i] is
    outside: the callers guard the write or model it as [Undef]. *)
Definition zset {A} (l : list A) (i : Z) (x : A) : list A :=
  if i <? 0 then l else <[Z.to_nat i := x]> l.

Definition zlen {A} (l : list A) : Z := Z.of_nat (length l).

Lemma zget_zset_eq {A} (l : list A) i x : 0 <= i < zlen l -> zget (zset l i x) i = Some x.
Proof.
  unfold zget, zset, zlen. intros. destruct (Z.ltb_spec i 0); [lia|].
  apply list_lookup_insert_eq. lia.
Qed.

Lemma zget_zset_ne {A} (l : list A) i j x : i <> j -> zget (zset l i x) j = zget l j.
Proof.
  unfold zget, zset. intros. destruct (Z.ltb_spec i 0), (Z.ltb_spec j 0); try done.
  apply list_lookup_insert_ne. lia.
Qed.

Lemma zlen_app {A} (l1 l2 : list A) : zlen (l1 ++ l2) = zlen l1 + zlen l2.
Proof. unfold zlen. rewrite length_app. lia. Qed.

Lemma zlen_cons {A} (x : A) l : zlen (x :: l) = 1 + zlen l.
Proof. unfold zlen. cbn [length]. lia. Qed.

Lemma zlen_zset {A} (l : list A) i x : zlen (zset l i x) = zlen l.
Proof. unfold zlen, zset. destruct (i <? 0); [done|]. by rewrite length_insert. Qed.

Lemma zget_Some_range {A} (l : list A) i x : zget l i = Some x -> 0 <= i < zlen l.
Proof.
  unfold zget, zlen. destruct (Z.ltb_spec i 0); [done|].
  intros ?%lookup_lt_Some. lia.
Qed.

Lemma zget_lt_is_Some {A} (l : list A) i : 0 <= i < zlen l -> is_Some (zget l i).
Proof.
  unfold zget, zlen. intros. destruct (Z.ltb_spec i 0); [lia|].
  apply lookup_lt_is_Some. lia.
Qed.

Lemma zget_ge_None {A} (l : list A) i : zlen l <= i -> zget l i = None.
Proof.
  unfold zget, zlen. intros. destruct (Z.ltb_spec i 0); [done|].
  apply lookup_ge_None. lia.
Qed.

Lemma zget_elem {A} (l : list A) i x : zget l i = Some x -> x ∈ l.
Proof. unfold zget. destruct (i <? 0); [done|]. apply list_elem_of_lookup_2. Qed.

Lemma zlen_nonneg {A} (l : list A) : 0 <= zlen l.
Proof. unfold zlen. lia. Qed.

#[export] Hint Rewrite @zlen_zset : word.
#[export] Hint Resolve zlen_nonneg : word.

(** ** The page mask *)

(** A mask of bits 12 .. w-1. *)
Lemma land_hi_mask a w : 12 <= w ->
  Z.land a (Z.land (Z.lnot (Z.ones 12)) (Z.ones w)) = wrap w a - a mod 4096.
Proof.
  intros Hw. rewrite (Z.land_comm (Z.lnot _)), Z.land_assoc, (Z.land_ones a w) by lia.
  rewrite land_not_ones by lia. unfold wrap. change (2 ^ 12) with 4096. f_equal.
  replace (2 ^ w) with (4096 * 2 ^ (w - 12))
    by (change 4096 with (2 ^ 12); rewrite <- Z.pow_add_r by lia; f_equal; lia).
  rewrite Z.rem_mul_r by (try apply Z.pow_pos_nonneg; lia).
  rewrite (Z.mul_comm 4096), Z.mod_add by lia. apply Z.mod_mod. lia.
Qed.

Lemma land_PAGE_MASK a : Z.land a PAGE_MASK = wrap 32 a - a mod 4096.
Proof.
  change PAGE_MASK with (Z.land (Z.lnot (Z.ones 12)) (Z.ones 32)).
  apply land_hi_mask. lia.
Qed.

(** Below 4 GiB the mask rounds down to a page boundary. *)
Lemma land_PAGE_MASK_low a : 0 <= a < 2 ^ 32 -> Z.land a PAGE_MASK = a - a mod 4096.
Proof. intros. by rewrite land_PAGE_MASK, wrap_small. Qed.

Lemma PAGE_ROUND_DOWN_low a : 0 <= a < 2 ^ 32 -> PAGE_ROUND_DOWN a = 4096 * (a / 4096).
Proof. intros. unfold PAGE_ROUND_DOWN. rewrite land_PAGE_MASK_low by done. zify_div. Qed.

Lemma PAGE_ROUND_UP_low a :
  0 <= a -> a + 4095 < 2 ^ 32 -> PAGE_ROUND_UP a = 4096 * ((a + 4095) / 4096).
Proof.
  intros. unfold PAGE_ROUND_UP, PAGE_SIZE. rewrite wrap_small by lia.
  rewrite land_PAGE_MASK_low by lia. zify_div.
Qed.
