(* ===== verification/Mem.v ===== *)
(** * Byte-addressed memory

    The representation shared by the components that address memory (frames
    of RAM, 4096-byte disk blocks, C buffers): a memory maps every address to
    a byte in [0, 256).  Loads and stores of 1, 2, 4 and 8 bytes are little
    endian, as on x86-64; [fill] and [blit] are the meaning of a completed
    [memset] and [memcpy]. *)
From S2P Require Import Prelude.

Definition mem : Type := Z -> Z.

(** A memory all of whose cells are bytes. *)
Definition bytes_ok (m : mem) : Prop := forall a, 0 <= m a < 256.

Definition store8 (m : mem) (a v : Z) : mem := fun x => if x =? a then wrap 8 v else m x.

Fixpoint load_le (m : mem) (a : Z) (n : nat) : Z :=
  match n with
  | O => 0
  | S n' => m a + 256 * load_le m (a + 1) n'
  end.

Fixpoint store_le (m : mem) (a : Z) (n : nat) (v : Z) : mem :=
  match n with
  | O => m
  | S n' => store_le (store8 m a v) (a + 1) n' (v / 256)
  end.

Definition load16 (m : mem) (a : Z) : Z := load_le m a 2.
Definition load32 (m : mem) (a : Z) : Z := load_le m a 4.
Definition load64 (m : mem) (a : Z) : Z := load_le m a 8.
Definition store16 (m : mem) (a v : Z) : mem := store_le m a 2 v.
Definition store32 (m : mem) (a v : Z) : mem := store_le m a 4 v.
Definition store64 (m : mem) (a v : Z) : mem := store_le m a 8 v.

(** [memset(a, v, n)] and [memcpy(d, s, n)] once they have run (distinct
    memories for source and destination, so no overlap). *)
Definition fill (m : mem) (a v n : Z) : mem :=
  fun x => if (a <=? x) && (x <? a + n) then wrap 8 v else m x.
Definition blit (dst : mem) (d : Z) (src : mem) (s n : Z) : mem :=
  fun x => if (d <=? x) && (x <? d + n) then src (s + (x - d)) else dst x.

Definition zeros : mem := fun _ => 0.

(** The bytes of a list written from address [a] on. *)
Fixpoint store_list (m : mem) (a : Z) (l : list Z) : mem :=
  match l with
  | [] => m
  | b :: l' => store_list (store8 m a b) (a + 1) l'
  end.

(** The [n] bytes from address [a] on. *)
Fixpoint load_list (m : mem) (a : Z) (n : nat) : list Z :=
  match n with
  | O => []
  | S n' => m a :: load_list m (a + 1) n'
  end.

(** ** Stores and loads *)

Lemma store8_eq m a v : store8 m a v a = wrap 8 v.
Proof. unfold store8. by rewrite Z.eqb_refl. Qed.

Lemma store8_ne m a v x : x <> a -> store8 m a v x = m x.
Proof. unfold store8. intros. by destruct (Z.eqb_spec x a). Qed.

Lemma store_le_out m a n v x : x < a \/ a + Z.of_nat n <= x -> store_le m a n v x = m x.
Proof.
  revert m a v. induction n as [|n IH]; intros m a v H; simpl; [done|].
  rewrite IH by lia. apply store8_ne. lia.
Qed.

Lemma store_le_in m a n v k : 0 <= k < Z.of_nat n ->
  store_le m a n v (a + k) = (v / 256 ^ k) mod 256.
Proof.
  revert m a v k. induction n as [|n IH]; intros m a v k H; simpl; [lia|].
  destruct (Z.eq_dec k 0) as [->|].
  - rewrite store_le_out by lia. rewrite Z.add_0_r, store8_eq. unfold wrap.
    by rewrite Z.pow_0_r, Z.div_1_r.
  - replace (a + k) with (a + 1 + (k - 1)) by lia. rewrite IH by lia.
    rewrite Z.div_div by (try apply Z.pow_pos_nonneg; lia).
    do 2 f_equal. rewrite <- (Z.pow_succ_r 256) by lia. f_equal; lia.
Qed.

Lemma load_le_ext m m' a n :
  (forall x, a <= x < a + Z.of_nat n -> m x = m' x) -> load_le m a n = load_le m' a n.
Proof.
  revert a. induction n as [|n IH]; intros a H; simpl; [done|].
  rewrite (H a), (IH (a + 1)) by (intros; try apply H; lia). done.
Qed.

Lemma load_le_range m a n : bytes_ok m -> 0 <= load_le m a n < 256 ^ Z.of_nat n.
Proof.
  intros Hm. revert a. induction n as [|n IH]; intros a.
  - simpl. lia.
  - rewrite Nat2Z.inj_succ, Z.pow_succ_r by lia. simpl load_le.
    specialize (IH (a + 1)). specialize (Hm a). lia.
Qed.

Lemma load_store_le m a n v : load_le (store_le m a n v) a n = v mod 256 ^ Z.of_nat n.
Proof.
  revert m a v. induction n as [|n IH]; intros m a v.
  - simpl. by rewrite Z.mod_1_r.
  - cbn [load_le store_le]. rewrite IH, store_le_out, store8_eq by lia.
    rewrite Nat2Z.inj_succ, Z.pow_succ_r by lia. unfold wrap.
    rewrite Z.rem_mul_r by (try apply Z.pow_pos_nonneg; lia).
    change (2 ^ 8) with 256. lia.
Qed.

Lemma load_store_le_out m a n v b k :
  b + Z.of_nat k <= a \/ a + Z.of_nat n <= b -> load_le (store_le m a n v) b k = load_le m b k.
Proof. intros. apply load_le_ext. intros. apply store_le_out. lia. Qed.

Lemma load32_store32 m a v : load32 (store32 m a v) a = wrap 32 v.
Proof. apply load_store_le. Qed.
Lemma load64_store64 m a v : load64 (store64 m a v) a = wrap 64 v.
Proof. apply load_store_le. Qed.
Lemma load16_store16 m a v : load16 (store16 m a v) a = wrap 16 v.
Proof. apply load_store_le. Qed.

Lemma load32_store32_out m a v b : b + 4 <= a \/ a + 4 <= b ->
  load32 (store32 m a v) b = load32 m b.
Proof. intros. apply load_store_le_out. lia. Qed.
Lemma load64_store64_out m a v b : b + 8 <= a \/ a + 8 <= b ->
  load64 (store64 m a v) b = load64 m b.
Proof. intros. apply load_store_le_out. lia. Qed.
Lemma load32_store64_out m a v b : b + 4 <= a \/ a + 8 <= b ->
  load32 (store64 m a v) b = load32 m b.
Proof. intros. apply load_store_le_out. lia. Qed.
Lemma load64_store32_out m a v b : b + 8 <= a \/ a + 4 <= b ->
  load64 (store32 m a v) b = load64 m b.
Proof. intros. apply load_store_le_out. lia. Qed.

Lemma load32_range m a : bytes_ok m -> 0 <= load32 m a < 2 ^ 32.
Proof. apply (load_le_range m a 4). Qed.
Lemma load64_range m a : bytes_ok m -> 0 <= load64 m a < 2 ^ 64.
Proof. apply (load_le_range m a 8). Qed.

(** ** [fill], [blit], byte lists *)

Lemma fill_in m a v n x : a <= x < a + n -> fill m a v n x = wrap 8 v.
Proof. unfold fill. intros. by zcases. Qed.
Lemma fill_out m a v n x : x < a \/ a + n <= x -> fill m a v n x = m x.
Proof. unfold fill. intros. by zcases. Qed.
Lemma blit_in d a s b n x : a <= x < a + n -> blit d a s b n x = s (b + (x - a)).
Proof. unfold blit. intros. by zcases. Qed.
Lemma blit_out d a s b n x : x < a \/ a + n <= x -> blit d a s b n x = d x.
Proof. unfold blit. intros. by zcases. Qed.

Lemma load_fill0 m a n b k : a <= b -> b + Z.of_nat k <= a + n -> load_le (fill m a 0 n) b k = 0.
Proof.
  intros Ha. revert b Ha. induction k as [|k IH]; intros b Ha Hb; simpl; [done|].
  rewrite fill_in, IH by lia. done.
Qed.

Lemma load_fill_out m a v n b k :
  b + Z.of_nat k <= a \/ a + n <= b -> load_le (fill m a v n) b k = load_le m b k.
Proof. intros. apply load_le_ext. intros. apply fill_out. lia. Qed.

Lemma load_blit_out d a s b n c k :
  c + Z.of_nat k <= a \/ a + n <= c -> load_le (blit d a s b n) c k = load_le d c k.
Proof. intros. apply load_le_ext. intros. apply blit_out. lia. Qed.

Lemma load_zeros a k : load_le zeros a k = 0.
Proof. revert a. induction k as [|k IH]; intros a; simpl; [done|]. by rewrite IH. Qed.

Lemma store_list_out m a l x : x < a \/ a + zlen l <= x -> store_list m a l x = m x.
Proof.
  unfold zlen. revert m a. induction l as [|b l IH]; intros m a H; simpl in *; [done|].
  rewrite IH by lia. apply store8_ne. lia.
Qed.

Lemma store_list_in m a l k b : zget l k = Some b -> store_list m a l (a + k) = wrap 8 b.
Proof.
  revert m a k. induction l as [|c l IH]; intros m a k H; simpl.
  - apply zget_Some_range in H. unfold zlen in H. simpl in H. lia.
  - pose proof (zget_Some_range _ _ _ H). unfold zget in H. destruct (Z.ltb_spec k 0); [done|].
    destruct (Z.eq_dec k 0) as [->|].
    + simpl in H. injection H as ->. rewrite store_list_out by (unfold zlen; lia).
      rewrite Z.add_0_r. apply store8_eq.
    + replace (a + k) with (a + 1 + (k - 1)) by lia. apply IH.
      unfold zget. destruct (Z.ltb_spec (k - 1) 0); [lia|].
      replace (Z.to_nat k) with (S (Z.to_nat (k - 1))) in H by lia. done.
Qed.

Lemma load_list_ext m m' a n :
  (forall x, a <= x < a + Z.of_nat n -> m x = m' x) -> load_list m a n = load_list m' a n.
Proof.
  revert a. induction n as [|n IH]; intros a H; simpl; [done|].
  rewrite (H a), (IH (a + 1)) by (intros; try apply H; lia). done.
Qed.

Lemma load_store_list m a l :
  Forall (fun b => 0 <= b < 256) l -> load_list (store_list m a l) a (length l) = l.
Proof.
  intros Hl. revert m a. induction Hl as [|b l Hb Hl IH]; intros m a; simpl; [done|].
  rewrite IH. f_equal. rewrite store_list_out by (unfold zlen; lia).
  rewrite store8_eq. apply wrap_small. lia.
Qed.

Lemma length_load_list m a n : length (load_list m a n) = n.
Proof. revert a. induction n as [|n IH]; intros a; simpl; [done|]. by rewrite IH. Qed.

Lemma load_list_app m a n k :
  load_list m a (n + k) = load_list m a n ++ load_list m (a + Z.of_nat n) k.
Proof.
  revert a. induction n as [|n IH]; intros a; simpl.
  - f_equal. lia.
  - rewrite IH. do 3 f_equal. lia.
Qed.

Lemma bytes_ok_zeros : bytes_ok zeros.
Proof. intros a. unfold zeros. lia. Qed.
Lemma bytes_ok_store8 m a v : bytes_ok m -> bytes_ok (store8 m a v).
Proof.
  intros Hm x. unfold store8. destruct (x =? a); [|apply Hm].
  by apply (wrap_range 8).
Qed.
Lemma bytes_ok_store_le m a n v : bytes_ok m -> bytes_ok (store_le m a n v).
Proof.
  revert m a v. induction n as [|n IH]; intros m a v Hm; simpl; [done|].
  by apply IH, bytes_ok_store8.
Qed.
Lemma bytes_ok_store_list m a l : bytes_ok m -> bytes_ok (store_list m a l).
Proof.
  revert m a. induction l as [|b l IH]; intros m a Hm; simpl; [done|].
  by apply IH, bytes_ok_store8.
Qed.
Lemma bytes_ok_fill m a v n : bytes_ok m -> bytes_ok (fill m a v n).
Proof.
  intros Hm x. unfold fill. destruct (_ && _); [|apply Hm].
  by apply (wrap_range 8).
Qed.
Lemma bytes_ok_blit d a s b n : bytes_ok d -> bytes_ok s -> bytes_ok (blit d a s b n).
Proof. intros Hd Hs x. unfold blit. destruct (_ && _); auto. Qed.

#[export] Hint Resolve bytes_ok_zeros bytes_ok_store8 bytes_ok_store_le bytes_ok_store_list
  bytes_ok_fill
  bytes_ok_blit : word.
