(* ===== verification/PhysMem.v ===== *)
(** * The physical page allocator (kernel/src/mem/mem.c)

    Free pages are on two lists: [freepages], an intrusive list threaded
    through the pages themselves, and [regions], the ranges of physical
    memory no page has been carved from yet.  The state keeps the intrusive
    list as the code does, a head pointer and the memory the links live in;
    [chain] relates it to the list of addresses it denotes.

    Not modelled: the log output of [init_mem]; the [freepages_lock] and
    [regions_lock] pairs, which every operation releases before it returns
    (Spinlock.v models locking); the nodes of the [regions] list are values
    of an ordered list and not addresses of the static pool. *)
From S2P Require Import Prelude Mem.

(** ** State *)

(** [struct mem_region] without its link. *)
Record mem_region := MkRegion { phys_cur : Z; phys_end : Z }.

Record pmem := MkPmem {
  ram : mem;
  freepages : Z;
  regions : list mem_region;
  static_region_pool_idx : Z;
  mem_initialized : bool;
  hhdm_offset : Z;
  phys_max_end : Z
}.

Definition STATIC_REGION_POOL_SIZE : Z := 32.

(** The state at boot: static data is zero. *)
Definition pmem_boot (m : mem) : pmem := MkPmem m 0 [] 0 false 0 0.

Definition set_ram (s : pmem) (m : mem) : pmem :=
  MkPmem m (freepages s) (regions s) (static_region_pool_idx s) (mem_initialized s)
    (hhdm_offset s) (phys_max_end s).
Definition set_freepages (s : pmem) (p : Z) : pmem :=
  MkPmem (ram s) p (regions s) (static_region_pool_idx s) (mem_initialized s)
    (hhdm_offset s) (phys_max_end s).
Definition set_regions (s : pmem) (rs : list mem_region) : pmem :=
  MkPmem (ram s) (freepages s) rs (static_region_pool_idx s) (mem_initialized s)
    (hhdm_offset s) (phys_max_end s).

(** ** Operations *)

(** [V2P] and [P2V] of mem.h. *)
Definition V2P (s : pmem) (ptr : Z) : Z := wrap 64 (ptr - hhdm_offset s).
Definition P2V (s : pmem) (ptr : Z) : Z := wrap 64 (ptr + hhdm_offset s).

Definition phys_addr_valid (s : pmem) (pa : Z) : bool :=
  (pa <? phys_max_end s) && (pa mod PAGE_SIZE =? 0).

Definition push_free_page (page : Z) (s : pmem) : pmem :=
  set_freepages (set_ram s (store64 (ram s) page (freepages s))) page.

Definition pop_free_page (s : pmem) : Z * pmem :=
  if freepages s =? 0 then (0, s)
  else (freepages s, set_freepages s (load64 (ram s) (freepages s))).

(** Carve one page off the first region that has one. *)
Fixpoint carve_page (rs : list mem_region) : option (Z * list mem_region) :=
  match rs with
  | [] => None
  | it :: rest =>
      if phys_cur it <? phys_end it then
        let cur' := wrap 64 (phys_cur it + PAGE_SIZE) in
        Some (phys_cur it,
              if phys_end it <=? cur' then rest else MkRegion cur' (phys_end it) :: rest)
      else match carve_page rest with
           | Some (p, rest') => Some (p, it :: rest')
           | None => None
           end
  end.

Definition alloc_from_regions_for_page_cache (s : pmem) : Z * pmem :=
  match carve_page (regions s) with
  | Some (phys, rs) => (P2V s phys, set_regions s rs)
  | None => (0, s)
  end.

Definition kalloc (s : pmem) : Z * pmem :=
  let '(page, s1) := pop_free_page s in
  if truth page then (page, set_ram s1 (fill (ram s1) page 0 PAGE_SIZE))
  else
    let '(page2, s2) := alloc_from_regions_for_page_cache s1 in
    if page2 =? 0 then (0, s2)
    else (page2, set_ram s2 (fill (ram s2) page2 2 PAGE_SIZE)).

Definition kalloc_for_page_cache (s : pmem) : Z * pmem :=
  let '(page, s1) := pop_free_page s in
  if truth page then (page, s1) else alloc_from_regions_for_page_cache s1.

Definition kcalloc (s : pmem) : Z * pmem :=
  let '(page, s1) := pop_free_page s in
  if truth page then (page, set_ram s1 (fill (ram s1) page 0 PAGE_SIZE))
  else
    let '(page2, s2) := alloc_from_regions_for_page_cache s1 in
    if page2 =? 0 then (0, s2)
    else (page2, set_ram s2 (fill (ram s2) page2 0 PAGE_SIZE)).

(** [append_region]: 0 on success, -1 when the static pool is exhausted. *)
Definition append_region (phys_start phys_end : Z) (s : pmem) : Z * pmem :=
  if phys_end <=? phys_start then (0, s)
  else
    let '(r, s1) := if mem_initialized s && truth (freepages s)
                    then kalloc_for_page_cache s else (0, s) in
    let node := MkRegion phys_start phys_end in
    if r =? 0 then
      if STATIC_REGION_POOL_SIZE <=? static_region_pool_idx s1 then (-1, s1)
      else (0, MkPmem (ram s1) (freepages s1) (regions s1 ++ [node])
                 (static_region_pool_idx s1 + 1) (mem_initialized s1) (hhdm_offset s1)
                 (phys_max_end s1))
    else
      (0, set_regions
            (set_ram s1 (store64 (store64 (store64 (ram s1) r phys_start)
                                    (r + 8) phys_end) (r + 16) 0))
            (regions s1 ++ [node])).

(** [struct limine_memmap_entry]. *)
Record memmap_entry := MkEntry { entry_base : Z; entry_length : Z; entry_type : Z }.
Definition LIMINE_MEMMAP_USABLE : Z := 0.

(** One iteration of the loop of [init_mem] over the memory map. *)
Definition init_mem_entry (s : pmem) (e : option memmap_entry) : outcome pmem :=
  match e with
  | None => Ret s
  | Some entry =>
      let top := wrap 64 (entry_base entry + entry_length entry) in
      let s := if phys_max_end s <? top
               then MkPmem (ram s) (freepages s) (regions s) (static_region_pool_idx s)
                      (mem_initialized s) (hhdm_offset s) top
               else s in
      if negb (entry_type entry =? LIMINE_MEMMAP_USABLE) then Ret s
      else if entry_length entry <? PAGE_SIZE then Ret s
      else
        let aligned_base := Z.land (wrap 64 (entry_base entry + PAGE_SIZE - 1)) PAGE_MASK in
        let end_ := Z.land top PAGE_MASK in
        if end_ <=? aligned_base then Ret s
        else
          let '(result, s') := append_region aligned_base end_ s in
          if truth result then Panic "init_mem: failed to register memory region"
          else Ret s'
  end.

Definition init_mem (hhdm_offset_local : Z) (memory_map : option (list (option memmap_entry)))
    (s : pmem) : outcome pmem :=
  if mem_initialized s then Ret s
  else
    match memory_map with
    | None => Panic "init_mem: null memory_map"
    | Some entries =>
        let s1 := MkPmem (ram s) (freepages s) (regions s) (static_region_pool_idx s)
                    (mem_initialized s) hhdm_offset_local (phys_max_end s) in
        s2 ← for_list init_mem_entry entries s1;
        Ret (MkPmem (ram s2) (freepages s2) (regions s2) (static_region_pool_idx s2)
               true (hhdm_offset s2) (phys_max_end s2))
    end.

(** [kfree] as built without [DEBUG]. *)
Definition kfree (page : Z) (s : pmem) : outcome pmem :=
  if page =? 0 then Ret s
  else if truth (Z.land page (PAGE_SIZE - 1)) then Panic "kfree: unaligned page"
  else if truth (Z.land (V2P s page) (PAGE_SIZE - 1))
       then Panic "kfree: V2P produced unaligned phys"
  else Ret (push_free_page page s).

(** *** Multi-page allocation *)

(** The [while] loop of [alloc_contiguous_from_regions]: the first region
    with [bytes_needed] bytes. *)
Fixpoint carve_bytes (bytes_needed : Z) (rs : list mem_region) : option (Z * list mem_region) :=
  match rs with
  | [] => None
  | it :: rest =>
      let avail := wrap 64 (phys_end it - phys_cur it) in
      if bytes_needed <=? avail then
        let cur' := wrap 64 (phys_cur it + bytes_needed) in
        Some (phys_cur it,
              if phys_end it <=? cur' then rest else MkRegion cur' (phys_end it) :: rest)
      else match carve_bytes bytes_needed rest with
           | Some (p, rest') => Some (p, it :: rest')
           | None => None
           end
  end.

Definition alloc_contiguous_from_regions (num_pages : Z) (s : pmem) : Z * pmem :=
  if num_pages =? 0 then (0, s)
  else match carve_bytes (wrap 64 (num_pages * PAGE_SIZE)) (regions s) with
       | Some (phys, rs) => (P2V s phys, set_regions s rs)
       | None => (0, s)
       end.

(** The inner [for] loop: [k] iterations are left, the next one is number
    [i]; the result is [found] and [scan]. *)
Fixpoint scan_run (s : pmem) (base_phys : Z) (k : nat) (i scan : Z) : bool * Z :=
  match k with
  | O => (true, scan)
  | S k' =>
      if scan =? 0 then (true, scan)
      else
        let next := load64 (ram s) scan in
        if next =? 0 then (false, scan)
        else if negb (wrap 64 (base_phys + i * PAGE_SIZE) =? V2P s next) then (false, scan)
        else scan_run s base_phys k' (i + 1) next
  end.

(** The outer [while] loop, one unit of fuel per iteration. *)
Fixpoint find_run (fuel : nat) (num_pages prev it : Z) (s : pmem) : outcome (Z * pmem) :=
  match fuel with
  | O => NoFuel
  | S fuel' =>
      if it =? 0 then Ret (0, s)
      else
        let '(found, scan) := scan_run s (V2P s it) (Z.to_nat (num_pages - 1)) 1 it in
        if found && truth scan then
          let after := load64 (ram s) scan in
          Ret (it, if truth prev then set_ram s (store64 (ram s) prev after)
                   else set_freepages s after)
        else find_run fuel' num_pages it (load64 (ram s) it) s
  end.

Definition alloc_contiguous_from_freelist (fuel : nat) (num_pages : Z) (s : pmem)
    : outcome (Z * pmem) :=
  if num_pages <=? 1 then Ret (0, s) else find_run fuel num_pages 0 (freepages s) s.

Definition kalloc_pages (fuel : nat) (num_pages : Z) (s : pmem) : outcome (Z * pmem) :=
  if num_pages =? 0 then Ret (0, s)
  else if num_pages =? 1 then Ret (kalloc s)
  else
    '(pages, s1) ← alloc_contiguous_from_freelist fuel num_pages s;
    let bytes := wrap 64 (num_pages * PAGE_SIZE) in
    if truth pages then Ret (pages, set_ram s1 (fill (ram s1) pages 2 bytes))
    else
      let '(pages2, s2) := alloc_contiguous_from_regions num_pages s1 in
      if truth pages2 then Ret (pages2, set_ram s2 (fill (ram s2) pages2 2 bytes))
      else Ret (0, s2).

Definition kfree_pages (ptr num_pages : Z) (s : pmem) : outcome pmem :=
  if (ptr =? 0) || (num_pages =? 0) then Ret s
  else if truth (Z.land ptr (PAGE_SIZE - 1)) then Panic "kfree_pages: unaligned pointer"
  else for_list (fun s i => kfree (wrap 64 (ptr + i * PAGE_SIZE)) s) (seqZ 0 num_pages) s.

(** ** The pages a state can hand out *)

(** [chain m h l]: following the links of [m] from [h] visits exactly [l]. *)
Inductive chain (m : mem) : Z -> list Z -> Prop :=
| chain_nil : chain m 0 []
| chain_cons p l : p <> 0 -> chain m (load64 m p) l -> chain m p (p :: l).

(** The virtual addresses of the pages of a region, lowest first. *)
Definition region_pages (off : Z) (r : mem_region) : list Z :=
  (fun i => off + phys_cur r + 4096 * i) <$> seqZ 0 ((phys_end r - phys_cur r) / 4096).

Definition regions_pages (s : pmem) : list Z :=
  concat (map (region_pages (hhdm_offset s)) (regions s)).

(** A page frame of the direct map: aligned, not null, and a 64-bit address. *)
Definition is_page (p : Z) : Prop := 0 < p /\ p + 4096 <= 2 ^ 64 /\ p mod 4096 = 0.

Definition region_ok (off : Z) (r : mem_region) : Prop :=
  0 <= phys_cur r < phys_end r /\ phys_end r < 2 ^ 64 /\ 0 < off + phys_cur r /\ off + phys_end r <= 2 ^ 64 /\
  phys_cur r mod 4096 = 0 /\ phys_end r mod 4096 = 0 /\ off mod 4096 = 0 /\ 0 <= off.

(** The allocator's invariant, with the list [l] its free list denotes. *)
Record pmem_wf (s : pmem) (l : list Z) : Prop := {
  wf_chain : chain (ram s) (freepages s) l;
  wf_pages : Forall is_page l;
  wf_regions : Forall (region_ok (hhdm_offset s)) (regions s);
  wf_off : 0 <= hhdm_offset s < 2 ^ 64 /\ hhdm_offset s mod 4096 = 0;
  wf_nodup : NoDup (l ++ regions_pages s)
}.

(** Every page the allocator can still hand out. *)
Definition avail (s : pmem) (l : list Z) : list Z := l ++ regions_pages s.

(** [n] consecutive pages from [p] on. *)
Definition pages_from (p n : Z) : list Z := (fun i => p + 4096 * i) <$> seqZ 0 n.

(** ** Lemmas on pages and chains *)

Lemma pages_disjoint p q :
  p mod 4096 = 0 -> q mod 4096 = 0 -> p <> q -> p + 4096 <= q \/ q + 4096 <= p.
Proof. intros. zify_div. Qed.

Lemma pages_from_nil p n : n <= 0 -> pages_from p n = [].
Proof. intros. unfold pages_from. by rewrite seqZ_nil. Qed.

Lemma pages_from_app p n k : 0 <= n -> 0 <= k ->
  pages_from p (n + k) = pages_from p n ++ pages_from (p + 4096 * n) k.
Proof.
  intros. unfold pages_from. rewrite seqZ_app by lia. rewrite fmap_app. f_equal.
  rewrite Z.add_comm, <- fmap_add_seqZ, <- list_fmap_compose.
  apply list_fmap_ext. intros. simpl. lia.
Qed.

Lemma pages_from_1 p : pages_from p 1 = [p].
Proof. unfold pages_from. simpl. f_equal. lia. Qed.

Lemma pages_from_S p n : 0 <= n -> pages_from p (n + 1) = pages_from p n ++ [p + 4096 * n].
Proof. intros. rewrite pages_from_app by lia. by rewrite pages_from_1. Qed.

Lemma pages_from_cons p n : 0 < n -> pages_from p n = p :: pages_from (p + 4096) (n - 1).
Proof.
  intros. replace n with (1 + (n - 1)) at 1 by lia. rewrite pages_from_app by lia.
  rewrite pages_from_1. simpl. do 2 f_equal.
Qed.

Lemma elem_of_pages_from x p n : x ∈ pages_from p n <-> exists i, 0 <= i < n /\ x = p + 4096 * i.
Proof.
  unfold pages_from. rewrite list_elem_of_fmap. split.
  - intros (i & -> & Hi%elem_of_seqZ). exists i. lia.
  - intros (i & Hi & ->). exists i. split; [done|]. apply elem_of_seqZ. lia.
Qed.

Lemma region_pages_from off r :
  region_pages off r = pages_from (off + phys_cur r) ((phys_end r - phys_cur r) / 4096).
Proof. done. Qed.

(** Splitting the first [n] pages off a region. *)
Lemma region_pages_split off c e n : 0 <= n -> c + 4096 * n <= e ->
  region_pages off (MkRegion c e) =
  pages_from (off + c) n ++ region_pages off (MkRegion (c + 4096 * n) e).
Proof.
  intros. rewrite !region_pages_from. simpl.
  replace ((e - c) / 4096) with (n + (e - (c + 4096 * n)) / 4096) by zify_div.
  rewrite pages_from_app by zify_div. do 2 f_equal. lia.
Qed.

Lemma region_pages_done off c e : e <= c -> region_pages off (MkRegion c e) = [].
Proof. intros. rewrite region_pages_from. apply pages_from_nil. simpl. zify_div. Qed.

Lemma region_pages_is_page off r : region_ok off r -> Forall is_page (region_pages off r).
Proof.
  intros (? & ? & ? & ? & ? & ? & ? & ?). apply Forall_forall. intros x Hx.
  rewrite region_pages_from, elem_of_pages_from in Hx. destruct Hx as (i & Hi & ->).
  unfold is_page. split_and!; zify_div.
Qed.

Lemma chain_ext m m' h l :
  chain m h l -> (forall p, p ∈ l -> load64 m' p = load64 m p) -> chain m' h l.
Proof.
  induction 1 as [|p l Hp Hc IH]; intros E; constructor; [done|].
  rewrite E by (by left). apply IH. intros. apply E. by right.
Qed.

Lemma chain_fun m h l l' : chain m h l -> chain m h l' -> l = l'.
Proof.
  intros H. revert l'. induction H as [|p l Hp Hc IH]; intros l' H'; inversion H'; subst;
    try done. f_equal. by apply IH.
Qed.

Lemma chain_head_0 m l : chain m 0 l -> l = [].
Proof. by inversion 1. Qed.

(** Writing inside one page leaves a chain of other pages alone. *)
Lemma chain_off_page m m' h l p :
  chain m h l -> Forall is_page l -> p mod 4096 = 0 -> p ∉ l ->
  (forall x, x < p \/ p + 4096 <= x -> m' x = m x) -> chain m' h l.
Proof.
  intros Hc Hl Hp Hn E. eapply chain_ext; [exact Hc|]. intros q Hq.
  rewrite Forall_forall in Hl. destruct (Hl q Hq) as (? & ? & ?).
  destruct (pages_disjoint p q) as [|]; [done|done|by intros ->| |];
    apply load_le_ext; intros; apply E; lia.
Qed.

Lemma chain_fill m h l p v :
  chain m h l -> Forall is_page l -> p mod 4096 = 0 -> p ∉ l -> chain (fill m p v 4096) h l.
Proof. intros. eapply chain_off_page; eauto. intros. apply fill_out. lia. Qed.

Lemma chain_store m h l p v :
  chain m h l -> Forall is_page l -> p mod 4096 = 0 -> p ∉ l -> chain (store64 m p v) h l.
Proof. intros. eapply chain_off_page; eauto. intros. apply store_le_out. lia. Qed.

Lemma P2V_small s phys :
  0 <= hhdm_offset s + phys < 2 ^ 64 -> P2V s phys = hhdm_offset s + phys.
Proof. intros. unfold P2V. rewrite wrap_small; lia. Qed.

(** ** The region allocators *)

Lemma carve_bytes_spec off n rs : 0 < n < 2 ^ 52 -> Forall (region_ok off) rs ->
  match carve_bytes (wrap 64 (n * PAGE_SIZE)) rs with
  | None => Forall (fun r => phys_end r - phys_cur r < 4096 * n) rs
  | Some (phys, rs') =>
      concat (map (region_pages off) rs) ≡ₚ
        pages_from (off + phys) n ++ concat (map (region_pages off) rs') /\
      Forall (region_ok off) rs' /\ 0 <= phys /\ 0 < off + phys /\
      off + phys + 4096 * n <= 2 ^ 64 /\ (off + phys) mod 4096 = 0
  end.
Proof.
  intros Hn Hrs. unfold PAGE_SIZE. rewrite wrap_small by lia.
  induction Hrs as [|[c e] rs Hr Hrs IH]; simpl; [done|].
  destruct Hr as (H1 & H0 & H2 & H3 & H4 & H5 & H6 & H7). simpl in *.
  rewrite (wrap_small 64 (e - c)) by lia.
  destruct (Z.leb_spec (n * 4096) (e - c)).
  - rewrite (wrap_small 64) by lia. rewrite (region_pages_split off c e n) by lia.
    replace (c + n * 4096) with (c + 4096 * n) by lia.
    split_and!; try lia; [| |zify_div].
    + destruct (Z.leb_spec e (c + 4096 * n)).
      * by rewrite region_pages_done, app_nil_r by lia.
      * simpl. by rewrite app_assoc.
    + destruct (Z.leb_spec e (c + 4096 * n)); [done|]. constructor; [|done].
      unfold region_ok; simpl. split_and!; zify_div.
  - destruct (carve_bytes (n * 4096) rs) as [[p rs']|].
    + destruct IH as (IH & ? & ?). split_and!; try lia; try tauto.
      * simpl. rewrite IH. rewrite Permutation_app_swap_app. done.
      * constructor; [|done]. unfold region_ok; simpl; lia.
    + constructor; [simpl; lia|done].
Qed.

Lemma carve_page_bytes off rs : Forall (region_ok off) rs ->
  carve_page rs = carve_bytes (wrap 64 (1 * PAGE_SIZE)) rs.
Proof.
  unfold PAGE_SIZE. rewrite wrap_small by lia.
  induction 1 as [|[c e] rs Hr Hrs IH]; simpl; [done|].
  destruct Hr as (H1 & H0 & H2 & H3 & H4 & H5 & H6 & H7). simpl in *.
  rewrite (wrap_small 64 (e - c)) by lia. rewrite Z.mul_1_l in *. unfold PAGE_SIZE.
  rewrite IH. destruct (Z.ltb_spec c e); [|lia].
  destruct (Z.leb_spec 4096 (e - c)); [done|]. exfalso. zify_div.
Qed.

Lemma carve_page_spec off rs : Forall (region_ok off) rs ->
  match carve_page rs with
  | None => rs = []
  | Some (phys, rs') =>
      concat (map (region_pages off) rs) ≡ₚ
        (off + phys) :: concat (map (region_pages off) rs') /\
      Forall (region_ok off) rs' /\ 0 <= phys /\ is_page (off + phys)
  end.
Proof.
  intros H. rewrite (carve_page_bytes off) by done.
  pose proof (carve_bytes_spec off 1 rs ltac:(lia) H) as S.
  destruct (carve_bytes _ rs) as [[p rs']|].
  - rewrite pages_from_1 in S. destruct S as (? & ? & ? & ? & ? & ?).
    split_and!; try done; lia.
  - inversion S as [|[c e] ? Hr]; [done|]. subst.
    inversion H as [|? ? Hok]; subst. destruct Hok as (? & ? & ? & ? & ? & ? & ? & ?).
    simpl in *. exfalso. zify_div.
Qed.

Lemma alloc_from_regions_spec s l : pmem_wf s l ->
  let '(p, s') := alloc_from_regions_for_page_cache s in
  (p = 0 /\ s' = s /\ regions s = []) \/
  (is_page p /\ pmem_wf s' l /\ (avail s l ≡ₚ p :: avail s' l) /\
   freepages s' = freepages s /\ ram s' = ram s).
Proof.
  intros [Hc Hp Hr Ho Hn]. unfold alloc_from_regions_for_page_cache.
  pose proof (carve_page_spec _ _ Hr) as S.
  destruct (carve_page (regions s)) as [[phys rs]|]; [|by left].
  destruct S as (HP & Hrs & Hphys & Hpg). right.
  assert (P2V s phys = hhdm_offset s + phys) as -> by (apply P2V_small; destruct Hpg; lia).
  assert (avail s l ≡ₚ ((hhdm_offset s + phys) :: avail (set_regions s rs) l)) as HA.
  { unfold avail, regions_pages. simpl. rewrite HP. by rewrite Permutation_middle. }
  split_and!; try done. constructor; try done. simpl.
  unfold avail in HA. rewrite HA in Hn. by apply NoDup_cons in Hn as [_ ?].
Qed.

Lemma pop_free_page_spec s l : pmem_wf s l ->
  match pop_free_page s with
  | (p, s') =>
      (p = 0 /\ s' = s /\ l = []) \/
      (exists l', l = p :: l' /\ is_page p /\ pmem_wf s' l' /\ regions s' = regions s /\
         ram s' = ram s /\ hhdm_offset s' = hhdm_offset s)
  end.
Proof.
  intros [Hc Hp Hr Ho Hn]. unfold pop_free_page.
  destruct (Z.eqb_spec (freepages s) 0) as [E|E].
  - left. rewrite E in Hc. by apply chain_head_0 in Hc.
  - right. inversion Hc as [|q l' Hq Hc' E1]; subst; [congruence|].
    exists l'. inversion Hp; subst. split_and!; try done.
    constructor; try done. simpl in Hn. by apply NoDup_cons in Hn as [_ ?].
Qed.

(** Overwriting a page that is not available keeps the invariant. *)
Lemma pmem_wf_fill s l p v : pmem_wf s l -> p mod 4096 = 0 -> p ∉ l ->
  pmem_wf (set_ram s (fill (ram s) p v 4096)) l.
Proof.
  intros [Hc Hp Hr Ho Hn] Hpg Hnot. constructor; try done. by apply chain_fill.
Qed.

Lemma avail_head_fresh s l s' l' p : pmem_wf s l -> avail s l ≡ₚ (p :: avail s' l') ->
  p ∉ l' /\ p ∉ avail s' l'.
Proof.
  intros [_ _ _ _ Hn] HA. unfold avail in HA at 1. rewrite HA in Hn.
  apply NoDup_cons in Hn as [Hn _]. split; [|done]. intros ?. apply Hn.
  unfold avail. apply elem_of_app. by left.
Qed.

(** The contract every single-page allocator meets: [p] is null only when
    nothing is available and then nothing changes; otherwise [p] is an
    available page, it stops being available, and memory outside of it does
    not change. *)
Definition alloc_page_post (s : pmem) (l : list Z) (p : Z) (s' : pmem) : Prop :=
  (p = 0 /\ s' = s /\ avail s l = []) \/
  (is_page p /\ exists l', pmem_wf s' l' /\ avail s l ≡ₚ (p :: avail s' l') /\
     (forall x, x < p \/ p + 4096 <= x -> ram s' x = ram s x)).

(** The body [kalloc] and [kcalloc] share: pop a page and fill it with [v1],
    else carve a page and fill it with [v2]. *)
Lemma alloc_page_filled s l v1 v2 : pmem_wf s l ->
  let '(p, s') :=
    (let '(page, s1) := pop_free_page s in
     if truth page then (page, set_ram s1 (fill (ram s1) page v1 PAGE_SIZE))
     else let '(page2, s2) := alloc_from_regions_for_page_cache s1 in
          if page2 =? 0 then (0, s2)
          else (page2, set_ram s2 (fill (ram s2) page2 v2 PAGE_SIZE))) in
  alloc_page_post s l p s' /\
  (p <> 0 -> forall x, p <= x < p + 4096 ->
     ram s' x = wrap 8 (if truth (freepages s) then v1 else v2)).
Proof.
  intros Hwf. pose proof (pop_free_page_spec s l Hwf) as HP.
  unfold pop_free_page in *. unfold truth, PAGE_SIZE.
  destruct (Z.eqb_spec (freepages s) 0) as [E|E].
  - destruct HP as [(_ & _ & ->)|(l' & -> & [] & _)]; [|lia]. simpl.
    pose proof (alloc_from_regions_spec s [] Hwf) as HR.
    destruct (alloc_from_regions_for_page_cache s) as [p s'].
    destruct HR as [(-> & -> & HR)|(Hpg & Hwf' & HA & HF & HM)].
    + split; [|done]. left. split_and!; try done. unfold avail, regions_pages. by rewrite HR.
    + destruct (Z.eqb_spec p 0) as [->|]; [by destruct Hpg|]. split.
      * right. split; [done|]. exists []. split_and!.
        -- apply pmem_wf_fill; [done|apply Hpg|apply not_elem_of_nil].
        -- done.
        -- intros. simpl. rewrite fill_out by lia. by rewrite HM.
      * intros _ x Hx. simpl. by rewrite fill_in by lia.
  - destruct HP as [(? & _)|(l' & -> & Hpg & Hwf' & HR & HM & HO)]; [done|].
    destruct (Z.eqb_spec (freepages s) 0); [done|]. simpl. split.
    + right. split; [done|]. exists l'. split_and!.
      * apply (pmem_wf_fill (set_freepages s _)); [done|apply Hpg|]. destruct Hwf as [_ _ _ _ Hn].
        simpl in Hn. apply NoDup_cons in Hn as [Hn _]. intros ?. apply Hn.
        apply elem_of_app. by left.
      * done.
      * intros. simpl. by rewrite fill_out by lia.
    + intros _ x Hx. simpl. by rewrite fill_in by lia.
Qed.

(** ** Properties of the single-page operations *)

Lemma kalloc_spec s l : pmem_wf s l ->
  let '(p, s') := kalloc s in
  alloc_page_post s l p s' /\
  (p <> 0 -> forall x, p <= x < p + 4096 -> ram s' x = if truth (freepages s) then 0 else 2).
Proof.
  intros Hwf. pose proof (alloc_page_filled s l 0 2 Hwf) as H. unfold kalloc.
  destruct (pop_free_page s) as [page s1].
  destruct (truth page); [|destruct (alloc_from_regions_for_page_cache s1) as [page2 s2];
    destruct (page2 =? 0)];
    (destruct H as [? H]; split; [done|]; intros Hp x Hx; rewrite (H Hp x Hx);
     by destruct (truth (freepages s))).
Qed.

(** C7: [kalloc] hands out a page exactly once: null only when no page is
    available (and then the state is unchanged), otherwise the returned page
    was available, no longer is, the invariant is kept, no other page is
    written, and the page is uniformly 0 (recycled) or 2 (fresh). *)
Theorem kalloc_correct s l : pmem_wf s l ->
  let '(p, s') := kalloc s in
  alloc_page_post s l p s' /\
  (p <> 0 -> forall x, p <= x < p + 4096 -> ram s' x = if truth (freepages s) then 0 else 2).
Proof. apply kalloc_spec. Qed.

(** [kcalloc] meets the same contract and always clears the page. *)
Theorem kcalloc_correct s l : pmem_wf s l ->
  let '(p, s') := kcalloc s in
  alloc_page_post s l p s' /\ (p <> 0 -> forall x, p <= x < p + 4096 -> ram s' x = 0).
Proof.
  intros Hwf. pose proof (alloc_page_filled s l 0 0 Hwf) as H. unfold kcalloc.
  destruct (pop_free_page s) as [page s1].
  destruct (truth page); [|destruct (alloc_from_regions_for_page_cache s1) as [page2 s2];
    destruct (page2 =? 0)];
    (destruct H as [? H]; split; [done|]; intros Hp x Hx; rewrite (H Hp x Hx);
     by destruct (truth (freepages s))).
Qed.

Lemma land_4095 p : Z.land p (PAGE_SIZE - 1) = p mod 4096.
Proof. change (PAGE_SIZE - 1) with (Z.ones 12). by rewrite Z.land_ones by lia. Qed.

Lemma V2P_aligned s p : hhdm_offset s mod 4096 = 0 -> p mod 4096 = 0 -> V2P s p mod 4096 = 0.
Proof.
  intros. unfold V2P, wrap. change (2 ^ 64) with (4096 * 2 ^ 52).
  rewrite Z.rem_mul_r by lia. rewrite (Z.mul_comm 4096), Z.mod_add, Z.mod_mod by lia.
  zify_div.
Qed.

(** [kfree] makes a page available again, and the page it frees is the next
    one [kalloc] returns. *)
Theorem kfree_correct s l p : pmem_wf s l -> is_page p -> p ∉ avail s l ->
  exists s', kfree p s = Ret s' /\ pmem_wf s' (p :: l) /\
    avail s' (p :: l) = p :: avail s l /\ fst (kalloc s') = p /\
    (forall x, x < p \/ p + 8 <= x -> ram s' x = ram s x) /\
    regions s' = regions s /\ hhdm_offset s' = hhdm_offset s.
Proof.
  intros [Hc Hp Hr [Ho1 Ho2] Hn] (Hp1 & Hp2 & Hp3) Hnot.
  exists (push_free_page p s). unfold kfree.
  destruct (Z.eqb_spec p 0); [lia|]. rewrite !land_4095, Hp3, V2P_aligned by done. simpl.
  split; [done|]. split.
  { constructor; simpl; try done.
    - constructor; [lia|]. rewrite load64_store64, wrap_small.
      + apply chain_store; try done. intros ?. apply Hnot. apply elem_of_app. by left.
      + inversion Hc as [|q ? ? ? E]; subst; [lia|]. inversion Hp as [|? ? Hq]; subst.
        destruct Hq; lia.
    - by constructor.
    - by apply NoDup_cons. }
  split; [done|]. split.
  - unfold kalloc, pop_free_page. simpl. destruct (Z.eqb_spec p 0); [lia|].
    unfold truth. by destruct (Z.eqb_spec p 0); [lia|].
  - split; [|done]. intros. apply store_le_out. lia.
Qed.

(** ** Runs of pages on the free list *)

Lemma chain_next m p l : chain m p (p :: l) -> chain m (load64 m p) l.
Proof. by inversion 1. Qed.

Lemma chain_is_head m h p l : chain m h (p :: l) -> h = p.
Proof. by inversion 1. Qed.

Lemma chain_suffix m h l1 p l2 : chain m h (l1 ++ p :: l2) -> chain m p (p :: l2).
Proof.
  revert h. induction l1 as [|q l1 IH]; intros h H; simpl in H.
  - pose proof (chain_is_head _ _ _ _ H). by subst.
  - inversion H; subst. eauto.
Qed.

(** If the expected physical address of the next page matches, the next page
    follows in virtual memory too. *)
Lemma next_contiguous s it i next :
  is_page next -> 0 < it + 4096 * (i - 1) -> it + 4096 * i <= 2 ^ 64 ->
  wrap 64 (V2P s it + i * PAGE_SIZE) = V2P s next -> next = it + 4096 * i.
Proof.
  intros (Hn1 & Hn2 & _) Hlo Hhi E. unfold V2P, PAGE_SIZE in E.
  rewrite wrap_add_l in E. unfold wrap in E.
  set (o := hhdm_offset s) in *.
  assert ((it + 4096 * i - next) mod 2 ^ 64 = 0) as D.
  { replace (it + 4096 * i - next) with ((it - o + i * 4096) - (next - o)) by lia.
    rewrite Zminus_mod, E, <- Zminus_mod. by rewrite Z.sub_diag. }
  apply Z.mod_divide in D as [k D]; [|lia]. nia.
Qed.

Lemma scan_run_spec s it k i rest :
  Forall is_page (it + 4096 * (i - 1) :: rest) -> 1 <= i ->
  chain (ram s) (it + 4096 * (i - 1)) (it + 4096 * (i - 1) :: rest) ->
  match scan_run s (V2P s it) k i (it + 4096 * (i - 1)) with
  | (true, scan) =>
      scan = it + 4096 * (i - 1 + Z.of_nat k) /\
      exists post, it + 4096 * (i - 1) :: rest =
        pages_from (it + 4096 * (i - 1)) (Z.of_nat k) ++ scan :: post
  | (false, _) => True
  end.
Proof.
  revert i rest. induction k as [|k IH]; intros i rest Hp Hi Hc; cbn [scan_run].
  - split; [lia|]. exists rest. rewrite pages_from_nil by lia. done.
  - inversion Hp as [|? ? Hcur Hrest]; subst. pose proof Hcur as (Hc1 & Hc2 & Hc3).
    destruct (Z.eqb_spec (it + 4096 * (i - 1)) 0); [lia|].
    apply chain_next in Hc.
    destruct (Z.eqb_spec (load64 (ram s) (it + 4096 * (i - 1))) 0); [done|].
    destruct (Z.eqb_spec (wrap 64 (V2P s it + i * PAGE_SIZE))
                (V2P s (load64 (ram s) (it + 4096 * (i - 1))))) as [E|E]; [|done].
    simpl negb. cbv iota.
    inversion Hc as [|q rest' Hq Hc' Eq]; subst; [congruence|].
    inversion Hrest as [|? ? Hqp Hrest']; subst.
    pose proof (next_contiguous s it i _ Hqp ltac:(lia) ltac:(lia) E) as En.
    rewrite En in *. specialize (IH (i + 1) rest').
    replace (i + 1 - 1) with i in IH by lia.
    specialize (IH Hrest ltac:(lia)).
    destruct (scan_run s (V2P s it) k (i + 1) (it + 4096 * i)) as [[] scan]; [|done].
    destruct IH as (E1 & post & E2); [constructor; [lia|done]|].
    split; [lia|]. exists post. rewrite E2.
    rewrite (pages_from_cons _ (Z.of_nat (S k))) by lia. simpl. do 2 f_equal.
    f_equal; lia.
Qed.

(** Unlinking a run that follows page [q]. *)
Lemma chain_unlink m h pre q mid post after :
  chain m h (pre ++ q :: mid ++ post) -> Forall is_page (pre ++ q :: mid ++ post) ->
  NoDup (pre ++ q :: mid ++ post) -> chain m after post -> 0 <= after < 2 ^ 64 ->
  chain (store64 m q after) h (pre ++ q :: post).
Proof.
  revert h. induction pre as [|p pre IH]; intros h Hc Hp Hn Ha Hr; simpl in *.
  - inversion Hc; subst. inversion Hp as [|? ? (? & ? & ?) Hp']; subst.
    apply NoDup_cons in Hn as [Hn _]. constructor; [done|].
    rewrite load64_store64, wrap_small by done.
    apply chain_store; try done; [by apply Forall_app in Hp' as [_ ?]|set_solver].
  - inversion Hc; subst. inversion Hp as [|? ? Hpp Hp']; subst.
    apply NoDup_cons in Hn as [Hn Hn']. constructor; [done|].
    assert (q ∈ pre ++ q :: mid ++ post) as Hq by set_solver.
    rewrite Forall_forall in Hp'. pose proof (Hp' q Hq) as (? & ? & ?).
    destruct Hpp as (? & ? & ?).
    rewrite load64_store64_out; [|destruct (pages_disjoint p q) as [|]; [done|done| |lia|lia]].
    + apply IH; try done. by apply Forall_forall.
    + intros ->. done.
Qed.

Lemma chain_head_range m h l : chain m h l -> Forall is_page l -> 0 <= h < 2 ^ 64.
Proof.
  inversion 1; subst; [lia|]. inversion 1 as [|? ? (? & ? & ?)]; subst. lia.
Qed.

(** What finding a run of [n] pages on the free list means. *)
Definition run_post (s : pmem) (l : list Z) (n p : Z) (s' : pmem) : Prop :=
  (p = 0 /\ s' = s) \/
  (exists pre post, l = pre ++ pages_from p n ++ post /\
     chain (ram s') (freepages s') (pre ++ post) /\
     regions s' = regions s /\ hhdm_offset s' = hhdm_offset s /\
     (forall x, ram s' x <> ram s x -> exists q, q ∈ pre /\ q <= x < q + 8)).

Lemma find_run_step s l n pre it rest : 1 < n ->
  l = pre ++ it :: rest -> chain (ram s) (freepages s) l -> Forall is_page l -> NoDup l ->
  match scan_run s (V2P s it) (Z.to_nat (n - 1)) 1 it with
  | (true, scan) =>
      scan <> 0 /\
      run_post s l n it
        (if truth (default 0 (last pre)) then
           set_ram s (store64 (ram s) (default 0 (last pre)) (load64 (ram s) scan))
         else set_freepages s (load64 (ram s) scan))
  | (false, _) => True
  end.
Proof.
  intros Hn -> Hc Hp Hnd.
  pose proof (chain_suffix _ _ _ _ _ Hc) as Hit.
  pose proof (proj1 (Forall_app _ _ _) Hp) as [Hpre Hrest].
  pose proof (scan_run_spec s it (Z.to_nat (n - 1)) 1 rest) as S.
  replace (it + 4096 * (1 - 1)) with it in S by lia.
  specialize (S Hrest ltac:(lia) Hit).
  destruct (scan_run s (V2P s it) (Z.to_nat (n - 1)) 1 it) as [[] scan]; [|done].
  destruct S as (Escan & post & Erun). rewrite Z2Nat.id in * by lia.
  replace (1 - 1 + (n - 1)) with (n - 1) in Escan by lia.
  rewrite Erun in *.
  assert (pages_from it (n - 1) ++ scan :: post = pages_from it n ++ post) as Erun'.
  { replace n with (n - 1 + 1) at 2 by lia. rewrite pages_from_S by lia.
    rewrite <- app_assoc. simpl. by rewrite Escan. }
  assert (is_page scan) as (? & ? & ?).
  { rewrite Forall_forall in Hrest. apply Hrest. set_solver. }
  assert (chain (ram s) (load64 (ram s) scan) post) as Hpost.
  { eapply chain_next, (chain_suffix _ _ (pre ++ pages_from it (n - 1))).
    rewrite <- app_assoc. exact Hc. }
  assert (Forall is_page post) as Hpp.
  { apply Forall_app in Hrest as [_ Hrest]. by inversion Hrest. }
  split; [lia|]. right. exists pre, post. split; [by rewrite Erun'|].
  destruct (last pre) as [q|] eqn:El.
  - apply last_Some in El as [pre' ->]. simpl default.
    assert (is_page q) as (? & ? & ?).
    { rewrite Forall_forall in Hpre. apply Hpre. set_solver. }
    unfold truth. destruct (Z.eqb_spec q 0); [lia|]. simpl. split_and!; try done.
    + rewrite <- !app_assoc in *. simpl in *. rewrite Erun' in *.
      eapply chain_unlink; try done. by eapply chain_head_range.
    + intros x Hx. exists q. split; [set_solver|].
      destruct (Z_lt_ge_dec x q), (Z_lt_ge_dec x (q + 8)); try lia;
        exfalso; apply Hx; apply store_le_out; lia.
  - apply last_None in El as ->. simpl. split_and!; done.
Qed.

(** With more fuel than pages on the free list, the search ends; what it
    finds is a run of the list, which it unlinks. *)
Lemma find_run_spec s l n fuel pre rest it : 1 < n ->
  l = pre ++ rest -> chain (ram s) (freepages s) l -> chain (ram s) it rest ->
  Forall is_page l -> NoDup l -> (length rest < fuel)%nat ->
  exists p s', find_run fuel n (default 0 (last pre)) it s = Ret (p, s') /\ run_post s l n p s'.
Proof.
  intros Hn. revert pre rest it. induction fuel as [|fuel IH]; intros pre rest it El Hc Hit Hp Hnd Hf;
    [lia|]. cbn [find_run].
  destruct (Z.eqb_spec it 0) as [->|Hit0]; [exists 0, s; split; [done|by left]|].
  inversion Hit as [|q rest' Hq Hit' E]; subst; [done|].
  pose proof (find_run_step s _ n pre it rest' Hn eq_refl Hc Hp Hnd) as S.
  destruct (scan_run s (V2P s it) (Z.to_nat (n - 1)) 1 it) as [[] scan].
  - destruct S as [Hscan S]. unfold truth at 1. destruct (Z.eqb_spec scan 0); [done|]. simpl.
    eexists _, _. split; [done|exact S].
  - simpl. specialize (IH (pre ++ [it]) rest' (load64 (ram s) it)).
    rewrite last_snoc in IH. apply IH; try done.
    + by rewrite <- app_assoc.
    + simpl in Hf. lia.
Qed.

(** Pages outside a run are disjoint from its bytes. *)
Lemma page_off_run p n q : p mod 4096 = 0 -> q mod 4096 = 0 -> 0 <= n -> q ∉ pages_from p n ->
  q + 4096 <= p \/ p + 4096 * n <= q.
Proof.
  intros Hp Hq Hn Hnot. destruct (Z_lt_ge_dec q p); [left; zify_div|].
  destruct (Z_lt_ge_dec q (p + 4096 * n)); [|lia]. exfalso. apply Hnot.
  apply elem_of_pages_from. exists ((q - p) / 4096). zify_div.
Qed.

Lemma pmem_wf_fill_run s l p n v : pmem_wf s l -> 0 <= n -> p mod 4096 = 0 ->
  (forall q, q ∈ l -> q ∉ pages_from p n) ->
  pmem_wf (set_ram s (fill (ram s) p v (4096 * n))) l.
Proof.
  intros [Hc Hp Hr Ho Hn] Hn0 Hpg Hnot. constructor; try done. simpl.
  eapply chain_ext; [exact Hc|]. intros q Hq. rewrite Forall_forall in Hp.
  destruct (Hp q Hq) as (? & ? & ?).
  destruct (page_off_run p n q) as [|]; try done; [by apply Hnot| |];
    apply load_le_ext; intros; apply fill_out; lia.
Qed.

Lemma run_bounds p n l : 1 <= n -> Forall is_page l -> (forall x, x ∈ pages_from p n -> x ∈ l) ->
  0 < p /\ p mod 4096 = 0 /\ p + 4096 * n <= 2 ^ 64.
Proof.
  intros Hn Hl Hin. rewrite Forall_forall in Hl.
  assert (p ∈ pages_from p n) as H1 by (apply elem_of_pages_from; exists 0; lia).
  assert (p + 4096 * (n - 1) ∈ pages_from p n) as H2
    by (apply elem_of_pages_from; exists (n - 1); lia).
  destruct (Hl _ (Hin _ H1)) as (? & ? & ?), (Hl _ (Hin _ H2)) as (? & ? & ?). lia.
Qed.

(** A run taken out of the available pages, after it is filled. *)
Lemma run_filled s l s1 l' p n : pmem_wf s l -> pmem_wf s1 l' -> 1 <= n -> n < 2 ^ 52 ->
  p mod 4096 = 0 -> avail s l ≡ₚ pages_from p n ++ avail s1 l' ->
  let s' := set_ram s1 (fill (ram s1) p 2 (wrap 64 (n * PAGE_SIZE))) in
  pmem_wf s' l' /\ avail s l ≡ₚ pages_from p n ++ avail s' l' /\
  forall x, p <= x < p + 4096 * n -> ram s' x = 2.
Proof.
  intros Hwf Hwf1 Hn1 Hn2 Hp HA s'. subst s'. unfold PAGE_SIZE.
  rewrite wrap_small by lia. replace (n * 4096) with (4096 * n) by lia.
  split_and!.
  - apply pmem_wf_fill_run; [done|lia|done|]. intros q Hq Hq'.
    pose proof (wf_nodup _ _ Hwf) as Hnd. unfold avail in HA at 1. rewrite HA in Hnd.
    apply NoDup_app in Hnd as (_ & Hnd & _). apply (Hnd q Hq'). apply elem_of_app. by left.
  - done.
  - intros. simpl. by rewrite fill_in by lia.
Qed.

Lemma kalloc_pages_spec s l n fuel :
  pmem_wf s l -> 1 < n < 2 ^ 52 -> (length l < fuel)%nat ->
  exists p s', kalloc_pages fuel n s = Ret (p, s') /\
    ((p = 0 /\ s' = s /\ Forall (fun r => phys_end r - phys_cur r < 4096 * n) (regions s)) \/
     (0 < p /\ p mod 4096 = 0 /\ p + 4096 * n <= 2 ^ 64 /\
      exists l', pmem_wf s' l' /\ avail s l ≡ₚ pages_from p n ++ avail s' l' /\
        forall x, p <= x < p + 4096 * n -> ram s' x = 2)).
Proof.
  intros Hwf Hn Hf. pose proof Hwf as [Hc Hp Hr Ho Hnd]. unfold kalloc_pages.
  destruct (Z.eqb_spec n 0); [lia|]. destruct (Z.eqb_spec n 1); [lia|].
  unfold alloc_contiguous_from_freelist. destruct (Z.leb_spec n 1); [lia|].
  destruct (find_run_spec s l n fuel [] l (freepages s)) as (p & s1 & E & HR); 
    [lia|done|done|done|done|by apply NoDup_app in Hnd as [? _]|done|].
  simpl in E. rewrite E. simpl. unfold truth.
  destruct HR as [[-> ->]|(pre & post & El & Hc1 & HR1 & HO1 & HM1)].
  - simpl. unfold alloc_contiguous_from_regions. destruct (Z.eqb_spec n 0); [lia|].
    pose proof (carve_bytes_spec _ n _ ltac:(lia) Hr) as S.
    destruct (carve_bytes _ (regions s)) as [[phys rs]|].
    + destruct S as (HP & Hrs & ? & ? & ? & ?).
      assert (P2V s phys = hhdm_offset s + phys) as -> by (apply P2V_small; lia).
      destruct (Z.eqb_spec (hhdm_offset s + phys) 0); [lia|]. simpl.
      assert (avail s l ≡ₚ pages_from (hhdm_offset s + phys) n ++ avail (set_regions s rs) l) as HA.
      { unfold avail, regions_pages. simpl. rewrite HP. by rewrite Permutation_app_swap_app. }
      eexists _, _. split; [done|]. right. split_and!; try done.
      exists l. apply (run_filled s l (set_regions s rs)); try done; try lia. constructor; try done. simpl.
      unfold avail in HA. rewrite HA in Hnd. by apply NoDup_app in Hnd as (_ & _ & ?).
    + simpl. eexists _, _. split; [done|]. left. done.
  - destruct (run_bounds p n l) as (Hp1 & Hp2 & Hp3); [lia|done|subst; set_solver|].
    destruct (Z.eqb_spec p 0); [lia|]. simpl.
    assert (avail s l ≡ₚ pages_from p n ++ avail s1 (pre ++ post)) as HA.
    { unfold avail, regions_pages. rewrite HR1, HO1, El, <- !app_assoc.
      by rewrite Permutation_app_swap_app. }
    eexists _, _. split; [done|]. right. split_and!; try done.
    exists (pre ++ post). apply run_filled; try done; try lia. constructor.
    + done.
    + subst l. rewrite !Forall_app in Hp. rewrite Forall_app. tauto.
    + by rewrite HR1, HO1.
    + by rewrite HO1.
    + unfold avail in HA. rewrite HA in Hnd. by apply NoDup_app in Hnd as (_ & _ & ?).
Qed.

(** [kalloc_pages] for two or more pages terminates (the scan of the free
    list needs one step more than the list has pages) and either fails
    without changing the state, when no region holds [n] pages, or hands out
    [n] consecutive available pages exactly once, all bytes 2. *)
Theorem kalloc_pages_correct s l n fuel :
  pmem_wf s l -> 1 < n < 2 ^ 52 -> (length l < fuel)%nat ->
  exists p s', kalloc_pages fuel n s = Ret (p, s') /\
    ((p = 0 /\ s' = s /\ Forall (fun r => phys_end r - phys_cur r < 4096 * n) (regions s)) \/
     (0 < p /\ p mod 4096 = 0 /\ p + 4096 * n <= 2 ^ 64 /\
      exists l', pmem_wf s' l' /\ avail s l ≡ₚ pages_from p n ++ avail s' l' /\
        forall x, p <= x < p + 4096 * n -> ram s' x = 2)).
Proof. apply kalloc_pages_spec. Qed.

(** ** [init_mem] *)

(** The usable whole pages of a memory map entry. *)
Definition entry_region (e : option memmap_entry) : list mem_region :=
  match e with
  | None => []
  | Some e =>
      let lo := 4096 * ((entry_base e + 4095) / 4096) in
      let hi := 4096 * ((entry_base e + entry_length e) / 4096) in
      if (entry_type e =? LIMINE_MEMMAP_USABLE) && (4096 <=? entry_length e) && (lo <? hi)
      then [MkRegion lo hi] else []
  end.

(** A memory map entry that ends below 4 GiB. *)
Definition low_entry (e : option memmap_entry) : Prop :=
  match e with
  | None => True
  | Some e => 0 <= entry_base e /\ 0 <= entry_length e /\
              entry_base e + entry_length e + 4096 <= 2 ^ 32
  end.

Lemma init_mem_entry_low s e :
  low_entry e -> mem_initialized s = false -> 0 <= static_region_pool_idx s < 32 ->
  exists s', init_mem_entry s e = Ret s' /\ regions s' = regions s ++ entry_region e /\
    static_region_pool_idx s <= static_region_pool_idx s' <= static_region_pool_idx s + 1 /\
    mem_initialized s' = false /\ freepages s' = freepages s /\ ram s' = ram s /\
    hhdm_offset s' = hhdm_offset s.
Proof.
  intros He Hi Hidx. destruct e as [[b n t]|]; cbn [init_mem_entry entry_region].
  2:{ exists s. rewrite app_nil_r. split_and!; try done; lia. }
  destruct He as (H1 & H2 & H3). cbn [entry_base entry_length entry_type] in *. cbv zeta.
  rewrite (wrap_small 64 (b + n)) by lia.
  set (s1 := if phys_max_end s <? b + n then _ else s).
  assert (regions s1 = regions s /\ static_region_pool_idx s1 = static_region_pool_idx s /\
    mem_initialized s1 = false /\ freepages s1 = freepages s /\ ram s1 = ram s /\
    hhdm_offset s1 = hhdm_offset s) as (E1 & E2 & E3 & E4 & E5 & E6).
  { subst s1. by destruct (phys_max_end s <? b + n). }
  destruct (t =? LIMINE_MEMMAP_USABLE); simpl.
  2:{ exists s1. rewrite app_nil_r. split_and!; try done; lia. }
  unfold PAGE_SIZE. destruct (Z.ltb_spec n 4096), (Z.leb_spec 4096 n); try lia; simpl.
  { exists s1. rewrite app_nil_r. split_and!; try done; lia. }
  change (Z.land (wrap 64 (b + 4096 - 1)) PAGE_MASK) with (PAGE_ROUND_UP b).
  rewrite (PAGE_ROUND_UP_low b) by lia.
  change (Z.land (b + n) PAGE_MASK) with (PAGE_ROUND_DOWN (b + n)).
  rewrite (PAGE_ROUND_DOWN_low (b + n)) by lia.
  set (lo := 4096 * ((b + 4095) / 4096)). set (hi := 4096 * ((b + n) / 4096)).
  destruct (Z.leb_spec hi lo), (Z.ltb_spec lo hi); try lia; simpl.
  { exists s1. rewrite app_nil_r. split_and!; try done; lia. }
  unfold append_region. destruct (Z.leb_spec hi lo); [lia|]. rewrite E3. simpl.
  unfold STATIC_REGION_POOL_SIZE. rewrite E2.
  destruct (Z.leb_spec 32 (static_region_pool_idx s)); [lia|].
  eexists. split; [done|]. cbn [regions static_region_pool_idx mem_initialized freepages ram hhdm_offset].
  rewrite E1. split_and!; try done; lia.
Qed.

Lemma init_mem_loop_low es s :
  Forall low_entry es -> mem_initialized s = false ->
  0 <= static_region_pool_idx s -> static_region_pool_idx s + zlen es <= 32 ->
  exists s', for_list init_mem_entry es s = Ret s' /\
    regions s' = regions s ++ concat (map entry_region es) /\
    mem_initialized s' = false /\ freepages s' = freepages s /\ ram s' = ram s /\
    hhdm_offset s' = hhdm_offset s.
Proof.
  intros Hes. revert s. unfold zlen. induction Hes as [|e es He Hes IH]; intros s Hi H0 H32; simpl in *.
  - exists s. rewrite app_nil_r. done.
  - destruct (init_mem_entry_low s e He Hi ltac:(lia)) as (s1 & -> & R1 & I1 & M1 & F1 & A1 & O1).
    destruct (IH s1 M1 ltac:(lia) ltac:(lia)) as (s2 & -> & R2 & M2 & F2 & A2 & O2).
    exists s2. rewrite R2, R1, <- app_assoc. split_and!; congruence.
Qed.

(** The pages of one entry stay between the entry's bounds. *)
Lemma entry_pages_range off e x :
  x ∈ concat (map (region_pages off) (entry_region (Some e))) ->
  off + entry_base e <= x /\ x + 4096 <= off + entry_base e + entry_length e.
Proof.
  unfold entry_region. cbv zeta.
  destruct (entry_type e =? LIMINE_MEMMAP_USABLE); simpl; [|by intros ?%elem_of_nil].
  destruct (4096 <=? entry_length e); simpl; [|by intros ?%elem_of_nil].
  zcase; simpl; [|by intros ?%elem_of_nil].
  rewrite app_nil_r, region_pages_from. cbn [phys_cur phys_end].
  intros (i & Hi & ->)%elem_of_pages_from. zify_div.
Qed.

Lemma pages_from_nodup p n : NoDup (pages_from p n).
Proof. apply NoDup_fmap_2_strong; [intros; lia|apply NoDup_seqZ]. Qed.

(** The memory map of the boot protocol is sorted and its entries do not overlap. *)
Definition entries_sorted (es : list (option memmap_entry)) : Prop :=
  StronglySorted (fun a b => match a, b with
    | Some a, Some b => entry_base a + entry_length a <= entry_base b
    | _, _ => True end) es.

Lemma entries_pages_nodup off es : entries_sorted es ->
  NoDup (concat (map (region_pages off) (concat (map entry_region es)))).
Proof.
  induction 1 as [|e es Hs IH Hf]; simpl; [by apply NoDup_nil|].
  rewrite map_app, concat_app. apply NoDup_app. split_and!; [| |done].
  - destruct e as [e|]; simpl; [|by apply NoDup_nil].
    destruct (_ && _); simpl; [|by apply NoDup_nil].
    rewrite app_nil_r. apply pages_from_nodup.
  - intros x Hx Hx'. destruct e as [e|]; simpl in Hx; [|by apply elem_of_nil in Hx].
    apply entry_pages_range in Hx.
    clear IH Hs. induction Hf as [|e' es He' Hf IHf]; simpl in Hx'; [by apply elem_of_nil in Hx'|].
    rewrite map_app, concat_app in Hx'. apply elem_of_app in Hx' as [Hx'|Hx']; [|auto].
    destruct e' as [e'|]; [|by apply elem_of_nil in Hx'].
    apply entry_pages_range in Hx'. lia.
Qed.

Lemma entry_region_ok off e : low_entry e -> 0 < off < 2 ^ 64 - 2 ^ 32 -> off mod 4096 = 0 ->
  Forall (region_ok off) (entry_region e).
Proof.
  intros He Ho Ho'. destruct e as [e|]; simpl; [|done].
  destruct (entry_type e =? LIMINE_MEMMAP_USABLE); simpl; [|done].
  destruct (4096 <=? entry_length e); simpl; [|done]. zcase; [|done].
  constructor; [|done]. destruct He as (? & ? & ?). unfold region_ok. cbn [phys_cur phys_end].
  split_and!; zify_div.
Qed.

(** On a memory map below 4 GiB with at most 32 entries, [init_mem]
    registers exactly the whole pages of the usable entries, in order, and
    leaves the allocator in its invariant with an empty free list. *)
Theorem init_mem_low m off es :
  Forall low_entry es -> zlen es <= 32 -> entries_sorted es ->
  0 < off < 2 ^ 64 - 2 ^ 32 -> off mod 4096 = 0 ->
  exists s, init_mem off (Some es) (pmem_boot m) = Ret s /\
    regions s = concat (map entry_region es) /\ pmem_wf s [] /\ mem_initialized s = true.
Proof.
  intros Hes Hlen Hs Ho Ho'. unfold init_mem. simpl.
  destruct (init_mem_loop_low es (MkPmem m 0 [] 0 false off 0) Hes eq_refl)
    as (s & E & R & M & F & A & O); [simpl; lia|simpl; lia|].
  unfold outcome_bind, mbind. rewrite E. eexists. split; [done|]. cbn in R, M, F, A, O |- *.
  split_and!; [done| |done]. constructor; simpl.
  - rewrite F. constructor.
  - done.
  - rewrite O, R. clear -Hes Ho Ho'. induction Hes; simpl; [done|].
    apply Forall_app. split; [by apply entry_region_ok|done].
  - rewrite O. lia.
  - unfold regions_pages. simpl. rewrite O, R. by apply entries_pages_nodup.
Qed.

(** [init_mem] never registers memory above 4 GiB: because the page mask
    is a 32-bit constant, what a usable entry above 4 GiB adds, if anything,
    is a range of physical memory below 4 GiB, disjoint from the entry. *)
Theorem init_mem_entry_high s e s' :
  init_mem_entry s (Some e) = Ret s' -> mem_initialized s = false ->
  2 ^ 32 <= entry_base e ->
  forall r, r ∈ regions s' -> r ∈ regions s \/
    (0 <= phys_cur r < phys_end r /\ phys_end r <= 2 ^ 32 <= entry_base e).
Proof.
  intros H Hi Hb r Hr. cbn [init_mem_entry] in H. cbv zeta in H.
  set (s1 := if phys_max_end s <? _ then _ else s) in H.
  assert (regions s1 = regions s /\ mem_initialized s1 = false) as [E1 E2]
    by (subst s1; by destruct (phys_max_end s <? _)).
  destruct (negb _); [injection H as <-; left; congruence|].
  destruct (_ <? PAGE_SIZE); [injection H as <-; left; congruence|].
  set (hi := Z.land (wrap 64 (entry_base e + entry_length e)) PAGE_MASK) in H.
  set (lo := Z.land (wrap 64 (entry_base e + PAGE_SIZE - 1)) PAGE_MASK) in H.
  destruct (Z.leb_spec hi lo); [injection H as <-; left; congruence|].
  unfold append_region in H. destruct (Z.leb_spec hi lo); [lia|]. rewrite E2 in H. simpl in H.
  destruct (_ <=? static_region_pool_idx s1); [done|]. cbv beta iota zeta in H.
  cbn [truth Z.eqb negb] in H. injection H as <-. simpl in Hr.
  rewrite E1 in Hr. apply elem_of_app in Hr as [?|Hr]; [by left|right].
  apply list_elem_of_singleton in Hr as ->. cbn [phys_cur phys_end].
  pose proof (land_mask_range (wrap 64 (entry_base e + PAGE_SIZE - 1)) PAGE_MASK 32
    ltac:(vm_compute; split; congruence) ltac:(lia)).
  pose proof (land_mask_range (wrap 64 (entry_base e + entry_length e)) PAGE_MASK 32
    ltac:(vm_compute; split; congruence) ltac:(lia)). lia.
Qed.

(** ** [kfree_pages] *)

Lemma kfree_pages_loop s l p n : pmem_wf s l -> 0 < p -> p mod 4096 = 0 ->
  p + 4096 * Z.of_nat n <= 2 ^ 64 ->
  (forall q, q ∈ pages_from p (Z.of_nat n) -> q ∉ avail s l) ->
  exists s', for_list (fun s i => kfree (wrap 64 (p + i * PAGE_SIZE)) s) (seqZ 0 (Z.of_nat n)) s
      = Ret s' /\
    pmem_wf s' (rev (pages_from p (Z.of_nat n)) ++ l) /\
    regions s' = regions s /\ hhdm_offset s' = hhdm_offset s.
Proof.
  intros Hwf Hp Hp'. induction n as [|n IH]; intros Hn Hq.
  - exists s. done.
  - destruct IH as (s1 & E1 & Hwf1 & R1 & O1); [lia| |].
    { intros q (i & Hi & ->)%elem_of_pages_from. apply Hq, elem_of_pages_from. exists i. lia. }
    rewrite Nat2Z.inj_succ, <- Z.add_1_r. rewrite seqZ_app, for_list_app, E1 by lia.
    rewrite pages_from_S, rev_app_distr by lia. simpl.
    unfold PAGE_SIZE. rewrite wrap_small by lia.
    match goal with |- context [kfree ?a s1] => replace a with (p + 4096 * Z.of_nat n) by lia end.
    destruct (kfree_correct s1 _ (p + 4096 * Z.of_nat n) Hwf1) as (s2 & -> & Hwf2 & _ & _ & _ & R2 & O2).
    + unfold is_page. split_and!; zify_div.
    + unfold avail, regions_pages. rewrite R1, O1.
      intros [[Hx|Hx]%elem_of_app|Hx]%elem_of_app.
      * rewrite list_elem_of_In, <- in_rev, <- list_elem_of_In in Hx.
        apply elem_of_pages_from in Hx as (i & Hi & Hx). lia.
      * eapply Hq; [|apply elem_of_app; left; exact Hx].
        apply elem_of_pages_from. exists (Z.of_nat n). lia.
      * eapply Hq; [|apply elem_of_app; right; exact Hx].
        apply elem_of_pages_from. exists (Z.of_nat n). lia.
    + exists s2. split_and!; [done|done|congruence|congruence].
Qed.

Lemma kfree_pages_spec s l p n :
  pmem_wf s l -> 0 < p -> p mod 4096 = 0 -> 0 <= n -> p + 4096 * n <= 2 ^ 64 ->
  (forall q, q ∈ pages_from p n -> q ∉ avail s l) ->
  exists s', kfree_pages p n s = Ret s' /\ pmem_wf s' (rev (pages_from p n) ++ l) /\
    avail s' (rev (pages_from p n) ++ l) ≡ₚ pages_from p n ++ avail s l.
Proof.
  intros Hwf Hp Hp' Hn Hle Hq. unfold kfree_pages. destruct (Z.eqb_spec p 0); [lia|]. simpl.
  destruct (Z.eqb_spec n 0) as [->|].
  { exists s. done. }
  rewrite land_4095, Hp'. simpl.
  destruct (kfree_pages_loop s l p (Z.to_nat n)) as (s' & E & Hwf' & R & O); try done;
    rewrite ?Z2Nat.id in * by lia; try done.
  exists s'. split_and!; [done|done|].
  unfold avail, regions_pages. rewrite R, O, <- app_assoc. apply Permutation_app; [|done].
  by rewrite <- Permutation_rev.
Qed.

(** [kfree_pages] makes a run of [n] pages available again, one page at a
    time from the lowest address up, so the run is on the free list in
    descending order. *)
Theorem kfree_pages_correct s l p n :
  pmem_wf s l -> 0 < p -> p mod 4096 = 0 -> 0 <= n -> p + 4096 * n <= 2 ^ 64 ->
  (forall q, q ∈ pages_from p n -> q ∉ avail s l) ->
  exists s', kfree_pages p n s = Ret s' /\ pmem_wf s' (rev (pages_from p n) ++ l) /\
    avail s' (rev (pages_from p n) ++ l) ≡ₚ pages_from p n ++ avail s l.
Proof. apply kfree_pages_spec. Qed.

(** ** Witnesses *)

(** A machine with two free pages and a region of three pages, the direct
    map at 1 MiB. *)
Definition demo_pmem : pmem :=
  MkPmem (store64 zeros 1052672 1056768) 1052672 [MkRegion 16384 28672] 1 true 1048576 28672.

Lemma demo_pmem_wf : pmem_wf demo_pmem [1052672; 1056768].
Proof.
  constructor.
  - repeat (constructor; [done|]). constructor.
  - repeat constructor; vm_compute; congruence.
  - constructor; [|done]. unfold region_ok. simpl. split_and!; try lia; done.
  - simpl. split; [lia|done].
  - vm_compute. repeat (apply NoDup_cons; split; [set_solver|]). by apply NoDup_nil.
Qed.

Lemma kalloc_correct_witness :
  let '(p, s') := kalloc demo_pmem in
  alloc_page_post demo_pmem [1052672; 1056768] p s' /\
  (p <> 0 -> forall x, p <= x < p + 4096 ->
     ram s' x = if truth (freepages demo_pmem) then 0 else 2).
Proof. apply (kalloc_correct demo_pmem [1052672; 1056768]). exact demo_pmem_wf. Defined.

Lemma kalloc_pages_correct_witness :
  exists p s', kalloc_pages 3 2 demo_pmem = Ret (p, s') /\ p = 1052672.
Proof.
  destruct (kalloc_pages_correct demo_pmem [1052672; 1056768] 2 3 demo_pmem_wf)
    as (p & s' & E & _); [lia|simpl; lia|].
  exists p, s'. split; [exact E|].
  assert (match kalloc_pages 3 2 demo_pmem with Ret (q, _) => q | _ => 0 end = 1052672) as H
    by (vm_compute; reflexivity).
  rewrite E in H. exact H.
Defined.

Lemma kfree_pages_correct_witness :
  exists s', kfree_pages 2097152 2 demo_pmem = Ret s' /\
    pmem_wf s' [2101248; 2097152; 1052672; 1056768].
Proof.
  destruct (kfree_pages_correct demo_pmem [1052672; 1056768] 2097152 2 demo_pmem_wf)
    as (s' & E & W & _); [lia|done|lia|lia| |].
  - intros q Hq Hq'. vm_compute in Hq, Hq'. set_solver.
  - exists s'. split; [exact E|exact W].
Defined.

Definition demo_memmap : list (option memmap_entry) :=
  [Some (MkEntry 0 4096 1); Some (MkEntry 4096 20000 0); None; Some (MkEntry 65536 16384 0)].

Lemma init_mem_low_witness :
  exists s, init_mem 1048576 (Some demo_memmap) (pmem_boot zeros) = Ret s /\
    regions s = [MkRegion 4096 20480; MkRegion 65536 81920].
Proof.
  destruct (init_mem_low zeros 1048576 demo_memmap) as (s & E & R & _).
  - repeat constructor; simpl; lia.
  - vm_compute. congruence.
  - repeat constructor; simpl; lia.
  - lia.
  - reflexivity.
  - exists s. split; [exact E|]. rewrite R. reflexivity.
Defined.

(** A usable entry at [4 GiB, 5 GiB) registers [0, 1 GiB). *)
Definition high_entry : memmap_entry := MkEntry (2 ^ 32) (2 ^ 30) 0.

Lemma init_mem_entry_high_witness :
  exists s', init_mem_entry (pmem_boot zeros) (Some high_entry) = Ret s' /\
    regions s' = [MkRegion 0 (2 ^ 30)] /\
    (MkRegion 0 (2 ^ 30) ∈ regions (pmem_boot zeros) \/
     (0 <= 0 < 2 ^ 30 /\ 2 ^ 30 <= 2 ^ 32 <= 2 ^ 32)).
Proof.
  eexists. split; [vm_compute; reflexivity|]. split; [reflexivity|].
  apply (init_mem_entry_high (pmem_boot zeros) high_entry
    (MkPmem zeros 0 [MkRegion 0 (2 ^ 30)] 1 false 0 (2 ^ 32 + 2 ^ 30))).
  - vm_compute. reflexivity.
  - reflexivity.
  - simpl. lia.
  - set_solver.
Defined.
