(* ===== verification/Vmm.v ===== *)
(** * The virtual memory manager (kernel/src/mem/vmm.c, vmm.h)

    Four-level page tables live in the pages of [PhysMem]: a table is the
    address of its page in the direct map and entry [i] is the 64-bit word
    at [8 * i].  [walk] and its callers read and write those words, so that
    aliasing between tables is part of the model; [translate] is what the
    hardware makes of them.

    Not modelled: the TLB ([invlpg], CR3 reloads), [vmm_init_kernel]'s read
    of CR3. *)
From S2P Require Import Prelude Mem PhysMem.

(** ** Constants of vmm.h *)

Definition USERSPACE_VA_MAX : Z := 2 ^ 46.
Definition USERSPACE_VA_MIN : Z := 2 ^ 22.
Definition USER_STACK_TOP : Z := USERSPACE_VA_MAX.
Definition USER_STACK_SIZE : Z := 0x8000.
Definition USER_STACK_BOTTOM : Z := USER_STACK_TOP - USER_STACK_SIZE.
Definition INTSTACK_SIZE : Z := 0x8000.
Definition INTSTACK_VIRTUAL_ADDRESS_TOP : Z := USER_STACK_BOTTOM - PAGE_SIZE.
Definition INTSTACK_VIRTUAL_ADDRESS_BOTTOM : Z := INTSTACK_VIRTUAL_ADDRESS_TOP - INTSTACK_SIZE.
Definition SYSCALLSTACK_SIZE : Z := 0x8000.
Definition SYSCALLSTACK_VIRTUAL_ADDRESS_TOP : Z := INTSTACK_VIRTUAL_ADDRESS_BOTTOM - PAGE_SIZE.
Definition SYSCALLSTACK_VIRTUAL_ADDRESS_BOTTOM : Z :=
  SYSCALLSTACK_VIRTUAL_ADDRESS_TOP - SYSCALLSTACK_SIZE.
Definition KERNEL_STACK_SIZE : Z := 0x4000.
Definition KERNEL_STACK_GUARD_SIZE : Z := PAGE_SIZE.
Definition KERNEL_STACK_TOTAL_SIZE : Z := KERNEL_STACK_SIZE + KERNEL_STACK_GUARD_SIZE.
Definition KERNEL_VA_MIN : Z := 2 ^ 47.
Definition KERNEL_STACK_BASE : Z := 0xFFFF900000000000.

Definition PTE_P : Z := Z.shiftl 1 0.
Definition PTE_W : Z := Z.shiftl 1 1.
Definition PTE_U : Z := Z.shiftl 1 2.
Definition PTE_PWT : Z := Z.shiftl 1 3.
Definition PTE_PCD : Z := Z.shiftl 1 4.
Definition PTE_PS : Z := Z.shiftl 1 7.
Definition PTE_XD : Z := Z.shiftl 1 63.
Definition PTE_ADDR_MASK : Z := 0x000FFFFFFFFFF000.
Definition PTE_ADDR (pte : Z) : Z := Z.land pte PTE_ADDR_MASK.
Definition PTE_SET_ADDR (addr : Z) : Z := Z.land (wrap 64 addr) PTE_ADDR_MASK.

(** [pte_permissions], one-bit fields. *)
Record pte_permissions := MkPerm { writable : bool; executable : bool; userspace : bool }.

Definition PTE_INDEX_FROM_VA (va level : Z) : Z :=
  Z.land (Z.shiftr (Z.shiftr va 12) (level * 9)) (Z.shiftl 1 9 - 1).
Definition PAGETABLE_PTE_COUNT : Z := 512.

Definition pte_follow (pte : Z) : Z := PTE_ADDR pte.
Definition pte_is_present (pte : Z) : bool := truth (Z.land pte PTE_P).
Definition pte_is_huge (pte : Z) : bool := truth (Z.land pte PTE_PS).
Definition pte_is_user (pte : Z) : bool := truth (Z.land pte PTE_U).
Definition pte_is_writable (pte : Z) : bool := truth (Z.land pte PTE_W).

(** The leaf entry [vmm_map_pages] and [vmm_allocate] build. *)
Definition build_pte (pa : Z) (p : pte_permissions) : Z :=
  let pte := Z.lor PTE_P (PTE_SET_ADDR pa) in
  let pte := if writable p then Z.lor pte PTE_W else pte in
  let pte := if executable p then pte else Z.lor pte PTE_XD in
  if userspace p then Z.lor pte PTE_U else pte.

(** The leaf entry of [vmm_map_kernel_pages]: never [PTE_U]. *)
Definition build_kernel_pte (pa : Z) (p : pte_permissions) : Z :=
  let pte := Z.lor PTE_P (PTE_SET_ADDR pa) in
  let pte := if writable p then Z.lor pte PTE_W else pte in
  if executable p then pte else Z.lor pte PTE_XD.

(** ** Walking *)

(** The [for] loop of [walk] and [walk_kernel] from [level] down;
    [link_flags] are the flags a new table is linked with.  The result is the
    address of the leaf entry, 0 for [NULL]. *)
Fixpoint walk_levels (level : nat) (link_flags pagetable va : Z) (alloc : bool) (s : pmem)
    : Z * pmem :=
  match level with
  | O => (pagetable + 8 * PTE_INDEX_FROM_VA va 0, s)
  | S level' =>
      let pte := pagetable + 8 * PTE_INDEX_FROM_VA va (Z.of_nat level) in
      let e := load64 (ram s) pte in
      if pte_is_present e then
        walk_levels level' link_flags (P2V s (pte_follow e)) va alloc s
      else if negb alloc then (0, s)
      else
        let '(table, s1) := kalloc s in
        if table =? 0 then (0, s1)
        else
          let s2 := set_ram s1 (fill (ram s1) table 0 PAGE_SIZE) in
          let s3 := set_ram s2 (store64 (ram s2) pte
                      (Z.lor link_flags (PTE_SET_ADDR (V2P s2 table)))) in
          walk_levels level' link_flags table va alloc s3
  end.

Definition walk (pagetable va : Z) (alloc io : bool) : ST pmem Z :=
  if (negb io && (USERSPACE_VA_MAX <=? va)) || (va <? USERSPACE_VA_MIN) then st_panic "walk"
  else updates (walk_levels 3 (Z.lor (Z.lor PTE_P PTE_W) PTE_U) pagetable va alloc).

Definition walk_kernel (pagetable va : Z) (alloc : bool) : ST pmem Z :=
  if va <? KERNEL_VA_MIN then st_panic "walk_kernel: va below kernel min"
  else updates (walk_levels 3 (Z.lor PTE_P PTE_W) pagetable va alloc).

Definition vmm_walkaddr (pagetable va : Z) (user : bool) : ST pmem Z :=
  if USERSPACE_VA_MAX <=? va then mret 0
  else
    pte ← walk pagetable va false false;
    if pte =? 0 then mret 0
    else
      e ← reads (fun s => load64 (ram s) pte);
      if negb (pte_is_present e) then mret 0
      else if negb (Bool.eqb (pte_is_user e) user) then mret 0
      else mret (pte_follow e).

(** ** Mapping *)

Definition write_pte (pte v : Z) : ST pmem unit :=
  st_modify (fun s => set_ram s (store64 (ram s) pte v)).
Definition read_pte (pte : Z) : ST pmem Z := reads (fun s => load64 (ram s) pte).

Definition vmm_map_kernel_pages (pagetable va pa size : Z) (perm : pte_permissions) : ST pmem Z :=
  if negb ((va mod PAGE_SIZE =? 0) && (pa mod PAGE_SIZE =? 0) && (size mod PAGE_SIZE =? 0))
  then st_panic "vmm_map_kernel_pages: alignment"
  else
    r ← st_for (fun i =>
      pte ← walk_kernel pagetable (wrap 64 (va + i * PAGE_SIZE)) true;
      if pte =? 0 then mret (Some (-1))
      else
        e ← read_pte pte;
        if pte_is_present e then st_panic "vmm_map_kernel_pages: remap"
        else
          _ ← write_pte pte (build_kernel_pte (wrap 64 (pa + i * PAGE_SIZE)) perm);
          mret None) (seqZ 0 (size / PAGE_SIZE));
    mret (default 0 r).

(** One iteration of the loop of [vmm_map_pages]. *)
Definition map_one_page (pagetable current_va current_pa : Z) (perm : pte_permissions)
    : ST pmem (option Z) :=
  pte ← walk pagetable current_va true false;
  if pte =? 0 then mret (Some (-1))
  else
    e ← read_pte pte;
    if pte_is_present e then st_panic "vmm_map_pages: remap"
    else
      _ ← write_pte pte (build_pte current_pa perm);
      mret None.

Definition vmm_map_pages (pagetable va size pa : Z) (perm : pte_permissions) : ST pmem Z :=
  if negb (pa mod PAGE_SIZE =? 0) then st_panic "vmm_map_pages: pa not aligned"
  else if negb (va mod PAGE_SIZE =? 0) then st_panic "vmm_map_pages: va not aligned"
  else if negb (size mod PAGE_SIZE =? 0) then st_panic "vmm_map_pages: size not aligned"
  else if size =? 0 then st_panic "vmm_map_pages: size"
  else
    r ← st_for (fun i => map_one_page pagetable (wrap 64 (va + i * PAGE_SIZE))
                           (wrap 64 (pa + i * PAGE_SIZE)) perm)
          (seqZ 0 (size / PAGE_SIZE));
    mret (default 0 r).

(** One iteration of the loop of [vmm_allocate]. *)
Definition allocate_one_page (pagetable current_va : Z) (perm : pte_permissions) (clear : bool)
    : ST pmem (option Z) :=
  frame ← updates (if clear then kcalloc else kalloc);
  if frame =? 0 then mret (Some (-1))
  else
    pte ← walk pagetable current_va true false;
    if pte =? 0 then _ ← effect (kfree frame); mret (Some (-1))
    else
      e ← read_pte pte;
      if pte_is_present e then st_panic "vmm_allocate: remap"
      else
        pa ← reads (fun s => V2P s frame);
        _ ← write_pte pte (build_pte pa perm);
        mret None.

Definition vmm_allocate (pagetable va size : Z) (perm : pte_permissions) (clear : bool)
    : ST pmem Z :=
  if negb (va mod PAGE_SIZE =? 0) then st_panic "vmm_allocate: va not aligned"
  else if negb (size mod PAGE_SIZE =? 0) then st_panic "vmm_allocate: size not aligned"
  else if size =? 0 then st_panic "vmm_allocate: size"
  else
    r ← st_for (fun i => allocate_one_page pagetable (wrap 64 (va + i * PAGE_SIZE)) perm clear)
          (seqZ 0 (size / PAGE_SIZE));
    mret (default 0 r).

(** ** The kernel's own tables *)

(** [kernel_pagetable] and [io_memmap_current_address]. *)
Record vmm_globals := MkVmm { kernel_pagetable : Z; io_memmap_current_address : Z }.
Definition vmm_globals_boot (cr3_va : Z) : vmm_globals := MkVmm cr3_va 0xfffffffff0000000.

(** [vmm_io_memmap]: the mapped address and the bumped cursor. *)
Definition vmm_io_memmap (g : vmm_globals) (pa size : Z) : ST pmem (Z * vmm_globals) :=
  if negb (pa mod PAGE_SIZE =? 0) then st_panic "vmm_io_memmap: pa not aligned"
  else if negb (size mod PAGE_SIZE =? 0) then st_panic "vmm_io_memmap: size not aligned"
  else if size =? 0 then st_panic "vmm_io_memmap: size"
  else
    let va := io_memmap_current_address g in
    let g' := MkVmm (kernel_pagetable g) (wrap 64 (va + size)) in
    r ← st_for (fun i =>
      pte ← walk (kernel_pagetable g) (wrap 64 (va + i * PAGE_SIZE)) true true;
      if pte =? 0 then mret (Some 0)
      else
        e ← read_pte pte;
        if pte_is_present e then st_panic "vmm_io_memmap: remap"
        else
          _ ← write_pte pte
                (Z.lor (Z.lor (Z.lor (Z.lor (Z.lor PTE_P PTE_W) PTE_PWT) PTE_PCD) PTE_XD)
                   (PTE_SET_ADDR (wrap 64 (pa + i * PAGE_SIZE))));
          mret None) (seqZ 0 (size / PAGE_SIZE));
    mret (default va r, g').

Definition vmm_map_physical (g : vmm_globals) (phys_start phys_end : Z)
    : ST pmem (Z * vmm_globals) :=
  if phys_end <=? phys_start then st_panic "vmm_map_physical: invalid range"
  else
    let aligned_start := Z.land phys_start PAGE_MASK in
    let offset := wrap 64 (phys_start - aligned_start) in
    let size := wrap 64 (phys_end - aligned_start) in
    let size := if truth (size mod PAGE_SIZE)
                then Z.land (wrap 64 (size + PAGE_SIZE - 1)) PAGE_MASK else size in
    '(va, g') ← vmm_io_memmap g aligned_start size;
    mret (wrap 64 (va + offset), g').

Definition vmm_init_lapic (g : vmm_globals) (lapic_addr : Z) : ST pmem unit :=
  va ← reads (fun s => P2V s lapic_addr);
  _ ← vmm_map_kernel_pages (kernel_pagetable g) va lapic_addr 0x1000 (MkPerm true false false);
  mret tt.

(** [copy_pagetable]: 0 on success, 1 when out of memory. *)
Fixpoint copy_pagetable (level : nat) (dst src : Z) : ST pmem Z :=
  _ ← st_modify (fun s => set_ram s (blit (ram s) dst (ram s) src PAGE_SIZE));
  match level with
  | O => mret 0
  | S level' =>
      r ← st_for (fun i =>
        pte_src ← read_pte (src + 8 * i);
        if pte_is_present pte_src && negb (pte_is_huge pte_src) then
          dst_inner ← updates kalloc;
          if dst_inner =? 0 then mret (Some 1)
          else
            _ ← st_modify (fun s => set_ram s (fill (ram s) dst_inner 0 PAGE_SIZE));
            src_inner ← reads (fun s => P2V s (pte_follow pte_src));
            c ← copy_pagetable level' dst_inner src_inner;
            if truth c then _ ← effect (kfree dst_inner); mret (Some 1)
            else
              pa ← reads (fun s => V2P s dst_inner);
              let e := Z.lor PTE_P (PTE_SET_ADDR pa) in
              let e := if pte_is_writable pte_src then Z.lor e PTE_W else e in
              let e := if pte_is_user pte_src then Z.lor e PTE_U else e in
              let e := if truth (Z.land pte_src PTE_XD) then Z.lor e PTE_XD else e in
              _ ← write_pte (dst + 8 * i) e;
              mret None
        else mret None) (seqZ 0 PAGETABLE_PTE_COUNT);
      mret (default 0 r)
  end.

(** [vmm_user_pagetable_new]; [fuel] bounds the free-list scans of
    [kalloc_pages].  The results of the [vmm_map_pages] calls are ignored. *)
Definition vmm_user_pagetable_new (fuel : nat) (g : vmm_globals) : ST pmem Z :=
  pagetable ← updates kcalloc;
  if pagetable =? 0 then mret 0
  else
    _ ← st_modify (fun s => set_ram s (fill (ram s) pagetable 0 PAGE_SIZE));
    c ← copy_pagetable 3 pagetable (kernel_pagetable g);
    if truth c then mret 0
    else
      let user_pages := USER_STACK_SIZE / PAGE_SIZE in
      let int_pages := INTSTACK_SIZE / PAGE_SIZE in
      let syscall_pages := SYSCALLSTACK_SIZE / PAGE_SIZE in
      let failed (user_stack int_stack : Z) : ST pmem Z :=
        _ ← (if truth user_stack then effect (kfree_pages user_stack user_pages) else mret tt);
        _ ← (if truth int_stack then effect (kfree_pages int_stack int_pages) else mret tt);
        mret 0 in
      user_stack ← (fun s => kalloc_pages fuel user_pages s);
      if user_stack =? 0 then failed 0 0
      else
        int_stack ← (fun s => kalloc_pages fuel int_pages s);
        if int_stack =? 0 then failed user_stack 0
        else
          syscall_stack ← (fun s => kalloc_pages fuel syscall_pages s);
          if syscall_stack =? 0 then failed user_stack int_stack
          else
            upa ← reads (fun s => V2P s user_stack);
            _ ← vmm_map_pages pagetable USER_STACK_BOTTOM USER_STACK_SIZE upa
                  (MkPerm true false true);
            ipa ← reads (fun s => V2P s int_stack);
            _ ← vmm_map_pages pagetable INTSTACK_VIRTUAL_ADDRESS_BOTTOM INTSTACK_SIZE ipa
                  (MkPerm true false false);
            spa ← reads (fun s => V2P s syscall_stack);
            _ ← vmm_map_pages pagetable SYSCALLSTACK_VIRTUAL_ADDRESS_BOTTOM SYSCALLSTACK_SIZE spa
                  (MkPerm true false false);
            mret pagetable.

(** [vmm_user_pagetable_free_recursive]. *)
Fixpoint vmm_user_pagetable_free_recursive (level : nat) (pagetable initial_va : Z)
    : ST pmem unit :=
  match level with
  | O =>
      _ ← st_for (R := unit) (fun i =>
        leaf_pte ← read_pte (pagetable + 8 * i);
        if negb (pte_is_present leaf_pte) then mret None
        else
          let frame_pa := pte_follow leaf_pte in
          valid ← reads (fun s => phys_addr_valid s frame_pa);
          va ← reads (fun s => P2V s frame_pa);
          _ ← (if (valid : bool) then effect (kfree va) else mret tt);
          _ ← write_pte (pagetable + 8 * i) 0;
          mret None) (seqZ 0 PAGETABLE_PTE_COUNT);
      effect (kfree pagetable)
  | S level' =>
      _ ← st_for (R := unit) (fun i =>
        pte ← read_pte (pagetable + 8 * i);
        if negb (pte_is_present pte) then mret None
        else
          let shift := Z.of_nat level * 9 + 12 in
          let current_va_low := Z.lor initial_va (wrap 64 (Z.shiftl i shift)) in
          let current_va_high := Z.lor initial_va (wrap 64 (Z.shiftl (i + 1) shift)) in
          if ((USERSPACE_VA_MAX <=? current_va_high) && (USERSPACE_VA_MAX <=? current_va_low))
             || ((current_va_high <? USERSPACE_VA_MIN) && (current_va_low <? USERSPACE_VA_MIN))
          then mret None
          else if pte_is_huge pte then mret None
          else
            let child_pa := pte_follow pte in
            valid ← reads (fun s => phys_addr_valid s child_pa);
            if negb valid then _ ← write_pte (pagetable + 8 * i) 0; mret None
            else
              child ← reads (fun s => P2V s child_pa);
              _ ← vmm_user_pagetable_free_recursive level' child current_va_low;
              _ ← write_pte (pagetable + 8 * i) 0;
              mret None) (seqZ 0 PAGETABLE_PTE_COUNT);
      effect (kfree pagetable)
  end.

Definition vmm_user_pagetable_free (pagetable : Z) : ST pmem unit :=
  vmm_user_pagetable_free_recursive 3 pagetable 0.

(** ** The user heap *)

(** The values [lo, lo + PAGE_SIZE, ...] below [hi] a page loop visits. *)
Definition page_range (lo hi : Z) : list Z :=
  (fun i => lo + i * PAGE_SIZE) <$> seqZ 0 ((hi - lo + PAGE_SIZE - 1) / PAGE_SIZE).

Definition vmm_user_sbrk_allocate (pagetable old_sbrk delta : Z) : ST pmem Z :=
  let new_sbrk := wrap 64 (old_sbrk + delta) in
  _ ← st_for (R := unit) (fun currently_allocating =>
        r ← vmm_allocate pagetable currently_allocating PAGE_SIZE (MkPerm true false true) true;
        if r <? 0 then st_panic "sbrk: OOM" else mret None)
      (page_range (PAGE_ROUND_UP old_sbrk) new_sbrk);
  mret new_sbrk.

(** The values [hi, hi - PAGE_SIZE, ...] above [lo]. *)
Definition page_range_down (hi lo : Z) : list Z :=
  (fun i => hi - i * PAGE_SIZE) <$> seqZ 0 ((hi - lo + PAGE_SIZE - 1) / PAGE_SIZE).

Definition vmm_user_sbrk_deallocate (pagetable old_sbrk delta : Z) : ST pmem Z :=
  let new_sbrk := wrap 64 (old_sbrk - delta) in
  _ ← st_for (R := unit) (fun currently_deallocating =>
        pte ← walk pagetable currently_deallocating false false;
        if pte =? 0 then st_panic "vmm_user_sbrk_deallocate: non-existant page"
        else
          e ← read_pte pte;
          let pa := pte_follow e in
          _ ← write_pte pte 0;
          va ← reads (fun s => P2V s pa);
          _ ← effect (kfree va);
          mret None)
      (page_range_down (PAGE_ROUND_DOWN old_sbrk) new_sbrk);
  mret new_sbrk.

(** ** Copying into another address space *)

(** The [while] loop of [vmm_memcpy]; [source] is what is left to copy. *)
Fixpoint vmm_memcpy_loop (fuel : nat) (pagetable dst : Z) (source : list Z) (user : bool)
    : ST pmem Z :=
  match fuel with
  | O => st_nofuel
  | S fuel' =>
      match source with
      | [] => mret 0
      | _ :: _ =>
          let va0 := PAGE_ROUND_DOWN dst in
          if (USERSPACE_VA_MAX <=? va0) || (va0 <? USERSPACE_VA_MIN) then mret (-1)
          else
            pte ← walk pagetable va0 false false;
            if pte =? 0 then mret (-1)
            else
              e ← read_pte pte;
              if negb (pte_is_present e) || negb (Bool.eqb (pte_is_user e) user)
                 || negb (pte_is_writable e)
              then mret (-1)
              else
                pa0 ← reads (fun s => P2V s (pte_follow e));
                let n := wrap 64 (PAGE_SIZE - wrap 64 (dst - va0)) in
                let n := Z.to_nat (if zlen source <? n then zlen source else n) in
                _ ← st_modify (fun s => set_ram s
                      (store_list (ram s) (wrap 64 (pa0 + (dst - va0))) (take n source)));
                vmm_memcpy_loop fuel' pagetable (wrap 64 (va0 + PAGE_SIZE)) (drop n source) user
      end
  end.

Definition vmm_memcpy (pagetable dst : Z) (source : list Z) (user : bool) : ST pmem Z :=
  vmm_memcpy_loop (S (length source)) pagetable dst source user.

(** [vmm_zero]: chunks of at most a page. *)
Definition vmm_zero (pagetable vaddr len : Z) : ST pmem Z :=
  let end_ := wrap 64 (vaddr + len) in
  r ← st_for (fun va =>
        let to_write := if PAGE_SIZE <? end_ - va then PAGE_SIZE else end_ - va in
        c ← vmm_memcpy pagetable va (replicate (Z.to_nat to_write) 0) true;
        if c <? 0 then mret (Some (-1)) else mret None)
      (page_range vaddr end_);
  mret (default 0 r).

(** ** Kernel stacks *)

Definition vmm_allocate_proc_kernel_stack (g : vmm_globals) (i : Z) : ST pmem Z :=
  let kernel_va := wrap 64 (KERNEL_STACK_BASE + i * KERNEL_STACK_TOTAL_SIZE) in
  guard_pte ← walk_kernel (kernel_pagetable g) kernel_va true;
  if guard_pte =? 0
  then st_panic "vmm_allocate_proc_kernel_stack: failed to allocate guard page PTE"
  else
    guard_page ← updates kalloc_for_page_cache;
    if guard_page =? 0
    then st_panic "vmm_allocate_proc_kernel_stack: out of memory for guard page"
    else
      gpa ← reads (fun s => V2P s guard_page);
      _ ← write_pte guard_pte (PTE_SET_ADDR gpa);
      let stack_va := wrap 64 (kernel_va + KERNEL_STACK_GUARD_SIZE) in
      _ ← st_for (R := unit) (fun off =>
        proc_page ← updates kalloc_for_page_cache;
        if proc_page =? 0
        then st_panic "vmm_allocate_proc_kernel_stack: out of memory for stack pages"
        else
          kernel_pa ← reads (fun s => V2P s proc_page);
          r ← vmm_map_kernel_pages (kernel_pagetable g) (wrap 64 (stack_va + off)) kernel_pa
                PAGE_SIZE (MkPerm true false false);
          if r <? 0 then st_panic "vmm_allocate_proc_kernel_stack: failed to map stack page"
          else mret None) (page_range 0 KERNEL_STACK_SIZE);
      mret (wrap 64 (stack_va + KERNEL_STACK_SIZE)).

Definition vmm_free_proc_kernel_stack (g : vmm_globals) (i : Z) : ST pmem unit :=
  let kernel_va := wrap 64 (KERNEL_STACK_BASE + i * KERNEL_STACK_TOTAL_SIZE) in
  guard_pte ← walk_kernel (kernel_pagetable g) kernel_va false;
  _ ← (if guard_pte =? 0 then mret tt
       else
         e ← read_pte guard_pte;
         _ ← write_pte guard_pte 0;
         va ← reads (fun s => P2V s (pte_follow e));
         effect (kfree va));
  let stack_va := wrap 64 (kernel_va + KERNEL_STACK_GUARD_SIZE) in
  _ ← st_for (R := unit) (fun off =>
    pte ← walk_kernel (kernel_pagetable g) (wrap 64 (stack_va + off)) false;
    if pte =? 0 then st_panic "vmm_free_proc_kernel_stack: missing PTE for stack page"
    else
      e ← read_pte pte;
      if negb (pte_is_present e)
      then st_panic "vmm_free_proc_kernel_stack: missing PTE for stack page"
      else
        _ ← write_pte pte 0;
        va ← reads (fun s => P2V s (pte_follow e));
        _ ← effect (kfree va);
        mret None) (page_range 0 KERNEL_STACK_SIZE);
  mret tt.

(** ** Validating user pointers *)

Definition vmm_validate_user_ptr (pagetable ptr len : Z) (writable : bool) : ST pmem bool :=
  if (ptr =? 0) || (len =? 0) then mret false
  else
    let start := ptr in
    let end_ := wrap 64 (start + len) in
    if end_ <? start then mret false
    else if (USERSPACE_VA_MAX <=? start) || (USERSPACE_VA_MAX <? end_) then mret false
    else if start <? USERSPACE_VA_MIN then mret false
    else
      r ← st_for (fun va =>
        pte ← walk pagetable va false false;
        if pte =? 0 then mret (Some false)
        else
          e ← read_pte pte;
          if negb (pte_is_present e) then mret (Some false)
          else if negb (pte_is_user e) then mret (Some false)
          else if writable && negb (pte_is_writable e) then mret (Some false)
          else mret None)
        (page_range (PAGE_ROUND_DOWN start) (PAGE_ROUND_UP end_));
      mret (default true r).

(** State of the [while] loop of [vmm_copy_user_string]: [kernel_buf],
    [current_page] and [current_page_valid]; [copied] counts up to
    [max_len - 1], [k] iterations are left. *)
Fixpoint copy_user_string_loop (k : nat) (pagetable user_addr copied : Z) (kernel_buf : mem)
    (current_page : Z) (current_page_valid : bool) : ST pmem (option Z * mem) :=
  match k with
  | O => mret (None, kernel_buf)
  | S k' =>
      let va := wrap 64 (user_addr + copied) in
      let crossed := negb (PAGE_ROUND_DOWN va =? current_page) in
      let current_page := if crossed then PAGE_ROUND_DOWN va else current_page in
      let current_page_valid := if crossed then false else current_page_valid in
      ok ← (if current_page_valid then mret true
            else
              pte ← walk pagetable current_page false false;
              if pte =? 0 then mret false
              else
                e ← read_pte pte;
                mret (pte_is_present e && pte_is_user e));
      if negb ok then mret (Some (-1), kernel_buf)
      else
        pa ← vmm_walkaddr pagetable va true;
        if pa =? 0 then mret (Some (-1), kernel_buf)
        else
          c ← reads (fun s => ram s (P2V s pa));
          let kernel_buf := store8 kernel_buf copied c in
          if c =? 0 then mret (Some (sgn 32 copied), kernel_buf)
          else copy_user_string_loop k' pagetable user_addr (copied + 1) kernel_buf
                 current_page true
  end.

(** [vmm_copy_user_string]: the result and the buffer. *)
Definition vmm_copy_user_string (pagetable user_str : Z) (kernel_buf : mem) (max_len : Z)
    : ST pmem (Z * mem) :=
  if (user_str =? 0) || (max_len =? 0) then mret (-1, kernel_buf)
  else if (USERSPACE_VA_MAX <=? user_str) || (user_str <? USERSPACE_VA_MIN)
       then mret (-1, kernel_buf)
  else
    '(r, buf) ← copy_user_string_loop (Z.to_nat (max_len - 1)) pagetable user_str 0 kernel_buf
                  (PAGE_ROUND_DOWN user_str) false;
    match r with
    | Some v => mret (v, buf)
    | None => mret (-1, store8 buf (max_len - 1) 0)
    end.

(** ** Page table entries *)

Lemma PTE_ADDR_eq e : PTE_ADDR e = wrap 52 e - e mod 4096.
Proof.
  unfold PTE_ADDR.
  change PTE_ADDR_MASK with (Z.land (Z.lnot (Z.ones 12)) (Z.ones 52)).
  apply land_hi_mask. lia.
Qed.

(** A physical page frame number's address. *)
Definition is_frame (pa : Z) : Prop := 0 <= pa < 2 ^ 52 /\ pa mod 4096 = 0.

Lemma PTE_SET_ADDR_frame pa : is_frame pa -> PTE_SET_ADDR pa = pa.
Proof.
  intros [H1 H2]. unfold PTE_SET_ADDR. rewrite wrap_small by lia.
  change (Z.land pa PTE_ADDR_MASK) with (PTE_ADDR pa).
  rewrite PTE_ADDR_eq, wrap_small by lia. lia.
Qed.

Lemma frame_low_bits pa k : is_frame pa -> 0 <= k < 12 -> Z.testbit pa k = false.
Proof.
  intros [_ H] Hk. rewrite <- (Z.mod_pow2_bits_low pa 12) by lia.
  change (2 ^ 12) with 4096. by rewrite H, Z.bits_0.
Qed.

Lemma frame_high_bits pa k : is_frame pa -> 52 <= k -> Z.testbit pa k = false.
Proof. intros [H _] Hk. apply (testbit_range 52); lia. Qed.

(** Flags are read back with [testbit]. *)
Ltac pte_bits :=
  unfold pte_is_present, pte_is_user, pte_is_writable, pte_is_huge,
    PTE_P, PTE_W, PTE_U, PTE_PS, PTE_XD;
  rewrite ?truth_land_bit by lia; rewrite ?Z.lor_spec;
  rewrite ?PTE_SET_ADDR_frame by done;
  repeat match goal with
  | H : is_frame ?pa |- context [Z.testbit ?pa ?k] =>
      first [rewrite (frame_low_bits pa k H) by lia | rewrite (frame_high_bits pa k H) by lia]
  end; try reflexivity.

Lemma follow_frame pa flags : is_frame pa -> Z.land flags PTE_ADDR_MASK = 0 ->
  pte_follow (Z.lor flags pa) = pa.
Proof.
  intros H Hf. unfold pte_follow, PTE_ADDR. rewrite Z.land_lor_distr_l, Hf, Z.lor_0_l.
  change (PTE_ADDR pa = pa). rewrite PTE_ADDR_eq. destruct H. rewrite wrap_small by lia. lia.
Qed.

Ltac lor_bounds :=
  repeat lazymatch goal with
  | |- 0 <= Z.lor _ _ < 2 ^ _ => apply lor_range
  | |- 0 <= ?x < 2 ^ _ => first [is_var x; lia | vm_compute; split; congruence]
  | |- _ => lia
  end.

Lemma build_pte_range pa p : is_frame pa -> 0 <= build_pte pa p < 2 ^ 64.
Proof.
  intros Hpa. unfold build_pte. rewrite (PTE_SET_ADDR_frame pa Hpa). destruct Hpa.
  destruct p as [[] [] []]; cbn [writable executable userspace]; lor_bounds.
Qed.

(** The entry [vmm_map_pages] builds round-trips: its address field is
    the frame and each permission bit is the permission asked for. *)
Theorem build_pte_roundtrip pa p : is_frame pa ->
  pte_follow (build_pte pa p) = pa /\ pte_is_present (build_pte pa p) = true /\
  pte_is_writable (build_pte pa p) = writable p /\ pte_is_user (build_pte pa p) = userspace p /\
  truth (Z.land (build_pte pa p) PTE_XD) = negb (executable p) /\
  pte_is_huge (build_pte pa p) = false /\ 0 <= build_pte pa p < 2 ^ 64.
Proof.
  intros Hpa. assert (0 <= build_pte pa p < 2 ^ 64) as HR by (by apply build_pte_range).
  unfold build_pte in *. rewrite (PTE_SET_ADDR_frame pa Hpa) in *. split_and!.
  - destruct p as [[] [] []]; cbn [writable executable userspace];
      unfold pte_follow, PTE_ADDR; rewrite !Z.land_lor_distr_l;
      change (Z.land pa PTE_ADDR_MASK) with (PTE_ADDR pa);
      rewrite PTE_ADDR_eq; destruct Hpa; rewrite wrap_small by lia;
      replace (pa - pa mod 4096) with pa by lia;
      repeat (rewrite ?Z.lor_0_r, ?Z.lor_0_l;
        match goal with |- context [Z.land ?f PTE_ADDR_MASK] =>
          change (Z.land f PTE_ADDR_MASK) with 0 end); by rewrite ?Z.lor_0_r, ?Z.lor_0_l.
  - destruct p as [[] [] []]; cbn [writable executable userspace]; pte_bits.
  - destruct p as [[] [] []]; cbn [writable executable userspace]; pte_bits.
  - destruct p as [[] [] []]; cbn [writable executable userspace]; pte_bits.
  - destruct p as [[] [] []]; cbn [writable executable userspace]; pte_bits.
  - destruct p as [[] [] []]; cbn [writable executable userspace]; pte_bits.
  - apply HR.
  - apply HR.
Qed.

(** ** Page tables as trees *)

(** The number of the [2 ^ (12 + 9 * k)]-byte unit [va] lies in. *)
Definition vpn (k : nat) (va : Z) : Z := va / 2 ^ (12 + 9 * Z.of_nat k).

Lemma vpn_S k va : vpn (S k) va = vpn k va / 512.
Proof.
  unfold vpn. rewrite Z.div_div by (try apply Z.pow_pos_nonneg; lia).
  change 512 with (2 ^ 9). rewrite <- Z.pow_add_r by lia. do 2 f_equal. lia.
Qed.

Lemma index_vpn k va : PTE_INDEX_FROM_VA va (Z.of_nat k) = vpn k va mod 512.
Proof.
  unfold PTE_INDEX_FROM_VA, vpn.
  change (Z.shiftl 1 9 - 1) with (Z.ones 9). rewrite Z.land_ones by lia.
  rewrite Z.shiftr_shiftr, Z.shiftr_div_pow2 by lia. do 3 f_equal. lia.
Qed.

Lemma vpn_index k va : vpn k va = 512 * vpn (S k) va + PTE_INDEX_FROM_VA va (Z.of_nat k).
Proof. rewrite vpn_S, index_vpn. apply Z.div_mod. lia. Qed.

Lemma index_range k va : 0 <= PTE_INDEX_FROM_VA va (Z.of_nat k) < 512.
Proof. rewrite index_vpn. apply Z.mod_pos_bound. lia. Qed.

Lemma vpn_nonneg k va : 0 <= va -> 0 <= vpn k va.
Proof. intros. apply Z.div_pos; [done|]. apply Z.pow_pos_nonneg; lia. Qed.

Lemma vpn_above va : 0 <= va < 2 ^ 48 -> vpn 4 va = 0.
Proof. intros. unfold vpn. apply Z.div_small. change (2 ^ (12 + 9 * Z.of_nat 4)) with (2 ^ 48). lia. Qed.

(** The addresses a tree of tables is about, as the 48 bits the walk looks at;
    where nothing else is said, those of the user. *)
Class va_space := {
  va_covered : Z -> Prop;
  va_covered_range va : va_covered va -> 0 <= va < 2 ^ 48
}.
#[export] Instance user_space : va_space.
Proof. refine {| va_covered va := 0 <= va < 2 ^ 46 |}. intros. lia. Defined.

Definition entry (s : pmem) (t i : Z) : Z := load64 (ram s) (t + 8 * i).

(** What the hardware's walk from table [t] of level [k] makes of [va]: the
    leaf entry, when every level is present. *)
Fixpoint translate_from (k : nat) (s : pmem) (t va : Z) : option Z :=
  let e := entry s t (PTE_INDEX_FROM_VA va (Z.of_nat k)) in
  if pte_is_present e then
    match k with
    | O => Some e
    | S k' => translate_from k' s (P2V s (pte_follow e)) va
    end
  else None.
Definition translate (s : pmem) (root va : Z) : option Z := translate_from 3 s root va.

(** Writes into the page of table [t]. *)
Definition in_page (t x : Z) : Prop := t <= x < t + 4096.

Section space.
Context {R : va_space}.

Lemma vpn_top va : va_covered va -> vpn 4 va = 0.
Proof. intros. by apply vpn_above, va_covered_range. Qed.

(** The [p]-th unit of that size has an address the tree is about. *)
Definition unit_covered (k : nat) (p : Z) : Prop := exists va, va_covered va /\ vpn k va = p.
Lemma vpn_covered k va : va_covered va -> unit_covered k (vpn k va).
Proof. intros. by exists va. Qed.

(** The tables of an address space, [T] giving the page of the table of level
    [k] for the addresses with [vpn (S k) va = p].  Only addresses the tree is
    about matter; for the user's tables, what the kernel half holds is free. *)
Record pt_wf (s : pmem) (l : list Z) (root : Z) (T : gmap (nat * Z) Z) : Prop := {
  pt_mem : pmem_wf s l;
  pt_frames : Forall (fun p => is_frame (p - hhdm_offset s)) (avail s l);
  pt_root : T !! (3%nat, 0) = Some root;
  pt_page k p t : T !! (k, p) = Some t ->
    (k <= 3)%nat /\ is_page t /\ t ∉ avail s l /\ ((k < 3)%nat -> is_Some (T !! (S k, p / 512))) /\
    unit_covered (S k) p;
  pt_inj x y t : T !! x = Some t -> T !! y = Some t -> x = y;
  pt_child k p i t : T !! (S k, p) = Some t -> 0 <= i < 512 ->
    unit_covered (S k) (512 * p + i) ->
    if pte_is_present (entry s t i)
    then T !! (k, 512 * p + i) = Some (P2V s (pte_follow (entry s t i)))
    else T !! (k, 512 * p + i) = None
}.

(** The leaf table of [va] answers for it. *)
Definition leaf_entry (s : pmem) (T : gmap (nat * Z) Z) (va : Z) : option Z :=
  t0 ← T !! (0%nat, vpn 1 va);
  let e := entry s t0 (PTE_INDEX_FROM_VA va 0) in
  if pte_is_present e then Some e else None.

Section tree.
Context (s : pmem) (l : list Z) (root : Z) (T : gmap (nat * Z) Z) (Hwf : pt_wf s l root T).

Lemma no_ancestor_no_leaf k va : (k < 3)%nat -> T !! (k, vpn (S k) va) = None ->
  T !! (0%nat, vpn 1 va) = None.
Proof.
  intros Hk. induction k as [|k IH]; [done|]. intros HN. apply IH; [lia|].
  destruct (T !! (k, vpn (S k) va)) as [t|] eqn:E; [|done].
  apply (pt_page _ _ _ _ Hwf) in E as (_ & _ & _ & HP & _). rewrite <- vpn_S in HP.
  destruct HP as [? HP]; [lia|]. congruence.
Qed.

Lemma child_step k va t : va_covered va -> T !! (S k, vpn (S (S k)) va) = Some t ->
  let e := entry s t (PTE_INDEX_FROM_VA va (Z.of_nat (S k))) in
  if pte_is_present e then T !! (k, vpn (S k) va) = Some (P2V s (pte_follow e))
  else T !! (k, vpn (S k) va) = None.
Proof.
  intros Hva Ht e. pose proof (vpn_index (S k) va) as E.
  pose proof (pt_child _ _ _ _ Hwf k _ (PTE_INDEX_FROM_VA va (Z.of_nat (S k))) t Ht
    (index_range _ _)) as H.
  rewrite <- E in H. apply H. by apply vpn_covered.
Qed.

Lemma translate_leaf k va t : (k <= 3)%nat -> va_covered va ->
  T !! (k, vpn (S k) va) = Some t -> translate_from k s t va = leaf_entry s T va.
Proof.
  intros Hk Hva. revert t. induction k as [|k IH]; intros t Ht.
  - unfold leaf_entry. rewrite Ht. done.
  - pose proof (child_step k va t Hva Ht) as H. cbn [translate_from]. cbv zeta in *.
    destruct (pte_is_present _).
    + apply IH; [lia|done].
    + unfold leaf_entry. by rewrite (no_ancestor_no_leaf k) by (done || lia).
Qed.

Lemma translate_root va : va_covered va -> translate s root va = leaf_entry s T va.
Proof.
  intros Hva. apply translate_leaf; [lia|done|]. rewrite vpn_top by done. apply Hwf.
Qed.

(** [walk] without allocation finds the leaf entry's address and changes nothing. *)
Lemma walk_levels_lookup k fl va t : (k <= 3)%nat -> va_covered va ->
  T !! (k, vpn (S k) va) = Some t ->
  walk_levels k fl t va false s =
  (match T !! (0%nat, vpn 1 va) with
   | Some t0 => t0 + 8 * PTE_INDEX_FROM_VA va 0
   | None => 0
   end, s).
Proof.
  intros Hk Hva. revert t. induction k as [|k IH]; intros t Ht.
  - by rewrite Ht.
  - pose proof (child_step k va t Hva Ht) as H. cbn [walk_levels]. cbv zeta in *.
    unfold entry in *. destruct (pte_is_present _).
    + apply IH; [lia|done].
    + by rewrite (no_ancestor_no_leaf k) by (done || lia).
Qed.

End tree.

(** *** Linking a new table *)

Lemma entry_ext s s' t i :
  (forall x, in_page t x -> ram s' x = ram s x) -> 0 <= i < 512 -> entry s' t i = entry s t i.
Proof. intros H Hi. apply load_le_ext. intros. apply H. unfold in_page. lia. Qed.

Lemma entry_store s m t i v : ram s = store64 m (t + 8 * i) v -> 0 <= v < 2 ^ 64 ->
  entry s t i = v.
Proof. intros H Hv. unfold entry. by rewrite H, load64_store64, wrap_small. Qed.

Lemma entry_store_ne s m t i v j : ram s = store64 m (t + 8 * i) v -> i <> j ->
  entry s t j = load64 m (t + 8 * j).
Proof. intros H Hij. unfold entry. rewrite H. apply load64_store64_out. lia. Qed.

Lemma in_page_disjoint p q x : is_page p -> is_page q -> in_page p x -> in_page q x -> p = q.
Proof.
  intros (_ & _ & Hp) (_ & _ & Hq) Hx Hy. unfold in_page in *.
  destruct (Z.eq_dec p q); [done|].
  destruct (pages_disjoint p q); try done; lia.
Qed.

Lemma store64_in_page m t i v x : 0 <= i < 512 -> ~ in_page t x ->
  store64 m (t + 8 * i) v x = m x.
Proof. intros Hi Hx. apply store_le_out. unfold in_page in Hx. lia. Qed.

Lemma pmem_wf_page_write s l p m : pmem_wf s l -> p mod 4096 = 0 -> p ∉ l ->
  (forall x, ~ in_page p x -> m x = ram s x) -> pmem_wf (set_ram s m) l.
Proof.
  intros [Hc Hp Hr Ho Hn] Hpg Hnot E. constructor; try done. simpl.
  eapply chain_off_page; eauto. intros. apply E. unfold in_page. lia.
Qed.

Lemma kalloc_consts s : hhdm_offset (kalloc s).2 = hhdm_offset s.
Proof.
  unfold kalloc, pop_free_page, alloc_from_regions_for_page_cache.
  repeat (match goal with
          | |- context [if ?b then _ else _] => destruct b
          | |- context [match carve_page ?r with _ => _ end] => destruct (carve_page r) as [[? ?]|]
          end; try done).
Qed.

Lemma P2V_V2P s p : is_frame (p - hhdm_offset s) -> 0 <= p < 2 ^ 64 ->
  V2P s p = p - hhdm_offset s /\ P2V s (p - hhdm_offset s) = p.
Proof.
  intros [H _] Hp. unfold V2P, P2V. split; apply wrap_small || rewrite wrap_small; lia.
Qed.

(** The flags [walk] and [walk_kernel] link tables with. *)
Definition link_ok (fl : Z) : Prop :=
  0 <= fl < 2 ^ 64 /\ Z.testbit fl 0 = true /\ Z.land fl PTE_ADDR_MASK = 0.

Lemma link_entry fl pa : link_ok fl -> is_frame pa ->
  let e := Z.lor fl (PTE_SET_ADDR pa) in
  0 <= e < 2 ^ 64 /\ pte_is_present e = true /\ pte_follow e = pa.
Proof.
  intros (H1 & H2 & H3) Hpa. cbv zeta. rewrite (PTE_SET_ADDR_frame pa Hpa).
  split; [|split].
  - apply lor_range; destruct Hpa; lia.
  - unfold pte_is_present, PTE_P. rewrite truth_land_bit, Z.lor_spec, H2 by lia. done.
  - by apply follow_frame.
Qed.

(** The tree part of the invariant when an absent entry is linked to a
    cleared page. *)
Section link.
Context (s s3 : pmem) (l : list Z) (root : Z) (T : gmap (nat * Z) Z) (Hwf : pt_wf s l root T).
Context (k : nat) (p i t table : Z).
Hypothesis Ht : T !! (S k, p) = Some t.
Hypothesis Hi : 0 <= i < 512.
Hypothesis Hrg : unit_covered (S k) (512 * p + i).
Hypothesis Hnp : pte_is_present (entry s t i) = false.
Hypothesis Hold : forall x q j, T !! x = Some q -> 0 <= j < 512 -> (q, j) <> (t, i) ->
  entry s3 q j = entry s q j.
Hypothesis Hnew : pte_is_present (entry s3 t i) = true.
Hypothesis Hto : P2V s3 (pte_follow (entry s3 t i)) = table.
Hypothesis Hzero : forall j, 0 <= j < 512 -> entry s3 table j = 0.
Hypothesis Hoff : hhdm_offset s3 = hhdm_offset s.

Let T3 := <[(k, 512 * p + i) := table]> T.

Lemma link_key_free : T !! (k, 512 * p + i) = None.
Proof. pose proof (pt_child _ _ _ _ Hwf k p i t Ht Hi Hrg) as H. by rewrite Hnp in H. Qed.

Lemma link_children k' p' i' t' : T3 !! (S k', p') = Some t' -> 0 <= i' < 512 ->
  unit_covered (S k') (512 * p' + i') ->
  if pte_is_present (entry s3 t' i')
  then T3 !! (k', 512 * p' + i') = Some (P2V s3 (pte_follow (entry s3 t' i')))
  else T3 !! (k', 512 * p' + i') = None.
Proof.
  pose proof link_key_free as Hfree. unfold T3.
  destruct (pt_page _ _ _ _ Hwf _ _ _ Ht) as (Hk & _).
  intros Ht' Hi' Hrg'. apply lookup_insert_Some in Ht' as [[[= Ek Ep] <-]|[Hne Ht']].
  - rewrite Hzero by done. change (pte_is_present 0) with false. cbv iota.
    apply lookup_insert_None. split; [|intros [=]; lia].
    destruct (T !! (k', 512 * p' + i')) as [q|] eqn:E; [|done]. exfalso.
    destruct (pt_page _ _ _ _ Hwf _ _ _ E) as (_ & _ & _ & [q' Hq'] & _); [lia|].
    replace ((512 * p' + i') / 512) with p' in Hq' by zify_div.
    rewrite <- Ek, <- Ep in Hq'. congruence.
  - destruct (decide ((t', i') = (t, i))) as [[= -> ->]|Hd].
    + rewrite Hnew, Hto. pose proof (pt_inj _ _ _ _ Hwf _ _ _ Ht Ht') as [= -> ->].
      apply lookup_insert_eq.
    + rewrite (Hold (S k', p') t' i') by done.
      pose proof (pt_child _ _ _ _ Hwf k' p' i' t' Ht' Hi' Hrg') as H.
      assert ((k, 512 * p + i) <> (k', 512 * p' + i')) as Hkey.
      { intros [= -> E]. assert (p' = p /\ i' = i) as [-> ->] by lia.
        apply Hd. f_equal. congruence. }
      unfold P2V in *. rewrite Hoff.
      destruct (pte_is_present _); by rewrite lookup_insert_ne.
Qed.

Lemma link_leaf va : leaf_entry s3 T3 va = leaf_entry s T va.
Proof.
  pose proof link_key_free as Hfree. unfold leaf_entry, T3.
  destruct (decide ((k, 512 * p + i) = (0%nat, vpn 1 va))) as [[= Ek Ep]|Hd].
  - rewrite Ek, Ep in Hfree |- *. rewrite Hfree, lookup_insert_eq. simpl.
    pose proof (index_range 0 va). simpl in H. rewrite Hzero by done. done.
  - rewrite lookup_insert_ne by done. destruct (T !! (0%nat, vpn 1 va)) as [t0|] eqn:E; [|done].
    simpl. rewrite (Hold (0%nat, vpn 1 va)); [done|done|apply (index_range 0)|].
    intros [= -> _]. pose proof (pt_inj _ _ _ _ Hwf _ _ _ Ht E). done.
Qed.

End link.

(** What allocating tables may change: nothing outside of the tables. *)
Definition only_tables (T : gmap (nat * Z) Z) (s s' : pmem) : Prop :=
  hhdm_offset s' = hhdm_offset s /\
  forall x, (forall k t, T !! k = Some t -> ~ in_page t x) -> ram s' x = ram s x.

Lemma only_tables_trans T T' s s' s'' :
  T ⊆ T' -> only_tables T s s' -> only_tables T' s' s'' -> only_tables T' s s''.
Proof.
  intros HT [H1 H2] [H3 H4]. split; [congruence|]. intros x Hx. rewrite H4 by done.
  apply H2. intros k t Hk. apply (Hx k). by eapply lookup_weaken.
Qed.

(** A page taken from the allocator, cleared and linked below the absent
    entry [i] of the table [t]. *)
Lemma link_child s l root T fl k p i t table s1 :
  pt_wf s l root T -> link_ok fl -> T !! (S k, p) = Some t -> 0 <= i < 512 ->
  unit_covered (S k) (512 * p + i) ->
  pte_is_present (entry s t i) = false -> kalloc s = (table, s1) -> table <> 0 ->
  let s2 := set_ram s1 (fill (ram s1) table 0 PAGE_SIZE) in
  let s3 := set_ram s2 (store64 (ram s2) (t + 8 * i) (Z.lor fl (PTE_SET_ADDR (V2P s2 table)))) in
  let T3 := <[(k, 512 * p + i) := table]> T in
  exists l3, pt_wf s3 l3 root T3 /\ avail s l ≡ₚ table :: avail s3 l3 /\
    (forall va, leaf_entry s3 T3 va = leaf_entry s T va) /\ only_tables T3 s s3 /\ T ⊆ T3.
Proof.
  intros Hwf Hfl Ht Hi Hrg Hnp Hk Htab s2 s3 T3.
  pose proof (kalloc_spec s l (pt_mem _ _ _ _ Hwf)) as HK.
  pose proof (kalloc_consts s) as Hoff. rewrite Hk in HK, Hoff. simpl in Hoff.
  destruct HK as [[(? & _)|(Htp & l' & Hwf1 & HA & HM)] _]; [done|].
  destruct (avail_head_fresh _ _ _ _ _ (pt_mem _ _ _ _ Hwf) HA) as [Hf1 Hf2].
  destruct (pt_page _ _ _ _ Hwf _ _ _ Ht) as (Hk3 & Htpage & Htav & _).
  assert (forall q, q ∉ avail s l -> q <> table /\ q ∉ avail s1 l') as Hav.
  { intros q. rewrite HA, not_elem_of_cons. done. }
  assert (is_frame (table - hhdm_offset s)) as Hfr.
  { pose proof (pt_frames _ _ _ _ Hwf) as F. rewrite HA in F. by apply Forall_cons in F as [? _]. }
  destruct (Hav t Htav) as [Hne Htl].
  destruct (link_entry fl _ Hfl Hfr) as (He1 & He2 & He3).
  destruct (P2V_V2P s table Hfr ltac:(destruct Htp; lia)) as [HV HP].
  assert (V2P s2 table = table - hhdm_offset s) as HV2
    by (unfold s2, V2P in *; simpl; by rewrite Hoff).
  assert (forall x, ~ in_page table x -> ram s2 x = ram s x) as H2.
  { intros x Hx. unfold s2, in_page in *. simpl. rewrite fill_out by (unfold PAGE_SIZE; lia).
    apply HM. lia. }
  assert (ram s3 = store64 (ram s2) (t + 8 * i) (Z.lor fl (PTE_SET_ADDR (table - hhdm_offset s))))
    as H3 by (unfold s3; simpl; by rewrite HV2).
  assert (entry s3 t i = Z.lor fl (PTE_SET_ADDR (table - hhdm_offset s))) as Hent
    by (by eapply entry_store).
  assert (forall q j, q <> table -> is_page q -> 0 <= j < 512 -> (q, j) <> (t, i) ->
            entry s3 q j = entry s q j) as Hold.
  { intros q j Hqt Hqp Hj Hqj. transitivity (entry s2 q j).
    - destruct (decide (q = t)) as [->|Hd].
      + eapply entry_store_ne; [exact H3|congruence].
      + apply entry_ext; [|done]. intros x Hx. rewrite H3, store64_in_page; try done.
        intros Hx'. apply Hd. by eapply in_page_disjoint.
    - apply entry_ext; [|done]. intros x Hx. apply H2. intros Hx'. apply Hqt.
      by eapply in_page_disjoint. }
  assert (forall x q j, T !! x = Some q -> 0 <= j < 512 -> (q, j) <> (t, i) ->
            entry s3 q j = entry s q j) as Hold'.
  { intros [k' p'] q j Hq. destruct (pt_page _ _ _ _ Hwf _ _ _ Hq) as (_ & Hqp & Hqa & _).
    apply Hold; [by apply Hav|done]. }
  assert (forall j, 0 <= j < 512 -> entry s3 table j = 0) as Hzero.
  { intros j Hj. transitivity (entry s2 table j).
    - apply entry_ext; [|done]. intros x Hx. rewrite H3, store64_in_page; try done.
      intros Hx'. apply Hne. by eapply in_page_disjoint.
    - unfold entry, s2. simpl. apply load_fill0; unfold PAGE_SIZE; lia. }
  assert (P2V s3 (pte_follow (entry s3 t i)) = table) as Hto.
  { rewrite Hent, He3. unfold P2V in *. simpl. by rewrite Hoff. }
  assert (pte_is_present (entry s3 t i) = true) as Hpres by (by rewrite Hent).
  pose proof (link_key_free _ _ _ _ Hwf _ _ _ _ Ht Hi Hrg Hnp) as Hfree.
  assert (T ⊆ T3) as Hsub by (by apply insert_subseteq).
  exists l'. split_and!; [|by apply HA| | |done].
  - constructor.
    + apply (pmem_wf_page_write _ _ t); [|apply Htpage| |].
      * apply (pmem_wf_fill s1); [done|apply Htp|done].
      * intros HX. apply Htl. unfold avail. apply elem_of_app. by left.
      * intros x Hx. by rewrite store64_in_page.
    + pose proof (pt_frames _ _ _ _ Hwf) as F. rewrite HA in F. apply Forall_cons in F as [_ F].
      simpl. by rewrite Hoff.
    + eapply lookup_weaken; [|done]. apply Hwf.
    + intros k' p' t' Ht'. apply lookup_insert_Some in Ht' as [[[= <- <-] <-]|[_ Ht']].
      * split_and!; [lia|done|done| |done]. intros _.
        replace ((512 * p + i) / 512) with p by zify_div.
        eapply mk_is_Some, lookup_weaken; done.
      * destruct (pt_page _ _ _ _ Hwf _ _ _ Ht') as (? & ? & Hn & HP' & ?).
        split_and!; try done; [by apply Hav|]. intros Hlt. destruct (HP' Hlt) as [q Hq].
        eapply mk_is_Some, lookup_weaken; done.
    + intros x y q Hx Hy.
      assert (forall z, T !! z <> Some table) as Hnew.
      { intros [k' p'] Hz. destruct (pt_page _ _ _ _ Hwf _ _ _ Hz) as (_ & _ & Hn & _).
        by apply Hav in Hn as [? _]. }
      apply lookup_insert_Some in Hx as [[<- <-]|[_ Hx]];
        apply lookup_insert_Some in Hy as [[<- Hy']|[_ Hy]]; try done.
      * by apply Hnew in Hy.
      * subst q. by apply Hnew in Hx.
      * by eapply pt_inj.
    + intros. eapply (link_children s s3 l root T); eauto.
  - intros va. eapply (link_leaf s s3 l root T); eauto.
  - split; [done|]. intros x Hx. rewrite H3, store64_in_page; [|done|].
    + apply H2. eapply Hx. apply lookup_insert_eq.
    + eapply Hx. by eapply lookup_weaken.
Qed.

(** The pages [used] are taken; the new tables are among them. *)
Definition new_tables (s : pmem) (l : list Z) (T : gmap (nat * Z) Z) (s' : pmem) (l' : list Z)
    (T' : gmap (nat * Z) Z) (used : list Z) : Prop :=
  avail s l ≡ₚ used ++ avail s' l' /\ forall k t, T' !! k = Some t -> T !! k = Some t \/ t ∈ used.

Lemma new_tables_refl s l T : new_tables s l T s l T [].
Proof. split; [done|by left]. Qed.

Lemma new_tables_trans s l T s1 l1 T1 s2 l2 T2 u1 u2 :
  new_tables s l T s1 l1 T1 u1 -> new_tables s1 l1 T1 s2 l2 T2 u2 -> new_tables s l T s2 l2 T2 (u1 ++ u2).
Proof.
  intros [H1 H2] [H3 H4]. split; [by rewrite H1, H3, app_assoc|]. intros k t [Hk|Hk]%H4.
  - apply H2 in Hk as [?|?]; [by left|right]. apply elem_of_app. by left.
  - right. apply elem_of_app. by right.
Qed.

(** [walk] with allocation: null only when no page is left; otherwise the
    leaf table of [va] exists afterwards.  No translation changes. *)
Lemma walk_levels_alloc k fl va t s l root T :
  pt_wf s l root T -> link_ok fl -> va_covered va -> T !! (k, vpn (S k) va) = Some t ->
  let '(p, s') := walk_levels k fl t va true s in
  exists l' T' used, pt_wf s' l' root T' /\ T ⊆ T' /\ only_tables T' s s' /\
    new_tables s l T s' l' T' used /\ (length used <= k)%nat /\
    (forall va', leaf_entry s' T' va' = leaf_entry s T va') /\
    ((p = 0 /\ avail s' l' = [] /\ (length used < k)%nat) \/
     (exists t0, T' !! (0%nat, vpn 1 va) = Some t0 /\ p = t0 + 8 * PTE_INDEX_FROM_VA va 0 /\ p <> 0)).
Proof.
  intros Hwf Hfl Hva. revert t s l T Hwf. induction k as [|k IH]; intros t s l T Hwf Ht.
  - simpl. exists l, T, []. split_and!; try done; [apply new_tables_refl|].
    right. exists t. split; [done|]. split; [done|].
    destruct (pt_page _ _ _ _ Hwf _ _ _ Ht) as (_ & Hp & _). pose proof (index_range 0 va).
    change (Z.of_nat 0) with 0 in H. destruct Hp; lia.
  - pose proof (child_step s l root T Hwf k va t Hva Ht) as HC. cbn [walk_levels]. cbv zeta in *.
    fold (entry s t (PTE_INDEX_FROM_VA va (Z.of_nat (S k)))).
    destruct (pte_is_present (entry _ _ _)) eqn:EP.
    + specialize (IH _ s l T Hwf HC). destruct (walk_levels k fl _ va true s) as [p s'].
      destruct IH as (l' & T' & used & ? & ? & ? & ? & ? & ? & HR'). exists l', T', used.
      split_and!; try done; [lia|]. destruct HR' as [(? & ? & ?)|?]; [left|by right]. split_and!; try done; lia.
    + change (negb true) with false. cbv iota. destruct (kalloc s) as [table s1] eqn:EK.
      destruct (Z.eqb_spec table 0) as [->|Htab].
      * pose proof (kalloc_spec s l (pt_mem _ _ _ _ Hwf)) as HK.
        rewrite EK in HK.
        destruct HK as [[(_ & -> & HA)|([? _] & _)] _]; [|lia].
        exists l, T, []. split_and!; try done; [apply new_tables_refl|cbn; lia|]. left. split_and!; try done. cbn; lia.
      * pose proof (vpn_index (S k) va) as EV.
        pose proof (vpn_covered (S k) va Hva) as HR. rewrite EV in HR.
        destruct (link_child s l root T fl k _ _ t table s1 Hwf Hfl Ht (index_range _ _) HR EP EK Htab)
          as (l3 & Hwf3 & HA & HL & HO & HS).
        set (s3 := set_ram _ (store64 _ _ _)) in *.
        rewrite <- EV in *.
        specialize (IH table s3 l3 _ Hwf3 ltac:(apply lookup_insert_eq)).
        destruct (walk_levels k fl table va true s3) as [p s'].
        destruct IH as (l' & T' & used & Hwf' & HS' & HO' & HA' & HU' & HL' & HR').
        exists l', T', (table :: used). split_and!; try done.
        -- by etrans.
        -- eapply only_tables_trans; [|exact HO|done]. done.
        -- apply (new_tables_trans s l T s3 l3 (<[(k, vpn (S k) va) := table]> T) s' l' T' [table] used); [|done].
           split; [done|]. intros q t' [[_ <-]|[_ ?]]%lookup_insert_Some; [right|by left].
           by apply list_elem_of_singleton.
        -- cbn [length]. lia.
        -- intros va'. by rewrite HL', HL.
        -- destruct HR' as [(? & ? & ?)|?]; [left|by right]. cbn [length]. split_and!; try done; lia.
Qed.

(** *** Writing a leaf entry *)

Lemma vpn0_page va : vpn 0 va = va / 4096.
Proof. done. Qed.

Lemma same_leaf va va' : vpn 1 va = vpn 1 va' -> 
  PTE_INDEX_FROM_VA va 0 = PTE_INDEX_FROM_VA va' 0 <-> va / 4096 = va' / 4096.
Proof.
  intros H. pose proof (vpn_index 0 va) as E1. pose proof (vpn_index 0 va') as E2.
  rewrite !vpn0_page in *. change (Z.of_nat 0) with 0 in *. lia.
Qed.

Lemma write_leaf s l root T va t0 e : pt_wf s l root T ->
  T !! (0%nat, vpn 1 va) = Some t0 -> 0 <= e < 2 ^ 64 ->
  let s' := set_ram s (store64 (ram s) (t0 + 8 * PTE_INDEX_FROM_VA va 0) e) in
  pt_wf s' l root T /\ only_tables T s s' /\
  forall va', leaf_entry s' T va' =
    if va' / 4096 =? va / 4096 then (if pte_is_present e then Some e else None)
    else leaf_entry s T va'.
Proof.
  intros Hwf Ht He s'. pose proof (index_range 0 va) as Hi. change (Z.of_nat 0) with 0 in Hi.
  destruct (pt_page _ _ _ _ Hwf _ _ _ Ht) as (_ & Htp & Hta & _).
  assert (forall x q j, T !! x = Some q -> 0 <= j < 512 -> x <> (0%nat, vpn 1 va) ->
            entry s' q j = entry s q j) as Hold.
  { intros [k p] q j Hq Hj Hx. apply entry_ext; [|done]. intros y Hy.
    destruct (pt_page _ _ _ _ Hwf _ _ _ Hq) as (_ & Hqp & _).
    unfold s'. simpl. rewrite store64_in_page; try done. intros Hy'. apply Hx.
    eapply pt_inj; [done..|]. rewrite Ht. f_equal. by eapply in_page_disjoint. }
  split; [|split; [split; [done|]|]].
  - destruct Hwf as [H1 H2 H3 H4 H5 H6]. constructor; try done.
    + apply (pmem_wf_page_write _ _ t0); [done|apply Htp| |].
      * intros H. apply Hta. unfold avail. apply elem_of_app. by left.
      * intros x Hx. by rewrite store64_in_page.
    + intros k p i t Ht' Hi' Hr. rewrite (Hold (S k, p)) by done. by apply H6.
  - intros x Hx. unfold s'. simpl. rewrite store64_in_page; try done. by eapply Hx.
  - intros va'. unfold leaf_entry.
    destruct (decide (vpn 1 va' = vpn 1 va)) as [E|E].
    + rewrite E, Ht. simpl. pose proof (same_leaf va' va E) as Hs.
      destruct (Z.eqb_spec (va' / 4096) (va / 4096)) as [Hq|Hq].
      * apply Hs in Hq. rewrite Hq. unfold entry at 1 2. unfold s'. simpl.
        by rewrite load64_store64, wrap_small.
      * assert (entry s' t0 (PTE_INDEX_FROM_VA va' 0) = entry s t0 (PTE_INDEX_FROM_VA va' 0)) as ->;
          [|done].
        unfold entry, s'. simpl. apply load64_store64_out.
        assert (PTE_INDEX_FROM_VA va' 0 <> PTE_INDEX_FROM_VA va 0) by (by intros ?%Hs). lia.
    + destruct (Z.eqb_spec (va' / 4096) (va / 4096)) as [Hq|Hq].
      * destruct E. rewrite !vpn_S, !vpn0_page. by rewrite Hq.
      * destruct (T !! (0%nat, vpn 1 va')) as [t1|] eqn:E1; [|done]. simpl.
        rewrite (Hold (0%nat, vpn 1 va')); [done|done|apply (index_range 0)|congruence].
Qed.

(** ** Mapping one page *)

(** What mapping may do to the allocator and the tree of tables. *)
Definition grows (root : Z) (s : pmem) (l : list Z) (T : gmap (nat * Z) Z)
    (s' : pmem) (l' : list Z) (T' : gmap (nat * Z) Z) : Prop :=
  pt_wf s' l' root T' /\ T ⊆ T' /\ only_tables T' s s' /\
  exists used, new_tables s l T s' l' T' used.

Lemma grows_refl root s l T : pt_wf s l root T -> grows root s l T s l T.
Proof. intros. split; [done|]. split; [done|]. split; [by split|]. exists []. apply new_tables_refl. Qed.

Lemma grows_trans root s l T s1 l1 T1 s2 l2 T2 :
  grows root s l T s1 l1 T1 -> grows root s1 l1 T1 s2 l2 T2 -> grows root s l T s2 l2 T2.
Proof.
  intros (H1 & H2 & H3 & u1 & H4) (H5 & H6 & H7 & u2 & H8).
  split; [done|]. split; [|split].
  - by etrans.
  - eapply only_tables_trans; [|exact H3|done]. done.
  - exists (u1 ++ u2). by eapply new_tables_trans.
Qed.

End space.

(** A user address, as [walk] accepts it. *)
Definition user_va (va : Z) : Prop := USERSPACE_VA_MIN <= va < USERSPACE_VA_MAX.

Lemma user_va_range va : user_va va -> 0 <= va < 2 ^ 46.
Proof. unfold user_va, USERSPACE_VA_MIN, USERSPACE_VA_MAX. lia. Qed.

Lemma walk_user root va alloc s : user_va va ->
  walk root va alloc false s =
  Ret (walk_levels 3 (Z.lor (Z.lor PTE_P PTE_W) PTE_U) root va alloc s).
Proof.
  intros [H1 H2]. unfold walk. destruct (Z.leb_spec USERSPACE_VA_MAX va); [lia|].
  destruct (Z.ltb_spec va USERSPACE_VA_MIN); [lia|]. done.
Qed.

Lemma link_ok_user : link_ok (Z.lor (Z.lor PTE_P PTE_W) PTE_U).
Proof. split_and!; try (vm_compute; congruence); done. Qed.

Lemma walk_alloc_user s l root T va : pt_wf s l root T -> user_va va ->
  exists p s' l' T', walk root va true false s = Ret (p, s') /\
    grows root s l T s' l' T' /\ (forall va', leaf_entry s' T' va' = leaf_entry s T va') /\
    ((p = 0 /\ avail s' l' = []) \/
     (exists t0, T' !! (0%nat, vpn 1 va) = Some t0 /\ p = t0 + 8 * PTE_INDEX_FROM_VA va 0 /\ p <> 0)).
Proof.
  intros Hwf Hva. pose proof (user_va_range va Hva) as Hr. rewrite walk_user by done.
  pose proof (walk_levels_alloc 3 _ va root s l root T Hwf link_ok_user Hr
    ltac:(rewrite vpn_top by done; apply Hwf)) as H.
  destruct (walk_levels _ _ _ _ _ _) as [p s'].
  destruct H as (l' & T' & used & H1 & H2 & H3 & H4 & _ & H5 & H6).
  exists p, s', l', T'. split; [done|]. split; [|split; [done|destruct H6 as [(? & ? & _)|?]; [by left|by right]]].
  split; [done|]. split; [done|]. split; [done|]. by exists used.
Qed.

Lemma leaf_entry_eq s T va t0 : T !! (0%nat, vpn 1 va) = Some t0 ->
  leaf_entry s T va =
  let e := load64 (ram s) (t0 + 8 * PTE_INDEX_FROM_VA va 0) in
  if pte_is_present e then Some e else None.
Proof. intros H. unfold leaf_entry. by rewrite H. Qed.

Lemma map_one_page_spec s l root T va pa perm : pt_wf s l root T -> user_va va ->
  is_frame pa -> leaf_entry s T va = None ->
  exists r s' l' T', map_one_page root va pa perm s = Ret (r, s') /\ grows root s l T s' l' T' /\
    ((r = Some (-1) /\ avail s' l' = [] /\ (forall va', leaf_entry s' T' va' = leaf_entry s T va')) \/
     (r = None /\ forall va', leaf_entry s' T' va' =
        if va' / 4096 =? va / 4096 then Some (build_pte pa perm) else leaf_entry s T va')).
Proof.
  intros Hwf Hva Hpa Hun.
  destruct (walk_alloc_user s l root T va Hwf Hva) as (p & s1 & l1 & T1 & HW & HG & HL & HR).
  unfold map_one_page. unfold mbind, st_bind. rewrite HW.
  destruct HR as [[-> HA]|(t0 & Ht & -> & Hp)].
  - exists (Some (-1)), s1, l1, T1. split_and!; try done. by left.
  - apply Z.eqb_neq in Hp. rewrite Hp. unfold read_pte, reads.
    pose proof (HL va) as HLv. rewrite Hun, (leaf_entry_eq _ _ _ _ Ht) in HLv. cbv zeta in HLv.
    destruct (pte_is_present (load64 _ _)); [done|].
    pose proof (build_pte_range pa perm Hpa) as Hb.
    pose proof HG as (Hwf1 & _).
    destruct (write_leaf s1 l1 root T1 va t0 _ Hwf1 Ht Hb) as (Hwf2 & HO & HW2).
    unfold write_pte, st_modify. eexists None, _, l1, T1. split; [done|]. split.
    + eapply grows_trans; [exact HG|]. split_and!; try done. exists []. by split; [|left].
    + right. split; [done|]. intros va'. rewrite HW2.
      destruct (build_pte_roundtrip pa perm Hpa) as (_ & -> & _).
      by rewrite HL.
Qed.

(** ** Mapping a range *)

Lemma st_for_cons {S B R} (f : B -> ST S (option R)) b l s :
  st_for f (b :: l) s =
  match f b s with
  | Ret (None, s') => st_for f l s'
  | Ret (Some r, s') => Ret (Some r, s')
  | Panic m => Panic m
  | Undef => Undef
  | NoFuel => NoFuel
  end.
Proof. unfold st_for. simpl. destruct (f b s) as [[[r|] s']|m| |]; done. Qed.

Lemma seqZ_S i n : 0 <= n -> seqZ i (n + 1) = i :: seqZ (i + 1) n.
Proof. intros. rewrite seqZ_cons by lia. unfold Z.succ, Z.pred. do 2 f_equal. lia. Qed.

(** The page-by-page effect of mapping [n] pages from [va] to [pa]. *)
Definition mapped_range (va n : Z) (e : Z -> Z) (old new : Z -> option Z) : Prop :=
  forall va', 0 <= va' < 2 ^ 46 ->
    new va' = if (va <=? va') && (va' <? va + 4096 * n) then Some (e ((va' - va) / 4096))
              else old va'.

Lemma mapped_range_S va n e old mid new : va mod 4096 = 0 -> 0 <= n ->
  mapped_range va n e old mid ->
  (forall va', new va' = if va' / 4096 =? (va + 4096 * n) / 4096 then Some (e n) else mid va') ->
  mapped_range va (n + 1) e old new.
Proof.
  intros Hva Hn Hm Hnew va' Hr. rewrite Hnew, Hm by done.
  destruct (Z.eqb_spec (va' / 4096) ((va + 4096 * n) / 4096)).
  - assert ((va' - va) / 4096 = n) as <- by zify_div.
    destruct (Z.leb_spec va va'), (Z.ltb_spec va' (va + 4096 * ((va' - va) / 4096 + 1)));
      [done|zify_div..].
  - destruct (Z.leb_spec va va'), (Z.ltb_spec va' (va + 4096 * n)),
      (Z.ltb_spec va' (va + 4096 * (n + 1))); try done; zify_div.
Qed.

Lemma map_loop root va pa perm n : forall k s l T, pt_wf s l root T ->
  va mod 4096 = 0 -> USERSPACE_VA_MIN <= va -> va + 4096 * n <= USERSPACE_VA_MAX ->
  is_frame pa -> pa + 4096 * n <= 2 ^ 52 -> 0 <= k <= n ->
  (forall i, k <= i < n -> leaf_entry s T (va + 4096 * i) = None) ->
  exists r s' l' T' j,
    st_for (fun i => map_one_page root (wrap 64 (va + i * PAGE_SIZE)) (wrap 64 (pa + i * PAGE_SIZE)) perm)
      (seqZ k (n - k)) s = Ret (r, s') /\
    grows root s l T s' l' T' /\ k <= j <= n /\
    ((r = None /\ j = n) \/ (r = Some (-1) /\ j < n /\ avail s' l' = [])) /\
    (forall old, mapped_range va k (fun i => build_pte (pa + 4096 * i) perm) old (leaf_entry s T) ->
       mapped_range va j (fun i => build_pte (pa + 4096 * i) perm) old (leaf_entry s' T')).
Proof.
  intros k s l T Hwf Ha Hlo Hhi Hf Hpa Hk. remember (Z.to_nat (n - k)) as m eqn:Em.
  revert k s l T Hwf Hk Em. induction m as [|m IH]; intros k s l T Hwf Hk Em Hun.
  - rewrite seqZ_nil by lia. exists None, s, l, T, k.
    split; [done|]. split; [by apply grows_refl|]. split; [lia|]. split; [left; split; [done|lia]|done].
  - replace (n - k) with (n - (k + 1) + 1) by lia. rewrite seqZ_S, st_for_cons by lia.
    unfold PAGE_SIZE. unfold USERSPACE_VA_MAX, USERSPACE_VA_MIN in *.
    rewrite (wrap_small 64 (va + _)), (wrap_small 64 (pa + _)) by (destruct Hf; lia).
    replace (k * 4096) with (4096 * k) by lia.
    assert (user_va (va + 4096 * k)) as Hu by (unfold user_va, USERSPACE_VA_MAX, USERSPACE_VA_MIN; lia).
    assert (is_frame (pa + 4096 * k)) as Hfk by (destruct Hf; split; [lia|zify_div]).
    destruct (map_one_page_spec s l root T _ _ perm Hwf Hu Hfk (Hun k ltac:(lia)))
      as (r & s1 & l1 & T1 & -> & HG & [(-> & HA & HL)|(-> & HL)]).
    + exists (Some (-1)), s1, l1, T1, k. split; [done|]. split; [done|]. split; [lia|].
      split; [right; split_and!; [done|lia|done]|].
      intros old Ho va' Hva'. rewrite HL. by apply Ho.
    + destruct (IH (k + 1) s1 l1 T1 ltac:(apply HG) ltac:(lia) ltac:(lia))
        as (r' & s2 & l2 & T2 & j & HE & HG2 & Hj & Hr & HM).
      { intros i Hi. rewrite HL. destruct (Z.eqb_spec ((va + 4096 * i) / 4096) ((va + 4096 * k) / 4096)).
        - zify_div.
        - apply Hun. lia. }
      exists r', s2, l2, T2, j. split; [exact HE|]. split; [by eapply grows_trans|].
      split; [lia|]. split; [done|]. intros old Ho. apply HM. eapply mapped_range_S; eauto. lia.
Qed.

(** C1: [vmm_map_pages] on an unmapped, page-aligned user range never panics.
    It returns 0 after mapping the whole range, page by page, to the given
    frames with the given permissions, or -1 when no page is left for a table
    and then a prefix is mapped; no other user address is translated
    differently, and memory changes only inside the address space's tables. *)
Theorem vmm_map_pages_correct s l root T va pa n perm : pt_wf s l root T ->
  va mod 4096 = 0 -> USERSPACE_VA_MIN <= va -> va + 4096 * n <= USERSPACE_VA_MAX -> 0 < n ->
  is_frame pa -> pa + 4096 * n <= 2 ^ 52 ->
  (forall i, 0 <= i < n -> translate s root (va + 4096 * i) = None) ->
  exists r s' l' T' j, vmm_map_pages root va (4096 * n) pa perm s = Ret (r, s') /\
    pt_wf s' l' root T' /\ only_tables T' s s' /\
    ((r = 0 /\ j = n) \/ (r = -1 /\ 0 <= j < n /\ avail s' l' = [])) /\
    mapped_range va j (fun i => build_pte (pa + 4096 * i) perm) (translate s root) (translate s' root).
Proof.
  intros Hwf Ha Hlo Hhi Hn Hf Hpa Hun. unfold vmm_map_pages, PAGE_SIZE.
  destruct Hf as [Hf1 Hf2]. rewrite Ha, Hf2. rewrite (Z.mul_comm 4096 n), Z.mod_mul, Z.div_mul by lia.
  destruct (Z.eqb_spec (n * 4096) 0); [lia|]. cbn [negb Z.eqb].
  destruct (map_loop root va pa perm n 0 s l T Hwf Ha Hlo Hhi ltac:(by split) Hpa ltac:(lia))
    as (r & s' & l' & T' & j & HE & HG & Hj & Hr & HM).
  { intros i Hi. rewrite <- (translate_root _ l root T); [by apply Hun|done|].
    unfold USERSPACE_VA_MIN, USERSPACE_VA_MAX in *. cbn [va_covered user_space]. lia. }
  unfold mbind, st_bind, PAGE_SIZE in *. rewrite Z.sub_0_r in HE. rewrite HE.
  pose proof HG as (Hwf' & _ & HO & _).
  exists (default 0 r), s', l', T', j. split; [done|]. split; [done|]. split; [done|]. split.
  - destruct Hr as [(-> & ->)|(-> & ? & ?)]; [by left|right]. split_and!; try done; lia.
  - intros va' Hva'. rewrite (translate_root _ l' _ T'), (translate_root _ l _ T) by done.
    refine (HM (leaf_entry s T) _ va' Hva'). intros w _.
    destruct (Z.leb_spec va w), (Z.ltb_spec w (va + 4096 * 0)); try done; lia.
Qed.

(** ** Looking up and validating user addresses *)

(** [walk] without allocation, on a user address of a well-formed address space. *)
Lemma walk_lookup_user s l root T va : pt_wf s l root T -> user_va va ->
  exists p, walk root va false false s = Ret (p, s) /\
    ((p = 0 /\ translate s root va = None) \/
     (p <> 0 /\ translate s root va =
        let e := load64 (ram s) p in if pte_is_present e then Some e else None)).
Proof.
  intros Hwf Hva. pose proof (user_va_range va Hva) as Hr. rewrite walk_user by done.
  rewrite (walk_levels_lookup s l root T Hwf 3 _ va root ltac:(lia) Hr) by (rewrite vpn_top by done; apply Hwf).
  rewrite (translate_root s l root T Hwf va Hr). unfold leaf_entry.
  destruct (T !! (0%nat, vpn 1 va)) as [t0|] eqn:E; [|by eexists; split; [done|left]].
  eexists. split; [done|]. right. split; [|done].
  destruct (pt_page _ _ _ _ Hwf _ _ _ E) as (_ & Hp & _). pose proof (index_range 0 va) as H.
  change (Z.of_nat 0) with 0 in H. destruct Hp. lia.
Qed.

(** A page [vmm_validate_user_ptr] accepts. *)
Definition user_page_ok (s : pmem) (root : Z) (w : bool) (va : Z) : bool :=
  match translate s root va with
  | Some e => pte_is_user e && (negb w || pte_is_writable e)
  | None => false
  end.

Lemma vmm_walkaddr_spec s l root T va user : pt_wf s l root T -> user_va va ->
  vmm_walkaddr root va user s =
  Ret (match translate s root va with
       | Some e => if Bool.eqb (pte_is_user e) user then pte_follow e else 0
       | None => 0
       end, s).
Proof.
  intros Hwf Hva. unfold vmm_walkaddr. destruct (Z.leb_spec USERSPACE_VA_MAX va);
    [destruct Hva; lia|].
  destruct (walk_lookup_user s l root T va Hwf Hva) as (p & HW & HR).
  unfold mbind, st_bind. rewrite HW. destruct HR as [[-> HT]|[Hp HT]].
  - by rewrite HT.
  - apply Z.eqb_neq in Hp. rewrite Hp, HT. unfold reads, mret, st_ret. cbv zeta.
    destruct (pte_is_present _); [|done]. by destruct (Bool.eqb _ _).
Qed.

(** C10: [vmm_walkaddr] is the address translation: for a user address it
    returns the frame of the page (not of the byte) when the page is present
    with the expected user bit, 0 otherwise, and changes nothing. *)
Theorem vmm_walkaddr_correct s l root T va user : pt_wf s l root T -> user_va va ->
  vmm_walkaddr root va user s =
  Ret (match translate s root va with
       | Some e => if Bool.eqb (pte_is_user e) user then pte_follow e else 0
       | None => 0
       end, s).
Proof. apply vmm_walkaddr_spec. Qed.

Lemma validate_page s l root T va w : pt_wf s l root T -> user_va va ->
  (pte ← walk root va false false;
   if pte =? 0 then mret (Some false)
   else
     e ← read_pte pte;
     if negb (pte_is_present e) then mret (Some false)
     else if negb (pte_is_user e) then mret (Some false)
     else if w && negb (pte_is_writable e) then mret (Some false)
     else mret None) s =
  Ret (if user_page_ok s root w va then None else Some false, s).
Proof.
  intros Hwf Hva. destruct (walk_lookup_user s l root T va Hwf Hva) as (p & HW & HR).
  unfold mbind, st_bind. rewrite HW. unfold user_page_ok. destruct HR as [[-> HT]|[Hp HT]].
  - by rewrite HT.
  - apply Z.eqb_neq in Hp. rewrite Hp, HT. unfold read_pte, reads, mret, st_ret. cbv zeta.
    destruct (pte_is_present _); [|done]. destruct (pte_is_user _); [|done].
    destruct w, (pte_is_writable _); done.
Qed.

Lemma st_for_check {S B R} (f : B -> ST S (option R)) (ok : B -> bool) r l s :
  (forall b, b ∈ l -> f b s = Ret (if ok b then None else Some r, s)) ->
  st_for f l s = Ret (if forallb ok l then None else Some r, s).
Proof.
  induction l as [|b l IH]; intros H; [done|]. rewrite st_for_cons, (H b) by (by left).
  simpl. destruct (ok b); [|done]. apply IH. intros. apply H. by right.
Qed.

Lemma elem_of_page_range x lo hi :
  x ∈ page_range lo hi <-> exists i, 0 <= i /\ x = lo + 4096 * i /\ x < hi.
Proof.
  unfold page_range, PAGE_SIZE. rewrite list_elem_of_fmap. split.
  - intros (i & -> & Hi%elem_of_seqZ). exists i. split_and!; try lia; zify_div.
  - intros (i & Hi & -> & Hx). exists i. split; [lia|]. apply elem_of_seqZ. zify_div.
Qed.

Lemma translate_same_page s l root T va va' : pt_wf s l root T -> user_va va -> user_va va' ->
  va / 4096 = va' / 4096 -> translate s root va = translate s root va'.
Proof.
  intros Hwf Hva Hva' E. pose proof (user_va_range _ Hva). pose proof (user_va_range _ Hva').
  rewrite !(translate_root s l root T Hwf) by done. unfold leaf_entry.
  assert (vpn 1 va = vpn 1 va') as EV by (by rewrite !vpn_S, !vpn0_page, E).
  rewrite EV. apply (same_leaf va va' EV) in E. by rewrite E.
Qed.

(** C12: Below 4 GiB [vmm_validate_user_ptr] is exact: it accepts a buffer if
    and only if every byte of it lies in a present page with the user bit,
    and the write bit when the kernel is to write there. *)
Theorem vmm_validate_user_ptr_low s l root T ptr len w : pt_wf s l root T ->
  USERSPACE_VA_MIN <= ptr -> 0 < len -> ptr + len + 4095 < 2 ^ 32 ->
  exists b, vmm_validate_user_ptr root ptr len w s = Ret (b, s) /\
    (b = true <-> forall va, ptr <= va < ptr + len -> user_page_ok s root w va = true).
Proof.
  intros Hwf Hlo Hlen Hhi. unfold vmm_validate_user_ptr. unfold USERSPACE_VA_MIN in *.
  rewrite (wrap_small 64) by lia. unfold USERSPACE_VA_MAX, USERSPACE_VA_MIN.
  assert (forall va, 2 ^ 22 <= va < 2 ^ 32 -> user_va va) as Huser
    by (unfold user_va, USERSPACE_VA_MIN, USERSPACE_VA_MAX; lia).
  destruct (Z.eqb_spec ptr 0), (Z.eqb_spec len 0), (Z.ltb_spec (ptr + len) ptr),
    (Z.leb_spec (2 ^ 46) ptr), (Z.ltb_spec (2 ^ 46) (ptr + len)), (Z.ltb_spec ptr (2 ^ 22)); try lia.
  cbn [orb]. rewrite PAGE_ROUND_DOWN_low, PAGE_ROUND_UP_low by lia.
  unfold mbind at 1, st_bind at 1.
  rewrite (st_for_check _ (user_page_ok s root w) false).
  2:{ intros va (i & Hi & -> & Hx)%elem_of_page_range. eapply validate_page; [done|].
      apply Huser. zify_div. }
  eexists. split; [done|].
  destruct (forallb _ _) eqn:E; simpl; split; try done.
  - intros _ va Hva. rewrite forallb_forall in E. unfold user_page_ok in *.
    rewrite (translate_same_page s l root T va (4096 * (va / 4096)) Hwf); cycle 1.
    { apply Huser; lia. } { apply Huser. zify_div. } { zify_div. }
    apply E, list_elem_of_In, elem_of_page_range. exists (va / 4096 - ptr / 4096). zify_div.
  - intros Hall. exfalso. apply not_true_iff_false in E. apply E, forallb_forall.
    intros va (i & Hi & -> & Hx)%list_elem_of_In%elem_of_page_range.
    set (va := 4096 * (ptr / 4096) + 4096 * i) in *.
    assert (ptr <= Z.max va ptr < ptr + len) as HM by (unfold va in *; zify_div).
    rewrite <- (Hall _ HM). unfold user_page_ok.
    rewrite (translate_same_page s l root T va (Z.max va ptr) Hwf); [done|..].
    + apply Huser. unfold va in *. zify_div.
    + apply Huser. unfold va in *. zify_div.
    + unfold va in *. zify_div.
Qed.

(** The 32-bit page mask makes [vmm_validate_user_ptr] accept buffers it
    never looked at: when the masked end is not above the masked start - for
    one, any buffer in the last page of the user stack - it answers true
    whatever the page table maps. *)
Theorem vmm_validate_user_ptr_unchecked s root ptr len w :
  USERSPACE_VA_MIN <= ptr -> 0 < len -> ptr + len <= USERSPACE_VA_MAX ->
  PAGE_ROUND_UP (ptr + len) <= PAGE_ROUND_DOWN ptr ->
  vmm_validate_user_ptr root ptr len w s = Ret (true, s).
Proof.
  intros Hlo Hlen Hhi Hm. unfold vmm_validate_user_ptr, USERSPACE_VA_MIN, USERSPACE_VA_MAX in *.
  rewrite (wrap_small 64) by lia.
  destruct (Z.eqb_spec ptr 0), (Z.eqb_spec len 0), (Z.ltb_spec (ptr + len) ptr),
    (Z.leb_spec (2 ^ 46) ptr), (Z.ltb_spec (2 ^ 46) (ptr + len)), (Z.ltb_spec ptr (2 ^ 22)); try lia.
  cbn [orb]. unfold page_range. rewrite seqZ_nil; [done|]. unfold PAGE_SIZE. zify_div.
Qed.

(** The pointers concerned: all of the last page of the user stack. *)
Lemma stack_top_unchecked ptr len : USER_STACK_TOP - PAGE_SIZE <= ptr -> 0 < len ->
  ptr + len <= USER_STACK_TOP -> len = USER_STACK_TOP - ptr ->
  PAGE_ROUND_UP (ptr + len) <= PAGE_ROUND_DOWN ptr.
Proof.
  intros ? ? ? ->. replace (ptr + (USER_STACK_TOP - ptr)) with USER_STACK_TOP by lia.
  change (PAGE_ROUND_UP USER_STACK_TOP) with 0.
  apply Z.land_nonneg. right. by vm_compute.
Qed.

(** ** Copying a string from user space *)

Lemma copy_loop_first_byte s l root T e c : pt_wf s l root T -> forall k ustr copied buf valid,
  USERSPACE_VA_MIN <= ustr -> ustr mod 4096 + copied + Z.of_nat k <= 4096 -> 0 <= copied ->
  ustr + copied + Z.of_nat k < 2 ^ 32 ->
  translate s root ustr = Some e -> pte_is_user e = true -> pte_is_present e = true ->
  pte_follow e <> 0 -> ram s (P2V s (pte_follow e)) = c -> c <> 0 ->
  exists buf', copy_user_string_loop k root ustr copied buf (PAGE_ROUND_DOWN ustr) valid s =
    Ret ((None, buf'), s) /\
    forall i, buf' i = if (copied <=? i) && (i <? copied + Z.of_nat k) then wrap 8 c else buf i.
Proof.
  intros Hwf. induction k as [|k IH]; intros ustr copied buf valid Hlo Hpg Hc Hhi HT HU HP HF HR Hne.
  - exists buf. split; [done|]. intros i. zcases.
  - cbn [copy_user_string_loop]. cbv zeta. unfold USERSPACE_VA_MIN in Hlo.
    rewrite (wrap_small 64) by lia.
    assert (forall va, 2 ^ 22 <= va < 2 ^ 32 -> user_va va) as Huser
      by (unfold user_va, USERSPACE_VA_MIN, USERSPACE_VA_MAX; lia).
    assert ((ustr + copied) / 4096 = ustr / 4096) as Hp by zify_div.
    assert (PAGE_ROUND_DOWN (ustr + copied) = PAGE_ROUND_DOWN ustr) as ->
      by (rewrite !PAGE_ROUND_DOWN_low by lia; by rewrite Hp).
    rewrite Z.eqb_refl. cbn [negb].
    assert (forall A (f : bool -> ST pmem A),
      ((ok ← (if valid then mret true
              else
                pte ← walk root (PAGE_ROUND_DOWN ustr) false false;
                if pte =? 0 then mret false
                else e ← read_pte pte; mret (pte_is_present e && pte_is_user e)); f ok) s = f true s)) as Hok.
    { intros A f. destruct valid; [done|].
      destruct (walk_lookup_user s l root T (PAGE_ROUND_DOWN ustr) Hwf) as (p & HW & HX).
      { apply Huser. rewrite PAGE_ROUND_DOWN_low by lia. zify_div. }
      unfold mbind, st_bind. rewrite HW.
      rewrite (translate_same_page s l root T _ ustr Hwf) in HX.
      - rewrite HT in HX. destruct HX as [[_ ?]|[Hp0 HX]]; [done|].
        apply Z.eqb_neq in Hp0. rewrite Hp0. unfold read_pte, reads. cbv zeta in HX.
        destruct (pte_is_present (load64 _ _)) eqn:EP; [|done]. injection HX as <-.
        cbn. by rewrite HU.
      - apply Huser. rewrite PAGE_ROUND_DOWN_low by lia. zify_div.
      - apply Huser. lia.
      - rewrite PAGE_ROUND_DOWN_low by lia. zify_div. }
    rewrite Hok. cbn [negb]. unfold mbind at 1, st_bind at 1.
    rewrite (vmm_walkaddr_spec s l root T _ true Hwf) by (apply Huser; lia).
    rewrite (translate_same_page s l root T _ ustr Hwf) by (done || apply Huser; lia).
    rewrite HT, HU. cbn [Bool.eqb].
    destruct (Z.eqb_spec (pte_follow e) 0); [done|]. unfold mbind at 1, st_bind at 1, reads.
    rewrite HR. destruct (Z.eqb_spec c 0); [done|].
    destruct (IH ustr (copied + 1) (store8 buf copied c) true) as (buf' & HE & HB); try done; try lia.
    exists buf'. split; [exact HE|]. intros i. rewrite HB. unfold store8.
    destruct (Z.leb_spec (copied + 1) i), (Z.ltb_spec i (copied + 1 + Z.of_nat k)),
      (Z.leb_spec copied i), (Z.ltb_spec i (copied + Z.of_nat (S k))), (Z.eqb_spec i copied);
      try done; lia.
Qed.

(** [vmm_copy_user_string] drops the page offset: wherever in its page
    the string starts, each of the [max_len - 1] characters it copies from
    that page is the page's first byte, so unless that byte is 0 the copy
    runs to the limit and reports truncation. *)
Theorem vmm_copy_user_string_first_byte s l root T ustr max_len buf e : pt_wf s l root T ->
  USERSPACE_VA_MIN <= ustr -> 0 < max_len -> ustr mod 4096 + max_len <= 4096 ->
  ustr + max_len < 2 ^ 32 -> translate s root ustr = Some e -> pte_is_user e = true ->
  pte_is_present e = true -> pte_follow e <> 0 -> ram s (P2V s (pte_follow e)) <> 0 ->
  exists buf', vmm_copy_user_string root ustr buf max_len s = Ret ((-1, buf'), s) /\
    forall i, 0 <= i < max_len ->
      buf' i = if i =? max_len - 1 then 0 else wrap 8 (ram s (P2V s (pte_follow e))).
Proof.
  intros Hwf Hlo Hm Hpg Hhi HT HU HP HF HR. unfold vmm_copy_user_string.
  unfold USERSPACE_VA_MIN, USERSPACE_VA_MAX in *.
  destruct (Z.eqb_spec ustr 0), (Z.eqb_spec max_len 0), (Z.leb_spec (2 ^ 46) ustr),
    (Z.ltb_spec ustr (2 ^ 22)); try lia. cbn [orb].
  destruct (copy_loop_first_byte s l root T e (ram s (P2V s (pte_follow e))) Hwf (Z.to_nat (max_len - 1)) ustr 0 buf false)
    as (buf' & HE & HB); try done; unfold USERSPACE_VA_MIN; try lia.
  unfold mbind, st_bind. rewrite HE. eexists. split; [done|]. intros i Hi. unfold store8.
  destruct (Z.eqb_spec i (max_len - 1)); [done|]. rewrite HB.
  destruct (Z.leb_spec 0 i), (Z.ltb_spec i (0 + Z.of_nat (Z.to_nat (max_len - 1)))); try done; lia.
Qed.

(** ** Witnesses *)

(** An empty address space, with three pages left for tables. *)
Definition empty_space : pmem := MkPmem zeros 0 [MkRegion 16384 28672] 1 true 1048576 28672.
Definition empty_root : Z := 2097152.
Definition empty_tree : gmap (nat * Z) Z := {[ (3%nat, 0) := empty_root ]}.

Lemma empty_tree_Some k p t : empty_tree !! (k, p) = Some t -> k = 3%nat /\ p = 0 /\ t = 2097152.
Proof. unfold empty_tree. rewrite lookup_singleton_Some. naive_solver. Qed.

Lemma empty_space_wf : pt_wf empty_space [] empty_root empty_tree.
Proof.
  constructor.
  - constructor; [constructor|done| |split; [simpl; lia|done]|].
    + constructor; [|done]. unfold region_ok. simpl. split_and!; try lia; done.
    + vm_compute. repeat (apply NoDup_cons; split; [set_solver|]). by apply NoDup_nil.
  - change (avail empty_space []) with [1064960; 1069056; 1073152].
    repeat (apply Forall_cons; split; [split; [simpl; lia|reflexivity]|]). by apply Forall_nil.
  - apply lookup_singleton_eq.
  - intros k p t (-> & -> & ->)%empty_tree_Some. unfold is_page.
    split_and!; try lia; try done.
    + change (avail empty_space []) with [1064960; 1069056; 1073152]. set_solver.
    + exists 0. split; [cbn; lia|done].
  - intros [k p] [k' p'] t H1%empty_tree_Some H2%empty_tree_Some. naive_solver.
  - intros k p i t ([= ->] & -> & ->)%empty_tree_Some Hi Hr.
    assert (entry empty_space 2097152 i = 0) as -> by apply load_zeros.
    change (pte_is_present 0) with false. apply lookup_singleton_None. congruence.
Qed.

Lemma vmm_map_pages_correct_witness :
  exists s', vmm_map_pages empty_root 4194304 4096 32768 (MkPerm true false true) empty_space
               = Ret (0, s') /\
    translate s' empty_root 4194305 = Some (build_pte 32768 (MkPerm true false true)).
Proof.
  assert (match vmm_map_pages empty_root 4194304 4096 32768 (MkPerm true false true) empty_space with
          | Ret (r, _) => r | _ => 1 end = 0) as H0 by (vm_compute; reflexivity).
  destruct (vmm_map_pages_correct empty_space [] empty_root empty_tree 4194304 32768 1
    (MkPerm true false true) empty_space_wf eq_refl ltac:(vm_compute; congruence)
    ltac:(vm_compute; congruence) eq_refl ltac:(split; [lia|reflexivity]) ltac:(lia))
    as (r & s' & l' & T' & j & E & _ & _ & HR & HM).
  - intros i Hi. assert (i = 0) as -> by lia. vm_compute. reflexivity.
  - change (4096 * 1) with 4096 in E. rewrite E in H0.
    assert (j = 1) as Hj by (clear - HR H0; lia). clear HR. subst r.
    exists s'. split; [exact E|]. rewrite (HM 4194305) by lia. rewrite Hj. reflexivity.
Defined.

(** An address space with one user page, 4 MiB mapped to the frame at 32768
    whose first bytes are 'a' and 'b'. *)
Definition demo_ram : mem :=
  store8 (store8
   (store64 (store64 (store64 (store64 zeros 2097152 (Z.lor 7 (2101248 - 1048576)))
      2101248 (Z.lor 7 (2105344 - 1048576))) (2105344 + 8 * 2) (Z.lor 7 (2109440 - 1048576)))
      2109440 (build_pte 32768 (MkPerm true false true)))
   (1048576 + 32768) 97) (1048576 + 32769) 98.
Definition demo_space : pmem := MkPmem demo_ram 0 [] 0 true 1048576 (2 ^ 24).
Definition demo_tree : gmap (nat * Z) Z :=
  <[(0%nat, 2) := 2109440]> (<[(1%nat, 0) := 2105344]> (<[(2%nat, 0) := 2101248]>
    {[(3%nat, 0) := 2097152]})).

Lemma demo_tree_Some k p t : demo_tree !! (k, p) = Some t ->
  (k = 0%nat /\ p = 2 /\ t = 2109440) \/ (k = 1%nat /\ p = 0 /\ t = 2105344) \/
  (k = 2%nat /\ p = 0 /\ t = 2101248) \/ (k = 3%nat /\ p = 0 /\ t = 2097152).
Proof.
  unfold demo_tree. rewrite !lookup_insert_Some, lookup_singleton_Some. naive_solver.
Qed.

Lemma demo_entry_zero t i :
  t ∈ [2097152; 2101248; 2105344] -> 0 <= i < 512 ->
  t + 8 * i <> 2097152 -> t + 8 * i <> 2101248 -> t + 8 * i <> 2105344 + 8 * 2 ->
  entry demo_space t i = 0.
Proof.
  intros Ht Hi H1 H2 H3. unfold entry, demo_space, demo_ram. simpl.
  rewrite !list_elem_of_In in Ht. simpl in Ht.
  unfold load64. rewrite (load_le_ext _ zeros); [apply load_zeros|].
  intros x Hx. unfold store64. rewrite !store8_ne, !store_le_out; [done|lia..].
Qed.

Lemma demo_space_wf : pt_wf demo_space [] 2097152 demo_tree.
Proof.
  constructor; try done.
  - constructor; [constructor|done|done|split; [simpl; lia|done]|apply NoDup_nil; done].
  - intros k p t [(-> & -> & ->)|[(-> & -> & ->)|[(-> & -> & ->)|(-> & -> & ->)]]]%demo_tree_Some;
      (split; [lia|]; split; [by (split_and!; vm_compute)|]; split; [apply not_elem_of_nil|]; split; [intros; first [lia|eexists; vm_compute; reflexivity]|
       exists 4194304; split; [cbn; lia|vm_compute; reflexivity]]).
  - intros [k p] [k' p'] t H1%demo_tree_Some H2%demo_tree_Some. naive_solver.
  - intros k p i t Ht%demo_tree_Some Hi _.
    assert (forall q, t + 8 * i <> 2097152 -> t + 8 * i <> 2101248 -> t + 8 * i <> 2105344 + 8 * 2 ->
      demo_tree !! (k, q) = None -> t ∈ [2097152; 2101248; 2105344] ->
      if pte_is_present (entry demo_space t i)
      then demo_tree !! (k, q) = Some (P2V demo_space (pte_follow (entry demo_space t i)))
      else demo_tree !! (k, q) = None) as Hz.
    { intros q ? ? ? ? ?. by rewrite demo_entry_zero. }
    destruct (demo_tree !! (k, 512 * p + i)) as [u|] eqn:E.
    + apply demo_tree_Some in E.
      assert ((k = 0%nat /\ p = 0 /\ i = 2 /\ u = 2109440) \/
              (k = 1%nat /\ p = 0 /\ i = 0 /\ u = 2105344) \/
              (k = 2%nat /\ p = 0 /\ i = 0 /\ u = 2101248)) as HE by lia.
      destruct HE as [(-> & -> & -> & ->)|[(-> & -> & -> & ->)|(-> & -> & -> & ->)]];
        [assert (t = 2105344) as -> by lia|assert (t = 2101248) as -> by lia
        |assert (t = 2097152) as -> by lia]; vm_compute; reflexivity.
    + pose proof (Hz (512 * p + i)) as Hz'. rewrite E in Hz'. apply Hz'; try done.
      * intros ?. assert (k = 2%nat /\ p = 0 /\ i = 0) as (-> & -> & ->) by lia. done.
      * intros ?. assert (k = 1%nat /\ p = 0 /\ i = 0) as (-> & -> & ->) by lia. done.
      * intros ?. assert (k = 0%nat /\ p = 0 /\ i = 2) as (-> & -> & ->) by lia. done.
      * destruct Ht as [(? & _)|[(_ & _ & ->)|[(_ & _ & ->)|(_ & _ & ->)]]]; [lia|set_solver..].
Qed.

Lemma build_pte_roundtrip_witness :
  is_frame 32768 /\ pte_follow (build_pte 32768 (MkPerm true false true)) = 32768.
Proof.
  assert (is_frame 32768) as H by (split; [lia|done]).
  split; [exact H|]. apply (build_pte_roundtrip 32768 (MkPerm true false true) H).
Defined.

Lemma vmm_walkaddr_correct_witness :
  vmm_walkaddr 2097152 4194305 true demo_space = Ret (32768, demo_space).
Proof.
  rewrite (vmm_walkaddr_correct demo_space [] 2097152 demo_tree 4194305 true demo_space_wf)
    by (split; vm_compute; congruence).
  vm_compute. reflexivity.
Defined.

Lemma vmm_validate_user_ptr_low_witness :
  exists b, vmm_validate_user_ptr 2097152 4194304 4096 true demo_space = Ret (b, demo_space) /\
    (b = true <-> forall va, 4194304 <= va < 4194304 + 4096 ->
       user_page_ok demo_space 2097152 true va = true).
Proof.
  apply (vmm_validate_user_ptr_low demo_space [] 2097152 demo_tree 4194304 4096 true demo_space_wf);
    unfold USERSPACE_VA_MIN; lia.
Defined.

(** In the empty address space the last bytes of the stack are accepted. *)
Lemma vmm_validate_user_ptr_unchecked_witness :
  vmm_validate_user_ptr empty_root (USER_STACK_TOP - 16) 16 true empty_space
    = Ret (true, empty_space) /\
  translate empty_space empty_root (USER_STACK_TOP - 16) = None.
Proof.
  split; [|vm_compute; reflexivity].
  apply vmm_validate_user_ptr_unchecked; vm_compute; congruence.
Defined.

(** Copying from the second byte of the page still yields its first byte. *)
Lemma vmm_copy_user_string_first_byte_witness :
  exists buf', vmm_copy_user_string 2097152 4194305 zeros 3 demo_space
      = Ret ((-1, buf'), demo_space) /\
    load_list buf' 0 3 = [97; 97; 0] /\ ram demo_space (1048576 + 32769) = 98.
Proof.
  destruct (vmm_copy_user_string_first_byte demo_space [] 2097152 demo_tree 4194305 3 zeros
    (build_pte 32768 (MkPerm true false true)) demo_space_wf) as (buf' & E & B);
    try (vm_compute; congruence).
  exists buf'. split; [exact E|]. split; [|reflexivity].
  simpl. rewrite !B by lia. reflexivity.
Defined.
