(* ===== verification/DzFS.v ===== *)
(** * The dzFS file system (kernel/src/fs/dzfs.c, dzfs.h)

    Blocks of 4096 bytes on a block device.  A dnode is a block number; the
    structures of dzfs.h are read and written at their byte offsets inside a
    block, so that a name which is too long overwrites what lies behind it,
    as it does on the disk.

    The device is an interface: [BlockDevice] has the callbacks of
    [struct dzFS], [BlockDeviceLaws] what a disk without failures promises.
    [allocate_mem_block] is the contract of dzfs.h: a zeroed block. *)
From S2P Require Import Prelude Mem.

(** ** The block device *)

Class BlockDevice (D : Type) := {
  read_block : Z -> D -> option mem;          (* None: the callback returns 1 *)
  write_block : Z -> mem -> D -> bool * D;    (* false: the callback returns 1 *)
  total_blocks : D -> Z;
  current_date : D -> Z
}.

Class BlockDeviceLaws (D : Type) `{BlockDevice D} := {
  read_ok b (d : D) : 0 <= b < total_blocks d -> is_Some (read_block b d);
  write_ok b m (d : D) : 0 <= b < total_blocks d -> (write_block b m d).1 = true;
  write_total b m (d : D) : total_blocks (write_block b m d).2 = total_blocks d;
  write_date b m (d : D) : current_date (write_block b m d).2 = current_date d;
  read_write_eq b m (d : D) : 0 <= b < total_blocks d ->
    read_block b (write_block b m d).2 = Some m;
  read_write_ne b c m (d : D) : 0 <= b < total_blocks d -> b <> c ->
    read_block c (write_block b m d).2 = read_block c d
}.

(** ** Constants and layout of dzfs.h *)

Definition DZFS_MAGIC : list Z := [100; 122; 70; 83].
Definition DZFS_VERSION : Z := 1.
Definition DZFS_BLOCK_SIZE : Z := 4096.
Definition DZFS_INDIRECT_BLOCK_COUNT : Z := 1024.
Definition DZFS_MAX_FILENAME : Z := 254.
Definition DZFS_DIRECT_BLOCKS : Z := 956.
Definition DZFS_MAX_DIR_CONTENTS : Z := 957.
Definition DZFS_MAX_FILESIZE : Z := DZFS_BLOCK_SIZE * (1024 + DZFS_DIRECT_BLOCKS).
Definition DZFS_BITSET_COVERED_BLOCKS : Z := DZFS_BLOCK_SIZE * 8.
Definition SUPERBLOCK_DNODE : Z := 1.

Definition DZFS_ENTITY_FILE : Z := 1.
Definition DZFS_ENTITY_FOLDER : Z := 2.

Definition DZFS_OK : Z := 0.
Definition DZFS_ERR_ARGUMENT : Z := -1.
Definition DZFS_ERR_INIT_INVALID_FS : Z := -2.
Definition DZFS_ERR_LIMIT : Z := -3.
Definition DZFS_ERR_NOT_FOUND : Z := -4.
Definition DZFS_ERR_FULL : Z := -5.
Definition DZFS_ERR_NOT_EMPTY : Z := -6.
Definition DZFS_ERR_TOO_SMALL : Z := -7.
Definition DZFS_ERR_IO : Z := -8.

Definition DZFS_O_CREATE : Z := 1.
Definition DZFS_O_DIR : Z := 2.

(** Offsets of the fields inside a block. *)
Definition sb_version : Z := 4.
Definition sb_blocks : Z := 8.
Definition h_type : Z := 0.
Definition h_name : Z := 1.
Definition h_date : Z := 256.
Definition f_size : Z := 264.
Definition f_indirect : Z := 268.
Definition f_direct (i : Z) : Z := 272 + 4 * i.
Definition d_parent : Z := 264.
Definition d_content (i : Z) : Z := 268 + 4 * i.
Definition i_entry (i : Z) : Z := 4 * i.

(** [struct dzFSSuperblock] and [struct dzFS] (without the callbacks). *)
Record dzFSSuperblock := MkSuper { magic : list Z; version : Z; blocks : Z }.
Record dzFS := MkFS { superblock : dzFSSuperblock; free_bitmap_blocks : Z; root_dnode : Z }.

Record dzFSStat := MkStat {
  st_type : Z; st_name : list Z; st_creation_date : Z; st_size : Z; st_parent : Z; st_dnode : Z
}.

(** ** The result monad: [inl e] is [result = e; goto end] *)

Section dzfs.
Context {D : Type} `{BlockDevice D}.

Definition io (A : Type) : Type := D -> outcome ((Z + A) * D).
#[export] Instance io_ret : MRet io := fun _ a d => Ret (inr a, d).
#[export] Instance io_bind : MBind io := fun _ _ f m d =>
  match m d with
  | Ret (inr a, d') => f a d'
  | Ret (inl e, d') => Ret (inl e, d')
  | Panic s => Panic s
  | Undef => Undef
  | NoFuel => NoFuel
  end.
Definition io_fail {A} (e : Z) : io A := fun d => Ret (inl e, d).
Definition io_undef {A} : io A := fun _ => Undef.
Definition io_nofuel {A} : io A := fun _ => NoFuel.
Definition io_get {A} (f : D -> A) : io A := fun d => Ret (inr (f d), d).

(** The return value of a function whose result is [DZFS_OK] or an error. *)
Definition io_code (m : io unit) : io Z := fun d =>
  match m d with
  | Ret (inr _, d') => Ret (inr DZFS_OK, d')
  | Ret (inl e, d') => Ret (inr e, d')
  | Panic s => Panic s
  | Undef => Undef
  | NoFuel => NoFuel
  end.

(** [fs->read_block] as a value ([None] on failure), and under [TRY_IO]. *)
Definition read_opt (b : Z) : io (option mem) := io_get (read_block b).
Definition try_read (b : Z) : io mem :=
  r ← read_opt b;
  match r with Some m => mret m | None => io_fail DZFS_ERR_IO end.
Definition write_bool (b : Z) (m : mem) : io bool := fun d =>
  let '(ok, d') := write_block b m d in Ret (inr ok, d').
Definition try_write (b : Z) (m : mem) : io unit :=
  ok ← write_bool b m;
  if (ok : bool) then mret tt else io_fail DZFS_ERR_IO.

(** ** Paths *)

Definition SLASH : Z := 47.
Definition DOT : Z := 46.

Fixpoint path_next_part_len (str : list Z) : nat :=
  match str with
  | [] => O
  | c :: str' => if c =? SLASH then O else S (path_next_part_len str')
  end.

Definition path_last_part (str : list Z) : bool :=
  match drop (path_next_part_len str) str with
  | [] => true
  | _ :: [] => true
  | _ :: _ => false
  end.

(** [string_prefix] and [strcmp(a, b) == 0] on strings without their NUL. *)
Definition string_prefix (str pre : list Z) : bool :=
  bool_decide (take (length pre) str = pre).
Definition str_eq (a b : list Z) : bool := bool_decide (a = b).

(** The NUL-terminated string at [a], at most [n] bytes. *)
Fixpoint cstring (m : mem) (a : Z) (n : nat) : list Z :=
  match n with
  | O => []
  | S n' => if m a =? 0 then [] else m a :: cstring m (a + 1) n'
  end.
Definition header_name (m : mem) : list Z := cstring m h_name 4095.

(** ** The free block bitmap: one bits are free *)

Definition bitmap_set (bitmap : mem) (index : Z) : mem :=
  let char_index := index / 8 in
  let bit_index := index mod 8 in
  if DZFS_BLOCK_SIZE <=? char_index then bitmap
  else store8 bitmap char_index (Z.lor (bitmap char_index) (Z.shiftl 1 bit_index)).

Definition bitmap_clear (bitmap : mem) (index : Z) : mem :=
  let char_index := index / 8 in
  let bit_index := index mod 8 in
  if DZFS_BLOCK_SIZE <=? char_index then bitmap
  else store8 bitmap char_index (Z.land (bitmap char_index) (Z.lnot (Z.shiftl 1 bit_index))).

(** [__builtin_ctz] of a non-zero byte. *)
Fixpoint ctz_from (k : nat) (i b : Z) : Z :=
  match k with
  | O => i
  | S k' => if Z.testbit b i then i else ctz_from k' (i + 1) b
  end.
Definition ctz8 (b : Z) : Z := ctz_from 8 0 b.

(** The first non-zero byte among the [k] bytes from [i] on. *)
Fixpoint find_nonzero (k : nat) (i : Z) (bitmap : mem) : option Z :=
  match k with
  | O => None
  | S k' => if bitmap i =? 0 then find_nonzero k' (i + 1) bitmap else Some i
  end.

(** The scan of one bitmap block by [block_alloc]. *)
Definition scan_bitmap (free_block : Z) (bitmap : mem) : Z :=
  match find_nonzero 4096 0 bitmap with
  | Some i => wrap 32 (free_block * DZFS_BITSET_COVERED_BLOCKS + i * 8 + ctz8 (bitmap i))
  | None => 0
  end.

(** The outer loop: [k] bitmap blocks are left, the next one is [free_block]. *)
Fixpoint scan_bitmaps (k : nat) (free_block : Z) : io Z :=
  match k with
  | O => mret 0
  | S k' =>
      r ← read_opt (free_block + 1 + 1);
      match r with
      | None => mret 0
      | Some bitmap =>
          let allocated_dnode := scan_bitmap free_block bitmap in
          if truth allocated_dnode then mret allocated_dnode
          else scan_bitmaps k' (free_block + 1)
      end
  end.

(** The bitmap block of a block. *)
Definition bitmap_block_of (dnode : Z) : Z := dnode / 8 / DZFS_BLOCK_SIZE + 1 + 1.

Definition block_alloc (fs : dzFS) : io Z :=
  allocated_dnode ← scan_bitmaps (Z.to_nat (free_bitmap_blocks fs)) 0;
  if allocated_dnode =? 0 then mret 0
  else
    r ← read_opt (bitmap_block_of allocated_dnode);
    match r with
    | None => mret 0
    | Some bitmap =>
        ok ← write_bool (bitmap_block_of allocated_dnode)
               (bitmap_clear bitmap (allocated_dnode mod DZFS_BITSET_COVERED_BLOCKS));
        if (ok : bool) then mret allocated_dnode else mret 0
    end.

(** [get_or_allocate_block]: the block; it is also the new value of [*from]. *)
Definition get_or_allocate_block (fs : dzFS) (from : Z) : io Z :=
  if from =? 0 then block_alloc fs else mret from.

Definition block_free (dnode : Z) : io unit :=
  r ← read_opt (bitmap_block_of dnode);
  match r with
  | None => mret tt
  | Some bitmap =>
      _ ← write_bool (bitmap_block_of dnode)
            (bitmap_set bitmap (dnode mod DZFS_BITSET_COVERED_BLOCKS));
      mret tt
  end.

(** [popcount] of a byte. *)
Definition popcount (a : Z) : Z :=
  fold_right Z.add 0 ((fun i => Z.b2z (Z.testbit a i)) <$> seqZ 0 8).

Definition dzfs_free_blocks (fs : dzFS) : D -> Z := fun d =>
  fold_left (fun free_blocks block =>
    match read_block (block + 2) d with
    | None => free_blocks
    | Some bitmap =>
        fold_left (fun fb i => wrap 32 (fb + popcount (bitmap i))) (seqZ 0 DZFS_BLOCK_SIZE) free_blocks
    end) (seqZ 0 (free_bitmap_blocks fs)) 0.

(** ** Folders *)

Definition content (dir : mem) (i : Z) : Z := load32 dir (d_content i).

(** [memcmp(header.name, name, n) == 0 && header.name[n] == 0]. *)
Definition name_is (m : mem) (name : list Z) : bool :=
  bool_decide (load_list m h_name (length name) = name) && (m (h_name + zlen name) =? 0).

(** The first [i >= 957 - k] whose entry is zero, 957 when there is none. *)
Fixpoint content_count_from (k : nat) (i : Z) (dir : mem) : Z :=
  match k with
  | O => i
  | S k' => if content dir i =? 0 then i else content_count_from k' (i + 1) dir
  end.
Definition folder_content_count (dir : mem) : Z := content_count_from 957 0 dir.

(** The search loop of [folder_lookup_name]. *)
Fixpoint lookup_from (k : nat) (i : Z) (dir : mem) (name : list Z) : io Z :=
  match k with
  | O => mret 0
  | S k' =>
      if content dir i =? 0 then mret 0
      else
        r ← read_opt (content dir i);
        match r with
        | None => mret 0
        | Some temp_dnode =>
            if name_is temp_dnode name then mret (content dir i)
            else lookup_from k' (i + 1) dir name
        end
  end.
Definition folder_lookup_name (dir : mem) (name : list Z) : io Z := lookup_from 957 0 dir name.

(** The first index below 957 holding [target_dnode], from [i] on. *)
Fixpoint find_content (k : nat) (i : Z) (dir : mem) (target_dnode : Z) : Z :=
  match k with
  | O => -1
  | S k' => if content dir i =? target_dnode then i
            else find_content k' (i + 1) dir target_dnode
  end.

(** [folder_remove_content]: [None] when the target is not there. *)
Definition folder_remove_content (dir : mem) (target_dnode : Z) : option mem :=
  let dnode_index := find_content 957 0 dir target_dnode in
  if dnode_index =? -1 then None
  else
    let last_index := sgn 32 (wrap 32 (folder_content_count dir - 1)) in
    if last_index =? 0 then Some (store32 dir (d_content 0) 0)
    else if last_index =? dnode_index then Some (store32 dir (d_content last_index) 0)
    else
      let dir := store32 dir (d_content dnode_index) (content dir last_index) in
      Some (store32 dir (d_content last_index) 0).

(** ** Making and opening a file system *)

Definition bitmap_block_count (n : Z) : Z :=
  wrap 32 (n + DZFS_BITSET_COVERED_BLOCKS - 1) / DZFS_BITSET_COVERED_BLOCKS.

Definition superblock_of (m : mem) : dzFSSuperblock :=
  MkSuper (load_list m 0 4) (load32 m sb_version) (load32 m sb_blocks).
Definition put_superblock (m : mem) (sb : dzFSSuperblock) : mem :=
  store_list (store32 (store32 m sb_version (version sb)) sb_blocks (blocks sb)) 0 (magic sb).

(** The root folder block. *)
Definition root_block (root date : Z) : mem :=
  store32 (store64 (store8 (store8 zeros h_type DZFS_ENTITY_FOLDER) h_name SLASH) h_date date)
    d_parent root.

Fixpoint write_all (l : list Z) (m : mem) : io unit :=
  match l with
  | [] => mret tt
  | b :: l' => _ ← try_write b m; write_all l' m
  end.

(** [dzfs_new], returning the filled [struct dzFS]. *)
Definition dzfs_new : io dzFS :=
  n ← io_get total_blocks;
  let sb := MkSuper DZFS_MAGIC DZFS_VERSION (wrap 32 n) in
  let block := put_superblock zeros sb in
  if blocks sb <=? 4 then io_fail DZFS_ERR_TOO_SMALL
  else
    _ ← try_write SUPERBLOCK_DNODE block;
    let fbb := bitmap_block_count (blocks sb) in
    if blocks sb <=? 3 + fbb then io_fail DZFS_ERR_TOO_SMALL
    else
      let root := 1 + 1 + fbb in
      let block := fill block 0 255 DZFS_BLOCK_SIZE in
      _ ← write_all ((fun i => 1 + 1 + i) <$> seqZ 1 (fbb - 1 - 1)) block;
      let block := fold_left bitmap_clear (seqZ 0 (fbb + 3)) block in
      _ ← try_write 2 block;
      let block := if negb (fbb =? 1) then fill block 0 255 DZFS_BLOCK_SIZE else block in
      let block := fold_left bitmap_clear
        (reverse (seqZ (blocks sb) (DZFS_BITSET_COVERED_BLOCKS * fbb - blocks sb))) block in
      _ ← try_write (2 + fbb - 1) block;
      date ← io_get current_date;
      _ ← try_write root (root_block root date);
      mret (MkFS sb fbb root).

Definition dzfs_init : io dzFS :=
  block ← try_read SUPERBLOCK_DNODE;
  let sb := superblock_of block in
  if negb (bool_decide (magic sb = DZFS_MAGIC)) then io_fail DZFS_ERR_INIT_INVALID_FS
  else
    let fbb := bitmap_block_count (blocks sb) in
    mret (MkFS sb fbb (1 + 1 + fbb)).

(** ** Opening a path *)

(** The loop over [./], [../] and a final [..]: [relative_to] and what is
    left of the path. *)
Fixpoint skip_dots (fuel : nat) (path : list Z) (relative_to : Z) : io (Z * list Z) :=
  match fuel with
  | O => io_nofuel
  | S fuel' =>
      if string_prefix path [DOT; SLASH] then skip_dots fuel' (drop 2 path) relative_to
      else if string_prefix path [DOT; DOT; SLASH] then
        cur ← try_read relative_to;
        let parent := load32 cur d_parent in
        skip_dots fuel' (drop 3 path) (if truth parent then parent else relative_to)
      else if str_eq path [DOT; DOT] then
        cur ← try_read relative_to;
        let parent := load32 cur d_parent in
        mret (if truth parent then parent else relative_to, drop 2 path)
      else mret (relative_to, path)
  end.

(** The [for] loop that looks a component up in a folder; an I/O error here
    stops the whole open. *)
Fixpoint search_folder (k : nat) (i : Z) (dir : mem) (name : list Z) : io Z :=
  match k with
  | O => mret 0
  | S k' =>
      if content dir i =? 0 then mret 0
      else
        temp_dnode ← try_read (content dir i);
        if name_is temp_dnode name then mret (content dir i)
        else search_folder k' (i + 1) dir name
  end.

(** The block of a new dnode: the name is copied whatever its length. *)
Definition new_dnode (name : list Z) (date parent flags : Z) : mem :=
  let m := store64 zeros h_date date in
  let m := store_list m h_name name in
  let m := store8 m (h_name + zlen name) 0 in
  if truth (Z.land flags DZFS_O_DIR)
  then store32 (store8 m h_type DZFS_ENTITY_FOLDER) d_parent parent
  else store8 m h_type DZFS_ENTITY_FILE.

(** Creating the last component [name] in the folder [parent]. *)
Definition create_entry (fs : dzFS) (parent : Z) (dir : mem) (name : list Z) (flags : Z) : io Z :=
  let folder_size := folder_content_count dir in
  if folder_size =? DZFS_MAX_DIR_CONTENTS then io_fail DZFS_ERR_LIMIT
  else
    dnode ← block_alloc fs;
    if dnode =? 0 then io_fail DZFS_ERR_FULL
    else if DZFS_BLOCK_SIZE <? h_name + zlen name + 1 then io_undef
    else
      date ← io_get current_date;
      _ ← try_write parent (store32 dir (d_content folder_size) dnode);
      _ ← try_write dnode (new_dnode name date parent flags);
      mret dnode.

(** The traversal: the dnode and its parent. *)
Fixpoint traverse (fuel : nat) (fs : dzFS) (path : list Z) (current_dnode_index : Z)
    (current_dnode : mem) (flags : Z) : io (Z * Z) :=
  match fuel with
  | O => io_nofuel
  | S fuel' =>
      let next_path_size := path_next_part_len path in
      let name := take next_path_size path in
      found ← search_folder 957 0 current_dnode name;
      if found =? 0 then
        if truth (Z.land flags DZFS_O_CREATE) then
          if path_last_part path then
            dnode ← create_entry fs current_dnode_index current_dnode name flags;
            mret (dnode, current_dnode_index)
          else io_fail DZFS_ERR_NOT_FOUND
        else io_fail DZFS_ERR_NOT_FOUND
      else if path_last_part path then mret (found, current_dnode_index)
      else
        dir ← try_read found;
        if negb (dir h_type =? DZFS_ENTITY_FOLDER) then io_fail DZFS_ERR_NOT_FOUND
        else traverse fuel' fs (drop (S next_path_size) path) found dir flags
  end.

(** [dzfs_open_relative] on a path that does not start with a slash. *)
Definition open_from (fs : dzFS) (path : list Z) (relative_to flags : Z) : io (Z * Z) :=
  if relative_to =? 0 then io_fail DZFS_ERR_ARGUMENT
  else
    _ ← try_read relative_to;
    '(relative_to, path) ← skip_dots (S (length path)) path relative_to;
    if str_eq path [] || str_eq path [DOT] then
      cur ← try_read relative_to;
      mret (relative_to, load32 cur d_parent)
    else
      cur ← try_read relative_to;
      traverse (S (length path)) fs path relative_to cur flags.

(** [dzfs_open_absolute] and [dzfs_open_relative] call each other; every
    call of the former drops the leading slash. *)
Fixpoint dzfs_open_relative (fs : dzFS) (path : list Z) (relative_to flags : Z) : io (Z * Z) :=
  match path with
  | c :: path' =>
      if c =? SLASH then
        if str_eq path [SLASH] then mret (root_dnode fs, root_dnode fs)
        else dzfs_open_relative fs path' (root_dnode fs) flags
      else open_from fs path relative_to flags
  | [] => open_from fs path relative_to flags
  end.

Definition dzfs_open_absolute (fs : dzFS) (path : list Z) (flags : Z) : io (Z * Z) :=
  match path with
  | c :: path' =>
      if negb (c =? SLASH) then io_fail DZFS_ERR_ARGUMENT
      else if str_eq path [SLASH] then mret (root_dnode fs, root_dnode fs)
      else dzfs_open_relative fs path' (root_dnode fs) flags
  | [] => io_fail DZFS_ERR_ARGUMENT
  end.

(** ** Writing and reading files *)

(** The block that holds byte [offset] of a file, allocated when absent, with
    the dnode and indirect blocks it is entered in. *)
Definition write_target (fs : dzFS) (content_block_index : Z) (dnode_block indirect_block : mem)
    : io (Z * mem * mem) :=
  if DZFS_DIRECT_BLOCKS <=? content_block_index then
    ind ← get_or_allocate_block fs (load32 dnode_block f_indirect);
    if ind =? 0 then io_fail DZFS_ERR_FULL
    else
      let dnode_block := store32 dnode_block f_indirect ind in
      let slot := i_entry (content_block_index - DZFS_DIRECT_BLOCKS) in
      content_block ← get_or_allocate_block fs (load32 indirect_block slot);
      if content_block =? 0 then io_fail DZFS_ERR_FULL
      else mret (content_block, dnode_block, store32 indirect_block slot content_block)
  else
    let slot := f_direct content_block_index in
    content_block ← get_or_allocate_block fs (load32 dnode_block slot);
    if content_block =? 0 then io_fail DZFS_ERR_FULL
    else mret (content_block, store32 dnode_block slot content_block, indirect_block).

(** The [while] loop of [dzfs_write]; [data] is what is left to write. *)
Fixpoint write_loop (fuel : nat) (fs : dzFS) (data : list Z) (offset : Z)
    (dnode_block indirect_block data_block : mem) : io (mem * mem) :=
  match fuel with
  | O => io_nofuel
  | S fuel' =>
      match data with
      | [] => mret (dnode_block, indirect_block)
      | _ :: _ =>
          let content_block_index := offset / DZFS_BLOCK_SIZE in
          let raw_data_index := offset mod DZFS_BLOCK_SIZE in
          '(content_block, dnode_block, indirect_block) ←
            write_target fs content_block_index dnode_block indirect_block;
          data_block ← (if 0 <? offset then try_read content_block else mret data_block);
          let to_copy := Z.to_nat (Z.min (DZFS_BLOCK_SIZE - raw_data_index) (zlen data)) in
          let data_block := store_list data_block raw_data_index (take to_copy data) in
          _ ← try_write content_block data_block;
          write_loop fuel' fs (drop to_copy data) (offset + Z.of_nat to_copy)
            dnode_block indirect_block data_block
      end
  end.

(** The indirect block of a dnode, a zeroed block when it has none. *)
Definition read_indirect (dnode_block : mem) : io mem :=
  if truth (load32 dnode_block f_indirect) then try_read (load32 dnode_block f_indirect)
  else mret zeros.

Definition dzfs_write (fs : dzFS) (dnode : Z) (data : list Z) (offset : Z) : io unit :=
  let size := zlen data in
  dnode_block ← try_read dnode;
  if negb (dnode_block h_type =? DZFS_ENTITY_FILE) then io_fail DZFS_ERR_ARGUMENT
  else if DZFS_MAX_FILESIZE <? wrap 64 (size + offset) then io_fail DZFS_ERR_LIMIT
  else if load32 dnode_block f_size <? offset then io_fail DZFS_ERR_ARGUMENT
  else
    indirect_block ← read_indirect dnode_block;
    '(dnode_block, indirect_block) ←
      write_loop (S (length data)) fs data offset dnode_block indirect_block zeros;
    _ ← (if truth (load32 dnode_block f_indirect)
         then try_write (load32 dnode_block f_indirect) indirect_block else mret tt);
    try_write dnode (store32 dnode_block f_size (load32 dnode_block f_size + size)).

(** The [while] loop of [dzfs_read]: the bytes copied to the buffer. *)
Fixpoint read_loop (fuel : nat) (to_read_bytes offset : Z) (dnode_block indirect_block : mem)
    : io (list Z) :=
  match fuel with
  | O => io_nofuel
  | S fuel' =>
      if to_read_bytes <=? 0 then mret []
      else
        let content_block_index := offset / DZFS_BLOCK_SIZE in
        let raw_data_index := offset mod DZFS_BLOCK_SIZE in
        if DZFS_DIRECT_BLOCKS + DZFS_INDIRECT_BLOCK_COUNT <=? content_block_index then io_undef
        else
          let content_block :=
            if DZFS_DIRECT_BLOCKS <=? content_block_index
            then load32 indirect_block (i_entry (content_block_index - DZFS_DIRECT_BLOCKS))
            else load32 dnode_block (f_direct content_block_index) in
          data_block ← try_read content_block;
          let to_copy := Z.min (DZFS_BLOCK_SIZE - raw_data_index) to_read_bytes in
          rest ← read_loop fuel' (to_read_bytes - to_copy) (offset + to_copy)
                   dnode_block indirect_block;
          mret (load_list data_block raw_data_index (Z.to_nat to_copy) ++ rest)
  end.

(** [dzfs_read]: the bytes read; the C function returns their number. *)
Definition dzfs_read (fs : dzFS) (dnode size offset : Z) : io (list Z) :=
  dnode_block ← try_read dnode;
  if negb (dnode_block h_type =? DZFS_ENTITY_FILE) then io_fail DZFS_ERR_ARGUMENT
  else
    indirect_block ← read_indirect dnode_block;
    if load32 dnode_block f_size <=? offset then mret []
    else
      let to_read_bytes := sgn 32 (Z.min (load32 dnode_block f_size - offset) size) in
      read_loop (S (Z.to_nat to_read_bytes)) to_read_bytes offset dnode_block indirect_block.

(** ** Stat, directories, delete, move *)

Definition dzfs_stat (dnode : Z) : io dzFSStat :=
  b ← try_read dnode;
  let name := load_list b h_name 255 in
  let date := load64 b h_date in
  if b h_type =? DZFS_ENTITY_FILE
  then mret (MkStat (b h_type) name date (load32 b f_size) 0 dnode)
  else if b h_type =? DZFS_ENTITY_FOLDER
  then mret (MkStat (b h_type) name date (folder_content_count b) (load32 b d_parent) dnode)
  else io_fail DZFS_ERR_ARGUMENT.

Definition dzfs_read_dir (dnode offset : Z) : io dzFSStat :=
  dnode_block ← try_read dnode;
  if negb (dnode_block h_type =? DZFS_ENTITY_FOLDER) then io_fail DZFS_ERR_ARGUMENT
  else if DZFS_MAX_DIR_CONTENTS <=? offset then io_fail DZFS_ERR_LIMIT
  else
    let requested_dnode := content dnode_block offset in
    if requested_dnode =? 0 then io_fail DZFS_ERR_LIMIT
    else dzfs_stat requested_dnode.

(** Free the blocks [f i], [f (i + 1)], ... up to the first null one. *)
Fixpoint free_blocks_from (k : nat) (i : Z) (f : Z -> Z) : io unit :=
  match k with
  | O => mret tt
  | S k' => if f i =? 0 then mret tt
            else _ ← block_free (f i); free_blocks_from k' (i + 1) f
  end.

Definition folder_empty (dir : mem) : bool :=
  forallb (fun i => content dir i =? 0) (seqZ 0 DZFS_MAX_DIR_CONTENTS).

(** Take [dnode] out of the folder [parent_dnode]. *)
Definition unlink_entry (dnode parent_dnode : Z) : io unit :=
  dir ← try_read parent_dnode;
  if negb (dir h_type =? DZFS_ENTITY_FOLDER) then io_fail DZFS_ERR_ARGUMENT
  else match folder_remove_content dir dnode with
       | None => io_fail DZFS_ERR_ARGUMENT
       | Some dir' => try_write parent_dnode dir'
       end.

Definition dzfs_delete (fs : dzFS) (dnode parent_dnode : Z) : io unit :=
  if dnode =? root_dnode fs then io_fail DZFS_ERR_ARGUMENT
  else
    b ← try_read dnode;
    _ ← (if b h_type =? DZFS_ENTITY_FILE then
           _ ← (if truth (load32 b f_indirect) then
                  indirect_block ← try_read (load32 b f_indirect);
                  free_blocks_from 1024 0 (fun i => load32 indirect_block (i_entry i))
                else mret tt);
           free_blocks_from 956 0 (fun i => load32 b (f_direct i))
         else if b h_type =? DZFS_ENTITY_FOLDER then
           if folder_empty b then mret tt else io_fail DZFS_ERR_NOT_EMPTY
         else io_fail DZFS_ERR_ARGUMENT);
    _ ← unlink_entry dnode parent_dnode;
    block_free dnode.

Definition dzfs_move (fs : dzFS) (dnode old_parent new_parent : Z) (new_name : option (list Z))
    : io unit :=
  if (old_parent =? new_parent) && negb (bool_decide (is_Some new_name)) then mret tt
  else
    file_dnode ← try_read dnode;
    if (old_parent =? new_parent) && str_eq (default [] new_name) (header_name file_dnode)
    then mret tt
    else
      dir ← try_read new_parent;
      if negb (dir h_type =? DZFS_ENTITY_FOLDER) then io_fail DZFS_ERR_ARGUMENT
      else if DZFS_MAX_FILENAME <? zlen (default [] new_name) then io_fail DZFS_ERR_LIMIT
      else
        let file_dnode := match new_name with
                          | Some name => store8 (store_list file_dnode h_name name)
                                           (h_name + zlen name) 0
                          | None => file_dnode
                          end in
        to_delete_dnode ← folder_lookup_name dir (header_name file_dnode);
        dir ← (if truth to_delete_dnode then
                 _ ← dzfs_delete fs to_delete_dnode new_parent;
                 try_read new_parent
               else mret dir);
        let new_dnode_index := folder_content_count dir in
        if new_dnode_index =? DZFS_MAX_DIR_CONTENTS then io_fail DZFS_ERR_LIMIT
        else
          _ ← try_write new_parent (store32 dir (d_content new_dnode_index) dnode);
          _ ← unlink_entry dnode old_parent;
          match new_name with
          | Some _ => try_write dnode file_dnode
          | None => mret tt
          end.

End dzfs.

(** ** An ideal disk, the instance the witnesses compute with *)

Record disk := MkDisk { dk_blocks : Z -> mem; dk_total : Z; dk_date : Z }.

#[export] Instance disk_device : BlockDevice disk := {
  read_block b d := if (0 <=? b) && (b <? dk_total d) then Some (dk_blocks d b) else None;
  write_block b m d :=
    if (0 <=? b) && (b <? dk_total d)
    then (true, MkDisk (fun c => if c =? b then m else dk_blocks d c) (dk_total d) (dk_date d))
    else (false, d);
  total_blocks := dk_total;
  current_date := dk_date
}.

#[export] Instance disk_laws : BlockDeviceLaws disk.
Proof.
  assert (forall b (d : disk), 0 <= b < dk_total d -> (0 <=? b) && (b <? dk_total d) = true) as HR.
  { intros. apply andb_true_iff. split; [apply Z.leb_le|apply Z.ltb_lt]; lia. }
  split; simpl.
  - intros b d Hb. by rewrite HR.
  - intros b m d Hb. by rewrite HR.
  - intros b m d. by destruct (_ && _).
  - intros b m d. by destruct (_ && _).
  - intros b m d Hb. rewrite (HR b d) by done. simpl. by rewrite HR, Z.eqb_refl.
  - intros b c m d Hb Hc. rewrite (HR b d) by done. simpl.
    destruct (Z.eqb_spec c b); [congruence|done].
Qed.

(** ** Paths *)

(** Splitting a path at its first component. *)
Lemma path_split path :
  path = take (path_next_part_len path) path ++ drop (path_next_part_len path) path /\
  SLASH ∉ take (path_next_part_len path) path /\
  (drop (path_next_part_len path) path = [] \/
   exists rest, drop (path_next_part_len path) path = SLASH :: rest).
Proof.
  split; [by rewrite take_drop|]. induction path as [|c path IH]; simpl.
  - split; [apply not_elem_of_nil|by left].
  - destruct (Z.eqb_spec c SLASH) as [->|Hc]; simpl.
    + split; [apply not_elem_of_nil|]. right. by exists path.
    + destruct IH as [IH1 IH2]. split; [|done]. apply not_elem_of_cons. split; [done|done].
Qed.

(** ** Bits of the bitmap *)

Lemma shiftl_1_bit k i : 0 <= k -> 0 <= i -> Z.testbit (Z.shiftl 1 k) i = bool_decide (i = k).
Proof.
  intros Hk Hi. rewrite Z.shiftl_1_l. case_bool_decide as E.
  - subst. by apply Z.pow2_bits_true.
  - apply Z.pow2_bits_false. lia.
Qed.

Lemma wrap8_bit z i : 0 <= i < 8 -> Z.testbit (wrap 8 z) i = Z.testbit z i.
Proof. intros. apply Z.mod_pow2_bits_low. lia. Qed.

(** The bit of block [b] (modulo 32768) in a bitmap block. *)
Definition bit_of (bitmap : mem) (b : Z) : bool := Z.testbit (bitmap (b / 8)) (b mod 8).

Lemma bit_index_eq a b : 0 <= a -> 0 <= b -> a / 8 = b / 8 -> a mod 8 = b mod 8 -> a = b.
Proof. intros. zify_div. Qed.

Lemma bitmap_set_bit m a b : 0 <= a < DZFS_BITSET_COVERED_BLOCKS -> 0 <= b ->
  bit_of (bitmap_set m a) b = bool_decide (b = a) || bit_of m b.
Proof.
  intros Ha Hb. unfold bitmap_set, bit_of, DZFS_BITSET_COVERED_BLOCKS, DZFS_BLOCK_SIZE in *.
  destruct (Z.leb_spec 4096 (a / 8)); [zify_div|].
  pose proof (Z.mod_pos_bound a 8). pose proof (Z.mod_pos_bound b 8).
  destruct (Z.eq_dec (b / 8) (a / 8)) as [E|E].
  - rewrite E, store8_eq, wrap8_bit, Z.lor_spec, shiftl_1_bit by lia.
    rewrite orb_comm. f_equal. apply bool_decide_ext. split.
    + intros. apply bit_index_eq; lia.
    + by intros ->.
  - rewrite store8_ne by done. rewrite bool_decide_false; [done|]. by intros ->.
Qed.

Lemma bitmap_clear_bit m a b : 0 <= a < DZFS_BITSET_COVERED_BLOCKS -> 0 <= b ->
  bit_of (bitmap_clear m a) b = negb (bool_decide (b = a)) && bit_of m b.
Proof.
  intros Ha Hb. unfold bitmap_clear, bit_of, DZFS_BITSET_COVERED_BLOCKS, DZFS_BLOCK_SIZE in *.
  destruct (Z.leb_spec 4096 (a / 8)); [zify_div|].
  pose proof (Z.mod_pos_bound a 8). pose proof (Z.mod_pos_bound b 8).
  destruct (Z.eq_dec (b / 8) (a / 8)) as [E|E].
  - rewrite E, store8_eq, wrap8_bit, Z.land_spec, Z.lnot_spec, shiftl_1_bit by lia.
    rewrite andb_comm. f_equal. f_equal. apply bool_decide_ext. split.
    + intros. apply bit_index_eq; lia.
    + by intros ->.
  - rewrite store8_ne by done. rewrite bool_decide_false; [done|]. by intros ->.
Qed.

(** Outside of its range [bitmap_clear] does nothing. *)
Lemma bitmap_clear_out m a : DZFS_BITSET_COVERED_BLOCKS <= a -> bitmap_clear m a = m.
Proof.
  intros Ha. unfold bitmap_clear, DZFS_BITSET_COVERED_BLOCKS, DZFS_BLOCK_SIZE in *.
  destruct (Z.leb_spec 4096 (a / 8)); [done|zify_div].
Qed.

Lemma bytes_ok_bitmap_clear m a : bytes_ok m -> bytes_ok (bitmap_clear m a).
Proof. intros. unfold bitmap_clear. destruct (_ <=? _); auto with word. Qed.
Lemma bytes_ok_bitmap_set m a : bytes_ok m -> bytes_ok (bitmap_set m a).
Proof. intros. unfold bitmap_set. destruct (_ <=? _); auto with word. Qed.

Lemma ctz_from_spec k i b :
  let r := ctz_from k i b in
  i <= r <= i + Z.of_nat k /\ (forall j, i <= j < r -> Z.testbit b j = false) /\
  (r < i + Z.of_nat k -> Z.testbit b r = true).
Proof.
  revert i. induction k as [|k IH]; intros i; cbn [ctz_from]; cbv zeta.
  - split_and!; intros; lia.
  - destruct (Z.testbit b i) eqn:E.
    + split_and!; intros; try lia; done.
    + destruct (IH (i + 1)) as (H1 & H2 & H3). cbv zeta in *. split_and!; try lia.
      * intros j Hj. destruct (Z.eq_dec j i) as [->|]; [done|]. apply H2. lia.
      * intros. apply H3. lia.
Qed.

Lemma byte_nonzero_bit b : 0 <= b < 256 -> b <> 0 -> exists i, 0 <= i < 8 /\ Z.testbit b i = true.
Proof.
  intros Hb Hne. exists (Z.log2 b). split.
  - split; [apply Z.log2_nonneg|]. apply Z.log2_lt_pow2; lia.
  - apply Z.bit_log2. lia.
Qed.

Lemma ctz8_spec b : 0 <= b < 256 -> b <> 0 ->
  0 <= ctz8 b < 8 /\ Z.testbit b (ctz8 b) = true /\
  forall j, 0 <= j < ctz8 b -> Z.testbit b j = false.
Proof.
  intros Hb Hne. destruct (ctz_from_spec 8 0 b) as (H1 & H2 & H3). fold (ctz8 b) in *.
  destruct (byte_nonzero_bit b Hb Hne) as (i & Hi & Ht).
  assert (ctz8 b < 8).
  { destruct (Z.lt_ge_cases (ctz8 b) 8); [done|]. rewrite H2 in Ht by lia. done. }
  split; [lia|]. split; [apply H3; lia|exact H2].
Qed.

Lemma find_nonzero_spec k i m :
  match find_nonzero k i m with
  | Some j => i <= j < i + Z.of_nat k /\ m j <> 0 /\ forall x, i <= x < j -> m x = 0
  | None => forall x, i <= x < i + Z.of_nat k -> m x = 0
  end.
Proof.
  revert i. induction k as [|k IH]; intros i; simpl; [intros; lia|].
  destruct (Z.eqb_spec (m i) 0) as [E|E].
  - specialize (IH (i + 1)). destruct (find_nonzero k (i + 1) m).
    + destruct IH as (? & ? & IH). split; [lia|]. split; [done|].
      intros x Hx. destruct (Z.eq_dec x i) as [->|]; [done|]. apply IH. lia.
    + intros x Hx. destruct (Z.eq_dec x i) as [->|]; [done|]. apply IH. lia.
  - split; [lia|]. split; [done|]. intros. lia.
Qed.

(** [scan_bitmap] finds the first free block of a bitmap block. *)
Lemma scan_bitmap_spec fb m : bytes_ok m -> 0 <= fb -> (fb + 1) * 32768 <= 2 ^ 32 ->
  (scan_bitmap fb m = 0 /\ forall x, 0 <= x < 32768 -> bit_of m x = false) \/
  (exists b, scan_bitmap fb m = fb * 32768 + b /\ 0 <= b < 32768 /\ bit_of m b = true /\
     forall x, 0 <= x < b -> bit_of m x = false).
Proof.
  intros Hm Hfb Hr. unfold scan_bitmap, DZFS_BITSET_COVERED_BLOCKS, DZFS_BLOCK_SIZE.
  pose proof (find_nonzero_spec 4096 0 m) as HF. destruct (find_nonzero 4096 0 m) as [i|].
  - destruct HF as (Hi & Hne & HF). destruct (ctz8_spec (m i) (Hm i) Hne) as (Hc & Ht & Hl).
    right. exists (i * 8 + ctz8 (m i)). rewrite wrap_small by lia.
    assert ((i * 8 + ctz8 (m i)) / 8 = i) as E1 by zify_div.
    assert ((i * 8 + ctz8 (m i)) mod 8 = ctz8 (m i)) as E2 by zify_div.
    split_and!; try lia.
    + unfold bit_of. by rewrite E1, E2.
    + intros x Hx. unfold bit_of. destruct (Z.eq_dec (x / 8) i) as [Hd|Hd].
      * rewrite Hd. apply Hl. zify_div.
      * rewrite HF by zify_div. apply Z.bits_0.
  - left. split; [done|]. intros x Hx. unfold bit_of. rewrite HF by zify_div. apply Z.bits_0.
Qed.

(** ** The block allocator *)

Section allocator.
Context {D : Type} `{BlockDeviceLaws D}.

(** Block [b] is marked free on the disk. *)
Definition is_free (d : D) (b : Z) : bool :=
  match read_block (bitmap_block_of b) d with
  | Some m => bit_of m (b mod DZFS_BITSET_COVERED_BLOCKS)
  | None => false
  end.

(** A mounted file system: the geometry agrees with the device, blocks hold
    bytes, and only blocks behind the root folder are marked free. *)
Record fs_ok (fs : dzFS) (d : D) : Prop := {
  fs_total : total_blocks d = blocks (superblock fs);
  fs_fbb : free_bitmap_blocks fs = (total_blocks d + 32767) / 32768;
  fs_root : root_dnode fs = 2 + free_bitmap_blocks fs;
  fs_size : 3 + free_bitmap_blocks fs < total_blocks d;
  fs_width : total_blocks d < 2 ^ 32 - 32768;
  fs_bytes b m : read_block b d = Some m -> bytes_ok m;
  fs_free b : 0 <= b < 32768 * free_bitmap_blocks fs -> is_free d b = true ->
    root_dnode fs < b < total_blocks d
}.

Lemma bitmap_block_of_eq b : 0 <= b -> bitmap_block_of b = 2 + b / 32768.
Proof. intros. unfold bitmap_block_of, DZFS_BLOCK_SIZE. zify_div. Qed.

(** The bitmap blocks lie on the device, in front of the root folder. *)
Lemma bitmap_block_range fs d b : fs_ok fs d -> 0 <= b < 32768 * free_bitmap_blocks fs ->
  2 <= bitmap_block_of b < root_dnode fs /\ bitmap_block_of b < total_blocks d.
Proof.
  intros Hfs Hb. rewrite bitmap_block_of_eq by lia.
  rewrite (fs_root fs d Hfs). pose proof (fs_size fs d Hfs).
  assert (b / 32768 < free_bitmap_blocks fs) by (apply Z.div_lt_upper_bound; lia).
  assert (0 <= b / 32768) by (apply Z.div_pos; lia). lia.
Qed.

Lemma fs_total_covered fs d b : fs_ok fs d -> 0 <= b < total_blocks d ->
  0 <= b < 32768 * free_bitmap_blocks fs.
Proof. intros Hfs Hb. rewrite (fs_fbb fs d Hfs). zify_div. Qed.

Lemma fs_geometry fs d : fs_ok fs d ->
  0 < free_bitmap_blocks fs /\ root_dnode fs < total_blocks d /\ 3 <= root_dnode fs /\
  32768 * free_bitmap_blocks fs <= 2 ^ 32.
Proof.
  intros Hfs. pose proof (fs_size fs d Hfs). pose proof (fs_fbb fs d Hfs) as E.
  pose proof (fs_root fs d Hfs). pose proof (fs_width fs d Hfs).
  assert (0 < free_bitmap_blocks fs).
  { destruct (Z.lt_ge_cases 0 (free_bitmap_blocks fs)); [done|].
    destruct (Z.lt_ge_cases (total_blocks d) 1); zify_div. }
  repeat split; zify_div.
Qed.

(** [is_free] in terms of the bitmap block and the bit in it. *)
Lemma is_free_bit d q r m : 0 <= q -> 0 <= r < 32768 -> read_block (2 + q) d = Some m ->
  is_free d (q * 32768 + r) = bit_of m r.
Proof.
  intros Hq Hr Hm. unfold is_free. rewrite bitmap_block_of_eq by lia.
  replace ((q * 32768 + r) / 32768) with q by zify_div. rewrite Hm.
  unfold DZFS_BITSET_COVERED_BLOCKS, DZFS_BLOCK_SIZE. f_equal. zify_div.
Qed.

Lemma scan_bitmaps_spec fs d : fs_ok fs d -> forall k q, 0 <= q ->
  q + Z.of_nat k = free_bitmap_blocks fs ->
  (forall x, 0 <= x < q * 32768 -> is_free d x = false) ->
  exists b, scan_bitmaps k q d = Ret (inr b, d) /\
    ((b = 0 /\ forall x, 0 <= x < 32768 * free_bitmap_blocks fs -> is_free d x = false) \/
     (is_free d b = true /\ 0 < b < total_blocks d /\ forall x, 0 <= x < b -> is_free d x = false)).
Proof.
  intros Hfs. destruct (fs_geometry fs d Hfs) as (G1 & G2 & G3 & G4).
  induction k as [|k IH]; intros q Hq Hk Hlow.
  - exists 0. split; [done|]. left. split; [done|]. intros. apply Hlow. lia.
  - cbn [scan_bitmaps]. unfold mbind, io_bind, read_opt, io_get.
    destruct (read_ok (q + 1 + 1) d) as [m Hm]; [pose proof (fs_root fs d Hfs); lia|].
    rewrite Hm. pose proof (fs_bytes fs d Hfs _ _ Hm) as Hb.
    assert (read_block (2 + q) d = Some m) as Hm' by (rewrite <- Hm; f_equal; lia).
    assert (forall r, 0 <= r < 32768 -> is_free d (q * 32768 + r) = bit_of m r) as HF
      by (intros; by apply is_free_bit).
    destruct (scan_bitmap_spec q m Hb Hq ltac:(lia)) as [[-> Hz]|(b & -> & Hbr & Hbit & Hmin)].
    + simpl. apply IH; [lia|lia|]. intros x Hx.
      destruct (Z.lt_ge_cases x (q * 32768)); [apply Hlow; lia|].
      replace x with (q * 32768 + (x - q * 32768)) by lia. rewrite HF by lia. apply Hz. lia.
    + assert (is_free d (q * 32768 + b) = true) as Hf by (by rewrite HF).
      pose proof (fs_free fs d Hfs (q * 32768 + b) ltac:(lia) Hf) as Hrange.
      unfold truth. destruct (Z.eqb_spec (q * 32768 + b) 0); [lia|]. simpl.
      exists (q * 32768 + b). split; [done|]. right. split; [done|]. split; [lia|].
      intros x Hx. destruct (Z.lt_ge_cases x (q * 32768)); [apply Hlow; lia|].
      replace x with (q * 32768 + (x - q * 32768)) by lia. rewrite HF by lia. apply Hmin. lia.
Qed.

(** Writing a bitmap block that differs from the old one in the bit of [b]. *)
Lemma write_bit fs d b m m' v : fs_ok fs d -> 0 <= b < 32768 * free_bitmap_blocks fs ->
  read_block (bitmap_block_of b) d = Some m -> bytes_ok m' ->
  (forall c, 0 <= c < 32768 -> bit_of m' c = if c =? b mod 32768 then v else bit_of m c) ->
  (v = true -> root_dnode fs < b < total_blocks d) ->
  exists d', write_block (bitmap_block_of b) m' d = (true, d') /\ fs_ok fs d' /\
    (forall c, 0 <= c -> is_free d' c = if c =? b then v else is_free d c) /\
    (forall c, c <> bitmap_block_of b -> read_block c d' = read_block c d) /\
    total_blocks d' = total_blocks d /\ current_date d' = current_date d.
Proof.
  intros Hfs Hb Hm Hm' Hbit Hv.
  destruct (bitmap_block_range fs d b Hfs Hb) as [R1 R2].
  assert (0 <= bitmap_block_of b < total_blocks d) as HR by lia.
  pose proof (write_ok (bitmap_block_of b) m' d HR) as Hok.
  pose proof (write_total (bitmap_block_of b) m' d) as Htot.
  pose proof (write_date (bitmap_block_of b) m' d) as Hdate.
  pose proof (read_write_eq (bitmap_block_of b) m' d HR) as Heq.
  pose proof (fun c => read_write_ne (bitmap_block_of b) c m' d HR) as Hne.
  destruct (write_block (bitmap_block_of b) m' d) as [ok d']. simpl in *. subst ok.
  assert (forall c, 0 <= c -> is_free d' c = if c =? b then v else is_free d c) as HF.
  { intros c Hc. unfold is_free.
    destruct (Z.eq_dec (bitmap_block_of c) (bitmap_block_of b)) as [E|E].
    - rewrite E, Heq, Hm. unfold DZFS_BITSET_COVERED_BLOCKS, DZFS_BLOCK_SIZE. change (4096 * 8) with 32768.
      rewrite Hbit by (apply Z.mod_pos_bound; lia).
      rewrite !bitmap_block_of_eq in E by lia.
      destruct (Z.eqb_spec (c mod 32768) (b mod 32768)), (Z.eqb_spec c b); try done; zify_div.
    - rewrite Hne by congruence. destruct (Z.eqb_spec c b); [congruence|done]. }
  exists d'. split; [done|]. split; [|split; [done|split; [intros; by apply Hne; congruence|done]]].
  destruct Hfs as [F1 F2 F3 F4 F5 F6 F7]. constructor; rewrite ?Htot; try done.
  - intros c mc Hc. destruct (Z.eq_dec (bitmap_block_of b) c) as [<-|E].
    + rewrite Heq in Hc. by injection Hc as <-.
    + rewrite Hne in Hc by done. by eapply F6.
  - intros c Hc. rewrite HF by lia. destruct (Z.eqb_spec c b) as [->|]; [done|by apply F7].
Qed.

(** C8: [block_alloc] returns the lowest free block, marks exactly that block
    occupied and writes only the bitmap block it is in; it returns 0, leaving
    the disk alone, exactly when no block is free. *)
Theorem block_alloc_correct fs d : fs_ok fs d ->
  exists b d', block_alloc fs d = Ret (inr b, d') /\
    ((b = 0 /\ d' = d /\ forall x, 0 <= x < total_blocks d -> is_free d x = false) \/
     (root_dnode fs < b < total_blocks d /\ is_free d b = true /\
      (forall x, 0 <= x < b -> is_free d x = false) /\ fs_ok fs d' /\
      (forall c, 0 <= c -> is_free d' c = if c =? b then false else is_free d c) /\
      (forall c, c <> bitmap_block_of b -> read_block c d' = read_block c d) /\
      total_blocks d' = total_blocks d /\ current_date d' = current_date d)).
Proof.
  intros Hfs. destruct (fs_geometry fs d Hfs) as (G1 & G2 & G3 & G4).
  destruct (scan_bitmaps_spec fs d Hfs (Z.to_nat (free_bitmap_blocks fs)) 0) as (b & HS & Hb);
    [lia|lia|lia|].
  unfold block_alloc, mbind, io_bind. rewrite HS.
  destruct Hb as [[-> Hnone]|(Hf & Hr & Hmin)].
  - exists 0, d. split; [done|]. left. split_and!; try done.
    intros x Hx. apply Hnone. by apply fs_total_covered with d.
  - pose proof (fs_total_covered fs d b Hfs ltac:(lia)) as Hcov.
    pose proof (fs_free fs d Hfs b Hcov Hf) as Hrange.
    destruct (Z.eqb_spec b 0); [lia|]. unfold read_opt, io_get.
    destruct (bitmap_block_range fs d b Hfs Hcov) as [R1 R2].
    destruct (read_ok (bitmap_block_of b) d) as [m Hm]; [lia|]. rewrite Hm.
    pose proof (fs_bytes fs d Hfs _ _ Hm) as Hbm.
    assert (forall c, 0 <= c < 32768 ->
      bit_of (bitmap_clear m (b mod 32768)) c = if c =? b mod 32768 then false else bit_of m c) as HB.
    { intros c Hc. rewrite bitmap_clear_bit; [|apply (Z.mod_pos_bound b 32768); lia|lia].
      destruct (Z.eqb_spec c (b mod 32768)).
      - by rewrite bool_decide_true.
      - by rewrite bool_decide_false. }
    destruct (write_bit fs d b m _ false Hfs Hcov Hm (bytes_ok_bitmap_clear _ _ Hbm) HB ltac:(done))
      as (d' & HW & Hok & HF & Hfr & Ht & Hdt).
    unfold write_bool. change DZFS_BITSET_COVERED_BLOCKS with 32768. rewrite HW.
    exists b, d'. split; [done|]. right. split_and!; try done; lia.
Qed.

(** [block_free] marks exactly the given block free again and writes only
    its bitmap block: after [block_alloc] it restores the set of free blocks. *)
Theorem block_free_correct fs d b : fs_ok fs d -> root_dnode fs < b < total_blocks d ->
  exists d', block_free b d = Ret (inr tt, d') /\ fs_ok fs d' /\
    (forall c, 0 <= c -> is_free d' c = if c =? b then true else is_free d c) /\
    (forall c, c <> bitmap_block_of b -> read_block c d' = read_block c d) /\
    total_blocks d' = total_blocks d.
Proof.
  intros Hfs Hr. destruct (fs_geometry fs d Hfs) as (G1 & G2 & G3 & G4).
  pose proof (fs_total_covered fs d b Hfs ltac:(lia)) as Hcov.
  unfold block_free, mbind, io_bind, read_opt, io_get.
  destruct (bitmap_block_range fs d b Hfs Hcov) as [R1 R2].
  destruct (read_ok (bitmap_block_of b) d) as [m Hm]; [lia|]. rewrite Hm.
  pose proof (fs_bytes fs d Hfs _ _ Hm) as Hbm.
  assert (forall c, 0 <= c < 32768 ->
    bit_of (bitmap_set m (b mod 32768)) c = if c =? b mod 32768 then true else bit_of m c) as HB.
  { intros c Hc. rewrite bitmap_set_bit; [|apply (Z.mod_pos_bound b 32768); lia|lia].
    destruct (Z.eqb_spec c (b mod 32768)).
    - by rewrite bool_decide_true.
    - by rewrite bool_decide_false. }
  destruct (write_bit fs d b m _ true Hfs Hcov Hm (bytes_ok_bitmap_set _ _ Hbm) HB ltac:(done))
    as (d' & HW & Hok & HF & Hfr & Ht & _).
  unfold write_bool. change DZFS_BITSET_COVERED_BLOCKS with 32768. rewrite HW.
  exists d'. split_and!; done.
Qed.

End allocator.

(** ** Files: pointers and contents *)

Section files.
Context {D : Type} `{BlockDeviceLaws D}.

(** Number of content blocks a file can have. *)
Definition MAX_PTR : Z := 1980.

(** The block number of content block [k], and the bytes of the file. *)
Definition blk_ptr (dnode_block indirect_block : mem) (k : Z) : Z :=
  if DZFS_DIRECT_BLOCKS <=? k then load32 indirect_block (i_entry (k - DZFS_DIRECT_BLOCKS))
  else load32 dnode_block (f_direct k).
Definition ind_ptr (dnode_block : mem) : Z := load32 dnode_block f_indirect.

Definition fbyte (d : D) (dnb ind : mem) (o : Z) : Z :=
  match read_block (blk_ptr dnb ind (o / 4096)) d with
  | Some m => m (o mod 4096)
  | None => 0
  end.

(** The blocks of a file are its own: distinct, allocated, behind the root. *)
Record file_ok (fs : dzFS) (d : D) (dn : Z) (dnb ind : mem) : Prop := {
  fo_dn : root_dnode fs < dn < total_blocks d /\ is_free d dn = false;
  fo_ptr k : 0 <= k < MAX_PTR -> blk_ptr dnb ind k <> 0 ->
    root_dnode fs < blk_ptr dnb ind k < total_blocks d /\ is_free d (blk_ptr dnb ind k) = false /\
    blk_ptr dnb ind k <> dn /\ blk_ptr dnb ind k <> ind_ptr dnb;
  fo_inj k j : 0 <= k < MAX_PTR -> 0 <= j < MAX_PTR -> blk_ptr dnb ind k <> 0 ->
    blk_ptr dnb ind k = blk_ptr dnb ind j -> k = j;
  fo_ind : ind_ptr dnb <> 0 ->
    root_dnode fs < ind_ptr dnb < total_blocks d /\ is_free d (ind_ptr dnb) = false /\ ind_ptr dnb <> dn;
  fo_noind k : ind_ptr dnb = 0 -> DZFS_DIRECT_BLOCKS <= k < MAX_PTR -> blk_ptr dnb ind k = 0;
  fo_bytes : bytes_ok dnb /\ bytes_ok ind
}.

(** What is on the disk for the file. *)
Definition file_on (d : D) (dn : Z) (dnb ind : mem) : Prop :=
  read_block dn d = Some dnb /\ dnb h_type = DZFS_ENTITY_FILE /\
  (ind_ptr dnb <> 0 -> read_block (ind_ptr dnb) d = Some ind) /\
  (ind_ptr dnb = 0 -> ind = zeros).

(** The fields in front of the pointers do not change. *)
Definition same_header (m m' : mem) : Prop := forall x, x < f_indirect -> m' x = m x.

Lemma same_header_trans a b c : same_header a b -> same_header b c -> same_header a c.
Proof. intros H1 H2 x Hx. by rewrite H2, H1. Qed.

Lemma same_header_size a b : same_header a b -> load32 b f_size = load32 a f_size.
Proof. intros Hs. apply load_le_ext. intros. apply Hs. unfold f_size, f_indirect in *. lia. Qed.

Lemma same_header_store m a v : f_indirect <= a -> same_header m (store32 m a v).
Proof. intros Ha x Hx. apply store_le_out. lia. Qed.

(** Slots are 32-bit words that do not overlap. *)
Ltac slots := unfold blk_ptr, ind_ptr, i_entry, f_direct, f_indirect, f_size, MAX_PTR,
  DZFS_DIRECT_BLOCKS in *.

Lemma store_direct dnb ind k v j : 0 <= k < 956 -> 0 <= j -> 0 <= v < 2 ^ 32 ->
  blk_ptr (store32 dnb (f_direct k) v) ind j = if j =? k then v else blk_ptr dnb ind j.
Proof.
  intros Hk Hj Hv. slots. destruct (Z.leb_spec 956 j), (Z.eqb_spec j k); try lia; try done.
  - subst. by rewrite load32_store32, wrap_small.
  - apply load32_store32_out. lia.
Qed.

Lemma store_direct_ind dnb k v : 0 <= k -> ind_ptr (store32 dnb (f_direct k) v) = ind_ptr dnb.
Proof. intros Hk. slots. apply load32_store32_out. lia. Qed.

Lemma store_indirect dnb ind k v j : 956 <= k -> 0 <= j -> 0 <= v < 2 ^ 32 ->
  blk_ptr dnb (store32 ind (i_entry (k - DZFS_DIRECT_BLOCKS)) v) j =
  if j =? k then v else blk_ptr dnb ind j.
Proof.
  intros Hk Hj Hv. slots. destruct (Z.leb_spec 956 j), (Z.eqb_spec j k); try lia; try done.
  - subst. by rewrite load32_store32, wrap_small.
  - apply load32_store32_out. lia.
Qed.

Lemma store_ind_ptr dnb ind v j : 0 <= j -> blk_ptr (store32 dnb f_indirect v) ind j = blk_ptr dnb ind j.
Proof.
  intros Hj. slots. destruct (Z.leb_spec 956 j); [done|]. apply load32_store32_out. lia.
Qed.

Lemma ind_store_ind dnb v : 0 <= v < 2 ^ 32 -> ind_ptr (store32 dnb f_indirect v) = v.
Proof. intros. slots. by rewrite load32_store32, wrap_small. Qed.

Lemma blk_ptr_range dnb ind k : bytes_ok dnb -> bytes_ok ind -> 0 <= blk_ptr dnb ind k < 2 ^ 32.
Proof. intros. unfold blk_ptr. destruct (_ <=? _); by apply load32_range. Qed.

(** How the allocator's state may move under a write: blocks only become
    occupied, blocks behind the root only change when they are the file's. *)
Definition fs_step (fs : dzFS) (d d' : D) : Prop :=
  fs_ok fs d' /\ total_blocks d' = total_blocks d /\
  (forall c, 0 <= c < total_blocks d -> is_free d' c = true -> is_free d c = true).

(** No block is left. *)
Definition disk_full (d : D) : Prop := forall x, 0 <= x < total_blocks d -> is_free d x = false.

Lemma fs_step_refl fs d : fs_ok fs d -> fs_step fs d d.
Proof. intros Hfs. by split; [|split]. Qed.

Lemma fs_step_trans fs d d1 d2 : fs_step fs d d1 -> fs_step fs d1 d2 -> fs_step fs d d2.
Proof.
  intros (A1 & A2 & A3) (B1 & B2 & B3). split; [done|]. split; [congruence|].
  rewrite A2 in B3. auto.
Qed.

Lemma fs_step_used fs d d' c : fs_step fs d d' -> 0 <= c < total_blocks d -> is_free d c = false ->
  is_free d' c = false.
Proof.
  intros (_ & _ & HS) Hc Hf. apply not_true_iff_false. intros E. apply HS in E; [congruence|done].
Qed.

Lemma file_ok_step fs d d' dn dnb ind : fs_step fs d d' -> 0 <= root_dnode fs ->
  file_ok fs d dn dnb ind -> file_ok fs d' dn dnb ind.
Proof.
  intros Hs Hr [F1 F2 F3 F4 F5 F6]. pose proof Hs as (_ & Ht & _).
  constructor; rewrite ?Ht; try done.
  - destruct F1. split; [done|]. eapply fs_step_used; eauto. lia.
  - intros k Hk Hp. destruct (F2 k Hk Hp) as (? & ? & ? & ?). split_and!; try done; try lia.
    eapply fs_step_used; eauto. lia.
  - intros Hi. destruct (F4 Hi) as (? & ? & ?). split_and!; try done; try lia.
    eapply fs_step_used; eauto. lia.
Qed.

(** [block_alloc] as a step, with a block that nobody uses. *)
Lemma block_alloc_step fs d : fs_ok fs d ->
  exists b d', block_alloc fs d = Ret (inr b, d') /\
    ((b = 0 /\ d' = d /\ disk_full d) \/
     (root_dnode fs < b < total_blocks d /\ is_free d b = true /\ is_free d' b = false /\
      fs_step fs d d' /\ forall c, root_dnode fs <= c -> read_block c d' = read_block c d)).
Proof.
  intros Hfs. destruct (fs_geometry fs d Hfs) as (G1 & G2 & G3 & G4).
  destruct (scan_bitmaps_spec fs d Hfs (Z.to_nat (free_bitmap_blocks fs)) 0) as (b & HS & Hb);
    [lia|lia|lia|].
  unfold block_alloc, mbind, io_bind. rewrite HS.
  destruct Hb as [[-> Hnone]|(Hf & Hr & Hmin)].
  - exists 0, d. split; [done|]. left. split; [done|]. split; [done|].
    intros x Hx. apply Hnone. by apply fs_total_covered with d.
  - pose proof (fs_total_covered fs d b Hfs ltac:(lia)) as Hcov.
    pose proof (fs_free fs d Hfs b Hcov Hf) as Hrange.
    destruct (Z.eqb_spec b 0); [lia|]. unfold read_opt, io_get.
    destruct (bitmap_block_range fs d b Hfs Hcov) as [R1 R2].
    destruct (read_ok (bitmap_block_of b) d) as [m Hm]; [lia|]. rewrite Hm.
    destruct (write_bit fs d b m (bitmap_clear m (b mod 32768)) false Hfs Hcov Hm
      (bytes_ok_bitmap_clear _ _ (fs_bytes fs d Hfs _ _ Hm)))
      as (d' & HW & Hok & HF & Hfr & Ht & Hdt); [|done|].
    { intros c Hc. rewrite bitmap_clear_bit; [|apply (Z.mod_pos_bound b 32768); lia|lia].
      destruct (Z.eqb_spec c (b mod 32768)); [by rewrite bool_decide_true|by rewrite bool_decide_false]. }
    unfold write_bool. change DZFS_BITSET_COVERED_BLOCKS with 32768. rewrite HW.
    exists b, d'. split; [done|]. right. split; [done|]. split; [done|].
    split; [rewrite HF, Z.eqb_refl by lia; done|]. split.
    + split; [done|]. split; [done|]. intros c Hc. rewrite HF by lia. by destruct (c =? b).
    + intros c Hc. apply Hfr. lia.
Qed.

(** Writing a block behind the root. *)
Lemma write_data_step fs d b m : fs_ok fs d -> root_dnode fs <= b < total_blocks d -> bytes_ok m ->
  exists d', try_write b m d = Ret (inr tt, d') /\ fs_step fs d d' /\
    (forall c, 0 <= c < total_blocks d -> is_free d' c = is_free d c) /\
    read_block b d' = Some m /\ forall c, c <> b -> read_block c d' = read_block c d.
Proof.
  intros Hfs Hb Hm. destruct (fs_geometry fs d Hfs) as (G1 & G2 & G3 & G4).
  assert (0 <= b < total_blocks d) as HR by lia.
  pose proof (write_ok b m d HR) as Hok. pose proof (write_total b m d) as Htot.
  pose proof (read_write_eq b m d HR) as Heq. pose proof (fun c => read_write_ne b c m d HR) as Hne.
  unfold try_write, write_bool, mbind, io_bind.
  destruct (write_block b m d) as [ok d']. simpl in *. subst ok.
  assert (forall c, 0 <= c < 32768 * free_bitmap_blocks fs -> is_free d' c = is_free d c) as HF.
  { intros c Hc. unfold is_free. destruct (bitmap_block_range fs d c Hfs Hc). rewrite Hne; [done|lia]. }
  assert (forall c, 0 <= c < total_blocks d -> is_free d' c = is_free d c) as HF'.
  { intros c Hc. apply HF. by apply fs_total_covered with d. }
  exists d'. split; [done|]. split; [|split; [done|split; [done|intros; apply Hne; congruence]]].
  split; [|split; [done|intros c Hc; by rewrite HF']].
  destruct Hfs as [F1 F2 F3 F4 F5 F6 F7]. constructor; rewrite ?Htot; try done.
  - intros c mc Hc. destruct (Z.eq_dec b c) as [<-|E].
    + rewrite Heq in Hc. by injection Hc as <-.
    + rewrite Hne in Hc by done. by eapply F6.
  - intros c Hc. rewrite HF by done. by apply F7.
Qed.

(** *** Finding or allocating the block of a write *)

(** What one [write_target] may do to the pointers. *)
Definition target_post (fs : dzFS) (d : D) (dn : Z) (dnb ind : mem) (k : Z)
    (b : Z) (dnb' ind' : mem) (d' : D) : Prop :=
  fs_step fs d d' /\ file_ok fs d' dn dnb' ind' /\ blk_ptr dnb' ind' k = b /\ b <> 0 /\
  (forall j, 0 <= j < MAX_PTR -> j <> k -> blk_ptr dnb' ind' j = blk_ptr dnb ind j) /\
  (blk_ptr dnb ind k <> 0 -> b = blk_ptr dnb ind k) /\
  (blk_ptr dnb ind k = 0 -> is_free d b = true) /\
  same_header dnb dnb' /\ (forall c, root_dnode fs <= c -> read_block c d' = read_block c d) /\
  (ind_ptr dnb <> 0 -> ind_ptr dnb' = ind_ptr dnb) /\ (ind_ptr dnb' = 0 -> ind' = ind).

(** [get_or_allocate_block] on a pointer of the file. *)
Lemma get_or_allocate_spec fs d from : fs_ok fs d ->
  exists b d', get_or_allocate_block fs from d = Ret (inr b, d') /\
    fs_step fs d d' /\ (forall c, root_dnode fs <= c -> read_block c d' = read_block c d) /\
    (from <> 0 -> b = from /\ d' = d) /\
    (from = 0 -> b <> 0 ->
       root_dnode fs < b < total_blocks d /\ is_free d b = true /\ is_free d' b = false) /\
    (b = 0 -> from = 0 /\ disk_full d').
Proof.
  intros Hfs. unfold get_or_allocate_block. destruct (Z.eqb_spec from 0) as [->|Hne].
  - destruct (block_alloc_step fs d Hfs) as (b & d' & HE & [(-> & -> & HF)|(H1 & H2 & H3 & H4 & H5)]).
    + exists 0, d. split; [done|]. split; [by apply fs_step_refl|]. split; [done|]. by split_and!.
    + destruct (fs_geometry fs d Hfs) as (_ & _ & G & _).
      exists b, d'. split; [done|]. split; [done|]. split; [done|]. split_and!; [done|done|lia].
  - exists from, d. split; [done|]. split; [by apply fs_step_refl|]. split; [done|]. by split_and!.
Qed.

(** What [write_target] leaves when it finds no block: nothing is free any
    more, block [k] was missing, and only the bitmap has changed. *)
Definition target_full (fs : dzFS) (d : D) (dnb ind : mem) (k : Z) (d' : D) : Prop :=
  fs_step fs d d' /\ disk_full d' /\ blk_ptr dnb ind k = 0 /\
  (forall c, root_dnode fs <= c -> read_block c d' = read_block c d).

(** A pointer of the file set to its block, old or fresh. *)
Lemma set_ptr_ok fs d d' dn dnb ind dnb' ind' k b : 0 <= root_dnode fs -> fs_step fs d d' ->
  file_ok fs d dn dnb ind -> 0 <= k < MAX_PTR -> bytes_ok dnb' -> bytes_ok ind' ->
  (forall j, 0 <= j -> blk_ptr dnb' ind' j = if j =? k then b else blk_ptr dnb ind j) ->
  ind_ptr dnb' = ind_ptr dnb -> (ind_ptr dnb = 0 -> k < DZFS_DIRECT_BLOCKS) ->
  (blk_ptr dnb ind k <> 0 -> b = blk_ptr dnb ind k) ->
  (blk_ptr dnb ind k = 0 -> root_dnode fs < b < total_blocks d /\ is_free d b = true /\
     is_free d' b = false) ->
  file_ok fs d' dn dnb' ind'.
Proof.
  intros Hr Hs Hok Hk Hb1 Hb2 Hptr Hind Hdir Hold Hnew.
  pose proof (file_ok_step fs d d' dn dnb ind Hs Hr Hok) as [F1 F2 F3 F4 F5 F6].
  destruct Hok as [O1 O2 O3 O4 O5 O6]. pose proof Hs as (_ & Ht & _). unfold MAX_PTR in *.
  assert (forall j, 0 <= j < 1980 -> blk_ptr dnb ind k = 0 -> blk_ptr dnb ind j <> 0 ->
    b <> blk_ptr dnb ind j) as Hfresh.
  { intros j Hj E0 Hj0 ->. destruct (Hnew E0) as (_ & Hf & _).
    destruct (O2 j Hj Hj0) as (_ & Hu & _). congruence. }
  constructor; try done.
  - intros j Hj. rewrite Hptr, Hind by lia. destruct (Z.eqb_spec j k) as [->|]; [|by apply F2].
    destruct (Z.eq_dec (blk_ptr dnb ind k) 0) as [E|E].
    + intros _. destruct (Hnew E) as (R1 & R2 & R3). rewrite Ht. split; [done|]. split; [done|].
      split.
      * intros ->. destruct O1. congruence.
      * intros Hb. destruct (Z.eq_dec (ind_ptr dnb) 0) as [E0|E0]; [rewrite Hb, E0 in R1; lia|].
        destruct (O4 E0) as (_ & ? & _). congruence.
    + rewrite (Hold E). by apply F2.
  - intros j1 j2 Hj1 Hj2. rewrite !Hptr by lia.
    destruct (Z.eqb_spec j1 k) as [->|], (Z.eqb_spec j2 k) as [->|]; try done.
    + intros Hb0 Hb. destruct (Z.eq_dec (blk_ptr dnb ind k) 0) as [E|E].
      * exfalso. apply (Hfresh j2); [done|done|congruence|done].
      * rewrite (Hold E) in Hb. by apply F3.
    + intros Hb0 Hb. destruct (Z.eq_dec (blk_ptr dnb ind k) 0) as [E|E].
      * exfalso. by apply (Hfresh j1).
      * rewrite (Hold E) in Hb. by apply F3.
    + by apply F3.
  - by rewrite Hind.
  - intros j. rewrite Hind. intros Hi Hj. rewrite Hptr by (unfold DZFS_DIRECT_BLOCKS in *; lia).
    destruct (Z.eqb_spec j k) as [->|]; [|by apply F5].
    specialize (Hdir Hi). unfold DZFS_DIRECT_BLOCKS in *. lia.
Qed.

(** A fresh indirect block entered in the dnode. *)
Lemma set_ind_ok fs d d' dn dnb ind b : 0 <= root_dnode fs -> fs_step fs d d' ->
  file_ok fs d dn dnb ind -> 0 <= b < 2 ^ 32 ->
  (ind_ptr dnb <> 0 -> b = ind_ptr dnb) ->
  (ind_ptr dnb = 0 -> root_dnode fs < b < total_blocks d /\ is_free d b = true /\
     is_free d' b = false) ->
  file_ok fs d' dn (store32 dnb f_indirect b) ind.
Proof.
  intros Hr Hs Hok Hb Hold Hnew.
  pose proof (file_ok_step fs d d' dn dnb ind Hs Hr Hok) as [F1 F2 F3 F4 F5 [F6 F7]].
  destruct Hok as [O1 O2 O3 O4 O5 O6]. pose proof Hs as (_ & Ht & _). unfold MAX_PTR in *.
  constructor; try done.
  - intros k Hk. rewrite store_ind_ptr, ind_store_ind by lia. intros Hp.
    destruct (F2 k Hk Hp) as (R1 & R2 & R3 & R4). split_and!; try done; try lia.
    intros Hkb. destruct (Z.eq_dec (ind_ptr dnb) 0) as [E|E].
    + destruct (Hnew E) as (_ & Hf & _). destruct (O2 k Hk Hp) as (_ & Hu & _). congruence.
    + rewrite (Hold E) in Hkb. done.
  - intros k j Hk Hj. rewrite !store_ind_ptr by lia. by apply F3.
  - rewrite ind_store_ind by done. intros Hb0. destruct (Z.eq_dec (ind_ptr dnb) 0) as [E|E].
    + destruct (Hnew E) as (R1 & R2 & R3). rewrite Ht. split; [done|]. split; [done|].
      intros ->. destruct O1. congruence.
    + rewrite (Hold E). by apply F4.
  - intros k. rewrite ind_store_ind by done. intros E Hk.
    rewrite store_ind_ptr by (unfold DZFS_DIRECT_BLOCKS in *; lia). apply F5; [|done].
    destruct (Z.eq_dec (ind_ptr dnb) 0) as [E0|E0]; [done|]. rewrite <- (Hold E0). done.
  - split; [|done]. by apply bytes_ok_store_le.
Qed.

Lemma write_target_direct fs d dn dnb ind k : fs_ok fs d -> file_ok fs d dn dnb ind ->
  0 <= k < DZFS_DIRECT_BLOCKS ->
  exists r d', write_target fs k dnb ind d = Ret (r, d') /\
    ((r = inl DZFS_ERR_FULL /\ target_full fs d dnb ind k d') \/
     exists b dnb' ind', r = inr (b, dnb', ind') /\ target_post fs d dn dnb ind k b dnb' ind' d').
Proof.
  intros Hfs Hok Hk. destruct (fs_geometry fs d Hfs) as (G1 & G2 & G3 & G4).
  unfold DZFS_DIRECT_BLOCKS in Hk.
  unfold write_target. destruct (Z.leb_spec DZFS_DIRECT_BLOCKS k); [unfold DZFS_DIRECT_BLOCKS in *; lia|].
  assert (load32 dnb (f_direct k) = blk_ptr dnb ind k) as ->.
  { unfold blk_ptr. destruct (Z.leb_spec DZFS_DIRECT_BLOCKS k); [lia|done]. }
  destruct (get_or_allocate_spec fs d (blk_ptr dnb ind k) Hfs)
    as (b & d' & HE & Hs & Hr & Hold & Hnew & Hfull).
  unfold mbind, io_bind. rewrite HE. destruct (Z.eqb_spec b 0) as [->|Hb].
  { destruct (Hfull eq_refl). eexists _, _. split; [done|]. by left. }
  pose proof (fo_bytes _ _ _ _ _ Hok) as [B1 B2].
  pose proof (blk_ptr_range dnb ind k B1 B2). pose proof (fs_width fs d Hfs).
  assert (0 <= b < 2 ^ 32) as Hbr.
  { destruct (Z.eq_dec (blk_ptr dnb ind k) 0) as [E|E].
    - destruct (Hnew E Hb) as (? & _). lia.
    - destruct (Hold E) as [-> _]. done. }
  eexists _, _. split; [done|]. right. exists b, (store32 dnb (f_direct k) b), ind. split; [done|].
  assert (forall j, 0 <= j -> blk_ptr (store32 dnb (f_direct k) b) ind j =
            if j =? k then b else blk_ptr dnb ind j) as Hptr by (intros; by apply store_direct).
  unfold target_post. split; [done|]. split.
  { eapply (set_ptr_ok fs d d' dn dnb ind _ _ k b); try done; try lia.
    - unfold MAX_PTR. lia.
    - by apply bytes_ok_store_le.
    - apply store_direct_ind. lia.
    - intros E. by apply Hnew. }
  split; [by rewrite Hptr, Z.eqb_refl by lia|]. split; [done|]. split.
  { intros j Hj Hjk. rewrite Hptr by lia. by destruct (Z.eqb_spec j k). }
  split; [intros E; by destruct (Hold E)|].
  split; [intros E; by destruct (Hnew E Hb) as (_ & ? & _)|].
  split; [apply same_header_store; unfold f_indirect, f_direct; lia|]. split; [done|].
  rewrite store_direct_ind by lia. done.
Qed.

Lemma write_target_indirect fs d dn dnb ind k : fs_ok fs d -> file_ok fs d dn dnb ind ->
  DZFS_DIRECT_BLOCKS <= k < MAX_PTR ->
  exists r d', write_target fs k dnb ind d = Ret (r, d') /\
    ((r = inl DZFS_ERR_FULL /\ target_full fs d dnb ind k d') \/
     exists b dnb' ind', r = inr (b, dnb', ind') /\ target_post fs d dn dnb ind k b dnb' ind' d').
Proof.
  intros Hfs Hok Hk. destruct (fs_geometry fs d Hfs) as (G1 & G2 & G3 & G4).
  unfold DZFS_DIRECT_BLOCKS in Hk. pose proof (fs_width fs d Hfs).
  pose proof (fo_bytes _ _ _ _ _ Hok) as [B1 B2].
  unfold write_target. destruct (Z.leb_spec DZFS_DIRECT_BLOCKS k); [|unfold DZFS_DIRECT_BLOCKS in *; lia].
  fold (ind_ptr dnb).
  destruct (get_or_allocate_spec fs d (ind_ptr dnb) Hfs)
    as (i & d1 & HE1 & Hs1 & Hr1 & Hold1 & Hnew1 & Hfull1).
  unfold mbind, io_bind. rewrite HE1. destruct (Z.eqb_spec i 0) as [->|Hi].
  { destruct (Hfull1 eq_refl) as [Ei HF]. eexists _, _. split; [done|]. left. split; [done|].
    split; [done|]. split; [done|]. split; [|done].
    by apply (fo_noind _ _ _ _ _ Hok k Ei). }
  assert (0 <= i < 2 ^ 32) as Hir.
  { destruct (Z.eq_dec (ind_ptr dnb) 0) as [E|E].
    - destruct (Hnew1 E Hi) as (? & _). lia.
    - destruct (Hold1 E) as [-> _]. by apply load32_range. }
  assert (file_ok fs d1 dn (store32 dnb f_indirect i) ind) as Hok1.
  { eapply (set_ind_ok fs d d1); try done; try lia.
    intros E. by apply Hnew1. }
  set (dnb1 := store32 dnb f_indirect i) in *.
  assert (forall j, 0 <= j -> blk_ptr dnb1 ind j = blk_ptr dnb ind j) as Hp1
    by (intros; by apply store_ind_ptr).
  assert (load32 ind (i_entry (k - DZFS_DIRECT_BLOCKS)) = blk_ptr dnb1 ind k) as ->.
  { unfold blk_ptr. destruct (Z.leb_spec DZFS_DIRECT_BLOCKS k); [done|lia]. }
  pose proof Hs1 as (Hfs1 & Ht1 & Hmono1).
  destruct (get_or_allocate_spec fs d1 (blk_ptr dnb1 ind k) Hfs1)
    as (b & d2 & HE2 & Hs2 & Hr2 & Hold2 & Hnew2 & Hfull2).
  rewrite HE2. destruct (Z.eqb_spec b 0) as [->|Hb].
  { destruct (Hfull2 eq_refl) as [Ep HF]. eexists _, _. split; [done|]. left. split; [done|].
    split; [by eapply fs_step_trans|]. split; [done|]. split; [by rewrite <- Hp1 by lia|].
    intros c Hc. by rewrite Hr2, Hr1. }
  pose proof (fo_bytes _ _ _ _ _ Hok1) as [B3 _].
  pose proof (blk_ptr_range dnb1 ind k B3 B2).
  assert (0 <= b < 2 ^ 32) as Hbr.
  { destruct (Z.eq_dec (blk_ptr dnb1 ind k) 0) as [E|E].
    - destruct (Hnew2 E Hb) as (? & _). lia.
    - destruct (Hold2 E) as [-> _]. done. }
  eexists _, _. split; [done|]. right.
  exists b, dnb1, (store32 ind (i_entry (k - DZFS_DIRECT_BLOCKS)) b). split; [done|].
  assert (forall j, 0 <= j -> blk_ptr dnb1 (store32 ind (i_entry (k - DZFS_DIRECT_BLOCKS)) b) j =
            if j =? k then b else blk_ptr dnb1 ind j) as Hptr
    by (intros; apply store_indirect; unfold DZFS_DIRECT_BLOCKS; lia).
  assert (ind_ptr dnb1 = i) as Hi1 by (by apply ind_store_ind).
  unfold target_post. split; [by eapply fs_step_trans|]. split.
  { eapply (set_ptr_ok fs d1 d2 dn dnb1 ind _ _ k b); try done; try lia.
    - by apply bytes_ok_store_le.
    - intros E. by apply Hnew2. }
  split; [by rewrite Hptr, Z.eqb_refl by lia|]. split; [done|]. split.
  { intros j Hj Hjk. rewrite Hptr by lia. destruct (Z.eqb_spec j k); [done|]. apply Hp1. lia. }
  rewrite Hp1 in * by lia.
  split; [intros E; by destruct (Hold2 E)|].
  split.
  { intros E. destruct (Hnew2 E Hb) as (Hb1 & Hb2 & _). rewrite Ht1 in Hb1.
    apply Hmono1; [lia|done]. }
  split; [apply same_header_store; unfold f_indirect; lia|].
  split; [intros c Hc; by rewrite Hr2, Hr1|].
  rewrite Hi1. split; [|done]. intros E. by destruct (Hold1 E).
Qed.

Lemma write_target_spec fs d dn dnb ind k : fs_ok fs d -> file_ok fs d dn dnb ind ->
  0 <= k < MAX_PTR ->
  exists r d', write_target fs k dnb ind d = Ret (r, d') /\
    ((r = inl DZFS_ERR_FULL /\ target_full fs d dnb ind k d') \/
     exists b dnb' ind', r = inr (b, dnb', ind') /\ target_post fs d dn dnb ind k b dnb' ind' d').
Proof.
  intros Hfs Hok Hk. destruct (Z.lt_ge_cases k DZFS_DIRECT_BLOCKS).
  - apply write_target_direct; try done; lia.
  - apply write_target_indirect; try done; lia.
Qed.

(** Running the first half of a sequence. *)
Lemma io_step {A B} (m : io A) (f : A -> io B) (d : D) a d' :
  m d = Ret (inr a, d') -> (m ≫= f) d = f a d'.
Proof. intros E. unfold mbind, io_bind. by rewrite E. Qed.

Lemma io_stop {A B} (m : io A) (f : A -> io B) (d : D) e d' :
  m d = Ret (inl e, d') -> (m ≫= f) d = Ret (inl e, d').
Proof. intros E. unfold mbind, io_bind. by rewrite E. Qed.

(** *** Reading *)

Lemma seqZ_cut lo n k : 0 <= k <= n -> seqZ lo n = seqZ lo k ++ seqZ (lo + k) (n - k).
Proof. intros. rewrite <- seqZ_app by lia. f_equal. lia. Qed.

Lemma load_list_seq m a n : load_list m a n = m <$> seqZ a (Z.of_nat n).
Proof.
  revert a. induction n as [|n IH]; intros a; [done|].
  rewrite Nat2Z.inj_succ, seqZ_cons by lia. simpl. rewrite IH.
  unfold Z.succ, Z.pred. do 3 f_equal. lia.
Qed.

Lemma fbyte_chunk d dnb ind m o n : read_block (blk_ptr dnb ind (o / 4096)) d = Some m ->
  0 <= o -> 0 <= n <= 4096 - o mod 4096 ->
  load_list m (o mod 4096) (Z.to_nat n) = fbyte d dnb ind <$> seqZ o n.
Proof.
  intros Hm Ho Hn. rewrite load_list_seq, Z2Nat.id by lia.
  replace (seqZ (o mod 4096) n) with (Z.add (o mod 4096 - o) <$> seqZ o n)
    by (rewrite fmap_add_seqZ; f_equal; lia).
  rewrite <- list_fmap_compose. apply list_fmap_ext. intros i x [-> Hi]%lookup_seqZ. simpl.
  unfold fbyte. replace ((o + Z.of_nat i) / 4096) with (o / 4096) by zify_div. rewrite Hm.
  f_equal. zify_div.
Qed.

Lemma read_loop_spec d dnb ind n off fuel : 0 <= off -> off + n <= DZFS_MAX_FILESIZE ->
  (Z.to_nat n < fuel)%nat ->
  (forall k, 0 <= k < MAX_PTR -> 0 <= blk_ptr dnb ind k < total_blocks d) ->
  read_loop fuel n off dnb ind d = Ret (inr (fbyte d dnb ind <$> seqZ off n), d).
Proof.
  intros Ho Hmax Hf Hp. revert n off Ho Hmax Hf.
  induction fuel as [|fuel IH]; intros n off Ho Hmax Hf; [lia|].
  cbn [read_loop]. destruct (Z.leb_spec n 0); [by rewrite seqZ_nil by lia|].
  unfold DZFS_MAX_FILESIZE, DZFS_DIRECT_BLOCKS, DZFS_BLOCK_SIZE, DZFS_INDIRECT_BLOCK_COUNT in *.
  assert (0 <= off / 4096 < 1980) as Hk by zify_div.
  destruct (Z.leb_spec (956 + 1024) (off / 4096)); [lia|].
  assert ((if 956 <=? off / 4096 then load32 ind (i_entry (off / 4096 - 956))
           else load32 dnb (f_direct (off / 4096))) = blk_ptr dnb ind (off / 4096)) as -> by done.
  unfold try_read, mbind, io_bind, read_opt, io_get.
  destruct (read_ok (blk_ptr dnb ind (off / 4096)) d) as [m Hm]; [by apply Hp|]. rewrite Hm.
  unfold mret, io_ret.
  set (c := Z.min (4096 - off mod 4096) n).
  assert (0 < c <= n /\ c <= 4096 - off mod 4096) as Hc by (subst c; zify_div).
  rewrite (IH (n - c) (off + c)) by lia.
  rewrite (fbyte_chunk d dnb ind m off c Hm) by lia.
  by rewrite (seqZ_cut off n c), fmap_app by lia.
Qed.

Lemma try_read_some b m (d : D) : read_block b d = Some m -> try_read b d = Ret (inr m, d).
Proof. intros E. unfold try_read, mbind, io_bind, read_opt, io_get. by rewrite E. Qed.

Lemma read_indirect_on d dn dnb ind : file_on d dn dnb ind ->
  read_indirect dnb d = Ret (inr ind, d).
Proof.
  intros (_ & _ & Hi & Hz). unfold read_indirect. fold (ind_ptr dnb). unfold truth.
  destruct (Z.eqb_spec (ind_ptr dnb) 0) as [E|E]; simpl.
  - by rewrite (Hz E).
  - apply try_read_some. by apply Hi.
Qed.

Lemma dzfs_read_spec fs d dn dnb ind size offset : fs_ok fs d -> file_on d dn dnb ind ->
  file_ok fs d dn dnb ind -> load32 dnb f_size <= DZFS_MAX_FILESIZE -> 0 <= offset -> 0 <= size ->
  dzfs_read fs dn size offset d =
  Ret (inr (fbyte d dnb ind <$> seqZ offset (Z.min (load32 dnb f_size - offset) size)), d).
Proof.
  intros Hfs (Hd & Ht & Hi & Hz) Hok Hmax Ho Hs. destruct (fs_geometry fs d Hfs) as (G1 & G2 & G3 & G4).
  assert (forall k, 0 <= k < MAX_PTR -> 0 <= blk_ptr dnb ind k < total_blocks d) as Hp.
  { intros k Hk. destruct (Z.eq_dec (blk_ptr dnb ind k) 0) as [->|E]; [lia|].
    destruct (fo_ptr _ _ _ _ _ Hok k Hk E) as (? & _). lia. }
  unfold dzfs_read, mbind, io_bind. rewrite (try_read_some _ _ _ Hd), Ht.
  change (negb (DZFS_ENTITY_FILE =? DZFS_ENTITY_FILE)) with false. cbv iota.
  cbv beta. rewrite (read_indirect_on d dn dnb ind) by done.
  destruct (Z.leb_spec (load32 dnb f_size) offset).
  { by rewrite seqZ_nil by lia. }
  unfold DZFS_MAX_FILESIZE, DZFS_DIRECT_BLOCKS, DZFS_BLOCK_SIZE in *.
  rewrite sgn_small by lia. apply read_loop_spec; try done; try lia.
  unfold DZFS_MAX_FILESIZE, DZFS_DIRECT_BLOCKS, DZFS_BLOCK_SIZE. lia.
Qed.

(** C5: [dzfs_read] returns exactly the file's bytes from [offset] on, as
    many as were asked for and as the file has, and leaves the disk alone. *)
Theorem dzfs_read_correct fs d dn dnb ind size offset : fs_ok fs d -> file_on d dn dnb ind ->
  file_ok fs d dn dnb ind -> load32 dnb f_size <= DZFS_MAX_FILESIZE -> 0 <= offset -> 0 <= size ->
  dzfs_read fs dn size offset d =
  Ret (inr (fbyte d dnb ind <$> seqZ offset (Z.min (load32 dnb f_size - offset) size)), d).
Proof. apply dzfs_read_spec. Qed.

(** *** Writing *)

(** The contents after writing [data] at [offset]: a first write at offset 0
    does not read the block, so the rest of the first block is not kept. *)
Definition written (d : D) (dnb ind : mem) (offset : Z) (data : list Z)
    (d' : D) (dnb' ind' : mem) : Prop :=
  (forall i x, zget data i = Some x -> fbyte d' dnb' ind' (offset + i) = x) /\
  (forall o, 0 <= o < DZFS_MAX_FILESIZE -> blk_ptr dnb ind (o / 4096) <> 0 ->
     o < offset \/ offset + zlen data <= o -> 0 < offset \/ data = [] \/ 4096 <= o ->
     fbyte d' dnb' ind' o = fbyte d dnb ind o).

(** Pointers are only added, the rest of the disk is not written. *)
Definition extended (fs : dzFS) (d : D) (dnb ind : mem) (d' : D) (dnb' ind' : mem) : Prop :=
  fs_step fs d d' /\ same_header dnb dnb' /\
  (forall j, 0 <= j < MAX_PTR -> blk_ptr dnb ind j <> 0 ->
     blk_ptr dnb' ind' j = blk_ptr dnb ind j) /\
  (ind_ptr dnb <> 0 -> ind_ptr dnb' = ind_ptr dnb) /\ (ind_ptr dnb' = 0 -> ind' = ind) /\
  (forall c, root_dnode fs <= c < total_blocks d -> is_free d c = false ->
     (forall j, 0 <= j < MAX_PTR -> blk_ptr dnb' ind' j <> c) -> read_block c d' = read_block c d).

(** Of a write that runs out of blocks: no block is left, one of the blocks
    it covers had none yet, and the allocated blocks of the disk other than
    the file's contents are as before, its dnode and indirect block too. *)
Definition write_full (fs : dzFS) (d : D) (dnb ind : mem) (offset : Z) (data : list Z) (d' : D) : Prop :=
  fs_step fs d d' /\ disk_full d' /\
  (exists k, offset / 4096 <= k <= (offset + zlen data - 1) / 4096 /\ blk_ptr dnb ind k = 0) /\
  (forall c, root_dnode fs <= c < total_blocks d -> is_free d c = false ->
     (forall j, 0 <= j < MAX_PTR -> blk_ptr dnb ind j <> c) -> read_block c d' = read_block c d).

Lemma extended_refl fs d dnb ind : fs_ok fs d -> extended fs d dnb ind d dnb ind.
Proof. intros Hfs. split; [by apply fs_step_refl|]. by split; [|split; [|split; [|split]]]. Qed.

Lemma extended_trans fs d dnb ind d1 dnb1 ind1 d2 dnb2 ind2 : 3 <= root_dnode fs ->
  (forall j, 0 <= j < MAX_PTR -> blk_ptr dnb1 ind1 j <> 0 -> root_dnode fs < blk_ptr dnb1 ind1 j) ->
  extended fs d dnb ind d1 dnb1 ind1 -> extended fs d1 dnb1 ind1 d2 dnb2 ind2 ->
  extended fs d dnb ind d2 dnb2 ind2.
Proof.
  intros G Hp1 (A1 & A2 & A3 & A4 & A5 & A6) (B1 & B2 & B3 & B4 & B5 & B6).
  split; [by eapply fs_step_trans|]. split; [by eapply same_header_trans|]. split; [|split; [|split]].
  - intros j Hj Hj0. rewrite B3, A3; try done. by rewrite A3.
  - intros E. rewrite B4, A4; try done. by rewrite A4.
  - intros E. rewrite B5 by done. apply A5. destruct (Z.eq_dec (ind_ptr dnb1) 0); [done|].
    rewrite B4 in E; done.
  - intros c Hc Hf Hn. pose proof A1 as (_ & Ht & _). rewrite B6; [apply A6| | |]; try done.
    + intros j Hj E. apply (Hn j Hj). rewrite B3; [done|done|]. rewrite E. lia.
    + by rewrite Ht.
    + eapply fs_step_used; [done| |done]. lia.
Qed.

(** The bytes of block [k] after it is overwritten by [m]. *)
Lemma fbyte_new d dnb ind k b m o : read_block b d = Some m -> blk_ptr dnb ind k = b ->
  o / 4096 = k -> fbyte d dnb ind o = m (o mod 4096).
Proof. intros Hm Hb Hk. unfold fbyte. by rewrite Hk, Hb, Hm. Qed.

(** One iteration: the chunk [data] goes into block [offset / 4096]. *)
Lemma write_chunk fs d d1 d2 dn dnb ind dnb1 ind1 b db0 db data offset :
  fs_ok fs d -> file_ok fs d dn dnb ind -> 0 <= offset ->
  offset mod 4096 + zlen data <= 4096 -> offset / 4096 < MAX_PTR -> data <> [] ->
  Forall (fun x => 0 <= x < 256) data ->
  target_post fs d dn dnb ind (offset / 4096) b dnb1 ind1 d1 ->
  (0 < offset -> read_block b d1 = Some db0) ->
  db = store_list db0 (offset mod 4096) data ->
  fs_step fs d1 d2 -> read_block b d2 = Some db ->
  (forall c, c <> b -> read_block c d2 = read_block c d1) ->
  written d dnb ind offset data d2 dnb1 ind1 /\ extended fs d dnb ind d2 dnb1 ind1 /\
  file_ok fs d2 dn dnb1 ind1.
Proof.
  intros Hfs Hok Ho Hlen Hk Hne Hbytes HT Hdb0 -> Hs2 Hr Hother.
  destruct HT as (T1 & T2 & T3 & T4 & T5 & T6 & T7 & T8 & T9 & T10 & T11).
  destruct (fs_geometry fs d Hfs) as (G1 & G2 & G3 & G4).
  assert (0 <= offset / 4096 < MAX_PTR) as Hkr by (split; [apply Z.div_pos; lia|done]).
  split; [split|split].
  - intros i x Hx. pose proof (zget_Some_range _ _ _ Hx) as Hi.
    rewrite (fbyte_new _ _ _ _ _ _ (offset + i) Hr T3) by zify_div.
    replace ((offset + i) mod 4096) with (offset mod 4096 + i) by zify_div.
    rewrite (store_list_in _ _ _ _ _ Hx). apply wrap_small.
    rewrite Forall_forall in Hbytes. apply Hbytes. unfold zget in Hx.
    destruct (i <? 0); [done|]. by eapply list_elem_of_lookup_2.
  - intros o Ho' Hp Hout Hkeep. destruct (Z.eq_dec (o / 4096) (offset / 4096)) as [E|E].
    + rewrite (fbyte_new _ _ _ _ _ _ o Hr T3) by done.
      rewrite store_list_out by zify_div.
      assert (0 < offset) as Hpos by (destruct Hkeep as [?|[?|?]]; [done|done|zify_div]).
      rewrite E in Hp. specialize (Hdb0 Hpos). rewrite T9 in Hdb0.
      * unfold fbyte. rewrite E, <- (T6 Hp), Hdb0. done.
      * rewrite (T6 Hp). destruct (fo_ptr _ _ _ _ _ Hok _ Hkr Hp) as (? & _). lia.
    + unfold DZFS_MAX_FILESIZE, DZFS_BLOCK_SIZE, DZFS_DIRECT_BLOCKS in Ho'.
      assert (0 <= o / 4096 < MAX_PTR) as Hko by (unfold MAX_PTR; zify_div).
      assert (blk_ptr dnb1 ind1 (o / 4096) = blk_ptr dnb ind (o / 4096)) as HE by (by apply T5).
      unfold fbyte. rewrite HE. destruct (fo_ptr _ _ _ _ _ Hok _ Hko Hp) as (R & _).
      rewrite Hother, T9; [done|lia|].
      intros Hb. apply E, (fo_inj _ _ _ _ _ T2); [done|done|by rewrite HE|by rewrite HE, T3].
  - split; [by eapply fs_step_trans|]. split; [done|]. split; [|split; [done|split; [done|]]].
    + intros j Hj Hj0. destruct (Z.eq_dec j (offset / 4096)) as [->|]; [|by apply T5].
      rewrite T3. by apply T6.
    + intros c Hc Hf Hn. rewrite Hother, T9; [done|lia|]. intros ->. by apply (Hn _ Hkr).
  - eapply file_ok_step; [done|lia|done].
Qed.

(** Running out of blocks at once, or after a first chunk. *)
Lemma target_write_full fs d dnb ind offset data d' : data <> [] ->
  target_full fs d dnb ind (offset / 4096) d' -> write_full fs d dnb ind offset data d'.
Proof.
  intros Hne (T1 & T2 & T3 & T4). split; [done|]. split; [done|]. split.
  - exists (offset / 4096). split; [|done]. split; [done|]. apply Z.div_le_mono; [lia|].
    destruct data; [done|]. rewrite zlen_cons. pose proof (zlen_nonneg data). lia.
  - intros c Hc _ _. apply T4. lia.
Qed.

Lemma write_full_trans fs d d1 d2 d3 dn dnb ind dnb1 ind1 b offset chunk rest :
  0 <= root_dnode fs -> 0 <= offset -> chunk <> [] -> rest <> [] -> offset / 4096 < MAX_PTR ->
  offset + zlen chunk + zlen rest <= DZFS_MAX_FILESIZE ->
  target_post fs d dn dnb ind (offset / 4096) b dnb1 ind1 d1 -> extended fs d dnb ind d2 dnb1 ind1 ->
  write_full fs d2 dnb1 ind1 (offset + zlen chunk) rest d3 ->
  write_full fs d dnb ind offset (chunk ++ rest) d3.
Proof.
  intros Hr Ho Hc1 Hc2 Hm Hmax HT HX (W1 & W2 & (k & Hk & Ek) & W4).
  destruct HT as (_ & _ & T3 & _ & T5 & _ & T7 & _). destruct HX as (S1 & _ & X3 & _ & _ & X6).
  pose proof S1 as (_ & Ht & _).
  assert (0 <= offset / 4096) as Hq0 by (apply Z.div_pos; lia).
  assert (1 <= zlen chunk /\ 1 <= zlen rest) as [L1 L2].
  { destruct chunk, rest; try done. rewrite !zlen_cons.
    pose proof (zlen_nonneg chunk). pose proof (zlen_nonneg rest). lia. }
  unfold DZFS_MAX_FILESIZE, DZFS_BLOCK_SIZE, DZFS_DIRECT_BLOCKS in Hmax.
  split; [by eapply fs_step_trans|]. split; [done|]. split.
  - exists k. rewrite zlen_app. split; [zify_div|].
    destruct (Z.eq_dec (blk_ptr dnb ind k) 0) as [E|E]; [done|]. rewrite <- Ek. symmetry.
    apply X3; [unfold MAX_PTR; zify_div|done].
  - intros c Hc Hf Hn.
    assert (forall j, 0 <= j < MAX_PTR -> blk_ptr dnb1 ind1 j <> c) as Hn1.
    { intros j Hj Ej. destruct (Z.eq_dec j (offset / 4096)) as [->|N]; [|by apply (Hn j Hj); rewrite <- T5].
      destruct (Z.eq_dec (blk_ptr dnb ind (offset / 4096)) 0) as [E|E].
      - specialize (T7 E). congruence.
      - apply (Hn _ Hj). by rewrite <- X3. }
    rewrite W4; [by apply X6| | |done]; [by rewrite Ht|]. eapply fs_step_used; [done|lia|done].
Qed.

(** Writing a chunk and then the rest. *)
Lemma written_trans d dnb ind d1 dnb1 ind1 d2 dnb2 ind2 offset chunk rest :
  0 <= offset -> chunk <> [] -> offset + zlen chunk + zlen rest <= DZFS_MAX_FILESIZE ->
  (forall j, 0 <= j < MAX_PTR -> blk_ptr dnb ind j <> 0 -> blk_ptr dnb1 ind1 j = blk_ptr dnb ind j) ->
  (forall i, 0 <= i < zlen chunk -> blk_ptr dnb1 ind1 ((offset + i) / 4096) <> 0) ->
  written d dnb ind offset chunk d1 dnb1 ind1 ->
  written d1 dnb1 ind1 (offset + zlen chunk) rest d2 dnb2 ind2 ->
  written d dnb ind offset (chunk ++ rest) d2 dnb2 ind2.
Proof.
  intros Ho Hne Hmax Hptr Hch [A1 A2] [B1 B2].
  assert (0 < zlen chunk) as Hpos by (destruct chunk; [done|unfold zlen; simpl; lia]).
  pose proof (zlen_nonneg rest) as Hrn.
  assert (zlen (chunk ++ rest) = zlen chunk + zlen rest) as Hlen
    by (unfold zlen; rewrite length_app; lia).
  split.
  - intros i x Hx. pose proof (zget_Some_range _ _ _ Hx) as Hi.
    destruct (Z.lt_ge_cases i (zlen chunk)) as [L|L].
    + rewrite B2; [|lia| |by left; lia|by left; lia].
      * apply A1. unfold zget in *. destruct (i <? 0); [done|].
        rewrite lookup_app_l in Hx; [done|]. unfold zlen in *. lia.
      * apply Hch. lia.
    + replace (offset + i) with (offset + zlen chunk + (i - zlen chunk)) by lia. apply B1.
      unfold zget, zlen in *. destruct (Z.ltb_spec i 0); [lia|].
      destruct (Z.ltb_spec (i - Z.of_nat (length chunk)) 0); [lia|].
      rewrite lookup_app_r in Hx by lia. rewrite <- Hx. f_equal. lia.
  - intros o Ho' Hp Hout Hkeep. unfold DZFS_MAX_FILESIZE, DZFS_BLOCK_SIZE, DZFS_DIRECT_BLOCKS in *.
    assert (0 <= o / 4096 < MAX_PTR) as Hko by (unfold MAX_PTR; zify_div).
    assert (chunk ++ rest <> []) as Hne' by (destruct chunk; done).
    rewrite B2; [apply A2|lia| | |left; lia]; try done; try lia.
    + destruct Hkeep as [?|[?|?]]; auto. done.
    + by rewrite Hptr.
Qed.

Lemma write_loop_spec fs dn : forall fuel d dnb ind data offset db, fs_ok fs d ->
  file_ok fs d dn dnb ind -> 0 <= offset -> offset + zlen data <= DZFS_MAX_FILESIZE ->
  Forall (fun x => 0 <= x < 256) data -> bytes_ok db -> (length data < fuel)%nat ->
  exists r d', write_loop fuel fs data offset dnb ind db d = Ret (r, d') /\
    ((r = inl DZFS_ERR_FULL /\ write_full fs d dnb ind offset data d') \/
     exists dnb' ind', r = inr (dnb', ind') /\ written d dnb ind offset data d' dnb' ind' /\
       extended fs d dnb ind d' dnb' ind' /\ file_ok fs d' dn dnb' ind').
Proof.
  induction fuel as [|fuel IH]; intros d dnb ind data offset db Hfs Hok Ho Hmax Hb Hdb Hfuel; [lia|].
  cbn [write_loop]. destruct data as [|x data].
  { eexists _, d. split; [done|]. right. exists dnb, ind. split; [done|]. split; [|split].
    - split; [|done]. intros i y Hy. apply zget_Some_range in Hy. unfold zlen in Hy. simpl in Hy. lia.
    - by apply extended_refl.
    - done. }
  set (l := x :: data) in *. destruct (fs_geometry fs d Hfs) as (G1 & G2 & G3 & G4).
  unfold DZFS_MAX_FILESIZE, DZFS_BLOCK_SIZE, DZFS_DIRECT_BLOCKS in *.
  assert (1 <= zlen l) as Hl by (unfold l, zlen; simpl; lia).
  assert (0 <= offset / 4096 < MAX_PTR) as Hk by (unfold MAX_PTR; zify_div).
  destruct (write_target_spec fs d dn dnb ind (offset / 4096) Hfs Hok Hk)
    as (r & d1 & HE & [[-> HT]|(b & dnb1 & ind1 & -> & HT)]).
  { unfold mbind, io_bind. rewrite HE. eexists _, _. split; [done|]. left. split; [done|].
    by apply target_write_full. }
  pose proof HT as (T1 & T2 & T3 & T4 & T5 & T6 & T7 & T8 & T9 & _).
  pose proof T1 as (Hfs1 & Ht1 & _).
  set (c := Z.to_nat (Z.min (4096 - offset mod 4096) (zlen l))).
  assert ((0 < c <= length l)%nat /\ Z.of_nat c <= 4096 - offset mod 4096 /\
    (c = length l \/ Z.of_nat c = 4096 - offset mod 4096)) as (Hc1 & Hc2 & Hc3).
  { unfold c, zlen in *. zify_div. }
  assert (root_dnode fs < b < total_blocks d1) as Hbr.
  { destruct (fo_ptr _ _ _ _ _ T2 (offset / 4096) Hk) as (R & _); [by rewrite T3|]. by rewrite T3 in R. }
  destruct (read_ok b d1) as [mb Hmb]; [lia|].
  set (db0 := if 0 <? offset then mb else db).
  assert (bytes_ok db0) as Hdb0 by (unfold db0; destruct (0 <? offset); [by eapply fs_bytes|done]).
  assert ((if 0 <? offset then try_read b else mret db) d1 = Ret (inr db0, d1)) as Hread.
  { unfold db0. destruct (0 <? offset); [by apply try_read_some|done]. }
  set (chunk := take c l). set (db1 := store_list db0 (offset mod 4096) chunk).
  assert (length chunk = c) as Hlc by (unfold chunk; rewrite length_take; lia).
  destruct (write_data_step fs d1 b db1 Hfs1 ltac:(lia)) as (d2 & HW & Hs2 & _ & Hr2 & Ho2).
  { by apply bytes_ok_store_list. }
  assert (chunk <> []) as Hcne by (intros E; rewrite E in Hlc; simpl in Hlc; lia).
  assert (Forall (fun x => 0 <= x < 256) chunk) as Hcb by (by apply Forall_take).
  destruct (write_chunk fs d d1 d2 dn dnb ind dnb1 ind1 b db0 db1 chunk offset)
    as (HWr & HX & Hok2); try done; try lia.
  { unfold zlen. rewrite Hlc. lia. }
  { intros Hpos. unfold db0. by rewrite (proj2 (Z.ltb_lt 0 offset) Hpos). }
  pose proof HX as ((Hfs2 & Ht2 & _) & _ & Hpersist & _).
  destruct (IH d2 dnb1 ind1 (drop c l) (offset + Z.of_nat c) db1)
    as (r & d3 & HE3 & HR); try done; try lia.
  { unfold zlen in *. rewrite length_drop. lia. }
  { by apply Forall_drop. }
  { by apply bytes_ok_store_list. }
  { rewrite length_drop. unfold l in *. simpl in *. lia. }
  exists r, d3. split.
  { erewrite io_step by exact HE. cbv beta iota. erewrite io_step by exact Hread.
    erewrite io_step by exact HW. exact HE3. }
  destruct HR as [[-> HF]|(dnb3 & ind3 & -> & HW3 & HX3 & Hok3)].
  { left. split; [done|]. rewrite <- (take_drop c l). fold chunk.
    destruct (decide (drop c l = [])) as [E|Hne].
    { rewrite E in HE3. destruct fuel; [done|]. cbn [write_loop] in HE3. unfold mret, io_ret in HE3. congruence. }
    eapply (write_full_trans fs d d1 d2 d3 dn dnb ind dnb1 ind1 b); try done; try lia.
    - unfold DZFS_MAX_FILESIZE, DZFS_BLOCK_SIZE, DZFS_DIRECT_BLOCKS, zlen in *.
      rewrite Hlc, length_drop. lia.
    - unfold zlen. by rewrite Hlc. }
  right.
  exists dnb3, ind3. split; [done|]. rewrite <- (take_drop c l). split; [|split; [|done]].
  - eapply (written_trans d dnb ind d2 dnb1 ind1); try done.
    + unfold DZFS_MAX_FILESIZE, DZFS_BLOCK_SIZE, DZFS_DIRECT_BLOCKS, zlen in *.
      fold chunk. rewrite Hlc, length_drop. lia.
    + intros i Hi. fold chunk in Hi. replace ((offset + i) / 4096) with (offset / 4096)
        by (unfold zlen in Hi; rewrite Hlc in Hi; zify_div). by rewrite T3.
    + fold chunk. unfold zlen. rewrite Hlc. done.
  - eapply extended_trans; [lia| |done|done]. intros j Hj Hj0.
    by destruct (fo_ptr _ _ _ _ _ Hok2 j Hj Hj0) as ([? _] & _).
Qed.

(** Contents that agree at every offset of the file. *)
Lemma written_ext d dnb ind d1 dnb1 ind1 d2 dnb2 ind2 offset data :
  0 <= offset -> offset + zlen data <= DZFS_MAX_FILESIZE ->
  (forall o, 0 <= o < DZFS_MAX_FILESIZE -> fbyte d2 dnb2 ind2 o = fbyte d1 dnb1 ind1 o) ->
  written d dnb ind offset data d1 dnb1 ind1 -> written d dnb ind offset data d2 dnb2 ind2.
Proof.
  intros Ho Hm HE [W1 W2]. split.
  - intros i x Hx. pose proof (zget_Some_range _ _ _ Hx). rewrite HE by lia. by apply W1.
  - intros o Ho' Hp Hout Hk. rewrite HE by done. by apply W2.
Qed.

(** The size field does not overlap the pointers. *)
Lemma blk_ptr_size dnb ind v j : 0 <= j -> blk_ptr (store32 dnb f_size v) ind j = blk_ptr dnb ind j.
Proof.
  intros Hj. slots. destruct (Z.leb_spec 956 j); [done|]. apply load32_store32_out. lia.
Qed.
Lemma ind_ptr_size dnb v : ind_ptr (store32 dnb f_size v) = ind_ptr dnb.
Proof. slots. apply load32_store32_out. lia. Qed.

(** The tail of [dzfs_write]: the indirect block and the dnode go to disk. *)
Lemma write_back fs d dn dnb ind v : fs_ok fs d -> file_ok fs d dn dnb ind ->
  dnb h_type = DZFS_ENTITY_FILE -> (ind_ptr dnb = 0 -> ind = zeros) ->
  let dnb' := store32 dnb f_size v in
  exists d',
    (_ ← (if truth (load32 dnb f_indirect) then try_write (load32 dnb f_indirect) ind else mret tt);
     try_write dn dnb') d = Ret (inr tt, d') /\
    fs_ok fs d' /\ file_on d' dn dnb' ind /\ file_ok fs d' dn dnb' ind /\
    (forall o, 0 <= o < DZFS_MAX_FILESIZE -> fbyte d' dnb' ind o = fbyte d dnb ind o) /\
    (forall c, c <> dn -> (ind_ptr dnb <> 0 -> c <> ind_ptr dnb) -> read_block c d' = read_block c d).
Proof.
  intros Hfs Hok Hty Hz dnb'. destruct (fs_geometry fs d Hfs) as (G1 & G2 & G3 & G4).
  pose proof (fo_bytes _ _ _ _ _ Hok) as [B1 B2]. fold (ind_ptr dnb).
  assert (exists d1, (if truth (ind_ptr dnb) then try_write (ind_ptr dnb) ind else mret tt) d
            = Ret (inr tt, d1) /\ fs_step fs d d1 /\
            (ind_ptr dnb <> 0 -> read_block (ind_ptr dnb) d1 = Some ind) /\
            (forall c, (ind_ptr dnb <> 0 -> c <> ind_ptr dnb) -> read_block c d1 = read_block c d))
    as (d1 & HE1 & Hs1 & Hr1 & Ho1).
  { unfold truth. destruct (Z.eqb_spec (ind_ptr dnb) 0) as [E|E]; simpl.
    - exists d. split; [done|]. split; [by apply fs_step_refl|]. by split.
    - destruct (fo_ind _ _ _ _ _ Hok E) as (R & _).
      destruct (write_data_step fs d (ind_ptr dnb) ind Hfs ltac:(lia) B2) as (d1 & HW & Hs & _ & Hr & Hot).
      exists d1. split; [done|]. split; [done|]. split; [done|]. intros c Hc. apply Hot. by apply Hc. }
  erewrite io_step by exact HE1. pose proof Hs1 as (Hfs1 & Ht1 & _).
  pose proof (fo_dn _ _ _ _ _ Hok) as [Rdn _].
  destruct (write_data_step fs d1 dn dnb' Hfs1) as (d2 & HW & Hs2 & _ & Hr2 & Ho2).
  { rewrite Ht1. lia. } { by apply bytes_ok_store_le. }
  assert (forall j, 0 <= j -> blk_ptr dnb' ind j = blk_ptr dnb ind j) as Hp
    by (intros; by apply blk_ptr_size).
  assert (ind_ptr dnb' = ind_ptr dnb) as Hi by apply ind_ptr_size.
  exists d2. split; [done|]. split; [apply Hs2|].
  assert (file_ok fs d2 dn dnb' ind) as Hok2.
  { apply (file_ok_step fs d1); [done|lia|]. apply (file_ok_step fs d); [done|lia|].
    destruct Hok as [O1 O2 O3 O4 O5 O6]. unfold MAX_PTR, DZFS_DIRECT_BLOCKS in *.
    constructor; rewrite ?Hi; try done.
    - intros k Hk. rewrite Hp by lia. by apply O2.
    - intros k j Hk Hj. rewrite !Hp by lia. by apply O3.
    - intros k E Hk. rewrite Hp by (unfold DZFS_DIRECT_BLOCKS, MAX_PTR in *; lia). by apply O5.
    - split; [|done]. by apply bytes_ok_store_le. }
  split; [|split; [done|split]].
  - split; [done|]. split.
    { unfold dnb'. rewrite <- Hty. apply store_le_out. unfold h_type, f_size. lia. }
    rewrite Hi. split; [|done]. intros E.
    rewrite Ho2; [by apply Hr1|]. by destruct (fo_ind _ _ _ _ _ Hok E) as (_ & _ & ?).
  - intros o Ho. unfold DZFS_MAX_FILESIZE, DZFS_BLOCK_SIZE, DZFS_DIRECT_BLOCKS in Ho.
    assert (0 <= o / 4096 < MAX_PTR) as Hk by (unfold MAX_PTR; zify_div).
    unfold fbyte. rewrite Hp by lia.
    destruct (Z.eq_dec (blk_ptr dnb ind (o / 4096)) 0) as [E|E].
    + rewrite E, Ho2, Ho1; [done| |lia]. intros E'. destruct (fo_ind _ _ _ _ _ Hok E') as (R & _). lia.
    + destruct (fo_ptr _ _ _ _ _ Hok _ Hk E) as (_ & _ & ? & ?). by rewrite Ho2, Ho1.
  - intros c Hc Hci. by rewrite Ho2, Ho1.
Qed.

(** A write that runs out of blocks leaves the file's dnode alone. *)
Lemma write_full_file fs d d' dn dnb ind offset data : fs_ok fs d -> file_on d dn dnb ind ->
  file_ok fs d dn dnb ind -> write_full fs d dnb ind offset data d' ->
  file_on d' dn dnb ind /\ file_ok fs d' dn dnb ind.
Proof.
  intros Hfs (Hd & Hty & Hi & Hz) Hok (HS & _ & _ & HF).
  destruct (fs_geometry fs d Hfs) as (G1 & G2 & G3 & G4).
  split; [|apply (file_ok_step fs d); [done|lia|done]].
  destruct (fo_dn _ _ _ _ _ Hok) as [R1 R2].
  assert (forall j c, 0 <= j < MAX_PTR -> c <> 0 -> c = dn \/ c = ind_ptr dnb -> blk_ptr dnb ind j <> c) as HN.
  { intros j c Hj Hc0 Hc Ej. rewrite <- Ej in Hc0.
    destruct (fo_ptr _ _ _ _ _ Hok j Hj Hc0) as (_ & _ & ? & ?). destruct Hc; congruence. }
  split; [|split; [done|split; [|done]]].
  - rewrite HF; [done|lia|done|]. intros j Hj. apply HN; [done|lia|by left].
  - intros E. destruct (fo_ind _ _ _ _ _ Hok E) as (Q1 & Q2 & _).
    rewrite HF; [by apply Hi|lia|done|]. intros j Hj. apply HN; [done|done|by right].
Qed.

Lemma dzfs_write_spec fs d dn dnb ind data offset : fs_ok fs d -> file_on d dn dnb ind ->
  file_ok fs d dn dnb ind -> 0 <= offset <= load32 dnb f_size ->
  offset + zlen data <= DZFS_MAX_FILESIZE -> Forall (fun x => 0 <= x < 256) data ->
  exists r d', dzfs_write fs dn data offset d = Ret (r, d') /\
    ((r = inl DZFS_ERR_FULL /\ write_full fs d dnb ind offset data d' /\
      file_on d' dn dnb ind /\ file_ok fs d' dn dnb ind) \/
     (r = inr tt /\ exists dnb' ind',
        fs_ok fs d' /\ file_on d' dn dnb' ind' /\ file_ok fs d' dn dnb' ind' /\
        written d dnb ind offset data d' dnb' ind' /\
        load32 dnb' f_size = wrap 32 (load32 dnb f_size + zlen data) /\
        (forall c, root_dnode fs <= c < total_blocks d -> is_free d c = false -> c <> dn ->
           c <> ind_ptr dnb' -> (forall j, 0 <= j < MAX_PTR -> blk_ptr dnb' ind' j <> c) ->
           read_block c d' = read_block c d))).
Proof.
  intros Hfs Hon Hok Ho Hmax Hb. pose proof Hon as (Hd & Hty & Hi & Hz).
  pose proof (zlen_nonneg data).
  unfold dzfs_write. erewrite io_step by (by apply try_read_some). rewrite Hty.
  change (negb (DZFS_ENTITY_FILE =? DZFS_ENTITY_FILE)) with false. cbv iota.
  assert (DZFS_MAX_FILESIZE < 2 ^ 64) by done.
  rewrite wrap_small by lia. destruct (Z.ltb_spec DZFS_MAX_FILESIZE (zlen data + offset)); [lia|].
  destruct (Z.ltb_spec (load32 dnb f_size) offset); [lia|].
  erewrite io_step by (by apply (read_indirect_on d dn)).
  destruct (write_loop_spec fs dn (S (length data)) d dnb ind data offset zeros)
    as (r & d1 & HE & HR); try done; try lia; try apply bytes_ok_zeros.
  destruct HR as [[-> HF]|(dnb1 & ind1 & -> & HW & HX & Hok1)].
  { erewrite io_stop by exact HE. eexists _, _. split; [done|]. left. split; [done|]. split; [done|].
    by apply (write_full_file fs d d1 dn dnb ind offset data). }
  erewrite io_step by exact HE. cbv beta iota.
  pose proof HX as ((Hfs1 & Ht1 & _) & Hhd & Hper & Hii & Hiz & Hfr).
  destruct (write_back fs d1 dn dnb1 ind1 (load32 dnb1 f_size + zlen data) Hfs1 Hok1)
    as (d2 & HE2 & Hfs2 & Hon2 & Hok2 & Hfb & Hfr2).
  { rewrite Hhd; [done|]. unfold h_type, f_indirect. lia. }
  { intros E. rewrite Hiz by done. apply Hz. destruct (Z.eq_dec (ind_ptr dnb) 0); [done|].
    rewrite Hii in E; done. }
  eexists _, d2. split; [exact HE2|]. right. split; [done|]. eexists _, ind1.
  split; [done|]. split; [exact Hon2|]. split; [done|]. split; [|split].
  - eapply written_ext; [lia|done|exact Hfb|done].
  - rewrite load32_store32. by rewrite (same_header_size dnb dnb1).
  - intros c Hc Hcf Hcd Hci Hcp. rewrite ind_ptr_size in Hci. rewrite Hfr2 by done.
    apply Hfr; try done. intros j Hj. rewrite <- (blk_ptr_size dnb1 ind1 (load32 dnb1 f_size + zlen data)) by lia.
    by apply Hcp.
Qed.

(** C4: [dzfs_write] at an offset inside the file either runs out of blocks,
    and then no block is left on the disk, one of those it needed was missing
    and the file's dnode is as before, or it stores exactly [data] at
    [offset]: the file is well-formed again, its
    other bytes are kept (except behind a first block written from offset 0,
    see [written]), no other allocated block of the disk changes, and the
    recorded size grows by the length of the data. *)
Theorem dzfs_write_correct fs d dn dnb ind data offset : fs_ok fs d -> file_on d dn dnb ind ->
  file_ok fs d dn dnb ind -> 0 <= offset <= load32 dnb f_size ->
  offset + zlen data <= DZFS_MAX_FILESIZE -> Forall (fun x => 0 <= x < 256) data ->
  exists r d', dzfs_write fs dn data offset d = Ret (r, d') /\
    ((r = inl DZFS_ERR_FULL /\ write_full fs d dnb ind offset data d' /\
      file_on d' dn dnb ind /\ file_ok fs d' dn dnb ind) \/
     (r = inr tt /\ exists dnb' ind',
        fs_ok fs d' /\ file_on d' dn dnb' ind' /\ file_ok fs d' dn dnb' ind' /\
        written d dnb ind offset data d' dnb' ind' /\
        load32 dnb' f_size = wrap 32 (load32 dnb f_size + zlen data) /\
        (forall c, root_dnode fs <= c < total_blocks d -> is_free d c = false -> c <> dn ->
           c <> ind_ptr dnb' -> (forall j, 0 <= j < MAX_PTR -> blk_ptr dnb' ind' j <> c) ->
           read_block c d' = read_block c d))).
Proof. apply dzfs_write_spec. Qed.
End files.

(** ** Folder contents *)

(** The dnodes of a folder: its entries up to the first null one. *)
Definition contents (dir : mem) : list Z := content dir <$> seqZ 0 (folder_content_count dir).

(** No holes: behind the first null entry all are null. *)
Definition dir_compact (dir : mem) : Prop :=
  forall i, folder_content_count dir <= i < DZFS_MAX_DIR_CONTENTS -> content dir i = 0.

Lemma content_count_from_spec k i dir :
  let n := content_count_from k i dir in
  i <= n <= i + Z.of_nat k /\ (forall j, i <= j < n -> content dir j <> 0) /\
  (n < i + Z.of_nat k -> content dir n = 0).
Proof.
  revert i. induction k as [|k IH]; intros i; cbn [content_count_from]; cbv zeta.
  - split; [lia|]. split; intros; lia.
  - destruct (Z.eqb_spec (content dir i) 0) as [E|E].
    + split; [lia|]. split; intros; [lia|done].
    + destruct (IH (i + 1)) as (H1 & H2 & H3). cbv zeta in *. split; [lia|]. split.
      * intros j Hj. destruct (Z.eq_dec j i) as [->|]; [done|]. apply H2. lia.
      * intros. apply H3. lia.
Qed.

Lemma folder_content_count_spec dir :
  let n := folder_content_count dir in
  0 <= n <= 957 /\ (forall j, 0 <= j < n -> content dir j <> 0) /\ (n < 957 -> content dir n = 0).
Proof. apply (content_count_from_spec 957 0 dir). Qed.

(** The count is determined by what it promises. *)
Lemma folder_content_count_unique dir n : 0 <= n <= 957 ->
  (forall j, 0 <= j < n -> content dir j <> 0) -> (n < 957 -> content dir n = 0) ->
  folder_content_count dir = n.
Proof.
  intros Hn H1 H2. destruct (folder_content_count_spec dir) as (A & B & C). cbv zeta in *.
  destruct (Z.lt_trichotomy (folder_content_count dir) n) as [L|[E|L]]; [|done|].
  - exfalso. apply (H1 (folder_content_count dir)); [lia|]. apply C. lia.
  - exfalso. apply (B n); [lia|]. apply H2. lia.
Qed.

Lemma content_store dir i v j : 0 <= v < 2 ^ 32 ->
  content (store32 dir (d_content i) v) j = if j =? i then v else content dir j.
Proof.
  intros Hv. unfold content, d_content. destruct (Z.eqb_spec j i) as [->|].
  - by rewrite load32_store32, wrap_small.
  - apply load32_store32_out. lia.
Qed.

Lemma find_content_spec k i dir t :
  (find_content k i dir t = -1 /\ forall j, i <= j < i + Z.of_nat k -> content dir j <> t) \/
  (exists j, find_content k i dir t = j /\ i <= j < i + Z.of_nat k /\ content dir j = t).
Proof.
  revert i. induction k as [|k IH]; intros i; cbn [find_content].
  - left. split; [done|]. intros. lia.
  - destruct (Z.eqb_spec (content dir i) t) as [E|E].
    + right. exists i. split_and!; try done; lia.
    + destruct (IH (i + 1)) as [[H1 H2]|(j & H1 & H2 & H3)].
      * left. split; [done|]. intros j Hj. destruct (Z.eq_dec j i) as [->|]; [done|]. apply H2. lia.
      * right. exists j. split_and!; try done; lia.
Qed.

Lemma contents_cut dir n k : folder_content_count dir = n -> 0 <= k < n ->
  contents dir = (content dir <$> seqZ 0 k) ++ content dir k :: (content dir <$> seqZ (k + 1) (n - k - 1)).
Proof.
  intros <- Hk. unfold contents. rewrite (seqZ_cut 0 _ k), fmap_app by lia. f_equal.
  rewrite (seqZ_cut (0 + k) _ 1), fmap_app by lia. simpl. f_equal.
Qed.

Lemma fmap_content_ext dir dir' lo n :
  (forall j, lo <= j < lo + n -> content dir' j = content dir j) ->
  content dir' <$> seqZ lo n = content dir <$> seqZ lo n.
Proof.
  intros H. apply list_fmap_ext. intros i x [-> Hi]%lookup_seqZ. apply H. lia.
Qed.

(** [folder_remove_content] takes exactly the target out of a compact
    folder: the folder stays compact, its other entries are the same up to
    order and nothing in front of the entries changes; a dnode that is not
    there is reported and nothing happens. *)
Theorem folder_remove_content_correct dir t : bytes_ok dir -> dir_compact dir -> t <> 0 ->
  match folder_remove_content dir t with
  | None => t ∉ contents dir
  | Some dir' => dir_compact dir' /\ contents dir ≡ₚ t :: contents dir' /\
      forall x, x < d_content 0 -> dir' x = dir x
  end.
Proof.
  intros Hb Hc Ht. destruct (folder_content_count_spec dir) as (A & B & C). cbv zeta in *.
  remember (folder_content_count dir) as n eqn:En. symmetry in En.
  unfold dir_compact in Hc. rewrite En in Hc. unfold DZFS_MAX_DIR_CONTENTS in Hc.
  unfold folder_remove_content. rewrite En.
  destruct (find_content_spec 957 0 dir t) as [[-> Hn]|(k & -> & Hk & Hkt)].
  { simpl. unfold contents. rewrite En. intros (j & Hj & Hjr%elem_of_seqZ)%list_elem_of_fmap.
    symmetry in Hj. revert Hj. apply Hn. lia. }
  assert (k < n) as Hkn.
  { destruct (Z.lt_ge_cases k n); [done|]. rewrite Hc in Hkt by lia. congruence. }
  destruct (Z.eqb_spec k (-1)); [lia|]. rewrite wrap_small, sgn_small by lia.
  set (dir' := store32 (if k =? n - 1 then dir else store32 dir (d_content k) (content dir (n - 1)))
                 (d_content (n - 1)) 0).
  assert ((if n - 1 =? 0 then Some (store32 dir (d_content 0) 0)
           else if n - 1 =? k then Some (store32 dir (d_content (n - 1)) 0)
           else Some (store32 (store32 dir (d_content k) (content dir (n - 1))) (d_content (n - 1)) 0))
          = Some dir') as ->.
  { unfold dir'. destruct (Z.eqb_spec (n - 1) 0), (Z.eqb_spec (n - 1) k), (Z.eqb_spec k (n - 1));
      try lia; try done. by replace (n - 1) with 0 by lia. }
  assert (forall j, content dir' j = if j =? n - 1 then 0 else if j =? k then content dir (n - 1)
            else content dir j) as Hd'.
  { intros j. unfold dir'. rewrite content_store by lia. destruct (Z.eqb_spec j (n - 1)); [done|].
    destruct (Z.eqb_spec k (n - 1)) as [->|].
    - by destruct (Z.eqb_spec j (n - 1)).
    - apply content_store. by apply load32_range. }
  assert (folder_content_count dir' = n - 1) as En'.
  { apply folder_content_count_unique; [lia| |].
    - intros j Hj. rewrite Hd'. destruct (Z.eqb_spec j (n - 1)); [lia|].
      destruct (j =? k); apply B; lia.
    - intros _. by rewrite Hd', Z.eqb_refl. }
  split; [|split].
  - intros j Hj. rewrite En' in Hj. unfold DZFS_MAX_DIR_CONTENTS in Hj. rewrite Hd'.
    destruct (Z.eqb_spec j (n - 1)); [done|]. destruct (Z.eqb_spec j k); [lia|]. apply Hc. lia.
  - rewrite (contents_cut dir n k En) by lia. rewrite Hkt.
    destruct (Z.eq_dec k (n - 1)) as [E|E].
    + unfold contents. rewrite En'. rewrite (seqZ_nil (k + 1)) by lia. simpl.
      rewrite (fmap_content_ext dir dir' 0 (n - 1)), E; [by rewrite Permutation_app_comm|].
      intros j Hj. rewrite Hd'. destruct (Z.eqb_spec j (n - 1)), (Z.eqb_spec j k); try lia; done.
    + rewrite (contents_cut dir' (n - 1) k En') by lia.
      rewrite (fmap_content_ext dir dir' 0 k).
      2:{ intros j Hj. rewrite Hd'. destruct (Z.eqb_spec j (n - 1)), (Z.eqb_spec j k); try lia; done. }
      rewrite (fmap_content_ext dir dir' (k + 1)).
      2:{ intros j Hj. rewrite Hd'. destruct (Z.eqb_spec j (n - 1)), (Z.eqb_spec j k); try lia; done. }
      rewrite Hd', Z.eqb_refl. destruct (Z.eqb_spec k (n - 1)); [lia|].
      replace (n - k - 1) with (n - 1 - k - 1 + 1) by lia. rewrite (seqZ_cut (k + 1) _ (n - 1 - k - 1)) by lia.
      rewrite fmap_app. replace (k + 1 + (n - 1 - k - 1)) with (n - 1) by lia.
      replace (n - 1 - k - 1 + 1 - (n - 1 - k - 1)) with 1 by lia. simpl.
      rewrite Permutation_app_comm. simpl. constructor.
      rewrite Permutation_app_comm. f_equiv. by rewrite Permutation_app_comm.
  - intros x Hx. unfold dir', d_content in *. 
    destruct (k =? n - 1); unfold store32; rewrite ?store_le_out by lia; done.
Qed.

(** ** Making a file system *)

Section making.
Context {D : Type} `{BlockDeviceLaws D}.

Lemma try_write_ok b m (d : D) : 0 <= b < total_blocks d ->
  exists d', try_write b m d = Ret (inr tt, d') /\ total_blocks d' = total_blocks d /\
    current_date d' = current_date d /\ read_block b d' = Some m /\
    forall c, c <> b -> read_block c d' = read_block c d.
Proof.
  intros HR. pose proof (write_ok b m d HR) as Hok. pose proof (write_total b m d) as Htot.
  pose proof (write_date b m d). pose proof (read_write_eq b m d HR) as Heq.
  pose proof (fun c => read_write_ne b c m d HR) as Hne.
  unfold try_write, write_bool, mbind, io_bind.
  destruct (write_block b m d) as [ok d']. simpl in *. subst ok.
  exists d'. split; [done|]. split; [done|]. split; [done|]. split; [done|].
  intros. apply Hne. congruence.
Qed.

Lemma clear_all_bits l m b : Forall (fun a => 0 <= a < 32768) l -> 0 <= b ->
  bit_of (fold_left bitmap_clear l m) b = negb (bool_decide (b ∈ l)) && bit_of m b.
Proof.
  intros Hl Hb. revert m. induction Hl as [|a l Ha Hl IH]; intros m; cbn [fold_left].
  - by rewrite bool_decide_false by apply not_elem_of_nil.
  - rewrite IH, bitmap_clear_bit by done. rewrite andb_assoc. f_equal.
    rewrite <- negb_orb, <- bool_decide_or. f_equal. apply bool_decide_ext.
    rewrite elem_of_cons. tauto.
Qed.

(** Indices outside of the block are ignored. *)
Lemma clear_all_out l m : Forall (fun a => 32768 <= a) l -> fold_left bitmap_clear l m = m.
Proof.
  intros Hl. revert m. induction Hl as [|a l Ha Hl IH]; intros m; simpl; [done|].
  by rewrite bitmap_clear_out.
Qed.

Lemma bytes_ok_clear_all l m : bytes_ok m -> bytes_ok (fold_left bitmap_clear l m).
Proof.
  revert m. induction l as [|a l IH]; intros m Hm; simpl; [done|]. by apply IH, bytes_ok_bitmap_clear.
Qed.

Lemma full_bit m b : 0 <= b < 32768 -> bit_of (fill m 0 255 DZFS_BLOCK_SIZE) b = true.
Proof.
  intros Hb. unfold bit_of, DZFS_BLOCK_SIZE. rewrite fill_in by zify_div.
  change (wrap 8 255) with (Z.ones 8). apply Z.ones_spec_low. zify_div.
Qed.

Lemma superblock_put sb : 0 <= version sb < 2 ^ 32 -> 0 <= blocks sb < 2 ^ 32 ->
  magic sb = DZFS_MAGIC -> superblock_of (put_superblock zeros sb) = sb.
Proof.
  destruct sb as [mg v n]. simpl. intros Hv Hn ->. unfold superblock_of, put_superblock. simpl.
  f_equal.
  - unfold load32, load_le, sb_version. rewrite !store8_ne by lia.
    change (load32 (store32 (store32 zeros sb_version v) sb_blocks n) 4 = v).
    rewrite load32_store32_out by (unfold sb_blocks; lia). by rewrite load32_store32, wrap_small.
  - unfold load32, load_le, sb_blocks. rewrite !store8_ne by lia.
    change (load32 (store32 (store32 zeros sb_version v) sb_blocks n) sb_blocks = n).
    by rewrite load32_store32, wrap_small.
Qed.

Lemma bytes_ok_superblock sb : bytes_ok (put_superblock zeros sb).
Proof. unfold put_superblock, store32. auto 10 with word. Qed.

Lemma bytes_ok_root_block r date : bytes_ok (root_block r date).
Proof. unfold root_block, store32, store64. auto 10 with word. Qed.

(** [dzfs_new]'s steps on a disk whose bitmap takes [fbb] = 1 or 2 blocks. *)
Lemma dzfs_new_steps (d : D) fbb : fbb = 1 \/ fbb = 2 ->
  4 < total_blocks d -> 32768 * (fbb - 1) < total_blocks d <= 32768 * fbb ->
  let n := total_blocks d in
  let fs := MkFS (MkSuper DZFS_MAGIC DZFS_VERSION n) fbb (2 + fbb) in
  let full := fill (put_superblock zeros (superblock fs)) 0 255 DZFS_BLOCK_SIZE in
  let first := fold_left bitmap_clear (seqZ 0 (fbb + 3)) full in
  let last := fold_left bitmap_clear (reverse (seqZ n (32768 * fbb - n)))
                (if fbb =? 1 then first else fill first 0 255 DZFS_BLOCK_SIZE) in
  exists d', dzfs_new d = Ret (inr fs, d') /\ total_blocks d' = total_blocks d /\
    read_block 1 d' = Some (put_superblock zeros (superblock fs)) /\
    (fbb = 2 -> read_block 2 d' = Some first) /\ read_block (1 + fbb) d' = Some last /\
    read_block (2 + fbb) d' = Some (root_block (2 + fbb) (current_date d)) /\
    forall c, c < 1 \/ 2 + fbb < c -> read_block c d' = read_block c d.
Proof.
  intros Hf Hn4 Hn n fs full first last.
  assert (bitmap_block_count n = fbb) as Hc.
  { unfold bitmap_block_count, DZFS_BITSET_COVERED_BLOCKS, DZFS_BLOCK_SIZE. subst n.
    rewrite wrap_small by lia. zify_div. }
  unfold dzfs_new. erewrite io_step by done. rewrite (wrap_small 32 (total_blocks d)) by lia.
  fold n. change (blocks (MkSuper DZFS_MAGIC DZFS_VERSION n)) with n.
  destruct (Z.leb_spec n 4); [lia|].
  destruct (try_write_ok SUPERBLOCK_DNODE (put_superblock zeros (superblock fs)) d)
    as (d1 & E1 & T1 & C1 & R1 & O1); [unfold SUPERBLOCK_DNODE; lia|].
  erewrite io_step by exact E1. rewrite Hc.
  destruct (Z.leb_spec n (3 + fbb)); [lia|]. change (1 + 1 + fbb) with (2 + fbb).
  rewrite (seqZ_nil 1) by lia. simpl write_all. erewrite io_step by done. fold full. fold first.
  destruct (try_write_ok 2 first d1) as (d2 & E2 & T2 & C2 & R2 & O2); [lia|].
  erewrite io_step by exact E2.
  change (DZFS_BITSET_COVERED_BLOCKS * fbb) with (32768 * fbb).
  change (MkSuper DZFS_MAGIC DZFS_VERSION n) with (superblock fs). fold full. fold first.
  assert ((if negb (fbb =? 1) then fill first 0 255 DZFS_BLOCK_SIZE else first) =
          (if fbb =? 1 then first else fill first 0 255 DZFS_BLOCK_SIZE)) as ->
    by (by destruct (fbb =? 1)).
  fold last.
  destruct (try_write_ok (2 + fbb - 1) last d2) as (d3 & E3 & T3 & C3 & R3 & O3); [lia|].
  erewrite io_step by exact E3. erewrite io_step by done.
  destruct (try_write_ok (2 + fbb) (root_block (2 + fbb) (current_date d3)) d3)
    as (d4 & E4 & T4 & C4 & R4 & O4); [lia|].
  erewrite io_step by exact E4. rewrite C3, C2, C1 in R4.
  exists d4. split; [done|]. split; [by rewrite T4, T3, T2, T1|]. unfold SUPERBLOCK_DNODE in *.
  split; [by rewrite O4, O3, O2 by lia|]. split; [intros ->; by rewrite O4, O3 by lia|].
  split; [rewrite O4 by lia; by replace (1 + fbb) with (2 + fbb - 1) by lia|].
  split; [done|]. intros c Hcc. by rewrite O4, O3, O2, O1 by lia.
Qed.

Lemma dzfs_init_reads (d : D) sb : read_block 1 d = Some (put_superblock zeros sb) ->
  0 <= version sb < 2 ^ 32 -> 0 <= blocks sb < 2 ^ 32 -> magic sb = DZFS_MAGIC ->
  dzfs_init d = Ret (inr (MkFS sb (bitmap_block_count (blocks sb))
                            (2 + bitmap_block_count (blocks sb))), d).
Proof.
  intros Hr Hv Hn Hm. unfold dzfs_init. erewrite io_step by (by apply try_read_some).
  rewrite superblock_put by done. rewrite bool_decide_true by done. done.
Qed.

(** C11: on a disk of 5 to 32768 blocks [dzfs_new] leaves a file system that
    [dzfs_init] mounts again with the same geometry: exactly the blocks behind
    the root folder are free, and the root folder is an empty folder. *)
Theorem dzfs_new_init (d : D) : 4 < total_blocks d <= 32768 ->
  (forall b m, read_block b d = Some m -> bytes_ok m) ->
  exists fs d', dzfs_new d = Ret (inr fs, d') /\ dzfs_init d' = Ret (inr fs, d') /\ fs_ok fs d' /\
    (forall b, 0 <= b < 32768 -> is_free d' b = (4 <=? b) && (b <? total_blocks d)) /\
    exists root, read_block (root_dnode fs) d' = Some root /\ root h_type = DZFS_ENTITY_FOLDER /\
      contents root = [].
Proof.
  intros Hn Hb. destruct (dzfs_new_steps d 1) as (d' & E & T & R1 & _ & R2 & R3 & RO);
    [by left|lia|lia|].
  change (2 + 1) with 3 in *. change (1 + 1) with 2 in *.
  set (n := total_blocks d) in *.
  assert (bitmap_block_count n = 1) as Hc.
  { unfold bitmap_block_count, DZFS_BITSET_COVERED_BLOCKS, DZFS_BLOCK_SIZE.
    rewrite wrap_small by lia. zify_div. }
  change (1 =? 1) with true in R2. cbv iota in R2.
  set (first := fold_left bitmap_clear (seqZ 0 (1 + 3)) _) in R2.
  set (last := fold_left bitmap_clear (reverse _) first) in R2.
  assert (bytes_ok last) as Hlast by (apply bytes_ok_clear_all, bytes_ok_clear_all, bytes_ok_fill, bytes_ok_superblock).
  assert (forall b, 0 <= b < 32768 -> bit_of last b = (4 <=? b) && (b <? n)) as Hbits.
  { intros b Hb'. unfold last, first.
    rewrite !clear_all_bits; try lia; cycle 1.
    { apply Forall_forall. intros x Hx%elem_of_seqZ. lia. }
    { apply Forall_forall. intros x Hx%elem_of_reverse%elem_of_seqZ. lia. }
    rewrite full_bit, andb_true_r by done.
    rewrite (bool_decide_ext (b ∈ reverse _) (n <= b)).
    2:{ rewrite elem_of_reverse, elem_of_seqZ. lia. }
    rewrite (bool_decide_ext (b ∈ seqZ 0 (1 + 3)) (b < 4)).
    2:{ rewrite elem_of_seqZ. lia. }
    destruct (Z.leb_spec 4 b), (Z.ltb_spec b n); repeat case_bool_decide; try done; lia. }
  assert (forall b, 0 <= b < 32768 -> is_free d' b = (4 <=? b) && (b <? n)) as HF.
  { intros b Hb'. replace b with (0 * 32768 + b) at 1 by lia.
    rewrite (is_free_bit d' 0 b last) by (done || lia). by apply Hbits. }
  eexists _, d'. split; [exact E|]. split.
  { rewrite (dzfs_init_reads d' (MkSuper DZFS_MAGIC DZFS_VERSION n)); try done; simpl; [|lia].
    by rewrite Hc. }
  split; [constructor; simpl; rewrite ?T; fold n; try lia|split; [done|]].
  - zify_div.
  - intros b m Hm. destruct (Z.lt_ge_cases 3 b).
    + rewrite RO in Hm by lia. by eapply Hb.
    + destruct (Z.eq_dec b 3) as [->|]; [rewrite R3 in Hm; injection Hm as <-; apply bytes_ok_root_block|].
      destruct (Z.eq_dec b 2) as [->|]; [rewrite R2 in Hm; by injection Hm as <-|].
      destruct (Z.eq_dec b 1) as [->|]; [rewrite R1 in Hm; injection Hm as <-; apply bytes_ok_superblock|].
      rewrite RO in Hm by lia. by eapply Hb.
  - intros b Hb'. rewrite HF by lia. rewrite andb_true_iff, Z.leb_le, Z.ltb_lt. lia.
  - exists (root_block 3 (current_date d)). split; [done|]. split; [done|]. reflexivity.
Qed.

End making.

(** ** Two bitmap blocks *)

Section making_big.
Context {D : Type} `{BlockDeviceLaws D}.

(** With a second bitmap block the loop that should clear the bits of
    the blocks behind the end of the disk passes indices beyond the block to
    [bitmap_clear], which ignores them: those blocks stay marked free, and the
    result is not a well-formed file system. *)
Theorem dzfs_new_two_bitmaps (d : D) : 32768 < total_blocks d < 65536 ->
  exists fs d', dzfs_new d = Ret (inr fs, d') /\
    (forall b, total_blocks d <= b < 65536 -> is_free d' b = true) /\ ~ fs_ok fs d'.
Proof.
  intros Hn. destruct (dzfs_new_steps d 2) as (d' & E & T & R1 & _ & R2 & _);
    [by right|lia|lia|].
  change (1 + 2) with 3 in *. change (2 =? 1) with false in R2. cbv iota in R2.
  set (n := total_blocks d) in *.
  set (last := fold_left bitmap_clear (reverse _) _) in R2.
  assert (last = fill (fold_left bitmap_clear (seqZ 0 (2 + 3)) (fill (put_superblock zeros
    (MkSuper DZFS_MAGIC DZFS_VERSION n)) 0 255 DZFS_BLOCK_SIZE)) 0 255 DZFS_BLOCK_SIZE) as Hl.
  { apply clear_all_out. apply Forall_forall. intros x Hx%elem_of_reverse%elem_of_seqZ. lia. }
  assert (forall b, n <= b < 65536 -> is_free d' b = true) as HF.
  { intros b Hb. replace b with (1 * 32768 + (b - 32768)) by lia.
    rewrite (is_free_bit d' 1 (b - 32768) last) by (done || lia).
    rewrite Hl. apply full_bit. lia. }
  eexists _, d'. split; [exact E|]. split; [exact HF|].
  intros Hfs. pose proof (fs_free _ _ Hfs n) as Hx. simpl in Hx. rewrite T in Hx.
  specialize (Hx ltac:(lia) (HF n ltac:(lia))). lia.
Qed.

End making_big.

(** ** Deleting a file *)

Section delete.
Context {D : Type} `{BlockDeviceLaws D}.

(** The blocks [free_blocks_from] frees: those in front of the first null one. *)
Definition in_prefix (f : Z -> Z) (lo n c : Z) : Prop :=
  exists j, lo <= j < lo + n /\ f j = c /\ forall x, lo <= x <= j -> f x <> 0.

Lemma block_free_step fs d b : fs_ok fs d -> root_dnode fs < b < total_blocks d ->
  exists d', block_free b d = Ret (inr tt, d') /\ fs_ok fs d' /\ total_blocks d' = total_blocks d /\
    (forall c, 0 <= c -> is_free d' c = if c =? b then true else is_free d c) /\
    (forall c, root_dnode fs <= c -> read_block c d' = read_block c d).
Proof.
  intros Hfs Hr. destruct (fs_geometry fs d Hfs) as (G1 & G2 & G3 & G4).
  pose proof (fs_total_covered fs d b Hfs ltac:(lia)) as Hcov.
  destruct (bitmap_block_range fs d b Hfs Hcov) as [R1 R2].
  destruct (read_ok (bitmap_block_of b) d) as [m Hm]; [lia|].
  destruct (write_bit fs d b m (bitmap_set m (b mod 32768)) true Hfs Hcov Hm
    (bytes_ok_bitmap_set _ _ (fs_bytes fs d Hfs _ _ Hm)))
    as (d' & HW & Hok & HF & Hfr & Ht & _); [|done|].
  { intros c Hc. rewrite bitmap_set_bit; [|apply (Z.mod_pos_bound b 32768); lia|lia].
    destruct (Z.eqb_spec c (b mod 32768)); [by rewrite bool_decide_true|by rewrite bool_decide_false]. }
  exists d'. split.
  { unfold block_free, mbind, io_bind, read_opt, io_get. rewrite Hm. unfold write_bool.
    change DZFS_BITSET_COVERED_BLOCKS with 32768. by rewrite HW. }
  split; [done|]. split; [done|]. split; [done|]. intros c Hc. apply Hfr. lia.
Qed.

Lemma free_blocks_spec fs f k : forall lo n d, fs_ok fs d -> Z.of_nat k = n ->
  (forall j, lo <= j < lo + n -> f j <> 0 -> root_dnode fs < f j < total_blocks d) ->
  exists d', free_blocks_from k lo f d = Ret (inr tt, d') /\ fs_ok fs d' /\
    total_blocks d' = total_blocks d /\
    (forall c, 0 <= c -> is_free d' c = true <-> (is_free d c = true \/ in_prefix f lo n c)) /\
    (forall c, root_dnode fs <= c -> read_block c d' = read_block c d).
Proof.
  induction k as [|k IH]; intros lo n d Hfs Hn Hp; cbn [free_blocks_from].
  - exists d. split; [done|]. split; [done|]. split; [done|]. split; [|done].
    intros c Hc. split; [by left|]. intros [?|(j & Hj & _)]; [done|lia].
  - destruct (Z.eqb_spec (f lo) 0) as [E|E].
    + exists d. split; [done|]. split; [done|]. split; [done|]. split; [|done].
      intros c Hc. split; [by left|]. intros [?|(j & Hj & _ & Hx)]; [done|].
      exfalso. apply (Hx lo); [lia|done].
    + destruct (block_free_step fs d (f lo) Hfs) as (d1 & E1 & Hfs1 & T1 & F1 & R1); [apply Hp; lia || done|].
      erewrite io_step by exact E1.
      destruct (IH (lo + 1) (n - 1) d1 Hfs1 ltac:(lia)) as (d2 & E2 & Hfs2 & T2 & F2 & R2).
      { intros j Hj Hj0. rewrite T1. apply Hp; [lia|done]. }
      exists d2. split; [done|]. split; [done|]. split; [congruence|]. split.
      * intros c Hc. rewrite F2, F1 by done. destruct (Z.eqb_spec c (f lo)) as [->|Hne].
        -- split; [|by left]. intros _. right. exists lo. split; [lia|]. split; [done|].
           intros x Hx. assert (x = lo) as -> by lia. done.
        -- split; (intros [?|(j & Hj & Hjc & Hx)]; [by left|right; exists j]).
           ++ split; [lia|]. split; [done|]. intros x Hx'.
              destruct (Z.eq_dec x lo) as [->|]; [done|]. apply Hx. lia.
           ++ assert (j <> lo) by (intros ->; congruence). split; [lia|]. split; [done|].
              intros x Hx'. apply Hx. lia.
      * intros c Hc. by rewrite R2, R1.
Qed.

Lemma folder_remove_some dir t i : bytes_ok dir -> 0 <= i < 957 -> content dir i = t ->
  exists dir', folder_remove_content dir t = Some dir' /\ bytes_ok dir'.
Proof.
  intros Hb Hi Ht. unfold folder_remove_content.
  destruct (find_content_spec 957 0 dir t) as [[_ Hn]|(k & -> & Hk & Hkt)].
  { exfalso. apply (Hn i); [lia|done]. }
  destruct (Z.eqb_spec k (-1)); [lia|].
  repeat match goal with |- context [if ?b then _ else _] => destruct b end;
    eexists; (split; [done|]); unfold store32; auto with word.
Qed.

(** Deleting a file frees its dnode and the blocks its direct and
    indirect entries list up to the first null one, and no other block; the
    block that holds the indirect entries stays occupied for good. *)
Theorem dzfs_delete_file fs d dn dnb ind parent dir i : fs_ok fs d -> file_on d dn dnb ind ->
  file_ok fs d dn dnb ind -> root_dnode fs <= parent < total_blocks d ->
  read_block parent d = Some dir -> dir h_type = DZFS_ENTITY_FOLDER -> 0 <= i < 957 ->
  content dir i = dn ->
  exists d', dzfs_delete fs dn parent d = Ret (inr tt, d') /\ fs_ok fs d' /\
    (forall c, 0 <= c < total_blocks d -> is_free d' c = true <->
       is_free d c = true \/ c = dn \/ in_prefix (blk_ptr dnb ind) 0 956 c \/
       in_prefix (blk_ptr dnb ind) 956 1024 c) /\
    (ind_ptr dnb <> 0 -> is_free d' (ind_ptr dnb) = false).
Proof.
  intros Hfs Hon Hok Hpar Hdir Hty Hi Hcont. pose proof Hon as (Hd & Hft & Hir & Hz).
  destruct (fs_geometry fs d Hfs) as (G1 & G2 & G3 & G4).
  pose proof (fo_dn _ _ _ _ _ Hok) as [Rdn Fdn].
  assert (forall k, 0 <= k < MAX_PTR -> blk_ptr dnb ind k <> 0 ->
    root_dnode fs < blk_ptr dnb ind k < total_blocks d) as Hptr
    by (intros k Hk Hk0; apply (fo_ptr _ _ _ _ _ Hok k Hk Hk0)).
  unfold dzfs_delete. destruct (Z.eqb_spec dn (root_dnode fs)); [lia|].
  erewrite io_step by (by apply try_read_some). rewrite Hft.
  change (DZFS_ENTITY_FILE =? DZFS_ENTITY_FILE) with true. cbv iota.
  (* the indirect entries *)
  assert (exists d1, (if truth (load32 dnb f_indirect)
      then indirect_block ← try_read (load32 dnb f_indirect);
           free_blocks_from 1024 0 (fun i => load32 indirect_block (i_entry i))
      else mret tt) d = Ret (inr tt, d1) /\ fs_ok fs d1 /\ total_blocks d1 = total_blocks d /\
      (forall c, 0 <= c -> is_free d1 c = true <-> (is_free d c = true \/
         in_prefix (blk_ptr dnb ind) 956 1024 c)) /\
      (forall c, root_dnode fs <= c -> read_block c d1 = read_block c d))
    as (d1 & E1 & Hfs1 & T1 & F1 & R1).
  { fold (ind_ptr dnb). unfold truth. destruct (Z.eqb_spec (ind_ptr dnb) 0) as [E|E]; cbn [negb].
    - exists d. split; [done|]. split; [done|]. split; [done|]. split; [|done].
      intros c Hc. split; [by left|]. intros [?|(j & Hj & _ & Hx)]; [done|]. exfalso.
      apply (Hx j); [lia|]. apply (fo_noind _ _ _ _ _ Hok j E). unfold DZFS_DIRECT_BLOCKS, MAX_PTR. lia.
    - erewrite io_step by (apply try_read_some; by apply Hir).
      assert (forall j, 0 <= j -> load32 ind (i_entry j) = blk_ptr dnb ind (j + 956)) as Hje.
      { intros j Hj. unfold blk_ptr, DZFS_DIRECT_BLOCKS. destruct (Z.leb_spec 956 (j + 956)); [|lia].
        by replace (j + 956 - 956) with j by lia. }
      destruct (free_blocks_spec fs (fun j => load32 ind (i_entry j)) 1024 0 1024 d Hfs eq_refl)
        as (d1 & E1 & Hfs1 & T1 & F1 & R1).
      { intros j Hj. rewrite Hje by lia. apply Hptr. unfold MAX_PTR. lia. }
      exists d1. split; [done|]. split; [done|]. split; [done|]. split; [|done].
      intros c Hc. rewrite F1 by done. f_equiv. split; intros (j & Hj & Hjc & Hx).
      + exists (j + 956). split; [lia|]. split; [by rewrite <- Hje by lia|].
        intros x Hx'. replace x with (x - 956 + 956) by lia. rewrite <- Hje by lia. apply Hx. lia.
      + exists (j - 956). split; [lia|]. rewrite Hje by lia. split; [by replace (j - 956 + 956) with j by lia|].
        intros x Hx'. rewrite Hje by lia. apply Hx. lia. }
  (* the direct entries *)
  assert (forall j, 0 <= j < 956 -> load32 dnb (f_direct j) = blk_ptr dnb ind j) as Hjd.
  { intros j Hj. unfold blk_ptr, DZFS_DIRECT_BLOCKS. destruct (Z.leb_spec 956 j); [lia|done]. }
  destruct (free_blocks_spec fs (fun j => load32 dnb (f_direct j)) 956 0 956 d1 Hfs1 eq_refl)
    as (d2 & E2 & Hfs2 & T2 & F2 & R2).
  { intros j Hj. rewrite Hjd, T1 by lia. apply Hptr. unfold MAX_PTR. lia. }
  assert (forall c, 0 <= c -> is_free d2 c = true <-> (is_free d c = true \/
    in_prefix (blk_ptr dnb ind) 0 956 c \/ in_prefix (blk_ptr dnb ind) 956 1024 c)) as F2'.
  { intros c Hc. rewrite F2, F1 by done.
    assert (in_prefix (fun j => load32 dnb (f_direct j)) 0 956 c <->
            in_prefix (blk_ptr dnb ind) 0 956 c) as ->; [|tauto].
    split; intros (j & Hj & Hjc & Hx); exists j; (split; [lia|]).
    - split; [by rewrite <- Hjd by lia|]. intros x Hx'. rewrite <- Hjd by lia. by apply Hx.
    - split; [by rewrite Hjd by lia|]. intros x Hx'. rewrite Hjd by lia. by apply Hx. }
  erewrite io_step; [|erewrite io_step by exact E1; exact E2].
  (* the parent *)
  destruct (folder_remove_some dir dn i (fs_bytes fs d Hfs _ _ Hdir) Hi Hcont) as (dir' & Hrem & Hdb').
  destruct (write_data_step fs d2 parent dir' Hfs2) as (d3 & E3 & (Hfs3 & T3 & _) & F3 & _ & _);
    [rewrite T2, T1; lia|done|].
  assert (unlink_entry dn parent d2 = Ret (inr tt, d3)) as E3'.
  { unfold unlink_entry. erewrite io_step.
    2:{ apply try_read_some. rewrite R2, R1 by lia. exact Hdir. }
    rewrite Hty. change (negb (DZFS_ENTITY_FOLDER =? DZFS_ENTITY_FOLDER)) with false. cbv iota.
    by rewrite Hrem. }
  erewrite io_step by exact E3'.
  destruct (block_free_step fs d3 dn Hfs3) as (d4 & E4 & Hfs4 & T4 & F4 & _);
    [rewrite T3, T2, T1; lia|].
  assert (forall c, 0 <= c < total_blocks d -> is_free d4 c = true <->
       is_free d c = true \/ c = dn \/ in_prefix (blk_ptr dnb ind) 0 956 c \/
       in_prefix (blk_ptr dnb ind) 956 1024 c) as HF.
  { intros c Hc. rewrite F4 by lia. destruct (Z.eqb_spec c dn); [tauto|].
    rewrite F3, F2' by (rewrite ?T2, ?T1; lia). tauto. }
  exists d4. split; [done|]. split; [done|]. split; [done|].
  intros E. destruct (fo_ind _ _ _ _ _ Hok E) as (Ri & Fi & Ni).
  apply not_true_iff_false. rewrite HF by lia.
  assert (forall lo k, 0 <= lo -> lo + k <= MAX_PTR -> ~ in_prefix (blk_ptr dnb ind) lo k (ind_ptr dnb)) as Hno.
  { intros lo k Hlo Hk (j & Hj & Hjc & Hx).
    destruct (fo_ptr _ _ _ _ _ Hok j) as (_ & _ & _ & Hji); [lia|apply Hx; lia|done]. }
  pose proof (Hno 0 956 ltac:(lia) ltac:(unfold MAX_PTR; lia)).
  pose proof (Hno 956 1024 ltac:(lia) ltac:(unfold MAX_PTR; lia)).
  intros [?|[?|[?|?]]]; congruence || done.
Qed.

End delete.

(** ** Witnesses *)

(** An 8-block disk: blocks 6 and 7 free, the root folder at 3 holding the
    file at 4, whose three bytes "abc" are in block 5. *)
Definition demo_bitmap : mem := store8 zeros 0 192.
Definition demo_root : mem := store32 (root_block 3 0) (d_content 0) 4.
Definition demo_file : mem :=
  store32 (store32 (store8 (store8 zeros h_type DZFS_ENTITY_FILE) h_name 97) f_size 3) (f_direct 0) 5.
Definition demo_data : mem := store_list zeros 0 [97; 98; 99].
Definition demo_disk : disk :=
  MkDisk (fun b => if b =? 2 then demo_bitmap else if b =? 3 then demo_root
                   else if b =? 4 then demo_file else if b =? 5 then demo_data else zeros) 8 0.
Definition demo_fs : dzFS := MkFS (MkSuper DZFS_MAGIC DZFS_VERSION 8) 1 3.

Lemma demo_is_free b : 0 <= b < 32768 -> is_free demo_disk b = (b =? 6) || (b =? 7).
Proof.
  intros Hb. replace b with (0 * 32768 + b) at 1 by lia.
  rewrite (is_free_bit demo_disk 0 b demo_bitmap) by (done || lia).
  unfold bit_of, demo_bitmap. destruct (Z.lt_ge_cases b 8).
  - assert (b = 0 \/ b = 1 \/ b = 2 \/ b = 3 \/ b = 4 \/ b = 5 \/ b = 6 \/ b = 7) as Hc by lia.
    repeat destruct Hc as [->|Hc]; try reflexivity. subst b. reflexivity.
  - rewrite store8_ne by zify_div. unfold zeros. rewrite Z.bits_0.
    destruct (Z.eqb_spec b 6), (Z.eqb_spec b 7); try done; lia.
Qed.

Lemma demo_bytes_ok b m : read_block b demo_disk = Some m -> bytes_ok m.
Proof.
  simpl. destruct (_ && _); [|done]. intros [= <-].
  unfold demo_bitmap, demo_root, demo_file, demo_data, store32.
  repeat case_match; auto 10 with word. unfold root_block, store32, store64. auto 10 with word.
Qed.

Lemma demo_fs_ok : fs_ok demo_fs demo_disk.
Proof.
  constructor; try reflexivity.
  - intros b m Hm. by apply (demo_bytes_ok b).
  - intros b Hb. simpl in Hb. rewrite demo_is_free by lia.
    destruct (Z.eqb_spec b 6), (Z.eqb_spec b 7); simpl; try done; lia.
Qed.

Lemma demo_ptr k : 0 <= k -> blk_ptr demo_file zeros k = if k =? 0 then 5 else 0.
Proof.
  intros Hk. unfold demo_file. destruct (Z.eqb_spec k 0) as [->|Hne]; [reflexivity|].
  unfold blk_ptr, DZFS_DIRECT_BLOCKS, f_direct. destruct (Z.leb_spec 956 k); [apply load_zeros|].
  rewrite load32_store32_out by lia. rewrite load32_store32_out by (unfold f_size; lia).
  rewrite <- (load_zeros (272 + 4 * k) 4). apply load_le_ext. intros x Hx.
  unfold h_type, h_name. by rewrite !store8_ne by lia.
Qed.

Lemma demo_file_on : file_on demo_disk 4 demo_file zeros.
Proof.
  split; [done|]. split; [reflexivity|]. split; [|done]. intros E. exfalso. apply E. reflexivity.
Qed.

Lemma demo_file_ok : file_ok demo_fs demo_disk 4 demo_file zeros.
Proof.
  constructor; try done.
  - intros k Hk. rewrite demo_ptr by lia. destruct (k =? 0); [|done]. intros _.
    split; [simpl; lia|]. by rewrite demo_is_free by lia.
  - intros k j Hk Hj. rewrite !demo_ptr by lia.
    destruct (Z.eqb_spec k 0), (Z.eqb_spec j 0); try done; lia.
  - intros k _ Hk. unfold DZFS_DIRECT_BLOCKS in Hk. rewrite demo_ptr by lia.
    destruct (Z.eqb_spec k 0); [lia|done].
  - split; [|apply bytes_ok_zeros]. by apply (demo_bytes_ok 4).
Qed.

Lemma block_alloc_correct_witness :
  exists d', block_alloc demo_fs demo_disk = Ret (inr 6, d') /\ is_free d' 6 = false.
Proof.
  destruct (block_alloc_correct demo_fs demo_disk demo_fs_ok)
    as (b & d' & E & [(_ & _ & Hn)|(Hr & Hf & Hmin & _ & Hfree & _)]).
  - exfalso. specialize (Hn 6 ltac:(simpl; lia)). rewrite demo_is_free in Hn by lia. done.
  - assert (b = 6) as ->.
    { simpl in Hr. rewrite demo_is_free in Hf by lia.
      destruct (Z.eqb_spec b 6); [done|]. destruct (Z.eqb_spec b 7) as [->|]; [|done].
      specialize (Hmin 6 ltac:(lia)). rewrite demo_is_free in Hmin by lia. done. }
    exists d'. split; [exact E|]. by rewrite Hfree by lia.
Defined.

Lemma block_free_correct_witness :
  exists d', block_free 5 demo_disk = Ret (inr tt, d') /\ is_free d' 5 = true.
Proof.
  destruct (block_free_correct demo_fs demo_disk 5 demo_fs_ok) as (d' & E & _ & HF & _);
    [simpl; lia|].
  exists d'. split; [exact E|]. by rewrite HF by lia.
Defined.

Lemma dzfs_read_correct_witness :
  dzfs_read demo_fs 4 2 1 demo_disk = Ret (inr [98; 99], demo_disk).
Proof.
  rewrite (dzfs_read_correct demo_fs demo_disk 4 demo_file zeros 2 1 demo_fs_ok demo_file_on
    demo_file_ok); [|vm_compute; congruence|lia|lia].
  vm_compute. reflexivity.
Defined.

Lemma dzfs_write_correct_witness :
  exists d', dzfs_write demo_fs 4 [100; 101] 3 demo_disk = Ret (inr tt, d') /\
     exists dnb' ind', read_block 4 d' = Some dnb' /\ load32 dnb' f_size = 5 /\
       fbyte d' dnb' ind' 0 = 97 /\ fbyte d' dnb' ind' 3 = 100.
Proof.
  destruct (dzfs_write_correct demo_fs demo_disk 4 demo_file zeros [100; 101] 3 demo_fs_ok
    demo_file_on demo_file_ok)
    as (r & d' & E & [(_ & (_ & _ & (k & Hk & Ek) & _) & _)|(-> & dnb' & ind' & _ & Hon & _ & [W1 W2] & Hsz & _)]).
  - vm_compute. split; congruence.
  - vm_compute. congruence.
  - repeat constructor; lia.
  - exfalso. assert (k = 0) as -> by (vm_compute (3 / 4096) in Hk; vm_compute ((3 + _ - 1) / 4096) in Hk; lia).
    rewrite demo_ptr in Ek by lia. done.
  - exists d'. split; [exact E|]. exists dnb', ind'. split; [apply Hon|]. split; [exact Hsz|]. split.
    + rewrite W2; [reflexivity|done|done|lia|lia].
    + apply (W1 0). reflexivity.
Defined.

Lemma folder_remove_content_correct_witness :
  exists dir', folder_remove_content demo_root 4 = Some dir' /\ contents dir' = [].
Proof.
  assert (folder_content_count demo_root = 1) as Hc by reflexivity.
  assert (dir_compact demo_root) as Hcomp.
  { intros i Hi. rewrite Hc in Hi. unfold DZFS_MAX_DIR_CONTENTS, demo_root in *.
    rewrite content_store by lia. destruct (Z.eqb_spec i 0); [lia|].
    unfold content, root_block, d_content, d_parent, h_date, h_name, h_type.
    rewrite load32_store32_out by lia. unfold load32, store64.
    rewrite load_store_le_out by lia. rewrite (load_le_ext _ zeros); [apply load_zeros|].
    intros x Hx. by rewrite !store8_ne by lia. }
  pose proof (folder_remove_content_correct demo_root 4 (demo_bytes_ok 3 demo_root eq_refl) Hcomp
    ltac:(lia)) as H.
  destruct (folder_remove_content demo_root 4) as [dir'|].
  - exists dir'. split; [reflexivity|]. destruct H as (_ & HP & _).
    assert (contents demo_root = [4]) as HC by (vm_compute; reflexivity). rewrite HC in HP.
    apply Permutation_length_1_inv in HP. congruence.
  - exfalso. apply H. vm_compute. by left.
Defined.

Definition blank_disk (n : Z) : disk := MkDisk (fun _ => zeros) n 7.

Lemma dzfs_new_init_witness :
  exists fs d', dzfs_new (blank_disk 100) = Ret (inr fs, d') /\ dzfs_init d' = Ret (inr fs, d') /\
    is_free d' 4 = true /\ is_free d' 100 = false.
Proof.
  destruct (dzfs_new_init (blank_disk 100)) as (fs & d' & E1 & E2 & _ & HF & _).
  - simpl. lia.
  - intros b m. simpl. destruct (_ && _); [|done]. intros [= <-]. apply bytes_ok_zeros.
  - exists fs, d'. split; [exact E1|]. split; [exact E2|].
    split; [exact (HF 4 ltac:(lia))|exact (HF 100 ltac:(lia))].
Defined.

Lemma dzfs_new_two_bitmaps_witness :
  exists fs d', dzfs_new (blank_disk 40000) = Ret (inr fs, d') /\ is_free d' 65000 = true /\
    ~ fs_ok fs d'.
Proof.
  destruct (dzfs_new_two_bitmaps (blank_disk 40000)) as (fs & d' & E & HF & HN); [simpl; lia|].
  exists fs, d'. split; [exact E|]. split; [|exact HN].
  apply HF. simpl. lia.
Defined.

Lemma dzfs_delete_file_witness :
  exists d', dzfs_delete demo_fs 4 3 demo_disk = Ret (inr tt, d') /\ is_free d' 4 = true /\
    is_free d' 5 = true.
Proof.
  destruct (dzfs_delete_file demo_fs demo_disk 4 demo_file zeros 3 demo_root 0 demo_fs_ok
    demo_file_on demo_file_ok) as (d' & E & _ & HF & _); try done.
  exists d'. split; [exact E|]. split.
  - apply HF; [simpl; lia|]. right. by left.
  - apply HF; [simpl; lia|]. right. right. left. exists 0. split; [lia|].
    rewrite demo_ptr by lia. split; [done|]. intros x Hx. assert (x = 0) as -> by lia. done.
Defined.
