(* ===== verification/DzFSOpen.v ===== *)
(** * Opening and creating files of dzFS

    The theorems about [dzfs_open_relative] (definitions in DzFS.v): what a
    name that is not there leads to with [DZFS_O_CREATE], and that the file
    made that way is found again, empty and well-formed. *)
From S2P Require Import Prelude Mem DzFS.

Section opening.
Context {D : Type} `{BlockDeviceLaws D}.

(** A file name as a single path component. *)
Record plain_name (name : list Z) : Prop := {
  pn_bytes : Forall (fun c => 0 < c < 256 /\ c <> SLASH) name;
  pn_len : 0 < zlen name;
  pn_dots : name <> [DOT] /\ name <> [DOT; DOT]
}.

(** A folder on the disk whose entries are allocated, readable blocks. *)
Record folder_on (fs : dzFS) (d : D) (p : Z) (dir : mem) : Prop := {
  fd_range : root_dnode fs <= p < total_blocks d /\ is_free d p = false;
  fd_read : read_block p d = Some dir;
  fd_entries j : 0 <= j < folder_content_count dir ->
    root_dnode fs < content dir j < total_blocks d /\ is_free d (content dir j) = false /\
    content dir j <> p
}.

(** No entry of the folder has the name. *)
Definition absent (d : D) (dir : mem) (name : list Z) : Prop :=
  forall j m, 0 <= j < folder_content_count dir -> read_block (content dir j) d = Some m ->
    name_is m name = false.

(** *** Paths of one component *)

Lemma plain_next name : plain_name name -> path_next_part_len name = length name.
Proof.
  intros [Hb _ _]. induction Hb as [|c l [_ Hc] Hb IH]; simpl; [done|].
  destruct (Z.eqb_spec c SLASH); [done|]. by rewrite IH.
Qed.

Lemma plain_last name : plain_name name -> path_last_part name = true.
Proof. intros Hn. unfold path_last_part. by rewrite plain_next, drop_all. Qed.

Lemma plain_no_prefix name pre : plain_name name -> SLASH ∈ pre -> string_prefix name pre = false.
Proof.
  intros [Hb _ _] Hs. unfold string_prefix. apply bool_decide_false. intros E.
  rewrite <- E in Hs. apply elem_of_take in Hs as (i & Hi & _).
  rewrite Forall_forall in Hb. destruct (Hb SLASH) as [_ Hx]; [by eapply list_elem_of_lookup_2|done].
Qed.

Lemma plain_skip_dots name p (d : D) : plain_name name ->
  skip_dots (S (length name)) name p d = Ret (inr (p, name), d).
Proof.
  intros Hn. cbn [skip_dots].
  rewrite !plain_no_prefix by (done || set_solver).
  unfold str_eq. by rewrite bool_decide_false by apply Hn.
Qed.

Lemma plain_ne name : plain_name name -> name <> [].
Proof. intros [_ Hl _] ->. unfold zlen in Hl. simpl in Hl. lia. Qed.

(** Opening a plain name relative to a folder is one step of the traversal. *)
Lemma open_plain fs d p dir name flags : p <> 0 -> read_block p d = Some dir -> plain_name name ->
  dzfs_open_relative fs name p flags d =
  traverse (S (length name)) fs name p dir flags d.
Proof.
  intros Hp Hd Hn.
  assert (dzfs_open_relative fs name p flags = open_from fs name p flags) as ->.
  { destruct name as [|c name']; [done|]. cbn [dzfs_open_relative].
    pose proof (pn_bytes _ Hn) as [[_ Hc] _]%Forall_cons.
    destruct (Z.eqb_spec c SLASH); [done|]. done. }
  unfold open_from. destruct (Z.eqb_spec p 0); [done|].
  erewrite io_step by (by apply try_read_some).
  erewrite io_step by (by apply plain_skip_dots). cbv beta iota.
  unfold str_eq. rewrite !bool_decide_false; [|apply Hn|by apply plain_ne]. cbn [orb].
  by erewrite io_step by (by apply try_read_some).
Qed.

(** *** Searching *)

Lemma search_none fs d dir name : fs_ok fs d ->
  (forall j, 0 <= j < folder_content_count dir -> 0 <= content dir j < total_blocks d) ->
  absent d dir name -> forall k i, 0 <= i <= folder_content_count dir ->
  i + Z.of_nat k = 957 -> search_folder k i dir name d = Ret (inr 0, d).
Proof.
  intros Hfs Hr Habs. destruct (folder_content_count_spec dir) as (A & B & C). cbv zeta in *.
  induction k as [|k IH]; intros i Hi Hk; cbn [search_folder]; [done|].
  destruct (Z.eqb_spec (content dir i) 0) as [E|E]; [done|].
  assert (i < folder_content_count dir) as Hlt.
  { destruct (Z.lt_ge_cases i (folder_content_count dir)); [done|].
    assert (i = folder_content_count dir) as -> by lia. destruct E. apply C. lia. }
  destruct (read_ok (content dir i) d) as [m Hm]; [apply Hr; lia|].
  erewrite io_step by (by apply try_read_some). rewrite (Habs i m) by (done || lia).
  apply IH; lia.
Qed.

(** A name first found at entry [n]. *)
Lemma search_found fs d dir name n m : fs_ok fs d -> 0 <= n < folder_content_count dir ->
  (forall j, 0 <= j <= n -> 0 <= content dir j < total_blocks d) ->
  (forall j m, 0 <= j < n -> read_block (content dir j) d = Some m -> name_is m name = false) ->
  read_block (content dir n) d = Some m -> name_is m name = true ->
  forall k i, 0 <= i <= n -> i + Z.of_nat k = 957 ->
  search_folder k i dir name d = Ret (inr (content dir n), d).
Proof.
  intros Hfs Hn Hr Hno Hm Hname. destruct (folder_content_count_spec dir) as (A & B & C). cbv zeta in *.
  induction k as [|k IH]; intros i Hi Hk; [lia|]. cbn [search_folder].
  destruct (Z.eqb_spec (content dir i) 0) as [E|E]; [exfalso; apply (B i); [lia|done]|].
  destruct (Z.eq_dec i n) as [->|Hne].
  - erewrite io_step by (by apply try_read_some). by rewrite Hname.
  - destruct (read_ok (content dir i) d) as [mi Hmi]; [apply Hr; lia|].
    erewrite io_step by (by apply try_read_some). rewrite (Hno i mi) by (done || lia).
    apply IH; lia.
Qed.

(** *** The new dnode *)

Lemma new_dnode_name name date p flags : plain_name name -> zlen name <= DZFS_MAX_FILENAME ->
  name_is (new_dnode name date p flags) name = true.
Proof.
  intros Hn Hl. unfold DZFS_MAX_FILENAME in Hl.
  unfold name_is. apply andb_true_iff.
  assert (forall m x, h_name <= x < 256 ->
    (if truth (Z.land flags DZFS_O_DIR)
     then store32 (store8 m h_type DZFS_ENTITY_FOLDER) d_parent p
     else store8 m h_type DZFS_ENTITY_FILE) x = m x) as Hout.
  { intros m x Hx. unfold h_name, h_type, d_parent in *. destruct (truth _).
    - unfold store32. rewrite store_le_out by lia. apply store8_ne. lia.
    - apply store8_ne. lia. }
  unfold new_dnode. split.
  - apply bool_decide_true.
    rewrite (load_list_ext _ (store_list (store64 zeros h_date date) h_name name)).
    + apply load_store_list. eapply Forall_impl; [apply (pn_bytes _ Hn)|]. simpl. lia.
    + intros x Hx. unfold zlen, h_name in *. rewrite Hout by (unfold h_name; lia).
      apply store8_ne. lia.
  - apply Z.eqb_eq. unfold zlen in *. rewrite Hout by (unfold h_name; lia). by rewrite store8_eq.
Qed.

Lemma bytes_ok_new_dnode name date p flags : bytes_ok (new_dnode name date p flags).
Proof. unfold new_dnode, store32, store64. destruct (truth _); auto 10 with word. Qed.

Lemma new_file_block name date p flags : zlen name <= DZFS_MAX_FILENAME ->
  truth (Z.land flags DZFS_O_DIR) = false ->
  let m := new_dnode name date p flags in
  m h_type = DZFS_ENTITY_FILE /\ (forall x, 264 <= x -> m x = 0).
Proof.
  intros Hl Hf m. unfold DZFS_MAX_FILENAME in Hl.
  unfold m, new_dnode. rewrite Hf. split.
  - by rewrite store8_eq.
  - intros x Hx. unfold h_type, h_name, h_date. rewrite !store8_ne by lia.
    rewrite store_list_out by lia. unfold store64. rewrite store_le_out by lia. done.
Qed.

Lemma new_file_ok fs d dn m : fs_ok fs d -> root_dnode fs < dn < total_blocks d ->
  is_free d dn = false -> read_block dn d = Some m -> m h_type = DZFS_ENTITY_FILE ->
  (forall x, 264 <= x -> m x = 0) -> bytes_ok m ->
  file_on d dn m zeros /\ file_ok fs d dn m zeros /\ load32 m f_size = 0.
Proof.
  intros Hfs Hr Hfree Hd Hty Hz Hb.
  assert (forall a, 264 <= a -> load32 m a = 0) as Hl.
  { intros a Ha. rewrite <- (load_zeros a 4). apply load_le_ext. intros. rewrite Hz by lia. done. }
  assert (ind_ptr m = 0) as Hi by (apply Hl; unfold f_indirect; lia).
  assert (forall k, 0 <= k -> blk_ptr m zeros k = 0) as Hp.
  { intros k Hk. unfold blk_ptr. destruct (_ <=? _); [apply load_zeros|].
    apply Hl. unfold f_direct. lia. }
  split; [|split; [|apply Hl; unfold f_size; lia]].
  - split_and!; try done.
  - constructor; try done.
    + intros k Hk Hk0. rewrite Hp in Hk0 by lia. done.
    + intros k j Hk Hj Hk0. rewrite Hp in Hk0 by lia. done.
    + intros k _ Hk. apply Hp. unfold DZFS_DIRECT_BLOCKS in Hk. lia.
Qed.

(** Creating a file for a name that is absent: its block and the folder's
    block are written, and the folder's entries are as they were. *)
Lemma create_step fs d p dir name flags : fs_ok fs d -> folder_on fs d p dir ->
  plain_name name -> zlen name <= 4094 -> absent d dir name ->
  folder_content_count dir < DZFS_MAX_DIR_CONTENTS ->
  truth (Z.land flags DZFS_O_CREATE) = true ->
  exists r d', dzfs_open_relative fs name p flags d = Ret (r, d') /\
    ((r = inl DZFS_ERR_FULL /\ d' = d /\ disk_full d) \/
     exists dn date, r = inr (dn, p) /\ fs_ok fs d' /\ total_blocks d' = total_blocks d /\
       root_dnode fs < dn < total_blocks d /\ is_free d dn = true /\ is_free d' dn = false /\
       read_block dn d' = Some (new_dnode name date p flags) /\
       read_block p d' = Some (store32 dir (d_content (folder_content_count dir)) dn) /\
       forall j, 0 <= j < folder_content_count dir ->
         read_block (content dir j) d' = read_block (content dir j) d).
Proof.
  intros Hfs Hfd Hn Hl Habs Hcount Hcr. destruct (fs_geometry fs d Hfs) as (G1 & G2 & G3 & G4).
  unfold DZFS_MAX_DIR_CONTENTS in Hcount.
  pose proof (fd_range _ _ _ _ Hfd) as [Rp Fp]. pose proof (fd_read _ _ _ _ Hfd) as Hrd.
  destruct (folder_content_count_spec dir) as (A & _).
  rewrite (open_plain fs d p dir) by (done || lia). cbn [traverse].
  rewrite plain_next, firstn_all by done.
  erewrite io_step.
  2:{ apply (search_none fs); try done; try lia. intros j Hj.
      destruct (fd_entries _ _ _ _ Hfd j Hj) as (? & _). lia. }
  change (0 =? 0) with true. cbv iota. rewrite Hcr, plain_last by done. unfold create_entry.
  destruct (Z.eqb_spec (folder_content_count dir) DZFS_MAX_DIR_CONTENTS) as [E|_];
    [unfold DZFS_MAX_DIR_CONTENTS in E; lia|].
  destruct (block_alloc_step fs d Hfs) as (dn & d1 & EA & [(-> & -> & HF)|(Rdn & Fd & Fd1 & Hs1 & R1)]).
  { erewrite io_stop; [eexists _, _; split; [done|by left]|].
    by erewrite io_step by exact EA. }
  pose proof Hs1 as (Hfs1 & T1 & _).
  set (dir' := store32 dir (d_content (folder_content_count dir)) dn).
  destruct (write_data_step fs d1 p dir' Hfs1) as (d2 & E2 & (Hfs2 & T2 & _) & F2 & R2 & O2);
    [rewrite T1; lia|apply bytes_ok_store_le, (fs_bytes fs d Hfs _ _ Hrd)|].
  destruct (write_data_step fs d2 dn (new_dnode name (current_date d1) p flags) Hfs2)
    as (d3 & E3 & (Hfs3 & T3 & _) & F3 & R3 & O3);
    [rewrite T2, T1; lia|apply bytes_ok_new_dnode|].
  assert (dn <> p) as Hne by (intros ->; congruence).
  exists (inr (dn, p)), d3. split.
  { erewrite io_step; [done|]. erewrite io_step by exact EA. destruct (Z.eqb_spec dn 0); [lia|].
    destruct (Z.ltb_spec DZFS_BLOCK_SIZE (h_name + zlen name + 1)) as [X|_];
      [unfold DZFS_BLOCK_SIZE, h_name in X; lia|].
    erewrite io_step by done. erewrite io_step by exact E2. erewrite io_step by exact E3. done. }
  right. exists dn, (current_date d1). split; [done|]. split; [done|]. split; [by rewrite T3, T2, T1|].
  split; [done|]. split; [done|].
  split; [by rewrite F3, F2, ?Fd1 by (rewrite ?T2, ?T1; lia)|]. split; [done|].
  split; [by rewrite O3|]. intros j Hj.
  destruct (fd_entries _ _ _ _ Hfd j Hj) as (Rj & Fj & Nj).
  rewrite O3, O2, R1; [done|lia|done|]. intros E. congruence.
Qed.

(** C13: opening a name that is not in the folder with [DZFS_O_CREATE] makes
    an empty, well-formed file, unless no block of the disk is free, and then
    the disk stays as it was; opening the name again, without the flag, finds that same dnode and its folder and
    changes nothing. *)
Theorem create_then_open fs d p dir name flags : fs_ok fs d -> folder_on fs d p dir ->
  plain_name name -> zlen name <= DZFS_MAX_FILENAME -> absent d dir name ->
  folder_content_count dir < DZFS_MAX_DIR_CONTENTS ->
  truth (Z.land flags DZFS_O_CREATE) = true -> truth (Z.land flags DZFS_O_DIR) = false ->
  exists r d', dzfs_open_relative fs name p flags d = Ret (r, d') /\
    ((r = inl DZFS_ERR_FULL /\ d' = d /\ disk_full d) \/
     exists dn m, r = inr (dn, p) /\ fs_ok fs d' /\ is_free d dn = true /\
       file_on d' dn m zeros /\ file_ok fs d' dn m zeros /\ load32 m f_size = 0 /\
       dzfs_open_relative fs name p 0 d' = Ret (inr (dn, p), d')).
Proof.
  intros Hfs Hfd Hn Hl Habs Hcount Hcr Hdir. destruct (fs_geometry fs d Hfs) as (G1 & G2 & G3 & G4).
  pose proof (fs_width fs d Hfs). unfold DZFS_MAX_FILENAME in Hl.
  destruct (create_step fs d p dir name flags Hfs Hfd Hn ltac:(lia) Habs Hcount Hcr)
    as (r & d' & E & [(-> & HF)|(dn & date & -> & Hfs' & T & Rdn & Fd & Fd' & Hrm & Hrp & Hent)]).
  { exists (inl DZFS_ERR_FULL), d'. split; [done|by left]. }
  destruct (folder_content_count_spec dir) as (A & B & C). cbv zeta in *.
  unfold DZFS_MAX_DIR_CONTENTS in Hcount.
  set (n := folder_content_count dir) in *. set (dir' := store32 dir (d_content n) dn) in *.
  set (m := new_dnode name date p flags) in *.
  destruct (new_file_block name date p flags Hl Hdir) as (Mt & Mz). fold m in Mt, Mz.
  exists (inr (dn, p)), d'. split; [done|]. right. exists dn, m.
  split; [done|]. split; [done|]. split; [done|].
  destruct (new_file_ok fs d' dn m) as (N1 & N2 & N3); try done; [by rewrite T|apply bytes_ok_new_dnode|].
  split; [done|]. split; [done|]. split; [done|].
  assert (forall j, content dir' j = if j =? n then dn else content dir j) as Hc'
    by (intros; apply content_store; lia).
  assert (content dir' n = dn) as Hcn by (by rewrite Hc', Z.eqb_refl).
  assert (n < folder_content_count dir') as Hcount'.
  { destruct (folder_content_count_spec dir') as (A' & B' & C'). cbv zeta in *.
    destruct (Z.lt_ge_cases n (folder_content_count dir')); [done|]. exfalso.
    assert (content dir' (folder_content_count dir') = 0) as E0 by (apply C'; lia).
    rewrite Hc' in E0. destruct (Z.eqb_spec (folder_content_count dir') n); [lia|].
    revert E0. apply B. lia. }
  rewrite (open_plain fs d' p dir') by (done || (destruct (fd_range _ _ _ _ Hfd); lia)).
  cbn [traverse]. rewrite plain_next, firstn_all by done.
  erewrite io_step.
  2:{ apply (search_found fs d' dir' name n m); try done; try lia.
      - intros j Hj. rewrite Hc', T. destruct (Z.eqb_spec j n); [lia|].
        destruct (fd_entries _ _ _ _ Hfd j) as (? & _); [subst n; lia|lia].
      - intros j mj Hj. rewrite Hc'. destruct (Z.eqb_spec j n); [lia|]. rewrite Hent by done.
        by apply Habs.
      - by rewrite Hcn.
      - by apply new_dnode_name. }
  rewrite Hcn. destruct (Z.eqb_spec dn 0); [lia|]. by rewrite plain_last.
Qed.

(** The length of a new name is not checked.  A name of 267 to 4094
    characters runs over the creation date and on into the dnode: the file is
    created with four characters of its own name as its size. *)
Theorem create_long_name fs d p dir name flags : fs_ok fs d -> folder_on fs d p dir ->
  plain_name name -> 267 <= zlen name <= 4094 -> absent d dir name ->
  folder_content_count dir < DZFS_MAX_DIR_CONTENTS ->
  truth (Z.land flags DZFS_O_CREATE) = true -> truth (Z.land flags DZFS_O_DIR) = false ->
  exists r d', dzfs_open_relative fs name p flags d = Ret (r, d') /\
    ((r = inl DZFS_ERR_FULL /\ d' = d /\ disk_full d) \/
     exists dn m, r = inr (dn, p) /\ read_block dn d' = Some m /\
       load_list m f_size 4 = take 4 (drop 263 name)).
Proof.
  intros Hfs Hfd Hn Hl Habs Hcount Hcr Hdir.
  destruct (create_step fs d p dir name flags Hfs Hfd Hn ltac:(lia) Habs Hcount Hcr)
    as (r & d' & E & [(-> & HF)|(dn & date & -> & _ & _ & _ & _ & _ & Hrm & _)]).
  { exists (inl DZFS_ERR_FULL), d'. split; [done|by left]. }
  exists (inr (dn, p)), d'. split; [done|]. right. exists dn, (new_dnode name date p flags).
  split; [done|]. split; [done|].
  assert (forall k, 0 <= k < 4 -> exists c, zget name (263 + k) = Some c /\
    new_dnode name date p flags (264 + k) = c) as Hb.
  { intros k Hk. destruct (zget_lt_is_Some name (263 + k)) as [c Hc]; [lia|]. exists c.
    split; [done|]. unfold new_dnode. rewrite Hdir. rewrite store8_ne by (unfold h_type; lia).
    rewrite store8_ne by (unfold h_name; lia).
    replace (264 + k) with (h_name + (263 + k)) by (unfold h_name; lia).
    rewrite (store_list_in _ _ _ _ _ Hc). apply wrap_small.
    pose proof (pn_bytes _ Hn) as Hfb. rewrite Forall_forall in Hfb.
    unfold zget in Hc. destruct (_ <? 0); [done|].
    apply list_elem_of_lookup_2 in Hc. specialize (Hfb c Hc). lia. }
  destruct (Hb 0) as (c0 & G0 & M0); [lia|]. destruct (Hb 1) as (c1 & G1 & M1); [lia|].
  destruct (Hb 2) as (c2 & G2 & M2); [lia|]. destruct (Hb 3) as (c3 & G3 & M3); [lia|].
  unfold load_list, f_size. rewrite <- Z.add_assoc. change (1 + 1) with 2.
  rewrite <- (Z.add_assoc 264 2 1). change (2 + 1) with 3.
  rewrite M1, M2, M3. replace 264 with (264 + 0) by lia. rewrite M0.
  unfold zget in *. simpl in *.
  rewrite (drop_S name c0 263), (drop_S name c1 264), (drop_S name c2 265), (drop_S name c3 266) by done.
  done.
Qed.

End opening.

(** ** Witnesses *)

Lemma demo_folder_on : folder_on demo_fs demo_disk 3 demo_root.
Proof.
  constructor; [split; [simpl; lia|by rewrite demo_is_free by lia]|done|].
  intros j Hj. change (folder_content_count demo_root) with 1 in Hj.
  assert (j = 0) as -> by lia. change (content demo_root 0) with 4.
  split; [simpl; lia|]. by rewrite demo_is_free by lia.
Qed.

Lemma demo_absent name : name_is demo_file name = false -> absent demo_disk demo_root name.
Proof.
  intros Hn j m Hj Hm. change (folder_content_count demo_root) with 1 in Hj.
  assert (j = 0) as -> by lia. change (content demo_root 0) with 4 in Hm.
  simpl in Hm. by injection Hm as <-.
Qed.

Lemma demo_not_full : ~ disk_full demo_disk.
Proof. intros HF. specialize (HF 6 ltac:(simpl; lia)). rewrite demo_is_free in HF by lia. done. Qed.

Lemma create_then_open_witness :
  exists dn d', dzfs_open_relative demo_fs [98] 3 DZFS_O_CREATE demo_disk = Ret (inr (dn, 3), d') /\
    dzfs_open_relative demo_fs [98] 3 0 d' = Ret (inr (dn, 3), d').
Proof.
  destruct (create_then_open demo_fs demo_disk 3 demo_root [98] DZFS_O_CREATE demo_fs_ok
    demo_folder_on) as (r & d' & E & [(_ & _ & HF)|(dn & m & -> & _ & _ & _ & _ & _ & E2)]); try done.
  - constructor; [repeat constructor; done|done|done].
  - by apply demo_absent.
  - by destruct (demo_not_full HF).
  - exists dn, d'. split; [exact E|exact E2].
Defined.

(** A name of 300 times 'A'. *)
Lemma create_long_name_witness :
  exists dn m d', dzfs_open_relative demo_fs (replicate 300 65) 3 DZFS_O_CREATE demo_disk = Ret (inr (dn, 3), d') /\
    read_block dn d' = Some m /\ load_list m f_size 4 = [65; 65; 65; 65].
Proof.
  destruct (create_long_name demo_fs demo_disk 3 demo_root (replicate 300 65) DZFS_O_CREATE demo_fs_ok
    demo_folder_on) as (r & d' & E & [(_ & _ & HF)|(dn & m & -> & Hm & HL)]); try done.
  - constructor; [apply Forall_replicate; done|done|done].
  - by apply demo_absent.
  - by destruct (demo_not_full HF).
  - exists dn, m, d'. split; [exact E|]. by split.
Defined.
