(* ===== verification/Sched.v ===== *)
(** * The scheduler (kernel/src/userspace/scheduler.c, scheduler.h)

    One run queue with a doubly linked list per priority, threaded through
    the [sched] field of the processes.  A process is named by its address
    and so is the [sched_entity] inside of it ([container_of] only moves
    between the two); the links are stored in the process map, so that a
    dequeue of a process that is not enqueued does to the lists what the code
    does.  An access through a pointer to no process is [Undef].

    The dispatch loop of [scheduler_start] is cut at the context switch:
    [sched_dispatch] runs up to it and [sched_resume] from the label
    [resume_scheduler] on.  Time is an argument ([rtc_now] is a driver call).

    The registers, the interrupts of the timer and the loop as a whole are in
    Dispatch.v.  [g_runqueue.lock] is taken and released inside every
    operation and has no state of its own here. *)
From S2P Require Import Prelude.

(** ** Data *)

Definition SCHED_PRIORITY_LEVELS : Z := 8.
Definition SCHED_MIN_TIMESLICE_US : Z := 2000.
Definition SCHED_MAX_TIMESLICE_US : Z := 16000.
Definition PRIO_RT_MAX : Z := 2.
Definition PRIO_NORMAL_MIN : Z := 3.
Definition PRIO_IDLE_MAX : Z := 7.
Definition SCHED_FLAG_RT : Z := 1.
Definition SCHED_FLAG_INTERACTIVE : Z := 2.
Definition SCHED_FLAG_CPU_BOUND : Z := 4.

Record sched_entity := MkSE {
  vruntime : Z; exec_start : Z; sum_exec_runtime : Z; last_timeslice : Z;
  static_priority : Z; dynamic_priority : Z; nice : Z; flags : Z;
  sleep_time : Z; last_ran : Z; sleep_avg : Z;
  next : Z; prev : Z; runqueue_prio : Z; in_runqueue : Z
}.

(** [enum process_state]. *)
Inductive process_state := UNUSED | USED | SLEEPING | RUNNABLE | RUNNING | EXITED.
#[export] Instance process_state_eq : EqDecision process_state.
Proof. solve_decision. Defined.

(** What the scheduler reads and writes of [struct process]. *)
Record process := MkProc {
  p_state : process_state; waiting_channel : Z; sched : sched_entity
}.

Record runqueue := MkRq {
  queue_heads : list Z; queue_tails : list Z; queue_sizes : list Z;
  total_runnable : Z; curr : Z; total_weight : Z; min_vruntime : Z
}.

Record sched_stats := MkStats {
  total_switches : Z; total_preemptions : Z; total_yields : Z; total_timer_ticks : Z
}.

(** The scheduler's state: all processes by address, [g_runqueue], [g_stats]. *)
Record sstate := MkS { procs : gmap Z process; rq : runqueue; stats : sched_stats }.

Definition rq_empty : runqueue :=
  MkRq (replicate 8 0) (replicate 8 0) (replicate 8 0) 0 0 0 0.

(** Field updates. *)
Definition se_links (se : sched_entity) (n p rp inq : Z) : sched_entity :=
  MkSE (vruntime se) (exec_start se) (sum_exec_runtime se) (last_timeslice se)
    (static_priority se) (dynamic_priority se) (nice se) (flags se)
    (sleep_time se) (last_ran se) (sleep_avg se) n p rp inq.
Definition se_set_next (se : sched_entity) (n : Z) : sched_entity :=
  se_links se n (prev se) (runqueue_prio se) (in_runqueue se).
Definition se_set_prev (se : sched_entity) (p : Z) : sched_entity :=
  se_links se (next se) p (runqueue_prio se) (in_runqueue se).
Definition se_set_flags (se : sched_entity) (f : Z) : sched_entity :=
  MkSE (vruntime se) (exec_start se) (sum_exec_runtime se) (last_timeslice se)
    (static_priority se) (dynamic_priority se) (nice se) f
    (sleep_time se) (last_ran se) (sleep_avg se) (next se) (prev se) (runqueue_prio se) (in_runqueue se).
Definition se_set_prio (se : sched_entity) (st dy ni : Z) : sched_entity :=
  MkSE (vruntime se) (exec_start se) (sum_exec_runtime se) (last_timeslice se)
    st dy ni (flags se)
    (sleep_time se) (last_ran se) (sleep_avg se) (next se) (prev se) (runqueue_prio se) (in_runqueue se).
Definition se_set_sleep (se : sched_entity) (st sa : Z) : sched_entity :=
  MkSE (vruntime se) (exec_start se) (sum_exec_runtime se) (last_timeslice se)
    (static_priority se) (dynamic_priority se) (nice se) (flags se)
    st (last_ran se) sa (next se) (prev se) (runqueue_prio se) (in_runqueue se).
Definition se_set_run (se : sched_entity) (vr es ser lt lr : Z) : sched_entity :=
  MkSE vr es ser lt (static_priority se) (dynamic_priority se) (nice se) (flags se)
    (sleep_time se) lr (sleep_avg se) (next se) (prev se) (runqueue_prio se) (in_runqueue se).

Definition set_sched (p : process) (se : sched_entity) : process :=
  MkProc (p_state p) (waiting_channel p) se.
Definition set_state (p : process) (st : process_state) : process :=
  MkProc st (waiting_channel p) (sched p).
Definition rq_set (q : runqueue) (hs ts zs : list Z) (tr tw : Z) : runqueue :=
  MkRq hs ts zs tr (curr q) tw (min_vruntime q).
Definition rq_set_curr (q : runqueue) (c : Z) : runqueue :=
  MkRq (queue_heads q) (queue_tails q) (queue_sizes q) (total_runnable q) c (total_weight q)
    (min_vruntime q).
Definition rq_set_min (q : runqueue) (m : Z) : runqueue :=
  MkRq (queue_heads q) (queue_tails q) (queue_sizes q) (total_runnable q) (curr q) (total_weight q) m.

(** Reading and writing a process through its address. *)
Definition get_proc (p : Z) : ST sstate process := fun s =>
  match procs s !! p with Some x => Ret (x, s) | None => Undef end.
Definition put_proc (p : Z) (x : process) : ST sstate unit :=
  st_modify (fun s => MkS (<[p := x]> (procs s)) (rq s) (stats s)).
Definition get_rq : ST sstate runqueue := reads rq.
Definition put_rq (q : runqueue) : ST sstate unit :=
  st_modify (fun s => MkS (procs s) q (stats s)).
Definition upd_sched (p : Z) (f : sched_entity -> sched_entity) : ST sstate unit :=
  x ← get_proc p; put_proc p (set_sched x (f (sched x))).
Definition of_option {A} (o : option A) : ST sstate A :=
  match o with Some a => mret a | None => st_undef end.

(** ** Weights and time slices *)

Definition weights : list Z := [88761; 71755; 56483; 46273; 36291; 29154; 23254; 15000].

(** [None]: the read is outside of the table. *)
Definition sched_entity_weight (se : sched_entity) : option Z := zget weights (dynamic_priority se).

Definition has_flag (se : sched_entity) (f : Z) : bool := truth (Z.land (flags se) f).

Definition sched_check_interactive (se : sched_entity) : sched_entity :=
  if (0 <? sleep_time se) && (0 <? sum_exec_runtime se) then
    let ratio := wrap 64 (sleep_time se * 100) / sum_exec_runtime se in
    if 150 <? ratio then se_set_flags se (Z.lor (flags se) SCHED_FLAG_INTERACTIVE)
    else if ratio <? 50 then
      se_set_flags se (Z.land (Z.lor (flags se) SCHED_FLAG_CPU_BOUND)
                         (Z.lnot SCHED_FLAG_INTERACTIVE))
    else se
  else se.

Definition sched_update_priority (se : sched_entity) : sched_entity :=
  if has_flag se SCHED_FLAG_RT then se
  else
    let base := static_priority se in
    let adjustment := 0 in
    let adjustment := if has_flag se SCHED_FLAG_INTERACTIVE then -1 else adjustment in
    let adjustment := if has_flag se SCHED_FLAG_CPU_BOUND then 1 else adjustment in
    let adjustment := adjustment + Z.quot (nice se) 4 in
    let new_prio := base + adjustment in
    let new_prio := if new_prio <? PRIO_NORMAL_MIN then PRIO_NORMAL_MIN else new_prio in
    let new_prio := if PRIO_IDLE_MAX <? new_prio then PRIO_IDLE_MAX else new_prio in
    se_set_prio se (static_priority se) (wrap 8 new_prio) (nice se).

(** [sched_compute_timeslice] with the run queue's [total_weight]. *)
Definition sched_compute_timeslice (total_weight : Z) (se : sched_entity) : option Z :=
  if has_flag se SCHED_FLAG_RT then Some SCHED_MAX_TIMESLICE_US
  else
    weight ← sched_entity_weight se;
    if total_weight =? 0 then Some SCHED_MAX_TIMESLICE_US
    else
      let timeslice := wrap 64 (SCHED_MAX_TIMESLICE_US * weight) / total_weight in
      let timeslice := if timeslice <? SCHED_MIN_TIMESLICE_US then SCHED_MIN_TIMESLICE_US
                       else timeslice in
      let timeslice := if SCHED_MAX_TIMESLICE_US <? timeslice then SCHED_MAX_TIMESLICE_US
                       else timeslice in
      Some (if has_flag se SCHED_FLAG_INTERACTIVE then timeslice * 3 / 2 else timeslice).

Definition sched_update_vruntime (p delta_us : Z) : ST sstate unit :=
  x ← get_proc p;
  let se := sched x in
  weight ← of_option (sched_entity_weight se);
  let vdelta := wrap 64 (delta_us * 1024) / weight in
  let se := se_set_run se (wrap 64 (vruntime se + vdelta)) (exec_start se)
              (wrap 64 (sum_exec_runtime se + delta_us)) (last_timeslice se) (last_ran se) in
  _ ← put_proc p (set_sched x se);
  q ← get_rq;
  if vruntime se <? min_vruntime q then put_rq (rq_set_min q (vruntime se)) else mret tt.

(** ** Queue operations *)

Definition sched_enqueue (p : Z) : ST sstate unit :=
  x ← get_proc p;
  q ← get_rq;
  let se := sched x in
  let prio := dynamic_priority se in
  let prio := if SCHED_PRIORITY_LEVELS <=? prio then SCHED_PRIORITY_LEVELS - 1 else prio in
  let tail := default 0 (zget (queue_tails q) prio) in
  _ ← put_proc p (set_sched x (se_links se 0 tail prio 1));
  _ ← (if truth tail then upd_sched tail (fun t => se_set_next t p) else mret tt);
  weight ← of_option (sched_entity_weight se);
  put_rq (rq_set q
    (if truth tail then queue_heads q else zset (queue_heads q) prio p)
    (zset (queue_tails q) prio p)
    (zset (queue_sizes q) prio (wrap 32 (default 0 (zget (queue_sizes q) prio) + 1)))
    (wrap 32 (total_runnable q + 1)) (wrap 64 (total_weight q + weight))).

Definition sched_dequeue (p : Z) : ST sstate unit :=
  x ← get_proc p;
  q ← get_rq;
  let se := sched x in
  let prio := runqueue_prio se in
  if SCHED_PRIORITY_LEVELS <=? prio then mret tt
  else
    _ ← (if truth (prev se) then upd_sched (prev se) (fun t => se_set_next t (next se)) else mret tt);
    _ ← (if truth (next se) then upd_sched (next se) (fun t => se_set_prev t (prev se)) else mret tt);
    _ ← upd_sched p (fun se => se_links se 0 0 (runqueue_prio se) 0);
    weight ← of_option (sched_entity_weight se);
    put_rq (rq_set q
      (if truth (prev se) then queue_heads q else zset (queue_heads q) prio (next se))
      (if truth (next se) then queue_tails q else zset (queue_tails q) prio (prev se))
      (zset (queue_sizes q) prio (wrap 32 (default 0 (zget (queue_sizes q) prio) - 1)))
      (wrap 32 (total_runnable q - 1)) (wrap 64 (total_weight q - weight))).

(** The [while] loop over one queue: the first entity of least [vruntime]. *)
Fixpoint min_vruntime_from (fuel : nat) (ps : gmap Z process) (se best minv : Z) : outcome Z :=
  match fuel with
  | O => NoFuel
  | S fuel' =>
      if se =? 0 then Ret best
      else match ps !! se with
           | None => Undef
           | Some x =>
               if vruntime (sched x) <? minv
               then min_vruntime_from fuel' ps (next (sched x)) se (vruntime (sched x))
               else min_vruntime_from fuel' ps (next (sched x)) best minv
           end
  end.

(** The [for] loop over the priorities from [prio] on; 0 is [NULL]. *)
Fixpoint pick_from (fuel : nat) (s : sstate) (k : nat) (prio : Z) : outcome Z :=
  match k with
  | O => Ret 0
  | S k' =>
      let h := default 0 (zget (queue_heads (rq s)) prio) in
      if h =? 0 then pick_from fuel s k' (prio + 1)
      else if prio <=? PRIO_RT_MAX then Ret h
      else match procs s !! h with
           | None => Undef
           | Some x => min_vruntime_from fuel (procs s) (next (sched x)) h (vruntime (sched x))
           end
  end.
Definition sched_pick_next (fuel : nat) (s : sstate) : outcome Z := pick_from fuel s 8 0.

(** ** Operations on processes *)

Definition sched_fork (p : Z) : ST sstate unit :=
  x ← get_proc p;
  q ← get_rq;
  let se := MkSE (min_vruntime q) 0 0 0 PRIO_NORMAL_MIN PRIO_NORMAL_MIN 0 0 0 0 0 0 0 0 0 in
  slice ← of_option (sched_compute_timeslice (total_weight q) se);
  put_proc p (set_sched x (se_set_run se (vruntime se) 0 0 slice 0)).

(** [sched_sleep] at time [now]. *)
Definition sched_sleep (now p wchan : Z) : ST sstate unit :=
  x ← get_proc p;
  let se := sched x in
  _ ← (if 0 <? last_ran se then
         let sleep_duration := wrap 64 (now - last_ran se) in
         put_proc p (set_sched x (se_set_sleep se (wrap 64 (sleep_time se + sleep_duration))
           (wrap 32 (wrap 64 (wrap 32 (sleep_avg se * 7) + sleep_duration) / 8))))
       else mret tt);
  _ ← sched_dequeue p;
  x ← get_proc p;
  put_proc p (MkProc SLEEPING wchan (sched_check_interactive (sched x))).

Definition sched_wakeup (p : Z) : ST sstate unit :=
  x ← get_proc p;
  if negb (bool_decide (p_state x = SLEEPING)) && negb (bool_decide (p_state x = USED))
  then mret tt
  else
    let se := sched x in
    let se := se_links se 0 0 (runqueue_prio se) (in_runqueue se) in
    _ ← put_proc p (MkProc RUNNABLE 0 (sched_update_priority se));
    sched_enqueue p.

(** Requeue a process whose priority changed. *)
Definition requeue (p : Z) : ST sstate unit :=
  x ← get_proc p;
  if bool_decide (p_state x = RUNNABLE) && truth (in_runqueue (sched x)) then
    _ ← sched_dequeue p; sched_enqueue p
  else mret tt.

Definition sched_set_priority (p prio : Z) : ST sstate unit :=
  if SCHED_PRIORITY_LEVELS <=? prio then mret tt
  else
    _ ← upd_sched p (fun se =>
          let se := se_set_flags se (if prio <=? PRIO_RT_MAX then Z.lor (flags se) SCHED_FLAG_RT
                                     else Z.land (flags se) (Z.lnot SCHED_FLAG_RT)) in
          se_set_prio se prio prio (nice se));
    requeue p.

Definition sched_nice (p n : Z) : ST sstate unit :=
  let n := if n <? -20 then -20 else n in
  let n := if 19 <? n then 19 else n in
  _ ← upd_sched p (fun se =>
        sched_update_priority (se_set_prio se (static_priority se) (dynamic_priority se) n));
  requeue p.

(** ** The dispatch loop *)

(** From a non-empty queue to the context switch: the process to run. *)
Definition sched_dispatch (fuel : nat) (now : Z) : ST sstate Z :=
  n ← (fun s => match sched_pick_next fuel s with
                | Ret a => Ret (a, s)
                | Panic m => Panic m
                | Undef => Undef
                | NoFuel => NoFuel
                end);
  if n =? 0 then mret 0
  else
    _ ← sched_dequeue n;
    q ← get_rq;
    _ ← put_rq (rq_set_curr q n);
    x ← get_proc n;
    _ ← put_proc n (set_state x RUNNING);
    x ← get_proc n;
    q ← get_rq;
    let se := sched x in
    let se := se_set_run se (vruntime se) now (sum_exec_runtime se) (last_timeslice se) now in
    slice ← of_option (sched_compute_timeslice (total_weight q) se);
    _ ← put_proc n (set_sched x (se_set_run se (vruntime se) now (sum_exec_runtime se) slice now));
    _ ← st_modify (fun s => MkS (procs s) (rq s)
          (MkStats (wrap 64 (total_switches (stats s) + 1)) (total_preemptions (stats s))
             (total_yields (stats s)) (total_timer_ticks (stats s))));
    mret n.

(** From [resume_scheduler] to the end of the iteration, for a process that
    did not exit ([reclaim] of Proc.v is the other case). *)
Definition sched_resume (now n : Z) : ST sstate unit :=
  x ← get_proc n;
  _ ← sched_update_vruntime n (wrap 64 (now - exec_start (sched x)));
  _ ← upd_sched n (fun se => sched_update_priority (sched_check_interactive se));
  x ← get_proc n;
  _ ← match p_state x with
      | RUNNABLE => sched_enqueue n
      | SLEEPING => mret tt
      | EXITED => mret tt
      | RUNNING => mret tt
      | UNUSED | USED => _ ← put_proc n (set_state x RUNNABLE); sched_enqueue n
      end;
  q ← get_rq;
  put_rq (rq_set_curr q 0).

(** [scheduler_tick] up to the call of [scheduler_preempt]: [true] when the
    time slice is over; then the process is made runnable and the context
    switch follows. *)
Definition scheduler_tick (now : Z) : ST sstate bool :=
  _ ← st_modify (fun s => MkS (procs s) (rq s)
        (MkStats (total_switches (stats s)) (total_preemptions (stats s))
           (total_yields (stats s)) (wrap 64 (total_timer_ticks (stats s) + 1))));
  q ← get_rq;
  if curr q =? 0 then mret false
  else
    x ← get_proc (curr q);
    if negb (bool_decide (p_state x = RUNNING)) then mret false
    else
      _ ← (if 0 <? exec_start (sched x) then
             _ ← sched_update_vruntime (curr q) (wrap 64 (now - exec_start (sched x)));
             upd_sched (curr q) (fun se => se_set_run se (vruntime se) now (sum_exec_runtime se)
                                             (last_timeslice se) (last_ran se))
           else mret tt);
      x ← get_proc (curr q);
      if last_timeslice (sched x) <=? wrap 64 (now - last_ran (sched x)) then
        _ ← st_modify (fun s => MkS (procs s) (rq s)
              (MkStats (total_switches (stats s)) (wrap 64 (total_preemptions (stats s) + 1))
                 (total_yields (stats s)) (total_timer_ticks (stats s))));
        x ← get_proc (curr q);
        _ ← put_proc (curr q) (if bool_decide (p_state x = RUNNING) then set_state x RUNNABLE else x);
        mret true
      else mret false.

(** The rebuild of an empty run queue from the process table. *)
Fixpoint sched_rebuild (table : list Z) : ST sstate unit :=
  match table with
  | [] => mret tt
  | p :: table' =>
      _ ← (if p =? 0 then mret tt
           else
             x ← get_proc p;
             if bool_decide (p_state x = RUNNABLE) && negb (truth (in_runqueue (sched x))) then
               _ ← put_proc p (set_sched x (se_links (sched x) 0 0 (runqueue_prio (sched x))
                                              (in_runqueue (sched x))));
               sched_enqueue p
             else mret tt);
      sched_rebuild table'
  end.

(** ** The queues a state denotes *)

(** The element of a list at an index, 0 ([NULL]) outside of it. *)
Definition nth0 (l : list Z) (i : nat) : Z := default 0 (l !! i).
Definition last0 (l : list Z) : Z := default 0 (last l).
Definition before0 (l : list Z) (i : nat) : Z := match i with O => 0 | S j => nth0 l j end.

(** [l] is the doubly linked list of bucket [prio]. *)
Definition links_ok (ps : gmap Z process) (prio : Z) (l : list Z) : Prop :=
  forall i p, l !! i = Some p -> p <> 0 /\ exists x, ps !! p = Some x /\
    next (sched x) = nth0 l (S i) /\ prev (sched x) = before0 l i /\
    runqueue_prio (sched x) = prio /\ in_runqueue (sched x) = 1.

(** The run queue's invariant, with the eight queues [Q] it denotes. *)
Record rq_wf (s : sstate) (Q : list (list Z)) : Prop := {
  rw_len : length Q = 8%nat /\ length (queue_heads (rq s)) = 8%nat /\
    length (queue_tails (rq s)) = 8%nat /\ length (queue_sizes (rq s)) = 8%nat;
  rw_queue k l : Q !! k = Some l ->
    queue_heads (rq s) !! k = Some (nth0 l 0) /\ queue_tails (rq s) !! k = Some (last0 l) /\
    queue_sizes (rq s) !! k = Some (wrap 32 (zlen l)) /\ links_ok (procs s) (Z.of_nat k) l;
  rw_nodup : NoDup (concat Q);
  rw_total : total_runnable (rq s) = wrap 32 (zlen (concat Q))
}.

Lemma concat_split (Q : list (list Z)) k l : Q !! k = Some l ->
  concat Q ≡ₚ l ++ (concat (take k Q) ++ concat (drop (S k) Q)).
Proof.
  intros H. rewrite <- (take_drop_middle Q k l H) at 1.
  rewrite concat_app. simpl. by rewrite Permutation_app_swap_app.
Qed.

Lemma concat_insert (Q : list (list Z)) k l l' : Q !! k = Some l ->
  concat (<[k := l']> Q) ≡ₚ l' ++ (concat (take k Q) ++ concat (drop (S k) Q)).
Proof.
  intros H. pose proof (lookup_lt_Some _ _ _ H).
  rewrite (concat_split (<[k := l']> Q) k l') by (by rewrite list_lookup_insert_eq).
  rewrite take_insert_ge, drop_insert_lt by lia. done.
Qed.

Lemma elem_of_queue (Q : list (list Z)) k l p : Q !! k = Some l -> p ∈ l -> p ∈ concat Q.
Proof. intros H Hp. rewrite (concat_split Q k l H). apply elem_of_app. by left. Qed.

(** Different queues share no process. *)
Lemma queues_disjoint (Q : list (list Z)) k k' l l' p : NoDup (concat Q) -> Q !! k = Some l ->
  Q !! k' = Some l' -> p ∈ l -> p ∈ l' -> k = k'.
Proof.
  intros Hn Hk Hk' Hp Hp'. destruct (decide (k = k')) as [|Hne]; [done|exfalso].
  rewrite (concat_split Q k l Hk) in Hn. apply NoDup_app in Hn as (_ & Hd & _).
  apply (Hd p Hp). apply elem_of_app. destruct (decide (k' < k)%nat).
  - left. apply (elem_of_queue _ k' l'); [|done]. rewrite lookup_take_lt; done.
  - right. apply (elem_of_queue _ (k' - S k)%nat l'); [|done]. rewrite lookup_drop.
    by replace (S k + (k' - S k))%nat with k' by lia.
Qed.

Lemma queue_nodup (Q : list (list Z)) k l : NoDup (concat Q) -> Q !! k = Some l -> NoDup l.
Proof. intros Hn Hk. rewrite (concat_split Q k l Hk) in Hn. by apply NoDup_app in Hn as (? & _). Qed.

Lemma links_ok_ext ps ps' prio l : links_ok ps prio l ->
  (forall p, p ∈ l -> ps' !! p = ps !! p) -> links_ok ps' prio l.
Proof.
  intros H E i p Hi. destruct (H i p Hi) as (H0 & x & Hx & R). split; [done|]. exists x.
  split; [|done]. rewrite E; [done|]. by eapply list_elem_of_lookup_2.
Qed.

(** *** Appending *)

Lemma nth0_snoc l p i : nth0 (l ++ [p]) i = if decide (i = length l) then p else nth0 l i.
Proof.
  unfold nth0. destruct (decide (i = length l)) as [->|].
  - by rewrite list_lookup_middle.
  - destruct (decide (i < length l)%nat).
    + by rewrite lookup_app_l.
    + rewrite !lookup_ge_None_2; [done|lia|]. rewrite length_app. simpl. lia.
Qed.

Lemma nth0_last l : nth0 l (length l - 1) = last0 l.
Proof. unfold nth0, last0. by rewrite last_lookup, Nat.sub_1_r. Qed.

Lemma last0_snoc l p : last0 (l ++ [p]) = p.
Proof. unfold last0. by rewrite last_snoc. Qed.

Lemma last0_in l : l <> [] -> last0 l ∈ l.
Proof.
  intros H. unfold last0. destruct (last l) eqn:E.
  - simpl. eapply last_Some_elem_of, E.
  - by apply last_None in E.
Qed.

Lemma last0_ne ps prio l : links_ok ps prio l -> l <> [] -> last0 l <> 0.
Proof.
  intros H Hl. pose proof (last0_in l Hl) as Hin. apply list_elem_of_lookup_1 in Hin as [i Hi].
  destruct (H i _ Hi) as [Hne _]. exact Hne.
Qed.

(** Linking [p] behind the last element of [l]. *)
Lemma links_ok_snoc ps ps' prio l p x : links_ok ps prio l -> NoDup l -> p ∉ l -> p <> 0 ->
  ps' !! p = Some x -> next (sched x) = 0 -> prev (sched x) = last0 l ->
  runqueue_prio (sched x) = prio -> in_runqueue (sched x) = 1 ->
  (forall q y, q ∈ l -> ps !! q = Some y ->
     ps' !! q = Some (if q =? last0 l then set_sched y (se_set_next (sched y) p) else y)) ->
  links_ok ps' prio (l ++ [p]).
Proof.
  intros Hl Hnd Hp Hp0 Hx Hn Hpr Hr Hin Hold i q Hi.
  destruct (decide (i = length l)) as [->|Hne].
  - rewrite list_lookup_middle in Hi by done. injection Hi as <-. split; [done|]. exists x.
    split; [done|]. split.
    { rewrite nth0_snoc. destruct (decide _); [lia|].
      unfold nth0. by rewrite lookup_ge_None_2 by lia. }
    split; [|done]. rewrite Hpr. destruct l as [|a l']; [done|].
    change (before0 ((a :: l') ++ [p]) (length (a :: l'))) with (nth0 ((a :: l') ++ [p]) (length l')).
    rewrite nth0_snoc. destruct (decide _) as [E|_]; [simpl in E; lia|].
    rewrite <- nth0_last. simpl. by rewrite Nat.sub_0_r.
  - assert (l !! i = Some q) as Hi'.
    { rewrite lookup_app_l in Hi; [done|]. apply lookup_lt_Some in Hi.
      rewrite length_app in Hi. simpl in Hi. lia. }
    destruct (Hl i q Hi') as (Hq0 & y & Hy & Y1 & Y2 & Y3 & Y4). split; [done|].
    pose proof (list_elem_of_lookup_2 _ _ _ Hi') as Hq.
    eexists. split; [by apply Hold|].
    pose proof (lookup_lt_Some _ _ _ Hi') as Hlt.
    assert (before0 (l ++ [p]) i = before0 l i) as HB.
    { destruct i as [|j]; [done|]. simpl. rewrite nth0_snoc. destruct (decide _); [lia|done]. }
    destruct (Z.eqb_spec q (last0 l)) as [E|E]; simpl; rewrite HB, nth0_snoc.
    + split; [|done]. destruct (decide _) as [D|D]; [done|]. exfalso. apply D.
      assert (l !! (length l - 1)%nat = Some q) as Hlast.
      { unfold last0 in E. rewrite last_lookup in E.
        destruct (l !! pred (length l)) eqn:EL.
        - simpl in E. subst. by replace (length l - 1)%nat with (pred (length l)) by lia.
        - apply lookup_ge_None in EL. lia. }
      pose proof (NoDup_lookup _ _ _ _ Hnd Hi' Hlast). lia.
    + split; [|done]. destruct (decide (S i = length l)) as [D|D]; [|done]. exfalso. apply E.
      unfold last0. rewrite last_lookup. replace (pred (length l)) with i by lia. by rewrite Hi'.
Qed.

(** *** What relinking leaves alone *)

Definition relink (y : process) (n p rp inq : Z) : process :=
  set_sched y (se_links (sched y) n p rp inq).

(** The processes are the same up to their queue links. *)
Definition relinked (ps ps' : gmap Z process) : Prop :=
  forall q, match ps !! q with
            | Some y => exists n p rp inq, ps' !! q = Some (relink y n p rp inq)
            | None => ps' !! q = None
            end.

Lemma relink_id y : relink y (next (sched y)) (prev (sched y)) (runqueue_prio (sched y))
  (in_runqueue (sched y)) = y.
Proof. by destruct y as [? ? []]. Qed.

Lemma relinked_refl ps : relinked ps ps.
Proof.
  intros q. destruct (ps !! q) as [y|] eqn:E; [|done].
  exists (next (sched y)), (prev (sched y)), (runqueue_prio (sched y)), (in_runqueue (sched y)).
  by rewrite relink_id.
Qed.

Lemma relinked_trans ps1 ps2 ps3 : relinked ps1 ps2 -> relinked ps2 ps3 -> relinked ps1 ps3.
Proof.
  intros H1 H2 q. specialize (H1 q). specialize (H2 q). destruct (ps1 !! q) as [y|].
  - destruct H1 as (n & p & rp & iq & E). rewrite E in H2.
    destruct H2 as (n' & p' & rp' & iq' & E'). exists n', p', rp', iq'. by rewrite E'.
  - by rewrite H1 in H2.
Qed.

Lemma relinked_insert ps q y n p rp inq : ps !! q = Some y ->
  relinked ps (<[q := relink y n p rp inq]> ps).
Proof.
  intros Hq r. destruct (decide (r = q)) as [->|Hne].
  - rewrite Hq, lookup_insert_eq. by eexists _, _, _, _.
  - rewrite lookup_insert_ne by done. apply relinked_refl.
Qed.

(** The weight the queues carry. *)
Definition weight_of (ps : gmap Z process) (q : Z) : Z :=
  match ps !! q with
  | Some y => default 0 (sched_entity_weight (sched y))
  | None => 0
  end.
Definition qweight (ps : gmap Z process) (l : list Z) : Z := fold_right (fun q a => weight_of ps q + a) 0 l.

(** The [total_weight] field is the weight of what is queued. *)
Definition weight_ok (s : sstate) (Q : list (list Z)) : Prop :=
  total_weight (rq s) = wrap 64 (qweight (procs s) (concat Q)).

Lemma weight_of_relinked ps ps' q : relinked ps ps' -> weight_of ps' q = weight_of ps q.
Proof.
  intros H. specialize (H q). unfold weight_of. destruct (ps !! q) as [y|].
  - destruct H as (n & p & rp & iq & ->). done.
  - by rewrite H.
Qed.

Lemma qweight_relinked ps ps' l : relinked ps ps' -> qweight ps' l = qweight ps l.
Proof.
  intros H. induction l as [|q l IH]; simpl; [done|]. by rewrite IH, (weight_of_relinked ps ps').
Qed.

Lemma qweight_perm ps l l' : l ≡ₚ l' -> qweight ps l = qweight ps l'.
Proof. induction 1; simpl; lia. Qed.

Lemma qweight_app ps l l' : qweight ps (l ++ l') = qweight ps l + qweight ps l'.
Proof. induction l as [|q l IH]; simpl; lia. Qed.

(** Everything but the lists of a run queue is as before. *)
Definition same_clock (s s' : sstate) : Prop :=
  curr (rq s') = curr (rq s) /\ min_vruntime (rq s') = min_vruntime (rq s) /\ stats s' = stats s.

(** *** Enqueue *)

Lemma get_proc_step p s x : procs s !! p = Some x -> get_proc p s = Ret (x, s).
Proof. intros E. unfold get_proc. by rewrite E. Qed.

Lemma upd_sched_step p s x f : procs s !! p = Some x ->
  upd_sched p f s = Ret (tt, MkS (<[p := set_sched x (f (sched x))]> (procs s)) (rq s) (stats s)).
Proof. intros E. unfold upd_sched. by erewrite bind_step by (by apply get_proc_step). Qed.

Lemma prio_weight d : 0 <= d < 8 -> exists w, zget weights d = Some w /\ 0 < w < 2 ^ 17.
Proof.
  intros Hd. assert (d = 0 \/ d = 1 \/ d = 2 \/ d = 3 \/ d = 4 \/ d = 5 \/ d = 6 \/ d = 7) as C by lia.
  destruct C as [->|[->|[->|[->|[->|[->|[->| ->]]]]]]]; eexists; (split; [reflexivity|lia]).
Qed.

Lemma zget_nat {A} (l : list A) k : zget l (Z.of_nat k) = l !! k.
Proof. unfold zget. destruct (Z.ltb_spec (Z.of_nat k) 0); [lia|]. by rewrite Nat2Z.id. Qed.
Lemma zset_nat {A} (l : list A) k x : zset l (Z.of_nat k) x = <[k := x]> l.
Proof. unfold zset. destruct (Z.ltb_spec (Z.of_nat k) 0); [lia|]. by rewrite Nat2Z.id. Qed.

(** The processes after [p] was appended to a queue with last element [t]. *)
Definition enqueued (ps : gmap Z process) (p : Z) (x : process) (t prio : Z) : gmap Z process :=
  let ps1 := <[p := relink x 0 t prio 1]> ps in
  match ps1 !! t with
  | Some y => if t =? 0 then ps1
              else <[t := relink y p (prev (sched y)) (runqueue_prio (sched y)) (in_runqueue (sched y))]> ps1
  | None => ps1
  end.

Lemma enqueued_spec ps prio l p x : links_ok ps prio l -> p ∉ l -> ps !! p = Some x ->
  let ps' := enqueued ps p x (last0 l) prio in
  ps' !! p = Some (relink x 0 (last0 l) prio 1) /\
  (forall q y, q ∈ l -> ps !! q = Some y ->
     ps' !! q = Some (if q =? last0 l then set_sched y (se_set_next (sched y) p) else y)) /\
  (forall q, q <> p -> q ∉ l -> ps' !! q = ps !! q) /\ relinked ps ps'.
Proof.
  intros Hl Hp Hx ps'. unfold ps', enqueued. destruct l as [|a l0].
  { change (last0 []) with 0. cbn [Z.eqb].
    assert (match <[p := relink x 0 0 prio 1]> ps !! 0 with
            | Some y => <[p := relink x 0 0 prio 1]> ps | None => <[p := relink x 0 0 prio 1]> ps end
            = <[p := relink x 0 0 prio 1]> ps) as -> by (by case_match).
    split; [apply lookup_insert_eq|]. split; [intros q y []%elem_of_nil|].
    split; [intros; by apply lookup_insert_ne|by apply relinked_insert]. }
  set (l := a :: l0) in *. assert (l <> []) as Hne by done.
  pose proof (last0_in l Hne) as Ht. pose proof (last0_ne ps prio l Hl Hne) as Ht0.
  set (t := last0 l) in *. assert (t <> p) as Htp by (intros E; rewrite E in Ht; done).
  pose proof Ht as Ht'. apply list_elem_of_lookup_1 in Ht' as [i Hi].
  destruct (Hl i t Hi) as (_ & y & Hy & _).
  rewrite lookup_insert_ne by done. rewrite Hy. destruct (Z.eqb_spec t 0); [done|].
  set (y' := relink y p _ _ _). split; [|split; [|split]].
  - rewrite lookup_insert_ne by done. apply lookup_insert_eq.
  - intros q z Hq Hz. destruct (Z.eqb_spec q t) as [->|].
    + rewrite lookup_insert_eq. assert (z = y) as -> by congruence. done.
    + assert (q <> p) by (intros ->; done). by rewrite !lookup_insert_ne by done.
  - intros q Hqp Hq. assert (q <> t) by (intros ->; done). by rewrite !lookup_insert_ne by done.
  - eapply relinked_trans; [apply (relinked_insert ps p x 0 t prio 1 Hx)|].
    apply relinked_insert. by rewrite lookup_insert_ne.
Qed.

(** Enqueueing a process that is not queued appends it to the queue of
    its priority; the other queues, the links of all other processes but the
    old tail and the clock are untouched, and the weight of what is queued is
    recorded exactly. *)
Lemma sched_enqueue_spec s Q p x k l : rq_wf s Q -> procs s !! p = Some x -> p <> 0 ->
  p ∉ concat Q -> dynamic_priority (sched x) = Z.of_nat k -> Q !! k = Some l ->
  exists s', sched_enqueue p s = Ret (tt, s') /\ rq_wf s' (<[k := l ++ [p]]> Q) /\
    total_weight (rq s') = wrap 64 (total_weight (rq s) + weight_of (procs s) p) /\
    relinked (procs s) (procs s') /\ same_clock s s' /\
    (forall q, q <> p -> q ∉ concat Q -> procs s' !! q = procs s !! q).
Proof.
  intros Hwf Hx Hp0 Hp Hd HQ. destruct (rw_len _ _ Hwf) as (L1 & L2 & L3 & L4).
  destruct (rw_queue _ _ Hwf k l HQ) as (Hh & Ht & Hz & Hl).
  pose proof (lookup_lt_Some _ _ _ HQ) as Hk. rewrite L1 in Hk.
  assert (p ∉ l) as Hpl by (intros E; apply Hp; by eapply elem_of_queue).
  destruct (prio_weight (Z.of_nat k)) as (w & Hw & Hwr); [lia|].
  set (ps' := enqueued (procs s) p x (last0 l) (Z.of_nat k)).
  destruct (enqueued_spec (procs s) (Z.of_nat k) l p x Hl Hpl Hx) as (E1 & E2 & E3 & E4).
  fold ps' in E1, E2, E3, E4.
  eexists. split.
  { unfold sched_enqueue. erewrite bind_step by (by apply get_proc_step).
    erewrite bind_step by done. rewrite Hd. unfold SCHED_PRIORITY_LEVELS.
    destruct (Z.leb_spec 8 (Z.of_nat k)); [lia|]. rewrite !zget_nat, Ht. cbn [default from_option id].
    erewrite bind_step by done.
    erewrite bind_step with (s' := MkS ps' (rq s) (stats s)) (a := tt).
    2:{ unfold ps', enqueued, truth. destruct (Z.eqb_spec (last0 l) 0) as [E|E]; simpl.
        - rewrite E. destruct (_ !! 0); done.
        - assert (l <> []) as Hne by (intros ->; done).
          pose proof (last0_in l Hne) as Hin. pose proof Hin as Hin'.
          apply list_elem_of_lookup_1 in Hin' as [i Hi].
          destruct (Hl i _ Hi) as (_ & y & Hy & _).
          assert (last0 l <> p) by (intros E'; rewrite E' in Hin; done).
          assert (<[p := relink x 0 (last0 l) (Z.of_nat k) 1]> (procs s) !! last0 l = Some y) as Hy'
            by (by rewrite lookup_insert_ne).
          rewrite Hy'. erewrite upd_sched_step by exact Hy'. done. }
    unfold sched_entity_weight. rewrite Hd, Hw. erewrite bind_step by done. reflexivity. }
  rewrite !zset_nat.
  split; [|split; [|split; [exact E4|split; [done|]]]]; cycle 2.
  { intros q Hqp Hq. apply E3; [done|]. intros Hql. apply Hq. by eapply elem_of_queue. }
  - constructor; simpl.
    + destruct (truth (last0 l)); by rewrite !length_insert.
    + intros k' l' HQ'. destruct (decide (k' = k)) as [->|Hne].
      * rewrite list_lookup_insert_eq in HQ' by lia. injection HQ' as <-.
        rewrite last0_snoc. rewrite !list_lookup_insert_eq by lia.
        split; [|split; [done|split]].
        -- unfold truth. destruct (Z.eqb_spec (last0 l) 0) as [E|E]; simpl.
           ++ rewrite list_lookup_insert_eq by lia.
              destruct l as [|a l0]; [done|]. exfalso. by eapply last0_ne.
           ++ rewrite Hh. f_equal. destruct l; done.
        -- rewrite Hz. simpl. f_equal. autorewrite with word. f_equal. unfold zlen.
           rewrite length_app. simpl. lia.
        -- eapply links_ok_snoc; [exact Hl|by eapply queue_nodup, HQ; apply Hwf|done|done|exact E1|..]; try done.
      * rewrite list_lookup_insert_ne in HQ' by done.
        destruct (rw_queue _ _ Hwf k' l' HQ') as (Hh' & Ht' & Hz' & Hl').
        rewrite !list_lookup_insert_ne by done. split; [|split; [done|split; [done|]]].
        -- destruct (truth (last0 l)); [done|]. by rewrite list_lookup_insert_ne.
        -- eapply links_ok_ext; [exact Hl'|]. intros q Hq. apply E3.
           ++ intros ->. apply Hp. by eapply elem_of_queue.
           ++ intros Hq2. apply Hne. symmetry. eapply queues_disjoint; [apply Hwf|exact HQ|exact HQ'|done|done].
    + eapply NoDup_Permutation_proper; [apply (concat_insert Q k l (l ++ [p]) HQ)|].
      pose proof (rw_nodup _ _ Hwf) as Hn. rewrite (concat_split Q k l HQ) in Hn.
      rewrite (concat_split Q k l HQ) in Hp.
      rewrite (Permutation_app_comm l [p]). simpl. by apply NoDup_cons.
    + rewrite (rw_total _ _ Hwf). autorewrite with word. f_equal. unfold zlen.
      pose proof (Permutation_length (concat_insert Q k l (l ++ [p]) HQ)) as A1.
      pose proof (Permutation_length (concat_split Q k l HQ)) as A2.
      rewrite !length_app in *. simpl in *. lia.
  - simpl. unfold weight_of, sched_entity_weight. by rewrite Hx, Hd, Hw.
Qed.

(** *** Dequeue *)

Lemma nth0_app a b i : nth0 (a ++ b) i = if decide (i < length a)%nat then nth0 a i
                                         else nth0 b (i - length a).
Proof.
  unfold nth0. destruct (decide (i < length a)%nat).
  - by rewrite lookup_app_l.
  - by rewrite lookup_app_r by lia.
Qed.

Lemma before0_app a b : before0 (a ++ b) (length a) = last0 a.
Proof.
  rewrite <- nth0_last. destruct a as [|c a]; [done|].
  change (before0 ((c :: a) ++ b) (length (c :: a))) with (nth0 ((c :: a) ++ b) (length a)).
  rewrite nth0_app. destruct (decide _) as [_|N]; [|simpl in N; lia].
  f_equal. simpl. lia.
Qed.

Lemma nth0_in l i : (i < length l)%nat -> nth0 l i ∈ l.
Proof.
  intros Hi. destruct (lookup_lt_is_Some_2 l i Hi) as [q Hq]. unfold nth0. rewrite Hq.
  simpl. by eapply list_elem_of_lookup_2.
Qed.

(** The processes after [p], between [a] and [b], was taken out. *)
Definition unlinked (ps : gmap Z process) (p pr nx : Z) : gmap Z process :=
  let f1 := fun ps => if truth pr then alter (fun y => set_sched y (se_set_next (sched y) nx)) pr ps else ps in
  let f2 := fun ps => if truth nx then alter (fun y => set_sched y (se_set_prev (sched y) pr)) nx ps else ps in
  alter (fun y => relink y 0 0 (runqueue_prio (sched y)) 0) p (f2 (f1 ps)).

Lemma upd_sched_alter p f s : is_Some (procs s !! p) ->
  upd_sched p f s = Ret (tt, MkS (alter (fun y => set_sched y (f (sched y))) p (procs s)) (rq s) (stats s)).
Proof.
  intros [y Hy]. erewrite upd_sched_step by exact Hy. do 3 f_equal.
  apply map_eq. intros q. destruct (decide (q = p)) as [->|].
  - by rewrite lookup_insert_eq, lookup_alter_eq, Hy.
  - by rewrite lookup_insert_ne, lookup_alter_ne.
Qed.

Lemma unlinked_lookup ps p pr nx q : 
  unlinked ps p pr nx !! q =
  (fun y => let y := if truth pr && (q =? pr) then set_sched y (se_set_next (sched y) nx) else y in
            let y := if truth nx && (q =? nx) then set_sched y (se_set_prev (sched y) pr) else y in
            if q =? p then relink y 0 0 (runqueue_prio (sched y)) 0 else y) <$> ps !! q.
Proof.
  unfold unlinked. destruct (Z.eqb_spec q p) as [->|Hp].
  - rewrite lookup_alter_eq.
    destruct (truth nx), (truth pr); cbn [andb]; destruct (Z.eqb_spec p nx) as [->|];
      try (destruct (Z.eqb_spec nx pr) as [->|]); try (destruct (Z.eqb_spec p pr) as [->|]);
      rewrite ?lookup_alter_eq, ?lookup_alter_ne by done; rewrite ?lookup_alter_eq, ?lookup_alter_ne by done;
      destruct (ps !! _); done.
  - rewrite lookup_alter_ne by done.
    destruct (truth nx), (truth pr); cbn [andb]; destruct (Z.eqb_spec q nx) as [->|];
      try (destruct (Z.eqb_spec nx pr) as [->|]); try (destruct (Z.eqb_spec q pr) as [->|]);
      rewrite ?lookup_alter_eq, ?lookup_alter_ne by done; rewrite ?lookup_alter_eq, ?lookup_alter_ne by done;
      destruct (ps !! _); done.
Qed.

Lemma unlinked_relinked ps p pr nx : relinked ps (unlinked ps p pr nx).
Proof.
  intros q. rewrite unlinked_lookup. destruct (ps !! q) as [y|]; [|done]. simpl.
  destruct (truth pr && _), (truth nx && _), (q =? p);
    try (eexists _, _, _, _; reflexivity);
    exists (next (sched y)), (prev (sched y)), (runqueue_prio (sched y)), (in_runqueue (sched y));
    by rewrite relink_id.
Qed.

Lemma nodup_mid (a b : list Z) p : NoDup (a ++ p :: b) -> p ∉ a /\ p ∉ b /\ NoDup (a ++ b) /\
  forall q, q ∈ a -> q ∉ b.
Proof.
  intros H. rewrite <- Permutation_middle in H. apply NoDup_cons in H as [Hp Hn].
  pose proof Hn as (_ & Hd & _)%NoDup_app. rewrite not_elem_of_app in Hp. tauto.
Qed.

(** Taking [p] out of the middle. *)
Lemma links_ok_unlink ps prio a p b : links_ok ps prio (a ++ p :: b) -> NoDup (a ++ p :: b) ->
  links_ok (unlinked ps p (last0 a) (nth0 b 0)) prio (a ++ b).
Proof.
  intros Hl Hnd. destruct (nodup_mid _ _ _ Hnd) as (Hpa & Hpb & Hnd' & Hab). intros i q Hi.
  assert (q <> p) as Hqp.
  { intros ->. apply list_elem_of_lookup_2 in Hi. apply elem_of_app in Hi as [?|?]; done. }
  apply Z.eqb_neq in Hqp.
  destruct (decide (i < length a)%nat) as [Hlt|Hge].
  - rewrite lookup_app_l in Hi by done.
    destruct (Hl i q) as (Hq0 & x & Hx & X1 & X2 & X3 & X4); [by rewrite lookup_app_l|].
    split; [done|]. rewrite unlinked_lookup, Hx, Hqp. simpl.
    pose proof (list_elem_of_lookup_2 _ _ _ Hi) as Hqa.
    assert (truth (nth0 b 0) && (q =? nth0 b 0) = false) as ->.
    { destruct b as [|c b]; [done|]. change (nth0 (c :: b) 0) with c.
      destruct (Z.eqb_spec q c) as [->|]; [|by rewrite andb_false_r].
      exfalso. apply (Hab c Hqa). by left. }
    assert (before0 (a ++ p :: b) i = before0 (a ++ b) i) as HB.
    { destruct i as [|j]; [done|]. simpl. rewrite !nth0_app.
      destruct (decide _); [done|lia]. }
    rewrite HB in X2. rewrite nth0_app in X1.
    eexists. split; [done|]. destruct (Z.eqb_spec q (last0 a)) as [E|E].
    + assert (truth (last0 a) = true) as -> by (unfold truth; by rewrite <- E, (proj2 (Z.eqb_neq q 0) Hq0)).
      simpl. split; [|done]. rewrite nth0_app.
      assert (S i = length a) as Hlen.
      { assert (a !! (length a - 1)%nat = Some q) as Hlast.
        { unfold last0 in E. rewrite last_lookup in E.
          destruct (a !! pred (length a)) eqn:EL; [|apply lookup_ge_None in EL; lia].
          simpl in E. subst. by replace (length a - 1)%nat with (pred (length a)) by lia. }
        apply NoDup_app in Hnd' as (Hna & _). pose proof (NoDup_lookup _ _ _ _ Hna Hi Hlast). lia. }
      destruct (decide _); [lia|]. f_equal. lia.
    + rewrite andb_false_r. split; [|done]. rewrite X1, nth0_app.
      destruct (decide (S i < length a)%nat); [done|]. exfalso. apply E.
      unfold last0. rewrite last_lookup. replace (pred (length a)) with i by lia. by rewrite Hi.
  - rewrite lookup_app_r in Hi by lia. set (j := (i - length a)%nat) in *.
    destruct (Hl (S i) q) as (Hq0 & x & Hx & X1 & X2 & X3 & X4).
    { rewrite lookup_app_r by lia. replace (S i - length a)%nat with (S j) by lia. done. }
    split; [done|]. rewrite unlinked_lookup, Hx, Hqp. simpl.
    pose proof (list_elem_of_lookup_2 _ _ _ Hi) as Hqb.
    assert (truth (last0 a) && (q =? last0 a) = false) as ->.
    { destruct (Z.eqb_spec q (last0 a)) as [E|]; [|by rewrite andb_false_r]. exfalso.
      destruct a as [|c a]; [done|]. apply (Hab q); [|done]. rewrite E. by apply last0_in. }
    assert (nth0 (a ++ p :: b) (S (S i)) = nth0 (a ++ b) (S i)) as HN.
    { rewrite !nth0_app. destruct (decide _); [lia|]. destruct (decide _); [lia|].
      replace (S (S i) - length a)%nat with (S (S j)) by lia.
      by replace (S i - length a)%nat with (S j) by lia. }
    rewrite HN in X1. eexists. split; [done|].
    destruct (Z.eqb_spec q (nth0 b 0)) as [E|E].
    + assert (truth (nth0 b 0) = true) as -> by (unfold truth; by rewrite <- E, (proj2 (Z.eqb_neq q 0) Hq0)).
      simpl. split; [done|]. split; [|done].
      assert (j = 0%nat) as Hj0.
      { apply NoDup_app in Hnd' as (_ & _ & Hnb). eapply NoDup_lookup; [exact Hnb|exact Hi|].
        rewrite E. unfold nth0. by destruct b. }
      replace i with (length a) by lia. by rewrite before0_app.
    + rewrite andb_false_r. split; [done|]. split; [|done]. rewrite X2. simpl.
      destruct j as [|j'] eqn:Ej.
      { exfalso. apply E. unfold nth0. by rewrite Hi. }
      rewrite nth0_app. destruct (decide _); [lia|]. replace (i - length a)%nat with (S j') by lia.
      destruct i as [|i']; [lia|]. simpl. rewrite nth0_app. destruct (decide _); [lia|].
      by replace (i' - length a)%nat with j' by lia.
Qed.

(** What the loads of [sched_dequeue] see of a queued process. *)
Lemma queued_links ps prio a p b : links_ok ps prio (a ++ p :: b) ->
  p <> 0 /\ exists x, ps !! p = Some x /\ next (sched x) = nth0 b 0 /\ prev (sched x) = last0 a /\
    runqueue_prio (sched x) = prio.
Proof.
  intros Hl. destruct (Hl (length a) p) as (H0 & x & Hx & X1 & X2 & X3 & _).
  { by rewrite list_lookup_middle. }
  split; [done|]. exists x. split; [done|]. rewrite X1, X2. split; [|split; [|done]].
  - rewrite nth0_app. destruct (decide _); [lia|].
    by replace (S (length a) - length a)%nat with 1%nat by lia.
  - apply before0_app.
Qed.

(** The neighbours are processes of their own. *)
Lemma queued_neighbours ps prio a p b : links_ok ps prio (a ++ p :: b) -> NoDup (a ++ p :: b) ->
  (truth (last0 a) = true -> is_Some (ps !! last0 a) /\ last0 a <> p) /\
  (truth (nth0 b 0) = true -> is_Some (ps !! nth0 b 0) /\ nth0 b 0 <> p).
Proof.
  intros Hl Hnd. destruct (nodup_mid _ _ _ Hnd) as (Hpa & Hpb & _).
  assert (forall q, q ∈ a ++ p :: b -> is_Some (ps !! q)) as HS.
  { intros q Hq. apply list_elem_of_lookup_1 in Hq as [i Hi].
    destruct (Hl i q Hi) as (_ & x & Hx & _). by exists x. }
  split.
  - intros Ht. destruct a as [|c a]; [done|].
    pose proof (last0_in (c :: a) ltac:(done)) as Hin. split.
    + apply HS. apply elem_of_app. by left.
    + intros E. rewrite E in Hin. done.
  - intros Ht. destruct b as [|c b]; [done|]. change (nth0 (c :: b) 0) with c in *. split.
    + apply HS. apply elem_of_app. right. right. by left.
    + intros ->. apply Hpb. by left.
Qed.

(** The state part of [sched_dequeue]. *)
Lemma sched_dequeue_run s p x k nx pr w : procs s !! p = Some x ->
  next (sched x) = nx -> prev (sched x) = pr -> runqueue_prio (sched x) = Z.of_nat k ->
  (k < 8)%nat -> sched_entity_weight (sched x) = Some w ->
  (truth pr = true -> is_Some (procs s !! pr) /\ pr <> p) ->
  (truth nx = true -> is_Some (procs s !! nx) /\ nx <> p) ->
  sched_dequeue p s = Ret (tt, MkS (unlinked (procs s) p pr nx)
    (rq_set (rq s)
      (if truth pr then queue_heads (rq s) else <[k := nx]> (queue_heads (rq s)))
      (if truth nx then queue_tails (rq s) else <[k := pr]> (queue_tails (rq s)))
      (<[k := wrap 32 (default 0 (queue_sizes (rq s) !! k) - 1)]> (queue_sizes (rq s)))
      (wrap 32 (total_runnable (rq s) - 1)) (wrap 64 (total_weight (rq s) - w))) (stats s)).
Proof.
  intros Hx Hn Hp Hr Hk Hw Hpr Hnx. unfold sched_dequeue.
  erewrite bind_step by (by apply get_proc_step). erewrite bind_step by done.
  rewrite Hr. unfold SCHED_PRIORITY_LEVELS. destruct (Z.leb_spec 8 (Z.of_nat k)); [lia|].
  rewrite Hn, Hp, Hw, !zset_nat, zget_nat. unfold unlinked.
  set (ps1 := if truth pr then _ else procs s).
  assert (forall q, is_Some (procs s !! q) -> is_Some (ps1 !! q)) as H1.
  { intros q Hq. unfold ps1. destruct (truth pr); [|done]. by apply lookup_alter_is_Some. }
  erewrite bind_step with (s' := MkS ps1 (rq s) (stats s)) (a := tt).
  2:{ unfold ps1. destruct (truth pr); [|by destruct s]. apply upd_sched_alter. by apply Hpr. }
  set (ps2 := if truth nx then _ else ps1).
  assert (forall q, is_Some (procs s !! q) -> is_Some (ps2 !! q)) as H2.
  { intros q Hq. unfold ps2. destruct (truth nx); [|by apply H1]. by apply lookup_alter_is_Some, H1. }
  erewrite bind_step with (s' := MkS ps2 (rq s) (stats s)) (a := tt).
  2:{ unfold ps2. destruct (truth nx); [|done]. rewrite upd_sched_alter; [done|].
      apply H1. by apply Hnx. }
  erewrite bind_step.
  2:{ apply upd_sched_alter. apply H2. by exists x. }
  erewrite bind_step by done. reflexivity.
Qed.

Lemma last0_app_r a b : b <> [] -> last0 (a ++ b) = last0 b.
Proof. intros H. unfold last0. rewrite last_app. by destruct b; [|destruct (last (z :: b)) eqn:E; [|apply last_None in E]]. Qed.

(** Dequeueing a queued process removes it from its queue and nothing
    else: the other processes keep their order, the other queues, the clock
    and everything but the links stay the same, and the recorded weight drops
    by exactly its weight. *)
Lemma sched_dequeue_spec s Q k a p b x : rq_wf s Q -> Q !! k = Some (a ++ p :: b) ->
  procs s !! p = Some x -> 0 <= dynamic_priority (sched x) < 8 ->
  exists s', sched_dequeue p s = Ret (tt, s') /\ rq_wf s' (<[k := a ++ b]> Q) /\
    total_weight (rq s') = wrap 64 (total_weight (rq s) - weight_of (procs s) p) /\
    relinked (procs s) (procs s') /\ same_clock s s' /\
    procs s' !! p = Some (relink x 0 0 (Z.of_nat k) 0) /\
    (forall q, q ∉ concat Q -> procs s' !! q = procs s !! q).
Proof.
  intros Hwf HQ Hx Hd. destruct (rw_len _ _ Hwf) as (L1 & L2 & L3 & L4).
  destruct (rw_queue _ _ Hwf k _ HQ) as (Hh & Ht & Hz & Hl).
  pose proof (lookup_lt_Some _ _ _ HQ) as Hk. rewrite L1 in Hk.
  pose proof (queue_nodup Q k _ (rw_nodup _ _ Hwf) HQ) as Hnd.
  destruct (nodup_mid _ _ _ Hnd) as (Hpa & Hpb & Hnd' & Hab).
  destruct (queued_links _ _ _ _ _ Hl) as (Hp0 & x' & Hx' & X1 & X2 & X3).
  assert (x' = x) as -> by congruence.
  destruct (queued_neighbours _ _ _ _ _ Hl Hnd) as [N1 N2].
  destruct (prio_weight _ Hd) as (w & Hw & Hwr).
  eexists. split; [by eapply sched_dequeue_run|].
  pose proof (unlinked_relinked (procs s) p (last0 a) (nth0 b 0)) as Hrel.
  assert (forall q, q ∉ a ++ p :: b ->
    unlinked (procs s) p (last0 a) (nth0 b 0) !! q = procs s !! q) as Hout.
  { intros q Hq. assert (forall r, r ∈ a ++ p :: b -> q <> r) as Hqr by (intros r Hr ->; done).
    rewrite unlinked_lookup.
    assert ((q =? p) = false) as -> by (apply Z.eqb_neq, Hqr, elem_of_app; right; by left).
    assert (truth (last0 a) && (q =? last0 a) = false) as ->.
    { destruct a as [|c a]; [done|]. rewrite (proj2 (Z.eqb_neq q _)); [by rewrite andb_false_r|].
      apply Hqr, elem_of_app. left. by apply last0_in. }
    assert (truth (nth0 b 0) && (q =? nth0 b 0) = false) as ->.
    { destruct b as [|c b]; [done|]. rewrite (proj2 (Z.eqb_neq q _)); [by rewrite andb_false_r|].
      apply Hqr, elem_of_app. right. right. by left. }
    by destruct (procs s !! q). }
  split; [|split; [|split; [exact Hrel|split; [done|split]]]]; cycle 3.
  { intros q Hq. apply Hout. intros Hql. apply Hq. by eapply elem_of_queue. }
  - constructor; simpl.
    + destruct (truth (last0 a)), (truth (nth0 b 0)); by rewrite ?length_insert.
    + intros k' l' HQ'. destruct (decide (k' = k)) as [->|Hne].
      * rewrite list_lookup_insert_eq in HQ' by lia. injection HQ' as <-.
        split; [|split; [|split]].
        -- destruct a as [|c a].
           ++ simpl. rewrite list_lookup_insert_eq by lia. done.
           ++ assert (truth (last0 (c :: a)) = true) as ->; [|by rewrite Hh].
              unfold truth. destruct (Z.eqb_spec (last0 (c :: a)) 0) as [E|]; [exfalso|done].
              assert (c :: a <> []) as Hca by done. pose proof (last0_in _ Hca) as Hin.
              rewrite E in Hin. apply list_elem_of_lookup_1 in Hin as [i Hi].
              destruct (Hl i 0) as [? _]; [|done]. rewrite lookup_app_l; [done|]. by eapply lookup_lt_Some.
        -- destruct b as [|c b].
           ++ change (truth (nth0 [] 0)) with false. cbv iota.
              rewrite list_lookup_insert_eq by lia. by rewrite app_nil_r.
           ++ assert (truth (nth0 (c :: b) 0) = true) as ->.
              { change (nth0 (c :: b) 0) with c. unfold truth. destruct (Z.eqb_spec c 0) as [->|]; [exfalso|done].
                destruct (Hl (S (length a)) 0) as [? _]; [|done].
                rewrite lookup_app_r by lia. by replace (S (length a) - length a)%nat with 1%nat by lia. }
              rewrite Ht. by rewrite !last0_app_r by done.
        -- rewrite list_lookup_insert_eq by lia. rewrite Hz. simpl. autorewrite with word.
           do 2 f_equal. unfold zlen. rewrite !length_app. simpl. lia.
        -- by apply links_ok_unlink.
      * rewrite list_lookup_insert_ne in HQ' by done.
        destruct (rw_queue _ _ Hwf k' l' HQ') as (Hh' & Ht' & Hz' & Hl').
        rewrite !list_lookup_insert_ne by done.
        split; [destruct (truth (last0 a)); [done|by rewrite list_lookup_insert_ne]|].
        split; [destruct (truth (nth0 b 0)); [done|by rewrite list_lookup_insert_ne]|].
        split; [done|]. eapply links_ok_ext; [exact Hl'|]. intros q Hq.
        apply Hout. intros Hql. apply Hne. symmetry.
        eapply queues_disjoint; [apply Hwf|exact HQ|exact HQ'|done|done].
    + eapply NoDup_Permutation_proper; [apply (concat_insert Q k _ (a ++ b) HQ)|].
      pose proof (rw_nodup _ _ Hwf) as Hn. rewrite (concat_split Q k _ HQ) in Hn.
      rewrite <- Permutation_middle in Hn. simpl in Hn. by apply NoDup_cons in Hn as [_ ?].
    + rewrite (rw_total _ _ Hwf). autorewrite with word. f_equal. unfold zlen.
      pose proof (Permutation_length (concat_insert Q k _ (a ++ b) HQ)) as A1.
      pose proof (Permutation_length (concat_split Q k _ HQ)) as A2.
      rewrite !length_app in *. simpl in *. lia.
  - simpl. unfold weight_of, sched_entity_weight. by rewrite Hx, Hw.
  - simpl. rewrite unlinked_lookup, Hx, Z.eqb_refl. simpl.
    assert (truth (last0 a) && (p =? last0 a) = false) as ->.
    { destruct (truth (last0 a)) eqn:E; [|done]. destruct (N1 eq_refl) as [_ ?].
      destruct (Z.eqb_spec p (last0 a)); [congruence|done]. }
    assert (truth (nth0 b 0) && (p =? nth0 b 0) = false) as ->.
    { destruct (truth (nth0 b 0)) eqn:E; [|done]. destruct (N2 eq_refl) as [_ ?].
      destruct (Z.eqb_spec p (nth0 b 0)); [congruence|done]. }
    by rewrite X3.
Qed.
