(* ===== verification/SchedInv.v ===== *)
(** * What the scheduler guarantees (about the definitions of Sched.v)

    [sched_pick_next_correct]: which process the picker chooses.
    [sched_reachable_ok]: the run queue stays well formed, and no operation
    goes wrong, along every sequence of wake-ups, priority changes,
    dispatches, ticks and switches back, however they are interleaved.
    [sched_sleep_breaks_queue]: the operation that is not in that list, and
    why.  [total_weight_drift]: the recorded load does not follow priority
    changes.  [min_vruntime_stays_zero], [sched_fork_unfair]: what new
    processes start from. *)
From S2P Require Import Prelude Sched.

(** ** The picker *)

Definition vr_of (ps : gmap Z process) (p : Z) : Z :=
  match ps !! p with Some x => vruntime (sched x) | None => 0 end.

(** [p] is the first element of least [vruntime] in [l]. *)
Definition first_least (ps : gmap Z process) (l : list Z) (p : Z) : Prop :=
  exists b, l !! b = Some p /\ forall j q, l !! j = Some q ->
    vr_of ps p <= vr_of ps q /\ ((j < b)%nat -> vr_of ps p < vr_of ps q).

(** The heads and the links of the queues [Q]; the picker reads no more. *)
Definition heads_ok (s : sstate) (Q : list (list Z)) : Prop :=
  length Q = 8%nat /\ forall k l, Q !! k = Some l ->
    queue_heads (rq s) !! k = Some (nth0 l 0) /\
    forall i p, l !! i = Some p -> p <> 0 /\ exists x, procs s !! p = Some x /\
      next (sched x) = nth0 l (S i).

Lemma rq_wf_heads s Q : rq_wf s Q -> heads_ok s Q.
Proof.
  intros Hwf. split; [by apply (rw_len _ _ Hwf)|]. intros k l HQ.
  destruct (rw_queue _ _ Hwf k l HQ) as (Hh & _ & _ & Hl). split; [done|].
  intros i p Hi. destruct (Hl i p Hi) as (H0 & x & Hx & Hn & _). eauto.
Qed.

Lemma min_vruntime_from_spec ps l : (forall i p, l !! i = Some p -> p <> 0 /\
    exists x, ps !! p = Some x /\ next (sched x) = nth0 l (S i)) ->
  forall m i b best fuel, m = (length l - i)%nat -> l !! b = Some best -> (b < i <= length l)%nat ->
  (forall j q, (j < i)%nat -> l !! j = Some q ->
     vr_of ps best <= vr_of ps q /\ ((j < b)%nat -> vr_of ps best < vr_of ps q)) ->
  (m < fuel)%nat ->
  exists p, min_vruntime_from fuel ps (nth0 l i) best (vr_of ps best) = Ret p /\ first_least ps l p.
Proof.
  intros Hl m. induction m as [|m IH]; intros i b best fuel Hm Hb Hi Hmin Hf;
    (destruct fuel as [|fuel]; [lia|]); cbn [min_vruntime_from].
  - unfold nth0. rewrite lookup_ge_None_2 by lia. simpl. exists best. split; [done|].
    exists b. split; [done|]. intros j q Hj. apply Hmin; [|done]. apply lookup_lt_Some in Hj. lia.
  - destruct (lookup_lt_is_Some_2 l i ltac:(lia)) as [q Hq].
    destruct (Hl i q Hq) as (Hq0 & x & Hx & Hn).
    assert (nth0 l i = q) as -> by (unfold nth0; by rewrite Hq).
    destruct (Z.eqb_spec q 0); [done|]. rewrite Hx, Hn.
    assert (vr_of ps q = vruntime (sched x)) as Hv by (unfold vr_of; by rewrite Hx).
    rewrite <- Hv. destruct (Z.ltb_spec (vr_of ps q) (vr_of ps best)) as [Hlt|Hge].
    + apply (IH (S i) i q fuel); [lia|done|lia| |lia]. intros j r Hj Hr.
      destruct (decide (j = i)) as [->|]; [assert (r = q) as -> by congruence; lia|].
      destruct (Hmin j r) as [? ?]; [lia|done|]. lia.
    + apply (IH (S i) b best fuel); [lia|done|lia| |lia]. intros j r Hj Hr.
      destruct (decide (j = i)) as [->|]; [assert (r = q) as -> by congruence; lia|].
      apply Hmin; [lia|done].
Qed.

Lemma pick_from_spec s Q fuel : heads_ok s Q ->
  (forall l, l ∈ Q -> (length l < fuel)%nat) ->
  forall m k, (m + k = 8)%nat ->
  (pick_from fuel s m (Z.of_nat k) = Ret 0 /\ forall j l, (k <= j)%nat -> Q !! j = Some l -> l = []) \/
  (exists j l p, pick_from fuel s m (Z.of_nat k) = Ret p /\ (k <= j)%nat /\ Q !! j = Some l /\
     (forall j', (k <= j' < j)%nat -> Q !! j' = Some []) /\ p ∈ l /\
     if (j <=? 2)%nat then head l = Some p else first_least (procs s) l p).
Proof.
  intros [HL Hh] Hfuel m. induction m as [|m IH]; intros k Hk.
  { left. split; [done|]. intros j l Hj HQ. apply lookup_lt_Some in HQ. lia. }
  cbn [pick_from]. destruct (lookup_lt_is_Some_2 Q k ltac:(lia)) as [l HQ].
  destruct (Hh k l HQ) as [Hhd Hl]. rewrite zget_nat, Hhd. cbn [default from_option id].
  replace (Z.of_nat k + 1) with (Z.of_nat (S k)) by lia.
  destruct l as [|a l0].
  - change (nth0 [] 0 =? 0) with true. cbv iota.
    destruct (IH (S k) ltac:(lia)) as [[-> Hall]|(j & l & p & -> & Hj & HQj & Hbef & Hp)].
    + left. split; [done|]. intros j l Hj HQj. destruct (decide (j = k)) as [->|]; [congruence|].
      apply (Hall j); [lia|done].
    + right. exists j, l, p. split; [done|]. split; [lia|]. split; [done|]. split; [|done].
      intros j' Hj'. destruct (decide (j' = k)) as [->|]; [done|]. apply Hbef. lia.
  - right. change (nth0 (a :: l0) 0) with a. destruct (Hl 0%nat a eq_refl) as (Ha & x & Hx & Hn).
    destruct (Z.eqb_spec a 0); [done|].
    assert (forall j', (k <= j' < k)%nat -> Q !! j' = Some []) as Hnone by (intros; lia).
    unfold PRIO_RT_MAX. destruct (Z.leb_spec (Z.of_nat k) 2) as [Hrt|Hrt].
    + exists k, (a :: l0), a. split; [done|]. split; [lia|]. split; [done|]. split; [done|].
      split; [by left|]. destruct (Nat.leb_spec k 2); [done|lia].
    + rewrite Hx, Hn.
      assert (vr_of (procs s) a = vruntime (sched x)) as <- by (unfold vr_of; by rewrite Hx).
      destruct (min_vruntime_from_spec (procs s) (a :: l0) Hl (length l0) 1 0 a fuel)
        as (p & Hr & b & Hb & Hmin).
      * simpl. lia.
      * done.
      * simpl. lia.
      * intros j q Hj Hq. assert (j = 0%nat) as -> by lia. injection Hq as <-. lia.
      * specialize (Hfuel _ (list_elem_of_lookup_2 _ _ _ HQ)). simpl in Hfuel. lia.
      * exists k, (a :: l0), p. split; [done|]. split; [lia|]. split; [done|]. split; [done|].
        split; [by eapply list_elem_of_lookup_2|]. destruct (Nat.leb_spec k 2); [lia|]. by exists b.
Qed.

(** C9: [sched_pick_next] returns NULL exactly when every queue is empty.
    Otherwise it takes the first non-empty queue: its head when the queue is
    a real-time one (0 to 2), else the first of its processes of least
    virtual run time.  A bound of one more than the longest queue is enough
    for its loop, which therefore always ends. *)
Theorem sched_pick_next_correct s Q fuel (Hwf : rq_wf s Q)
    (Hfuel : forall l, l ∈ Q -> (length l < fuel)%nat) :
  (sched_pick_next fuel s = Ret 0 /\ concat Q = []) \/
  (exists k l p, sched_pick_next fuel s = Ret p /\ p <> 0 /\ Q !! k = Some l /\ p ∈ l /\
     (forall j, (j < k)%nat -> Q !! j = Some []) /\
     if (k <=? 2)%nat then head l = Some p else first_least (procs s) l p).
Proof.
  pose proof (rq_wf_heads s Q Hwf) as Hh.
  destruct (pick_from_spec s Q fuel Hh Hfuel 8 0 eq_refl)
    as [[Hr Hall]|(j & l & p & Hr & _ & HQ & Hbef & Hp & Hd)].
  - left. split; [exact Hr|]. apply concat_nil_Forall. apply Forall_lookup.
    intros j l HQ. apply (Hall j); [lia|done].
  - right. exists j, l, p. split; [exact Hr|].
    split; [|split; [done|split; [done|split; [|done]]]].
    + apply list_elem_of_lookup_1 in Hp as [i Hi]. by destruct (proj2 (proj2 Hh j l HQ) i p Hi).
    + intros j' Hj'. apply Hbef. lia.
Qed.

(** ** The invariant *)

Definition same_links (x y : process) : Prop :=
  next (sched y) = next (sched x) /\ prev (sched y) = prev (sched x) /\
  runqueue_prio (sched y) = runqueue_prio (sched x) /\ in_runqueue (sched y) = in_runqueue (sched x).

(** The run queues [Q], and nothing else, hold the processes marked as queued,
    and they are all runnable. *)
Record proc_ok (queued : list Z) (p : Z) (x : process) : Prop := {
  po_addr : p <> 0;
  po_dyn : 0 <= dynamic_priority (sched x) < 8;
  po_static : 0 <= static_priority (sched x) < 8;
  po_nice : -20 <= nice (sched x) <= 19;
  po_state : p ∈ queued -> p_state x = RUNNABLE;
  po_flag : truth (in_runqueue (sched x)) = true -> p ∈ queued
}.

Record sched_inv (s : sstate) (Q : list (list Z)) : Prop := {
  si_wf : rq_wf s Q;
  si_proc p x : procs s !! p = Some x -> proc_ok (concat Q) p x
}.

(** With the running process, which is not queued. *)
Definition sched_ok (s : sstate) : Prop :=
  exists Q, sched_inv s Q /\ curr (rq s) ∉ concat Q /\
    (curr (rq s) <> 0 -> is_Some (procs s !! curr (rq s))).

(** Processes none of which is queued. *)
Lemma sched_ok_idle ps st : (forall p x, ps !! p = Some x -> proc_ok [] p x) -> sched_ok (MkS ps rq_empty st).
Proof.
  intros Hps. exists (replicate 8 []). split; [|split; [|done]].
  - split; [|exact Hps]. constructor; [done| |constructor|done].
    intros k l Hk. simpl rq. apply lookup_replicate in Hk as [-> Hk]. simpl.
    assert (forall k, (k < 8)%nat -> ([0;0;0;0;0;0;0;0] : list Z) !! k = Some 0) as E.
    { clear. intros k Hk. do 8 (destruct k as [|k]; [done|]). lia. }
    rewrite !E by lia. split; [done|]. split; [done|]. split; [done|].
    intros i p Hi. done.
  - intros H. simpl in H. by apply elem_of_nil in H.
Qed.

Lemma sched_ok_boot : sched_ok (MkS ∅ rq_empty (MkStats 0 0 0 0)).
Proof. by apply sched_ok_idle. Qed.

Lemma proc_ok_perm l l' p x : l ≡ₚ l' -> proc_ok l p x -> proc_ok l' p x.
Proof. intros E []. constructor; try done; rewrite <- E; done. Qed.

(** Writing a process back with its links, or one that is not queued. *)
Lemma rq_wf_put s s' Q : rq_wf s Q ->
  queue_heads (rq s') = queue_heads (rq s) -> queue_tails (rq s') = queue_tails (rq s) ->
  queue_sizes (rq s') = queue_sizes (rq s) -> total_runnable (rq s') = total_runnable (rq s) ->
  (forall q x, q ∈ concat Q -> procs s !! q = Some x ->
     exists y, procs s' !! q = Some y /\ same_links x y) ->
  rq_wf s' Q.
Proof.
  intros Hwf E1 E2 E3 E4 HP. constructor.
  - rewrite E1, E2, E3. apply Hwf.
  - intros k l HQ. rewrite E1, E2, E3. destruct (rw_queue _ _ Hwf k l HQ) as (? & ? & ? & Hl).
    split; [done|]. split; [done|]. split; [done|]. intros i p Hi.
    destruct (Hl i p Hi) as (Hp0 & x & Hx & X1 & X2 & X3 & X4). split; [done|].
    destruct (HP p x) as (y & Hy & Y1 & Y2 & Y3 & Y4); [|done|].
    { eapply elem_of_queue; [done|]. by eapply list_elem_of_lookup_2. }
    exists y. rewrite Y1, Y2, Y3, Y4. done.
  - apply Hwf.
  - rewrite E4. apply Hwf.
Qed.

Definition same_queues (r r' : runqueue) : Prop :=
  queue_heads r' = queue_heads r /\ queue_tails r' = queue_tails r /\
  queue_sizes r' = queue_sizes r /\ total_runnable r' = total_runnable r.

Lemma sched_inv_put s Q p x r st : sched_inv s Q -> same_queues (rq s) r ->
  (p ∈ concat Q -> exists x0, procs s !! p = Some x0 /\ same_links x0 x) ->
  proc_ok (concat Q) p x ->
  sched_inv (MkS (<[p := x]> (procs s)) r st) Q.
Proof.
  intros [Hwf HP] (E1 & E2 & E3 & E4) HL Hx. split.
  - eapply rq_wf_put; [exact Hwf|done..|]. intros q y Hq Hy. simpl.
    destruct (decide (q = p)) as [->|].
    + rewrite lookup_insert_eq. exists x. split; [done|]. destruct (HL Hq) as (x0 & Hx0 & ?).
      by assert (x0 = y) as <- by congruence.
    + rewrite lookup_insert_ne by done. exists y. by split.
  - intros q y. simpl. destruct (decide (q = p)) as [->|].
    + rewrite lookup_insert_eq. by intros [= <-].
    + rewrite lookup_insert_ne by done. apply HP.
Qed.

Lemma sched_inv_rq s Q r st : sched_inv s Q -> same_queues (rq s) r ->
  sched_inv (MkS (procs s) r st) Q.
Proof.
  intros [Hwf HP] (E1 & E2 & E3 & E4). split; [|exact HP].
  eapply rq_wf_put; [exact Hwf|done..|]. intros q y Hq Hy. exists y. by split.
Qed.

(** What a process keeps when only its links change. *)
Lemma proc_ok_relink l p x n pr rp inq : proc_ok l p x ->
  (truth inq = true -> p ∈ l) -> proc_ok l p (relink x n pr rp inq).
Proof. intros [] H. by constructor. Qed.

Lemma relinked_back ps ps' q y : relinked ps ps' -> ps' !! q = Some y ->
  exists x n p rp inq, ps !! q = Some x /\ y = relink x n p rp inq.
Proof.
  intros H Hy. specialize (H q). destruct (ps !! q) as [x|]; [|congruence].
  destruct H as (n & p & rp & inq & E). exists x, n, p, rp, inq. split; [done|congruence].
Qed.

(** Enqueueing a runnable process that is not queued. *)
Lemma enqueue_inv s Q p x : sched_inv s Q -> procs s !! p = Some x -> p ∉ concat Q ->
  p_state x = RUNNABLE ->
  exists s' Q', sched_enqueue p s = Ret (tt, s') /\ sched_inv s' Q' /\
    concat Q' ≡ₚ p :: concat Q /\ same_clock s s' /\ relinked (procs s) (procs s') /\
    total_weight (rq s') = wrap 64 (total_weight (rq s) + weight_of (procs s) p).
Proof.
  intros [Hwf HP] Hx Hp Hst. pose proof (HP p x Hx) as Hpx. destruct (po_dyn _ _ _ Hpx) as [D1 D2].
  destruct (rw_len _ _ Hwf) as (L1 & _).
  destruct (lookup_lt_is_Some_2 Q (Z.to_nat (dynamic_priority (sched x))) ltac:(lia)) as [l HQ].
  destruct (sched_enqueue_spec s Q p x (Z.to_nat (dynamic_priority (sched x))) l Hwf Hx
              (po_addr _ _ _ Hpx) Hp)
    as (s' & Hr & Hwf' & Hw & Hrel & Hclk & Hout); [by rewrite Z2Nat.id|done|].
  assert (concat (<[Z.to_nat (dynamic_priority (sched x)) := l ++ [p]]> Q) ≡ₚ p :: concat Q) as HC.
  { rewrite (concat_insert Q _ l _ HQ), (concat_split Q _ l HQ). rewrite (Permutation_app_comm l [p]).
    done. }
  eexists s', _. split; [done|]. split; [|done]. split; [done|].
  intros q y Hy. destruct (relinked_back _ _ _ _ Hrel Hy) as (z & n & pr & rp & inq & Hz & ->).
  apply (proc_ok_perm (p :: concat Q)); [done|].
  pose proof (HP q z Hz) as Hqz. destruct (decide (q = p)) as [->|Hqp].
  { destruct Hqz. constructor; try done; [|intros; by left]. intros _.
    assert (z = x) as -> by congruence. done. }
  assert (q ∈ p :: concat Q <-> q ∈ concat Q) as Hin by (rewrite elem_of_cons; tauto).
  destruct (decide (q ∈ concat Q)) as [Hq|Hq].
  { apply proc_ok_relink; [|by rewrite Hin]. destruct Hqz. constructor; try done; by rewrite Hin. }
  rewrite (Hout q Hqp Hq) in Hy. assert (relink z n pr rp inq = z) as -> by congruence.
  destruct Hqz. constructor; try done; by rewrite Hin.
Qed.

Lemma elem_of_concat (Q : list (list Z)) p : p ∈ concat Q -> exists k l, Q !! k = Some l /\ p ∈ l.
Proof.
  rewrite list_elem_of_In, in_concat. intros (l & Hl & Hp).
  apply list_elem_of_In, list_elem_of_lookup_1 in Hl as [k HQ].
  exists k, l. by rewrite list_elem_of_In.
Qed.

(** Taking a queued process out. *)
Lemma dequeue_inv s Q p x : sched_inv s Q -> procs s !! p = Some x -> p ∈ concat Q ->
  exists s' Q' k, sched_dequeue p s = Ret (tt, s') /\ sched_inv s' Q' /\
    concat Q ≡ₚ p :: concat Q' /\ same_clock s s' /\ relinked (procs s) (procs s') /\
    procs s' !! p = Some (relink x 0 0 k 0) /\ 0 <= k < 8 /\
    total_weight (rq s') = wrap 64 (total_weight (rq s) - weight_of (procs s) p).
Proof.
  intros [Hwf HP] Hx Hp. pose proof (HP p x Hx) as Hpx.
  destruct (elem_of_concat Q p Hp) as (k & l & HQ & Hpl).
  apply list_elem_of_split in Hpl as (a & b & ->).
  destruct (sched_dequeue_spec s Q k a p b x Hwf HQ Hx (po_dyn _ _ _ Hpx))
    as (s' & Hr & Hwf' & Hw & Hrel & Hclk & Hpp & Hout).
  assert (concat Q ≡ₚ p :: concat (<[k := a ++ b]> Q)) as HC.
  { rewrite (concat_insert Q _ _ _ HQ), (concat_split Q _ _ HQ).
    rewrite <- (Permutation_middle a b p). done. }
  pose proof (rw_nodup _ _ Hwf) as Hnd. rewrite HC in Hnd. apply NoDup_cons in Hnd as [Hnp _].
  exists s', (<[k := a ++ b]> Q), (Z.of_nat k). split; [done|]. split; [split; [done|]|].
  2:{ split; [done|]. split; [done|]. split; [done|]. split; [done|].
      pose proof (rw_len _ _ Hwf) as (L1 & _). apply lookup_lt_Some in HQ. split; [lia|done]. }
  intros q y Hy. destruct (relinked_back _ _ _ _ Hrel Hy) as (z & n & pr & rp & inq & Hz & E).
  pose proof (HP q z Hz) as Hqz. destruct (decide (q = p)) as [->|Hqp].
  { assert (y = relink x 0 0 (Z.of_nat k) 0) as -> by congruence.
    assert (z = x) as -> by congruence. destruct Hqz. constructor; try done. }
  assert (q ∈ concat Q <-> q ∈ concat (<[k := a ++ b]> Q)) as Hin
    by (rewrite HC, elem_of_cons; tauto).
  subst y. destruct (decide (q ∈ concat Q)) as [Hq|Hq].
  { apply proc_ok_relink; [|by rewrite <- Hin]. destruct Hqz. constructor; try done; by rewrite <- Hin. }
  rewrite (Hout q Hq) in Hy. assert (relink z n pr rp inq = z) as -> by congruence.
  destruct Hqz. constructor; try done; by rewrite <- Hin.
Qed.

(** ** The operations *)

(** What the kernel does to the scheduler's state, in any order.
    [OSetState] is a state the running process is given by the code it runs
    ([scheduler_yield], [proc_exit]); [OCreate] is a new process of
    [proc_allocate].  Sleeping is treated below. *)
Inductive op :=
| OCreate (p : Z)
| OWakeup (p : Z)
| OSetPriority (p prio : Z)
| ONice (p n : Z)
| ODispatch (now : Z)
| OTick (now : Z)
| OSetState (st : process_state)
| OResume (now : Z).

Definition zero_entity : sched_entity := MkSE 0 0 0 0 0 0 0 0 0 0 0 0 0 0 0.

Definition run_op (o : op) : ST sstate unit :=
  match o with
  | OCreate p => _ ← put_proc p (MkProc USED 0 zero_entity); sched_fork p
  | OWakeup p => sched_wakeup p
  | OSetPriority p prio => sched_set_priority p prio
  | ONice p n => sched_nice p n
  | ODispatch now => fun s => (_ ← sched_dispatch (S (size (procs s))) now; mret tt) s
  | OTick now => _ ← scheduler_tick now; mret tt
  | OSetState st => q ← get_rq; x ← get_proc (curr q); put_proc (curr q) (set_state x st)
  | OResume now => q ← get_rq; sched_resume now (curr q)
  end.

(** When the code can perform an operation. *)
Definition enabled (s : sstate) (o : op) : Prop :=
  match o with
  | OCreate p => p <> 0 /\ procs s !! p = None
  | OWakeup p => is_Some (procs s !! p) /\ p <> curr (rq s)
  | OSetPriority p prio => is_Some (procs s !! p) /\ 0 <= prio < 256
  | ONice p n => is_Some (procs s !! p) /\ -128 <= n < 128
  | ODispatch now => curr (rq s) = 0
  | OTick now => True
  | OSetState _ | OResume _ => curr (rq s) <> 0
  end.

(** One step of the scheduler, and the states it can be in after booting. *)
Inductive sstep : sstate -> sstate -> Prop :=
| sstep_op s o s' : enabled s o -> run_op o s = Ret (tt, s') -> sstep s s'.
Inductive reachable : sstate -> Prop :=
| reach_boot : reachable (MkS ∅ rq_empty (MkStats 0 0 0 0))
| reach_step s s' : reachable s -> sstep s s' -> reachable s'.

Lemma wrap8_small z : 0 <= z < 256 -> wrap 8 z = z.
Proof. intros. by apply wrap_small. Qed.

Lemma sched_update_priority_cases se :
  has_flag se SCHED_FLAG_RT = true /\ sched_update_priority se = se \/
  exists d, 3 <= d <= 7 /\
    sched_update_priority se = se_set_prio se (static_priority se) d (nice se).
Proof.
  unfold sched_update_priority, PRIO_NORMAL_MIN, PRIO_IDLE_MAX.
  destruct (has_flag se SCHED_FLAG_RT); [by left|right].
  eexists. split; [|reflexivity].
  match goal with |- context [wrap 8 ?d] => assert (3 <= d <= 7) as Hd end.
  { repeat zcase; lia. }
  rewrite wrap8_small by lia. exact Hd.
Qed.

Lemma proc_ok_update_priority l p x st ch : proc_ok l p x ->
  (p ∈ l -> st = RUNNABLE) -> proc_ok l p (MkProc st ch (sched_update_priority (sched x))).
Proof.
  intros [] Hst. destruct (sched_update_priority_cases (sched x)) as [[_ E]|(d & Hd & E)];
    constructor; simpl; rewrite ?E; simpl; try done; lia.
Qed.

Lemma same_links_update_priority x st ch :
  same_links x (MkProc st ch (sched_update_priority (sched x))).
Proof. by destruct (sched_update_priority_cases (sched x)) as [[_ E]|(d & _ & E)]; unfold same_links; simpl; rewrite E. Qed.

Lemma check_interactive_cases se : exists f, sched_check_interactive se = se_set_flags se f.
Proof.
  assert (exists f, se = se_set_flags se f) as E by (exists (flags se); by destruct se).
  unfold sched_check_interactive. repeat case_match; eauto.
Qed.

Lemma update_vruntime_run s p x d : procs s !! p = Some x -> 0 <= dynamic_priority (sched x) < 8 ->
  exists vr ser r, sched_update_vruntime p d s =
    Ret (tt, MkS (<[p := set_sched x (se_set_run (sched x) vr (exec_start (sched x)) ser
           (last_timeslice (sched x)) (last_ran (sched x)))]> (procs s)) r (stats s)) /\
    same_queues (rq s) r /\ curr r = curr (rq s).
Proof.
  intros Hx Hd. destruct (prio_weight _ Hd) as (w & Hw & _).
  unfold sched_update_vruntime. eexists _, _. erewrite bind_step by (by apply get_proc_step).
  unfold sched_entity_weight. rewrite Hw. erewrite bind_step by done.
  erewrite bind_step by done. erewrite bind_step by done.
  match goal with |- context [if ?b then _ else _] => destruct b end;
    (eexists; split; [reflexivity|done]).
Qed.

Lemma proc_ok_run l p x vr es ser lt lr : proc_ok l p x ->
  proc_ok l p (set_sched x (se_set_run (sched x) vr es ser lt lr)).
Proof. intros []. by constructor. Qed.

Lemma compute_timeslice_some tw se : 0 <= dynamic_priority se < 8 ->
  is_Some (sched_compute_timeslice tw se).
Proof.
  intros Hd. unfold sched_compute_timeslice. destruct (has_flag _ _); [done|].
  destruct (prio_weight _ Hd) as (w & Hw & _). unfold sched_entity_weight. rewrite Hw. simpl.
  by case_match.
Qed.

Lemma not_queued s Q p x : sched_inv s Q -> procs s !! p = Some x -> p_state x <> RUNNABLE ->
  p ∉ concat Q.
Proof. intros Hi Hx Hst Hin. by apply Hst, (po_state _ _ _ (si_proc _ _ Hi _ _ Hx)). Qed.

(** Every queued address is a process, so queues are no longer than the table. *)
Lemma queue_short s Q : rq_wf s Q -> forall l, l ∈ Q -> (length l < S (size (procs s)))%nat.
Proof.
  intros Hwf l Hl. apply list_elem_of_lookup_1 in Hl as [k HQ].
  pose proof (queue_nodup Q k l (rw_nodup _ _ Hwf) HQ) as Hnd.
  rewrite <- (size_list_to_set (C := gset Z) l Hnd), <- (size_dom (procs s) (D := gset Z)).
  apply Nat.lt_succ_r, subseteq_size. intros p Hp. apply elem_of_list_to_set in Hp.
  apply list_elem_of_lookup_1 in Hp as [i Hi].
  destruct (rw_queue _ _ Hwf k l HQ) as (_ & _ & _ & Hlk).
  destruct (Hlk i p Hi) as (_ & x & Hx & _). apply elem_of_dom. by exists x.
Qed.

(** An operation that runs without going wrong into a good state. *)
Definition op_ok (m : ST sstate unit) (s : sstate) : Prop :=
  exists s', m s = Ret (tt, s') /\ sched_ok s'.

Lemma op_ok_bind {A} (m : ST sstate A) (f : A -> ST sstate unit) s a s' :
  m s = Ret (a, s') -> op_ok (f a) s' -> op_ok (m ≫= f) s.
Proof. intros E (s2 & E2 & H). exists s2. split; [|done]. by rewrite (bind_step m f s a s' E). Qed.

Lemma sched_ok_put s Q p x r st : sched_inv s Q -> same_queues (rq s) r ->
  curr (rq s) ∉ concat Q -> (curr (rq s) <> 0 -> is_Some (procs s !! curr (rq s))) ->
  curr r = curr (rq s) ->
  (p ∈ concat Q -> exists x0, procs s !! p = Some x0 /\ same_links x0 x) ->
  proc_ok (concat Q) p x -> sched_ok (MkS (<[p := x]> (procs s)) r st).
Proof.
  intros Hi Hr Hc Hcs Ec HL Hx. exists Q. split; [by apply sched_inv_put|]. simpl. rewrite Ec.
  split; [done|]. intros H. apply lookup_insert_is_Some'. right. by apply Hcs.
Qed.

Lemma enqueue_ok s Q p x : sched_inv s Q -> procs s !! p = Some x -> p ∉ concat Q ->
  p_state x = RUNNABLE -> p <> curr (rq s) -> curr (rq s) ∉ concat Q ->
  (curr (rq s) <> 0 -> is_Some (procs s !! curr (rq s))) -> op_ok (sched_enqueue p) s.
Proof.
  intros Hi Hx Hp Hst Hne Hc Hcs.
  destruct (enqueue_inv s Q p x Hi Hx Hp Hst) as (s' & Q' & Hr & Hi' & HC & (Ec & _) & Hrel & _).
  exists s'. split; [done|]. exists Q'. rewrite Ec. split; [done|]. split.
  - rewrite HC, elem_of_cons. intros [E|?]; [by rewrite E in Hne|done].
  - intros H0. destruct (Hcs H0) as [y Hy]. specialize (Hrel (curr (rq s))). rewrite Hy in Hrel.
    destruct Hrel as (? & ? & ? & ? & ->). done.
Qed.

Lemma wakeup_ok s p : sched_ok s -> enabled s (OWakeup p) -> op_ok (sched_wakeup p) s.
Proof.
  intros Hok [[x Hx] Hne]. pose proof Hok as (Q & Hi & Hc & Hcs). unfold sched_wakeup.
  eapply op_ok_bind; [by apply get_proc_step|].
  destruct (negb _ && negb _) eqn:Est; [by exists s|].
  assert (p_state x <> RUNNABLE) as Hst.
  { intros E. rewrite E in Est. done. }
  pose proof (not_queued _ _ _ _ Hi Hx Hst) as Hp.
  pose proof (si_proc _ _ Hi p x Hx) as Hpx.
  eapply op_ok_bind; [reflexivity|].
  set (x1 := relink x 0 0 (runqueue_prio (sched x)) (in_runqueue (sched x))).
  assert (proc_ok (concat Q) p x1) as Hx1 by (apply proc_ok_relink; [done|apply Hpx]).
  eapply (enqueue_ok _ Q); simpl; [|by rewrite lookup_insert_eq|done|done|done|done|].
  - apply sched_inv_put; [done|done|done|]. by apply (proc_ok_update_priority _ _ x1).
  - intros H. apply lookup_insert_is_Some'. right. by apply Hcs.
Qed.

Lemma requeue_ok s p : sched_ok s -> is_Some (procs s !! p) -> op_ok (requeue p) s.
Proof.
  intros Hok [x Hx]. pose proof Hok as (Q & Hi & Hc & Hcs). unfold requeue.
  eapply op_ok_bind; [by apply get_proc_step|].
  destruct (bool_decide (p_state x = RUNNABLE) && truth _) eqn:E; [|by exists s].
  apply andb_true_iff in E as [E1%bool_decide_eq_true_1 E2].
  pose proof (po_flag _ _ _ (si_proc _ _ Hi p x Hx) E2) as Hp.
  destruct (dequeue_inv s Q p x Hi Hx Hp)
    as (s1 & Q1 & k & Hr & Hi1 & HC & (Ec & _) & Hrel & Hx1 & _).
  eapply op_ok_bind; [exact Hr|].
  pose proof (rw_nodup _ _ (si_wf _ _ Hi)) as Hnd. rewrite HC in Hnd.
  apply NoDup_cons in Hnd as [Hnp _].
  eapply (enqueue_ok _ Q1); [done|exact Hx1|done|done|..]; rewrite Ec.
  - intros E. by rewrite <- E in Hc.
  - intros H. apply Hc. rewrite HC. by right.
  - intros H. destruct (Hcs H) as [y Hy]. specialize (Hrel (curr (rq s))). rewrite Hy in Hrel.
    destruct Hrel as (? & ? & ? & ? & ->). done.
Qed.

Lemma set_priority_ok s p prio : sched_ok s -> enabled s (OSetPriority p prio) ->
  op_ok (sched_set_priority p prio) s.
Proof.
  intros Hok [[x Hx] Hpr]. pose proof Hok as (Q & Hi & Hc & Hcs). unfold sched_set_priority.
  unfold SCHED_PRIORITY_LEVELS. destruct (Z.leb_spec 8 prio); [by exists s|].
  pose proof (si_proc _ _ Hi p x Hx) as [].
  eapply op_ok_bind; [by eapply upd_sched_step|]. apply requeue_ok.
  - eapply (sched_ok_put s Q); try done.
    + intros _. exists x. by split.
    + constructor; simpl; try done; lia.
  - simpl. by rewrite lookup_insert_eq.
Qed.

Lemma nice_ok s p n : sched_ok s -> enabled s (ONice p n) -> op_ok (sched_nice p n) s.
Proof.
  intros Hok [[x Hx] Hn]. pose proof Hok as (Q & Hi & Hc & Hcs). unfold sched_nice.
  set (n' := if 19 <? _ then _ else _).
  assert (-20 <= n' <= 19) as Hn' by (unfold n'; repeat zcase; lia).
  pose proof (si_proc _ _ Hi p x Hx) as Hpx.
  set (x1 := set_sched x (se_set_prio (sched x) (static_priority (sched x))
    (dynamic_priority (sched x)) n')).
  assert (proc_ok (concat Q) p x1) as Hx1 by (destruct Hpx; constructor; done).
  eapply op_ok_bind; [by eapply upd_sched_step|]. apply requeue_ok.
  - eapply (sched_ok_put s Q); try done.
    + intros _. exists x. split; [done|].
      apply (same_links_update_priority x1 (p_state x) (waiting_channel x)).
    + apply (proc_ok_update_priority _ _ x1 (p_state x) (waiting_channel x)); [done|apply Hpx].
  - simpl. by rewrite lookup_insert_eq.
Qed.

Lemma create_ok s p : sched_ok s -> enabled s (OCreate p) -> op_ok (run_op (OCreate p)) s.
Proof.
  intros Hok [Hp Hnone]. pose proof Hok as (Q & Hi & Hc & Hcs). simpl.
  assert (p ∉ concat Q) as Hpq.
  { intros H. apply elem_of_concat in H as (k & l & HQ & Hl). apply list_elem_of_lookup_1 in Hl as [i Hl].
    destruct (rw_queue _ _ (si_wf _ _ Hi) k l HQ) as (_ & _ & _ & Hlk).
    destruct (Hlk i p Hl) as (_ & x & Hx & _). congruence. }
  eapply op_ok_bind; [reflexivity|]. unfold sched_fork.
  eapply op_ok_bind; [apply get_proc_step; simpl; by rewrite lookup_insert_eq|].
  eapply op_ok_bind; [reflexivity|].
  match goal with |- context [sched_compute_timeslice ?tw ?se] =>
    destruct (compute_timeslice_some tw se ltac:(done)) as [ts ->] end.
  eapply op_ok_bind; [reflexivity|].
  eexists. split; [reflexivity|]. simpl. rewrite insert_insert_eq.
  eapply (sched_ok_put s Q); try done.
Qed.


Lemma runs_get_proc P s p x : procs s !! p = Some x -> P x s -> runs_to (get_proc p) P s.
Proof. intros Hx H. exists x, s. by rewrite (get_proc_step p s x Hx). Qed.

Lemma runs_op_ok (m : ST sstate unit) s : runs_to m (fun _ s' => sched_ok s') s -> op_ok m s.
Proof. intros ([] & s' & E & H). by exists s'. Qed.

Lemma op_ok_runs (m : ST sstate unit) s : op_ok m s -> runs_to m (fun _ s' => sched_ok s') s.
Proof. intros (s' & E & H). by exists tt, s'. Qed.

(** The running process. *)
Definition running (c : Z) (s : sstate) : Prop := curr (rq s) = c /\ is_Some (procs s !! c).

(** Writing back a process that is not queued: no link matters. *)
Lemma ok_put_running s c x x' r st : sched_ok s -> running c s -> c <> 0 -> procs s !! c = Some x ->
  same_queues (rq s) r -> curr r = c -> (forall l, proc_ok l c x -> c ∉ l -> proc_ok l c x') ->
  let s' := MkS (<[c := x']> (procs s)) r st in sched_ok s' /\ running c s'.
Proof.
  intros (Q & Hi & Hc & Hcs) [Ec _] Hc0 Hx Hr Er Hx' s'. rewrite Ec in Hc. split.
  - eapply (sched_ok_put s Q); [done|done|by rewrite Ec|done|by rewrite Ec|done|].
    apply Hx'; [by apply (si_proc _ _ Hi)|done].
  - split; [done|]. simpl. by rewrite lookup_insert_eq.
Qed.

Lemma update_vruntime_ok s c d : sched_ok s -> running c s -> c <> 0 ->
  runs_to (sched_update_vruntime c d) (fun _ s' => sched_ok s' /\ running c s') s.
Proof.
  intros Hok Hrun Hc0. pose proof Hrun as [Ec [x Hx]]. pose proof Hok as (Q & Hi & _).
  destruct (update_vruntime_run s c x d Hx (po_dyn _ _ _ (si_proc _ _ Hi c x Hx)))
    as (vr & ser & r & E & Hr & Ecr).
  eexists _, _. split; [exact E|]. eapply ok_put_running; try done; [by rewrite Ecr|].
  intros l Hp _. by apply proc_ok_run.
Qed.

Lemma upd_running_ok s c f : sched_ok s -> running c s -> c <> 0 ->
  (forall x l, proc_ok l c x -> c ∉ l -> proc_ok l c (set_sched x (f (sched x)))) ->
  runs_to (upd_sched c f) (fun _ s' => sched_ok s' /\ running c s') s.
Proof.
  intros Hok Hrun Hc0 Hf. pose proof Hrun as [Ec [x Hx]].
  eexists _, _. split; [by apply upd_sched_step|]. eapply ok_put_running; try done; eauto.
Qed.

Lemma sched_ok_stats s st : sched_ok s -> sched_ok (MkS (procs s) (rq s) st).
Proof. intros (Q & Hi & H). exists Q. split; [|exact H]. by apply sched_inv_rq. Qed.

Lemma runs_stats s f (P : unit -> sstate -> Prop) : (forall st, P tt (MkS (procs s) (rq s) st)) ->
  runs_to (st_modify (fun s => MkS (procs s) (rq s) (f s))) P s.
Proof. intros H. by eexists _, _. Qed.

Lemma set_state_ok s c st : sched_ok s -> running c s -> c <> 0 ->
  runs_to (x ← get_proc c; put_proc c (set_state x st)) (fun _ s' => sched_ok s' /\ running c s') s.
Proof.
  intros Hok Hrun Hc0. pose proof Hrun as [Ec [x Hx]].
  apply runs_bind. eapply runs_get_proc; [exact Hx|]. eexists _, _. split; [reflexivity|].
  eapply ok_put_running; try done. intros l [] Hn. by constructor.
Qed.

Lemma tick_ok s now : sched_ok s -> runs_to (scheduler_tick now) (fun _ s' => sched_ok s') s.
Proof.
  intros Hok0. unfold scheduler_tick. apply runs_bind, runs_stats. intros st.
  pose proof (sched_ok_stats s st Hok0) as Hok. clear Hok0. set (s0 := MkS _ _ st) in *. clearbody s0.
  apply runs_bind. eexists _, _. split; [reflexivity|].
  destruct (Z.eqb_spec (curr (rq s0)) 0) as [|Hc0]; [by eexists _, _|].
  set (c := curr (rq s0)) in *. assert (running c s0) as Hrun.
  { split; [done|]. destruct Hok as (Q & _ & _ & Hcs). by apply Hcs. }
  destruct (proj2 Hrun) as [x Hx]. apply runs_bind. eapply runs_get_proc; [exact Hx|].
  destruct (negb _); [by eexists _, _|]. apply runs_bind.
  eapply (runs_weaken _ (fun _ s' => sched_ok s' /\ running c s')).
  { destruct (0 <? _); [|by eexists _, _]. apply runs_bind.
    eapply runs_weaken; [by apply update_vruntime_ok|]. intros _ s1 [Hok1 Hrun1].
    apply upd_running_ok; try done. intros y l Hy _. by apply proc_ok_run. }
  intros _ s1 [Hok1 Hrun1]. destruct (proj2 Hrun1) as [x1 Hx1].
  apply runs_bind. eapply runs_get_proc; [exact Hx1|].
  destruct (_ <=? _); [|by eexists _, _]. apply runs_bind, runs_stats. intros st1.
  pose proof (sched_ok_stats s1 st1 Hok1) as Hok2.
  assert (running c (MkS (procs s1) (rq s1) st1)) as Hrun2 by exact Hrun1.
  apply runs_bind. eapply runs_get_proc; [exact Hx1|].
  apply runs_bind. eexists _, _. split; [reflexivity|]. eexists _, _. split; [reflexivity|].
  refine (proj1 (ok_put_running _ c x1 _ (rq s1) st1 Hok2 Hrun2 Hc0 Hx1 _ _ _));
    [done|apply Hrun1|]. intros l [] Hn. destruct (bool_decide _); by constructor.
Qed.

Lemma dispatch_ok s now : sched_ok s -> enabled s (ODispatch now) -> op_ok (run_op (ODispatch now)) s.
Proof.
  intros Hok Hc0. simpl in Hc0. pose proof Hok as (Q & Hi & Hc & Hcs). unfold op_ok. simpl run_op.
  enough (op_ok (_ ← sched_dispatch (S (size (procs s))) now; mret tt) s) by done.
  pose proof (si_wf _ _ Hi) as Hwf.
  destruct (pick_from_spec s Q (S (size (procs s))) (rq_wf_heads s Q Hwf) (queue_short s Q Hwf) 8 0 eq_refl)
    as [[Hr _]|(j & l & n & Hr & _ & HQ & _ & Hn & _)];
    change (pick_from (S (size (procs s))) s 8 (Z.of_nat 0))
      with (sched_pick_next (S (size (procs s))) s) in Hr.
  - exists s. split; [|done]. unfold sched_dispatch, mbind, st_bind. by rewrite Hr.
  - pose proof (elem_of_queue Q j l n HQ Hn) as HnQ.
    apply list_elem_of_lookup_1 in Hn as [i Hn].
    destruct (rw_queue _ _ Hwf j l HQ) as (_ & _ & _ & Hl). destruct (Hl i n Hn) as (Hn0 & x & Hx & _).
    destruct (dequeue_inv s Q n x Hi Hx HnQ)
      as (s1 & Q1 & k & Hd & Hi1 & HC & (Ec & _) & Hrel & Hx1 & _).
    pose proof (rw_nodup _ _ Hwf) as Hnd. rewrite HC in Hnd. apply NoDup_cons in Hnd as [Hnp _].
    pose proof (si_proc _ _ Hi1 n _ Hx1) as Hpx.
    assert (exists ts, sched_compute_timeslice (total_weight (rq s1)) (se_set_run
      (sched (set_state (relink x 0 0 k 0) RUNNING)) (vruntime (sched x)) now
      (sum_exec_runtime (sched x)) (last_timeslice (sched x)) now) = Some ts) as [ts Hts].
    { apply compute_timeslice_some. apply Hpx. }
    apply runs_op_ok, runs_bind. unfold sched_dispatch.
    apply runs_bind. eexists n, s. split; [by rewrite Hr|]. destruct (Z.eqb_spec n 0); [done|].
    apply runs_bind. eexists tt, s1. split; [exact Hd|].
    apply runs_bind. eexists _, _. split; [reflexivity|].
    apply runs_bind. eexists _, _. split; [reflexivity|].
    apply runs_bind. eapply runs_get_proc; [exact Hx1|].
    apply runs_bind. eexists _, _. split; [reflexivity|].
    apply runs_bind. eapply runs_get_proc; [simpl; by rewrite lookup_insert_eq|].
    apply runs_bind. eexists _, _. split; [reflexivity|].
    apply runs_bind. eexists ts, _. split.
    { match goal with |- of_option ?o _ = _ =>
        change o with (sched_compute_timeslice (total_weight (rq s1)) (se_set_run
          (sched (set_state (relink x 0 0 k 0) RUNNING)) (vruntime (sched x)) now
          (sum_exec_runtime (sched x)) (last_timeslice (sched x)) now)) end.
      by rewrite Hts. }
    apply runs_bind. eexists _, _. split; [reflexivity|].
    apply runs_bind. eexists _, _. split; [reflexivity|].
    eexists _, _. split; [reflexivity|]. eexists _, _. split; [reflexivity|].
    exists Q1. simpl. rewrite insert_insert_eq. split; [|split; [exact Hnp|]].
    + apply sched_inv_put; [done|done|done|]. destruct Hpx. by constructor.
    + intros _. by rewrite lookup_insert_eq.
Qed.

Lemma resume_ok s now : sched_ok s -> curr (rq s) <> 0 ->
  op_ok (sched_resume now (curr (rq s))) s.
Proof.
  intros Hok Hc0. set (c := curr (rq s)) in *. assert (running c s) as Hrun.
  { split; [done|]. destruct Hok as (Q & _ & _ & Hcs). by apply Hcs. }
  apply runs_op_ok. unfold sched_resume. destruct (proj2 Hrun) as [x Hx].
  apply runs_bind. eapply runs_get_proc; [exact Hx|]. apply runs_bind.
  eapply runs_weaken; [by apply update_vruntime_ok|]. intros _ s1 [Hok1 Hrun1]. apply runs_bind.
  eapply runs_weaken.
  { apply upd_running_ok; try done. intros y l Hy Hn.
    destruct (check_interactive_cases (sched y)) as [f Ef]. rewrite Ef.
    apply (proc_ok_update_priority l c (set_sched y (se_set_flags (sched y) f)) (p_state y) (waiting_channel y));
      [destruct Hy; by constructor|done]. }
  intros _ s2 [Hok2 Hrun2]. destruct (proj2 Hrun2) as [x2 Hx2].
  apply runs_bind. eapply runs_get_proc; [exact Hx2|].
  assert (forall s3, sched_ok s3 -> running c s3 -> forall y, procs s3 !! c = Some y ->
    p_state y = RUNNABLE ->
    runs_to (sched_enqueue c) (fun _ s' => runs_to (q ← get_rq; put_rq (rq_set_curr q 0))
      (fun _ s' => sched_ok s') s') s3) as Henq.
  { intros s3 (Q & Hi & Hc & _) [Ec _] y Hy Hst. rewrite Ec in Hc.
    destruct (enqueue_inv s3 Q c y Hi Hy Hc Hst) as (s' & Q' & Hr & Hi' & _).
    eexists _, _. split; [exact Hr|]. eexists _, _. split; [reflexivity|].
    exists Q'. split; [by apply sched_inv_rq|]. simpl. split; [|done].
    intros H0. apply elem_of_concat in H0 as (k & l & HQ & Hl).
    apply list_elem_of_lookup_1 in Hl as [i Hl].
    destruct (rw_queue _ _ (si_wf _ _ Hi') k l HQ) as (_ & _ & _ & Hlk). by destruct (Hlk i 0 Hl). }
  assert (runs_to (mret tt) (fun _ s' => runs_to (q ← get_rq; put_rq (rq_set_curr q 0))
      (fun _ s' => sched_ok s') s') s2) as Hskip.
  { destruct Hok2 as (Q & Hi & _). eexists _, _. split; [reflexivity|].
    eexists _, _. split; [reflexivity|]. exists Q. split; [by apply sched_inv_rq|]. simpl. split; [|done].
    intros H0. apply elem_of_concat in H0 as (k & l & HQ & Hl).
    apply list_elem_of_lookup_1 in Hl as [i Hl].
    destruct (rw_queue _ _ (si_wf _ _ Hi) k l HQ) as (_ & _ & _ & Hlk). by destruct (Hlk i 0 Hl). }
  apply runs_bind. destruct (p_state x2) eqn:Est; try exact Hskip; cycle 2.
  { by apply (Henq s2 Hok2 Hrun2 x2). }
  all: apply runs_bind; eexists _, _; (split; [reflexivity|]);
    (eapply Henq; [..|simpl; by rewrite lookup_insert_eq|done]);
    eapply ok_put_running; try done; try apply Hrun2; intros l [] Hn; by constructor.
Qed.

(** Every enabled operation runs to an end in a good state. *)
Lemma run_op_ok s o : sched_ok s -> enabled s o -> op_ok (run_op o) s.
Proof.
  intros Hok He. destruct o; simpl in He.
  - by apply create_ok.
  - by apply wakeup_ok.
  - by apply set_priority_ok.
  - by apply nice_ok.
  - by apply dispatch_ok.
  - apply runs_op_ok, runs_bind. eapply runs_weaken; [by apply tick_ok|]. by eexists _, _.
  - apply runs_op_ok. simpl. apply runs_bind. eexists _, _. split; [reflexivity|].
    eapply runs_weaken; [apply set_state_ok; try done|by intros _ s' [? _]].
    split; [done|]. destruct Hok as (Q & _ & _ & Hcs). by apply Hcs.
  - apply runs_op_ok. simpl. apply runs_bind. eexists _, _. split; [reflexivity|].
    by apply op_ok_runs, resume_ok.
Qed.

(** C6: from boot on, whatever sequence of process creations, wake-ups,
    priority and nice changes, dispatches, timer ticks, state changes of the
    running process and switches back to the scheduler has happened, the
    eight run queues are disjoint doubly linked lists without repetitions,
    their heads, tails, sizes and the total count agree with them, exactly
    the processes marked as queued are in them, all of these are RUNNABLE,
    the running process is in none, priorities are in range; and the next
    operation ends without reading through a stray pointer. *)
Theorem sched_reachable_ok s (Hr : reachable s) :
  sched_ok s /\ forall o, enabled s o -> exists s', run_op o s = Ret (tt, s').
Proof.
  assert (sched_ok s) as Hok.
  { induction Hr as [|s s' Hr IH Hs]; [apply sched_ok_boot|].
    destruct Hs as [s o s' He Ho]. destruct (run_op_ok s o IH He) as (s2 & E & H).
    by assert (s2 = s') as <- by congruence. }
  split; [done|]. intros o He. destruct (run_op_ok s o Hok He) as (s' & E & _). by exists s'.
Qed.

(** ** Bounds *)

(** For a process whose dynamic priority is in range, the recomputed
    priority of a process that is not real-time lies between 3 and 7, and its
    time slice always exists: 16000 us for a real-time process or an idle
    queue, otherwise its share by weight, never below 2000 us and never above
    16000 us, or one and a half times as much when it is interactive. *)
Theorem sched_timeslice_bounds se tw (Hd : 0 <= dynamic_priority se < 8) (Htw : 0 <= tw < 2 ^ 64) :
  (has_flag se SCHED_FLAG_RT = false ->
     3 <= dynamic_priority (sched_update_priority se) <= 7 /\
     static_priority (sched_update_priority se) = static_priority se) /\
  exists ts, sched_compute_timeslice tw se = Some ts /\
    SCHED_MIN_TIMESLICE_US <= ts <= SCHED_MAX_TIMESLICE_US * 3 / 2 /\
    (has_flag se SCHED_FLAG_INTERACTIVE = false -> ts <= SCHED_MAX_TIMESLICE_US) /\
    (has_flag se SCHED_FLAG_RT = true -> ts = SCHED_MAX_TIMESLICE_US) /\
    (has_flag se SCHED_FLAG_RT = false -> has_flag se SCHED_FLAG_INTERACTIVE = false ->
     forall w, sched_entity_weight se = Some w -> 0 < tw ->
     ts = Z.max 2000 (Z.min 16000 (16000 * w / tw))).
Proof.
  destruct (prio_weight _ Hd) as (w & Hw & Hwr). split.
  - intros Hrt. destruct (sched_update_priority_cases se) as [[E _]|(d & Hd' & ->)]; [congruence|done].
  - unfold sched_compute_timeslice, sched_entity_weight, SCHED_MAX_TIMESLICE_US, SCHED_MIN_TIMESLICE_US.
    rewrite Hw. destruct (has_flag se SCHED_FLAG_RT).
    { exists 16000. split; [done|]. change (16000 * 3 / 2) with 24000. repeat split; try done; intros; lia. }
    simpl. destruct (Z.eqb_spec tw 0) as [->|].
    { exists 16000. split; [done|]. change (16000 * 3 / 2) with 24000. repeat split; try done; intros; lia. }
    rewrite wrap_small by lia.
    set (v := 16000 * w / tw). set (a := if v <? 2000 then 2000 else v).
    set (b := if 16000 <? a then 16000 else a).
    assert (b = Z.max 2000 (Z.min 16000 v)) as Hb.
    { unfold b, a. destruct (Z.ltb_spec v 2000); zcase; lia. }
    destruct (has_flag se SCHED_FLAG_INTERACTIVE).
    + eexists. split; [done|]. split; [|done]. change (16000 * 3 / 2) with 24000.
      split; [apply Z.div_le_lower_bound; lia|apply Z.div_le_upper_bound; lia].
    + exists b. split; [done|]. split; [change (16000 * 3 / 2) with 24000; lia|]. split; [lia|].
      split; [done|]. intros _ _ w' [= <-] _. exact Hb.
Qed.
Lemma sched_timeslice_bounds_witness :
  let se := MkSE 0 0 0 0 3 3 0 0 0 0 0 0 0 0 0 in
  0 <= dynamic_priority se < 8 /\ exists ts, sched_compute_timeslice 100000 se = Some ts /\ ts = 7403.
Proof.
  simpl. split; [lia|].
  destruct (sched_timeslice_bounds (MkSE 0 0 0 0 3 3 0 0 0 0 0 0 0 0 0) 100000 ltac:(simpl; lia) ltac:(lia))
    as (_ & ts & E & _ & _ & _ & H). exists ts. split; [exact E|].
  rewrite (H eq_refl eq_refl 46273 eq_refl ltac:(lia)). reflexivity.
Defined.

(** ** What new processes start from *)

(** A computation that does not make [min_vruntime] leave zero. *)
Definition keeps_min {A} (m : ST sstate A) : Prop := forall s a s',
  m s = Ret (a, s') -> min_vruntime (rq s) = 0 -> min_vruntime (rq s') = 0.

Create HintDb keeps.

Lemma clock_keeps_ret {A} (a : A) : keeps_min (mret a).
Proof. by intros s b s' [= <- <-]. Qed.
Lemma clock_keeps_bind {A B} (m : ST sstate A) (f : A -> ST sstate B) :
  keeps_min m -> (forall a, keeps_min (f a)) -> keeps_min (m ≫= f).
Proof.
  intros Hm Hf s b s' E H0. unfold mbind, st_bind in E. destruct (m s) as [[a s1]| | |] eqn:E1; try done.
  eapply Hf; [exact E|]. by eapply Hm.
Qed.
Lemma keeps_get_rq {B} (f : runqueue -> ST sstate B) :
  (forall q, min_vruntime q = 0 -> keeps_min (f q)) -> keeps_min (get_rq ≫= f).
Proof. intros Hf s b s2 E H0. exact (Hf (rq s) H0 s b s2 E H0). Qed.
Lemma keeps_put_rq q : min_vruntime q = 0 -> keeps_min (put_rq q).
Proof. by intros H s a s' [= <- <-] _. Qed.
Lemma keeps_get_proc p : keeps_min (get_proc p).
Proof. intros s a s' E H. unfold get_proc in E. destruct (_ !! _); [|done]. by injection E as <- <-. Qed.
Lemma keeps_put_proc p x : keeps_min (put_proc p x).
Proof. by intros s a s' [= <- <-]. Qed.
Lemma keeps_of_option {A} (o : option A) : keeps_min (of_option o).
Proof. destruct o; [apply clock_keeps_ret|intros s a s' E; discriminate E]. Qed.
Lemma keeps_stats f : keeps_min (st_modify (fun s => MkS (procs s) (rq s) (f s))).
Proof. by intros s a s' [= <- <-]. Qed.
#[local] Hint Resolve clock_keeps_ret keeps_put_rq keeps_get_proc keeps_put_proc keeps_of_option keeps_stats : keeps.

Ltac keeps_step :=
  match goal with
  | |- keeps_min (mbind (M := ST sstate) _ get_rq) => apply keeps_get_rq; intros
  | |- keeps_min (get_rq ≫= _) => apply keeps_get_rq; intros
  | |- keeps_min (_ ≫= _) => apply clock_keeps_bind; [|intros]
  | |- keeps_min (if ?b then _ else _) => destruct b
  | |- keeps_min (match ?b with _ => _ end) => destruct b
  | |- _ => by eauto with keeps
  end.
Ltac keeps := cbv zeta; repeat (keeps_step; cbv zeta).

Lemma keeps_upd_sched p f : keeps_min (upd_sched p f).
Proof. unfold upd_sched. keeps. Qed.
#[local] Hint Resolve keeps_upd_sched : keeps.
Lemma keeps_enqueue p : keeps_min (sched_enqueue p).
Proof. unfold sched_enqueue. keeps. Qed.
Lemma keeps_dequeue p : keeps_min (sched_dequeue p).
Proof. unfold sched_dequeue. keeps. Qed.
#[local] Hint Resolve keeps_enqueue keeps_dequeue : keeps.
Lemma keeps_update_vruntime p d : keeps_min (sched_update_vruntime p d).
Proof.
  unfold sched_update_vruntime. apply clock_keeps_bind; [eauto with keeps|]. intros x.
  apply clock_keeps_bind; [eauto with keeps|]. intros w. cbv zeta. apply clock_keeps_bind; [eauto with keeps|].
  intros _. apply keeps_get_rq. intros q ->. simpl.
  destruct (Z.ltb_spec (wrap 64 (vruntime (sched x) + wrap 64 (d * 1024) / w)) 0) as [H|];
    [|eauto with keeps]. pose proof (wrap_range 64 (vruntime (sched x) + wrap 64 (d * 1024) / w)). lia.
Qed.
#[local] Hint Resolve keeps_update_vruntime : keeps.
Lemma keeps_requeue p : keeps_min (requeue p).
Proof. unfold requeue. keeps. Qed.
#[local] Hint Resolve keeps_requeue : keeps.

Lemma keeps_dispatch fuel now : keeps_min (sched_dispatch fuel now).
Proof.
  unfold sched_dispatch. apply clock_keeps_bind; [|intros; keeps].
  intros s a s' E H. destruct (sched_pick_next fuel s); try done. by injection E as <- <-.
Qed.
#[local] Hint Resolve keeps_dispatch : keeps.

Lemma keeps_run_op o : keeps_min (run_op o).
Proof.
  destruct o; simpl.
  - unfold sched_fork. keeps.
  - unfold sched_wakeup. keeps.
  - unfold sched_set_priority. keeps.
  - unfold sched_nice. keeps.
  - intros s a s' E. eapply (clock_keeps_bind (sched_dispatch (S (size (procs s))) now)); [| |exact E]; [eauto with keeps|intros; apply clock_keeps_ret].
  - unfold scheduler_tick. keeps.
  - keeps.
  - unfold sched_resume. keeps.
Qed.

(** [g_runqueue.min_vruntime] only ever goes down, so it keeps its
    initial value 0: in every reachable state a process created by the
    kernel starts with virtual run time 0, the least there is, and not with
    the least of the running ones as its comment says. *)
Theorem min_vruntime_stays_zero s p (Hr : reachable s) (Hp : enabled s (OCreate p)) :
  min_vruntime (rq s) = 0 /\
  exists s' x, run_op (OCreate p) s = Ret (tt, s') /\ procs s' !! p = Some x /\
    vruntime (sched x) = 0.
Proof.
  assert (min_vruntime (rq s) = 0) as H0.
  { clear Hp. induction Hr as [|s s' Hr IH Hs]; [done|].
    destruct Hs as [s o s' He Ho]. exact (keeps_run_op o _ _ _ Ho IH). }
  split; [done|].
  assert (runs_to (run_op (OCreate p)) (fun _ s' => exists x, procs s' !! p = Some x /\
    vruntime (sched x) = 0) s) as ([] & s' & E & x & Hx & Hv); [|by exists s', x].
  simpl. unfold sched_fork. apply runs_bind. eexists _, _. split; [reflexivity|].
  apply runs_bind. eapply runs_get_proc; [simpl; by rewrite lookup_insert_eq|].
  apply runs_bind. eexists _, _. split; [reflexivity|]. cbv zeta.
  match goal with |- context [sched_compute_timeslice ?tw ?se] =>
    destruct (compute_timeslice_some tw se ltac:(done)) as [ts ->] end.
  apply runs_bind. eexists _, _. split; [reflexivity|].
  eexists _, _. split; [reflexivity|]. simpl. rewrite lookup_insert_eq. eexists. split; [reflexivity|].
  exact H0.
Qed.
Lemma min_vruntime_stays_zero_witness :
  let s := MkS ∅ rq_empty (MkStats 0 0 0 0) in
  reachable s /\ enabled s (OCreate 4096) /\ min_vruntime (rq s) = 0.
Proof.
  assert (enabled (MkS ∅ rq_empty (MkStats 0 0 0 0)) (OCreate 4096)) as He by done.
  split; [constructor|]. split; [exact He|].
  exact (proj1 (min_vruntime_stays_zero _ 4096 reach_boot He)).
Defined.

(** ** Where the invariants stop *)

(** [sched_sleep] dequeues the process it puts to sleep, but its callers
    sleep the running process, which [sched_dispatch] has dequeued already
    (null links, the bucket still recorded).  The second dequeue resets the
    head and the tail of that bucket and lowers the counts: every process
    waiting in the bucket is cut off.  The picker cannot reach it any more,
    and as it still counts as queued neither [sched_rebuild] nor
    [sched_set_priority] puts it back. *)
Theorem sched_sleep_breaks_queue s Q p x now wchan k l (Hinv : sched_inv s Q)
    (Hx : procs s !! p = Some x) (Hp : p ∉ concat Q)
    (Hlinks : next (sched x) = 0 /\ prev (sched x) = 0 /\ runqueue_prio (sched x) = Z.of_nat k)
    (Hk : Q !! k = Some l) :
  exists s', sched_sleep now p wchan s = Ret (tt, s') /\
    queue_heads (rq s') !! k = Some 0 /\ queue_tails (rq s') !! k = Some 0 /\
    queue_sizes (rq s') !! k = Some (wrap 32 (zlen l - 1)) /\
    total_runnable (rq s') = wrap 32 (zlen (concat Q) - 1) /\
    (forall q, q ∈ l -> exists y, procs s' !! q = Some y /\ p_state y = RUNNABLE /\
       in_runqueue (sched y) = 1) /\
    exists r, sched_pick_next (S (size (procs s'))) s' = Ret r /\ r ∉ l.
Proof.
  destruct Hlinks as (Hn & Hpr & Hrp). pose proof (si_wf _ _ Hinv) as Hwf.
  destruct (rw_len _ _ Hwf) as (L1 & L2 & L3 & L4).
  pose proof (lookup_lt_Some _ _ _ Hk) as Hk8. rewrite L1 in Hk8.
  destruct (rw_queue _ _ Hwf k l Hk) as (_ & _ & Hz & Hl).
  destruct (prio_weight _ (po_dyn _ _ _ (si_proc _ _ Hinv p x Hx))) as (w & Hw & _).
  assert (exists st sa, (if 0 <? last_ran (sched x) then
      put_proc p (set_sched x (se_set_sleep (sched x)
        (wrap 64 (sleep_time (sched x) + wrap 64 (now - last_ran (sched x))))
        (wrap 32 (wrap 64 (wrap 32 (sleep_avg (sched x) * 7) + wrap 64 (now - last_ran (sched x))) / 8))))
    else mret tt) s = Ret (tt, MkS (<[p := set_sched x (se_set_sleep (sched x) st sa)]> (procs s))
                             (rq s) (stats s))) as (st & sa & E).
  { destruct (0 <? _); [by eexists _, _|]. exists (sleep_time (sched x)), (sleep_avg (sched x)).
    rewrite insert_id; [by destruct s|]. rewrite Hx. f_equal. by destruct x as [? ? []]. }
  set (x1 := set_sched x (se_set_sleep (sched x) st sa)) in *.
  set (s1 := MkS (<[p := x1]> (procs s)) (rq s) (stats s)) in *.
  assert (procs s1 !! p = Some x1) as Hx1 by apply lookup_insert_eq.
  pose proof (sched_dequeue_run s1 p x1 k 0 0 w Hx1 Hn Hpr Hrp Hk8 Hw) as Hd.
  change (truth 0) with false in Hd. cbv iota in Hd. unfold unlinked in Hd.
  change (truth 0) with false in Hd. cbv iota beta zeta in Hd.
  specialize (Hd ltac:(done) ltac:(done)).
  eexists. split; [|split; [|split; [|split; [|split]]]].
  - unfold sched_sleep. erewrite bind_step by (by apply get_proc_step). cbv zeta.
    erewrite bind_step by exact E. erewrite bind_step by exact Hd.
    erewrite bind_step by (apply get_proc_step; simpl; rewrite lookup_alter_eq, lookup_insert_eq; reflexivity).
    reflexivity.
  - simpl. rewrite list_lookup_insert_eq by lia. done.
  - simpl. rewrite list_lookup_insert_eq by lia. done.
  - simpl. rewrite list_lookup_insert_eq by lia. rewrite Hz. simpl. by autorewrite with word.
  - simpl. rewrite (rw_total _ _ Hwf). by autorewrite with word.
  - set (s' := MkS _ _ _).
    assert (forall q, q <> p -> procs s' !! q = procs s !! q) as Hq.
    { intros q Hq. simpl. rewrite lookup_insert_ne, lookup_alter_ne, lookup_insert_ne by done. done. }
    assert (forall q, q ∈ l -> q <> p) as Hlp.
    { intros q Hql ->. apply Hp. by eapply elem_of_queue. }
    split.
    { intros q Hql. rewrite (Hq q (Hlp q Hql)). pose proof Hql as Hql'.
      apply list_elem_of_lookup_1 in Hql' as [i Hi].
      destruct (Hl i q Hi) as (_ & y & Hy & _ & _ & _ & Hin). exists y. split; [done|]. split; [|done].
      apply (si_proc _ _ Hinv q y Hy). by eapply elem_of_queue. }
    assert (heads_ok s' (<[k := []]> Q)) as Hh.
    { split; [by rewrite length_insert|]. intros k' l' HQ'. destruct (decide (k' = k)) as [->|Hne].
      - rewrite list_lookup_insert_eq in HQ' by lia. injection HQ' as <-. split; [|by intros i q Hi].
        simpl. by rewrite list_lookup_insert_eq by lia.
      - rewrite list_lookup_insert_ne in HQ' by done.
        destruct (proj2 (rq_wf_heads s Q Hwf) k' l' HQ') as [Hh' Hl']. split.
        + simpl. by rewrite list_lookup_insert_ne by done.
        + intros i q Hi. destruct (Hl' i q Hi) as (Hq0 & y & Hy & Hny). split; [done|]. exists y.
          split; [|done]. rewrite Hq; [done|]. intros ->. apply Hp. eapply elem_of_queue; [exact HQ'|].
          by eapply list_elem_of_lookup_2. }
    assert (forall l', l' ∈ <[k := []]> Q -> (length l' < S (size (procs s')))%nat) as Hf.
    { intros l' Hl'. apply list_elem_of_lookup_1 in Hl' as [k' Hk'].
      destruct (decide (k' = k)) as [->|].
      { rewrite list_lookup_insert_eq in Hk' by lia. injection Hk' as <-. simpl. lia. }
      rewrite list_lookup_insert_ne in Hk' by done.
      assert (size (procs s') = size (procs s)) as ->.
      { rewrite <- !(size_dom (D := gset Z)). f_equal. apply set_eq. intros q.
        rewrite !elem_of_dom. destruct (decide (q = p)) as [->|]; [|by rewrite Hq].
        rewrite Hx. simpl. rewrite lookup_insert_eq. done. }
      apply (queue_short s Q Hwf). by eapply list_elem_of_lookup_2. }
    destruct (pick_from_spec s' _ _ Hh Hf 8 0 eq_refl) as [[Hr _]|(j & l' & r & Hr & _ & HQ & _ & Hin & _)].
    + exists 0. split; [exact Hr|]. intros H0. apply list_elem_of_lookup_1 in H0 as [i Hi].
      by destruct (Hl i 0 Hi).
    + exists r. split; [exact Hr|]. intros Hrl. destruct (decide (j = k)) as [->|].
      * rewrite list_lookup_insert_eq in HQ by lia. injection HQ as <-. by apply elem_of_nil in Hin.
      * rewrite list_lookup_insert_ne in HQ by done.
        assert (j = k); [|done]. eapply queues_disjoint; [apply Hwf|exact HQ|exact Hk|done|done].
Qed.

(** A state with process 1 running and process 2 waiting in bucket 3. *)
Definition demo_entity (rp inq : Z) : sched_entity := MkSE 0 5 0 7403 3 3 0 0 0 5 0 0 0 rp inq.
Definition demo_state : sstate :=
  MkS (<[1 := MkProc RUNNING 0 (demo_entity 3 0)]> (<[2 := MkProc RUNNABLE 0 (demo_entity 3 1)]> ∅))
    (MkRq [0;0;0;2;0;0;0;0] [0;0;0;2;0;0;0;0] [0;0;0;1;0;0;0;0] 1 1 46273 0) (MkStats 1 0 0 0).
Definition demo_queues : list (list Z) := [[];[];[];[2];[];[];[];[]].

Lemma demo_inv : sched_inv demo_state demo_queues.
Proof.
  split.
  - constructor; [done| |by repeat constructor; set_solver|done].
    intros k l Hk. do 8 (destruct k as [|k]; [simpl in Hk; injection Hk as <-;
      (split; [done|split; [done|split; [done|]]]); intros i p Hi; destruct i as [|i]; try done;
      injection Hi as <-; (split; [done|]); eexists; (split; [vm_compute; reflexivity|done])|]); done.
  - intros p x Hx. unfold demo_state in Hx. simpl in Hx.
    rewrite !lookup_insert_Some, lookup_empty in Hx.
    destruct Hx as [[<- <-]|[_ [[<- <-]|[_ Hx]]]]; [| |done];
      (constructor; simpl; try done; try lia; set_solver).
Qed.

Lemma sched_sleep_breaks_queue_witness :
  match sched_sleep 9 1 77 demo_state with
  | Ret (_, s') => total_runnable (rq s') = 0
  | _ => False
  end /\ queue_tails (rq demo_state) !! 3%nat = Some 2.
Proof.
  split; [|reflexivity].
  destruct (sched_sleep_breaks_queue demo_state demo_queues 1 (MkProc RUNNING 0 (demo_entity 3 0)) 9 77 3 [2]
    demo_inv ltac:(reflexivity) ltac:(simpl; set_solver) ltac:(done) ltac:(reflexivity))
    as (s' & -> & _ & _ & _ & H & _). exact H.
Defined.

Lemma qweight_change ps ps' l p : NoDup l -> p ∈ l ->
  (forall q, q ∈ l -> q <> p -> weight_of ps' q = weight_of ps q) ->
  qweight ps' l = qweight ps l - weight_of ps p + weight_of ps' p.
Proof.
  intros Hnd Hp. apply list_elem_of_split in Hp as (a & b & ->).
  destruct (nodup_mid _ _ _ Hnd) as (Hpa & Hpb & _).
  intros H. rewrite !qweight_app. simpl.
  assert (forall c, (forall q, q ∈ c -> q ∈ a ++ p :: b /\ q <> p) -> qweight ps' c = qweight ps c) as E.
  { induction c as [|q c IH]; intros Hc; simpl; [done|]. destruct (Hc q) as [? ?]; [by left|].
    rewrite H by done. rewrite IH; [done|]. intros r Hr. apply Hc. by right. }
  rewrite (E a), (E b); [lia|..]; intros q Hq.
  - split; [set_solver|]. by intros ->.
  - split; [set_solver|]. by intros ->.
Qed.

(** Changing the priority of a queued process to another one moves it to
    the new queue but subtracts the new weight from [total_weight] and adds it
    back: the recorded load does not change although the load does, and from
    then on every time slice is computed from a wrong total. *)
Theorem total_weight_drift s Q p x prio (Hinv : sched_inv s Q) (Hw : weight_ok s Q)
    (Htw : 0 <= total_weight (rq s) < 2 ^ 64)
    (Hx : procs s !! p = Some x) (Hp : p ∈ concat Q) (Hin : in_runqueue (sched x) = 1)
    (Hprio : 0 <= prio < 8) (Hne : prio <> dynamic_priority (sched x)) :
  exists s' Q', sched_set_priority p prio s = Ret (tt, s') /\ sched_inv s' Q' /\
    concat Q' ≡ₚ concat Q /\ total_weight (rq s') = total_weight (rq s) /\ ~ weight_ok s' Q'.
Proof.
  pose proof (si_proc _ _ Hinv p x Hx) as Hpx.
  unfold sched_set_priority, SCHED_PRIORITY_LEVELS. destruct (Z.leb_spec 8 prio); [lia|].
  set (f := fun se : sched_entity => _ : sched_entity).
  set (x1 := set_sched x (f (sched x))). set (s1 := MkS (<[p := x1]> (procs s)) (rq s) (stats s)).
  assert (sched_inv s1 Q) as Hinv1.
  { apply sched_inv_put; [done|done|intros _; exists x; by split|].
    destruct Hpx. constructor; simpl; try done; lia. }
  assert (procs s1 !! p = Some x1) as Hx1 by apply lookup_insert_eq.
  destruct (dequeue_inv s1 Q p x1 Hinv1 Hx1 Hp)
    as (s2 & Q2 & k & Hr2 & Hinv2 & HC2 & _ & Hrel2 & Hx2 & _ & Hw2).
  pose proof (rw_nodup _ _ (si_wf _ _ Hinv)) as Hnd. pose proof Hnd as Hnd'.
  rewrite HC2 in Hnd'. apply NoDup_cons in Hnd' as [Hnp _].
  destruct (enqueue_inv s2 Q2 p _ Hinv2 Hx2 Hnp) as (s3 & Q3 & Hr3 & Hinv3 & HC3 & _ & Hrel3 & Hw3).
  { simpl. by apply (po_state _ _ _ Hpx). }
  assert (concat Q3 ≡ₚ concat Q) as HC by (by rewrite HC3, HC2).
  assert (total_weight (rq s3) = total_weight (rq s)) as HT.
  { rewrite Hw3, (weight_of_relinked _ _ p Hrel2), Hw2. change (rq s1) with (rq s).
    rewrite wrap_add_l. rewrite wrap_small by lia. lia. }
  exists s3, Q3. split; [|split; [done|split; [done|split; [done|]]]].
  { erewrite bind_step by (by eapply upd_sched_step). fold f x1 s1. unfold requeue.
    erewrite bind_step by (by apply get_proc_step).
    rewrite bool_decide_eq_true_2 by (by apply (po_state _ _ _ Hpx)).
    change (in_runqueue (sched x1)) with (in_runqueue (sched x)). rewrite Hin. simpl.
    by erewrite bind_step by exact Hr2. }
  unfold weight_ok in *. rewrite HT, Hw.
  rewrite (qweight_relinked _ _ _ Hrel3), (qweight_relinked _ _ _ Hrel2), (qweight_perm _ _ _ HC).
  rewrite (qweight_change (procs s) (procs s1) (concat Q) p Hnd Hp).
  2:{ intros q _ Hq. unfold weight_of, s1. simpl. by rewrite lookup_insert_ne. }
  destruct (prio_weight prio Hprio) as (w' & E' & Hw').
  destruct (prio_weight _ (po_dyn _ _ _ Hpx)) as (w & E & Hwr).
  assert (weight_of (procs s) p = w) as ->.
  { unfold weight_of, sched_entity_weight. by rewrite Hx, E. }
  assert (weight_of (procs s1) p = w') as ->.
  { unfold weight_of, sched_entity_weight. rewrite Hx1. simpl. by rewrite E'. }
  assert (w' <> w) as Hww.
  { intros ->. apply Hne. revert E E' Hprio. pose proof (po_dyn _ _ _ Hpx) as Hd. clear -Hd.
    generalize dependent (dynamic_priority (sched x)). intros d Hd E E' Hp.
    assert (d = 0 \/ d = 1 \/ d = 2 \/ d = 3 \/ d = 4 \/ d = 5 \/ d = 6 \/ d = 7) as C by lia.
    assert (prio = 0 \/ prio = 1 \/ prio = 2 \/ prio = 3 \/ prio = 4 \/ prio = 5 \/ prio = 6 \/ prio = 7)
      as C' by lia.
    destruct C as [->|[->|[->|[->|[->|[->|[->| ->]]]]]]];
      injection E as <-; destruct C' as [->|[->|[->|[->|[->|[->|[->| ->]]]]]]]; done. }
  intros Heq. unfold wrap in Heq.
  assert ((w' - w) mod 2 ^ 64 = 0) as Hz; [|apply Z.mod_divide in Hz as [c Hc]; lia].
  replace (w' - w) with ((qweight (procs s) (concat Q) - w + w') - qweight (procs s) (concat Q)) by lia.
  by rewrite Zminus_mod, <- Heq, Z.sub_diag.
Qed.
Lemma total_weight_drift_witness :
  exists s', sched_set_priority 2 5 demo_state = Ret (tt, s') /\ total_weight (rq s') = 46273.
Proof.
  destruct (total_weight_drift demo_state demo_queues 2 (MkProc RUNNABLE 0 (demo_entity 3 1)) 5
    demo_inv ltac:(reflexivity) ltac:(simpl; lia) ltac:(reflexivity) ltac:(simpl; set_solver)
    ltac:(reflexivity) ltac:(lia) ltac:(simpl; lia)) as (s' & Q' & E & _ & _ & H & _).
  exists s'. split; [exact E|exact H].
Defined.

Lemma sched_reachable_ok_witness :
  exists s', run_op (OCreate 4096) (MkS ∅ rq_empty (MkStats 0 0 0 0)) = Ret (tt, s').
Proof. exact (proj2 (sched_reachable_ok _ reach_boot) (OCreate 4096) ltac:(done)). Defined.

Lemma sched_pick_next_correct_witness : sched_pick_next 9 demo_state = Ret 2.
Proof.
  assert (forall l, l ∈ demo_queues -> (length l < 9)%nat) as Hf.
  { intros l Hl. unfold demo_queues in Hl. repeat (apply elem_of_cons in Hl as [->|Hl]; [simpl; lia|]).
    by apply elem_of_nil in Hl. }
  destruct (sched_pick_next_correct demo_state demo_queues 9 (si_wf _ _ demo_inv) Hf)
    as [[_ E]|(k & l & p & E & _)]; [discriminate E|].
  rewrite E. vm_compute in E. injection E as <-. reflexivity.
Defined.
