(* ===== verification/KMalloc.v ===== *)
(** * The kernel heap (kernel/src/mem/kmalloc.c)

    [kmalloc] serves requests of at most half a page from "mixed" pages (a
    bump allocator with a header of four bytes before every block) and larger
    ones from runs of whole pages with a header of sixteen bytes.  [kmfree]
    recognises the kind of a block by the magic number at the start of its
    page.  The slab and arena allocators of the same file are modelled too,
    though [kmalloc] never calls them.

    The state is the page allocator's ([phys], PhysMem.v) and the static
    variables of the file; headers live in [ram].  The spinlocks are taken
    and released inside every operation and have no state of their own here.
    [fuel] bounds the walk over mixed pages and the page allocator's scan. *)
From S2P Require Import Prelude Mem PhysMem.

(** ** Constants, sizes and classes *)

Definition KM_ALIGN : Z := 16.
Definition KM_MIN_CLASS : Z := 16.
Definition KM_MAX_SMALL : Z := PAGE_SIZE / 2.
Definition KM_MAGIC_SMALL : Z := 0xC0FFEE11.
Definition KM_MAGIC_LARGE : Z := 0xC0FFEE22.
Definition KM_MAGIC_ARENA : Z := 0xC0FFEE33.
Definition KM_MAGIC_MIXED : Z := 0xC0FFEE44.
Definition ALLOC_HDR_MAGIC : Z := 0xBEEF.
Definition MIXED_PAGE_START : Z := 16.
Definition MIXED_PAGE_MAX_USED : Z := PAGE_SIZE - 256.
Definition KM_NUM_BINS : nat := 8.

Definition km_align_up (n a : Z) : Z := Z.land (wrap 64 (n + (a - 1))) (Z.lnot (a - 1)).
Definition km_next_pow2_u32 (x : Z) : Z :=
  let x := wrap 32 (x - 1) in
  let x := Z.lor x (Z.shiftr x 1) in
  let x := Z.lor x (Z.shiftr x 2) in
  let x := Z.lor x (Z.shiftr x 4) in
  let x := Z.lor x (Z.shiftr x 8) in
  let x := Z.lor x (Z.shiftr x 16) in
  wrap 32 (x + 1).
Definition km_clamp_u32 (v lo hi : Z) : Z := if v <? lo then lo else if hi <? v then hi else v.
Definition km_class_idx_to_size (idx : Z) : Z := Z.shiftl 16 idx.

(** The [while] loop counts classes up; 28 of them reach past 32 bits. *)
Fixpoint class_idx_from (fuel : nat) (idx s : Z) : Z :=
  match fuel with
  | O => idx
  | S fuel' => if km_class_idx_to_size idx <? s then class_idx_from fuel' (idx + 1) s else idx
  end.
Definition km_size_to_class_idx (n : Z) : Z :=
  let need := wrap 32 (km_align_up n KM_ALIGN) in
  let need := km_clamp_u32 need KM_MIN_CLASS KM_MAX_SMALL in
  class_idx_from 28 0 (km_next_pow2_u32 need).

(** ** State *)

Record kheap := MkHeap {
  phys : pmem; mixed_page_head : Z; arena_head : Z; km_bins : list Z
}.
Definition set_phys (s : kheap) (p : pmem) : kheap :=
  MkHeap p (mixed_page_head s) (arena_head s) (km_bins s).
Definition set_mixed_head (s : kheap) (h : Z) : kheap :=
  MkHeap (phys s) h (arena_head s) (km_bins s).
Definition set_arena_head (s : kheap) (h : Z) : kheap :=
  MkHeap (phys s) (mixed_page_head s) h (km_bins s).
Definition set_bins (s : kheap) (b : list Z) : kheap :=
  MkHeap (phys s) (mixed_page_head s) (arena_head s) b.

Definition rd16 (a : Z) : ST kheap Z := reads (fun s => load16 (ram (phys s)) a).
Definition rd32 (a : Z) : ST kheap Z := reads (fun s => load32 (ram (phys s)) a).
Definition rd64 (a : Z) : ST kheap Z := reads (fun s => load64 (ram (phys s)) a).
Definition wr (f : mem -> mem) : ST kheap unit :=
  st_modify (fun s => set_phys s (set_ram (phys s) (f (ram (phys s))))).
Definition wr16 (a v : Z) : ST kheap unit := wr (fun m => store16 m a v).
Definition wr32 (a v : Z) : ST kheap unit := wr (fun m => store32 m a v).
Definition wr64 (a v : Z) : ST kheap unit := wr (fun m => store64 m a v).
Definition new_page : ST kheap Z :=
  updates (fun s => let '(p, q) := kalloc (phys s) in (p, set_phys s q)).
Definition on_phys {A} (f : ST pmem A) : ST kheap A := fun s =>
  match f (phys s) with
  | Ret (a, q) => Ret (a, set_phys s q)
  | Panic m => Panic m
  | Undef => Undef
  | NoFuel => NoFuel
  end.
Definition free_page (p : Z) : ST kheap unit := on_phys (effect (kfree p)).

(** [ptr & ~(uintptr_t)(PAGE_SIZE - 1)]. *)
Definition page_of (p : Z) : Z := Z.land p (Z.lnot (PAGE_SIZE - 1)).

Definition kmalloc_init (s : kheap) : kheap := MkHeap (phys s) 0 0 (replicate KM_NUM_BINS 0).

(** ** Mixed pages *)

(** [mixed_page_hdr]: [magic], [used_bytes], [free_offset], [pad]. *)
Definition km_new_mixed_page : ST kheap Z :=
  page ← new_page;
  if page =? 0 then mret 0
  else
    _ ← wr32 page KM_MAGIC_MIXED;
    _ ← wr32 (page + 4) MIXED_PAGE_START;
    _ ← wr32 (page + 8) MIXED_PAGE_START;
    _ ← wr32 (page + 12) 0;
    mret page.

(** Take a block of [size] bytes from the page ([alloc_hdr]: [size],
    [magic_check]). *)
Definition bump (page size total_needed : Z) : ST kheap Z :=
  off ← rd32 (page + 8);
  let ahdr := page + off in
  _ ← wr16 ahdr size;
  _ ← wr16 (ahdr + 2) ALLOC_HDR_MAGIC;
  off' ← rd32 (page + 8);
  _ ← wr32 (page + 8) (off' + total_needed);
  used ← rd32 (page + 4);
  _ ← wr32 (page + 4) (used + total_needed);
  mret (ahdr + 4).

(** The [while (page)] walk: a page with room, 0 when it ends without one. *)
Fixpoint find_mixed (fuel : nat) (page total_needed : Z) : ST kheap Z :=
  match fuel with
  | O => st_nofuel
  | S fuel' =>
      if page =? 0 then mret 0
      else
        off ← rd32 (page + 8);
        let available := wrap 32 (PAGE_SIZE - off) in
        if (total_needed <=? available) && (off <? MIXED_PAGE_MAX_USED) then mret page
        else
          let page := wrap 64 (page + PAGE_SIZE) in
          if truth (Z.land page (PAGE_SIZE - 1)) then mret 0
          else find_mixed fuel' page total_needed
  end.

Definition km_alloc_from_mixed_page_locked (fuel : nat) (size : Z) : ST kheap Z :=
  let aligned_size := km_align_up size KM_ALIGN in
  let total_needed := wrap 64 (4 + aligned_size) in
  head ← reads mixed_page_head;
  page ← find_mixed fuel head total_needed;
  if truth page then bump page size total_needed
  else
    new ← km_new_mixed_page;
    if new =? 0 then mret 0
    else
      _ ← st_modify (fun s => set_mixed_head s new);
      bump new size total_needed.

Definition km_free_from_mixed_page_locked (p : Z) : ST kheap unit :=
  let ahdr := p - 4 in
  check ← rd16 (ahdr + 2);
  if negb (check =? ALLOC_HDR_MAGIC) then mret tt
  else
    let page := page_of p in
    magic ← rd32 page;
    if negb (magic =? KM_MAGIC_MIXED) then mret tt
    else
      _ ← wr16 (ahdr + 2) 0;
      size ← rd16 ahdr;
      let freed_size := 4 + km_align_up size KM_ALIGN in
      used ← rd32 (page + 4);
      if freed_size <=? used then wr32 (page + 4) (used - freed_size) else mret tt.

(** ** Arenas: [next], [magic], [obj_size], [capacity], [used_count], [pad] *)

Definition arena_bitmap (a : Z) : Z := a + 24.
Definition arena_objs_base (capacity a : Z) : Z := a + 24 + (capacity + 63) / 64 * 8.
Definition arena_obj_at (capacity a idx : Z) : Z := arena_objs_base capacity a + idx * KM_ALIGN.

Definition arena_capacity : Z :=
  let avail := PAGE_SIZE - 24 in
  let cap := avail * 8 / (1 + 16 * 8) in
  let bitmap_size := (cap + 63) / 64 * 8 in
  (avail - bitmap_size) / KM_ALIGN.

Fixpoint clear_words (n : nat) (a : Z) : ST kheap unit :=
  match n with
  | O => mret tt
  | S n' => _ ← wr64 a 0; clear_words n' (a + 8)
  end.

Definition km_new_arena : ST kheap Z :=
  page ← new_page;
  if page =? 0 then mret 0
  else
    _ ← wr32 (page + 8) KM_MAGIC_ARENA;
    _ ← wr16 (page + 12) KM_ALIGN;
    _ ← wr64 page 0;
    _ ← wr16 (page + 14) arena_capacity;
    _ ← wr16 (page + 16) 0;
    _ ← wr16 (page + 18) 0;
    _ ← clear_words (Z.to_nat ((arena_capacity + 63) / 64)) (arena_bitmap page);
    mret page.

(** The first arena with a free object. *)
Fixpoint find_arena (fuel : nat) (a : Z) : ST kheap Z :=
  match fuel with
  | O => st_nofuel
  | S fuel' =>
      if a =? 0 then mret 0
      else
        used ← rd16 (a + 16);
        cap ← rd16 (a + 14);
        if cap <=? used then next ← rd64 a; find_arena fuel' next else mret a
  end.

(** The first clear bit of a bitmap word below the capacity, if any. *)
Fixpoint first_clear (k : nat) (bit word base cap : Z) : option Z :=
  match k with
  | O => None
  | S k' =>
      if cap <=? base + bit then None
      else if Z.testbit word bit then first_clear k' (bit + 1) word base cap
      else Some bit
  end.

Fixpoint scan_arena (k : nat) (i a cap : Z) : ST kheap Z :=
  match k with
  | O => mret 0
  | S k' =>
      word ← rd64 (arena_bitmap a + 8 * i);
      match first_clear 64 0 word (i * 64) cap with
      | Some bit =>
          _ ← wr64 (arena_bitmap a + 8 * i) (Z.lor word (Z.shiftl 1 bit));
          used ← rd16 (a + 16);
          _ ← wr16 (a + 16) (used + 1);
          mret (arena_obj_at cap a (i * 64 + bit))
      | None => scan_arena k' (i + 1) a cap
      end
  end.

Definition km_alloc_from_arena_locked (fuel : nat) : ST kheap Z :=
  head ← reads arena_head;
  a ← find_arena fuel head;
  a ← (if a =? 0 then
         new ← km_new_arena;
         if new =? 0 then mret 0
         else
           _ ← wr64 new head;
           _ ← st_modify (fun s => set_arena_head s new);
           mret new
       else mret a);
  if a =? 0 then mret 0
  else
    cap ← rd16 (a + 14);
    scan_arena (Z.to_nat ((cap + 63) / 64)) 0 a cap.

Definition km_free_to_arena_locked (a ptr : Z) : ST kheap unit :=
  cap ← rd16 (a + 14);
  let off := wrap 64 (ptr - arena_objs_base cap a) in
  let idx := wrap 16 (off / KM_ALIGN) in
  if cap <=? idx then mret tt
  else
    let word_at := arena_bitmap a + 8 * (idx / 64) in
    word ← rd64 word_at;
    _ ← wr64 word_at (Z.land word (Z.lnot (Z.shiftl 1 (idx mod 64))));
    used ← rd16 (a + 16);
    wr16 (a + 16) (used - 1).

(** ** Slabs: [next], [obj_size], [capacity], [free_count], [class_idx],
    [magic], [top] *)

Definition slab_stack_base (h : Z) : Z := h + 24.
Definition slab_objs_base (capacity h : Z) : Z := slab_stack_base h + capacity * 2.
Definition slab_obj_at (capacity obj_size h idx : Z) : Z := slab_objs_base capacity h + idx * obj_size.

Definition slab_capacity (obj_size : Z) : Z :=
  let avail := PAGE_SIZE - 24 in
  let cap := avail / (obj_size + 2) in
  let obj_area := PAGE_SIZE - (24 + cap * 2) in
  obj_area / obj_size.

(** [for (i = 0; i < cap; i++) stk[i] = cap - 1 - i], from [i] on. *)
Fixpoint fill_stack (n : nat) (i cap stk : Z) : ST kheap unit :=
  match n with
  | O => mret tt
  | S n' => _ ← wr16 (stk + 2 * i) (cap - 1 - i); fill_stack n' (i + 1) cap stk
  end.

Definition km_new_slab (class_idx : Z) : ST kheap Z :=
  page ← new_page;
  if page =? 0 then mret 0
  else
    let obj_size := km_class_idx_to_size class_idx in
    let cap := slab_capacity obj_size in
    _ ← wr64 page 0;
    _ ← wr16 (page + 8) obj_size;
    _ ← wr16 (page + 14) class_idx;
    _ ← wr32 (page + 16) KM_MAGIC_SMALL;
    _ ← wr16 (page + 10) cap;
    _ ← wr16 (page + 12) cap;
    _ ← wr16 (page + 20) cap;
    _ ← fill_stack (Z.to_nat cap) 0 cap (slab_stack_base page);
    mret page.

Definition bin_head (idx : Z) : ST kheap Z := reads (fun s => default 0 (zget (km_bins s) idx)).
Definition set_bin_head (idx h : Z) : ST kheap unit :=
  st_modify (fun s => set_bins s (zset (km_bins s) idx h)).

(** Put a new slab of the class in front of the bin. *)
Definition fresh_slab (class_idx : Z) : ST kheap Z :=
  n ← km_new_slab class_idx;
  if n =? 0 then mret 0
  else _ ← wr64 n 0; _ ← set_bin_head class_idx n; mret n.

Definition km_alloc_from_bin_locked (class_idx : Z) : ST kheap Z :=
  h ← bin_head class_idx;
  h ← (if h =? 0 then fresh_slab class_idx else mret h);
  if h =? 0 then mret 0
  else
    top ← rd16 (h + 20);
    h ← (if top =? 0 then
           n ← rd64 h;
           if n =? 0 then fresh_slab class_idx else _ ← set_bin_head class_idx n; mret n
         else mret h);
    if h =? 0 then mret 0
    else
      top ← rd16 (h + 20);
      _ ← wr16 (h + 20) (top - 1);
      top ← rd16 (h + 20);
      idx ← rd16 (slab_stack_base h + 2 * top);
      fc ← rd16 (h + 12);
      _ ← wr16 (h + 12) (fc - 1);
      top ← rd16 (h + 20);
      _ ← (if top =? 0 then
             n ← rd64 h;
             _ ← set_bin_head class_idx (if n =? 0 then h else n);
             if n =? 0 then mret tt else wr64 h 0
           else mret tt);
      cap ← rd16 (h + 10);
      size ← rd16 (h + 8);
      mret (slab_obj_at cap size h idx).

Definition km_free_to_bin_locked (class_idx h ptr : Z) : ST kheap unit :=
  cap ← rd16 (h + 10);
  size ← rd16 (h + 8);
  let idx := wrap 16 (wrap 64 (ptr - slab_objs_base cap h) / size) in
  top ← rd16 (h + 20);
  _ ← wr16 (slab_stack_base h + 2 * top) idx;
  _ ← wr16 (h + 20) (top + 1);
  fc ← rd16 (h + 12);
  _ ← wr16 (h + 12) (fc + 1);
  fc ← rd16 (h + 12);
  _ ← (if fc =? 1 then
         head ← bin_head class_idx;
         _ ← wr64 h head;
         set_bin_head class_idx h
       else mret tt);
  if fc =? cap then
    head ← bin_head class_idx;
    next ← rd64 h;
    _ ← (if head =? h then set_bin_head class_idx next else mret tt);
    free_page h
  else mret tt.

(** ** The public interface *)

Definition kmalloc (fuel : nat) (n : Z) : ST kheap Z :=
  let n := if n =? 0 then 1 else n in
  if n <=? KM_MAX_SMALL then km_alloc_from_mixed_page_locked fuel n
  else
    let need := km_align_up n KM_ALIGN in
    let total := wrap 64 (need + 16) in
    let pages := PAGE_ROUND_UP total / PAGE_SIZE in
    base ← on_phys (kalloc_pages fuel pages);
    if base =? 0 then mret 0
    else
      _ ← wr32 base KM_MAGIC_LARGE;
      _ ← wr32 (base + 4) pages;
      _ ← wr32 (base + 8) 0;
      _ ← wr32 (base + 12) 0;
      mret (base + 16).

Definition kcmalloc (fuel : nat) (n : Z) : ST kheap Z :=
  ptr ← kmalloc fuel n;
  if ptr =? 0 then mret 0
  else _ ← wr (fun m => fill m ptr 0 n); mret ptr.

Definition kmfree (p : Z) : ST kheap unit :=
  if p =? 0 then mret tt
  else
    let base := page_of p in
    magic ← rd32 base;
    if magic =? KM_MAGIC_MIXED then km_free_from_mixed_page_locked p
    else if magic =? KM_MAGIC_ARENA then km_free_to_arena_locked base p
    else if magic =? KM_MAGIC_SMALL then
      idx ← rd16 (base + 14);
      if Z.of_nat KM_NUM_BINS <=? idx then st_undef else km_free_to_bin_locked idx base p
    else if magic =? KM_MAGIC_LARGE then
      let lh := p - 16 in
      m ← rd32 lh;
      if m =? KM_MAGIC_LARGE then
        pages ← rd32 (lh + 4);
        on_phys (effect (kfree_pages lh pages))
      else free_page base
    else free_page base.
