(* ===== verification/KMallocFacts.v ===== *)
(** * What the kernel heap guarantees (about the definitions of KMalloc.v)

    Small blocks: [mixed_ok] relates a mixed page to the sizes of the blocks
    it holds; [kmalloc_mixed_correct] and [kmalloc_new_page] show that
    [kmalloc] extends that list by a block disjoint from the others, and
    [kmfree_mixed_correct] what freeing does (and does not do).
    [kmalloc_foreign_page] is the case the walk over mixed pages gets wrong.
    Large blocks: [kmalloc_large_roundtrip] and [kmalloc_huge]. *)
From S2P Require Import Prelude Mem PhysMem KMalloc.

(** ** Rounding *)

Definition up16 (n : Z) : Z := 16 * ((n + 15) / 16).

Lemma km_align_up_16 n : 0 <= n < 2 ^ 64 - 15 -> km_align_up n KM_ALIGN = up16 n.
Proof.
  intros Hn. unfold km_align_up, KM_ALIGN, up16. rewrite wrap_small by lia.
  change (16 - 1) with (Z.ones 4). rewrite land_not_ones by lia. change (2 ^ 4) with 16.
  change (Z.ones 4) with 15. zify_div.
Qed.

Lemma up16_bounds n : n <= up16 n < n + 16.
Proof. unfold up16. zify_div. Qed.

Lemma page_of_spec p : page_of p = p - p mod 4096.
Proof.
  unfold page_of. change (PAGE_SIZE - 1) with (Z.ones 12). by rewrite land_not_ones by lia.
Qed.

Lemma page_of_in p a : p mod 4096 = 0 -> p <= a < p + 4096 -> page_of a = p.
Proof. intros. rewrite page_of_spec. zify_div. Qed.

(** ** Mixed pages *)

(** Start offset and size of the blocks laid out from offset [o] on. *)
Fixpoint layout (o : Z) (sizes : list Z) : list (Z * Z) :=
  match sizes with
  | [] => []
  | n :: sizes' => (o + 4, n) :: layout (o + 4 + up16 n) sizes'
  end.
Fixpoint end_of (o : Z) (sizes : list Z) : Z :=
  match sizes with
  | [] => o
  | n :: sizes' => end_of (o + 4 + up16 n) sizes'
  end.

Lemma layout_snoc o sizes n :
  layout o (sizes ++ [n]) = layout o sizes ++ [(end_of o sizes + 4, n)].
Proof. revert o. induction sizes as [|k sizes IH]; intros o; simpl; [done|]. by rewrite IH. Qed.
Lemma end_of_snoc o sizes n : end_of o (sizes ++ [n]) = end_of o sizes + 4 + up16 n.
Proof. revert o. induction sizes as [|k sizes IH]; intros o; simpl; [done|]. by rewrite IH. Qed.

Lemma end_of_ge o sizes : Forall (fun n => 0 <= n) sizes -> o <= end_of o sizes.
Proof.
  intros H. revert o. induction H as [|n sizes Hn _ IH]; intros o; simpl; [lia|].
  specialize (IH (o + 4 + up16 n)). pose proof (up16_bounds n). lia.
Qed.

(** Every block lies between the header of the page and the end. *)
Lemma layout_range o sizes b n : Forall (fun n => 0 <= n) sizes -> (b, n) ∈ layout o sizes ->
  o + 4 <= b /\ b + up16 n <= end_of o sizes /\ 0 <= n /\ n ∈ sizes.
Proof.
  intros H. revert o. induction H as [|k sizes Hk Hs IH]; intros o Hb; simpl in *.
  - by apply elem_of_nil in Hb.
  - pose proof (up16_bounds k). apply elem_of_cons in Hb as [[= -> ->]|Hb].
    + pose proof (end_of_ge (o + 4 + up16 k) sizes Hs). split; [lia|]. split; [lia|]. split; [lia|by left].
    + destruct (IH _ Hb) as (? & ? & ? & ?). split; [lia|]. split; [lia|]. split; [lia|by right].
Qed.

(** The page holds blocks of these sizes, in this order from offset 16. *)
Record mixed_ok (m : mem) (page : Z) (sizes : list Z) : Prop := {
  mx_page : page mod 4096 = 0 /\ 0 < page /\ page + 4096 <= 2 ^ 64;
  mx_magic : load32 m page = KM_MAGIC_MIXED;
  mx_off : load32 m (page + 8) = end_of 16 sizes;
  mx_sizes : Forall (fun n => 1 <= n <= 2048) sizes;
  mx_end : end_of 16 sizes <= 4096;
  mx_hdr b n : (b, n) ∈ layout 16 sizes ->
    load16 m (page + b - 4) = n /\ load16 m (page + b - 2) = ALLOC_HDR_MAGIC
}.

Lemma mixed_sizes_nonneg m page sizes : mixed_ok m page sizes -> Forall (fun n => 0 <= n) sizes.
Proof. intros H. eapply Forall_impl; [apply (mx_sizes _ _ _ H)|]. simpl. lia. Qed.

(** The memory after [bump]. *)
Definition bumped (m : mem) (page size total : Z) : mem :=
  let off := load32 m (page + 8) in
  let m := store16 (store16 m (page + off) size) (page + off + 2) ALLOC_HDR_MAGIC in
  let m := store32 m (page + 8) (load32 m (page + 8) + total) in
  store32 m (page + 4) (load32 m (page + 4) + total).

Lemma bump_run page size total s :
  bump page size total s = Ret (page + load32 (ram (phys s)) (page + 8) + 4,
    set_phys s (set_ram (phys s) (bumped (ram (phys s)) page size total))).
Proof. reflexivity. Qed.

Ltac mem_out := unfold load16, load32, load64, store16, store32, store64;
  rewrite !load_store_le_out by lia.

Lemma bumped_out m page size total x : let off := load32 m (page + 8) in
  (x < page + 4 \/ page + 12 <= x) -> (x < page + off \/ page + off + 4 <= x) ->
  bumped m page size total x = m x.
Proof.
  intros off H1 H2. unfold bumped. fold off. unfold store32, store16.
  rewrite !store_le_out by lia. done.
Qed.

(** Adding a block behind the others. *)
Lemma bumped_ok m page sizes n : mixed_ok m page sizes -> 1 <= n <= 2048 ->
  end_of 16 sizes + 4 + up16 n <= 4096 ->
  mixed_ok (bumped m page n (4 + up16 n)) page (sizes ++ [n]).
Proof.
  intros Hm Hn He. pose proof Hm as [Hp Hmag Hoff Hsz _ Hh]. pose proof (mixed_sizes_nonneg _ _ _ Hm) as Hs0.
  pose proof (end_of_ge 16 sizes Hs0) as H16. pose proof (up16_bounds n).
  set (m' := bumped _ _ _ _).
  assert (forall a k, (a + Z.of_nat k <= page + 4 \/ page + 12 <= a) ->
    (a + Z.of_nat k <= page + end_of 16 sizes \/ page + end_of 16 sizes + 4 <= a) ->
    load_le m' a k = load_le m a k) as Hout.
  { intros a k H1 H2. apply load_le_ext. intros x Hx. apply bumped_out; rewrite ?Hoff; lia. }
  constructor.
  - done.
  - unfold load32. rewrite Hout by lia. exact Hmag.
  - unfold m', bumped. rewrite Hoff. rewrite load32_store32_out by lia. rewrite load32_store32.
    rewrite end_of_snoc. mem_out. change (load_le m (page + 8) 4) with (load32 m (page + 8)).
    rewrite Hoff, wrap_small by lia. lia.
  - apply Forall_app. split; [done|]. by constructor.
  - rewrite end_of_snoc. lia.
  - intros b k. rewrite layout_snoc. intros Hb. apply elem_of_app in Hb as [Hb|Hb].
    + destruct (Hh b k Hb) as [E1 E2]. destruct (layout_range 16 sizes b k Hs0 Hb) as (R1 & R2 & R3 & R4).
      pose proof (up16_bounds k). unfold load16. rewrite !Hout by lia. done.
    + apply list_elem_of_singleton in Hb. injection Hb as -> ->.
      replace (page + (end_of 16 sizes + 4) - 4) with (page + end_of 16 sizes) by lia.
      replace (page + (end_of 16 sizes + 4) - 2) with (page + end_of 16 sizes + 2) by lia.
      unfold m', bumped. rewrite Hoff. split.
      * unfold load16, store32. rewrite !load_store_le_out by lia. unfold store16.
        rewrite load_store_le_out by lia. rewrite load_store_le. apply Z.mod_small. simpl. lia.
      * unfold load16, store32. rewrite !load_store_le_out by lia. unfold store16.
        rewrite load_store_le. reflexivity.
Qed.

Lemma find_mixed_head fuel page total s : page <> 0 ->
  total <= wrap 32 (4096 - load32 (ram (phys s)) (page + 8)) ->
  load32 (ram (phys s)) (page + 8) < 3840 ->
  find_mixed (S fuel) page total s = Ret (page, s).
Proof.
  intros Hp H1 H2. cbn [find_mixed]. destruct (Z.eqb_spec page 0); [done|].
  unfold mbind, st_bind, rd32, reads, PAGE_SIZE, MIXED_PAGE_MAX_USED.
  destruct (Z.leb_spec total (wrap 32 (4096 - load32 (ram (phys s)) (page + 8)))); [|lia].
  change (PAGE_SIZE - 256) with 3840.
  destruct (Z.ltb_spec (load32 (ram (phys s)) (page + 8)) 3840); [done|lia].
Qed.

(** The size [kmalloc] works with. *)
Definition asked (n : Z) : Z := if n =? 0 then 1 else n.

Lemma kmalloc_small_unfold fuel n s : 0 <= n <= 2048 ->
  kmalloc fuel n s = km_alloc_from_mixed_page_locked fuel (asked n) s /\
  1 <= asked n <= 2048 /\ wrap 64 (4 + km_align_up (asked n) KM_ALIGN) = 4 + up16 (asked n).
Proof.
  intros Hn. assert (1 <= asked n <= 2048) as Ha by (unfold asked; destruct (Z.eqb_spec n 0); lia).
  split; [|split; [done|]].
  - unfold kmalloc. fold (asked n). change KM_MAX_SMALL with 2048.
    destruct (Z.leb_spec (asked n) 2048); [done|lia].
  - rewrite km_align_up_16 by lia. pose proof (up16_bounds (asked n)). apply wrap_small. lia.
Qed.

(** While the current mixed page has room, [kmalloc] of up to 2048 bytes
    returns a block behind the ones already there: it overlaps no other
    block, stays inside the page, its header records the size, and no byte
    of the other blocks or outside of the page changes.  The block is not
    aligned to KM_ALIGN: its address is 4 modulo 16 in the first place of a
    page. *)
Theorem kmalloc_mixed_correct s sizes n fuel (Hn : 0 <= n <= 2048)
    (Hm : mixed_ok (ram (phys s)) (mixed_page_head s) sizes)
    (Hroom : end_of 16 sizes + 4 + up16 (asked n) <= 4096) (Hmax : end_of 16 sizes < 3840) :
  exists s', let p := mixed_page_head s + end_of 16 sizes + 4 in
    kmalloc (S fuel) n s = Ret (p, s') /\
    mixed_ok (ram (phys s')) (mixed_page_head s) (sizes ++ [asked n]) /\
    mixed_page_head s' = mixed_page_head s /\ freepages (phys s') = freepages (phys s) /\
    p + n <= mixed_page_head s + 4096 /\
    (forall b k, (b, k) ∈ layout 16 sizes -> mixed_page_head s + b + k <= p - 4 /\
       forall x, mixed_page_head s + b <= x < mixed_page_head s + b + k ->
         ram (phys s') x = ram (phys s) x) /\
    (forall x, x < mixed_page_head s \/ mixed_page_head s + 4096 <= x ->
       ram (phys s') x = ram (phys s) x).
Proof.
  destruct (kmalloc_small_unfold (S fuel) n s Hn) as (E & Ha & Et). rewrite E. clear E.
  pose proof (mx_off _ _ _ Hm) as Hoff. pose proof (mixed_sizes_nonneg _ _ _ Hm) as Hs0.
  pose proof (end_of_ge 16 sizes Hs0) as H16. pose proof (up16_bounds (asked n)).
  destruct (mx_page _ _ _ Hm) as (Hp1 & Hp2 & Hp3).
  eexists. split.
  { unfold km_alloc_from_mixed_page_locked. rewrite Et. erewrite bind_step by reflexivity.
    erewrite bind_step.
    2:{ apply find_mixed_head; [lia| |]; rewrite Hoff; [|lia]. rewrite wrap_small by lia. lia. }
    unfold truth. destruct (Z.eqb_spec (mixed_page_head s) 0); [lia|]. cbn [negb].
    rewrite bump_run, Hoff. reflexivity. }
  cbn [phys set_phys ram set_ram mixed_page_head freepages].
  split; [apply bumped_ok; [done|lia|done]|]. split; [done|]. split; [done|].
  split. { unfold asked in *. destruct (Z.eqb_spec n 0); lia. }
  split.
  - intros b k Hb. destruct (layout_range 16 sizes b k Hs0 Hb) as (R1 & R2 & R3 & R4).
    pose proof (up16_bounds k). split; [lia|]. intros x Hx. apply bumped_out; rewrite ?Hoff; lia.
  - intros x Hx. apply bumped_out; rewrite ?Hoff; lia.
Qed.

(** *** The current mixed page

    [head_at h page o]: [page] is the current mixed page and its blocks end
    at offset [o], whatever has been freed in it. *)
Record head_at (h : kheap) (page o : Z) : Prop := {
  hd_page : page mod 4096 = 0 /\ 0 < page /\ page + 4096 <= 2 ^ 64;
  hd_head : mixed_page_head h = page;
  hd_magic : load32 (ram (phys h)) page = KM_MAGIC_MIXED;
  hd_off : load32 (ram (phys h)) (page + 8) = o;
  hd_start : MIXED_PAGE_START <= o
}.

(** Changes of the memory behind the header that leave the page current. *)
Lemma head_at_ram h page o q : head_at h page o -> phys h = q \/ (exists m, q = set_ram (phys h) m /\
    forall a, a = page \/ a = page + 8 -> load32 m a = load32 (ram (phys h)) a) -> head_at (set_phys h q) page o.
Proof.
  intros [H1 H2 H3 H4 H5] [<-|(m & -> & Hm)]; split; try done; cbn [phys set_phys ram set_ram].
  - rewrite (Hm page) by auto. done.
  - rewrite (Hm (page + 8)) by auto. done.
Qed.

Lemma kmalloc_head h page o fuel n (Hh : head_at h page o) (Hn : 0 <= n <= 2048)
    (Ho : o < 3840) (Hr : o + 4 + up16 (asked n) <= 4096) :
  exists h', kmalloc (S fuel) n h = Ret (page + o + 4, h') /\ head_at h' page (o + 4 + up16 (asked n)).
Proof.
  destruct (kmalloc_small_unfold (S fuel) n h Hn) as (E & Ha & Et). pose proof (up16_bounds (asked n)).
  destruct Hh as [(P1 & P2 & P3) H2 H3 H4 H5]. unfold MIXED_PAGE_START in H5.
  exists (set_phys h (set_ram (phys h) (bumped (ram (phys h)) page (asked n) (4 + up16 (asked n))))). split.
  - rewrite E. unfold km_alloc_from_mixed_page_locked. rewrite Et. erewrite bind_step by reflexivity. rewrite H2.
    erewrite bind_step.
    2:{ apply find_mixed_head; [lia| |]; rewrite H4; [|lia]. rewrite wrap_small by lia. lia. }
    unfold truth. destruct (Z.eqb_spec page 0); [lia|]. cbn [negb]. by rewrite bump_run, H4.
  - split; [done|done| | |unfold MIXED_PAGE_START; lia]; cbn [phys set_phys ram set_ram].
    + rewrite <- H3. apply load_le_ext. intros x Hx. apply bumped_out; rewrite ?H4; lia.
    + unfold bumped. rewrite H4, load32_store32_out by lia. rewrite load32_store32. mem_out.
      change (load_le (ram (phys h)) (page + 8) 4) with (load32 (ram (phys h)) (page + 8)). rewrite H4, wrap_small; lia.
Qed.

Lemma kcmalloc_head h page o fuel n (Hh : head_at h page o) (Hn : 0 <= n <= 2048)
    (Ho : o < 3840) (Hr : o + 4 + up16 (asked n) <= 4096) :
  exists h', kcmalloc (S fuel) n h = Ret (page + o + 4, h') /\ head_at h' page (o + 4 + up16 (asked n)).
Proof.
  destruct (kmalloc_head h page o fuel n Hh Hn Ho Hr) as (h1 & E & Hh1). pose proof Hh as [(P1 & P2 & P3) _ _ _ H5].
  unfold MIXED_PAGE_START in H5. unfold kcmalloc. rewrite (bind_step _ _ _ _ _ E). destruct (Z.eqb_spec (page + o + 4) 0); [lia|].
  eexists. split; [reflexivity|].
  match goal with |- head_at ?h' _ _ => change h' with (set_phys h1 (set_ram (phys h1) (fill (ram (phys h1)) (page + o + 4) 0 n))) end.
  apply head_at_ram; [done|]. right. eexists. split; [reflexivity|]. intros a Ha. unfold load32. apply load_fill_out. left. lia.
Qed.

Lemma kmfree_head h page o p (Hh : head_at h page o) (Hp : page + 20 <= p < page + 4096) :
  exists h', kmfree p h = Ret (tt, h') /\ head_at h' page o.
Proof.
  pose proof Hh as [(P1 & P2 & P3) H2 H3 H4 H5]. unfold kmfree. destruct (Z.eqb_spec p 0); [lia|].
  rewrite (page_of_in page p) by lia. erewrite bind_step by reflexivity. rewrite H3. cbn [Z.eqb Pos.eqb KM_MAGIC_MIXED].
  unfold km_free_from_mixed_page_locked. erewrite bind_step by reflexivity.
  destruct (load16 (ram (phys h)) (p - 4 + 2) =? ALLOC_HDR_MAGIC); cbn [negb]; [|by exists h].
  rewrite (page_of_in page p) by lia. erewrite bind_step by reflexivity. rewrite H3. cbn [Z.eqb Pos.eqb KM_MAGIC_MIXED negb].
  erewrite bind_step by reflexivity. erewrite bind_step by reflexivity. erewrite bind_step by reflexivity. cbn [phys set_phys ram set_ram].
  set (m1 := store16 (ram (phys h)) (p - 4 + 2) 0).
  assert (forall a, a = page \/ a = page + 8 -> load32 m1 a = load32 (ram (phys h)) a) as Hm1.
  { intros a Ha. subst m1. unfold load32, store16. apply load_store_le_out. lia. }
  match goal with |- context [if ?b then _ else _] => destruct b end; (eexists; split; [reflexivity|]).
  - match goal with |- head_at (set_phys _ (set_ram _ ?m)) _ _ => change (head_at (set_phys h (set_ram (phys h) m)) page o) end.
    apply head_at_ram; [done|]. right. eexists. split; [reflexivity|]. intros a Ha. cbn [phys set_phys ram set_ram].
    rewrite load32_store32_out by lia. by apply Hm1.
  - apply head_at_ram; [done|]. right. by exists m1.
Qed.

(** A page on the free list is written only in its first eight bytes, its
    other bytes being whatever the last owner left. *)
Lemma find_mixed_full fuel page total s : page <> 0 -> 3840 <= load32 (ram (phys s)) (page + 8) ->
  page mod 4096 = 0 -> page + 4096 < 2 ^ 64 -> 0 < page ->
  find_mixed (S fuel) page total s = find_mixed fuel (page + 4096) total s.
Proof.
  intros Hp H1 Hm Hb H0. cbn [find_mixed]. destruct (Z.eqb_spec page 0); [done|].
  erewrite bind_step by reflexivity. cbv zeta. unfold MIXED_PAGE_MAX_USED, PAGE_SIZE.
  destruct (Z.ltb_spec (load32 (ram (phys s)) (page + 8)) (4096 - 256)); [lia|].
  rewrite andb_false_r. rewrite wrap_small by lia.
  change (4096 - 1) with (PAGE_SIZE - 1). rewrite land_4095.
  unfold truth. replace ((page + 4096) mod 4096) with 0 by zify_div. done.
Qed.

(** Once the current mixed page is full, the search goes on to whatever
    page lies behind it.  If that page is on the page allocator's free list
    and its word at offset 8 is 0 (a page that was handed back cleared), then
    [kmalloc] returns a block inside of it: the page stays on the free list,
    its link is overwritten with the block's header, and the block's owner
    and the next owner of the page share the memory. *)
Theorem kmalloc_foreign_page s l n fuel q (Hn : 0 <= n <= 2048) (Hwf : pmem_wf (phys s) l)
    (Hhead : 0 < mixed_page_head s /\ mixed_page_head s mod 4096 = 0)
    (Hq : q = mixed_page_head s + 4096) (Hin : q ∈ l)
    (Hfull : 3840 <= load32 (ram (phys s)) (mixed_page_head s + 8))
    (Hzero : load32 (ram (phys s)) (q + 8) = 0) :
  exists s', kmalloc (S (S fuel)) n s = Ret (q + 4, s') /\
    freepages (phys s') = freepages (phys s) /\ q ∈ avail (phys s) l /\
    load32 (ram (phys s')) q = asked n + 2 ^ 16 * ALLOC_HDR_MAGIC.
Proof.
  destruct (kmalloc_small_unfold (S (S fuel)) n s Hn) as (E & Ha & Et). rewrite E. clear E.
  pose proof (wf_pages _ _ Hwf) as Hpages. rewrite Forall_forall in Hpages.
  destruct (Hpages q Hin) as (Hq1 & Hq2 & Hq3). pose proof (up16_bounds (asked n)).
  exists (set_phys s (set_ram (phys s) (bumped (ram (phys s)) q (asked n) (4 + up16 (asked n))))).
  split; [|split; [done|split; [apply elem_of_app; by left|]]].
  - unfold km_alloc_from_mixed_page_locked. rewrite Et. erewrite bind_step by reflexivity.
    erewrite bind_step.
    2:{ rewrite find_mixed_full by lia. rewrite <- Hq. apply find_mixed_head; [lia| |].
        - rewrite Hzero. change (wrap 32 (4096 - 0)) with 4096. lia.
        - rewrite Hzero. lia. }
    unfold truth. destruct (Z.eqb_spec q 0); [lia|]. cbn [negb]. rewrite bump_run, Hzero.
    do 2 f_equal. lia.
  - cbn [phys set_phys ram set_ram]. unfold bumped. rewrite Hzero, Z.add_0_r.
    set (m := ram (phys s)). rewrite !load32_store32_out by lia.
    unfold load32, store16. change 4%nat with (2 + 2)%nat.
    assert (forall m a j k, load_le m a (j + k) = load_le m a j + 256 ^ Z.of_nat j * load_le m (a + Z.of_nat j) k)
      as Hsplit.
    { clear. intros m a j. revert a. induction j as [|j IH]; intros a k.
      - simpl. rewrite Z.add_0_r. destruct (load_le m a k); lia.
      - rewrite Nat2Z.inj_succ, Z.pow_succ_r by lia. cbn [Nat.add load_le]. rewrite IH.
        replace (a + Z.succ (Z.of_nat j)) with (a + 1 + Z.of_nat j) by lia. lia. }
    rewrite Hsplit. change (256 ^ Z.of_nat 2) with (2 ^ 16). change (Z.of_nat 2) with 2.
    rewrite load_store_le_out by (simpl; lia). rewrite !load_store_le.
    change (256 ^ Z.of_nat 2) with (2 ^ 16). rewrite Z.mod_small by lia. reflexivity.
Qed.

(** The first block of a new mixed page.  With no current page, [kmalloc]
    takes a page of the page allocator and makes it the current one with the
    requested block in it; it returns NULL only when no page is left, and
    then nothing changes. *)
Theorem kmalloc_new_page s l n fuel (Hn : 0 <= n <= 2048) (Hwf : pmem_wf (phys s) l)
    (Hhead : mixed_page_head s = 0) :
  (kmalloc (S fuel) n s = Ret (0, s) /\ avail (phys s) l = []) \/
  exists page l' s', kmalloc (S fuel) n s = Ret (page + 20, s') /\
    mixed_page_head s' = page /\ pmem_wf (phys s') l' /\
    avail (phys s) l ≡ₚ page :: avail (phys s') l' /\
    mixed_ok (ram (phys s')) page [asked n] /\
    (forall x, x < page \/ page + 4096 <= x -> ram (phys s') x = ram (phys s) x).
Proof.
  destruct (kmalloc_small_unfold (S fuel) n s Hn) as (E & Ha & Et). rewrite E. clear E.
  pose proof (kalloc_spec (phys s) l Hwf) as HK.
  destruct (kalloc (phys s)) as [p s1] eqn:EK. destruct HK as [HK _].
  assert (km_alloc_from_mixed_page_locked (S fuel) (asked n) s =
    (new ← km_new_mixed_page; if new =? 0 then mret 0
     else _ ← st_modify (fun s => set_mixed_head s new); bump new (asked n) (4 + up16 (asked n))) s) as E.
  { unfold km_alloc_from_mixed_page_locked. rewrite Et. erewrite bind_step by reflexivity.
    rewrite Hhead. reflexivity. }
  rewrite E. clear E. unfold km_new_mixed_page.
  destruct HK as [(-> & -> & HA)|((Hp1 & Hp2 & Hp3) & l' & Hwf1 & HA & Hfr)].
  - left. split; [|done]. unfold mbind, st_bind, new_page, updates. rewrite EK. simpl. by destruct s.
  - right. set (m0 := ram s1) in *.
    set (m1 := store32 (store32 (store32 (store32 m0 p KM_MAGIC_MIXED) (p + 4) 16) (p + 8) 16) (p + 12) 0).
    assert (mixed_ok m1 p []) as Hm1.
    { constructor; simpl; try done; try lia.
      - unfold m1. rewrite !load32_store32_out by lia. rewrite load32_store32. done.
      - unfold m1. rewrite load32_store32_out by lia. by rewrite load32_store32.
      - intros b k Hb. by apply elem_of_nil in Hb. }
    assert (load32 m1 (p + 8) = 16) as Hoff by exact (mx_off _ _ _ Hm1).
    pose proof (up16_bounds (asked n)).
    assert (forall x, x < p \/ p + 4096 <= x ->
      bumped m1 p (asked n) (4 + up16 (asked n)) x = m0 x) as Hout.
    { intros x Hx. rewrite bumped_out by (rewrite ?Hoff; lia). unfold m1, store32.
      rewrite !store_le_out by lia. done. }
    exists p, l', (MkHeap (set_ram s1 (bumped m1 p (asked n) (4 + up16 (asked n)))) p
                   (arena_head s) (km_bins s)).
    split; [|split; [done|split; [|split; [|split]]]].
    + erewrite bind_step with (a := p) (s' := set_phys s (set_ram s1 m1)).
      2:{ erewrite bind_step by (unfold new_page, updates; rewrite EK; reflexivity).
          destruct (Z.eqb_spec p 0); [lia|]. reflexivity. }
      destruct (Z.eqb_spec p 0); [lia|]. erewrite bind_step by reflexivity. rewrite bump_run.
      cbn [phys set_phys set_mixed_head ram set_ram]. rewrite Hoff.
      replace (p + 16 + 4) with (p + 20) by lia. reflexivity.
    + simpl. pose proof Hwf1 as [Hc Hpg Hrg Ho Hnd]. constructor; try done.
      eapply chain_off_page; [exact Hc|done|exact Hp3| |exact Hout].
      intros Hpl. pose proof (wf_nodup _ _ Hwf) as Hnd0. unfold avail in HA. rewrite HA in Hnd0.
      apply NoDup_cons in Hnd0 as [Hnot _]. apply Hnot. apply elem_of_app. by left.
    + exact HA.
    + simpl. apply (bumped_ok m1 p [] (asked n)); [done|lia|]. simpl. lia.
    + intros x Hx. simpl. rewrite Hout by done. by apply Hfr.
Qed.

(** The memory after a block of [n] bytes at [p] was freed. *)
Definition freed_mixed (m : mem) (page p n : Z) : mem :=
  let m := store16 m (p - 2) 0 in
  let used := load32 m (page + 4) in
  if 4 + up16 n <=? used then store32 m (page + 4) (used - (4 + up16 n)) else m.

(** [kmfree] of a block of a mixed page clears the block's magic and takes
    its size off the page's count of used bytes, and does nothing else: the
    bump offset stays, so the memory is not handed out again.  A second
    [kmfree] of the same block is ignored. *)
Theorem kmfree_mixed_correct s page sizes b n (Hm : mixed_ok (ram (phys s)) page sizes)
    (Hb : (b, n) ∈ layout 16 sizes) :
  exists s', kmfree (page + b) s = Ret (tt, s') /\ kmfree (page + b) s' = Ret (tt, s') /\
    load16 (ram (phys s')) (page + b - 2) = 0 /\
    load32 (ram (phys s')) (page + 8) = end_of 16 sizes /\
    (4 + up16 n <= load32 (ram (phys s)) (page + 4) -> load32 (ram (phys s)) (page + 4) < 2 ^ 32 ->
     load32 (ram (phys s')) (page + 4) = load32 (ram (phys s)) (page + 4) - (4 + up16 n)) /\
    (forall x, (x < page + 4 \/ page + 8 <= x) -> (x < page + b - 2 \/ page + b <= x) ->
       ram (phys s') x = ram (phys s) x) /\
    freepages (phys s') = freepages (phys s) /\ mixed_page_head s' = mixed_page_head s.
Proof.
  pose proof Hm as [(Hp1 & Hp2 & Hp3) Hmag Hoff Hsz He Hh]. pose proof (mixed_sizes_nonneg _ _ _ Hm) as Hs0.
  destruct (layout_range 16 sizes b n Hs0 Hb) as (R1 & R2 & R3 & R4). pose proof (up16_bounds n).
  destruct (Hh b n Hb) as [H1 H2]. set (m := ram (phys s)) in *.
  assert (1 <= n <= 2048) as Hn by (rewrite Forall_forall in Hsz; by apply Hsz).
  set (p := page + b) in *. assert (page_of p = page) as HP by (apply page_of_in; [done|unfold p; lia]).
  set (m' := freed_mixed m page p n).
  assert (forall a k, (a + Z.of_nat k <= page + 4 \/ page + 8 <= a) ->
    (a + Z.of_nat k <= p - 2 \/ p <= a) -> load_le m' a k = load_le m a k) as Hout.
  { intros a k Q1 Q2. apply load_le_ext. intros x Hx. unfold m', freed_mixed.
    destruct (_ <=? _); unfold store32, store16; rewrite !store_le_out by lia; done. }
  assert (load16 m' (p - 2) = 0) as Hz.
  { unfold m', freed_mixed. destruct (_ <=? _).
    - unfold load16, store32. rewrite load_store_le_out by lia. unfold store16. by rewrite load_store_le.
    - apply load16_store16. }
  assert (load32 (store16 m (p - 2) 0) (page + 4) = load32 m (page + 4)) as Hu
    by (unfold load32, store16; rewrite load_store_le_out by lia; done).
  exists (set_phys s (set_ram (phys s) m')).
  assert (forall s0, ram (phys s0) = m' -> kmfree p s0 = Ret (tt, s0)) as Hagain.
  { intros s0 E0. unfold kmfree. destruct (Z.eqb_spec p 0); [unfold p in *; lia|]. rewrite HP.
    erewrite bind_step by reflexivity. rewrite E0.
    assert (load32 m' page = KM_MAGIC_MIXED) as -> by (unfold load32; rewrite Hout by lia; exact Hmag).
    change (KM_MAGIC_MIXED =? KM_MAGIC_MIXED) with true. cbv iota.
    unfold km_free_from_mixed_page_locked. erewrite bind_step by reflexivity. rewrite E0.
    replace (p - 4 + 2) with (p - 2) by lia. rewrite Hz. reflexivity. }
  split; [|split; [by apply Hagain|split; [done|split; [|split; [|split]]]]].
  - unfold kmfree. destruct (Z.eqb_spec p 0); [unfold p in *; lia|]. rewrite HP.
    erewrite bind_step by reflexivity. fold m. rewrite Hmag.
    change (KM_MAGIC_MIXED =? KM_MAGIC_MIXED) with true. cbv iota.
    unfold km_free_from_mixed_page_locked. cbv zeta. erewrite bind_step by reflexivity. fold m.
    replace (p - 4 + 2) with (p - 2) by lia. rewrite H2.
    change (ALLOC_HDR_MAGIC =? ALLOC_HDR_MAGIC) with true. cbn [negb]. rewrite HP.
    erewrite bind_step by reflexivity. fold m. rewrite Hmag.
    change (KM_MAGIC_MIXED =? KM_MAGIC_MIXED) with true. cbn [negb].
    erewrite bind_step by reflexivity. erewrite bind_step by reflexivity.
    cbn [phys set_phys ram set_ram]. fold m.
    assert (load16 (store16 m (p - 2) 0) (p - 4) = n) as ->.
    { unfold load16, store16. rewrite load_store_le_out by lia. exact H1. }
    rewrite km_align_up_16 by lia. erewrite bind_step by reflexivity. cbn [phys set_phys ram set_ram].
    fold m. unfold m', freed_mixed.
    destruct (4 + up16 n <=? load32 (store16 m (p - 2) 0) (page + 4)); reflexivity.
  - cbn [phys set_phys ram set_ram]. unfold load32. rewrite Hout by lia. exact Hoff.
  - cbn [phys set_phys ram set_ram]. intros Q Q'. unfold m', freed_mixed. rewrite Hu.
    destruct (Z.leb_spec (4 + up16 n) (load32 m (page + 4))); [|lia].
    rewrite load32_store32, wrap_small; [done|]. lia.
  - intros x Q1 Q2. cbn [phys set_phys ram set_ram]. unfold m', freed_mixed.
    destruct (_ <=? _); unfold store32, store16; rewrite !store_le_out by lia; done.
  - done.
Qed.

(** ** Large blocks *)

(** One page or more: [kalloc_pages] hands out a run or changes nothing. *)
Lemma kalloc_pages_any s l n fuel : pmem_wf s l -> 1 <= n < 2 ^ 52 -> (length l < fuel)%nat ->
  exists p s', kalloc_pages fuel n s = Ret (p, s') /\
    ((p = 0 /\ s' = s) \/
     (0 < p /\ p mod 4096 = 0 /\ p + 4096 * n <= 2 ^ 64 /\
      exists l', pmem_wf s' l' /\ avail s l ≡ₚ pages_from p n ++ avail s' l')).
Proof.
  intros Hwf Hn Hf. destruct (Z.eq_dec n 1) as [->|].
  - pose proof (kalloc_spec s l Hwf) as HK. destruct (kalloc s) as [p s'] eqn:E.
    exists p, s'. split; [unfold kalloc_pages; simpl; by rewrite E|].
    destruct HK as [[(-> & -> & _)|((? & ? & ?) & l' & ? & HA & _)] _]; [by left|right].
    split; [done|]. split; [done|]. split; [lia|]. exists l'. rewrite pages_from_1. done.
  - destruct (kalloc_pages_spec s l n fuel Hwf) as (p & s' & E & HP); [lia|done|].
    exists p, s'. split; [done|]. destruct HP as [(-> & -> & _)|(? & ? & ? & l' & ? & ? & _)]; [by left|right].
    split; [done|]. split; [done|]. split; [done|]. by exists l'.
Qed.

(** Writing inside of pages that are not free keeps the page allocator well formed. *)
Lemma pmem_wf_write s l p n m' : pmem_wf s l -> p mod 4096 = 0 -> 0 <= n ->
  (forall q, q ∈ pages_from p n -> q ∉ l) ->
  (forall x, x < p \/ p + 4096 * n <= x -> m' x = ram s x) -> pmem_wf (set_ram s m') l.
Proof.
  intros [Hc Hp Hr Ho Hn] Hpm Hn0 Hq Hout. constructor; try done.
  eapply chain_ext; [exact Hc|]. intros q Hql. rewrite Forall_forall in Hp.
  destruct (Hp q Hql) as (Q1 & Q2 & Q3). apply load_le_ext. intros x Hx. apply Hout.
  destruct (page_off_run p n q) as [|]; [done|done|done| |simpl in Hx; lia|simpl in Hx; lia].
  intros Hin. exact (Hq q Hin Hql).
Qed.

(** The number of pages [kmalloc] asks for. *)
Definition km_pages (n : Z) : Z := PAGE_ROUND_UP (wrap 64 (km_align_up n KM_ALIGN + 16)) / PAGE_SIZE.

(** The memory after the header of a large block was written. *)
Definition large_hdr (m : mem) (p pages : Z) : mem :=
  store32 (store32 (store32 (store32 m p KM_MAGIC_LARGE) (p + 4) pages) (p + 8) 0) (p + 12) 0.

Lemma large_hdr_out m p pages x : x < p \/ p + 16 <= x -> large_hdr m p pages x = m x.
Proof. intros. unfold large_hdr, store32. rewrite !store_le_out by lia. done. Qed.

Lemma kmalloc_large_any s l n fuel : pmem_wf (phys s) l -> 2048 < n -> 1 <= km_pages n < 2 ^ 32 ->
  (length l < fuel)%nat ->
  kmalloc fuel n s = Ret (0, s) \/
  exists p l' s', kmalloc fuel n s = Ret (p + 16, s') /\ 0 < p /\ p mod 4096 = 0 /\
    p + 4096 * km_pages n <= 2 ^ 64 /\ pmem_wf (phys s') l' /\
    avail (phys s) l ≡ₚ pages_from p (km_pages n) ++ avail (phys s') l' /\
    load32 (ram (phys s')) p = KM_MAGIC_LARGE /\ load32 (ram (phys s')) (p + 4) = km_pages n.
Proof.
  intros Hwf Hn Hpg Hf. unfold kmalloc. destruct (Z.eqb_spec n 0); [lia|].
  change KM_MAX_SMALL with 2048. destruct (Z.leb_spec n 2048); [lia|]. fold (km_pages n).
  destruct (kalloc_pages_any (phys s) l (km_pages n) fuel Hwf) as (p & q & E & HP); [lia|done|].
  assert (on_phys (kalloc_pages fuel (km_pages n)) s = Ret (p, set_phys s q)) as E1
    by (unfold on_phys; by rewrite E).
  destruct HP as [(-> & ->)|(P1 & P2 & P3 & l' & Hwf' & HA)].
  - left. cbv zeta. erewrite bind_step by exact E1. simpl. by destruct s.
  - right. exists p, l', (set_phys s (set_ram q (large_hdr (ram q) p (km_pages n)))).
    split; [|split; [done|split; [done|split; [done|split; [|split; [done|split]]]]]].
    + cbv zeta. erewrite bind_step by exact E1. destruct (Z.eqb_spec p 0); [lia|]. reflexivity.
    + eapply (pmem_wf_write q l' p (km_pages n)); [done|done|lia| |].
      * intros x Hx Hxl. pose proof (wf_nodup _ _ Hwf) as Hnd. unfold avail in HA. rewrite HA in Hnd.
        apply NoDup_app in Hnd as (_ & Hd & _). apply (Hd x Hx). apply elem_of_app. by left.
      * intros x Hx. apply large_hdr_out. lia.
    + cbn [phys set_phys ram set_ram]. unfold large_hdr. rewrite !load32_store32_out by lia.
      rewrite load32_store32. done.
    + cbn [phys set_phys ram set_ram]. unfold large_hdr. rewrite !load32_store32_out by lia.
      rewrite load32_store32. apply wrap_small. lia.
Qed.

Lemma km_pages_low n : 0 <= n -> n + 4126 < 2 ^ 32 ->
  km_pages n = (up16 n + 16 + 4095) / 4096 /\ n + 16 <= 4096 * km_pages n.
Proof.
  intros H0 H1. unfold km_pages. rewrite km_align_up_16 by lia. pose proof (up16_bounds n).
  rewrite (wrap_small 64) by lia. rewrite PAGE_ROUND_UP_low by lia. unfold PAGE_SIZE.
  rewrite (Z.mul_comm 4096), Z.div_mul by lia. split; [done|]. zify_div.
Qed.

(** C14: a block of more than 2048 bytes (and less than 4 GiB) lies inside a
    run of pages that stop being available; freeing it makes exactly these
    pages available again.  When there is no such run [kmalloc] returns NULL
    and nothing changes. *)
Theorem kmalloc_large_roundtrip s l n fuel (Hwf : pmem_wf (phys s) l) (Hn : 2048 < n)
    (Hmax : n + 4126 < 2 ^ 32) (Hf : (length l < fuel)%nat) :
  kmalloc fuel n s = Ret (0, s) \/
  exists p l1 s1 l2 s2, kmalloc fuel n s = Ret (p + 16, s1) /\ pmem_wf (phys s1) l1 /\
    avail (phys s) l ≡ₚ pages_from p (km_pages n) ++ avail (phys s1) l1 /\
    p + 16 + n <= p + 4096 * km_pages n /\
    kmfree (p + 16) s1 = Ret (tt, s2) /\ pmem_wf (phys s2) l2 /\
    avail (phys s2) l2 ≡ₚ avail (phys s) l.
Proof.
  destruct (km_pages_low n) as [Ek Hk]; [lia|done|]. pose proof (up16_bounds n).
  assert (1 <= km_pages n < 2 ^ 32) as Hpg by (rewrite Ek; zify_div).
  destruct (kmalloc_large_any s l n fuel Hwf Hn Hpg Hf)
    as [E|(p & l1 & s1 & E & P1 & P2 & P3 & Hwf1 & HA & HM & HP)]; [by left|right].
  assert (forall x, x ∈ pages_from p (km_pages n) -> x ∉ avail (phys s1) l1) as Hnew.
  { intros x Hx Hxl. pose proof (wf_nodup _ _ Hwf) as Hnd. unfold avail in HA. rewrite HA in Hnd.
    apply NoDup_app in Hnd as (_ & Hd & _). exact (Hd x Hx Hxl). }
  destruct (kfree_pages_spec (phys s1) l1 p (km_pages n)) as (q & Eq & Hwf2 & HA2); try done; [lia|].
  exists p, l1, s1, (rev (pages_from p (km_pages n)) ++ l1), (set_phys s1 q).
  split; [done|]. split; [done|]. split; [done|]. split; [lia|]. split; [|split; [done|]].
  - assert (page_of (p + 16) = p) as HB by (apply page_of_in; [done|lia]).
    unfold kmfree. destruct (Z.eqb_spec (p + 16) 0); [lia|]. rewrite HB.
    erewrite bind_step by reflexivity. rewrite HM.
    change (KM_MAGIC_LARGE =? KM_MAGIC_MIXED) with false.
    change (KM_MAGIC_LARGE =? KM_MAGIC_ARENA) with false.
    change (KM_MAGIC_LARGE =? KM_MAGIC_SMALL) with false.
    change (KM_MAGIC_LARGE =? KM_MAGIC_LARGE) with true. cbv iota zeta.
    replace (p + 16 - 16) with p by lia. erewrite bind_step by reflexivity. rewrite HM.
    change (KM_MAGIC_LARGE =? KM_MAGIC_LARGE) with true. cbv iota.
    erewrite bind_step by reflexivity. rewrite HP. unfold on_phys, effect. by rewrite Eq.
  - rewrite HA2. cbn [phys set_phys]. by symmetry.
Qed.

(** From 4 GiB on the 32-bit page mask makes [kmalloc] forget the high
    bits of the size: it succeeds with a run of pages that is shorter than
    the block the caller asked for. *)
Theorem kmalloc_huge s l n fuel (Hwf : pmem_wf (phys s) l) (Hn : 2 ^ 32 <= n < 2 ^ 63)
    (Hpg : 1 <= km_pages n) (Hf : (length l < fuel)%nat) :
  4096 * km_pages n < n /\
  (kmalloc fuel n s = Ret (0, s) \/
   exists p l1 s1, kmalloc fuel n s = Ret (p + 16, s1) /\
     avail (phys s) l ≡ₚ pages_from p (km_pages n) ++ avail (phys s1) l1).
Proof.
  assert (4096 * km_pages n < 2 ^ 32) as Hlt.
  { unfold km_pages, PAGE_ROUND_UP. rewrite land_PAGE_MASK. set (a := wrap 64 _). unfold PAGE_SIZE.
    pose proof (wrap_range 32 a ltac:(lia)). pose proof (Z.mod_pos_bound a 4096 ltac:(lia)). zify_div. }
  split; [lia|].
  destruct (kmalloc_large_any s l n fuel Hwf) as [E|(p & l1 & s1 & E & _ & _ & _ & _ & HA & _)];
    [lia|lia|done|by left|right]. exists p, l1, s1. by split.
Qed.

(** ** Witnesses *)

Definition demo_heap : kheap := MkHeap demo_pmem 0 0 (replicate 8 0).

(** A current mixed page at 2 MiB, empty. *)
Definition demo_mixed_ram : mem :=
  store32 (store32 (store32 zeros 2097152 KM_MAGIC_MIXED) 2097156 16) 2097160 16.
Definition demo_mixed (m : mem) : kheap := MkHeap (set_ram demo_pmem m) 2097152 0 (replicate 8 0).

Lemma demo_mixed_ok : mixed_ok demo_mixed_ram 2097152 [].
Proof.
  constructor; [split; [reflexivity|lia]|vm_compute; reflexivity|vm_compute; reflexivity| | |].
  - by apply Forall_nil.
  - vm_compute. discriminate.
  - intros b k Hb. by apply elem_of_nil in Hb.
Qed.

Lemma kmalloc_mixed_correct_witness :
  exists s', kmalloc 1 10 (demo_mixed demo_mixed_ram) = Ret (2097172, s') /\
    mixed_ok (ram (phys s')) 2097152 [10].
Proof.
  destruct (kmalloc_mixed_correct (demo_mixed demo_mixed_ram) [] 10 0 ltac:(lia) demo_mixed_ok
    ltac:(vm_compute; discriminate) ltac:(reflexivity)) as (s' & E & H & _).
  exists s'. split; [exact E|exact H].
Defined.

Lemma kmalloc_new_page_witness :
  exists s', kmalloc 1 10 demo_heap = Ret (1052692, s').
Proof.
  assert (match kmalloc 1 10 demo_heap with Ret (p, _) => p | _ => 0 end = 1052692) as HV
    by (vm_compute; reflexivity).
  destruct (kmalloc_new_page demo_heap [1052672; 1056768] 10 0 ltac:(lia) demo_pmem_wf eq_refl)
    as [[E _]|(page & l' & s' & E & _)]; rewrite E in HV; [discriminate HV|].
  exists s'. rewrite E, HV. reflexivity.
Defined.

Lemma kmfree_mixed_correct_witness :
  exists s', kmfree 2097172 (demo_mixed (bumped demo_mixed_ram 2097152 10 20)) = Ret (tt, s').
Proof.
  destruct (kmfree_mixed_correct (demo_mixed (bumped demo_mixed_ram 2097152 10 20)) 2097152 [10] 20 10)
    as (s' & E & _).
  - apply (bumped_ok demo_mixed_ram 2097152 [] 10 demo_mixed_ok); [lia|vm_compute; discriminate].
  - simpl. by left.
  - exists s'. exact E.
Defined.

(** The page before the first free page is full and current. *)
Definition demo_full : kheap :=
  MkHeap (set_ram demo_pmem (store32 (ram demo_pmem) 1048584 4000)) 1048576 0 (replicate 8 0).

Lemma kmalloc_foreign_page_witness :
  exists s', kmalloc 2 10 demo_full = Ret (1052676, s') /\ freepages (phys s') = 1052672.
Proof.
  assert (pmem_wf (phys demo_full) [1052672; 1056768]) as Hwf.
  { apply (pmem_wf_write demo_pmem _ 1048576 1); [exact demo_pmem_wf|reflexivity|lia| |].
    - intros q Hq Hq'. vm_compute in Hq, Hq'. set_solver.
    - intros x Hx. unfold store32. apply store_le_out. simpl. lia. }
  destruct (kmalloc_foreign_page demo_full [1052672; 1056768] 10 0 1052672 ltac:(lia) Hwf
    ltac:(simpl; split; [lia|reflexivity]) eq_refl ltac:(by left)
    ltac:(vm_compute; discriminate) ltac:(vm_compute; reflexivity)) as (s' & E & F & _).
  exists s'. split; [exact E|exact F].
Defined.

Lemma kmalloc_large_roundtrip_witness :
  exists s', kmalloc 3 5000 demo_heap = Ret (1052688, s').
Proof.
  assert (match kmalloc 3 5000 demo_heap with Ret (p, _) => p | _ => 0 end = 1052688) as HV
    by (vm_compute; reflexivity).
  destruct (kmalloc_large_roundtrip demo_heap [1052672; 1056768] 5000 3 demo_pmem_wf ltac:(lia)
    ltac:(lia) ltac:(simpl; lia)) as [E|(p & l1 & s1 & l2 & s2 & E & _)]; rewrite E in HV; [discriminate HV|].
  exists s1. rewrite E, HV. reflexivity.
Defined.

Lemma kmalloc_huge_witness : 4096 * km_pages (2 ^ 32 + 5000) < 2 ^ 32 + 5000.
Proof.
  exact (proj1 (kmalloc_huge demo_heap [1052672; 1056768] (2 ^ 32 + 5000) 3 demo_pmem_wf ltac:(lia)
    ltac:(vm_compute; discriminate) ltac:(simpl; lia))).
Defined.
