(* ===== verification/Digits.v ===== *)
(** * Numerals

    What the two [printf] families of the repository share: text as a list of
    bytes, the digit table, the loop that produces the digits of a number
    (least significant first), the arguments of a variadic call, and the
    value a numeral stands for. *)
From S2P Require Import Prelude.
From Stdlib Require Import Ascii.

(** The bytes of a string literal. *)
Fixpoint bytes (s : string) : list Z :=
  match s with
  | EmptyString => []
  | String c s' => Z.of_N (N_of_ascii c) :: bytes s'
  end.

(** [pf_digits] and [io_digits]. *)
Definition pf_digits : list Z := bytes "0123456789abcdef".
Definition digit (d : Z) : Z := default 0 (zget pf_digits d).

(** [do { buf[i++] = digits[x % base]; } while ((x /= base) != 0);] *)
Fixpoint gen_digits (fuel : nat) (base x : Z) : list Z :=
  match fuel with
  | O => []
  | S fuel' => digit (x mod base) ::
      (if x / base =? 0 then [] else gen_digits fuel' base (x / base))
  end.

(** 64 digits are enough for a 64-bit number in any base. *)
Definition digits_of (base x : Z) : list Z := gen_digits 64 base x.

(** The prologue of all integer printers: [sign && (sign = (xx < 0))], and
    the magnitude as an [unsigned long long]. *)
Definition is_negative (xx sign : Z) : bool := truth sign && (xx <? 0).
Definition magnitude (xx sign : Z) : Z := if is_negative xx sign then wrap 64 (- xx) else wrap 64 xx.

(** The digits and the sign in the buffer, in the order they are stored. *)
Definition int_buf (xx base sign : Z) : list Z :=
  digits_of base (magnitude xx sign) ++ (if is_negative xx sign then [45] else []).

(** [x >> 60] and [x <<= 4], sixteen times. *)
Fixpoint hex_digits (n : nat) (x : Z) : list Z :=
  match n with
  | O => []
  | S n' => digit (Z.shiftr x 60) :: hex_digits n' (wrap 64 (Z.shiftl x 4))
  end.

(** Arguments of a variadic call: integers and pointers by value, strings by
    content ([None] is a null pointer), doubles by their bits. *)
Inductive va_val := VWord (z : Z) | VStr (s : option (list Z)) | VDouble (bits : Z).

(** [va_arg(ap, int)] and the 64-bit integer types. *)
Definition va_int (ap : list va_val) : outcome (Z * list va_val) :=
  match ap with VWord z :: ap' => Ret (sgn 32 z, ap') | _ => Undef end.
Definition va_uint (ap : list va_val) : outcome (Z * list va_val) :=
  match ap with VWord z :: ap' => Ret (wrap 32 z, ap') | _ => Undef end.
Definition va_u64 (ap : list va_val) : outcome (Z * list va_val) :=
  match ap with VWord z :: ap' => Ret (wrap 64 z, ap') | _ => Undef end.
Definition va_str (ap : list va_val) : outcome (option (list Z) * list va_val) :=
  match ap with VStr s :: ap' => Ret (s, ap') | _ => Undef end.
Definition va_double (ap : list va_val) : outcome (Z * list va_val) :=
  match ap with VDouble z :: ap' => Ret (z, ap') | _ => Undef end.

(** [fmt[i] & 0xff]; the text is followed by its terminator, and reading
    behind that is undefined. *)
Definition fmt_at (fmt : list Z) (i : Z) : outcome Z :=
  match zget fmt i with
  | Some c => Ret c
  | None => if i =? zlen fmt then Ret 0 else Undef
  end.

(** [parse_width]: the width and the index behind it. *)
Fixpoint parse_width (fuel : nat) (fmt : list Z) (i width : Z) : outcome (Z * Z) :=
  match fuel with
  | O => NoFuel
  | S fuel' =>
      c ← fmt_at fmt i;
      if (48 <=? c) && (c <=? 57) then parse_width fuel' fmt (i + 1) (sgn 32 (width * 10 + (c - 48)))
      else mret (width, i)
  end.

(** The text of a string argument. *)
Definition str_text (s : option (list Z)) : list Z :=
  match s with Some l => l | None => bytes "(null)" end.

(** ** The value of a numeral *)

(** The digit a character stands for. *)
Definition digit_val (c : Z) : option Z :=
  if (48 <=? c) && (c <=? 57) then Some (c - 48)
  else if (97 <=? c) && (c <=? 102) then Some (c - 87)
  else None.

(** The value of digits, most significant first. *)
Fixpoint numeral_from (base acc : Z) (l : list Z) : option Z :=
  match l with
  | [] => Some acc
  | c :: l' =>
      match digit_val c with
      | Some d => if d <? base then numeral_from base (acc * base + d) l' else None
      | None => None
      end
  end.
Definition numeral (base : Z) (l : list Z) : option Z := numeral_from base 0 l.

Lemma digit_val_digit d : 0 <= d < 16 -> digit_val (digit d) = Some d.
Proof.
  intros Hd. assert (forallb (fun d => bool_decide (digit_val (digit d) = Some d)) (seqZ 0 16) = true) as H
    by (vm_compute; reflexivity).
  rewrite forallb_forall in H. specialize (H d). rewrite <- list_elem_of_In, elem_of_seqZ in H.
  specialize (H ltac:(lia)). by apply bool_decide_eq_true_1 in H.
Qed.

Lemma numeral_from_app base acc l1 l2 v : numeral_from base acc l1 = Some v ->
  numeral_from base acc (l1 ++ l2) = numeral_from base v l2.
Proof.
  revert acc. induction l1 as [|c l1 IH]; intros acc H; simpl in *; [by injection H as ->|].
  destruct (digit_val c); [|done]. destruct (_ <? base); [|done]. by apply IH.
Qed.

(** Digits in reverse order of their generation denote the number. *)
Lemma gen_digits_value fuel base x : 2 <= base <= 16 -> 0 <= x < base ^ Z.of_nat fuel ->
  (0 < fuel)%nat -> numeral base (rev (gen_digits fuel base x)) = Some x.
Proof.
  intros Hb. revert x. induction fuel as [|fuel IH]; intros x Hx Hf; [lia|]. simpl.
  pose proof (Z.mod_pos_bound x base ltac:(lia)) as Hm.
  assert (forall acc, numeral_from base acc [digit (x mod base)] = Some (acc * base + x mod base)) as Hlast.
  { intros acc. simpl. rewrite digit_val_digit by lia. destruct (Z.ltb_spec (x mod base) base); [done|lia]. }
  destruct (Z.eqb_spec (x / base) 0) as [E|E].
  - simpl rev. unfold numeral. simpl app. rewrite Hlast. f_equal.
    pose proof (Z.div_mod x base ltac:(lia)). lia.
  - rewrite Nat2Z.inj_succ, Z.pow_succ_r in Hx by lia.
    assert (0 <= x / base < base ^ Z.of_nat fuel) as Hx'.
    { split; [apply Z.div_pos; lia|]. apply Z.div_lt_upper_bound; lia. }
    assert (0 < fuel)%nat as Hf'.
    { destruct fuel; [simpl in Hx'; lia|lia]. }
    unfold numeral. erewrite numeral_from_app by (exact (IH _ Hx' Hf')). rewrite Hlast. f_equal.
    pose proof (Z.div_mod x base ltac:(lia)). lia.
Qed.

Lemma digits_value base x : 2 <= base <= 16 -> 0 <= x < 2 ^ 64 ->
  numeral base (rev (digits_of base x)) = Some x.
Proof.
  intros Hb Hx. apply gen_digits_value; [done| |lia]. split; [lia|].
  eapply Z.lt_le_trans; [apply Hx|]. apply Z.pow_le_mono_l. lia.
Qed.

(** The number of digits. *)
Lemma gen_digits_length fuel base x n : 2 <= base -> 0 <= x < base ^ Z.of_nat n -> (0 < n)%nat ->
  (1 <= fuel)%nat -> (1 <= length (gen_digits fuel base x) <= n)%nat.
Proof.
  intros Hb. revert x n. induction fuel as [|fuel IH]; intros x n Hx Hn Hf; [lia|]. simpl.
  destruct (Z.eqb_spec (x / base) 0) as [E|E]; simpl; [lia|].
  destruct n as [|n]; [lia|]. rewrite Nat2Z.inj_succ, Z.pow_succ_r in Hx by lia.
  assert (0 <= x / base < base ^ Z.of_nat n) as Hx'.
  { split; [apply Z.div_pos; lia|]. apply Z.div_lt_upper_bound; lia. }
  destruct n as [|n]; [simpl in Hx'; lia|].
  destruct fuel as [|fuel]; [simpl; lia|]. specialize (IH (x / base) (S n) Hx'). lia.
Qed.

(** Decimal numerals of 64-bit numbers have at most 20 digits, 19 below
    [2 ^ 63]; hexadecimal ones at most 16. *)
Lemma int_buf_length xx base sign : base = 10 \/ base = 16 -> - 2 ^ 63 <= xx < 2 ^ 63 ->
  (1 <= length (int_buf xx base sign) <= 20)%nat.
Proof.
  intros Hb Hxx. unfold int_buf, digits_of. rewrite length_app.
  pose proof (wrap_range 64 xx ltac:(lia)) as H1.
  assert (forall x n, (n = 19%nat \/ n = 20%nat) -> 0 <= x < 10 ^ Z.of_nat n ->
    (1 <= length (gen_digits 64 base x) <= n)%nat) as L.
  { intros x n Hn Hx. apply gen_digits_length; [lia| |lia|lia]. split; [lia|].
    eapply Z.lt_le_trans; [apply Hx|]. apply Z.pow_le_mono_l. lia. }
  unfold magnitude. destruct (is_negative xx sign) eqn:E; cbn [length].
  - apply andb_true_iff in E as [_ E]. apply Z.ltb_lt in E. rewrite (wrap_small 64) by lia.
    destruct (L (- xx) 19%nat); [by left| |lia].
    change (10 ^ Z.of_nat 19) with 10000000000000000000. lia.
  - destruct (L (wrap 64 xx) 20%nat); [by right| |lia].
    change (10 ^ Z.of_nat 20) with 100000000000000000000. lia.
Qed.

Lemma hex_digits_value n x acc : (n <= 16)%nat -> 0 <= x < 2 ^ 64 ->
  numeral_from 16 acc (hex_digits n x) = Some (acc * 16 ^ Z.of_nat n + x / 2 ^ (64 - 4 * Z.of_nat n)).
Proof.
  revert x acc. induction n as [|n IH]; intros x acc Hn Hx.
  - simpl. rewrite Z.div_small by lia. f_equal. lia.
  - cbn [hex_digits numeral_from]. rewrite Z.shiftr_div_pow2 by lia.
    assert (0 <= x / 2 ^ 60 < 16) as Hd by (split; [apply Z.div_pos; lia|apply Z.div_lt_upper_bound; lia]).
    rewrite digit_val_digit by lia. destruct (Z.ltb_spec (x / 2 ^ 60) 16); [|lia].
    rewrite IH; [|lia|apply wrap_range; lia]. f_equal.
    rewrite Z.shiftl_mul_pow2 by lia. change (2 ^ 4) with 16.
    assert (wrap 64 (x * 16) = 16 * (x mod 2 ^ 60)) as ->.
    { unfold wrap. change (2 ^ 64) with (16 * 2 ^ 60). rewrite (Z.mul_comm x).
      rewrite Z.mul_mod_distr_l by lia. done. }
    rewrite Nat2Z.inj_succ, Z.pow_succ_r by lia.
    set (k := Z.of_nat n) in *. assert (0 <= k <= 15) as Hk by lia.
    assert (2 ^ (64 - 4 * k) = 16 * 2 ^ (60 - 4 * k)) as E1.
    { replace (64 - 4 * k) with (4 + (60 - 4 * k)) by lia. rewrite Z.pow_add_r by lia. done. }
    rewrite E1. rewrite Z.div_mul_cancel_l by (try apply Z.pow_nonzero; lia).
    replace (64 - 4 * Z.succ k) with (60 - 4 * k) by lia.
    rewrite (Z.div_mod x (2 ^ 60)) at 3 by lia.
    assert (2 ^ 60 = 2 ^ (60 - 4 * k) * 16 ^ k) as E2.
    { change 16 with (2 ^ 4). rewrite <- Z.pow_mul_r, <- Z.pow_add_r by lia. f_equal. lia. }
    set (a := x / 2 ^ 60). set (r := x mod 2 ^ 60). rewrite E2.
    replace (2 ^ (60 - 4 * k) * 16 ^ k * a + r) with (r + 16 ^ k * a * 2 ^ (60 - 4 * k)) by lia.
    rewrite Z.div_add by (apply Z.pow_nonzero; lia). lia.
Qed.

Lemma hex_digits_16 x : 0 <= x < 2 ^ 64 -> numeral 16 (hex_digits 16 x) = Some x.
Proof.
  intros Hx. unfold numeral. rewrite hex_digits_value by (try lia; done).
  change (64 - 4 * Z.of_nat 16) with 0. rewrite Z.pow_0_r, Z.div_1_r. done.
Qed.
