(* ===== verification/Printf.v ===== *)
(** * Kernel output (kernel/src/common/printf.c)

    Two families with the same conversions: [kprintf] and its helpers send
    characters to [kputc] one by one, here the list of bytes sent; [cprintf]
    and its helpers write into a buffer of [rem] bytes through [cputc], here a
    memory, the remaining size and the returned length.  The kernel's
    [snprintf] is the second family with colours off.

    Conversions of doubles need floating-point arithmetic; their text is a
    parameter ([kfloat], of the argument's bits).  The output device behind
    [kputc], the print lock and the time stamps of [ktprintf] and [ctprintf]
    (a driver call) are not modelled.  A null [rem] behaves as 0. *)
From S2P Require Import Prelude Mem Digits.

Definition esc (s : string) : list Z := 27 :: bytes s.
Definition COLOR_RESET : list Z := esc "[0m".
Definition COLOR_MAGENTA_FG : list Z := esc "[35m".
Definition COLOR_BRIGHT_YELLOW_FG : list Z := esc "[93m".

(** [print_colored] and [c_time_print]. *)
Record pf_globals := MkPf { print_colored : bool; c_time_print : bool }.

Definition color_on (g : pf_globals) : list Z :=
  if print_colored g
  then if c_time_print g then COLOR_BRIGHT_YELLOW_FG else COLOR_MAGENTA_FG
  else [].
Definition color_off (g : pf_globals) : list Z := if print_colored g then COLOR_RESET else [].

(** The buffer [char buf[20]] overflows: the code writes past its end. *)
Definition in_buf (n : Z) (buf : list Z) : outcome (list Z) :=
  if n <? zlen buf then Undef else Ret buf.

(** ** Conversion specifications *)

(** What a specification asks for.  [IWord long base sign]: an integer
    argument of 32 or 64 bits; [padded]: width and fill character. *)
Inductive conversion :=
| CInt (long : bool) (base sign : Z) (padded : option (Z * Z))
| CPtr
| CStr
| CFloat
| CChar (c : Z)
| CEnd
| COther (c0 : Z).

Definition CH (s : string) : Z := default 0 (head (bytes s)).

(** The chain of comparisons on the next three characters: the conversion
    and how far behind [c0] its last character is. *)
Definition pick_conversion (c0 c1 c2 : Z) (padded : option (Z * Z)) : conversion * Z :=
  if c0 =? CH "d" then (CInt false 10 1 None, 0)
  else if (c0 =? CH "l") && (c1 =? CH "d") then (CInt true 10 1 None, 1)
  else if (c0 =? CH "l") && (c1 =? CH "l") && (c2 =? CH "d") then (CInt true 10 1 None, 2)
  else if (c0 =? CH "u") || (c0 =? CH "i") then (CInt false 10 0 None, 0)
  else if (c0 =? CH "l") && (c1 =? CH "u") then (CInt true 10 0 None, 1)
  else if (c0 =? CH "l") && (c1 =? CH "l") && (c2 =? CH "u") then (CInt true 10 0 None, 2)
  else if (c0 =? CH "z") && (c1 =? CH "u") then (CInt true 10 0 None, 1)
  else if c0 =? CH "x" then (CInt false 16 0 padded, 0)
  else if (c0 =? CH "l") && (c1 =? CH "x") then (CInt true 16 0 padded, 1)
  else if (c0 =? CH "l") && (c1 =? CH "l") && (c2 =? CH "x") then (CInt true 16 0 padded, 2)
  else if c0 =? CH "p" then (CPtr, 0)
  else if c0 =? CH "s" then (CStr, 0)
  else if c0 =? CH "f" then (CFloat, 0)
  else if (c0 =? CH "l") && (c1 =? CH "f") then (CFloat, 1)
  else if c0 =? CH "%" then (CChar (CH "%"), 0)
  else if c0 =? 0 then (CEnd, 0)
  else (COther c0, 0).

(** From the call of [parse_width] on: the conversion and the index of its
    last character. *)
Definition parse_padded (fmt : list Z) (i pad : Z) : outcome (conversion * Z) :=
  '(width, i) ← parse_width (S (length fmt)) fmt i 0;
  c0 ← fmt_at fmt i;
  c1 ← (if truth c0 then fmt_at fmt (i + 1) else mret 0);
  c2 ← (if truth c1 then fmt_at fmt (i + 2) else mret 0);
  let '(c, n) := pick_conversion c0 c1 c2 (if 0 <? width then Some (width, pad) else None) in
  mret (c, i + n).
(** From [i++] behind the percent sign on. *)
Definition parse_spec (fmt : list Z) (i : Z) : outcome (conversion * Z) :=
  c ← fmt_at fmt i;
  if c =? CH "0" then parse_padded fmt (i + 1) (CH "0") else parse_padded fmt i (CH " ").

(** [va_arg] at type [int] or [uint64_t], converted to [long long]. *)
Definition va_word (long : bool) (ap : list va_val) : outcome (Z * list va_val) :=
  if long then '(v, ap') ← va_u64 ap; mret (sgn 64 v, ap') else va_int ap.

(** ** The [kputc] family: the characters sent, in order *)

Definition kprintint (g : pf_globals) (xx base sign : Z) : outcome (list Z) :=
  buf ← in_buf 20 (int_buf xx base sign);
  mret (color_on g ++ rev buf ++ color_off g).

Definition kprintint_padded (g : pf_globals) (xx base sign width pad : Z) : outcome (list Z) :=
  let buf := int_buf xx base sign in
  buf ← in_buf 20 (buf ++ replicate (Z.to_nat (width - zlen buf)) pad);
  mret (color_on g ++ rev buf ++ color_off g).

Definition kprintptr (g : pf_globals) (x : Z) : list Z :=
  color_on g ++ [CH "0"; CH "x"] ++ hex_digits 16 x ++ color_off g.

Definition kprints (s : option (list Z)) : list Z := str_text s.

Section printf.
(** The text [kprintfloat] and [cprintfloat] produce, given the colours. *)
Context (kfloat : pf_globals -> Z -> list Z).

(** The characters one conversion sends, and the arguments left. *)
Definition kconvert (g : pf_globals) (c : conversion) (ap : list va_val)
    : outcome (list Z * list va_val) :=
  match c with
  | CInt long base sign padded =>
      '(v, ap) ← va_word long ap;
      t ← match padded with
          | Some (width, pad) => kprintint_padded g v base sign width pad
          | None => kprintint g v base sign
          end;
      mret (t, ap)
  | CPtr => '(v, ap) ← va_u64 ap; mret (kprintptr g v, ap)
  | CStr => '(s, ap) ← va_str ap; mret (kprints s, ap)
  | CFloat => '(f, ap) ← va_double ap; mret (kfloat g f, ap)
  | CChar ch => mret ([ch], ap)
  | CEnd => mret ([], ap)
  | COther c0 => mret ([CH "%"; c0], ap)
  end.

Fixpoint kvprintf_from (fuel : nat) (g : pf_globals) (fmt : list Z) (i : Z) (ap : list va_val)
    : outcome (list Z) :=
  match fuel with
  | O => NoFuel
  | S fuel' =>
      cx ← fmt_at fmt i;
      if cx =? 0 then mret []
      else if negb (cx =? CH "%") then
        rest ← kvprintf_from fuel' g fmt (i + 1) ap;
        mret (cx :: rest)
      else
        '(c, i') ← parse_spec fmt (i + 1);
        match c with
        | CEnd => mret []
        | _ =>
            '(t, ap) ← kconvert g c ap;
            rest ← kvprintf_from fuel' g fmt (i' + 1) ap;
            mret (t ++ rest)
        end
  end.
Definition kvprintf (g : pf_globals) (fmt : list Z) (ap : list va_val) : outcome (list Z) :=
  kvprintf_from (S (length fmt)) g fmt 0 ap.
Definition kprintf (g : pf_globals) (fmt : list Z) (ap : list va_val) : outcome (list Z) :=
  kvprintf g fmt ap.

Definition khexdump (buf : list Z) : list Z :=
  concat (map (fun d => [digit (Z.land (Z.shiftr d 4) 15); digit (Z.land d 15)]) buf) ++ [10].

(** ** The [cputc] family *)

(** The destination memory and [*rem]; the destination pointer is passed
    around by value. *)
Record cbuf := MkBuf { cb_mem : mem; cb_rem : Z }.

Definition cputc (dest : Z) (st : cbuf) (c : Z) : Z * cbuf :=
  if 1 <=? cb_rem st then (1, MkBuf (store8 (cb_mem st) dest c) (cb_rem st - 1)) else (0, st).

(** [len += cputc(dest++, rem, c)] over a text. *)
Fixpoint cputs (dest : Z) (st : cbuf) (l : list Z) : Z * cbuf :=
  match l with
  | [] => (0, st)
  | c :: l' =>
      let '(n, st) := cputc dest st c in
      let '(len, st) := cputs (dest + 1) st l' in
      (n + len, st)
  end.

(** [cprintf] of a colour, a format without conversions. *)
Definition cput_color (dest : Z) (st : cbuf) (col : list Z) : Z * cbuf := cputs dest st col.

(** The shape of the integer and pointer printers: colour, text with
    [dest++] for every character, colour. *)
Definition cput_colored (g : pf_globals) (dest : Z) (st : cbuf) (t : list Z) : Z * cbuf :=
  let '(len, st) := cput_color dest st (color_on g) in
  let dest := dest + len in
  let '(len', st) := cputs dest st t in
  let dest := dest + zlen t in
  let '(tlen, st) := cput_color dest st (color_off g) in
  (len + len' + tlen, st).

Definition cprintint (g : pf_globals) (dest : Z) (st : cbuf) (xx base sign : Z) : outcome (Z * cbuf) :=
  buf ← in_buf 20 (int_buf xx base sign);
  mret (cput_colored g dest st (rev buf)).

Definition cprintint_padded (g : pf_globals) (dest : Z) (st : cbuf) (xx base sign width pad : Z)
    : outcome (Z * cbuf) :=
  let buf := int_buf xx base sign in
  buf ← in_buf 20 (buf ++ replicate (Z.to_nat (width - zlen buf)) pad);
  mret (cput_colored g dest st (rev buf)).

Definition cprintptr (g : pf_globals) (dest : Z) (st : cbuf) (x : Z) : Z * cbuf :=
  cput_colored g dest st ([CH "0"; CH "x"] ++ hex_digits 16 x).

(** One conversion: the characters counted, the buffer, the arguments left
    and the distance the destination pointer moves. *)
Definition cconvert (g : pf_globals) (dest : Z) (st : cbuf) (c : conversion) (ap : list va_val)
    : outcome (Z * cbuf * list va_val * Z) :=
  match c with
  | CInt long base sign padded =>
      '(v, ap) ← va_word long ap;
      '(tlen, st) ← match padded with
                    | Some (width, pad) => cprintint_padded g dest st v base sign width pad
                    | None => cprintint g dest st v base sign
                    end;
      mret (tlen, st, ap, tlen)
  | CPtr =>
      '(v, ap) ← va_u64 ap;
      let '(tlen, st) := cprintptr g dest st v in mret (tlen, st, ap, tlen)
  | CStr =>
      '(s, ap) ← va_str ap;
      let '(tlen, st) := cputs dest st (str_text s) in mret (tlen, st, ap, zlen (str_text s))
  | CFloat =>
      '(f, ap) ← va_double ap;
      let '(tlen, st) := cputs dest st (kfloat g f) in mret (tlen, st, ap, tlen)
  | CChar ch => let '(tlen, st) := cputs dest st [ch] in mret (tlen, st, ap, 1)
  | CEnd => mret (0, st, ap, 0)
  | COther c0 => let '(tlen, st) := cputs dest st [CH "%"; c0] in mret (tlen, st, ap, 2)
  end.

Fixpoint cvprintf_from (fuel : nat) (g : pf_globals) (dest : Z) (st : cbuf) (fmt : list Z) (i : Z)
    (ap : list va_val) : outcome (Z * cbuf) :=
  match fuel with
  | O => NoFuel
  | S fuel' =>
      cx ← fmt_at fmt i;
      if cx =? 0 then mret (0, st)
      else if negb (cx =? CH "%") then
        let '(n, st) := cputc dest st cx in
        '(len, st) ← cvprintf_from fuel' g (dest + 1) st fmt (i + 1) ap;
        mret (n + len, st)
      else
        '(c, i') ← parse_spec fmt (i + 1);
        match c with
        | CEnd => mret (0, st)
        | _ =>
            '(tlen, st, ap, moved) ← cconvert g dest st c ap;
            '(len, st) ← cvprintf_from fuel' g (dest + moved) st fmt (i' + 1) ap;
            mret (tlen + len, st)
        end
  end.
Definition cvprintf (g : pf_globals) (dest : Z) (st : cbuf) (fmt : list Z) (ap : list va_val)
    : outcome (Z * cbuf) := cvprintf_from (S (length fmt)) g dest st fmt 0 ap.
Definition cprintf (g : pf_globals) (dest : Z) (st : cbuf) (fmt : list Z) (ap : list va_val)
    : outcome (Z * cbuf) := cvprintf g dest st fmt ap.

(** The kernel's [snprintf]: the length and the memory. *)
Definition snprintf (g : pf_globals) (m : mem) (dest dest_len : Z) (fmt : list Z) (ap : list va_val)
    : outcome (Z * mem) :=
  '(len, st) ← cvprintf (MkPf false (c_time_print g)) dest (MkBuf m dest_len) fmt ap;
  mret (len, cb_mem st).

Definition chexdump (dest : Z) (st : cbuf) (buf : list Z) : Z * cbuf := cputs dest st (khexdump buf).

(** ** The two families agree *)

Lemma cputs_full dest st l : cb_rem st < 1 -> cputs dest st l = (0, st).
Proof.
  revert dest. induction l as [|c l IH]; intros dest Hr; simpl; [done|].
  unfold cputc. destruct (Z.leb_spec 1 (cb_rem st)); [lia|]. by rewrite IH.
Qed.

(** What [cputs] does: as much of the text as there is room for. *)
Lemma cputs_spec dest m rem l : 0 <= rem ->
  cputs dest (MkBuf m rem) l =
  (Z.min rem (zlen l), MkBuf (store_list m dest (take (Z.to_nat rem) l)) (rem - Z.min rem (zlen l))).
Proof.
  revert dest m rem. induction l as [|c l IH]; intros dest m rem Hr; unfold zlen.
  - rewrite take_nil. simpl. rewrite Z.min_r by lia. by rewrite Z.sub_0_r.
  - destruct (Z.eq_dec rem 0) as [->|].
    + rewrite cputs_full by (simpl; lia). rewrite Z.min_l by lia. done.
    + cbn [cputs]. unfold cputc. cbn [cb_rem cb_mem]. destruct (Z.leb_spec 1 rem); [|lia].
      rewrite IH by lia. unfold zlen. cbn [length].
      replace (Z.to_nat rem) with (S (Z.to_nat (rem - 1))) by lia. cbn [take store_list].
      f_equal; [lia|]. f_equal. lia.
Qed.

(** Either all was written or there is no room left. *)
Lemma cputs_end dest st l n st' : cputs dest st l = (n, st') -> n = zlen l \/ cb_rem st' < 1.
Proof.
  destruct (Z.le_gt_cases 0 (cb_rem st)) as [Hr|Hr].
  - destruct st as [m rem]. rewrite cputs_spec by exact Hr. intros [= <- <-]. simpl. lia.
  - rewrite cputs_full by lia. intros [= <- <-]. right. lia.
Qed.

Lemma cputs_app dest st l1 l2 d : d = zlen l1 \/ d = (cputs dest st l1).1 ->
  cputs dest st (l1 ++ l2) =
  let '(n1, st1) := cputs dest st l1 in let '(n2, st2) := cputs (dest + d) st1 l2 in (n1 + n2, st2).
Proof.
  assert (forall dest st l1 l2, cputs dest st (l1 ++ l2) =
    let '(n1, st1) := cputs dest st l1 in
    let '(n2, st2) := cputs (dest + zlen l1) st1 l2 in (n1 + n2, st2)) as H.
  { clear. intros dest st l1. revert dest st. induction l1 as [|c l1 IH]; intros dest st l2.
    - simpl. unfold zlen. simpl. rewrite Z.add_0_r. by destruct (cputs dest st l2).
    - cbn [app cputs]. destruct (cputc dest st c) as [n st1]. rewrite IH.
      destruct (cputs (dest + 1) st1 l1) as [n1 st2].
      replace (dest + zlen (c :: l1)) with (dest + 1 + zlen l1) by (unfold zlen; simpl length; lia).
      destruct (cputs (dest + 1 + zlen l1) st2 l2) as [n2 st3]. f_equal. lia. }
  intros Hd. rewrite H. destruct (cputs dest st l1) as [n1 st1] eqn:E.
  destruct Hd as [->| ->]; [done|]. destruct (cputs_end _ _ _ _ _ E) as [->|Hf]; [done|].
  by rewrite !cputs_full by done.
Qed.

Lemma cput_colored_spec g dest st t :
  cput_colored g dest st t = cputs dest st (color_on g ++ t ++ color_off g).
Proof.
  unfold cput_colored, cput_color.
  rewrite (cputs_app dest st (color_on g) _ (cputs dest st (color_on g)).1) by (by right).
  destruct (cputs dest st (color_on g)) as [n st1] eqn:E1. cbn [fst].
  rewrite (cputs_app (dest + n) st1 t (color_off g) (zlen t)) by (by left).
  destruct (cputs (dest + n) st1 t) as [n' st2].
  destruct (cputs (dest + n + zlen t) st2 (color_off g)) as [n3 st3]. f_equal. lia.
Qed.

Lemma kvprintf_cons_bind {A B} (m : outcome A) (f : A -> outcome B) a : m = Ret a -> m ≫= f = f a.
Proof. by intros ->. Qed.

(** One conversion writes what its counterpart sends. *)
Lemma cconvert_spec g dest st c ap :
  match kconvert g c ap with
  | Ret (t, ap') => exists moved, (moved = zlen t \/ moved = (cputs dest st t).1) /\
      cconvert g dest st c ap = Ret ((cputs dest st t).1, (cputs dest st t).2, ap', moved)
  | Panic msg => cconvert g dest st c ap = Panic msg
  | Undef => cconvert g dest st c ap = Undef
  | NoFuel => cconvert g dest st c ap = NoFuel
  end.
Proof.
  destruct c as [long base sign padded| | | |ch| |c0]; unfold kconvert, cconvert.
  - destruct (va_word long ap) as [[v ap']| | |]; cbn [mbind outcome_bind]; try done.
    destruct padded as [[width pad]|]; [unfold kprintint_padded, cprintint_padded|unfold kprintint, cprintint];
      (match goal with |- context [in_buf 20 ?b] => destruct (in_buf 20 b) as [buf| | |] end);
      cbn [mbind outcome_bind mret outcome_ret]; try done; rewrite cput_colored_spec;
      destruct (cputs dest st _) as [n st'] eqn:E; (exists n; split; [by right|done]).
  - destruct (va_u64 ap) as [[v ap']| | |]; cbn [mbind outcome_bind mret outcome_ret]; try done.
    unfold cprintptr, kprintptr. rewrite cput_colored_spec, <- app_assoc.
    destruct (cputs dest st _) as [n st'] eqn:E. exists n. split; [by right|done].
  - destruct (va_str ap) as [[s ap']| | |]; cbn [mbind outcome_bind mret outcome_ret]; try done.
    unfold kprints. destruct (cputs dest st _) as [n st'] eqn:E.
    exists (zlen (str_text s)). split; [by left|done].
  - destruct (va_double ap) as [[f ap']| | |]; cbn [mbind outcome_bind mret outcome_ret]; try done.
    destruct (cputs dest st _) as [n st'] eqn:E. exists n. split; [by right|done].
  - cbn [mret outcome_ret]. destruct (cputs dest st _) as [n st'] eqn:E. exists 1. split; [by left|done].
  - cbn [mret outcome_ret]. exists 0. split; [by left|done].
  - cbn [mret outcome_ret]. destruct (cputs dest st _) as [n st'] eqn:E. exists 2. split; [by left|done].
Qed.

Lemma cvprintf_from_spec fuel g dest st fmt i ap :
  cvprintf_from fuel g dest st fmt i ap =
  match kvprintf_from fuel g fmt i ap with
  | Ret t => Ret (cputs dest st t)
  | Panic msg => Panic msg
  | Undef => Undef
  | NoFuel => NoFuel
  end.
Proof.
  revert dest st i ap. induction fuel as [|fuel IH]; intros dest st i ap; [done|].
  cbn [cvprintf_from kvprintf_from]. destruct (fmt_at fmt i) as [cx| | |]; try done. cbn [mbind outcome_bind].
  destruct (cx =? 0); [done|]. destruct (negb (cx =? CH "%")).
  - destruct (cputc dest st cx) as [n st1] eqn:Ec. rewrite IH.
    destruct (kvprintf_from fuel g fmt (i + 1) ap) as [t| | |]; cbn [mbind outcome_bind mret outcome_ret]; try done.
    cbn [cputs]. rewrite Ec. by destruct (cputs (dest + 1) st1 t).
  - destruct (parse_spec fmt (i + 1)) as [[c i']| | |]; try done. cbn [mbind outcome_bind].
    assert (forall (kk : outcome (list Z)) (cc : outcome (Z * cbuf)),
      (kk = ('(t, ap) ← kconvert g c ap; rest ← kvprintf_from fuel g fmt (i' + 1) ap; mret (t ++ rest))) ->
      (cc = ('(tlen, st, ap, moved) ← cconvert g dest st c ap;
            '(len, st) ← cvprintf_from fuel g (dest + moved) st fmt (i' + 1) ap; mret (tlen + len, st))) ->
      cc = match kk with Ret t => Ret (cputs dest st t) | Panic msg => Panic msg
           | Undef => Undef | NoFuel => NoFuel end) as Hgen.
    { intros kk cc -> ->. pose proof (cconvert_spec g dest st c ap) as Hc.
      destruct (kconvert g c ap) as [[t ap']| | |]; [|by rewrite Hc..].
      destruct Hc as (moved & Hm & ->). cbn [mbind outcome_bind]. rewrite IH.
      destruct (kvprintf_from fuel g fmt (i' + 1) ap') as [rest| | |];
        cbn [mbind outcome_bind mret outcome_ret]; try done.
      rewrite (cputs_app dest st t rest moved Hm). destruct (cputs dest st t) as [n1 st1]. cbn [fst snd].
      by destruct (cputs (dest + moved) st1 rest). }
    destruct c; try (by apply Hgen). done.
Qed.

(** The buffer family agrees with the output family.  Whatever text
    [kvprintf] sends for a format and its arguments, [cvprintf] with room for
    [rem] characters writes exactly the first [rem] of them behind each
    other, returns how many it wrote, takes them off [rem] and touches no
    other byte; it fails only when [kvprintf] fails. *)
Theorem cvprintf_correct g dest m rem fmt ap (Hr : 0 <= rem) :
  cvprintf g dest (MkBuf m rem) fmt ap =
  match kvprintf g fmt ap with
  | Ret t => Ret (Z.min rem (zlen t),
      MkBuf (store_list m dest (take (Z.to_nat rem) t)) (rem - Z.min rem (zlen t)))
  | Panic msg => Panic msg
  | Undef => Undef
  | NoFuel => NoFuel
  end.
Proof.
  unfold cvprintf, kvprintf. rewrite cvprintf_from_spec.
  destruct (kvprintf_from _ _ _ _ _); try done. by rewrite cputs_spec.
Qed.

(** The kernel's [snprintf] never writes a terminator.  Of the text it
    stores at most [dest_len] characters, and the byte behind the last one
    keeps its value. *)
Theorem snprintf_no_terminator g m dest dest_len fmt ap len m' (Hd : 0 <= dest_len)
    (Hs : snprintf g m dest dest_len fmt ap = Ret (len, m')) :
  0 <= len <= dest_len /\ forall x, x < dest \/ dest + len <= x -> m' x = m x.
Proof.
  unfold snprintf, cvprintf in Hs. rewrite cvprintf_from_spec in Hs.
  destruct (kvprintf_from _ _ _ _ _) as [t| | |]; try done.
  rewrite cputs_spec in Hs by done. cbn [mbind outcome_bind mret outcome_ret cb_mem] in Hs.
  injection Hs as <- <-. pose proof (zlen_nonneg t). split; [lia|].
  intros x Hx. apply store_list_out. unfold zlen in *. rewrite length_take. lia.
Qed.

(** ** The formats *)

(** What a format asks for, one piece after the other. *)
Inductive piece := PChar (c : Z) | PConv (c : conversion).

(** The letters of the conversions. *)
Definition letters (padded : option (Z * Z)) : list (list Z * conversion) :=
  [(bytes "d", CInt false 10 1 None); (bytes "ld", CInt true 10 1 None); (bytes "lld", CInt true 10 1 None);
   (bytes "u", CInt false 10 0 None); (bytes "i", CInt false 10 0 None); (bytes "lu", CInt true 10 0 None);
   (bytes "llu", CInt true 10 0 None); (bytes "zu", CInt true 10 0 None); (bytes "x", CInt false 16 0 padded);
   (bytes "lx", CInt true 16 0 padded); (bytes "llx", CInt true 16 0 padded); (bytes "p", CPtr); (bytes "s", CStr);
   (bytes "f", CFloat); (bytes "lf", CFloat); (bytes "%", CChar (CH "%"))].

(** The padding in front of them: a zero, and digits. *)
Definition is_digit (c : Z) : bool := (48 <=? c) && (c <=? 57).
Definition flag (zero : bool) : list Z := if zero then [CH "0"] else [].
Definition flag_ok (zero : bool) (ds : list Z) : Prop :=
  Forall (fun c => is_digit c = true) ds /\ (zero = false -> head ds <> Some (CH "0")).
Definition add_digit (w c : Z) : Z := sgn 32 (w * 10 + (c - 48)).
Definition padding (zero : bool) (ds : list Z) : option (Z * Z) :=
  let width := fold_left add_digit ds 0 in
  if 0 <? width then Some (width, if zero then CH "0" else CH " ") else None.

(** The grammar: plain characters, conversions, a percent sign before other
    letters, which is printed as it stands, and one at the very end, which
    is dropped with its padding. *)
Inductive formatted : list Z -> list piece -> Prop :=
| fm_nil : formatted [] []
| fm_char c fmt l : c <> CH "%" -> formatted fmt l -> formatted (c :: fmt) (PChar c :: l)
| fm_conv zero ds w c fmt l : flag_ok zero ds -> (w, c) ∈ letters (padding zero ds) -> formatted fmt l ->
    formatted (CH "%" :: flag zero ++ ds ++ w ++ fmt) (PConv c :: l)
| fm_other zero ds c0 fmt l : flag_ok zero ds -> is_digit c0 = false ->
    (forall w c, (w, c) ∈ letters None -> ~ w `prefix_of` c0 :: fmt) -> formatted fmt l ->
    formatted (CH "%" :: flag zero ++ ds ++ c0 :: fmt) (PConv (COther c0) :: l)
| fm_end zero ds : flag_ok zero ds -> formatted (CH "%" :: flag zero ++ ds) [].

Fixpoint print_pieces (g : pf_globals) (l : list piece) (ap : list va_val) : outcome (list Z) :=
  match l with
  | [] => mret []
  | PChar c :: l' => rest ← print_pieces g l' ap; mret (c :: rest)
  | PConv c :: l' => '(t, ap) ← kconvert g c ap; rest ← print_pieces g l' ap; mret (t ++ rest)
  end.

(** Reading behind a prefix. *)
Lemma fmt_at_app pre s k : 0 <= k <= zlen s ->
  fmt_at (pre ++ s) (zlen pre + k) = Ret (default 0 (s !! Z.to_nat k)).
Proof.
  intros Hk. unfold fmt_at, zget. pose proof (zlen_nonneg pre). destruct (Z.ltb_spec (zlen pre + k) 0); [lia|].
  rewrite lookup_app_r by (unfold zlen; lia). replace (Z.to_nat (zlen pre + k) - length pre)%nat with (Z.to_nat k)
    by (unfold zlen; lia).
  destruct (s !! Z.to_nat k) as [c|] eqn:E; [done|]. apply lookup_ge_None in E.
  assert (k = zlen s) as -> by (unfold zlen in *; lia). by rewrite zlen_app, Z.eqb_refl.
Qed.

Lemma fmt_at_head pre s : fmt_at (pre ++ s) (zlen pre) = Ret (default 0 (head s)).
Proof.
  pose proof (fmt_at_app pre s 0 ltac:(pose proof (zlen_nonneg s); lia)) as HF. rewrite Z.add_0_r in HF.
  rewrite HF. by destruct s.
Qed.

Lemma parse_width_spec fuel pre s w : (length s < fuel)%nat ->
  exists ds s', s = ds ++ s' /\ Forall (fun c => is_digit c = true) ds /\ is_digit (default 0 (head s')) = false /\
    parse_width fuel (pre ++ s) (zlen pre) w = Ret (fold_left add_digit ds w, zlen pre + zlen ds).
Proof.
  revert pre s w. induction fuel as [|fuel IH]; intros pre s w Hf; [lia|]. cbn [parse_width].
  rewrite fmt_at_head. cbn [mbind outcome_bind]. fold (is_digit (default 0 (head s))).
  destruct (is_digit (default 0 (head s))) eqn:Ed.
  - destruct s as [|c s]; [done|]. cbn [head default from_option id] in *.
    destruct (IH (pre ++ [c]) s (add_digit w c) ltac:(cbn in Hf; lia)) as (ds & s' & -> & H1 & H2 & H3).
    exists (c :: ds), s'. split; [done|]. split; [by constructor|]. split; [done|].
    rewrite <- app_assoc, zlen_app in H3. change ([c] ++ ds ++ s') with (c :: ds ++ s') in H3.
    change (zlen [c]) with 1 in H3. change (sgn 32 (w * 10 + (c - 48))) with (add_digit w c). rewrite H3.
    cbn [fold_left]. do 2 f_equal. rewrite zlen_cons. lia.
  - exists [], s. split; [done|]. split; [done|]. split; [done|]. cbn [fold_left mret outcome_ret].
    do 2 f_equal. unfold zlen. simpl length. lia.
Qed.

(** One of the letters, by its place in the list. *)
Ltac letters_step := apply list_elem_of_In; unfold letters; repeat (first [left; reflexivity|right]).

(** The chain of comparisons finds the letters. *)
Lemma pick_conversion_spec c0 s p : c0 <> 0 -> 0 ∉ s ->
  let c1 := default 0 (head s) in
  let '(c, n) := pick_conversion c0 c1 (if truth c1 then default 0 (s !! 1%nat) else 0) p in
  (exists w rest, c0 :: s = w ++ rest /\ (w, c) ∈ letters p /\ n = zlen w - 1) \/
  (c = COther c0 /\ n = 0 /\ forall w c', (w, c') ∈ letters None -> ~ w `prefix_of` c0 :: s).
Proof.
  intros H0 Hs. cbv zeta. set (c1 := default 0 (head s)). set (c2 := if truth c1 then _ else 0).
  assert (c1 <> 0 -> exists s1, s = c1 :: s1) as E1.
  { intros N. destruct s as [|x s1]; [done|]. by exists s1. }
  assert (c2 <> 0 -> exists s2, s = c1 :: c2 :: s2) as E2.
  { intros N. unfold c2 in *. destruct (truth c1); [|done]. destruct s as [|x [|y s2]]; [done..|]. by exists s2. }
  unfold pick_conversion.
  repeat match goal with
  | |- context [if ?b then _ else _] => destruct b eqn:?
  end; rewrite ?andb_true_iff, ?orb_true_iff, ?Z.eqb_eq in *;
  try match goal with
  | T : (c0 = _ /\ c1 = _) /\ c2 = _ |- _ => clearbody c2; clearbody c1; left; destruct T as [[-> T1] T2];
      destruct (E2 ltac:(rewrite T2; done)) as [s2 ->]; rewrite T1, T2;
      eexists [_; _; _], s2; (split; [reflexivity|split; [letters_step|reflexivity]])
  | T : c0 = _ /\ c1 = _ |- _ => clearbody c2; clearbody c1; left; destruct T as [-> T1];
      destruct (E1 ltac:(rewrite T1; done)) as [s1 ->]; rewrite T1;
      eexists [_; _], s1; (split; [reflexivity|split; [letters_step|reflexivity]])
  | T : c0 = _ \/ c0 = _ |- _ => left; destruct T as [->| ->];
      eexists [_], s; (split; [reflexivity|split; [letters_step|reflexivity]])
  | T : c0 = 0 |- _ => done
  | T : c0 = _ |- _ => left; rewrite T;
      eexists [_], s; (split; [reflexivity|split; [letters_step|reflexivity]])
  end.
  right. split; [done|]. split; [done|]. intros w c' Hw [k Ek]. apply list_elem_of_In in Hw.
  clear E1 E2. subst c2 c1. unfold letters in Hw. cbn [In] in Hw.
  repeat (destruct Hw as [[= <- _]|Hw]; [injection Ek as -> ->;
    repeat match goal with T : _ = false |- _ => vm_compute in T; try discriminate T; clear T end|]).
  done.
Qed.

Lemma letters_not_end w c p : (w, c) ∈ letters p -> c <> CEnd.
Proof.
  intros Hw ->. apply list_elem_of_In in Hw. unfold letters in Hw. cbn [In] in Hw.
  repeat (destruct Hw as [Hw|Hw]; [discriminate Hw|]). done.
Qed.

(** What a specification that begins at [s] is, and where it ends. *)
Definition spec_at (pre s : list Z) (zero : bool) (r : outcome (conversion * Z)) : Prop :=
  exists ds s', s = ds ++ s' /\ Forall (fun c => is_digit c = true) ds /\
  ((s' = [] /\ exists i, r = Ret (CEnd, i)) \/
   (exists w c rest, s' = w ++ rest /\ (w, c) ∈ letters (padding zero ds) /\
      r = Ret (c, zlen pre + zlen ds + zlen w - 1)) \/
   (exists c0 rest, s' = c0 :: rest /\ is_digit c0 = false /\
      (forall w c, (w, c) ∈ letters None -> ~ w `prefix_of` c0 :: rest) /\
      r = Ret (COther c0, zlen pre + zlen ds))).

Lemma parse_padded_spec pre s (zero : bool) : 0 ∉ s ->
  spec_at pre s zero (parse_padded (pre ++ s) (zlen pre) (if zero then CH "0" else CH " ")).
Proof.
  intros Hs. remember (parse_padded _ _ _) as r eqn:Er. unfold parse_padded in Er.
  destruct (parse_width_spec (S (length (pre ++ s))) pre s 0) as (ds & s' & -> & Hd & Hn & E);
    [rewrite length_app; lia|].
  rewrite E in Er. cbn [mbind outcome_bind] in Er. exists ds, s'. split; [done|]. split; [done|].
  rewrite (app_assoc pre ds s'), <- zlen_app, fmt_at_head in Er. rewrite elem_of_app in Hs.
  cbn [mbind outcome_bind] in Er. destruct s' as [|c0 rest].
  { left. split; [done|]. subst r. by eexists. }
  right. cbn [head default from_option id] in *. rewrite elem_of_cons in Hs.
  assert (c0 <> 0) as H0 by (intros ->; tauto).
  assert (truth c0 = true) as Et by (unfold truth; by destruct (Z.eqb_spec c0 0)). rewrite Et in Er.
  pose proof (zlen_nonneg rest). rewrite (fmt_at_app (pre ++ ds) (c0 :: rest) 1) in Er by (rewrite zlen_cons; lia).
  change ((c0 :: rest) !! Z.to_nat 1) with (rest !! 0%nat) in Er.
  assert (default 0 (rest !! 0%nat) = default 0 (head rest)) as E1 by (by destruct rest). rewrite E1 in Er.
  cbn [mbind outcome_bind] in Er.
  assert ((if truth (default 0 (head rest)) then fmt_at ((pre ++ ds) ++ c0 :: rest) (zlen (pre ++ ds) + 2)
           else mret 0 : outcome Z) =
          Ret (if truth (default 0 (head rest)) then default 0 (rest !! 1%nat) else 0)) as E2.
  { destruct rest as [|c1 rest]; [done|]. cbn [head default from_option id]. destruct (truth c1); [|done].
    pose proof (zlen_nonneg rest). rewrite fmt_at_app by (rewrite !zlen_cons; lia). done. }
  rewrite E2 in Er. cbn [mbind outcome_bind] in Er. fold (padding zero ds) in Er.
  pose proof (pick_conversion_spec c0 rest (padding zero ds) H0 ltac:(tauto)) as HP. cbv zeta in HP.
  destruct (pick_conversion _ _ _ _) as [c n]. subst r. cbn [mret outcome_ret]. rewrite zlen_app.
  destruct HP as [(w & r & Ew & Hw & ->)|(-> & -> & HP)]; [left|right].
  - exists w, c, r. split; [done|]. split; [done|]. do 2 f_equal. lia.
  - exists c0, rest. split; [done|]. split; [done|]. split; [done|]. do 2 f_equal. lia.
Qed.

Lemma parse_spec_ok pre s : 0 ∉ s -> exists zero s1, s = flag zero ++ s1 /\
  (zero = false -> head s1 <> Some (CH "0")) /\
  spec_at (pre ++ flag zero) s1 zero (parse_spec (pre ++ s) (zlen pre)).
Proof.
  intros Hs. unfold parse_spec. rewrite fmt_at_head. cbn [mbind outcome_bind].
  destruct (Z.eqb_spec (default 0 (head s)) (CH "0")) as [E|E].
  - destruct s as [|c s]; [done|]. cbn [head default from_option id] in E. subst c. exists true, s. split; [done|]. split; [done|].
    change (CH "0" :: s) with ([CH "0"] ++ s). rewrite app_assoc.
    change (zlen pre + 1) with (zlen pre + zlen [CH "0"]). rewrite <- zlen_app.
    apply (parse_padded_spec (pre ++ [CH "0"]) s true). rewrite not_elem_of_cons in Hs. tauto.
  - exists false, s. split; [done|]. split.
    { intros _ E2. apply E. by rewrite E2. }
    rewrite app_nil_r. by apply (parse_padded_spec pre s false).
Qed.

Lemma kconvert_fuel g c ap : kconvert g c ap <> NoFuel.
Proof.
  destruct c as [long base sign padded| | | |ch| |c0]; unfold kconvert; try done.
  - unfold va_word, va_u64, va_int. destruct long, ap as [|[] ap];
      cbn [mbind outcome_bind mret outcome_ret]; try done;
      (destruct padded as [[w p]|]; [unfold kprintint_padded|unfold kprintint]; unfold in_buf;
       destruct (_ <? _); done).
  - unfold va_u64. by destruct ap as [|[] ap].
  - unfold va_str. by destruct ap as [|[] ap].
  - unfold va_double. by destruct ap as [|[] ap].
Qed.

Lemma print_pieces_fuel l : forall g ap, print_pieces g l ap <> NoFuel.
Proof.
  induction l as [|[c|c] l IH]; intros g ap; cbn [print_pieces]; [done| |].
  - specialize (IH g ap). by destruct (print_pieces g l ap).
  - pose proof (kconvert_fuel g c ap). destruct (kconvert g c ap) as [[t ap']| | |]; try done.
    cbn [mbind outcome_bind]. specialize (IH g ap'). by destruct (print_pieces g l ap').
Qed.

(** The loop from a place in the format on. *)
Lemma kvprintf_from_spec fuel : forall pre s, 0 ∉ s -> (length s < fuel)%nat ->
  exists l, formatted s l /\ forall g ap, kvprintf_from fuel g (pre ++ s) (zlen pre) ap = print_pieces g l ap.
Proof.
  induction fuel as [|fuel IH]; intros pre s Hs Hf; [lia|].
  destruct s as [|c s].
  { exists []. split; [constructor|]. intros g ap. cbn [kvprintf_from]. by rewrite fmt_at_head. }
  rewrite not_elem_of_cons in Hs. destruct Hs as [Hc Hs].
  assert (forall pre1 x s2, pre ++ c :: s = pre1 ++ x ++ s2 -> 0 ∉ s2 -> (length s2 < fuel)%nat ->
    exists l, formatted s2 l /\ forall g ap,
      kvprintf_from fuel g (pre ++ c :: s) (zlen pre1 + zlen x) ap = print_pieces g l ap) as IHs.
  { intros pre1 x s2 E H2 Hl. destruct (IH (pre1 ++ x) s2 H2 Hl) as (l & F & E2). exists l. split; [done|].
    intros g ap. by rewrite E, app_assoc, <- zlen_app. }
  cbn [kvprintf_from]. rewrite fmt_at_head. cbn [mbind outcome_bind head default from_option id].
  destruct (Z.eqb_spec c 0); [lia|]. destruct (Z.eqb_spec c (CH "%")) as [->|N]; cbn [negb].
  2:{ destruct (IHs pre [c] s) as (l & F & E); [done|done|cbn in Hf; lia|].
      exists (PChar c :: l). split; [by constructor|]. intros g ap. change (zlen [c]) with 1 in E. by rewrite E. }
  destruct (parse_spec_ok (pre ++ [CH "%"]) s Hs) as (zero & s1 & -> & Hz & ds & s' & -> & Hd & HS).
  rewrite <- app_assoc, (zlen_app pre) in HS. change (zlen [CH "%"]) with 1 in HS.
  change ([CH "%"] ++ flag zero ++ ds ++ s') with (CH "%" :: flag zero ++ ds ++ s') in HS.
  assert (flag_ok zero ds) as Hok.
  { split; [done|]. intros Ez E. apply (Hz Ez). by destruct ds. }
  rewrite !elem_of_app in Hs. cbn [length] in Hf. rewrite !length_app in Hf.
  destruct HS as [[-> [i HS]]|[(w & c & rest & -> & Hw & HS)|(c0 & rest & -> & Hc0 & Hn & HS)]].
  - exists []. split; [rewrite app_nil_r; by constructor|]. intros g ap. by rewrite HS.
  - destruct (IHs pre (CH "%" :: flag zero ++ ds ++ w) rest) as (l & F & E).
    + cbn [app]. by rewrite <- !app_assoc.
    + rewrite elem_of_app in Hs. tauto.
    + rewrite length_app in Hf. lia.
    + exists (PConv c :: l). split; [by constructor|]. intros g ap. rewrite HS. cbn [mbind outcome_bind].
      assert (zlen ((pre ++ [CH "%"]) ++ flag zero) + zlen ds + zlen w - 1 + 1 =
              zlen pre + zlen (CH "%" :: flag zero ++ ds ++ w)) as ->
        by (rewrite zlen_cons, !zlen_app; change (zlen [CH "%"]) with 1; lia).
      cbn [print_pieces]. pose proof (letters_not_end w c _ Hw) as Hne.
      destruct c; try done; (destruct (kconvert g _ ap) as [[t ap']| | |]; [|done..]; cbn [mbind outcome_bind];
        by rewrite E).
  - destruct (IHs pre (CH "%" :: flag zero ++ ds ++ [c0]) rest) as (l & F & E).
    + cbn [app]. by rewrite <- !app_assoc.
    + rewrite elem_of_cons in Hs. tauto.
    + cbn [length] in Hf. lia.
    + exists (PConv (COther c0) :: l). split; [by constructor|]. intros g ap. rewrite HS. cbn [mbind outcome_bind].
      assert (zlen ((pre ++ [CH "%"]) ++ flag zero) + zlen ds + 1 =
              zlen pre + zlen (CH "%" :: flag zero ++ ds ++ [c0])) as ->
        by (rewrite zlen_cons, !zlen_app; change (zlen [CH "%"]) with 1; change (zlen [c0]) with 1; lia).
      cbn [print_pieces kconvert mbind outcome_bind mret outcome_ret]. by rewrite E.
Qed.

(** C15: the formatting loops do what the format's grammar says.  For every
    format there are pieces, plain characters and conversions, of which the
    format is the text; [kvprintf] sends exactly what the pieces print, one
    after the other, and [cvprintf] writes that text into its buffer.  The
    loops end and never read behind the terminator, also when the format
    ends inside a conversion: they run out of fuel or fail only if the
    conversion of one of the pieces fails. *)
Theorem kvprintf_terminates fmt (Hz : 0 ∉ fmt) :
  exists l, formatted fmt l /\
    (forall g ap, kvprintf g fmt ap = print_pieces g l ap) /\
    (forall g dest st ap, cvprintf g dest st fmt ap =
       match print_pieces g l ap with
       | Ret t => Ret (cputs dest st t)
       | Panic msg => Panic msg
       | Undef => Undef
       | NoFuel => NoFuel
       end) /\
    forall g ap, print_pieces g l ap <> NoFuel.
Proof.
  destruct (kvprintf_from_spec (S (length fmt)) [] fmt Hz ltac:(lia)) as (l & F & E).
  exists l. split; [done|]. split; [exact E|]. split; [|apply print_pieces_fuel].
  intros g dest st ap. unfold cvprintf. rewrite cvprintf_from_spec. by rewrite <- E.
Qed.
(** ** What is printed *)

(** The value of a printed integer: an optional minus sign and a numeral. *)
Definition printed_value (base : Z) (t : list Z) : option Z :=
  match t with
  | 45 :: l => Z.opp <$> numeral base l
  | _ => numeral base t
  end.

Lemma printed_unsigned base l v : numeral base l = Some v -> printed_value base l = Some v.
Proof.
  intros H. destruct l as [|c l]; [done|]. unfold printed_value.
  destruct (Z.eq_dec c 45) as [->|Hc]; [by unfold numeral in H|].
  destruct c as [|c|c]; try done. repeat (destruct c as [c|c|]; try done).
Qed.

(** The integer printers are exact.  With colours off [kprintint] sends,
    for every [long long], a numeral of at most 20 characters (its buffer
    never overflows) that denotes the argument: its value when [sign] is
    set, its value as an unsigned 64-bit number otherwise; and [kprintptr]
    sends [0x] and the sixteen hexadecimal digits of its argument. *)
Theorem kprintint_value xx base sign time x (Hb : base = 10 \/ base = 16)
    (Hxx : - 2 ^ 63 <= xx < 2 ^ 63) (Hx : 0 <= x < 2 ^ 64) :
  exists t, kprintint (MkPf false time) xx base sign = Ret t /\ (1 <= length t <= 20)%nat /\
    printed_value base t = Some (if truth sign then xx else wrap 64 xx) /\
    exists h, kprintptr (MkPf false time) x = [CH "0"; CH "x"] ++ h /\ length h = 16%nat /\
      numeral 16 h = Some x.
Proof.
  pose proof (int_buf_length xx base sign Hb Hxx) as Hl.
  exists (rev (int_buf xx base sign)).
  split; [|split; [by rewrite length_rev|split]].
  - unfold kprintint, in_buf, zlen. destruct (Z.ltb_spec 20 (Z.of_nat (length (int_buf xx base sign)))); [lia|].
    cbn [mbind outcome_bind mret outcome_ret color_on color_off print_colored]. by rewrite app_nil_r.
  - unfold int_buf, magnitude. pose proof (wrap_range 64 xx ltac:(lia)).
    destruct (is_negative xx sign) eqn:E.
    + apply andb_true_iff in E as [Es E]. apply Z.ltb_lt in E. rewrite rev_app_distr, Es.
      rewrite (wrap_small 64 (- xx)) by lia. cbn [rev app printed_value].
      rewrite digits_value by lia. simpl. f_equal. lia.
    + rewrite app_nil_r. rewrite (printed_unsigned base _ (wrap 64 xx)) by (apply digits_value; lia).
      destruct (truth sign) eqn:Es; [|done]. unfold is_negative in E. rewrite Es in E. simpl in E.
      apply Z.ltb_ge in E. rewrite wrap_small by lia. done.
  - exists (hex_digits 16 x). split; [|split; [done|by apply hex_digits_16]].
    unfold kprintptr. cbn [color_on color_off print_colored]. by rewrite app_nil_r.
Qed.

Lemma kvprintf_single (g : pf_globals) c v :
  (forall i, parse_spec [CH "%"; c] 1 = Ret (CInt false 10 i None, 1) ->
   kvprintf g [CH "%"; c] [VWord v] = kprintint g (sgn 32 v) 10 i).
Proof.
  intros i Hp. unfold kvprintf. cbn [length kvprintf_from].
  change (fmt_at [CH "%"; c] 0) with (Ret (CH "%") : outcome Z). cbn [mbind outcome_bind]. change (CH "%" =? 0) with false.
  change (negb (CH "%" =? CH "%")) with false. cbv iota. rewrite Z.add_0_l, Hp. cbn [mbind outcome_bind].
  cbn [kconvert va_word va_int mbind outcome_bind].
  destruct (kprintint g (sgn 32 v) 10 i) as [t| | |]; cbn [mbind outcome_bind mret outcome_ret]; try done.
  change (fmt_at [CH "%"; c] (1 + 1)) with (Ret 0 : outcome Z). cbn [mbind outcome_bind]. change (0 =? 0) with true. cbv iota.
  cbn [mbind outcome_bind mret outcome_ret]. by rewrite app_nil_r.
Qed.

(** [%u] (and [%i], and [%x] alike) fetches an [int] and widens it with
    its sign: an unsigned argument from 2 GiB on is printed as the number
    2 ^ 64 - 2 ^ 32 larger than it, while [%d] of an int is exact. *)
Theorem kprintf_unsigned_high v time (Hv : 2 ^ 31 <= v < 2 ^ 32) :
  exists t, kvprintf (MkPf false time) (bytes "%u") [VWord v] = Ret t /\
    printed_value 10 t = Some (v + 2 ^ 64 - 2 ^ 32) /\
    exists t', kvprintf (MkPf false time) (bytes "%d") [VWord v] = Ret t' /\
      printed_value 10 t' = Some (v - 2 ^ 32).
Proof.
  assert (sgn 32 v = v - 2 ^ 32) as Es.
  { unfold sgn. rewrite wrap_small by lia. cbv zeta. change (2 ^ (32 - 1)) with (2 ^ 31).
    destruct (Z.ltb_spec v (2 ^ 31)); lia. }
  destruct (kprintint_value (v - 2 ^ 32) 10 0 time 0) as (t & E & _ & V & _); [by left|lia|lia|].
  destruct (kprintint_value (v - 2 ^ 32) 10 1 time 0) as (t' & E' & _ & V' & _); [by left|lia|lia|].
  exists t. split; [|split].
  - change (bytes "%u") with [CH "%"; CH "u"]. rewrite (kvprintf_single _ _ _ 0) by reflexivity. by rewrite Es.
  - rewrite V. change (truth 0) with false. cbv iota. f_equal. unfold wrap.
    symmetry. apply (Z.mod_unique_pos _ _ (-1)); lia.
  - exists t'. split; [|exact V'].
    change (bytes "%d") with [CH "%"; CH "d"]. rewrite (kvprintf_single _ _ _ 1) by reflexivity. by rewrite Es.
Qed.

(** A width of more than 20 overruns the buffer of the padded printers. *)
Lemma kprintint_padded_overflow g xx base sign width pad : base = 10 \/ base = 16 ->
  - 2 ^ 63 <= xx < 2 ^ 63 -> 20 < width -> kprintint_padded g xx base sign width pad = Undef.
Proof.
  intros Hb Hxx Hw. pose proof (int_buf_length xx base sign Hb Hxx) as Hl.
  unfold kprintint_padded, in_buf. cbv zeta.
  set (buf := int_buf xx base sign) in *. unfold zlen in *. rewrite length_app, length_replicate.
  match goal with |- context [20 <? ?n] => destruct (Z.ltb_spec 20 n); [done|lia] end.
Qed.

End printf.

(** ** Witnesses *)

Definition no_float : pf_globals -> Z -> list Z := fun _ _ => [].

Lemma cvprintf_correct_witness :
  exists m, cvprintf no_float (MkPf false false) 100 (MkBuf zeros 4) (bytes "pid %d") [VWord 17]
    = Ret (4, MkBuf m 0).
Proof.
  eexists. rewrite (cvprintf_correct no_float (MkPf false false) 100 zeros 4 (bytes "pid %d") [VWord 17]
    ltac:(lia)). reflexivity.
Defined.

(** A format that ends in a percent sign. *)
Lemma kvprintf_terminates_witness : exists l, formatted (bytes "pid %d %") l /\
  kvprintf no_float (MkPf false false) (bytes "pid %d %") [VWord 17] = print_pieces no_float (MkPf false false) l [VWord 17] /\
  print_pieces no_float (MkPf false false) l [VWord 17] = Ret (bytes "pid 17 ").
Proof.
  destruct (kvprintf_terminates no_float (bytes "pid %d %")) as (l & F & E & _).
  { intros Hz. apply list_elem_of_In in Hz. vm_compute in Hz. repeat (destruct Hz as [Hz|Hz]; [discriminate Hz|]). done. }
  exists l. split; [exact F|]. split; [apply E|]. rewrite <- E. vm_compute. reflexivity.
Defined.

Lemma snprintf_no_terminator_witness :
  exists m', snprintf no_float (MkPf true false) (store8 zeros 103 65) 100 8 (bytes "abc") [] = Ret (3, m') /\
    m' 103 = 65.
Proof.
  eexists. split; [reflexivity|].
  apply (snprintf_no_terminator no_float (MkPf true false) (store8 zeros 103 65) 100 8 (bytes "abc") [] 3 _
    ltac:(lia) eq_refl). lia.
Defined.

Lemma kprintint_value_witness : exists t, kprintint (MkPf false false) (-42) 10 1 = Ret t /\
  printed_value 10 t = Some (-42).
Proof.
  destruct (kprintint_value (-42) 10 1 false 255 (or_introl eq_refl) ltac:(lia) ltac:(lia))
    as (t & E & _ & V & _). exists t. split; [exact E|exact V].
Defined.

Lemma kprintf_unsigned_high_witness :
  exists t, kvprintf no_float (MkPf false false) (bytes "%u") [VWord 4294967295] = Ret t /\
    printed_value 10 t = Some 18446744073709551615.
Proof.
  destruct (kprintf_unsigned_high no_float 4294967295 false ltac:(lia)) as (t & E & V & _).
  exists t. split; [exact E|exact V].
Defined.
