(* ===== verification/CLib.v ===== *)
(** * Memory and string routines of the kernel (kernel/src/common/lib.c)

    The routines run on one byte-addressed memory, so source and destination
    may overlap.  Loops over a given number of bytes recurse on that number;
    loops to a terminator take fuel, and the theorems give enough of it. *)
From S2P Require Import Prelude Mem.

(** ** kernel/src/common/lib.c *)

(** [for (i = 0; i < n; i++) pdest[i] = psrc[i]], from [i] on. *)
Fixpoint copy_up (k : nat) (i dest src : Z) (m : mem) : mem :=
  match k with
  | O => m
  | S k' => copy_up k' (i + 1) dest src (store8 m (dest + i) (m (src + i)))
  end.
(** [for (i = n; i > 0; i--) pdest[i - 1] = psrc[i - 1]]. *)
Fixpoint copy_down (n : nat) (dest src : Z) (m : mem) : mem :=
  match n with
  | O => m
  | S n' => copy_down n' dest src (store8 m (dest + Z.of_nat n') (m (src + Z.of_nat n')))
  end.

Definition memcpy (dest src n : Z) (m : mem) : mem := copy_up (Z.to_nat n) 0 dest src m.

Definition memmove (dest src n : Z) (m : mem) : mem :=
  if dest <? src then copy_up (Z.to_nat n) 0 dest src m
  else if src <? dest then copy_down (Z.to_nat n) dest src m
  else m.

(** [for (; i < size; ++i) tptr[i] = val] for elements of [w] bytes. *)
Fixpoint set_elems (k : nat) (i w ptr val : Z) (m : mem) : mem :=
  match k with
  | O => m
  | S k' => set_elems k' (i + 1) w ptr val (store_le m (ptr + i * w) (Z.to_nat w) val)
  end.

(** [memset_int8_t], [memset_int16_t], [memset_int32_t] and [memset_int64_t]
    are one macro at element sizes 1, 2, 4 and 8; they call each other on
    what is left over. *)
Fixpoint memset_type (fuel : nat) (w ptr val len : Z) (m : mem) : outcome mem :=
  match fuel with
  | O => NoFuel
  | S fuel' =>
      let val := sgn (8 * w) val in
      let size := len / w in
      if (w =? 1) && (1 <? size) && (val =? 0) then memset_type fuel' 8 ptr val len m
      else
        let m := set_elems (Z.to_nat size) 0 w ptr val m in
        let rest := len mod w in
        if rest =? 0 then Ret m
        else
          let ip := size * w in
          let lr := len - ip in
          if (rest <? 8) && (4 <=? rest) then memset_type fuel' 4 (ptr + ip) val lr m
          else if (rest <? 4) && (2 <=? rest) then memset_type fuel' 2 (ptr + ip) val lr m
          else memset_type fuel' 1 (ptr + ip) val lr m
  end.
Definition memset (buf val len : Z) (m : mem) : outcome mem := memset_type 5 1 buf val len m.

Fixpoint memcmp_from (k : nat) (i s1 s2 : Z) (m : mem) : Z :=
  match k with
  | O => 0
  | S k' =>
      if negb (m (s1 + i) =? m (s2 + i)) then (if m (s1 + i) <? m (s2 + i) then -1 else 1)
      else memcmp_from k' (i + 1) s1 s2 m
  end.
Definition memcmp (s1 s2 n : Z) (m : mem) : Z := memcmp_from (Z.to_nat n) 0 s1 s2 m.

Fixpoint strcpy (fuel : nat) (s t : Z) (m : mem) : outcome mem :=
  match fuel with
  | O => NoFuel
  | S fuel' =>
      let m' := store8 m s (m t) in
      if m' s =? 0 then Ret m' else strcpy fuel' (s + 1) (t + 1) m'
  end.

Fixpoint strcmp (fuel : nat) (p q : Z) (m : mem) : outcome Z :=
  match fuel with
  | O => NoFuel
  | S fuel' =>
      if truth (m p) && (m p =? m q) then strcmp fuel' (p + 1) (q + 1) m
      else Ret (m p - m q)
  end.

Fixpoint strncmp_from (k : nat) (s1 s2 : Z) (m : mem) : Z :=
  match k with
  | O => 0
  | S k' =>
      if negb (m s1 =? m s2) then m s1 - m s2
      else if m s1 =? 0 then 0
      else strncmp_from k' (s1 + 1) (s2 + 1) m
  end.
Definition strncmp (s1 s2 n : Z) (m : mem) : Z := strncmp_from (Z.to_nat n) s1 s2 m.

Fixpoint strlen_from (fuel : nat) (n s : Z) (m : mem) : outcome Z :=
  match fuel with
  | O => NoFuel
  | S fuel' => if m (s + n) =? 0 then Ret n else strlen_from fuel' (n + 1) s m
  end.
Definition strlen (fuel : nat) (s : Z) (m : mem) : outcome Z := strlen_from fuel 0 s m.

(** ** Copying *)

Lemma copy_up_spec k i dest src m x : bytes_ok m -> dest < src ->
  copy_up k i dest src m x =
  if (dest + i <=? x) && (x <? dest + i + Z.of_nat k) then m (src + (x - dest)) else m x.
Proof.
  revert i m. induction k as [|k IH]; intros i m Hm Hd; cbn [copy_up].
  - destruct (Z.leb_spec (dest + i) x), (Z.ltb_spec x (dest + i + Z.of_nat 0)); simpl; lia || done.
  - rewrite IH by (eauto with word). unfold store8.
    destruct (Z.leb_spec (dest + (i + 1)) x), (Z.ltb_spec x (dest + (i + 1) + Z.of_nat k));
      destruct (Z.leb_spec (dest + i) x), (Z.ltb_spec x (dest + i + Z.of_nat (S k))); try lia;
      cbn [andb]; try (destruct (Z.eqb_spec (src + (x - dest)) (dest + i)); [lia|done]);
      destruct (Z.eqb_spec x (dest + i)); try lia; try done.
    subst x. rewrite wrap_small by apply Hm. f_equal. lia.
Qed.

Lemma copy_down_spec n dest src m x : bytes_ok m -> src < dest ->
  copy_down n dest src m x =
  if (dest <=? x) && (x <? dest + Z.of_nat n) then m (src + (x - dest)) else m x.
Proof.
  revert m. induction n as [|n IH]; intros m Hm Hd; cbn [copy_down].
  - destruct (Z.leb_spec dest x), (Z.ltb_spec x (dest + Z.of_nat 0)); simpl; lia || done.
  - rewrite IH by (eauto with word). unfold store8.
    destruct (Z.leb_spec dest x), (Z.ltb_spec x (dest + Z.of_nat n)),
      (Z.ltb_spec x (dest + Z.of_nat (S n))); try lia;
      cbn [andb]; try (destruct (Z.eqb_spec (src + (x - dest)) (dest + Z.of_nat n)); [lia|done]);
      destruct (Z.eqb_spec x (dest + Z.of_nat n)); try lia; try done.
    subst x. rewrite wrap_small by apply Hm. f_equal. lia.
Qed.

(** [memmove] copies correctly whether or not, and however, source and
    destination overlap: the destination holds the bytes the source held
    before, and no other byte changes. *)
Theorem memmove_correct dest src n m x (Hm : bytes_ok m) (Hn : 0 <= n) :
  memmove dest src n m x = blit m dest m src n x.
Proof.
  unfold memmove, blit. destruct (Z.ltb_spec dest src).
  - rewrite copy_up_spec by done. rewrite Z.add_0_r, Z2Nat.id by done. done.
  - destruct (Z.ltb_spec src dest).
    + rewrite copy_down_spec by done. by rewrite Z2Nat.id.
    + assert (src = dest) as -> by lia.
      destruct (_ && _); [|done]. by replace (dest + (x - dest)) with x by lia.
Qed.

(** ** Filling *)

Lemma store_le_bytes m a n v x : a <= x < a + Z.of_nat n -> v = 0 \/ n = 1%nat ->
  store_le m a n v x = wrap 8 v.
Proof.
  intros Hx Hv. replace x with (a + (x - a)) by lia. rewrite store_le_in by lia.
  destruct Hv as [->| ->].
  - by rewrite Z.div_0_l by (apply Z.pow_nonzero; lia).
  - replace (x - a) with 0 by lia. by rewrite Z.pow_0_r, Z.div_1_r.
Qed.

Lemma set_elems_spec k i w ptr v m x : 0 < w -> v = 0 \/ w = 1 ->
  set_elems k i w ptr v m x = fill m (ptr + i * w) v (Z.of_nat k * w) x.
Proof.
  intros Hw Hv. revert i m. induction k as [|k IH]; intros i m; cbn [set_elems].
  - unfold fill. destruct (Z.leb_spec (ptr + i * w) x), (Z.ltb_spec x (ptr + i * w + Z.of_nat 0 * w));
      simpl; lia || done.
  - rewrite IH. destruct (Z_lt_le_dec x (ptr + (i + 1) * w)) as [Hlt|Hge].
    + rewrite fill_out by lia. destruct (Z_lt_le_dec x (ptr + i * w)).
      * rewrite store_le_out by lia. by rewrite fill_out by lia.
      * rewrite fill_in by lia. apply store_le_bytes; [lia|]. destruct Hv as [->| ->]; [by left|by right].
    + destruct (Z_lt_le_dec x (ptr + (i + 1) * w + Z.of_nat k * w)).
      * rewrite !fill_in by lia. done.
      * rewrite !fill_out by lia. apply store_le_out. lia.
Qed.

Lemma fill_split m a v n k x : 0 <= k <= n -> fill (fill m a v k) (a + k) v (n - k) x = fill m a v n x.
Proof. intros. unfold fill. zcases. Qed.

Lemma sgn_0 w : 0 < w -> sgn w 0 = 0.
Proof. intros. apply sgn_small; [done|]. split; [|apply Z.pow_pos_nonneg; lia]. pose proof (Z.pow_pos_nonneg 2 (w - 1)). lia. Qed.

(** Clearing with elements of [w] bytes; what is left over is shorter. *)
Lemma memset_type_zero fuel w ptr len m : 0 <= len ->
  (w = 1 /\ len <= 1 /\ (1 <= fuel)%nat) \/ (w = 2 /\ len < 4 /\ (2 <= fuel)%nat) \/
  (w = 4 /\ len < 8 /\ (3 <= fuel)%nat) \/ (w = 8 /\ (4 <= fuel)%nat) ->
  exists m', memset_type fuel w ptr 0 len m = Ret m' /\ forall x, m' x = fill m ptr 0 len x.
Proof.
  revert w ptr len m. induction fuel as [|fuel IH]; intros w ptr len m Hlen Hw; [lia|].
  assert (0 < w) as Hw0 by lia. cbn [memset_type]. rewrite sgn_0 by lia. cbv zeta.
  assert (0 <= len / w) as Hq by (apply Z.div_pos; lia).
  pose proof (Z.mod_pos_bound len w Hw0) as Hr. pose proof (Z.div_mod len w ltac:(lia)) as Hdm.
  assert ((w =? 1) && (1 <? len / w) && (0 =? 0) = false) as ->.
  { destruct (Z.eqb_spec w 1) as [->|]; [|done]. rewrite Z.div_1_r. destruct (Z.ltb_spec 1 len); [lia|done]. }
  set (m1 := set_elems _ _ _ _ _ m).
  assert (forall x, m1 x = fill m ptr 0 (len / w * w) x) as Hm1.
  { intros x. unfold m1. rewrite set_elems_spec by (try lia; by left).
    rewrite Z2Nat.id by done. by rewrite Z.mul_0_l, Z.add_0_r. }
  destruct (Z.eqb_spec (len mod w) 0) as [E|E].
  { exists m1. split; [done|]. intros x. rewrite Hm1. f_equal. lia. }
  assert (forall w', (w' = 1 /\ len mod w <= 1 /\ (1 <= fuel)%nat) \/
      (w' = 2 /\ len mod w < 4 /\ (2 <= fuel)%nat) \/
      (w' = 4 /\ len mod w < 8 /\ (3 <= fuel)%nat) \/ (w' = 8 /\ (4 <= fuel)%nat) ->
    exists m', memset_type fuel w' (ptr + len / w * w) 0 (len - len / w * w) m1 = Ret m' /\
      forall x, m' x = fill m ptr 0 len x) as Hgo.
  { intros w' Hw'. destruct (IH w' (ptr + len / w * w) (len - len / w * w) m1) as (m' & E' & Hm');
      [lia|replace (len - len / w * w) with (len mod w) by lia; exact Hw'|].
    exists m'. split; [done|]. intros x. rewrite Hm'. rewrite <- (fill_split m ptr 0 len (len / w * w)) by lia.
    unfold fill at 1 2. destruct (_ && _); [done|]. apply Hm1. }
  destruct (Z.ltb_spec (len mod w) 8), (Z.leb_spec 4 (len mod w)); cbn [andb];
    try (apply Hgo; lia);
    destruct (Z.ltb_spec (len mod w) 4), (Z.leb_spec 2 (len mod w)); cbn [andb]; apply Hgo; lia.
Qed.

(** At byte elements: by 8-byte elements when clearing two bytes or more. *)
Lemma memset_type_1 fuel ptr val len m :
  memset_type (S fuel) 1 ptr val len m =
  if (1 <? len) && (sgn 8 val =? 0) then memset_type fuel 8 ptr (sgn 8 val) len m
  else Ret (set_elems (Z.to_nat len) 0 1 ptr (sgn 8 val) m).
Proof. cbn [memset_type]. change (8 * 1) with 8. cbv zeta. by rewrite Z.div_1_r, Z.mod_1_r. Qed.

(** The kernel's [memset], which clears by 8-byte elements and falls back
    to 4-, 2- and 1-byte elements for the rest, sets exactly the [len] bytes
    from [buf] on to the low byte of [val], for every length, and its mutual
    calls end (five levels are enough). *)
Theorem memset_correct buf val len m (Hlen : 0 <= len) :
  exists m', memset buf val len m = Ret m' /\ forall x, m' x = fill m buf val len x.
Proof.
  unfold memset. rewrite memset_type_1.
  assert (wrap 8 (sgn 8 val) = wrap 8 val) as Hb.
  { unfold sgn. cbv zeta. destruct (_ <? _); [by rewrite wrap_wrap by lia|].
    unfold wrap.
    replace (val mod 2 ^ 8 - 2 ^ 8) with (val mod 2 ^ 8 + (-1) * 2 ^ 8) by lia.
    rewrite Z.mod_add by lia. apply Z.mod_mod. lia. }
  assert (forall x, set_elems (Z.to_nat len) 0 1 buf (sgn 8 val) m x = fill m buf val len x) as Hset.
  { intros x. rewrite set_elems_spec by (try lia; by right). rewrite Z2Nat.id by done.
    rewrite Z.mul_0_l, Z.add_0_r, Z.mul_1_r. unfold fill. by rewrite Hb. }
  destruct (Z.ltb_spec 1 len); cbn [andb]; [destruct (Z.eqb_spec (sgn 8 val) 0) as [E|E]|].
  - rewrite E. destruct (memset_type_zero 4 8 buf len m Hlen) as (m' & E' & Hm'); [right; right; right; lia|].
    exists m'. split; [exact E'|]. intros x. rewrite Hm'. unfold fill. rewrite <- Hb, E. done.
  - by eexists.
  - by eexists.
Qed.

(** ** Strings *)

(** The memory holds the string [l] and its terminator at [p]. *)
Record cstr (m : mem) (p : Z) (l : list Z) : Prop := {
  cs_chars i c : l !! i = Some c -> m (p + Z.of_nat i) = c;
  cs_nonzero : Forall (fun c => 0 < c < 256) l;
  cs_end : m (p + zlen l) = 0
}.

Lemma cstr_nil m p : cstr m p [] -> m p = 0.
Proof. intros H. pose proof (cs_end _ _ _ H) as E. unfold zlen in E. simpl in E. by rewrite Z.add_0_r in E. Qed.

Lemma cstr_cons m p c l : cstr m p (c :: l) -> m p = c /\ 0 < c < 256 /\ cstr m (p + 1) l.
Proof.
  intros [H1 H2 H3]. inversion H2; subst. split.
  - specialize (H1 0%nat c eq_refl). by rewrite Z.add_0_r in H1.
  - split; [done|]. constructor; [|done|].
    + intros i d Hi. rewrite <- (H1 (S i) d Hi). f_equal. lia.
    + rewrite <- H3. f_equal. unfold zlen. simpl length. lia.
Qed.

(** Lexicographic comparison of the bytes: -1, 0 or 1. *)
Fixpoint lex (l1 l2 : list Z) : Z :=
  match l1, l2 with
  | [], [] => 0
  | [], _ => -1
  | _, [] => 1
  | a :: l1', b :: l2' => if a =? b then lex l1' l2' else Z.sgn (a - b)
  end.

Lemma lex_eq l1 l2 : lex l1 l2 = 0 <-> l1 = l2.
Proof.
  revert l2. induction l1 as [|a l1 IH]; intros [|b l2]; simpl; try done.
  destruct (Z.eqb_spec a b) as [->|Hab].
  - rewrite IH. split; [by intros ->|by intros [= ->]].
  - split; [|by intros [= -> _]]. intros H. apply Z.sgn_null_iff in H. lia.
Qed.

(** On terminated strings [strcmp] ends (one step more than the first
    string has characters is enough) and its result has the sign of the
    lexicographic comparison of the bytes; it is 0 exactly for equal
    strings. *)
Theorem strcmp_correct m p q l1 l2 fuel (H1 : cstr m p l1) (H2 : cstr m q l2)
    (Hf : (length l1 < fuel)%nat) :
  exists d, strcmp fuel p q m = Ret d /\ Z.sgn d = lex l1 l2 /\ (d = 0 <-> l1 = l2).
Proof.
  assert (exists d, strcmp fuel p q m = Ret d /\ Z.sgn d = lex l1 l2) as (d & E & Hd).
  { revert p q l2 fuel H1 H2 Hf. induction l1 as [|a l1 IH]; intros p q l2 [|fuel] H1 H2 Hf; try lia;
      cbn [strcmp].
    - rewrite (cstr_nil _ _ H1). cbn [truth]. eexists. split; [done|].
      destruct l2 as [|b l2]; [by rewrite (cstr_nil _ _ H2)|].
      destruct (cstr_cons _ _ _ _ H2) as (-> & Hb & _). simpl. destruct b; simpl; lia.
    - destruct (cstr_cons _ _ _ _ H1) as (-> & Ha & H1'). unfold truth.
      destruct (Z.eqb_spec a 0); [lia|]. cbn [negb andb]. destruct l2 as [|b l2].
      + rewrite (cstr_nil _ _ H2). destruct (Z.eqb_spec a 0); [lia|].
        eexists. split; [done|]. simpl. lia.
      + destruct (cstr_cons _ _ _ _ H2) as (-> & Hb & H2'). simpl lex.
        destruct (Z.eqb_spec a b) as [->|]; [|by eexists].
        apply IH; [done|done|simpl in Hf; lia]. }
  exists d. split; [done|]. split; [done|]. rewrite <- lex_eq, <- Hd. by rewrite Z.sgn_null_iff.
Qed.

Lemma strlen_from_correct m p l k fuel : cstr m (p + k) l -> (length l < fuel)%nat ->
  strlen_from fuel k p m = Ret (k + zlen l).
Proof.
  revert k fuel. induction l as [|c l IH]; intros k [|fuel] H Hf; try (simpl in Hf; lia);
    cbn [strlen_from]; unfold zlen.
  - rewrite (cstr_nil _ _ H). simpl. by rewrite Z.add_0_r.
  - destruct (cstr_cons _ _ _ _ H) as (-> & Hc & H'). destruct (Z.eqb_spec c 0); [lia|].
    rewrite IH; [f_equal; unfold zlen; simpl length; lia| |simpl in Hf; lia].
    by replace (p + (k + 1)) with (p + k + 1) by lia.
Qed.

(** ** Witnesses *)

Lemma memmove_correct_witness : memmove 101 100 2 (store_list zeros 100 [7; 8]) 102 = 8.
Proof.
  rewrite memmove_correct; [reflexivity| |lia]. apply bytes_ok_store_list. apply bytes_ok_zeros.
Defined.

Lemma memset_correct_witness : exists m', memset 100 0 15 (fun _ => 255) = Ret m' /\ m' 114 = 0 /\ m' 115 = 255.
Proof.
  destruct (memset_correct 100 0 15 (fun _ => 255) ltac:(lia)) as (m' & E & H).
  exists m'. split; [exact E|]. rewrite !H. split; reflexivity.
Defined.

Definition demo_strings : mem := store_list (store_list zeros 100 [97; 98; 99]) 200 [97; 98; 100].
Lemma strcmp_correct_witness : exists d, strcmp 4 100 200 demo_strings = Ret d /\ Z.sgn d = -1.
Proof.
  assert (forall p l, Forall (fun c => 0 < c < 256) l ->
    forallb (fun i => bool_decide (l !! i = Some (demo_strings (p + Z.of_nat i)))) (seq 0 (length l)) = true ->
    demo_strings (p + zlen l) = 0 -> cstr demo_strings p l) as Hc.
  { intros p l Hl Hb He. constructor; [|done|done]. intros i c Hi. rewrite forallb_forall in Hb.
    specialize (Hb i). rewrite in_seq in Hb. pose proof (lookup_lt_Some _ _ _ Hi).
    specialize (Hb ltac:(lia)). apply bool_decide_eq_true_1 in Hb. congruence. }
  destruct (strcmp_correct demo_strings 100 200 [97; 98; 99] [97; 98; 100] 4) as (d & E & S & _).
  - apply Hc; [repeat constructor; lia|vm_compute; reflexivity|vm_compute; reflexivity].
  - apply Hc; [repeat constructor; lia|vm_compute; reflexivity|vm_compute; reflexivity].
  - simpl. lia.
  - exists d. split; [exact E|exact S].
Defined.
