(* ===== verification/LibcString.v ===== *)
(** * Strings and numbers of the user library (libc/src/string.c, ctype.c, stdlib.c)

    The functions that user programs link against, over the same byte memory
    as the kernel's ([CLib]).  Strings are read through [char], a signed
    byte, wherever the code's result depends on it. *)
From S2P Require Import Prelude Mem CLib.

(** Line by line the functions of lib.c. *)
Definition memcpy := CLib.memcpy.
Definition memmove := CLib.memmove.
Definition memcmp := CLib.memcmp.
Definition strcpy := CLib.strcpy.
Definition strcmp := CLib.strcmp.
Definition strncmp := CLib.strncmp.
Definition strlen := CLib.strlen.

Fixpoint memset_from (k : nat) (i s c : Z) (m : mem) : mem :=
  match k with
  | O => m
  | S k' => memset_from k' (i + 1) s c (store8 m (s + i) c)
  end.
Definition memset (s c n : Z) (m : mem) : mem := memset_from (Z.to_nat n) 0 s c m.

(** [while (--n != 0) *d++ = 0;] with [n - 1] bytes to go. *)
Fixpoint pad_zeros (k : nat) (d : Z) (m : mem) : mem :=
  match k with
  | O => m
  | S k' => pad_zeros k' (d + 1) (store8 m d 0)
  end.
Fixpoint strncpy_from (n : nat) (d s : Z) (m : mem) : mem :=
  match n with
  | O => m
  | S n' =>
      let m' := store8 m d (m s) in
      if m' d =? 0 then pad_zeros n' (d + 1) m' else strncpy_from n' (d + 1) (s + 1) m'
  end.
Definition strncpy (dst src n : Z) (m : mem) : mem := strncpy_from (Z.to_nat n) dst src m.

Definition isspace (c : Z) : bool := c =? 32.
Definition toupper (c : Z) : Z := if (97 <=? c) && (c <=? 122) then c + (65 - 97) else c.

(** Plain [char] is signed: [toupper] receives the sign-extended byte. *)
Definition upper_at (m : mem) (p : Z) : Z := toupper (sgn 8 (m p)).

Fixpoint strcasecmp (fuel : nat) (p q : Z) (m : mem) : outcome Z :=
  match fuel with
  | O => NoFuel
  | S fuel' =>
      if truth (m p) && (upper_at m p =? upper_at m q) then strcasecmp fuel' (p + 1) (q + 1) m
      else Ret (m p - m q)
  end.

Fixpoint strncasecmp_from (k : nat) (s1 s2 : Z) (m : mem) : Z :=
  match k with
  | O => 0
  | S k' =>
      if negb (upper_at m s1 =? upper_at m s2) then m s1 - m s2
      else if m s1 =? 0 then 0
      else strncasecmp_from k' (s1 + 1) (s2 + 1) m
  end.
Definition strncasecmp (s1 s2 n : Z) (m : mem) : Z := strncasecmp_from (Z.to_nat n) s1 s2 m.

(** 0 is the null pointer. *)
Fixpoint strchr (fuel : nat) (s c : Z) (m : mem) : outcome Z :=
  match fuel with
  | O => NoFuel
  | S fuel' =>
      if m s =? 0 then Ret 0
      else if m s =? c then Ret s
      else strchr fuel' (s + 1) c m
  end.

Fixpoint strrchr_from (fuel : nat) (p ch save : Z) (m : mem) : outcome Z :=
  match fuel with
  | O => NoFuel
  | S fuel' =>
      let save := if m p =? ch then p else save in
      if m p =? 0 then Ret save else strrchr_from fuel' (p + 1) ch save m
  end.
Definition strrchr (fuel : nat) (p ch : Z) (m : mem) : outcome Z := strrchr_from fuel p ch 0 m.

(** The two nested [do] loops: both move [s] by one character. *)
Fixpoint strstr_from (fuel : nat) (s c find len : Z) (m : mem) : outcome Z :=
  match fuel with
  | O => NoFuel
  | S fuel' =>
      if m s =? 0 then Ret 0
      else if negb (m s =? c) then strstr_from fuel' (s + 1) c find len m
      else if negb (strncmp (s + 1) find len m =? 0) then strstr_from fuel' (s + 1) c find len m
      else Ret s
  end.
Definition strstr (fuel : nat) (s find : Z) (m : mem) : outcome Z :=
  if m find =? 0 then Ret s
  else
    len ← strlen fuel (find + 1) m;
    strstr_from fuel s (m find) (find + 1) len m.

Definition abs (a : Z) : Z := if 0 <? a then a else sgn 32 (- a).

(** [n = n * 10 + *s++ - '0'] on [int]s. *)
Fixpoint atoi_from (fuel : nat) (s n : Z) (m : mem) : outcome Z :=
  match fuel with
  | O => NoFuel
  | S fuel' =>
      if (48 <=? m s) && (m s <=? 57) then atoi_from fuel' (s + 1) (sgn 32 (n * 10 + m s - 48)) m
      else Ret n
  end.
Definition atoi (fuel : nat) (s : Z) (m : mem) : outcome Z := atoi_from fuel s 0 m.

