(* ===== verification/Stdio.v ===== *)
(** * User-space output (libc/src/stdio.c)

    [printf] and its helpers write one character per [write] call: the model
    is the list of bytes written to the descriptor.  [vsnprintf] writes to
    memory between [str] and [string_end].  [gets] is a state machine over
    the bytes [read] delivers.  Conversions of doubles are a parameter, as in
    Printf.v; the system calls themselves are not modelled. *)
From S2P Require Import Prelude Mem Digits CLib LibcString Printf.

(** ** [vfprintf] *)

Definition uin_buf (n : Z) (buf : list Z) : outcome (list Z) :=
  if n <? zlen buf then Undef else Ret buf.

Definition print_int (xx base sign : Z) : outcome (list Z) :=
  buf ← uin_buf 64 (int_buf xx base sign); mret (rev buf).

Definition print_int_padded (xx base sign width pad : Z) : outcome (list Z) :=
  let buf := int_buf xx base sign in
  buf ← uin_buf 32 (buf ++ replicate (Z.to_nat (width - zlen buf)) pad); mret (rev buf).

Definition print_ptr (x : Z) : list Z := [CH "0"; CH "x"] ++ hex_digits 16 x.

Definition prints (s : option (list Z)) : list Z := str_text s.

(** Integer arguments by the type they are fetched with. *)
Inductive int_type := TInt | TUInt | TLong | TULong.
Definition va_typed (t : int_type) (ap : list va_val) : outcome (Z * list va_val) :=
  match t with
  | TInt => va_int ap
  | TUInt => va_uint ap
  | TLong => '(v, ap) ← va_u64 ap; mret (sgn 64 v, ap)
  | TULong => '(v, ap) ← va_u64 ap; mret (sgn 64 v, ap)
  end.

Inductive uconversion :=
| UInt (t : int_type) (base sign : Z) (padded : option (Z * Z))
| UPadded (pad_to : Z)
| UPtr
| UStr
| UChar
| UFloat
| UPercent
| UEnd
| UOther (c0 : Z).

(** The chain of [vfprintf]; the call of [parse_width] is commented out, so
    the width stays 0. *)
Definition vfprintf_spec (fmt : list Z) (i : Z) : outcome (uconversion * Z) :=
  let width := 0 in
  c ← fmt_at fmt i;
  let '(pad, i) := if c =? CH "0" then (CH "0", i + 1) else (CH " ", i) in
  c0 ← fmt_at fmt i;
  c1 ← (if truth c0 then fmt_at fmt (i + 1) else mret 0);
  c2 ← (if truth c1 then fmt_at fmt (i + 2) else mret 0);
  let padded := if 0 <? width then Some (width, pad) else None in
  mret (if c0 =? CH "i" then (UInt TInt 10 1 None, i)
  else if c0 =? CH "d" then (UInt TInt 10 1 None, i)
  else if c0 =? CH "u" then (UInt TUInt 10 0 None, i)
  else if (c0 =? CH "l") && (c1 =? CH "d") then (UInt TLong 10 1 None, i + 1)
  else if (c0 =? CH "l") && (c1 =? CH "l") && (c2 =? CH "d") then (UInt TLong 10 1 None, i + 2)
  else if (c0 =? CH "l") && (c1 =? CH "u") then (UInt TULong 10 0 None, i + 1)
  else if (c0 =? CH "l") && (c1 =? CH "l") && (c2 =? CH "u") then (UInt TULong 10 0 None, i + 2)
  else if (c0 =? CH "z") && (c1 =? CH "u") then (UInt TULong 10 0 None, i + 1)
  else if c0 =? CH "x" then (UInt TUInt 16 0 padded, i)
  else if (c0 =? CH "l") && (c1 =? CH "x") then (UInt TULong 16 0 padded, i + 1)
  else if (c0 =? CH "l") && (c1 =? CH "l") && (c2 =? CH "x") then (UInt TULong 16 0 padded, i + 2)
  else if c0 =? CH "p" then (UPtr, i)
  else if c0 =? CH "s" then (UStr, i)
  else if c0 =? CH "c" then (UChar, i)
  else if c0 =? CH "f" then (UFloat, i)
  else if (c0 =? CH "l") && (c1 =? CH "f") then (UFloat, i + 1)
  else if c0 =? CH "%" then (UPercent, i)
  else if c0 =? 0 then (UEnd, i)
  else (UOther c0, i)).

Section stdio.
(** The text [print_float] produces for the bits of a double. *)
Context (ufloat : Z -> list Z).

Definition vfprintf_convert (c : uconversion) (ap : list va_val) : outcome (list Z * list va_val) :=
  match c with
  | UInt t base sign padded =>
      '(v, ap) ← va_typed t ap;
      l ← match padded with
          | Some (width, pad) => print_int_padded v base sign width pad
          | None => print_int v base sign
          end;
      mret (l, ap)
  | UPadded _ => Undef
  | UPtr => '(v, ap) ← va_u64 ap; mret (print_ptr v, ap)
  | UStr => '(s, ap) ← va_str ap; mret (prints s, ap)
  | UChar => '(v, ap) ← va_int ap; mret ([wrap 8 v], ap)
  | UFloat => '(f, ap) ← va_double ap; mret (ufloat f, ap)
  | UPercent => mret ([CH "%"], ap)
  | UEnd => mret ([], ap)
  | UOther c0 => mret ([CH "%"; c0], ap)
  end.

Fixpoint vfprintf_from (fuel : nat) (fmt : list Z) (i : Z) (ap : list va_val) : outcome (list Z) :=
  match fuel with
  | O => NoFuel
  | S fuel' =>
      cx ← fmt_at fmt i;
      if cx =? 0 then mret []
      else if negb (cx =? CH "%") then
        rest ← vfprintf_from fuel' fmt (i + 1) ap;
        mret (cx :: rest)
      else
        '(c, i') ← vfprintf_spec fmt (i + 1);
        match c with
        | UEnd => mret []
        | _ =>
            '(l, ap) ← vfprintf_convert c ap;
            rest ← vfprintf_from fuel' fmt (i' + 1) ap;
            mret (l ++ rest)
        end
  end.
Definition vfprintf (fmt : list Z) (ap : list va_val) : outcome (list Z) :=
  vfprintf_from (S (length fmt)) fmt 0 ap.
Definition printf (fmt : list Z) (ap : list va_val) : outcome (list Z) := vfprintf fmt ap.

(** ** [vsnprintf] *)

(** [while (... && *str != str_end) { **str = c; ( *str)++; }] over a text. *)
Fixpoint sput (l : list Z) (str str_end : Z) (m : mem) : Z * mem :=
  match l with
  | [] => (str, m)
  | c :: l' => if str =? str_end then (str, m) else sput l' (str + 1) str_end (store8 m str c)
  end.

(** The same with the bound tested as [str <= string_end]. *)
Fixpoint sput_le (l : list Z) (str string_end : Z) (m : mem) : Z * mem :=
  match l with
  | [] => (str, m)
  | c :: l' => if str <=? string_end then sput_le l' (str + 1) string_end (store8 m str c) else (str, m)
  end.

(** [buf] is filled with ['0'] first, so padding is part of it. *)
Definition sprint_int (str str_end xx base sign padding : Z) (m : mem) : outcome (Z * mem) :=
  let digits := digits_of base (magnitude xx sign) in
  buf ← uin_buf 64 (digits ++ replicate (Z.to_nat (padding - zlen digits)) (CH "0") ++
                    (if is_negative xx sign then [45] else []));
  mret (sput (rev buf) str str_end m).

Definition sprint_ptr (str str_end x : Z) (m : mem) : Z * mem :=
  sput ([CH "0"; CH "x"] ++ hex_digits 16 x) str str_end m.

(** The chain of [vsnprintf]. *)
Definition vsnprintf_spec (fmt : list Z) (i : Z) : outcome (uconversion * Z) :=
  c0 ← fmt_at fmt i;
  c1 ← (if truth c0 then fmt_at fmt (i + 1) else mret 0);
  c2 ← (if truth c1 then fmt_at fmt (i + 2) else mret 0);
  mret (if (c0 =? CH "d") || (c0 =? CH "i") then (UInt TInt 10 1 None, i)
  else if (c0 =? CH ".") && (c2 =? CH "d") then (UPadded (c1 - 48), i + 2)
  else if (c0 =? CH "l") && (c1 =? CH "d") then (UInt TLong 10 1 None, i + 1)
  else if (c0 =? CH "l") && (c1 =? CH "l") && (c2 =? CH "d") then (UInt TLong 10 1 None, i + 2)
  else if c0 =? CH "u" then (UInt TUInt 10 0 None, i)
  else if (c0 =? CH "l") && (c1 =? CH "u") then (UInt TULong 10 0 None, i + 1)
  else if (c0 =? CH "l") && (c1 =? CH "l") && (c2 =? CH "u") then (UInt TULong 10 0 None, i + 2)
  else if c0 =? CH "x" then (UInt TUInt 16 0 None, i)
  else if (c0 =? CH "l") && (c1 =? CH "x") then (UInt TULong 16 0 None, i + 1)
  else if (c0 =? CH "l") && (c1 =? CH "l") && (c2 =? CH "x") then (UInt TULong 16 0 None, i + 2)
  else if c0 =? CH "p" then (UPtr, i)
  else if c0 =? CH "s" then (UStr, i)
  else if c0 =? CH "%" then (UPercent, i)
  else if c0 =? CH "c" then (UChar, i)
  else if c0 =? 0 then (UEnd, i)
  else (UOther c0, i)).

Definition vsnprintf_convert (c : uconversion) (str string_end : Z) (m : mem) (ap : list va_val)
    : outcome (Z * mem * list va_val) :=
  match c with
  | UInt t base sign _ =>
      '(v, ap) ← va_typed t ap;
      '(str, m) ← sprint_int str string_end v base sign 0 m; mret (str, m, ap)
  | UPadded padding =>
      '(v, ap) ← va_int ap;
      '(str, m) ← sprint_int str string_end v 10 1 padding m; mret (str, m, ap)
  | UPtr =>
      '(v, ap) ← va_u64 ap;
      let '(str, m) := sprint_ptr str string_end v m in mret (str, m, ap)
  | UStr =>
      '(s, ap) ← va_str ap;
      let '(str, m) := sput_le (str_text s) str string_end m in mret (str, m, ap)
  | UChar =>
      if str <=? string_end then
        '(v, ap) ← va_int ap;
        mret (str + 1, store8 m str (wrap 8 v), ap)
      else mret (str, m, ap)
  | UPercent => let '(str, m) := sput_le [CH "%"] str string_end m in mret (str, m, ap)
  | UOther c0 => let '(str, m) := sput_le [CH "%"; c0] str string_end m in mret (str, m, ap)
  | UEnd | UFloat => mret (str, m, ap)
  end.

(** The loop; the result is the final [str]. *)
Fixpoint vsnprintf_from (fuel : nat) (fmt : list Z) (i str string_end : Z) (m : mem) (ap : list va_val)
    : outcome (Z * mem) :=
  match fuel with
  | O => NoFuel
  | S fuel' =>
      cx ← fmt_at fmt i;
      if (cx =? 0) || negb (str <=? string_end) then mret (str, m)
      else if negb (cx =? CH "%") then
        vsnprintf_from fuel' fmt (i + 1) (str + 1) string_end (store8 m str cx) ap
      else
        '(c, i') ← vsnprintf_spec fmt (i + 1);
        match c with
        | UEnd => mret (str, m)
        | _ =>
            '(str, m, ap) ← vsnprintf_convert c str string_end m ap;
            vsnprintf_from fuel' fmt (i' + 1) str string_end m ap
        end
  end.
Definition vsnprintf (str size : Z) (fmt : list Z) (ap : list va_val) (m : mem) : outcome mem :=
  if size =? 0 then mret m
  else
    '(str', m) ← vsnprintf_from (S (length fmt)) fmt 0 str (str + size - 1) m ap;
    mret (store8 m str' 0).
Definition snprintf (str size : Z) (fmt : list Z) (ap : list va_val) (m : mem) : outcome mem :=
  vsnprintf str size fmt ap m.

(** ** [puts], [gets], [hexdump] *)

Definition puts (s : list Z) : list Z := s ++ [10].

(** [gets] on the bytes that [read] delivers one by one; when they run out,
    [read] returns less than 1.  Result: the memory, the length of the line,
    the echo on the standard output and the bytes left. *)
Fixpoint gets_from (input : list Z) (buf i max : Z) (m : mem) : mem * Z * list Z * list Z :=
  if negb (i + 1 <? max) then (m, i, [], input)
  else match input with
       | [] => (m, i, [], [])
       | c :: input' =>
           if c =? 127 then
             if i =? 0 then gets_from input' buf i max m
             else let '(m, i, echo, rest) := gets_from input' buf (i - 1) max m in
                  (m, i, [8; 32; 8] ++ echo, rest)
           else
             let m := store8 m (buf + i) c in
             if (c =? 10) || (c =? 13) then (m, i + 1, [], input')
             else gets_from input' buf (i + 1) max m
       end.
Definition gets (buf max : Z) (input : list Z) (m : mem) : mem * list Z * list Z :=
  let '(m, i, echo, rest) := gets_from input buf 0 max m in
  (store8 m (buf + i) 0, echo, rest).

Definition hexdump (buf : list Z) : list Z := khexdump buf.

(** ** Properties *)

(** Where a bounded text ends and what it writes. *)
Lemma sput_spec l str str_end m str' m' : str <= str_end -> sput l str str_end m = (str', m') ->
  str <= str' <= str_end /\ forall x, x < str \/ str' <= x -> m' x = m x.
Proof.
  revert str m. induction l as [|c l IH]; intros str m Hs E; simpl in E.
  - injection E as <- <-. split; [lia|done].
  - destruct (Z.eqb_spec str str_end); [injection E as <- <-; split; [lia|done]|].
    destruct (IH (str + 1) _ ltac:(lia) E) as [H1 H2]. split; [lia|]. intros x Hx.
    rewrite H2 by lia. apply store8_ne. lia.
Qed.

Lemma sput_le_spec l str string_end m str' m' : str <= string_end + 1 ->
  sput_le l str string_end m = (str', m') ->
  str <= str' <= string_end + 1 /\ forall x, x < str \/ str' <= x -> m' x = m x.
Proof.
  revert str m. induction l as [|c l IH]; intros str m Hs E; simpl in E.
  - injection E as <- <-. split; [lia|done].
  - destruct (Z.leb_spec str string_end); [|injection E as <- <-; split; [lia|done]].
    destruct (IH (str + 1) _ ltac:(lia) E) as [H1 H2]. split; [lia|]. intros x Hx.
    rewrite H2 by lia. apply store8_ne. lia.
Qed.

Lemma sprint_int_spec str str_end xx base sign padding m str' m' : str <= str_end ->
  sprint_int str str_end xx base sign padding m = Ret (str', m') ->
  str <= str' <= str_end + 1 /\ forall x, x < str \/ str' <= x -> m' x = m x.
Proof.
  intros Hs. unfold sprint_int, uin_buf. destruct (_ <? _); [done|].
  cbn [mbind outcome_bind mret outcome_ret]. set (l := rev _). intros [= E].
  destruct (sput_spec _ _ _ _ _ _ Hs E) as [H1 H2]. split; [lia|done].
Qed.

Lemma let_ret {A B C} (p : A * B) (c : C) a b c' :
  (let '(x, y) := p in mret (x, y, c)) = Ret (a, b, c') -> p = (a, b).
Proof. destruct p as [x y]. cbn [mret outcome_ret]. by intros [= -> -> _]. Qed.

Lemma vsnprintf_convert_spec c str string_end m ap str' m' ap' : str <= string_end ->
  vsnprintf_convert c str string_end m ap = Ret (str', m', ap') ->
  str <= str' <= string_end + 1 /\ forall x, x < str \/ str' <= x -> m' x = m x.
Proof.
  intros Hs E. unfold vsnprintf_convert in E. destruct c as [t base sign padded|p| | | | | | |c0].
  - destruct (va_typed t ap) as [[v ap1]| | |]; cbn [mbind outcome_bind] in E; try done.
    destruct (sprint_int _ _ _ _ _ _ _) as [[s1 m1]| | |] eqn:E1; cbn [mbind outcome_bind mret outcome_ret] in E; try done.
    injection E as <- <- <-. by eapply sprint_int_spec.
  - destruct (va_int ap) as [[v ap1]| | |]; cbn [mbind outcome_bind] in E; try done.
    destruct (sprint_int _ _ _ _ _ _ _) as [[s1 m1]| | |] eqn:E1; cbn [mbind outcome_bind mret outcome_ret] in E; try done.
    injection E as <- <- <-. by eapply sprint_int_spec.
  - destruct (va_u64 ap) as [[v ap1]| | |]; cbn [mbind outcome_bind] in E; try done.
    unfold sprint_ptr in E. destruct (sput _ _ _ _) as [s1 m1] eqn:E1. injection E as <- <- <-.
    destruct (sput_spec _ _ _ _ _ _ Hs E1) as [H1 H2]. split; [lia|done].
  - destruct (va_str ap) as [[v ap1]| | |]; cbn [mbind outcome_bind] in E; try done.
    destruct (sput_le _ _ _ _) as [s1 m1] eqn:E1. injection E as <- <- <-.
    eapply sput_le_spec; [|exact E1]. lia.
  - destruct (Z.leb_spec str string_end); [|lia].
    destruct (va_int ap) as [[v ap1]| | |]; cbn [mbind outcome_bind] in E; try done.
    injection E as <- <- <-. split; [lia|]. intros x Hx. apply store8_ne. lia.
  - injection E as <- <- <-. split; [lia|done].
  - apply let_ret in E. eapply sput_le_spec; [|exact E]. lia.
  - injection E as <- <- <-. split; [lia|done].
  - apply let_ret in E. eapply sput_le_spec; [|exact E]. lia.
Qed.

Lemma vsnprintf_from_spec fuel fmt i str string_end m ap str' m' : str <= string_end + 1 ->
  vsnprintf_from fuel fmt i str string_end m ap = Ret (str', m') ->
  str <= str' <= string_end + 1 /\ forall x, x < str \/ str' <= x -> m' x = m x.
Proof.
  revert i str m ap. induction fuel as [|fuel IH]; intros i str m ap Hs E; [done|].
  cbn [vsnprintf_from] in E. destruct (fmt_at fmt i) as [cx| | |]; try done. cbn [mbind outcome_bind] in E.
  destruct (cx =? 0); [injection E as <- <-; split; [lia|done]|].
  destruct (Z.leb_spec str string_end); cbn [orb negb] in E; [|injection E as <- <-; split; [lia|done]].
  destruct (negb (cx =? CH "%")).
  - destruct (IH _ (str + 1) _ _ ltac:(lia) E) as [H1 H2]. split; [lia|]. intros x Hx.
    rewrite H2 by lia. apply store8_ne. lia.
  - destruct (vsnprintf_spec fmt (i + 1)) as [[c i']| | |]; try done. cbn [mbind outcome_bind] in E.
    assert (('(str, m, ap) ← vsnprintf_convert c str string_end m ap;
             vsnprintf_from fuel fmt (i' + 1) str string_end m ap) = Ret (str', m') ->
      str <= str' <= string_end + 1 /\ forall x, x < str \/ str' <= x -> m' x = m x) as Hgen.
    { clear E. intros E. destruct (vsnprintf_convert c str string_end m ap) as [[[s1 m1] ap1]| | |] eqn:E1; try done.
      cbn [mbind outcome_bind] in E.
      destruct (vsnprintf_convert_spec _ _ _ _ _ _ _ _ H E1) as [H1 H2].
      destruct (IH _ s1 _ _ ltac:(lia) E) as [H3 H4]. split; [lia|]. intros x Hx.
      rewrite H4 by lia. apply H2. lia. }
    destruct c; try (by apply Hgen). injection E as <- <-. split; [lia|done].
Qed.

(** Whatever the format and the arguments, [vsnprintf] ends its text
    with a terminator and writes nothing before [str] or behind that
    terminator, but the terminator may lie at [str + size], one byte behind
    the buffer; for a text without conversions of at least [size] characters
    it does. *)
Theorem vsnprintf_bounds str size fmt ap m m' (Hsize : 0 < size)
    (Hr : vsnprintf str size fmt ap m = Ret m') :
  exists n, 0 <= n <= size /\ m' (str + n) = 0 /\
    (forall x, x < str \/ str + n < x -> m' x = m x) /\
    (Forall (fun c => c <> 0 /\ c <> CH "%") fmt -> size <= zlen fmt -> n = size).
Proof.
  unfold vsnprintf in Hr. destruct (Z.eqb_spec size 0); [lia|].
  destruct (vsnprintf_from _ _ _ _ _ _ _) as [[str' m1]| | |] eqn:E; try done.
  cbn [mbind outcome_bind mret outcome_ret] in Hr. injection Hr as <-.
  destruct (vsnprintf_from_spec _ _ _ str (str + size - 1) _ _ _ _ ltac:(lia) E) as [H1 H2].
  exists (str' - str). split; [lia|]. replace (str + (str' - str)) with str' by lia.
  split; [apply store8_eq|]. split.
  { intros x Hx. rewrite store8_ne by lia. apply H2. lia. }
  intros Hf Hl. enough (str' = str + size) by lia. clear H1 H2.
  assert (forall fuel i s m0, (Z.to_nat (zlen fmt - i) < fuel)%nat -> 0 <= i -> s = str + i -> i <= size ->
    vsnprintf_from fuel fmt i s (str + size - 1) m0 ap = Ret (str', m1) -> str' = str + size) as Hgo;
    [|by apply (Hgo (S (length fmt)) 0 str m); [unfold zlen; lia|lia|lia|lia|]].
  clear E m. induction fuel as [|fuel IH]; intros i s m0 Hfu Hi -> Hsz E; [lia|].
  cbn [vsnprintf_from] in E. destruct (fmt_at fmt i) as [cx| | |] eqn:Ec; try done. cbn [mbind outcome_bind] in E.
  destruct (Z.leb_spec (str + i) (str + size - 1)) as [Hle|Hgt].
  - destruct (zget_lt_is_Some fmt i ltac:(lia)) as [c Hc].
    unfold fmt_at in Ec. rewrite Hc in Ec. injection Ec as <-.
    assert (c <> 0 /\ c <> CH "%") as [Hc0 Hcp].
    { rewrite Forall_forall in Hf. apply Hf. unfold zget in Hc. destruct (i <? 0); [done|].
      by eapply list_elem_of_lookup_2. }
    destruct (Z.eqb_spec c 0); [done|]. destruct (Z.eqb_spec c (CH "%")); [done|].
    cbn [orb negb] in E. eapply (IH (i + 1)); [| | | |exact E]; lia.
  - rewrite orb_true_r in E. injection E as <- _. lia.
Qed.

End stdio.

(** ** Reading a line *)

(** What the deletions leave of the input: the reference for [gets]. *)
Fixpoint edit (input line : list Z) (room : nat) : list Z :=
  match room, input with
  | O, _ => line
  | _, [] => line
  | S room', c :: input' =>
      if c =? 127 then
        match line with
        | [] => edit input' [] room
        | _ :: _ => edit input' (removelast line) (S room)
        end
      else if (c =? 10) || (c =? 13) then line ++ [c]
      else edit input' (line ++ [c]) room'
  end.

Lemma load_snoc m a n : load_list m a (S n) = load_list m a n ++ [m (a + Z.of_nat n)].
Proof.
  replace (S n) with (n + 1)%nat by lia. by rewrite load_list_app.
Qed.

Lemma load_removelast m a n : removelast (load_list m a (S n)) = load_list m a n.
Proof. rewrite load_snoc. apply removelast_last. Qed.

Lemma load_store_snoc m a n c : 0 <= c < 256 ->
  load_list (store8 m (a + Z.of_nat n) c) a (S n) = load_list m a n ++ [c].
Proof.
  intros Hc. rewrite load_snoc, store8_eq, wrap_small by lia. f_equal.
  apply load_list_ext. intros k Hk. apply store8_ne. lia.
Qed.

Lemma gets_from_correct input buf max m n room : Forall (fun c => 0 <= c < 256) input ->
  Z.of_nat room = max - 1 - Z.of_nat n ->
  let '(m', i, _, _) := gets_from input buf (Z.of_nat n) max m in
  0 <= i <= max - 1 /\ load_list m' buf (Z.to_nat i) = edit input (load_list m buf n) room /\
  (forall x, x < buf \/ buf + max - 1 <= x -> m' x = m x).
Proof.
  intros Hb. revert n room m. induction Hb as [|c input Hc Hb IH]; intros n room m Hr.
  - cbn [gets_from]. destruct (negb _); (split; [lia|]); rewrite Nat2Z.id; destruct room; done.
  - cbn [gets_from]. destruct (Z.ltb_spec (Z.of_nat n + 1) max); cbn [negb].
    2: { assert (room = O) as -> by lia. split; [lia|]. rewrite Nat2Z.id. done. }
    destruct room as [|room]; [lia|]. cbn [edit]. destruct (Z.eqb_spec c 127).
    + destruct n as [|n].
      * change (Z.of_nat 0 =? 0) with true. cbn [load_list]. apply (IH 0%nat). lia.
      * destruct (Z.eqb_spec (Z.of_nat (S n)) 0); [lia|].
        specialize (IH n (S (S room)) m ltac:(lia)).
        replace (Z.of_nat (S n) - 1) with (Z.of_nat n) by lia.
        destruct (gets_from _ _ _ _ _) as [[[m' i] echo] rest]. rewrite <- (load_removelast m buf n) in IH.
        destruct (load_list m buf (S n)) eqn:E; [done|]. exact IH.
    + pose proof (load_store_snoc m buf n c Hc) as Hl.
      destruct ((c =? 10) || (c =? 13)).
      * split; [lia|]. replace (Z.to_nat (Z.of_nat n + 1)) with (S n) by lia. split; [exact Hl|].
        intros x Hx. apply store8_ne. lia.
      * specialize (IH (S n) room (store8 m (buf + Z.of_nat n) c) ltac:(lia)). rewrite Hl in IH.
        replace (Z.of_nat n + 1) with (Z.of_nat (S n)) by lia.
        destruct (gets_from _ _ _ _ _) as [[[m' i] echo] rest].
        destruct IH as (H1 & H2 & H3). split; [done|]. split; [done|].
        intros x Hx. rewrite H3 by done. apply store8_ne. lia.
Qed.

(** [gets] reads a line with its corrections into a buffer of [max]
    bytes: the buffer holds what the deletions leave of the input, up to the
    end of line or until [max - 1] characters stand, followed by a
    terminator, and no byte outside of the buffer changes. *)
Theorem gets_correct buf max input m (Hmax : 0 < max) (Hin : Forall (fun c => 0 <= c < 256) input) :
  let '(m', _, _) := gets buf max input m in
  exists n, (Z.of_nat n < max) /\
    load_list m' buf n = edit input [] (Z.to_nat (max - 1)) /\ m' (buf + Z.of_nat n) = 0 /\
    forall x, x < buf \/ buf + max <= x -> m' x = m x.
Proof.
  pose proof (gets_from_correct input buf max m 0 (Z.to_nat (max - 1)) Hin ltac:(lia)) as H.
  unfold gets. change (Z.of_nat 0) with 0 in H.
  destruct (gets_from _ _ _ _ _) as [[[m' i] echo] rest]. destruct H as (H1 & H2 & H3).
  exists (Z.to_nat i). split; [lia|]. rewrite Z2Nat.id by lia. split.
  - cbn [load_list] in H2. rewrite <- H2. apply load_list_ext. intros k Hk. apply store8_ne. lia.
  - split; [apply store8_eq|]. intros x Hx. rewrite store8_ne by lia. apply H3. lia.
Qed.

(** ** Numbers there and back *)

(** Reading a decimal numeral with [atoi]. *)
Lemma atoi_from_numeral m p l acc v fuel : cstr m p l -> (length l < fuel)%nat ->
  0 <= acc -> numeral_from 10 acc l = Some v -> v < 2 ^ 31 ->
  atoi_from fuel p acc m = Ret v.
Proof.
  revert p acc fuel. induction l as [|c l IH]; intros p acc [|fuel] Hc Hf Ha Hn Hv; try (simpl in Hf; lia);
    cbn [atoi_from].
  - rewrite (cstr_nil _ _ Hc). simpl. simpl in Hn. by injection Hn as ->.
  - destruct (cstr_cons _ _ _ _ Hc) as (-> & Hc' & Hl). cbn [numeral_from] in Hn.
    destruct (digit_val c) as [d|] eqn:Ed; [|done]. destruct (Z.ltb_spec d 10) as [Hd|]; [|done].
    assert (48 <= c <= 57 /\ d = c - 48) as [Hcc ->].
    { unfold digit_val in Ed. destruct (Z.leb_spec 48 c), (Z.leb_spec c 57); cbn [andb] in Ed;
        try (injection Ed as <-; lia);
        destruct (Z.leb_spec 97 c), (Z.leb_spec c 102); cbn [andb] in Ed; try done; injection Ed as <-; lia. }
    destruct (Z.leb_spec 48 c), (Z.leb_spec c 57); try lia. cbn [andb].
    assert (forall l acc v, 0 <= acc -> numeral_from 10 acc l = Some v -> acc <= v) as Hmono.
    { clear. induction l as [|c l IH]; intros acc v Ha Hn; simpl in Hn; [by injection Hn as ->|].
      destruct (digit_val c) as [d|] eqn:Ed; [|done]. destruct (Z.ltb_spec d 10); [|done].
      assert (0 <= d).
      { unfold digit_val in Ed. destruct (Z.leb_spec 48 c), (Z.leb_spec c 57); cbn [andb] in Ed;
          try (injection Ed as <-; lia);
          destruct (Z.leb_spec 97 c), (Z.leb_spec c 102); cbn [andb] in Ed; try done; injection Ed as <-; lia. }
      specialize (IH (acc * 10 + d) v ltac:(lia) Hn). lia. }
    pose proof (Hmono l (acc * 10 + (c - 48)) v ltac:(lia) Hn).
    rewrite sgn_small by lia. replace (acc * 10 + c - 48) with (acc * 10 + (c - 48)) by lia.
    apply IH; [done|simpl in Hf; lia|lia|done|done].
Qed.

Lemma print_int_inv v base sign t : print_int v base sign = Ret t -> t = rev (int_buf v base sign).
Proof.
  unfold print_int, uin_buf. destruct (_ <? _); [done|].
  generalize (int_buf v base sign) as l. intros l H.
  by injection H as <-.
Qed.

(** [atoi] reads back what [print_int] writes: for every int that is not
    negative, the decimal text of [print_int], stored as a string, is read
    as the same number. *)
Theorem atoi_print_int v m p fuel (Hv : 0 <= v < 2 ^ 31) (Hf : (20 < fuel)%nat) t
    (Ht : print_int v 10 1 = Ret t) (Hm : cstr m p t) :
  atoi fuel p m = Ret v.
Proof.
  pose proof (int_buf_length v 10 1 ltac:(by left) ltac:(lia)) as Hl.
  assert (t = rev (int_buf v 10 1)) as -> by (by apply print_int_inv).
  apply (atoi_from_numeral m p _ 0 v fuel Hm); [rewrite length_rev; lia|lia| |lia].
  unfold int_buf, magnitude, is_negative. change (truth 1) with true. cbn [andb].
  destruct (Z.ltb_spec v 0); [lia|]. rewrite app_nil_r, wrap_small by lia.
  apply digits_value; lia.
Qed.

(** ** Witnesses *)

Lemma vsnprintf_bounds_witness :
  exists m', vsnprintf 100 3 (bytes "abc") [] (fun _ => 255) = Ret m' /\ m' 103 = 0.
Proof.
  eexists. split; [reflexivity|].
  destruct (vsnprintf_bounds 100 3 (bytes "abc") [] (fun _ => 255) _ ltac:(lia) eq_refl)
    as (n & _ & Hz & _ & Hn).
  rewrite (Hn ltac:(vm_compute; repeat constructor; discriminate) ltac:(vm_compute; discriminate)) in Hz.
  exact Hz.
Defined.

Definition demo_number : mem := store_list zeros 100 [49; 48; 52].
Lemma atoi_print_int_witness : atoi 21 100 demo_number = Ret 104.
Proof.
  apply (atoi_print_int 104 demo_number 100 21 ltac:(lia) ltac:(lia) [49; 48; 52]); [vm_compute; reflexivity|].
  constructor; [|repeat constructor; lia|vm_compute; reflexivity].
  intros i c Hi. do 3 (destruct i as [|i]; [injection Hi as <-; vm_compute; reflexivity|]). done.
Defined.

Lemma gets_correct_witness :
  exists n, let '(m', _, _) := gets 100 5 [97; 98; 127; 99; 10] (fun _ => 255) in
    load_list m' 100 n = [97; 99; 10] /\ m' (100 + Z.of_nat n) = 0.
Proof.
  destruct (gets_correct 100 5 [97; 98; 127; 99; 10] (fun _ => 255) ltac:(lia)
    ltac:(repeat constructor; lia)) as (n & _ & H1 & H2 & _).
  exists n. split; [exact H1|exact H2].
Defined.
