(* ===== verification/Spinlock.v ===== *)
(** * Spin locks (kernel/src/common/spinlock.c, kernel/src/cpu/smp.c)

    Cores run [spinlock_lock] and [spinlock_unlock] on shared locks.  Each
    call is a sequence of atomic accesses to the lock; [pc] says where in it
    a core stands, [advance] runs it up to the next access, and [step] lets
    any core advance.  Between calls a core may run other code, which may
    change the interrupt flag while the core holds no lock; calls are nested
    and a core releases locks it took.

    Core numbers are dealt out by [cpu_local_setup] from 0. *)
From S2P Require Import Prelude.

(** ** State *)

Record spinlock := MkLock { locked : Z; holding_cpu : Z }.

(** The part of [cpu_local_data] the locks use, and the core's interrupt flag. *)
Record cpu_local_data := MkCpu {
  cpuid : Z; int_enabled : bool; depth : Z; was_enabled : bool
}.

(** Where a core stands inside of the two functions. *)
Inductive pc :=
| Outside
| LockCheck (l : Z)         (* this_cpu_holding_lock reads lock->locked *)
| LockCheckHolder (l : Z)   (* ... and then lock->holding_cpu *)
| LockSpin (l : Z)          (* __sync_lock_test_and_set *)
| LockOwn (l : Z)           (* lock->holding_cpu = get_processor_id() *)
| UnlockCheck (l : Z)
| UnlockCheckHolder (l : Z)
| UnlockClear (l : Z)       (* lock->holding_cpu = 0 *)
| UnlockRelease (l : Z)     (* __sync_lock_release *)
| Panicked (msg : string).

(** A core: [held] are the locks its code took and did not yet start to
    release; [outer_flag] is the interrupt flag it set outside of all locks. *)
Record core := MkCore { cpu : cpu_local_data; at_pc : pc; held : list Z; outer_flag : bool }.

(** ** Operations *)

Definition save_and_disable_interrupts (c : cpu_local_data) : cpu_local_data :=
  MkCpu (cpuid c) false (wrap 16 (depth c + 1))
    (if depth c =? 0 then int_enabled c else was_enabled c).

Definition restore_interrupts (c : cpu_local_data) : cpu_local_data :=
  let d := wrap 16 (depth c - 1) in
  MkCpu (cpuid c) (if (d =? 0) && was_enabled c then true else int_enabled c) d (was_enabled c).

Definition lock_upd (ls : Z -> spinlock) (l : Z) (x : spinlock) : Z -> spinlock :=
  fun k => if k =? l then x else ls k.

(** Entering the functions; [spinlocks_enabled] is off during boot. *)
Definition spinlock_lock (spinlocks_enabled : bool) (l : Z) (t : core) : core :=
  if negb spinlocks_enabled then t
  else MkCore (save_and_disable_interrupts (cpu t)) (LockCheck l) (held t) (outer_flag t).
Definition spinlock_unlock (spinlocks_enabled : bool) (l : Z) (t : core) : core :=
  if negb spinlocks_enabled then t
  else MkCore (cpu t) (UnlockCheck l) (filter (fun k => k <> l) (held t)) (outer_flag t).

(** [this_cpu_holding_lock], first access: an unlocked lock answers no. *)
Definition check_locked (ls : Z -> spinlock) (l : Z) (c : cpu_local_data) : cpu_local_data * bool :=
  let c := save_and_disable_interrupts c in
  if locked (ls l) =? 0 then (restore_interrupts c, false) else (c, true).
(** Second access. *)
Definition check_holder (ls : Z -> spinlock) (l : Z) (c : cpu_local_data) : cpu_local_data * bool :=
  (restore_interrupts c, holding_cpu (ls l) =? cpuid c).

(** One access of the core and the code up to the next one. *)
Definition advance (ls : Z -> spinlock) (t : core) : (Z -> spinlock) * core :=
  let c := cpu t in
  let go c p := MkCore c p (held t) (outer_flag t) in
  match at_pc t with
  | Outside | Panicked _ => (ls, t)
  | LockCheck l =>
      let '(c, more) := check_locked ls l c in
      (ls, go c (if more then LockCheckHolder l else LockSpin l))
  | LockCheckHolder l =>
      let '(c, holding) := check_holder ls l c in
      (ls, go c (if holding then Panicked "deadlock" else LockSpin l))
  | LockSpin l =>
      (lock_upd ls l (MkLock 1 (holding_cpu (ls l))),
       go c (if truth (locked (ls l)) then LockSpin l else LockOwn l))
  | LockOwn l =>
      (lock_upd ls l (MkLock (locked (ls l)) (cpuid c)),
       MkCore c Outside (l :: held t) (outer_flag t))
  | UnlockCheck l =>
      let '(c, more) := check_locked ls l c in
      (ls, go c (if more then UnlockCheckHolder l else Panicked "cpu not holding lock"))
  | UnlockCheckHolder l =>
      let '(c, holding) := check_holder ls l c in
      (ls, go c (if holding then UnlockClear l else Panicked "cpu not holding lock"))
  | UnlockClear l => (lock_upd ls l (MkLock (locked (ls l)) 0), go c (UnlockRelease l))
  | UnlockRelease l =>
      (lock_upd ls l (MkLock 0 (holding_cpu (ls l))), go (restore_interrupts c) Outside)
  end.

(** ** The machine *)

Record machine := MkMachine { locks : Z -> spinlock; cores : list core }.

Inductive step : machine -> machine -> Prop :=
| step_advance ls cs i t ls' t' :
    cs !! i = Some t -> advance ls t = (ls', t') ->
    step (MkMachine ls cs) (MkMachine ls' (<[i := t']> cs))
| step_lock ls cs i t l :
    cs !! i = Some t -> at_pc t = Outside -> (length (held t) < 1000)%nat ->
    step (MkMachine ls cs) (MkMachine ls (<[i := spinlock_lock true l t]> cs))
| step_unlock ls cs i t l :
    cs !! i = Some t -> at_pc t = Outside -> l ∈ held t ->
    step (MkMachine ls cs) (MkMachine ls (<[i := spinlock_unlock true l t]> cs))
| step_flag ls cs i t b :
    cs !! i = Some t -> at_pc t = Outside -> held t = [] ->
    step (MkMachine ls cs) (MkMachine ls (<[i := MkCore
      (MkCpu (cpuid (cpu t)) b (depth (cpu t)) (was_enabled (cpu t))) Outside [] b]> cs)).

(** [cpu_local_setup]: [cpu_locals] and [next_cpuid]; the array has
    [MAX_CORES] entries. *)
Definition MAX_CORES : Z := 8.
Definition cpu_local_setup (cpu_locals : list cpu_local_data) (next_cpuid : Z)
    : outcome (list cpu_local_data * Z) :=
  let id := next_cpuid in
  let next_cpuid := wrap 8 (next_cpuid + 1) in
  if MAX_CORES <? id then Panic "too much cores"
  else match zget cpu_locals id with
       | None => Undef
       | Some c => Ret (zset cpu_locals id (MkCpu id (int_enabled c) (depth c) (was_enabled c)), next_cpuid)
       end.

(** The cores of the machine after [cpu_local_setup]; interrupts off. *)
Definition boot_core (id : nat) : core := MkCore (MkCpu (Z.of_nat id) false 0 false) Outside [] false.
Definition boot (n : nat) : machine := MkMachine (fun _ => MkLock 0 0) (boot_core <$> seq 0 n).

Definition reachable (n : nat) : machine -> Prop := rtc step (boot n).

(** ** Ownership *)

(** The lock a core owns by its place in the functions, as the lock word
    shows; the one [holding_cpu] shows; the one it does not hold already. *)
Definition pc_owns (p : pc) : option Z :=
  match p with
  | LockOwn l | UnlockCheck l | UnlockCheckHolder l | UnlockClear l | UnlockRelease l => Some l
  | _ => None
  end.
Definition pc_marks (p : pc) : option Z :=
  match p with UnlockCheck l | UnlockCheckHolder l | UnlockClear l => Some l | _ => None end.
Definition pc_fresh (p : pc) : option Z :=
  match p with
  | LockSpin l | LockOwn l | UnlockCheck l | UnlockCheckHolder l | UnlockClear l | UnlockRelease l => Some l
  | _ => None
  end.
Definition owns (t : core) (l : Z) : Prop := l ∈ held t \/ pc_owns (at_pc t) = Some l.
Definition marked (t : core) (l : Z) : Prop := l ∈ held t \/ pc_marks (at_pc t) = Some l.

(** How many saves are not yet restored. *)
Definition level (t : core) : nat :=
  length (held t) +
  match at_pc t with
  | Outside | Panicked _ => 0
  | LockCheckHolder _ | UnlockCheckHolder _ => 2
  | _ => 1
  end.

(** [n] saves deep, with flag [b] outside. *)
Definition flag_ok (c : cpu_local_data) (n : nat) (b : bool) : Prop :=
  depth c = Z.of_nat n /\
  match n with
  | O => int_enabled c = b
  | S _ => int_enabled c = false /\ was_enabled c = b
  end.

(** What holds of a core by itself. *)
Record core_ok (i : nat) (t : core) : Prop := {
  ok_id : cpuid (cpu t) = Z.of_nat i;
  ok_nodup : NoDup (held t);
  ok_room : (length (held t) <= match at_pc t with Outside | Panicked _ => 1000 | _ => 999 end)%nat;
  ok_fresh : forall l, pc_fresh (at_pc t) = Some l -> l ∉ held t;
  ok_panic : forall msg, at_pc t = Panicked msg -> msg = "deadlock"%string;
  ok_flags : (forall msg, at_pc t <> Panicked msg) -> flag_ok (cpu t) (level t) (outer_flag t)
}.

Record machine_ok (m : machine) : Prop := {
  m_core : forall i t, cores m !! i = Some t -> core_ok i t;
  m_owned : forall i t l, cores m !! i = Some t -> owns t l -> locked (locks m l) <> 0;
  m_excl : forall i j t u l, cores m !! i = Some t -> cores m !! j = Some u -> owns t l -> owns u l -> i = j;
  m_mark : forall i t l, cores m !! i = Some t -> marked t l -> holding_cpu (locks m l) = Z.of_nat i;
  m_holder : forall l, holding_cpu (locks m l) <> 0 ->
    exists i t, cores m !! i = Some t /\ holding_cpu (locks m l) = Z.of_nat i /\ marked t l
}.

Lemma marked_owns t l : marked t l -> owns t l.
Proof. intros [H|H]; [by left|right]. by destruct (at_pc t). Qed.

Lemma replace_ok m i t t' ls' : machine_ok m -> cores m !! i = Some t -> core_ok i t' ->
  (forall l, owns t' l -> locked (ls' l) <> 0 /\ (owns t l \/ locked (locks m l) = 0)) ->
  (forall l, marked t' l -> holding_cpu (ls' l) = Z.of_nat i) ->
  (forall j u l, j <> i -> cores m !! j = Some u ->
    (owns u l -> locked (ls' l) <> 0) /\ (marked u l -> holding_cpu (ls' l) = holding_cpu (locks m l))) ->
  (forall l, holding_cpu (ls' l) <> 0 ->
    (holding_cpu (ls' l) = Z.of_nat i /\ marked t' l) \/
    (holding_cpu (ls' l) = holding_cpu (locks m l) /\ (marked t l -> marked t' l))) ->
  machine_ok (MkMachine ls' (<[i := t']> (cores m))).
Proof.
  intros Hm Ht Hc Hown Hmark Hoth Hhold.
  assert (i < length (cores m))%nat as Hi by (by eapply lookup_lt_Some).
  assert (forall j u, <[i := t']> (cores m) !! j = Some u ->
    (j = i /\ u = t') \/ (j <> i /\ cores m !! j = Some u)) as Hlook.
  { intros j u Hu. destruct (decide (j = i)) as [->|].
    - rewrite list_lookup_insert_eq in Hu by done. left. by injection Hu as <-.
    - rewrite list_lookup_insert_ne in Hu by done. by right. }
  split; cbn [locks cores].
  - intros j u Hu. destruct (Hlook _ _ Hu) as [[-> ->]|[Hj Hu']]; [done|by apply (m_core m Hm)].
  - intros j u l Hu Ho. destruct (Hlook _ _ Hu) as [[-> ->]|[Hj Hu']]; [by apply Hown|].
    by apply (Hoth j u l).
  - intros j k u v l Hu Hv Hou Hov.
    destruct (Hlook _ _ Hu) as [[-> ->]|[Hj Hu']], (Hlook _ _ Hv) as [[-> ->]|[Hk Hv']]; try done.
    + destruct (Hown l Hou) as [_ [H|H]]; [by apply (m_excl m Hm i k t v l)|].
      by destruct (m_owned m Hm k v l Hv' Hov).
    + destruct (Hown l Hov) as [_ [H|H]]; [by apply (m_excl m Hm j i u t l)|].
      by destruct (m_owned m Hm j u l Hu' Hou).
    + by apply (m_excl m Hm j k u v l).
  - intros j u l Hu Hl. destruct (Hlook _ _ Hu) as [[-> ->]|[Hj Hu']]; [by apply Hmark|].
    destruct (Hoth j u l Hj Hu') as [_ H]. rewrite H by done. by apply (m_mark m Hm j u l).
  - intros l Hl. destruct (Hhold l Hl) as [[H1 H2]|[H1 H2]].
    + exists i, t'. by rewrite list_lookup_insert_eq.
    + rewrite H1 in Hl. destruct (m_holder m Hm l Hl) as (j & u & Hu & Hj & Hmu). rewrite H1.
      destruct (decide (j = i)) as [->|].
      * exists i, t'. rewrite list_lookup_insert_eq by done. split; [done|]. split; [done|].
        apply H2. congruence.
      * exists j, u. by rewrite list_lookup_insert_ne.
Qed.

(** Steps that leave the locks alone. *)
Lemma replace_same m i t t' : machine_ok m -> cores m !! i = Some t -> core_ok i t' ->
  (forall l, owns t' l -> owns t l) -> (forall l, marked t' l <-> marked t l) ->
  machine_ok (MkMachine (locks m) (<[i := t']> (cores m))).
Proof.
  intros Hm Ht Hc Ho Hmk. apply (replace_ok m i t); try done.
  - intros l Hl. split; [eapply (m_owned m Hm); eauto|left; auto].
  - intros l Hl. eapply (m_mark m Hm); [done|by apply Hmk].
  - intros j u l _ Hu. split; [by apply (m_owned m Hm j u l)|done].
  - intros l _. right. split; [done|by apply Hmk].
Qed.

Lemma boot_ok n : machine_ok (boot n).
Proof.
  assert (forall i t, (boot_core <$> seq 0 n) !! i = Some t -> t = boot_core i) as Hb.
  { intros i t H. rewrite list_lookup_fmap in H. destruct (seq 0 n !! i) as [k|] eqn:E; [|done].
    apply lookup_seq in E as [-> _]. by injection H as <-. }
  assert (forall i l, ~ owns (boot_core i) l) as Hn by (intros i l [H|H]; cbn in H; [by apply not_elem_of_nil in H|done]).
  split; cbn [boot locks cores locked holding_cpu].
  - intros i t ->%Hb. split; cbn; try done; try lia. constructor.
  - intros i t l ->%Hb H. by apply Hn in H.
  - intros i j t u l ->%Hb _ H. by apply Hn in H.
  - intros i t l ->%Hb H%marked_owns. by apply Hn in H.
  - done.
Qed.

(** ** Steps *)

Lemma save_ok c n b : (n < 2000)%nat -> flag_ok c n b -> flag_ok (save_and_disable_interrupts c) (S n) b.
Proof.
  intros Hn [Hd Hf]. split; cbn -[wrap].
  - rewrite wrap_small by lia. lia.
  - rewrite Hd. destruct n; [done|]. destruct (Z.eqb_spec (Z.of_nat (S n)) 0); [lia|]. by split; [|apply Hf].
Qed.

Lemma restore_ok c n b : (n < 2000)%nat -> flag_ok c (S n) b -> flag_ok (restore_interrupts c) n b.
Proof.
  intros Hn (Hd & Hi & Hw). unfold flag_ok, restore_interrupts. cbn -[wrap].
  rewrite Hd, wrap_small by lia. split; [lia|]. destruct n.
  - rewrite Hw. replace (Z.of_nat 1 - 1) with 0 by lia. cbn. destruct b; [done|by rewrite Hi].
  - destruct (Z.eqb_spec (Z.of_nat (S (S n)) - 1) 0); [lia|]. by cbn.
Qed.

(** What the lock words show of a core. *)
Definition lock_view (ls : Z -> spinlock) (i : nat) (t : core) : Prop :=
  forall l, (owns t l -> locked (ls l) <> 0) /\ (marked t l -> holding_cpu (ls l) = Z.of_nat i).

(** Split the facts of a core given by its fields. *)
Ltac core_fields H :=
  destruct H as [Hid Hnd Hroom Hfresh Hpanic Hflags];
  unfold level in *; cbn [cpu at_pc held outer_flag] in *.
Ltac core_goal :=
  split; unfold level; cbn [cpu at_pc held outer_flag];
  [done | try done | try lia | cbn [pc_fresh]; try (intros ? [= <-]); auto; try done | try (intros; congruence) |
   let Hp := fresh in intros Hp; try (by destruct (Hp _ eq_refl)); clear Hp].

Lemma flag_ok_eq c n n' b : n' = n -> flag_ok c n b -> flag_ok c n' b.
Proof. by intros ->. Qed.

Lemma save_flags c n n' b : (n < 2000)%nat -> n' = S n -> flag_ok c n b ->
  flag_ok (save_and_disable_interrupts c) n' b.
Proof. intros ? ->. by apply save_ok. Qed.
Lemma restore_flags c n n' b : (n < 2000)%nat -> n = S n' -> flag_ok c n b ->
  flag_ok (restore_interrupts c) n' b.
Proof. intros ? ->. apply restore_ok. lia. Qed.
Lemma save_restore_flags c n n' b : (n < 2000)%nat -> n' = n -> flag_ok c n b ->
  flag_ok (restore_interrupts (save_and_disable_interrupts c)) n' b.
Proof. intros ? -> ?. apply restore_ok; [done|]. by apply save_ok. Qed.

Lemma advance_core i ls t : core_ok i t -> lock_view ls i t -> core_ok i (advance ls t).2.
Proof.
  intros H Hv. destruct t as [c p h b]. unfold lock_view, owns, marked in Hv. core_fields H.
  destruct p as [|l|l|l|l|l|l|l|l|msg]; cbn [advance at_pc cpu held outer_flag];
    try (specialize (Hflags ltac:(congruence)));
    try (destruct (Hv l) as [Hl Hh]); unfold check_locked, check_holder.
  - by split.
  - destruct (Z.eqb_spec (locked (ls l)) 0); cbn [snd]; core_goal.
    + intros Hin. apply Hl; [by left|done].
    + eapply save_restore_flags; [| |exact Hflags]; lia.
    + eapply save_flags; [| |exact Hflags]; lia.
  - destruct (Z.eqb_spec (holding_cpu (ls l)) (cpuid c)) as [|Hne]; cbn [snd]; core_goal.
    + intros Hin. apply Hne. rewrite Hh by (by left). done.
    + eapply restore_flags; [| |exact Hflags]; lia.
  - destruct (truth (locked (ls l))) eqn:E; cbn [snd]; core_goal; by eapply flag_ok_eq; [|exact Hflags].
  - cbn [snd]; core_goal.
    + apply NoDup_cons. split; [|done]. by apply Hfresh.
    + cbn [length]. lia.
    + eapply flag_ok_eq; [|exact Hflags]. cbn [length]. lia.
  - destruct (Z.eqb_spec (locked (ls l)) 0) as [E|]; cbn [snd].
    { exfalso. apply Hl; [by right|done]. }
    core_goal. eapply save_flags; [| |exact Hflags]; lia.
  - destruct (Z.eqb_spec (holding_cpu (ls l)) (cpuid c)) as [|Hne]; cbn [snd].
    2: { exfalso. apply Hne. rewrite Hh by (by right). done. }
    core_goal. eapply restore_flags; [| |exact Hflags]; lia.
  - cbn [snd]; core_goal. by eapply flag_ok_eq; [|exact Hflags].
  - cbn [snd]; core_goal. eapply restore_flags; [| |exact Hflags]; lia.
  - by split.
Qed.

Lemma lock_upd_eq ls l x : lock_upd ls l x l = x.
Proof. unfold lock_upd. by rewrite Z.eqb_refl. Qed.
Lemma lock_upd_ne ls l x k : k <> l -> lock_upd ls l x k = ls k.
Proof. unfold lock_upd. destruct (Z.eqb_spec k l); done. Qed.

(** Steps that store to lock [l0] only and change what the core owns or
    marks at [l0] only. *)
Lemma replace_at m i t t' l0 x : machine_ok m -> cores m !! i = Some t -> core_ok i t' ->
  (forall l, l <> l0 -> (owns t' l -> owns t l) /\ (marked t' l <-> marked t l)) ->
  (owns t' l0 -> locked x <> 0 /\ (owns t l0 \/ locked (locks m l0) = 0)) ->
  (marked t' l0 -> holding_cpu x = Z.of_nat i) ->
  (forall j u, j <> i -> cores m !! j = Some u ->
    (owns u l0 -> locked x <> 0) /\ (marked u l0 -> holding_cpu x = holding_cpu (locks m l0))) ->
  (holding_cpu x <> 0 ->
    (holding_cpu x = Z.of_nat i /\ marked t' l0) \/
    (holding_cpu x = holding_cpu (locks m l0) /\ (marked t l0 -> marked t' l0))) ->
  machine_ok (MkMachine (lock_upd (locks m) l0 x) (<[i := t']> (cores m))).
Proof.
  intros Hm Ht Hc Hne Ho Hk Hoth Hh. apply (replace_ok m i t); try done; intros.
  - destruct (decide (l = l0)) as [->|]; [rewrite lock_upd_eq; auto|rewrite lock_upd_ne by done].
    destruct (Hne l) as [H1 _]; [done|]. split; [eapply (m_owned m Hm); eauto|auto].
  - destruct (decide (l = l0)) as [->|]; [rewrite lock_upd_eq; auto|rewrite lock_upd_ne by done].
    eapply (m_mark m Hm); [done|]. by apply Hne.
  - destruct (decide (l = l0)) as [->|]; [rewrite lock_upd_eq; eauto|rewrite lock_upd_ne by done].
    split; [by apply (m_owned m Hm j u l)|done].
  - destruct (decide (l = l0)) as [->|]; [rewrite lock_upd_eq in *; eauto|rewrite lock_upd_ne in * by done].
    right. split; [done|]. by apply Hne.
Qed.

(** Only the core itself owns or marks what it owns. *)
Lemma other_owner m i j t u l : machine_ok m -> cores m !! i = Some t -> cores m !! j = Some u ->
  owns t l -> j <> i -> ~ owns u l.
Proof. intros Hm Ht Hu Ho Hj Hu'. apply Hj. by apply (m_excl m Hm j i u t l). Qed.

Lemma core_view m i t : machine_ok m -> cores m !! i = Some t -> lock_view (locks m) i t.
Proof.
  intros Hm Ht l. split; intros H; [by apply (m_owned m Hm i t l)|by apply (m_mark m Hm i t l)].
Qed.

Ltac pc_cases := unfold owns, marked; cbn [at_pc held pc_owns pc_marks];
  intuition (try congruence).

Lemma advance_ok m i t : machine_ok m -> cores m !! i = Some t ->
  machine_ok (MkMachine (advance (locks m) t).1 (<[i := (advance (locks m) t).2]> (cores m))).
Proof.
  intros Hm Ht. pose proof (core_view m i t Hm Ht) as Hv.
  pose proof (advance_core i (locks m) t (m_core m Hm i t Ht) Hv) as Hc. revert Hc.
  pose proof (other_owner m i) as Hoth. specialize (fun j u l => Hoth j t u l Hm Ht).
  pose proof (m_core m Hm i t Ht) as [Hid _ _ Hfresh _ _].
  destruct t as [c p h b]. cbn [at_pc held] in Hfresh.
  destruct p as [|l|l|l|l|l|l|l|l|msg]; cbn [advance at_pc cpu held outer_flag] in *;
    unfold check_locked, check_holder in *; try destruct (Hv l) as [Hl Hh].
  - intros Hc. apply (replace_same m i _ _ Hm Ht Hc); pc_cases.
  - destruct (Z.eqb_spec (locked (locks m l)) 0); cbn [fst snd]; intros Hc;
      apply (replace_same m i _ _ Hm Ht Hc); pc_cases.
  - destruct (Z.eqb_spec (holding_cpu (locks m l)) (cpuid c)); cbn [fst snd]; intros Hc;
      apply (replace_same m i _ _ Hm Ht Hc); pc_cases.
  - intros Hc. cbn [fst snd] in *.
    apply (replace_at m i _ _ l _ Hm Ht Hc); cbn [locked holding_cpu].
    + destruct (truth (locked (locks m l))); pc_cases.
    + intros Ho. split; [done|]. unfold truth in Ho. destruct (Z.eqb_spec (locked (locks m l)) 0); [by right|].
      left. revert Ho. pc_cases.
    + destruct (truth (locked (locks m l))); intros Hk; apply Hh; revert Hk; pc_cases.
    + intros j u _ _. split; [lia|done].
    + intros _. right. split; [done|]. destruct (truth (locked (locks m l))); pc_cases.
  - intros Hc. cbn [fst snd] in *.
    assert (owns (MkCore c (LockOwn l) h b) l) as Hown by (by right).
    apply (replace_at m i _ _ l _ Hm Ht Hc); cbn [locked holding_cpu].
    + intros k Hk. unfold owns, marked. cbn [at_pc held pc_owns pc_marks]. rewrite elem_of_cons. intuition congruence.
    + intros _. split; [by apply Hl|by left].
    + intros _. exact Hid.
    + intros j u Hj Hu. split; [|intros Hmu%marked_owns; by destruct (Hoth j u l Hu Hown Hj)].
      intros _. by apply Hl.
    + intros _. left. split; [exact Hid|]. left. cbn [held]. apply elem_of_cons. by left.
  - destruct (Z.eqb_spec (locked (locks m l)) 0) as [E|]; cbn [fst snd]; intros Hc.
    { exfalso. apply Hl; [by right|done]. }
    apply (replace_same m i _ _ Hm Ht Hc); pc_cases.
  - destruct (Z.eqb_spec (holding_cpu (locks m l)) (cpuid c)) as [|Hne]; cbn [fst snd]; intros Hc.
    2: { exfalso. apply Hne. rewrite Hh by (by right). done. }
    apply (replace_same m i _ _ Hm Ht Hc); pc_cases.
  - intros Hc. cbn [fst snd] in *.
    assert (owns (MkCore c (UnlockClear l) h b) l) as Hown by (by right).
    apply (replace_at m i _ _ l _ Hm Ht Hc); cbn [locked holding_cpu].
    + intros k Hk. pc_cases.
    + intros _. split; [by apply Hl|by left].
    + intros [Hk|Hk]; [|done]. by destruct (Hfresh l eq_refl).
    + intros j u Hj Hu. split; [intros _; by apply Hl|].
      intros Hmu%marked_owns. by destruct (Hoth j u l Hu Hown Hj).
    + done.
  - intros Hc. cbn [fst snd] in *.
    assert (owns (MkCore c (UnlockRelease l) h b) l) as Hown by (by right).
    apply (replace_at m i _ _ l _ Hm Ht Hc); cbn [locked holding_cpu].
    + intros k Hk. pc_cases.
    + intros [Hk|Hk]; [|done]. by destruct (Hfresh l eq_refl).
    + intros [Hk|Hk]; [|done]. by destruct (Hfresh l eq_refl).
    + intros j u Hj Hu. split; [|done]. intros Hou. by destruct (Hoth j u l Hu Hown Hj).
    + intros _. right. split; [done|]. intros [Hk|Hk]; [by left|done].
  - intros Hc. apply (replace_same m i _ _ Hm Ht Hc); pc_cases.
Qed.

Lemma step_ok m m' : machine_ok m -> step m m' -> machine_ok m'.
Proof.
  intros Hm Hs. destruct Hs as [ls cs i t ls' t' Ht E|ls cs i t l Ht Hp Hr|ls cs i t l Ht Hp Hl|ls cs i t b Ht Hp Hh].
  - pose proof (advance_ok _ i t Hm Ht) as H. cbn [locks] in H. by rewrite E in H.
  - pose proof (m_core _ Hm i t Ht) as H. destruct t as [c p h b]. cbn in Hp. subst p. core_fields H.
    apply (replace_same (MkMachine ls cs) i _ _ Hm Ht); unfold spinlock_lock; cbn [negb]; [|pc_cases..].
    core_goal. eapply save_flags; [| |by apply Hflags]; lia.
  - pose proof (m_core _ Hm i t Ht) as H. destruct t as [c p h b]. cbn in Hp. subst p. core_fields H.
    assert (forall k, k ∈ filter (fun k => k <> l) h <-> k ∈ h /\ k <> l) as Hf
      by (intros k; rewrite list_elem_of_filter; naive_solver).
    assert (length h = S (length (filter (fun k => k <> l) h))) as Hlen.
    { assert (Permutation h (l :: filter (fun k => k <> l) h)) as ->%Permutation_length; [|done].
      apply NoDup_Permutation; [done| |].
      - apply NoDup_cons. split; [rewrite Hf; naive_solver|by apply NoDup_filter].
      - intros k. rewrite elem_of_cons, Hf. destruct (decide (k = l)); naive_solver. }
    apply (replace_same (MkMachine ls cs) i _ _ Hm Ht); unfold spinlock_unlock; cbn [negb].
    + core_goal; [by apply NoDup_filter|rewrite Hf; naive_solver|].
      eapply flag_ok_eq; [|by apply Hflags]. lia.
    + intros k. unfold owns. cbn [held at_pc pc_owns]. rewrite Hf. naive_solver.
    + intros k. unfold marked. cbn [held at_pc pc_marks]. rewrite Hf.
      destruct (decide (k = l)) as [->|]; naive_solver.
  - pose proof (m_core _ Hm i t Ht) as H. destruct t as [c p h b0]. cbn in Hp, Hh. subst p h. core_fields H.
    apply (replace_same (MkMachine ls cs) i _ _ Hm Ht); [|pc_cases..].
    core_goal. destruct (Hflags ltac:(done)) as [Hd _]. by split.
Qed.

Lemma reachable_ok n m : reachable n m -> machine_ok m.
Proof.
  unfold reachable. intros H. remember (boot n) as m0 eqn:E.
  assert (machine_ok m0) as H0 by (subst; apply boot_ok). clear E.
  induction H; [done|]. eauto using step_ok.
Qed.

(** ** Properties *)

(** C16: mutual exclusion.  However the accesses of the cores interleave, no
    two cores hold the same lock at the same time, from the moment the lock
    word was set until it is cleared. *)
Theorem spinlock_mutual_exclusion n m i j t u l (Hr : reachable n m)
    (Ht : cores m !! i = Some t) (Hu : cores m !! j = Some u) (Ho : owns t l) (Hp : owns u l) :
  i = j.
Proof. by apply (m_excl m (reachable_ok n m Hr) i j t u l). Qed.

(** The locks keep and restore the interrupt flag.  A core outside of
    the lock functions that holds a lock has interrupts off; one that holds
    none has the flag its own code last set, whatever calls were made since. *)
Theorem spinlock_interrupts n m i t (Hr : reachable n m) (Ht : cores m !! i = Some t)
    (Hp : at_pc t = Outside) :
  if decide (held t = []) then int_enabled (cpu t) = outer_flag t /\ depth (cpu t) = 0
  else int_enabled (cpu t) = false.
Proof.
  pose proof (m_core m (reachable_ok n m Hr) i t Ht) as H. destruct (ok_flags i t H) as [Hd Hf].
  { intros msg. by rewrite Hp. }
  unfold level in *. rewrite Hp in *. destruct (held t); cbn in *; [by destruct (decide _)|].
  destruct (decide _); [done|]. apply Hf.
Qed.

(** The checks in the lock functions are exact on every core but core 0.
    A call for a lock the core holds stops with the deadlock message, a call
    for another lock does not, and a release by the owner never fails (core
    0 included). *)
Theorem spinlock_checks_exact n m i t l (Hr : reachable n m) (Ht : cores m !! i = Some t) :
  (at_pc t = LockCheckHolder l -> i <> O ->
    (at_pc (advance (locks m) t).2 = Panicked "deadlock" <-> l ∈ held t)) /\
  (at_pc t = LockCheck l -> l ∈ held t -> at_pc (advance (locks m) t).2 = LockCheckHolder l) /\
  at_pc (advance (locks m) t).2 <> Panicked "cpu not holding lock".
Proof.
  pose proof (reachable_ok n m Hr) as Hm. pose proof (core_view m i t Hm Ht) as Hv.
  pose proof (m_core m Hm i t Ht) as Hok.
  destruct t as [c p h b]. split; [|split].
  - intros Hp Hi. cbn in Hp. subst p. cbn [advance at_pc cpu held]. unfold check_holder.
    pose proof (ok_id _ _ Hok) as Hid. cbn [cpu] in Hid. rewrite Hid.
    destruct (Z.eqb_spec (holding_cpu (locks m l)) (Z.of_nat i)) as [E|E]; cbn [snd at_pc].
    + split; [|done]. intros _. destruct (m_holder m Hm l ltac:(lia)) as (j & u & Hu & Hj & Hmk).
      assert (j = i) as -> by lia. rewrite Ht in Hu. injection Hu as <-. by destruct Hmk.
    + split; [done|]. intros Hl. destruct E. apply (Hv l). by left.
  - intros Hp Hl. cbn in Hp. subst p. cbn [advance at_pc cpu held]. unfold check_locked.
    destruct (Z.eqb_spec (locked (locks m l)) 0) as [E|E]; [|done].
    exfalso. revert E. apply (Hv l). by left.
  - intros Hp. pose proof (advance_core i (locks m) _ Hok Hv) as H'.
    by pose proof (ok_panic _ _ H' _ Hp).
Qed.

(** Core 0 can stop with the deadlock message while it holds no lock at
    all: between the moment another core sets the lock word and the moment
    it stores its number, [holding_cpu] is 0, which is core 0's number. *)
Theorem spinlock_false_deadlock :
  exists m t, reachable 2 m /\ cores m !! 0%nat = Some t /\
    at_pc t = Panicked "deadlock" /\ held t = [].
Proof.
  do 2 eexists. split.
  - eapply rtc_l; [eapply (step_lock _ _ 1%nat _ 7); [reflexivity|reflexivity|cbn; lia]|].
    eapply rtc_l; [eapply (step_advance _ _ 1%nat); reflexivity|].
    eapply rtc_l; [eapply (step_advance _ _ 1%nat); reflexivity|].
    eapply rtc_l; [eapply (step_lock _ _ 0%nat _ 7); [reflexivity|reflexivity|cbn; lia]|].
    eapply rtc_l; [eapply (step_advance _ _ 0%nat); reflexivity|].
    eapply rtc_l; [eapply (step_advance _ _ 0%nat); reflexivity|].
    apply rtc_refl.
  - split; [reflexivity|]. split; reflexivity.
Qed.

(** [k] accesses of one core, the others standing still. *)
Fixpoint run (k : nat) (ls : Z -> spinlock) (t : core) : (Z -> spinlock) * core :=
  match k with
  | O => (ls, t)
  | S k' => let '(ls, t) := advance ls t in run k' ls t
  end.

(** The pair inside of [this_cpu_holding_lock], and the outer pair. *)
Lemma inner_save c : 0 <= depth c < 1000 ->
  let c1 := save_and_disable_interrupts c in
  restore_interrupts (save_and_disable_interrupts c1) = c1.
Proof.
  intros Hd. unfold restore_interrupts, save_and_disable_interrupts. cbn -[wrap].
  rewrite (wrap_small 16 (depth c + 1)), (wrap_small 16 (depth c + 1 + 1)) by lia.
  replace (depth c + 1 + 1 - 1) with (depth c + 1) by lia. rewrite wrap_small by lia.
  destruct (Z.eqb_spec (depth c + 1) 0); [lia|]. done.
Qed.

Lemma outer_restore c : 0 <= depth c < 1000 -> (depth c <> 0 -> int_enabled c = false) ->
  depth (restore_interrupts (save_and_disable_interrupts c)) = depth c /\
  int_enabled (restore_interrupts (save_and_disable_interrupts c)) = int_enabled c.
Proof.
  intros Hd Hi. unfold restore_interrupts, save_and_disable_interrupts. cbn -[wrap].
  rewrite (wrap_small 16 (depth c + 1)) by lia. replace (depth c + 1 - 1) with (depth c) by lia.
  rewrite wrap_small by lia. split; [done|].
  destruct (Z.eqb_spec (depth c) 0); [by destruct (int_enabled c)|]. cbn. symmetry. auto.
Qed.

Ltac run_steps := cbn -[save_and_disable_interrupts restore_interrupts lock_upd].

Lemma run_lock ls l c h b : ls l = MkLock 0 0 -> 0 <= depth c < 1000 ->
  run 3 ls (spinlock_lock true l (MkCore c Outside h b)) =
  (lock_upd (lock_upd ls l (MkLock 1 0)) l (MkLock 1 (cpuid c)),
   MkCore (save_and_disable_interrupts c) Outside (l :: h) b).
Proof.
  intros Hl Hd. run_steps. unfold check_locked. rewrite Hl. run_steps. rewrite inner_save by done.
  rewrite Hl. run_steps. by rewrite lock_upd_eq.
Qed.

Lemma run_unlock ls l c h b : restore_interrupts (save_and_disable_interrupts c) = c ->
  ls l = MkLock 1 (cpuid c) ->
  run 4 ls (spinlock_unlock true l (MkCore c Outside h b)) =
  (lock_upd (lock_upd ls l (MkLock 1 0)) l (MkLock 0 0),
   MkCore (restore_interrupts c) Outside (filter (fun k => k <> l) h) b).
Proof.
  intros Hc Hl. run_steps. unfold check_locked. rewrite Hl. run_steps. unfold check_holder.
  rewrite Hl, Hc. run_steps. rewrite Z.eqb_refl. run_steps. rewrite Hl. run_steps. by rewrite lock_upd_eq.
Qed.

(** C17: a free lock is taken and given back.  A call for an unlocked lock
    that no other core contends for holds it after three accesses, with
    interrupts off and the core's number in it; the release ends after four
    more and leaves the lock, the nesting depth and the interrupt flag as
    they were before. *)
Theorem spinlock_lock_unlock ls l t (Hp : at_pc t = Outside) (Hl : l ∉ held t)
    (Hfree : ls l = MkLock 0 0) (Hd : 0 <= depth (cpu t) < 1000)
    (Hi : depth (cpu t) <> 0 -> int_enabled (cpu t) = false) :
  let '(ls1, t1) := run 3 ls (spinlock_lock true l t) in
  at_pc t1 = Outside /\ held t1 = l :: held t /\ ls1 l = MkLock 1 (cpuid (cpu t)) /\
  int_enabled (cpu t1) = false /\
  let '(ls2, t2) := run 4 ls1 (spinlock_unlock true l t1) in
  at_pc t2 = Outside /\ held t2 = held t /\ (forall k, ls2 k = ls k) /\
  depth (cpu t2) = depth (cpu t) /\ int_enabled (cpu t2) = int_enabled (cpu t).
Proof.
  destruct t as [c p h b]. cbn [at_pc held cpu] in *. subst p.
  rewrite run_lock by done. repeat (split; [done || apply lock_upd_eq|]).
  rewrite (run_unlock _ _ (save_and_disable_interrupts c)); [|by apply inner_save|by rewrite lock_upd_eq].
  destruct (outer_restore c ltac:(lia) Hi) as [Ed Ei].
  split; [done|]. split.
  - cbn [held]. rewrite filter_cons_False by naive_solver.
    clear - Hl. induction h as [|k h IH]; [done|]. apply not_elem_of_cons in Hl as [Hk Hl].
    rewrite filter_cons_True by done. f_equal. by apply IH.
  - split; [|done]. intros k. destruct (decide (k = l)) as [->|]; [by rewrite lock_upd_eq|].
    by rewrite !lock_upd_ne.
Qed.

(** The ninth core gets number 8, behind the array of eight. *)
Lemma cpu_local_setup_ninth cpu_locals : length cpu_locals = 8%nat ->
  cpu_local_setup cpu_locals 8 = Undef.
Proof.
  intros Hl. unfold cpu_local_setup, MAX_CORES. cbn -[zget zset wrap].
  by rewrite zget_ge_None by (unfold zlen; lia).
Qed.

(** ** Witnesses *)

Definition demo_machine : machine :=
  let '(ls, t) := run 3 (locks (boot 2)) (spinlock_lock true 7 (boot_core 1)) in
  MkMachine ls [boot_core 0; t].

Lemma demo_reachable : reachable 2 demo_machine.
Proof.
  eapply rtc_l; [eapply (step_lock _ _ 1%nat _ 7); [reflexivity|reflexivity|cbn; lia]|].
  eapply rtc_l; [eapply (step_advance _ _ 1%nat); reflexivity|].
  eapply rtc_l; [eapply (step_advance _ _ 1%nat); reflexivity|].
  eapply rtc_l; [eapply (step_advance _ _ 1%nat); reflexivity|].
  apply rtc_refl.
Qed.

Lemma spinlock_mutual_exclusion_witness :
  exists t, cores demo_machine !! 1%nat = Some t /\ owns t 7 /\
    forall j u, cores demo_machine !! j = Some u -> owns u 7 -> 1%nat = j.
Proof.
  eexists. split; [reflexivity|]. assert (7 ∈ [7]) as Hin by (apply elem_of_cons; by left).
  split; [left; exact Hin|].
  intros j u Hu Ho. eapply (spinlock_mutual_exclusion 2 demo_machine 1 j _ u 7 demo_reachable);
    [reflexivity|exact Hu|left; exact Hin|exact Ho].
Defined.

Lemma spinlock_interrupts_witness :
  exists t, cores demo_machine !! 1%nat = Some t /\ int_enabled (cpu t) = false.
Proof.
  eexists. split; [reflexivity|].
  pose proof (spinlock_interrupts 2 demo_machine 1 _ demo_reachable eq_refl eq_refl) as H.
  exact H.
Defined.

Lemma spinlock_checks_exact_witness :
  exists t, cores demo_machine !! 1%nat = Some t /\
    at_pc (advance (locks demo_machine) t).2 <> Panicked "cpu not holding lock".
Proof.
  eexists. split; [reflexivity|].
  exact (proj2 (proj2 (spinlock_checks_exact 2 demo_machine 1 _ 7 demo_reachable eq_refl))).
Defined.

Lemma spinlock_lock_unlock_witness :
  let '(ls, t) := run 3 (fun _ => MkLock 0 0) (spinlock_lock true 7 (boot_core 1)) in
  held t = [7] /\ ls 7 = MkLock 1 1.
Proof.
  pose proof (spinlock_lock_unlock (fun _ => MkLock 0 0) 7 (boot_core 1) eq_refl
    ltac:(apply not_elem_of_nil) eq_refl ltac:(cbn; lia) ltac:(done)) as H.
  split; [exact (proj1 (proj2 H))|exact (proj1 (proj2 (proj2 H)))].
Defined.
