(* ===== verification/Serial.v ===== *)
(** * The serial port (kernel/src/drivers/drv_serial.c)

    The driver keeps received characters in a ring buffer: the interrupt
    handler fills it and echoes, [serial_read_op] drains it.  The state is
    the driver's data; the characters of the UART are arguments (received) and
    results (sent).  A read of an empty buffer waits on the condition
    variable: the model returns [None], and the caller tries again after the
    next interrupt.  The port itself is in SerialPort.v. *)
From S2P Require Import Prelude.

Definition SERIAL_BUFFER_LENGTH : Z := 128.

(** [serial_device_data_t]. *)
Record serial_device_data := MkSerial {
  input_buffer : list Z; read_index : Z; write_index : Z; initialized : bool
}.

(** [serial_init]: [kcmalloc] clears the buffer. *)
Definition serial_init : serial_device_data :=
  MkSerial (replicate (Z.to_nat SERIAL_BUFFER_LENGTH) 0) 0 0 true.

(** [serial_irq_handler] for the character [c] of [serial_getc]; the result
    is the data and the echo. *)
Definition serial_irq_handler (data : option serial_device_data) (c : Z)
    : option serial_device_data * list Z :=
  match data with
  | None => (data, [])
  | Some d =>
      if negb (initialized d) then (data, [])
      else
        let c := if c =? 13 then 10 else c in
        let next := (write_index d + 1) mod SERIAL_BUFFER_LENGTH in
        if negb (next =? read_index d) then
          (Some (MkSerial (zset (input_buffer d) (write_index d) c) (read_index d) next true), [c])
        else (data, [])
  end.

(** The copy loop of [serial_read_op]. *)
Fixpoint serial_copy (k : nat) (d : serial_device_data) : list Z * serial_device_data :=
  match k with
  | O => ([], d)
  | S k' =>
      let c := default 0 (zget (input_buffer d) (read_index d)) in
      let d := MkSerial (input_buffer d) ((read_index d + 1) mod SERIAL_BUFFER_LENGTH)
                        (write_index d) (initialized d) in
      let '(l, d) := serial_copy k' d in (c :: l, d)
  end.

Definition serial_available (d : serial_device_data) : Z :=
  if write_index d <? read_index d then write_index d + (SERIAL_BUFFER_LENGTH - read_index d)
  else write_index d - read_index d.

(** [serial_read_op]: the bytes read; [None] while it waits. *)
Definition serial_read_op (data : option serial_device_data) (len : Z)
    : option (list Z * option serial_device_data) :=
  match data with
  | None => Some ([], data)
  | Some d =>
      if len =? 0 then Some ([], data)
      else if read_index d =? write_index d then None
      else
        let available := serial_available d in
        let to_read := if available <? len then available else len in
        let '(l, d) := serial_copy (Z.to_nat to_read) d in Some (l, Some d)
  end.

(** [serial_write_op] sends every byte and returns the length. *)
Definition serial_write_op (buffer : list Z) : list Z * Z := (buffer, zlen buffer).

(** The entry points of the device table; [bound] says whether a device and
    its driver are registered. *)
Definition serial_write (bound : bool) (buffer : list Z) : list Z * Z :=
  if bound then serial_write_op buffer else (buffer, zlen buffer).
Definition serial_read (bound : bool) (data : option serial_device_data) (len : Z)
    : option (list Z * option serial_device_data) :=
  if bound then serial_read_op data len else Some ([], data).
Definition serial_read_async (len : Z) : Z := 0.

(** ** The queue the ring buffer stands for *)

Record serial_ok (d : serial_device_data) : Prop := {
  s_len : length (input_buffer d) = 128%nat;
  s_read : 0 <= read_index d < 128;
  s_write : 0 <= write_index d < 128;
  s_init : initialized d = true
}.

Definition ring_at (d : serial_device_data) (k : Z) : Z :=
  default 0 (zget (input_buffer d) ((read_index d + k) mod 128)).
Definition queue (d : serial_device_data) : list Z :=
  ring_at d <$> seqZ 0 (serial_available d).

Lemma available_range d : serial_ok d -> 0 <= serial_available d < 128 /\
  write_index d = (read_index d + serial_available d) mod 128.
Proof.
  intros [_ Hr Hw _]. unfold serial_available, SERIAL_BUFFER_LENGTH.
  destruct (Z.ltb_spec (write_index d) (read_index d)); zify_div.
Qed.

Lemma length_queue d : serial_ok d -> zlen (queue d) = serial_available d.
Proof.
  intros H. destruct (available_range d H). unfold queue, zlen. rewrite length_fmap, length_seqZ. lia.
Qed.

Lemma serial_init_ok : serial_ok serial_init /\ queue serial_init = [].
Proof. split; [split; cbn; try done; lia|done]. Qed.

(** Receiving a character. *)
Lemma serial_irq_spec d c : serial_ok d ->
  let c' := if c =? 13 then 10 else c in
  exists d', serial_ok d' /\
    serial_irq_handler (Some d) c = (Some d', if decide (length (queue d) < 127)%nat then [c'] else []) /\
    queue d' = if decide (length (queue d) < 127)%nat then queue d ++ [c'] else queue d.
Proof.
  intros Hok c'. pose proof (available_range d Hok) as [Ha Hw]. pose proof (length_queue d Hok) as Hl.
  destruct Hok as [Hlen Hr Hwr Hi].
  unfold serial_irq_handler. rewrite Hi. cbn [negb]. fold c'. unfold SERIAL_BUFFER_LENGTH.
  unfold zlen in Hl. destruct (decide _) as [Hroom|Hfull].
  - destruct (Z.eqb_spec ((write_index d + 1) mod 128) (read_index d)); [zify_div|]. cbn [negb].
    set (d' := MkSerial _ _ _ _). exists d'.
    assert (serial_available d' = serial_available d + 1) as Ha'.
    { unfold serial_available, d', SERIAL_BUFFER_LENGTH in *. cbn.
      destruct (Z.ltb_spec (write_index d) (read_index d)),
        (Z.ltb_spec ((write_index d + 1) mod 128) (read_index d)); zify_div. }
    split; [|split; [done|]].
    + split; cbn; try done; [|zify_div]. by rewrite <- Hlen; unfold zset; destruct (_ <? _); [|rewrite length_insert].
    + unfold queue. rewrite Ha', seqZ_app, fmap_app by lia. f_equal.
      * apply list_fmap_ext. intros k x Hx. apply lookup_seqZ in Hx as [-> Hx].
        unfold ring_at, d'. cbn. rewrite zget_zset_ne; [done|]. rewrite Hw. zify_div.
      * rewrite (seqZ_cons _ 1) by lia. cbn [fmap list_fmap seqZ]. f_equal. unfold ring_at.
        replace (read_index d') with (read_index d) by done. rewrite Z.add_0_l, <- Hw. unfold d'. cbn [input_buffer].
        rewrite zget_zset_eq; [done|]. unfold zlen. lia.
  - destruct (Z.eqb_spec ((write_index d + 1) mod 128) (read_index d)); [|zify_div]. cbn [negb].
    by exists d.
Qed.

(** Taking characters out. *)
Lemma serial_copy_spec k d : serial_ok d -> (k <= length (queue d))%nat ->
  exists d', serial_ok d' /\ serial_copy k d = (take k (queue d), d') /\ queue d' = drop k (queue d).
Proof.
  revert d. induction k as [|k IH]; intros d Hok Hk.
  { exists d. by rewrite take_0, drop_0. }
  pose proof (available_range d Hok) as [Ha Hw]. pose proof (length_queue d Hok) as Hl.
  unfold zlen in Hl. cbn [serial_copy]. set (d1 := MkSerial _ _ _ _).
  assert (serial_available d1 = serial_available d - 1) as Ha1.
  { unfold serial_available, d1, SERIAL_BUFFER_LENGTH in *. cbn. destruct Hok as [_ Hr Hwr _].
    destruct (Z.ltb_spec (write_index d) (read_index d)),
      (Z.ltb_spec (write_index d) ((read_index d + 1) mod 128)); zify_div. }
  assert (serial_ok d1) as Hok1.
  { destruct Hok. split; cbn; try done. unfold SERIAL_BUFFER_LENGTH. zify_div. }
  assert (queue d = default 0 (zget (input_buffer d) (read_index d)) :: queue d1) as E.
  { unfold queue. rewrite Ha1. rewrite seqZ_cons by lia. cbn [fmap list_fmap]. f_equal.
    - unfold ring_at. rewrite Z.add_0_r, Z.mod_small; [done|apply Hok].
    - replace (Z.succ 0) with (0 + 1) by lia. rewrite <- (fmap_add_seqZ 1 0), <- list_fmap_compose.
      apply list_fmap_ext. intros j x _. unfold ring_at, d1. cbn. unfold SERIAL_BUFFER_LENGTH.
      f_equal. f_equal. rewrite Zplus_mod_idemp_l. f_equal. lia. }
  destruct (IH d1 Hok1) as (d' & Hd' & E1 & E2).
  { rewrite E in Hk. cbn in Hk. lia. }
  exists d'. rewrite E1, E. by cbn.
Qed.

(** ** Refinement of a bounded queue *)

(** What happens at the port, and what is seen of it. *)
Inductive event := Receive (c : Z) | Read (len : nat).
Inductive seen := Echo (l : list Z) | Got (l : list Z) | Waits.

Definition port_step (d : option serial_device_data) (e : event) : option serial_device_data * seen :=
  match e with
  | Receive c => let '(d, echo) := serial_irq_handler d c in (d, Echo echo)
  | Read n => match serial_read true d (Z.of_nat n) with
              | Some (l, d) => (d, Got l)
              | None => (d, Waits)
              end
  end.

(** The specification: a queue of at most 127 characters that drops what
    arrives while it is full. *)
Definition queue_step (q : list Z) (e : event) : list Z * seen :=
  match e with
  | Receive c =>
      let c' := if c =? 13 then 10 else c in
      if decide (length q < 127)%nat then (q ++ [c'], Echo [c']) else (q, Echo [])
  | Read O => (q, Got [])
  | Read n => match q with [] => (q, Waits) | _ => (drop n q, Got (take n q)) end
  end.

Fixpoint trace {S} (f : S -> event -> S * seen) (s : S) (l : list event) : list seen :=
  match l with
  | [] => []
  | e :: l' => let '(s, o) := f s e in o :: trace f s l'
  end.

Lemma serial_read_spec d n : serial_ok d ->
  exists d', serial_ok d' /\
    port_step (Some d) (Read n) = (Some d', (queue_step (queue d) (Read n)).2) /\
    queue d' = (queue_step (queue d) (Read n)).1.
Proof.
  intros Hok. pose proof (available_range d Hok) as [Ha Hw]. pose proof (length_queue d Hok) as Hl.
  unfold zlen in Hl. cbn [port_step serial_read]. unfold serial_read_op. destruct n as [|n]; [by exists d|].
  destruct (Z.eqb_spec (Z.of_nat (S n)) 0); [lia|].
  destruct (Z.eqb_spec (read_index d) (write_index d)) as [E|E].
  - assert (serial_available d = 0) as H0.
    { unfold serial_available. rewrite E, Z.ltb_irrefl. lia. }
    assert (queue d = []) as Eq by (apply length_zero_iff_nil; lia).
    exists d. unfold queue_step. rewrite Eq. done.
  - assert (queue_step (queue d) (Read (S n)) = (drop (S n) (queue d), Got (take (S n) (queue d)))) as ->.
    { cbn. destruct (queue d) eqn:Eq; [|done]. cbn in Hl. unfold serial_available in Hl.
      destruct (Z.ltb_spec (write_index d) (read_index d)); [|lia]. destruct Hok. unfold SERIAL_BUFFER_LENGTH in *. lia. }
    destruct (serial_copy_spec (Nat.min (S n) (length (queue d))) d Hok ltac:(lia)) as (d' & Hd' & E1 & E2).
    exists d'. split; [done|].
    replace (Z.to_nat (if serial_available d <? Z.of_nat (S n) then serial_available d else Z.of_nat (S n)))
      with (Nat.min (S n) (length (queue d))) by (destruct (Z.ltb_spec (serial_available d) (Z.of_nat (S n))); lia).
    rewrite E1. cbn [fst snd]. rewrite E2. destruct (decide (S n <= length (queue d))%nat).
    + by rewrite Nat.min_l by done.
    + rewrite Nat.min_r by lia. by rewrite !drop_ge, !take_ge by lia.
Qed.

(** C18: the ring buffer implements a queue.  Whatever sequence of received
    characters and reads happens, the echo, the bytes read and the reads that
    have to wait are those of a queue of at most 127 characters: nothing is
    reordered, duplicated or lost but what arrives while it is full. *)
Theorem serial_queue_refinement evs :
  trace port_step (Some serial_init) evs = trace queue_step [] evs.
Proof.
  destruct serial_init_ok as [Hok Hq]. rewrite <- Hq. generalize serial_init, Hok. clear.
  induction evs as [|e evs IH]; intros d Hok; [done|]. cbn [trace].
  assert (exists d', serial_ok d' /\ port_step (Some d) e = (Some d', (queue_step (queue d) e).2) /\
    queue d' = (queue_step (queue d) e).1) as (d' & Hd' & E1 & E2).
  { destruct e as [c|n]; [|by apply serial_read_spec].
    destruct (serial_irq_spec d c Hok) as (d' & Hd' & E1 & E2). exists d'. split; [done|].
    cbn [port_step queue_step]. rewrite E1, E2. by destruct (decide _). }
  rewrite E1. destruct (queue_step (queue d) e) as [q o]. cbn [fst snd] in *. subst q. f_equal. by apply IH.
Qed.
