(* ===== verification/Rtc.v ===== *)
(** * Date and time (kernel/src/drivers/drv_rtc.c)

    [read_rtc_time] reads the CMOS clock until two readings agree, converts
    them from binary-coded decimals and counts the seconds since 1970;
    [rtc_ioctl] adds the microseconds that the time stamp counter measured
    since.  The registers of the clock are the argument: a list of readings.
    The calibration of the counter is assembly; its result is the field
    [tsc_frequency].  The wait loop of command 2, on doubles, is not modelled. *)
From S2P Require Import Prelude.

Definition RTC_PRECISION : Z := 1000000.

(** One reading of the six registers. *)
Record rtc_time := MkTime {
  seconds : Z; minutes : Z; hours : Z; year : Z; dayofmonth : Z; month : Z
}.
#[export] Instance rtc_time_eq_dec : EqDecision rtc_time.
Proof. solve_decision. Defined.

Definition convert_bcd_to_binary (value : Z) : Z := value / 16 * 10 + Z.land value 15.

(** The [do ... while] loop: [last] is the reading before; the list holds the
    readings still to come. *)
Fixpoint stable_reading (last : rtc_time) (readings : list rtc_time) : outcome rtc_time :=
  match readings with
  | [] => NoFuel
  | t :: readings' => if decide (last = t) then Ret t else stable_reading t readings'
  end.

Definition from_bcd (t : rtc_time) : rtc_time :=
  MkTime (convert_bcd_to_binary (seconds t)) (convert_bcd_to_binary (minutes t))
    (convert_bcd_to_binary (hours t)) (convert_bcd_to_binary (year t))
    (convert_bcd_to_binary (dayofmonth t)) (convert_bcd_to_binary (month t)).

Definition daysPerMonth : list Z := [31; 28; 31; 30; 31; 30; 31; 31; 30; 31; 30; 31].

(** [for (int i = 0; i < month - 1; i++) daysCurrentYear += daysPerMonth[i];] *)
Fixpoint add_months (k : nat) (i days : Z) : outcome Z :=
  match k with
  | O => Ret days
  | S k' => match zget daysPerMonth i with
            | Some n => add_months k' (i + 1) (days + n)
            | None => Undef
            end
  end.

(** The seconds since 1970 for a reading in binary. *)
Definition seconds_of (t : rtc_time) : outcome Z :=
  let yearsSinceEpoch := 2000 + year t - 1970 in
  let leapYears := yearsSinceEpoch / 4 in
  let leapYears := if 1 <? yearsSinceEpoch mod 4 then leapYears + 1 else leapYears in
  daysCurrentYear ← add_months (Z.to_nat (month t - 1)) 0 0;
  let daysCurrentYear := daysCurrentYear + dayofmonth t in
  let daysSinceEpoch := yearsSinceEpoch * 365 - 1 in
  let unixTimeOfDay := hours t * 3600 + minutes t * 60 + seconds t in
  mret (daysSinceEpoch * 86400 + leapYears * 86400 + daysCurrentYear * 86400 + unixTimeOfDay).

Definition read_rtc_time (status_b : Z) (first : rtc_time) (readings : list rtc_time) : outcome Z :=
  t ← stable_reading first readings;
  seconds_of (if truth (Z.land status_b 4) then t else from_bcd t).

(** ** The counter *)

(** [rtc_device_data_t]. *)
Record rtc_device_data := MkRtc { tsc_frequency : Z; initial_rtc : Z; initial_tsc : Z }.

(** [rtc_init] after a calibration that succeeded: the last reading of the
    clock in microseconds and the counter. *)
Definition rtc_init (frequency rtc tsc : Z) : option rtc_device_data :=
  if (500000000 <=? frequency) && (frequency <=? 10000000000)
  then Some (MkRtc frequency (wrap 64 (rtc * RTC_PRECISION)) tsc) else None.

(** Command 0 of [rtc_ioctl] at the counter value [tsc]; 64-bit arithmetic. *)
Definition rtc_ioctl_time (d : rtc_device_data) (tsc : Z) : Z :=
  let tsc_diff := wrap 64 (tsc - initial_tsc d) in
  let us_elapsed := wrap 64 (tsc_diff * RTC_PRECISION) / tsc_frequency d in
  wrap 64 (initial_rtc d + us_elapsed).
Definition rtc_ioctl (data : option rtc_device_data) (cmd tsc : Z) : option Z :=
  match data with
  | None => None
  | Some d => if cmd =? 0 then Some (rtc_ioctl_time d tsc)
              else if cmd =? 1 then Some (tsc_frequency d) else None
  end.
Definition rtc_now (data : option rtc_device_data) (tsc : Z) : Z :=
  match data with None => 0 | Some d => rtc_ioctl_time d tsc end.
Definition rtc_now_us (data : option rtc_device_data) (tsc : Z) : Z := rtc_now data tsc.
Definition sys_time (data : option rtc_device_data) (tsc : Z) : Z := rtc_now data tsc.

(** ** The Gregorian calendar, as a reference *)

Definition is_leap (y : Z) : bool := (y mod 4 =? 0) && (negb (y mod 100 =? 0) || (y mod 400 =? 0)).
Definition month_days (y m : Z) : Z :=
  if m =? 2 then (if is_leap y then 29 else 28)
  else if (m =? 4) || (m =? 6) || (m =? 9) || (m =? 11) then 30 else 31.
Definition year_days (y : Z) : Z := if is_leap y then 366 else 365.
Definition sum (l : list Z) : Z := foldr Z.add 0 l.
(** Days from 1970-01-01 to the first of the month, and the seconds since. *)
Definition days_before (y m : Z) : Z :=
  sum (year_days <$> seqZ 1970 (y - 1970)) + sum (month_days y <$> seqZ 1 (m - 1)).
Definition unix_time (y : Z) (t : rtc_time) : Z :=
  (days_before y (month t) + (dayofmonth t - 1)) * 86400 + hours t * 3600 + minutes t * 60 + seconds t.

(** A digit pair. *)
Definition bcd (n : Z) : Z := n / 10 * 16 + n mod 10.

Lemma bcd_roundtrip n : 0 <= n < 100 -> convert_bcd_to_binary (bcd n) = n.
Proof.
  intros Hn. unfold convert_bcd_to_binary, bcd. change 15 with (Z.ones 4). rewrite Z.land_ones by lia.
  change (2 ^ 4) with 16. zify_div.
Qed.

(** Day counts of all months of the century, one by one. *)
Definition months_ok (y m : Z) : bool :=
  match add_months (Z.to_nat (m - 1)) 0 0 with
  | Ret d =>
      let ys := 2000 + y - 1970 in
      let leap := if 1 <? ys mod 4 then ys / 4 + 1 else ys / 4 in
      ys * 365 - 1 + leap + d =?
      days_before (2000 + y) m - 1 + (if is_leap (2000 + y) && (m <=? 2) then 1 else 0)
  | _ => false
  end.

Lemma months_all_ok : forallb (fun y => forallb (months_ok y) (seqZ 1 12)) (seqZ 0 100) = true.
Proof. vm_compute. reflexivity. Qed.

Lemma months_ok_at y m : 0 <= y < 100 -> 1 <= m <= 12 -> months_ok y m = true.
Proof.
  intros Hy Hm. pose proof months_all_ok as H. rewrite forallb_forall in H.
  specialize (H y). rewrite <- list_elem_of_In, elem_of_seqZ in H. specialize (H ltac:(lia)).
  rewrite forallb_forall in H. specialize (H m). rewrite <- list_elem_of_In, elem_of_seqZ in H.
  apply H. lia.
Qed.

Lemma seconds_of_spec t : 0 <= year t < 100 -> 1 <= month t <= 12 ->
  seconds_of t = Ret (unix_time (2000 + year t) t +
    (if is_leap (2000 + year t) && (month t <=? 2) then 86400 else 0)).
Proof.
  intros Hy Hm. pose proof (months_ok_at _ _ Hy Hm) as H. unfold months_ok in H.
  unfold seconds_of. destruct (add_months _ _ _) as [d| | |]; try done.
  cbn [mbind outcome_bind mret outcome_ret]. f_equal. apply Z.eqb_eq in H. unfold unix_time.
  cbv zeta in H. destruct (is_leap _ && _), (1 <? _); lia.
Qed.

(** What two equal readings in a row are. *)
Lemma stable_reading_last last l t : stable_reading last (l ++ [t; t]) <> NoFuel.
Proof.
  revert last. induction l as [|x l IH]; intros last; cbn.
  - destruct (decide (last = t)); [done|]. by destruct (decide (t = t)).
  - destruct (decide (last = x)); [done|]. apply IH.
Qed.

(** The clock is read right, except in the first two months of leap
    years.  For every date from 2000 to 2099 that the clock shows twice in a
    row, in binary-coded decimals or in binary, [read_rtc_time] returns the
    seconds since 1970 by the Gregorian calendar; in January and February of
    a leap year it is a day ahead, because the leap day is counted from the
    start of the year. *)
Theorem read_rtc_time_correct status_b first readings t
    (Hs : stable_reading first readings = Ret (if truth (Z.land status_b 4) then t else
       MkTime (bcd (seconds t)) (bcd (minutes t)) (bcd (hours t)) (bcd (year t))
         (bcd (dayofmonth t)) (bcd (month t))))
    (Hy : 0 <= year t < 100) (Hm : 1 <= month t <= 12) (Hd : 1 <= dayofmonth t <= 31)
    (Hh : 0 <= hours t < 24) (Hmin : 0 <= minutes t < 60) (Hsec : 0 <= seconds t < 60) :
  read_rtc_time status_b first readings =
  Ret (unix_time (2000 + year t) t +
       (if is_leap (2000 + year t) && (month t <=? 2) then 86400 else 0)).
Proof.
  unfold read_rtc_time. rewrite Hs. cbn [mbind outcome_bind].
  destruct (truth (Z.land status_b 4)); [by apply seconds_of_spec|].
  rewrite <- seconds_of_spec by done. f_equal. unfold from_bcd. cbn.
  rewrite !bcd_roundtrip by lia. by destruct t.
Qed.

(** The clock loop ends: once the registers show the same values twice in
    a row, whatever they showed before, [read_rtc_time] has a result. *)
Theorem read_rtc_time_ends status_b first l t (Hm : 1 <= month t <= 12)
    (Hne : forall x, x ∈ first :: l -> 1 <= month x <= 12) (Hbin : truth (Z.land status_b 4) = true) :
  exists s, read_rtc_time status_b first (l ++ [t; t]) = Ret s.
Proof.
  unfold read_rtc_time. rewrite Hbin.
  assert (exists x, stable_reading first (l ++ [t; t]) = Ret x /\ 1 <= month x <= 12) as (x & -> & Hx).
  { revert first Hne. induction l as [|y l IH]; intros first Hne; cbn.
    - destruct (decide (first = t)); [by eauto|]. destruct (decide (t = t)); [by eauto|done].
    - destruct (decide (first = y)) as [->|].
      + exists y. split; [done|]. apply Hne. apply elem_of_cons. by left.
      + apply IH. intros z Hz. apply Hne. apply elem_of_cons. by right. }
  cbn [mbind outcome_bind]. unfold seconds_of.
  assert (exists d, add_months (Z.to_nat (month x - 1)) 0 0 = Ret d) as [d ->]; [|by eexists].
  assert (forallb (fun k => match add_months (Z.to_nat (k - 1)) 0 0 with Ret _ => true | _ => false end)
    (seqZ 1 12) = true) as H by (vm_compute; reflexivity).
  rewrite forallb_forall in H. specialize (H (month x)). rewrite <- list_elem_of_In, elem_of_seqZ in H.
  specialize (H ltac:(lia)). destruct (add_months _ _ _); try done. by eexists.
Qed.

(** The clock runs backwards.  While the counter's distance from the
    start, times a million, fits 64 bits, the time never decreases; as soon
    as it does not, which takes less than two hours at 3 GHz, the time falls
    back to its start. *)
Theorem rtc_now_wraps d tsc1 tsc2 (Hf : 0 < tsc_frequency d < 2 ^ 63)
    (Hi : 0 <= initial_rtc d /\ initial_rtc d + 2 ^ 64 / tsc_frequency d < 2 ^ 64)
    (H1 : initial_tsc d <= tsc1 <= tsc2) (H0 : 0 <= initial_tsc d)
    (H2 : tsc2 - initial_tsc d < 2 ^ 64) :
  ((tsc2 - initial_tsc d) * RTC_PRECISION < 2 ^ 64 ->
     rtc_now (Some d) tsc1 <= rtc_now (Some d) tsc2) /\
  ((tsc1 - initial_tsc d) * RTC_PRECISION < 2 ^ 64 ->
   2 ^ 64 <= (tsc2 - initial_tsc d) * RTC_PRECISION < 2 ^ 64 + tsc_frequency d ->
     rtc_now (Some d) tsc2 = initial_rtc d).
Proof.
  unfold rtc_now, rtc_ioctl_time, RTC_PRECISION in *. rewrite !(wrap_small 64 (_ - initial_tsc d)) by lia.
  assert (forall x, 0 <= x < 2 ^ 64 -> 0 <= x / tsc_frequency d <= 2 ^ 64 / tsc_frequency d) as Hdiv.
  { intros x Hx. split; [apply Z.div_pos; lia|apply Z.div_le_mono; lia]. }
  split.
  - intros Hb. rewrite !(wrap_small 64 (_ * _)) by nia.
    pose proof (Hdiv ((tsc1 - initial_tsc d) * 1000000) ltac:(nia)).
    pose proof (Hdiv ((tsc2 - initial_tsc d) * 1000000) ltac:(nia)).
    rewrite !wrap_small by lia. apply Z.add_le_mono_l, Z.div_le_mono; nia.
  - intros Hb1 Hb2. replace (wrap 64 ((tsc2 - initial_tsc d) * 1000000))
      with ((tsc2 - initial_tsc d) * 1000000 - 2 ^ 64).
    + rewrite Z.div_small by lia. pose proof (Hdiv 0 ltac:(lia)). rewrite wrap_small by lia. lia.
    + unfold wrap. apply (Z.mod_unique_pos _ _ 1); lia.
Qed.

(** ** Witnesses *)

Lemma read_rtc_time_correct_witness :
  read_rtc_time 2 (MkTime 89 89 35 36 41 2) (replicate 2 (MkTime 0 0 0 36 1 3)) =
  Ret (unix_time 2024 (MkTime 0 0 0 24 1 3) + 0).
Proof.
  exact (read_rtc_time_correct 2 (MkTime 89 89 35 36 41 2) (replicate 2 (MkTime 0 0 0 36 1 3))
    (MkTime 0 0 0 24 1 3) eq_refl ltac:(cbn; lia) ltac:(cbn; lia) ltac:(cbn; lia) ltac:(cbn; lia)
    ltac:(cbn; lia) ltac:(cbn; lia)).
Defined.

Lemma read_rtc_time_ends_witness :
  exists s, read_rtc_time 6 (MkTime 0 0 0 24 1 3) ([] ++ [MkTime 1 0 0 24 1 3; MkTime 1 0 0 24 1 3]) = Ret s.
Proof.
  apply (read_rtc_time_ends 6 (MkTime 0 0 0 24 1 3) [] (MkTime 1 0 0 24 1 3)); [cbn; lia| |reflexivity].
  intros x [->|H]%elem_of_cons; [cbn; lia|by apply not_elem_of_nil in H].
Defined.

Lemma rtc_now_wraps_witness :
  let d := MkRtc 3000000000 1700000000000000 0 in
  rtc_now (Some d) 3000000000 <= rtc_now (Some d) 6000000000 /\
  rtc_now (Some d) 18446744073710 = 1700000000000000.
Proof.
  split.
  - refine (proj1 (rtc_now_wraps (MkRtc 3000000000 1700000000000000 0) 3000000000 6000000000 _ _ _ _ _) _);
      repeat split; vm_compute; congruence.
  - refine (proj2 (rtc_now_wraps (MkRtc 3000000000 1700000000000000 0) 3000000000 18446744073710 _ _ _ _ _) _ _);
      repeat split; vm_compute; congruence.
Defined.
