(* ===== verification/Ps2.v ===== *)
(** * PS/2 keyboard and mouse (kernel/src/drivers/drv_ps2.c)

    [keyboard_handler] is a state machine over the scan codes the controller
    delivers one per interrupt: it translates set 2 to set 1, tracks the
    modifier keys and sends the characters of the layout to the console as
    UTF-8.  [mouse_handler] collects packets of three bytes.  The bytes read
    from the data port are arguments, the characters sent are results: the
    ports are in Ps2Irq.v.  [scancode_set] is what the set-up of Ps2Ctl.v
    reads from the keyboard and may be any byte. *)
From S2P Require Import Prelude.

(** ** Tables *)

(** The designated initialisers of [us_layout]; other rows are 0. *)
Definition us_layout : list (Z * list Z) :=
  [(0x02, [49; 33; 0; 0]); (0x03, [50; 64; 0; 0]); (0x04, [51; 35; 0; 0]); (0x05, [52; 36; 0; 0]);
   (0x06, [53; 37; 0; 0]); (0x07, [54; 94; 0; 0]); (0x08, [55; 38; 0; 0]); (0x09, [56; 42; 0; 0]);
   (0x0A, [57; 40; 0; 0]); (0x0B, [48; 41; 0; 0]); (0x0C, [45; 95; 0; 0]); (0x0D, [61; 43; 0; 0]);
   (0x0E, [8; 8; 0; 0]); (0x0F, [9; 9; 0; 0]); (0x10, [113; 81; 0; 0]); (0x11, [119; 87; 0; 0]);
   (0x12, [101; 69; 0; 0]); (0x13, [114; 82; 0; 0]); (0x14, [116; 84; 0; 0]); (0x15, [121; 89; 0; 0]);
   (0x16, [117; 85; 0; 0]); (0x17, [105; 73; 0; 0]); (0x18, [111; 79; 0; 0]); (0x19, [112; 80; 0; 0]);
   (0x1A, [91; 123; 0; 0]); (0x1B, [93; 125; 0; 0]); (0x1C, [10; 10; 0; 0]); (0x1D, [0; 0; 0; 0]);
   (0x1E, [97; 65; 0; 0]); (0x1F, [115; 83; 0; 0]); (0x20, [100; 68; 0; 0]); (0x21, [102; 70; 0; 0]);
   (0x22, [103; 71; 0; 0]); (0x23, [104; 72; 0; 0]); (0x24, [106; 74; 0; 0]); (0x25, [107; 75; 0; 0]);
   (0x26, [108; 76; 0; 0]); (0x27, [59; 58; 0; 0]); (0x28, [39; 34; 0; 0]); (0x29, [96; 126; 0; 0]);
   (0x2B, [92; 124; 0; 0]); (0x2C, [122; 90; 0; 0]); (0x2D, [120; 88; 0; 0]); (0x2E, [99; 67; 0; 0]);
   (0x2F, [118; 86; 0; 0]); (0x30, [98; 66; 0; 0]); (0x31, [110; 78; 0; 0]); (0x32, [109; 77; 0; 0]);
   (0x33, [44; 60; 0; 0]); (0x34, [46; 62; 0; 0]); (0x35, [47; 63; 0; 0]); (0x39, [32; 32; 0; 0])].

Fixpoint assoc_row (l : list (Z * list Z)) (k : Z) : list Z :=
  match l with
  | [] => [0; 0; 0; 0]
  | (x, r) :: l' => if x =? k then r else assoc_row l' k
  end.
(** [map[scancode][column]]: the table has 128 rows. *)
Definition layout_at (scancode column : Z) : outcome Z :=
  if (0 <=? scancode) && (scancode <? 128)
  then Ret (default 0 (zget (assoc_row us_layout scancode) column)) else Undef.

Definition us_set2_to_set1 : list Z :=
  [0x00; 0x3B; 0x00; 0x3F; 0x3D; 0x3B; 0x3C; 0x58; 0x00; 0x44; 0x42; 0x40; 0x3E; 0x0F; 0x29; 0x00;
   0x00; 0x38; 0x2A; 0x00; 0x1D; 0x10; 0x02; 0x00; 0x00; 0x00; 0x2C; 0x1F; 0x1E; 0x11; 0x03; 0x00;
   0x00; 0x2E; 0x2D; 0x20; 0x12; 0x05; 0x04; 0x00; 0x00; 0x39; 0x2F; 0x21; 0x14; 0x13; 0x06; 0x00;
   0x00; 0x31; 0x30; 0x23; 0x22; 0x15; 0x07; 0x00; 0x00; 0x00; 0x32; 0x24; 0x16; 0x08; 0x09; 0x00;
   0x00; 0x33; 0x25; 0x17; 0x18; 0x0B; 0x0A; 0x00; 0x00; 0x34; 0x35; 0x26; 0x27; 0x19; 0x0C; 0x00;
   0x00; 0x00; 0x28; 0x00; 0x1A; 0x0D; 0x00; 0x00; 0x3A; 0x36; 0x1C; 0x1B; 0x00; 0x2B; 0x00; 0x00;
   0x00; 0x00; 0x00; 0x00; 0x00; 0x00; 0x0E; 0x00; 0x00; 0x4F; 0x00; 0x4B; 0x47; 0x00; 0x00; 0x00;
   0x52; 0x53; 0x50; 0x4C; 0x4E; 0x48; 0x01; 0x45; 0x57; 0x4E; 0x4D; 0x4A; 0x37; 0x49; 0x46; 0x00].
Definition set2_to_set1 (scancode : Z) : outcome Z :=
  match zget us_set2_to_set1 scancode with Some c => Ret c | None => Undef end.

(** ** Characters *)

Definition emit_utf8 (codepoint : Z) : list Z :=
  if codepoint <=? 0x7F then [codepoint]
  else if codepoint <=? 0x7FF then
    [Z.lor 0xC0 (Z.land (Z.shiftr codepoint 6) 0x1F); Z.lor 0x80 (Z.land codepoint 0x3F)]
  else if codepoint <=? 0xFFFF then
    [Z.lor 0xE0 (Z.land (Z.shiftr codepoint 12) 0x0F);
     Z.lor 0x80 (Z.land (Z.shiftr codepoint 6) 0x3F); Z.lor 0x80 (Z.land codepoint 0x3F)]
  else
    [Z.lor 0xF0 (Z.land (Z.shiftr codepoint 18) 0x07);
     Z.lor 0x80 (Z.land (Z.shiftr codepoint 12) 0x3F);
     Z.lor 0x80 (Z.land (Z.shiftr codepoint 6) 0x3F); Z.lor 0x80 (Z.land codepoint 0x3F)].

(** ** Keyboard *)

Record keyboard := MkKeyboard {
  scancode_set : Z; shift_pressed : bool; ctrl_pressed : bool; alt_pressed : bool;
  capslock_on : bool; release_next : bool
}.
Definition set_shift (k : keyboard) (b : bool) : keyboard :=
  MkKeyboard (scancode_set k) b (ctrl_pressed k) (alt_pressed k) (capslock_on k) (release_next k).
Definition set_ctrl (k : keyboard) (b : bool) : keyboard :=
  MkKeyboard (scancode_set k) (shift_pressed k) b (alt_pressed k) (capslock_on k) (release_next k).
Definition set_alt (k : keyboard) (b : bool) : keyboard :=
  MkKeyboard (scancode_set k) (shift_pressed k) (ctrl_pressed k) b (capslock_on k) (release_next k).
Definition set_caps (k : keyboard) (b : bool) : keyboard :=
  MkKeyboard (scancode_set k) (shift_pressed k) (ctrl_pressed k) (alt_pressed k) b (release_next k).
Definition set_release (k : keyboard) (b : bool) : keyboard :=
  MkKeyboard (scancode_set k) (shift_pressed k) (ctrl_pressed k) (alt_pressed k) (capslock_on k) b.

(** The first part: release flag and scan code in set 1; [None] when the
    handler returns early. *)
Definition decode_scancode (k : keyboard) (scancode : Z) : outcome (keyboard * option (bool * Z)) :=
  if scancode_set k =? 2 then
    if scancode =? 0xF0 then mret (set_release k true, None)
    else if release_next k then
      c ← set2_to_set1 scancode; mret (set_release k false, Some (true, c))
    else if truth (Z.land scancode 0x80) then
      c ← set2_to_set1 (Z.land scancode 0x7F); mret (k, Some (true, c))
    else
      c ← set2_to_set1 scancode; mret (k, Some (false, c))
  else if scancode_set k =? 1 then
    mret (k, Some (truth (Z.land scancode 0x80), Z.land scancode 0x7F))
  else mret (k, Some (false, scancode)).

(** The second part: modifiers, then the layout. *)
Definition key_action (k : keyboard) (key_released : bool) (scancode : Z) : outcome (keyboard * list Z) :=
  if (scancode =? 0x2A) || (scancode =? 0x36) then mret (set_shift k (negb key_released), [])
  else if scancode =? 0x1D then mret (set_ctrl k (negb key_released), [])
  else if scancode =? 0x38 then mret (set_alt k (negb key_released), [])
  else if (scancode =? 0x3A) && negb key_released then mret (set_caps k (negb (capslock_on k)), [])
  else if key_released then mret (k, [])
  else
    codepoint ← layout_at scancode (if xorb (shift_pressed k) (capslock_on k) then 1 else 0);
    mret (k, if truth codepoint then emit_utf8 codepoint else []).

(** [keyboard_handler] with a byte waiting. *)
Definition keyboard_handler (k : keyboard) (scancode : Z) : outcome (keyboard * list Z) :=
  '(k, r) ← decode_scancode k scancode;
  match r with
  | None => mret (k, [])
  | Some (key_released, c) => key_action k key_released c
  end.

(** ** Mouse *)

(** [mouse_cycle] and [mouse_packet]. *)
Record mouse := MkMouse { mouse_cycle : Z; mouse_packet : list Z }.

Definition mouse_handler (m : mouse) (data : Z) : outcome mouse :=
  if negb ((0 <=? mouse_cycle m) && (mouse_cycle m <? 3)) then Undef
  else
    let packet := zset (mouse_packet m) (mouse_cycle m) data in
    let cycle := mouse_cycle m + 1 in
    if (cycle =? 1) && negb (truth (Z.land (default 0 (zget packet 0)) 0x08)) then Ret (MkMouse 0 packet)
    else if cycle =? 3 then Ret (MkMouse 0 packet) else Ret (MkMouse cycle packet).

(** ** UTF-8 *)

(** The reference decoder. *)
Definition continuation (b : Z) : option Z := if b / 64 =? 2 then Some (b mod 64) else None.
Definition utf8_decode (l : list Z) : option (Z * list Z) :=
  match l with
  | [] => None
  | b :: l =>
      if b <? 128 then Some (b, l)
      else if b / 32 =? 6 then
        match l with
        | c1 :: l => x1 ← continuation c1; Some ((b mod 32) * 64 + x1, l)
        | _ => None
        end
      else if b / 16 =? 14 then
        match l with
        | c1 :: c2 :: l =>
            x1 ← continuation c1; x2 ← continuation c2; Some ((b mod 16) * 4096 + x1 * 64 + x2, l)
        | _ => None
        end
      else if b / 8 =? 30 then
        match l with
        | c1 :: c2 :: c3 :: l =>
            x1 ← continuation c1; x2 ← continuation c2; x3 ← continuation c3;
            Some ((b mod 8) * 262144 + x1 * 4096 + x2 * 64 + x3, l)
        | _ => None
        end
      else None
  end.

(** Marker bits above [k] low bits. *)
Lemma lor_marker a b k : 0 <= k -> 0 <= b < 2 ^ k -> Z.lor (a * 2 ^ k) b = a * 2 ^ k + b.
Proof.
  intros Hk Hb. symmetry. rewrite <- Z.lxor_lor, <- Z.add_nocarry_lxor; [done| |];
    apply Z.bits_inj'; intros i Hi; rewrite Z.land_spec, Z.bits_0, <- Z.shiftl_mul_pow2 by done;
    destruct (Z_lt_le_dec i k);
    [rewrite Z.shiftl_spec_low by done|rewrite (testbit_range k b i), andb_false_r by lia|
     rewrite Z.shiftl_spec_low by done|rewrite (testbit_range k b i), andb_false_r by lia]; done.
Qed.

Lemma land_low x k : 0 <= k -> Z.land x (Z.ones k) = x mod 2 ^ k.
Proof. apply Z.land_ones. Qed.

Lemma cont_byte x : Z.lor 0x80 (Z.land x 0x3F) = 128 + x mod 64.
Proof.
  change 0x3F with (Z.ones 6). rewrite Z.land_ones by lia. change 0x80 with (2 * 2 ^ 6).
  rewrite lor_marker by zify_div. done.
Qed.
Lemma lead2 x : Z.lor 0xC0 (Z.land x 0x1F) = 192 + x mod 32.
Proof.
  change 0x1F with (Z.ones 5). rewrite Z.land_ones by lia. change 0xC0 with (6 * 2 ^ 5).
  rewrite lor_marker by zify_div. done.
Qed.
Lemma lead3 x : Z.lor 0xE0 (Z.land x 0x0F) = 224 + x mod 16.
Proof.
  change 0x0F with (Z.ones 4). rewrite Z.land_ones by lia. change 0xE0 with (14 * 2 ^ 4).
  rewrite lor_marker by zify_div. done.
Qed.
Lemma lead4 x : Z.lor 0xF0 (Z.land x 0x07) = 240 + x mod 8.
Proof.
  change 0x07 with (Z.ones 3). rewrite Z.land_ones by lia. change 0xF0 with (30 * 2 ^ 3).
  rewrite lor_marker by zify_div. done.
Qed.

Lemma continuation_byte x : continuation (128 + x mod 64) = Some (x mod 64).
Proof.
  unfold continuation. destruct (Z.eqb_spec ((128 + x mod 64) / 64) 2); [|zify_div]. f_equal. zify_div.
Qed.

Ltac not_ascii :=
  match goal with |- context [?b <? 128] => destruct (Z.ltb_spec b 128); [zify_div|] end.
Ltac lead_is v d :=
  match goal with |- context [?b / d =? v] => destruct (Z.eqb_spec (b / d) v); [|zify_div] end.
Ltac lead_not v d :=
  match goal with |- context [?b / d =? v] => destruct (Z.eqb_spec (b / d) v); [zify_div|] end.

(** The characters of the keyboard are sent as UTF-8: for every code
    point up to 0x1FFFFF the bytes [emit_utf8] sends are read back by a UTF-8
    decoder as that code point, whatever follows them. *)
Theorem emit_utf8_decode cp rest (Hcp : 0 <= cp < 0x200000) :
  utf8_decode (emit_utf8 cp ++ rest) = Some (cp, rest) /\
  Forall (fun b => 0 <= b < 256) (emit_utf8 cp).
Proof.
  unfold emit_utf8. rewrite !cont_byte, lead2, lead3, lead4, !Z.shiftr_div_pow2 by lia.
  change (2 ^ 6) with 64. change (2 ^ 12) with 4096. change (2 ^ 18) with 262144.
  destruct (Z.leb_spec cp 0x7F); [|destruct (Z.leb_spec cp 0x7FF); [|destruct (Z.leb_spec cp 0xFFFF)]];
    (split; [|repeat constructor; zify_div]); cbn [app]; unfold utf8_decode; rewrite ?continuation_byte;
    cbn [mbind option_bind].
  - destruct (Z.ltb_spec cp 128); [done|lia].
  - not_ascii. lead_is 6 32. do 2 f_equal. zify_div.
  - not_ascii. lead_not 6 32. lead_is 14 16. do 2 f_equal. zify_div.
  - not_ascii. lead_not 6 32. lead_not 14 16. lead_is 30 8. do 2 f_equal. zify_div.
Qed.

(** ** The keyboard over time *)

Fixpoint run_keys (k : keyboard) (l : list Z) : outcome (keyboard * list Z) :=
  match l with
  | [] => mret (k, [])
  | c :: l' =>
      '(k, out) ← keyboard_handler k c;
      '(k, out') ← run_keys k l';
      mret (k, out ++ out')
  end.

(** What the modifiers should be after scan codes of set 1, read off the
    history alone. *)
Definition shift_after (b : bool) (l : list Z) : bool :=
  foldl (fun b c => if (c mod 128 =? 0x2A) || (c mod 128 =? 0x36) then c <? 128 else b) b l.
Definition caps_after (b : bool) (l : list Z) : bool :=
  foldl (fun b c => if c =? 0x3A then negb b else b) b l.

Lemma land_0x80 c : 0 <= c < 256 -> truth (Z.land c 0x80) = negb (c <? 128).
Proof.
  intros Hc. change (Z.land c 0x80) with (Z.land c (Z.shiftl 1 7)). rewrite truth_land_bit, Z.testbit_odd, Z.shiftr_div_pow2 by lia.
  change (2 ^ 7) with 128. destruct (Z.ltb_spec c 128); cbn [negb].
  - by rewrite Z.div_small by lia.
  - replace (c / 128) with 1 by zify_div. done.
Qed.

Lemma land_0x7F c : Z.land c 0x7F = c mod 128.
Proof. change 0x7F with (Z.ones 7). by rewrite Z.land_ones by lia. Qed.

Lemma layout_ok c col : 0 <= c < 128 -> exists v, layout_at c col = Ret v.
Proof.
  intros Hc. unfold layout_at. destruct (Z.leb_spec 0 c), (Z.ltb_spec c 128); try lia. by eexists.
Qed.

(** The cases of a key that sends no character. *)
Ltac key_done :=
  do 2 eexists; split; [reflexivity|]; split; [done|]; split; [done|]; split; [done|]; intros; exfalso; lia.

(** One scan code of set 1. *)
Lemma key_set1 k c : scancode_set k = 1 -> 0 <= c < 256 ->
  exists k' out, keyboard_handler k c = Ret (k', out) /\ scancode_set k' = 1 /\
    shift_pressed k' = shift_after (shift_pressed k) [c] /\
    capslock_on k' = caps_after (capslock_on k) [c] /\
    (c < 128 -> c <> 0x2A -> c <> 0x36 -> c <> 0x1D -> c <> 0x38 -> c <> 0x3A ->
       exists v, layout_at c (if xorb (shift_pressed k) (capslock_on k) then 1 else 0) = Ret v /\
         out = if truth v then emit_utf8 v else []).
Proof.
  intros Hs Hc. unfold keyboard_handler, decode_scancode. rewrite Hs. cbn [Z.eqb Pos.eqb].
  cbn [mbind outcome_bind mret outcome_ret]. rewrite land_0x80, land_0x7F by done.
  assert ((c =? 0x3A) = (c mod 128 =? 0x3A) && (c <? 128)) as Hcaps
    by (destruct (Z.eqb_spec c 0x3A), (Z.eqb_spec (c mod 128) 0x3A), (Z.ltb_spec c 128); cbn; try done; zify_div).
  assert (c < 128 -> c = c mod 128) as Hlow by (intros; zify_div).
  assert (0 <= c mod 128 < 128) as Hx by zify_div.
  unfold shift_after, caps_after, key_action. cbn [foldl]. rewrite negb_involutive, Hcaps.
  generalize dependent (c mod 128). intros x _ Hlow Hx.
  destruct (Z.eqb_spec x 0x2A) as [->|]; [key_done|].
  destruct (Z.eqb_spec x 0x36) as [->|]; [key_done|]. cbn [orb].
  destruct (Z.eqb_spec x 0x1D) as [->|]; [key_done|].
  destruct (Z.eqb_spec x 0x38) as [->|]; [key_done|].
  destruct (Z.eqb_spec x 0x3A) as [->|]; cbn [andb].
  - destruct (Z.ltb_spec c 128); cbn [negb]; key_done.
  - destruct (Z.ltb_spec c 128); cbn [negb]; [|key_done].
    rewrite <- (Hlow ltac:(done)).
    destruct (layout_ok c (if xorb (shift_pressed k) (capslock_on k) then 1 else 0) ltac:(lia)) as [v Hv].
    rewrite Hv. cbn [mbind outcome_bind mret outcome_ret]. do 2 eexists. split; [reflexivity|]. repeat (split; [done|]). intros. by exists v.
Qed.

(** With a keyboard in scan code set 1 the handler is safe and tracks the
    modifiers: for every sequence of bytes it stays inside of its tables, and
    afterwards shift is pressed exactly if the last shift key event was a
    press, and caps lock is on exactly if it was toggled an odd number of
    times from its start. *)
Theorem keyboard_set1_correct k l (Hs : scancode_set k = 1) (Hl : Forall (fun c => 0 <= c < 256) l) :
  exists k' out, run_keys k l = Ret (k', out) /\
    shift_pressed k' = shift_after (shift_pressed k) l /\
    capslock_on k' = caps_after (capslock_on k) l.
Proof.
  revert k Hs. induction Hl as [|c l Hc Hl IH]; intros k Hs; [by do 2 eexists|].
  destruct (key_set1 k c Hs Hc) as (k1 & out & E & Hs1 & Hsh & Hca & _).
  destruct (IH k1 Hs1) as (k' & out' & E' & Hsh' & Hca').
  exists k', (out ++ out'). cbn [run_keys]. rewrite E. cbn [mbind outcome_bind]. rewrite E'.
  split; [done|]. rewrite Hsh', Hca', Hsh, Hca. done.
Qed.

(** Outside of set 1 the handler can leave its tables.  In set 2, after
    the release prefix, any byte from 0x80 on indexes the translation table
    of 128 entries; with any other value in [scancode_set], any byte from
    0x80 on indexes the layout of 128 rows. *)
Theorem keyboard_out_of_bounds k c (Hc : 128 <= c < 256) :
  (scancode_set k = 2 -> release_next k = true -> c <> 0xF0 -> keyboard_handler k c = Undef) /\
  (scancode_set k <> 1 -> scancode_set k <> 2 -> keyboard_handler k c = Undef).
Proof.
  unfold keyboard_handler, decode_scancode. split.
  - intros -> -> Hf. destruct (Z.eqb_spec c 0xF0); [done|]. cbn [Z.eqb Pos.eqb].
    unfold set2_to_set1. by rewrite zget_ge_None by (change (zlen us_set2_to_set1) with 128; lia).
  - intros H1 H2. destruct (Z.eqb_spec (scancode_set k) 2), (Z.eqb_spec (scancode_set k) 1); try done.
    cbn [mbind outcome_bind mret outcome_ret]. unfold key_action.
    destruct (Z.eqb_spec c 0x2A), (Z.eqb_spec c 0x36), (Z.eqb_spec c 0x1D), (Z.eqb_spec c 0x38),
      (Z.eqb_spec c 0x3A); try lia. cbn [orb andb]. unfold layout_at.
    destruct (Z.ltb_spec c 128); [lia|]. by rewrite andb_false_r.
Qed.

(** The mouse never writes behind its packet, and a packet that starts has
    the synchronisation bit. *)
Definition mouse_ok (m : mouse) : Prop :=
  0 <= mouse_cycle m < 3 /\ length (mouse_packet m) = 3%nat /\
  (0 < mouse_cycle m -> truth (Z.land (default 0 (zget (mouse_packet m) 0)) 0x08) = true).

Lemma mouse_step m data : mouse_ok m -> exists m', mouse_handler m data = Ret m' /\ mouse_ok m'.
Proof.
  intros (Hc & Hl & Hs). unfold mouse_handler.
  destruct (Z.leb_spec 0 (mouse_cycle m)), (Z.ltb_spec (mouse_cycle m) 3); try lia. cbn [andb negb].
  assert (length (zset (mouse_packet m) (mouse_cycle m) data) = 3%nat) as Hl'
    by (unfold zset; destruct (_ <? _); [done|by rewrite length_insert]).
  destruct (Z.eqb_spec (mouse_cycle m + 1) 1) as [E|E]; cbn [andb].
  - clear Hs. destruct (truth _) eqn:Et; cbn [negb].
    + destruct (Z.eqb_spec (mouse_cycle m + 1) 3); [lia|]. eexists. split; [done|].
      split; [cbn; lia|]. split; [done|]. intros _. exact Et.
    + eexists. split; [done|]. split; [cbn; lia|]. split; [done|]. cbn. lia.
  - destruct (Z.eqb_spec (mouse_cycle m + 1) 3); (eexists; split; [done|]); (split; [cbn; lia|]);
      (split; [done|]);
      cbn [mouse_cycle mouse_packet]; try lia.
    intros _. rewrite zget_zset_ne by lia. apply Hs. lia.
Qed.

(** Mouse packets stay in their buffer: for every sequence of bytes the
    handler never writes outside of the three bytes of [mouse_packet], and a
    packet under way began with a byte that has the synchronisation bit. *)
Theorem mouse_safe l :
  exists m, for_list mouse_handler l (MkMouse 0 [0; 0; 0]) = Ret m /\ mouse_ok m.
Proof.
  assert (mouse_ok (MkMouse 0 [0; 0; 0])) as H by (split; [cbn; lia|split; [done|cbn; lia]]).
  revert H. generalize (MkMouse 0 [0; 0; 0]). induction l as [|c l IH]; intros m H; [by exists m|].
  destruct (mouse_step m c H) as (m' & E & H'). cbn [for_list]. rewrite E. by apply IH.
Qed.

(** ** Witnesses *)

Definition demo_keyboard (set : Z) (release : bool) : keyboard :=
  MkKeyboard set false false false false release.

Lemma emit_utf8_decode_witness : utf8_decode (emit_utf8 0x20AC ++ [65]) = Some (0x20AC, [65]).
Proof. exact (proj1 (emit_utf8_decode 0x20AC [65] ltac:(lia))). Defined.

Lemma keyboard_set1_correct_witness :
  exists k out, run_keys (demo_keyboard 1 false) [0x2A; 0x1E; 0xAA; 0x1E] = Ret (k, out) /\
    shift_pressed k = false.
Proof.
  destruct (keyboard_set1_correct (demo_keyboard 1 false) [0x2A; 0x1E; 0xAA; 0x1E] eq_refl
    ltac:(repeat constructor; lia)) as (k & out & E & H & _).
  exists k, out. split; [exact E|exact H].
Defined.

Lemma keyboard_out_of_bounds_witness : keyboard_handler (demo_keyboard 2 true) 0x83 = Undef.
Proof. exact (proj1 (keyboard_out_of_bounds (demo_keyboard 2 true) 0x83 ltac:(lia)) eq_refl eq_refl ltac:(lia)). Defined.
