(* ===== verification/UMalloc.v ===== *)
(** * The user heap (libc/src/malloc.c)

    The allocator of Kernighan and Ritchie: free blocks form a circular list
    in address order, each with a header of two words; [free] inserts a block
    and merges it with its neighbours, [malloc] takes the first block that is
    large enough, from its end, and asks the system for more when there is
    none.  The model runs on byte memory with the headers in it.

    The system call behind [sbrk] is a parameter with one law: the memory it
    hands out lies above everything it handed out before.  The loops take
    fuel; the theorems give enough of it, as a number of list nodes. *)
From stdpp Require Import sorting.
From S2P Require Import Prelude Mem CLib LibcString.

(** ** Headers *)

(** [sizeof(Header)], [s.ptr] and [s.size]. *)
Definition HDR : Z := 16.
Definition hdr_ptr (m : mem) (p : Z) : Z := load64 m p.
Definition hdr_size (m : mem) (p : Z) : Z := load64 m (p + 8).
Definition set_ptr (m : mem) (p v : Z) : mem := store64 m p v.
Definition set_size (m : mem) (p v : Z) : mem := store64 m (p + 8) v.

(** [p + n] on [Header] pointers. *)
Definition hdr_add (p n : Z) : Z := wrap 64 (p + HDR * n).

(** What [sbrk] promises: [-1] and nothing changed, or fresh memory above
    [brk_top]. *)
Class Sbrk (OS : Type) := {
  sbrk : OS -> Z -> Z * OS;
  brk_top : OS -> Z
}.
Class SbrkLaws (OS : Type) `{Sbrk OS} := {
  sbrk_fresh : forall o n p o', 0 < n -> sbrk o n = (p, o') ->
    (p = -1 /\ o' = o) \/ (brk_top o <= p /\ p + n <= brk_top o' /\ brk_top o' < 2 ^ 63)
}.

Section umalloc.
Context {OS : Type} `{Sbrk OS}.
(** The address of the static header [base]. *)
Context (base : Z).

Record uheap := MkUHeap { um : mem; freep : Z; os : OS }.

(** The [for] loop of [free]. *)
Fixpoint free_slot (fuel : nat) (m : mem) (p bp : Z) : outcome Z :=
  match fuel with
  | O => NoFuel
  | S fuel' =>
      let next := hdr_ptr m p in
      if (p <? bp) && (bp <? next) then Ret p
      else if (next <=? p) && ((p <? bp) || (bp <? next)) then Ret p
      else free_slot fuel' m next bp
  end.

(** The two merges of [free], with the block above and the one below. *)
Definition merge_above (m : mem) (p bp : Z) : mem :=
  let next := hdr_ptr m p in
  if hdr_add bp (hdr_size m bp) =? next then
    let m := set_size m bp (wrap 64 (hdr_size m bp + hdr_size m next)) in
    set_ptr m bp (hdr_ptr m (hdr_ptr m p))
  else set_ptr m bp next.
Definition merge_below (m : mem) (p bp : Z) : mem :=
  if hdr_add p (hdr_size m p) =? bp then
    let m := set_size m p (wrap 64 (hdr_size m p + hdr_size m bp)) in
    set_ptr m p (hdr_ptr m bp)
  else set_ptr m p bp.

Definition free (fuel : nat) (ap : Z) (h : uheap) : outcome uheap :=
  if ap =? 0 then Ret h
  else
    let bp := ap - HDR in
    p ← free_slot fuel (um h) (freep h) bp;
    Ret (MkUHeap (merge_below (merge_above (um h) p bp) p bp) p (os h)).

Definition morecore (fuel : nat) (nu : Z) (h : uheap) : outcome (Z * uheap) :=
  let nu := if nu <? 4096 then 4096 else nu in
  let '(p, o) := sbrk (os h) (wrap 64 (nu * HDR)) in
  if p =? -1 then Ret (0, MkUHeap (um h) (freep h) o)
  else
    h ← free fuel (p + HDR) (MkUHeap (set_size (um h) p nu) (freep h) o);
    Ret (freep h, h).

(** Taking [nunits] from the block [p] behind [prevp]. *)
Definition take_block (nunits prevp p : Z) (h : uheap) : Z * uheap :=
  let m := um h in
  if hdr_size m p =? nunits then
    (p + HDR, MkUHeap (set_ptr m prevp (hdr_ptr m p)) prevp (os h))
  else
    let m := set_size m p (wrap 64 (hdr_size m p - nunits)) in
    let q := hdr_add p (hdr_size m p) in
    (q + HDR, MkUHeap (set_size m q nunits) prevp (os h)).

Fixpoint malloc_loop (fuel : nat) (nunits prevp p : Z) (h : uheap) : outcome (Z * uheap) :=
  match fuel with
  | O => NoFuel
  | S fuel' =>
      if nunits <=? hdr_size (um h) p then Ret (take_block nunits prevp p h)
      else if p =? freep h then
        '(p, h) ← morecore fuel' nunits h;
        if p =? 0 then Ret (0, h) else malloc_loop fuel' nunits p (hdr_ptr (um h) p) h
      else malloc_loop fuel' nunits p (hdr_ptr (um h) p) h
  end.

Definition malloc (fuel : nat) (nbytes : Z) (h : uheap) : outcome (Z * uheap) :=
  let nunits := wrap 64 (nbytes + HDR - 1) / HDR + 1 in
  let h := if freep h =? 0
           then MkUHeap (set_size (set_ptr (um h) base base) base 0) base (os h) else h in
  malloc_loop fuel nunits (freep h) (hdr_ptr (um h) (freep h)) h.

Definition calloc (fuel : nat) (nmemb size : Z) (h : uheap) : outcome (Z * uheap) :=
  '(data, h) ← malloc fuel (wrap 64 (nmemb * size)) h;
  if data =? 0 then Ret (0, h)
  else Ret (data, MkUHeap (LibcString.memset data 0 (wrap 64 (nmemb * size)) (um h)) (freep h) (os h)).

(** A null result of [malloc] is written through: [Undef]. *)
Definition realloc (fuel : nat) (ptr size : Z) (h : uheap) : outcome (Z * uheap) :=
  if ptr =? 0 then malloc fuel size h
  else if size =? 0 then h ← free fuel ptr h; Ret (0, h)
  else
    let units := hdr_size (um h) (ptr - HDR) in
    if size =? units then Ret (ptr, h)
    else
      '(new_data, h) ← malloc fuel size h;
      let units := hdr_size (um h) (ptr - HDR) in
      if new_data =? 0 then Undef
      else Ret (new_data, MkUHeap (LibcString.memcpy new_data ptr (if size <? units then size else units) (um h))
                            (freep h) (os h)).

(** ** The list the headers stand for *)

(** Address and size in units of the nodes, and the pointer out of the last. *)
Fixpoint chain (m : mem) (ns : list (Z * Z)) (last : Z) : Prop :=
  match ns with
  | [] => True
  | (a, s) :: r =>
      hdr_ptr m a = match r with [] => last | (b, _) :: _ => b end /\ hdr_size m a = s /\ chain m r last
  end.

(** The space of a block; [base] has size 0 and is a header. *)
Definition ends (x : Z * Z) : Z := x.1 + HDR * Z.max 1 x.2.
Definition below (x y : Z * Z) : Prop := ends x <= y.1.
(** Neighbours in the list do not touch: they would have been merged. *)
Definition apart (x y : Z * Z) : Prop := below x y /\ x.1 + HDR * x.2 <> y.1.

Record free_list (m : mem) (ns : list (Z * Z)) (top : Z) : Prop := {
  fl_chain : chain m ns base;
  fl_head : exists r, ns = (base, 0) :: r /\ Forall (fun x => 1 <= x.2) r;
  fl_sorted : StronglySorted apart ns;
  fl_bound : Forall (fun x => 0 < x.1 /\ ends x <= top) ns;
  fl_top : top < 2 ^ 63
}.

Lemma chain_app m l1 b t r last :
  chain m (l1 ++ (b, t) :: r) last <-> chain m l1 b /\ chain m ((b, t) :: r) last.
Proof.
  induction l1 as [|[a s] l1 IH]; cbn [app chain]; [naive_solver|].
  rewrite IH. destruct l1 as [|[c u] l1]; cbn [app]; naive_solver.
Qed.

(** The successor of a node. *)
Definition head_or (l : list (Z * Z)) (e : Z) : Z := match l with [] => e | (b, _) :: _ => b end.

Lemma chain_node m l1 a s l2 last : chain m (l1 ++ (a, s) :: l2) last ->
  hdr_ptr m a = head_or l2 last /\ hdr_size m a = s.
Proof. intros [_ H1]%chain_app. cbn in H1. unfold head_or. tauto. Qed.

(** Stores to one header leave chains of others alone. *)
Definition off (a : Z) (x : Z * Z) : Prop := x.1 + HDR <= a \/ a + HDR <= x.1.

Lemma chain_set_ptr m ns last a v : Forall (off a) ns -> chain m ns last -> chain (set_ptr m a v) ns last.
Proof.
  unfold off, HDR. induction 1 as [|[b s] ns Hb Hns IH]; cbn [chain]; [done|]. cbn in Hb. intros (H1 & H2 & H3).
  unfold hdr_ptr, hdr_size, set_ptr in *. rewrite !load64_store64_out by lia. auto.
Qed.
Lemma chain_set_size m ns last a v : Forall (off a) ns -> chain m ns last -> chain (set_size m a v) ns last.
Proof.
  unfold off, HDR. induction 1 as [|[b s] ns Hb Hns IH]; cbn [chain]; [done|]. cbn in Hb. intros (H1 & H2 & H3).
  unfold hdr_ptr, hdr_size, set_size in *. rewrite !load64_store64_out by lia. auto.
Qed.
Lemma ptr_set_ptr m a v b : a = b \/ a + HDR <= b \/ b + HDR <= a -> 0 <= v < 2 ^ 64 ->
  hdr_ptr (set_ptr m a v) b = if a =? b then v else hdr_ptr m b.
Proof.
  unfold hdr_ptr, set_ptr, HDR. intros Hab Hv. destruct (Z.eqb_spec a b) as [->|].
  - rewrite load64_store64. by apply wrap_small.
  - apply load64_store64_out. lia.
Qed.
Lemma size_set_ptr m a v b : a = b \/ a + HDR <= b \/ b + HDR <= a ->
  hdr_size (set_ptr m a v) b = hdr_size m b.
Proof. unfold hdr_size, set_ptr, HDR. intros. apply load64_store64_out. lia. Qed.
Lemma size_set_size m a v b : a = b \/ a + HDR <= b \/ b + HDR <= a -> 0 <= v < 2 ^ 64 ->
  hdr_size (set_size m a v) b = if a =? b then v else hdr_size m b.
Proof.
  unfold hdr_size, set_size, HDR. intros Hab Hv. destruct (Z.eqb_spec a b) as [->|].
  - rewrite load64_store64. by apply wrap_small.
  - apply load64_store64_out. lia.
Qed.
Lemma ptr_set_size m a v b : a = b \/ a + HDR <= b \/ b + HDR <= a ->
  hdr_ptr (set_size m a v) b = hdr_ptr m b.
Proof. unfold hdr_ptr, set_size, HDR. intros. apply load64_store64_out. lia. Qed.

Lemma sorted_mid l1 x l2 : StronglySorted apart (l1 ++ x :: l2) ->
  Forall (fun y => apart y x) l1 /\ Forall (apart x) l2.
Proof.
  intros Hs. split.
  - apply Forall_forall. intros y Hy. eapply StronglySorted_app_1_elem_of; [exact Hs|done|by left].
  - apply StronglySorted_app_1_r in Hs. by apply StronglySorted_inv in Hs as [_ ?].
Qed.

Lemma ends_ge x : x.1 + HDR <= ends x /\ x.1 + HDR * x.2 <= ends x.
Proof. unfold ends, HDR. lia. Qed.

(** ** Finding the place of a block *)

Lemma base_least m ns top x : free_list m ns top -> x ∈ ns -> base <= x.1.
Proof.
  intros Hf Hx. destruct (fl_head m ns top Hf) as (r & -> & _).
  apply elem_of_cons in Hx as [->|Hx]; [done|].
  pose proof (fl_sorted m _ top Hf) as [_ Hs]%StronglySorted_inv. rewrite Forall_forall in Hs.
  destruct (Hs x Hx) as [Hb _]. unfold below, ends, HDR in Hb. cbn in Hb. lia.
Qed.

Lemma slot_forward m ns top bp l1 p s l2 fuel : free_list m ns top -> ns = l1 ++ (p, s) :: l2 ->
  base < bp -> Forall (fun y => y.1 <> bp) ns -> p < bp -> (length l2 < fuel)%nat ->
  exists u q t v, ns = u ++ (q, t) :: v /\ q < bp /\ Forall (fun y => bp < y.1) v /\
    free_slot fuel m p bp = Ret q.
Proof.
  intros Hf Hns Hb Hne. revert l1 p s fuel Hns.
  induction l2 as [|[b t] l2 IH]; intros l1 p s [|fuel] Hns Hp Hfu; cbn in Hfu; try lia; cbn [free_slot].
  - pose proof (fl_chain m ns top Hf) as Hc. rewrite Hns in Hc. apply chain_node in Hc as [-> _].
    exists l1, p, s, []. cbn. destruct (Z.ltb_spec p bp); [|lia]. cbn [andb].
    destruct (Z.ltb_spec bp base); [lia|]. cbn [orb]. split; [done|]. split; [done|]. split; [constructor|].
    pose proof (base_least m ns top (p, s) Hf ltac:(rewrite Hns; set_solver)) as Hbp. cbn in Hbp.
    destruct (Z.leb_spec base p); [done|lia].
  - pose proof (fl_chain m ns top Hf) as Hc. rewrite Hns in Hc. apply chain_node in Hc as [-> _]. cbn [head_or].
    pose proof (fl_sorted m ns top Hf) as Hs. rewrite Hns in Hs. apply sorted_mid in Hs as [_ Hs].
    apply Forall_cons in Hs as [[Hpb _] _]. unfold below, ends, HDR in Hpb. cbn in Hpb.
    assert (b <> bp) as Hbne by (rewrite Forall_forall in Hne; apply (Hne (b, t)); rewrite Hns; set_solver).
    destruct (Z.ltb_spec p bp); [|lia]. cbn [andb]. destruct (Z.ltb_spec bp b).
    + exists l1, p, s, ((b, t) :: l2). split; [done|]. split; [done|]. split; [|done].
      pose proof (fl_sorted m ns top Hf) as Hs. rewrite Hns in Hs. apply StronglySorted_app_1_r in Hs.
      apply StronglySorted_inv in Hs as [Hs _]. apply StronglySorted_inv in Hs as [_ Hs].
      apply Forall_cons. split; [done|]. eapply Forall_impl; [exact Hs|]. intros y [Hy _].
      unfold below in Hy. pose proof (ends_ge (b, t)). unfold HDR in *. cbn in *. lia.
    + destruct (Z.leb_spec b p); [lia|]. cbn [andb].
      apply (IH (l1 ++ [(p, s)]) b t fuel); [by rewrite <- app_assoc|lia|lia].
Qed.

(** From any node on, wrapping around at the end. *)
Lemma slot_ok m ns top bp l1 p s l2 fuel : free_list m ns top -> ns = l1 ++ (p, s) :: l2 ->
  base < bp -> Forall (fun y => y.1 <> bp) ns -> (length l2 + length ns < fuel)%nat ->
  exists u q t v, ns = u ++ (q, t) :: v /\ q < bp /\ Forall (fun y => bp < y.1) v /\
    free_slot fuel m p bp = Ret q.
Proof.
  intros Hf Hns Hb Hne Hfu.
  destruct (Z_lt_le_dec p bp) as [Hp|Hp]; [eapply slot_forward; eauto; lia|].
  destruct (fl_head m ns top Hf) as (r & Hr & _).
  revert l1 p s fuel Hns Hp Hfu.
  induction l2 as [|[b t] l2 IH]; intros l1 p s [|fuel] Hns Hp Hfu; try lia; cbn [free_slot];
    pose proof (fl_chain m ns top Hf) as Hc; rewrite Hns in Hc; apply chain_node in Hc as [-> _];
    cbn [head_or]; destruct (Z.ltb_spec p bp); try lia; cbn [andb orb].
  - assert (p <> bp) by (rewrite Forall_forall in Hne; apply (Hne (p, s)); rewrite Hns; set_solver).
    destruct (Z.ltb_spec bp base); [lia|]. rewrite andb_false_r.
    eapply (slot_forward m ns top bp [] base 0 r fuel); try done. rewrite Hr in Hfu. cbn in Hfu. lia.
  - assert (p <> bp) by (rewrite Forall_forall in Hne; apply (Hne (p, s)); rewrite Hns; set_solver).
    pose proof (fl_sorted m ns top Hf) as Hs. rewrite Hns in Hs. apply sorted_mid in Hs as [_ Hs].
    apply Forall_cons in Hs as [[Hpb _] _]. unfold below, ends, HDR in Hpb. cbn in Hpb.
    destruct (Z.ltb_spec bp b); [|lia]. destruct (Z.leb_spec b p); [lia|]. cbn [andb].
    apply (IH (l1 ++ [(p, s)]) b t fuel); [by rewrite <- app_assoc|lia|cbn in Hfu; lia].
Qed.

(** ** Inserting a block *)

(** A block and the free blocks above it. *)
Definition absorb (x : Z * Z) (v : list (Z * Z)) : (Z * Z) * list (Z * Z) :=
  match v with
  | (b, t) :: v' => if x.1 + HDR * x.2 =? b then ((x.1, x.2 + t), v') else (x, v)
  | [] => (x, v)
  end.
(** The list after [free]: what the block merges with on either side. *)
Definition insert_block (u : list (Z * Z)) (p : Z * Z) (x : Z * Z) (v : list (Z * Z)) : list (Z * Z) :=
  let '(y, v') := absorb x v in
  if p.1 + HDR * p.2 =? x.1 then u ++ (p.1, p.2 + y.2) :: v' else u ++ p :: y :: v'.

(** Room for a block behind [p]. *)
Record gap (p x : Z * Z) (v : list (Z * Z)) (top : Z) : Prop := {
  gap_size : 1 <= x.2;
  gap_below : below p x;
  gap_above : Forall (below x) v;
  gap_top : ends x <= top
}.

Lemma hdr_add_small p n : 0 <= p -> 0 <= n -> p + HDR * n < 2 ^ 64 -> hdr_add p n = p + HDR * n.
Proof. unfold hdr_add, HDR. intros. apply wrap_small. lia. Qed.

Lemma below_off x y : below x y -> off y.1 x /\ off x.1 y.
Proof. unfold below, off. pose proof (ends_ge x). lia. Qed.

(** Stores to one header, at other nodes. *)
Lemma Forall_off_below x l : Forall (below x) l -> Forall (off x.1) l.
Proof. intros Hl. eapply Forall_impl; [exact Hl|]. intros y Hy. exact (proj2 (below_off x y Hy)). Qed.
Lemma Forall_off_above x l : Forall (fun y => below y x) l -> Forall (off x.1) l.
Proof. intros Hl. eapply Forall_impl; [exact Hl|]. intros y Hy. exact (proj1 (below_off y x Hy)). Qed.

Lemma apart_below x l : Forall (apart x) l -> Forall (below x) l.
Proof. intros Hl. eapply Forall_impl; [exact Hl|]. by intros y [Hy _]. Qed.
Lemma apart_above x l : Forall (fun y => apart y x) l -> Forall (fun y => below y x) l.
Proof. intros Hl. eapply Forall_impl; [exact Hl|]. by intros y [Hy _]. Qed.

(** Numbers in range of the pointer arithmetic. *)
Definition in_range (top : Z) (x : Z * Z) : Prop := 0 < x.1 /\ 0 <= x.2 /\ ends x <= top.

Lemma merge_above_ok m u q t v bp n top : chain m (u ++ (q, t) :: v) base ->
  StronglySorted apart (u ++ (q, t) :: v) -> gap (q, t) (bp, n) v top -> top < 2 ^ 63 ->
  Forall (in_range top) ((q, t) :: v) -> 0 <= base < bp -> hdr_size m bp = n ->
  let m1 := merge_above m q bp in
  let '(y, v') := absorb (bp, n) v in
  y.1 = bp /\ chain m1 ((bp, y.2) :: v') base /\ chain m1 (u ++ [(q, t)]) (head_or v base).
Proof.
  intros Hc Hs [Hn Hqb Hbv Hbt] Htop Hr Hbase Hsz.
  apply Forall_cons in Hr as [Hq Hr]. pose proof (sorted_mid _ _ _ Hs) as [Hu _].
  pose proof (chain_node _ _ _ _ _ _ Hc) as [Hnext _].
  assert (chain m (u ++ [(q, t)]) (head_or v base) /\ chain m v base) as [Hc1 Hc2].
  { apply chain_app in Hc as [Hcu Hcv]. cbn [chain] in Hcv. destruct Hcv as (H1 & H2 & H3).
    split; [|done]. apply chain_app. split; [done|]. by cbn. }
  assert (Forall (off bp) (u ++ [(q, t)])) as Hoff.
  { apply (Forall_off_above (bp, n)). apply Forall_app. split; [|constructor; [exact Hqb|constructor]].
    eapply Forall_impl; [exact Hu|]. intros y [Hy _]. unfold below in *. pose proof (ends_ge (q, t)). unfold HDR in *. cbn in *. lia. }
  unfold merge_above. rewrite Hnext, Hsz.
  unfold in_range, below, ends, HDR in *. cbn in Hq, Hqb, Hbt, Hn.
  rewrite hdr_add_small by (unfold HDR; lia). unfold HDR.
  destruct v as [|[b tb] v]; cbn [head_or absorb].
  - destruct (Z.eqb_spec (bp + 16 * n) base); [lia|]. cbn [fst snd]. split; [done|]. split.
    + cbn [chain]. rewrite ptr_set_ptr, size_set_ptr, Z.eqb_refl by lia. done.
    + by apply chain_set_ptr.
  - apply Forall_cons in Hr as [Hb Hr]. cbn in Hb. apply Forall_cons in Hbv as [Hbb _]. cbn in Hbb.
    assert (Forall (off bp) ((b, tb) :: v)) as Hoffv.
    { apply Forall_cons. split; [unfold off, HDR; cbn; lia|]. apply StronglySorted_app_1_r, StronglySorted_inv in Hs as [Hs _].
      apply StronglySorted_inv in Hs as [_ Hs]. eapply Forall_impl; [exact Hs|].
      intros y [Hy _]. unfold below, ends, off, HDR in *. cbn in Hy. lia. }
    cbn [chain] in Hc2. destruct Hc2 as (Hb1 & Hb2 & Hb3).
    cbn [fst snd]. unfold HDR. destruct (Z.eqb_spec (bp + 16 * n) b); cbn [fst snd]; (split; [done|]).
    + assert (forall k, chain m (u ++ [(q, t)]) b -> chain (set_size m bp k) (u ++ [(q, t)]) b) as Hss
        by (intros; by apply chain_set_size).
      rewrite Hb2. rewrite (wrap_small 64 (n + tb)) by lia.
      set (m' := set_size m bp (n + tb)).
      assert (hdr_ptr m' q = b) as E1 by (unfold m'; rewrite ptr_set_size by (unfold HDR; lia); done).
      assert (hdr_ptr m' b = match v with [] => base | (c, _) :: _ => c end) as E2
        by (unfold m'; rewrite ptr_set_size by (unfold HDR; lia); done).
      assert (0 <= match v with [] => base | (c, _) :: _ => c end < 2 ^ 64) as Hnx.
      { destruct v as [|[c tc] v]; [lia|]. apply Forall_cons in Hr as [Hr _]. cbn in Hr. lia. }
      rewrite E1, E2. split.
      * cbn [chain]. rewrite ptr_set_ptr, size_set_ptr, Z.eqb_refl by lia. unfold m'.
        rewrite size_set_size, Z.eqb_refl by lia. split; [done|]. split; [done|].
        apply Forall_cons in Hoffv as [_ Hoffv]. apply chain_set_ptr; [done|]. by apply chain_set_size.
      * apply chain_set_ptr; [done|]. by apply Hss.
    + split.
      * apply (chain_set_ptr m ((b, tb) :: v) base bp b) in Hoffv as Hcv; [|by cbn].
        cbn [chain] in *. rewrite ptr_set_ptr, size_set_ptr, Z.eqb_refl by lia. done.
      * by apply chain_set_ptr.
Qed.

Lemma merge_below_ok m u q t bp k v X top : chain m (u ++ [(q, t)]) X -> chain m ((bp, k) :: v) base ->
  Forall (fun y => below y (q, t)) u -> below (q, t) (bp, k) -> Forall (below (bp, k)) v ->
  in_range top (q, t) -> in_range top (bp, k) -> top < 2 ^ 63 -> q + HDR * t + HDR * k <= top + HDR ->
  Forall (in_range top) v -> 0 <= base < 2 ^ 63 ->
  chain (merge_below m q bp)
    (if q + HDR * t =? bp then u ++ (q, t + k) :: v else u ++ (q, t) :: (bp, k) :: v) base.
Proof.
  intros Hc1 Hc2 Hu Hqb Hbv Hq Hb Htop Hsum Hr Hbase.
  pose proof (chain_node _ _ _ _ _ _ Hc1) as [_ Hqs]. apply chain_app in Hc1 as [Hcu _].
  assert (Forall (off q) u) as Hou by (by apply (Forall_off_above (q, t))).
  assert (Forall (off q) ((bp, k) :: v)) as Hov.
  { apply (Forall_off_below (q, t)). apply Forall_cons. split; [done|]. eapply Forall_impl; [exact Hbv|].
    intros y Hy. unfold below in *. pose proof (ends_ge (bp, k)). unfold HDR in *. cbn in *. lia. }
  unfold merge_below. rewrite Hqs. unfold in_range, below, ends, HDR in *. cbn in Hq, Hqb, Hb.
  rewrite hdr_add_small by (unfold HDR; lia). unfold HDR.
  destruct (Z.eqb_spec (q + 16 * t) bp).
  - pose proof Hc2 as (Hb1 & Hb2 & Hb3).
    rewrite Hb2, (wrap_small 64 (t + k)) by lia.
    rewrite ptr_set_size, Hb1 by (unfold HDR; lia).
    apply Forall_cons in Hov as [_ Hov].
    assert (0 <= match v with [] => base | (c, _) :: _ => c end < 2 ^ 64) as Hnx.
    { destruct v as [|[c tc] v]; [lia|]. apply Forall_cons in Hr as [Hr _]. cbn in Hr. lia. }
    apply chain_app. split; [apply chain_set_ptr; [done|]; by apply chain_set_size|].
    cbn [chain]. rewrite ptr_set_ptr, size_set_ptr, size_set_size, Z.eqb_refl by lia.
    split; [done|]. split; [done|]. apply chain_set_ptr; [done|]. by apply chain_set_size.
  - apply chain_app. split; [by apply chain_set_ptr|].
    apply (chain_set_ptr m _ base q bp) in Hc2; [|done].
    cbn [chain]. cbn [chain] in Hc2. rewrite ptr_set_ptr, size_set_ptr, Z.eqb_refl by lia. done.
Qed.

Lemma absorb_spec bp n v top : 1 <= n -> StronglySorted apart v -> Forall (below (bp, n)) v ->
  Forall (fun x => 1 <= x.2) v -> Forall (in_range top) v -> ends (bp, n) <= top -> 0 < bp ->
  let '(y, v') := absorb (bp, n) v in
  y.1 = bp /\ n <= y.2 /\ StronglySorted apart (y :: v') /\ Forall (fun x => 1 <= x.2) v' /\
  Forall (in_range top) (y :: v').
Proof.
  intros Hn Hs Hb Hp Hr Ht Hbp. unfold absorb. destruct v as [|[b t] v]; cbn [fst snd].
  - repeat split; cbn; try lia; repeat constructor; unfold ends in *; cbn in *; lia.
  - apply Forall_cons in Hp as [Hp1 Hp]. apply Forall_cons in Hb as [Hb1 Hb]. apply Forall_cons in Hr as [Hr1 Hr].
    apply StronglySorted_inv in Hs as [Hs1 Hs2]. unfold below, in_range, ends, HDR in *. cbn in Hp1, Hb1, Hr1, Ht.
    destruct (Z.eqb_spec (bp + 16 * n) b); cbn [fst snd].
    + repeat split; cbn; try lia; try done.
      * apply SSorted_cons; [done|]. eapply Forall_impl; [exact Hs2|]. intros z [Hz1 Hz2].
        unfold apart, below, ends, HDR in *. cbn in *. lia.
      * constructor; [cbn; lia|done].
    + repeat split; cbn; try lia; try done.
      * apply SSorted_cons; [by apply SSorted_cons|]. apply Forall_cons. split.
        -- unfold apart, below, ends, HDR. cbn. lia.
        -- eapply Forall_impl; [exact Hs2|]. intros z [Hz1 Hz2].
           unfold apart, below, ends, HDR in *. cbn in *. lia.
      * by constructor.
      * constructor; [cbn; lia|by constructor].
Qed.

Lemma head_list m ns top u q t v : free_list m ns top -> ns = u ++ (q, t) :: v ->
  match u with [] => (q, t) = (base, 0) | x :: u' => x = (base, 0) /\ Forall (fun x => 1 <= x.2) u' /\ 1 <= t end /\
  Forall (fun x => 1 <= x.2) v.
Proof.
  intros Hf ->. destruct (fl_head _ _ _ Hf) as (r & Hr & Hp). destruct u as [|x u]; cbn in Hr; injection Hr; intros; subst.
  - done.
  - apply Forall_app in Hp as [Hp1 Hp2]. apply Forall_cons in Hp2 as [Hp2 Hp3]. done.
Qed.

Lemma in_range_nodes m ns top : 0 < base -> free_list m ns top -> Forall (in_range top) ns.
Proof.
  intros Hb Hf. destruct (fl_head _ _ _ Hf) as (r & -> & Hp).
  pose proof (fl_bound _ _ _ Hf) as Hbd. apply Forall_cons in Hbd as [H0 Hbd]. apply Forall_cons. split.
  { unfold in_range. cbn in *. lia. }
  rewrite Forall_forall in *. intros x Hx. destruct (Hbd x Hx). specialize (Hp x Hx). unfold in_range. cbn in *. lia.
Qed.

(** [free] once the place is found. *)
Lemma insert_ok m u q t v bp n top : 0 < base < bp -> free_list m (u ++ (q, t) :: v) top ->
  gap (q, t) (bp, n) v top -> hdr_size m bp = n ->
  free_list (merge_below (merge_above m q bp) q bp) (insert_block u (q, t) (bp, n) v) top.
Proof.
  intros Hbase Hf Hg Hsz. pose proof Hg as [Hn Hqb Hbv Hbt]. cbn in Hn.
  destruct (head_list m _ top u q t v Hf eq_refl) as [Hh Hpv].
  pose proof (in_range_nodes m _ top ltac:(lia) Hf) as Hr.
  pose proof Hf as [Hc _ Hs Hbd Htop]. pose proof (sorted_mid _ _ _ Hs) as [Hsu Hsv].
  pose proof (StronglySorted_app_1_r _ _ _ Hs) as [Hs2 _]%StronglySorted_inv.
  apply Forall_app in Hr as [Hru Hr]. pose proof Hr as [Hrq Hrv]%Forall_cons.
  pose proof (merge_above_ok m u q t v bp n top Hc Hs Hg Htop Hr ltac:(lia) Hsz) as HA.
  pose proof (absorb_spec bp n v top Hn Hs2 Hbv Hpv Hrv Hbt ltac:(lia)) as HB.
  unfold insert_block. destruct (absorb (bp, n) v) as [[b' k] v']. cbn in HA, HB.
  destruct HA as (-> & HA1 & HA2), HB as (_ & Hk & HBs & HBp & HBr).
  pose proof HBr as [HBr1 HBr2]%Forall_cons. pose proof (StronglySorted_inv HBs) as [_ HBa].
  assert (below (q, t) (bp, k)) as Hqk by exact Hqb.
  pose proof (merge_below_ok _ u q t bp k v' _ top HA2 HA1 (apart_above _ _ Hsu) Hqk (apart_below _ _ HBa) Hrq HBr1 Htop) as HC.
  assert (q + HDR * t + HDR * k <= top + HDR) as Hsum
    by (unfold in_range, below, ends, HDR in *; cbn in *; lia).
  assert (0 <= base < 2 ^ 63) as Hb63.
  { unfold in_range, ends, HDR in HBr1. cbn in HBr1. lia. }
  specialize (HC Hsum HBr2 Hb63). cbn [fst snd].
  assert (forall y, y ∈ u -> forall z, q <= z.1 -> apart y z) as Hu2.
  { intros y Hy z Hz. rewrite Forall_forall in Hsu. destruct (Hsu y Hy) as [H1 H2]. unfold apart, below, ends, HDR in *. cbn in *. lia. }
  assert (forall z, z ∈ v' -> bp <= z.1) as Hv2.
  { intros z Hz. rewrite Forall_forall in HBa. destruct (HBa z Hz) as [H1 _]. unfold below in H1.
    pose proof (ends_ge (bp, k)). unfold HDR in *. cbn in *. lia. }
  assert (q <= bp) as Hqbp by (unfold below, ends, HDR in Hqb; cbn in Hqb; lia).
  apply StronglySorted_app_1_l in Hs as Hsu1.
  destruct (Z.eqb_spec (q + HDR * t) bp) as [E|E].
  - assert (1 <= t) as Ht1.
    { destruct u; [|apply Hh]. injection Hh as -> ->. unfold below, ends, HDR in *. cbn in *. lia. }
    split; [done| | | |done].
    + destruct u as [|x u]; [injection Hh as -> ->; lia|]. destruct Hh as (-> & Hu & _).
      eexists. split; [reflexivity|]. apply Forall_app. split; [done|]. constructor; [cbn; lia|done].
    + apply StronglySorted_app_2; [|done|].
      * intros y z Hy Hz. apply Hu2; [done|]. apply elem_of_cons in Hz as [->|Hz]; [done|]. specialize (Hv2 z Hz). lia.
      * apply StronglySorted_inv in HBs as [HBs _]. apply SSorted_cons; [done|].
        eapply Forall_impl; [exact HBa|]. intros z [Hz1 Hz2]. unfold apart, below, ends, HDR in *. cbn in *. lia.
    + apply Forall_app in Hbd as [Hbd _]. apply Forall_app. split; [done|]. constructor.
      * unfold in_range, ends, HDR in *. cbn in *. lia.
      * eapply Forall_impl; [exact HBr2|]. by intros z (? & _ & ?).
  - split; [done| | | |done].
    + destruct u as [|x u]; [injection Hh as -> ->|destruct Hh as (-> & Hu & _)]; (eexists; split; [reflexivity|]).
      * constructor; [cbn; lia|done].
      * apply Forall_app. split; [done|]. constructor; [|constructor; [cbn; lia|done]].
        by destruct (head_list m _ top ((base, 0) :: u) q t v Hf eq_refl) as [(_ & _ & ?) _].
    + apply StronglySorted_app_2; [|done|].
      * intros y z Hy Hz. apply Hu2; [done|]. apply elem_of_cons in Hz as [->|Hz]; [done|].
        apply elem_of_cons in Hz as [->|Hz]; [done|]. specialize (Hv2 z Hz). lia.
      * apply SSorted_cons; [done|]. apply Forall_cons. split; [by split|].
        rewrite Forall_forall. intros z Hz. specialize (Hv2 z Hz). unfold apart, below, ends, HDR in *. cbn in *. lia.
    + apply Forall_app in Hbd as [Hbd Hbd2]. apply Forall_app. split; [done|].
      apply Forall_cons in Hbd2 as [Hbd2 _]. constructor; [done|]. constructor.
      * unfold in_range, ends, HDR in *. cbn in *. lia.
      * eapply Forall_impl; [exact HBr2|]. by intros z (? & _ & ?).
Qed.

(** ** Taking a block *)

Lemma take_ok h l1 q t a s l2 nunits top : 0 < base -> 1 <= nunits <= s ->
  free_list (um h) (l1 ++ (q, t) :: (a, s) :: l2) top ->
  let b := (a + HDR * (s - nunits), nunits) in
  let ns' := l1 ++ (q, t) :: (if s =? nunits then l2 else (a, s - nunits) :: l2) in
  exists m', take_block nunits q a h = (b.1 + HDR, MkUHeap m' q (os h)) /\
    free_list m' ns' top /\ hdr_size m' b.1 = nunits /\
    (forall x, (x < a \/ ends (a, s) <= x) -> x < q \/ q + HDR <= x -> m' x = um h x).
Proof.
  intros Hbase Hn Hf b ns'.
  pose proof (in_range_nodes _ _ top Hbase Hf) as Hr. pose proof Hf as [Hc _ Hs Hbd Htop].
  assert (l1 ++ (q, t) :: (a, s) :: l2 = (l1 ++ [(q, t)]) ++ (a, s) :: l2) as E by (by rewrite <- app_assoc).
  destruct (head_list _ _ top l1 q t ((a, s) :: l2) Hf eq_refl) as [Hh Hp]. pose proof Hp as [Hs1 Hp2]%Forall_cons.
  pose proof Hs as Hsq. apply sorted_mid in Hsq as [Hsu Hsv]. apply Forall_cons in Hsv as [Hqa Hsv].
  pose proof Hs as Hs'. rewrite E in Hs'. pose proof (sorted_mid _ _ _ Hs') as [Hs'a Hs'v].
  rewrite E in Hc. pose proof (chain_node _ _ _ _ _ _ Hc) as [Hna Hsa].
  apply chain_app in Hc as [Hcu Hca]. cbn [chain] in Hca. destruct Hca as (_ & _ & Hcv).
  apply Forall_app in Hr as [Hru Hr]. apply Forall_cons in Hr as [Hrq Hr]. apply Forall_cons in Hr as [Hra Hrv].
  pose proof Hqa as [Hqa1 Hqa2]. unfold below, in_range, ends, HDR in Hqa1, Hrq, Hra. cbn in Hqa1, Hqa2, Hrq, Hra, Hs1.
  unfold take_block. rewrite Hsa. unfold ns', b. cbn [fst].
  destruct (Z.eqb_spec s nunits) as [->|Hne].
  - eexists. split; [rewrite Z.sub_diag, Z.mul_0_r, Z.add_0_r; reflexivity|].
    apply StronglySorted_app in Hs as (HsA & HsB & HsC). apply StronglySorted_inv in HsC as [HsC HsD].
    apply StronglySorted_inv in HsC as [HsC _]. apply Forall_cons in HsD as [_ HsD].
    split; [|split].
    + split; [| | | |done].
      * rewrite Hna. apply chain_app. pose proof (chain_node _ _ _ _ _ _ Hcu) as [_ Hqs].
        pose proof (proj1 (chain_app _ _ _ _ _ _) Hcu) as [Hcu1 _].
        split; [apply chain_set_ptr; [|done]; by apply (Forall_off_above (q, t)), apart_above|].
        assert (0 <= head_or l2 base < 2 ^ 64) as Hnx.
        { unfold head_or. destruct l2 as [|[c tc] l2]; [|apply Forall_cons in Hrv as [Hrv _]; unfold in_range, ends, HDR in Hrv; cbn in Hrv; lia].
          destruct l1 as [|x l1]; [injection Hh as -> ->; lia|]. destruct Hh as [-> _].
          apply Forall_cons in Hru as [Hru _]. unfold in_range, ends, HDR in Hru. cbn in Hru. lia. }
        cbn [chain]. rewrite ptr_set_ptr, size_set_ptr, Z.eqb_refl by lia.
        split; [done|]. split; [done|]. apply chain_set_ptr; [|done].
        apply (Forall_off_below (q, t)). by apply apart_below.
      * destruct l1 as [|x l1]; [injection Hh as -> ->; eexists; split; [reflexivity|]; done|].
        destruct Hh as (-> & Hh1 & Hh2). eexists. split; [reflexivity|]. apply Forall_app. split; [done|]. by constructor.
      * apply StronglySorted_app_2; [|done|by apply SSorted_cons].
        intros y z Hy Hz. apply HsA; [done|]. set_solver.
      * apply Forall_app in Hbd as [? Hbd]. apply Forall_cons in Hbd as [? Hbd]. apply Forall_cons in Hbd as [_ ?].
        apply Forall_app. split; [done|]. by constructor.
    + rewrite Z.sub_diag, Z.mul_0_r, Z.add_0_r, size_set_ptr by (unfold HDR; lia). done.
    + intros x _ Hx. unfold set_ptr, store64, HDR in *. apply store_le_out. lia.
  - rewrite (wrap_small 64 (s - nunits)) by lia.
    rewrite size_set_size, Z.eqb_refl by lia. rewrite hdr_add_small by (unfold HDR; lia).
    eexists. split; [reflexivity|].
    assert (forall y, y ∈ l1 ++ [(q, t)] -> ends y <= a) as Hu.
    { intros y Hy. rewrite Forall_forall in Hs'a. by destruct (Hs'a y Hy). }
    assert (Forall (off a) (l1 ++ [(q, t)]) /\ Forall (off (a + HDR * (s - nunits))) (l1 ++ [(q, t)])) as [Ho1 Ho2].
    { split; apply Forall_forall; intros y Hy; specialize (Hu y Hy); pose proof (ends_ge y); unfold off, HDR in *; lia. }
    assert (Forall (off a) l2 /\ Forall (off (a + HDR * (s - nunits))) l2) as [Ho3 Ho4].
    { split; (eapply Forall_impl; [exact Hs'v|]); intros y [Hy _]; unfold off, below, ends, HDR in *; cbn in Hy; lia. }
    split; [|split].
    + split; [| | | |done].
      * change (l1 ++ (q, t) :: (a, s - nunits) :: l2) with (l1 ++ [(q, t)] ++ (a, s - nunits) :: l2).
        rewrite app_assoc. apply chain_app. split; [by apply chain_set_size, chain_set_size|].
        cbn [chain]. rewrite !ptr_set_size, !size_set_size, Z.eqb_refl by (unfold HDR; lia).
        destruct (Z.eqb_spec (a + HDR * (s - nunits)) a); [unfold HDR in *; lia|]. split; [done|]. split; [done|].
        by apply chain_set_size, chain_set_size.
      * destruct l1 as [|x l1]; [injection Hh as -> ->; eexists; split; [reflexivity|]; constructor; [cbn; lia|done]|].
        destruct Hh as (-> & Hh1 & Hh2). eexists. split; [reflexivity|]. apply Forall_app. split; [done|].
        constructor; [done|]. constructor; [cbn; lia|done].
      * change (l1 ++ (q, t) :: (a, s - nunits) :: l2) with (l1 ++ [(q, t)] ++ (a, s - nunits) :: l2).
        rewrite app_assoc. apply StronglySorted_app in Hs' as (HsA & HsB & HsC). apply StronglySorted_inv in HsC as [HsC HsD].
        apply StronglySorted_app_2; [|done|].
        -- intros y z Hy Hz. apply elem_of_cons in Hz as [->|Hz]; [|apply HsA; [done|set_solver]].
           destruct (HsA y (a, s) Hy ltac:(set_solver)) as [H1 H2]. by split.
        -- apply SSorted_cons; [done|]. eapply Forall_impl; [exact HsD|]. intros z [Hz1 Hz2].
           unfold apart, below, ends, HDR in *. cbn in *. lia.
      * apply Forall_app in Hbd as [? Hbd]. apply Forall_cons in Hbd as [? Hbd]. apply Forall_cons in Hbd as [Hba ?].
        apply Forall_app. split; [done|]. constructor; [done|]. constructor; [|done].
        unfold ends, HDR in *. cbn in *. lia.
    + rewrite size_set_size, Z.eqb_refl by lia. done.
    + intros x Hx _. unfold set_size, store64. rewrite !store_le_out; [done|..]; unfold ends, HDR in *; cbn in Hx; lia.
Qed.

(** ** Scanning *)

Definition last_addr (q : Z) (seg : list (Z * Z)) : Z := default q (fst <$> last seg).

(** What [malloc_loop] does at [p = freep] when that block is too small. *)
Definition more_branch (fuel : nat) (nunits : Z) (h : uheap) : outcome (Z * uheap) :=
  '(p, h) ← morecore fuel nunits h;
  if p =? 0 then Ret (0, h) else malloc_loop fuel nunits p (hdr_ptr (um h) p) h.

(** A block is found: the node [(a, s)] behind [(q, t)]. *)
Definition finds (h : uheap) (ns : list (Z * Z)) (nunits : Z) (r : outcome (Z * uheap)) : Prop :=
  exists l1 q t a s l2, ns = l1 ++ (q, t) :: (a, s) :: l2 /\ nunits <= s /\ r = Ret (take_block nunits q a h).

Lemma scan_segment h ns top nunits seg pre q t post : free_list (um h) ns top ->
  ns = pre ++ (q, t) :: seg ++ post -> Forall (fun x => x.1 <> freep h) seg ->
  (forall fuel, finds h ns nunits
     (malloc_loop (length seg + fuel) nunits q (head_or (seg ++ post) base) h)) \/
  (Forall (fun x => x.2 < nunits) seg /\
   exists pre' q' t', ns = pre' ++ (q', t') :: post /\ (seg = [] -> pre' = pre /\ q' = q) /\
   forall fuel, malloc_loop (length seg + fuel) nunits q (head_or (seg ++ post) base) h =
                malloc_loop fuel nunits q' (head_or post base) h).
Proof.
  intros Hf. revert pre q t. induction seg as [|[a s] seg IH]; intros pre q t Hns Hne.
  - right. split; [constructor|]. by exists pre, q, t.
  - apply Forall_cons in Hne as [Ha Hne]. cbn in Ha.
    assert (ns = (pre ++ [(q, t)]) ++ (a, s) :: (seg ++ post)) as Hns' by (rewrite Hns, <- app_assoc; done).
    pose proof (fl_chain _ _ _ Hf) as Hc. rewrite Hns' in Hc. apply chain_node in Hc as [Hna Hsa].
    destruct (Z.leb_spec nunits s) as [Hle|Hlt].
    + left. intros fuel. exists pre, q, t, a, s, (seg ++ post). split; [done|]. split; [done|].
      cbn [length Nat.add app head_or malloc_loop]. rewrite Hsa. by destruct (Z.leb_spec nunits s); [|lia].
    + destruct (IH (pre ++ [(q, t)]) a s Hns' Hne) as [Hfind|(Hall & pre' & q' & t' & E & _ & Hgo)].
      * left. intros fuel. cbn [length Nat.add app head_or malloc_loop]. rewrite Hsa, Hna.
        destruct (Z.leb_spec nunits s); [lia|]. destruct (Z.eqb_spec a (freep h)); [done|]. apply Hfind.
      * right. split; [by constructor|]. exists pre', q', t'. split; [done|]. split; [done|]. intros fuel.
        cbn [length Nat.add app head_or malloc_loop]. rewrite Hsa, Hna.
        destruct (Z.leb_spec nunits s); [lia|]. destruct (Z.eqb_spec a (freep h)); [done|]. apply Hgo.
Qed.

Lemma addr_ne ns m top l1 p s l2 : free_list m ns top -> ns = l1 ++ (p, s) :: l2 ->
  Forall (fun x => x.1 <> p) l1 /\ Forall (fun x => x.1 <> p) l2.
Proof.
  intros Hf ->. pose proof (sorted_mid _ _ _ (fl_sorted _ _ _ Hf)) as [H1 H2].
  split; eapply Forall_impl; [exact H1| |exact H2|]; intros y [Hy _]; unfold below, ends, HDR in Hy; cbn in Hy; lia.
Qed.

(** One round from [freep]: a block is found, or all are too small and the
    loop asks for more. *)
Lemma scan_round h ns top nunits l1 s l2 : free_list (um h) ns top -> ns = l1 ++ (freep h, s) :: l2 ->
  1 <= nunits ->
  (forall fuel, finds h ns nunits
     (malloc_loop (length ns + fuel) nunits (freep h) (hdr_ptr (um h) (freep h)) h)) \/
  (Forall (fun x => x.2 < nunits) ns /\ forall fuel,
     malloc_loop (length ns + fuel) nunits (freep h) (hdr_ptr (um h) (freep h)) h =
     more_branch fuel nunits h).
Proof.
  intros Hf Hns Hn. destruct (addr_ne _ _ _ _ _ _ _ Hf Hns) as [Hne1 Hne2].
  pose proof (fl_chain _ _ _ Hf) as Hc. rewrite Hns in Hc. apply chain_node in Hc as [-> Hsf].
  assert (ns = l1 ++ (freep h, s) :: l2 ++ []) as Hns0 by (by rewrite app_nil_r).
  assert (head_or l2 base = head_or (l2 ++ []) base) as -> by (by rewrite app_nil_r).
  destruct (scan_segment h ns top nunits l2 l1 (freep h) s [] Hf Hns0 Hne2)
    as [Hfind|(Hall2 & pre' & q' & t' & E & _ & Hgo)].
  { left. intros fuel. rewrite Hns, length_app. cbn [length].
    replace (length l1 + S (length l2) + fuel)%nat with (length l2 + (S (length l1) + fuel))%nat by lia.
    rewrite <- Hns. apply Hfind. }
  assert (forall fuel, malloc_loop (length ns + fuel) nunits (freep h) (head_or (l2 ++ []) base) h =
    malloc_loop (S (length l1) + fuel) nunits q' base h) as Hgo'.
  { intros fuel. rewrite Hns, length_app. cbn [length].
    replace (length l1 + S (length l2) + fuel)%nat with (length l2 + (S (length l1) + fuel))%nat by lia.
    apply Hgo. }
  destruct (fl_head _ _ _ Hf) as (r & Hr & Hpos).
  destruct l1 as [|x l1].
  - (* freep is base *)
    pose proof Hns as Hns2. rewrite Hr in Hns2. cbn in Hns2. injection Hns2 as Hb0 Hs0 Hl2.
    right. split; [rewrite Hr, Hl2; constructor; [cbn; lia|done]|]. intros fuel. rewrite Hgo'.
    cbn [length Nat.add malloc_loop]. rewrite Hb0, Hsf, <- Hs0. destruct (Z.leb_spec nunits 0); [lia|]. by rewrite Z.eqb_refl.
  - rewrite Hr in Hns. cbn in Hns. injection Hns as <- Hr'. apply Forall_cons in Hne1 as [Hb Hne1]. cbn in Hb.
    assert (ns = [] ++ (base, 0) :: l1 ++ (freep h, s) :: l2) as Hns1 by (by rewrite Hr, Hr').
    pose proof (fl_chain _ _ _ Hf) as Hc. rewrite Hns1 in Hc. apply chain_node in Hc as [Hnb Hsb].
    assert (forall fuel, malloc_loop (S (length l1) + S fuel) nunits q' base h =
      malloc_loop (length l1 + S fuel) nunits base (head_or (l1 ++ (freep h, s) :: l2) base) h) as Hgo2.
    { intros fuel. cbn [Nat.add malloc_loop]. rewrite Hsb, Hnb. destruct (Z.leb_spec nunits 0); [lia|].
      destruct (Z.eqb_spec base (freep h)); [done|]. done. }
    assert (forall fuel, malloc_loop (length ns + fuel) nunits (freep h) (head_or (l2 ++ []) base) h =
      malloc_loop (length l1 + S fuel) nunits base (head_or (l1 ++ (freep h, s) :: l2) base) h) as Hgo4.
    { intros fuel. rewrite Hgo'. cbn [length].
      replace (S (S (length l1)) + fuel)%nat with (S (length l1) + S fuel)%nat by lia. apply Hgo2. }
    destruct (scan_segment h ns top nunits l1 [] base 0 ((freep h, s) :: l2) Hf Hns1 Hne1)
      as [Hfind|(Hall1 & pre2 & q2 & t2 & E2 & _ & Hgo3)].
    + left. intros fuel. rewrite Hgo4. apply Hfind.
    + destruct (Z.leb_spec nunits s) as [Hle|Hlt].
      * left. intros fuel. rewrite Hgo4, Hgo3.
        exists pre2, q2, t2, (freep h), s, l2. split; [done|]. split; [done|].
        cbn [head_or malloc_loop]. rewrite Hsf. by destruct (Z.leb_spec nunits s); [|lia].
      * right. split.
        { rewrite Hns1. constructor; [cbn; lia|]. apply Forall_app. split; [done|]. by constructor. }
        intros fuel. rewrite Hgo4, Hgo3. cbn [head_or malloc_loop]. rewrite Hsf.
        destruct (Z.leb_spec nunits s); [lia|]. by rewrite Z.eqb_refl.
Qed.

(** ** The heap *)

Definition disj (x y : Z * Z) : Prop := below x y \/ below y x.
Definition units (l : list (Z * Z)) : Z := foldr Z.add 0 (snd <$> l).

(** A heap with the free list [ns] and the allocated blocks [A]. *)
Record heap_inv (h : uheap) (ns A : list (Z * Z)) : Prop := {
  hi_free : free_list (um h) ns (brk_top (os h));
  hi_freep : exists s, (freep h, s) ∈ ns;
  hi_alloc : Forall (fun x => 1 <= x.2 /\ hdr_size (um h) x.1 = x.2 /\ base < x.1 /\
    ends x <= brk_top (os h) /\ Forall (disj x) ns) A;
  hi_disj : StronglySorted disj A
}.

Lemma units_app l1 l2 : units (l1 ++ l2) = units l1 + units l2.
Proof. unfold units. induction l1 as [|x l1 IH]; cbn [app fmap list_fmap foldr]; [done|]. cbn in *. lia. Qed.
Lemma units_cons x l : units (x :: l) = x.2 + units l.
Proof. done. Qed.

Lemma merge_above_frame m q bp x : x < bp \/ bp + HDR <= x -> merge_above m q bp x = m x.
Proof.
  unfold merge_above, set_ptr, set_size, store64, HDR. intros Hx.
  destruct (_ =? _); rewrite ?store_le_out by lia; done.
Qed.
Lemma merge_below_frame m q bp x : x < q \/ q + HDR <= x -> merge_below m q bp x = m x.
Proof.
  unfold merge_below, set_ptr, set_size, store64, HDR. intros Hx.
  destruct (_ =? _); rewrite ?store_le_out by lia; done.
Qed.

Ltac block_in y :=
  exists y; split; [apply elem_of_app; right; rewrite !elem_of_cons; tauto|cbn; lia].

(** The blocks of the new list are made of the old ones and the new block. *)
Lemma insert_block_facts u q t bp n v x : 1 <= n -> 0 <= t -> Forall (fun y => 0 <= y.2) v ->
  units (insert_block u (q, t) (bp, n) v) = units (u ++ (q, t) :: v) + n /\
  (length (insert_block u (q, t) (bp, n) v) <= S (length (u ++ (q, t) :: v)))%nat /\
  (exists s, (q, s) ∈ insert_block u (q, t) (bp, n) v) /\
  (exists y, y ∈ insert_block u (q, t) (bp, n) v /\ n <= y.2) /\
  (1 <= x.2 -> Forall (disj x) (u ++ (q, t) :: v) -> disj x (bp, n) -> Forall (disj x) (insert_block u (q, t) (bp, n) v)).
Proof.
  intros Hn Ht Hv. unfold insert_block, absorb.
  destruct v as [|[b tb] v]; [|pose proof Hv as [Hb _]%Forall_cons; cbn in Hb; destruct (Z.eqb_spec ((bp, n).1 + HDR * (bp, n).2) b)];
    destruct (Z.eqb_spec ((q, t).1 + HDR * (q, t).2) (bp, n).1); cbn [fst snd] in *; subst;
    rewrite ?units_app, ?units_cons, ?length_app; cbn [fst snd length];
    (split; [lia|]); (split; [lia|]);
    (split; [eexists; apply elem_of_app; right; apply elem_of_cons; left; reflexivity|]);
    (split; [first [ block_in (q, t + (n + tb)) | block_in (q, t + n) | block_in (bp, n + tb) | block_in (bp, n) ]|]);
    intros Hx Hall Hxb; rewrite !Forall_app, !Forall_cons in *; unfold disj, below, ends, HDR in *; cbn [fst snd] in *;
    intuition lia.
Qed.

Lemma free_block h ns bp n fuel : 0 < base -> free_list (um h) ns (brk_top (os h)) -> (exists s, (freep h, s) ∈ ns) ->
  base < bp -> 1 <= n -> hdr_size (um h) bp = n -> ends (bp, n) <= brk_top (os h) -> Forall (disj (bp, n)) ns ->
  (2 * length ns < fuel)%nat ->
  exists m' q ns', free fuel (bp + HDR) h = Ret (MkUHeap m' q (os h)) /\
    free_list m' ns' (brk_top (os h)) /\ (exists s, (q, s) ∈ ns') /\
    units ns' = units ns + n /\ (length ns' <= S (length ns))%nat /\
    (exists y, y ∈ ns' /\ n <= y.2) /\
    (forall x, 1 <= x.2 -> Forall (disj x) ns -> disj x (bp, n) -> Forall (disj x) ns') /\
    (forall a, Forall (fun y => a < y.1 \/ ends y <= a) ns -> a < bp \/ ends (bp, n) <= a -> m' a = um h a).
Proof.
  intros Hbase Hf [s Hin] Hbp Hn Hsz Hend Hd Hfuel.
  apply list_elem_of_split in Hin as (l1 & l2 & Hns).
  assert (Forall (fun y => y.1 <> bp) ns) as Hne.
  { eapply Forall_impl; [exact Hd|]. intros y. unfold disj, below, ends, HDR. cbn. lia. }
  assert (length l2 + length ns < fuel)%nat as Hfu by (subst ns; rewrite length_app in *; cbn in *; lia).
  destruct (slot_ok _ _ _ bp l1 (freep h) s l2 fuel Hf Hns Hbp Hne Hfu) as (u & q & t & v & E & Hq & Hv & Hslot).
  pose proof Hf as Hf'. rewrite E in Hf'. pose proof Hd as Hd'. rewrite E in Hd'.
  pose proof (in_range_nodes _ _ _ Hbase Hf') as Hr. apply Forall_app in Hr as [_ Hr]. apply Forall_cons in Hr as [Hrq Hr].
  apply Forall_app in Hd' as [Hd1 Hd2]. apply Forall_cons in Hd2 as [Hdq Hdv].
  assert (gap (q, t) (bp, n) v (brk_top (os h))) as Hg.
  { split; [done| | |done].
    - destruct Hdq as [Hdq|Hdq]; [|done]. unfold below, ends, HDR in *. cbn in *. lia.
    - rewrite Forall_forall in *. intros y Hy. destruct (Hdv y Hy) as [Hdy|Hdy]; [done|].
      specialize (Hv y Hy). unfold below, ends, HDR in *. cbn in *. lia. }
  assert (Forall (fun y => 0 <= y.2) v) as Hv0 by (eapply Forall_impl; [exact Hr|]; by intros y (_ & ? & _)).
  assert (0 <= t) as Ht by (unfold in_range in Hrq; cbn in Hrq; lia).
  pose proof (insert_ok _ u q t v bp n _ (conj Hbase Hbp) Hf' Hg Hsz) as Hnew.
  exists (merge_below (merge_above (um h) q bp) q bp), q, (insert_block u (q, t) (bp, n) v).
  split; [|split; [done|]].
  { unfold free. destruct (Z.eqb_spec (bp + HDR) 0); [unfold HDR in *; lia|].
    replace (bp + HDR - HDR) with bp by lia. rewrite Hslot. done. }
  pose proof (fun x => insert_block_facts u q t bp n v x Hn Ht Hv0) as Hfacts. rewrite <- E in Hfacts.
  destruct (Hfacts (0, 0)) as (H1 & H2 & H3 & H4 & _).
  split; [done|]. split; [done|]. split; [done|]. split; [done|]. split; [intros x Hx1 Hx2 Hx3; by apply Hfacts|].
  intros a Ha Hab. rewrite E in Ha. apply Forall_app in Ha as [_ Ha]. apply Forall_cons in Ha as [Haq _].
  rewrite merge_below_frame, merge_above_frame; [done| |]; unfold ends, HDR in *; cbn in *; lia.
Qed.

Lemma disj_sym x y : disj x y -> disj y x.
Proof. unfold disj. tauto. Qed.

(** An address inside of an allocated block is in no free one. *)
Lemma disj_outside x y a : disj x y -> x.1 <= a < ends x -> a < y.1 \/ ends y <= a.
Proof. unfold disj, below, ends. lia. Qed.
Lemma hdr_size_ext m m' p : (forall a, p <= a < p + HDR -> m' a = m a) -> hdr_size m' p = hdr_size m p.
Proof. unfold hdr_size, load64, HDR. intros Hm. apply load_le_ext. intros. apply Hm. lia. Qed.

Lemma sorted_disj_remove A1 x A2 : StronglySorted disj (A1 ++ x :: A2) ->
  StronglySorted disj (A1 ++ A2) /\ Forall (disj x) (A1 ++ A2).
Proof.
  intros Hs. apply StronglySorted_app in Hs as (H1 & H2 & H3). apply StronglySorted_inv in H3 as [H3 H4]. split.
  - apply StronglySorted_app_2; [|done|done]. intros y z Hy Hz. apply H1; [done|set_solver].
  - apply Forall_app. split; [|done]. apply Forall_forall. intros y Hy. apply disj_sym, H1; [done|set_solver].
Qed.

(** C20: [free] returns a block to the heap.  For every heap whose free list is
    the circular address-ordered list of disjoint blocks and every allocated
    block, [free] ends, the block is part of the free list again, which stays
    ordered and with no two touching blocks, no unit is lost, and the other
    allocated blocks stay allocated with their contents. *)
Theorem free_correct h ns A1 bp n A2 fuel (Hbase : 0 < base) (Hh : heap_inv h ns (A1 ++ (bp, n) :: A2))
    (Hfuel : (2 * length ns < fuel)%nat) :
  exists h' ns', free fuel (bp + HDR) h = Ret h' /\ heap_inv h' ns' (A1 ++ A2) /\ os h' = os h /\
    units ns' = units ns + n /\
    forall x a, x ∈ A1 ++ A2 -> x.1 <= a < ends x -> um h' a = um h a.
Proof.
  destruct Hh as [Hf Hp Ha Hd]. apply sorted_disj_remove in Hd as [Hd Hdb].
  apply Forall_app in Ha as [Ha1 Ha2]. apply Forall_cons in Ha2 as [(Hn & Hsz & Hb & He & Hdn) Ha2].
  destruct (free_block h ns bp n fuel Hbase Hf Hp Hb Hn Hsz He Hdn Hfuel)
    as (m' & q & ns' & Hrun & Hf' & Hq & Hu & Hlen & _ & Hdisj & Hframe).
  assert (forall x, x ∈ A1 ++ A2 -> 1 <= x.2 /\ hdr_size (um h) x.1 = x.2 /\ base < x.1 /\
    ends x <= brk_top (os h) /\ Forall (disj x) ns) as Hall.
  { intros x Hx. apply elem_of_app in Hx. rewrite Forall_forall in Ha1, Ha2. destruct Hx; [by apply Ha1|by apply Ha2]. }
  assert (forall x a, x ∈ A1 ++ A2 -> x.1 <= a < ends x -> m' a = um h a) as Hkeep.
  { intros x a Hx Hxa. destruct (Hall x Hx) as (_ & _ & _ & _ & Hxd). apply Hframe.
    - eapply Forall_impl; [exact Hxd|]. intros y Hy. by apply (disj_outside x y).
    - rewrite Forall_forall in Hdb. apply (disj_outside x (bp, n)); [|done]. by apply disj_sym, Hdb. }
  exists (MkUHeap m' q (os h)), ns'. split; [done|]. split; [|done].
  split; cbn [um os freep]; [done|done| |done].
  apply Forall_forall. intros x Hx. destruct (Hall x Hx) as (H1 & H2 & H3 & H4 & H5).
  split; [done|]. split.
  - rewrite (hdr_size_ext (um h)); [done|]. intros a Hxa. apply (Hkeep x); [done|]. unfold ends, HDR in *. lia.
  - split; [done|]. split; [done|]. apply Hdisj; [done|done|]. rewrite Forall_forall in Hdb. by apply disj_sym, Hdb.
Qed.

Lemma free_list_mono m ns top top' : top <= top' -> top' < 2 ^ 63 -> free_list m ns top -> free_list m ns top'.
Proof.
  intros Hle Ht [H1 H2 H3 H4 H5]. split; try done. eapply Forall_impl; [exact H4|]. intros x [? ?]. lia.
Qed.

(** A fresh block above everything gets its header. *)
Lemma free_list_set_size m ns top p v : top <= p -> free_list m ns top -> free_list (set_size m p v) ns top.
Proof.
  intros Hle [H1 H2 H3 H4 H5]. split; try done. apply chain_set_size; [|done].
  eapply Forall_impl; [exact H4|]. intros x [_ Hx]. pose proof (ends_ge x). unfold off. lia.
Qed.

(** The heap after a block was taken. *)
Lemma take_heap h ns A nunits r : 0 < base -> heap_inv h ns A -> 1 <= nunits -> finds h ns nunits r ->
  exists p h' ns', r = Ret (p, h') /\ p <> 0 /\ heap_inv h' ns' ((p - HDR, nunits) :: A) /\ os h' = os h /\
    units ns' + nunits = units ns /\ (forall x a, x ∈ A -> x.1 <= a < ends x -> um h' a = um h a).
Proof.
  intros Hbase [Hf Hp Ha Hd] Hn (l1 & q & t & a & s & l2 & E & Hs & ->).
  pose proof Hf as Hf'. rewrite E in Hf'.
  destruct (take_ok h l1 q t a s l2 nunits _ Hbase ltac:(lia) Hf') as (m' & Et & Hfree & Hsz & Hframe).
  set (b := (a + HDR * (s - nunits), nunits)) in *.
  set (ns' := l1 ++ (q, t) :: (if s =? nunits then l2 else (a, s - nunits) :: l2)) in *.
  pose proof (in_range_nodes _ _ _ Hbase Hf') as Hr. apply Forall_app in Hr as [_ Hr].
  apply Forall_cons in Hr as [_ Hr]. apply Forall_cons in Hr as [Hra _].
  pose proof (fl_sorted _ _ _ Hf') as Hsrt. pose proof (sorted_mid _ _ _ Hsrt) as [_ Hqa].
  apply Forall_cons in Hqa as [[Hqa _] _].
  assert (base <= q) as Hq by (apply (base_least _ _ _ (q, t) Hf'); set_solver).
  assert (forall x, 1 <= x.2 -> Forall (disj x) ns -> Forall (disj x) ns' /\ disj x b) as Hdisj.
  { intros x Hx Hxn. rewrite E in Hxn. apply Forall_app in Hxn as [Hx1 Hxn]. apply Forall_cons in Hxn as [Hx2 Hxn].
    apply Forall_cons in Hxn as [Hx3 Hx4].
    assert (disj x b /\ (s <> nunits -> disj x (a, s - nunits))) as [Hxb Hxc].
    { unfold b, disj, below, ends, HDR in *. cbn in *. lia. }
    split; [|done]. apply Forall_app. split; [done|]. constructor; [done|].
    destruct (Z.eqb_spec s nunits); [done|]. by constructor; [apply Hxc|]. }
  assert (Forall (disj b) ns') as Hbn.
  { rewrite E in *. clear - Hsrt Hs Hn. unfold ns'.
    assert (forall y, y ∈ l1 ++ [(q, t)] -> below y (a, s)) as Hlo.
    { intros y Hy. apply (StronglySorted_app_1_elem_of apart (l1 ++ [(q, t)]) ((a, s) :: l2));
        [by rewrite <- app_assoc|done|by left]. }
    assert (Forall (below (a, s)) l2) as Hhi.
    { apply apart_below. replace (l1 ++ (q, t) :: (a, s) :: l2) with ((l1 ++ [(q, t)]) ++ (a, s) :: l2) in Hsrt
        by (by rewrite <- app_assoc). by apply sorted_mid in Hsrt as [_ ?]. }
    assert (Forall (disj b) (l1 ++ [(q, t)])) as H1.
    { apply Forall_forall. intros y Hy. right. specialize (Hlo y Hy). unfold b, below, HDR in *. cbn in *. lia. }
    assert (Forall (disj b) l2) as H2.
    { eapply Forall_impl; [exact Hhi|]. intros y Hy. left. unfold b, below, ends, HDR in *. cbn in *. lia. }
    apply Forall_app in H1 as [H1 H1q]. apply Forall_cons in H1q as [H1q _]. apply Forall_app. split; [done|].
    constructor; [done|]. destruct (Z.eqb_spec s nunits); [done|]. constructor; [|done].
    right. unfold b, below, ends, HDR in *. cbn in *. lia. }
  assert (forall x c, x ∈ A -> x.1 <= c < ends x -> m' c = um h c) as Hkeep.
  { intros x c Hx Hc. rewrite Forall_forall in Ha. destruct (Ha x Hx) as (_ & _ & _ & _ & Hxn).
    rewrite E in Hxn. apply Forall_app in Hxn as [_ Hxn]. apply Forall_cons in Hxn as [Hxq Hxn].
    apply Forall_cons in Hxn as [Hxa _]. apply Hframe.
    - apply (disj_outside x (a, s)); [done|done].
    - pose proof (disj_outside x (q, t) c Hxq Hc). unfold ends, HDR in *. cbn in *. lia. }
  unfold below, in_range, ends, HDR in Hqa, Hra. cbn in Hqa, Hra.
  exists (b.1 + HDR), (MkUHeap m' q (os h)), ns'. rewrite Et. split; [done|].
  split; [unfold b, HDR; cbn; lia|]. replace (b.1 + HDR - HDR) with b.1 by lia.
  split; [|split; [done|split; [|done]]].
  - split; cbn [um os freep]; [done| | |].
    + exists t. unfold ns'. set_solver.
    + constructor.
      * change ((b.1, nunits)) with b. split; [exact Hn|]. split; [exact Hsz|].
        split; [unfold b, HDR; cbn; lia|]. split; [unfold b, ends, HDR; cbn; lia|exact Hbn].
      * apply Forall_forall. intros x Hx. rewrite Forall_forall in Ha. pose proof (Ha x Hx) as (H1 & H2 & H3 & H4 & H5).
        split; [done|]. split; [rewrite (hdr_size_ext (um h)); [done|]; intros c Hc; apply (Hkeep x); [done|]; pose proof (ends_ge x); lia|].
        split; [done|]. split; [done|]. by apply Hdisj.
    + apply SSorted_cons; [done|]. apply Forall_forall. intros x Hx. rewrite Forall_forall in Ha.
      pose proof (Ha x Hx) as (H1 & _ & _ & _ & H5). by apply disj_sym, Hdisj.
  - rewrite E. unfold ns'. rewrite !units_app, !units_cons. cbn. destruct (Z.eqb_spec s nunits); [lia|].
    rewrite units_cons. cbn. lia.
Qed.

Context `{!SbrkLaws OS}.

(** Asking for more: either the system refuses, or the list holds a block
    that is large enough. *)
Lemma morecore_ok h ns A nunits fuel : 0 < base -> heap_inv h ns A -> 1 <= nunits < 2 ^ 58 ->
  (2 * length ns < fuel)%nat ->
  (morecore fuel nunits h = Ret (0, h) /\ sbrk (os h) (HDR * Z.max 4096 nunits) = (-1, os h)) \/
  (exists h' ns', morecore fuel nunits h = Ret (freep h', h') /\ heap_inv h' ns' A /\
     (length ns' <= S (length ns))%nat /\ (exists y, y ∈ ns' /\ nunits <= y.2) /\
     (forall x a, x ∈ A -> x.1 <= a < ends x -> um h' a = um h a)).
Proof.
  intros Hbase [Hf Hp Ha Hd] Hn Hfuel. unfold morecore.
  set (nu := if nunits <? 4096 then 4096 else nunits).
  assert (nunits <= nu < 2 ^ 58) as Hnu by (unfold nu; destruct (Z.ltb_spec nunits 4096); lia).
  assert (1 <= nu) as Hnu1 by lia. rewrite wrap_small by (unfold HDR; lia).
  destruct (sbrk (os h) (nu * HDR)) as [p o] eqn:E.
  destruct (sbrk_fresh (os h) (nu * HDR) p o ltac:(unfold HDR; lia) E) as [[-> ->]|(Hlo & Hhi & Htop)].
  { left. split; [by destruct h|]. rewrite <- E. f_equal. unfold nu, HDR.
    destruct (Z.ltb_spec nunits 4096); lia. }
  right. pose proof (fl_bound _ _ _ Hf) as Hbd.
  assert (base + HDR <= brk_top (os h)) as Hbt.
  { destruct (fl_head _ _ _ Hf) as (r & -> & _). apply Forall_cons in Hbd as [[_ Hb] _]. unfold ends, HDR in *. cbn in Hb. lia. }
  destruct (Z.eqb_spec p (-1)); [unfold HDR in *; lia|].
  set (h1 := MkUHeap (set_size (um h) p nu) (freep h) o).
  assert (free_list (um h1) ns (brk_top (os h1))) as Hf1.
  { apply (free_list_mono _ _ (brk_top (os h))); [unfold HDR in *; cbn; lia|done|]. by apply free_list_set_size. }
  assert (forall x, ends x <= brk_top (os h) -> disj x (p, nu)) as Hpd.
  { intros x Hx. left. unfold below. cbn. lia. }
  assert (forall a, a < brk_top (os h) -> um h1 a = um h a) as Hk1.
  { intros a Hlt. cbn [um h1]. unfold set_size, store64. apply store_le_out. lia. }
  destruct (free_block h1 ns p nu fuel Hbase Hf1 Hp ltac:(unfold HDR in *; lia) Hnu1)
    as (m' & q & ns' & Hrun & Hf' & Hq & Hu & Hlen & (y & Hy1 & Hy2) & Hdisj & Hframe).
  - change (hdr_size (set_size (um h) p nu) p = nu). rewrite size_set_size, Z.eqb_refl by (unfold HDR in *; lia). done.
  - cbn. unfold ends, HDR in *. cbn. lia.
  - eapply Forall_impl; [exact Hbd|]. intros x [_ Hx]. by apply disj_sym, Hpd.
  - done.
  - rewrite Hrun. cbn [mbind outcome_bind]. exists (MkUHeap m' q o), ns'. split; [done|].
    rewrite Forall_forall in Ha.
    assert (forall x a, x ∈ A -> x.1 <= a < ends x -> m' a = um h a) as Hkeep.
    { intros x a Hx Hxa. destruct (Ha x Hx) as (_ & _ & _ & Hxe & Hxn). rewrite Hframe, Hk1; [done|lia| |].
      - eapply Forall_impl; [exact Hxn|]. intros z Hz. by apply (disj_outside x z).
      - apply (disj_outside x (p, nu)); [by apply Hpd|done]. }
    split; [|split; [done|split; [exists y; split; [done|lia]|done]]].
    split; cbn [um os freep]; [done|done| |done].
    apply Forall_forall. intros x Hx. destruct (Ha x Hx) as (H1 & H2 & H3 & H4 & H5).
    split; [done|]. split; [rewrite (hdr_size_ext (um h)); [done|]; intros c Hc; apply (Hkeep x); [done|]; pose proof (ends_ge x); lia|].
    split; [done|]. split; [unfold HDR in *; lia|]. apply Hdisj; [done|done|by apply Hpd].
Qed.

(** A heap that may still be unused. *)
Definition heap_ok (h : uheap) (ns A : list (Z * Z)) : Prop :=
  heap_inv h ns A \/
  (freep h = 0 /\ ns = [(base, 0)] /\ A = [] /\ base + HDR <= brk_top (os h) < 2 ^ 63).

Lemma heap_start h : 0 < base -> base + HDR <= brk_top (os h) < 2 ^ 63 ->
  heap_inv (MkUHeap (set_size (set_ptr (um h) base base) base 0) base (os h)) [(base, 0)] [].
Proof.
  intros Hb Ht. unfold HDR in Ht. split; cbn [um os freep]; [|by exists 0; left|constructor|constructor].
  split; [| | | |lia].
  - cbn [chain]. rewrite ptr_set_size, size_set_size, ptr_set_ptr, Z.eqb_refl by (unfold HDR; lia). done.
  - by eexists.
  - repeat constructor.
  - constructor; [unfold ends, HDR; cbn; lia|constructor].
Qed.

(** The units of a block for [nbytes], its header among them. *)
Definition units_for (nbytes : Z) : Z := (nbytes + HDR - 1) / HDR + 1.

Lemma units_for_room nbytes : nbytes <= HDR * (units_for nbytes - 1) < nbytes + HDR.
Proof. unfold units_for, HDR. zify_div. Qed.

(** C19: [malloc] allocates.  For every such heap, or one not used yet, and
    every request below 2^60 bytes, [malloc] ends, with null only if every
    free block is too small and [sbrk] refuses the request for more memory
    (at least 4096 units), and otherwise with a block of as many units as the
    request needs that overlaps neither the free list nor any allocated
    block; in both cases the allocated blocks keep their contents. *)
Theorem malloc_correct h ns A nbytes fuel (Hbase : 0 < base) (Hh : heap_ok h ns A)
    (Hn : 0 <= nbytes < 2 ^ 60) (Hfuel : (4 * length ns + 4 < fuel)%nat) :
  exists r h' ns', malloc fuel nbytes h = Ret (r, h') /\
    (forall x a, x ∈ A -> x.1 <= a < ends x -> um h' a = um h a) /\
    ((r = 0 /\ heap_inv h' ns' A /\ os h' = os h /\ Forall (fun x => x.2 < units_for nbytes) ns /\
      sbrk (os h) (HDR * Z.max 4096 (units_for nbytes)) = (-1, os h)) \/
     (r <> 0 /\ nbytes <= HDR * (units_for nbytes - 1) < nbytes + HDR /\
      heap_inv h' ns' ((r - HDR, units_for nbytes) :: A))).
Proof.
  assert (exists h0, heap_inv h0 ns A /\ os h0 = os h /\
    (forall x a, x ∈ A -> x.1 <= a < ends x -> um h0 a = um h a) /\
    malloc fuel nbytes h = malloc_loop fuel (wrap 64 (nbytes + HDR - 1) / HDR + 1) (freep h0)
      (hdr_ptr (um h0) (freep h0)) h0) as (h0 & Hi & Hos & Hk0 & ->).
  { destruct Hh as [Hi|(Hz & -> & -> & Ht)]; unfold malloc.
    - exists h. split; [done|]. split; [done|]. split; [done|]. destruct (hi_freep _ _ _ Hi) as [s Hs].
      pose proof (base_least _ _ _ _ (hi_free _ _ _ Hi) Hs). cbn in *. by destruct (Z.eqb_spec (freep h) 0); [lia|].
    - rewrite Hz. eexists. split; [by apply heap_start|]. split; [done|]. split; [|done].
      intros x a Hx. by apply not_elem_of_nil in Hx. }
  rewrite wrap_small by (unfold HDR; lia).
  fold (units_for nbytes). set (nunits := units_for nbytes).
  assert (1 <= nunits < 2 ^ 58) as Hnu by (unfold nunits, units_for, HDR; zify_div).
  destruct (hi_freep _ _ _ Hi) as [s (l1 & l2 & Hns)%list_elem_of_split].
  assert (exists f, fuel = length ns + f /\ 2 * length ns < f /\ S (length ns) < f)%nat as (f & -> & Hf1 & Hf2)
    by (exists (fuel - length ns)%nat; lia).
  destruct (scan_round h0 ns _ nunits l1 s l2 (hi_free _ _ _ Hi) Hns ltac:(lia)) as [Hfind|[Hall Hmore]].
  - destruct (take_heap h0 ns A nunits _ Hbase Hi ltac:(lia) (Hfind f)) as (p & h' & ns' & -> & Hp & Hi' & _ & _ & Hk).
    exists p, h', ns'. split; [done|]. split; [intros x a Hx Hxa; rewrite (Hk x a) by done; by apply (Hk0 x)|].
    right. split; [apply Hp|]. split; [apply units_for_room|done].
  - rewrite Hmore. unfold more_branch.
    destruct (morecore_ok h0 ns A nunits f Hbase Hi Hnu Hf1) as [[-> Href]|(h1 & ns1 & -> & Hi1 & Hlen1 & (y & Hy1 & Hy2) & Hk1)];
      cbn [mbind outcome_bind].
    + exists 0, h0, ns. split; [done|]. split; [done|]. left. rewrite <- Hos. done.
    + destruct (hi_freep _ _ _ Hi1) as [s1 Hs1]. pose proof (base_least _ _ _ _ (hi_free _ _ _ Hi1) Hs1) as Hb1. cbn in Hb1.
      apply list_elem_of_split in Hs1 as (l3 & l4 & Hns1).
      destruct (Z.eqb_spec (freep h1) 0); [lia|].
      replace f with (length ns1 + (f - length ns1))%nat by lia.
      destruct (scan_round h1 ns1 _ nunits l3 s1 l4 (hi_free _ _ _ Hi1) Hns1 ltac:(lia)) as [Hfind|[Hall1 _]].
      * destruct (take_heap h1 ns1 A nunits _ Hbase Hi1 ltac:(lia) (Hfind (f - length ns1)%nat))
          as (p & h' & ns' & -> & Hp & Hi' & _ & _ & Hk).
        exists p, h', ns'. split; [done|]. split; [intros x a Hx Hxa; rewrite (Hk x a), (Hk1 x a) by done; by apply (Hk0 x)|].
        right. split; [apply Hp|]. split; [apply units_for_room|done].
      * rewrite Forall_forall in Hall1. specialize (Hall1 y Hy1). cbn in Hall1. lia.
Qed.

(** [realloc] loses data.  The size in a header counts units of sixteen
    bytes, but [realloc] copies that many bytes: growing a block of [n] units
    keeps its first [n] bytes only, whatever it held, and the bytes of the
    new block behind them are what [malloc] left there. *)
Theorem realloc_loses_data h ptr size new_data h1 fuel
    (Hptr : ptr <> 0) (Hm : malloc fuel size h = Ret (new_data, h1)) (Hnew : new_data <> 0)
    (Hu : 0 <= hdr_size (um h) (ptr - HDR) < size)
    (Hkeep : hdr_size (um h1) (ptr - HDR) = hdr_size (um h) (ptr - HDR))
    (Hbytes : bytes_ok (um h1)) (Hdist : new_data < ptr) :
  exists h2, realloc fuel ptr size h = Ret (new_data, h2) /\
    forall i, 0 <= i < size -> um h2 (new_data + i) =
      if i <? hdr_size (um h) (ptr - HDR) then um h1 (ptr + i) else um h1 (new_data + i).
Proof.
  unfold realloc. destruct (Z.eqb_spec ptr 0); [done|]. destruct (Z.eqb_spec size 0); [lia|].
  destruct (Z.eqb_spec size (hdr_size (um h) (ptr - HDR))); [lia|]. rewrite Hm. cbn [mbind outcome_bind].
  destruct (Z.eqb_spec new_data 0); [done|]. rewrite Hkeep.
  destruct (Z.ltb_spec size (hdr_size (um h) (ptr - HDR))); [lia|].
  eexists. split; [reflexivity|]. intros i Hi. cbn [um]. unfold LibcString.memcpy, CLib.memcpy.
  rewrite copy_up_spec by done. rewrite Z2Nat.id by lia.
  destruct (Z.ltb_spec i (hdr_size (um h) (ptr - HDR))).
  - destruct (Z.leb_spec (new_data + 0) (new_data + i)); [|lia].
    destruct (Z.ltb_spec (new_data + i) (new_data + 0 + hdr_size (um h) (ptr - HDR))); [|lia].
    cbn [andb]. f_equal. lia.
  - destruct (Z.ltb_spec (new_data + i) (new_data + 0 + hdr_size (um h) (ptr - HDR))); [lia|].
    by rewrite andb_false_r.
Qed.

End umalloc.

(** ** Witnesses *)

(** A system with memory up to 2^40. *)
#[export] Instance demo_sbrk : Sbrk Z := {
  sbrk o n := if o + n <? 2 ^ 40 then (o, o + n) else (-1, o);
  brk_top o := o
}.
#[export] Instance demo_sbrk_laws : SbrkLaws Z.
Proof.
  split. intros o n p o' Hn. cbn -[Z.pow]. destruct (Z.ltb_spec (o + n) (2 ^ 40)); intros [= <- <-]; [right|by left].
  lia.
Qed.

(** The list [base], a free block of 8 units at 8192, and the allocated
    blocks of 2 units at 16384. *)
Definition demo_mem : mem :=
  set_size (set_size (set_ptr (set_size (set_ptr zeros 4096 8192) 4096 0) 8192 4096) 8192 8) 16384 2.
Definition demo_heap : uheap := MkUHeap demo_mem 4096 1048576.

Lemma demo_heap_inv : heap_inv 4096 demo_heap [(4096, 0); (8192, 8)] [(16384, 2)].
Proof.
  split.
  - split; [repeat split| | | |by vm_compute].
    + eexists. split; [reflexivity|]. repeat constructor. cbn. lia.
    + repeat constructor; unfold below, ends, HDR; cbn; lia.
    + repeat constructor; unfold ends, HDR; cbn; lia.
  - exists 0. by left.
  - constructor; [|constructor]. split; [cbn; lia|]. split; [vm_compute; reflexivity|]. split; [cbn; lia|].
    split; [unfold ends, HDR; cbn; lia|]. constructor; [right|constructor; [right|constructor]];
      unfold below, ends, HDR; cbn; lia.
  - repeat constructor.
Qed.

Lemma free_correct_witness :
  exists h' ns', free 5 16400 demo_heap = Ret h' /\ heap_inv 4096 h' ns' [] /\ units ns' = 10.
Proof.
  destruct (free_correct 4096 demo_heap [(4096, 0); (8192, 8)] [] 16384 2 [] 5 ltac:(lia)
    demo_heap_inv ltac:(cbn; lia)) as (h' & ns' & E & Hi & _ & Hu & _).
  exists h', ns'. split; [exact E|]. split; [exact Hi|exact Hu].
Defined.

Lemma malloc_correct_witness :
  exists r h' ns', malloc 4096 20 100 (MkUHeap zeros 0 1048576) = Ret (r, h') /\ r <> 0 /\
    heap_inv 4096 h' ns' [(r - HDR, 8)].
Proof.
  destruct (malloc_correct 4096 (MkUHeap zeros 0 1048576) [(4096, 0)] [] 100 20 ltac:(lia)
    ltac:(right; split; [reflexivity|split; [reflexivity|split; [reflexivity|unfold HDR; cbn; lia]]]) ltac:(lia) ltac:(cbn; lia))
    as (r & h' & ns' & E & _ & [(_ & _ & _ & _ & HS)|(Hr & _ & Hi)]).
  - exfalso. vm_compute in HS. discriminate HS.
  - exists r, h', ns'. split; [exact E|]. split; [exact Hr|exact Hi].
Defined.

Lemma demo_bytes : bytes_ok (um (take_block 3 4096 8192 demo_heap).2).
Proof.
  change (bytes_ok (set_size (set_size demo_mem 8192 5) 8272 3)).
  repeat apply bytes_ok_store_le. apply bytes_ok_zeros.
Qed.

Lemma demo_malloc : malloc 4096 5 20 demo_heap = Ret (8288, (take_block 3 4096 8192 demo_heap).2).
Proof.
  unfold malloc. change (freep demo_heap =? 0) with false. cbv iota zeta.
  change (wrap 64 (20 + HDR - 1) / HDR + 1) with 3. change (freep demo_heap) with 4096.
  assert (hdr_ptr (um demo_heap) 4096 = 8192) as -> by (vm_compute; reflexivity).
  cbn [malloc_loop].
  assert ((3 <=? hdr_size (um demo_heap) 8192) = true) as -> by (vm_compute; reflexivity).
  assert ((take_block 3 4096 8192 demo_heap).1 = 8288) as <- by (vm_compute; reflexivity).
  by rewrite <- surjective_pairing.
Qed.

Lemma realloc_loses_data_witness :
  exists h2, realloc 4096 5 16400 20 demo_heap = Ret (8288, h2) /\ um h2 (8288 + 2) = 0.
Proof.
  destruct (realloc_loses_data 4096 demo_heap 16400 20 8288 (take_block 3 4096 8192 demo_heap).2 5
    ltac:(lia) demo_malloc ltac:(lia) ltac:(vm_compute; split; congruence) ltac:(vm_compute; reflexivity)
    demo_bytes ltac:(lia))
    as (h2 & E & Hb).
  exists h2. split; [exact E|]. rewrite (Hb 2 ltac:(lia)). vm_compute. reflexivity.
Defined.
