(* ===== verification/Files.v ===== *)
(** * Inodes, open files and devices (kernel/src/fs/fs.c, file.c, device.c,
    and [proc_allocate_fd] of userspace/proc.c)

    The table of 64 inodes counts the references of the descriptors and
    working directories of all processes.  An inode is named by its index in
    the table, a process by its index in [processes].  The file system proper
    is DzFS.v, over any block device [D]; the surroundings [E] of the
    processes (their memory and the devices) are only carried along here and
    used by the system calls of Syscalls.v.

    The spin locks of the table and of the inodes are left out: one call runs
    at a time. *)
From S2P Require Import Prelude Mem DzFS.

(** ** Inodes (fs.h) *)

Definition INODE_EMPTY : Z := 0.
Definition INODE_FILE : Z := 1.
Definition INODE_DIRECTORY : Z := 2.
Definition MAX_INODES : Z := 64.

Record fs_inode := MkInode {
  i_type : Z; i_dnode : Z; i_parent_dnode : Z; i_size : Z; i_reference_count : Z
}.
Definition inode_empty : fs_inode := MkInode INODE_EMPTY 0 0 0 0.
Definition set_refs (n : fs_inode) (c : Z) : fs_inode :=
  MkInode (i_type n) (i_dnode n) (i_parent_dnode n) (i_size n) c.
Definition set_size (n : fs_inode) (sz : Z) : fs_inode :=
  MkInode (i_type n) (i_dnode n) (i_parent_dnode n) sz (i_reference_count n).

(** ** Open files (file.h) *)

Definition MAX_OPEN_FILES : Z := 8.
Definition MAX_PROCESSES : Z := 64.
Definition FD_EMPTY : Z := 0.
Definition FD_INODE : Z := 1.
Definition FD_DEVICE : Z := 2.

(** The union [structures]; zeroed memory is a null [inode]. *)
Inductive structures := U_inode (inode : option Z) | U_device (device : Z).
#[export] Instance structures_eq : EqDecision structures.
Proof. solve_decision. Defined.

Record process_file := MkFile {
  fd_type : Z; fd_structures : structures; fd_offset : Z; readble : bool; writable : bool
}.
Definition file_empty : process_file := MkFile FD_EMPTY (U_inode None) 0 false false.
Definition set_offset (f : process_file) (o : Z) : process_file :=
  MkFile (fd_type f) (fd_structures f) o (readble f) (writable f).

(** What the files of [struct process] need. *)
Record proc_files := MkPF { open_files : list process_file; working_directory : option Z }.

(** Flags of zos/file.h. *)
Definition O_RDONLY : Z := 0.
Definition O_WRONLY : Z := 1.
Definition O_RDWR : Z := 2.
Definition O_CREAT : Z := 64.
Definition O_TRUNC : Z := 512.
Definition O_APPEND : Z := 1024.
Definition O_DEVICE : Z := 2048.
Definition O_DIR : Z := 4096.
Definition SEEK_SET : Z := 0.
Definition SEEK_CUR : Z := 1.
Definition SEEK_END : Z := 2.
Definition DT_DIR : Z := 1.
Definition DT_FILE : Z := 2.

(** [struct dirent]: the offsets of its fields and its size. *)
Definition de_creation_date : Z := 0.
Definition de_size : Z := 8.
Definition de_type : Z := 12.
Definition de_name : Z := 13.
Definition dirent_size : Z := 16.

(** ** State *)

Section files.
Context {D : Type} `{BlockDevice D} {E : Type}.

Record kstate := MkK {
  main_filesystem : dzFS; inodes : list fs_inode; disk : D;
  processes : list (option proc_files); running : option Z; env : E
}.

Definition set_inodes (s : kstate) (l : list fs_inode) : kstate :=
  MkK (main_filesystem s) l (disk s) (processes s) (running s) (env s).
Definition set_disk (s : kstate) (d : D) : kstate :=
  MkK (main_filesystem s) (inodes s) d (processes s) (running s) (env s).
Definition set_processes (s : kstate) (l : list (option proc_files)) : kstate :=
  MkK (main_filesystem s) (inodes s) (disk s) l (running s) (env s).
Definition set_fs (s : kstate) (fs : dzFS) : kstate :=
  MkK fs (inodes s) (disk s) (processes s) (running s) (env s).
Definition set_env (s : kstate) (e : E) : kstate :=
  MkK (main_filesystem s) (inodes s) (disk s) (processes s) (running s) e.

(** A call of dzfs.c on the disk: its error or its result. *)
Definition fsio {A} (m : io (D := D) A) : ST kstate (Z + A) := fun s =>
  match m (disk s) with
  | Ret (r, d) => Ret (r, set_disk s d)
  | Panic msg => Panic msg
  | Undef => Undef
  | NoFuel => NoFuel
  end.
Definition the_fs : ST kstate dzFS := reads main_filesystem.

(** Access through a [struct fs_inode *]; a null pointer is [None]. *)
Definition get_inode (p : option Z) : ST kstate fs_inode :=
  l ← reads inodes;
  match p ≫= zget l with Some n => mret n | None => st_undef end.
Definition put_inode (i : Z) (n : fs_inode) : ST kstate unit :=
  st_modify (fun s => set_inodes s (zset (inodes s) i n)).

(** [my_process()]. *)
Definition my_process : ST kstate (option Z) := reads running.
Definition get_files (p : option Z) : ST kstate proc_files :=
  l ← reads processes;
  match p ≫= zget l with Some (Some x) => mret x | _ => st_undef end.
Definition put_files (p : option Z) (x : proc_files) : ST kstate unit :=
  st_modify (fun s => match p with
                      | Some i => set_processes s (zset (processes s) i (Some x))
                      | None => s
                      end).
(** [p->open_files[fd]] of the running process; an index outside of the
    array is [Undef]. *)
Definition get_fd (p : option Z) (fd : Z) : ST kstate process_file :=
  x ← get_files p;
  match zget (open_files x) fd with Some f => mret f | None => st_undef end.
Definition put_fd (p : option Z) (fd : Z) (f : process_file) : ST kstate unit :=
  x ← get_files p; put_files p (MkPF (zset (open_files x) fd f) (working_directory x)).
Definition the_inode (f : process_file) : ST kstate (option Z) :=
  match fd_structures f with U_inode p => mret p | U_device _ => st_undef end.

(** ** fs.c *)

(** The loop of [fs_open] over the table: the inode of [dnode], and the last
    free inode before it. *)
Fixpoint scan_inodes (l : list fs_inode) (i dnode : Z) (free_inode : option Z)
    : option Z * option Z :=
  match l with
  | [] => (None, free_inode)
  | n :: l' =>
      if i_type n =? INODE_EMPTY then scan_inodes l' (i + 1) dnode (Some i)
      else if i_dnode n =? dnode then (Some i, free_inode)
      else scan_inodes l' (i + 1) dnode free_inode
  end.

Definition fs_dup (inode : option Z) : ST kstate unit :=
  n ← get_inode inode;
  put_inode (default 0 inode) (set_refs n (wrap 32 (i_reference_count n + 1))).

(** A free inode is filled in for [dnode]. *)
Definition fill_inode (i dnode parent : Z) : ST kstate (option Z) :=
  old ← get_inode (Some i);
  r ← fsio (dzfs_stat dnode);
  match r with
  | inl _ => st_panic "fs_open stat failed"
  | inr stat =>
      if st_type stat =? DZFS_ENTITY_FILE then
        _ ← put_inode i (MkInode INODE_FILE dnode parent (st_size stat) 1); mret (Some i)
      else if st_type stat =? DZFS_ENTITY_FOLDER then
        _ ← put_inode i (MkInode INODE_DIRECTORY dnode parent (st_size stat) 1); mret (Some i)
      else st_panic "open: invalid dnode type"
  end.

Definition fs_open (path : list Z) (relative_to : option Z) (flags : Z) : ST kstate (option Z) :=
  fs ← the_fs;
  rel ← match relative_to with
        | None => mret (root_dnode fs)
        | Some _ => n ← get_inode relative_to; mret (i_dnode n)
        end;
  r ← fsio (dzfs_open_relative fs path rel flags);
  match r with
  | inl _ => mret None
  | inr (dnode, parent) =>
      l ← reads inodes;
      match scan_inodes l 0 dnode None with
      | (Some i, _) => _ ← fs_dup (Some i); mret (Some i)
      | (None, Some i) => fill_inode i dnode parent
      | (None, None) => mret None
      end
  end.

Definition fs_close (inode : option Z) : ST kstate unit :=
  n ← get_inode inode;
  let c := wrap 32 (i_reference_count n - 1) in
  if c =? 0 then put_inode (default 0 inode) inode_empty
  else put_inode (default 0 inode) (set_refs n c).

Definition fs_write (inode : option Z) (buffer : list Z) (offset : Z) : ST kstate Z :=
  let len := zlen buffer in
  fs ← the_fs;
  n ← get_inode inode;
  r ← fsio (dzfs_write fs (i_dnode n) buffer offset);
  match r with
  | inl _ => mret (-1)
  | inr _ =>
      _ ← (if i_size n <? wrap 64 (offset + len)
           then put_inode (default 0 inode) (set_size n (wrap 32 (offset + len)))
           else mret tt);
      mret (sgn 32 len)
  end.

(** [fs_read]: the result and the bytes put into the buffer. *)
Definition fs_read (inode : option Z) (len offset : Z) : ST kstate (Z * list Z) :=
  fs ← the_fs;
  n ← get_inode inode;
  r ← fsio (dzfs_read fs (i_dnode n) len offset);
  match r with
  | inl _ => mret (-1, [])
  | inr l => mret (sgn 32 (zlen l), l)
  end.

Definition fs_rename (old_path new_path : list Z) (relative_to : option Z) : ST kstate Z :=
  st_panic "NOT IMPLEMENTED".

Definition fs_delete (path : list Z) (relative_to : option Z) : ST kstate Z :=
  fs ← the_fs;
  n ← get_inode relative_to;
  r ← fsio (dzfs_open_relative fs path (i_dnode n) 0);
  match r with
  | inl _ => mret (-1)
  | inr (dnode, parent_dnode) =>
      r ← fsio (dzfs_delete fs dnode parent_dnode);
      match r with inl _ => mret (-1) | inr _ => mret 0 end
  end.

Definition fs_mkdir (directory : list Z) (relative_to : option Z) : ST kstate Z :=
  fs ← the_fs;
  n ← get_inode relative_to;
  r ← fsio (dzfs_open_relative fs directory (i_dnode n) (Z.lor DZFS_O_CREATE DZFS_O_DIR));
  match r with inl _ => mret (-1) | inr _ => mret 0 end.

(** [strlen] of a name: its characters before the terminator. *)
Fixpoint name_chars (l : list Z) : option (list Z) :=
  match l with
  | [] => None
  | c :: l' => if c =? 0 then Some [] else cons c <$> name_chars l'
  end.

(** The record of one entry at [d]. *)
Definition put_dirent (buffer : mem) (d : Z) (type : Z) (stat : dzFSStat) (name : list Z) : mem :=
  let b := store8 buffer (d + de_type) type in
  let b := store64 b (d + de_creation_date) (st_creation_date stat) in
  let b := store32 b (d + de_size) (st_size stat) in
  store_list b (d + de_name) (name ++ [0]).

(** The loop of [fs_readdir]; [d] is the address [buffer] has moved to. *)
Fixpoint readdir_loop (fuel : nat) (dnode : Z) (buffer : mem) (d len offset read_directories : Z)
    : ST kstate (Z * mem) :=
  match fuel with
  | O => st_nofuel
  | S fuel' =>
      r ← fsio (dzfs_read_dir dnode (wrap 64 offset));
      match r with
      | inl e => if e =? DZFS_ERR_LIMIT then mret (read_directories, buffer) else mret (-2, buffer)
      | inr stat =>
          match name_chars (st_name stat) with
          | None => st_undef
          | Some name =>
              let need := dirent_size + zlen name in
              if len <=? need then mret (read_directories, buffer)
              else
                let type := if st_type stat =? DZFS_ENTITY_FILE then Some DT_FILE
                            else if st_type stat =? DZFS_ENTITY_FOLDER then Some DT_DIR else None in
                match type with
                | None => st_panic "fs_readdir: invalid type"
                | Some t =>
                    readdir_loop fuel' dnode (put_dirent buffer d t stat name) (d + need) (len - need)
                      (offset + 1) (read_directories + 1)
                end
          end
      end
  end.

Definition fs_readdir (inode : option Z) (buffer : mem) (base len offset : Z)
    : ST kstate (Z * mem) :=
  n ← get_inode inode;
  if negb (i_type n =? INODE_DIRECTORY) then mret (-1, buffer)
  else readdir_loop (S (Z.to_nat len)) (i_dnode n) buffer base len offset 0.

Definition fs_ensure_userspace_prog (prog path : list Z) : ST kstate bool :=
  fs ← the_fs;
  r ← fsio (dzfs_open_absolute fs path DZFS_O_CREATE);
  let dnode := match r with inr (dnode, _) => dnode | inl _ => 0 end in
  _ ← fsio (dzfs_write fs dnode prog 0);
  mret true.

(** [fs_init] with the block size of the device and the generated program
    [userspace_prog_init] and its path. *)
Definition fs_init (nvme_block_size : Z) (prog path : list Z) : ST kstate unit :=
  if negb (DZFS_BLOCK_SIZE mod nvme_block_size =? 0)
  then st_panic "fs/nvme indivisible block size"
  else
    r ← fsio dzfs_init;
    fs ← match r with
         | inr fs => mret fs
         | inl _ =>
             r ← fsio dzfs_new;
             match r with
             | inl _ => st_panic "fs: unable to create filesystem"
             | inr _ =>
                 r ← fsio dzfs_init;
                 match r with inl _ => st_panic "fs: bad filesystem" | inr fs => mret fs end
             end
         end;
    _ ← st_modify (fun s => set_fs s fs);
    _ ← fs_ensure_userspace_prog prog path;
    mret tt.

(** ** file.c and the descriptors of proc.c *)

Fixpoint first_empty (l : list process_file) (i : Z) : Z :=
  match l with
  | [] => -1
  | f :: l' => if fd_type f =? FD_EMPTY then i else first_empty l' (i + 1)
  end.

Definition proc_allocate_fd : ST kstate Z :=
  p ← my_process;
  match p with
  | None => st_panic "proc_allocate_fd: no process"
  | Some _ => x ← get_files p; mret (first_empty (open_files x) 0)
  end.

Definition has (flags f : Z) : bool := truth (Z.land flags f).

Definition file_open (path : list Z) (flags : Z) : ST kstate Z :=
  fd ← proc_allocate_fd;
  if fd =? -1 then mret (-1)
  else
    p ← my_process;
    x ← get_files p;
    let fs_flags := Z.lor (if has flags O_CREAT then DZFS_O_CREATE else 0)
                          (if has flags O_DIR then DZFS_O_DIR else 0) in
    inode ← fs_open path (working_directory x) fs_flags;
    match inode with
    | None => mret (-1)
    | Some i =>
        _ ← put_fd p fd (MkFile FD_INODE (U_inode (Some i)) 0 (negb (has flags O_WRONLY))
                           (has flags O_WRONLY || has flags O_RDWR));
        mret fd
    end.

Definition bad_fd (fd : Z) : bool := (fd <? 0) || (MAX_OPEN_FILES <=? fd).

Definition file_write (fd : Z) (buffer : list Z) : ST kstate Z :=
  p ← my_process;
  match p with
  | None => st_panic "file_write: no process"
  | Some _ =>
      if bad_fd fd then st_panic "file_write: fd"
      else
        f ← get_fd p fd;
        if negb (writable f) || negb (fd_type f =? FD_INODE) then st_panic "file_write: fd"
        else
          i ← the_inode f;
          result ← fs_write i buffer (fd_offset f);
          if result <? 0 then mret result
          else
            _ ← put_fd p fd (set_offset f (wrap 32 (fd_offset f + result)));
            mret result
  end.

Definition file_read (fd len : Z) : ST kstate (Z * list Z) :=
  p ← my_process;
  match p with
  | None => st_panic "file_read: no process"
  | Some _ =>
      if bad_fd fd then st_panic "file_read: fd"
      else
        f ← get_fd p fd;
        if negb (readble f) || negb (fd_type f =? FD_INODE) then st_panic "file_read: fd"
        else
          i ← the_inode f;
          '(result, data) ← fs_read i len (fd_offset f);
          if result <? 0 then mret (result, data)
          else
            _ ← put_fd p fd (set_offset f (wrap 32 (fd_offset f + result)));
            mret (result, data)
  end.

(** The new offset of [file_seek] before the last check. *)
Definition seek_target (f : process_file) (file_size offset whence : Z) : option Z :=
  if whence =? SEEK_SET then Some (wrap 32 offset)
  else if whence =? SEEK_CUR then Some (wrap 32 (fd_offset f + offset))
  else if whence =? SEEK_END then Some (wrap 32 (file_size - wrap 32 offset))
  else None.

Definition file_seek (fd offset whence : Z) : ST kstate Z :=
  p ← my_process;
  match p with
  | None => st_panic "file_seek: no process"
  | Some _ =>
      if bad_fd fd then st_panic "file_seek: fd"
      else
        f ← get_fd p fd;
        if negb (fd_type f =? FD_INODE) then st_panic "file_seek: fd"
        else
          i ← the_inode f;
          n ← get_inode i;
          match seek_target f (i_size n) offset whence with
          | None => mret (-1)
          | Some o =>
              let o := if i_size n <? o then i_size n else o in
              _ ← put_fd p fd (set_offset f o);
              mret (sgn 32 o)
          end
  end.

(** ** device.c *)

(** The functions in the device table, by name. *)
Inductive read_fn := serial_read | serial_read_async.
Inductive write_fn := serial_write | fb_write.
Inductive control_fn := fb_control.

Record device := MkDevice {
  dev_name : list Z; dev_read : option read_fn; dev_write : option write_fn;
  dev_lseek : option (Z -> Z -> Z); dev_control : option control_fn
}.

Definition SERIAL_DEVICE_NAME : list Z := [115; 101; 114; 105; 97; 108].
Definition SERIAL_ASYNC_DEVICE_NAME : list Z :=
  SERIAL_DEVICE_NAME ++ [95; 97; 115; 121; 110; 99].
Definition FRAMEBUFFER_DEVICE_NAME : list Z := [102; 98].

Definition devices : list device := [
  MkDevice SERIAL_DEVICE_NAME (Some serial_read) (Some serial_write) None None;
  MkDevice SERIAL_ASYNC_DEVICE_NAME (Some serial_read_async) (Some serial_write) None None;
  MkDevice FRAMEBUFFER_DEVICE_NAME None (Some fb_write) None (Some fb_control) ].

Fixpoint device_index_from (l : list device) (i : Z) (name : list Z) : Z :=
  match l with
  | [] => -1
  | d :: l' => if str_eq name (dev_name d) then i else device_index_from l' (i + 1) name
  end.
Definition device_index (name : list Z) : Z := device_index_from devices 0 name.

Definition device_get (index : Z) : option device := zget devices index.

Definition device_open (name : list Z) : ST kstate Z :=
  let i := device_index name in
  if i =? -1 then mret (-1)
  else
    fd ← proc_allocate_fd;
    if fd =? -1 then mret (-1)
    else
      p ← my_process;
      match device_get i with
      | None => st_undef
      | Some d =>
          _ ← put_fd p fd (MkFile FD_DEVICE (U_device i) 0 (bool_decide (is_Some (dev_read d)))
                             (bool_decide (is_Some (dev_write d))));
          mret fd
      end.
End files.
Arguments kstate D E : clear implicits.
