(* ===== verification/Syscalls.v ===== *)
(** * The file system calls (kernel/src/fs/syscall.c)

    Every call checks its descriptor and its user pointers and passes on to
    Files.v or to a device.  What the calls need of the surroundings of a
    process, its memory and the devices, is the interface [KernelEnv];
    KernelEnv.v implements it with the page tables of Vmm.v, the serial port
    of Serial.v and the framebuffer.

    The kernel copy of a path ([kmalloc], [kmfree]) is a value here; that it
    could not be allocated is one of the reasons for [env_copy_string] to
    return [None]. *)
From S2P Require Import Prelude Mem DzFS Files.

(** ** The surroundings of a process *)

Class KernelEnv (E : Type) := {
  (** [validate_user_string] on [p->pagetable]. *)
  env_copy_string : option Z -> Z -> Z -> ST E (option (list Z));
  (** [vmm_validate_user_ptr] on [p->pagetable]. *)
  env_validate : option Z -> Z -> Z -> bool -> ST E bool;
  (** The kernel's accesses to a user buffer of the running process. *)
  env_load : option Z -> Z -> Z -> ST E (list Z);
  env_store : option Z -> Z -> list Z -> ST E unit;
  env_mem : option Z -> E -> mem;
  (** The functions of the device table. *)
  dev_read_call : read_fn -> option Z -> Z -> Z -> ST E Z;
  dev_write_call : write_fn -> option Z -> Z -> Z -> ST E Z;
  dev_control_call : control_fn -> option Z -> Z -> Z -> ST E Z
}.

Definition MAX_PATH_LENGTH : Z := 4096.

Section syscalls.
Context {D : Type} `{BlockDevice D} {E : Type} `{KernelEnv E}.
Notation K := (ST (kstate D E)).

(** A computation on the surroundings. *)
Definition on_env {A} (m : ST E A) : K A := fun s =>
  match m (env s) with
  | Ret (a, e) => Ret (a, set_env s e)
  | Panic msg => Panic msg
  | Undef => Undef
  | NoFuel => NoFuel
  end.

(** [validate_user_string], [validate_user_read], [validate_user_write]. *)
Definition validate_user_string (user_str max_len : Z) : K (option (list Z)) :=
  p ← my_process;
  match p with
  | None => mret None
  | Some _ => on_env (env_copy_string p user_str max_len)
  end.
Definition validate_user_ptr (ptr len : Z) (w : bool) : K bool :=
  p ← my_process;
  match p with
  | None => mret false
  | Some _ => on_env (env_validate p ptr len w)
  end.
Definition validate_user_read (ptr len : Z) : K bool := validate_user_ptr ptr len false.
Definition validate_user_write (ptr len : Z) : K bool := validate_user_ptr ptr len true.

Definition open_flags : Z :=
  Z.lor O_RDONLY (Z.lor O_WRONLY (Z.lor O_RDWR (Z.lor O_CREAT (Z.lor O_TRUNC
    (Z.lor O_APPEND (Z.lor O_DEVICE O_DIR)))))).

Definition sys_open (path flags : Z) : K Z :=
  kernel_path ← validate_user_string path MAX_PATH_LENGTH;
  match kernel_path with
  | None => mret (-1)
  | Some name =>
      if truth (Z.land flags (Z.lnot open_flags)) then mret (-1)
      else if has flags O_DEVICE then device_open name
      else file_open name (wrap 32 flags)
  end.

(** [fd < 0 || fd >= MAX_OPEN_FILES || p->open_files[fd].type == FD_EMPTY]:
    the descriptor, when there is one. *)
Definition lookup_fd (limit : Z) (fd : Z) : K (option process_file) :=
  p ← my_process;
  if (fd <? 0) || (limit <=? fd) then mret None
  else
    f ← get_fd p fd;
    if fd_type f =? FD_EMPTY then mret None else mret (Some f).

(** The device of a descriptor of type [FD_DEVICE]. *)
Definition fd_device (f : process_file) : K (option device) :=
  match fd_structures f with
  | U_device i => mret (device_get i)
  | U_inode _ => st_undef
  end.

Definition sys_read (fd buffer len : Z) : K Z :=
  f ← lookup_fd MAX_OPEN_FILES fd;
  match f with
  | None => mret (-1)
  | Some f =>
      ok ← validate_user_write buffer len;
      if negb ok then mret (-1)
      else if negb (readble f) then mret (-1)
      else if fd_type f =? FD_INODE then
        '(result, data) ← file_read fd len;
        p ← my_process;
        _ ← on_env (env_store p buffer data);
        mret result
      else if fd_type f =? FD_DEVICE then
        dev ← fd_device f;
        match dev with
        | None => mret (-1)
        | Some dev =>
            match dev_read dev with
            | None => st_undef
            | Some g => p ← my_process; on_env (dev_read_call g p buffer len)
            end
        end
      else mret (-1)
  end.

Definition sys_write (fd buffer len : Z) : K Z :=
  f ← lookup_fd MAX_OPEN_FILES fd;
  match f with
  | None => mret (-1)
  | Some f =>
      ok ← validate_user_read buffer len;
      if negb ok then mret (-1)
      else if negb (writable f) then mret (-1)
      else if fd_type f =? FD_INODE then
        p ← my_process;
        data ← on_env (env_load p buffer len);
        file_write fd data
      else if fd_type f =? FD_DEVICE then
        dev ← fd_device f;
        match dev with
        | None => mret (-1)
        | Some dev =>
            match dev_write dev with
            | None => st_undef
            | Some g => p ← my_process; on_env (dev_write_call g p buffer len)
            end
        end
      else mret (-1)
  end.

(** [sys_close] and [sys_lseek] check [fd > MAX_OPEN_FILES]. *)
Definition sys_close (fd : Z) : K Z :=
  f ← lookup_fd (MAX_OPEN_FILES + 1) fd;
  match f with
  | None => mret (-1)
  | Some f =>
      if fd_type f =? FD_INODE then
        i ← the_inode f;
        _ ← fs_close i;
        p ← my_process;
        _ ← put_fd p fd file_empty;
        mret 0
      else if fd_type f =? FD_DEVICE then mret 0
      else mret (-1)
  end.

Definition sys_lseek (fd offset whence : Z) : K Z :=
  f ← lookup_fd (MAX_OPEN_FILES + 1) fd;
  match f with
  | None => mret (-1)
  | Some f =>
      if fd_type f =? FD_INODE then file_seek fd offset whence
      else if fd_type f =? FD_DEVICE then
        dev ← fd_device f;
        match dev with
        | None => mret (-1)
        | Some dev => match dev_lseek dev with
                      | None => mret (-1)
                      | Some g => mret (g offset whence)
                      end
        end
      else mret (-1)
  end.

Definition sys_ioctl (fd command data : Z) : K Z :=
  f ← lookup_fd MAX_OPEN_FILES fd;
  match f with
  | None => mret (-1)
  | Some f =>
      ok ← (if truth data then validate_user_write data 8 else mret true);
      if negb (ok : bool) then mret (-1)
      else if fd_type f =? FD_INODE then mret (-1)
      else if fd_type f =? FD_DEVICE then
        dev ← fd_device f;
        match dev with
        | None => mret (-1)
        | Some dev =>
            match dev_control dev with
            | None => mret (-1)
            | Some g => p ← my_process; on_env (dev_control_call g p command data)
            end
        end
      else mret (-1)
  end.

Definition my_working_directory : K (option Z) :=
  p ← my_process; x ← get_files p; mret (working_directory x).

Definition sys_rename (old_path new_path : Z) : K Z :=
  kernel_old ← validate_user_string old_path MAX_PATH_LENGTH;
  match kernel_old with
  | None => mret (-1)
  | Some old =>
      kernel_new ← validate_user_string new_path MAX_PATH_LENGTH;
      match kernel_new with
      | None => mret (-1)
      | Some new => cwd ← my_working_directory; fs_rename old new cwd
      end
  end.

(** The common shape of the calls on one path. *)
Definition with_path (path : Z) (f : list Z -> K Z) : K Z :=
  kernel_path ← validate_user_string path MAX_PATH_LENGTH;
  match kernel_path with None => mret (-1) | Some name => f name end.

Definition sys_unlink (path : Z) : K Z :=
  with_path path (fun name => cwd ← my_working_directory; fs_delete name cwd).

Definition sys_mkdir (directory : Z) : K Z :=
  with_path directory (fun name => cwd ← my_working_directory; fs_mkdir name cwd).

Definition sys_chdir (directory : Z) : K Z :=
  with_path directory (fun name =>
    cwd ← my_working_directory;
    new_chdir ← fs_open name cwd DZFS_O_DIR;
    match new_chdir with
    | None => mret (-1)
    | Some _ =>
        _ ← fs_close cwd;
        p ← my_process;
        x ← get_files p;
        _ ← put_files p (MkPF (open_files x) new_chdir);
        mret 0
    end).

(** [fs_readdir] works on the memory of the process. *)
Definition sys_readdir (fd buffer len : Z) : K Z :=
  p ← my_process;
  match p with
  | None => mret (-1)
  | Some _ =>
      if bad_fd fd then mret (-1)
      else
        f ← get_fd p fd;
        if negb (fd_type f =? FD_INODE) then mret (-1)
        else
          ok ← validate_user_write buffer len;
          if negb ok then mret (-1)
          else
            i ← the_inode f;
            m ← reads (fun s => env_mem p (env s));
            '(result, m') ← fs_readdir i m buffer len (sgn 32 (fd_offset f));
            _ ← on_env (env_store p buffer (load_list m' buffer (Z.to_nat len)));
            if result <=? 0 then mret result
            else
              _ ← put_fd p fd (set_offset f (wrap 32 (fd_offset f + result)));
              mret result
  end.

(** *** Dispatch

    The cases of [syscall_c] (userspace/syscall.c) for the calls of this file,
    with the conversions of the arguments and of the result; [None] for the
    other numbers of zos/sysnum.h. *)
Definition ret64 (m : K Z) : K Z := r ← m; mret (wrap 64 r).
Definition file_call (number a1 a2 a3 : Z) : option (K Z) :=
  let int (a : Z) := sgn 32 a in
  match number with
  | 0 => Some (ret64 (sys_read (int a1) a2 a3))
  | 1 => Some (ret64 (sys_write (int a1) a2 a3))
  | 2 => Some (ret64 (sys_open a1 (int a2)))
  | 3 => Some (ret64 (sys_close (int a1)))
  | 8 => Some (ret64 (sys_lseek (int a1) (sgn 64 a2) (int a3)))
  | 11 => Some (ret64 (sys_ioctl (int a1) (int a2) a3))
  | 12 => Some (ret64 (sys_rename a1 a2))
  | 13 => Some (ret64 (sys_unlink a1))
  | 14 => Some (ret64 (sys_mkdir a1))
  | 15 => Some (ret64 (sys_chdir a1))
  | 16 => Some (ret64 (sys_readdir (int a1) a2 a3))
  | _ => None
  end.

(** *** The files of a process that starts and ends *)

(** [proc_exit] closes the inodes of the descriptors. *)
Fixpoint close_files (p : option Z) (l : list Z) : K unit :=
  match l with
  | [] => mret tt
  | fd :: l' =>
      f ← get_fd p fd;
      _ ← (if fd_type f =? FD_INODE then
             i ← the_inode f;
             _ ← fs_close i;
             put_fd p fd (MkFile FD_EMPTY (fd_structures f) (fd_offset f) (readble f) (writable f))
           else mret tt);
      close_files p l'
  end.
Definition exit_files : K unit :=
  p ← my_process; close_files p (seqZ 0 MAX_OPEN_FILES).

(** [coelesce_processes]: the processes behind the free slot move down, up to
    the next free one.  (The entries from [process_count] on are free.) *)
Fixpoint coelesce_files (behind : list (option proc_files)) : list (option proc_files) :=
  match behind with
  | Some x :: behind' => Some x :: coelesce_files behind'
  | _ => None :: behind
  end.

(** What the scheduler does with the table when the process [p] that has
    exited switches back to it: the page of [p] with its open files and
    working directory is freed, the gap is closed, no process runs. *)
Definition reclaim_files (p : Z) (s : kstate D E) : kstate D E :=
  let l := processes s in
  MkK (main_filesystem s) (inodes s) (disk s)
    (take (Z.to_nat p) l ++ coelesce_files (drop (S (Z.to_nat p)) l)) None (env s).

(** The end of the running process [p]. *)
Definition end_process (p : Z) : K unit := _ ← exit_files; st_modify (reclaim_files p).

(** The descriptors [proc_exec] gives a new process. *)
Definition stdin_file (serial_idx : Z) : process_file :=
  MkFile FD_DEVICE (U_device serial_idx) 0 true false.
Definition stdout_file (serial_idx : Z) : process_file :=
  MkFile FD_DEVICE (U_device serial_idx) 0 false true.
Definition exec_open_files (serial_idx : Z) : list process_file :=
  [stdin_file serial_idx; stdout_file serial_idx; stdout_file serial_idx] ++
  replicate 5 file_empty.

(** The part of [proc_exec] from the descriptors to the working directory:
    the executable's inode is closed, the caller's directory or the root is
    the new process's directory. *)
Definition exec_files (proc : Z) (proc_inode working_directory : option Z) : K unit :=
  let serial_idx := device_index SERIAL_DEVICE_NAME in
  if serial_idx =? -1 then st_panic "exec: no serial"
  else
    _ ← fs_close proc_inode;
    cwd ← match working_directory with
          | None => fs_open [SLASH] None DZFS_O_DIR
          | Some _ => _ ← fs_dup working_directory; mret working_directory
          end;
    match cwd with
    | None => st_panic "exec: NULL working directory"
    | Some _ => put_files (Some proc) (MkPF (exec_open_files serial_idx) cwd)
    end.
End syscalls.
