(* ===== verification/FilesInv.v ===== *)
(** * Reference counting of inodes

    The accounting of Files.v and Syscalls.v: in every reachable state the
    count of an inode is the number of descriptors and working directories
    that name it, plus the number of processes that ended with it as their
    working directory (its reference is never given back), an inode is in use
    exactly when its count is not zero, and no two inodes in use stand for the
    same dnode. *)
From S2P Require Import Prelude Mem DzFS Files Syscalls.

(** ** Sums over lists *)

Fixpoint zsum (l : list Z) : Z := match l with [] => 0 | x :: l' => x + zsum l' end.

Lemma zsum_insert {A} (f : A -> Z) l i x y : zget l i = Some x ->
  zsum (f <$> zset l i y) = zsum (f <$> l) - f x + f y.
Proof.
  unfold zget, zset. destruct (i <? 0); [done|]. generalize (Z.to_nat i) as n. clear i.
  induction l as [|a l IH]; intros [|n] E; cbn in E; try done.
  - injection E as <-. cbn. lia.
  - specialize (IH n E). change (f a + zsum (f <$> <[n := y]> l) = f a + zsum (f <$> l) - f x + f y). lia.
Qed.

Lemma zsum_bound {A} (f : A -> Z) c l : (forall x, x ∈ l -> 0 <= f x <= c) ->
  0 <= zsum (f <$> l) <= c * zlen l.
Proof.
  intros Hf. unfold zlen. induction l as [|a l IH]; [cbn; lia|].
  pose proof (Hf a ltac:(by left)). destruct IH as [IH1 IH2].
  { intros x Hx. apply Hf. by right. }
  cbn [fmap list_fmap zsum length]. nia.
Qed.

Lemma zsum_zero {A} (f : A -> Z) l : (forall x, x ∈ l -> f x = 0) -> zsum (f <$> l) = 0.
Proof.
  intros Hf. pose proof (zsum_bound f 0 l) as HB. rewrite Z.mul_0_l in HB.
  cut (0 <= zsum (f <$> l) <= 0); [lia|]. apply HB. intros x Hx. rewrite (Hf x Hx). lia.
Qed.

Lemma zsum_elem {A} (f : A -> Z) l x : (forall y, y ∈ l -> 0 <= f y) -> x ∈ l -> f x <= zsum (f <$> l).
Proof.
  induction l as [|a l IH]; intros Hf Hx; [by apply not_elem_of_nil in Hx|].
  assert (0 <= zsum (f <$> l)) as HN.
  { clear -Hf. induction l as [|b l IH]; [done|]. cbn [fmap list_fmap zsum].
    pose proof (Hf b ltac:(right; left)). assert (0 <= zsum (f <$> l)); [|lia]. apply IH.
    intros y Hy. apply Hf. apply elem_of_cons in Hy as [->|Hy]; [by left|]. right. by right. }
  pose proof (Hf a ltac:(by left)). apply elem_of_cons in Hx as [->|Hx]; cbn [fmap list_fmap zsum]; [lia|].
  assert (f x <= zsum (f <$> l)); [|lia]. apply IH; [|done]. intros y Hy. apply Hf. by right.
Qed.

Lemma zget_cons {A} (a : A) l j : zget (a :: l) j = if j =? 0 then Some a else if j <? 0 then None else zget l (j - 1).
Proof.
  unfold zget. destruct (Z.eqb_spec j 0) as [->|]; [done|]. destruct (Z.ltb_spec j 0); [done|].
  destruct (Z.ltb_spec (j - 1) 0); [lia|]. by replace (Z.to_nat j) with (S (Z.to_nat (j - 1))) by lia.
Qed.

(** ** The inode table *)

(** The table agrees with a count of references per index. *)
Record inodes_ok (cnt : Z -> Z) (l : list fs_inode) : Prop := {
  ino_len : zlen l = MAX_INODES;
  ino_count i n : zget l i = Some n -> i_reference_count n = cnt i;
  ino_type i n : zget l i = Some n -> (i_type n = INODE_EMPTY <-> i_reference_count n = 0);
  ino_dnode i j n m : zget l i = Some n -> zget l j = Some m -> i_type n <> INODE_EMPTY ->
    i_type m <> INODE_EMPTY -> i_dnode n = i_dnode m -> i = j
}.

Definition in_table (i : Z) : Prop := 0 <= i < MAX_INODES.
(** One reference more to [i]. *)
Definition plus (cnt : Z -> Z) (i : Z) (d : Z) : Z -> Z := fun j => cnt j + (if j =? i then d else 0).

Lemma inodes_ok_ext cnt cnt' l : inodes_ok cnt l -> (forall i, in_table i -> cnt i = cnt' i) ->
  inodes_ok cnt' l.
Proof.
  intros [H1 H2 H3 H4] Hc. split; try done. intros i n E. rewrite (H2 i n E). apply Hc.
  pose proof (zget_Some_range _ _ _ E). unfold in_table. by rewrite <- H1.
Qed.

Lemma inodes_get cnt l i : inodes_ok cnt l -> in_table i ->
  exists n, zget l i = Some n /\ i_reference_count n = cnt i /\ (i_type n = INODE_EMPTY <-> cnt i = 0).
Proof.
  intros Hok Hi. destruct (zget_lt_is_Some l i) as [n E]; [rewrite (ino_len _ _ Hok); exact Hi|].
  exists n. rewrite <- (ino_count _ _ Hok i n E). split; [done|]. split; [done|].
  by apply (ino_type _ _ Hok i).
Qed.

(** Writing an inode whose count is the new number of references. *)
Lemma inodes_ok_put cnt l i n d : inodes_ok cnt l -> in_table i ->
  i_reference_count n = cnt i + d -> (i_type n = INODE_EMPTY <-> i_reference_count n = 0) ->
  (i_type n <> INODE_EMPTY -> forall j m, j <> i -> zget l j = Some m -> i_type m <> INODE_EMPTY ->
     i_dnode m <> i_dnode n) ->
  inodes_ok (plus cnt i d) (zset l i n).
Proof.
  intros Hok Hi Hc Ht Hd. pose proof (ino_len _ _ Hok) as HL. unfold in_table in Hi.
  assert (forall j m, zget (zset l i n) j = Some m -> (j = i /\ m = n) \/ (j <> i /\ zget l j = Some m)) as HG.
  { intros j m E. destruct (Z.eq_dec j i) as [->|N].
    - rewrite zget_zset_eq in E by lia. left. by injection E as ->.
    - rewrite zget_zset_ne in E by done. by right. }
  unfold plus. split; [by rewrite zlen_zset| | |].
  - intros j m E. destruct (HG j m E) as [[-> ->]|[N E']].
    + by rewrite Z.eqb_refl.
    + destruct (Z.eqb_spec j i); [done|]. rewrite (ino_count _ _ Hok j m E'). lia.
  - intros j m E. destruct (HG j m E) as [[-> ->]|[N E']]; [done|]. by apply (ino_type _ _ Hok j).
  - intros a b m m' Ea Eb Ta Tb ED.
    destruct (HG a m Ea) as [[-> ->]|[Na Ea']]; destruct (HG b m' Eb) as [[-> ->]|[Nb Eb']].
    + done.
    + exfalso. by apply (Hd Ta b m' Nb Eb' Tb).
    + exfalso. apply (Hd Tb a m Na Ea' Ta). done.
    + by apply (ino_dnode _ _ Hok a b m m').
Qed.

(** What the scan of the table finds. *)
Lemma scan_inodes_spec d l : forall i free,
  match scan_inodes l i d free with
  | (Some k, _) => exists n, zget l (k - i) = Some n /\ i_dnode n = d /\ i_type n <> INODE_EMPTY
  | (None, Some k) =>
      (forall j n, zget l j = Some n -> i_type n <> INODE_EMPTY -> i_dnode n <> d) /\
      ((exists n, zget l (k - i) = Some n /\ i_type n = INODE_EMPTY) \/ free = Some k)
  | (None, None) =>
      free = None /\ forall j n, zget l j = Some n -> i_type n <> INODE_EMPTY /\ i_dnode n <> d
  end.
Proof.
  induction l as [|n l IH]; intros i free; cbn [scan_inodes].
  { assert (forall j (n : fs_inode), zget [] j <> Some n) as HN.
    { intros j n. unfold zget. by destruct (j <? 0). }
    destruct free as [k|]; split; try done; [|by right|]; intros j n E; by destruct (HN j n). }
  assert (forall k m, zget l (k - (i + 1)) = Some m -> zget (n :: l) (k - i) = Some m) as HS.
  { intros k m E. pose proof (zget_Some_range _ _ _ E). rewrite zget_cons.
    destruct (Z.eqb_spec (k - i) 0); [lia|]. destruct (Z.ltb_spec (k - i) 0); [lia|].
    by replace (k - i - 1) with (k - (i + 1)) by lia. }
  assert (forall (P : fs_inode -> Prop), P n -> (forall j m, zget l j = Some m -> P m) ->
            forall j m, zget (n :: l) j = Some m -> P m) as HA.
  { intros P H1 H2 j m E. rewrite zget_cons in E. destruct (j =? 0); [by injection E as <-|].
    destruct (j <? 0); [done|]. by eapply H2. }
  destruct (Z.eqb_spec (i_type n) INODE_EMPTY) as [T|T]; [|destruct (Z.eqb_spec (i_dnode n) d) as [Ed|Ed]].
  - specialize (IH (i + 1) (Some i)). destruct (scan_inodes l (i + 1) d (Some i)) as [[k|] f].
    + destruct IH as (m & E & Hm). exists m. auto.
    + destruct f as [k|]; [|by destruct IH]. destruct IH as [IH1 IH2]. split.
      { apply (HA (fun m => i_type m <> INODE_EMPTY -> i_dnode m <> d)); [done|]. exact IH1. }
      left. destruct IH2 as [(m & E & Hm)|IH2]; [exists m; auto|]. injection IH2 as <-.
      exists n. by rewrite Z.sub_diag.
  - exists n. by rewrite Z.sub_diag.
  - specialize (IH (i + 1) free). destruct (scan_inodes l (i + 1) d free) as [[k|] f].
    + destruct IH as (m & E & Hm). exists m. auto.
    + destruct f as [k|].
      * destruct IH as [IH1 IH2]. split.
        { apply (HA (fun m => i_type m <> INODE_EMPTY -> i_dnode m <> d)); [done|]. exact IH1. }
        destruct IH2 as [(m & E & Hm)|IH2]; [left; exists m; auto|by right].
      * destruct IH as [IH1 IH2]. split; [done|]. by apply HA.
Qed.

(** ** The operations on the table *)

Section ops.
Context {D : Type} `{BlockDevice D} {E : Type} `{KernelEnv E}.
Notation state := (kstate D E).

(** Nothing but the table and the disk has changed. *)
Definition same_procs (s s' : state) : Prop :=
  processes s' = processes s /\ running s' = running s /\ env s' = env s /\
  main_filesystem s' = main_filesystem s.

Lemma same_procs_refl s : same_procs s s.
Proof. done. Qed.

Lemma ends_get_inode p (Q : fs_inode -> state -> Prop) s :
  (forall i n, p = Some i -> zget (inodes s) i = Some n -> Q n s) -> ends (get_inode p) Q s.
Proof.
  intros HQ. unfold get_inode. apply ends_bind, ends_reads. destruct p as [i|]; cbn; [|apply ends_undef].
  destruct (zget (inodes s) i) as [n|] eqn:En; [|apply ends_undef]. apply ends_ret. by eapply HQ.
Qed.

Lemma ends_fsio {A} (m : io (D := D) A) (Q : Z + A -> state -> Prop) s :
  (forall r d, Q r (set_disk s d)) -> ends (fsio m) Q s.
Proof.
  intros HQ r s' Er. unfold fsio in Er. destruct (m (disk s)) as [[r' d]| | |]; try done.
  injection Er as <- <-. apply HQ.
Qed.

Lemma ends_get_files p (Q : proc_files -> state -> Prop) s :
  (forall i x, p = Some i -> zget (processes s) i = Some (Some x) -> Q x s) -> ends (get_files p) Q s.
Proof.
  intros HQ. unfold get_files. apply ends_bind, ends_reads. destruct p as [i|]; cbn; [|apply ends_undef].
  destruct (zget (processes s) i) as [[x|]|] eqn:Ex; try apply ends_undef. apply ends_ret. by eapply HQ.
Qed.

Lemma ends_get_fd p fd (Q : process_file -> state -> Prop) s :
  (forall i x f, p = Some i -> zget (processes s) i = Some (Some x) ->
     zget (open_files x) fd = Some f -> Q f s) -> ends (get_fd p fd) Q s.
Proof.
  intros HQ. apply ends_bind, ends_get_files. intros i x -> Ex.
  destruct (zget (open_files x) fd) as [f|] eqn:Ef; [|apply ends_undef]. apply ends_ret. by eapply HQ.
Qed.

Lemma fs_close_ends cnt i s : inodes_ok cnt (inodes s) -> in_table i -> 0 < cnt i < 2 ^ 32 ->
  ends (fs_close (Some i)) (fun _ s' => inodes_ok (plus cnt i (-1)) (inodes s') /\ same_procs s s') s.
Proof.
  intros Hok Hi Hc. apply ends_bind, ends_get_inode. intros i' n Ei En. injection Ei as <-.
  rewrite (ino_count _ _ Hok i n En), wrap_small by lia. cbn [default from_option].
  destruct (Z.eqb_spec (cnt i - 1) 0); apply ends_modify; (split; [|by unfold same_procs]);
    cbn [inodes set_inodes id]; apply inodes_ok_put; try done; cbn [i_reference_count i_type set_refs inode_empty]; try lia.
  - by rewrite (ino_type _ _ Hok i n En), (ino_count _ _ Hok i n En); lia.
  - intros T j m Nj Em Tm ED. apply Nj. by apply (ino_dnode _ _ Hok j i m n).
Qed.

Lemma fs_dup_ends cnt i s : inodes_ok cnt (inodes s) -> in_table i -> 0 < cnt i < 2 ^ 32 - 1 ->
  ends (fs_dup (Some i)) (fun _ s' => inodes_ok (plus cnt i 1) (inodes s') /\ same_procs s s') s.
Proof.
  intros Hok Hi Hc. apply ends_bind, ends_get_inode. intros i' n Ei En. injection Ei as <-.
  rewrite (ino_count _ _ Hok i n En), wrap_small by lia.
  apply ends_modify. split; [|by unfold same_procs].
  cbn [inodes set_inodes id default from_option]. apply inodes_ok_put; try done;
    cbn [i_reference_count i_type set_refs inode_empty]; try lia.
  - rewrite (ino_type _ _ Hok i n En), (ino_count _ _ Hok i n En). lia.
  - intros T j m Nj Em Tm ED. apply Nj. by apply (ino_dnode _ _ Hok j i m n).
Qed.

Lemma fill_inode_ends cnt i dnode parent s : inodes_ok cnt (inodes s) -> in_table i -> cnt i = 0 ->
  (forall j n, zget (inodes s) j = Some n -> i_type n <> INODE_EMPTY -> i_dnode n <> dnode) ->
  ends (fill_inode i dnode parent)
    (fun r s' => r = Some i /\ inodes_ok (plus cnt i 1) (inodes s') /\ same_procs s s') s.
Proof.
  intros Hok Hi Hc Hd. apply ends_bind, ends_get_inode. intros _ old _ _.
  apply ends_bind, ends_fsio. intros r d. destruct r as [|stat]; [apply ends_panic|].
  assert (forall t, t <> INODE_EMPTY -> inodes_ok (plus cnt i 1)
            (zset (inodes s) i (MkInode t dnode parent (st_size stat) 1))) as HP.
  { intros t Ht. apply inodes_ok_put; try done; cbn [i_reference_count i_type i_dnode]; [lia|].
    intros _ j m _ Em Tm. by apply (Hd j). }
  destruct (st_type stat =? DZFS_ENTITY_FILE); [|destruct (st_type stat =? DZFS_ENTITY_FOLDER);
    [|apply ends_panic]]; apply ends_bind, ends_modify, ends_ret; (split; [done|]); (split; [by apply HP|done]).
Qed.

Lemma fs_open_ends cnt path rel fl s : inodes_ok cnt (inodes s) ->
  (forall i, in_table i -> 0 <= cnt i < 2 ^ 32 - 1) ->
  ends (fs_open path rel fl) (fun r s' => same_procs s s' /\
    match r with
    | Some i => in_table i /\ inodes_ok (plus cnt i 1) (inodes s')
    | None => inodes s' = inodes s
    end) s.
Proof.
  intros Hok Hc. apply ends_bind, ends_reads, ends_bind.
  apply (ends_weaken _ (fun _ s' => s' = s)).
  { destruct rel; [|by apply ends_ret]. apply ends_bind, ends_get_inode. intros i n _ _. by apply ends_ret. }
  intros rl ? ->. apply ends_bind, ends_fsio. intros r d.
  destruct r as [e|[dnode parent]]; [by apply ends_ret|]. apply ends_bind, ends_reads.
  cbn [inodes set_disk]. pose proof (scan_inodes_spec dnode (inodes s) 0 None) as HS.
  destruct (scan_inodes (inodes s) 0 dnode None) as [[i|] [f|]].
  - destruct HS as (n & En & Ed & Tn). rewrite Z.sub_0_r in En.
    pose proof (zget_Some_range _ _ _ En) as Hi. rewrite (ino_len _ _ Hok) in Hi.
    pose proof (ino_type _ _ Hok i n En). rewrite (ino_count _ _ Hok i n En) in *. specialize (Hc i Hi).
    apply ends_bind. eapply ends_weaken; [apply (fs_dup_ends cnt i (set_disk s d)); [done|done|]|].
    + assert (cnt i <> 0) by tauto. lia.
    + intros _ s' [R1 R2]. apply ends_ret. by split.
  - destruct HS as (n & En & Ed & Tn). rewrite Z.sub_0_r in En.
    pose proof (zget_Some_range _ _ _ En) as Hi. rewrite (ino_len _ _ Hok) in Hi.
    pose proof (ino_type _ _ Hok i n En). rewrite (ino_count _ _ Hok i n En) in *. specialize (Hc i Hi).
    apply ends_bind. eapply ends_weaken; [apply (fs_dup_ends cnt i (set_disk s d)); [done|done|]|].
    + assert (cnt i <> 0) by tauto. lia.
    + intros _ s' [R1 R2]. apply ends_ret. by split.
  - destruct HS as [H1 [(n & En & Tn)|?]]; [|done]. rewrite Z.sub_0_r in En.
    pose proof (zget_Some_range _ _ _ En) as Hi. rewrite (ino_len _ _ Hok) in Hi.
    apply (ino_type _ _ Hok f n En) in Tn. rewrite (ino_count _ _ Hok f n En) in Tn.
    eapply ends_weaken; [apply (fill_inode_ends cnt f dnode parent (set_disk s d)); done|].
    intros r s' (-> & H2 & H3). by split.
  - by apply ends_ret.
Qed.
End ops.

(** ** References of processes *)

Definition fd_refs (i : Z) (f : process_file) : Z :=
  if bool_decide (fd_type f = FD_INODE /\ fd_structures f = U_inode (Some i)) then 1 else 0.
Definition cwd_refs (i : Z) (c : option Z) : Z := if bool_decide (c = Some i) then 1 else 0.
Definition proc_refs (i : Z) (p : option proc_files) : Z :=
  match p with
  | None => 0
  | Some x => zsum (fd_refs i <$> open_files x) + cwd_refs i (working_directory x)
  end.

(** What holds of the files of one process. *)
Record proc_ok (x : proc_files) : Prop := {
  pf_len : zlen (open_files x) = MAX_OPEN_FILES;
  pf_fd k f : zget (open_files x) k = Some f -> fd_type f = FD_INODE ->
    exists i, fd_structures f = U_inode (Some i) /\ in_table i;
  pf_cwd i : working_directory x = Some i -> in_table i
}.

Lemma fd_refs_range i f : 0 <= fd_refs i f <= 1.
Proof. unfold fd_refs. case_bool_decide; lia. Qed.
Lemma cwd_refs_range i c : 0 <= cwd_refs i c <= 1.
Proof. unfold cwd_refs. case_bool_decide; lia. Qed.

Lemma proc_refs_range i x : proc_ok x -> 0 <= proc_refs i (Some x) <= 9.
Proof.
  intros Hx. cbn [proc_refs]. pose proof (cwd_refs_range i (working_directory x)).
  pose proof (zsum_bound (fd_refs i) 1 (open_files x) ltac:(intros; apply fd_refs_range)).
  rewrite (pf_len x Hx) in *. unfold MAX_OPEN_FILES in *. lia.
Qed.

Section refs.
Context {D : Type} {E : Type}.
Notation state := (kstate D E).

(** The descriptors and working directories that name [i]. *)
Definition named (s : state) (i : Z) : Z := zsum (proc_refs i <$> processes s).

(** The references of processes that have ended, for each inode. *)
Context (lost : Z -> Z) (lost_range : forall i, 0 <= lost i < 2 ^ 31).

Definition refs (s : state) (i : Z) : Z := named s i + lost i.

Record procs_ok (s : state) : Prop := {
  pr_len : zlen (processes s) = MAX_PROCESSES;
  pr_ok p x : zget (processes s) p = Some (Some x) -> proc_ok x
}.

Lemma elem_proc_range s i q : procs_ok s -> q ∈ processes s -> 0 <= proc_refs i q <= 9.
Proof.
  intros Hs Hq. destruct q as [x|]; [|cbn; lia]. apply proc_refs_range.
  apply list_elem_of_lookup in Hq as [n En]. apply (pr_ok s Hs (Z.of_nat n)). unfold zget.
  destruct (Z.ltb_spec (Z.of_nat n) 0); [lia|]. by rewrite Nat2Z.id.
Qed.

Lemma named_nonneg s i : procs_ok s -> 0 <= named s i.
Proof.
  intros Hs. apply (zsum_bound (proc_refs i) 9 (processes s)). intros. by eapply elem_proc_range.
Qed.

Lemma refs_range s i : procs_ok s -> 0 <= refs s i < 2 ^ 31 + 576.
Proof.
  intros Hs. pose proof (lost_range i). pose proof (zsum_bound (proc_refs i) 9 (processes s) ltac:(intros; by eapply elem_proc_range)).
  rewrite (pr_len s Hs) in *. unfold MAX_PROCESSES in *. unfold refs, named. lia.
Qed.

(** A descriptor or working directory in some process is counted. *)
Lemma refs_fd s p x k f i : procs_ok s -> zget (processes s) p = Some (Some x) ->
  zget (open_files x) k = Some f -> fd_type f = FD_INODE -> fd_structures f = U_inode (Some i) ->
  1 <= refs s i.
Proof.
  intros Hs Ex Ef T U. pose proof (zsum_elem (proc_refs i) (processes s) (Some x)
    ltac:(intros y Hy; pose proof (elem_proc_range s i y Hs Hy); lia) (zget_elem _ _ _ Ex)).
  pose proof (zsum_elem (fd_refs i) (open_files x) f ltac:(intros y _; pose proof (fd_refs_range i y); lia)
    (zget_elem _ _ _ Ef)).
  assert (fd_refs i f = 1) by (unfold fd_refs; by rewrite bool_decide_true).
  pose proof (cwd_refs_range i (working_directory x)). pose proof (lost_range i).
  cbn [proc_refs] in *. unfold refs, named. lia.
Qed.

Lemma refs_cwd s p x i : procs_ok s -> zget (processes s) p = Some (Some x) ->
  working_directory x = Some i -> 1 <= refs s i.
Proof.
  intros Hs Ex U. pose proof (zsum_elem (proc_refs i) (processes s) (Some x)
    ltac:(intros y Hy; pose proof (elem_proc_range s i y Hs Hy); lia) (zget_elem _ _ _ Ex)).
  pose proof (zsum_bound (fd_refs i) 1 (open_files x) ltac:(intros; apply fd_refs_range)).
  assert (cwd_refs i (working_directory x) = 1) by (unfold cwd_refs; by rewrite bool_decide_true).
  pose proof (lost_range i). cbn [proc_refs] in *. unfold refs, named. lia.
Qed.

(** Replacing the files of one process. *)
Lemma refs_put s p q y i : zget (processes s) p = Some q ->
  refs (set_processes s (zset (processes s) p (Some y))) i = refs s i - proc_refs i q + proc_refs i (Some y).
Proof.
  intros Eq. unfold refs, named. cbn [processes set_processes]. rewrite (zsum_insert _ _ _ _ _ Eq). lia.
Qed.

Lemma procs_ok_put s p y : procs_ok s -> proc_ok y ->
  procs_ok (set_processes s (zset (processes s) p (Some y))).
Proof.
  intros [H1 H2] Hy. split; cbn [processes set_processes]; [by rewrite zlen_zset|].
  intros k x Ex. destruct (decide (k = p)) as [->|N]; [|rewrite zget_zset_ne in Ex by done; by eapply H2].
  pose proof (zget_Some_range _ _ _ Ex) as HR. rewrite zlen_zset in HR. rewrite zget_zset_eq in Ex by done.
  by injection Ex as <-.
Qed.

Lemma proc_ok_put x fd f : proc_ok x ->
  (fd_type f = FD_INODE -> exists i, fd_structures f = U_inode (Some i) /\ in_table i) ->
  proc_ok (MkPF (zset (open_files x) fd f) (working_directory x)).
Proof.
  intros [H1 H2 H3] Hf. split; cbn [open_files working_directory]; [by rewrite zlen_zset| |done].
  intros k g Eg. destruct (decide (k = fd)) as [->|N]; [|rewrite zget_zset_ne in Eg by done; by eapply H2].
  pose proof (zget_Some_range _ _ _ Eg) as HR. rewrite zlen_zset in HR. rewrite zget_zset_eq in Eg by done.
  by injection Eg as <-.
Qed.

Lemma proc_refs_fd x fd f g i : zget (open_files x) fd = Some f ->
  proc_refs i (Some (MkPF (zset (open_files x) fd g) (working_directory x))) =
  proc_refs i (Some x) - fd_refs i f + fd_refs i g.
Proof. intros Ef. cbn [proc_refs open_files working_directory]. rewrite (zsum_insert _ _ _ _ _ Ef). lia. Qed.

(** *** The invariant

    [ext] counts the references a call in progress holds. *)
Record files_ok (ext : Z -> Z) (s : state) : Prop := {
  fo_inodes : inodes_ok (fun i => refs s i + ext i) (inodes s);
  fo_procs : procs_ok s;
  fo_ext i : 0 <= ext i <= 3
}.
Definition no_refs : Z -> Z := fun _ => 0.

Lemma files_cnt_range ext s i : files_ok ext s -> 0 <= refs s i + ext i < 2 ^ 32 - 1.
Proof. intros [_ HP HE]. pose proof (refs_range s i HP). specialize (HE i). lia. Qed.

Lemma files_ok_same ext s s' : files_ok ext s -> inodes s' = inodes s -> processes s' = processes s ->
  files_ok ext s'.
Proof.
  intros [H1 [H2 H3] H4] EI EP. assert (forall i, refs s' i = refs s i) as ER by (intros; unfold refs, named; by rewrite EP).
  split; [|split; by rewrite EP|done]. rewrite EI. eapply inodes_ok_ext; [exact H1|]. intros i _. by rewrite ER.
Qed.

(** After an operation on the table. *)
Lemma files_ok_table ext ext' i d s s' : files_ok ext s ->
  inodes_ok (plus (fun j => refs s j + ext j) i d) (inodes s') -> processes s' = processes s ->
  (forall j, ext' j = plus ext i d j) -> (forall j, 0 <= ext' j <= 3) -> files_ok ext' s'.
Proof.
  intros [_ [H2 H3] _] HI EP HE HB.
  assert (forall i, refs s' i = refs s i) as ER by (intros; unfold refs, named; by rewrite EP).
  split; [|split; by rewrite EP|done]. eapply inodes_ok_ext; [exact HI|]. intros j _.
  rewrite ER, HE. unfold plus. lia.
Qed.

(** A process trades references with the call in progress. *)
Lemma files_ok_put ext ext' s p q y : files_ok ext s -> zget (processes s) p = Some q -> proc_ok y ->
  (forall i, proc_refs i (Some y) + ext' i = proc_refs i q + ext i) -> (forall i, 0 <= ext' i <= 3) ->
  files_ok ext' (set_processes s (zset (processes s) p (Some y))).
Proof.
  intros [H1 H2 H3] Eq Hy HE HB. split; [|by apply procs_ok_put|done].
  cbn [inodes set_processes]. eapply inodes_ok_ext; [exact H1|]. intros i _.
  rewrite (refs_put s p q y i Eq). specialize (HE i). lia.
Qed.

(** ** The system calls keep the invariant *)

Context `{BlockDevice D} `{KernelEnv E}.
Notation K := (ST state).
Implicit Types s : state.

Lemma ends_on_env {A} (m : ST E A) (Q : A -> state -> Prop) s :
  (forall a e, Q a (set_env s e)) -> ends (on_env m) Q s.
Proof.
  intros HQ a s' Er. unfold on_env in Er. destruct (m (env s)) as [[a' e]| | |]; try done.
  injection Er as <- <-. apply HQ.
Qed.

Lemma first_empty_spec l i : let r := first_empty l i in
  r = -1 \/ exists f, zget l (r - i) = Some f /\ fd_type f = FD_EMPTY.
Proof.
  cbv zeta. revert i. induction l as [|f l IH]; intros i; cbn [first_empty]; [by left|].
  destruct (Z.eqb_spec (fd_type f) FD_EMPTY).
  - right. exists f. by rewrite Z.sub_diag.
  - destruct (IH (i + 1)) as [->|(g & Eg & Tg)]; [by left|]. right. exists g. split; [|done].
    pose proof (zget_Some_range _ _ _ Eg). rewrite zget_cons.
    destruct (Z.eqb_spec (first_empty l (i + 1) - i) 0); [lia|].
    destruct (Z.ltb_spec (first_empty l (i + 1) - i) 0); [lia|].
    by replace (first_empty l (i + 1) - i - 1) with (first_empty l (i + 1) - (i + 1)) by lia.
Qed.

Lemma ends_allocate_fd (Q : Z -> state -> Prop) s :
  (forall p x fd, running s = Some p -> zget (processes s) p = Some (Some x) ->
     fd = -1 \/ (exists f, zget (open_files x) fd = Some f /\ fd_type f = FD_EMPTY) -> Q fd s) ->
  ends proc_allocate_fd Q s.
Proof.
  intros HQ. apply ends_bind, ends_reads. destruct (running s) as [p|] eqn:Ep; [|apply ends_panic].
  apply ends_bind, ends_get_files. intros i x Ei Ex. injection Ei as <-. apply ends_ret.
  apply (HQ p x); [done|done|]. pose proof (first_empty_spec (open_files x) 0) as HF. cbv zeta in HF.
  by rewrite Z.sub_0_r in HF.
Qed.

Lemma fd_refs_empty i f : fd_type f <> FD_INODE -> fd_refs i f = 0.
Proof. intros T. unfold fd_refs. rewrite bool_decide_false; [done|tauto]. Qed.

Lemma put_fd_ok ext ext' p fd f g s : files_ok ext s ->
  (forall i x, p = Some i -> zget (processes s) i = Some (Some x) -> zget (open_files x) fd = Some f) ->
  (fd_type g = FD_INODE -> exists i, fd_structures g = U_inode (Some i) /\ in_table i) ->
  (forall i, fd_refs i g + ext' i = fd_refs i f + ext i) -> (forall i, 0 <= ext' i <= 3) ->
  ends (put_fd p fd g) (fun _ s' => files_ok ext' s') s.
Proof.
  intros Hok Hf Hg HE HB. apply ends_bind, ends_get_files. intros i x -> Ex. apply ends_modify.
  specialize (Hf i x eq_refl Ex). pose proof (pr_ok s (fo_procs ext s Hok) i x Ex) as Hx.
  apply (files_ok_put ext ext' s i (Some x)); try done; [by apply proc_ok_put|].
  intros j. rewrite (proc_refs_fd x fd f g j Hf). specialize (HE j). lia.
Qed.

(** Moving the offset of a descriptor. *)
Lemma put_offset_ok ext p fd f o s : files_ok ext s ->
  (forall i x, p = Some i -> zget (processes s) i = Some (Some x) -> zget (open_files x) fd = Some f) ->
  ends (put_fd p fd (set_offset f o)) (fun _ s' => files_ok ext s') s.
Proof.
  intros Hok Hf i s' Er. destruct p as [i0|]; [|done].
  destruct (zget (processes s) i0) as [[x|]|] eqn:Ex;
    [|by unfold put_fd, get_files, mbind, st_bind, reads in Er; cbn in Er; rewrite Ex in Er..].
  refine (put_fd_ok ext ext (Some i0) fd f _ s Hok Hf _ _ _ i s' Er); [|done|apply (fo_ext ext s Hok)].
  intros T. apply (pf_fd x (pr_ok s (fo_procs ext s Hok) i0 x Ex) fd f); [|exact T]. by apply (Hf i0).
Qed.

Definition keeps {A} (m : K A) : Prop := forall s, files_ok no_refs s -> ends m (fun _ s' => files_ok no_refs s') s.

Lemma no_refs_range i : 0 <= no_refs i <= 3.
Proof. unfold no_refs. lia. Qed.

Lemma plus_range ext i d j : 0 <= ext j + d <= 3 -> 0 <= ext j <= 3 -> 0 <= plus ext i d j <= 3.
Proof. unfold plus. destruct (j =? i); lia. Qed.

(** [fs_open] hands the call one reference. *)
Lemma fs_open_ok ext path rel fl s : files_ok ext s -> (forall i, 0 <= ext i <= 2) ->
  ends (fs_open path rel fl) (fun r s' => same_procs s s' /\
    match r with
    | Some i => in_table i /\ files_ok (plus ext i 1) s'
    | None => files_ok ext s'
    end) s.
Proof.
  intros Hok HE. eapply ends_weaken.
  { apply (fs_open_ends _ path rel fl s (fo_inodes ext s Hok)). intros i _. by apply files_cnt_range. }
  intros r s' [HP HR]. split; [done|]. destruct HP as (EP & _). destruct r as [i|].
  - destruct HR as [Hi HR]. split; [done|]. eapply files_ok_table; [exact Hok|exact HR|done|done|].
    intros j. specialize (HE j). apply plus_range; lia.
  - by apply (files_ok_same ext s).
Qed.

(** [fs_close] of an inode that is referred to. *)
Lemma fs_close_ok ext ext' i s : files_ok ext s -> in_table i -> 0 < refs s i + ext i ->
  (forall j, ext' j = plus ext i (-1) j) ->
  ends (fs_close (Some i)) (fun _ s' => same_procs s s' /\
     inodes_ok (plus (fun j => refs s j + ext j) i (-1)) (inodes s')) s.
Proof.
  intros Hok Hi Hc HE. eapply ends_weaken.
  { apply (fs_close_ends _ i s (fo_inodes ext s Hok) Hi). pose proof (files_cnt_range ext s i Hok). lia. }
  intros _ s' [H1' H2']. done.
Qed.

(** Closing an inode and dropping the process's reference to it. *)
Lemma fs_close_put ext i p q y s : files_ok ext s -> in_table i ->
  zget (processes s) p = Some q -> proc_ok y ->
  (forall j, proc_refs j (Some y) = proc_refs j q - (if j =? i then 1 else 0)) ->
  ends (fs_close (Some i)) (fun _ s' => same_procs s s' /\
     files_ok ext (set_processes s' (zset (processes s') p (Some y)))) s.
Proof.
  intros Hok Hi Eq Hy HE.
  assert (0 < refs s i + ext i) as Hc.
  { pose proof (HE i) as E1. rewrite Z.eqb_refl in E1. pose proof (proc_refs_range i y Hy).
    pose proof (zsum_elem (proc_refs i) (processes s) q
      ltac:(intros z Hz; pose proof (elem_proc_range s i z (fo_procs ext s Hok) Hz); lia) (zget_elem _ _ _ Eq)).
    pose proof (fo_ext ext s Hok i). pose proof (lost_range i). unfold refs, named. lia. }
  eapply ends_weaken; [by apply (fs_close_ok ext (plus ext i (-1)))|].
  intros _ s' [HP HI]. split; [done|]. destruct HP as (EP & _).
  assert (forall j, refs s' j = refs s j) as ER by (intros; unfold refs, named; by rewrite EP).
  destruct Hok as [_ [H2 H3] H4]. split; [|apply procs_ok_put; [split; by rewrite EP|done]|done].
  cbn [inodes set_processes]. eapply inodes_ok_ext; [exact HI|]. intros j _.
  rewrite (refs_put s' p q y j) by (by rewrite EP). rewrite ER, HE. unfold plus. destruct (j =? i); lia.
Qed.

(** *** Every call *)

Lemma keeps_disk s d : files_ok no_refs s -> files_ok no_refs (set_disk s d).
Proof. intros Hok. by apply (files_ok_same no_refs s). Qed.
Lemma keeps_env s e : files_ok no_refs s -> files_ok no_refs (set_env s e).
Proof. intros Hok. by apply (files_ok_same no_refs s). Qed.
#[local] Hint Resolve keeps_disk keeps_env : core.

Lemma plus_no_refs i j : 0 <= plus no_refs i 1 j <= 3.
Proof. apply plus_range; unfold no_refs; lia. Qed.

Lemma fd_refs_new i j f : fd_type f = FD_INODE -> fd_structures f = U_inode (Some i) ->
  fd_refs j f = if j =? i then 1 else 0.
Proof.
  intros T U. unfold fd_refs. rewrite T, U. destruct (Z.eqb_spec j i) as [->|N].
  - by rewrite bool_decide_true.
  - rewrite bool_decide_false; [done|]. intros [_ E']. congruence.
Qed.

Lemma keeps_file_open name flags : keeps (file_open name flags).
Proof.
  intros s Hok. apply ends_bind, ends_allocate_fd. intros p x fd Ep Ex Hfd.
  destruct (Z.eqb_spec fd (-1)); [by apply ends_ret|]. destruct Hfd as [|(f & Ef & Tf)]; [done|].
  apply ends_bind, ends_reads, ends_bind, ends_get_files. intros p' x' _ _.
  apply ends_bind. eapply ends_weaken.
  { apply fs_open_ok; [exact Hok|]. unfold no_refs. lia. }
  intros r s' [(EP & ER & _) HR]. destruct r as [i|]; [|by apply ends_ret]. destruct HR as [Hi HR].
  apply ends_bind. eapply ends_weaken; [apply (put_fd_ok (plus no_refs i 1) no_refs _ _ f)|].
  - exact HR.
  - intros q y Eq Ey. rewrite EP in Ey. congruence.
  - intros _. by exists i.
  - intros j. rewrite (fd_refs_new i) by done. rewrite (fd_refs_empty j f) by (by rewrite Tf).
    unfold plus, no_refs. lia.
  - apply no_refs_range.
  - intros ? s2 Hs2. by apply ends_ret.
Qed.

Lemma keeps_device_open name : keeps (device_open name).
Proof.
  intros s Hok. unfold device_open. destruct (device_index name =? -1); [by apply ends_ret|].
  apply ends_bind, ends_allocate_fd. intros p x fd Ep Ex Hfd.
  destruct (Z.eqb_spec fd (-1)); [by apply ends_ret|]. destruct Hfd as [|(f & Ef & Tf)]; [done|].
  apply ends_bind, ends_reads. destruct (device_get _); [|apply ends_undef].
  apply ends_bind. eapply ends_weaken; [apply (put_fd_ok no_refs no_refs _ _ f)|].
  - exact Hok.
  - intros q y Eq Ey. congruence.
  - done.
  - intros j. by rewrite !fd_refs_empty by (rewrite ?Tf; done).
  - apply no_refs_range.
  - intros ? s2 Hs2. by apply ends_ret.
Qed.

Lemma keeps_bind_env {A B} (m : ST E A) (f : A -> K B) : (forall a, keeps (f a)) ->
  keeps (on_env m ≫= f).
Proof. intros Hf s Hok. apply ends_bind, ends_on_env. intros a e. by apply Hf; apply keeps_env. Qed.

Lemma keeps_ret {A} (a : A) : keeps (mret a).
Proof. intros s Hok. by apply ends_ret. Qed.

Lemma keeps_validate_string {B} u n (f : _ -> K B) : (forall a, keeps (f a)) ->
  keeps (validate_user_string u n ≫= f).
Proof.
  intros Hf s Hok. apply ends_bind, ends_bind, ends_reads. destruct (running s).
  - apply ends_on_env. intros a e. by apply Hf; apply keeps_env.
  - apply ends_ret. by apply Hf.
Qed.

Lemma keeps_validate_ptr {B} u n w (f : _ -> K B) : (forall a, keeps (f a)) ->
  keeps (validate_user_ptr u n w ≫= f).
Proof.
  intros Hf s Hok. apply ends_bind, ends_bind, ends_reads. destruct (running s).
  - apply ends_on_env. intros a e. by apply Hf; apply keeps_env.
  - apply ends_ret. by apply Hf.
Qed.

Lemma keeps_sys_open path flags : keeps (sys_open path flags).
Proof.
  apply keeps_validate_string. intros [name|]; [|apply keeps_ret].
  destruct (truth _); [apply keeps_ret|]. destruct (has _ _); [apply keeps_device_open|apply keeps_file_open].
Qed.

(** The checks of a descriptor. *)
Lemma ends_lookup_fd limit fd (Q : option process_file -> state -> Prop) s :
  Q None s ->
  (forall p x f, running s = Some p -> zget (processes s) p = Some (Some x) ->
     zget (open_files x) fd = Some f -> fd_type f <> FD_EMPTY -> Q (Some f) s) ->
  ends (lookup_fd limit fd) Q s.
Proof.
  intros HN HS. apply ends_bind, ends_reads. destruct (_ || _); [by apply ends_ret|].
  apply ends_bind, ends_get_fd. intros p x f Ep Ex Ef.
  destruct (Z.eqb_spec (fd_type f) FD_EMPTY); apply ends_ret; [done|]. by eapply HS.
Qed.

Lemma keeps_lookup {B} limit fd (f : _ -> K B) :
  keeps (f None) -> (forall g, keeps (f (Some g))) -> keeps (lookup_fd limit fd ≫= f).
Proof.
  intros HN HS s Hok. apply ends_bind, ends_lookup_fd; [by apply HN|]. intros. by apply HS.
Qed.

Lemma ends_the_inode f (Q : option Z -> state -> Prop) s :
  (forall i, fd_structures f = U_inode i -> Q i s) -> ends (the_inode f) Q s.
Proof.
  intros HQ. unfold the_inode. destruct (fd_structures f); [|apply ends_undef]. apply ends_ret. by apply HQ.
Qed.

(** Growing the size kept in an inode. *)
Lemma keeps_size i n sz s : files_ok no_refs s -> zget (inodes s) i = Some n ->
  files_ok no_refs (set_inodes s (zset (inodes s) i (set_size n sz))).
Proof.
  intros Hok En. pose proof (fo_inodes _ s Hok) as HI.
  pose proof (zget_Some_range _ _ _ En) as Hi. rewrite (ino_len _ _ HI) in Hi.
  apply (files_ok_table no_refs no_refs i 0 s); try done.
  - cbn [inodes set_inodes]. apply inodes_ok_put; try done; cbn [i_reference_count i_type set_size].
    + rewrite (ino_count _ _ HI i n En). lia.
    + apply (ino_type _ _ HI i n En).
    + intros T j m Nj Em Tm ED. apply Nj. by apply (ino_dnode _ _ HI j i m n).
  - intros j. unfold plus. destruct (j =? i); lia.
Qed.

Lemma fs_write_ok i buffer offset s : files_ok no_refs s ->
  ends (fs_write i buffer offset) (fun _ s' => files_ok no_refs s' /\ processes s' = processes s) s.
Proof.
  intros Hok. apply ends_bind, ends_reads, ends_bind, ends_get_inode. intros k n -> En.
  apply ends_bind, ends_fsio. intros r d. destruct r as [|[]]; [by apply ends_ret; auto|].
  apply ends_bind. destruct (i_size n <? _).
  - apply ends_modify, ends_ret. split; [|done]. by apply (keeps_size k n _ (set_disk s d)); auto.
  - apply ends_ret, ends_ret. auto.
Qed.

Lemma fs_read_ok i len offset s : files_ok no_refs s ->
  ends (fs_read i len offset) (fun _ s' => files_ok no_refs s' /\ processes s' = processes s) s.
Proof.
  intros Hok. apply ends_bind, ends_reads, ends_bind, ends_get_inode. intros k n -> En.
  apply ends_bind, ends_fsio. intros r d. destruct r; apply ends_ret; auto.
Qed.

Lemma keeps_file_write fd buffer : keeps (file_write fd buffer).
Proof.
  intros s Hok. apply ends_bind, ends_reads. destruct (running s); [|apply ends_panic].
  destruct (bad_fd fd); [apply ends_panic|]. apply ends_bind, ends_get_fd. intros p x f Ep Ex Ef.
  destruct (_ || _); [apply ends_panic|]. apply ends_bind, ends_the_inode. intros i _.
  apply ends_bind. eapply ends_weaken; [by apply fs_write_ok|]. intros r s' [Hok' EP].
  destruct (r <? 0); [by apply ends_ret|]. apply ends_bind.
  eapply ends_weaken; [apply put_offset_ok; [done|]|intros ? s2 Hs2; by apply ends_ret].
  intros q y Eq Ey. rewrite EP in Ey. congruence.
Qed.

Lemma keeps_file_read fd len : keeps (file_read fd len).
Proof.
  intros s Hok. apply ends_bind, ends_reads. destruct (running s); [|apply ends_panic].
  destruct (bad_fd fd); [apply ends_panic|]. apply ends_bind, ends_get_fd. intros p x f Ep Ex Ef.
  destruct (_ || _); [apply ends_panic|]. apply ends_bind, ends_the_inode. intros i _.
  apply ends_bind. eapply ends_weaken; [by apply fs_read_ok|]. intros [r data] s' [Hok' EP].
  destruct (r <? 0); [by apply ends_ret|]. apply ends_bind.
  eapply ends_weaken; [apply put_offset_ok; [done|]|intros ? s2 Hs2; by apply ends_ret].
  intros q y Eq Ey. rewrite EP in Ey. congruence.
Qed.

Lemma keeps_file_seek fd offset whence : keeps (file_seek fd offset whence).
Proof.
  intros s Hok. apply ends_bind, ends_reads. destruct (running s); [|apply ends_panic].
  destruct (bad_fd fd); [apply ends_panic|]. apply ends_bind, ends_get_fd. intros p x f Ep Ex Ef.
  destruct (negb _); [apply ends_panic|]. apply ends_bind, ends_the_inode. intros i _.
  apply ends_bind, ends_get_inode. intros k n -> En.
  destruct (seek_target _ _ _ _); [|by apply ends_ret]. apply ends_bind.
  eapply ends_weaken; [apply put_offset_ok; [done|]|intros ? s2 Hs2; by apply ends_ret].
  intros q y Eq Ey. congruence.
Qed.

Lemma keeps_bind {A B} (m : K A) (f : A -> K B) : keeps m -> (forall a, keeps (f a)) -> keeps (m ≫= f).
Proof.
  intros Hm Hf s Hok. apply ends_bind. eapply ends_weaken; [by apply Hm|]. intros a s' Hs'. by apply Hf.
Qed.
Lemma keeps_panic {A} msg : keeps (A := A) (st_panic msg).
Proof. intros s Hok. apply ends_panic. Qed.
Lemma keeps_undef {A} : keeps (A := A) st_undef.
Proof. intros s Hok. apply ends_undef. Qed.
Lemma keeps_reads {A} (f : state -> A) : keeps (reads f).
Proof. intros s Hok. by apply ends_reads. Qed.
Lemma keeps_on_env {A} (m : ST E A) : keeps (on_env m).
Proof. intros s Hok. apply ends_on_env. auto. Qed.
Lemma keeps_fsio {A} (m : io (D := D) A) : keeps (fsio m).
Proof. intros s Hok. apply ends_fsio. auto. Qed.
Lemma keeps_fd_device f : keeps (fd_device f).
Proof. unfold fd_device. destruct (fd_structures f); [apply keeps_undef|apply keeps_ret]. Qed.
Lemma keeps_cwd : keeps my_working_directory.
Proof.
  apply keeps_bind; [apply keeps_reads|]. intros p. apply keeps_bind; [|intros; apply keeps_ret].
  intros s Hok. by apply ends_get_files.
Qed.
Lemma keeps_get_inode p : keeps (get_inode p).
Proof. intros s Hok. by apply ends_get_inode. Qed.
Lemma keeps_the_inode f : keeps (the_inode f).
Proof. intros s Hok. by apply ends_the_inode. Qed.

Create HintDb keeps.
#[local] Hint Resolve keeps_ret keeps_panic keeps_undef keeps_reads keeps_on_env keeps_fsio keeps_fd_device
  keeps_cwd keeps_get_inode keeps_the_inode keeps_file_open keeps_device_open keeps_file_read
  keeps_file_write keeps_file_seek : keeps.
(** One step through a call: a branch, a checked argument, a sequence. *)
Ltac keeps_step := first
  [ solve [eauto with keeps]
  | apply keeps_validate_string; intros
  | apply keeps_validate_ptr; intros
  | apply keeps_lookup; intros
  | apply keeps_bind; intros
  | match goal with |- keeps (match ?x with _ => _ end) => destruct x end ].

Lemma keeps_sys_read fd buffer len : keeps (sys_read fd buffer len).
Proof. unfold sys_read, validate_user_write. repeat keeps_step. Qed.
Lemma keeps_sys_write fd buffer len : keeps (sys_write fd buffer len).
Proof. unfold sys_write, validate_user_read. repeat keeps_step. Qed.
Lemma keeps_sys_lseek fd offset whence : keeps (sys_lseek fd offset whence).
Proof. unfold sys_lseek. repeat keeps_step. Qed.
Lemma keeps_sys_ioctl fd command data : keeps (sys_ioctl fd command data).
Proof. unfold sys_ioctl, validate_user_write. repeat keeps_step. Qed.
Lemma keeps_sys_rename old_path new_path : keeps (sys_rename old_path new_path).
Proof. unfold sys_rename, fs_rename. repeat keeps_step. Qed.
Lemma keeps_sys_unlink path : keeps (sys_unlink path).
Proof. unfold sys_unlink, with_path, fs_delete, the_fs. repeat keeps_step. Qed.
Lemma keeps_sys_mkdir path : keeps (sys_mkdir path).
Proof. unfold sys_mkdir, with_path, fs_mkdir, the_fs. repeat keeps_step. Qed.

Lemma readdir_loop_ok fuel dnode : forall buffer d len offset n s, files_ok no_refs s ->
  ends (readdir_loop fuel dnode buffer d len offset n)
    (fun _ s' => files_ok no_refs s' /\ processes s' = processes s) s.
Proof.
  induction fuel as [|fuel IH]; intros buffer d len offset n s Hok; [done|]. cbn [readdir_loop].
  apply ends_bind, ends_fsio. intros r dk. destruct r as [e|stat].
  { destruct (e =? DZFS_ERR_LIMIT); apply ends_ret; auto. }
  destruct (name_chars (st_name stat)) as [name|]; [|apply ends_undef]. cbv zeta.
  destruct (len <=? _); [apply ends_ret; auto|].
  destruct (if st_type stat =? DZFS_ENTITY_FILE then Some DT_FILE else _); [|apply ends_panic].
  eapply ends_weaken; [apply IH; auto|]. intros _ s' [H1' H2']. auto.
Qed.

Lemma keeps_sys_readdir fd buffer len : keeps (sys_readdir fd buffer len).
Proof.
  intros s Hok. apply ends_bind, ends_reads. destruct (running s) as [p|]; [|by apply ends_ret].
  destruct (bad_fd fd); [by apply ends_ret|]. apply ends_bind, ends_get_fd. intros q x f Eq Ex Ef.
  injection Eq as <-. destruct (negb _); [by apply ends_ret|].
  apply ends_bind, ends_bind, ends_reads.
  assert (forall ok s', files_ok no_refs s' -> processes s' = processes s ->
    ends (if negb ok then mret (-1) else
          i ← the_inode f;
          m ← reads (fun s => env_mem (Some p) (env s));
          '(result, m') ← fs_readdir i m buffer len (sgn 32 (fd_offset f));
          _ ← on_env (env_store (Some p) buffer (load_list m' buffer (Z.to_nat len)));
          if result <=? 0 then mret result
          else _ ← put_fd (Some p) fd (set_offset f (wrap 32 (fd_offset f + result))); mret result)
      (fun _ s' => files_ok no_refs s') s') as HK.
  { intros [|] s' Hs' EP; [|by apply ends_ret]. apply ends_bind, ends_the_inode. intros i _.
    apply ends_bind, ends_reads, ends_bind. apply (ends_weaken _ (fun _ s2 => files_ok no_refs s2 /\ processes s2 = processes s')).
    { apply ends_bind, ends_get_inode. intros k n _ _. destruct (negb _); [apply ends_ret; auto|].
      by apply readdir_loop_ok. }
    intros [result m'] s2 [Hs2 EP2]. apply ends_bind, ends_on_env. intros u e.
    destruct (result <=? 0); [apply ends_ret; auto|]. apply ends_bind.
    eapply ends_weaken; [apply put_offset_ok; [auto|]|intros ? s3 Hs3; by apply ends_ret].
    intros q y Eq Ey. cbn in Ey. rewrite EP2, EP in Ey. congruence. }
  destruct (running s); [apply ends_on_env; intros; apply HK; auto|apply ends_ret; by apply HK].
Qed.

(** *** Dropping references *)

Lemma proc_refs_close x fd f i : zget (open_files x) fd = Some f -> fd_type f = FD_INODE ->
  fd_structures f = U_inode (Some i) -> forall g j, fd_type g <> FD_INODE ->
  proc_refs j (Some (MkPF (zset (open_files x) fd g) (working_directory x))) =
  proc_refs j (Some x) - (if j =? i then 1 else 0).
Proof.
  intros Ef T U g j Tg. rewrite (proc_refs_fd x fd f g j Ef), (fd_refs_new i j f T U), fd_refs_empty by done. lia.
Qed.

Lemma cwd_refs_some j a : cwd_refs j (Some a) = if j =? a then 1 else 0.
Proof.
  unfold cwd_refs. destruct (Z.eqb_spec j a) as [->|N]; [by rewrite bool_decide_true|].
  rewrite bool_decide_false; [done|congruence].
Qed.

(** [fs_close] of the inode of a descriptor, and the descriptor gone. *)
Lemma close_fd_ok p x fd f g s : files_ok no_refs s -> running s = Some p ->
  zget (processes s) p = Some (Some x) -> zget (open_files x) fd = Some f -> fd_type f = FD_INODE ->
  fd_type g <> FD_INODE ->
  exists i, fd_structures f = U_inode (Some i) /\
    ends (fs_close (Some i)) (fun _ s1 => running s1 = running s /\
      ends (put_fd (Some p) fd g) (fun _ s' => files_ok no_refs s' /\ running s' = running s /\
        zget (processes s') p = Some (Some (MkPF (zset (open_files x) fd g) (working_directory x)))) s1) s.
Proof.
  intros Hok Ep Ex Ef T Tg. pose proof (pr_ok s (fo_procs _ s Hok) p x Ex) as Hx.
  destruct (pf_fd x Hx fd f Ef T) as (i & U & Hi). exists i. split; [done|]. eapply ends_weaken.
  { apply (fs_close_put no_refs i p (Some x) (MkPF (zset (open_files x) fd g) (working_directory x)) s Hok Hi Ex).
    - by apply proc_ok_put.
    - intros j. by apply (proc_refs_close x fd f). }
  intros _ s' [(EP & ER & _) Hok']. split; [done|].
  apply ends_bind, ends_get_files. intros q y Eq Ey. injection Eq as <-. rewrite EP, Ex in Ey. injection Ey as <-.
  apply ends_modify. split; [done|]. split; [done|]. cbn [processes set_processes].
  apply zget_zset_eq. rewrite EP. by eapply zget_Some_range.
Qed.

Lemma keeps_sys_close fd : keeps (sys_close fd).
Proof.
  intros s Hok. apply ends_bind, ends_lookup_fd; [by apply ends_ret|]. intros p x f Ep Ex Ef Tf.
  destruct (Z.eqb_spec (fd_type f) FD_INODE) as [T|T]; [|destruct (_ =? _); by apply ends_ret].
  destruct (close_fd_ok p x fd f file_empty s Hok Ep Ex Ef T ltac:(done)) as (i & U & HC).
  apply ends_bind, ends_the_inode. intros o Eo. rewrite U in Eo. injection Eo as <-.
  apply ends_bind. eapply ends_weaken; [exact HC|]. intros ? s1 [ER HP].
  apply ends_bind, ends_reads. rewrite ER, Ep. apply ends_bind. eapply ends_weaken; [exact HP|].
  intros ? s2 (Hok2 & _). by apply ends_ret.
Qed.

Lemma keeps_sys_chdir directory : keeps (sys_chdir directory).
Proof.
  apply keeps_validate_string. intros [name|]; [|apply keeps_ret]. intros s Hok.
  apply ends_bind, ends_bind, ends_reads, ends_bind, ends_get_files. intros p x Ep Ex.
  apply ends_ret, ends_bind. eapply ends_weaken; [apply fs_open_ok; [exact Hok|unfold no_refs; lia]|].
  intros o s' [(EP & ER & _) HR]. destruct o as [i|]; [|by apply ends_ret]. destruct HR as [Hi HR].
  pose proof (pr_ok s (fo_procs _ s Hok) p x Ex) as Hx.
  destruct (working_directory x) as [c|] eqn:Ec; [|done].
  assert (forall j, proc_refs j (Some (MkPF (open_files x) (Some i))) =
                    proc_refs j (Some x) - (if j =? c then 1 else 0) + (if j =? i then 1 else 0)) as HE.
  { intros j. cbn [proc_refs open_files working_directory]. rewrite Ec.
    rewrite !cwd_refs_some. lia. }
  assert (0 < refs s' c + plus no_refs i 1 c) as Hc.
  { pose proof (refs_cwd s' p x c (fo_procs _ s' HR) ltac:(by rewrite EP) Ec).
    unfold plus, no_refs. destruct (c =? i); lia. }
  apply ends_bind. eapply ends_weaken; [apply (fs_close_ends _ c s' (fo_inodes _ s' HR))|].
  { by apply (pf_cwd x Hx). }
  { pose proof (files_cnt_range _ s' c HR). lia. }
  intros ? s2 [HI (EP2 & ER2 & _)]. apply ends_bind, ends_reads. rewrite ER2, ER, Ep.
  apply ends_bind, ends_get_files. intros q y Eq Ey. injection Eq as <-. rewrite EP2, EP, Ex in Ey. injection Ey as <-.
  apply ends_bind, ends_modify, ends_ret.
  assert (forall j, refs s2 j = refs s' j) as ERF by (intros; unfold refs, named; by rewrite EP2).
  destruct HR as [_ [HL HP] _]. split; [| |intros j; apply no_refs_range].
  - cbn [inodes set_processes]. eapply inodes_ok_ext; [exact HI|]. intros j _.
    rewrite (refs_put s2 p (Some x)) by (by rewrite EP2, EP). rewrite ERF, HE. unfold plus, no_refs.
    destruct (j =? i), (j =? c); lia.
  - apply procs_ok_put; [split; by rewrite EP2|]. destruct Hx as [X1 X2 X3]. split; try done.
    intros j [= <-]. done.
Qed.

(** The open inodes of [y] are those of [x] that [l] does not name. *)
Definition closed (l : list Z) (x y : proc_files) : Prop :=
  working_directory y = working_directory x /\
  forall fd f, zget (open_files y) fd = Some f -> fd_type f = FD_INODE ->
    fd ∉ l /\ zget (open_files x) fd = Some f.

Lemma closed_cons fd l x x1 y : fd_type (default file_empty (zget (open_files x1) fd)) <> FD_INODE ->
  working_directory x1 = working_directory x ->
  (forall k, k <> fd -> zget (open_files x1) k = zget (open_files x) k) ->
  closed l x1 y -> closed (fd :: l) x y.
Proof.
  intros HT HW HE [C1 C2]. split; [congruence|]. intros k f Ek T. destruct (C2 k f Ek T) as [Hk E1].
  assert (k <> fd) as N by (intros ->; by rewrite E1 in HT).
  split; [|by rewrite <- HE]. rewrite not_elem_of_cons. by split.
Qed.

Lemma close_files_ok p l : forall x s, files_ok no_refs s -> running s = Some p ->
  zget (processes s) p = Some (Some x) ->
  ends (close_files (Some p) l) (fun _ s' => files_ok no_refs s' /\ running s' = Some p /\
    exists y, zget (processes s') p = Some (Some y) /\ closed l x y) s.
Proof.
  induction l as [|fd l IH]; intros x s Hok Ep Ex; cbn [close_files].
  { apply ends_ret. split; [done|]. split; [done|]. exists x. split; [done|]. split; [done|].
    intros k f Ek _. split; [apply not_elem_of_nil|done]. }
  apply ends_bind, ends_get_fd. intros q x' f Eq Ex' Ef. injection Eq as <-.
  rewrite Ex in Ex'. injection Ex' as <-.
  apply ends_bind. destruct (Z.eqb_spec (fd_type f) FD_INODE) as [T|T].
  2:{ apply ends_ret. eapply ends_weaken; [by apply (IH x)|]. intros _ s' (H1' & H2' & y & Ey & HC).
      split; [done|]. split; [done|]. exists y. split; [done|].
      apply (closed_cons fd l x x); [by rewrite Ef|done|done|done]. }
  set (g := MkFile FD_EMPTY (fd_structures f) (fd_offset f) (readble f) (writable f)).
  destruct (close_fd_ok p x fd f g s Hok Ep Ex Ef T ltac:(done)) as (i & U & HC).
  apply ends_bind, ends_the_inode. intros o Eo. rewrite U in Eo. injection Eo as <-.
  apply ends_bind. eapply ends_weaken; [exact HC|]. intros ? s1 [ER HP].
  eapply ends_weaken; [exact HP|]. intros ? s2 (Hok2 & ER2 & Ex2).
  rewrite Ep in ER2. eapply ends_weaken; [exact (IH _ s2 Hok2 ER2 Ex2)|]. intros _ s' (H1' & H2' & y & Ey & HCl).
  split; [done|]. split; [done|]. exists y. split; [done|].
  refine (closed_cons fd l x (MkPF _ _) y _ eq_refl _ HCl); cbn [open_files].
  - rewrite zget_zset_eq; [done|]. by eapply zget_Some_range.
  - intros k N. by apply zget_zset_ne.
Qed.

(** [proc_exit] leaves only the working directory of the process. *)
Lemma exit_files_ok p x s : files_ok no_refs s -> running s = Some p -> zget (processes s) p = Some (Some x) ->
  ends exit_files (fun _ s' => files_ok no_refs s' /\
    exists y, zget (processes s') p = Some (Some y) /\ forall i, proc_refs i (Some y) = cwd_refs i (working_directory x)) s.
Proof.
  intros Hok Ep Ex. apply ends_bind, ends_reads. rewrite Ep.
  eapply ends_weaken; [by apply (close_files_ok p _ x)|]. intros _ s' (H1' & H2' & y & Ey & C1 & C2).
  split; [done|]. exists y. split; [done|]. intros i. cbn [proc_refs]. rewrite C1, zsum_zero; [lia|].
  intros f Hf. apply fd_refs_empty. intros T. apply list_elem_of_lookup in Hf as [k Ek].
  assert (zget (open_files y) (Z.of_nat k) = Some f) as Ek2.
  { unfold zget. destruct (Z.ltb_spec (Z.of_nat k) 0); [lia|]. by rewrite Nat2Z.id. }
  destruct (C2 _ f Ek2 T) as [HN _]. apply HN. apply elem_of_seqZ.
  pose proof (zget_Some_range _ _ _ Ek2) as HR.
  rewrite (pf_len y (pr_ok s' (fo_procs _ s' H1') p y Ey)) in HR. exact HR.
Qed.

Lemma keeps_file_call number a1 a2 a3 m : file_call number a1 a2 a3 = Some m -> keeps m.
Proof.
  intros Hm. assert (forall k : K Z, keeps k -> keeps (ret64 k)) as HR.
  { intros k Hk. apply keeps_bind; [done|]. intros. apply keeps_ret. }
  unfold file_call in Hm.
  repeat match type of Hm with
  | Some _ = Some _ => injection Hm as <-
  | None = Some _ => discriminate Hm
  | context [match ?x with _ => _ end] => destruct x
  end; apply HR; auto using keeps_sys_read, keeps_sys_write, keeps_sys_open, keeps_sys_close, keeps_sys_lseek,
    keeps_sys_ioctl, keeps_sys_rename, keeps_sys_unlink, keeps_sys_mkdir, keeps_sys_chdir, keeps_sys_readdir.
Qed.

Lemma device_file_refs j i r w : fd_refs j (MkFile FD_DEVICE (U_device i) 0 r w) = 0.
Proof. by apply fd_refs_empty. Qed.

(** A new process: its executable's inode is held by the call, the working
    directory is the caller's or the root. *)
Lemma exec_files_ok path wd proc s s1 s2 i u : files_ok no_refs s ->
  zget (processes s) proc = Some None ->
  (forall c, wd = Some c -> exists q x, zget (processes s) q = Some (Some x) /\ working_directory x = Some c) ->
  fs_open path wd 0 s = Ret (Some i, s1) -> exec_files proc (Some i) wd s1 = Ret (u, s2) ->
  files_ok no_refs s2.
Proof.
  intros Hok Hp Hwd E1.
  destruct (fs_open_ok no_refs path wd 0 s Hok ltac:(unfold no_refs; lia) _ _ E1) as ((EP & _) & Hi & Hok1).
  assert (forall w s3, files_ok (plus no_refs w 1) s3 -> processes s3 = processes s -> in_table w ->
    files_ok no_refs (set_processes s3 (zset (processes s3) proc (Some (MkPF (exec_open_files 0) (Some w)))))) as HF.
  { intros w s3 H3 EP3 Hw. apply (files_ok_put (plus no_refs w 1) no_refs s3 proc None).
    - done.
    - by rewrite EP3.
    - split; [done| |by intros j [= <-]]. intros k f Ek T.
      assert (fd_type f <> FD_INODE); [|done]. apply zget_elem in Ek. clear T.
      repeat (apply elem_of_cons in Ek as [->|Ek]; [done|]). by apply not_elem_of_nil in Ek.
    - intros j. cbn [proc_refs open_files working_directory]. rewrite cwd_refs_some, zsum_zero.
      { unfold plus, no_refs. lia. }
      intros f Ek. apply fd_refs_empty.
      repeat (apply elem_of_cons in Ek as [->|Ek]; [done|]). by apply not_elem_of_nil in Ek.
    - apply no_refs_range. }
  assert (0 < refs s1 i + plus no_refs i 1 i < 2 ^ 32) as Hc.
  { pose proof (files_cnt_range _ s1 i Hok1). pose proof (refs_range s1 i (fo_procs _ _ Hok1)).
    unfold plus, no_refs in *. rewrite Z.eqb_refl in *. lia. }
  revert u s2. unfold exec_files. change (device_index SERIAL_DEVICE_NAME) with 0. change (0 =? -1) with false.
  cbv iota zeta. apply (ends_bind (fs_close (Some i)) _ (fun _ s2 => files_ok no_refs s2)).
  eapply ends_weaken; [apply (fs_close_ends _ i s1 (fo_inodes _ _ Hok1) Hi Hc)|].
  intros ? s2 [HI2 (EP2 & _)].
  assert (files_ok no_refs s2) as Hok2.
  { eapply (files_ok_table _ no_refs i (-1) s1); [exact Hok1|exact HI2|done| |apply no_refs_range].
    intros j. unfold plus, no_refs. destruct (j =? i); lia. }
  apply ends_bind. destruct wd as [c|].
  - destruct (Hwd c eq_refl) as (q & x & Ex & Ec).
    assert (in_table c) as Hc2 by (by apply (pf_cwd x (pr_ok s (fo_procs _ _ Hok) q x Ex))).
    pose proof (refs_cwd s2 q x c (fo_procs _ _ Hok2) ltac:(by rewrite EP2, EP) Ec).
    apply ends_bind. eapply ends_weaken; [apply (fs_dup_ends _ c s2 (fo_inodes _ _ Hok2) Hc2)|].
    { pose proof (files_cnt_range _ s2 c Hok2). unfold no_refs in *. lia. }
    intros ? s3 [HI3 (EP3 & _)]. apply ends_ret, ends_modify. apply HF; [|by rewrite EP3, EP2, EP|done].
    eapply (files_ok_table no_refs _ c 1 s2); [done|exact HI3|done|done|apply plus_no_refs].
  - eapply ends_weaken; [apply (fs_open_ok no_refs); [done|unfold no_refs; lia]|].
    intros o s3 [(EP3 & _) HR]. destruct o as [w|]; [|apply ends_panic]. destruct HR as [Hw HR].
    apply ends_modify. apply HF; [done|by rewrite EP3, EP2, EP|done].
Qed.

End refs.

(** ** The end of a process *)

Section gap.
Context {D : Type} {E : Type}.
Implicit Types s : kstate D E.

Lemma coelesce_length behind : length (coelesce_files behind) = S (length behind).
Proof. induction behind as [|[x|] l IH]; cbn; [done|by rewrite IH|done]. Qed.

Lemma coelesce_elem behind q : q ∈ coelesce_files behind -> q = None \/ q ∈ behind.
Proof.
  induction behind as [|[x|] l IH]; cbn; rewrite ?elem_of_cons, ?elem_of_nil; [tauto| |tauto].
  intros [->|Hq]; [by auto|]. destruct (IH Hq); auto.
Qed.

Lemma coelesce_sum (f : option proc_files -> Z) behind : f None = 0 ->
  zsum (f <$> coelesce_files behind) = zsum (f <$> behind).
Proof.
  intros Hf. induction behind as [|[x|] l IH]; cbn [coelesce_files fmap list_fmap zsum]; [lia| |lia].
  change (f (Some x) + zsum (f <$> coelesce_files l) = f (Some x) + zsum (f <$> l)). lia.
Qed.

Lemma zsum_app l1 l2 : zsum (l1 ++ l2) = zsum l1 + zsum l2.
Proof. induction l1 as [|x l1 IH]; cbn [app zsum]; [done|]. rewrite IH. lia. Qed.

Lemma named_reclaim p s q i : zget (processes s) p = Some q ->
  named (reclaim_files p s) i = named s i - proc_refs i q.
Proof.
  intros Eq. pose proof (zget_Some_range _ _ _ Eq) as HR. unfold zget in Eq.
  destruct (Z.ltb_spec p 0); [lia|]. unfold named, reclaim_files. cbn [processes].
  rewrite <- (take_drop_middle _ _ _ Eq) at 3. rewrite !fmap_app, !zsum_app, fmap_cons, coelesce_sum by done.
  cbn [zsum]. lia.
Qed.

Lemma reclaim_elem p s q : q ∈ processes (reclaim_files p s) -> q = None \/ q ∈ processes s.
Proof.
  cbn [processes reclaim_files]. rewrite elem_of_app. intros [Hq|Hq].
  - right. apply list_elem_of_lookup in Hq as [k Ek]. rewrite lookup_take_Some in Ek.
    by eapply list_elem_of_lookup_2, Ek.
  - apply coelesce_elem in Hq as [Hq|Hq]; [by left|]. right.
    apply list_elem_of_lookup in Hq as [k Ek]. rewrite lookup_drop in Ek. by eapply list_elem_of_lookup_2.
Qed.

(** The process [p] is gone; what it still referred to is lost. *)
Lemma files_ok_reclaim lost lost' p y s : files_ok lost no_refs s -> zget (processes s) p = Some (Some y) ->
  (forall i, lost' i = lost i + proc_refs i (Some y)) ->
  files_ok lost' no_refs (reclaim_files p s).
Proof.
  intros [HI [HL HP] HE] Ey Hl. pose proof (zget_Some_range _ _ _ Ey) as HR. split; [|split|done].
  - cbn [inodes reclaim_files]. eapply inodes_ok_ext; [exact HI|]. intros i _.
    unfold refs. rewrite (named_reclaim p s (Some y)), Hl by done. lia.
  - revert HL. cbn [processes reclaim_files]. unfold zlen in *.
    rewrite length_app, length_take, coelesce_length, length_drop. lia.
  - intros k x Ex. apply zget_elem, reclaim_elem in Ex as [Ex|Ex]; [done|].
    apply list_elem_of_lookup in Ex as [m Em]. apply (HP (Z.of_nat m)). unfold zget.
    destruct (Z.ltb_spec (Z.of_nat m) 0); [lia|]. by rewrite Nat2Z.id.
Qed.
End gap.

(** ** Reachable states *)

Section reach.
Context {D : Type} `{BlockDevice D} {E : Type} `{KernelEnv E}.
Notation state := (kstate D E).
Implicit Types s : state.

Definition set_running s (p : option Z) : state :=
  MkK (main_filesystem s) (inodes s) (disk s) (processes s) p (env s).

(** The table and the processes at boot, whatever the disk holds. *)
Definition files_boot s : Prop :=
  inodes s = replicate (Z.to_nat MAX_INODES) inode_empty /\
  processes s = replicate (Z.to_nat MAX_PROCESSES) None.

(** One step: a system call of the running process, its end, a program
    started (in a fresh slot of the process table) or not, a context switch,
    and any change of memory and devices.  A step is labelled with the
    working directory of the process that ends, which nothing closes: only
    the page that names it is freed. *)
Inductive files_step : state -> list Z -> state -> Prop :=
| step_call number a1 a2 a3 m r s s' : file_call number a1 a2 a3 = Some m -> m s = Ret (r, s') ->
    files_step s [] s'
| step_end p x s s' : running s = Some p -> zget (processes s) p = Some (Some x) ->
    end_process p s = Ret (tt, s') -> files_step s (option_list (working_directory x)) s'
| step_exec path wd proc i s s1 s2 : zget (processes s) proc = Some None ->
    (forall c, wd = Some c -> exists q x, zget (processes s) q = Some (Some x) /\ working_directory x = Some c) ->
    fs_open path wd 0 s = Ret (Some i, s1) -> exec_files proc (Some i) wd s1 = Ret (tt, s2) ->
    files_step s [] s2
| step_exec_bad path wd i s s1 s2 : fs_open path wd 0 s = Ret (Some i, s1) ->
    fs_close (Some i) s1 = Ret (tt, s2) -> files_step s [] s2
| step_switch p s : files_step s [] (set_running s p)
| step_env e s : files_step s [] (set_env s e).

(** [files_reachable lost s]: since boot, processes with the working
    directories [lost] have ended. *)
Inductive files_reachable : list Z -> state -> Prop :=
| reach_boot s : files_boot s -> files_reachable [] s
| reach_step lost gone s s' : files_reachable lost s -> files_step s gone s' -> files_reachable (gone ++ lost) s'.

Definition lost_refs (lost : list Z) (i : Z) : Z := zsum ((fun c => cwd_refs i (Some c)) <$> lost).

Lemma lost_refs_range lost i : zlen lost < 2 ^ 31 -> 0 <= lost_refs lost i < 2 ^ 31.
Proof.
  intros HL. pose proof (zsum_bound (fun c => cwd_refs i (Some c)) 1 lost
    ltac:(intros; apply cwd_refs_range)). unfold lost_refs. lia.
Qed.

Lemma lost_refs_zero lost i : lost_refs lost i = 0 <-> i ∉ lost.
Proof.
  split.
  - intros E0 Hi. pose proof (zsum_elem (fun c => cwd_refs i (Some c)) lost i
      ltac:(intros y _; pose proof (cwd_refs_range i (Some y)); lia) Hi) as HE.
    cbv beta in HE. rewrite cwd_refs_some, Z.eqb_refl in HE. unfold lost_refs in E0. lia.
  - intros Hi. apply zsum_zero. intros c Hc. rewrite cwd_refs_some.
    destruct (Z.eqb_spec i c) as [->|]; [done|done].
Qed.

Lemma lost_refs_gone c lost i : lost_refs (option_list c ++ lost) i = lost_refs lost i + cwd_refs i c.
Proof.
  destruct c as [c|].
  - change (cwd_refs i (Some c) + lost_refs lost i = lost_refs lost i + cwd_refs i (Some c)). lia.
  - change (lost_refs lost i = lost_refs lost i + cwd_refs i None).
    unfold cwd_refs. rewrite bool_decide_false by done. lia.
Qed.

Lemma files_boot_ok s : files_boot s -> files_ok (lost_refs []) no_refs s.
Proof.
  intros [EI EP].
  assert (forall {A} n (x y : A) k, zget (replicate n x) k = Some y -> y = x) as HR.
  { intros A n x y k E'. unfold zget in E'. destruct (k <? 0); [done|]. by apply lookup_replicate in E' as [-> _]. }
  assert (forall i, refs (lost_refs []) s i = 0) as E0.
  { intros i. unfold refs, named. rewrite EP, zsum_zero; [done|]. intros q Hq. by apply elem_of_replicate_inv in Hq as ->. }
  split; [|split; rewrite EP; [done|]; intros p x Ex; by apply HR in Ex|apply no_refs_range].
  rewrite EI. split; [done| | |]; intros i n *; try (intros En; apply HR in En as ->).
  - rewrite E0. done.
  - done.
  - intros _ T. done.
Qed.

Lemma files_step_ok lost gone s s' : zlen (gone ++ lost) < 2 ^ 31 -> files_ok (lost_refs lost) no_refs s ->
  files_step s gone s' -> files_ok (lost_refs (gone ++ lost)) no_refs s'.
Proof.
  intros HL Hok Hs. rewrite zlen_app in HL.
  assert (forall i, 0 <= lost_refs lost i < 2 ^ 31) as HR.
  { intros i. apply lost_refs_range. pose proof (zlen_nonneg gone). lia. }
  destruct Hs as [n a1 a2 a3 m r s s' Hm Er|p x s s' Ep Ex Er|path wd proc i s s1 s2 Hp Hwd E1 E2|
    path wd i s s1 s2 E1 E2|p s|e s].
  - by apply (keeps_file_call _ HR n a1 a2 a3 m Hm s Hok r).
  - revert s' Er. apply (ends_bind exit_files _ (fun _ s' => files_ok _ no_refs s') s).
    eapply ends_weaken; [by apply (exit_files_ok _ HR p x)|]. intros _ s' (Hok' & y & Ey & Hy).
    apply ends_modify. eapply files_ok_reclaim; [exact Hok'|exact Ey|]. intros i. by rewrite lost_refs_gone, Hy.
  - by eapply exec_files_ok.
  - destruct (fs_open_ok _ HR no_refs path wd 0 s Hok ltac:(unfold no_refs; lia) _ _ E1) as (_ & Hi & Hok1).
    pose proof (files_cnt_range _ HR _ s1 i Hok1). pose proof (refs_range _ HR s1 i (fo_procs _ _ _ Hok1)).
    assert (0 < refs (lost_refs lost) s1 i + plus no_refs i 1 i < 2 ^ 32) as Hc.
    { unfold plus, no_refs in *. rewrite Z.eqb_refl in *. lia. }
    destruct (fs_close_ends _ i s1 (fo_inodes _ _ _ Hok1) Hi Hc _ _ E2) as [HI2 (EP2 & _)].
    eapply (files_ok_table _ _ no_refs i (-1) s1); [exact Hok1|exact HI2|done| |apply no_refs_range].
    intros j. unfold plus, no_refs. destruct (j =? i); lia.
  - by apply (files_ok_same _ no_refs s).
  - by apply keeps_env.
Qed.

Lemma files_reachable_ok lost s : files_reachable lost s -> zlen lost < 2 ^ 31 ->
  files_ok (lost_refs lost) no_refs s.
Proof.
  intros Hr. induction Hr as [s Hb|lost gone s s' _ IH Hs]; intros HL; [by apply files_boot_ok|].
  eapply files_step_ok; [done| |done]. apply IH. rewrite zlen_app in HL. pose proof (zlen_nonneg gone). lia.
Qed.

(** C2: the reference counts are right.  From boot on, whatever sequence of
    file system calls, starts and ends of processes and context switches,
    whatever the disk answers, and as long as fewer than 2^31 processes have
    ended: every inode's count is exactly the number of descriptors and
    working directories that name it plus the number of ended processes
    whose working directory it was (their reference is never given back); an
    inode is free exactly when nothing names it and no process has ended in
    it; no two inodes in use stand for the same dnode; and every open
    descriptor names an inode of the table that is in use. *)
Theorem files_reachable_refs lost s : files_reachable lost s -> zlen lost < 2 ^ 31 ->
  (forall i n, zget (inodes s) i = Some n ->
     i_reference_count n = named s i + lost_refs lost i /\
     (i_type n = INODE_EMPTY <-> named s i = 0 /\ i ∉ lost)) /\
  (forall i j n m, zget (inodes s) i = Some n -> zget (inodes s) j = Some m ->
     i_type n <> INODE_EMPTY -> i_type m <> INODE_EMPTY -> i_dnode n = i_dnode m -> i = j) /\
  (forall p x fd f, zget (processes s) p = Some (Some x) -> zget (open_files x) fd = Some f ->
     fd_type f = FD_INODE ->
     exists i n, fd_structures f = U_inode (Some i) /\ zget (inodes s) i = Some n /\
       i_type n <> INODE_EMPTY).
Proof.
  intros Hr HL. pose proof (files_reachable_ok lost s Hr HL) as Hok. pose proof (fo_inodes _ _ s Hok) as HI.
  pose proof (fun i => lost_refs_range lost i HL) as HR.
  split; [|split].
  - intros i n En. pose proof (ino_count _ _ HI i n En) as HC. pose proof (ino_type _ _ HI i n En) as HT.
    unfold refs, no_refs in HC. rewrite Z.add_0_r in HC. split; [done|]. rewrite HT, HC, <- lost_refs_zero.
    pose proof (named_nonneg s i (fo_procs _ _ s Hok)). specialize (HR i). lia.
  - apply (ino_dnode _ _ HI).
  - intros p x fd f Ex Ef T.
    destruct (pf_fd x (pr_ok s (fo_procs _ _ s Hok) p x Ex) fd f Ef T) as (i & U & Hi).
    destruct (inodes_get _ _ i HI Hi) as (n & En & Rn & Tn). exists i, n. split; [done|]. split; [done|].
    rewrite Tn. pose proof (refs_fd _ HR s p x fd f i (fo_procs _ _ s Hok) Ex Ef T U). unfold no_refs. lia.
Qed.
End reach.
