(* ===== verification/FilesFacts.v ===== *)
(** * What the file calls compute

    The functional behaviour of Files.v: opening an inode, seeking, writing
    and reading back through a descriptor, and the records of [fs_readdir]. *)
From S2P Require Import Prelude Mem DzFS Files Syscalls FilesInv.

Section facts.
Context {D : Type} `{BlockDeviceLaws D} {E : Type}.
Notation state := (kstate D E).
Implicit Types s : state.

(** ** Running one step *)

Lemma get_inode_run s i n : zget (inodes s) i = Some n -> get_inode (Some i) s = Ret (n, s).
Proof. intros En. unfold get_inode, mbind, st_bind, reads. cbn. by rewrite En. Qed.

Lemma fsio_run {A} (m : io (D := D) A) s r d : m (disk s) = Ret (r, d) -> fsio m s = Ret (r, set_disk s d).
Proof. intros E'. unfold fsio. by rewrite E'. Qed.

(** ** [fs_open] *)

(** What [fs_open] does once dzfs.c has found [dnode]. *)
Definition open_outcome (s : state) (dnode parent : Z) (d : D) (o : outcome (option Z * state)) : Prop :=
  (exists i n, zget (inodes s) i = Some n /\ i_type n <> INODE_EMPTY /\ i_dnode n = dnode /\
     o = Ret (Some i, set_inodes (set_disk s d)
                        (zset (inodes s) i (set_refs n (i_reference_count n + 1))))) \/
  ((forall i n, zget (inodes s) i = Some n -> i_type n <> INODE_EMPTY -> i_dnode n <> dnode) /\
   (((forall i n, zget (inodes s) i = Some n -> i_type n <> INODE_EMPTY) /\ o = Ret (None, set_disk s d)) \/
    exists i old, zget (inodes s) i = Some old /\ i_type old = INODE_EMPTY /\
      forall st d2, dzfs_stat dnode d = Ret (inr st, d2) ->
        (st_type st = DZFS_ENTITY_FILE \/ st_type st = DZFS_ENTITY_FOLDER) ->
        o = Ret (Some i, set_inodes (set_disk s d2) (zset (inodes s) i
               (MkInode (if st_type st =? DZFS_ENTITY_FILE then INODE_FILE else INODE_DIRECTORY)
                  dnode parent (st_size st) 1))))).

(** The dnode a path is relative to. *)
Definition start_dnode (s : state) (relative_to : option Z) (rl : Z) : Prop :=
  match relative_to with
  | None => rl = root_dnode (main_filesystem s)
  | Some i => exists n, zget (inodes s) i = Some n /\ rl = i_dnode n
  end.

Lemma start_dnode_run s relative_to rl : start_dnode s relative_to rl ->
  (match relative_to with
   | None => mret (root_dnode (main_filesystem s))
   | Some _ => n ← get_inode relative_to; mret (i_dnode n)
   end) s = Ret (rl, s).
Proof.
  destruct relative_to as [i|]; [|by intros ->]. intros (n & En & ->).
  by rewrite (bind_step _ _ _ _ _ (get_inode_run s i n En)).
Qed.

(** C21: [fs_open] opens through the table of inodes.  When dzfs.c does not
    find (or create) the path the result is NULL and only the disk may have
    changed.  Otherwise, on a table that agrees with its reference counts:
    an inode in use for the dnode is shared, its count one higher; without
    one a free inode is filled in with the dnode, its parent, its type and
    its size and the count 1; and with neither the result is NULL. *)
Theorem fs_open_correct s cnt path relative_to fl rl r d :
  inodes_ok cnt (inodes s) -> (forall i, in_table i -> 0 <= cnt i < 2 ^ 32 - 1) ->
  start_dnode s relative_to rl ->
  dzfs_open_relative (main_filesystem s) path rl fl (disk s) = Ret (r, d) ->
  match r with
  | inl _ => fs_open path relative_to fl s = Ret (None, set_disk s d)
  | inr (dnode, parent) => open_outcome s dnode parent d (fs_open path relative_to fl s)
  end.
Proof.
  intros Hok Hc Hrl Hd.
  assert (forall Q : outcome (option Z * state) -> Prop,
    Q (match r with
       | inl _ => mret None
       | inr (dnode, parent) =>
           l ← reads inodes;
           match scan_inodes l 0 dnode None with
           | (Some i, _) => _ ← fs_dup (Some i); mret (Some i)
           | (None, Some i) => fill_inode i dnode parent
           | (None, None) => mret None
           end
       end (set_disk s d)) -> Q (fs_open path relative_to fl s)) as HO.
  { intros Q HQ. unfold fs_open, the_fs.
    rewrite (bind_step (reads main_filesystem) _ s _ s eq_refl).
    rewrite (bind_step _ _ s rl s (start_dnode_run s relative_to rl Hrl)).
    by rewrite (bind_step _ _ s _ _ (fsio_run _ s r d Hd)). }
  destruct r as [e|[dnode parent]]; [by apply HO|]. apply HO. clear HO.
  rewrite (bind_step (reads inodes) _ (set_disk s d) (inodes s) _ eq_refl).
  pose proof (scan_inodes_spec dnode (inodes s) 0 None) as HS.
  assert (forall i n, zget (inodes s) i = Some n -> i_dnode n = dnode -> i_type n <> INODE_EMPTY ->
            open_outcome s dnode parent d ((_ ← fs_dup (Some i); mret (Some i)) (set_disk s d))) as HF.
  { intros i n En Ed Tn. left. exists i, n. split; [done|]. split; [done|]. split; [done|].
    pose proof (zget_Some_range _ _ _ En) as Hi. rewrite (ino_len _ _ Hok) in Hi.
    unfold fs_dup, mbind, st_bind. rewrite (get_inode_run (set_disk s d) i n En).
    rewrite wrap_small; [done|]. rewrite (ino_count _ _ Hok i n En). specialize (Hc i Hi). lia. }
  destruct (scan_inodes (inodes s) 0 dnode None) as [[i|] [f|]].
  - destruct HS as (n & En & Ed & Tn). rewrite Z.sub_0_r in En. by apply (HF i n).
  - destruct HS as (n & En & Ed & Tn). rewrite Z.sub_0_r in En. by apply (HF i n).
  - destruct HS as [HN [(n & En & Tn)|?]]; [|done]. rewrite Z.sub_0_r in En. right. split; [done|].
    right. exists f, n. split; [done|]. split; [done|]. intros st d2 Est HT.
    unfold fill_inode. rewrite (bind_step _ _ _ _ _ (get_inode_run (set_disk s d) f n En)).
    rewrite (bind_step _ _ _ _ _ (fsio_run _ (set_disk s d) _ _ Est)).
    destruct HT as [-> | ->]; reflexivity.
  - destruct HS as [_ HN]. right. split; [intros i n En _; by apply (HN i n En)|]. left.
    split; [|done]. intros i n En. by apply (HN i n En).
Qed.

(** ** Descriptors *)

(** [f] is the descriptor [fd] of the running process. *)
Definition fd_view (s : state) (fd : Z) (f : process_file) : Prop :=
  exists p x, running s = Some p /\ zget (processes s) p = Some (Some x) /\
    zget (open_files x) fd = Some f /\ zlen (open_files x) = MAX_OPEN_FILES.

Lemma fd_view_range s fd f : fd_view s fd f -> bad_fd fd = false.
Proof.
  intros (p & x & _ & _ & Ef & Hl). pose proof (zget_Some_range _ _ _ Ef) as HR. rewrite Hl in HR.
  unfold bad_fd. apply orb_false_iff. split; [apply Z.ltb_ge|apply Z.leb_gt]; lia.
Qed.

Lemma get_fd_run s fd f : fd_view s fd f -> get_fd (running s) fd s = Ret (f, s).
Proof.
  intros (p & x & Ep & Ex & Ef & _). unfold get_fd, get_files, mbind, st_bind, reads. rewrite Ep. cbn.
  rewrite Ex. cbn. by rewrite Ef.
Qed.

(** Writing a descriptor: what else stays. *)
Lemma put_fd_run s fd f g : fd_view s fd f ->
  exists s', put_fd (running s) fd g s = Ret (tt, s') /\ fd_view s' fd g /\ inodes s' = inodes s /\
    disk s' = disk s /\ main_filesystem s' = main_filesystem s.
Proof.
  intros (p & x & Ep & Ex & Ef & Hl). unfold put_fd, get_files, mbind, st_bind, reads. rewrite Ep. cbn.
  rewrite Ex. cbn. eexists. split; [reflexivity|]. split; [|done].
  pose proof (zget_Some_range _ _ _ Ex). pose proof (zget_Some_range _ _ _ Ef).
  exists p, (MkPF (zset (open_files x) fd g) (working_directory x)). cbn [running processes set_processes open_files].
  split; [done|]. split; [by apply zget_zset_eq|]. split; [by apply zget_zset_eq|]. by rewrite zlen_zset.
Qed.

Lemma running_run s : my_process s = Ret (running s, s).
Proof. done. Qed.

(** The start of the functions of file.c on a good descriptor. *)
Lemma file_step {A} s fd f p (k : process_file -> ST state A) : fd_view s fd f -> running s = Some p ->
  (f ← get_fd (Some p) fd; k f) s = k f s.
Proof. intros Hv Ep. rewrite <- Ep. by rewrite (bind_step _ _ _ _ _ (get_fd_run s fd f Hv)). Qed.

Lemma file_seek_run s fd f i n offset whence p : fd_view s fd f -> running s = Some p ->
  fd_type f = FD_INODE -> fd_structures f = U_inode (Some i) -> zget (inodes s) i = Some n ->
  file_seek fd offset whence s =
  match seek_target f (i_size n) offset whence with
  | None => Ret (-1, s)
  | Some o => (_ ← put_fd (Some p) fd (set_offset f (if i_size n <? o then i_size n else o));
               mret (sgn 32 (if i_size n <? o then i_size n else o)) : ST state Z) s
  end.
Proof.
  intros Hv Ep T U En. pose proof (fd_view_range s fd f Hv) as Hb.
  unfold file_seek. rewrite (bind_step _ _ _ _ _ (running_run s)), Ep, Hb.
  rewrite (file_step s fd f p _ Hv Ep), T. change (negb (FD_INODE =? FD_INODE)) with false. cbv iota.
  unfold the_inode. rewrite U, (bind_step (mret (Some i)) _ s (Some i) s eq_refl).
  rewrite (bind_step _ _ _ _ _ (get_inode_run s i n En)).
  by destruct (seek_target f (i_size n) offset whence).
Qed.

(** [file_seek] moves the offset of a descriptor and never past the end
    of the file: for every offset and [whence] the new offset is the target
    reduced to 32 bits, at most the size; so a target between 0 and the size
    is reached exactly, and a target before the beginning, where lseek would
    fail, lands at the end of the file.  With [SEEK_END] a positive offset
    goes back from the end.  Any other [whence] returns -1 and changes
    nothing. *)
Theorem file_seek_correct s fd f i n offset whence : fd_view s fd f -> fd_type f = FD_INODE ->
  fd_structures f = U_inode (Some i) -> zget (inodes s) i = Some n -> 0 <= i_size n < 2 ^ 31 ->
  0 <= fd_offset f < 2 ^ 32 ->
  let target := if whence =? SEEK_SET then Some offset
                else if whence =? SEEK_CUR then Some (fd_offset f + offset)
                else if whence =? SEEK_END then Some (i_size n - offset) else None in
  match target with
  | None => file_seek fd offset whence s = Ret (-1, s)
  | Some t =>
      exists o s', file_seek fd offset whence s = Ret (o, s') /\ fd_view s' fd (set_offset f o) /\
        0 <= o <= i_size n /\ (0 <= t <= i_size n -> o = t) /\
        (i_size n - 2 ^ 32 < t < 0 \/ i_size n <= t < 2 ^ 32 -> o = i_size n)
  end.
Proof.
  intros Hv T U En Hs Ho. cbv zeta.
  destruct Hv as (p & x & Ep & Hx). assert (fd_view s fd f) as Hv by (by exists p, x).
  rewrite (file_seek_run s fd f i n offset whence p Hv Ep T U En).
  assert (forall t, exists o s', (_ ← put_fd (Some p) fd (set_offset f (if i_size n <? wrap 32 t then i_size n else wrap 32 t));
            mret (sgn 32 (if i_size n <? wrap 32 t then i_size n else wrap 32 t)) : ST state Z) s = Ret (o, s') /\
          fd_view s' fd (set_offset f o) /\
          0 <= o <= i_size n /\ (0 <= t <= i_size n -> o = t) /\
          (i_size n - 2 ^ 32 < t < 0 \/ i_size n <= t < 2 ^ 32 -> o = i_size n)) as HP.
  { intros t. set (o := if i_size n <? wrap 32 t then i_size n else wrap 32 t).
    pose proof (wrap_range 32 t ltac:(lia)).
    assert (0 <= o <= i_size n) as Hr by (unfold o; destruct (Z.ltb_spec (i_size n) (wrap 32 t)); lia).
    destruct (put_fd_run s fd f (set_offset f o) Hv) as (s' & E1 & Hv' & _). rewrite Ep in E1.
    exists o, s'. rewrite (bind_step _ _ _ _ _ E1). split; [by rewrite sgn_small by lia|].
    split; [done|]. split; [done|]. split.
    - intros Ht. unfold o. rewrite wrap_small by lia. destruct (Z.ltb_spec (i_size n) t); lia.
    - intros [Ht|Ht].
      + assert (wrap 32 t = t + 2 ^ 32) as Et.
        { unfold wrap. symmetry. apply Z.mod_unique with (-1); lia. }
        unfold o. rewrite Et. destruct (Z.ltb_spec (i_size n) (t + 2 ^ 32)); lia.
      + unfold o. rewrite wrap_small by lia. destruct (Z.ltb_spec (i_size n) t); lia. }
  unfold seek_target. destruct (whence =? SEEK_SET); [apply HP|]. destruct (whence =? SEEK_CUR); [apply HP|].
  destruct (whence =? SEEK_END); [|done]. rewrite wrap_sub_r. apply HP.
Qed.

(** ** Writing and reading back *)

Lemma fs_write_run s i n data offset r d : zget (inodes s) i = Some n ->
  dzfs_write (main_filesystem s) (i_dnode n) data offset (disk s) = Ret (r, d) ->
  0 <= offset + zlen data < 2 ^ 31 -> zlen data < 2 ^ 31 ->
  exists s', fs_write (Some i) data offset s = Ret (match r with inl _ => -1 | inr _ => zlen data end, s') /\
    disk s' = d /\ processes s' = processes s /\ running s' = running s /\
    main_filesystem s' = main_filesystem s /\
    (r = inr tt -> exists n', zget (inodes s') i = Some n' /\ i_dnode n' = i_dnode n /\
       i_size n' = Z.max (i_size n) (offset + zlen data)).
Proof.
  intros En Ed Hb Hl. pose proof (zlen_nonneg data). unfold fs_write, the_fs.
  rewrite (bind_step (reads main_filesystem) _ s _ s eq_refl).
  rewrite (bind_step _ _ _ _ _ (get_inode_run s i n En)).
  rewrite (bind_step _ _ _ _ _ (fsio_run _ s r d Ed)).
  destruct r as [e|[]]; [by eexists|]. rewrite !wrap_small by lia. pose proof (zget_Some_range _ _ _ En).
  destruct (Z.ltb_spec (i_size n) (offset + zlen data)); eexists.
  - split; [rewrite (sgn_small 32 (zlen data)) by lia; reflexivity|]. split_and!; try done. intros _. eexists.
    split; [by apply zget_zset_eq|]. split; [done|]. cbn [i_size set_size]. lia.
  - split; [rewrite (sgn_small 32 (zlen data)) by lia; reflexivity|]. split_and!; try done. intros _. exists n.
    split; [done|]. split; [done|]. lia.
Qed.

Lemma fs_read_run s i n len offset l d : zget (inodes s) i = Some n ->
  dzfs_read (main_filesystem s) (i_dnode n) len offset (disk s) = Ret (inr l, d) -> zlen l < 2 ^ 31 ->
  fs_read (Some i) len offset s = Ret ((zlen l, l), set_disk s d).
Proof.
  intros En Ed Hl. pose proof (zlen_nonneg l). unfold fs_read, the_fs.
  rewrite (bind_step (reads main_filesystem) _ s _ s eq_refl).
  rewrite (bind_step _ _ _ _ _ (get_inode_run s i n En)).
  rewrite (bind_step _ _ _ _ _ (fsio_run _ s _ d Ed)). by rewrite sgn_small by lia.
Qed.

Lemma the_inode_run s f i : fd_structures f = U_inode i -> the_inode f s = Ret (i, s).
Proof. unfold the_inode. by intros ->. Qed.

Lemma file_write_run s fd f i p data r s1 : fd_view s fd f -> running s = Some p -> fd_type f = FD_INODE ->
  fd_structures f = U_inode (Some i) -> writable f = true ->
  fs_write (Some i) data (fd_offset f) s = Ret (r, s1) -> processes s1 = processes s ->
  running s1 = running s ->
  if r <? 0 then file_write fd data s = Ret (r, s1)
  else exists s2, file_write fd data s = Ret (r, s2) /\
    fd_view s2 fd (set_offset f (wrap 32 (fd_offset f + r))) /\ inodes s2 = inodes s1 /\ disk s2 = disk s1 /\
    main_filesystem s2 = main_filesystem s1 /\ running s2 = Some p.
Proof.
  intros Hv Ep T U W Ew EP ER. pose proof (fd_view_range s fd f Hv) as Hb.
  assert (fd_view s1 fd f) as Hv1.
  { destruct Hv as (p' & x & H1' & H2' & H3'). exists p', x. by rewrite ER, EP. }
  assert (file_write fd data s = (if r <? 0 then mret r
            else _ ← put_fd (Some p) fd (set_offset f (wrap 32 (fd_offset f + r))); mret r : ST state Z) s1) as ->.
  { unfold file_write. rewrite (bind_step _ _ _ _ _ (running_run s)), Ep, Hb.
    rewrite (file_step s fd f p _ Hv Ep), T, W. change (negb true || negb (FD_INODE =? FD_INODE)) with false.
    cbv iota. rewrite (bind_step _ _ _ _ _ (the_inode_run s f _ U)). by rewrite (bind_step _ _ _ _ _ Ew). }
  destruct (r <? 0); [done|]. rewrite Ep in ER.
  destruct (put_fd_run s1 fd f (set_offset f (wrap 32 (fd_offset f + r))) Hv1) as (s2 & E2 & Hv2 & EI & ED & EF).
  rewrite ER in E2. exists s2. rewrite (bind_step _ _ _ _ _ E2). split_and!; try done.
  destruct Hv1 as (p' & x & H1' & H2' & _). unfold put_fd, get_files, mbind, st_bind, reads in E2. cbn in E2.
  rewrite ER in H1'. injection H1' as <-. rewrite H2' in E2. cbn in E2. by injection E2 as <-.
Qed.

Lemma file_read_run s fd f i p len data s1 : fd_view s fd f -> running s = Some p -> fd_type f = FD_INODE ->
  fd_structures f = U_inode (Some i) -> readble f = true ->
  fs_read (Some i) len (fd_offset f) s = Ret ((zlen data, data), s1) -> processes s1 = processes s ->
  running s1 = running s ->
  exists s2, file_read fd len s = Ret ((zlen data, data), s2) /\
    fd_view s2 fd (set_offset f (wrap 32 (fd_offset f + zlen data))).
Proof.
  intros Hv Ep T U W Ew EP ER. pose proof (fd_view_range s fd f Hv) as Hb.
  assert (fd_view s1 fd f) as Hv1.
  { destruct Hv as (p' & x & H1' & H2' & H3'). exists p', x. by rewrite ER, EP. }
  destruct (put_fd_run s1 fd f (set_offset f (wrap 32 (fd_offset f + zlen data))) Hv1) as (s2 & E2 & Hv2 & _).
  exists s2. split; [|done]. unfold file_read. rewrite (bind_step _ _ _ _ _ (running_run s)), Ep, Hb.
  rewrite (file_step s fd f p _ Hv Ep), T, W. change (negb true || negb (FD_INODE =? FD_INODE)) with false.
  cbv iota. rewrite (bind_step _ _ _ _ _ (the_inode_run s f _ U)), (bind_step _ _ _ _ _ Ew).
  destruct (Z.ltb_spec (zlen data) 0); [pose proof (zlen_nonneg data); lia|].
  rewrite ER, Ep in E2. by rewrite (bind_step _ _ _ _ _ E2).
Qed.

Lemma written_bytes d dnb ind offset data d' dnb' ind' : written d dnb ind offset data d' dnb' ind' ->
  fbyte d' dnb' ind' <$> seqZ offset (zlen data) = data.
Proof.
  intros [HW _]. apply list_eq. intros k. rewrite list_lookup_fmap.
  destruct (decide (k < length data)%nat) as [L|L].
  - destruct (lookup_lt_is_Some_2 data k L) as [x Ex]. rewrite Ex.
    assert (seqZ offset (zlen data) !! k = Some (offset + Z.of_nat k)) as ->.
    { apply lookup_seqZ. unfold zlen. lia. }
    cbn. f_equal.
    apply HW. unfold zget. destruct (Z.ltb_spec (Z.of_nat k) 0); [lia|]. by rewrite Nat2Z.id.
  - rewrite (lookup_ge_None_2 data k) by lia. rewrite lookup_ge_None_2; [done|].
    rewrite length_seqZ. unfold zlen. lia.
Qed.

(** C22: what is written through a descriptor is read back.  On a well-formed
    file, writing [data] through a descriptor opened for reading and writing
    either fails with -1, and then no block is left on the disk, one the
    write needed was missing, and the descriptor and the file's dnode are as
    before, or it returns the length of [data]; then seeking back to where the write began returns that
    offset, and reading as many bytes returns exactly [data]. *)
Theorem file_write_read_back s fd f i n dnb ind data p :
  fd_view s fd f -> running s = Some p -> fd_type f = FD_INODE -> fd_structures f = U_inode (Some i) ->
  readble f = true -> writable f = true -> zget (inodes s) i = Some n -> 0 <= i_size n < 2 ^ 31 ->
  fs_ok (main_filesystem s) (disk s) -> file_on (disk s) (i_dnode n) dnb ind ->
  file_ok (main_filesystem s) (disk s) (i_dnode n) dnb ind ->
  0 <= fd_offset f <= load32 dnb f_size -> load32 dnb f_size + zlen data <= DZFS_MAX_FILESIZE ->
  Forall (fun x => 0 <= x < 256) data ->
  exists r s1, file_write fd data s = Ret (r, s1) /\
    (r = -1 /\ write_full (main_filesystem s) (disk s) dnb ind (fd_offset f) data (disk s1) /\
       fd_view s1 fd f /\ file_on (disk s1) (i_dnode n) dnb ind \/
     r = zlen data /\ exists s2 s3,
       file_seek fd (fd_offset f) SEEK_SET s1 = Ret (fd_offset f, s2) /\
       file_read fd (zlen data) s2 = Ret ((zlen data, data), s3)).
Proof.
  intros Hv Ep T U R W En Hs Hfs Hon Hok Ho Hmax Hby. pose proof (zlen_nonneg data).
  assert (DZFS_MAX_FILESIZE < 2 ^ 31) as HM by done.
  destruct (dzfs_write_spec (main_filesystem s) (disk s) (i_dnode n) dnb ind data (fd_offset f) Hfs Hon Hok Ho
    ltac:(lia) Hby) as (r & d' & Ew & HR).
  destruct (fs_write_run s i n data (fd_offset f) r d' En Ew ltac:(lia) ltac:(lia))
    as (sa & Ea & Eda & Epa & Era & Efa & Hna).
  pose proof (file_write_run s fd f i p data _ sa Hv Ep T U W Ea Epa Era) as HF.
  destruct HR as [(-> & Hfull & Hon' & _)|(-> & dnb' & ind' & Hfs' & Hon' & Hok' & HW & HS & _)].
  { exists (-1), sa. split; [exact HF|left]. subst d'. split; [done|]. split; [exact Hfull|].
    split; [|done]. unfold fd_view in *. by rewrite Epa, Era. }
  destruct (Z.ltb_spec (zlen data) 0); [lia|]. destruct HF as (s1 & E1 & Hv1 & EI1 & ED1 & EF1 & ER1).
  exists (zlen data), s1. split; [done|]. right. split; [done|].
  destruct (Hna eq_refl) as (n' & En' & Edn & Esz). rewrite <- EI1 in En'.
  assert (wrap 32 (fd_offset f) = fd_offset f) as Ewr by (apply wrap_small; lia).
  pose proof (file_seek_run s1 fd _ i n' (fd_offset f) SEEK_SET p Hv1 ER1 T U En') as ES.
  unfold seek_target in ES. change (SEEK_SET =? SEEK_SET) with true in ES. cbv iota in ES. rewrite Ewr in ES.
  destruct (Z.ltb_spec (i_size n') (fd_offset f)) as [|_]; [lia|].
  destruct (put_fd_run s1 fd _ (set_offset f (fd_offset f)) Hv1) as (s2 & E2 & Hv2 & EI2 & ED2 & EF2).
  assert (running s2 = Some p) as ER2.
  { destruct Hv1 as (q & x & H1' & H2' & _). revert E2. rewrite ER1. unfold put_fd, get_files, mbind, st_bind, reads.
    cbn. rewrite ER1 in H1'. injection H1' as <-. rewrite H2'. cbn. by intros [= <-]. }
  rewrite ER1 in E2. unfold set_offset in ES at 1. cbn [fd_type fd_structures readble writable] in ES.
  change (MkFile (fd_type f) (fd_structures f) (fd_offset f) (readble f) (writable f))
    with (set_offset f (fd_offset f)) in ES.
  rewrite (bind_step _ _ _ _ _ E2), sgn_small in ES by lia. exists s2.
  rewrite <- EI2 in En'. rewrite <- Eda, <- ED1, <- ED2 in Hfs', Hon', Hok', HW. rewrite <- Edn in Hon', Hok'.
  rewrite wrap_small in HS by lia.
  assert (main_filesystem s = main_filesystem s2) as EF by congruence. rewrite EF in Hfs', Hok'.
  pose proof (dzfs_read_spec (main_filesystem s2) (disk s2) (i_dnode n') dnb' ind' (zlen data) (fd_offset f)
    Hfs' Hon' Hok' ltac:(lia) ltac:(lia) ltac:(lia)) as Erd.
  rewrite Z.min_r in Erd by lia. rewrite (written_bytes _ _ _ _ _ _ _ _ HW) in Erd.
  pose proof (fs_read_run s2 i n' (zlen data) (fd_offset f) data _ En' Erd ltac:(lia)) as Efr.
  destruct (file_read_run s2 fd (set_offset f (fd_offset f)) i p (zlen data) data _ Hv2 ER2 T U R Efr eq_refl eq_refl)
    as (s3 & E3 & _).
  exists s3. by split.
Qed.

(** ** Directory records *)

Lemma try_read_reads b (d : D) : exists r, try_read b d = Ret (r, d).
Proof.
  unfold try_read, read_opt, io_get, mbind, io_bind, mret, io_ret, io_fail.
  destruct (read_block b d); by eexists.
Qed.

Lemma reads_bind {A B} (m : io (D := D) A) (f : A -> io B) d : (exists r, m d = Ret (r, d)) ->
  (forall a, exists r, f a d = Ret (r, d)) -> exists r, (m ≫= f) d = Ret (r, d).
Proof. intros [[e|a] Em] Hf; unfold mbind, io_bind; rewrite Em; [by eexists|apply Hf]. Qed.

Lemma dzfs_stat_reads dnode (d : D) : exists r, dzfs_stat dnode d = Ret (r, d).
Proof.
  unfold dzfs_stat. apply reads_bind; [apply try_read_reads|]. intros m. cbv zeta.
  destruct (_ =? _); [by eexists|]. destruct (_ =? _); by eexists.
Qed.

Lemma dzfs_read_dir_reads dnode offset (d : D) : exists r, dzfs_read_dir dnode offset d = Ret (r, d).
Proof.
  unfold dzfs_read_dir. apply reads_bind; [apply try_read_reads|]. intros m. cbv zeta.
  destruct (negb _); [by eexists|]. destruct (_ <=? _); [by eexists|].
  destruct (_ =? _); [by eexists|]. apply dzfs_stat_reads.
Qed.

Lemma set_disk_same s : set_disk s (disk s) = s.
Proof. by destruct s. Qed.

(** The record of [stat] with the name [name] is at [d]. *)
Definition dirent_at (b : mem) (d : Z) (stat : dzFSStat) (name : list Z) : Prop :=
  load64 b (d + de_creation_date) = wrap 64 (st_creation_date stat) /\
  load32 b (d + de_size) = wrap 32 (st_size stat) /\
  b (d + de_type) = (if st_type stat =? DZFS_ENTITY_FILE then DT_FILE else DT_DIR) /\
  (Forall (fun c => 0 <= c < 256) name -> load_list b (d + de_name) (S (length name)) = name ++ [0]).

Fixpoint dirents (b : mem) (d : Z) (l : list (dzFSStat * list Z)) : Prop :=
  match l with
  | [] => True
  | (stat, name) :: l' => dirent_at b d stat name /\ dirents b (d + (dirent_size + zlen name)) l'
  end.

Lemma load64_agree m m' a : (forall x, a <= x < a + 8 -> m x = m' x) -> load64 m a = load64 m' a.
Proof. intros HE. apply load_le_ext. intros x Hx. by apply HE. Qed.
Lemma load32_agree m m' a : (forall x, a <= x < a + 4 -> m x = m' x) -> load32 m a = load32 m' a.
Proof. intros HE. apply load_le_ext. intros x Hx. by apply HE. Qed.

Lemma put_dirent_at buffer d t stat name :
  t = (if st_type stat =? DZFS_ENTITY_FILE then DT_FILE else DT_DIR) ->
  dirent_at (put_dirent buffer d t stat name) d stat name.
Proof.
  intros Ht. unfold put_dirent, dirent_at, de_creation_date, de_size, de_type, de_name.
  assert (wrap 8 t = t) as Hw by (by subst t; destruct (st_type stat =? DZFS_ENTITY_FILE)).
  rewrite <- Ht. clear Ht. set (m1 := store8 buffer (d + 12) t). set (m2 := store64 m1 (d + 0) (st_creation_date stat)).
  set (m3 := store32 m2 (d + 8) (st_size stat)).
  split; [|split; [|split]].
  - rewrite (load64_agree _ m2); [apply load64_store64|].
    intros x Hx. rewrite store_list_out by lia. unfold m3, store32. by rewrite store_le_out by lia.
  - rewrite (load32_agree _ m3); [apply load32_store32|].
    intros x Hx. by rewrite store_list_out by lia.
  - rewrite store_list_out by lia. unfold m3, store32. rewrite store_le_out by lia.
    unfold m2, store64. rewrite store_le_out by lia. unfold m1. by rewrite store8_eq.
  - intros Hn. replace (S (length name)) with (length (name ++ [0])) by (rewrite length_app; cbn; lia).
    apply load_store_list. apply Forall_app. split; [done|]. constructor; [lia|done].
Qed.

Lemma put_dirent_out buffer d t stat name x : x < d \/ d + (14 + zlen name) <= x ->
  put_dirent buffer d t stat name x = buffer x.
Proof.
  intros Hx. pose proof (zlen_nonneg name). unfold put_dirent, de_creation_date, de_size, de_type, de_name, store64, store32.
  rewrite store_list_out by (unfold zlen in *; rewrite length_app; cbn; lia).
  rewrite !store_le_out by lia. apply store8_ne. lia.
Qed.

Lemma dirent_at_ext b b' d stat name : dirent_at b d stat name ->
  (forall x, d <= x < d + (14 + zlen name) -> b' x = b x) -> dirent_at b' d stat name.
Proof.
  intros (H1' & H2' & H3' & H4') HE. pose proof (zlen_nonneg name).
  unfold dirent_at, de_creation_date, de_size, de_type, de_name in *.
  rewrite (load64_agree b' b), (load32_agree b' b) by (intros; apply HE; lia).
  rewrite (HE (d + 12)) by lia. split; [done|]. split; [done|]. split; [done|]. intros Hn.
  rewrite (load_list_ext b' b); [by apply H4'|]. intros x Hx. apply HE. unfold zlen. lia.
Qed.

(** What the loop of [fs_readdir] leaves. *)
Definition readdir_post (dnode : Z) (buffer : mem) (d len offset n : Z) (s : state)
    (o : outcome ((Z * mem) * state)) : Prop :=
  match o with
  | NoFuel => False
  | Ret ((r, b), s') => s' = s /\ (forall x, x < d \/ d + len <= x -> b x = buffer x) /\
      exists l, (r = n + zlen l \/ r = -2) /\ dirents b d l /\ dirent_size * zlen l <= len /\
        forall k stat name, zget l k = Some (stat, name) ->
          dzfs_read_dir dnode (wrap 64 (offset + k)) (disk s) = Ret (inr stat, disk s) /\
          name_chars (st_name stat) = Some name
  | _ => True
  end.

Lemma readdir_loop_spec dnode s fuel : forall buffer d len offset n, 0 <= len -> len < Z.of_nat fuel ->
  readdir_post dnode buffer d len offset n s (readdir_loop fuel dnode buffer d len offset n s).
Proof.
  induction fuel as [|fuel IH]; intros buffer d len offset n Hl Hf; [lia|]. cbn [readdir_loop].
  destruct (dzfs_read_dir_reads dnode (wrap 64 offset) (disk s)) as [r Er].
  rewrite (bind_step _ _ s r _ (fsio_run _ s r _ Er)), set_disk_same.
  assert (forall r, (r = n + 0 \/ r = -2) -> readdir_post dnode buffer d len offset n s (Ret ((r, buffer), s))) as HN.
  { intros r' Hr. split; [done|]. split; [done|]. exists []. split; [exact Hr|]. split; [done|]. split; [done|].
    intros k st nm Ek. unfold zget in Ek. by destruct (k <? 0). }
  destruct r as [e|stat]; [destruct (e =? DZFS_ERR_LIMIT); apply HN; lia|].
  destruct (name_chars (st_name stat)) as [name|] eqn:En; [|done]. cbv zeta.
  destruct (Z.leb_spec len (dirent_size + zlen name)) as [|HL]; [apply HN; lia|].
  assert (forall t, t = (if st_type stat =? DZFS_ENTITY_FILE then DT_FILE else DT_DIR) ->
    readdir_post dnode buffer d len offset n s
      (readdir_loop fuel dnode (put_dirent buffer d t stat name) (d + (dirent_size + zlen name))
         (len - (dirent_size + zlen name)) (offset + 1) (n + 1) s)) as HS.
  { intros t Ht. unfold dirent_size in *. pose proof (zlen_nonneg name).
    pose proof (IH (put_dirent buffer d t stat name) (d + (16 + zlen name)) (len - (16 + zlen name)) (offset + 1)
      (n + 1) ltac:(lia) ltac:(lia)) as HI. unfold readdir_post in *.
    destruct (readdir_loop fuel dnode _ _ _ _ _ s) as [[[r b] s']| | |]; try done.
    destruct HI as (-> & HO & l & Hr & Hd & Hz & Hk). split; [done|]. split.
    { intros x Hx. rewrite HO by lia. apply put_dirent_out. lia. }
    exists ((stat, name) :: l). assert (zlen ((stat, name) :: l) = zlen l + 1) as EL by (unfold zlen; cbn; lia).
    rewrite EL. split; [lia|]. split; [|split].
    - split; [|exact Hd]. eapply dirent_at_ext; [by apply (put_dirent_at buffer d t)|].
      intros x Hx. apply HO. lia.
    - unfold dirent_size in *. lia.
    - intros k st nm Ek. rewrite zget_cons in Ek. destruct (Z.eqb_spec k 0) as [->|].
      + injection Ek as <- <-. by rewrite Z.add_0_r.
      + destruct (k <? 0); [done|]. destruct (Hk _ _ _ Ek) as [Hk1 Hk2].
        by replace (offset + 1 + (k - 1)) with (offset + k) in Hk1 by lia. }
  destruct (st_type stat =? DZFS_ENTITY_FILE); [by apply HS|].
  destruct (st_type stat =? DZFS_ENTITY_FOLDER); [by apply HS|done].
Qed.

(** [fs_readdir] fills the buffer with records and stays inside of it.
    On a directory, whatever the disk holds, its loop ends (each round uses
    at least sixteen bytes of the buffer); no byte outside of the [len] bytes
    of the buffer changes; and the buffer holds, one behind the other, the
    records of consecutive entries of the directory from [offset] on (date,
    size, type and the terminated name), as many as the result says unless
    it is -2 for a disk error. *)
Theorem fs_readdir_correct s i n buffer base len offset : zget (inodes s) i = Some n ->
  i_type n = INODE_DIRECTORY -> 0 <= len ->
  readdir_post (i_dnode n) buffer base len offset 0 s (fs_readdir (Some i) buffer base len offset s).
Proof.
  intros En T Hl. unfold fs_readdir. rewrite (bind_step _ _ _ _ _ (get_inode_run s i n En)), T.
  change (negb (INODE_DIRECTORY =? INODE_DIRECTORY)) with false. cbv iota.
  apply readdir_loop_spec; lia.
Qed.
End facts.
