(* ===== verification/KernelEnv.v ===== *)
(** * The surroundings of a process, for the system calls

    The instance of [KernelEnv] (Syscalls.v): user memory through the page
    tables of Vmm.v, the serial port of Serial.v and the framebuffer of
    kernel/src/drivers/drv_framebuffer.c, which is modelled here.

    An access of the kernel to user memory goes through the page table of the
    running process; an address that is not mapped faults, which is [Undef].
    A read from the serial port that waits for input does not return, which
    is [NoFuel]. *)
From S2P Require Import Prelude Mem PhysMem Vmm DzFS Files Syscalls FilesInv FilesFacts.
From S2P Require Serial.

(** ** The framebuffer *)

(** The fields of [struct limine_framebuffer] the driver uses. *)
Record limine_framebuffer := MkLimineFb {
  fb_address : Z; fb_width : Z; fb_height : Z; fb_pitch : Z; fb_bpp : Z
}.
Record fb_device_data := MkFb { fb : limine_framebuffer; current_width : Z; current_height : Z }.

Definition FB_CTL_GET_WIDTH : Z := 0.
Definition FB_CTL_GET_MAX_WIDTH : Z := 1.
Definition FB_CTL_SET_WIDTH : Z := 2.
Definition FB_CTL_GET_HEIGHT : Z := 3.
Definition FB_CTL_GET_MAX_HEIGHT : Z := 4.
Definition FB_CTL_SET_HEIGHT : Z := 5.
Definition FB_CTL_CLEAR : Z := 6.

Definition fb_init (limine_fb : option limine_framebuffer) : option fb_device_data :=
  (fun l => MkFb l (fb_width l) (fb_height l)) <$> limine_fb.

(** ** User memory *)

Definition user_byte (root : Z) (s : pmem) (va : Z) : option Z :=
  e ← translate s root va; Some (ram s (wrap 64 (P2V s (pte_follow e) + va mod 4096))).

Fixpoint user_load (root va : Z) (n : nat) : ST pmem (list Z) :=
  match n with
  | O => mret []
  | S n' =>
      b ← reads (fun s => user_byte root s va);
      match b with
      | None => st_undef
      | Some c => l ← user_load root (wrap 64 (va + 1)) n'; mret (c :: l)
      end
  end.

Fixpoint user_store (root va : Z) (l : list Z) : ST pmem unit :=
  match l with
  | [] => mret tt
  | c :: l' =>
      e ← reads (fun s => translate s root va);
      match e with
      | None => st_undef
      | Some e =>
          _ ← st_modify (fun s => set_ram s (store8 (ram s) (wrap 64 (P2V s (pte_follow e) + va mod 4096)) c));
          user_store root (wrap 64 (va + 1)) l'
      end
  end.

(** [memcpy] from user memory to the framebuffer. *)
Definition copy_pixels (root dst src n : Z) : ST pmem unit :=
  l ← user_load root src (Z.to_nat n); st_modify (fun s => set_ram s (store_list (ram s) dst l)).

(** The rows of [fb_write_op]; the pixels are four bytes, [size] counts them. *)
Fixpoint fb_rows (k : nat) (data : fb_device_data) (root buffer size row displayed : Z)
    : ST pmem (Z * Z * Z * Z) :=
  match k with
  | O => mret (buffer, size, row, displayed)
  | S k' =>
      if (current_width data <? size) && (row <? current_height data) then
        _ ← copy_pixels root (wrap 64 (fb_address (fb data) + 4 * (row * (fb_pitch (fb data) / 4))))
              buffer (current_width data * 4);
        fb_rows k' data root (wrap 64 (buffer + 4 * current_width data)) (size - current_width data)
          (row + 1) (displayed + current_width data)
      else mret (buffer, size, row, displayed)
  end.

Definition fb_write_op (data : option fb_device_data) (root buffer size : Z) : ST pmem Z :=
  match data with
  | None => mret (-1)
  | Some data =>
      '(buffer, size, row, displayed) ←
        fb_rows (Z.to_nat (current_height data)) data root buffer size 0 0;
      if (row <? current_height data) && negb (size =? 0) then
        _ ← copy_pixels root (wrap 64 (fb_address (fb data) + 4 * (row * (fb_pitch (fb data) / 4))))
              buffer (size * 4);
        mret (sgn 32 (displayed + size))
      else mret (sgn 32 displayed)
  end.

Definition bytes64 (v : Z) : list Z := load_list (store64 zeros 0 v) 0 8.

Definition fb_ioctl_op (data : option fb_device_data) (root cmd arg : Z)
    : ST pmem (Z * option fb_device_data) :=
  match data with
  | None => mret (-1, data)
  | Some d =>
      let put (v : Z) := _ ← user_store root arg (bytes64 v); mret (0, data) in
      if cmd =? FB_CTL_GET_WIDTH then put (current_width d)
      else if cmd =? FB_CTL_GET_MAX_WIDTH then put (fb_width (fb d))
      else if cmd =? FB_CTL_SET_WIDTH then
        if arg <=? fb_width (fb d) then mret (0, Some (MkFb (fb d) arg (current_height d)))
        else mret (-3, data)
      else if cmd =? FB_CTL_GET_HEIGHT then put (current_height d)
      else if cmd =? FB_CTL_GET_MAX_HEIGHT then put (fb_height (fb d))
      else if cmd =? FB_CTL_SET_HEIGHT then
        if arg <=? fb_height (fb d) then mret (0, Some (MkFb (fb d) (current_width d) arg))
        else mret (-3, data)
      else if cmd =? FB_CTL_CLEAR then
        _ ← st_modify (fun s => set_ram s (fill (ram s) (fb_address (fb d)) 0
              (wrap 64 (fb_width (fb d) * fb_height (fb d) * fb_bpp (fb d)) / 8)));
        mret (0, data)
      else mret (-2, data)
  end.

(** ** The instance *)

Record kenv := MkEnv {
  phys : pmem;
  pagetables : Z -> Z;                                   (* of the processes *)
  serial : option Serial.serial_device_data; serial_bound : bool;
  serial_out : list Z;                                   (* what the port has sent *)
  fb_dev : option fb_device_data                         (* of [g_fb_dev] *)
}.

Definition on_phys {A} (m : ST pmem A) : ST kenv A := fun e =>
  match m (phys e) with
  | Ret (a, s) => Ret (a, MkEnv s (pagetables e) (serial e) (serial_bound e) (serial_out e) (fb_dev e))
  | Panic msg => Panic msg
  | Undef => Undef
  | NoFuel => NoFuel
  end.
Definition set_fb (d : option fb_device_data) : ST kenv unit :=
  st_modify (fun e => MkEnv (phys e) (pagetables e) (serial e) (serial_bound e) (serial_out e) d).
Definition the_root (p : option Z) : ST kenv Z :=
  match p with Some i => reads (fun e => pagetables e i) | None => st_undef end.

(** The string [validate_user_string] returns: the copy up to its end. *)
Definition copy_string (p : option Z) (user_str max_len : Z) : ST kenv (option (list Z)) :=
  root ← the_root p;
  '(r, buf) ← on_phys (vmm_copy_user_string root user_str zeros max_len);
  if r <? 0 then mret None else mret (name_chars (load_list buf 0 (Z.to_nat max_len))).

Definition dev_read_fn (g : read_fn) (p : option Z) (buffer len : Z) : ST kenv Z :=
  match g with
  | serial_read =>
      r ← reads (fun e => Serial.serial_read (serial_bound e) (serial e) len);
      match r with
      | None => st_nofuel
      | Some (l, d) =>
          _ ← st_modify (fun e => MkEnv (phys e) (pagetables e) d (serial_bound e) (serial_out e) (fb_dev e));
          root ← the_root p;
          _ ← on_phys (user_store root buffer l);
          mret (sgn 32 (zlen l))
      end
  | serial_read_async => mret (Serial.serial_read_async len)
  end.

Definition dev_write_fn (g : write_fn) (p : option Z) (buffer len : Z) : ST kenv Z :=
  root ← the_root p;
  match g with
  | serial_write =>
      l ← on_phys (user_load root buffer (Z.to_nat len));
      b ← reads serial_bound;
      let '(out, r) := Serial.serial_write b l in
      _ ← st_modify (fun e => MkEnv (phys e) (pagetables e) (serial e) (serial_bound e)
                                (serial_out e ++ out) (fb_dev e));
      mret (sgn 32 r)
  | fb_write => d ← reads fb_dev; on_phys (fb_write_op d root buffer len)
  end.

(** [fb_control] converts the command to an unsigned one. *)
Definition dev_control_fn (g : control_fn) (p : option Z) (command data : Z) : ST kenv Z :=
  match g with
  | fb_control =>
      root ← the_root p;
      d ← reads fb_dev;
      '(r, d') ← on_phys (fb_ioctl_op d root (wrap 32 command) data);
      _ ← set_fb d';
      mret r
  end.

#[export] Instance kernel_env : KernelEnv kenv := {
  env_copy_string := copy_string;
  env_validate p ptr len w := root ← the_root p; on_phys (vmm_validate_user_ptr root ptr len w);
  env_load p ptr len := root ← the_root p; on_phys (user_load root ptr (Z.to_nat len));
  env_store p ptr l := root ← the_root p; on_phys (user_store root ptr l);
  env_mem p e := fun va => match p with
                           | Some i => default 0 (user_byte (pagetables e i) (phys e) va)
                           | None => 0
                           end;
  dev_read_call := dev_read_fn;
  dev_write_call := dev_write_fn;
  dev_control_call := dev_control_fn
}.
