(* ===== verification/KernelEnvFacts.v ===== *)
(** * User strings, and the framebuffer through the system calls

    What [vmm_copy_user_string] really copies, as a string of bytes per page
    ([copy_string_spec]), and what that means for every path a program passes
    to the kernel; the framebuffer's control calls and writes behind
    [sys_ioctl] and [sys_write]. *)
From S2P Require Import Prelude Mem PhysMem Vmm DzFS Files Syscalls FilesInv FilesFacts KernelEnv.

(** ** Strings of page-first bytes *)

(** The byte [vmm_copy_user_string] takes for [va]: the first one of the
    frame its page is mapped to. *)
Definition page_first (s : pmem) (root va : Z) : option Z :=
  e ← translate s root va;
  if pte_is_user e && negb (pte_follow e =? 0) then Some (ram s (P2V s (pte_follow e))) else None.

Section copying.
Context (s : pmem) (l : list Z) (root : Z) (T : gmap (nat * Z) Z) (Hwf : pt_wf s l root T).

Definition user_low (va : Z) : Prop := USERSPACE_VA_MIN <= va < 2 ^ 32.

Lemma user_low_va va : user_low va -> user_va va.
Proof. unfold user_low, user_va, USERSPACE_VA_MIN, USERSPACE_VA_MAX. lia. Qed.

Lemma user_low_page va : user_low va -> user_low (PAGE_ROUND_DOWN va) /\ PAGE_ROUND_DOWN va / 4096 = va / 4096.
Proof.
  unfold user_low, USERSPACE_VA_MIN. intros Hv. rewrite PAGE_ROUND_DOWN_low by lia. zify_div.
Qed.

(** The check of a page the loop makes when it enters the page. *)
Lemma page_check va : user_low va -> forall A (f : bool -> ST pmem A),
  (ok ← (pte ← walk root (PAGE_ROUND_DOWN va) false false;
         if pte =? 0 then mret false
         else e ← read_pte pte; mret (pte_is_present e && pte_is_user e)); f ok) s =
  f (match translate s root va with Some e => pte_is_user e | None => false end) s.
Proof.
  intros Hv A f. destruct (user_low_page va Hv) as [Hp Ep].
  destruct (walk_lookup_user s l root T (PAGE_ROUND_DOWN va) Hwf (user_low_va _ Hp)) as (p & HW & HX).
  rewrite (translate_same_page s l root T _ va Hwf (user_low_va _ Hp) (user_low_va _ Hv) Ep) in HX.
  unfold mbind, st_bind. rewrite HW. destruct HX as [[-> ->]|[Hp0 HX]]; [done|].
  apply Z.eqb_neq in Hp0. rewrite Hp0. unfold read_pte, reads. rewrite HX. cbv zeta.
  by destruct (pte_is_present (load64 (ram s) p)).
Qed.

(** One round of the loop. *)
Lemma copy_step k ustr copied buf cur valid : user_low (ustr + copied) ->
  (valid = true -> cur = PAGE_ROUND_DOWN (ustr + copied) ->
     exists e, translate s root (ustr + copied) = Some e /\ pte_is_user e = true) ->
  copy_user_string_loop (S k) root ustr copied buf cur valid s =
  match page_first s root (ustr + copied) with
  | None => Ret ((Some (-1), buf), s)
  | Some c => if c =? 0 then Ret ((Some (sgn 32 copied), store8 buf copied c), s)
              else copy_user_string_loop k root ustr (copied + 1) (store8 buf copied c)
                     (PAGE_ROUND_DOWN (ustr + copied)) true s
  end.
Proof.
  intros Hv Hval. cbn [copy_user_string_loop]. cbv zeta.
  rewrite (wrap_small 64) by (unfold user_low, USERSPACE_VA_MIN in Hv; lia).
  set (va := ustr + copied) in *. set (ok := match translate s root va with Some e => pte_is_user e | None => false end).
  set (K := fun (b : bool) => if negb b then mret (Some (-1), buf) else
     pa ← vmm_walkaddr root va true;
     if pa =? 0 then mret (Some (-1), buf) else
     c ← reads (fun s0 : pmem => ram s0 (P2V s0 pa));
     if c =? 0 then mret (Some (sgn 32 copied), store8 buf copied c)
     else copy_user_string_loop k root ustr (copied + 1) (store8 buf copied c) (PAGE_ROUND_DOWN va) true : ST pmem _).
  transitivity (K ok s).
  - destruct (Z.eqb_spec (PAGE_ROUND_DOWN va) cur) as [<-|N]; cbn [negb].
    + destruct valid; [|exact (page_check va Hv _ K)].
      destruct (Hval eq_refl eq_refl) as (e & Ee & Ue). unfold ok. by rewrite Ee, Ue.
    + exact (page_check va Hv _ K).
  - unfold K, ok, page_first. destruct (translate s root va) as [e|] eqn:Ee; [|reflexivity].
    cbn [mbind option_bind].
    destruct (pte_is_user e) eqn:Ue; [|reflexivity]. cbn [negb andb].
    pose proof (vmm_walkaddr_spec s l root T va true Hwf (user_low_va va Hv)) as Ew. rewrite Ee, Ue in Ew.
    rewrite (bind_step _ _ _ _ _ Ew). cbn [Bool.eqb].
    destruct (Z.eqb_spec (pte_follow e) 0); [reflexivity|]. cbn [negb].
    rewrite (bind_step (reads _) _ s _ s eq_refl). by destruct (_ =? 0).
Qed.

(** The whole copy: it stops at the first byte that is 0 or cannot be read. *)
Lemma copy_loop_spec ustr : 0 <= ustr -> forall k copied buf cur valid, 0 <= copied ->
  USERSPACE_VA_MIN <= ustr + copied -> ustr + copied + Z.of_nat k < 2 ^ 32 -> copied + Z.of_nat k < 2 ^ 31 ->
  (valid = true -> exists va e, user_low va /\ cur = PAGE_ROUND_DOWN va /\
     translate s root va = Some e /\ pte_is_user e = true) ->
  exists r buf', copy_user_string_loop k root ustr copied buf cur valid s = Ret ((r, buf'), s) /\
    (forall i, i < copied -> buf' i = buf i) /\
    match r with
    | None => forall i, copied <= i < copied + Z.of_nat k ->
        exists c, page_first s root (ustr + i) = Some c /\ c <> 0 /\ buf' i = wrap 8 c
    | Some r =>
        r = -1 /\ (exists j, copied <= j < copied + Z.of_nat k /\ page_first s root (ustr + j) = None /\
          forall i, copied <= i < j -> exists c, page_first s root (ustr + i) = Some c /\ c <> 0) \/
        copied <= r < copied + Z.of_nat k /\ page_first s root (ustr + r) = Some 0 /\ buf' r = 0 /\
        forall i, copied <= i < r ->
          exists c, page_first s root (ustr + i) = Some c /\ c <> 0 /\ buf' i = wrap 8 c
    end.
Proof.
  intros Hu. induction k as [|k IH]; intros copied buf cur valid Hc Hlo Hhi Hi Hval.
  { exists None, buf. split; [done|]. split; [done|]. intros i ?. lia. }
  assert (user_low (ustr + copied)) as Hv by (unfold user_low; lia).
  rewrite (copy_step k ustr copied buf cur valid Hv).
  2:{ intros Ev Ec. destruct (Hval Ev) as (va & e & Hva & Ecur & Ee & Ue). exists e. split; [|done].
      rewrite <- Ee. apply (translate_same_page s l root T); try done; try by apply user_low_va.
      destruct (user_low_page va Hva) as [_ <-]. destruct (user_low_page _ Hv) as [_ <-]. congruence. }
  destruct (page_first s root (ustr + copied)) as [c|] eqn:Ec.
  2:{ exists (Some (-1)), buf. split; [done|]. split; [done|]. left. split; [done|].
      exists copied. split; [lia|]. split; [done|]. intros; lia. }
  destruct (Z.eqb_spec c 0) as [->|Nc].
  { exists (Some copied), (store8 buf copied 0). rewrite sgn_small by lia. split; [done|].
    split; [intros i ?; apply store8_ne; lia|]. right. split; [lia|]. split; [done|].
    split; [apply store8_eq|]. intros; lia. }
  destruct (IH (copied + 1) (store8 buf copied c) (PAGE_ROUND_DOWN (ustr + copied)) true)
    as (r & buf' & Er & HB & HR); try lia.
  { intros _. unfold page_first in Ec. destruct (translate s root (ustr + copied)) as [e|] eqn:Ee; [|done].
    cbn [mbind option_bind] in Ec. destruct (pte_is_user e) eqn:Ue; [|done]. by exists (ustr + copied), e. }
  exists r, buf'. split; [done|].
  assert (buf' copied = wrap 8 c) as EB by (rewrite HB by lia; apply store8_eq).
  split; [intros i ?; rewrite HB by lia; apply store8_ne; lia|].
  assert (forall n, (forall i, copied + 1 <= i < n -> exists c, page_first s root (ustr + i) = Some c /\ c <> 0 /\ buf' i = wrap 8 c) ->
    forall i, copied <= i < n -> exists c, page_first s root (ustr + i) = Some c /\ c <> 0 /\ buf' i = wrap 8 c) as HA.
  { intros n Hn i Hi'. destruct (Z.eq_dec i copied) as [->|]; [by exists c|]. apply Hn. lia. }
  destruct r as [r|].
  - destruct HR as [(-> & j & Hj & Ej & Hall)|(Hr & Ep & E0 & Hall)]; [left; split; [done|]|right].
    { exists j. split; [lia|]. split; [done|]. intros i Hi'.
      destruct (Z.eq_dec i copied) as [->|]; [by exists c|]. apply Hall. lia. }
    split; [lia|]. split; [done|]. split; [done|]. by apply HA.
  - apply HA. intros i Hi'. apply HR. lia.
Qed.

Lemma page_first_same va va' : user_low va -> user_low va' -> va / 4096 = va' / 4096 ->
  page_first s root va = page_first s root va'.
Proof.
  intros H1 H2 E. unfold page_first.
  by rewrite (translate_same_page s l root T va va' Hwf (user_low_va _ H1) (user_low_va _ H2) E).
Qed.

(** The path the kernel gets for the user string at [ustr]. *)
Definition path_seen (ustr : Z) : option (list Z) :=
  let n := 4096 - ustr mod 4096 in
  match page_first s root ustr with
  | None => None
  | Some c =>
      if c =? 0 then Some []
      else if (n <? 4095) && bool_decide (page_first s root (ustr + n) = Some 0)
      then Some (replicate (Z.to_nat n) c) else None
  end.

Lemma name_chars_load buf n : forall a k c, c <> 0 -> (k < n)%nat ->
  (forall i, a <= i < a + Z.of_nat k -> buf i = c) -> buf (a + Z.of_nat k) = 0 ->
  name_chars (load_list buf a n) = Some (replicate k c).
Proof.
  induction n as [|n IH]; intros a k c Hc Hk HB H0; [lia|]. cbn [load_list name_chars].
  destruct k as [|k].
  - rewrite Z.add_0_r in H0. by rewrite H0.
  - rewrite (HB a) by lia. destruct (Z.eqb_spec c 0); [done|].
    rewrite (IH (a + 1) k c); [done|done|lia| |].
    + intros i Hi. apply HB. lia.
    + replace (a + 1 + Z.of_nat k) with (a + Z.of_nat (S k)) by lia. done.
Qed.

Lemma path_seen_spec ustr : bytes_ok (ram s) -> USERSPACE_VA_MIN <= ustr -> ustr + 4096 < 2 ^ 32 ->
  exists r buf, vmm_copy_user_string root ustr zeros MAX_PATH_LENGTH s = Ret ((r, buf), s) /\
    (if r <? 0 then None else name_chars (load_list buf 0 (Z.to_nat MAX_PATH_LENGTH))) = path_seen ustr.
Proof.
  intros Hb Hlo Hhi. remember (Z.to_nat MAX_PATH_LENGTH) as N eqn:EN.
  unfold vmm_copy_user_string, MAX_PATH_LENGTH in *. unfold USERSPACE_VA_MIN, USERSPACE_VA_MAX in *.
  destruct (Z.eqb_spec ustr 0) as [|Nu], (Z.leb_spec (2 ^ 46) ustr), (Z.ltb_spec ustr (2 ^ 22)); try lia.
  change (4096 =? 0) with false. cbn [orb].
  destruct (copy_loop_spec ustr ltac:(lia) (Z.to_nat (4096 - 1)) 0 zeros (PAGE_ROUND_DOWN ustr) false)
    as (r & buf & Er & _ & HR); try unfold USERSPACE_VA_MIN; try lia.
  rewrite (bind_step _ _ _ _ _ Er).
  set (n := 4096 - ustr mod 4096). assert (0 < n <= 4096) as Hn by (unfold n; zify_div).
  assert (forall i, 0 <= i < n -> page_first s root (ustr + i) = page_first s root ustr) as P1.
  { intros i Hi. apply page_first_same; unfold user_low, USERSPACE_VA_MIN; try lia. unfold n in Hi. zify_div. }
  assert (forall i, n <= i < 4096 -> page_first s root (ustr + i) = page_first s root (ustr + n)) as P2.
  { intros i Hi. apply page_first_same; unfold user_low, USERSPACE_VA_MIN; try lia. unfold n in *. zify_div. }
  assert (forall i, 0 <= i < 4096 -> page_first s root (ustr + i) = None ->
            page_first s root ustr = None \/ n <= i /\ page_first s root (ustr + n) = None) as PN.
  { intros i Hi E. destruct (Z_lt_ge_dec i n); [left; rewrite <- E; symmetry; apply P1; lia|].
    right. split; [lia|]. rewrite <- E. symmetry. apply P2. lia. }
  pose proof (P1 0 ltac:(lia)) as P0. rewrite Z.add_0_r in P0.
  rewrite Z2Nat.id in HR by lia. unfold path_seen. fold n.
  destruct r as [r|].
  - destruct HR as [(-> & j & Hj & Ej & Hall)|(Hr & Ep & E0 & Hall)].
    + exists (-1), buf. split; [done|]. change (-1 <? 0) with true. cbv iota.
      destruct (PN j ltac:(lia) Ej) as [-> |[Hnj En]]; [done|].
      destruct (Hall 0 ltac:(lia)) as (c & Ec & Nc). rewrite Z.add_0_r in Ec. rewrite Ec.
      destruct (Z.eqb_spec c 0); [done|]. rewrite bool_decide_false by congruence. by rewrite andb_false_r.
    + exists r, buf. split; [done|]. destruct (Z.ltb_spec r 0); [lia|].
      destruct (Z_lt_ge_dec r n) as [L|G].
      * rewrite P1 in Ep by lia. rewrite Ep. destruct (Z.eq_dec r 0) as [->|].
        { change (0 =? 0) with true. cbv iota. apply (name_chars_load buf N 0 0 1); [done|lia|intros; lia|done]. }
        destruct (Hall 0 ltac:(lia)) as (c & Ec & Nc & _). rewrite Z.add_0_r, Ep in Ec. congruence.
      * destruct (Hall 0 ltac:(lia)) as (c & Ec & Nc & _). rewrite Z.add_0_r in Ec. rewrite Ec.
        destruct (Z.eqb_spec c 0); [done|]. rewrite P2 in Ep by lia.
        assert (r = n) as ->.
        { destruct (Z.eq_dec r n); [done|]. destruct (Hall n ltac:(lia)) as (c2 & Ec2 & Nc2 & _). congruence. }
        rewrite bool_decide_true by done. destruct (Z.ltb_spec n 4095); [|lia]. cbn [andb].
        assert (0 <= c < 256) as Hc.
        { unfold page_first in Ec. destruct (translate s root ustr); [|done]. cbn [mbind option_bind] in Ec.
          destruct (_ && _); [|done]. injection Ec as <-. apply Hb. }
        apply (name_chars_load buf N 0); [done|lia| |].
        { intros i Hi. destruct (Hall i ltac:(lia)) as (c' & Ec' & _ & ->). rewrite P1 in Ec' by lia.
          rewrite Ec in Ec'. injection Ec' as <-. by rewrite wrap_small by lia. }
        by rewrite Z2Nat.id by lia.
  - exists (-1). eexists. split; [done|]. change (-1 <? 0) with true. cbv iota.
    destruct (HR 0 ltac:(lia)) as (c & Ec & Nc & _). rewrite Z.add_0_r in Ec. rewrite Ec.
    destruct (Z.eqb_spec c 0); [done|]. destruct (Z.ltb_spec n 4095); [|done].
    destruct (HR n ltac:(lia)) as (c2 & Ec2 & Nc2 & _). rewrite bool_decide_false by congruence. done.
Qed.
End copying.

(** ** Through the system calls *)

Section calls.
Context {D : Type} `{BlockDeviceLaws D}.
Notation state := (kstate D kenv).
Implicit Types s : state.

Lemma on_env_run {A} (m : ST kenv A) s a : m (env s) = Ret (a, env s) -> on_env m s = Ret (a, s).
Proof. intros Em. unfold on_env. rewrite Em. by destruct s. Qed.

Lemma on_phys_run {A} (m : ST pmem A) e a : m (phys e) = Ret (a, phys e) -> on_phys m e = Ret (a, e).
Proof. intros Em. unfold on_phys. rewrite Em. by destruct e. Qed.

(** C23: the paths of the system calls.  For a string below 4 GiB in a
    well-formed address space [validate_user_string] ends and changes
    nothing, and what it returns is not the string: every byte of it is the
    first byte of its page.  So every path the kernel ever sees is empty, or
    one character repeated up to the end of the first page (when the next
    page begins with a zero byte), or refused; in particular no path with two
    different characters, such as /init, can be passed to open, unlink,
    mkdir, chdir or exec. *)
Theorem user_paths_correct s i l T ustr : running s = Some i ->
  pt_wf (phys (env s)) l (pagetables (env s) i) T -> bytes_ok (ram (phys (env s))) ->
  USERSPACE_VA_MIN <= ustr -> ustr + 4096 < 2 ^ 32 ->
  let seen := path_seen (phys (env s)) (pagetables (env s) i) ustr in
  validate_user_string ustr MAX_PATH_LENGTH s = Ret (seen, s) /\
  forall name, seen = Some name -> forall a b, a ∈ name -> b ∈ name -> a = b.
Proof.
  intros Er Hwf Hb Hlo Hhi seen. split.
  - destruct (path_seen_spec _ _ _ _ Hwf ustr Hb Hlo Hhi) as (r & buf & Ec & Es).
    unfold validate_user_string. rewrite (bind_step my_process _ s (running s) s eq_refl), Er.
    apply on_env_run. cbn [env_copy_string kernel_env]. unfold copy_string, the_root.
    rewrite (bind_step (reads _) _ (env s) _ _ eq_refl).
    rewrite (bind_step _ _ _ _ _ (on_phys_run _ (env s) _ Ec)). cbv beta iota.
    unfold seen. rewrite <- Es. by destruct (r <? 0).
  - unfold seen, path_seen. intros name En a b Ha Hb'.
    destruct (page_first _ _ ustr) as [c|]; [|done]. destruct (c =? 0).
    { injection En as <-. by apply not_elem_of_nil in Ha. }
    destruct (_ && _); [|done]. injection En as <-.
    apply elem_of_replicate in Ha as [-> _], Hb' as [-> _]. done.
Qed.

(** The framebuffer's descriptor. *)
Definition fb_index : Z := 2.

Lemma lookup_fd_run s fd f : fd_view s fd f -> fd_type f <> FD_EMPTY ->
  lookup_fd MAX_OPEN_FILES fd s = Ret (Some f, s).
Proof.
  intros Hv T. pose proof (fd_view_range s fd f Hv) as Hr. unfold lookup_fd.
  rewrite (bind_step my_process _ s _ s eq_refl). unfold bad_fd in Hr. rewrite Hr.
  rewrite (bind_step _ _ _ _ _ (get_fd_run s fd f Hv)). by destruct (Z.eqb_spec (fd_type f) FD_EMPTY).
Qed.

Lemma validate_small s i ptr len w : running s = Some i -> ptr < USERSPACE_VA_MIN ->
  validate_user_ptr ptr len w s = Ret (false, s).
Proof.
  intros Er Hp. unfold validate_user_ptr. rewrite (bind_step my_process _ s (running s) s eq_refl), Er.
  apply on_env_run. cbn [env_validate kernel_env]. unfold the_root.
  rewrite (bind_step (reads _) _ (env s) _ _ eq_refl). apply on_phys_run.
  unfold vmm_validate_user_ptr. destruct (_ || _); [done|].
  destruct (_ <? ptr); [done|]. destruct (_ || _); [done|].
  destruct (Z.ltb_spec ptr USERSPACE_VA_MIN); [done|lia].
Qed.

Lemma validate_frame ptr len w s :
  ends (validate_user_ptr ptr len w)
    (fun _ s1 => running s1 = running s /\ fb_dev (env s1) = fb_dev (env s)) s.
Proof.
  apply ends_bind, ends_reads. destruct (running s) as [i|] eqn:Er; [|by apply ends_ret; rewrite Er].
  intros b s1 Ev. unfold on_env in Ev.
  destruct (env_validate (Some i) ptr len w (env s)) as [[b2 e2]| | |] eqn:Ee; try done.
  injection Ev as <- <-. split; [exact Er|]. cbn [env set_env].
  assert (ends (env_validate (Some i) ptr len w) (fun _ e => fb_dev e = fb_dev (env s)) (env s)) as HE.
  { apply ends_bind, ends_reads. intros b3 e3 E3. unfold on_phys in E3.
    destruct (vmm_validate_user_ptr _ _ _ _ _) as [[? ?]| | |]; try done. by injection E3 as <- <-. }
  exact (HE b2 e2 Ee).
Qed.

Lemma fb_ioctl_too_large d root command w pm : command = FB_CTL_SET_WIDTH \/ command = FB_CTL_SET_HEIGHT ->
  fb_width (fb d) < w -> fb_height (fb d) < w ->
  fb_ioctl_op (Some d) root (wrap 32 command) w pm = Ret ((-3, Some d), pm).
Proof.
  intros [-> | ->] Hw Hh; unfold fb_ioctl_op.
  - change (wrap 32 FB_CTL_SET_WIDTH) with FB_CTL_SET_WIDTH.
    change (FB_CTL_SET_WIDTH =? FB_CTL_GET_WIDTH) with false.
    change (FB_CTL_SET_WIDTH =? FB_CTL_GET_MAX_WIDTH) with false.
    change (FB_CTL_SET_WIDTH =? FB_CTL_SET_WIDTH) with true. cbv iota zeta.
    by destruct (Z.leb_spec w (fb_width (fb d))); [lia|].
  - change (wrap 32 FB_CTL_SET_HEIGHT) with FB_CTL_SET_HEIGHT.
    change (FB_CTL_SET_HEIGHT =? FB_CTL_GET_WIDTH) with false.
    change (FB_CTL_SET_HEIGHT =? FB_CTL_GET_MAX_WIDTH) with false.
    change (FB_CTL_SET_HEIGHT =? FB_CTL_SET_WIDTH) with false.
    change (FB_CTL_SET_HEIGHT =? FB_CTL_GET_HEIGHT) with false.
    change (FB_CTL_SET_HEIGHT =? FB_CTL_GET_MAX_HEIGHT) with false.
    change (FB_CTL_SET_HEIGHT =? FB_CTL_SET_HEIGHT) with true. cbv iota zeta.
    by destruct (Z.leb_spec w (fb_height (fb d))); [lia|].
Qed.

(** A program cannot set the size of the framebuffer.  [sys_ioctl] takes
    the third argument for a pointer and checks it, but for FB_CTL_SET_WIDTH
    and FB_CTL_SET_HEIGHT it is the new size itself: for every size but 0 the
    call fails with -1 (every size below 4 MiB is refused as a pointer) or -3
    (a size that passes as a pointer is larger than any real framebuffer),
    and the size stays what it was. *)
Theorem fb_size_never_set s i fd f d command w r s' : running s = Some i -> fd_view s fd f ->
  fd_type f = FD_DEVICE -> fd_structures f = U_device fb_index -> fb_dev (env s) = Some d ->
  fb_width (fb d) < USERSPACE_VA_MIN -> fb_height (fb d) < USERSPACE_VA_MIN ->
  command = FB_CTL_SET_WIDTH \/ command = FB_CTL_SET_HEIGHT -> 0 < w < 2 ^ 64 ->
  sys_ioctl fd command w s = Ret (r, s') ->
  (r = -1 \/ r = -3) /\ fb_dev (env s') = fb_dev (env s) /\ (w < USERSPACE_VA_MIN -> r = -1 /\ s' = s).
Proof.
  intros Er Hv T U Ed Hw Hh Hc Hr Es.
  unfold sys_ioctl in Es. rewrite (bind_step _ _ _ _ _ (lookup_fd_run s fd f Hv ltac:(by rewrite T))) in Es.
  assert (truth w = true) as Ht by (unfold truth; destruct (Z.eqb_spec w 0); [lia|done]). rewrite Ht in Es.
  unfold validate_user_write in Es. destruct (Z_lt_ge_dec w USERSPACE_VA_MIN) as [L|G].
  { rewrite (bind_step _ _ _ _ _ (validate_small s i w 8 true Er L)) in Es. injection Es as <- <-. auto. }
  assert (forall b s1, running s1 = running s -> fb_dev (env s1) = fb_dev (env s) ->
    (if negb b then mret (-1) else
     if fd_type f =? FD_INODE then mret (-1) else
     if fd_type f =? FD_DEVICE then
        dev ← fd_device f;
        match dev with
        | None => mret (-1)
        | Some dev =>
            match dev_control dev with
            | None => mret (-1)
            | Some g => p ← my_process; on_env (dev_control_call g p command w)
            end
        end
     else mret (-1) : ST state Z) s1 = Ret (r, s') -> (r = -1 \/ r = -3) /\ fb_dev (env s') = fb_dev (env s)) as HK.
  { intros b s1 ER EF. destruct b; [|by intros [= <- <-]; auto]. cbn [negb]. rewrite T.
    change (FD_DEVICE =? FD_INODE) with false. change (FD_DEVICE =? FD_DEVICE) with true. cbv iota.
    unfold fd_device. rewrite U. rewrite (bind_step (mret _) _ s1 _ s1 eq_refl).
    change (device_get fb_index) with (Some (MkDevice FRAMEBUFFER_DEVICE_NAME None (Some fb_write) None (Some fb_control))).
    cbv iota. cbn [dev_control]. rewrite (bind_step my_process _ s1 _ s1 eq_refl), ER, Er.
    assert (dev_control_call fb_control (Some i) command w (env s1) = Ret (-3, env s1)) as ->%on_env_run;
      [|intros [= <- <-]; auto].
    cbn [dev_control_call kernel_env dev_control_fn the_root]. rewrite (bind_step (reads _) _ (env s1) _ _ eq_refl).
    rewrite (bind_step (reads _) _ (env s1) _ _ eq_refl), EF, Ed.
    assert (fb_ioctl_op (Some d) (pagetables (env s1) i) (wrap 32 command) w (phys (env s1)) =
              Ret ((-3, Some d), phys (env s1))) as E3.
    { apply fb_ioctl_too_large; [done|lia..]. }
    rewrite (bind_step _ _ _ _ _ (on_phys_run _ (env s1) _ E3)). cbv beta iota.
    unfold set_fb. rewrite (bind_step (st_modify _) _ (env s1) tt (env s1)); [done|].
    unfold st_modify. f_equal. f_equal. rewrite <- Ed, <- EF. by destruct (env s1). }
  unfold mbind at 1, st_bind at 1 in Es.
  destruct (validate_user_ptr w 8 true s) as [[b s1]| | |] eqn:Ev; try done.
  assert (running s1 = running s /\ fb_dev (env s1) = fb_dev (env s)) as [ER EF].
  { exact (validate_frame w 8 true s b s1 Ev). }
  destruct (HK b s1 ER EF Es) as [HR HF]. split; [done|]. split; [done|]. lia.
Qed.

Lemma user_load_undef root pm n : forall va k, (k < n)%nat -> 0 <= va -> va + Z.of_nat n < 2 ^ 64 ->
  user_byte root pm (va + Z.of_nat k) = None -> user_load root va n pm = Undef.
Proof.
  induction n as [|n IH]; intros va k Hk Hv Hb Hn; [lia|]. cbn [user_load].
  rewrite (bind_step (reads _) _ pm _ pm eq_refl).
  destruct (user_byte root pm va) as [c|] eqn:Ec; [|done].
  destruct k as [|k]; [by rewrite Z.add_0_r, Ec in Hn|].
  rewrite wrap_small by lia. unfold mbind, st_bind. rewrite (IH (va + 1) k); [done|lia..|].
  by replace (va + 1 + Z.of_nat k) with (va + Z.of_nat (S k)) by lia.
Qed.

(** A write of at most one row copies four bytes per unit of its size. *)
Lemma fb_write_one_row d root buffer size pm : 0 < size <= current_width d -> 0 < current_height d ->
  user_load root buffer (Z.to_nat (size * 4)) pm = Undef ->
  fb_write_op (Some d) root buffer size pm = Undef.
Proof.
  intros Hs Hh Hu. unfold fb_write_op.
  assert (fb_rows (Z.to_nat (current_height d)) d root buffer size 0 0 pm = Ret ((buffer, size, 0, 0), pm)) as ER.
  { destruct (Z.to_nat (current_height d)) as [|k] eqn:Ek; [done|]. cbn [fb_rows].
    destruct (Z.ltb_spec (current_width d) size); [lia|done]. }
  rewrite (bind_step _ _ _ _ _ ER). cbv beta iota.
  destruct (Z.ltb_spec 0 (current_height d)); [|lia]. destruct (Z.eqb_spec size 0); [lia|]. cbn [negb andb].
  unfold copy_pixels, mbind, st_bind. by rewrite Hu.
Qed.

(** A write to the framebuffer reads four times what was checked.
    [sys_write] checks [len] bytes of the buffer, the driver takes [len] for
    a number of four-byte pixels: whenever the byte behind the checked buffer
    is not mapped the kernel faults, for every write of at most one row,
    however carefully the program checked its own buffer. *)
Theorem fb_write_overread s i fd f d ptr len : running s = Some i -> fd_view s fd f ->
  fd_type f = FD_DEVICE -> fd_structures f = U_device fb_index -> writable f = true ->
  fb_dev (env s) = Some d -> 0 < len <= current_width d -> 0 < current_height d ->
  0 <= ptr -> ptr + 4 * len < 2 ^ 64 ->
  vmm_validate_user_ptr (pagetables (env s) i) ptr len false (phys (env s)) = Ret (true, phys (env s)) ->
  user_byte (pagetables (env s) i) (phys (env s)) (ptr + len) = None ->
  sys_write fd ptr len s = Undef.
Proof.
  intros Er Hv T U W Ed Hl Hh Hp Hb Ev Hn.
  unfold sys_write. rewrite (bind_step _ _ _ _ _ (lookup_fd_run s fd f Hv ltac:(by rewrite T))).
  assert (validate_user_read ptr len s = Ret (true, s)) as EV.
  { unfold validate_user_read, validate_user_ptr. rewrite (bind_step my_process _ s (running s) s eq_refl), Er.
    apply on_env_run. cbn [env_validate kernel_env]. unfold the_root.
    rewrite (bind_step (reads _) _ (env s) _ _ eq_refl). by apply on_phys_run. }
  rewrite (bind_step _ _ _ _ _ EV), W, T. cbn [negb].
  change (FD_DEVICE =? FD_INODE) with false. change (FD_DEVICE =? FD_DEVICE) with true. cbv iota.
  unfold fd_device. rewrite U, (bind_step (mret _) _ s _ s eq_refl).
  change (device_get fb_index) with (Some (MkDevice FRAMEBUFFER_DEVICE_NAME None (Some fb_write) None (Some fb_control))).
  cbv iota. cbn [dev_write]. rewrite (bind_step my_process _ s _ s eq_refl), Er.
  unfold on_env. assert (dev_write_call fb_write (Some i) ptr len (env s) = Undef) as ->; [|done].
  cbn [dev_write_call kernel_env]. unfold dev_write_fn, the_root.
  rewrite (bind_step (reads _) _ (env s) _ _ eq_refl), (bind_step (reads _) _ (env s) _ _ eq_refl), Ed.
  unfold on_phys. rewrite fb_write_one_row; [done|lia|lia|].
  apply (user_load_undef _ _ _ _ (Z.to_nat len)); [lia..|]. by rewrite Z2Nat.id by lia.
Qed.
End calls.

(** ** Witnesses: a small system *)

Definition demo_fb : fb_device_data := MkFb (MkLimineFb 3145728 64 48 256 32) 64 48.
Definition demo_env : kenv := MkEnv demo_space (fun _ => 2097152) None false [] (Some demo_fb).
Definition demo_open_files : list process_file :=
  [stdin_file 0; stdout_file fb_index; MkFile FD_INODE (U_inode (Some 0)) 1 true true] ++ replicate 5 file_empty.
(** The file of DzFS.v's disk is inode 0, the root folder inode 1. *)
Definition demo_kernel : kstate DzFS.disk kenv :=
  MkK demo_fs ([MkInode INODE_FILE 4 3 3 1; MkInode INODE_DIRECTORY 3 3 1 1] ++ replicate 62 inode_empty)
    demo_disk (Some (MkPF demo_open_files (Some 1)) :: replicate 63 None) (Some 0) demo_env.
Definition boot_kernel : kstate DzFS.disk kenv :=
  MkK demo_fs (replicate 64 inode_empty) demo_disk (replicate 64 None) None demo_env.

Lemma demo_fd fd f : zget demo_open_files fd = Some f -> fd_view demo_kernel fd f.
Proof. intros Ef. exists 0, (MkPF demo_open_files (Some 1)). by split_and!. Qed.

Definition after {A} (o : outcome (A * kstate DzFS.disk kenv)) : kstate DzFS.disk kenv :=
  match o with Ret (_, s) => s | _ => boot_kernel end.
Definition exec1 : kstate DzFS.disk kenv := after (fs_open [SLASH] None 0 boot_kernel).
Definition exec2 : kstate DzFS.disk kenv := after (exec_files 0 (Some 63) None exec1).
Definition exec3 : kstate DzFS.disk kenv := after (fs_open [SLASH] (Some 63) 0 exec2).
Definition exec4 : kstate DzFS.disk kenv := after (exec_files 1 (Some 63) (Some 63) exec3).

(** The second process runs and ends. *)
Definition exec5 : kstate DzFS.disk kenv := set_running exec4 (Some 1).
Definition exec6 : kstate DzFS.disk kenv := after (end_process 1 exec5).

Lemma exec4_reachable : files_reachable [] exec4.
Proof.
  apply (reach_step [] [] exec2).
  - apply (reach_step [] [] boot_kernel); [by apply reach_boot|].
    apply (step_exec [SLASH] None 0 63 _ exec1); [done|done|vm_compute; reflexivity|vm_compute; reflexivity].
  - apply (step_exec [SLASH] (Some 63) 1 63 _ exec3); [vm_compute; reflexivity| |vm_compute; reflexivity|vm_compute; reflexivity].
    intros c [= <-]. exists 0. eexists. split; [vm_compute; reflexivity|done].
Qed.

Lemma exec6_reachable : files_reachable [63] exec6.
Proof.
  apply (reach_step [] [63] exec5).
  - apply (reach_step [] [] exec4); [exact exec4_reachable|apply step_switch].
  - refine (step_end 1 (MkPF _ (Some 63)) exec5 exec6 eq_refl _ _); vm_compute; reflexivity.
Qed.

(** Two processes shared the root folder.  One has ended: its slot is free,
    one process still names the folder and its count is still 2. *)
Lemma files_reachable_refs_witness : files_reachable [63] exec6 /\ zget (processes exec6) 1 = Some None /\
  named exec6 63 = 1 /\
  exists n, zget (inodes exec6) 63 = Some n /\ i_reference_count n = 2 /\ i_type n = INODE_DIRECTORY.
Proof.
  split; [exact exec6_reachable|]. split; [vm_compute; reflexivity|]. split; [vm_compute; reflexivity|].
  destruct (files_reachable_refs [63] exec6 exec6_reachable ltac:(vm_compute; reflexivity)) as [HC _].
  assert (exists n, zget (inodes exec6) 63 = Some n /\ i_type n = INODE_DIRECTORY) as (n & En & Tn)
    by (eexists; split; vm_compute; reflexivity).
  exists n. split; [exact En|]. split; [|exact Tn]. destruct (HC 63 n En) as [-> _]. vm_compute. reflexivity.
Defined.

(** Opening the file "a" shares its inode. *)
Lemma fs_open_correct_witness : exists s', fs_open [97] None 0 demo_kernel = Ret (Some 0, s') /\
  i_reference_count <$> zget (inodes s') 0 = Some 2.
Proof.
  assert (inodes_ok (fun i => if (i =? 0) || (i =? 1) then 1 else 0) (inodes demo_kernel)) as Hok.
  { assert (forall i n, zget (inodes demo_kernel) i = Some n ->
      (i = 0 /\ n = MkInode INODE_FILE 4 3 3 1) \/ (i = 1 /\ n = MkInode INODE_DIRECTORY 3 3 1 1) \/
      (2 <= i /\ n = inode_empty)) as HG.
    { intros i n. unfold demo_kernel. cbn [inodes app]. rewrite !zget_cons.
      destruct (Z.eqb_spec i 0) as [->|]; [intros [= <-]; auto|]. destruct (Z.ltb_spec i 0); [done|].
      destruct (Z.eqb_spec (i - 1) 0); [intros [= <-]; right; left; split; [lia|done]|].
      destruct (Z.ltb_spec (i - 1) 0); [done|]. unfold zget. destruct (Z.ltb_spec (i - 1 - 1) 0); [done|].
      intros [-> _]%lookup_replicate. right; right. split; [lia|done]. }
    split; [done| | |].
    - intros i n [[-> ->]|[[-> ->]|[Hi ->]]]%HG; try done.
      destruct (Z.eqb_spec i 0), (Z.eqb_spec i 1); try lia. done.
    - intros i n [[-> ->]|[[-> ->]|[Hi ->]]]%HG; done.
    - intros i j n m [[-> ->]|[[-> ->]|[Hi ->]]]%HG [[-> ->]|[[-> ->]|[Hj ->]]]%HG; done. }
  destruct (dzfs_open_relative (main_filesystem demo_kernel) [97] 3 0 (disk demo_kernel)) as [[r d]| | |] eqn:Ed;
    [|vm_compute in Ed; discriminate Ed..].
  pose proof (fs_open_correct demo_kernel _ [97] None 0 3 r d Hok) as HO. cbn beta in HO.
  assert (r = inr (4, 3)) as ->.
  { assert (match dzfs_open_relative (main_filesystem demo_kernel) [97] 3 0 (disk demo_kernel) with
            | Ret (r, _) => r | _ => inl 0 end = inr (4, 3)) as E2 by (vm_compute; reflexivity).
    by rewrite Ed in E2. }
  destruct HO as [(i & n & En & Tn & Edn & E)|[HN _]]; try done.
  { intros i _. destruct (_ || _); lia. }
  - rewrite E. assert (i = 0) as ->.
    { pose proof (ino_dnode _ _ Hok i 0 n (MkInode INODE_FILE 4 3 3 1) En eq_refl Tn ltac:(done) Edn). done. }
    injection En as <-. eexists. split; [reflexivity|]. reflexivity.
  - exfalso. by apply (HN 0 (MkInode INODE_FILE 4 3 3 1)).
Defined.

(** Five back from offset 1 is the end of the file. *)
Lemma file_seek_correct_witness :
  exists s', file_seek 2 (-5) SEEK_CUR demo_kernel = Ret (3, s').
Proof.
  pose proof (file_seek_correct demo_kernel 2 (MkFile FD_INODE (U_inode (Some 0)) 1 true true) 0
    (MkInode INODE_FILE 4 3 3 1) (-5) SEEK_CUR (demo_fd 2 _ eq_refl) eq_refl eq_refl eq_refl
    ltac:(cbn; lia) ltac:(cbn; lia)) as HS.
  cbn -[file_seek demo_kernel] in HS. destruct HS as (o & s' & E & _ & _ & _ & HO).
  rewrite HO in E by lia. by exists s'.
Defined.

Lemma file_write_read_back_witness : exists s1, file_write 2 [120; 121] demo_kernel = Ret (2, s1) /\
  exists s2 s3, file_seek 2 1 SEEK_SET s1 = Ret (1, s2) /\ file_read 2 2 s2 = Ret ((2, [120; 121]), s3).
Proof.
  destruct (file_write_read_back demo_kernel 2 (MkFile FD_INODE (U_inode (Some 0)) 1 true true) 0
    (MkInode INODE_FILE 4 3 3 1) demo_file zeros [120; 121] 0 (demo_fd 2 _ eq_refl))
    as (r & s1 & E & [(_ & (_ & _ & (k & Hk & Ek) & _) & _)|(-> & HB)]); try done.
  - exact demo_fs_ok.
  - exact demo_file_ok.
  - repeat constructor; lia.
  - exfalso. assert (k = 0) as ->.
    { change (fd_offset _) with 1 in Hk. change (zlen _) with 2 in Hk. change (1 / 4096) with 0 in Hk.
      change ((1 + 2 - 1) / 4096) with 0 in Hk. lia. }
    rewrite demo_ptr in Ek by lia. done.
  - exists s1. by split.
Defined.

(** The root folder of the demo disk has one entry. *)
Lemma fs_readdir_correct_witness :
  readdir_post 3 zeros 4096 100 0 0 demo_kernel (fs_readdir (Some 1) zeros 4096 100 0 demo_kernel) /\
  match fs_readdir (Some 1) zeros 4096 100 0 demo_kernel with
  | Ret ((n, b), _) => n = 1 /\ load_list b (4096 + 12) 3 = [DT_FILE; 97; 0]
  | _ => False
  end.
Proof.
  split; [|vm_compute; done].
  apply (fs_readdir_correct demo_kernel 1 (MkInode INODE_DIRECTORY 3 3 1 1)); [done|done|lia].
Defined.

Lemma demo_ram_bytes : bytes_ok (ram demo_space).
Proof.
  unfold demo_space, demo_ram, store64. cbn [ram].
  repeat first [apply bytes_ok_store8 | apply bytes_ok_store_le | apply bytes_ok_store_list | apply bytes_ok_zeros].
Qed.

(** A path in the demo page, which begins with 'a', is refused. *)
Lemma user_paths_correct_witness :
  validate_user_string 4194305 MAX_PATH_LENGTH demo_kernel = Ret (None, demo_kernel).
Proof.
  destruct (user_paths_correct demo_kernel 0 [] demo_tree 4194305 eq_refl demo_space_wf demo_ram_bytes
    ltac:(vm_compute; congruence) ltac:(lia)) as [E _].
  rewrite E. vm_compute. reflexivity.
Defined.

Lemma fb_size_never_set_witness :
  exists s', sys_ioctl 1 FB_CTL_SET_WIDTH 32 demo_kernel = Ret (-1, s') /\ fb_dev (env s') = Some demo_fb.
Proof.
  destruct (sys_ioctl 1 FB_CTL_SET_WIDTH 32 demo_kernel) as [[r s']| | |] eqn:E; [|vm_compute in E; discriminate E..].
  destruct (fb_size_never_set demo_kernel 0 1 (stdout_file fb_index) demo_fb FB_CTL_SET_WIDTH 32 r s' eq_refl
    (demo_fd 1 _ eq_refl) eq_refl eq_refl eq_refl) as (_ & HF & HR); try done; [by left|].
  destruct (HR ltac:(done)) as [-> _]. exists s'. split; [done|exact HF].
Defined.

(** Four bytes at the end of the demo page. *)
Lemma fb_write_overread_witness : sys_write 1 4198396 4 demo_kernel = Undef.
Proof.
  apply (fb_write_overread demo_kernel 0 1 (stdout_file fb_index) demo_fb 4198396 4 eq_refl
    (demo_fd 1 _ eq_refl)); try done; vm_compute; reflexivity.
Defined.
