(* ===== verification/DriverSign.v ===== *)
(** * Driver signatures (kernel/src/drivers/driver_sign.c, os_trust.c and
      driverspace/host_sign_mock.c)

    The trust store, the check of a manifest and the mock cryptography both
    sides share.  Byte arrays of fixed length are lists of bytes; a null
    pointer is [None]. *)
From S2P Require Import Prelude Mem.

(** ** Data *)

Record driver_manifest := MkManifest {
  m_name : list Z; m_version : Z; m_bus : Z; m_class : Z;
  m_pubkey_id : list Z; m_code_hash : list Z; m_signature : list Z
}.
Record os_trust_entry := MkTrust { t_pubkey_id : list Z; t_pubkey : list Z; t_revoked : bool }.
(** [os_trust_store_t]: the entries up to [count]. *)
Definition os_trust_store : Type := list os_trust_entry.

Definition MAX_TRUST : Z := 16.
(** [TRUST] and [TRUST_N]. *)
Record trust_state := MkTS { TRUST : list os_trust_entry; TRUST_N : Z }.
Definition trust_zero : os_trust_entry := MkTrust (replicate 32 0) (replicate 32 0) false.
Definition trust_boot : trust_state := MkTS (replicate (Z.to_nat MAX_TRUST) trust_zero) 0.

(** ** The mock primitives *)

Record sha_state := MkSha { sa : Z; sb : Z; sc : Z; sd : Z }.
Definition sha_init : sha_state := MkSha 0x6a09e667 0xbb67ae85 0x3c6ef372 0xa54ff53a.

(** One round for the byte [c] at index [i]; the arithmetic is that of
    [uint32_t]. *)
Definition sha_round (s : sha_state) (i c : Z) : sha_state :=
  let a := Z.lxor (wrap 32 (sa s * 33)) (c + wrap 8 i) in
  let b := Z.lxor (wrap 32 (sb s * 65537)) (Z.shiftl c 1) in
  let cc := Z.lxor (sc s) (wrap 32 (c * 0x9e3779b1)) in
  let d := Z.lor (wrap 32 (Z.shiftl (sd s) 5)) (Z.shiftr (sd s) 27) in
  MkSha a b cc (Z.lxor d c).

Fixpoint sha_rounds (l : list Z) (i : Z) (s : sha_state) : sha_state :=
  match l with
  | [] => s
  | c :: l' => sha_rounds l' (i + 1) (sha_round s i c)
  end.

Definition le32 (v : Z) : list Z := load_list (store32 zeros 0 v) 0 4.

Definition mock_sha256 (input : list Z) : list Z :=
  let s := sha_rounds input 0 sha_init in
  let a := sa s in let b := sb s in let c := sc s in let d := sd s in
  concat (le32 <$> [a; b; c; d; Z.lxor a b; Z.lxor b c; Z.lxor c d; Z.lxor d a]).

Definition byte_at (l : list Z) (i : Z) : Z := default 0 (zget l i).

(** 0 when the signature is accepted, -1 otherwise. *)
Definition mock_ed25519_verify (pubkey msg_hash sig : list Z) : Z :=
  let x := (fun i => Z.lxor (Z.lxor (byte_at pubkey i) (byte_at sig i)) (byte_at sig (32 + i)))
             <$> seqZ 0 32 in
  if bool_decide (x = take 32 msg_hash) then 0 else -1.

(** ** The trust store *)

(** The loop of [driver_sign_set_trust_store] copies the entries and leaves
    [TRUST_N] at 0. *)
Fixpoint set_entries (ts : list os_trust_entry) (i : Z) (t : list os_trust_entry) : list os_trust_entry :=
  match ts with
  | [] => t
  | e :: ts' => if i <? MAX_TRUST then set_entries ts' (i + 1) (zset t i e) else t
  end.
Definition driver_sign_set_trust_store (ts : option os_trust_store) (s : trust_state) : trust_state :=
  match ts with
  | None => MkTS (TRUST s) 0
  | Some l => MkTS (set_entries l 0 (TRUST s)) 0
  end.

(** The index of the entry of [id] among the first [TRUST_N]. *)
Fixpoint find_from (l : list os_trust_entry) (i n : Z) (id : list Z) : option (Z * os_trust_entry) :=
  match l with
  | [] => None
  | e :: l' => if i <? n then
                 if bool_decide (t_pubkey_id e = id) then Some (i, e) else find_from l' (i + 1) n id
               else None
  end.
Definition find_entry (s : trust_state) (id : list Z) : option (Z * os_trust_entry) :=
  find_from (TRUST s) 0 (TRUST_N s) id.

Definition driver_sign_add_revocation (id : list Z) (s : trust_state) : Z * trust_state :=
  match find_entry s id with
  | None => (-1, s)
  | Some (i, e) => (0, MkTS (zset (TRUST s) i (MkTrust (t_pubkey_id e) (t_pubkey e) true)) (TRUST_N s))
  end.

(** ** Manifests *)

Definition byte_of (v k : Z) : Z := Z.land (Z.shiftr v k) 255.
(** The payload: the hash of the name, version, bus and class, the code. *)
Definition payload (m : driver_manifest) : list Z :=
  mock_sha256 (m_name m) ++
  [byte_of (m_version m) 24; byte_of (m_version m) 16; byte_of (m_version m) 8; byte_of (m_version m) 0;
   wrap 8 (m_bus m); wrap 8 (m_class m); 0; 0] ++ take 32 (m_code_hash m).
Definition hash_manifest_payload (m : driver_manifest) : list Z := mock_sha256 (payload m).

Definition driver_sign_verify_manifest (m : option driver_manifest) (s : trust_state) : Z :=
  match m with
  | None => -1
  | Some m =>
      match find_entry s (m_pubkey_id m) with
      | None => -1
      | Some (_, e) =>
          if t_revoked e then -1
          else mock_ed25519_verify (t_pubkey e) (hash_manifest_payload m) (m_signature m)
      end
  end.

(** [os_trust_init]: one key. *)
Definition TRUST_ENTRIES : os_trust_store :=
  [MkTrust ([17; 34; 51] ++ replicate 29 0) ([170; 187; 204] ++ replicate 29 0) false].
Definition os_trust_init (s : trust_state) : trust_state :=
  driver_sign_set_trust_store (Some TRUST_ENTRIES) s.

(** [main] of host_sign_mock.c: the signature of a payload. *)
Definition host_sign (pubkey payload : list Z) : list Z :=
  ((fun i => Z.lxor (byte_at pubkey i) (byte_at (mock_sha256 payload) i)) <$> seqZ 0 32) ++ replicate 32 0.

(** ** Theorems *)

Lemma find_from_none l : forall i id, find_from l i i id = None.
Proof. destruct l as [|e l]; intros i id; [done|]. cbn. by rewrite Z.ltb_irrefl. Qed.

Lemma find_entry_empty s id : TRUST_N s = 0 -> find_entry s id = None.
Proof. intros Hn. unfold find_entry. rewrite Hn. apply find_from_none. Qed.

(** The calls that change the trust store. *)
Inductive trust_step : trust_state -> trust_state -> Prop :=
| trust_set ts s : trust_step s (driver_sign_set_trust_store ts s)
| trust_revoke id s : trust_step s (driver_sign_add_revocation id s).2.

(** No driver manifest is ever accepted.  [driver_sign_set_trust_store]
    copies the keys but never counts them, so whatever keys are installed and
    revoked, in whatever order, the store stays empty: every check of a
    manifest answers -1, correctly signed or not, and no key can be revoked. *)
Theorem trust_store_stays_empty s : rtc trust_step trust_boot s ->
  (forall m, driver_sign_verify_manifest m s = -1) /\
  (forall id, driver_sign_add_revocation id s = (-1, s)).
Proof.
  intros Hs. assert (TRUST_N s = 0) as Hn.
  { apply rtc_ind_r with (P := fun s => TRUST_N s = 0) in Hs; [done|done|].
    intros s1 s2 _ Hst IH. destruct Hst as [[l|] s1|id s1]; [done|done|].
    unfold driver_sign_add_revocation. by rewrite (find_entry_empty s1 id IH). }
  split.
  - intros [m|]; [|done]. unfold driver_sign_verify_manifest. by rewrite find_entry_empty.
  - intros id. unfold driver_sign_add_revocation. by rewrite find_entry_empty.
Qed.

Lemma byte_at_app_l l1 l2 i : 0 <= i < zlen l1 -> byte_at (l1 ++ l2) i = byte_at l1 i.
Proof.
  unfold byte_at, zget, zlen. intros Hi. destruct (Z.ltb_spec i 0); [lia|]. by rewrite lookup_app_l by lia.
Qed.
Lemma byte_at_app_r l1 l2 i : 0 <= i -> byte_at (l1 ++ l2) (zlen l1 + i) = byte_at l2 i.
Proof.
  unfold byte_at, zget, zlen. intros Hi. destruct (Z.ltb_spec (Z.of_nat (length l1) + i) 0); [lia|].
  destruct (Z.ltb_spec i 0); [lia|]. rewrite lookup_app_r by lia. do 2 f_equal. lia.
Qed.
Lemma byte_at_seq f i : 0 <= i < 32 -> byte_at (f <$> seqZ 0 32) i = f i.
Proof.
  intros Hi. unfold byte_at, zget. destruct (Z.ltb_spec i 0); [lia|]. rewrite list_lookup_fmap.
  assert (seqZ 0 32 !! Z.to_nat i = Some i) as ->; [|done]. apply lookup_seqZ. lia.
Qed.
Lemma byte_at_zeros n i : byte_at (replicate n 0) i = 0.
Proof.
  unfold byte_at, zget. destruct (i <? 0); [done|]. destruct (replicate n 0 !! Z.to_nat i) eqn:E; [|done].
  by apply lookup_replicate in E as [-> _].
Qed.

Lemma length_sha l : length (mock_sha256 l) = 32%nat.
Proof. unfold mock_sha256, le32. cbn -[load_list]. rewrite ?length_app, ?length_load_list. done. Qed.

Lemma list_bytes l : length l = 32%nat -> byte_at l <$> seqZ 0 32 = l.
Proof.
  intros Hl. apply list_eq. intros k. rewrite list_lookup_fmap. destruct (decide (k < 32)%nat) as [L|L].
  - assert (seqZ 0 32 !! k = Some (Z.of_nat k)) as -> by (apply lookup_seqZ; lia). cbn.
    unfold byte_at, zget. destruct (Z.ltb_spec (Z.of_nat k) 0); [lia|]. rewrite Nat2Z.id.
    destruct (lookup_lt_is_Some_2 l k ltac:(lia)) as [x ->]. done.
  - rewrite (lookup_ge_None_2 l) by lia. rewrite lookup_ge_None_2; [done|]. rewrite length_seqZ. lia.
Qed.

(** What host_sign_mock.c signs, the kernel's check accepts, for every
    key and every manifest; and since signing uses nothing but the public key,
    anyone can do it.  (The check itself: [mock_ed25519_verify] on the hash
    [hash_manifest_payload] computes.) *)
Theorem host_signature_accepted pubkey m :
  mock_ed25519_verify pubkey (hash_manifest_payload m) (host_sign pubkey (payload m)) = 0.
Proof.
  unfold mock_ed25519_verify, hash_manifest_payload. rewrite bool_decide_true; [done|].
  rewrite take_ge by (rewrite length_sha; lia).
  transitivity (byte_at (mock_sha256 (payload m)) <$> seqZ 0 32); [|apply list_bytes, length_sha].
  apply list_fmap_ext. intros k i Hk. apply lookup_seqZ in Hk as [-> Hk].
  assert (zlen ((fun i => Z.lxor (byte_at pubkey i) (byte_at (mock_sha256 (payload m)) i)) <$> seqZ 0 32) = 32) as HL
    by (unfold zlen; rewrite length_fmap, length_seqZ; lia).
  unfold host_sign. rewrite byte_at_app_l by lia. rewrite byte_at_seq by lia.
  rewrite <- HL. rewrite byte_at_app_r by lia. rewrite byte_at_zeros.
  by rewrite Z.lxor_0_r, <- Z.lxor_assoc, Z.lxor_nilpotent, Z.lxor_0_l.
Qed.

(** The one key of [os_trust_init] is not trusted. *)
Lemma trust_store_stays_empty_witness :
  rtc trust_step trust_boot (os_trust_init trust_boot) /\
  forall m, driver_sign_verify_manifest m (os_trust_init trust_boot) = -1.
Proof.
  assert (rtc trust_step trust_boot (os_trust_init trust_boot)) as Hr by (apply rtc_once, trust_set).
  split; [exact Hr|]. apply (trust_store_stays_empty _ Hr).
Defined.
