(* ===== verification/Drivers.v ===== *)
(** * Devices and drivers (kernel/src/drivers/device_manager.c, driver.h,
      hw_detect.c, and [interrupt_dispatch] of cpu/idt.c)

    The tables of devices and of registered drivers, matching, probing,
    initialisation and the dispatch of interrupts.  The two arrays of 256
    entries are lists with their counts.  A driver is named by its address;
    its operations act on the device and on the state [W] of the hardware and
    are found through [drv_of], the contents of the driver structures.  Where
    an operation is a null pointer it is [None].  Log output is left out. *)
From S2P Require Import Prelude.

Definition MAX_DEVICES : Z := 256.
Definition DRIVER_BUS_PS2 : Z := 1.
Definition DRIVER_BUS_PCI : Z := 2.
Definition DRIVER_BUS_PLATFORM : Z := 3.
Definition DRIVER_CLASS_MISC : Z := 0.
Definition DRIVER_CLASS_INPUT : Z := 1.
Definition DRIVER_CLASS_BLOCK : Z := 2.
Definition DRIVER_CLASS_NET : Z := 3.
Definition DRIVER_CLASS_DISPLAY : Z := 4.
Definition DRIVER_CLASS_CHAR : Z := 5.

(** [device_t]. *)
Record device_t := MkDev {
  dv_name : option string; dv_class : Z; dv_bus : Z; dv_drv : option Z;
  dv_driver_data : Z; dv_os_data : Z; dv_irq : Z; dv_initialized : bool
}.
Definition dev_zero : device_t := MkDev None 0 0 None 0 0 0 false.
Definition set_drv (d : device_t) (p : option Z) : device_t :=
  MkDev (dv_name d) (dv_class d) (dv_bus d) p (dv_driver_data d) (dv_os_data d) (dv_irq d) (dv_initialized d).
Definition set_initialized (d : device_t) : device_t :=
  MkDev (dv_name d) (dv_class d) (dv_bus d) (dv_drv d) (dv_driver_data d) (dv_os_data d) (dv_irq d) true.

(** [driver_t] with the operations used here. *)
Record driver_t (W : Type) := MkDriver {
  dr_bus : Z; dr_class : Z;
  op_probe : option (device_t -> W -> Z * device_t * W);
  op_init : option (device_t -> W -> Z * device_t * W);
  op_irq_handler : option (device_t -> Z -> W -> device_t * W)
}.
Arguments dr_bus {W}. Arguments dr_class {W}. Arguments op_probe {W}. Arguments op_init {W}.
Arguments op_irq_handler {W}.

(** [device_manager_t]. *)
Record device_manager := MkDM {
  dm_devices : list device_t; device_count : Z; dm_drivers : list Z; driver_count : Z
}.
Definition dm_zero : device_manager :=
  MkDM (replicate (Z.to_nat MAX_DEVICES) dev_zero) 0 (replicate (Z.to_nat MAX_DEVICES) 0) 0.
Definition set_devices (g : device_manager) (l : list device_t) : device_manager :=
  MkDM l (device_count g) (dm_drivers g) (driver_count g).

(** ** Registration *)

(** A device written at the end of the table. *)
Definition add_device (g : device_manager) (d : device_t) : device_manager :=
  MkDM (zset (dm_devices g) (device_count g) d) (device_count g + 1) (dm_drivers g) (driver_count g).

Definition pci_class (class_code : Z) : Z :=
  if class_code =? 1 then DRIVER_CLASS_BLOCK
  else if class_code =? 2 then DRIVER_CLASS_NET
  else if class_code =? 3 then DRIVER_CLASS_DISPLAY
  else if class_code =? 9 then DRIVER_CLASS_INPUT
  else DRIVER_CLASS_MISC.

(** [os_data] is the copy [kmalloc] made room for, or null.  The fields the
    code does not write keep what the table holds. *)
Definition device_register_from_pci (class_code irq os_data : Z) (g : device_manager)
    : Z * device_manager :=
  if MAX_DEVICES <=? device_count g then (-1, g)
  else
    let old := default dev_zero (zget (dm_devices g) (device_count g)) in
    (0, add_device g (MkDev None (pci_class class_code) DRIVER_BUS_PCI None (dv_driver_data old) os_data irq false)).

Definition device_register_from_ps2 (irq os_data : Z) (g : device_manager)
    : Z * device_manager :=
  if MAX_DEVICES <=? device_count g then (-1, g)
  else
    let old := default dev_zero (zget (dm_devices g) (device_count g)) in
    (0, add_device g (MkDev (Some (if irq =? 1 then "ps2_keyboard"%string else "ps2_mouse"%string)) DRIVER_CLASS_INPUT DRIVER_BUS_PS2 None
                        (dv_driver_data old) os_data irq false)).

(** The first device of the name among the [n] first. *)
Fixpoint find_by_name_from (l : list device_t) (i n : Z) (name : string) : option (Z * device_t) :=
  match l with
  | [] => None
  | d :: l' => if i <? n then
                 if bool_decide (dv_name d = Some name) then Some (i, d) else find_by_name_from l' (i + 1) n name
               else None
  end.
Definition device_find_by_name (name : string) (g : device_manager) : option (Z * device_t) :=
  find_by_name_from (dm_devices g) 0 (device_count g) name.

Definition device_register_platform (name : string) (class_ : Z) (g : device_manager) : Z * device_manager :=
  if MAX_DEVICES <=? device_count g then (-1, g)
  else match device_find_by_name name g with
       | Some _ => (0, g)
       | None => (0, add_device g (MkDev (Some name) class_ DRIVER_BUS_PLATFORM None 0 0 0 false))
       end.

Definition device_register_framebuffer (fb : Z) (g : device_manager) : Z * device_manager :=
  if MAX_DEVICES <=? device_count g then (-1, g)
  else (0, add_device g (MkDev (Some "framebuffer"%string) DRIVER_CLASS_DISPLAY DRIVER_BUS_PLATFORM None 0 fb 0 false)).

(** [hw_detect_platform_devices]: the number of devices found. *)
Definition hw_detect_platform_devices (g : device_manager) : Z * device_manager :=
  let '(r1, g) := device_register_platform "rtc" DRIVER_CLASS_MISC g in
  let '(r2, g) := device_register_platform "serial" DRIVER_CLASS_CHAR g in
  ((if r1 =? 0 then 1 else 0) + (if r2 =? 0 then 1 else 0), g).

(** ** Drivers *)

(** The index of [drv] among the first [n] drivers. *)
Fixpoint driver_index (l : list Z) (i n drv : Z) : option Z :=
  match l with
  | [] => None
  | p :: l' => if i <? n then if p =? drv then Some i else driver_index l' (i + 1) n drv else None
  end.

Definition driver_register_verified (drv : Z) (g : device_manager) : Z * device_manager :=
  if MAX_DEVICES <=? driver_count g then (-1, g)
  else match driver_index (dm_drivers g) 0 (driver_count g) drv with
       | Some _ => (0, g)
       | None => (0, MkDM (dm_devices g) (device_count g) (zset (dm_drivers g) (driver_count g) drv)
                       (driver_count g + 1))
       end.

(** The shifting loop of [driver_unregister]. *)
Fixpoint shift_down (k : nat) (j : Z) (l : list Z) : list Z :=
  match k with
  | O => l
  | S k' => shift_down k' (j + 1) (zset l j (default 0 (zget l (j + 1))))
  end.
Definition driver_unregister (drv : Z) (g : device_manager) : Z * device_manager :=
  match driver_index (dm_drivers g) 0 (driver_count g) drv with
  | None => (-1, g)
  | Some i => (0, MkDM (dm_devices g) (device_count g)
                    (shift_down (Z.to_nat (driver_count g - 1 - i)) i (dm_drivers g)) (driver_count g - 1))
  end.

Section drivers.
Context {W : Type} (drv_of : Z -> driver_t W).

(** The first of the [n] drivers with the bus and class of the device. *)
Fixpoint match_from (l : list Z) (i n : Z) (d : device_t) : option Z :=
  match l with
  | [] => None
  | p :: l' =>
      if i <? n then
        if (dr_bus (drv_of p) =? dv_bus d) && (dr_class (drv_of p) =? dv_class d) then Some p
        else match_from l' (i + 1) n d
      else None
  end.

Definition device_driver_match_and_bind (g : device_manager) (d : device_t) : Z * device_t :=
  match dv_drv d with
  | Some _ => (0, d)
  | None => match match_from (dm_drivers g) 0 (driver_count g) d with
            | Some p => (0, set_drv d (Some p))
            | None => (-1, d)
            end
  end.

(** One device of [device_manager_probe_all]. *)
Definition probe_one (g : device_manager) (d : device_t) (w : W) : device_t * W :=
  if dv_initialized d then (d, w)
  else
    let '(r, d) := device_driver_match_and_bind g d in
    if negb (r =? 0) then (d, w)
    else match dv_drv d with
         | None => (d, w)
         | Some p => match op_probe (drv_of p) with
                     | None => (d, w)
                     | Some probe => let '(result, d, w) := probe d w in
                                     if negb (result =? 0) then (set_drv d None, w) else (d, w)
                     end
         end.

(** One device of [device_manager_init_all]. *)
Definition init_one (d : device_t) (w : W) : device_t * W :=
  if dv_initialized d then (d, w)
  else match dv_drv d with
       | None => (d, w)
       | Some p => match op_init (drv_of p) with
                   | None => (set_initialized d, w)
                   | Some init => let '(result, d, w) := init d w in
                                  if result =? 0 then (set_initialized d, w) else (d, w)
                   end
       end.

(** A loop over the first [n] devices. *)
Fixpoint each_device (f : device_t -> W -> device_t * W) (l : list device_t) (i n : Z) (w : W)
    : list device_t * W :=
  match l with
  | [] => ([], w)
  | d :: l' => if i <? n then
                 let '(d, w) := f d w in
                 let '(l', w) := each_device f l' (i + 1) n w in (d :: l', w)
               else (d :: l', w)
  end.

Definition device_manager_probe_all (g : device_manager) (w : W) : device_manager * W :=
  let '(l, w) := each_device (probe_one g) (dm_devices g) 0 (device_count g) w in (set_devices g l, w).
Definition device_manager_init_all (g : device_manager) (w : W) : device_manager * W :=
  let '(l, w) := each_device init_one (dm_devices g) 0 (device_count g) w in (set_devices g l, w).

(** ** Interrupts *)

Fixpoint find_by_irq_from (l : list device_t) (i n irq : Z) : option (Z * device_t) :=
  match l with
  | [] => None
  | d :: l' => if i <? n then
                 if (dv_irq d =? irq) && dv_initialized d then Some (i, d) else find_by_irq_from l' (i + 1) n irq
               else None
  end.
Definition device_find_by_irq (irq : Z) (g : device_manager) : option (Z * device_t) :=
  find_by_irq_from (dm_devices g) 0 (device_count g) irq.

(** [interrupt_dispatch] up to the end-of-interrupt: the first of the result
    says whether a handler ran. *)
Definition T_IRQ0 : Z := 32.
Definition interrupt_dispatch (vector : Z) (g : device_manager) (w : W) : bool * device_manager * W :=
  let irq := wrap 8 (vector - T_IRQ0) in
  match device_find_by_irq irq g with
  | Some (i, d) =>
      match dv_drv d ≫= fun p => op_irq_handler (drv_of p) with
      | Some h => let '(d, w) := h d irq w in (true, set_devices g (zset (dm_devices g) i d), w)
      | None => (false, g, w)
      end
  | None => (false, g, w)
  end.
End drivers.

(** ** The table of drivers as a list *)

Definition registered (g : device_manager) : list Z := take (Z.to_nat (driver_count g)) (dm_drivers g).

Record registry_ok (g : device_manager) : Prop := {
  rg_len : zlen (dm_drivers g) = MAX_DEVICES;
  rg_count : 0 <= driver_count g <= MAX_DEVICES;
  rg_nodup : NoDup (registered g)
}.

Lemma zget_cons_pos {A} (x : A) l i : 0 < i -> zget (x :: l) i = zget l (i - 1).
Proof.
  intros Hi. unfold zget. destruct (Z.ltb_spec i 0), (Z.ltb_spec (i - 1) 0); try lia.
  by replace (Z.to_nat i) with (S (Z.to_nat (i - 1))) by lia.
Qed.

Lemma driver_index_spec drv l : forall i n, 0 <= i ->
  match driver_index l i n drv with
  | Some k => i <= k < n /\ zget l (k - i) = Some drv
  | None => forall k, i + k < n -> zget l k <> Some drv
  end.
Proof.
  induction l as [|p l IH]; intros i n Hi; cbn [driver_index].
  { intros k _. unfold zget. by destruct (k <? 0). }
  destruct (Z.ltb_spec i n) as [L|G].
  2:{ intros k Hk E. pose proof (zget_Some_range _ _ _ E). lia. }
  destruct (Z.eqb_spec p drv) as [->|N].
  { split; [lia|]. by rewrite Z.sub_diag. }
  specialize (IH (i + 1) n ltac:(lia)). destruct (driver_index l (i + 1) n drv) as [k|].
  - destruct IH as [Hk E]. split; [lia|]. unfold zget in *. destruct (Z.ltb_spec (k - (i + 1)) 0); [done|].
    destruct (Z.ltb_spec (k - i) 0); [lia|].
    by replace (Z.to_nat (k - i)) with (S (Z.to_nat (k - (i + 1)))) by lia.
  - intros k Hk E. unfold zget in E. destruct (Z.ltb_spec k 0); [done|].
    destruct (Z.eq_dec k 0) as [->|]; [change (Some p = Some drv) in E; congruence|].
    apply (IH (k - 1)); [lia|]. unfold zget. destruct (Z.ltb_spec (k - 1) 0); [lia|].
    by replace (Z.to_nat k) with (S (Z.to_nat (k - 1))) in E by lia.
Qed.

Lemma elem_registered g drv : registry_ok g ->
  drv ∈ registered g <-> exists k, k < driver_count g /\ zget (dm_drivers g) k = Some drv.
Proof.
  intros [HL HC _]. unfold registered, zlen, MAX_DEVICES in *. rewrite list_elem_of_lookup. split.
  - intros [k Ek]. pose proof (lookup_lt_Some _ _ _ Ek) as L. rewrite length_take in L.
    rewrite lookup_take_lt in Ek by lia. exists (Z.of_nat k). split; [lia|]. unfold zget.
    destruct (Z.ltb_spec (Z.of_nat k) 0); [lia|]. by rewrite Nat2Z.id.
  - intros (k & Hk & E). unfold zget in E. destruct (Z.ltb_spec k 0); [done|].
    exists (Z.to_nat k). rewrite lookup_take_lt by lia. done.
Qed.

Lemma index_registered g drv : registry_ok g ->
  match driver_index (dm_drivers g) 0 (driver_count g) drv with
  | Some k => 0 <= k < driver_count g /\ zget (dm_drivers g) k = Some drv
  | None => drv ∉ registered g
  end.
Proof.
  intros Hg. pose proof (driver_index_spec drv (dm_drivers g) 0 (driver_count g) ltac:(lia)) as HS.
  destruct (driver_index _ _ _ _) as [k|]; [by rewrite Z.sub_0_r in HS|].
  rewrite (elem_registered g drv Hg). intros (k & Hk & E). by apply (HS k).
Qed.

Lemma zget_shift_down k : forall j l x, 0 <= j -> j + Z.of_nat k < zlen l ->
  zget (shift_down k j l) x = if (j <=? x) && (x <? j + Z.of_nat k) then zget l (x + 1) else zget l x.
Proof.
  induction k as [|k IH]; intros j l x Hj Hl; cbn [shift_down].
  { destruct (Z.leb_spec j x), (Z.ltb_spec x (j + Z.of_nat 0)); try lia; done. }
  rewrite IH by (rewrite ?zlen_zset; lia).
  destruct (zget_lt_is_Some l (j + 1) ltac:(lia)) as [y Ey]. rewrite Ey. cbn [default from_option id].
  destruct (Z.leb_spec (j + 1) x), (Z.ltb_spec x (j + 1 + Z.of_nat k)), (Z.leb_spec j x),
    (Z.ltb_spec x (j + Z.of_nat (S k))); try lia; cbn [andb].
  - by rewrite zget_zset_ne by lia.
  - by rewrite zget_zset_ne by lia.
  - assert (x = j) as -> by lia. rewrite zget_zset_eq by lia. done.
  - by rewrite zget_zset_ne by lia.
Qed.

Lemma zlen_shift_down k : forall j l, zlen (shift_down k j l) = zlen l.
Proof. induction k as [|k IH]; intros j l; cbn [shift_down]; [done|]. by rewrite IH, zlen_zset. Qed.

Lemma filter_absent (l : list Z) drv : drv ∉ l -> filter (fun p => p <> drv) l = l.
Proof.
  induction l as [|p l IH]; intros Hn; [done|]. apply not_elem_of_cons in Hn as [N Hn].
  rewrite filter_cons_True by congruence. by rewrite IH.
Qed.

(** Without duplicates, taking out one index is filtering. *)
Lemma filter_remove (l : list Z) (i : nat) drv : NoDup l -> l !! i = Some drv ->
  filter (fun p => p <> drv) l = take i l ++ drop (S i) l.
Proof.
  intros Hn Hi. pose proof (take_drop_middle l i drv Hi) as HE. rewrite <- HE in Hn.
  apply NoDup_app in Hn as (_ & H2 & H3). apply NoDup_cons in H3 as [H4 _].
  rewrite <- HE at 1. rewrite filter_app, filter_cons_False by (intros X; by apply X).
  rewrite !filter_absent; [done|done|]. intros H5. apply (H2 drv H5). by left.
Qed.

Lemma registered_unregister g drv k : registry_ok g -> 0 <= k < driver_count g ->
  zget (dm_drivers g) k = Some drv ->
  take (Z.to_nat (driver_count g - 1)) (shift_down (Z.to_nat (driver_count g - 1 - k)) k (dm_drivers g)) =
  filter (fun p => p <> drv) (registered g).
Proof.
  intros [HL HC HN] Hk E. unfold MAX_DEVICES in *.
  assert (registered g !! Z.to_nat k = Some drv) as Er.
  { unfold registered. rewrite lookup_take_lt by lia. unfold zget in E. by destruct (k <? 0). }
  rewrite (filter_remove _ _ _ HN Er). apply list_eq. intros x.
  assert (length (registered g) = Z.to_nat (driver_count g)) as EL
    by (unfold registered; rewrite length_take; unfold zlen in HL; lia).
  assert (forall l y, (0 <= y < 256) -> zlen l = 256 -> l !! Z.to_nat y = zget (A := Z) l y) as HZ.
  { intros l y Hy _. unfold zget. by destruct (Z.ltb_spec y 0); [lia|]. }
  destruct (decide (x < Z.to_nat (driver_count g - 1))%nat) as [L|G].
  - rewrite lookup_take_lt by done. rewrite <- (Nat2Z.id x) at 1.
    rewrite HZ by (rewrite ?zlen_shift_down; lia). rewrite zget_shift_down by lia.
    destruct (decide (x < Z.to_nat k)%nat) as [Lk|Gk].
    + destruct (Z.leb_spec k (Z.of_nat x)); [lia|]. cbn [andb].
      rewrite lookup_app_l by (rewrite length_take; lia). rewrite lookup_take_lt by done.
      unfold registered. rewrite lookup_take_lt by lia. rewrite <- HZ by lia. by rewrite Nat2Z.id.
    + destruct (Z.leb_spec k (Z.of_nat x)); [|lia].
      destruct (Z.ltb_spec (Z.of_nat x) (k + Z.of_nat (Z.to_nat (driver_count g - 1 - k)))); [|lia]. cbn [andb].
      rewrite lookup_app_r by (rewrite length_take; lia). rewrite length_take, lookup_drop, EL.
      replace (S (Z.to_nat k) + (x - Z.to_nat k `min` Z.to_nat (driver_count g)))%nat
        with (Z.to_nat (Z.of_nat x + 1)) by lia.
      unfold registered. rewrite lookup_take_lt by lia. by rewrite HZ by lia.
  - rewrite lookup_ge_None_2 by (rewrite length_take; lia). symmetry. apply lookup_ge_None_2.
    rewrite length_app, length_take, length_drop. lia.
Qed.

Lemma driver_register_spec g drv (Hg : registry_ok g) : driver_count g < MAX_DEVICES ->
  let '(r, g') := driver_register_verified drv g in
  r = 0 /\ registry_ok g' /\ registered g' = (if decide (drv ∈ registered g) then registered g else registered g ++ [drv]) /\
  dm_devices g' = dm_devices g /\ device_count g' = device_count g.
Proof.
  intros Hroom. pose proof (index_registered g drv Hg) as HI. pose proof Hg as [HL HC HN].
  unfold driver_register_verified. destruct (Z.leb_spec MAX_DEVICES (driver_count g)); [lia|].
  destruct (driver_index _ _ _ _) as [k|].
  { destruct HI as [Hk E]. split; [done|]. split; [done|]. split; [|done]. rewrite decide_True; [done|].
    apply (elem_registered g drv Hg). exists k. split; [lia|done]. }
  rewrite decide_False by done.
  assert (registered (MkDM (dm_devices g) (device_count g) (zset (dm_drivers g) (driver_count g) drv)
            (driver_count g + 1)) = registered g ++ [drv]) as ER.
  { unfold registered. cbn [driver_count dm_drivers]. unfold MAX_DEVICES in *.
    replace (Z.to_nat (driver_count g + 1)) with (S (Z.to_nat (driver_count g))) by lia.
    unfold zset. destruct (Z.ltb_spec (driver_count g) 0); [lia|].
    rewrite (take_S_r _ _ drv) by (apply list_lookup_insert_eq; unfold zlen in HL; lia).
    by rewrite take_insert_ge by lia. }
  split; [done|]. split; [|done]. split; [by cbn; rewrite zlen_zset|cbn; lia|]. rewrite ER. apply NoDup_app.
  split; [done|]. split; [|apply NoDup_singleton]. intros x Hx ->%list_elem_of_singleton. done.
Qed.

(** C24: the array of drivers and its count implement a list without
    duplicates.  Registering appends a driver that is not in the list and
    changes nothing for one that is (both answer 0), and fails with -1 on a
    full table of 256; unregistering takes the driver out, keeping the order
    of the others, and answers -1 for one that is not registered. *)
Theorem driver_registry_correct g drv : registry_ok g ->
  (let '(r, g') := driver_register_verified drv g in
   registry_ok g' /\
   if decide (driver_count g = MAX_DEVICES) then r = -1 /\ g' = g
   else r = 0 /\ registered g' = if decide (drv ∈ registered g) then registered g else registered g ++ [drv]) /\
  (let '(r, g') := driver_unregister drv g in
   registry_ok g' /\ registered g' = filter (fun p => p <> drv) (registered g) /\
   r = if decide (drv ∈ registered g) then 0 else -1).
Proof.
  intros Hg. pose proof (index_registered g drv Hg) as HI. pose proof Hg as [HL HC HN].
  assert (forall k, zget (dm_drivers g) k = Some drv -> 0 <= k < driver_count g -> drv ∈ registered g) as HIN
    by (intros k E Hk; apply (elem_registered g drv Hg); exists k; split; [lia|done]).
  split.
  - destruct (Z.leb_spec MAX_DEVICES (driver_count g)) as [G|L].
    + unfold driver_register_verified. destruct (Z.leb_spec MAX_DEVICES (driver_count g)); [|lia]. split; [done|].
      by rewrite decide_True by lia.
    + pose proof (driver_register_spec g drv Hg L) as HS. destruct (driver_register_verified drv g) as [r g'].
      destruct HS as (-> & H1 & H2 & _). split; [done|]. by rewrite (decide_False (P := driver_count g = MAX_DEVICES)) by lia.
  - unfold driver_unregister. destruct (driver_index _ _ _ _) as [k|].
    + destruct HI as [Hk E]. rewrite decide_True by (by eapply HIN).
      assert (registered (MkDM (dm_devices g) (device_count g)
        (shift_down (Z.to_nat (driver_count g - 1 - k)) k (dm_drivers g)) (driver_count g - 1)) =
        filter (fun p => p <> drv) (registered g)) as ER by (by apply registered_unregister).
      split; [|done]. split; [by cbn; rewrite zlen_shift_down|cbn; lia|]. rewrite ER. by apply NoDup_filter.
    + split; [done|]. rewrite decide_False by done. by rewrite filter_absent.
Qed.

(** The zeroed manager is an empty registry; the first registration is
    entry 0. *)
Lemma driver_registry_correct_witness :
  registry_ok dm_zero /\
  (let '(r, g') := driver_register_verified 7 dm_zero in
   registry_ok g' /\
   if decide (driver_count dm_zero = MAX_DEVICES) then r = -1 /\ g' = dm_zero
   else r = 0 /\ registered g' = if decide (7 ∈ registered dm_zero) then registered dm_zero else registered dm_zero ++ [7]).
Proof.
  assert (registry_ok dm_zero) as H0 by (split; [done|done|constructor]).
  split; [exact H0|]. exact (proj1 (driver_registry_correct dm_zero 7 H0)).
Defined.

(** ** What the table holds *)

(** A driver's operations keep the bus, the class and the driver of their
    device, as those of the repository do. *)
Section dispatch.
Context {W : Type} (drv_of : Z -> driver_t W).

Definition same_binding (d d' : device_t) : Prop :=
  dv_bus d' = dv_bus d /\ dv_class d' = dv_class d /\ dv_drv d' = dv_drv d.

Definition drivers_keep_binding : Prop := forall p,
  (forall f, op_probe (drv_of p) = Some f -> forall d w, same_binding d (f d w).1.2) /\
  (forall f, op_init (drv_of p) = Some f -> forall d w, same_binding d (f d w).1.2) /\
  (forall h, op_irq_handler (drv_of p) = Some h -> forall d i w, same_binding d (h d i w).1).

(** The calls that change the tables. *)
Inductive dm_step : device_manager * W -> device_manager * W -> Prop :=
| step_pci c irq o g w : dm_step (g, w) (snd (device_register_from_pci c irq o g), w)
| step_ps2 irq o g w : dm_step (g, w) (snd (device_register_from_ps2 irq o g), w)
| step_platform n c g w : dm_step (g, w) (snd (device_register_platform n c g), w)
| step_framebuffer fb g w : dm_step (g, w) (snd (device_register_framebuffer fb g), w)
| step_register p g w : dm_step (g, w) (snd (driver_register_verified p g), w)
| step_unregister p g w : dm_step (g, w) (snd (driver_unregister p g), w)
| step_probe g w : dm_step (g, w) (device_manager_probe_all drv_of g w)
| step_init g w : dm_step (g, w) (device_manager_init_all drv_of g w)
| step_irq v g w : dm_step (g, w) (let '(_, g', w') := interrupt_dispatch drv_of v g w in (g', w')).

Definition bound_ok (d : device_t) : Prop :=
  forall p, dv_drv d = Some p -> dr_bus (drv_of p) = dv_bus d /\ dr_class (drv_of p) = dv_class d.
Definition bindings (g : device_manager) : Prop := Forall bound_ok (dm_devices g).

Lemma bound_ok_same d d' : same_binding d d' -> bound_ok d -> bound_ok d'.
Proof. intros (B & C & D) H p. rewrite B, C, D. apply H. Qed.

Lemma Forall_zset {A} (P : A -> Prop) l i x : Forall P l -> P x -> Forall P (zset l i x).
Proof. intros Hl Hx. unfold zset. destruct (i <? 0); [done|]. by apply Forall_insert. Qed.

Lemma add_device_bindings g d : bindings g -> dv_drv d = None -> bindings (add_device g d).
Proof. intros Hg E. apply Forall_zset; [done|]. intros p Hp. congruence. Qed.

Lemma each_device_Forall P f l : (forall d w, P d -> P (fst (f d w))) ->
  forall i n (w : W), Forall P l -> Forall P (fst (each_device f l i n w)).
Proof.
  intros Hf. induction l as [|d l IH]; intros i n w Hl; cbn [each_device]; [done|].
  inversion_clear Hl as [|? ? Hd Hl']. destruct (i <? n); [|by constructor].
  pose proof (Hf d w Hd) as H1. destruct (f d w) as [d' w']. specialize (IH (i + 1) n w' Hl').
  destruct (each_device f l (i + 1) n w') as [l' w'']. by constructor.
Qed.

Lemma match_from_spec l d p : forall i n, match_from drv_of l i n d = Some p ->
  p ∈ l /\ dr_bus (drv_of p) = dv_bus d /\ dr_class (drv_of p) = dv_class d.
Proof.
  induction l as [|q l IH]; intros i n; cbn [match_from]; [done|]. destruct (i <? n); [|done].
  destruct (_ && _) eqn:E.
  - intros [= <-]. apply andb_true_iff in E as [E1 E2]. split; [by left|]. split; lia.
  - intros E1. destruct (IH _ _ E1) as (E2 & E3). split; [by right|done].
Qed.

Lemma match_and_bind_ok g d : bound_ok d -> bound_ok (snd (device_driver_match_and_bind drv_of g d)).
Proof.
  intros Hd. unfold device_driver_match_and_bind. destruct (dv_drv d); [done|].
  destruct (match_from _ _ _ _ _) as [p|] eqn:E; [|done].
  intros q [= <-]. by apply match_from_spec in E as (_ & E).
Qed.

Lemma probe_one_ok g d w : drivers_keep_binding -> bound_ok d -> bound_ok (fst (probe_one drv_of g d w)).
Proof.
  intros HK Hd. unfold probe_one. destruct (dv_initialized d); [done|].
  pose proof (match_and_bind_ok g d Hd) as H1.
  destruct (device_driver_match_and_bind drv_of g d) as [r d1]. cbn [snd] in H1.
  destruct (negb (r =? 0)); [done|]. destruct (dv_drv d1) as [p|]; [|done].
  destruct (op_probe (drv_of p)) as [f|] eqn:EP; [|done].
  pose proof (proj1 (HK p) f EP d1 w) as H2. destruct (f d1 w) as [[r' d2] w']. cbn [fst snd] in H2.
  destruct (negb (r' =? 0)); [by intros q|]. by apply (bound_ok_same d1).
Qed.

Lemma init_one_ok d w : drivers_keep_binding -> bound_ok d -> bound_ok (fst (init_one drv_of d w)).
Proof.
  intros HK Hd. unfold init_one. destruct (dv_initialized d); [done|]. destruct (dv_drv d) as [p|]; [|done].
  destruct (op_init (drv_of p)) as [f|] eqn:EP; [|done].
  pose proof (proj1 (proj2 (HK p)) f EP d w) as H2. destruct (f d w) as [[r' d2] w']. cbn [fst snd] in H2.
  pose proof (bound_ok_same _ _ H2 Hd). by destruct (r' =? 0).
Qed.

Lemma find_by_irq_spec l irq : forall i n, 0 <= i ->
  match find_by_irq_from l i n irq with
  | Some (j, d) => i <= j < n /\ zget l (j - i) = Some d /\ dv_irq d = irq /\ dv_initialized d = true
  | None => forall k d, i + k < n -> zget l k = Some d -> dv_initialized d = true -> dv_irq d <> irq
  end.
Proof.
  induction l as [|x l IH]; intros i n Hi; cbn [find_by_irq_from].
  { intros k d _. unfold zget. by destruct (k <? 0). }
  destruct (Z.ltb_spec i n) as [L|G].
  2:{ intros k d Hk E. pose proof (zget_Some_range _ _ _ E). lia. }
  destruct ((dv_irq x =? irq) && dv_initialized x) eqn:E.
  { apply andb_true_iff in E as [E1 E2]. split; [lia|]. rewrite Z.sub_diag. split; [done|]. split; [lia|done]. }
  specialize (IH (i + 1) n ltac:(lia)). destruct (find_by_irq_from l (i + 1) n irq) as [[j d]|].
  - destruct IH as (Hj & EJ & E1). split; [lia|]. split; [|done]. rewrite zget_cons_pos by lia. by replace (j - i - 1) with (j - (i + 1)) by lia.
  - intros k d Hk EK EI. destruct (Z.eq_dec k 0) as [->|].
    + assert (x = d) as -> by (change (Some x = Some d) in EK; congruence). rewrite EI in E. lia.
    + pose proof (zget_Some_range _ _ _ EK). rewrite zget_cons_pos in EK by lia.
      apply (IH (k - 1) d); [lia|done|done].
Qed.

Lemma dm_step_bindings s s' : drivers_keep_binding -> dm_step s s' -> bindings s.1 -> bindings s'.1.
Proof.
  intros HK HS. destruct HS; cbn [fst]; intros HL.
  - unfold device_register_from_pci. destruct (_ <=? _); [done|]. by apply add_device_bindings.
  - unfold device_register_from_ps2. destruct (_ <=? _); [done|]. by apply add_device_bindings.
  - unfold device_register_platform. destruct (_ <=? _); [done|].
    destruct (device_find_by_name n g); [done|]. by apply add_device_bindings.
  - unfold device_register_framebuffer. destruct (_ <=? _); [done|]. by apply add_device_bindings.
  - unfold driver_register_verified. destruct (_ <=? _); [done|]. by destruct (driver_index _ _ _ _).
  - unfold driver_unregister. by destruct (driver_index _ _ _ _).
  - unfold device_manager_probe_all.
    pose proof (each_device_Forall bound_ok (probe_one drv_of g) (dm_devices g)
      ltac:(intros; by apply probe_one_ok) 0 (device_count g) w HL) as H1.
    by destruct (each_device _ _ _ _ _).
  - unfold device_manager_init_all.
    pose proof (each_device_Forall bound_ok (init_one drv_of) (dm_devices g)
      ltac:(intros; by apply init_one_ok) 0 (device_count g) w HL) as H1.
    by destruct (each_device _ _ _ _ _).
  - unfold interrupt_dispatch, device_find_by_irq.
    pose proof (find_by_irq_spec (dm_devices g) (wrap 8 (v - T_IRQ0)) 0 (device_count g) ltac:(lia)) as HF.
    destruct (find_by_irq_from _ _ _ _) as [[i d]|]; [|done]. destruct HF as (_ & EG & _).
    destruct (dv_drv d ≫= _) as [h|] eqn:EH; [|done].
    apply bind_Some in EH as (p & _ & EH). pose proof (proj2 (proj2 (HK p)) h EH d (wrap 8 (v - T_IRQ0)) w) as H1.
    destruct (h d _ w) as [d' w']. cbn [fst] in H1. apply Forall_zset; [done|].
    apply (bound_ok_same d); [done|]. rewrite Z.sub_0_r in EG.
    by apply (proj1 (Forall_forall _ _) HL), (zget_elem _ i).
Qed.

(** C25: starting from the zeroed tables, whatever devices and drivers are
    registered or unregistered, probed and initialised, and whatever
    interrupts arrive, every device is bound only to a driver of its own bus
    and class, so a driver's handler never runs on another driver's kind of
    device.  The device an interrupt line is dispatched to is an initialised
    device of the table on that line, and there is no such device when none
    is found. *)
Theorem devices_bound_to_their_drivers w0 s irq : drivers_keep_binding ->
  rtc dm_step (dm_zero, w0) s ->
  Forall (fun d => forall p, dv_drv d = Some p -> dr_bus (drv_of p) = dv_bus d /\ dr_class (drv_of p) = dv_class d)
    (dm_devices s.1) /\
  match device_find_by_irq irq s.1 with
  | Some (i, d) => 0 <= i < device_count s.1 /\ zget (dm_devices s.1) i = Some d /\
                   dv_irq d = irq /\ dv_initialized d = true
  | None => forall i d, i < device_count s.1 -> zget (dm_devices s.1) i = Some d ->
            dv_initialized d = true -> dv_irq d <> irq
  end.
Proof.
  intros HK HR. split.
  - change (bindings s.1). assert (bindings (dm_zero, w0).1) as H0 by (by apply Forall_replicate).
    revert H0. induction HR as [s|s1 s2 s3 H1 _ IH]; [done|]. intros H0. by apply IH, (dm_step_bindings _ _ HK H1).
  - unfold device_find_by_irq.
    pose proof (find_by_irq_spec (dm_devices s.1) irq 0 (device_count s.1) ltac:(lia)) as HF.
    destruct (find_by_irq_from _ _ _ _) as [[i d]|]; [by rewrite Z.sub_0_r in HF|]. intros i d. apply HF.
Qed.
End dispatch.

(** The platform devices of the machine with the rtc driver (which handles no
    interrupt) and the serial driver (which moves its device to line 4),
    probed and initialised: line 4 finds device 1. *)
Definition demo_drv (p : Z) : driver_t unit :=
  if p =? 1 then
    MkDriver unit DRIVER_BUS_PLATFORM DRIVER_CLASS_MISC (Some (fun d w => (0, d, w))) (Some (fun d w => (0, d, w))) None
  else
    MkDriver unit DRIVER_BUS_PLATFORM DRIVER_CLASS_CHAR (Some (fun d w => (0, d, w)))
      (Some (fun d w => (0, MkDev (dv_name d) (dv_class d) (dv_bus d) (dv_drv d) (dv_driver_data d) (dv_os_data d) 4
                              (dv_initialized d), w)))
      (Some (fun d _ w => (d, w))).
Definition demo_tables : device_manager :=
  snd (driver_register_verified 2 (snd (driver_register_verified 1
    (snd (device_register_platform "serial" DRIVER_CLASS_CHAR
      (snd (device_register_platform "rtc" DRIVER_CLASS_MISC dm_zero))))))).
Definition demo_boot : device_manager * unit :=
  let '(g, w) := device_manager_probe_all demo_drv demo_tables tt in device_manager_init_all demo_drv g w.

Lemma demo_boot_reachable : rtc (dm_step demo_drv) (dm_zero, tt) demo_boot.
Proof.
  eapply rtc_l; [apply step_platform with (n := "rtc"%string) (c := DRIVER_CLASS_MISC)|].
  eapply rtc_l; [apply step_platform with (n := "serial"%string) (c := DRIVER_CLASS_CHAR)|].
  eapply rtc_l; [apply step_register with (p := 1)|]. eapply rtc_l; [apply step_register with (p := 2)|].
  change (rtc (dm_step demo_drv) (demo_tables, tt) demo_boot).
  eapply rtc_l; [apply step_probe|]. unfold demo_boot.
  destruct (device_manager_probe_all demo_drv demo_tables tt) as [g w]. apply rtc_once, step_init.
Qed.

Lemma demo_drivers_keep : drivers_keep_binding demo_drv.
Proof.
  intros p. unfold demo_drv. destruct (p =? 1); (split; [|split]); intros f [= <-]; by intros.
Qed.

Lemma devices_bound_to_their_drivers_witness :
  option_map fst (device_find_by_irq 4 demo_boot.1) = Some 1 /\
  Forall (fun d => forall p, dv_drv d = Some p ->
      dr_bus (demo_drv p) = dv_bus d /\ dr_class (demo_drv p) = dv_class d) (dm_devices demo_boot.1).
Proof.
  split; [by vm_compute|].
  exact (proj1 (devices_bound_to_their_drivers demo_drv tt demo_boot 4 demo_drivers_keep demo_boot_reachable)).
Defined.
