(* ===== verification/Proc.v ===== *)
(** * The process table (kernel/src/userspace/proc.c, common/condvar.c, and
      the part of scheduler.c that frees processes)

    A process is named by the address of its page.  Its scheduling fields are
    those of Sched.v, the others a record beside them; both disappear when
    the page is freed, so that a later access through a stale pointer is
    [Undef].  The table, its two counters and the page and frame allocators
    are threaded through, so that creating a process runs the models of
    [kalloc] and [vmm_user_pagetable_new].

    One core runs.  A process's lock is a flag: taking it while it is taken
    is the deadlock panic of spinlock.c, giving it back while it is free is
    the other panic, and both do nothing before [enable_spinlocks].  Functions
    that switch to another process are cut at the switch, as in Sched.v. *)
From S2P Require Import Prelude PhysMem Vmm Sched SchedInv Files.

(** ** State *)

(** The fields of [struct process] that Sched.v does not have. *)
Record pcb := MkPcb {
  pid : Z; orig_i : Z; proc_i : Z; pagetable : Z;
  initial_data_segment : Z; current_sbrk : Z; kernel_stack_top : Z;
  exit_status : Z; locked : bool
}.

Record pstate := MkPs {
  mm : pmem; vm : vmm_globals; ss : sstate; pcbs : gmap Z pcb;
  table : list Z; process_count : Z; process_min_index : Z; next_pid : Z;
  running_process : Z; last_running_process : Z; spinlocks_enabled : bool
}.

Definition set_mm (s : pstate) (m : pmem) : pstate :=
  MkPs m (vm s) (ss s) (pcbs s) (table s) (process_count s) (process_min_index s) (next_pid s)
    (running_process s) (last_running_process s) (spinlocks_enabled s).
Definition set_ss (s : pstate) (t : sstate) : pstate :=
  MkPs (mm s) (vm s) t (pcbs s) (table s) (process_count s) (process_min_index s) (next_pid s)
    (running_process s) (last_running_process s) (spinlocks_enabled s).
Definition on_mm {A} : ST pmem A -> ST pstate A := zoom mm (fun m s => set_mm s m).
Definition on_sched {A} : ST sstate A -> ST pstate A := zoom ss (fun t s => set_ss s t).
Definition set_pcbs (s : pstate) (b : gmap Z pcb) : pstate :=
  MkPs (mm s) (vm s) (ss s) b (table s) (process_count s) (process_min_index s) (next_pid s)
    (running_process s) (last_running_process s) (spinlocks_enabled s).
Definition set_table (s : pstate) (t : list Z) (c m : Z) : pstate :=
  MkPs (mm s) (vm s) (ss s) (pcbs s) t c m (next_pid s)
    (running_process s) (last_running_process s) (spinlocks_enabled s).
Definition set_next_pid (s : pstate) (n : Z) : pstate :=
  MkPs (mm s) (vm s) (ss s) (pcbs s) (table s) (process_count s) (process_min_index s) n
    (running_process s) (last_running_process s) (spinlocks_enabled s).
Definition set_running (s : pstate) (r l : Z) : pstate :=
  MkPs (mm s) (vm s) (ss s) (pcbs s) (table s) (process_count s) (process_min_index s) (next_pid s)
    r l (spinlocks_enabled s).
Definition set_procs (s : pstate) (ps : gmap Z process) : pstate :=
  MkPs (mm s) (vm s) (MkS ps (rq (ss s)) (stats (ss s))) (pcbs s) (table s) (process_count s)
    (process_min_index s) (next_pid s) (running_process s) (last_running_process s) (spinlocks_enabled s).

(** Before the first process: no memory is described here. *)
Definition pstate_boot (m : pmem) (g : vmm_globals) : pstate :=
  MkPs m g (MkS ∅ rq_empty (MkStats 0 0 0 0)) ∅ (replicate 64 0) 0 0 1 0 0 true.

Definition get_pcb (p : Z) : ST pstate pcb := fun s =>
  match pcbs s !! p with Some b => Ret (b, s) | None => Undef end.
Definition put_pcb (p : Z) (b : pcb) : ST pstate unit := st_modify (fun s => set_pcbs s (<[p := b]> (pcbs s))).
Definition slot (i : Z) : ST pstate Z := reads (fun s => default 0 (zget (table s) i)).
Definition put_slot (i p : Z) : ST pstate unit :=
  st_modify (fun s => set_table s (zset (table s) i p) (process_count s) (process_min_index s)).

Definition pcb_i (b : pcb) (i : Z) : pcb :=
  MkPcb (pid b) (orig_i b) i (pagetable b) (initial_data_segment b) (current_sbrk b) (kernel_stack_top b)
    (exit_status b) (locked b).
Definition pcb_pid (b : pcb) (n : Z) : pcb :=
  MkPcb n (orig_i b) (proc_i b) (pagetable b) (initial_data_segment b) (current_sbrk b) (kernel_stack_top b)
    (exit_status b) (locked b).
Definition pcb_heap (b : pcb) (i c : Z) : pcb :=
  MkPcb (pid b) (orig_i b) (proc_i b) (pagetable b) i c (kernel_stack_top b) (exit_status b) (locked b).
Definition pcb_stack (b : pcb) (t : Z) : pcb :=
  MkPcb (pid b) (orig_i b) (proc_i b) (pagetable b) (initial_data_segment b) (current_sbrk b) t
    (exit_status b) (locked b).
Definition pcb_exit (b : pcb) (e : Z) : pcb :=
  MkPcb (pid b) (orig_i b) (proc_i b) (pagetable b) (initial_data_segment b) (current_sbrk b)
    (kernel_stack_top b) e (locked b).
Definition pcb_lock (b : pcb) (l : bool) : pcb :=
  MkPcb (pid b) (orig_i b) (proc_i b) (pagetable b) (initial_data_segment b) (current_sbrk b)
    (kernel_stack_top b) (exit_status b) l.

(** ** Creating processes *)

(** [is_valid_process_init]: 0 when the slot is taken.  [kalloc] may give no
    page; the code then clears memory at address 0. *)
Definition is_valid_process_init (fuel : nat) (i : Z) : ST pstate Z :=
  old ← slot i;
  if truth old then mret 0
  else
    proc ← on_mm (updates kalloc);
    if proc =? 0 then st_undef
    else
      _ ← put_slot i proc;
      n ← reads next_pid;
      _ ← st_modify (fun s => set_next_pid s (wrap 64 (n + 1)));
      g ← reads vm;
      pt ← on_mm (vmm_user_pagetable_new fuel g);
      _ ← on_sched (put_proc proc (MkProc USED 0 zero_entity));
      _ ← put_pcb proc (MkPcb n i i pt 0 0 0 (-1) false);
      if pt =? 0 then st_panic "out of memory" else mret proc.

(** [INIT_PROCESS_RANGE(process_min_index, MAX_PROCESSES, 0)]. *)
Definition scan_slots (fuel : nat) (lo : Z) : ST pstate Z :=
  r ← st_for (fun i => p ← is_valid_process_init fuel i; mret (if truth p then Some p else None))
        (seqZ lo (MAX_PROCESSES - lo));
  mret (default 0 r).

(** The first free slot from [i] on. *)
Fixpoint free_slot_from (l : list Z) (i : Z) : option Z :=
  match l with
  | [] => None
  | p :: l' => if truth p then free_slot_from l' (i + 1) else Some i
  end.

Definition proc_allocate (fuel : nat) : ST pstate Z :=
  p ← is_valid_process_init fuel 0;
  p ← (if truth p then mret p else lo ← reads process_min_index; scan_slots fuel lo);
  if negb (truth p) then mret 0
  else
    b ← get_pcb p;
    _ ← st_modify (fun s => if orig_i b =? process_count s
                            then set_table s (table s) (wrap 64 (process_count s + 1)) (process_min_index s)
                            else s);
    next ← reads (fun s => free_slot_from (drop (Z.to_nat (orig_i b + 1)) (table s)) (orig_i b + 1));
    match next with
    | Some i => _ ← st_modify (fun s => set_table s (table s) (process_count s) i); mret p
    | None => st_panic "hit process limit - 1"
    end.

(** The end of [proc_exec]: the kernel stack and the run queue. *)
Definition proc_start (p : Z) : ST pstate Z :=
  b ← get_pcb p;
  g ← reads vm;
  top ← on_mm (vmm_allocate_proc_kernel_stack g (proc_i b));
  _ ← put_pcb p (pcb_stack b top);
  _ ← on_sched (sched_fork p);
  _ ← on_sched (sched_set_priority p PRIO_NORMAL_MIN);
  _ ← on_sched (sched_nice p 1);
  x ← on_sched (get_proc p);
  _ ← on_sched (put_proc p (set_state x USED));
  _ ← on_sched (sched_wakeup p);
  mret (pid b).

(** The [bad] label of [proc_exec] for a process that was allocated. *)
Definition proc_exec_bad (p : Z) : ST pstate unit :=
  b ← get_pcb p;
  _ ← on_mm (vmm_user_pagetable_free (pagetable b));
  x ← on_sched (get_proc p);
  _ ← on_sched (put_proc p (set_state x UNUSED));
  put_pcb p (pcb_pid b 0).

(** ** Freeing processes *)

(** The loop of [coelesce_processes] from slot [j] on. *)
Fixpoint coalesce_from (k : nat) (j : Z) : ST pstate unit :=
  match k with
  | O => mret tt
  | S k' =>
      p ← slot j;
      if truth p then
        _ ← put_slot (j - 1) p;
        b ← get_pcb p;
        _ ← put_pcb p (pcb_i b (j - 1));
        _ ← put_slot j 0;
        coalesce_from k' (j + 1)
      else mret tt
  end.
Definition coelesce_processes (i : Z) : ST pstate unit :=
  c ← reads process_count;
  _ ← coalesce_from (Z.to_nat (c - (i + 1))) (i + 1);
  st_modify (fun s => set_table s (table s) (wrap 64 (process_count s - 1))
                        (if i <? process_min_index s then i else process_min_index s)).

(** A process that exited: its memory is freed, its page last, and the table
    is closed up behind it.  ([scheduler_start] reads the index once more from
    the page just freed, where it still stands.) *)
Definition reclaim (p i : Z) : ST pstate unit :=
  b ← get_pcb p;
  g ← reads vm;
  _ ← on_mm (vmm_free_proc_kernel_stack g (orig_i b));
  _ ← on_mm (vmm_user_pagetable_free (pagetable b));
  _ ← on_mm (effect (kfree p));
  _ ← st_modify (fun s => set_running s (running_process s)
                            (if last_running_process s =? p then 0 else last_running_process s));
  _ ← st_modify (fun s => set_pcbs (set_procs s (delete p (procs (ss s)))) (delete p (pcbs s)));
  _ ← put_slot i 0;
  coelesce_processes i.

(** The sweep of the idle loop; [true] when a process was freed. *)
Fixpoint reclaim_exited (fuel : nat) (i : Z) (any : bool) : ST pstate bool :=
  match fuel with
  | O => st_nofuel
  | S fuel' =>
      c ← reads process_count;
      if negb (i <? c) then mret any
      else
        p ← slot i;
        if truth p then
          x ← on_sched (get_proc p);
          if bool_decide (p_state x = EXITED) then
            _ ← reclaim p i; reclaim_exited fuel' i true
          else reclaim_exited fuel' (i + 1) any
        else reclaim_exited fuel' (i + 1) any
  end.

(** One round of the scheduler's loop while nothing is runnable. *)
Inductive idle_result := Continue | Shutdown | Halt.
Definition scheduler_idle : ST pstate idle_result :=
  c ← reads process_count;
  l ← reads (fun s => take (Z.to_nat c) (table s));
  _ ← on_sched (sched_rebuild l);
  q ← on_sched get_rq;
  if 0 <? total_runnable q then mret Continue
  else
    any ← reclaim_exited 129 0 false;
    if (any : bool) then mret Continue
    else
      c ← reads process_count;
      done_ ← reads (fun s => forallb (fun p => negb (truth p) ||
                match procs (ss s) !! p with
                | Some x => bool_decide (p_state x = UNUSED)
                | None => false
                end) (take (Z.to_nat c) (table s)));
      mret (if (done_ : bool) then Shutdown else Halt).

(** ** Locks and condition variables *)

(** [condvar_lock] and [condvar_unlock] on the lock of a process. *)
Definition condvar_lock (p : Z) : ST pstate unit :=
  on ← reads spinlocks_enabled;
  if negb on then mret tt
  else
    b ← get_pcb p;
    if locked b then st_panic "deadlock" else put_pcb p (pcb_lock b true).
Definition condvar_unlock (p : Z) : ST pstate unit :=
  on ← reads spinlocks_enabled;
  if negb on then mret tt
  else
    b ← get_pcb p;
    if locked b then put_pcb p (pcb_lock b false) else st_panic "cpu not holding lock".

(** [&p->lock.lock]: the offset of the field in [struct process]. *)
Definition lock_channel (p : Z) : Z := p + 944.

(** [proc_wakeup]. *)
Fixpoint wakeup_from (l : list Z) (me waiting_channel : Z) (everyone : bool) : ST pstate unit :=
  match l with
  | [] => mret tt
  | i :: l' =>
      p ← slot i;
      if negb (truth p) || (me =? p) then wakeup_from l' me waiting_channel everyone
      else
        _ ← condvar_lock p;
        x ← on_sched (get_proc p);
        let hit := bool_decide (p_state x = SLEEPING) && (Sched.waiting_channel x =? waiting_channel) in
        _ ← (if hit then on_sched (sched_wakeup p) else mret tt);
        _ ← condvar_unlock p;
        if hit && negb everyone then mret tt else wakeup_from l' me waiting_channel everyone
  end.
Definition proc_wakeup (waiting_channel : Z) (everyone : bool) : ST pstate unit :=
  me ← reads running_process;
  wakeup_from (seqZ 0 MAX_PROCESSES) me waiting_channel everyone.
Definition condvar_notify (channel : Z) : ST pstate unit := proc_wakeup channel false.
Definition condvar_notify_all (channel : Z) : ST pstate unit := proc_wakeup channel true.

(** [scheduler_switch_back] up to the switch. *)
Definition scheduler_switch_back : ST pstate unit :=
  me ← reads running_process;
  b ← get_pcb me;
  if negb (locked b) then st_panic "scheduler_switch_back: not locked"
  else
    x ← on_sched (get_proc me);
    if bool_decide (p_state x = RUNNING) then st_panic "scheduler_switch_back: RUNNING" else mret tt.

(** [condvar_wait] on a condition variable whose lock is given back by
    [unlock], up to the switch. *)
Definition condvar_wait (now : Z) (unlock : ST pstate unit) (channel : Z) : ST pstate unit :=
  me ← reads running_process;
  if me =? 0 then st_panic "condvar_wait: proc"
  else
    _ ← condvar_lock me;
    _ ← unlock;
    _ ← on_sched (sched_sleep now me channel);
    scheduler_switch_back.

(** ** Calls of the running process *)

(** [proc_exit] behind the files, up to the switch. *)
Definition proc_exit (exit_code : Z) : ST pstate unit :=
  me ← reads running_process;
  b ← get_pcb me;
  if negb (locked b) then st_panic "proc should be locked"
  else
    _ ← put_pcb me (pcb_exit b exit_code);
    _ ← condvar_notify_all (lock_channel me);
    x ← on_sched (get_proc me);
    _ ← on_sched (put_proc me (set_state x EXITED));
    scheduler_switch_back.

(** [proc_wait]: the search, which leaves the lock of the process it finds
    taken, ... *)
Fixpoint find_pid (l : list Z) (target_pid : Z) : ST pstate (option Z) :=
  match l with
  | [] => mret None
  | i :: l' =>
      p ← slot i;
      if negb (truth p) then find_pid l' target_pid
      else
        _ ← condvar_lock p;
        b ← get_pcb p;
        if pid b =? target_pid then mret (Some p)
        else _ ← condvar_unlock p; find_pid l' target_pid
  end.
(** ... and one round of its loop: [None] after switching away. *)
Definition wait_round (now p : Z) : ST pstate (option Z) :=
  x ← on_sched (get_proc p);
  if bool_decide (p_state x = EXITED) then
    b ← get_pcb p; _ ← condvar_unlock p; mret (Some (exit_status b))
  else _ ← condvar_wait now (condvar_unlock p) (lock_channel p); mret None.
Definition proc_wait (now target_pid : Z) : ST pstate (option Z) :=
  target ← find_pid (seqZ 0 MAX_PROCESSES) target_pid;
  match target with
  | None => mret (Some (-1))
  | Some p => wait_round now p
  end.

(** [sys_sleep] up to its first switch: [true] when the time is over. *)
Definition sys_sleep (now msec later : Z) : ST pstate bool :=
  me ← reads running_process;
  let target_epoch_wakeup := wrap 64 (now + msec) in
  _ ← condvar_lock me;
  if later <? target_epoch_wakeup then
    x ← on_sched (get_proc me);
    _ ← on_sched (put_proc me (set_state x RUNNABLE));
    _ ← scheduler_switch_back;
    mret false
  else _ ← condvar_unlock me; mret true.

(** [proc_sbrk]; [how_much] is a signed number of 64 bits. *)
Definition proc_sbrk (how_much : Z) : ST pstate Z :=
  me ← reads running_process;
  b ← get_pcb me;
  let before := current_sbrk b in
  _ ← (if 0 <? how_much then
         c ← on_mm (vmm_user_sbrk_allocate (pagetable b) (current_sbrk b) how_much);
         put_pcb me (pcb_heap b (initial_data_segment b) c)
       else if how_much <? 0 then
         let how_much := if initial_data_segment b <=? wrap 64 (current_sbrk b + how_much)
                         then sgn 64 (wrap 64 (initial_data_segment b - current_sbrk b)) else how_much in
         c ← on_mm (vmm_user_sbrk_deallocate (pagetable b) (current_sbrk b) (wrap 64 (- how_much)));
         put_pcb me (pcb_heap b (initial_data_segment b) c)
       else mret tt);
  mret before.

(** [scheduler_yield] up to the switch. *)
Definition scheduler_yield : ST pstate unit :=
  _ ← on_sched (st_modify (fun s => MkS (procs s) (rq s)
        (MkStats (total_switches (stats s)) (total_preemptions (stats s))
           (wrap 64 (total_yields (stats s) + 1)) (total_timer_ticks (stats s)))));
  me ← reads running_process;
  if me =? 0 then mret tt
  else
    _ ← condvar_lock me;
    x ← on_sched (get_proc me);
    _ ← on_sched (put_proc me (set_state x RUNNABLE));
    scheduler_switch_back.

(** ** The scheduler around a process *)

(** From a runnable process to the switch: the process's lock is taken and
    stays so while it runs. *)
Definition proc_dispatch (fuel : nat) (now : Z) : ST pstate Z :=
  n ← on_sched (sched_dispatch fuel now);
  if n =? 0 then mret 0
  else
    _ ← st_modify (fun s => set_running s n n);
    _ ← condvar_lock n;
    mret n.

(** From [resume_scheduler] on. *)
Definition proc_resume (now : Z) : ST pstate unit :=
  n ← reads running_process;
  _ ← condvar_unlock n;
  _ ← on_sched (sched_resume now n);
  x ← on_sched (get_proc n);
  _ ← (if bool_decide (p_state x = EXITED) then b ← get_pcb n; reclaim n (proc_i b) else mret tt);
  st_modify (fun s => set_running s 0 (last_running_process s)).
