(* ===== verification/ProcFacts.v ===== *)
(** * What the process table guarantees (about the definitions of Proc.v)

    [process_table_correct]: the table is a list of processes; creating one
    appends to it, freeing one takes it out.  [kernel_stacks_shared]: what
    the renumbering does to the kernel stacks.  [proc_sbrk_shrink]: what giving
    memory back does. *)
From S2P Require Import Prelude PhysMem Vmm Sched SchedInv Files Proc.

(** ** The table as a list *)

Definition tab (L : list Z) : list Z := L ++ replicate (64 - length L) 0.

Record table_ok (s : pstate) (L : list Z) : Prop := {
  tk_table : table s = tab L;
  tk_len : (length L <= 63)%nat;
  tk_nodup : NoDup L;
  tk_nonzero : 0 ∉ L;
  tk_count : process_count s = zlen L;
  tk_min : 0 <= process_min_index s <= zlen L;
  tk_pcb k p : L !! k = Some p -> exists b, pcbs s !! p = Some b /\ proc_i b = Z.of_nat k
}.

Lemma zget_tab L i : 0 <= i -> default 0 (zget (tab L) i) = nth0 L (Z.to_nat i).
Proof.
  intros Hi. unfold zget, nth0, tab. destruct (Z.ltb_spec i 0); [lia|].
  destruct (decide (Z.to_nat i < length L)%nat) as [Hl|Hl]; [by rewrite lookup_app_l|].
  rewrite lookup_app_r by lia. rewrite (lookup_ge_None_2 L) by lia.
  destruct (replicate _ 0 !! _) eqn:E; [|done]. apply lookup_replicate in E as [-> _]. done.
Qed.

Lemma zset_end {A} (l : list A) x y m : zset (l ++ x :: m) (zlen l) y = l ++ y :: m.
Proof.
  unfold zset, zlen. destruct (Z.ltb_spec (Z.of_nat (length l)) 0); [lia|].
  rewrite Nat2Z.id. by rewrite insert_app_r_alt, Nat.sub_diag by lia.
Qed.

Lemma zget_end {A} (l : list A) x m : zget (l ++ x :: m) (zlen l) = Some x.
Proof.
  unfold zget, zlen. destruct (Z.ltb_spec (Z.of_nat (length l)) 0); [lia|].
  rewrite Nat2Z.id. by apply list_lookup_middle.
Qed.

Lemma tab_snoc L p : (length L <= 63)%nat -> zset (tab L) (zlen L) p = tab (L ++ [p]).
Proof.
  intros HL. unfold tab. rewrite length_app. cbn [length].
  replace (64 - length L)%nat with (S (64 - (length L + 1))) by lia. cbn [replicate].
  by rewrite zset_end, <- app_assoc.
Qed.

Lemma on_mm_run {A} (m : ST pmem A) s a t : m (mm s) = Ret (a, t) -> on_mm m s = Ret (a, set_mm s t).
Proof. apply (zoom_run mm (fun m s => set_mm s m)). Qed.
Lemma on_sched_run {A} (m : ST sstate A) s a t : m (ss s) = Ret (a, t) -> on_sched m s = Ret (a, set_ss s t).
Proof. apply (zoom_run ss (fun t s => set_ss s t)). Qed.

(** *** Creating *)

(** A process as [is_valid_process_init] leaves it in slot [i]. *)
Definition new_pcb (s : pstate) (i pt : Z) : pcb := MkPcb (next_pid s) i i pt 0 0 0 (-1) false.
Definition with_new (s : pstate) (m : pmem) (i p pt : Z) : pstate :=
  MkPs m (vm s) (MkS (<[p := MkProc USED 0 zero_entity]> (procs (ss s))) (rq (ss s)) (stats (ss s)))
    (<[p := new_pcb s i pt]> (pcbs s)) (zset (table s) i p) (process_count s) (process_min_index s)
    (wrap 64 (next_pid s + 1)) (running_process s) (last_running_process s) (spinlocks_enabled s).

Section allocate.
Context (fuel : nat) (s : pstate) (p pt : Z) (m1 m2 : pmem).
Context (Ek : kalloc (mm s) = (p, m1)) (Hp : p <> 0).
Context (Ev : vmm_user_pagetable_new fuel (vm s) m1 = Ret (pt, m2)) (Hpt : pt <> 0).

Lemma init_free_slot i : default 0 (zget (table s) i) = 0 ->
  is_valid_process_init fuel i s = Ret (p, with_new s m2 i p pt).
Proof.
  intros E0. unfold is_valid_process_init, slot. rewrite (bind_step _ _ s 0 s) by (unfold reads; by rewrite E0).
  change (truth 0) with false. cbv iota.
  rewrite (bind_step _ _ s p (set_mm s m1)) by (apply on_mm_run; unfold updates; by rewrite Ek).
  destruct (Z.eqb_spec p 0); [done|].
  rewrite (bind_step _ _ _ tt _) by reflexivity.
  rewrite (bind_step _ _ _ (next_pid s) _) by reflexivity.
  rewrite (bind_step _ _ _ tt _) by reflexivity.
  rewrite (bind_step _ _ _ (vm s) _) by reflexivity.
  erewrite bind_step by (apply on_mm_run; exact Ev).
  rewrite (bind_step _ _ _ tt _) by reflexivity. rewrite (bind_step _ _ _ tt _) by reflexivity.
  destruct (Z.eqb_spec pt 0); done.
Qed.
End allocate.

Lemma init_taken_slot fuel s i : default 0 (zget (table s) i) <> 0 -> is_valid_process_init fuel i s = Ret (0, s).
Proof.
  intros E0. unfold is_valid_process_init, slot. rewrite (bind_step _ _ s _ s eq_refl).
  unfold truth. destruct (Z.eqb_spec (default 0 (zget (table s) i)) 0); done.
Qed.

Lemma seqZ_split lo n : 0 < n -> seqZ lo n = lo :: seqZ (lo + 1) (n - 1).
Proof. intros. replace n with (n - 1 + 1) at 1 by lia. by rewrite seqZ_S by lia. Qed.

Lemma nth0_taken L i : 0 ∉ L -> (i < length L)%nat -> nth0 L i <> 0.
Proof.
  intros H0 Hi. unfold nth0. destruct (lookup_lt_is_Some_2 L i Hi) as [q E]. rewrite E. cbn.
  intros ->. by apply H0, (list_elem_of_lookup_2 _ i).
Qed.

Lemma free_slot_tab L i : 0 ∉ L -> (i <= length L)%nat ->
  free_slot_from (drop i (tab L)) (Z.of_nat i) =
  if (length L <? 64)%nat then Some (zlen L) else None.
Proof.
  intros H0 Hi. remember (length L - i)%nat as n eqn:En. revert i Hi En.
  induction n as [|n IH]; intros i Hi En.
  - assert (i = length L) as -> by lia. unfold tab. rewrite drop_app_length.
    destruct (Nat.ltb_spec (length L) 64).
    + replace (64 - length L)%nat with (S (63 - length L)) by lia. cbn. done.
    + by replace (64 - length L)%nat with 0%nat by lia.
  - destruct (lookup_lt_is_Some_2 L i ltac:(lia)) as [q Eq].
    rewrite (drop_S _ q) by (unfold tab; by rewrite lookup_app_l by lia).
    assert (q <> 0) as Hq by (intros ->; by apply H0, (list_elem_of_lookup_2 _ i)).
    cbn [free_slot_from]. unfold truth at 1. destruct (Z.eqb_spec q 0); [done|]. cbn [negb].
    replace (Z.of_nat i + 1) with (Z.of_nat (S i)) by lia. apply IH; lia.
Qed.

(** What a result of [is_valid_process_init] on a free slot tells. *)
Lemma init_inv fuel s i p s' : default 0 (zget (table s) i) = 0 ->
  is_valid_process_init fuel i s = Ret (p, s') ->
  exists m1 pt m2, kalloc (mm s) = (p, m1) /\ p <> 0 /\ vmm_user_pagetable_new fuel (vm s) m1 = Ret (pt, m2) /\
    pt <> 0 /\ s' = with_new s m2 i p pt.
Proof.
  intros E0 E. destruct (kalloc (mm s)) as [q m1] eqn:Ek.
  destruct (decide (q = 0)) as [->|Hq].
  { unfold is_valid_process_init, slot in E.
    rewrite (bind_step _ _ s 0 s) in E by (unfold reads; by rewrite E0).
    change (truth 0) with false in E. cbv iota in E.
    rewrite (bind_step _ _ s 0 (set_mm s m1)) in E by (apply on_mm_run; unfold updates; by rewrite Ek). done. }
  destruct (vmm_user_pagetable_new fuel (vm s) m1) as [[pt m2]| | |] eqn:Ev.
  1: destruct (decide (pt = 0)) as [->|Hpt].
  2: { rewrite (init_free_slot fuel s q pt m1 m2) in E by done. injection E as <- <-. by exists m1, pt, m2. }
  all: exfalso; revert E; unfold is_valid_process_init, slot;
    rewrite (bind_step _ _ s 0 s) by (unfold reads; by rewrite E0);
    change (truth 0) with false; cbv iota;
    rewrite (bind_step _ _ s q (set_mm s m1)) by (apply on_mm_run; unfold updates; by rewrite Ek);
    destruct (Z.eqb_spec q 0); [done|];
    unfold mbind, st_bind, on_mm, zoom; cbn; rewrite Ev; done.
Qed.

(** The scan of the table ends at the first free slot. *)
Lemma scan_slots_first fuel s L lo : table s = tab L -> (length L <= 63)%nat -> 0 ∉ L -> 0 <= lo <= zlen L ->
  scan_slots fuel lo s = is_valid_process_init fuel (zlen L) s.
Proof.
  intros Et HL H0 Hlo. unfold scan_slots.
  set (body := fun i => p ← is_valid_process_init fuel i; mret (if truth p then Some p else None)).
  assert (default 0 (zget (table s) (zlen L)) = 0) as Efree.
  { rewrite Et, zget_tab by (unfold zlen; lia). unfold nth0, zlen. by rewrite lookup_ge_None_2 by lia. }
  assert (forall k, 0 <= k < zlen L -> body k s = Ret (None, s)) as Htaken.
  { intros k Hk. unfold body. rewrite (bind_step _ _ s 0 s); [done|]. apply init_taken_slot.
    unfold zlen in Hk. rewrite Et, zget_tab by lia. apply nth0_taken; [done|lia]. }
  assert (forall n k, n = Z.to_nat (zlen L - k) -> 0 <= k <= zlen L ->
    (r ← st_for body (seqZ k (MAX_PROCESSES - k)); mret (default 0 r)) s =
    is_valid_process_init fuel (zlen L) s) as HI.
  { induction n as [|n IH]; intros k En Hk;
      (rewrite seqZ_split by (unfold zlen, MAX_PROCESSES in *; lia));
      unfold mbind, st_bind; rewrite st_for_cons.
    - assert (k = zlen L) as -> by lia. unfold body, mbind, st_bind.
      destruct (is_valid_process_init fuel (zlen L) s) as [[p s']| | |] eqn:E; try done.
      destruct (init_inv fuel s (zlen L) p s' Efree E) as (m1 & pt & m2 & _ & Hp & _).
      unfold truth. by destruct (Z.eqb_spec p 0).
    - rewrite Htaken by lia. replace (MAX_PROCESSES - k - 1) with (MAX_PROCESSES - (k + 1)) by lia.
      apply IH; lia. }
  by eapply HI.
Qed.

(** So does [proc_allocate]. *)
Definition allocate_slot (fuel : nat) : ST pstate Z :=
  p ← is_valid_process_init fuel 0;
  if truth p then mret p else lo ← reads process_min_index; scan_slots fuel lo.

Lemma allocate_slot_first fuel s L : table_ok s L ->
  allocate_slot fuel s = is_valid_process_init fuel (zlen L) s.
Proof.
  intros [Ht HL HN H0 Hc Hm Hb]. unfold allocate_slot. destruct L as [|q L].
  - unfold mbind, st_bind. change (zlen (@nil Z)) with 0.
    destruct (is_valid_process_init fuel 0 s) as [[p s']| | |] eqn:E; try done.
    destruct (init_inv fuel s 0 p s' ltac:(by rewrite Ht) E) as (m1 & pt & m2 & _ & Hp & _).
    unfold truth. by destruct (Z.eqb_spec p 0).
  - rewrite (bind_step _ _ s 0 s).
    + change (truth 0) with false. cbv iota. rewrite (bind_step _ _ s (process_min_index s) s eq_refl).
      by apply (scan_slots_first fuel s (q :: L)).
    + apply init_taken_slot. rewrite Ht, zget_tab by lia. apply nth0_taken; [done|cbn; lia].
Qed.

Lemma free_slot_end s L : table_ok s L -> default 0 (zget (table s) (zlen L)) = 0.
Proof.
  intros Hok. rewrite (tk_table _ _ Hok), zget_tab by (unfold zlen; lia).
  unfold nth0, zlen. by rewrite lookup_ge_None_2 by lia.
Qed.

Lemma tab_free_next L p : 0 ∉ L -> p <> 0 -> (length L <= 63)%nat ->
  free_slot_from (drop (Z.to_nat (zlen L + 1)) (tab (L ++ [p]))) (zlen L + 1) =
  if decide (zlen L = 63) then None else Some (zlen L + 1).
Proof.
  intros H0 Hp HL. pose proof (free_slot_tab (L ++ [p]) (length (L ++ [p]))) as HF.
  rewrite length_app in HF. cbn [length] in HF. unfold zlen in *. rewrite length_app in HF. cbn [length] in HF.
  replace (Z.to_nat (Z.of_nat (length L) + 1)) with (length L + 1)%nat by lia.
  replace (Z.of_nat (length L) + 1) with (Z.of_nat (length L + 1)) by lia. rewrite HF.
  - destruct (Nat.ltb_spec (length L + 1) 64), (decide (Z.of_nat (length L) = 63)); try lia; done.
  - rewrite elem_of_app, list_elem_of_singleton. intros [?|?]; [done|congruence].
  - lia.
Qed.

Lemma with_new_ok s L m p pt : table_ok s L -> (length L < 63)%nat -> p <> 0 -> p ∉ L ->
  table_ok (set_table (with_new s m (zlen L) p pt) (tab (L ++ [p])) (zlen L + 1) (zlen L + 1)) (L ++ [p]).
Proof.
  intros [Ht HL HN H0 Hc Hm Hb] Hlt Hp Hn. constructor; cbn [table process_count process_min_index pcbs set_table].
  - done.
  - rewrite length_app. cbn. lia.
  - apply NoDup_app. split; [done|]. split; [|apply NoDup_singleton].
    intros x Hx ->%list_elem_of_singleton. done.
  - rewrite elem_of_app, list_elem_of_singleton. intros [?|?]; [done|congruence].
  - unfold zlen. rewrite length_app. cbn. lia.
  - unfold zlen. rewrite length_app. cbn. lia.
  - intros k q Hk. destruct (decide (q = p)) as [->|Hq].
    + exists (new_pcb s (zlen L) pt). cbn. rewrite lookup_insert_eq. split; [done|].
      apply lookup_app_Some in Hk as [Hk|[Hk1 Hk2]].
      * exfalso. by apply Hn, (list_elem_of_lookup_2 _ k).
      * apply list_lookup_singleton_Some in Hk2 as [Hk2 _]. unfold zlen. lia.
    + apply lookup_app_Some in Hk as [Hk|[_ Hk2]].
      * destruct (Hb k q Hk) as (b & Eb & Ei). exists b. cbn. rewrite lookup_insert_ne by done. done.
      * apply list_lookup_singleton_Some in Hk2 as [_ ?]. congruence.
Qed.

Lemma proc_allocate_spec fuel s L p pt m1 m2 : table_ok s L ->
  kalloc (mm s) = (p, m1) -> p <> 0 -> vmm_user_pagetable_new fuel (vm s) m1 = Ret (pt, m2) -> pt <> 0 ->
  proc_allocate fuel s =
  if decide (zlen L = 63) then Panic "hit process limit - 1"
  else Ret (p, set_table (with_new s m2 (zlen L) p pt) (tab (L ++ [p])) (zlen L + 1) (zlen L + 1)).
Proof.
  intros Hok Ek Hp Ev Hpt. pose proof Hok as [Ht HL HN H0 Hc Hm Hb].
  assert (allocate_slot fuel s = Ret (p, with_new s m2 (zlen L) p pt)) as E.
  { rewrite (allocate_slot_first fuel s L Hok). apply (init_free_slot fuel s p pt m1 m2); try done.
    by apply free_slot_end. }
  unfold proc_allocate. unfold allocate_slot, mbind, st_bind in E. unfold mbind, st_bind.
  destruct (is_valid_process_init fuel 0 s) as [[p0 s0]| | |]; try done. rewrite E. clear E.
  unfold truth at 1. destruct (Z.eqb_spec p 0); [done|]. cbn [negb].
  unfold get_pcb at 1. cbn [pcbs with_new]. rewrite lookup_insert_eq. cbn [new_pcb orig_i st_modify process_count].
  assert (process_count (with_new s m2 (zlen L) p pt) = zlen L) as EC by exact Hc.
  assert (table (with_new s m2 (zlen L) p pt) = tab (L ++ [p])) as ET by (cbn; rewrite Ht; by apply tab_snoc).
  rewrite EC, Z.eqb_refl. unfold reads. cbn [table set_table].
  rewrite ET, tab_free_next by done. destruct (decide (zlen L = 63)); [done|].
  rewrite wrap_small by (unfold zlen in *; lia). done.
Qed.

Lemma proc_allocate_inv fuel s L p s' : table_ok s L -> proc_allocate fuel s = Ret (p, s') ->
  exists m1 pt m2, kalloc (mm s) = (p, m1) /\ p <> 0 /\ zlen L < 63 /\
    s' = set_table (with_new s m2 (zlen L) p pt) (tab (L ++ [p])) (zlen L + 1) (zlen L + 1).
Proof.
  intros Hok E. destruct (allocate_slot fuel s) as [[q s1]| | |] eqn:Ea.
  { pose proof Ea as Ei. rewrite (allocate_slot_first fuel s L Hok) in Ei.
    destruct (init_inv fuel s _ q s1 (free_slot_end s L Hok) Ei) as (m1 & pt & m2 & Ek & Hq & Ev & Hpt & _).
    rewrite (proc_allocate_spec fuel s L q pt m1 m2) in E by done.
    pose proof (tk_len _ _ Hok). destruct (decide (zlen L = 63)); [done|]. injection E as <- <-.
    exists m1, pt, m2. unfold zlen in *. split; [done|]. split; [done|]. split; [lia|done]. }
  all: unfold proc_allocate, mbind, st_bind in E; unfold allocate_slot, mbind, st_bind in Ea;
    destruct (is_valid_process_init fuel 0 s) as [[p0 s0]| | |]; try done; by rewrite Ea in E.
Qed.

(** *** Freeing *)

Lemma app_cons_assoc {A} (l : list A) x m : l ++ x :: m = (l ++ [x]) ++ m.
Proof. by rewrite <- app_assoc. Qed.

(** The indices a list of processes gets from [j] on. *)
Fixpoint renumber (B : list Z) (j : Z) (m : gmap Z pcb) : gmap Z pcb :=
  match B with
  | [] => m
  | p :: B' => renumber B' (j + 1) (match m !! p with Some b => <[p := pcb_i b j]> m | None => m end)
  end.

Lemma renumber_other B p : forall j m, p ∉ B -> renumber B j m !! p = m !! p.
Proof.
  induction B as [|q B IH]; intros j m Hp; cbn [renumber]; [done|].
  apply not_elem_of_cons in Hp as [Hq Hp]. rewrite IH by done. destruct (m !! q); [|done].
  by rewrite lookup_insert_ne by congruence.
Qed.

Lemma renumber_at B : forall j m k p b, NoDup B -> B !! k = Some p -> m !! p = Some b ->
  renumber B j m !! p = Some (pcb_i b (j + Z.of_nat k)).
Proof.
  induction B as [|q B IH]; intros j m k p b HN Hk Hb; [done|]. apply NoDup_cons in HN as [Hq HN].
  cbn [renumber]. destruct k as [|k].
  - injection Hk as ->. rewrite Hb, renumber_other by done. rewrite lookup_insert_eq. do 2 f_equal. lia.
  - rewrite (IH _ _ k p b); [do 2 f_equal; lia|done|done|].
    assert (p <> q) by (intros ->; by apply Hq, (list_elem_of_lookup_2 _ k)).
    destruct (m !! q); [|done]. by rewrite lookup_insert_ne by congruence.
Qed.

Lemma renumber_dom B p : forall j m, is_Some (renumber B j m !! p) <-> is_Some (m !! p).
Proof.
  induction B as [|q B IH]; intros j m; cbn [renumber]; [done|]. rewrite IH.
  destruct (m !! q) as [b|] eqn:E; [|done].
  destruct (decide (p = q)) as [->|]; [by rewrite lookup_insert_eq, E|by rewrite lookup_insert_ne].
Qed.

Lemma coalesce_from_spec B : forall A m s, table s = A ++ 0 :: B ++ replicate m 0 -> 0 ∉ B ->
  (forall p, p ∈ B -> is_Some (pcbs s !! p)) ->
  coalesce_from (length B) (zlen A + 1) s =
  Ret (tt, set_table (set_pcbs s (renumber B (zlen A) (pcbs s))) (A ++ B ++ 0 :: replicate m 0)
         (process_count s) (process_min_index s)).
Proof.
  induction B as [|p B IH]; intros A m s Ht H0 Hb.
  - cbn. f_equal. f_equal. destruct s. cbn in *. by rewrite Ht.
  - apply not_elem_of_cons in H0 as [Hp H0]. cbn [length coalesce_from].
    assert (zlen A + 1 = zlen (A ++ [0])) as EA by (unfold zlen; rewrite length_app; cbn; lia).
    unfold slot. rewrite (bind_step _ _ s p s).
    2:{ unfold reads. rewrite Ht, EA. cbn [app]. rewrite (app_cons_assoc A 0). by rewrite zget_end. }
    unfold truth. destruct (Z.eqb_spec p 0); [congruence|]. cbn [negb].
    rewrite (bind_step _ _ s tt _) by reflexivity.
    destruct (Hb p ltac:(by left)) as [b Eb].
    erewrite bind_step by (unfold get_pcb; cbn [pcbs set_table]; rewrite Eb; reflexivity).
    rewrite (bind_step _ _ _ tt _) by reflexivity. rewrite (bind_step _ _ _ tt _) by reflexivity.
    cbn [table set_table set_pcbs process_count process_min_index pcbs].
    assert (zset (zset (table s) (zlen A + 1 - 1) p) (zlen A + 1) 0 = (A ++ [p]) ++ 0 :: B ++ replicate m 0) as ET.
    { rewrite Ht. replace (zlen A + 1 - 1) with (zlen A) by lia. cbn [app]. rewrite zset_end.
      rewrite EA. rewrite (app_cons_assoc A p).
      assert (zlen (A ++ [0]) = zlen (A ++ [p])) as -> by (unfold zlen; rewrite !length_app; done).
      by rewrite zset_end. }
    rewrite ET.
    replace (zlen A + 1 + 1) with (zlen (A ++ [p]) + 1) by (unfold zlen; rewrite length_app; cbn; lia).
    rewrite (IH (A ++ [p]) m); cbn [table set_table set_pcbs pcbs process_count process_min_index]; [|done|done|].
    + cbn [renumber]. rewrite Eb. replace (zlen A + 1 - 1) with (zlen A) by lia.
      replace (zlen (A ++ [p])) with (zlen A + 1) by (unfold zlen; rewrite length_app; cbn; lia).
      change ((p :: B) ++ 0 :: replicate m 0) with ([p] ++ (B ++ 0 :: replicate m 0)). by rewrite (app_assoc A [p] (B ++ _)).
    + intros q Hq. destruct (decide (q = p)) as [->|]; [by rewrite lookup_insert_eq|].
      rewrite lookup_insert_ne by done. apply Hb. by right.
Qed.

Lemma tab_delete A p B : tab (A ++ p :: B) = A ++ p :: B ++ replicate (64 - length (A ++ p :: B)) 0.
Proof. unfold tab. by rewrite <- app_assoc. Qed.

(** The table part of [reclaim]: the slot is cleared and closed up. *)
Lemma unlink_ok s A p B : table_ok s (A ++ p :: B) ->
  exists s', (_ ← put_slot (zlen A) 0; coelesce_processes (zlen A))
               (set_pcbs (set_procs s (delete p (procs (ss s)))) (delete p (pcbs s))) = Ret (tt, s') /\
  table_ok s' (A ++ B) /\ mm s' = mm s /\ vm s' = vm s /\ next_pid s' = next_pid s /\
  ss s' = MkS (delete p (procs (ss s))) (rq (ss s)) (stats (ss s)) /\
  (forall q b, q <> p -> pcbs s !! q = Some b -> exists i, pcbs s' !! q = Some (pcb_i b i)) /\
  (forall q, is_Some (pcbs s' !! q) <-> q <> p /\ is_Some (pcbs s !! q)) /\
  spinlocks_enabled s' = spinlocks_enabled s /\ running_process s' = running_process s.
Proof.
  intros [Ht HL HN H0 Hc Hm Hb]. pose proof HN as HN'. apply NoDup_app in HN' as (HA & HAB & HB).
  apply NoDup_cons in HB as [HpB HB]. rewrite length_app in HL. cbn [length] in HL.
  assert (p ∉ A) as HpA by (intros Hx; apply (HAB p Hx); by left).
  assert (0 ∉ A ++ B) as H0'.
  { intros Hx. apply H0. apply elem_of_app in Hx as [?|?]; apply elem_of_app; [by left|right; by right]. }
  set (s1 := set_pcbs (set_procs s (delete p (procs (ss s)))) (delete p (pcbs s))).
  set (m := (64 - length (A ++ p :: B))%nat).
  rewrite (bind_step (put_slot (zlen A) 0) _ s1 tt _) by reflexivity.
  set (s2 := set_table s1 (zset (table s1) (zlen A) 0) (process_count s1) (process_min_index s1)).
  assert (table s2 = A ++ 0 :: B ++ replicate m 0) as E2.
  { cbn. rewrite Ht, tab_delete. by rewrite zset_end. }
  assert (process_count s2 = zlen A + 1 + zlen B) as Ec.
  { cbn. rewrite Hc. unfold zlen. rewrite length_app. cbn. lia. }
  unfold coelesce_processes. rewrite (bind_step _ _ s2 (process_count s2) s2 eq_refl). rewrite Ec.
  replace (Z.to_nat (zlen A + 1 + zlen B - (zlen A + 1))) with (length B) by (unfold zlen; lia).
  assert (forall q, q ∈ B -> is_Some (pcbs s2 !! q)) as Hb2.
  { intros q Hq. cbn. destruct (decide (q = p)) as [->|]; [done|]. rewrite lookup_delete_ne by done.
    apply list_elem_of_lookup_1 in Hq as [k Hk].
    destruct (Hb (length A + S k)%nat q) as (b & Eb & _); [|by rewrite Eb].
    rewrite lookup_app_r by lia. by replace (length A + S k - length A)%nat with (S k) by lia. }
  rewrite (bind_step _ _ s2 tt _ (coalesce_from_spec B A m s2 E2
    ltac:(intros Hx; apply H0', elem_of_app; by right) Hb2)).
  eexists. split; [reflexivity|].
  assert (forall q b, q <> p -> pcbs s !! q = Some b ->
    exists i, renumber B (zlen A) (delete p (pcbs s)) !! q = Some (pcb_i b i)) as Hkeep.
  { intros q b Hq Eb. destruct (decide (q ∈ B)) as [Hin|Hout].
    - apply list_elem_of_lookup_1 in Hin as [k Hk]. eexists. apply (renumber_at B _ _ k); [done|done|].
      by rewrite lookup_delete_ne by done.
    - exists (proc_i b). rewrite renumber_other, lookup_delete_ne by done. rewrite Eb. by destruct b. }
  split; [|split; [done|split; [done|split; [done|split; [done|split; [|split; [|done]]]]]]].
  - constructor; cbn [table set_table set_pcbs process_count process_min_index pcbs].
    + unfold tab. rewrite <- app_assoc. do 2 f_equal. rewrite length_app.
      replace (64 - (length A + length B))%nat with (S m) by (unfold m; rewrite length_app; cbn; lia). done.
    + rewrite length_app. lia.
    + apply NoDup_app. split; [done|]. split; [|done]. intros x Hx Hy. apply (HAB x Hx). by right.
    + done.
    + rewrite Ec. unfold zlen. rewrite length_app, wrap_small by lia. lia.
    + cbn. unfold zlen in *. rewrite length_app in *. cbn [length] in Hm.
      destruct (Z.ltb_spec (Z.of_nat (length A)) (process_min_index s)); lia.
    + intros k q Hk. cbn [s2 s1 set_table set_pcbs set_procs pcbs].
      destruct (decide (k < length A)%nat) as [Hlt|Hge].
      * rewrite lookup_app_l in Hk by done. assert (q ∈ A) as HqA by (by apply (list_elem_of_lookup_2 _ k)).
        assert (q <> p) by congruence. assert (q ∉ B) as HqB by (intros Hx; apply (HAB q HqA); by right).
        destruct (Hb k q) as (b & Eb & Ei); [by rewrite lookup_app_l|].
        exists b. by rewrite renumber_other, lookup_delete_ne by done.
      * rewrite lookup_app_r in Hk by lia. assert (q ∈ B) as HqB by (by apply (list_elem_of_lookup_2 _ (k - length A))).
        assert (q <> p) as Hqp by congruence.
        destruct (Hb (S k) q) as (b & Eb & Ei).
        { rewrite lookup_app_r by lia. by replace (S k - length A)%nat with (S (k - length A)) by lia. }
        eexists. split; [apply (renumber_at B _ _ (k - length A) q b); [done|done|by rewrite lookup_delete_ne]|].
        cbn. unfold zlen. lia.
  - intros q b. apply Hkeep.
  - intros q. cbn. rewrite renumber_dom. destruct (decide (q = p)) as [->|Hq].
    + rewrite lookup_delete_eq. split; [intros [? ?]; done|by intros [? _]].
    + rewrite lookup_delete_ne by done. tauto.
Qed.

(** The memory part of [reclaim]. *)
Definition free_memory (g : vmm_globals) (b : pcb) (p : Z) : ST pmem unit :=
  _ ← vmm_free_proc_kernel_stack g (orig_i b);
  _ ← vmm_user_pagetable_free (pagetable b);
  effect (kfree p).

Lemma reclaim_eq s p i b : pcbs s !! p = Some b ->
  reclaim p i s =
  match free_memory (vm s) b p (mm s) with
  | Ret (_, m) =>
      (_ ← put_slot i 0; coelesce_processes i)
        (set_pcbs (set_procs (set_running (set_mm s m) (running_process s)
            (if last_running_process s =? p then 0 else last_running_process s))
          (delete p (procs (ss s)))) (delete p (pcbs s)))
  | Panic msg => Panic msg
  | Undef => Undef
  | NoFuel => NoFuel
  end.
Proof.
  intros Eb. unfold reclaim. rewrite (bind_step _ _ s b s) by (unfold get_pcb; by rewrite Eb).
  rewrite (bind_step _ _ s (vm s) s eq_refl). unfold free_memory, on_mm, mbind, st_bind, zoom.
  destruct (vmm_free_proc_kernel_stack (vm s) (orig_i b) (mm s)) as [[[] m1]| | |]; try done.
  cbn [mm set_mm]. destruct (vmm_user_pagetable_free (pagetable b) m1) as [[[] m2]| | |]; try done.
  cbn [mm set_mm]. by destruct (effect (kfree p) m2) as [[[] m3]| | |].
Qed.

Lemma table_ok_mm s L m r l : table_ok s L -> table_ok (set_running (set_mm s m) r l) L.
Proof. by intros []. Qed.

Lemma reclaim_spec s A p B b m : table_ok s (A ++ p :: B) -> pcbs s !! p = Some b ->
  free_memory (vm s) b p (mm s) = Ret (tt, m) ->
  exists s', reclaim p (zlen A) s = Ret (tt, s') /\ table_ok s' (A ++ B) /\ mm s' = m /\
    vm s' = vm s /\ next_pid s' = next_pid s /\
    ss s' = MkS (delete p (procs (ss s))) (rq (ss s)) (stats (ss s)) /\
    (forall q b, q <> p -> pcbs s !! q = Some b -> exists i, pcbs s' !! q = Some (pcb_i b i)) /\
    (forall q, is_Some (pcbs s' !! q) <-> q <> p /\ is_Some (pcbs s !! q)) /\
    spinlocks_enabled s' = spinlocks_enabled s /\ running_process s' = running_process s.
Proof.
  intros Hok Eb Em. rewrite (reclaim_eq s p _ b Eb), Em.
  destruct (unlink_ok _ A p B (table_ok_mm s _ m (running_process s)
    (if last_running_process s =? p then 0 else last_running_process s) Hok)) as (s' & E & H).
  exists s'. split; [exact E|exact H].
Qed.

(** C27: the process table is a list of at most 63 processes.  While it is one
    (each process recording its place in it), [proc_allocate] with a new page
    and page table appends the new process, with the next process number and
    the state USED, or stops the kernel when it is the 64th; freeing the
    process at any place takes it out of the list, and everyone behind it
    moves up and knows its new place. *)
Theorem process_table_correct s L : table_ok s L ->
  (forall fuel p pt m1 m2, kalloc (mm s) = (p, m1) -> p <> 0 -> p ∉ L ->
     vmm_user_pagetable_new fuel (vm s) m1 = Ret (pt, m2) -> pt <> 0 ->
     if decide (zlen L = 63) then proc_allocate fuel s = Panic "hit process limit - 1"
     else exists s', proc_allocate fuel s = Ret (p, s') /\ table_ok s' (L ++ [p]) /\ mm s' = m2 /\
       pcbs s' !! p = Some (MkPcb (next_pid s) (zlen L) (zlen L) pt 0 0 0 (-1) false) /\
       procs (ss s') !! p = Some (MkProc USED 0 zero_entity) /\ next_pid s' = wrap 64 (next_pid s + 1)) /\
  (forall A p B b m, L = A ++ p :: B -> pcbs s !! p = Some b -> free_memory (vm s) b p (mm s) = Ret (tt, m) ->
     exists s', reclaim p (proc_i b) s = Ret (tt, s') /\ table_ok s' (A ++ B) /\ mm s' = m /\
       procs (ss s') = delete p (procs (ss s)) /\ pcbs s' !! p = None).
Proof.
  intros Hok. split.
  - intros fuel p pt m1 m2 Ek Hp Hn Ev Hpt. rewrite (proc_allocate_spec fuel s L p pt m1 m2) by done.
    destruct (decide (zlen L = 63)); [done|]. eexists. split; [reflexivity|].
    split; [apply with_new_ok; [done| |done|done]; pose proof (tk_len _ _ Hok); unfold zlen in *; lia|].
    cbn. rewrite !lookup_insert_eq. done.
  - intros A p B b m -> Eb Em. destruct (tk_pcb _ _ Hok (length A) p (list_lookup_middle _ _ _ _ eq_refl))
      as (b' & Eb' & Ei). assert (b' = b) as -> by congruence.
    destruct (reclaim_spec s A p B b m Hok Eb Em) as (s' & E & H1 & H2 & _ & _ & H3 & _ & H4 & _).
    exists s'. rewrite Ei. split; [exact E|]. split; [done|]. split; [done|]. split; [by rewrite H3|].
    destruct (pcbs s' !! p) as [c|] eqn:Ec; [|done]. destruct (proj1 (H4 p) ltac:(by rewrite Ec)). done.
Qed.

(** Leaving processes share a kernel stack.  The stack of a process is
    mapped at the address of the slot it was created in, and freed by that
    slot's number; freeing a process renumbers the ones behind it.  When any
    process but the last of the table has been freed, the next one created
    has the last one's slot number: the two live processes have the same
    stack addresses, and the first of them to exit frees the other's. *)
Theorem kernel_stacks_shared s A p c B q b m fuel p' pt m1 m2 :
  table_ok s (A ++ p :: B ++ [q]) -> pcbs s !! p = Some c -> free_memory (vm s) c p (mm s) = Ret (tt, m) ->
  pcbs s !! q = Some b -> orig_i b = zlen (A ++ p :: B) ->
  kalloc m = (p', m1) -> p' <> 0 -> p' ∉ A ++ B ++ [q] ->
  vmm_user_pagetable_new fuel (vm s) m1 = Ret (pt, m2) -> pt <> 0 ->
  exists s1 s2 b2 b', reclaim p (zlen A) s = Ret (tt, s1) /\ proc_allocate fuel s1 = Ret (p', s2) /\
    table_ok s2 (A ++ B ++ [q; p']) /\ q <> p' /\
    pcbs s2 !! q = Some b2 /\ pcbs s2 !! p' = Some b' /\ proc_i b2 <> proc_i b' /\
    orig_i b2 = orig_i b' /\ orig_i b' = proc_i b' /\
    KERNEL_STACK_BASE + orig_i b2 * KERNEL_STACK_TOTAL_SIZE =
    KERNEL_STACK_BASE + proc_i b' * KERNEL_STACK_TOTAL_SIZE.
Proof.
  intros Hok Ec Em Eb Ei Ek Hp' Hn Ev Hpt.
  destruct (reclaim_spec s A p (B ++ [q]) c m Hok Ec Em) as (s1 & E1 & Hok1 & Hm1 & Hv1 & _ & _ & Hk & _).
  assert (q <> p) as Hqp.
  { intros ->. pose proof (tk_nodup _ _ Hok) as HN. apply NoDup_app in HN as (_ & _ & HN).
    apply NoDup_cons in HN as [HN _]. apply HN, elem_of_app. right. by left. }
  assert (q <> p') as Hqp' by (intros ->; apply Hn; rewrite app_assoc; apply elem_of_app; right; by left).
  destruct (Hk q b Hqp Eb) as [i Eq].
  rewrite <- Hm1 in Ek. rewrite <- Hv1 in Ev.
  assert (zlen (A ++ B ++ [q]) = zlen (A ++ p :: B)) as EL by (unfold zlen; rewrite !length_app; cbn; lia).
  assert (length (A ++ B ++ [q]) < 63)%nat as HL.
  { pose proof (tk_len _ _ Hok) as HL. rewrite length_app in HL. cbn [length] in HL.
    rewrite length_app in HL. rewrite (length_app A), (length_app B). cbn [length] in *. lia. }
  pose proof (proc_allocate_spec fuel s1 _ p' pt m1 m2 Hok1 Ek Hp' Ev Hpt) as E2.
  rewrite decide_False in E2 by (unfold zlen; lia).
  eexists s1, _, (pcb_i b i), _. split; [exact E1|]. split; [exact E2|].
  pose proof (with_new_ok s1 _ m2 p' pt Hok1 HL Hp' Hn) as H2.
  split; [replace (A ++ B ++ [q; p']) with ((A ++ B ++ [q]) ++ [p']) by (by rewrite <- !app_assoc); exact H2|]. split; [done|].
  cbn. rewrite lookup_insert_ne, lookup_insert_eq by done.
  split; [exact Eq|]. split; [reflexivity|]. cbn. rewrite EL, <- Ei. split; [|done].
  destruct (tk_pcb _ _ Hok1 (length (A ++ B)) q) as (b3 & Eb3 & Ei3).
  { rewrite app_assoc. by apply list_lookup_middle. }
  assert (b3 = pcb_i b i) as -> by congruence. cbn in Ei3.
  rewrite Ei3, Ei. unfold zlen. rewrite !length_app. cbn. lia.
Qed.

(** ** The heap of a process *)


Lemma sbrk_deallocate_result pt c d m r m' : vmm_user_sbrk_deallocate pt c d m = Ret (r, m') -> r = wrap 64 (c - d).
Proof.
  unfold vmm_user_sbrk_deallocate. revert r m'.
  apply (ends_bind _ _ (fun r _ => r = wrap 64 (c - d))). intros ? ? _. by apply ends_ret.
Qed.

(** Giving memory back with a negative [sbrk] goes wrong for every
    amount but the heap's own size.  The test that should protect the memory below the heap is the
    wrong way round: shrinking by no more than the heap's size frees the
    whole heap, and shrinking by more frees that much, below the start of
    the heap (unless the subtraction wraps, which frees the whole heap
    again).  The old end of the heap is returned. *)
Theorem proc_sbrk_shrink s b d : pcbs s !! running_process s = Some b ->
  0 <= initial_data_segment b <= current_sbrk b -> current_sbrk b < 2 ^ 63 -> 0 < d < 2 ^ 63 ->
  let heap := current_sbrk b - initial_data_segment b in
  let freed := if (d <=? heap) || (current_sbrk b <? d) then heap else d in
  match vmm_user_sbrk_deallocate (pagetable b) (current_sbrk b) freed (mm s) with
  | Ret (c, m) => c = current_sbrk b - freed /\ (c = initial_data_segment b \/ c < initial_data_segment b) /\
      proc_sbrk (- d) s =
      Ret (current_sbrk b, set_pcbs (set_mm s m)
             (<[running_process s := pcb_heap b (initial_data_segment b) c]> (pcbs s)))
  | Panic msg => proc_sbrk (- d) s = Panic msg
  | Undef => proc_sbrk (- d) s = Undef
  | NoFuel => proc_sbrk (- d) s = NoFuel
  end.
Proof.
  intros Eb Hi Hc Hd heap freed. set (i := initial_data_segment b) in *. set (c := current_sbrk b) in *.
  assert (0 <= freed /\ freed <= c /\ (freed = heap \/ heap < freed)) as (F1 & F2 & F3).
  { unfold freed, heap. destruct (Z.leb_spec d (c - i)); cbn [orb]; [lia|]. destruct (Z.ltb_spec c d); lia. }
  assert ((if i <=? wrap 64 (c + - d) then sgn 64 (wrap 64 (i - c)) else - d) = - freed) as Ef.
  { assert (sgn 64 (wrap 64 (i - c)) = - heap) as Eh.
    { unfold sgn, wrap, heap. rewrite Z.mod_mod by lia.
      destruct (decide (i = c)) as [->|]; [by rewrite Z.sub_diag|].
      assert ((i - c) mod 2 ^ 64 = i - c + 2 ^ 64) as -> by (symmetry; apply (Z.mod_unique _ _ (-1)); lia).
      zcases. }
    rewrite Eh. unfold freed, heap. destruct (Z.ltb_spec c d).
    - assert (wrap 64 (c + - d) = c - d + 2 ^ 64) as -> by (symmetry; apply (Z.mod_unique _ _ (-1)); lia).
      rewrite orb_true_r. destruct (Z.leb_spec i (c - d + 2 ^ 64)); lia.
    - rewrite orb_false_r, wrap_small by lia.
      destruct (Z.leb_spec i (c + - d)), (Z.leb_spec d (c - i)); lia. }
  unfold proc_sbrk. rewrite (bind_step _ _ s (running_process s) s eq_refl).
  rewrite (bind_step _ _ s b s) by (unfold get_pcb; by rewrite Eb). cbv zeta. fold c i.
  destruct (Z.ltb_spec 0 (- d)); [lia|]. destruct (Z.ltb_spec (- d) 0); [|lia].
  rewrite Ef, Z.opp_involutive, (wrap_small 64 freed) by lia.
  unfold mbind, st_bind, on_mm, zoom.
  destruct (vmm_user_sbrk_deallocate (pagetable b) c freed (mm s)) as [[c' m']| | |] eqn:Ed; try done.
  pose proof (sbrk_deallocate_result _ _ _ _ _ _ Ed) as ->. rewrite wrap_small by lia.
  split; [done|]. split; [unfold heap in *; lia|]. done.
Qed.
