(* ===== verification/ProcInv.v ===== *)
(** * Processes in every reachable state (about the definitions of Proc.v)

    The steps the kernel takes once the scheduler runs, the invariant they
    keep, and what it means for the calls that wait: [waiting_deadlocks] and,
    for whoever does come to sleep, [proc_wakeup_correct]. *)
From S2P Require Import Prelude PhysMem Vmm Sched SchedInv Files Proc ProcFacts.

(** ** The scheduler stays the processes *)

(** The processes are those of [X], and none but [e] has exited. *)
Definition sched_procs (X : list Z) (e : Z) (s : sstate) : Prop :=
  (forall p, is_Some (procs s !! p) <-> p ∈ X) /\
  (forall p x, procs s !! p = Some x -> p_state x = EXITED -> p = e).

Section stays.
Context (X : list Z) (e : Z).

Definition stays {A} (m : ST sstate A) : Prop := forall s, sched_procs X e s -> ends m (fun _ s' => sched_procs X e s') s.

Lemma stays_ret {A} (a : A) : stays (mret a).
Proof. intros s H. by apply ends_ret. Qed.
Lemma stays_bind {A B} (m : ST sstate A) (f : A -> ST sstate B) : stays m -> (forall a, stays (f a)) -> stays (m ≫= f).
Proof.
  intros Hm Hf s H. apply ends_bind. eapply ends_weaken; [by apply Hm|]. intros a s' Hs'. by apply Hf.
Qed.
Lemma stays_get {B} (f : process -> ST sstate B) p :
  (forall x, p ∈ X -> (p_state x = EXITED -> p = e) -> stays (f x)) -> stays (get_proc p ≫= f).
Proof.
  intros Hf s H. apply ends_bind. intros x s' E. unfold get_proc in E.
  destruct (procs s !! p) as [y|] eqn:Ey; [|done]. injection E as <- <-. apply Hf; [|by apply (proj2 H)|done].
  apply (proj1 H). by rewrite Ey.
Qed.
Lemma stays_put p x : p ∈ X -> (p_state x = EXITED -> p = e) -> stays (put_proc p x).
Proof.
  intros Hp Hx s [H1 H2]. apply ends_modify. split; cbn.
  - intros q. rewrite <- H1. destruct (decide (q = p)) as [->|]; [|by rewrite lookup_insert_ne].
    rewrite lookup_insert_eq. split; [|done]. intros _. by apply H1.
  - intros q y. destruct (decide (q = p)) as [->|]; [|rewrite lookup_insert_ne by done; apply H2].
    rewrite lookup_insert_eq. intros [= <-]. done.
Qed.
Lemma stays_rq {B} (f : runqueue -> ST sstate B) : (forall q, stays (f q)) -> stays (get_rq ≫= f).
Proof. intros Hf. apply stays_bind; [|done]. intros s H. by apply ends_reads. Qed.
Lemma stays_put_rq q : stays (put_rq q).
Proof. intros s H. by apply ends_modify. Qed.
Lemma stays_option {A} (o : option A) : stays (of_option o).
Proof. destruct o; [apply stays_ret|]. intros s H. apply ends_undef. Qed.
Lemma stays_stats f : stays (st_modify (fun s => MkS (procs s) (rq s) (f s))).
Proof. intros s H. by apply ends_modify. Qed.
End stays.

Create HintDb proc.
#[export] Hint Resolve stays_ret stays_put_rq stays_option stays_stats : proc.

(** One operation, sentence by sentence. *)
Ltac stays_step :=
  match goal with
  | |- stays _ _ (get_proc _ ≫= _) => apply stays_get; intros
  | |- stays _ _ (get_rq ≫= _) => apply stays_rq; intros
  | |- stays _ _ (_ ≫= _) => apply stays_bind; [|intros]
  | |- stays _ _ (put_proc _ (if ?b then _ else _)) => destruct b
  | |- stays _ _ (put_proc _ _) => apply stays_put; [done|try done]
  | |- stays _ _ (if ?b then _ else _) => destruct b
  | |- stays _ _ (match ?b with _ => _ end) => destruct b
  | |- stays _ _ (let _ := _ in _) => cbv zeta
  | |- _ => progress eauto with proc
  end.
Ltac stays_solve := repeat stays_step.

Lemma stays_upd_sched X e p f : stays X e (upd_sched p f).
Proof. unfold upd_sched. stays_solve. Qed.
#[export] Hint Resolve stays_upd_sched : proc.
Lemma stays_enqueue X e p : stays X e (sched_enqueue p).
Proof. unfold sched_enqueue. stays_solve. Qed.
Lemma stays_dequeue X e p : stays X e (sched_dequeue p).
Proof. unfold sched_dequeue. stays_solve. Qed.
Lemma stays_update_vruntime X e p d : stays X e (sched_update_vruntime p d).
Proof. unfold sched_update_vruntime. stays_solve. Qed.
#[export] Hint Resolve stays_enqueue stays_dequeue stays_update_vruntime : proc.
Lemma stays_requeue X e p : stays X e (requeue p).
Proof. unfold requeue. stays_solve. Qed.
#[export] Hint Resolve stays_requeue : proc.
Lemma stays_fork X e p : stays X e (sched_fork p).
Proof. unfold sched_fork. stays_solve. Qed.
Lemma stays_wakeup X e p : stays X e (sched_wakeup p).
Proof. unfold sched_wakeup. stays_solve. Qed.
Lemma stays_set_priority X e p n : stays X e (sched_set_priority p n).
Proof. unfold sched_set_priority. stays_solve. Qed.
Lemma stays_nice X e p n : stays X e (sched_nice p n).
Proof. unfold sched_nice. stays_solve. Qed.
Lemma stays_rebuild X e l : stays X e (sched_rebuild l).
Proof. induction l as [|p l IH]; cbn [sched_rebuild]; stays_solve. Qed.
Lemma stays_tick X e now : stays X e (scheduler_tick now).
Proof. unfold scheduler_tick. stays_solve. Qed.
Lemma stays_resume X e now n : stays X e (sched_resume now n).
Proof. unfold sched_resume. stays_solve. Qed.
#[export] Hint Resolve stays_fork stays_wakeup stays_set_priority stays_nice stays_rebuild stays_tick
  stays_resume : proc.

(** ** The invariant *)

(** The record of [p] names its place in the list. *)
Definition placed (L : list Z) (p : Z) (b : pcb) : Prop := exists k, L !! k = Some p /\ proc_i b = Z.of_nat k.

(** [e] is a process that may have exited, [r] the running one, and the lock of
    [m] is taken; 0 stands for none. *)
Record proc_inv (L : list Z) (e r m : Z) (s : pstate) : Prop := {
  iv_table : table_ok s L;
  iv_procs : sched_procs L e (ss s);
  iv_pcbs p : is_Some (pcbs s !! p) <-> p ∈ L;
  iv_spin : spinlocks_enabled s = true;
  iv_running : running_process s = r;
  iv_locked : m <> 0 -> exists b, pcbs s !! m = Some b /\ locked b = true
}.

Lemma placed_of s L p b : table_ok s L -> p ∈ L -> pcbs s !! p = Some b -> placed L p b.
Proof.
  intros Hok Hp Eb. apply list_elem_of_lookup_1 in Hp as [k Hk].
  destruct (tk_pcb _ _ Hok k p Hk) as (b' & Eb' & Ei). exists k. split; [done|]. congruence.
Qed.

Section holds.
Context (L : list Z) (e r m : Z).

Definition holds {A} (c : ST pstate A) : Prop := forall s, proc_inv L e r m s -> ends c (fun _ s' => proc_inv L e r m s') s.

Lemma holds_ret {A} (a : A) : holds (mret a).
Proof. intros s H. by apply ends_ret. Qed.
Lemma holds_panic {A} msg : holds (st_panic (A := A) msg).
Proof. intros s H. apply ends_panic. Qed.
Lemma holds_bind {A B} (c : ST pstate A) (f : A -> ST pstate B) : holds c -> (forall a, holds (f a)) -> holds (c ≫= f).
Proof.
  intros Hc Hf s H. apply ends_bind. eapply ends_weaken; [by apply Hc|]. intros a s' Hs'. by apply Hf.
Qed.
Lemma holds_reads {A B} (g : pstate -> A) (f : A -> ST pstate B) : (forall a, holds (f a)) -> holds (reads g ≫= f).
Proof. intros Hf. apply holds_bind; [|done]. intros s H. by apply ends_reads. Qed.
Lemma holds_running {B} (f : Z -> ST pstate B) : holds (f r) -> holds (reads running_process ≫= f).
Proof.
  intros Hf s H. apply ends_bind, ends_reads. rewrite (iv_running _ _ _ _ _ H). by apply Hf.
Qed.

Lemma holds_sched {A} (c : ST sstate A) : stays L e c -> holds (on_sched c).
Proof.
  intros Hc s []. apply ends_zoom. eapply ends_weaken; [by apply Hc|]. intros a t Ht.
  constructor; try done. destruct iv_table0. by constructor.
Qed.
Lemma holds_mm {A} (c : ST pmem A) : holds (on_mm c).
Proof. intros s []. apply ends_zoom. intros a t _. constructor; try done. destruct iv_table0. by constructor. Qed.

Lemma holds_get_pcb {B} (f : pcb -> ST pstate B) p :
  (forall b, p ∈ L -> placed L p b -> (p = m -> m <> 0 -> locked b = true) -> holds (f b)) -> holds (get_pcb p ≫= f).
Proof.
  intros Hf s H. apply ends_bind. intros b s' E. unfold get_pcb in E.
  destruct (pcbs s !! p) as [y|] eqn:Ey; [|done]. injection E as <- <-.
  assert (p ∈ L) as Hp by (apply (iv_pcbs _ _ _ _ _ H); by rewrite Ey).
  apply Hf; [done|by apply (placed_of s), Ey; [apply H|]| |done].
  intros -> Hm. destruct (iv_locked _ _ _ _ _ H Hm) as (b & Eb & Hl). congruence.
Qed.
Lemma holds_put_pcb p b : p ∈ L -> placed L p b -> (p = m -> m <> 0 -> locked b = true) -> holds (put_pcb p b).
Proof.
  intros Hp (k & Hk & Ei) Hl s [Ht HP Hb Hs Hr Hm]. apply ends_modify. constructor; try done.
  - pose proof Ht as []. constructor; try done. intros j q Hj. cbn. destruct (decide (q = p)) as [->|].
    + rewrite lookup_insert_eq. exists b. split; [done|].
      assert (j = k) as -> by (by eapply NoDup_lookup). done.
    + rewrite lookup_insert_ne by done. by apply tk_pcb.
  - intros q. cbn. destruct (decide (q = p)) as [->|]; [|by rewrite lookup_insert_ne].
    rewrite lookup_insert_eq. by split.
  - intros H. destruct (Hm H) as (c & Ec & Hc). cbn. destruct (decide (m = p)) as [<-|].
    + rewrite lookup_insert_eq. exists b. auto.
    + rewrite lookup_insert_ne by done. eauto.
Qed.
Lemma holds_get_proc {B} (f : process -> ST pstate B) p :
  (forall x, p ∈ L -> (p_state x = EXITED -> p = e) -> holds (f x)) -> holds (on_sched (get_proc p) ≫= f).
Proof.
  intros Hf s H. apply ends_bind, ends_zoom. intros x t E. unfold get_proc in E.
  destruct (procs (ss s) !! p) as [y|] eqn:Ey; [|done]. injection E as <- <-.
  assert (set_ss s (ss s) = s) as -> by (by destruct s).
  apply Hf; [apply (proj1 (iv_procs _ _ _ _ _ H)); by rewrite Ey|by apply (proj2 (iv_procs _ _ _ _ _ H))|done].
Qed.
Lemma holds_put_proc p x : p ∈ L -> (p_state x = EXITED -> p = e) -> holds (on_sched (put_proc p x)).
Proof. intros. apply holds_sched. by apply stays_put. Qed.
End holds.

Lemma placed_lock L p b l : placed L p b -> placed L p (pcb_lock b l).
Proof. done. Qed.
Lemma placed_heap L p b i c : placed L p b -> placed L p (pcb_heap b i c).
Proof. done. Qed.
Lemma placed_exit L p b c : placed L p b -> placed L p (pcb_exit b c).
Proof. done. Qed.
Lemma placed_pid L p b c : placed L p b -> placed L p (pcb_pid b c).
Proof. done. Qed.
Lemma placed_stack L p b c : placed L p b -> placed L p (pcb_stack b c).
Proof. done. Qed.
#[export] Hint Resolve holds_ret holds_panic holds_mm placed_lock placed_heap placed_exit placed_pid
  placed_stack : proc.

Ltac holds_step :=
  match goal with
  | |- holds _ _ _ _ (reads running_process ≫= _) => apply holds_running
  | |- holds _ _ _ _ (reads _ ≫= _) => apply holds_reads; intros
  | |- holds _ _ _ _ (slot _ ≫= _) => apply holds_reads; intros
  | |- holds _ _ _ _ (get_pcb _ ≫= _) => apply holds_get_pcb; intros
  | |- holds _ _ _ _ (on_sched (get_proc _) ≫= _) => apply holds_get_proc; intros
  | |- holds _ _ _ _ (_ ≫= _) => apply holds_bind; [|intros]
  | |- holds _ _ _ _ (put_pcb _ _) => apply holds_put_pcb; [done|eauto with proc|try done]
  | |- holds _ _ _ _ (on_sched (put_proc _ _)) => apply holds_put_proc; [done|try done]
  | |- holds _ _ _ _ (on_sched _) => apply holds_sched; eauto with proc
  | |- holds _ _ _ _ (if ?b then _ else _) => destruct b eqn:?
  | |- holds _ _ _ _ (match ?b with _ => _ end) => destruct b eqn:?
  | |- holds _ _ _ _ (let _ := _ in _) => cbv zeta
  | |- _ => progress eauto with proc
  end.
Ltac holds_solve := repeat holds_step.

Lemma holds_lock L e r m p : holds L e r m (condvar_lock p).
Proof. unfold condvar_lock. holds_solve. Qed.
Lemma holds_unlock L e r m p : p <> m \/ m = 0 -> holds L e r m (condvar_unlock p).
Proof. intros Hp. unfold condvar_unlock. holds_solve. intros -> Hm0. by destruct Hp. Qed.
#[export] Hint Resolve holds_lock holds_unlock : proc.

Lemma holds_wakeup L e m l ch ev : holds L e m m (wakeup_from l m ch ev).
Proof.
  induction l as [|i l IH]; cbn [wakeup_from]; holds_solve.
  apply holds_unlock. left. apply orb_false_iff in Heqb as [_ ?]. lia.
Qed.
Lemma holds_proc_wakeup L e m ch ev : holds L e m m (proc_wakeup ch ev).
Proof. unfold proc_wakeup. apply holds_running, holds_wakeup. Qed.
Lemma holds_switch_back L e r m : holds L e r m scheduler_switch_back.
Proof. unfold scheduler_switch_back. holds_solve. Qed.
Lemma holds_sbrk L e r m n : holds L e r m (proc_sbrk n).
Proof. unfold proc_sbrk. holds_solve. Qed.
Lemma holds_start L e r m p : holds L e r m (proc_start p).
Proof. unfold proc_start. holds_solve. Qed.
Lemma holds_bad L e r m p : holds L e r m (proc_exec_bad p).
Proof. unfold proc_exec_bad. holds_solve. Qed.
#[export] Hint Resolve holds_proc_wakeup holds_switch_back holds_sbrk holds_start holds_bad : proc.

(** ** Calls that wait *)

Lemma lock_taken L e r m s p b : proc_inv L e r m s -> pcbs s !! p = Some b -> locked b = true ->
  condvar_lock p s = Panic "deadlock".
Proof.
  intros H Eb Hl. unfold condvar_lock.
  rewrite (bind_step _ _ s true s) by (unfold reads; by rewrite (iv_spin _ _ _ _ _ H)).
  cbn [negb]. rewrite (bind_step _ _ s b s) by (unfold get_pcb; by rewrite Eb). by rewrite Hl.
Qed.

Lemma lock_own L e m s : proc_inv L e m m s -> m <> 0 -> condvar_lock m s = Panic "deadlock".
Proof. intros H Hm. destruct (iv_locked _ _ _ _ _ H Hm) as (b & Eb & Hl). by apply (lock_taken L e m m s m b). Qed.

Lemma lock_other L e r m s p b : proc_inv L e r m s -> pcbs s !! p = Some b -> locked b = false ->
  condvar_lock p s = Ret (tt, set_pcbs s (<[p := pcb_lock b true]> (pcbs s))).
Proof.
  intros H Eb Hl. unfold condvar_lock.
  rewrite (bind_step _ _ s true s) by (unfold reads; by rewrite (iv_spin _ _ _ _ _ H)).
  cbn [negb]. rewrite (bind_step _ _ s b s) by (unfold get_pcb; by rewrite Eb). by rewrite Hl.
Qed.

Lemma find_pid_waits L e m t l : m <> 0 -> forall s, proc_inv L e m m s ->
  (exists i, i ∈ l /\ default 0 (zget (table s) i) = m) ->
  find_pid l t s = Panic "deadlock" \/
  (exists p s', find_pid l t s = Ret (Some p, s') /\ p <> m /\ p ∈ L /\ proc_inv L e m m s').
Proof.
  intros Hm. induction l as [|i l IH]; intros s H (j & Hj & Ej); [by apply elem_of_nil in Hj|].
  cbn [find_pid]. unfold slot. rewrite (bind_step _ _ s _ s eq_refl).
  set (p := default 0 (zget (table s) i)). unfold truth. destruct (Z.eqb_spec p 0) as [E0|E0]; cbn [negb].
  { apply IH; [done|]. exists j. split; [|done]. apply elem_of_cons in Hj as [->|?]; [|done].
    unfold p in E0. congruence. }
  destruct (decide (p = m)) as [Epm|Hpm].
  { left. unfold mbind, st_bind. by rewrite Epm, (lock_own L e m s). }
  assert (p ∈ L) as Hp.
  { unfold p. unfold p in E0. rewrite (tk_table _ _ (iv_table _ _ _ _ _ H)) in *.
    destruct (decide (0 <= i)); [|unfold zget in E0; destruct (Z.ltb_spec i 0); [done|lia]].
    rewrite zget_tab in * by lia. unfold nth0 in *. destruct (L !! Z.to_nat i) eqn:E; [|done].
    by apply (list_elem_of_lookup_2 _ (Z.to_nat i)). }
  destruct (proj2 (iv_pcbs _ _ _ _ _ H p) Hp) as [b Eb].
  destruct (locked b) eqn:Hl.
  { left. unfold mbind, st_bind. by rewrite (lock_taken L e m m s p b). }
  pose proof (lock_other L e m m s p b H Eb Hl) as E1. rewrite (bind_step _ _ s tt _ E1).
  set (s1 := set_pcbs s (<[p := pcb_lock b true]> (pcbs s))) in *.
  assert (proc_inv L e m m s1) as H1 by (apply (holds_lock L e m m p s H tt), E1).
  assert (get_pcb p s1 = Ret (pcb_lock b true, s1)) as E2
    by (unfold get_pcb, s1; cbn; by rewrite lookup_insert_eq).
  rewrite (bind_step _ _ s1 _ s1 E2). destruct (pid (pcb_lock b true) =? t).
  { right. by exists p, s1. }
  assert (condvar_unlock p s1 = Ret (tt, set_pcbs s1 (<[p := pcb_lock (pcb_lock b true) false]> (pcbs s1)))) as E3.
  { unfold condvar_unlock. rewrite (bind_step _ _ s1 true s1) by (unfold reads; by rewrite (iv_spin _ _ _ _ _ H1)).
    cbn [negb]. by rewrite (bind_step _ _ s1 _ s1 E2). }
  rewrite (bind_step _ _ s1 tt _ E3). apply IH.
  - by apply (holds_unlock L e m m p ltac:(by left) s1 H1 tt).
  - exists j. split; [|done]. apply elem_of_cons in Hj as [->|?]; [|done]. by destruct Hpm.
Qed.

Lemma own_slot L e m s : proc_inv L e m m s -> m <> 0 ->
  exists i, i ∈ seqZ 0 MAX_PROCESSES /\ default 0 (zget (table s) i) = m.
Proof.
  intros H Hm. destruct (iv_locked _ _ _ _ _ H Hm) as (b & Eb & _).
  assert (m ∈ L) as Hin by (apply (iv_pcbs _ _ _ _ _ H); by rewrite Eb).
  apply list_elem_of_lookup_1 in Hin as [k Hk]. exists (Z.of_nat k).
  pose proof (tk_len _ _ (iv_table _ _ _ _ _ H)). pose proof (lookup_lt_Some _ _ _ Hk).
  split; [apply elem_of_seqZ; unfold MAX_PROCESSES; lia|].
  rewrite (tk_table _ _ (iv_table _ _ _ _ _ H)), zget_tab, Nat2Z.id by lia. unfold nth0. by rewrite Hk.
Qed.

(** While a process runs and no process has exited, none can wait. *)
Lemma waiting_calls L m s now t : proc_inv L 0 m m s -> m <> 0 ->
  (forall unlock ch, condvar_wait now unlock ch s = Panic "deadlock") /\
  proc_wait now t s = Panic "deadlock" /\
  (forall msec later, sys_sleep now msec later s = Panic "deadlock").
Proof.
  intros H Hm. split; [|split].
  - intros unlock ch. unfold condvar_wait.
    rewrite (bind_step _ _ s m s) by (unfold reads; by rewrite (iv_running _ _ _ _ _ H)).
    destruct (Z.eqb_spec m 0); [done|]. unfold mbind, st_bind. by rewrite (lock_own L 0 m s).
  - unfold proc_wait, mbind, st_bind.
    destruct (find_pid_waits L 0 m t _ Hm s H (own_slot L 0 m s H Hm)) as [->|(p & s1 & -> & Hpm & Hp & H1)]; [done|].
    unfold wait_round. destruct (proj2 (proj1 (iv_procs _ _ _ _ _ H1) p) Hp) as [x Ex].
    rewrite (bind_step _ _ s1 x s1).
    2:{ rewrite (on_sched_run _ s1 x (ss s1)) by (unfold get_proc; by rewrite Ex). by destruct s1. }
    rewrite bool_decide_eq_false_2.
    2:{ intros E. apply (tk_nonzero _ _ (iv_table _ _ _ _ _ H1)).
        by rewrite <- (proj2 (iv_procs _ _ _ _ _ H1) p x Ex E). }
    unfold condvar_wait, mbind, st_bind, reads. rewrite (iv_running _ _ _ _ _ H1).
    destruct (Z.eqb_spec m 0); [done|]. by rewrite (lock_own L 0 m s1).
  - intros msec later. unfold sys_sleep.
    rewrite (bind_step _ _ s m s) by (unfold reads; by rewrite (iv_running _ _ _ _ _ H)).
    unfold mbind, st_bind. by rewrite (lock_own L 0 m s).
Qed.

(** ** The steps of the kernel *)

(** The scheduler runs and takes processes in turn; the running process
    makes calls, is interrupted, and exits; interrupt handlers wake others.
    A page that [kalloc] gives for a new process is not another process's. *)
Inductive pstep : pstate -> pstate -> Prop :=
| step_create fuel s p s1 n s2 : proc_allocate fuel s = Ret (p, s1) -> pcbs s !! p = None ->
    proc_start p s1 = Ret (n, s2) -> pstep s s2
| step_create_bad fuel s p s1 s2 : proc_allocate fuel s = Ret (p, s1) -> pcbs s !! p = None ->
    proc_exec_bad p s1 = Ret (tt, s2) -> pstep s s2
| step_dispatch fuel now s n s' : running_process s = 0 -> proc_dispatch fuel now s = Ret (n, s') -> pstep s s'
| step_idle s r s' : running_process s = 0 -> scheduler_idle s = Ret (r, s') -> pstep s s'
| step_wakeup ch everyone s s' : proc_wakeup ch everyone s = Ret (tt, s') -> pstep s s'
| step_tick now s b s' : on_sched (scheduler_tick now) s = Ret (b, s') -> pstep s s'
| step_sbrk n s r s' : running_process s <> 0 -> proc_sbrk n s = Ret (r, s') -> pstep s s'
| step_wait now t s r s' : running_process s <> 0 -> proc_wait now t s = Ret (r, s') -> pstep s s'
| step_sleep now msec later s r s' : running_process s <> 0 -> sys_sleep now msec later s = Ret (r, s') -> pstep s s'
| step_block now ch unlock s s' : running_process s <> 0 -> condvar_wait now unlock ch s = Ret (tt, s') -> pstep s s'
| step_resume now s s' : running_process s <> 0 -> proc_resume now s = Ret (tt, s') -> pstep s s'
| step_exit code now s s1 s' : running_process s <> 0 -> proc_exit code s = Ret (tt, s1) ->
    proc_resume now s1 = Ret (tt, s') -> pstep s s'.

Definition pstate_ok (s : pstate) : Prop :=
  exists L, proc_inv L 0 (running_process s) (running_process s) s.

Lemma ends_ret_inv {S A} (c : ST S A) Q s a s' : ends c Q s -> c s = Ret (a, s') -> Q a s'.
Proof. intros H. apply H. Qed.

(** A step of the running process, or of a handler. *)
Lemma holds_ok {A} (c : ST pstate A) s a s' : (forall L m, holds L 0 m m c) -> pstate_ok s ->
  c s = Ret (a, s') -> pstate_ok s'.
Proof.
  intros Hc [L HL] E. exists L. pose proof (Hc L _ s HL a s' E) as H. by rewrite (iv_running _ _ _ _ _ H).
Qed.

Lemma allocate_ok fuel s p s1 : pstate_ok s -> proc_allocate fuel s = Ret (p, s1) -> pcbs s !! p = None ->
  pstate_ok s1.
Proof.
  intros [L H] E Hf. pose proof (iv_table _ _ _ _ _ H) as Ht.
  destruct (proc_allocate_inv fuel s L p s1 Ht E) as (m1 & pt & m2 & _ & Hp & HL & ->).
  assert (p ∉ L) as Hn.
  { intros Hin. apply (iv_pcbs _ _ _ _ _ H) in Hin. rewrite Hf in Hin. by destruct Hin. }
  exists (L ++ [p]). destruct H as [_ [HP1 HP2] Hb Hs Hr Hm]. constructor; cbn.
  - apply with_new_ok; [done|unfold zlen in HL; lia|done|done].
  - split; cbn.
    + intros q. rewrite elem_of_app, list_elem_of_singleton, <- HP1.
      destruct (decide (q = p)) as [->|]; [rewrite lookup_insert_eq; split; [by right|done]|].
      rewrite lookup_insert_ne by done. tauto.
    + intros q x. destruct (decide (q = p)) as [->|]; [|rewrite lookup_insert_ne by done; apply HP2].
      rewrite lookup_insert_eq. intros [= <-]. done.
  - intros q. rewrite elem_of_app, list_elem_of_singleton, <- Hb.
    destruct (decide (q = p)) as [->|]; [rewrite lookup_insert_eq; split; [by right|done]|].
    rewrite lookup_insert_ne by done. tauto.
  - done.
  - done.
  - intros H0. destruct (Hm H0) as (b & Eb & Hl). exists b. split; [|done].
    rewrite lookup_insert_ne; [done|]. intros ->. congruence.
Qed.

Lemma dispatch_procs L e fuel now t : sched_procs L e t ->
  ends (sched_dispatch fuel now) (fun n t' => sched_procs L e t' /\ (n <> 0 -> n ∈ L)) t.
Proof.
  intros Ht. unfold sched_dispatch. apply ends_bind. intros n t1 E1.
  assert (t1 = t) as -> by (destruct (sched_pick_next fuel t); try done; by injection E1).
  destruct (Z.eqb_spec n 0) as [->|Hn]; [by apply ends_ret|].
  assert (n ∈ L -> stays L e (_ ← sched_dequeue n; q ← get_rq; _ ← put_rq (rq_set_curr q n); x ← get_proc n;
    _ ← put_proc n (set_state x RUNNING); x ← get_proc n; q ← get_rq;
    let se := sched x in
    let se := se_set_run se (vruntime se) now (sum_exec_runtime se) (last_timeslice se) now in
    slice ← of_option (sched_compute_timeslice (total_weight q) se);
    _ ← put_proc n (set_sched x (se_set_run se (vruntime se) now (sum_exec_runtime se) slice now));
    _ ← st_modify (fun s => MkS (procs s) (rq s)
          (MkStats (wrap 64 (total_switches (stats s) + 1)) (total_preemptions (stats s))
             (total_yields (stats s)) (total_timer_ticks (stats s))));
    mret n)) as Hst by (intros Hin; stays_solve).
  intros a t' E. destruct (decide (n ∈ L)) as [Hin|Hout].
  - split; [by apply (Hst Hin t Ht a)|]. intros _. enough (a = n) as -> by done. revert E.
    apply (ends_bind (sched_dequeue n) _ (fun a _ => a = n)). intros ? ? _.
    apply ends_bind. intros ? ? _. apply ends_bind. intros ? ? _. apply ends_bind. intros ? ? _.
    apply ends_bind. intros ? ? _. apply ends_bind. intros ? ? _. apply ends_bind. intros ? ? _. cbv zeta.
    apply ends_bind. intros ? ? _. apply ends_bind. intros ? ? _. apply ends_bind. intros ? ? _. by apply ends_ret.
  - exfalso. unfold sched_dequeue, mbind, st_bind, get_proc in E.
    destruct (procs t !! n) eqn:En; [|done]. apply Hout, (proj1 Ht). by rewrite En.
Qed.

Lemma dispatch_step s fuel now n s' : pstate_ok s -> running_process s = 0 ->
  proc_dispatch fuel now s = Ret (n, s') -> pstate_ok s'.
Proof.
  intros [L H] H0 E. rewrite H0 in H. revert E.
  apply (ends_bind (on_sched (sched_dispatch fuel now)) _ (fun _ s' => pstate_ok s')).
  apply ends_zoom. eapply ends_weaken; [apply dispatch_procs, H|].
  intros a t [Ht Ha]. assert (proc_inv L 0 0 0 (set_ss s t)) as H1.
  { destruct H as [[] ? ? ? ? ?]. by constructor. }
  destruct (Z.eqb_spec a 0) as [->|Hn].
  { apply ends_ret. exists L. cbn. by rewrite H0. }
  apply ends_bind, ends_modify, ends_bind.
  destruct (proj2 (iv_pcbs _ _ _ _ _ H a) (Ha Hn)) as [b Eb].
  assert (proc_inv L 0 a 0 (set_running (set_ss s t) a a)) as H2.
  { destruct H1 as [[] ? ? ? ? ?]. by constructor. }
  intros u s2 E2. destruct (locked b) eqn:Hl.
  { by rewrite (lock_taken L 0 a 0 _ a b H2 Eb Hl) in E2. }
  pose proof (holds_lock L 0 a 0 a _ H2 u s2 E2) as H3.
  rewrite (lock_other L 0 a 0 _ a b H2 Eb Hl) in E2. injection E2 as _ <-. apply ends_ret. exists L.
  destruct H3. constructor; try done. intros _. cbn. rewrite lookup_insert_eq. by eexists.
Qed.

(** The sweep of the idle loop finds nothing to free. *)
Lemma sweep_nothing L r m fuel : forall s i any, proc_inv L 0 r m s ->
  ends (reclaim_exited fuel i any) (fun a s' => s' = s) s.
Proof.
  induction fuel as [|fuel IH]; intros s i any H; cbn [reclaim_exited]; [by intros a s' E|].
  apply ends_bind, ends_reads. destruct (negb _); [by apply ends_ret|].
  apply ends_bind, ends_reads. destruct (truth _); [|by apply IH].
  apply ends_bind, ends_zoom. intros x t E. unfold get_proc in E.
  destruct (procs (ss s) !! _) as [y|] eqn:Ey; [|done]. injection E as <- <-.
  rewrite bool_decide_eq_false_2.
  - assert (set_ss s (ss s) = s) as -> by (by destruct s). by apply IH.
  - intros EX. pose proof (proj2 (iv_procs _ _ _ _ _ H) _ _ Ey EX) as E0. rewrite E0 in Ey.
    apply (tk_nonzero _ _ (iv_table _ _ _ _ _ H)), (proj1 (iv_procs _ _ _ _ _ H)). by rewrite Ey.
Qed.

Lemma holds_idle L r m : holds L 0 r m scheduler_idle.
Proof.
  unfold scheduler_idle. apply holds_reads. intros c. apply holds_reads. intros l.
  apply holds_bind; [apply holds_sched; auto with proc|]. intros _.
  apply holds_bind; [apply holds_sched; intros t Ht; by apply ends_reads|]. intros q.
  destruct (0 <? _); [apply holds_ret|]. apply holds_bind.
  { intros s H. eapply ends_weaken; [by eapply sweep_nothing|]. by intros a s' ->. }
  intros any. holds_solve.
Qed.

Lemma inv_weaken L m s : proc_inv L 0 m m s -> proc_inv L m m m s.
Proof.
  intros [Ht [HP1 HP2] ? ? ? ?]. constructor; try done. split; [done|]. intros p x Ex E.
  exfalso. apply (tk_nonzero _ _ Ht). rewrite <- (HP2 p x Ex E). apply HP1. by rewrite Ex.
Qed.
Lemma inv_unlocked L e r m s : proc_inv L e r m s -> proc_inv L e r 0 s.
Proof. intros []. by constructor. Qed.

Lemma reclaim_ok L r s p b : proc_inv L p r 0 s -> pcbs s !! p = Some b ->
  ends (reclaim p (proc_i b)) (fun _ s' => exists L', proc_inv L' 0 r 0 s') s.
Proof.
  intros H Eb u s' E. pose proof (iv_table _ _ _ _ _ H) as Ht.
  assert (p ∈ L) as Hp by (apply (iv_pcbs _ _ _ _ _ H); by rewrite Eb).
  destruct (placed_of s L p b Ht Hp Eb) as (k & Hk & Ei).
  pose proof (take_drop_middle L k p Hk) as EL.
  assert (proc_i b = zlen (take k L)) as Ez.
  { unfold zlen. rewrite length_take. pose proof (lookup_lt_Some _ _ _ Hk). lia. }
  set (A := take k L) in *. set (B := drop (S k) L) in *. clearbody A B. subst L.
  pose proof E as E'. rewrite (reclaim_eq s p _ b Eb) in E'.
  destruct (free_memory (vm s) b p (mm s)) as [[[] m]| | |] eqn:Em; try done. clear E'.
  destruct (reclaim_spec s A p B b m Ht Eb Em) as (s1 & E1 & Ht1 & _ & _ & _ & Hss & _ & Hd & Hsp & Hr).
  rewrite <- Ez, E in E1. injection E1 as _ ->. exists (A ++ B).
  pose proof (tk_nodup _ _ Ht) as HN. apply NoDup_app in HN as (_ & HAB & HB). apply NoDup_cons in HB as [HpB _].
  assert (forall q, q ∈ A ++ B <-> q <> p /\ q ∈ A ++ p :: B) as Hin.
  { intros q. rewrite !elem_of_app, elem_of_cons. split.
    - intros [Hq|Hq]; (split; [|tauto]); intros ->; [|done]. apply (HAB p Hq). by left.
    - tauto. }
  constructor; try done.
  - rewrite Hss. split; cbn.
    + intros q. rewrite Hin, <- (proj1 (iv_procs _ _ _ _ _ H) q).
      destruct (decide (q = p)) as [->|]; [rewrite lookup_delete_eq; split; [by intros [? ?]|by intros [? _]]|].
      rewrite lookup_delete_ne by done. tauto.
    + intros q x. destruct (decide (q = p)) as [->|Hq]; [by rewrite lookup_delete_eq|].
      rewrite lookup_delete_ne by done. intros Ex EX. by destruct Hq, (proj2 (iv_procs _ _ _ _ _ H) q x Ex EX).
  - intros q. rewrite Hd, Hin, (iv_pcbs _ _ _ _ _ H q). done.
  - rewrite Hsp. apply H.
  - rewrite Hr. apply H.
Qed.

Lemma resume_step L e m now s : proc_inv L e m m s -> m <> 0 -> (e = 0 \/ e = m) ->
  ends (proc_resume now) (fun _ s' => pstate_ok s') s.
Proof.
  intros H Hm He. apply inv_unlocked in H. unfold proc_resume.
  apply ends_bind, ends_reads. rewrite (iv_running _ _ _ _ _ H).
  apply ends_bind. eapply ends_weaken; [apply (holds_unlock L e m 0 m ltac:(by right) s H)|]. intros ? s1 H1.
  apply ends_bind. eapply ends_weaken; [apply (holds_sched L e m 0 _ (stays_resume L e now m) s1 H1)|].
  intros ? s2 H2. apply ends_bind, ends_zoom. intros x t E. unfold get_proc in E.
  destruct (procs (ss s2) !! m) as [y|] eqn:Ey; [|done]. injection E as <- <-.
  assert (set_ss s2 (ss s2) = s2) as -> by (by destruct s2).
  assert (forall L' s', proc_inv L' 0 m 0 s' -> pstate_ok (set_running s' 0 (last_running_process s'))) as Hend.
  { intros L' s' [[] ? ? ? ? ?]. exists L'. by constructor. }
  apply ends_bind. destruct (bool_decide_reflect (p_state y = EXITED)) as [EX|NX].
  - assert (e = m) as -> by (symmetry; by apply (proj2 (iv_procs _ _ _ _ _ H2) m y)).
    apply ends_bind. intros b s3 E3. unfold get_pcb in E3. destruct (pcbs s2 !! m) as [c|] eqn:Ec; [|done].
    injection E3 as -> <-. eapply ends_weaken; [by apply (reclaim_ok L m s2 m)|].
    intros ? s4 [L' H4]. apply ends_modify. by apply (Hend L').
  - apply ends_ret, ends_modify, (Hend L). destruct H2 as [Ht [HP1 HP2] ? ? ? ?]. constructor; try done.
    split; [done|]. intros p x Ex EX. pose proof (HP2 p x Ex EX) as ->.
    destruct He as [?| ->]; [done|]. congruence.
Qed.

Lemma exit_step L m code now s s1 s' : proc_inv L 0 m m s -> m <> 0 -> proc_exit code s = Ret (tt, s1) ->
  proc_resume now s1 = Ret (tt, s') -> pstate_ok s'.
Proof.
  intros H Hm E1 E2. apply inv_weaken in H.
  assert (holds L m m m (proc_exit code)) as HE.
  { unfold proc_exit, condvar_notify_all. holds_solve. }
  eapply (resume_step L m m now s1); [exact (HE s H tt s1 E1)|done|by right|exact E2].
Qed.

Lemma pstep_ok s s' : pstate_ok s -> pstep s s' -> pstate_ok s'.
Proof.
  intros Hok HS. destruct HS as [fuel s p s1 n s2 E1 Ef E2|fuel s p s1 s2 E1 Ef E2|fuel now s n s' H0 E|s r s' H0 E|
    ch ev s s' E|now s b s' E|n s r s' Hr E|now t s r s' Hr E|now msec later s r s' Hr E|now ch un s s' Hr E|
    now s s' Hr E|code now s s1 s' Hr E1 E2].
  - apply (holds_ok (proc_start p) s1 n); [intros; apply holds_start|by eapply allocate_ok|done].
  - apply (holds_ok (proc_exec_bad p) s1 tt); [intros; apply holds_bad|by eapply allocate_ok|done].
  - by eapply dispatch_step.
  - apply (holds_ok scheduler_idle s r); [intros; apply holds_idle|done..].
  - apply (holds_ok (proc_wakeup ch ev) s tt); [intros; apply holds_proc_wakeup|done..].
  - apply (holds_ok (on_sched (scheduler_tick now)) s b); [intros; apply holds_sched, stays_tick|done..].
  - apply (holds_ok (proc_sbrk n) s r); [intros; apply holds_sbrk|done..].
  - destruct Hok as [L H]. destruct (waiting_calls L _ s now t H Hr) as (_ & HW & _). by rewrite HW in E.
  - destruct Hok as [L H]. destruct (waiting_calls L _ s now 0 H Hr) as (_ & _ & HW). by rewrite HW in E.
  - destruct Hok as [L H]. destruct (waiting_calls L _ s now 0 H Hr) as (HW & _). by rewrite HW in E.
  - destruct Hok as [L H]. eapply (resume_step L 0 (running_process s)); [done|done|by left|done].
  - destruct Hok as [L H]. by eapply exit_step.
Qed.

Lemma pstate_boot_ok m g : pstate_ok (pstate_boot m g).
Proof.
  exists []. constructor; cbn; try done.
  - constructor; cbn; try done; [lia|constructor|by intros ?%elem_of_nil].
  - split; cbn; [|done]. intros p. rewrite lookup_empty. split; [by intros [? ?]|by intros ?%elem_of_nil].
  - intros p. rewrite lookup_empty. split; [by intros [? ?]|by intros ?%elem_of_nil].
Qed.

(** C26: no process can ever wait.  The scheduler takes the lock of a process
    before it switches to it and the process keeps it while it runs; a call
    that waits takes that lock again.  In every state the kernel can reach,
    whatever processes were created, dispatched, interrupted, woken or ended,
    waiting for another process, sleeping, and waiting for a device end in
    the panic "deadlock"; and the process table is a list in which no
    process is ever found exited, so no exit status is ever returned. *)
Theorem waiting_deadlocks m g s now : rtc pstep (pstate_boot m g) s -> running_process s <> 0 ->
  (forall pid, proc_wait now pid s = Panic "deadlock") /\
  (forall msec later, sys_sleep now msec later s = Panic "deadlock") /\
  (forall unlock channel, condvar_wait now unlock channel s = Panic "deadlock") /\
  exists L, table_ok s L /\ forall p, p ∈ L -> exists x, procs (ss s) !! p = Some x /\ p_state x <> EXITED.
Proof.
  intros HR Hm. assert (pstate_ok s) as [L H].
  { pose proof (pstate_boot_ok m g) as H0. revert H0.
    induction HR as [s|s1 s2 s3 H1 _ IH]; [done|]. intros H0. by apply IH, (pstep_ok s1). }
  split; [intros pid; apply (waiting_calls L _ s now pid H Hm)|].
  split; [apply (waiting_calls L _ s now 0 H Hm)|]. split; [apply (waiting_calls L _ s now 0 H Hm)|].
  exists L. split; [apply H|]. intros p Hp. destruct (proj2 (proj1 (iv_procs _ _ _ _ _ H) p) Hp) as [x Ex].
  exists x. split; [done|]. intros EX. apply (tk_nonzero _ _ (iv_table _ _ _ _ _ H)).
  by rewrite <- (proj2 (iv_procs _ _ _ _ _ H) p x Ex EX).
Qed.

(** ** Waking *)

Lemma wakeup_effect s p x : sched_ok s -> procs s !! p = Some x -> p_state x = SLEEPING -> p <> curr (rq s) ->
  exists s', sched_wakeup p s = Ret (tt, s') /\ sched_ok s' /\ curr (rq s') = curr (rq s) /\
  forall q y, procs s !! q = Some y -> exists y', procs s' !! q = Some y' /\
    p_state y' = (if decide (q = p) then RUNNABLE else p_state y) /\
    waiting_channel y' = (if decide (q = p) then 0 else waiting_channel y).
Proof.
  intros Hok Hx Hst Hne.
  destruct (wakeup_ok s p Hok ltac:(by split; [rewrite Hx|])) as (s1 & E1 & Hok1).
  exists s1. split; [done|]. split; [done|]. pose proof Hok as (Q & Hi & _).
  unfold sched_wakeup in E1. rewrite (bind_step _ _ s x s) in E1 by (by apply get_proc_step).
  rewrite Hst in E1. cbn [negb andb bool_decide] in E1.
  change (negb (bool_decide (SLEEPING = SLEEPING)) && negb (bool_decide (SLEEPING = USED))) with false in E1.
  cbv iota zeta in E1.
  set (x0 := MkProc RUNNABLE 0 (sched_update_priority
    (se_links (sched x) 0 0 (runqueue_prio (sched x)) (in_runqueue (sched x))))) in *.
  rewrite (bind_step (put_proc p x0) _ s tt (MkS (<[p := x0]> (procs s)) (rq s) (stats s)) eq_refl) in E1.
  assert (p ∉ concat Q) as Hp by (apply (not_queued _ _ _ x Hi Hx); by rewrite Hst).
  assert (sched_inv (MkS (<[p := x0]> (procs s)) (rq s) (stats s)) Q) as Hi1.
  { apply sched_inv_put; [done|done|done|]. apply (proc_ok_update_priority _ _ (relink x 0 0 (runqueue_prio (sched x)) (in_runqueue (sched x)))).
    - apply proc_ok_relink; apply (si_proc _ _ Hi p x Hx).
    - done. }
  destruct (enqueue_inv _ Q p x0 Hi1 ltac:(cbn; by rewrite lookup_insert_eq) Hp eq_refl)
    as (s2 & Q2 & E2 & _ & _ & (Ec & _) & Hrel & _).
  rewrite E2 in E1. injection E1 as <-. split; [exact Ec|].
  intros q y Hy. specialize (Hrel q). cbn [procs] in Hrel. destruct (decide (q = p)) as [->|Hq].
  - rewrite lookup_insert_eq in Hrel. destruct Hrel as (? & ? & ? & ? & ->). by eexists.
  - rewrite lookup_insert_ne, Hy in Hrel by done. destruct Hrel as (? & ? & ? & ? & ->). by eexists.
Qed.

(** The processes of [l] that [proc_wakeup] looks for. *)
Definition sleeps_on (s : pstate) (m ch p : Z) : Prop :=
  p <> m /\ match procs (ss s) !! p with
            | Some x => p_state x = SLEEPING /\ waiting_channel x = ch
            | None => False
            end.
#[export] Instance sleeps_on_dec s m ch p : Decision (sleeps_on s m ch p).
Proof. unfold sleeps_on. destruct (procs (ss s) !! p); apply _. Defined.
Definition woken (s : pstate) (m ch : Z) (everyone : bool) (l : list Z) : list Z :=
  let hits := filter (sleeps_on s m ch) l in if everyone then hits else take 1 hits.

(** What waking the processes [W] makes of a state. *)
Definition after_waking (s s' : pstate) (W : list Z) : Prop :=
  sched_ok (ss s') /\ pcbs s' = pcbs s /\ table s' = table s /\ curr (rq (ss s')) = curr (rq (ss s)) /\
  spinlocks_enabled s' = spinlocks_enabled s /\
  forall q y, procs (ss s) !! q = Some y -> exists y', procs (ss s') !! q = Some y' /\
    p_state y' = (if decide (q ∈ W) then RUNNABLE else p_state y) /\
    waiting_channel y' = (if decide (q ∈ W) then 0 else waiting_channel y).

Lemma pcb_unlock_id b : locked b = false -> pcb_lock (pcb_lock b true) false = b.
Proof. by destruct b; cbn; intros ->. Qed.

(** One process of the loop, with its lock taken and given back. *)
Definition wake_one (p ch : Z) : ST pstate bool :=
  _ ← condvar_lock p;
  x ← on_sched (get_proc p);
  let hit := bool_decide (p_state x = SLEEPING) && (waiting_channel x =? ch) in
  _ ← (if hit then on_sched (sched_wakeup p) else mret tt);
  _ ← condvar_unlock p; mret hit.

Lemma wakeup_from_cons i l me ch everyone s p : default 0 (zget (table s) i) = p -> p <> 0 -> p <> me ->
  wakeup_from (i :: l) me ch everyone s =
  (hit ← wake_one p ch; if hit && negb everyone then mret tt else wakeup_from l me ch everyone) s.
Proof.
  intros Ep H0 Hm. cbn [wakeup_from]. unfold slot. rewrite (bind_step _ _ s p s) by (unfold reads; by rewrite Ep).
  unfold truth. destruct (Z.eqb_spec p 0), (Z.eqb_spec me p); try congruence. cbn [negb orb].
  unfold wake_one, mbind, st_bind. destruct (condvar_lock p s) as [[? s1]| | |]; try done.
  destruct (on_sched (get_proc p) s1) as [[x s2]| | |]; try done. cbv zeta.
  destruct (_ && _); cbn [andb].
  1: destruct (on_sched (sched_wakeup p) s2) as [[? s3]| | |]; try done.
  2: set (s3 := s2).
  all: unfold mret, st_ret; by destruct (condvar_unlock p s3) as [[? s4]| | |].
Qed.

Lemma wakeup_one s m ch p x b : spinlocks_enabled s = true -> sched_ok (ss s) -> curr (rq (ss s)) = m ->
  procs (ss s) !! p = Some x -> pcbs s !! p = Some b -> locked b = false -> p <> m ->
  let hit := bool_decide (p_state x = SLEEPING) && (waiting_channel x =? ch) in
  exists s', wake_one p ch s = Ret (hit, s') /\
    after_waking s s' (if hit then [p] else []) /\ (sleeps_on s m ch p <-> hit = true).
Proof.
  intros Hs Hok Hc Hx Hb Hl Hp hit. unfold wake_one.
  assert (sleeps_on s m ch p <-> hit = true) as Hhit.
  { unfold sleeps_on, hit. rewrite Hx, andb_true_iff, bool_decide_eq_true, Z.eqb_eq. tauto. }
  set (s1 := set_pcbs s (<[p := pcb_lock b true]> (pcbs s))).
  assert (condvar_lock p s = Ret (tt, s1)) as E1.
  { unfold condvar_lock. rewrite (bind_step _ _ s true s) by (unfold reads; by rewrite Hs). cbn [negb].
    rewrite (bind_step _ _ s b s) by (unfold get_pcb; by rewrite Hb). by rewrite Hl. }
  rewrite (bind_step _ _ s tt s1 E1).
  assert (on_sched (get_proc p) s1 = Ret (x, s1)) as E2.
  { rewrite (on_sched_run _ s1 x (ss s)) by (cbn; by apply get_proc_step). done. }
  rewrite (bind_step _ _ s1 x s1 E2). cbv zeta. fold hit.
  assert (exists t, (if hit then on_sched (sched_wakeup p) else mret tt) s1 = Ret (tt, set_ss s1 t) /\
    sched_ok t /\ curr (rq t) = curr (rq (ss s)) /\
    forall q y, procs (ss s) !! q = Some y -> exists y', procs t !! q = Some y' /\
      p_state y' = (if decide (q ∈ if hit then [p] else []) then RUNNABLE else p_state y) /\
      waiting_channel y' = (if decide (q ∈ if hit then [p] else []) then 0 else waiting_channel y))
    as (t & E3 & Ht & Hct & Hpt).
  { destruct hit eqn:Eh.
    - pose proof (proj2 Hhit eq_refl) as [_ Hh]. rewrite Hx in Hh. destruct Hh as [Hst _].
      destruct (wakeup_effect (ss s) p x Hok Hx Hst ltac:(congruence)) as (t & Et & Ht & Hct & Hpt).
      exists t. split; [by apply on_sched_run|]. split; [done|]. split; [done|].
      intros q y Hy. destruct (Hpt q y Hy) as (y' & Ey & Es & Ew). exists y'. split; [done|].
      rewrite Es, Ew. destruct (decide (q = p)) as [->|Hq].
      + rewrite !decide_True by (by left). done.
      + rewrite !decide_False by (by rewrite list_elem_of_singleton). done.
    - exists (ss s). split; [done|]. split; [done|]. split; [done|]. intros q y Hy. exists y.
      rewrite !decide_False by (by intros ?%elem_of_nil). done. }
  rewrite (bind_step _ _ s1 tt _ E3).
  assert (condvar_unlock p (set_ss s1 t) = Ret (tt, set_ss s t)) as E4.
  { unfold condvar_unlock. rewrite (bind_step _ _ _ true (set_ss s1 t)) by (unfold reads; cbn; by rewrite Hs). cbn [negb].
    rewrite (bind_step _ _ _ (pcb_lock b true) (set_ss s1 t)) by (unfold get_pcb; cbn; by rewrite lookup_insert_eq).
    cbn [locked pcb_lock]. unfold put_pcb, st_modify. do 2 f_equal. unfold set_pcbs, set_ss, s1. cbn.
    f_equal. rewrite insert_insert_eq. unfold pcb_lock. cbn. apply insert_id. rewrite Hb.
    f_equal. by destruct b; cbn in Hl; rewrite Hl. }
  rewrite (bind_step _ _ _ tt _ E4). eexists. split; [reflexivity|]. split; [|exact Hhit].
  split; [exact Ht|]. split; [done|]. split; [done|]. split; [exact Hct|]. split; [done|]. exact Hpt.
Qed.

Lemma after_waking_refl s : sched_ok (ss s) -> after_waking s s [].
Proof.
  intros H. split; [done|]. split; [done|]. split; [done|]. split; [done|]. split; [done|].
  intros q y Hy. exists y. rewrite !decide_False by (by intros ?%elem_of_nil). done.
Qed.

Lemma after_waking_trans s1 s2 s3 W1 W2 : after_waking s1 s2 W1 -> after_waking s2 s3 W2 ->
  after_waking s1 s3 (W1 ++ W2).
Proof.
  intros (_ & B1 & C1 & D1 & E1 & F1) (A2 & B2 & C2 & D2 & E2 & F2).
  split; [done|]. split; [congruence|]. split; [congruence|]. split; [congruence|]. split; [congruence|].
  intros q y Hy. destruct (F1 q y Hy) as (y1 & Hy1 & G1 & H1). destruct (F2 q y1 Hy1) as (y2 & Hy2 & G2 & H2).
  exists y2. split; [done|]. rewrite G2, H2, G1, H1.
  destruct (decide (q ∈ W1)), (decide (q ∈ W2)), (decide (q ∈ W1 ++ W2)) as [Hin|Hin]; try done;
    rewrite elem_of_app in Hin; tauto.
Qed.

Lemma filter_ext_in {A} (P Q : A -> Prop) `{!forall x, Decision (P x), !forall x, Decision (Q x)} (l : list A) :
  (forall x, x ∈ l -> P x <-> Q x) -> filter P l = filter Q l.
Proof.
  induction l as [|x l IH]; intros HPQ; [done|].
  pose proof (HPQ x ltac:(by left)) as Hx. specialize (IH (fun y Hy => HPQ y (list_elem_of_further y x l Hy))).
  destruct (decide (P x)) as [HP|HP].
  - rewrite !filter_cons_True by tauto. by rewrite IH.
  - rewrite !filter_cons_False by tauto. done.
Qed.

(** What the loop needs of the processes that are left. *)
Definition wakeable (s : pstate) (m : Z) (l : list Z) : Prop := forall p, p ∈ l ->
  is_Some (procs (ss s) !! p) /\ (p <> m -> exists b, pcbs s !! p = Some b /\ locked b = false).

Lemma wakeup_from_spec L m ch everyone : 0 ∉ L -> NoDup L -> (length L <= 63)%nat ->
  forall n k s, n = (64 - k)%nat -> (k <= 64)%nat -> table s = tab L -> spinlocks_enabled s = true ->
  sched_ok (ss s) -> curr (rq (ss s)) = m -> wakeable s m (drop k L) ->
  exists s', wakeup_from (seqZ (Z.of_nat k) (64 - Z.of_nat k)) m ch everyone s = Ret (tt, s') /\
    after_waking s s' (woken s m ch everyone (drop k L)).
Proof.
  intros H0 HN HL n. induction n as [|n IH]; intros k s En Hk Ht Hs Hok Hc HW.
  { rewrite seqZ_nil by lia. exists s. split; [done|]. rewrite drop_ge by lia. unfold woken.
    destruct everyone; by apply after_waking_refl. }
  rewrite seqZ_split by lia. replace (64 - Z.of_nat k - 1) with (64 - Z.of_nat (S k)) by lia.
  replace (Z.of_nat k + 1) with (Z.of_nat (S k)) by lia.
  assert (default 0 (zget (table s) (Z.of_nat k)) = nth0 L k) as Ep by (rewrite Ht, zget_tab, Nat2Z.id by lia; done).
  destruct (decide (k < length L)%nat) as [Hlt|Hge].
  2:{ cbn [wakeup_from]. unfold slot. rewrite (bind_step _ _ s 0 s).
      - change (negb (truth 0)) with true. cbn [orb].
        destruct (IH (S k) s) as (s' & E & HA); [lia|lia|done..|by rewrite !drop_ge in * by lia|].
        exists s'. split; [exact E|]. by rewrite !drop_ge in * by lia.
      - unfold reads. rewrite Ep. unfold nth0. by rewrite lookup_ge_None_2 by lia. }
  destruct (lookup_lt_is_Some_2 L k Hlt) as [p Hp]. rewrite (drop_S _ p) in * by done.
  assert (nth0 L k = p) as En0 by (unfold nth0; by rewrite Hp). rewrite En0 in Ep.
  assert (p <> 0) as Hp0 by (intros ->; by apply H0, (list_elem_of_lookup_2 _ k)).
  assert (p ∉ drop (S k) L) as Hpn.
  { rewrite <- (take_drop_middle L k p Hp) in HN. apply NoDup_app in HN as (_ & _ & HN). by apply NoDup_cons in HN as [? _]. }
  assert (wakeable s m (drop (S k) L)) as HW' by (intros q Hq; apply HW; by right).
  destruct (decide (p = m)) as [Hpm|Hpm].
  { cbn [wakeup_from]. unfold slot. rewrite (bind_step _ _ s p s) by (unfold reads; by rewrite Ep).
    rewrite Hpm, Z.eqb_refl, orb_true_r.
    destruct (IH (S k) s) as (s' & E & HA); [lia|lia|done..|]. exists s'. split; [exact E|].
    unfold woken in *. rewrite filter_cons_False by (intros [? _]; done). done. }
  rewrite (wakeup_from_cons _ _ m ch everyone s p Ep Hp0 Hpm).
  destruct (HW p ltac:(by left)) as [[x Hx] Hb]. destruct (Hb Hpm) as (b & Eb & Hl).
  destruct (wakeup_one s m ch p x b Hs Hok Hc Hx Eb Hl Hpm) as (s1 & E1 & HA1 & Hhit).
  set (hit := bool_decide (p_state x = SLEEPING) && (waiting_channel x =? ch)) in *.
  rewrite (bind_step _ _ s hit s1 E1).
  assert (woken s m ch everyone (p :: drop (S k) L) =
    (if hit then [p] else []) ++ (if hit && negb everyone then [] else woken s m ch everyone (drop (S k) L))) as EW.
  { unfold woken. destruct hit.
    - rewrite filter_cons_True by (by apply Hhit). destruct everyone; [done|]. cbn. by rewrite take_0.
    - rewrite filter_cons_False by (by intros ?%Hhit). done. }
  rewrite EW. destruct (hit && negb everyone) eqn:Estop.
  { exists s1. split; [done|]. by rewrite app_nil_r. }
  destruct HA1 as (Hok1 & Eb1 & Et1 & Ec1 & Es1 & Hst).
  destruct (IH (S k) s1) as (s2 & E2 & HA2); [lia|lia|congruence|congruence|done|congruence| |].
  { intros q Hq. destruct (HW' q Hq) as [[y Hy] Hqb]. destruct (Hst q y Hy) as (y' & Ey & _).
    split; [by rewrite Ey|]. by rewrite Eb1. }
  exists s2. split; [exact E2|]. apply (after_waking_trans s s1); [done|].
  assert (woken s m ch everyone (drop (S k) L) = woken s1 m ch everyone (drop (S k) L)) as ->; [|done].
  unfold woken. rewrite (filter_ext_in (sleeps_on s m ch) (sleeps_on s1 m ch)); [done|].
  intros q Hq. unfold sleeps_on. destruct (HW' q Hq) as [[y Hy] _]. destruct (Hst q y Hy) as (y' & Ey & G & H).
  rewrite Hy, Ey, G, H. rewrite !decide_False; [done|..];
    (destruct hit; [intros ->%list_elem_of_singleton; done|by intros ?%elem_of_nil]).
Qed.

(** [proc_wakeup] wakes the right processes and leaves the rest alone.
    With the scheduler's invariant and no other lock taken it ends, and the
    processes that become runnable are those, other than the caller, that
    sleep on the channel: all of them, or only the first in the order of the
    table.  Every other process keeps its state and its channel, every lock
    is given back, and the run queue is well formed with the woken processes
    in it. *)
Theorem proc_wakeup_correct L e m s ch everyone : proc_inv L e m m s -> sched_ok (ss s) ->
  curr (rq (ss s)) = m ->
  (forall p b, pcbs s !! p = Some b -> p <> m -> locked b = false) ->
  exists s', proc_wakeup ch everyone s = Ret (tt, s') /\ sched_ok (ss s') /\
    pcbs s' = pcbs s /\ table s' = table s /\
    let hits := filter (sleeps_on s m ch) L in
    forall p x, procs (ss s) !! p = Some x -> exists x', procs (ss s') !! p = Some x' /\
      p_state x' = (if decide (p ∈ if everyone then hits else take 1 hits) then RUNNABLE else p_state x) /\
      waiting_channel x' = (if decide (p ∈ if everyone then hits else take 1 hits) then 0 else waiting_channel x).
Proof.
  intros H Hok Hc Hfree. pose proof (iv_table _ _ _ _ _ H) as Ht.
  destruct (wakeup_from_spec L m ch everyone (tk_nonzero _ _ Ht) (tk_nodup _ _ Ht) (tk_len _ _ Ht) 64 0 s)
    as (s' & E & HA1 & HA2 & HA3 & _ & _ & HA6); try done; try lia.
  - apply Ht.
  - apply H.
  - intros p Hp. split; [by apply (iv_procs _ _ _ _ _ H)|]. intros Hpm.
    destruct (proj2 (iv_pcbs _ _ _ _ _ H p) Hp) as [b Eb]. exists b. eauto.
  - exists s'. split; [|done]. unfold proc_wakeup.
    rewrite (bind_step _ _ s m s) by (unfold reads; by rewrite (iv_running _ _ _ _ _ H)). exact E.
Qed.
