(* ===== verification/ProcDemo.v ===== *)
(** * A small machine with processes

    Concrete runs of the definitions of Proc.v on a memory with one region of
    4 MiB: the inputs at which the theorems of ProcFacts.v and ProcInv.v
    apply. *)
From S2P Require Import Prelude Mem PhysMem Vmm Sched SchedInv Files Proc ProcFacts ProcInv.

Definition is_ret {A} (o : outcome A) : bool := match o with Ret _ => true | _ => false end.
Definition ret_or {A} (d : A) (o : outcome A) : A := match o with Ret a => a | _ => d end.
Lemma ret_or_eq {A} (d : A) o : is_ret o = true -> o = Ret (ret_or d o).
Proof. by destruct o. Qed.
Lemma ret_or_pair {A B} (d : A * B) o : is_ret o = true -> o = Ret ((ret_or d o).1, (ret_or d o).2).
Proof. by destruct o as [[? ?]| | |]. Qed.

Definition demo_mm : pmem := MkPmem zeros 0 [MkRegion 4194304 8388608] 1 true 1073741824 8388608.
Definition demo_vm : vmm_globals := vmm_globals_boot (1073741824 + 65536).
Definition boot0 : pstate := pstate_boot demo_mm demo_vm.

(** Creating a process, and running one. *)
Definition allocated (s : pstate) : Z * pstate := ret_or (0, s) (proc_allocate 5 s).
Definition created (s : pstate) : pstate :=
  (ret_or (0, (allocated s).2) (proc_start (allocated s).1 (allocated s).2)).2.
Definition dispatched (s : pstate) : pstate := (ret_or (0, s) (proc_dispatch 9 100 s)).2.

Definition creates (s : pstate) : bool :=
  is_ret (proc_allocate 5 s) && is_ret (proc_start (allocated s).1 (allocated s).2) &&
  bool_decide (pcbs s !! (allocated s).1 = None).

#[export] Instance pcb_eq : EqDecision pcb.
Proof. solve_decision. Defined.

Lemma created_step s : creates s = true -> pstep s (created s).
Proof.
  unfold creates. rewrite !andb_true_iff, bool_decide_eq_true. intros [[H1 H2] H3].
  exact (step_create 5 s _ _ _ _ (ret_or_pair (0, s) _ H1) H3 (ret_or_pair (0, (allocated s).2) _ H2)).
Qed.

Lemma dispatched_step s : running_process s = 0 -> is_ret (proc_dispatch 9 100 s) = true -> pstep s (dispatched s).
Proof. intros H0 H. exact (step_dispatch 9 100 s _ _ H0 (ret_or_pair (0, s) _ H)). Qed.

Lemma one_runs s : creates s = true -> running_process (created s) = 0 ->
  is_ret (proc_dispatch 9 100 (created s)) = true -> rtc pstep s (dispatched (created s)).
Proof.
  intros H1 H2 H3. eapply rtc_l; [by apply created_step|]. apply rtc_once. by apply dispatched_step.
Qed.

Lemma waiting_deadlocks_witness :
  running_process (dispatched (created boot0)) <> 0 /\
  proc_wait 200 2 (dispatched (created boot0)) = Panic "deadlock" /\
  sys_sleep 200 1000 200 (dispatched (created boot0)) = Panic "deadlock".
Proof.
  assert (running_process (dispatched (created boot0)) <> 0) as H by (vm_compute; discriminate).
  assert (rtc pstep boot0 (dispatched (created boot0))) as HR by (apply one_runs; vm_compute; reflexivity).
  split; [exact H|]. destruct (waiting_deadlocks demo_mm demo_vm _ 200 HR H) as (W1 & W2 & _).
  split; [apply W1|apply W2].
Defined.

Definition pcb_of (s : pstate) (p : Z) : pcb := default (new_pcb s 0 0) (pcbs s !! p).

(** *** The table of two processes *)

Definition table_check (s : pstate) (L : list Z) : bool :=
  bool_decide (table s = tab L) && (length L <=? 63)%nat && bool_decide (NoDup L) && bool_decide (0 ∉ L) &&
  (process_count s =? zlen L) && (0 <=? process_min_index s) && (process_min_index s <=? zlen L) &&
  forallb (fun '(k, p) => match pcbs s !! p with Some b => proc_i b =? Z.of_nat k | None => false end)
    (imap pair L).

Lemma table_check_ok s L : table_check s L = true -> table_ok s L.
Proof.
  unfold table_check. rewrite !andb_true_iff, !bool_decide_eq_true, !Z.leb_le, Z.eqb_eq, Nat.leb_le, forallb_forall.
  intros [[[[[[[H1 H2] H3] H4] H5] H6] H7] H]. constructor; [done..|].
  intros k p Hk. specialize (H (k, p)). cbn in H.
  assert (In (k, p) (imap pair L)) as Hin.
  { apply list_elem_of_In, (list_elem_of_lookup_2 _ k). by rewrite list_lookup_imap, Hk. }
  specialize (H Hin). destruct (pcbs s !! p) as [b|]; [|done]. exists b. by apply Z.eqb_eq in H.
Qed.

(** Two processes, of which the first has an empty address space and a kernel
    stack and the second waits. *)
Definition pair_mm : pmem :=
  let '(pt, m) := kcalloc demo_mm in
  let '(_, m) := kalloc m in
  (ret_or (0, m) (vmm_allocate_proc_kernel_stack demo_vm 0 m)).2.
Definition pair_pt : Z := 1077936128.
Definition pair_a : Z := pair_pt + 4096.
Definition pair_b : Z := 1077936128 - 4096.
Definition pcb_a : pcb := MkPcb 1 0 0 pair_pt 0 0 0 (-1) false.
Definition pcb_b : pcb := MkPcb 2 1 1 0 0 0 0 (-1) false.
Definition pair_waiting (channel : Z) : pstate :=
  MkPs pair_mm demo_vm
    (MkS (<[pair_a := MkProc USED 0 zero_entity]> (<[pair_b := MkProc SLEEPING channel zero_entity]> ∅)) rq_empty
      (MkStats 0 0 0 0))
    (<[pair_a := pcb_a]> (<[pair_b := pcb_b]> ∅)) (tab [pair_a; pair_b]) 2 2 3 0 0 true.
Definition pair_state : pstate := pair_waiting 7.
Definition pair_freed : unit * pmem := ret_or (tt, pair_mm) (free_memory demo_vm pcb_a pair_a pair_mm).
Definition pair_third : Z * pmem := ret_or (0, pair_mm) (vmm_user_pagetable_new 30 demo_vm (kalloc pair_freed.2).2).

(** What the theorem asks of this machine. *)
Definition pair_check : bool :=
  table_check pair_state [pair_a; pair_b] && is_ret (free_memory demo_vm pcb_a pair_a pair_mm) &&
  (fst (kalloc pair_freed.2) =? pair_a) &&
  is_ret (vmm_user_pagetable_new 30 demo_vm (kalloc pair_freed.2).2) && negb (pair_third.1 =? 0).
Lemma pair_checked : pair_check = true.
Proof. vm_compute. reflexivity. Qed.

Lemma fst_pair {A B} (o : A * B) a : o.1 = a -> o = (a, o.2).
Proof. destruct o. by intros <-. Qed.
Lemma tt_pair {A} (o : outcome (unit * A)) d : is_ret o = true -> o = Ret (tt, (ret_or d o).2).
Proof. by destruct o as [[[] ?]| | |]. Qed.

Lemma kernel_stacks_shared_witness : exists s1 s2 b2 b', reclaim pair_a 0 pair_state = Ret (tt, s1) /\
  proc_allocate 30 s1 = Ret (pair_a, s2) /\ table_ok s2 [pair_b; pair_a] /\
  pcbs s2 !! pair_b = Some b2 /\ pcbs s2 !! pair_a = Some b' /\ orig_i b2 = orig_i b'.
Proof.
  pose proof pair_checked as H. unfold pair_check in H.
  apply andb_prop in H as [H H5]. apply andb_prop in H as [H H4]. apply andb_prop in H as [H H3].
  apply andb_prop in H as [H1 H2]. apply negb_true_iff, Z.eqb_neq in H5. apply Z.eqb_eq in H3.
  pose proof (tt_pair _ (tt, pair_mm) H2) as F2. pose proof (ret_or_pair (0, pair_mm) _ H4) as F4.
  pose proof (fst_pair _ _ H3) as Ek. apply table_check_ok in H1.
  assert (pcbs pair_state !! pair_a = Some pcb_a) as Ea by (vm_compute; reflexivity).
  assert (pcbs pair_state !! pair_b = Some pcb_b) as Eb by (vm_compute; reflexivity).
  assert (pair_a ∉ [pair_b]) as Hn by (rewrite list_elem_of_singleton; vm_compute; discriminate).
  assert (pair_a <> 0) as H0 by (vm_compute; discriminate).
  destruct (kernel_stacks_shared pair_state [] pair_a pcb_a [] pair_b pcb_b pair_freed.2 30 pair_a
    pair_third.1 (kalloc pair_freed.2).2 pair_third.2 H1 Ea F2 Eb eq_refl Ek H0 Hn F4 H5)
    as (s1 & s2 & b2 & b' & E1 & E2 & E3 & _ & E4 & E5 & _ & E6 & _).
  exists s1, s2, b2, b'. exact (conj E1 (conj E2 (conj E3 (conj E4 (conj E5 E6))))).
Defined.

Lemma process_table_correct_witness : exists s1 s2,
  proc_allocate 5 boot0 = Ret (pair_pt, s1) /\ table_ok s1 [pair_pt] /\
  reclaim pair_a 0 pair_state = Ret (tt, s2) /\ table_ok s2 [pair_b].
Proof.
  assert (table_ok boot0 []) as H0 by (apply table_check_ok; vm_compute; reflexivity).
  assert (is_ret (vmm_user_pagetable_new 5 demo_vm (kalloc demo_mm).2) = true) as H4 by (vm_compute; reflexivity).
  assert ((ret_or (0, demo_mm) (vmm_user_pagetable_new 5 demo_vm (kalloc demo_mm).2)).1 <> 0) as H5 by (vm_compute; discriminate).
  assert ((kalloc demo_mm).1 = pair_pt) as Ek by (vm_compute; reflexivity).
  assert (pair_pt <> 0) as Hp by (vm_compute; discriminate).
  assert (pair_pt ∉ []) as Hn by (intros Hin; by apply elem_of_nil in Hin).
  destruct (proj1 (process_table_correct boot0 [] H0) 5%nat pair_pt _ (kalloc demo_mm).2 _ (fst_pair _ _ Ek)
    Hp Hn (ret_or_pair (0, demo_mm) _ H4) H5) as (s1 & E1 & E2 & _).
  pose proof pair_checked as H. unfold pair_check in H.
  apply andb_prop in H as [H _]. apply andb_prop in H as [H _]. apply andb_prop in H as [H _].
  apply andb_prop in H as [H1 H2]. apply table_check_ok in H1.
  assert (pcbs pair_state !! pair_a = Some pcb_a) as Ea by (vm_compute; reflexivity).
  destruct (proj2 (process_table_correct pair_state _ H1) [] pair_a [pair_b] pcb_a pair_freed.2 eq_refl Ea
    (tt_pair _ (tt, pair_mm) H2)) as (s2 & E3 & E4 & _).
  exists s1, s2. exact (conj E1 (conj E2 (conj E3 E4))).
Defined.

(** *** Waking *)

Lemma pair_waiting_ready ch : proc_inv [pair_a; pair_b] 0 0 0 (pair_waiting ch) /\ sched_ok (ss (pair_waiting ch)) /\
  forall p b, pcbs (pair_waiting ch) !! p = Some b -> p <> 0 -> locked b = false.
Proof.
  assert (table_ok (pair_waiting ch) [pair_a; pair_b]) as H1 by (apply table_check_ok; vm_compute; reflexivity).
  assert (pair_a <> pair_b) as Hab by (vm_compute; discriminate).
  assert (forall {A} (x y : A) p, is_Some ((<[pair_a := x]> (<[pair_b := y]> ∅) : gmap Z A) !! p) <-> p ∈ [pair_a; pair_b]) as HD.
  { intros A x y p. rewrite !lookup_insert_is_Some', lookup_empty, !elem_of_cons.
    split; [intros [?|[?|[? ?]]]; naive_solver|intros [?|[?|?%elem_of_nil]]; naive_solver]. }
  assert (forall p x, procs (ss (pair_waiting ch)) !! p = Some x -> proc_ok [] p x /\ p_state x <> EXITED) as HP.
  { intros p x. cbn [pair_waiting ss procs]. rewrite !lookup_insert_Some, lookup_empty.
    assert (pair_a <> 0) by (vm_compute; discriminate). assert (pair_b <> 0) by (vm_compute; discriminate).
    intros [[<- <-]|[_ [[<- <-]|[_ ?]]]]; [| |done]; (split; [|done]); constructor; try done; by intros ?%elem_of_nil. }
  split; [|split].
  - constructor; [exact H1| |intros p; apply HD|reflexivity|reflexivity|done].
    split; [intros p; apply HD|]. intros p x Hx HE. by destruct (HP p x Hx).
  - apply sched_ok_idle. intros p x Hx. by apply HP.
  - intros p b. cbn [pair_waiting pcbs]. rewrite !lookup_insert_Some, lookup_empty. by intros [[_ <-]|[_ [[_ <-]|[_ ?]]]].
Qed.

Lemma proc_wakeup_correct_witness : exists s', proc_wakeup 7 false pair_state = Ret (tt, s') /\
  exists x', procs (ss s') !! pair_b = Some x' /\ p_state x' = RUNNABLE.
Proof.
  destruct (pair_waiting_ready 7) as (HI & HS & HL).
  destruct (proc_wakeup_correct [pair_a; pair_b] 0 0 pair_state 7 false HI HS eq_refl HL) as (s' & E & _ & _ & _ & HW).
  exists s'. split; [exact E|].
  destruct (HW pair_b (MkProc SLEEPING 7 zero_entity) ltac:(vm_compute; reflexivity)) as (x' & Ex & Es & _).
  exists x'. split; [exact Ex|]. rewrite Es. vm_compute. reflexivity.
Defined.

(** *** Giving memory back *)

(** A heap of two pages at 8 MiB, of which 4 KiB are given back. *)
Definition heap_state : pstate :=
  let s := set_running (created boot0) pair_pt 0 in
  let s := set_pcbs s (<[pair_pt := pcb_heap (pcb_of s pair_pt) 8388608 8388608]> (pcbs s)) in
  (ret_or (0, s) (proc_sbrk 8192 s)).2.
Definition heap_pcb : pcb := MkPcb 1 0 0 (pair_pt + 4096) 8388608 8396800 18446620928407261184 (-1) false.

Lemma proc_sbrk_shrink_witness : exists s', proc_sbrk (-4096) heap_state = Ret (8396800, s') /\
  pcbs s' !! pair_pt = Some (pcb_heap heap_pcb 8388608 8388608).
Proof.
  assert (pcbs heap_state !! running_process heap_state = Some heap_pcb) as Eb by (vm_compute; reflexivity).
  assert (running_process heap_state = pair_pt) as Er by (vm_compute; reflexivity).
  assert (is_ret (vmm_user_sbrk_deallocate (pair_pt + 4096) 8396800 8192 (mm heap_state)) = true) as Ed by (vm_compute; reflexivity).
  pose proof (proc_sbrk_shrink heap_state heap_pcb 4096 Eb) as H.
  change (pagetable heap_pcb) with (pair_pt + 4096) in H. change (current_sbrk heap_pcb) with 8396800 in H.
  change (initial_data_segment heap_pcb) with 8388608 in H. specialize (H ltac:(lia) ltac:(lia) ltac:(lia)). cbv zeta in H.
  change (if (4096 <=? 8396800 - 8388608) || (8396800 <? 4096) then 8396800 - 8388608 else 4096) with 8192 in H.
  rewrite (ret_or_pair (0, mm heap_state) _ Ed) in H. destruct H as (-> & _ & E).
  eexists. split; [exact E|]. cbn [pcbs set_pcbs]. rewrite Er. apply lookup_insert_eq.
Defined.
