(* ===== verification/UserPages.v ===== *)
(** * Pages of an address space

    The frames behind user pages, as a map from page numbers to the kernel
    addresses of the frames, and what [vmm_allocate], a write to a frame,
    [vmm_memcpy] and [vmm_zero] (Vmm.v) do to it. *)
From S2P Require Import Prelude Mem PhysMem Vmm.

(** ** Owned pages *)

(** Page number to the frame's kernel address and its permissions. *)
Notation pages := (gmap Z (Z * pte_permissions)).

Record owns (s : pmem) (l : list Z) (root : Z) (T : gmap (nat * Z) Z) (P : pages) : Prop := {
  ow_wf : pt_wf s l root T;
  ow_page v p perm : P !! v = Some (p, perm) ->
    user_va (4096 * v) /\ is_page p /\ is_frame (p - hhdm_offset s) /\ p ∉ avail s l /\
    (forall x, T !! x <> Some p) /\ leaf_entry s T (4096 * v) = Some (build_pte (V2P s p) perm);
  ow_inj v v' p perm perm' : P !! v = Some (p, perm) -> P !! v' = Some (p, perm') -> v = v'
}.

(** Memory that is neither a table of [T'] nor free in [s]. *)
Definition used (s : pmem) (l : list Z) (T' : gmap (nat * Z) Z) (x : Z) : Prop :=
  (forall k t, T' !! k = Some t -> ~ in_page t x) /\ (forall p, p ∈ avail s l -> ~ in_page p x).

Lemma avail_is_page s l q : pmem_wf s l -> q ∈ avail s l -> is_page q.
Proof.
  intros [_ HF HR _ _] [Hq|Hq]%elem_of_app; [by rewrite Forall_forall in HF; apply HF|].
  unfold regions_pages in Hq. rewrite list_elem_of_In, in_concat in Hq.
  destruct Hq as (L & (r & <- & Hr)%in_map_iff & Hq).
  rewrite Forall_forall in HR. specialize (HR r ltac:(by apply list_elem_of_In)).
  pose proof (region_pages_is_page _ _ HR) as HP. rewrite Forall_forall in HP. by apply HP, list_elem_of_In.
Qed.

(** ** Steps that leave the tables alone *)

Section steps.
Context (s : pmem) (l : list Z) (root : Z) (T : gmap (nat * Z) Z).

Lemma pt_wf_untouched s1 l1 : pt_wf s l root T -> pmem_wf s1 l1 -> hhdm_offset s1 = hhdm_offset s ->
  Forall (fun p => is_frame (p - hhdm_offset s)) (avail s1 l1) ->
  (forall k t, T !! k = Some t -> t ∉ avail s1 l1) ->
  (forall k t x, T !! k = Some t -> in_page t x -> ram s1 x = ram s x) ->
  pt_wf s1 l1 root T /\ forall va, leaf_entry s1 T va = leaf_entry s T va.
Proof.
  intros [H1 H2 H3 H4 H5 H6] Hm Ho Hf Ha Hr.
  assert (forall k t i, T !! k = Some t -> 0 <= i < 512 -> entry s1 t i = entry s t i) as He.
  { intros k t i Ht Hi. apply entry_ext; [|done]. intros x. by apply (Hr k). }
  split.
  - constructor; try done.
    + by rewrite Ho.
    + intros k p t Ht. destruct (H4 k p t Ht) as (? & ? & _ & ?). split; [done|]. split; [done|].
      split; [by apply (Ha (k, p))|done].
    + intros k p i t Ht Hi Hb. rewrite (He (S k, p)) by done. unfold P2V. rewrite Ho. by apply H6.
  - intros va. unfold leaf_entry. destruct (T !! (0%nat, vpn 1 va)) as [t|] eqn:E; [|done]. cbn [mbind option_bind].
    by rewrite (He (0%nat, vpn 1 va) t (PTE_INDEX_FROM_VA va 0) E (index_range 0 va)).
Qed.

Lemma used_owned P v p perm x : owns s l root T P -> P !! v = Some (p, perm) -> in_page p x -> used s l T x.
Proof.
  intros Ho Hp Hx. destruct (ow_page _ _ _ _ _ Ho v p perm Hp) as (_ & Hpg & _ & Ha & Ht & _).
  pose proof (ow_wf _ _ _ _ _ Ho) as Hwf. split.
  - intros [k q] t Hk Hx'. destruct (pt_page _ _ _ _ Hwf k q t Hk) as (_ & Htp & _).
    apply (Ht (k, q)). by rewrite (in_page_disjoint p t x).
  - intros q Hq Hx'. apply Ha. pose proof (avail_is_page s l q (pt_mem _ _ _ _ Hwf) Hq).
    by rewrite (in_page_disjoint p q x).
Qed.
End steps.


Lemma kcalloc_consts s : hhdm_offset (kcalloc s).2 = hhdm_offset s.
Proof.
  unfold kcalloc, pop_free_page, alloc_from_regions_for_page_cache.
  repeat (match goal with
          | |- context [if ?b then _ else _] => destruct b
          | |- context [match carve_page ?r with _ => _ end] => destruct (carve_page r) as [[? ?]|]
          end; try done).
Qed.

Lemma leaf_entry_page s T va : leaf_entry s T (4096 * (va / 4096)) = leaf_entry s T va.
Proof.
  assert (4096 * (va / 4096) / 4096 = va / 4096) as E by (rewrite Z.mul_comm, Z.div_mul; lia).
  assert (vpn 1 (4096 * (va / 4096)) = vpn 1 va) as EV by (by rewrite !vpn_S, !vpn0_page, E).
  unfold leaf_entry. rewrite EV. by rewrite (proj2 (same_leaf _ _ EV) E).
Qed.

(** Going on to a state with more tables and fewer free pages. *)
Lemma owns_step s l root T P s' l' T' u : owns s l root T P -> pt_wf s' l' root T' ->
  hhdm_offset s' = hhdm_offset s -> new_tables s l T s' l' T' u ->
  (forall va, va / 4096 ∈ dom P -> leaf_entry s' T' va = leaf_entry s T va) -> owns s' l' root T' P.
Proof.
  intros Ho Hwf Hh [Ha Ht] Hl. constructor; [done| |apply Ho].
  intros v p perm Hp. destruct (ow_page _ _ _ _ _ Ho v p perm Hp) as (H1 & H2 & H3 & H4 & H5 & H6).
  assert (p ∉ u /\ p ∉ avail s' l') as [Hu Hv] by (rewrite Ha, elem_of_app in H4; tauto).
  split; [done|]. split; [done|]. split; [by rewrite Hh|]. split; [done|]. split.
  - intros x Hx. apply Ht in Hx as [Hx|Hx]; [by apply (H5 x)|done].
  - rewrite Hl; [by unfold V2P in *; rewrite Hh|]. rewrite Z.mul_comm, Z.div_mul by lia. apply elem_of_dom. by eexists.
Qed.

(** Writing into an owned page. *)
Lemma owns_write s l root T P v p perm m : owns s l root T P -> P !! v = Some (p, perm) ->
  (forall x, ~ in_page p x -> m x = ram s x) ->
  owns (set_ram s m) l root T P /\ forall va, leaf_entry (set_ram s m) T va = leaf_entry s T va.
Proof.
  intros Ho Hp Hm. pose proof (ow_wf _ _ _ _ _ Ho) as Hwf.
  destruct (ow_page _ _ _ _ _ Ho v p perm Hp) as (_ & Hpg & _ & Ha & Ht & _).
  destruct (pt_wf_untouched s l root T (set_ram s m) l Hwf) as [Hwf' Hl].
  - apply (pmem_wf_page_write _ _ p); [apply Hwf|apply Hpg| |done].
    intros Hin. apply Ha. apply elem_of_app. by left.
  - done.
  - apply Hwf.
  - intros [k q] t Hk. apply (pt_page _ _ _ _ Hwf k q t Hk).
  - intros [k q] t x Hk Hx. cbn. apply Hm. intros Hx'.
    destruct (pt_page _ _ _ _ Hwf k q t Hk) as (_ & Htp & _).
    apply (Ht (k, q)). by rewrite (in_page_disjoint p t x).
  - split; [|done]. apply (owns_step s l root T P _ l T [] Ho Hwf' eq_refl); [|done].
    split; [done|by left].
Qed.

(** *** One page *)

Lemma allocate_frame s l root T P clear : owns s l root T P ->
  let '(p, s1) := (if clear : bool then kcalloc else kalloc) s in
  hhdm_offset s1 = hhdm_offset s /\
  ((p = 0 /\ s1 = s /\ avail s l = []) \/
   exists l1, p <> 0 /\ is_page p /\ is_frame (p - hhdm_offset s) /\ owns s1 l1 root T P /\
     avail s l ≡ₚ p :: avail s1 l1 /\ p ∉ avail s1 l1 /\ (forall k, T !! k <> Some p) /\
     (forall va, leaf_entry s1 T va = leaf_entry s T va) /\
     (forall x, ~ in_page p x -> ram s1 x = ram s x) /\
     (clear = true -> forall x, in_page p x -> ram s1 x = 0)).
Proof.
  intros Ho. pose proof (ow_wf _ _ _ _ _ Ho) as Hwf. pose proof (pt_mem _ _ _ _ Hwf) as Hm.
  assert (hhdm_offset ((if clear then kcalloc else kalloc) s).2 = hhdm_offset s) as Hh
    by (destruct clear; [apply kcalloc_consts|apply kalloc_consts]).
  pose proof (kalloc_spec s l Hm) as HK. pose proof (kcalloc_correct s l Hm) as HC.
  assert (let '(p, s1) := (if clear then kcalloc else kalloc) s in alloc_page_post s l p s1 /\
    (clear = true -> p <> 0 -> forall x, p <= x < p + 4096 -> ram s1 x = 0)) as H.
  { destruct clear; [destruct (kcalloc s)|destruct (kalloc s)].
    - split; [apply HC|]. intros _ H0. by apply HC.
    - split; [apply HK|done]. }
  destruct ((if clear then kcalloc else kalloc) s) as [p s1]. cbn in Hh. split; [done|].
  destruct H as [[(-> & -> & HA)|(Hp & l1 & Hwf1 & HA & HM)] HZ]; [by left|]. right. exists l1.
  destruct (avail_head_fresh _ _ _ _ _ Hm HA) as [_ Hfresh].
  assert (p ∈ avail s l) as Hin by (rewrite HA; by left).
  assert (forall k, T !! k <> Some p) as Ht.
  { intros [k q] Hk. destruct (pt_page _ _ _ _ Hwf k q p Hk) as (_ & _ & Hn & _). done. }
  pose proof (pt_frames _ _ _ _ Hwf) as HF. rewrite HA in HF. apply Forall_cons in HF as [Hpf HF].
  assert (p <> 0) as Hp0 by (destruct Hp; lia).
  destruct (pt_wf_untouched s l root T s1 l1 Hwf Hwf1 Hh HF) as [Hwf' Hl].
  - intros [k q] t Hk Hin'. destruct (pt_page _ _ _ _ Hwf k q t Hk) as (_ & _ & Hn & _).
    apply Hn. rewrite HA. by right.
  - intros [k q] t x Hk Hx. apply HM. destruct (pt_page _ _ _ _ Hwf k q t Hk) as (_ & Htp & _).
    assert (~ in_page p x); [|unfold in_page in *; lia]. intros Hx'. apply (Ht (k, q)).
    by rewrite (in_page_disjoint p t x).
  - split; [done|]. split; [done|]. split; [done|]. split.
    { apply (owns_step s l root T P s1 l1 T [p] Ho Hwf' Hh); [|done]. split; [done|by left]. }
    split; [done|]. split; [done|]. split; [done|]. split; [done|]. split.
    { intros x Hx. apply HM. unfold in_page in Hx. lia. }
    intros Hc x Hx. by apply HZ.
Qed.

(** What a step of the loader may do: take free pages, for tables and for the
    pages it maps, and change nothing else. *)
Definition extends (s : pmem) (l : list Z) (T : gmap (nat * Z) Z) (s' : pmem) (l' : list Z) (T' : gmap (nat * Z) Z)
    : Prop :=
  hhdm_offset s' = hhdm_offset s /\ T ⊆ T' /\ (forall p, p ∈ avail s' l' -> p ∈ avail s l) /\
  (forall k t, T' !! k = Some t -> T !! k = Some t \/ t ∈ avail s l) /\
  forall x, used s l T' x -> ram s' x = ram s x.

Lemma extends_refl s l T : extends s l T s l T.
Proof. split; [done|]. split; [done|]. split; [done|]. split; [by left|done]. Qed.

Lemma extends_trans s l T s1 l1 T1 s2 l2 T2 : extends s l T s1 l1 T1 -> extends s1 l1 T1 s2 l2 T2 ->
  extends s l T s2 l2 T2.
Proof.
  intros (H1 & H2 & H3 & H4 & H5) (H6 & H7 & H8 & H9 & H10). split; [congruence|]. split; [by etrans|].
  split; [eauto|]. split.
  - intros k t [Hk|Hk]%H9; [by apply H4|right; eauto].
  - intros x [Ht Ha]. rewrite H10, H5; [done| |].
    + split; [|done]. intros k t Hk. apply (Ht k). by eapply lookup_weaken.
    + split; [done|]. intros p Hp. by apply Ha, H3.
Qed.

Lemma extends_used s l T s' l' T' x : extends s l T s' l' T' -> used s l T' x -> used s' l' T' x.
Proof. intros (_ & _ & H & _) [Ht Ha]. split; [done|]. intros p Hp. by apply Ha, H. Qed.

Section one_page.
Context (s : pmem) (l : list Z) (root : Z) (T : gmap (nat * Z) Z) (P : pages) (va : Z) (perm : pte_permissions).
Context (Ho : owns s l root T P) (Hva : user_va va) (Hal : va mod 4096 = 0) (Hun : leaf_entry s T va = None).

Lemma unmapped_not_owned : va / 4096 ∉ dom P.
Proof.
  rewrite elem_of_dom. intros [[p pm] Hp]. destruct (ow_page _ _ _ _ _ Ho _ _ _ Hp) as (_ & _ & _ & _ & _ & HL).
  rewrite leaf_entry_page in HL. congruence.
Qed.

(** The frame [p] is given back when there is no page for a table. *)
Lemma give_back p s1 l1 s2 l2 T2 : avail s l ≡ₚ p :: avail s1 l1 -> is_page p -> is_frame (p - hhdm_offset s) ->
  hhdm_offset s1 = hhdm_offset s -> owns s1 l1 root T P -> p ∉ avail s1 l1 -> (forall k, T !! k <> Some p) ->
  (forall x, ~ in_page p x -> ram s1 x = ram s x) ->
  grows root s1 l1 T s2 l2 T2 -> avail s2 l2 = [] -> (forall v, leaf_entry s2 T2 v = leaf_entry s1 T v) ->
  exists s3, kfree p s2 = Ret s3 /\ owns s3 (p :: l2) root T2 P /\ extends s l T s3 (p :: l2) T2 /\
    avail s3 (p :: l2) = [p] /\ (forall v, leaf_entry s3 T2 v = leaf_entry s1 T v).
Proof.
  intros HA Hp Hf Hh Ho1 Hfresh Ht HM (Hwf2 & HT & [Hh2 HO] & u & Hu) He HL.
  assert (forall k, T2 !! k <> Some p) as Ht2.
  { intros k Hk. apply Hu in Hk as [Hk|Hk]; [by apply (Ht k)|]. apply Hfresh.
    rewrite (proj1 Hu), elem_of_app. by left. }
  destruct (kfree_correct s2 l2 p (pt_mem _ _ _ _ Hwf2) Hp ltac:(rewrite He; apply not_elem_of_nil))
    as (s3 & E & Hm3 & Ha3 & _ & HR3 & _ & Hh3).
  rewrite He in Ha3. exists s3. split; [done|].
  destruct (pt_wf_untouched s2 l2 root T2 s3 (p :: l2) Hwf2 Hm3 Hh3) as [Hwf3 HL3].
  - rewrite Ha3, Hh2, Hh. by apply Forall_singleton.
  - intros k t Hk. rewrite Ha3, list_elem_of_singleton. intros ->. by apply (Ht2 k).
  - intros [k q] t x Hk Hx. apply HR3. destruct (pt_page _ _ _ _ Hwf2 k q t Hk) as (_ & Htp & _).
    assert (~ in_page p x); [|unfold in_page in *; lia]. intros Hx'. apply (Ht2 (k, q)).
    by rewrite (in_page_disjoint p t x).
  - split; [|split; [|split; [done|intros v; by rewrite HL3, HL]]].
    + apply (owns_step s l root T P s3 (p :: l2) T2 u Ho Hwf3); [congruence| |].
      * split; [|apply Hu]. rewrite HA, Ha3, (proj1 Hu), He, app_nil_r. by rewrite Permutation_app_comm.
      * intros v Hv. rewrite HL3, HL. apply elem_of_dom in Hv as [[q pm] Hq].
        pose proof (ow_page _ _ _ _ _ Ho _ _ _ Hq) as (_ & _ & _ & _ & _ & E1).
        pose proof (ow_page _ _ _ _ _ Ho1 _ _ _ Hq) as (_ & _ & _ & _ & _ & E2).
        rewrite leaf_entry_page in E1, E2. rewrite E1, E2. unfold V2P. by rewrite Hh.
    + split; [congruence|]. split; [done|]. split.
      { intros q. rewrite Ha3, list_elem_of_singleton. intros ->. rewrite HA. by left. }
      split.
      { intros k t Hk. apply Hu in Hk as [Hk|Hk]; [by left|right]. rewrite HA. right.
        rewrite (proj1 Hu), elem_of_app. by left. }
      intros x [Hx1 Hx2]. assert (~ in_page p x) as Hx by (apply Hx2; rewrite HA; by left).
      rewrite HR3 by (unfold in_page in Hx; lia). rewrite HO by done. by apply HM.
Qed.

Lemma allocate_one_page_spec clear :
  exists r s' l' T', allocate_one_page root va perm clear s = Ret (r, s') /\ extends s l T s' l' T' /\
    ((r = Some (-1) /\ owns s' l' root T' P /\ (length (avail s' l') <= 1)%nat /\
      (forall va', leaf_entry s' T' va' = leaf_entry s T va')) \/
     (r = None /\ exists p, p ∈ avail s l /\ owns s' l' root T' (<[va / 4096 := (p, perm)]> P) /\
      (forall va', leaf_entry s' T' va' =
         if va' / 4096 =? va / 4096 then Some (build_pte (V2P s p) perm) else leaf_entry s T va') /\
      (clear = true -> forall x, in_page p x -> ram s' x = 0))).
Proof.
  pose proof (allocate_frame s l root T P clear Ho) as HF. unfold allocate_one_page, updates.
  unfold mbind at 1, st_bind at 1.
  destruct ((if clear then kcalloc else kalloc) s) as [p s1]. destruct HF as [Hh HF].
  destruct HF as [(-> & -> & HA)|(l1 & Hp0 & Hp & Hf & Ho1 & HA & Hfresh & Ht & HL1 & HM & HZ)].
  { change (0 =? 0) with true. cbv iota. exists (Some (-1)), s, l, T. split; [done|]. split; [apply extends_refl|].
    left. split; [done|]. split; [done|]. split; [rewrite HA; cbn; lia|done]. }
  destruct (Z.eqb_spec p 0); [done|].
  destruct (walk_alloc_user s1 l1 root T va (ow_wf _ _ _ _ _ Ho1) Hva) as (q & s2 & l2 & T2 & HW & HG & HL & HR).
  rewrite (bind_step _ _ s1 q s2 HW). destruct HR as [[-> He]|(t0 & Ht0 & -> & Hq)].
  - change (0 =? 0) with true. cbv iota.
    destruct (give_back p s1 l1 s2 l2 T2 HA Hp Hf Hh Ho1 Hfresh Ht HM HG He HL) as (s3 & E & Ho3 & Hx & Ha3 & HL3).
    exists (Some (-1)), s3, (p :: l2), T2. unfold effect. rewrite (bind_step _ _ s2 tt s3) by (by rewrite E).
    split; [done|]. split; [done|]. left. split; [done|]. split; [done|]. split; [by rewrite Ha3|].
    intros va'. by rewrite HL3, HL1.
  - apply Z.eqb_neq in Hq. rewrite Hq. unfold read_pte, reads.
    rewrite (bind_step _ _ s2 _ s2 eq_refl).
    pose proof (HL va) as HLv. rewrite HL1, Hun, (leaf_entry_eq _ _ _ _ Ht0) in HLv. cbv zeta in HLv.
    destruct (pte_is_present (load64 _ _)); [done|]. rewrite (bind_step _ _ s2 _ s2 eq_refl).
    destruct HG as (Hwf2 & HT & [Hh2 HO] & u & Hu).
    destruct (P2V_V2P s p Hf ltac:(destruct Hp; lia)) as [HV _].
    assert (V2P s2 p = V2P s p) as HV2 by (unfold V2P; by rewrite Hh2, Hh). rewrite HV2.
    pose proof (build_pte_range (V2P s p) perm ltac:(by rewrite HV)) as Hb.
    destruct (write_leaf s2 l2 root T2 va t0 _ Hwf2 Ht0 Hb) as (Hwf3 & [Hh3 HO3] & HW3).
    set (s3 := set_ram s2 _) in *. rewrite (bind_step (write_pte _ _) _ s2 tt s3 eq_refl).
    assert (pte_is_present (build_pte (V2P s p) perm) = true) as Hpr
      by (by apply (build_pte_roundtrip (V2P s p) perm ltac:(by rewrite HV))).
    rewrite Hpr in HW3.
    assert (forall k, T2 !! k <> Some p) as Ht2.
    { intros k Hk. apply Hu in Hk as [Hk|Hk]; [by apply (Ht k)|]. apply Hfresh.
      rewrite (proj1 Hu), elem_of_app. by left. }
    assert (forall va', leaf_entry s3 T2 va' =
      if va' / 4096 =? va / 4096 then Some (build_pte (V2P s p) perm) else leaf_entry s T va') as HL3.
    { intros va'. rewrite HW3, HL, HL1. done. }
    exists None, s3, l2, T2. split; [done|]. split.
    { split; [congruence|]. split; [done|]. split.
      { intros q Hin. rewrite HA. right. rewrite (proj1 Hu), elem_of_app. by right. }
      split.
      { intros k t Hk. apply Hu in Hk as [Hk|Hk]; [by left|right]. rewrite HA. right.
        rewrite (proj1 Hu), elem_of_app. by left. }
      intros x [Hx1 Hx2]. rewrite HO3, HO, HM; [done|apply Hx2; rewrite HA; by left|done|done]. }
    right. split; [done|]. exists p. split; [rewrite HA; by left|]. split; [|split; [done|]].
    + assert (owns s3 l2 root T2 P) as Ho3.
      { apply (owns_step s l root T P s3 l2 T2 (p :: u) Ho Hwf3); [congruence| |].
        - split; [by rewrite HA, (proj1 Hu)|]. intros k t Hk. apply Hu in Hk as [Hk|Hk]; [by left|right; by right].
        - intros v Hv. rewrite HL3. destruct (Z.eqb_spec (v / 4096) (va / 4096)) as [E|]; [|done].
          rewrite E in Hv. by apply unmapped_not_owned in Hv. }
      assert (p ∉ avail s2 l2) as Hn2 by (intros Hin; apply Hfresh; rewrite (proj1 Hu), elem_of_app; by right).
      assert (4096 * (va / 4096) = va) as Eva by zify_div.
      constructor; [done| |].
      * intros v q pm [[<- [= <- <-]]|[Hv Hvq]]%lookup_insert_Some.
        -- rewrite Eva. split; [done|]. split; [done|]. split; [unfold s3; cbn; by rewrite Hh2, Hh|].
           split; [exact Hn2|]. split; [done|]. rewrite HL3, Z.eqb_refl. unfold V2P, s3. cbn. by rewrite Hh2, Hh.
        -- by apply (ow_page _ _ _ _ _ Ho3).
      * assert (forall v pm, P !! v <> Some (p, pm)) as Hnew.
        { intros v pm Hv. pose proof (ow_page _ _ _ _ _ Ho _ _ _ Hv) as (_ & _ & _ & Hn & _).
          apply Hn. rewrite HA. by left. }
        intros v v' q pm pm' [[<- [= <- <-]]|[_ Hv]]%lookup_insert_Some [[<- [= ?]]|[_ Hv']]%lookup_insert_Some; try done.
        -- by apply Hnew in Hv'.
        -- subst. by apply Hnew in Hv.
        -- by eapply (ow_inj _ _ _ _ _ Ho).
    + intros Hc x Hx. rewrite HO3, HO, HZ; try done.
      * intros [k r] t Hk Hx'. destruct (pt_page _ _ _ _ Hwf2 k r t Hk) as (_ & Htp & _).
        apply (Ht2 (k, r)). by rewrite (in_page_disjoint p t x).
      * intros [k r] t Hk Hx'. destruct (pt_page _ _ _ _ Hwf2 k r t Hk) as (_ & Htp & _).
        apply (Ht2 (k, r)). by rewrite (in_page_disjoint p t x).
Qed.
End one_page.

(** *** A range *)

Definition zero_page (s : pmem) (p : Z) : Prop := forall x, in_page p x -> ram s x = 0.

(** [P'] has, beyond [P], pages of permissions [perm] for the numbers from
    [lo] up to [hi], taken from the free pages of [s]. *)
Record more_pages (s : pmem) (l : list Z) (T : gmap (nat * Z) Z) (P : pages) (lo hi : Z) (perm : pte_permissions)
    (clear : bool) (s' : pmem) (T' : gmap (nat * Z) Z) (P' : pages) : Prop := {
  mp_old : P ⊆ P';
  mp_dom v : v ∈ dom P' <-> v ∈ dom P \/ lo <= v < hi;
  mp_new v p pm : P' !! v = Some (p, pm) ->
    P !! v = Some (p, pm) \/ (pm = perm /\ p ∈ avail s l /\ (clear = true -> zero_page s' p));
  mp_leaf va : va / 4096 ∉ dom P' -> leaf_entry s' T' va = leaf_entry s T va
}.

Lemma more_pages_none s l T P lo perm clear : more_pages s l T P lo lo perm clear s T P.
Proof. constructor; [done| |by left|done]. intros v. split; [by left|intros [?|?]; [done|lia]]. Qed.

Lemma more_pages_one s l root T P v p perm clear s1 T1 : owns s l root T P -> v ∉ dom P -> p ∈ avail s l ->
  (forall va, leaf_entry s1 T1 va =
     if va / 4096 =? v then Some (build_pte (V2P s p) perm) else leaf_entry s T va) ->
  (clear = true -> forall x, in_page p x -> ram s1 x = 0) ->
  more_pages s l T P v (v + 1) perm clear s1 T1 (<[v := (p, perm)]> P).
Proof.
  intros Ho Hv Hp HL HZ. constructor.
  - apply insert_subseteq. by apply not_elem_of_dom.
  - intros w. rewrite dom_insert, elem_of_union, elem_of_singleton. split; [intros [->|?]; [right; lia|by left]|].
    intros [?|?]; [by right|left; lia].
  - intros w q pm [[<- [= <- <-]]|[_ Hw]]%lookup_insert_Some; [right|by left]. done.
  - intros va Hva. rewrite HL. destruct (Z.eqb_spec (va / 4096) v) as [E|]; [|done].
    destruct Hva. rewrite E. apply elem_of_dom. rewrite lookup_insert_eq. by eexists.
Qed.

Lemma more_pages_trans s l root T P lo mid hi perm clear s1 l1 T1 P1 s2 l2 T2 P2 :
  owns s1 l1 root T1 P1 -> extends s l T s1 l1 T1 -> extends s1 l1 T1 s2 l2 T2 -> owns s2 l2 root T2 P2 ->
  lo <= mid <= hi ->
  more_pages s l T P lo mid perm clear s1 T1 P1 -> more_pages s1 l1 T1 P1 mid hi perm clear s2 T2 P2 ->
  more_pages s l T P lo hi perm clear s2 T2 P2.
Proof.
  intros Ho1 HE1 HE2 Ho2 Hle [A1 A2 A3 A4] [B1 B2 B3 B4]. constructor.
  - by etrans.
  - intros v. rewrite B2, A2. split; [intros [[?|?]|?]; [by left|right; lia..]|].
    intros [?|?]; [by left; left|]. destruct (decide (v < mid)); [left; right; lia|right; lia].
  - intros v p pm [Hv|(-> & Hp & HZ)]%B3.
    + pose proof Hv as [Hv'|(-> & Hp & HZ)]%A3; [by left|right]. split; [done|]. split; [done|].
      intros Hc x Hx. destruct HE2 as (_ & HT & _ & Hnew & HU). rewrite HU; [by apply HZ|].
      destruct (used_owned s1 l1 root T1 P1 v p perm x Ho1 Hv Hx) as [U1 U2]. split; [|done].
      intros k t [Hk|Hk]%Hnew; [by apply (U1 k)|by apply U2].
    + right. split; [done|]. split; [by apply HE1|done].
  - intros va Hva. rewrite B4 by done. apply A4. intros Hin. apply Hva, B2. by left.
Qed.

Lemma page_step va i : va mod 4096 = 0 -> (va + 4096 * i) mod 4096 = 0 /\ (va + 4096 * i) / 4096 = va / 4096 + i.
Proof. intros. split; zify_div. Qed.

Lemma allocate_loop root va perm clear n : va mod 4096 = 0 -> USERSPACE_VA_MIN <= va ->
  va + 4096 * n <= USERSPACE_VA_MAX -> forall k s l T P, owns s l root T P -> 0 <= k <= n ->
  (forall i, k <= i < n -> leaf_entry s T (va + 4096 * i) = None) ->
  exists r s' l' T' P' j,
    st_for (fun i => allocate_one_page root (wrap 64 (va + i * PAGE_SIZE)) perm clear) (seqZ k (n - k)) s = Ret (r, s') /\
    extends s l T s' l' T' /\ owns s' l' root T' P' /\ k <= j <= n /\
    ((r = None /\ j = n) \/ (r = Some (-1) /\ j < n /\ (length (avail s' l') <= 1)%nat)) /\
    more_pages s l T P (va / 4096 + k) (va / 4096 + j) perm clear s' T' P'.
Proof.
  intros Ha Hlo Hhi k. remember (Z.to_nat (n - k)) as m eqn:Em. revert k Em.
  induction m as [|m IH]; intros k Em s l T P Ho Hk Hun.
  - rewrite seqZ_nil by lia. exists None, s, l, T, P, k. split; [done|]. split; [apply extends_refl|].
    split; [done|]. split; [lia|]. split; [left; split; [done|lia]|apply more_pages_none].
  - replace (n - k) with (n - (k + 1) + 1) by lia. rewrite seqZ_S, st_for_cons by lia.
    assert (wrap 64 (va + k * PAGE_SIZE) = va + 4096 * k) as ->.
    { unfold PAGE_SIZE, USERSPACE_VA_MIN, USERSPACE_VA_MAX in *. rewrite wrap_small by lia. lia. }
    assert (user_va (va + 4096 * k)) as Hu by (unfold user_va; lia).
    destruct (page_step va k Ha) as [Hm Hd].
    destruct (allocate_one_page_spec s l root T P _ perm Ho Hu Hm (Hun k ltac:(lia)) clear)
      as (r & s1 & l1 & T1 & -> & HE & [(-> & Ho1 & Hav & HL)|(-> & p & Hp & Ho1 & HL & HZ)]).
    + exists (Some (-1)), s1, l1, T1, P, k. split; [done|]. split; [done|]. split; [done|]. split; [lia|].
      split; [right; split; [done|split; [lia|done]]|]. destruct (more_pages_none s l T P (va / 4096 + k) perm clear).
      constructor; [done|done|by left|]. intros va' _. apply HL.
    + pose proof (unmapped_not_owned s l root T P _ Ho (Hun k ltac:(lia))) as Hnd. rewrite Hd in *.
      pose proof (more_pages_one s l root T P _ p perm clear s1 T1 Ho Hnd Hp HL HZ) as HM1.
      destruct (IH (k + 1) ltac:(lia) s1 l1 T1 _ Ho1 ltac:(lia)) as (r & s2 & l2 & T2 & P2 & j & E & HE2 & Ho2 & Hj & Hr & HM2).
      { intros i Hi. rewrite HL. destruct (page_step va i Ha) as [_ ->].
        destruct (Z.eqb_spec (va / 4096 + i) (va / 4096 + k)); [lia|]. apply Hun. lia. }
      exists r, s2, l2, T2, P2, j. split; [exact E|]. split; [by eapply extends_trans|]. split; [done|].
      split; [lia|]. split; [done|]. replace (va / 4096 + (k + 1)) with (va / 4096 + k + 1) in HM2 by lia.
      exact (more_pages_trans s l root T P (va / 4096 + k) (va / 4096 + k + 1) (va / 4096 + j) perm
        clear s1 l1 T1 _ s2 l2 T2 P2 Ho1 HE HE2 Ho2 ltac:(lia) HM1 HM2).
Qed.

Lemma vmm_allocate_spec s l root T P va n perm clear : owns s l root T P ->
  va mod 4096 = 0 -> USERSPACE_VA_MIN <= va -> va + 4096 * n <= USERSPACE_VA_MAX -> 0 < n ->
  (forall i, 0 <= i < n -> translate s root (va + 4096 * i) = None) ->
  exists r s' l' T' P' j, vmm_allocate root va (4096 * n) perm clear s = Ret (r, s') /\
    owns s' l' root T' P' /\ extends s l T s' l' T' /\
    ((r = 0 /\ j = n) \/ (r = -1 /\ 0 <= j < n /\ (length (avail s' l') <= 1)%nat)) /\
    more_pages s l T P (va / 4096) (va / 4096 + j) perm clear s' T' P'.
Proof.
  intros Ho Ha Hlo Hhi Hn Hun. unfold vmm_allocate, PAGE_SIZE.
  rewrite Ha. rewrite (Z.mul_comm 4096 n), Z.mod_mul, Z.div_mul by lia.
  destruct (Z.eqb_spec (n * 4096) 0); [lia|]. cbn [negb Z.eqb].
  destruct (allocate_loop root va perm clear n Ha Hlo Hhi 0 s l T P Ho ltac:(lia))
    as (r & s' & l' & T' & P' & j & HE & HX & Ho' & Hj & Hr & HM).
  { intros i Hi. rewrite <- (translate_root _ l root T); [by apply Hun|apply Ho|].
    unfold USERSPACE_VA_MIN, USERSPACE_VA_MAX in *. cbn [va_covered user_space]. lia. }
  rewrite Z.sub_0_r in HE. unfold mbind, st_bind, PAGE_SIZE in *. rewrite HE.
  exists (default 0 r), s', l', T', P', j. split; [done|]. split; [done|]. split; [done|]. split.
  - destruct Hr as [(-> & ->)|(-> & ? & ?)]; [by left|right]. split; [done|]. split; [lia|done].
  - by rewrite Z.add_0_r in HM.
Qed.

(** [vmm_allocate] on an unmapped, page-aligned user range never panics.
    It returns 0 after mapping the whole range with the given permissions,
    each page to a frame of its own that was free before (and is cleared if
    asked for), or -1 when memory ran out, and then a prefix is mapped.  The
    pages the program had before keep their frames and contents, no other
    address is translated differently, and no memory changes but free pages
    and tables. *)
Theorem vmm_allocate_correct s l root T P va n perm clear : owns s l root T P ->
  va mod 4096 = 0 -> USERSPACE_VA_MIN <= va -> va + 4096 * n <= USERSPACE_VA_MAX -> 0 < n ->
  (forall i, 0 <= i < n -> translate s root (va + 4096 * i) = None) ->
  exists r s' l' T' P' j, vmm_allocate root va (4096 * n) perm clear s = Ret (r, s') /\
    owns s' l' root T' P' /\ extends s l T s' l' T' /\
    ((r = 0 /\ j = n) \/ (r = -1 /\ 0 <= j < n /\ (length (avail s' l') <= 1)%nat)) /\
    more_pages s l T P (va / 4096) (va / 4096 + j) perm clear s' T' P'.
Proof. apply vmm_allocate_spec. Qed.

(** ** The bytes of owned pages *)

Definition user_mem (s : pmem) (P : pages) (va : Z) : option Z :=
  '(p, _) ← P !! (va / 4096); Some (ram s (p + va mod 4096)).

(** Bytes [f] in a range, the rest as before. *)
Definition set_bytes (va n : Z) (f : Z -> Z) (old new : Z -> option Z) : Prop :=
  forall x, new x = if (va <=? x) && (x <? va + n) then Some (f (x - va)) else old x.

Lemma set_bytes_app va n k f g h old mid new : 0 <= n -> 0 <= k -> set_bytes va n f old mid ->
  set_bytes (va + n) k g mid new -> (forall i, 0 <= i < n -> h i = f i) -> (forall i, 0 <= i < k -> h (n + i) = g i) ->
  set_bytes va (n + k) h old new.
Proof.
  intros Hn Hk H1 H2 Hf Hg x. rewrite H2, H1.
  destruct (Z.leb_spec va x), (Z.ltb_spec x (va + n)), (Z.leb_spec (va + n) x), (Z.ltb_spec x (va + n + k)),
    (Z.ltb_spec x (va + (n + k))); try lia; cbn [andb]; try done.
  - f_equal. symmetry. apply Hf. lia.
  - f_equal. rewrite <- Hg by lia. f_equal. lia.
Qed.

Lemma set_bytes_none va f old : set_bytes va 0 f old old.
Proof. intros x. destruct (Z.leb_spec va x), (Z.ltb_spec x (va + 0)); try lia; done. Qed.

Section owned.
Context (s : pmem) (l : list Z) (root : Z) (T : gmap (nat * Z) Z) (P : pages) (Ho : owns s l root T P).
Context (va p : Z) (perm : pte_permissions) (Hp : P !! (va / 4096) = Some (p, perm)).

Lemma owned_va : user_va va.
Proof.
  destruct (ow_page _ _ _ _ _ Ho _ _ _ Hp) as ([H1 H2] & _). unfold user_va, USERSPACE_VA_MIN, USERSPACE_VA_MAX in *.
  zify_div.
Qed.

Lemma owned_frame : is_page p /\ is_frame (V2P s p) /\ V2P s p = p - hhdm_offset s /\ P2V s (V2P s p) = p.
Proof.
  destruct (ow_page _ _ _ _ _ Ho _ _ _ Hp) as (_ & Hpg & Hf & _).
  destruct (P2V_V2P s p Hf ltac:(destruct Hpg; lia)) as [HV HP].
  split; [done|]. rewrite HV. done.
Qed.

Lemma owned_translate : translate s root va = Some (build_pte (V2P s p) perm).
Proof.
  destruct (ow_page _ _ _ _ _ Ho _ _ _ Hp) as (_ & _ & _ & _ & _ & HL). rewrite leaf_entry_page in HL.
  rewrite (translate_root s l root T); [done|apply Ho|]. apply user_va_range, owned_va.
Qed.

Lemma owned_pte : let e := build_pte (V2P s p) perm in
  pte_is_present e = true /\ pte_follow e = V2P s p /\ pte_is_user e = userspace perm /\ pte_is_writable e = writable perm.
Proof.
  destruct owned_frame as (_ & Hf & _).
  destruct (build_pte_roundtrip (V2P s p) perm Hf) as (H1 & H2 & H3 & H4 & _). done.
Qed.

(** Writing bytes that stay in the page. *)
Lemma write_user data : Forall (fun b => 0 <= b < 256) data -> va mod 4096 + zlen data <= 4096 ->
  let s' := set_ram s (store_list (ram s) (p + va mod 4096) data) in
  owns s' l root T P /\ (forall va', leaf_entry s' T va' = leaf_entry s T va') /\
  (forall x, ~ in_page p x -> ram s' x = ram s x) /\
  set_bytes va (zlen data) (fun i => default 0 (zget data i)) (user_mem s P) (user_mem s' P).
Proof.
  intros Hd Hl s'. assert (forall x, ~ in_page p x -> store_list (ram s) (p + va mod 4096) data x = ram s x) as Hout.
  { intros x Hx. apply store_list_out. unfold in_page in Hx. pose proof (Z.mod_pos_bound va 4096). lia. }
  destruct (owns_write s l root T P _ p perm _ Ho Hp Hout) as [Ho' HL].
  split; [done|]. split; [done|]. split; [done|]. intros x. unfold user_mem.
  destruct ((va <=? x) && (x <? va + zlen data)) eqn:Ex.
  - apply andb_prop in Ex as [H1%Z.leb_le H2%Z.ltb_lt].
    assert (x / 4096 = va / 4096) as E by zify_div. rewrite E, Hp. cbn.
    destruct (zget_lt_is_Some data (x - va) ltac:(lia)) as [b Eb]. rewrite Eb. cbn.
    replace (p + x mod 4096) with (p + va mod 4096 + (x - va)) by zify_div.
    rewrite (store_list_in _ _ _ _ b Eb). f_equal. apply wrap_small. rewrite Forall_forall in Hd. apply Hd.
    by apply (zget_elem _ _ _ Eb).
  - destruct (P !! (x / 4096)) as [[q pm]|] eqn:Eq; [|done]. cbn. f_equal.
    destruct (decide (q = p)) as [->|Hqp].
    + pose proof (ow_inj _ _ _ _ _ Ho _ _ _ _ _ Eq Hp) as E. apply store_list_out.
      apply andb_false_iff in Ex as [Ex%Z.leb_gt|Ex%Z.ltb_ge]; zify_div.
    + apply Hout. intros Hx. apply Hqp.
      destruct (ow_page _ _ _ _ _ Ho _ _ _ Eq) as (_ & Hq & _). destruct owned_frame as [Hpp _].
      apply (in_page_disjoint q p (q + x mod 4096)); try done. unfold in_page. pose proof (Z.mod_pos_bound x 4096). lia.
Qed.
End owned.

(** What loading may do: take free pages, write to pages of [P] and to the
    pages it adds, and change nothing else. *)
Record loads (s : pmem) (l : list Z) (T : gmap (nat * Z) Z) (P : pages) (s' : pmem) (l' : list Z)
    (T' : gmap (nat * Z) Z) (P' : pages) : Prop := {
  ld_off : hhdm_offset s' = hhdm_offset s;
  ld_old : P ⊆ P';
  ld_avail p : p ∈ avail s' l' -> p ∈ avail s l;
  ld_sub : T ⊆ T';
  ld_tables k t : T' !! k = Some t -> T !! k = Some t \/ t ∈ avail s l;
  ld_pages v p pm : P' !! v = Some (p, pm) -> P !! v = Some (p, pm) \/ p ∈ avail s l;
  ld_leaf va : va / 4096 ∉ dom P' -> leaf_entry s' T' va = leaf_entry s T va;
  ld_mem x : used s l T' x -> (forall v p pm, P !! v = Some (p, pm) -> ~ in_page p x) -> ram s' x = ram s x
}.

Lemma loads_refl s l T P : loads s l T P s l T P.
Proof. constructor; try done; by left. Qed.

Lemma loads_trans s l T P s1 l1 T1 P1 s2 l2 T2 P2 : loads s l T P s1 l1 T1 P1 -> loads s1 l1 T1 P1 s2 l2 T2 P2 ->
  loads s l T P s2 l2 T2 P2.
Proof.
  intros [A1 A2 A3 A4 A5 A6 A7 A8] [B1 B2 B3 B4 B5 B6 B7 B8]. constructor.
  - congruence.
  - by etrans.
  - eauto.
  - by etrans.
  - intros k t [Hk|Hk]%B5; [by apply A5|right; eauto].
  - intros v p pm [Hv|Hv]%B6; [by eapply A6|right; eauto].
  - intros va Hva. rewrite B7 by done. apply A7. intros Hin. apply Hva. by apply (subseteq_dom _ _ B2).
  - intros x [Ht Ha] Hx. assert (used s l T1 x) as HU.
    { split; [|done]. intros k t Hk. apply (Ht k). by eapply lookup_weaken. }
    rewrite B8, A8; [done|done|done| |].
    + split; [done|]. intros p Hp. by apply Ha, A3.
    + intros v p pm [Hv|Hv]%A6; [by eapply Hx|by apply Ha].
Qed.

Lemma loads_extends s l T P lo hi perm clear s' l' T' P' : extends s l T s' l' T' ->
  more_pages s l T P lo hi perm clear s' T' P' -> loads s l T P s' l' T' P'.
Proof.
  intros (H1 & H2 & H3 & H4 & H5) [M1 M2 M3 M4]. constructor; try done.
  - intros v p pm [?|(_ & ? & _)]%M3; [by left|by right].
  - intros x Hx _. by apply H5.
Qed.

Lemma loads_write s l T P m : (forall va, leaf_entry (set_ram s m) T va = leaf_entry s T va) ->
  (forall x, (forall v p pm, P !! v = Some (p, pm) -> ~ in_page p x) -> m x = ram s x) ->
  loads s l T P (set_ram s m) l T P.
Proof. intros HL Hm. constructor; try done; try (by left). intros x _ Hx. by apply Hm. Qed.

(** All pages of [va, va + n) belong to the user, and have the property [Q]. *)
Definition covered (P : pages) (va n : Z) (Q : pte_permissions -> Prop) : Prop :=
  forall x, va <= x < va + n -> exists p perm, P !! (x / 4096) = Some (p, perm) /\ userspace perm = true /\ Q perm.

Lemma covered_sub P va n Q va' n' : covered P va n Q -> va <= va' -> va' + n' <= va + n -> covered P va' n' Q.
Proof. intros H ? ? x Hx. apply H. lia. Qed.

(** The first chunk of a copy: up to the end of its page. *)
Lemma write_in_page s l root T P va data p perm : owns s l root T P -> P !! (va / 4096) = Some (p, perm) ->
  Forall (fun b => 0 <= b < 256) data -> va mod 4096 + zlen data <= 4096 ->
  let s' := set_ram s (store_list (ram s) (p + va mod 4096) data) in
  owns s' l root T P /\ loads s l T P s' l T P /\
  set_bytes va (zlen data) (fun i => default 0 (zget data i)) (user_mem s P) (user_mem s' P).
Proof.
  intros Ho Hp Hd Hl s'. destruct (write_user s l root T P Ho va p perm Hp data Hd Hl) as (H1 & H2 & H3 & H4).
  split; [done|]. split; [|done]. apply loads_write; [done|]. intros x Hx. apply H3. by apply (Hx _ _ _ Hp).
Qed.

Lemma zget_app {A} (l1 l2 : list A) i : 0 <= i ->
  zget (l1 ++ l2) i = if i <? zlen l1 then zget l1 i else zget l2 (i - zlen l1).
Proof.
  intros Hi. unfold zget, zlen. destruct (Z.ltb_spec i 0); [lia|]. destruct (Z.ltb_spec i (Z.of_nat (length l1))).
  - rewrite lookup_app_l by lia. done.
  - rewrite lookup_app_r by lia. destruct (Z.ltb_spec (i - Z.of_nat (length l1)) 0); [lia|]. f_equal. lia.
Qed.

Lemma set_bytes_list va d1 d2 old mid new :
  set_bytes va (zlen d1) (fun i => default 0 (zget d1 i)) old mid ->
  set_bytes (va + zlen d1) (zlen d2) (fun i => default 0 (zget d2 i)) mid new ->
  set_bytes va (zlen (d1 ++ d2)) (fun i => default 0 (zget (d1 ++ d2) i)) old new.
Proof.
  intros H1 H2. rewrite zlen_app. pose proof (zlen_nonneg d1). pose proof (zlen_nonneg d2).
  eapply (set_bytes_app va (zlen d1) (zlen d2) _ _ _ old mid new); [done|done|exact H1|exact H2| |].
  - intros i Hi. rewrite zget_app by lia. destruct (Z.ltb_spec i (zlen d1)); [done|lia].
  - intros i Hi. rewrite zget_app by lia. destruct (Z.ltb_spec (zlen d1 + i) (zlen d1)); [lia|].
    do 2 f_equal. lia.
Qed.

Lemma vmm_memcpy_spec root : forall fuel s l T P dst source, owns s l root T P ->
  (length source < fuel)%nat -> Forall (fun b => 0 <= b < 256) source ->
  covered P dst (zlen source) (fun perm => writable perm = true) -> 0 <= dst -> dst + zlen source + 4096 <= 2 ^ 32 ->
  exists s', vmm_memcpy_loop fuel root dst source true s = Ret (0, s') /\ owns s' l root T P /\
    loads s l T P s' l T P /\
    set_bytes dst (zlen source) (fun i => default 0 (zget source i)) (user_mem s P) (user_mem s' P).
Proof.
  induction fuel as [|fuel IH]; intros s l T P dst source Ho Hf Hb Hc H0 H1; [lia|].
  cbn [vmm_memcpy_loop]. destruct source as [|b source].
  { exists s. split; [done|]. split; [done|]. split; [apply loads_refl|apply set_bytes_none]. }
  set (d := b :: source) in *. assert (0 < zlen d) as Hd by (unfold zlen; cbn; lia).
  destruct (Hc dst ltac:(lia)) as (p & perm & Hp & Hu & Hw).
  pose proof (owned_va s l root T P Ho dst p perm Hp) as [Hv1 Hv2].
  assert (PAGE_ROUND_DOWN dst = 4096 * (dst / 4096)) as Er by (apply PAGE_ROUND_DOWN_low; lia).
  assert (user_va (4096 * (dst / 4096))) as [Hr1 Hr2].
  { destruct (ow_page _ _ _ _ _ Ho _ _ _ Hp) as (? & _). done. }
  rewrite Er. destruct (Z.leb_spec USERSPACE_VA_MAX (4096 * (dst / 4096))); [lia|].
  destruct (Z.ltb_spec (4096 * (dst / 4096)) USERSPACE_VA_MIN); [lia|]. cbn [orb].
  destruct (walk_lookup_user s l root T (4096 * (dst / 4096)) (ow_wf _ _ _ _ _ Ho) ltac:(by split)) as (q & HW & HR).
  assert (translate s root (4096 * (dst / 4096)) = Some (build_pte (V2P s p) perm)) as Ht.
  { apply (owned_translate s l root T P Ho). by rewrite Z.mul_comm, Z.div_mul by lia. }
  rewrite (bind_step _ _ s q s HW). destruct HR as [[_ HN]|[Hq HT]]; [congruence|].
  rewrite Ht in HT. cbv zeta in HT. destruct (pte_is_present (load64 (ram s) q)) eqn:Ep; [|done].
  injection HT as HE. apply Z.eqb_neq in Hq. rewrite Hq. unfold read_pte.
  rewrite (bind_step _ _ s _ s eq_refl), <- HE, HE, Ep, <- HE.
  destruct (owned_pte s l root T P Ho dst p perm Hp) as (_ & E1 & E2 & E3). cbv zeta in *.
  rewrite E2, E3, Hu, Hw. change (negb true || negb (Bool.eqb true true) || negb true) with false. cbv iota.
  destruct (owned_frame s l root T P Ho dst p perm Hp) as (Hpp & _ & _ & HPV).
  rewrite (bind_step _ _ s p s) by (unfold reads; by rewrite E1, HPV).
  assert (dst - 4096 * (dst / 4096) = dst mod 4096) as Em by zify_div. rewrite Em.
  pose proof (Z.mod_pos_bound dst 4096 ltac:(lia)) as Hmod. unfold PAGE_SIZE.
  rewrite (wrap_small 64 (dst mod 4096)), (wrap_small 64 (4096 - dst mod 4096)) by lia.
  rewrite (wrap_small 64 (p + dst mod 4096)) by (destruct Hpp; lia).
  set (n := Z.to_nat (if zlen d <? 4096 - dst mod 4096 then zlen d else 4096 - dst mod 4096)).
  assert (0 < Z.of_nat n <= zlen d /\ Z.of_nat n <= 4096 - dst mod 4096) as [Hn1 Hn2]
    by (unfold n; destruct (Z.ltb_spec (zlen d) (4096 - dst mod 4096)); lia).
  assert (zlen (take n d) = Z.of_nat n) as Ez by (unfold zlen in *; rewrite length_take; lia).
  assert (zlen (drop n d) = zlen d - Z.of_nat n) as Ez2 by (unfold zlen in *; rewrite length_drop; lia).
  destruct (write_in_page s l root T P dst (take n d) p perm Ho Hp (Forall_take _ _ _ Hb) ltac:(lia)) as (Ho1 & HL1 & HB1).
  erewrite (bind_step (st_modify _)) by reflexivity. cbv beta. set (s1 := set_ram s _) in *.
  assert (drop n d = [] \/ wrap 64 (4096 * (dst / 4096) + 4096) = dst + zlen (take n d)) as [Hnil|Hnext].
  { assert (Z.of_nat n = zlen d \/ Z.of_nat n = 4096 - dst mod 4096) as [Hn3|Hn3]
      by (unfold n; destruct (Z.ltb_spec (zlen d) (4096 - dst mod 4096)); lia).
    - left. apply drop_ge. unfold zlen in Hn3. lia.
    - right. rewrite Ez, wrap_small by (unfold USERSPACE_VA_MAX in *; lia). zify_div. }
  - rewrite Hnil. exists s1. assert (take n d = d) as Etk by (rewrite <- (take_drop n d) at 2; by rewrite Hnil, app_nil_r).
    rewrite Etk in HB1. split; [|done]. destruct fuel; [cbn in Hf; lia|done].
  - rewrite Hnext. destruct (IH s1 l T P (dst + zlen (take n d)) (drop n d) Ho1) as (s2 & E & Ho2 & HL2 & HB2).
    + rewrite length_drop. cbn in Hf |- *. lia.
    + by apply Forall_drop.
    + eapply covered_sub; [exact Hc|lia|lia].
    + lia.
    + lia.
    + exists s2. split; [exact E|]. split; [done|]. split; [by eapply loads_trans|].
      rewrite <- (take_drop n d). by eapply set_bytes_list.
Qed.

(** *** Clearing *)

Lemma zeros_bytes n : Forall (fun b : Z => 0 <= b < 256) (replicate n 0).
Proof. apply Forall_replicate. lia. Qed.

Lemma set_bytes_replicate va n old new :
  set_bytes va (zlen (replicate n 0)) (fun i => default 0 (zget (replicate n 0) i)) old new ->
  set_bytes va (Z.of_nat n) (fun _ => 0) old new.
Proof.
  intros H x. rewrite H. unfold zlen. rewrite length_replicate. destruct ((va <=? x) && _) eqn:E; [|done]. f_equal.
  unfold zget. destruct (x - va <? 0); [done|]. destruct (replicate n 0 !! _) eqn:El; [|done].
  by apply lookup_replicate in El as [-> _].
Qed.

Lemma zero_loop s0 l root T P va n m : 0 <= va -> 0 < n -> va + n + 4096 <= 2 ^ 32 ->
  covered P va n (fun perm => writable perm = true) -> m = (n + 4095) / 4096 ->
  forall j k s, j = Z.to_nat (m - k) -> 0 <= k <= m -> owns s l root T P -> loads s0 l T P s l T P ->
  set_bytes va (Z.min (4096 * k) n) (fun _ => 0) (user_mem s0 P) (user_mem s P) ->
  exists s', st_for (fun x =>
        let to_write := if PAGE_SIZE <? va + n - x then PAGE_SIZE else va + n - x in
        c ← vmm_memcpy root x (replicate (Z.to_nat to_write) 0) true;
        if c <? 0 then mret (Some (-1)) else mret None)
      ((fun i => va + i * PAGE_SIZE) <$> seqZ k (m - k)) s = Ret (None, s') /\
    owns s' l root T P /\ loads s0 l T P s' l T P /\
    set_bytes va n (fun _ => 0) (user_mem s0 P) (user_mem s' P).
Proof.
  intros H0 Hn Hhi Hc Em. induction j as [|j IH]; intros k s Ej Hk Ho HL HB.
  { assert (k = m) as -> by lia. rewrite Z.sub_diag. cbn [seqZ]. exists s. split; [done|]. split; [done|].
    split; [done|]. by rewrite Z.min_r in HB by zify_div. }
  replace (m - k) with (m - (k + 1) + 1) by lia. rewrite seqZ_S by lia. rewrite fmap_cons, st_for_cons.
  unfold PAGE_SIZE at 1 2 3. set (x := va + k * 4096). cbv zeta.
  set (w := if 4096 <? va + n - x then 4096 else va + n - x).
  assert (w = Z.min 4096 (n - 4096 * k) /\ 0 < w) as [Ew Hw].
  { unfold w, x. destruct (Z.ltb_spec 4096 (va + n - (va + k * 4096))); zify_div. }
  assert (zlen (replicate (Z.to_nat w) 0) = w) as Ez by (unfold zlen; rewrite length_replicate; lia).
  destruct (vmm_memcpy_spec root (S (length (replicate (Z.to_nat w) 0))) s l T P x (replicate (Z.to_nat w) 0) Ho
    ltac:(lia) (zeros_bytes _)) as (s1 & E1 & Ho1 & HL1 & HB1).
  - rewrite Ez. eapply covered_sub; [exact Hc|unfold x; lia|unfold x; lia].
  - unfold x. lia.
  - rewrite Ez. unfold x. lia.
  - unfold vmm_memcpy. rewrite (bind_step _ _ s 0 s1 E1). change (0 <? 0) with false. cbv iota. unfold mret, st_ret.
    apply set_bytes_replicate in HB1. rewrite Z2Nat.id in HB1 by lia.
    assert (set_bytes va (Z.min (4096 * (k + 1)) n) (fun _ => 0) (user_mem s0 P) (user_mem s1 P)) as HB2.
    { replace (Z.min (4096 * (k + 1)) n) with (Z.min (4096 * k) n + w) by lia.
      eapply set_bytes_app; [lia|lia|exact HB| |done|done].
      replace (va + Z.min (4096 * k) n) with x by (unfold x; lia). exact HB1. }
    destruct (IH (k + 1) s1 ltac:(lia) ltac:(lia) Ho1 ltac:(by eapply loads_trans) HB2) as (s2 & E2 & H2).
    exists s2. by split.
Qed.

Lemma vmm_zero_spec s l root T P va n : owns s l root T P -> 0 <= va -> 0 < n -> va + n + 4096 <= 2 ^ 32 ->
  covered P va n (fun perm => writable perm = true) ->
  exists s', vmm_zero root va n s = Ret (0, s') /\ owns s' l root T P /\ loads s l T P s' l T P /\
    set_bytes va n (fun _ => 0) (user_mem s P) (user_mem s' P).
Proof.
  intros Ho H0 Hn Hhi Hc. unfold vmm_zero. rewrite (wrap_small 64 (va + n)) by lia. unfold page_range.
  replace (va + n - va + PAGE_SIZE - 1) with (n + 4095) by (unfold PAGE_SIZE; lia). change (_ / PAGE_SIZE) with ((n + 4095) / 4096).
  destruct (zero_loop s l root T P va n _ H0 Hn Hhi Hc eq_refl (Z.to_nat ((n + 4095) / 4096 - 0)) 0 s eq_refl)
    as (s' & E & H); [zify_div|done|apply loads_refl| |].
  - rewrite Z.min_l by lia. apply set_bytes_none.
  - exists s'. rewrite Z.sub_0_r in E. cbv zeta in E |- *. rewrite (bind_step _ _ s None s' E). done.
Qed.

(** A page that is not writable is not cleared. *)
Lemma vmm_zero_readonly s l root T P va n p perm : owns s l root T P -> 0 <= va -> 0 < n -> va + n + 4096 <= 2 ^ 32 ->
  P !! (va / 4096) = Some (p, perm) -> writable perm = false -> vmm_zero root va n s = Ret (-1, s).
Proof.
  intros Ho H0 Hn Hhi Hp Hw. unfold vmm_zero. rewrite (wrap_small 64 (va + n)) by lia. unfold page_range.
  replace ((va + n - va + PAGE_SIZE - 1) / PAGE_SIZE) with ((n - 1) / 4096 + 1) by (unfold PAGE_SIZE; zify_div).
  rewrite seqZ_S by zify_div. rewrite fmap_cons. erewrite bind_step; [|rewrite st_for_cons].
  2:{ rewrite Z.mul_0_l, Z.add_0_r. cbv zeta.
      set (w := if PAGE_SIZE <? va + n - va then PAGE_SIZE else va + n - va).
      assert (0 < w) as Hw0 by (unfold w, PAGE_SIZE; destruct (Z.ltb_spec 4096 (va + n - va)); lia).
      rewrite (bind_step _ _ s (-1) s); [reflexivity|]. unfold vmm_memcpy. rewrite length_replicate.
      replace (Z.to_nat w) with (S (Z.to_nat (w - 1))) by lia. cbn [vmm_memcpy_loop replicate].
      rewrite PAGE_ROUND_DOWN_low by lia.
      destruct (ow_page _ _ _ _ _ Ho _ _ _ Hp) as ([H1 H2] & _).
      destruct (Z.leb_spec USERSPACE_VA_MAX (4096 * (va / 4096))); [lia|].
      destruct (Z.ltb_spec (4096 * (va / 4096)) USERSPACE_VA_MIN); [lia|]. cbn [orb].
      destruct (walk_lookup_user s l root T (4096 * (va / 4096)) (ow_wf _ _ _ _ _ Ho) ltac:(by split)) as (q & HW & HR).
      rewrite (bind_step _ _ s q s HW). destruct (Z.eqb_spec q 0) as [|Hq]; [done|].
      destruct HR as [[? _]|[_ HT]]; [done|].
      assert (translate s root (4096 * (va / 4096)) = Some (build_pte (V2P s p) perm)) as Ht.
      { apply (owned_translate s l root T P Ho). by rewrite Z.mul_comm, Z.div_mul by lia. }
      rewrite Ht in HT. cbv zeta in HT. destruct (pte_is_present (load64 (ram s) q)) eqn:Ep; [|done].
      injection HT as HE. unfold read_pte. rewrite (bind_step _ _ s _ s eq_refl), <- HE, HE, Ep, <- HE.
      destruct (owned_pte s l root T P Ho va p perm Hp) as (_ & _ & _ & E3). cbv zeta in E3. rewrite E3, Hw.
      by rewrite orb_true_r. }
  reflexivity.
Qed.

(** Pages the program has keep their bytes while others are allocated. *)
Lemma extends_user_mem s l root T P s' l' T' P' x : owns s l root T P -> extends s l T s' l' T' -> P ⊆ P' ->
  x / 4096 ∈ dom P -> user_mem s' P' x = user_mem s P x.
Proof.
  intros Ho (_ & _ & _ & Hnew & HU) HP [[p pm] Hp]%elem_of_dom. unfold user_mem.
  rewrite Hp, (lookup_weaken _ _ _ _ Hp HP). cbn. f_equal. apply HU.
  assert (in_page p (p + x mod 4096)) as Hx by (unfold in_page; pose proof (Z.mod_pos_bound x 4096); lia).
  destruct (used_owned s l root T P _ _ _ _ Ho Hp Hx) as [U1 U2]. split; [|done].
  intros k t [Hk|Hk]%Hnew; [by apply (U1 k)|by apply U2].
Qed.
