(* ===== verification/KernelMap.v ===== *)
(** * Devices in the kernel's address space (about [vmm_io_memmap],
      [vmm_map_physical] and [vmm_init_lapic] of Vmm.v)

    A walk looks at the low 48 bits of an address, so the trees of Vmm.v
    describe the kernel's half too; [kernel_space] is the part of it where
    devices are mapped.  With three pages for the tables of each page that is
    mapped, [vmm_map_physical] maps the range it is asked for behind all
    earlier mappings ([vmm_map_physical_correct]), and [vmm_init_lapic] the
    page of the local APIC at its place in the direct map
    ([vmm_init_lapic_correct]). *)
From S2P Require Import Prelude Mem PhysMem Vmm.

(** ** The bits a walk looks at *)

Definition low48 (va : Z) : Z := va mod 2 ^ 48.

Lemma index_low48 va k : (k <= 3)%nat -> PTE_INDEX_FROM_VA (low48 va) (Z.of_nat k) = PTE_INDEX_FROM_VA va (Z.of_nat k).
Proof.
  intros Hk. unfold PTE_INDEX_FROM_VA, low48. change (Z.shiftl 1 9 - 1) with (Z.ones 9). apply Z.bits_inj'. intros i Hi.
  rewrite !Z.land_spec, !Z.shiftr_spec, Z.testbit_ones_nonneg by lia.
  destruct (Z.ltb_spec i 9); [|by rewrite !andb_false_r]. by rewrite Z.mod_pow2_bits_low by lia.
Qed.
Lemma walk_levels_low48 k fl va alloc : (k <= 3)%nat -> forall t s, walk_levels k fl t va alloc s = walk_levels k fl t (low48 va) alloc s.
Proof.
  induction k as [|k IH]; intros Hk t s; cbn [walk_levels].
  - pose proof (index_low48 va 0 ltac:(lia)) as E. change (Z.of_nat 0) with 0 in E. by rewrite E.
  - rewrite (index_low48 va (S k)) by lia. cbv zeta. destruct (pte_is_present _); [by apply IH; lia|].
    destruct (negb alloc); [done|]. destruct (kalloc s) as [table s1]. destruct (table =? 0); [done|]. by rewrite IH by lia.
Qed.
Lemma translate_from_low48 k s va : (k <= 3)%nat -> forall t, translate_from k s t va = translate_from k s t (low48 va).
Proof.
  induction k as [|k IH]; intros Hk t; cbn [translate_from].
  - by rewrite (index_low48 va 0) by lia.
  - rewrite (index_low48 va (S k)) by lia. cbv zeta. destruct (pte_is_present _); [by apply IH; lia|done].
Qed.
Lemma translate_low48 s root va : translate s root va = translate s root (low48 va).
Proof. by apply translate_from_low48. Qed.

(** ** Mapping a page *)

Section pages.
Context {R : va_space}.

(** The body of the loops of vmm.c that map pages. *)
Definition map_page {A} (w : ST pmem Z) (failed : A) (msg : string) (e : Z) : ST pmem (option A) :=
  pte ← w;
  if pte =? 0 then mret (Some failed)
  else
    old ← read_pte pte;
    if pte_is_present old then st_panic msg else _ ← write_pte pte e; mret None.

Lemma map_page_run {A} s l root T w (failed : A) msg fl va e : pt_wf s l root T -> va_covered (low48 va) -> link_ok fl ->
  w s = Ret (walk_levels 3 fl root va true s) -> 0 <= e < 2 ^ 64 -> pte_is_present e = true ->
  leaf_entry s T (low48 va) = None -> (3 <= length (avail s l))%nat ->
  exists s' l' T', map_page w failed msg e s = Ret (None, s') /\ grows root s l T s' l' T' /\
    (length (avail s l) <= length (avail s' l') + 3)%nat /\
    forall va', leaf_entry s' T' va' = if va' / 4096 =? low48 va / 4096 then Some e else leaf_entry s T va'.
Proof.
  intros Hwf Hva Hfl Hw He Hpe Hun Hpages. set (v := low48 va) in *. rewrite walk_levels_low48 in Hw by lia. fold v in Hw.
  pose proof (walk_levels_alloc 3 fl v root s l root T Hwf Hfl Hva ltac:(rewrite vpn_top by done; apply Hwf)) as H.
  destruct (walk_levels 3 fl root v true s) as [p s1] eqn:E.
  destruct H as (l1 & T1 & used & Hwf1 & HS & HO & HU & Hlen & HL & HR). pose proof HU as [HA _].
  assert (length (avail s l) = (length used + length (avail s1 l1))%nat) as EL by (rewrite HA; apply length_app).
  destruct HR as [(-> & Hnil & Hlt)|(t0 & Ht & -> & Hp)]; [rewrite Hnil in EL; cbn in EL; lia|].
  unfold map_page. rewrite (bind_step _ _ _ _ _ Hw), (proj2 (Z.eqb_neq _ _) Hp). unfold read_pte. rewrite (bind_step _ _ _ _ _ eq_refl).
  pose proof (HL v) as HLv. rewrite Hun, (leaf_entry_eq _ _ _ _ Ht) in HLv. cbv zeta in HLv.
  destruct (pte_is_present (load64 _ _)); [done|].
  destruct (write_leaf s1 l1 root T1 v t0 e Hwf1 Ht He) as (Hwf2 & HO2 & HW).
  eexists _, l1, T1. split; [reflexivity|]. split; [|split].
  - split; [exact Hwf2|]. split; [done|]. split; [by apply (only_tables_trans T1 T1 _ s1)|]. exists used. by destruct HU.
  - rewrite EL. change (length used + length (avail s1 l1) <= length (avail s1 l1) + 3)%nat. lia.
  - intros va'. by rewrite HW, Hpe, HL.
Qed.

Lemma map_pages_run {A} root (w : Z -> ST pmem Z) (failed : A) msg fl (va n : Z) (e : Z -> Z) : va mod 4096 = 0 -> link_ok fl ->
  (forall i s, 0 <= i < n -> w i s = Ret (walk_levels 3 fl root (va + 4096 * i) true s)) ->
  (forall i, 0 <= i < n -> va_covered (low48 va + 4096 * i) /\ 0 <= e i < 2 ^ 64 /\ pte_is_present (e i) = true) ->
  low48 va + 4096 * n <= 2 ^ 48 ->
  forall m k s l T, Z.of_nat m = n - k -> 0 <= k -> pt_wf s l root T ->
  (forall i, k <= i < n -> leaf_entry s T (low48 va + 4096 * i) = None) -> (3 * m <= length (avail s l))%nat ->
  exists s' l' T', st_for (fun i => map_page (w i) failed msg (e i)) (seqZ k (n - k)) s = Ret (None, s') /\
    grows root s l T s' l' T' /\ (length (avail s l) <= length (avail s' l') + 3 * m)%nat /\
    forall va', leaf_entry s' T' va' =
      if (low48 va + 4096 * k <=? va') && (va' <? low48 va + 4096 * n) then Some (e ((va' - low48 va) / 4096)) else leaf_entry s T va'.
Proof.
  intros Ha Hfl Hw He Hhi. assert (low48 va mod 4096 = 0) as Ha' by (unfold low48; zify_div).
  assert (forall i, 0 <= i < n -> low48 (va + 4096 * i) = low48 va + 4096 * i) as Hlow.
  { intros i Hi. unfold low48 in *. rewrite <- Zplus_mod_idemp_l. apply Z.mod_small.
    pose proof (Z.mod_pos_bound va (2 ^ 48) ltac:(lia)). lia. }
  induction m as [|m IH]; intros k s l T Hm Hk Hwf Hun Hlen.
  - rewrite seqZ_nil by lia. exists s, l, T. split; [done|]. split; [by apply grows_refl|]. split; [lia|].
    intros va'. destruct (Z.leb_spec (low48 va + 4096 * k) va'), (Z.ltb_spec va' (low48 va + 4096 * n)); lia || done.
  - replace (n - k) with (n - (k + 1) + 1) by lia. rewrite seqZ_S, st_for_cons by lia.
    destruct (He k ltac:(lia)) as (Hc & Hr & Hp).
    destruct (map_page_run s l root T (w k) failed msg fl (va + 4096 * k) (e k) Hwf) as (s1 & l1 & T1 & -> & HG & HL1 & HF1);
      [by rewrite Hlow by lia|done|apply Hw; lia|done|done|rewrite Hlow by lia; apply Hun; lia|lia|]. rewrite Hlow in HF1 by lia.
    destruct (IH (k + 1) s1 l1 T1 ltac:(lia) ltac:(lia) (proj1 HG)) as (s2 & l2 & T2 & E & HG2 & HL2 & HF2); [|lia|].
    { intros i Hi. rewrite HF1. destruct (Z.eqb_spec ((low48 va + 4096 * i) / 4096) ((low48 va + 4096 * k) / 4096)); [zify_div|].
      apply Hun. lia. }
    exists s2, l2, T2. split; [exact E|]. split; [by eapply grows_trans|]. split; [lia|].
    intros va'. rewrite HF2, HF1. destruct (Z.eqb_spec (va' / 4096) ((low48 va + 4096 * k) / 4096)) as [Eq|Ne].
    + assert ((va' - low48 va) / 4096 = k) as -> by zify_div.
      destruct (Z.leb_spec (low48 va + 4096 * (k + 1)) va'), (Z.leb_spec (low48 va + 4096 * k) va'), (Z.ltb_spec va' (low48 va + 4096 * n));
        try done; zify_div.
    + destruct (Z.leb_spec (low48 va + 4096 * (k + 1)) va'), (Z.leb_spec (low48 va + 4096 * k) va'), (Z.ltb_spec va' (low48 va + 4096 * n));
        try done; zify_div.
Qed.
End pages.

(** ** The part of the kernel's half where devices are *)

(** [io_memmap_current_address] begins here. *)
Definition IO_AREA : Z := 0xfffffffff0000000.
(** The addresses of the kernel's half less those of [low48]. *)
Definition KERNEL_HALF : Z := 2 ^ 64 - 2 ^ 48.

Section kernel_space.
(** Where the local APIC is in the direct map. *)
Context (lapic_va : Z) (Hlapic : 2 ^ 64 - 2 ^ 47 <= lapic_va /\ lapic_va + 4096 <= 2 ^ 64 /\ lapic_va mod 4096 = 0).

Definition device_va (va : Z) : Prop := IO_AREA <= va < 2 ^ 64 \/ lapic_va <= va < lapic_va + 4096.
#[local] Instance kernel_space : va_space.
Proof. refine {| va_covered v := 0 <= v < 2 ^ 48 /\ device_va (v + KERNEL_HALF) |}. by intros va [? _]. Defined.

Lemma kernel_low48 va : KERNEL_HALF <= va < 2 ^ 64 -> low48 va = va - KERNEL_HALF.
Proof. unfold low48, KERNEL_HALF. intros H. symmetry. apply (Z.mod_unique _ _ (2 ^ 16 - 1)); lia. Qed.
Lemma device_range va : device_va va -> KERNEL_HALF <= va < 2 ^ 64.
Proof. unfold device_va, KERNEL_HALF, IO_AREA. lia. Qed.
Lemma device_covered va : device_va va -> va_covered (low48 va).
Proof.
  intros H. pose proof (device_range va H). rewrite kernel_low48 by done. split; [unfold KERNEL_HALF in *; lia|].
  by replace (va - KERNEL_HALF + KERNEL_HALF) with va by lia.
Qed.
Lemma translate_device s l root T va : pt_wf s l root T -> device_va va -> translate s root va = leaf_entry s T (low48 va).
Proof. intros Hwf H. rewrite translate_low48. apply (translate_root s l root T Hwf). by apply device_covered. Qed.

(** The page-by-page effect of mapping [n] pages from [va] on. *)
Definition device_range_mapped (va n : Z) (e : Z -> Z) (old new : Z -> option Z) : Prop :=
  forall va', device_va va' ->
    new va' = if (va <=? va') && (va' <? va + 4096 * n) then Some (e ((va' - va) / 4096)) else old va'.

Lemma map_device_pages {A} s l root T (w : Z -> ST pmem Z) (failed : A) msg fl va n e : pt_wf s l root T ->
  va mod 4096 = 0 -> link_ok fl -> 0 <= n -> (forall x, va <= x < va + 4096 * n -> device_va x) ->
  (forall i s, 0 <= i < n -> w i s = Ret (walk_levels 3 fl root (va + 4096 * i) true s)) ->
  (forall i, 0 <= i < n -> 0 <= e i < 2 ^ 64 /\ pte_is_present (e i) = true) ->
  (forall i, 0 <= i < n -> translate s root (va + 4096 * i) = None) -> 3 * n <= zlen (avail s l) ->
  exists s' l' T', st_for (fun i => map_page (w i) failed msg (e i)) (seqZ 0 n) s = Ret (None, s') /\
    grows root s l T s' l' T' /\ zlen (avail s l) <= zlen (avail s' l') + 3 * n /\
    device_range_mapped va n e (translate s root) (translate s' root).
Proof.
  intros Hwf Ha Hfl Hn Hdev Hw He Hun Hlen. unfold zlen in *. destruct (Z.eq_dec n 0) as [->|Hn0].
  { exists s, l, T. split; [done|]. split; [by apply grows_refl|]. split; [lia|]. intros x _.
    destruct (Z.leb_spec va x), (Z.ltb_spec x (va + 4096 * 0)); lia || done. }
  pose proof (device_range va (Hdev va ltac:(lia))) as Hva. pose proof (device_range (va + 4096 * n - 1) (Hdev (va + 4096 * n - 1) ltac:(lia))) as Hend.
  assert (forall i, 0 <= i < n -> low48 (va + 4096 * i) = low48 va + 4096 * i) as Hlow
    by (intros i Hi; rewrite !kernel_low48 by lia; lia).
  destruct (map_pages_run root w failed msg fl va n e Ha Hfl Hw) with (m := Z.to_nat n) (k := 0) (s := s) (l := l) (T := T)
    as (s' & l' & T' & E & HG & HL & HM); try lia; try done.
  - intros i Hi. split; [|by apply He]. rewrite <- Hlow by done. apply device_covered, Hdev. lia.
  - rewrite kernel_low48 by done. unfold KERNEL_HALF in *. lia.
  - intros i Hi. rewrite <- Hlow by lia. rewrite <- (translate_device s l root T) by (done || apply Hdev; lia). apply Hun. lia.
  - exists s', l', T'. rewrite Z.sub_0_r in E. split; [exact E|]. split; [done|]. split; [lia|].
    intros x Hx. rewrite (translate_device s' l' root T' x (proj1 HG) Hx), (translate_device s l root T x Hwf Hx), HM.
    pose proof (device_range x Hx). rewrite !kernel_low48 by done.
    replace (x - KERNEL_HALF - (va - KERNEL_HALF)) with (x - va) by lia.
    destruct (Z.leb_spec (va - KERNEL_HALF + 4096 * 0) (x - KERNEL_HALF)), (Z.ltb_spec (x - KERNEL_HALF) (va - KERNEL_HALF + 4096 * n)),
      (Z.leb_spec va x), (Z.ltb_spec x (va + 4096 * n)); try lia; done.
Qed.

(** ** [vmm_io_memmap] and [vmm_map_physical] *)

Definition io_flags : Z := Z.lor (Z.lor (Z.lor (Z.lor PTE_P PTE_W) PTE_PWT) PTE_PCD) PTE_XD.
Definition io_pte (pa : Z) : Z := Z.lor io_flags (PTE_SET_ADDR pa).
Lemma io_pte_entry pa : is_frame pa -> 0 <= io_pte pa < 2 ^ 64 /\ pte_is_present (io_pte pa) = true /\ pte_follow (io_pte pa) = pa.
Proof. apply (link_entry io_flags). split_and!; vm_compute; congruence. Qed.

(** The state of the kernel's tables in which [n] more pages can be mapped:
    three pages are left for the tables of each, and what is behind the
    cursor is not mapped. *)
Record io_room (s : pmem) (l : list Z) (g : vmm_globals) (T : gmap (nat * Z) Z) (n : Z) : Prop := {
  ir_wf : pt_wf s l (kernel_pagetable g) T;
  ir_cursor : IO_AREA <= io_memmap_current_address g /\ io_memmap_current_address g mod 4096 = 0;
  ir_space : io_memmap_current_address g + 4096 * n < 2 ^ 64;
  ir_free va : io_memmap_current_address g <= va < 2 ^ 64 -> translate s (kernel_pagetable g) va = None;
  ir_pages : 3 * n <= zlen (avail s l)
}.

Lemma frame_shift pa n i : is_frame pa -> pa + 4096 * n <= 2 ^ 52 -> 0 <= i < n -> is_frame (pa + 4096 * i).
Proof. intros [H1 H2] Hn Hi. split; [lia|zify_div]. Qed.

Lemma vmm_io_memmap_correct s l g T pa n m (c := io_memmap_current_address g) : io_room s l g T (n + m) -> 0 < n -> 0 <= m ->
  is_frame pa -> pa + 4096 * n <= 2 ^ 52 ->
  let g' := MkVmm (kernel_pagetable g) (c + 4096 * n) in
  exists s' l' T', vmm_io_memmap g pa (4096 * n) s = Ret ((c, g'), s') /\
    grows (kernel_pagetable g) s l T s' l' T' /\ io_room s' l' g' T' m /\
    device_range_mapped c n (fun i => io_pte (pa + 4096 * i)) (translate s (kernel_pagetable g)) (translate s' (kernel_pagetable g)).
Proof.
  intros [Hwf [Hc1 Hc2] Hsp Hfree Hp] Hn Hm Hf Hpa g'. fold c in Hc1, Hc2, Hsp, Hfree.
  assert (IO_AREA = 2 ^ 64 - 2 ^ 28) as EA by done.
  destruct (map_device_pages s l (kernel_pagetable g) T (fun i => walk (kernel_pagetable g) (wrap 64 (c + i * PAGE_SIZE)) true true)
    0 "vmm_io_memmap: remap" (Z.lor (Z.lor PTE_P PTE_W) PTE_U) c n (fun i => io_pte (wrap 64 (pa + i * PAGE_SIZE))) Hwf Hc2 link_ok_user)
    as (s' & l' & T' & E & HG & HL & HM); try lia.
  - intros x Hx. left. lia.
  - intros i s0 Hi. unfold PAGE_SIZE. rewrite wrap_small by lia. unfold walk. cbn [negb andb orb].
    destruct (Z.ltb_spec (c + i * 4096) USERSPACE_VA_MIN); [unfold USERSPACE_VA_MIN in *; lia|]. by replace (i * 4096) with (4096 * i) by lia.
  - intros i Hi. unfold PAGE_SIZE. destruct (io_pte_entry _ (frame_shift pa n i Hf Hpa Hi)) as (H1 & H2 & _).
    destruct Hf. rewrite wrap_small by lia. by rewrite (Z.mul_comm i).
  - intros i Hi. apply Hfree. lia.
  - exists s', l', T'. assert (device_range_mapped c n (fun i => io_pte (pa + 4096 * i)) (translate s (kernel_pagetable g))
      (translate s' (kernel_pagetable g))) as HM'.
    { intros x Hx. rewrite (HM x Hx). destruct (Z.leb_spec c x), (Z.ltb_spec x (c + 4096 * n)); try done. cbn [andb]. unfold PAGE_SIZE.
      destruct Hf. rewrite wrap_small by zify_div. by rewrite (Z.mul_comm 4096). }
    split; [|split; [done|split; [|done]]].
    + unfold vmm_io_memmap. destruct Hf as [Hf1 Hf2]. change (pa mod PAGE_SIZE) with (pa mod 4096). rewrite Hf2.
      assert (4096 * n mod PAGE_SIZE = 0 /\ 4096 * n / PAGE_SIZE = n) as [-> ->] by (unfold PAGE_SIZE; zify_div).
      destruct (Z.eqb_spec (4096 * n) 0); [lia|]. cbn [negb Z.eqb]. cbv zeta. fold c. rewrite (bind_step _ _ _ _ _ E). cbn [default].
      unfold g'. by rewrite wrap_small by lia.
    + split; unfold g'; cbn [kernel_pagetable io_memmap_current_address].
      * apply HG.
      * split; [lia|]. rewrite <- Zplus_mod_idemp_r, (Z.mul_comm 4096), Z.mod_mul, Z.add_0_r by lia. done.
      * lia.
      * intros x Hx. rewrite HM' by (left; lia). destruct (Z.ltb_spec x (c + 4096 * n)); [lia|]. rewrite andb_false_r. apply Hfree. lia.
      * lia.
Qed.

(** What a device's address stands for. *)
Definition device_phys (s : pmem) (root va : Z) : option Z :=
  e ← translate s root va; Some (pte_follow e + va mod 4096).

(** A range of physical memory below 4 GiB, mapped behind the cursor. *)
Theorem vmm_map_physical_correct s l g T ps pe m (c := io_memmap_current_address g) (n := (ps mod 4096 + (pe - ps) + 4095) / 4096) :
  io_room s l g T (n + m) -> 0 <= m -> 0 <= ps < pe -> pe < 2 ^ 32 -> pe - ps < 2 ^ 31 ->
  let g' := MkVmm (kernel_pagetable g) (c + 4096 * n) in
  exists s' l' T', vmm_map_physical g ps pe s = Ret ((c + ps mod 4096, g'), s') /\
    grows (kernel_pagetable g) s l T s' l' T' /\ io_room s' l' g' T' m /\
    (forall k, 0 <= k < pe - ps -> device_phys s' (kernel_pagetable g) (c + ps mod 4096 + k) = Some (ps + k)) /\
    (forall va, device_va va -> va < c -> translate s' (kernel_pagetable g) va = translate s (kernel_pagetable g) va).
Proof.
  intros Hroom Hm Hps Hpe Hsize g'. assert (0 < n) as Hn by (unfold n; zify_div).
  assert (4096 * n <= ps mod 4096 + (pe - ps) + 4095) as Hn2 by (unfold n; zify_div).
  assert (is_frame (ps - ps mod 4096)) as Hf by (split; [zify_div|zify_div]).
  destruct (vmm_io_memmap_correct s l g T (ps - ps mod 4096) n m Hroom Hn Hm Hf) as (s' & l' & T' & E & HG & HR & HM); [zify_div|].
  fold c in E, HR, HM. fold g' in E, HR. destruct Hroom as [_ [Hc1 Hc2] Hsp _ _]. fold c in Hc1, Hc2, Hsp.
  assert (ps mod 4096 + (pe - ps) <= 4096 * n) as Hn3 by (unfold n; zify_div).
  exists s', l', T'. split; [|split; [done|split; [done|]]].
  - unfold vmm_map_physical. destruct (Z.leb_spec pe ps); [lia|]. cbv zeta.
    change (Z.land ps PAGE_MASK) with (PAGE_ROUND_DOWN ps). rewrite PAGE_ROUND_DOWN_low by lia.
    replace (4096 * (ps / 4096)) with (ps - ps mod 4096) by zify_div.
    rewrite (wrap_small 64 (ps - _)), (wrap_small 64 (pe - _)) by zify_div.
    assert ((if truth ((pe - (ps - ps mod 4096)) mod PAGE_SIZE) then Z.land (wrap 64 (pe - (ps - ps mod 4096) + PAGE_SIZE - 1)) PAGE_MASK
             else pe - (ps - ps mod 4096)) = 4096 * n) as ->.
    { change (Z.land (wrap 64 (pe - (ps - ps mod 4096) + PAGE_SIZE - 1)) PAGE_MASK) with (PAGE_ROUND_UP (pe - (ps - ps mod 4096))).
      rewrite PAGE_ROUND_UP_low by zify_div. unfold truth, n, PAGE_SIZE.
      destruct (Z.eqb_spec ((pe - (ps - ps mod 4096)) mod 4096) 0); cbn [negb]; zify_div. }
    rewrite (bind_step _ _ _ _ _ E). replace (ps - (ps - ps mod 4096)) with (ps mod 4096) by lia.
    pose proof (Z.mod_pos_bound ps 4096 ltac:(lia)). by rewrite wrap_small by (unfold IO_AREA in *; lia).
  - split.
    + intros k Hk. unfold device_phys. rewrite HM by (left; unfold IO_AREA in *; zify_div).
      destruct (Z.leb_spec c (c + ps mod 4096 + k)); [|zify_div].
      destruct (Z.ltb_spec (c + ps mod 4096 + k) (c + 4096 * n)); [|lia]. cbn [andb mbind option_bind].
      destruct (io_pte_entry _ (frame_shift (ps - ps mod 4096) n ((c + ps mod 4096 + k - c) / 4096) Hf ltac:(zify_div) ltac:(zify_div)))
        as (_ & _ & ->). f_equal. zify_div.
    + intros va Hva Hlt. rewrite (HM va Hva). destruct (Z.leb_spec c va); [lia|done].
Qed.

(** ** [vmm_init_lapic] *)

Definition kernel_flags : Z := Z.lor (Z.lor PTE_P PTE_W) PTE_XD.
Lemma build_kernel_pte_device pa : build_kernel_pte pa (MkPerm true false false) = Z.lor kernel_flags (PTE_SET_ADDR pa).
Proof.
  unfold build_kernel_pte, kernel_flags. cbn [writable executable].
  by rewrite <- !Z.lor_assoc, (Z.lor_assoc (PTE_SET_ADDR pa)), (Z.lor_comm (PTE_SET_ADDR pa)), <- !Z.lor_assoc, (Z.lor_comm (PTE_SET_ADDR pa)).
Qed.
Lemma kernel_pte_entry pa : is_frame pa -> let e := build_kernel_pte pa (MkPerm true false false) in
  0 <= e < 2 ^ 64 /\ pte_is_present e = true /\ pte_follow e = pa.
Proof. cbv zeta. rewrite build_kernel_pte_device. apply (link_entry kernel_flags). split_and!; vm_compute; congruence. Qed.

Theorem vmm_init_lapic_correct s l g T pa : pt_wf s l (kernel_pagetable g) T -> is_frame pa -> P2V s pa = lapic_va ->
  translate s (kernel_pagetable g) lapic_va = None -> 3 <= zlen (avail s l) ->
  exists s' l' T', vmm_init_lapic g pa s = Ret (tt, s') /\
    grows (kernel_pagetable g) s l T s' l' T' /\ zlen (avail s l) <= zlen (avail s' l') + 3 /\
    (forall k, 0 <= k < 4096 -> device_phys s' (kernel_pagetable g) (lapic_va + k) = Some (pa + k)) /\
    (forall va, device_va va -> va < lapic_va \/ lapic_va + 4096 <= va ->
       translate s' (kernel_pagetable g) va = translate s (kernel_pagetable g) va).
Proof.
  intros Hwf Hf Hva Hfree Hp. destruct Hlapic as (H1 & H2 & H3).
  destruct (map_device_pages s l (kernel_pagetable g) T (fun i => walk_kernel (kernel_pagetable g) (wrap 64 (lapic_va + i * PAGE_SIZE)) true)
    (-1) "vmm_map_kernel_pages: remap" (Z.lor PTE_P PTE_W) lapic_va 1
    (fun i => build_kernel_pte (wrap 64 (pa + i * PAGE_SIZE)) (MkPerm true false false)) Hwf H3)
    as (s' & l' & T' & E & HG & HL & HM); try lia.
  - split_and!; vm_compute; congruence.
  - intros x Hx. right. lia.
  - intros i s0 Hi. assert (i = 0) as -> by lia. rewrite wrap_small by lia. unfold walk_kernel.
    destruct (Z.ltb_spec (lapic_va + 0 * PAGE_SIZE) KERNEL_VA_MIN); [unfold KERNEL_VA_MIN in *; lia|]. done.
  - intros i Hi. assert (i = 0) as -> by lia. destruct (kernel_pte_entry pa Hf) as (K1 & K2 & _). destruct Hf.
    rewrite Z.mul_0_l, Z.add_0_r, wrap_small by lia. done.
  - intros i Hi. assert (i = 0) as -> by lia. by rewrite Z.mul_0_r, Z.add_0_r.
  - exists s', l', T'. split; [|split; [done|split; [lia|split]]].
    + unfold vmm_init_lapic. rewrite (bind_step _ _ s lapic_va s) by (unfold reads; by rewrite Hva).
      assert (vmm_map_kernel_pages (kernel_pagetable g) lapic_va pa 0x1000 (MkPerm true false false) s = Ret (0, s')) as E'.
      { unfold vmm_map_kernel_pages. change (lapic_va mod PAGE_SIZE) with (lapic_va mod 4096). change (pa mod PAGE_SIZE) with (pa mod 4096).
        destruct Hf as [_ ->]. rewrite H3. cbn [Z.eqb andb negb]. change (0x1000 mod PAGE_SIZE =? 0) with true. cbn [negb].
        change (0x1000 / PAGE_SIZE) with 1. by rewrite (bind_step _ _ _ _ _ E). }
      by rewrite (bind_step _ _ _ _ _ E').
    + intros k Hk. unfold device_phys. rewrite HM by (right; lia).
      destruct (Z.leb_spec lapic_va (lapic_va + k)), (Z.ltb_spec (lapic_va + k) (lapic_va + 4096 * 1)); try lia. cbn [andb mbind option_bind].
      assert ((lapic_va + k - lapic_va) / 4096 = 0) as -> by zify_div. destruct (kernel_pte_entry pa Hf) as (_ & _ & K3). destruct Hf.
      rewrite Z.mul_0_l, Z.add_0_r, wrap_small by lia. rewrite K3. f_equal. zify_div.
    + intros va Hva' Hout. rewrite (HM va Hva'). destruct (Z.leb_spec lapic_va va), (Z.ltb_spec va (lapic_va + 4096 * 1)); try lia; done.
Qed.
End kernel_space.
