(* ===== verification/Exec.v ===== *)
(** * The program loader (kernel/src/userspace/exec.c, and the stack canary of
      proc.c)

    [proc_exec] reads an executable through the files of Files.v, creates a
    process (Proc.v), fills its address space (Vmm.v) and puts it on the run
    queue.  The surroundings hold the process table and, beside it, what no
    other part looks at: the saved registers and the canary of a process.

    The descriptors of the new process are the entry of the table of Files.v
    with the slot it is created in.  Physical memory is in reach of the kernel
    at [P2V]; an address of a kernel stack goes through the page table that is
    installed, and an access to an address that is not mapped is [Undef]. *)
From S2P Require Import Prelude Mem PhysMem Vmm DzFS Sched Files Syscalls Proc.

(** ** The file format *)

Definition ELF_MAGIC : Z := 0x464C457F.
Definition ELF_PROG_LOAD : Z := 1.
Definition ELF_ET_EXEC : Z := 2.
Definition ELF_ET_DYN : Z := 3.
Definition USER_DEFAULT_LOAD_BASE : Z := 0x00400000.
Definition MAX_ARGV : Z := 32.
Definition MAX_ENVP : Z := 16.

Record ElfHeader := MkElf {
  e_magic : Z; e_elf : list Z; e_type : Z; e_machine : Z; e_version : Z; e_entry : Z; e_phoff : Z;
  e_shoff : Z; e_flags : Z; e_ehsize : Z; e_phentsize : Z; e_phnum : Z; e_shentsize : Z; e_shnum : Z;
  e_shstrndx : Z
}.
Record ProgramHeader := MkPh {
  p_type : Z; p_flags : Z; p_off : Z; p_vaddr : Z; p_paddr : Z; p_filesz : Z; p_memsz : Z; p_align : Z
}.
Definition sizeof_elf : Z := 64.
Definition sizeof_ph : Z := 56.

(** A number of [n] bytes at offset [off] of a packed structure. *)
Fixpoint le (l : list Z) : Z := match l with [] => 0 | b :: l' => b + 256 * le l' end.
Definition bytes_at (l : list Z) (off n : nat) : list Z := take n (drop off l).
Definition field (l : list Z) (off n : nat) : Z := le (bytes_at l off n).

Definition elf_of (l : list Z) : ElfHeader :=
  MkElf (field l 0 4) (bytes_at l 4 12) (field l 16 2) (field l 18 2) (field l 20 4) (field l 24 8) (field l 32 8)
    (field l 40 8) (field l 48 4) (field l 52 2) (field l 54 2) (field l 56 2) (field l 58 2) (field l 60 2)
    (field l 62 2).
Definition ph_of (l : list Z) : ProgramHeader :=
  MkPh (field l 0 4) (field l 4 4) (field l 8 8) (field l 16 8) (field l 24 8) (field l 32 8) (field l 40 8)
    (field l 48 8).

Definition flags2perm (flags : Z) : pte_permissions :=
  MkPerm (truth (Z.land flags 2)) (truth (Z.land flags 1)) true.

(** [None]: an unsupported type. *)
Definition load_bias (elf : ElfHeader) : option Z :=
  if e_type elf =? ELF_ET_DYN then Some USER_DEFAULT_LOAD_BASE
  else if e_type elf =? ELF_ET_EXEC then
    Some (if (e_entry elf =? 0) || (e_entry elf <? USERSPACE_VA_MIN) || (USERSPACE_VA_MAX <=? e_entry elf)
          then USER_DEFAULT_LOAD_BASE else 0)
  else None.

(** ** The surroundings *)

(** [struct cpu_context], the general registers in its order. *)
Record cpu_context := MkCtx { general : list Z; ctx_rsp : Z; ctx_rip : Z; ctx_rflags : Z; kernel_rip : Z }.
Record proc_extra := MkExtra { kernel_stack_base : Z; stack_canary : Z; ctx : cpu_context }.

Class ExecEnv (E : Type) := {
  env_procs : E -> pstate;
  env_put_procs : pstate -> E -> E;
  env_extra : E -> gmap Z proc_extra;
  env_put_extra : gmap Z proc_extra -> E -> E
}.

(** The page table that is installed: that of the running process. *)
Definition installed_table (s : pstate) : Z :=
  if running_process s =? 0 then kernel_pagetable (vm s)
  else match pcbs s !! running_process s with Some b => pagetable b | None => kernel_pagetable (vm s) end.

(** Where an address of the kernel's half that is mapped leads to. *)
Definition kernel_address (s : pstate) (va : Z) : option Z :=
  e ← translate (mm s) (installed_table s) va; Some (wrap 64 (P2V (mm s) (pte_follow e) + va mod PAGE_SIZE)).

Section exec.
Context {D : Type} `{BlockDevice D} {E : Type} `{ExecEnv E}.
Notation K := (ST (kstate D E)).

Definition on_procs {A} (m : ST pstate A) : K A :=
  on_env (zoom env_procs (fun p e => env_put_procs p e) m).
Definition on_memory {A} (m : ST pmem A) : K A := on_procs (on_mm m).
Definition get_extra (p : Z) : K proc_extra := fun s =>
  match env_extra (env s) !! p with Some x => Ret (x, s) | None => Undef end.
Definition put_extra (p : Z) (x : proc_extra) : K unit :=
  st_modify (fun s => set_env s (env_put_extra (<[p := x]> (env_extra (env s))) (env s))).

(** ** Segments *)

(** [load_segment]; [off] and [sz] are numbers of 32 bits. *)
Fixpoint load_segment_from (fuel : nat) (pagetable : Z) (ip : option Z) (va off sz i : Z) : K Z :=
  match fuel with
  | O => st_nofuel
  | S fuel' =>
      if negb (i <? sz) then mret 0
      else
        let current_va := wrap 64 (va + i) in
        physical_address ← on_memory (vmm_walkaddr pagetable current_va true);
        if physical_address =? 0 then st_panic "load_segment: address should exist"
        else
          let page_off := current_va mod PAGE_SIZE in
          let n_page := PAGE_SIZE - page_off in
          let remaining := sz - i in
          let n := if remaining <? n_page then remaining else n_page in
          '(r, data) ← fs_read ip n (wrap 32 (off + i));
          _ ← on_memory (st_modify (fun m =>
                set_ram m (store_list (ram m) (wrap 64 (P2V m physical_address + page_off)) data)));
          if negb (r =? n) then mret (-1)
          else load_segment_from fuel' pagetable ip va off sz (wrap 32 (i + n))
  end.
Definition load_segment (pagetable : Z) (ip : option Z) (va off sz : Z) : K Z :=
  load_segment_from (S (Z.to_nat (wrap 32 sz))) pagetable ip va (wrap 32 off) (wrap 32 sz) 0.

(** One [PT_LOAD] segment; [None] when it is bad, else the end of its pages. *)
Definition load_one (pagetable : Z) (ip : option Z) (bias : Z) (ph : ProgramHeader) : K (option Z) :=
  if p_memsz ph <? p_filesz ph then mret None
  else
    let mapped_va := wrap 64 (p_vaddr ph + bias) in
    let map_start := PAGE_ROUND_DOWN mapped_va in
    let map_offset := mapped_va - map_start in
    let alloc_size := PAGE_ROUND_UP (wrap 64 (map_offset + p_memsz ph)) in
    if (map_start <? USERSPACE_VA_MIN) || (USERSPACE_VA_MAX <? wrap 64 (map_start + alloc_size)) then mret None
    else
      r ← on_memory (vmm_allocate pagetable map_start alloc_size (flags2perm (p_flags ph)) false);
      if r =? -1 then mret None
      else
        r ← (if 0 <? p_filesz ph then load_segment pagetable ip mapped_va (p_off ph) (p_filesz ph) else mret 0);
        if r <? 0 then mret None
        else
          r ← (if p_filesz ph <? p_memsz ph
               then on_memory (vmm_zero pagetable (wrap 64 (mapped_va + p_filesz ph)) (p_memsz ph - p_filesz ph))
               else mret 0);
          if r <? 0 then mret None else mret (Some (wrap 64 (map_start + alloc_size))).

(** The loop over the program headers; [top] is [initial_data_segment], which
    is put into the process once it is done. *)
Fixpoint load_segments (k : nat) (pagetable : Z) (ip : option Z) (bias off top : Z) : K (option Z) :=
  match k with
  | O => mret (Some top)
  | S k' =>
      '(n, data) ← fs_read ip sizeof_ph off;
      if negb (n =? sizeof_ph) then mret None
      else
        let ph := ph_of data in
        let next := wrap 64 (off + sizeof_ph) in
        if negb (p_type ph =? ELF_PROG_LOAD) then load_segments k' pagetable ip bias next top
        else
          r ← load_one pagetable ip bias ph;
          match r with
          | None => mret None
          | Some end_ => load_segments k' pagetable ip bias next (if top <? end_ then end_ else top)
          end
  end.

(** ** The first stack *)

(** A string and its end, below [sp]; the result of [vmm_memcpy] is ignored. *)
Definition push (pagetable sp : Z) (data : list Z) : ST pmem Z :=
  let sp := wrap 64 (sp - zlen data) in
  _ ← vmm_memcpy pagetable sp data true; mret sp.
Fixpoint push_strings (pagetable sp : Z) (args : list (list Z)) : ST pmem (Z * list Z) :=
  match args with
  | [] => mret (sp, [])
  | a :: args' =>
      sp ← push pagetable sp (a ++ [0]);
      '(last, ptrs) ← push_strings pagetable sp args'; mret (last, sp :: ptrs)
  end.
Fixpoint push_words (pagetable sp : Z) (ws : list Z) : ST pmem Z :=
  match ws with
  | [] => mret sp
  | w :: ws' => sp ← push pagetable sp (load_list (store64 zeros 0 w) 0 8); push_words pagetable sp ws'
  end.

(** The strings, the (empty) environment, the pointers to the arguments from
    the last to the first, their number, and the return slot of [_start]. *)
Definition build_stack (pagetable : Z) (args : list (list Z)) : ST pmem Z :=
  let args := take (Z.to_nat MAX_ARGV) args in
  '(sp, argv_ptrs) ← push_strings pagetable USER_STACK_TOP args;
  sp ← push_words pagetable sp [0];
  sp ← push_words pagetable sp (0 :: reverse argv_ptrs);
  sp ← push_words pagetable sp [zlen args];
  push_words pagetable (Z.land sp (wrap 64 (Z.lnot 15))) [0].

(** ** The stack canary *)

Definition STACK_CANARY_MAGIC : Z := 0xDEADBEEFCAFEBABE.

Definition kernel_store (va v : Z) : ST pstate unit :=
  a ← reads (fun s => kernel_address s va);
  match a with
  | None => st_undef
  | Some a => on_mm (st_modify (fun m => set_ram m (store64 (ram m) a v)))
  end.
Definition kernel_load (va : Z) : ST pstate Z :=
  a ← reads (fun s => kernel_address s va);
  match a with None => st_undef | Some a => reads (fun s => load64 (ram (mm s)) a) end.

Definition set_canary (x : proc_extra) (c : Z) : proc_extra := MkExtra (kernel_stack_base x) c (ctx x).
Definition proc_init_stack_canary (tsc proc : Z) : K unit :=
  x ← get_extra proc;
  b ← on_procs (get_pcb proc);
  let x := set_canary x (Z.lxor (Z.lxor STACK_CANARY_MAGIC tsc) (pid b)) in
  _ ← put_extra proc x;
  on_procs (kernel_store (kernel_stack_base x) (stack_canary x)).
Definition proc_check_stack_canary (proc : Z) : K unit :=
  x ← get_extra proc;
  v ← on_procs (kernel_load (kernel_stack_base x));
  if negb (v =? stack_canary x) then st_panic "Stack corruption detected" else mret tt.

(** ** [proc_exec] *)

Definition EXEC_FAILED : Z := 2 ^ 64 - 1.

(** The [bad] label, before and after a process was created. *)
Definition exec_bad (proc_inode : option Z) : K Z := _ ← fs_close proc_inode; mret EXEC_FAILED.
Definition exec_bad_proc (proc_inode : option Z) (proc : Z) : K Z :=
  _ ← fs_close proc_inode; _ ← on_procs (proc_exec_bad proc); mret EXEC_FAILED.

(** From the heap pointers on; [end_] is the end of the segments, [i] the slot
    of the process. *)
Definition exec_finish (tsc proc : Z) (proc_inode working_directory : option Z) (end_ entry sp : Z) : K Z :=
  let top := PAGE_ROUND_UP end_ in
  b ← on_procs (get_pcb proc);
  _ ← on_procs (put_pcb proc (pcb_heap b top top));
  g ← on_procs (reads vm);
  stack ← on_memory (vmm_allocate_proc_kernel_stack g (proc_i b));
  b ← on_procs (get_pcb proc);
  _ ← on_procs (put_pcb proc (pcb_stack b stack));
  _ ← put_extra proc (MkExtra (wrap 64 (stack - KERNEL_STACK_SIZE)) 0
        (MkCtx (replicate 15 0) sp entry 0x202 0));
  _ ← proc_init_stack_canary tsc proc;
  _ ← exec_files (proc_i b) proc_inode working_directory;
  _ ← on_procs (on_sched (sched_fork proc));
  _ ← on_procs (on_sched (sched_set_priority proc PRIO_NORMAL_MIN));
  _ ← on_procs (on_sched (sched_nice proc 1));
  x ← on_procs (on_sched (get_proc proc));
  _ ← on_procs (on_sched (put_proc proc (set_state x USED)));
  _ ← on_procs (on_sched (sched_wakeup proc));
  b ← on_procs (get_pcb proc);
  mret (pid b).

Definition proc_exec (fuel : nat) (tsc : Z) (path : list Z) (args : list (list Z))
    (working_directory : option Z) : K Z :=
  proc_inode ← fs_open path working_directory 0;
  match proc_inode with
  | None => mret EXEC_FAILED
  | Some _ =>
      '(n, data) ← fs_read proc_inode sizeof_elf 0;
      let elf := elf_of data in
      if negb (n =? sizeof_elf) || negb (e_magic elf =? ELF_MAGIC) then exec_bad proc_inode
      else
        proc ← on_procs (proc_allocate fuel);
        if proc =? 0 then exec_bad proc_inode
        else
          match load_bias elf with
          | None => exec_bad_proc proc_inode proc
          | Some bias =>
              b ← on_procs (get_pcb proc);
              r ← load_segments (Z.to_nat (e_phnum elf)) (pagetable b) proc_inode bias (e_phoff elf) 0;
              match r with
              | None => exec_bad_proc proc_inode proc
              | Some end_ =>
                  sp ← on_memory (build_stack (pagetable b) args);
                  exec_finish tsc proc proc_inode working_directory end_ (wrap 64 (bias + e_entry elf)) sp
              end
          end
  end.

(** [userspace_init]. *)
Definition userspace_init (fuel : nat) (tsc1 tsc2 : Z) : K unit :=
  let init := [SLASH; 105; 110; 105; 116] in
  r ← proc_exec fuel tsc1 init [init] None;
  if r =? EXEC_FAILED then st_panic "cannot create /init process"
  else
    r ← proc_exec fuel tsc2 init [init] None;
    if r =? EXEC_FAILED then st_panic "cannot create /init process" else mret tt.
End exec.

(** ** [sys_exec] *)

Section sys_exec.
Context {D : Type} `{BlockDevice D} {E : Type} `{ExecEnv E} `{KernelEnv E}.
Notation K := (ST (kstate D E)).

(** The strings of the argument array [args] from the [i]-th on; [None] when
    one of them is not valid. *)
Fixpoint copy_args (k : nat) (args i : Z) : K (option (list (list Z))) :=
  match k with
  | O => mret (Some [])
  | S k' =>
      p ← my_process;
      w ← on_env (env_load p (wrap 64 (args + 8 * i)) 8);
      if le w =? 0 then mret (Some [])
      else
        a ← validate_user_string (le w) MAX_PATH_LENGTH;
        match a with
        | None => mret None
        | Some a => r ← copy_args k' args (i + 1); mret (cons a <$> r)
        end
  end.

Definition sys_exec (fuel : nat) (tsc path args : Z) : K Z :=
  kernel_path ← validate_user_string path MAX_PATH_LENGTH;
  match kernel_path with
  | None => mret EXEC_FAILED
  | Some kernel_path =>
      ok ← (if truth args then validate_user_ptr args (8 * MAX_ARGV) false else mret true);
      if negb (ok : bool) then mret EXEC_FAILED
      else
        kernel_args ← (if truth args then copy_args (Z.to_nat MAX_ARGV) args 0 else mret (Some []));
        match kernel_args with
        | None => mret EXEC_FAILED
        | Some kernel_args =>
            p ← my_process;
            x ← get_files p;
            proc_exec fuel tsc kernel_path kernel_args (working_directory x)
        end
  end.
End sys_exec.
