(* ===== verification/ExecFacts.v ===== *)
(** * What the program loader does (about the definitions of Exec.v)

    [load_segment] copies a part of a file into user pages, [load_one] maps
    and fills one segment, [load_segments] all of them:
    [exec_image_correct].  [elf_header_roundtrip] and
    [program_header_roundtrip] are about the layout of the two headers. *)
From S2P Require Import Prelude Mem PhysMem Vmm UserPages DzFS Sched Files FilesFacts Syscalls KernelEnv Proc Exec.

(** ** The surroundings *)

Class ExecEnvLaws (E : Type) `{ExecEnv E} := {
  procs_put p e : env_procs (env_put_procs p e) = p;
  put_put p q e : env_put_procs p (env_put_procs q e) = env_put_procs p e;
  put_procs e : env_put_procs (env_procs e) e = e
}.

Section facts.
Context {D : Type} `{BlockDevice D} {E : Type} `{HE : ExecEnv E} `{!ExecEnvLaws E}.
Implicit Types (s : kstate D E) (m : pmem).

Definition mem_of s : pmem := mm (env_procs (env s)).
Definition with_mem s m : kstate D E := set_env s (env_put_procs (set_mm (env_procs (env s)) m) (env s)).

Lemma mem_of_with s m : mem_of (with_mem s m) = m.
Proof. unfold mem_of, with_mem. cbn. by rewrite procs_put. Qed.
Lemma with_with s m m' : with_mem (with_mem s m) m' = with_mem s m'.
Proof. unfold with_mem, set_env. cbn. by rewrite procs_put, put_put. Qed.
Lemma with_same s : with_mem s (mem_of s) = s.
Proof.
  unfold with_mem, mem_of. assert (forall p, set_mm p (mm p) = p) as -> by by intros []. rewrite put_procs. by destruct s.
Qed.

Lemma on_procs_run {A} (c : ST pstate A) s a p : c (env_procs (env s)) = Ret (a, p) ->
  on_procs c s = Ret (a, set_env s (env_put_procs p (env s))).
Proof. intros Ec. unfold on_procs, on_env, zoom. by rewrite Ec. Qed.

Lemma on_memory_run {A} (c : ST pmem A) s a m : c (mem_of s) = Ret (a, m) -> on_memory c s = Ret (a, with_mem s m).
Proof. intros Ec. apply on_procs_run. unfold on_mm, zoom. unfold mem_of in Ec. by rewrite Ec. Qed.

(** ** A file that is read *)

(** Reading from the inode gives the bytes of [content] and changes nothing,
    whatever memory holds. *)
Record holds_file s (ip : option Z) (content : list Z) : Prop := {
  hf_len : zlen content < 2 ^ 31;
  hf_bytes : Forall (fun b => 0 <= b < 256) content;
  hf_read e len off : 0 <= len -> 0 <= off ->
    let d := take (Z.to_nat len) (drop (Z.to_nat off) content) in
    fs_read ip len off (set_env s e) = Ret ((zlen d, d), set_env s e)
}.

Lemma holds_file_env s ip content e : holds_file s ip content -> holds_file (set_env s e) ip content.
Proof. intros []. by constructor. Qed.

Lemma holds_file_read s ip content len off : holds_file s ip content -> 0 <= len -> 0 <= off ->
  let d := take (Z.to_nat len) (drop (Z.to_nat off) content) in fs_read ip len off s = Ret ((zlen d, d), s).
Proof. intros Hf Hl Ho. pose proof (hf_read _ _ _ Hf (env s) len off Hl Ho) as HR. destruct s. exact HR. Qed.

Lemma zlen_chunk (content : list Z) len off : 0 <= len -> 0 <= off ->
  zlen (take (Z.to_nat len) (drop (Z.to_nat off) content)) = Z.max 0 (Z.min len (zlen content - off)).
Proof. intros. unfold zlen. rewrite length_take, length_drop. lia. Qed.

Lemma chunk_bytes s ip content len off : holds_file s ip content ->
  Forall (fun b => 0 <= b < 256) (take (Z.to_nat len) (drop (Z.to_nat off) content)).
Proof. intros Hf. apply Forall_take, Forall_drop, Hf. Qed.

Definition byte_at (content : list Z) (i : Z) : Z := default 0 (zget content i).

Lemma byte_chunk content len off i : 0 <= off -> 0 <= i < len ->
  byte_at (take (Z.to_nat len) (drop (Z.to_nat off) content)) i = byte_at content (off + i).
Proof.
  intros Ho Hi. unfold byte_at, zget. destruct (Z.ltb_spec i 0), (Z.ltb_spec (off + i) 0); try lia.
  rewrite lookup_take_lt by lia. rewrite lookup_drop. do 2 f_equal. lia.
Qed.

(** A regular file of a well-formed file system. *)
Lemma holds_file_of `{!BlockDeviceLaws D} s i n dnb ind : zget (inodes s) i = Some n ->
  fs_ok (main_filesystem s) (disk s) -> file_on (disk s) (i_dnode n) dnb ind ->
  file_ok (main_filesystem s) (disk s) (i_dnode n) dnb ind -> load32 dnb f_size <= DZFS_MAX_FILESIZE ->
  0 <= load32 dnb f_size -> (forall o, 0 <= fbyte (disk s) dnb ind o < 256) ->
  holds_file s (Some i) (fbyte (disk s) dnb ind <$> seqZ 0 (load32 dnb f_size)).
Proof.
  intros En Hfs Hon Hok Hmax H0 Hb. assert (DZFS_MAX_FILESIZE < 2 ^ 31) as HM by done.
  assert (zlen (fbyte (disk s) dnb ind <$> seqZ 0 (load32 dnb f_size)) = load32 dnb f_size) as Hlen
    by (unfold zlen; rewrite length_fmap, length_seqZ; lia).
  constructor; [lia|apply Forall_fmap, Forall_true; intros o; apply Hb|].
  intros e len off Hl Ho d.
  assert (d = fbyte (disk s) dnb ind <$> seqZ off (Z.min (load32 dnb f_size - off) len)) as Ed.
  { unfold d. rewrite <- fmap_drop, <- fmap_take. f_equal. apply list_eq. intros k.
    destruct (decide (Z.of_nat k < Z.min (load32 dnb f_size - off) len)) as [Hk|Hk].
    - rewrite lookup_take_lt, lookup_drop by lia. rewrite !lookup_seqZ_lt by lia. f_equal. lia.
    - rewrite (lookup_seqZ_ge off) by lia. destruct (decide (Z.of_nat k < len)) as [Hk2|Hk2].
      + rewrite lookup_take_lt, lookup_drop by lia. apply lookup_seqZ_ge. lia.
      + apply lookup_take_ge. lia. }
  assert (zlen d < 2 ^ 31) as Hd by (rewrite Ed; unfold zlen; rewrite length_fmap, length_seqZ; lia).
  rewrite (fs_read_run (set_env s e) i n len off d (disk s)); [|done| |done].
  - unfold set_disk, set_env. cbn. done.
  - cbn. rewrite Ed. by apply dzfs_read_correct.
Qed.
(** ** Copying a part of the file *)

Definition no_frame_0 m (P : pages) : Prop := forall v p pm, P !! v = Some (p, pm) -> p <> hhdm_offset m.

Section copy.
Context (root : Z) (ip : option Z) (content : list Z) (l : list Z) (T : gmap (nat * Z) Z) (P : pages) (va off sz : Z).
Context (Hc : covered P va sz (fun _ => True)) (Hva : 0 <= va) (Hhi : va + sz <= 2 ^ 46).
Context (Hoff : 0 <= off) (Hsz : off + sz < 2 ^ 32).

(** One round: the page is found, a chunk is read and put there. *)
Lemma load_chunk fuel i s : owns (mem_of s) l root T P -> no_frame_0 (mem_of s) P -> holds_file s ip content ->
  0 <= i < sz ->
  let n := Z.min (sz - i) (4096 - (va + i) mod 4096) in
  exists m', owns m' l root T P /\ loads (mem_of s) l T P m' l T P /\
    set_bytes (va + i) (Z.max 0 (Z.min n (zlen content - (off + i)))) (fun k => byte_at content (off + i + k))
      (user_mem (mem_of s) P) (user_mem m' P) /\
    load_segment_from (S fuel) root ip va off sz i s =
    if off + i + n <=? zlen content then load_segment_from fuel root ip va off sz (i + n) (with_mem s m')
    else Ret (-1, with_mem s m').
Proof.
  intros Ho H0 Hf Hi n. set (m := mem_of s) in *.
  assert (0 < n <= sz - i /\ n <= 4096 - (va + i) mod 4096) as [Hn1 Hn2] by (unfold n; zify_div).
  destruct (Hc (va + i) ltac:(lia)) as (p & perm & Hp & Hu & _).
  destruct (owned_frame m l root T P Ho (va + i) p perm Hp) as (Hpg & Hfr & HV & HPV).
  pose proof (owned_va m l root T P Ho (va + i) p perm Hp) as Huv.
  set (d := take (Z.to_nat n) (drop (Z.to_nat (off + i)) content)).
  assert (zlen d = Z.max 0 (Z.min n (zlen content - (off + i)))) as Hd by (apply zlen_chunk; lia).
  destruct (write_in_page m l root T P (va + i) d p perm Ho Hp (chunk_bytes s ip content n (off + i) Hf)
    ltac:(lia)) as (Ho1 & HL1 & HB1).
  set (m' := set_ram m _) in *. exists m'. split; [done|]. split; [done|]. split.
  { rewrite <- Hd. intros x. rewrite HB1. destruct ((va + i <=? x) && _) eqn:Ex; [|done]. f_equal.
    apply andb_prop in Ex as [H1%Z.leb_le H2%Z.ltb_lt]. apply (byte_chunk content n (off + i)); lia. }
  cbn [load_segment_from]. destruct (Z.ltb_spec i sz); [|lia]. cbn [negb].
  rewrite (wrap_small 64 (va + i)) by lia.
  rewrite (bind_step _ _ s (V2P m p) s).
  2:{ rewrite (on_memory_run _ s (V2P m p) m); [unfold m; by rewrite with_same|]. fold m.
      rewrite (vmm_walkaddr_spec m l root T (va + i) true (ow_wf _ _ _ _ _ Ho) Huv).
      rewrite (owned_translate m l root T P Ho _ _ _ Hp).
      destruct (owned_pte m l root T P Ho _ _ _ Hp) as (_ & -> & -> & _). by rewrite Hu. }
  destruct (Z.eqb_spec (V2P m p) 0) as [E0|_].
  { exfalso. apply (H0 _ _ _ Hp). rewrite HV in E0. lia. }
  cbv zeta. unfold PAGE_SIZE.
  assert ((if sz - i <? 4096 - (va + i) mod 4096 then sz - i else 4096 - (va + i) mod 4096) = n) as ->
    by (unfold n; destruct (Z.ltb_spec (sz - i) (4096 - (va + i) mod 4096)); lia).
  rewrite (wrap_small 32 (off + i)) by lia.
  rewrite (bind_step _ _ s (zlen d, d) s (holds_file_read s ip content n (off + i) Hf ltac:(lia) ltac:(lia))).
  rewrite (bind_step _ _ s tt (with_mem s m')).
  2:{ apply on_memory_run. fold m. unfold st_modify. rewrite HPV, (wrap_small 64 (p + (va + i) mod 4096)); [done|].
      destruct Hpg. pose proof (Z.mod_pos_bound (va + i) 4096). lia. }
  rewrite Hd. destruct (Z.leb_spec (off + i + n) (zlen content)).
  - destruct (Z.eqb_spec (Z.max 0 (Z.min n (zlen content - (off + i)))) n); [|lia]. cbn [negb].
    by rewrite wrap_small by lia.
  - destruct (Z.eqb_spec (Z.max 0 (Z.min n (zlen content - (off + i)))) n); [lia|]. done.
Qed.

Lemma no_frame_0_loads m l' T' m' : loads m l T P m' l' T' P -> no_frame_0 m P -> no_frame_0 m' P.
Proof. intros HL H0 v p pm Hp. rewrite (ld_off _ _ _ _ _ _ _ _ HL). by eapply H0. Qed.

Lemma load_segment_loop : forall fuel i s, owns (mem_of s) l root T P -> no_frame_0 (mem_of s) P ->
  holds_file s ip content -> 0 <= i <= sz -> (Z.to_nat (sz - i) < fuel)%nat ->
  exists r m', load_segment_from fuel root ip va off sz i s = Ret (r, with_mem s m') /\ owns m' l root T P /\
    loads (mem_of s) l T P m' l T P /\
    if off + sz <=? zlen content
    then r = 0 /\ set_bytes (va + i) (sz - i) (fun k => byte_at content (off + i + k))
           (user_mem (mem_of s) P) (user_mem m' P)
    else i < sz -> r = -1.
Proof.
  induction fuel as [|fuel IH]; intros i s Ho H0 Hf Hi Hfuel; [lia|].
  destruct (decide (i = sz)) as [->|Hne].
  { exists 0, (mem_of s). cbn [load_segment_from]. rewrite Z.ltb_irrefl. cbn [negb]. rewrite with_same.
    split; [done|]. split; [done|]. split; [apply loads_refl|]. destruct (off + sz <=? zlen content).
    - split; [done|]. rewrite Z.sub_diag. apply set_bytes_none.
    - intros ?; lia. }
  destruct (load_chunk fuel i s Ho H0 Hf ltac:(lia)) as (m1 & Ho1 & HL1 & HB1 & ->).
  set (n := Z.min (sz - i) (4096 - (va + i) mod 4096)) in *. assert (0 < n <= sz - i) as Hn by (unfold n; zify_div).
  destruct (Z.leb_spec (off + i + n) (zlen content)) as [Hle|Hgt].
  - destruct (IH (i + n) (with_mem s m1)) as (r & m2 & EQ & Ho2 & HL2 & HR).
    + by rewrite mem_of_with.
    + rewrite mem_of_with. by eapply no_frame_0_loads.
    + by apply holds_file_env.
    + lia.
    + lia.
    + rewrite with_with in EQ. rewrite mem_of_with in HL2, HR. exists r, m2. split; [exact EQ|]. split; [done|].
      split; [by eapply loads_trans|]. destruct (Z.leb_spec (off + sz) (zlen content)).
      * destruct HR as [-> HB2]. split; [done|]. rewrite Z.max_r, Z.min_l in HB1 by lia.
        replace (sz - i) with (n + (sz - (i + n))) by lia.
        eapply set_bytes_app; [lia|lia|exact HB1| |done|].
        -- replace (va + i + n) with (va + (i + n)) by lia. exact HB2.
        -- intros k Hk. cbn. f_equal. lia.
      * intros _. apply HR. unfold n in *. lia.
  - exists (-1), m1. split; [done|]. split; [done|]. split; [done|].
    destruct (Z.leb_spec (off + sz) (zlen content)); [lia|done].
Qed.
End copy.

(** ** One segment *)

Definition seg_va (bias : Z) (ph : ProgramHeader) : Z := p_vaddr ph + bias.
Definition seg_first (bias : Z) (ph : ProgramHeader) : Z := seg_va bias ph / 4096.
Definition seg_pages (bias : Z) (ph : ProgramHeader) : Z := (seg_va bias ph mod 4096 + p_memsz ph + 4095) / 4096.
Definition seg_end (bias : Z) (ph : ProgramHeader) : Z := 4096 * (seg_first bias ph + seg_pages bias ph).

(** A segment below 4 GiB whose sizes make sense. *)
Record low_segment (bias : Z) (ph : ProgramHeader) : Prop := {
  lo_min : USERSPACE_VA_MIN <= 4096 * seg_first bias ph;
  lo_max : seg_va bias ph + p_memsz ph + 8192 <= 2 ^ 32;
  lo_mem : 0 < p_memsz ph;
  lo_file : 0 <= p_filesz ph <= p_memsz ph;
  lo_off : 0 <= p_off ph /\ p_off ph + p_filesz ph < 2 ^ 32
}.

(** The byte a segment puts at an address. *)
Definition seg_byte (content : list Z) (bias : Z) (ph : ProgramHeader) (x : Z) : Z :=
  let i := x - seg_va bias ph in if i <? p_filesz ph then byte_at content (p_off ph + i) else 0.

(** Why a segment may not be loaded. *)
Definition seg_fails (content : list Z) (ph : ProgramHeader) (m' : pmem) (l' : list Z) : Prop :=
  (length (avail m' l') <= 1)%nat \/ (0 < p_filesz ph /\ zlen content < p_off ph + p_filesz ph) \/
  (p_filesz ph < p_memsz ph /\ Vmm.writable (flags2perm (p_flags ph)) = false).

Section segment.
Context (root : Z) (ip : option Z) (content : list Z) (bias : Z) (ph : ProgramHeader) (Hlow : low_segment bias ph).
Let va := seg_va bias ph.
Let first := seg_first bias ph.
Let n := seg_pages bias ph.

Lemma seg_geometry : 0 < n /\ va = 4096 * first + va mod 4096 /\ 0 <= va mod 4096 < 4096 /\
  va + p_memsz ph <= 4096 * (first + n) /\ 4096 * (first + n) + 4096 <= 2 ^ 32 /\ 0 <= first /\ 0 <= va.
Proof.
  destruct Hlow as [H1 H2 H3 H4 H5]. unfold USERSPACE_VA_MIN in H1. unfold first, n, va, seg_first, seg_pages in *.
  zify_div.
Qed.

(** The file's part and the cleared part of a segment whose pages are there. *)
Lemma fill_segment s l T P : owns (mem_of s) l root T P -> no_frame_0 (mem_of s) P -> holds_file s ip content ->
  (forall v, first <= v < first + n -> exists p, P !! v = Some (p, flags2perm (p_flags ph))) ->
  exists r m', (r ← (if 0 <? p_filesz ph then load_segment root ip va (p_off ph) (p_filesz ph) else mret 0);
      if r <? 0 then mret None
      else
        r ← (if p_filesz ph <? p_memsz ph
             then on_memory (vmm_zero root (wrap 64 (va + p_filesz ph)) (p_memsz ph - p_filesz ph))
             else mret 0);
        if r <? 0 then mret None else mret (Some (seg_end bias ph))) s = Ret (r, with_mem s m') /\
    owns m' l root T P /\ loads (mem_of s) l T P m' l T P /\
    ((r = Some (seg_end bias ph) /\
      forall x, user_mem m' P x = if (va <=? x) && (x <? va + p_memsz ph) then Some (seg_byte content bias ph x)
                                  else user_mem (mem_of s) P x) \/
     (r = None /\ seg_fails content ph m' l)).
Proof.
  intros Ho H0 Hf HP. destruct seg_geometry as (Hn & Hva & Hm & Hend & H32 & Hf0 & Hva0).
  destruct Hlow as [H1 H2 H3 H4 H5]. change (seg_first bias ph) with first in H1. change (seg_va bias ph) with va in H2.
  assert (forall x, va <= x < va + p_memsz ph -> first <= x / 4096 < first + n) as Hin by (intros; zify_div).
  assert (covered P va (p_filesz ph) (fun _ => True)) as Hc1.
  { intros x Hx. destruct (HP (x / 4096) (Hin x ltac:(lia))) as [p Hp]. by exists p, (flags2perm (p_flags ph)). }
  assert (exists r m1, (if 0 <? p_filesz ph then load_segment root ip va (p_off ph) (p_filesz ph) else mret 0) s =
      Ret (r, with_mem s m1) /\ owns m1 l root T P /\ loads (mem_of s) l T P m1 l T P /\
      (r = 0 /\ set_bytes va (p_filesz ph) (fun k => byte_at content (p_off ph + k)) (user_mem (mem_of s) P) (user_mem m1 P)
       \/ r = -1 /\ 0 < p_filesz ph /\ zlen content < p_off ph + p_filesz ph)) as (r & m1 & E1 & Ho1 & HL1 & HR).
  { destruct (Z.ltb_spec 0 (p_filesz ph)) as [Hpos|Hpos].
    - unfold load_segment. rewrite (wrap_small 32 (p_off ph)), (wrap_small 32 (p_filesz ph)) by lia.
      destruct (load_segment_loop root ip content l T P va (p_off ph) (p_filesz ph) Hc1 Hva0 ltac:(lia) ltac:(lia) ltac:(lia)
        (S (Z.to_nat (p_filesz ph))) 0 s Ho H0 Hf ltac:(lia) ltac:(lia)) as (r & m1 & HR1 & HR2 & HR3 & HR4).
      exists r, m1. rewrite !Z.add_0_r, Z.sub_0_r in HR4. split; [done|]. split; [done|]. split; [done|].
      destruct (Z.leb_spec (p_off ph + p_filesz ph) (zlen content)); [by left|right].
      split; [by apply HR4|lia].
    - exists 0, (mem_of s). rewrite with_same. split; [done|]. split; [done|]. split; [apply loads_refl|].
      left. split; [done|]. replace (p_filesz ph) with 0 by lia. apply set_bytes_none. }
  rewrite (bind_step _ _ s r _ E1). destruct HR as [[-> HB1]|[-> HR]].
  2:{ exists None, m1. split; [done|]. split; [done|]. split; [done|]. right. split; [done|]. right. by left. }
  change (0 <? 0) with false. cbv iota. destruct (Z.ltb_spec (p_filesz ph) (p_memsz ph)) as [Hlt|Heq].
  2:{ exists (Some (seg_end bias ph)), m1. split; [done|]. split; [done|]. split; [done|]. left. split; [done|].
      intros x. rewrite HB1. replace (p_memsz ph) with (p_filesz ph) by lia. unfold seg_byte. fold va.
      destruct (Z.leb_spec va x), (Z.ltb_spec x (va + p_filesz ph)), (Z.ltb_spec (x - va) (p_filesz ph)); try lia; done. }
  rewrite (wrap_small 64 (va + p_filesz ph)) by lia.
  destruct (Vmm.writable (flags2perm (p_flags ph))) eqn:Ew.
  - destruct (vmm_zero_spec m1 l root T P (va + p_filesz ph) (p_memsz ph - p_filesz ph) Ho1) as (m2 & E2 & Ho2 & HL2 & HB2);
      [lia|lia|lia| |].
    { intros x Hx. destruct (HP (x / 4096) (Hin x ltac:(lia))) as [p Hp]. by exists p, (flags2perm (p_flags ph)). }
    rewrite (bind_step _ _ _ 0 (with_mem s m2)).
    2:{ rewrite (on_memory_run _ _ 0 m2) by (by rewrite mem_of_with). by rewrite with_with. }
    exists (Some (seg_end bias ph)), m2. split; [done|]. split; [done|]. split; [by eapply loads_trans|].
    left. split; [done|]. intros x. rewrite HB2, HB1. unfold seg_byte. fold va.
    destruct (Z.leb_spec va x), (Z.ltb_spec x (va + p_filesz ph)), (Z.leb_spec (va + p_filesz ph) x),
      (Z.ltb_spec x (va + p_filesz ph + (p_memsz ph - p_filesz ph))), (Z.ltb_spec x (va + p_memsz ph)),
      (Z.ltb_spec (x - va) (p_filesz ph)); try lia; done.
  - destruct (HP ((va + p_filesz ph) / 4096) (Hin (va + p_filesz ph) ltac:(lia))) as [p Hp].
    pose proof (vmm_zero_readonly m1 l root T P (va + p_filesz ph) (p_memsz ph - p_filesz ph) p _ Ho1
      ltac:(lia) ltac:(lia) ltac:(lia) Hp Ew) as E2.
    rewrite (bind_step _ _ _ (-1) (with_mem s m1)).
    2:{ rewrite (on_memory_run _ _ (-1) m1) by (by rewrite mem_of_with). by rewrite with_with. }
    exists None, m1. split; [done|]. split; [done|]. split; [done|]. right. split; [done|]. right. by right.
Qed.

(** What a loaded segment looks like. *)
Definition segment_loaded (m' : pmem) (P' : pages) : Prop :=
  (forall x, va <= x < va + p_memsz ph -> user_mem m' P' x = Some (seg_byte content bias ph x)) /\
  (forall v, first <= v < first + n -> exists p, P' !! v = Some (p, flags2perm (p_flags ph))).

Lemma load_one_spec s l T P : owns (mem_of s) l root T P -> no_frame_0 (mem_of s) P ->
  hhdm_offset (mem_of s) ∉ avail (mem_of s) l -> holds_file s ip content ->
  (forall v, first <= v < first + n -> translate (mem_of s) root (4096 * v) = None) ->
  exists r m' l' T' P', load_one root ip bias ph s = Ret (r, with_mem s m') /\ owns m' l' root T' P' /\
    loads (mem_of s) l T P m' l' T' P' /\ no_frame_0 m' P' /\
    ((r = Some (seg_end bias ph) /\ (forall v, v ∈ dom P' <-> v ∈ dom P \/ first <= v < first + n) /\
      segment_loaded m' P' /\
      (forall x, x / 4096 ∈ dom P -> user_mem m' P' x = user_mem (mem_of s) P x)) \/
     (r = None /\ seg_fails content ph m' l')).
Proof.
  intros Ho H0 Hfr Hf Hun. destruct seg_geometry as (Hn & Hva & Hm & Hend & H32 & Hf0 & Hva0).
  destruct Hlow as [H1 H2 H3 H4 H5]. change (seg_first bias ph) with first in H1. change (seg_va bias ph) with va in H2.
  unfold USERSPACE_VA_MIN in H1.
  unfold load_one. destruct (Z.ltb_spec (p_memsz ph) (p_filesz ph)); [lia|].
  assert (wrap 64 (p_vaddr ph + bias) = va) as -> by (unfold va, seg_va; apply wrap_small; unfold va, seg_va in *; lia).
  assert (PAGE_ROUND_DOWN va = 4096 * first) as Ed by (apply PAGE_ROUND_DOWN_low; lia).
  assert (PAGE_ROUND_UP (wrap 64 (va - 4096 * first + p_memsz ph)) = 4096 * n) as Eu.
  { replace (va - 4096 * first + p_memsz ph) with (va mod 4096 + p_memsz ph) by lia. rewrite wrap_small by lia.
    apply PAGE_ROUND_UP_low; lia. }
  cbv zeta. rewrite Ed, Eu. assert (4096 * first + 4096 * n = seg_end bias ph) as Ee by (unfold seg_end; fold first n; lia).
  rewrite Ee. rewrite (wrap_small 64 (seg_end bias ph)) by lia.
  destruct (Z.ltb_spec (4096 * first) USERSPACE_VA_MIN); [unfold USERSPACE_VA_MIN in *; lia|].
  destruct (Z.ltb_spec USERSPACE_VA_MAX (seg_end bias ph)); [unfold USERSPACE_VA_MAX in *; lia|]. cbn [orb].
  destruct (vmm_allocate_spec (mem_of s) l root T P (4096 * first) n (flags2perm (p_flags ph)) false Ho)
    as (r & m1 & l1 & T1 & P1 & j & EA & Ho1 & HX & HR & HM); try (unfold USERSPACE_VA_MAX, USERSPACE_VA_MIN in *; lia).
  { apply Z.eqb_eq. rewrite Z.mul_comm, Z.mod_mul; lia. }
  { intros i Hi. replace (4096 * first + 4096 * i) with (4096 * (first + i)) by lia. apply Hun. lia. }
  rewrite (bind_step _ _ s r (with_mem s m1)) by (by apply on_memory_run).
  pose proof (loads_extends _ _ _ _ _ _ _ _ _ _ _ _ HX HM) as HL1.
  assert (no_frame_0 m1 P1) as H01.
  { intros v p pm Hp. rewrite (ld_off _ _ _ _ _ _ _ _ HL1). intros ->.
    destruct (ld_pages _ _ _ _ _ _ _ _ HL1 _ _ _ Hp) as [Hp'|Hp']; [by eapply H0|done]. }
  replace (4096 * first / 4096) with first in HM by (rewrite Z.mul_comm, Z.div_mul; lia).
  destruct HR as [[-> ->]|(-> & _ & Hav)].
  2:{ change (-1 =? -1) with true. cbv iota. exists None, m1, l1, T1, P1. split; [done|]. split; [done|].
      split; [done|]. split; [done|]. right. split; [done|]. by left. }
  change (0 =? -1) with false. cbv iota.
  assert (forall v, first <= v < first + n -> exists p, P1 !! v = Some (p, flags2perm (p_flags ph))) as HP.
  { intros v Hv. assert (v ∈ dom P1) as [[p pm] Hp]%elem_of_dom by (apply (mp_dom _ _ _ _ _ _ _ _ _ _ _ HM); by right).
    exists p. rewrite Hp. destruct (mp_new _ _ _ _ _ _ _ _ _ _ _ HM _ _ _ Hp) as [Hold|(-> & _)]; [|done].
    destruct (ow_page _ _ _ _ _ Ho _ _ _ Hold) as (Hu & _). exfalso.
    pose proof (Hun v Hv) as HN. rewrite (owned_translate (mem_of s) l root T P Ho (4096 * v) p pm) in HN; [done|].
    by rewrite Z.mul_comm, Z.div_mul by lia. }
  destruct (fill_segment (with_mem s m1) l1 T1 P1) as (r & m2 & EF & Ho2 & HL2 & HR).
  { by rewrite mem_of_with. } { by rewrite mem_of_with. } { by apply holds_file_env. } { done. }
  rewrite with_with in EF. rewrite mem_of_with in HL2, HR. exists r, m2, l1, T1, P1. split; [exact EF|].
  split; [done|]. split; [by eapply loads_trans|]. split; [by eapply no_frame_0_loads|].
  destruct HR as [[-> HB]|[-> Hbad]]; [left|by right]. split; [done|]. split; [apply HM|]. split.
  - split; [|done]. intros x Hx. rewrite HB. destruct (Z.leb_spec va x), (Z.ltb_spec x (va + p_memsz ph)); try lia. done.
  - intros x Hx. rewrite HB. pose proof (extends_user_mem _ _ _ _ _ _ _ _ _ _ Ho HX (mp_old _ _ _ _ _ _ _ _ _ _ _ HM) Hx) as EU.
    destruct (Z.leb_spec va x), (Z.ltb_spec x (va + p_memsz ph)); try exact EU. exfalso.
    apply elem_of_dom in Hx as [[p pm] Hp].
    pose proof (Hun (x / 4096) ltac:(zify_div)) as HN.
    rewrite (owned_translate (mem_of s) l root T P Ho (4096 * (x / 4096)) p pm) in HN; [done|].
    by rewrite Z.mul_comm, Z.div_mul by lia.
Qed.
End segment.

(** ** All segments *)

Fixpoint headers (content : list Z) (off : Z) (k : nat) : list ProgramHeader :=
  match k with
  | O => []
  | S k' => ph_of (take (Z.to_nat sizeof_ph) (drop (Z.to_nat off) content)) :: headers content (off + sizeof_ph) k'
  end.
Definition loadable (content : list Z) (off : Z) (k : nat) : list ProgramHeader :=
  filter (fun ph => p_type ph = ELF_PROG_LOAD) (headers content off k).

Definition apart (bias : Z) (a b : ProgramHeader) : Prop :=
  seg_first bias a + seg_pages bias a <= seg_first bias b \/ seg_first bias b + seg_pages bias b <= seg_first bias a.

(** Segments that can be loaded side by side into a free part of the address
    space. *)
Record good_layout (bias : Z) (m : pmem) (root : Z) (segs : list ProgramHeader) : Prop := {
  gl_low : Forall (low_segment bias) segs;
  gl_apart : ForallOrdPairs (apart bias) segs;
  gl_free ph v : ph ∈ segs -> seg_first bias ph <= v < seg_first bias ph + seg_pages bias ph ->
    translate m root (4096 * v) = None
}.

(** What keeps an executable from being loaded: the memory that is left, or
    the file. *)
Definition exec_fails (content : list Z) (off : Z) (k : nat) (m' : pmem) (l' : list Z) : Prop :=
  (length (avail m' l') <= 1)%nat \/ zlen content < off + sizeof_ph * Z.of_nat k \/
  exists ph, ph ∈ loadable content off k /\
    ((0 < p_filesz ph /\ zlen content < p_off ph + p_filesz ph) \/
     (p_filesz ph < p_memsz ph /\ Vmm.writable (flags2perm (p_flags ph)) = false)).

Lemma seg_range bias ph : low_segment bias ph -> 0 < seg_pages bias ph /\
  forall x, seg_va bias ph <= x < seg_va bias ph + p_memsz ph ->
    seg_first bias ph <= x / 4096 < seg_first bias ph + seg_pages bias ph.
Proof. intros [H1 H2 H3 H4 H5]. unfold USERSPACE_VA_MIN, seg_first, seg_pages in *. split; [zify_div|intros; zify_div]. Qed.

(** A loaded segment stays loaded while pages besides its own are added. *)
Lemma segment_loaded_keep content bias ph m P m' P' : low_segment bias ph -> P ⊆ P' ->
  (forall x, x / 4096 ∈ dom P -> user_mem m' P' x = user_mem m P x) ->
  segment_loaded content bias ph m P -> segment_loaded content bias ph m' P'.
Proof.
  intros Hlow HP HK [H1 H2]. destruct (seg_range bias ph Hlow) as [_ HR]. split.
  - intros x Hx. rewrite HK; [by apply H1|]. destruct (H2 _ (HR x Hx)) as [p Hp]. apply elem_of_dom. by eexists.
  - intros v Hv. destruct (H2 v Hv) as [p Hp]. exists p. by eapply lookup_weaken.
Qed.

Section image.
Context (root : Z) (ip : option Z) (content : list Z) (bias : Z).

Lemma exec_fails_later off k m' l' : exec_fails content (off + sizeof_ph) k m' l' -> exec_fails content off (S k) m' l'.
Proof.
  unfold exec_fails. intros [?|[?|(ph & Hph & ?)]]; [by left|right; left|right; right].
  - unfold sizeof_ph in *. lia.
  - exists ph. split; [|done]. unfold loadable in *. cbn [headers]. rewrite filter_cons.
    destruct (decide _); [by right|done].
Qed.

Lemma load_segments_spec : forall k off top s l T P, owns (mem_of s) l root T P -> no_frame_0 (mem_of s) P ->
  hhdm_offset (mem_of s) ∉ avail (mem_of s) l -> holds_file s ip content ->
  0 <= off -> off + sizeof_ph * Z.of_nat k < 2 ^ 64 ->
  good_layout bias (mem_of s) root (loadable content off k) ->
  exists r m' l' T' P', load_segments k root ip bias off top s = Ret (r, with_mem s m') /\ owns m' l' root T' P' /\
    loads (mem_of s) l T P m' l' T' P' /\
    ((r = Some (foldl Z.max top (seg_end bias <$> loadable content off k)) /\
      Forall (fun ph => segment_loaded content bias ph m' P') (loadable content off k) /\
      (forall x, x / 4096 ∈ dom P -> user_mem m' P' x = user_mem (mem_of s) P x)) \/
     (r = None /\ exec_fails content off k m' l')).
Proof.
  induction k as [|k IH]; intros off top s l T P Ho H0 Hfr Hf Hoff Hk HG.
  { exists (Some top), (mem_of s), l, T, P. cbn [load_segments]. rewrite with_same. split; [done|]. split; [done|].
    split; [apply loads_refl|]. by left. }
  cbn [load_segments].
  set (data := take (Z.to_nat sizeof_ph) (drop (Z.to_nat off) content)).
  assert (zlen data = Z.max 0 (Z.min sizeof_ph (zlen content - off))) as Hd by (apply zlen_chunk; done).
  rewrite (bind_step _ _ s (zlen data, data) s (holds_file_read s ip content sizeof_ph off Hf ltac:(done) Hoff)).
  destruct (Z.eqb_spec (zlen data) sizeof_ph) as [Efull|Eshort]; cbn [negb].
  2:{ exists None, (mem_of s), l, T, P. rewrite with_same. split; [done|]. split; [done|]. split; [apply loads_refl|].
      right. split; [done|]. right. left. unfold sizeof_ph in *. lia. }
  rewrite (wrap_small 64 (off + sizeof_ph)) by (unfold sizeof_ph in *; lia).
  assert (loadable content off (S k) = if decide (p_type (ph_of data) = ELF_PROG_LOAD)
    then ph_of data :: loadable content (off + sizeof_ph) k else loadable content (off + sizeof_ph) k) as EL.
  { unfold loadable. cbn [headers]. by rewrite filter_cons. }
  destruct (Z.eqb_spec (p_type (ph_of data)) ELF_PROG_LOAD) as [Et|Et]; cbn [negb].
  2:{ rewrite decide_False in EL by done. rewrite EL in *.
      destruct (IH (off + sizeof_ph) top s l T P Ho H0 Hfr Hf) as (r & m' & l' & T' & P' & E1 & Ho' & HL & HR);
        [unfold sizeof_ph in *; lia|unfold sizeof_ph in *; lia|done|].
      exists r, m', l', T', P'. split; [done|]. split; [done|]. split; [done|].
      destruct HR as [HR|[-> HR]]; [by left|right]. split; [done|by apply exec_fails_later]. }
  rewrite decide_True in EL by done. set (ph := ph_of data) in *. set (hs := loadable content (off + sizeof_ph) k) in *.
  rewrite EL in HG. destruct HG as [HGl HGa HGf].
  apply Forall_cons in HGl as [Hlow HGl]. inversion HGa as [|? ? Hap HGa']; subst.
  destruct (load_one_spec root ip content bias ph Hlow s l T P Ho H0 Hfr Hf) as (r & m1 & l1 & T1 & P1 & E1 & Ho1 & HL1 & H01 & HR).
  { intros v Hv. apply (HGf ph); [by left|done]. }
  rewrite (bind_step _ _ s r (with_mem s m1) E1). destruct HR as [(-> & HD & HS & HK)|[-> Hbad]].
  2:{ exists None, m1, l1, T1, P1. split; [done|]. split; [done|]. split; [done|]. right. split; [done|].
      destruct Hbad as [?|Hbad]; [by left|right; right]. exists ph. rewrite EL. split; [by left|done]. }
  destruct (IH (off + sizeof_ph) (if top <? seg_end bias ph then seg_end bias ph else top) (with_mem s m1) l1 T1 P1)
    as (r & m2 & l2 & T2 & P2 & E2 & Ho2 & HL2 & HR).
  { by rewrite mem_of_with. } { by rewrite mem_of_with. }
  { rewrite mem_of_with, (ld_off _ _ _ _ _ _ _ _ HL1). intros Hin. by apply Hfr, (ld_avail _ _ _ _ _ _ _ _ HL1). }
  { by apply holds_file_env. } { unfold sizeof_ph in *; lia. } { unfold sizeof_ph in *; lia. }
  { fold hs. rewrite mem_of_with. constructor; [done|done|]. intros ph' v Hph Hv.
    rewrite Forall_forall in HGl. pose proof (HGl ph' Hph) as [G1 G2 G3 _ _].
    destruct (seg_range bias ph' (HGl ph' Hph)) as [Hpos _].
    assert (0 <= 4096 * v < 2 ^ 46) as Hvr.
    { unfold USERSPACE_VA_MIN, seg_first, seg_pages in *. zify_div. }
    rewrite (translate_root m1 l1 root T1 (ow_wf _ _ _ _ _ Ho1)) by done.
    rewrite (ld_leaf _ _ _ _ _ _ _ _ HL1).
    - rewrite <- (translate_root (mem_of s) l root T (ow_wf _ _ _ _ _ Ho)) by done. apply (HGf ph'); [by right|done].
    - rewrite Z.mul_comm, Z.div_mul by lia. rewrite HD. intros [Hin|Hin].
      + apply elem_of_dom in Hin as [[p pm] Hp].
        pose proof (HGf ph' v ltac:(by right) Hv) as HN.
        rewrite (owned_translate (mem_of s) l root T P Ho (4096 * v) p pm) in HN; [done|].
        by rewrite Z.mul_comm, Z.div_mul by lia.
      + rewrite Forall_forall in Hap. destruct (Hap ph' Hph); lia. }
  rewrite mem_of_with, with_with in *. exists r, m2, l2, T2, P2. split; [exact E2|]. split; [done|].
  split; [by eapply loads_trans|]. fold hs in HR. rewrite EL. destruct HR as [(-> & HA & HK2)|[-> HF]].
  - left. split; [|split].
    + cbn [fmap list_fmap foldl]. do 2 f_equal. destruct (Z.ltb_spec top (seg_end bias ph)); lia.
    + apply Forall_cons. split; [|done]. by apply (segment_loaded_keep content bias ph m1 P1 m2 P2 Hlow (ld_old _ _ _ _ _ _ _ _ HL2) HK2).
    + intros x Hx. rewrite HK2, HK; [done|done|]. apply (subseteq_dom _ _ (ld_old _ _ _ _ _ _ _ _ HL1)). done.
  - right. split; [done|]. by apply exec_fails_later.
Qed.
End image.

(** What the program finds at an address: the mapping and the byte. *)
Definition maps (m : pmem) (root x : Z) (perm : pte_permissions) (b : Z) : Prop :=
  user_byte root m x = Some b /\ exists e, translate m root x = Some e /\ pte_is_user e = userspace perm /\
    pte_is_writable e = Vmm.writable perm /\ truth (Z.land e PTE_XD) = negb (executable perm).

Lemma owned_maps m l root T P x p perm b : owns m l root T P -> P !! (x / 4096) = Some (p, perm) ->
  user_mem m P x = Some b -> maps m root x perm b.
Proof.
  intros Ho Hp Hb. pose proof (owned_translate m l root T P Ho x p perm Hp) as Ht.
  destruct (owned_frame m l root T P Ho x p perm Hp) as (Hpg & Hfr & HV & HPV).
  destruct (build_pte_roundtrip (V2P m p) perm Hfr) as (E1 & _ & E2 & E3 & E4 & _).
  split; [|by exists (build_pte (V2P m p) perm)]. unfold user_byte. rewrite Ht. cbn. rewrite E1, HPV.
  rewrite wrap_small by (destruct Hpg; pose proof (Z.mod_pos_bound x 4096); lia).
  unfold user_mem in Hb. by rewrite Hp in Hb.
Qed.

(** C3: the loader builds the image the file describes.  For program headers
    whose segments lie below 4 GiB on pages of their own, the loop over them
    never stops the kernel.  Either it returns the end of the last segment, and
    then every byte of every segment is mapped for the user with the
    segment's permissions and has the file's byte, or 0 behind the file's
    part; or it gives up, and then memory has run out, or the file is too
    short for its headers or a segment, or a segment that is to be cleared is
    not writable.  Either way the page tables are well formed and no memory
    changed but free pages and tables. *)
Theorem exec_image_correct s l root T ip content bias off k : pt_wf (mem_of s) l root T ->
  hhdm_offset (mem_of s) ∉ avail (mem_of s) l -> holds_file s ip content ->
  0 <= off -> off + sizeof_ph * Z.of_nat k < 2 ^ 64 -> good_layout bias (mem_of s) root (loadable content off k) ->
  exists r m' l' T', load_segments k root ip bias off 0 s = Ret (r, with_mem s m') /\ pt_wf m' l' root T' /\
    (forall x, used (mem_of s) l T' x -> ram m' x = ram (mem_of s) x) /\
    match r with
    | Some end_ => end_ = foldl Z.max 0 (seg_end bias <$> loadable content off k) /\
        forall ph x, ph ∈ loadable content off k -> seg_va bias ph <= x < seg_va bias ph + p_memsz ph ->
          maps m' root x (flags2perm (p_flags ph)) (seg_byte content bias ph x)
    | None => exec_fails content off k m' l'
    end.
Proof.
  intros Hwf Hfr Hf Hoff Hk HG.
  assert (owns (mem_of s) l root T ∅) as Ho.
  { constructor; [done|intros ? ? ? Hp; by rewrite lookup_empty in Hp|intros ? ? ? ? ? Hp; by rewrite lookup_empty in Hp]. }
  assert (no_frame_0 (mem_of s) ∅) as H0 by (intros v p pm Hp; by rewrite lookup_empty in Hp).
  destruct (load_segments_spec root ip content bias k off 0 s l T ∅ Ho H0 Hfr Hf Hoff Hk HG)
    as (r & m' & l' & T' & P' & E1 & Ho' & HL & HR).
  exists r, m', l', T'. split; [done|]. split; [apply Ho'|]. split.
  { intros x Hx. apply (ld_mem _ _ _ _ _ _ _ _ HL x Hx). intros v p pm Hp. by rewrite lookup_empty in Hp. }
  destruct HR as [(-> & HA & _)|[-> HF]]; [|done]. split; [done|]. intros ph x Hph Hx.
  rewrite Forall_forall in HA. destruct (HA ph Hph) as [B1 B2].
  pose proof (gl_low _ _ _ _ HG) as HGl. rewrite Forall_forall in HGl.
  destruct (seg_range bias ph (HGl ph Hph)) as [_ HRg]. destruct (B2 _ (HRg x Hx)) as [p Hp].
  by apply (owned_maps m' l' root T' P' x p _ _ Ho' Hp), B1.
Qed.

(** ** Headers that stop the kernel *)

(** The leaf table is there: the walk finds it, allocating or not. *)
Lemma walk_levels_there m l root T fl va alloc t0 : pt_wf m l root T -> 0 <= va < 2 ^ 46 ->
  T !! (0%nat, vpn 1 va) = Some t0 -> forall k t, (k <= 3)%nat -> T !! (k, vpn (S k) va) = Some t ->
  walk_levels k fl t va alloc m = (t0 + 8 * PTE_INDEX_FROM_VA va 0, m).
Proof.
  intros Hwf Hva H0. induction k as [|k IH]; intros t Hk Ht.
  - rewrite H0 in Ht. by injection Ht as ->.
  - pose proof (child_step m l root T Hwf k va t Hva Ht) as HC. cbn [walk_levels]. cbv zeta in *.
    unfold entry in *. destruct (pte_is_present _); [apply IH; [lia|done]|].
    rewrite (no_ancestor_no_leaf m l root T Hwf k va) in H0 by (done || lia). done.
Qed.

Lemma walk_there m l root T va e : pt_wf m l root T -> user_va va -> translate m root va = Some e ->
  exists p, walk root va true false m = Ret (p, m) /\ p <> 0 /\ load64 (ram m) p = e /\ pte_is_present e = true.
Proof.
  intros Hwf Hva Ht. pose proof (user_va_range va Hva) as Hr. rewrite (translate_root m l root T Hwf va Hr) in Ht.
  unfold leaf_entry in Ht. destruct (T !! (0%nat, vpn 1 va)) as [t0|] eqn:E0; [|done]. cbn [mbind option_bind] in Ht.
  destruct (pte_is_present (entry m t0 (PTE_INDEX_FROM_VA va 0))) eqn:Ep; [|done]. injection Ht as <-.
  exists (t0 + 8 * PTE_INDEX_FROM_VA va 0). rewrite walk_user by done.
  rewrite (walk_levels_there m l root T _ va true t0 Hwf Hr E0 3 root ltac:(lia)) by (rewrite vpn_top by done; apply Hwf).
  split; [done|]. split; [|done]. destruct (pt_page _ _ _ _ Hwf _ _ _ E0) as (_ & Hp & _).
  pose proof (index_range 0 va) as HI. change (Z.of_nat 0) with 0 in HI. destruct Hp. lia.
Qed.

(** Mapping a page that is mapped already. *)
Lemma allocate_mapped m l root T P va n perm e clear : owns m l root T P -> va mod 4096 = 0 -> 0 < n ->
  user_va va -> translate m root va = Some e -> avail m l <> [] ->
  vmm_allocate root va (4096 * n) perm clear m = Panic "vmm_allocate: remap".
Proof.
  intros Ho Ha Hn Hva Ht Hav. unfold vmm_allocate, PAGE_SIZE.
  rewrite Ha, (Z.mul_comm 4096 n), Z.mod_mul, Z.div_mul by lia.
  destruct (Z.eqb_spec (n * 4096) 0); [lia|]. cbn [negb Z.eqb].
  replace n with (n - 1 + 1) by lia. rewrite seqZ_S by lia.
  assert (allocate_one_page root (wrap 64 (va + 0 * PAGE_SIZE)) perm clear m = Panic "vmm_allocate: remap") as E1.
  { pose proof (user_va_range va Hva). rewrite Z.mul_0_l, Z.add_0_r, wrap_small by lia.
    pose proof (allocate_frame m l root T P clear Ho) as HF. unfold allocate_one_page, updates.
    unfold mbind at 1, st_bind at 1. destruct ((if clear then kcalloc else kalloc) m) as [p m1].
    destruct HF as [Hh [(_ & _ & HA)|(l1 & Hp0 & _ & _ & Ho1 & _ & _ & _ & HL & _)]]; [done|].
    destruct (Z.eqb_spec p 0); [done|].
    assert (translate m1 root va = Some e) as Ht1.
    { rewrite (translate_root m1 l1 root T (ow_wf _ _ _ _ _ Ho1)), HL by done.
      by rewrite <- (translate_root m l root T (ow_wf _ _ _ _ _ Ho)). }
    destruct (walk_there m1 l1 root T va e (ow_wf _ _ _ _ _ Ho1) Hva Ht1) as (q & HW & Hq & Hle & Hpr).
    rewrite (bind_step _ _ m1 q m1 HW). destruct (Z.eqb_spec q 0); [done|]. unfold read_pte.
    rewrite (bind_step _ _ m1 _ m1 eq_refl). by rewrite Hle, Hpr. }
  unfold mbind, st_bind. rewrite st_for_cons. unfold PAGE_SIZE in E1. by rewrite E1.
Qed.

(** C28: an executable can stop the kernel.  A segment of size 0 that begins
    on a page boundary ends in the panic "vmm_allocate: size", and a segment
    whose first page is mapped already, because the segment before it ends on
    that page, in "vmm_allocate: remap". *)
Theorem exec_layout_panics s l root T P ip bias ph : owns (mem_of s) l root T P ->
  (USERSPACE_VA_MIN <= seg_va bias ph < 2 ^ 32 - 4096 -> seg_va bias ph mod 4096 = 0 -> p_filesz ph = 0 ->
   p_memsz ph = 0 -> load_one root ip bias ph s = Panic "vmm_allocate: size") /\
  (low_segment bias ph -> seg_first bias ph ∈ dom P -> avail (mem_of s) l <> [] ->
   load_one root ip bias ph s = Panic "vmm_allocate: remap").
Proof.
  intros Ho. split.
  - intros Hva Hal Hfs Hms. unfold load_one. rewrite Hfs, Hms. change (0 <? 0) with false. cbv iota.
    unfold seg_va, USERSPACE_VA_MIN in *. rewrite (wrap_small 64 (p_vaddr ph + bias)) by lia. cbv zeta.
    set (va := p_vaddr ph + bias) in *. assert (PAGE_ROUND_DOWN va = va) as ->.
    { rewrite PAGE_ROUND_DOWN_low by lia. zify_div. }
    rewrite Z.sub_diag. change (PAGE_ROUND_UP (wrap 64 (0 + 0))) with 0. rewrite Z.add_0_r, (wrap_small 64 va) by lia.
    destruct (Z.ltb_spec va (2 ^ 22)); [lia|]. destruct (Z.ltb_spec USERSPACE_VA_MAX va); [unfold USERSPACE_VA_MAX in *; lia|].
    cbn [orb]. unfold on_memory, on_procs, on_env, on_mm, zoom, mbind at 1, st_bind at 1, vmm_allocate, PAGE_SIZE.
    by rewrite Hal.
  - intros Hlow [[p pm] Hp]%elem_of_dom Hav. pose proof (seg_geometry bias ph Hlow) as HG. cbv zeta in HG.
    destruct HG as (Hn & Hva & Hm & Hend & H32 & Hf0 & Hva0).
    destruct Hlow as [H1 H2 H3 H4 H5]. unfold USERSPACE_VA_MIN in H1. unfold load_one.
    destruct (Z.ltb_spec (p_memsz ph) (p_filesz ph)); [lia|].
    change (p_vaddr ph + bias) with (seg_va bias ph). rewrite (wrap_small 64 (seg_va bias ph)) by lia.
    assert (PAGE_ROUND_DOWN (seg_va bias ph) = 4096 * seg_first bias ph) as -> by (apply PAGE_ROUND_DOWN_low; lia).
    assert (PAGE_ROUND_UP (wrap 64 (seg_va bias ph - 4096 * seg_first bias ph + p_memsz ph)) = 4096 * seg_pages bias ph) as Eu.
    { replace (seg_va bias ph - 4096 * seg_first bias ph + p_memsz ph) with (seg_va bias ph mod 4096 + p_memsz ph) by lia.
      rewrite wrap_small by lia. apply PAGE_ROUND_UP_low; lia. }
    cbv zeta. rewrite Eu, (wrap_small 64 (4096 * seg_first bias ph + 4096 * seg_pages bias ph)) by lia.
    destruct (Z.ltb_spec (4096 * seg_first bias ph) USERSPACE_VA_MIN); [unfold USERSPACE_VA_MIN in *; lia|].
    destruct (Z.ltb_spec USERSPACE_VA_MAX (4096 * seg_first bias ph + 4096 * seg_pages bias ph));
      [unfold USERSPACE_VA_MAX in *; lia|]. cbn [orb].
    assert (4096 * seg_first bias ph / 4096 = seg_first bias ph) as Ed by (rewrite Z.mul_comm, Z.div_mul; lia).
    rewrite <- Ed in Hp.
    pose proof (allocate_mapped (mem_of s) l root T P (4096 * seg_first bias ph) (seg_pages bias ph)
      (flags2perm (p_flags ph)) _ false Ho ltac:(by rewrite Z.mul_comm, Z.mod_mul) Hn
      (owned_va _ _ _ _ _ Ho _ _ _ Hp) (owned_translate _ _ _ _ _ Ho _ _ _ Hp) Hav) as EA.
    unfold on_memory, on_procs, on_env, on_mm, zoom, mbind, st_bind. unfold mem_of in EA. by rewrite EA.
Qed.
End facts.

(** ** The layout of the headers *)

Fixpoint le_bytes (n : nat) (v : Z) : list Z :=
  match n with O => [] | S n' => v mod 256 :: le_bytes n' (v / 256) end.

Definition elf_bytes (h : ElfHeader) : list Z :=
  le_bytes 4 (e_magic h) ++ e_elf h ++ le_bytes 2 (e_type h) ++ le_bytes 2 (e_machine h) ++ le_bytes 4 (e_version h) ++
  le_bytes 8 (e_entry h) ++ le_bytes 8 (e_phoff h) ++ le_bytes 8 (e_shoff h) ++ le_bytes 4 (e_flags h) ++
  le_bytes 2 (e_ehsize h) ++ le_bytes 2 (e_phentsize h) ++ le_bytes 2 (e_phnum h) ++ le_bytes 2 (e_shentsize h) ++
  le_bytes 2 (e_shnum h) ++ le_bytes 2 (e_shstrndx h).
Definition ph_bytes (h : ProgramHeader) : list Z :=
  le_bytes 4 (p_type h) ++ le_bytes 4 (p_flags h) ++ le_bytes 8 (p_off h) ++ le_bytes 8 (p_vaddr h) ++
  le_bytes 8 (p_paddr h) ++ le_bytes 8 (p_filesz h) ++ le_bytes 8 (p_memsz h) ++ le_bytes 8 (p_align h).

Definition fits (n : nat) (v : Z) : Prop := 0 <= v < 256 ^ Z.of_nat n.
Definition elf_fits (h : ElfHeader) : Prop :=
  length (e_elf h) = 12%nat /\
  Forall (fits 2) [e_type h; e_machine h; e_ehsize h; e_phentsize h; e_phnum h; e_shentsize h; e_shnum h; e_shstrndx h] /\
  Forall (fits 4) [e_magic h; e_version h; e_flags h] /\ Forall (fits 8) [e_entry h; e_phoff h; e_shoff h].
Definition ph_fits (h : ProgramHeader) : Prop :=
  Forall (fits 4) [p_type h; p_flags h] /\
  Forall (fits 8) [p_off h; p_vaddr h; p_paddr h; p_filesz h; p_memsz h; p_align h].

Lemma le_le_bytes n : forall v, fits n v -> le (le_bytes n v) = v.
Proof.
  unfold fits. induction n as [|n IH]; intros v Hv; cbn [le_bytes le]; [lia|].
  rewrite Nat2Z.inj_succ, Z.pow_succ_r in Hv by lia. rewrite IH by zify_div. zify_div.
Qed.

Lemma length_le_bytes n : forall v, length (le_bytes n v) = n.
Proof. induction n as [|n IH]; intros v; cbn; [done|by rewrite IH]. Qed.

Lemma bytes_skip l1 l off n k : length l1 = k -> (k <= off)%nat -> bytes_at (l1 ++ l) off n = bytes_at l (off - k) n.
Proof. intros <- Hk. unfold bytes_at. rewrite drop_app_ge by done. done. Qed.

Lemma field_skip k v l off n : (k <= off)%nat -> field (le_bytes k v ++ l) off n = field l (off - k) n.
Proof. intros Hk. unfold field. by rewrite (bytes_skip _ _ _ _ k) by (done || apply length_le_bytes). Qed.

Lemma field_first n v l : fits n v -> field (le_bytes n v ++ l) 0 n = v.
Proof.
  intros Hv. unfold field, bytes_at. rewrite drop_0, take_app_length' by (symmetry; apply length_le_bytes). by apply le_le_bytes.
Qed.
Lemma field_last n v : fits n v -> field (le_bytes n v) 0 n = v.
Proof. intros Hv. rewrite <- (app_nil_r (le_bytes n v)). by apply field_first. Qed.

Ltac find_field :=
  repeat (rewrite field_skip by lia; cbn [Nat.sub]); first [by apply field_first | by apply field_last].

(** The two headers are read as they are laid out in the file: a header
    whose fields fit, written field by field in the order and widths of the
    packed structures, is 64 (56) bytes long, and reading those bytes gives
    it back. *)
Theorem exec_headers_roundtrip :
  (forall h, elf_fits h -> zlen (elf_bytes h) = sizeof_elf /\ elf_of (elf_bytes h) = h) /\
  (forall h, ph_fits h -> zlen (ph_bytes h) = sizeof_ph /\ ph_of (ph_bytes h) = h).
Proof.
  split.
  - intros [mag elf ty mac ver ent pho sho fl eh pes pn ses sn ss] (Hel & H2 & H4 & H8). cbn -[le_bytes] in Hel, H2, H4, H8.
    repeat rewrite Forall_cons in H2. repeat rewrite Forall_cons in H4. repeat rewrite Forall_cons in H8.
    destruct H2 as (? & ? & ? & ? & ? & ? & ? & ? & _), H4 as (? & ? & ? & _), H8 as (? & ? & ? & _).
    assert (forall l off n, (16 <= off)%nat -> field (le_bytes 4 mag ++ elf ++ l) off n = field l (off - 16) n) as Hskip.
    { intros l off n Ho. rewrite field_skip by lia. unfold field. rewrite (bytes_skip _ _ _ _ 12) by (done || lia).
      do 2 f_equal. lia. }
    split.
    + unfold zlen, elf_bytes. cbn -[le_bytes app]. rewrite !length_app, !length_le_bytes, Hel. done.
    + unfold elf_of, elf_bytes. cbn -[le_bytes field bytes_at app]. f_equal.
      all: try (rewrite Hskip by lia; cbn [Nat.sub]; find_field).
      * by apply field_first.
      * rewrite (bytes_skip _ _ _ _ 4) by (done || lia). unfold bytes_at. by rewrite Nat.sub_diag, drop_0, take_app_length'.
  - intros [ty fl off va pa fs ms al] [H4 H8]. cbn -[le_bytes] in H4, H8.
    repeat rewrite Forall_cons in H4. repeat rewrite Forall_cons in H8.
    destruct H4 as (? & ? & _), H8 as (? & ? & ? & ? & ? & ? & _). split.
    + unfold zlen, ph_bytes. rewrite !length_app, !length_le_bytes. done.
    + unfold ph_of, ph_bytes. cbn -[le_bytes field app]. f_equal; find_field.
Qed.


(** ** The arguments *)

(** The addresses [vmm_memcpy] looks at in place of the stack's: the low 32
    bits of them. *)
Definition low_window_free (m : pmem) (root : Z) : Prop :=
  forall x, 2 ^ 32 - 2 ^ 18 <= x < 2 ^ 32 -> translate m root x = None.

Lemma land_align16 a : 0 <= a < 2 ^ 64 -> Z.land a (wrap 64 (Z.lnot 15)) = a - a mod 16.
Proof.
  intros Ha. change (wrap 64 (Z.lnot 15)) with (Z.land (Z.lnot (Z.ones 4)) (Z.ones 64)).
  rewrite Z.land_assoc. change (Z.land a (Z.lnot (Z.ones 4))) with (Z.land a (Z.lnot (Z.ones 4))).
  rewrite <- Z.ldiff_land, Z.ldiff_ones_r, Z.land_ones by lia. rewrite Z.shiftr_div_pow2, Z.shiftl_mul_pow2 by lia.
  change (2 ^ 4) with 16. rewrite Z.mod_small; zify_div.
Qed.

Section arguments.
Context (m : pmem) (l : list Z) (root : Z) (T : gmap (nat * Z) Z) (Hwf : pt_wf m l root T) (Hfree : low_window_free m root).

Lemma push_lost sp data : 0 < zlen data -> USER_STACK_TOP - 2 ^ 18 <= sp - zlen data -> sp <= USER_STACK_TOP ->
  push root sp data m = Ret (sp - zlen data, m).
Proof.
  intros Hd Hlo Hhi. unfold push. unfold USER_STACK_TOP, USERSPACE_VA_MAX in *. rewrite wrap_small by lia.
  set (d := sp - zlen data) in *. rewrite (bind_step _ _ m (-1) m); [done|].
  unfold vmm_memcpy. destruct data as [|b data]; [done|]. cbn [length vmm_memcpy_loop].
  assert (PAGE_ROUND_DOWN d = wrap 32 d - d mod 4096) as -> by apply land_PAGE_MASK.
  assert (wrap 32 d = d - (2 ^ 46 - 2 ^ 32)) as -> by (unfold wrap; symmetry; apply (Z.mod_unique _ _ (2 ^ 14 - 1)); lia).
  set (x := d - (2 ^ 46 - 2 ^ 32) - d mod 4096). pose proof (Z.mod_pos_bound d 4096 ltac:(lia)).
  assert (2 ^ 32 - 2 ^ 18 <= x < 2 ^ 32) as Hx by (unfold x; split; [zify_div|lia]).
  destruct (Z.leb_spec USERSPACE_VA_MAX x); [unfold USERSPACE_VA_MAX in *; lia|].
  destruct (Z.ltb_spec x USERSPACE_VA_MIN); [unfold USERSPACE_VA_MIN in *; lia|]. cbn [orb].
  destruct (walk_lookup_user m l root T x Hwf) as (p & HW & HR);
    [unfold user_va, USERSPACE_VA_MIN, USERSPACE_VA_MAX; lia|].
  rewrite (bind_step _ _ m p m HW). rewrite (Hfree x Hx) in HR. destruct HR as [[-> _]|[Hp HT]]; [done|].
  apply Z.eqb_neq in Hp. rewrite Hp. unfold read_pte. rewrite (bind_step _ _ m _ m eq_refl). cbv zeta in HT.
  by destruct (pte_is_present (load64 (ram m) p)).
Qed.

Lemma push_strings_lost : forall args sp, sp <= USER_STACK_TOP ->
  let n := foldr Z.add 0 ((fun a => zlen a + 1) <$> args) in
  USER_STACK_TOP - 2 ^ 18 <= sp - n -> exists ptrs, push_strings root sp args m = Ret ((sp - n, ptrs), m) /\
    length ptrs = length args.
Proof.
  induction args as [|a args IH]; intros sp Hhi n Hlo; cbn [push_strings].
  - exists []. cbn in n. unfold n. by rewrite Z.sub_0_r.
  - assert (zlen (a ++ [0]) = zlen a + 1) as Ez by (rewrite zlen_app; done). pose proof (zlen_nonneg a).
    set (k := foldr Z.add 0 ((fun a => zlen a + 1) <$> args)). assert (n = zlen a + 1 + k) as En by done.
    assert (0 <= k) as Hk.
    { unfold k. clear. induction args as [|a args IH]; cbn; [done|]. pose proof (zlen_nonneg a). lia. }
    rewrite (bind_step _ _ m (sp - zlen (a ++ [0])) m) by (apply push_lost; lia).
    destruct (IH (sp - zlen (a ++ [0])) ltac:(lia)) as (ptrs & E1 & HL); [fold k; lia|].
    rewrite (bind_step _ _ m _ m E1). exists ((sp - zlen (a ++ [0])) :: ptrs). split; [|cbn; lia].
    unfold mret, st_ret. do 3 f_equal. fold k. lia.
Qed.

Lemma push_words_lost : forall ws sp, sp <= USER_STACK_TOP -> USER_STACK_TOP - 2 ^ 18 <= sp - 8 * zlen ws ->
  push_words root sp ws m = Ret (sp - 8 * zlen ws, m).
Proof.
  induction ws as [|w ws IH]; intros sp Hhi Hlo; cbn [push_words].
  - unfold mret, st_ret. do 2 f_equal. unfold zlen. cbn. lia.
  - assert (zlen (w :: ws) = 1 + zlen ws) as Ez by (unfold zlen; cbn; lia). pose proof (zlen_nonneg ws).
    assert (zlen (load_list (store64 zeros 0 w) 0 8) = 8) as E8 by (unfold zlen; by rewrite length_load_list).
    rewrite (bind_step _ _ m (sp - 8) m) by (rewrite <- E8; apply push_lost; lia).
    rewrite IH by lia. do 2 f_equal. lia.
Qed.

(** A program never sees its arguments.  [proc_exec] puts them on the
    user stack at the top of the address space, but [vmm_memcpy] rounds
    addresses down to a page in 32 bits, and its result is not looked at.
    Unless the executable itself maps the pages just below 4 GiB, building
    the stack for any arguments a system call can pass changes no byte of
    memory; the stack pointer is computed as if it had worked, congruent to 8
    modulo 16. *)
Theorem exec_arguments_lost args : Forall (fun a => zlen a < MAX_PATH_LENGTH) args ->
  exists sp, build_stack root args m = Ret (sp, m) /\ sp mod 16 = 8 /\
    USER_STACK_TOP - 2 ^ 18 <= sp < USER_STACK_TOP.
Proof.
  intros Hargs. unfold build_stack. set (l0 := take (Z.to_nat MAX_ARGV) args).
  assert (length l0 <= 32)%nat as Hl0 by (unfold l0; rewrite length_take; change (Z.to_nat MAX_ARGV) with 32%nat; lia).
  assert (Forall (fun a => zlen a < MAX_PATH_LENGTH) l0) as HF by (by apply Forall_take).
  set (n := foldr Z.add 0 ((fun a => zlen a + 1) <$> l0)).
  assert (0 <= n <= 4096 * Z.of_nat (length l0)) as Hn.
  { unfold n. clear -HF. unfold MAX_PATH_LENGTH in HF. induction HF as [|a l0 Ha _ IH]; cbn; [lia|].
    pose proof (zlen_nonneg a). cbn in IH. lia. }
  unfold USER_STACK_TOP, USERSPACE_VA_MAX in *.
  destruct (push_strings_lost l0 (2 ^ 46)) as (ptrs & E1 & HL); [done|fold n; unfold USER_STACK_TOP, USERSPACE_VA_MAX; lia|].
  fold n in E1. unfold USER_STACK_TOP, USERSPACE_VA_MAX. rewrite (bind_step _ _ m _ m E1).
  assert (zlen (0 :: reverse ptrs) = Z.of_nat (length l0) + 1) as Ez by (unfold zlen; cbn; rewrite length_reverse; lia).
  assert (forall w : Z, zlen [w] = 1) as E2 by done.
  rewrite (bind_step _ _ m (2 ^ 46 - n - 8) m)
    by (rewrite push_words_lost, E2; unfold USER_STACK_TOP, USERSPACE_VA_MAX; [done|lia|rewrite E2; lia]).
  rewrite (bind_step _ _ m (2 ^ 46 - n - 8 - 8 * (Z.of_nat (length l0) + 1)) m)
    by (rewrite push_words_lost, Ez; unfold USER_STACK_TOP, USERSPACE_VA_MAX; [done|lia|rewrite Ez; lia]).
  set (q := 2 ^ 46 - n - 8 - 8 * (Z.of_nat (length l0) + 1)).
  rewrite (bind_step _ _ m (q - 8) m)
    by (rewrite push_words_lost, E2; unfold USER_STACK_TOP, USERSPACE_VA_MAX, q; [done|lia|rewrite E2; lia]).
  assert (Z.land (q - 8) (wrap 64 (Z.lnot 15)) = q - 8 - (q - 8) mod 16) as ->.
  { apply land_align16. unfold q. lia. }
  pose proof (Z.mod_pos_bound (q - 8) 16 ltac:(lia)) as Hm.
  exists (q - 8 - (q - 8) mod 16 - 8). rewrite push_words_lost, E2; unfold USER_STACK_TOP, USERSPACE_VA_MAX, q in *;
    [|lia|rewrite E2; lia].
  split; [done|]. split; [zify_div|lia].
Qed.
End arguments.
