(* ===== verification/ExecDemo.v ===== *)
(** * An executable on a small disk

    The inputs at which the theorems of UserPages.v and ExecFacts.v apply: a
    file of one program header and three bytes, and an address space with
    twelve free pages. *)
From S2P Require Import Prelude Mem PhysMem Vmm UserPages DzFS Sched SchedInv Files Syscalls KernelEnv Proc ProcDemo Exec ExecFacts.

(** ** The surroundings *)

Record machine := MkMachine { m_procs : pstate; m_extra : gmap Z proc_extra }.

#[export] Instance machine_env : ExecEnv machine := {
  env_procs := m_procs; env_put_procs p e := MkMachine p (m_extra e);
  env_extra := m_extra; env_put_extra x e := MkMachine (m_procs e) x
}.
#[export] Instance machine_laws : ExecEnvLaws machine.
Proof. split; try done. by intros []. Qed.

(** ** The address space *)

Definition wide_space : pmem := MkPmem zeros 0 [MkRegion 16384 65536] 1 true 1048576 65536.
Definition wide_pages : list Z := (fun i => 1064960 + 4096 * i) <$> seqZ 0 12.

Lemma wide_avail : avail wide_space [] = wide_pages.
Proof. vm_compute. reflexivity. Qed.

Lemma wide_pages_elem p : p ∈ wide_pages <-> exists i, p = 1064960 + 4096 * i /\ 0 <= i < 12.
Proof.
  unfold wide_pages. rewrite list_elem_of_fmap. split; intros (i & -> & Hi); exists i; (split; [done|]).
  - by apply elem_of_seqZ in Hi.
  - by apply elem_of_seqZ.
Qed.

Lemma wide_space_wf : pt_wf wide_space [] empty_root empty_tree.
Proof.
  constructor.
  - constructor; [constructor|done| |split; [simpl; lia|done]|].
    + constructor; [|done]. unfold region_ok. simpl. split_and!; try lia; done.
    + change (NoDup (avail wide_space [])). rewrite wide_avail. unfold wide_pages.
      apply NoDup_fmap_2; [intros ? ? ?; lia|apply NoDup_seqZ].
  - rewrite wide_avail. apply Forall_forall. intros p (i & -> & Hi)%wide_pages_elem.
    change (hhdm_offset wide_space) with 1048576. split; [lia|zify_div].
  - apply lookup_singleton_eq.
  - intros k p t (-> & -> & ->)%empty_tree_Some. unfold is_page.
    split; [lia|]. split; [done|]. split; [rewrite wide_avail, wide_pages_elem; intros (i & ? & ?); lia|].
    split; [lia|]. exists 0. split; [cbn; lia|done].
  - intros [k p] [k' p'] t H1%empty_tree_Some H2%empty_tree_Some. naive_solver.
  - intros k p i t ([= ->] & -> & ->)%empty_tree_Some Hi Hr.
    assert (entry wide_space 2097152 i = 0) as -> by apply load_zeros.
    change (pte_is_present 0) with false. apply lookup_singleton_None. congruence.
Qed.

Lemma wide_unmapped x : 0 <= x < 2 ^ 46 -> translate wide_space empty_root x = None.
Proof.
  intros Hx. rewrite (translate_root _ [] _ empty_tree wide_space_wf) by done. unfold leaf_entry.
  destruct (empty_tree !! (0%nat, vpn 1 x)) as [t|] eqn:Et; [|done].
  by apply empty_tree_Some in Et as (? & _).
Qed.

Lemma wide_owns P : P = ∅ -> owns wide_space [] empty_root empty_tree P.
Proof.
  intros ->. constructor; [apply wide_space_wf|intros ? ? ? Hp; by rewrite lookup_empty in Hp
                                              |intros ? ? ? ? ? Hp; by rewrite lookup_empty in Hp].
Qed.

Lemma vmm_allocate_correct_witness : exists r s', vmm_allocate empty_root 4194304 8192 (MkPerm true false true) true wide_space = Ret (r, s') /\
  r = 0 /\ exists e, translate s' empty_root 4198400 = Some e /\ pte_is_writable e = true.
Proof.
  destruct (vmm_allocate_correct wide_space [] empty_root empty_tree ∅ 4194304 2 (MkPerm true false true) true (wide_owns ∅ eq_refl)
    eq_refl ltac:(done) ltac:(done) ltac:(done) ltac:(intros; apply wide_unmapped; lia))
    as (r & s' & l' & T' & P' & j & E1 & Ho & HX & HR & HM).
  exists r, s'. split; [exact E1|].
  assert (match vmm_allocate empty_root 4194304 8192 (MkPerm true false true) true wide_space with Ret (r, _) => r =? 0 | _ => false end = true)
    as E2 by (vm_compute; reflexivity).
  change (4096 * 2) with 8192 in E1. rewrite E1 in E2. apply Z.eqb_eq in E2. split; [exact E2|].
  destruct HR as [[_ ->]|[? _]]; [|lia].
  change (4194304 / 4096) with 1024 in HM. destruct HM as [_ HD HN _].
  assert (1025 ∈ dom P') as [[p pm] Hp]%elem_of_dom by (apply HD; right; lia).
  destruct (HN _ _ _ Hp) as [Hold|(-> & _)]; [rewrite lookup_empty in Hold; discriminate Hold|].
  exists (build_pte (V2P s' p) (MkPerm true false true)).
  split; [exact (owned_translate s' l' empty_root T' P' Ho 4198400 p _ Hp)|].
  apply (owned_pte s' l' empty_root T' P' Ho 4198400 p _ Hp).
Defined.

(** ** The disk *)

(** A segment of three bytes of the file and two zeros at 4 MiB. *)
Definition prog_ph : ProgramHeader := MkPh 1 6 56 4194304 0 3 5 4096.
Definition prog_bytes : list Z := ph_bytes prog_ph ++ [97; 98; 99].
Definition prog_file : mem :=
  store32 (store32 (store8 (store8 zeros h_type DZFS_ENTITY_FILE) h_name 97) f_size 59) (f_direct 0) 5.
Definition prog_data : mem := store_list zeros 0 prog_bytes.
Definition prog_disk : DzFS.disk :=
  MkDisk (fun b => if b =? 2 then demo_bitmap else if b =? 3 then demo_root
                   else if b =? 4 then prog_file else if b =? 5 then prog_data else zeros) 8 0.

Lemma prog_bytes_ok b m : read_block b prog_disk = Some m -> bytes_ok m.
Proof.
  unfold read_block, disk_device, prog_disk. cbn [dk_blocks dk_total]. destruct (_ && _); [|done]. intros [= <-].
  assert (bytes_ok prog_data) by apply bytes_ok_store_list, bytes_ok_zeros.
  unfold demo_bitmap, demo_root, prog_file, store32.
  repeat case_match; auto 10 with word. unfold root_block, store32, store64. auto 10 with word.
Qed.

Lemma prog_is_free b : 0 <= b < 32768 -> is_free prog_disk b = is_free demo_disk b.
Proof.
  intros Hb. replace b with (0 * 32768 + b) by lia.
  rewrite (is_free_bit prog_disk 0 b demo_bitmap), (is_free_bit demo_disk 0 b demo_bitmap) by (done || lia). done.
Qed.

Lemma prog_fs_ok : fs_ok demo_fs prog_disk.
Proof.
  constructor; try reflexivity.
  - intros b m Hm. by apply (prog_bytes_ok b).
  - intros b Hb. simpl in Hb. rewrite prog_is_free by lia. by apply (fs_free _ _ demo_fs_ok).
Qed.

Lemma prog_ptr k : 0 <= k -> blk_ptr prog_file zeros k = if k =? 0 then 5 else 0.
Proof.
  intros Hk. unfold prog_file. destruct (Z.eqb_spec k 0) as [->|Hne]; [reflexivity|].
  unfold blk_ptr, DZFS_DIRECT_BLOCKS, f_direct. destruct (Z.leb_spec 956 k); [apply load_zeros|].
  rewrite load32_store32_out by lia. rewrite load32_store32_out by (unfold f_size; lia).
  rewrite <- (load_zeros (272 + 4 * k) 4). apply load_le_ext. intros x Hx.
  unfold h_type, h_name. by rewrite !store8_ne by lia.
Qed.

Lemma prog_file_on : file_on prog_disk 4 prog_file zeros.
Proof. split; [done|]. split; [reflexivity|]. split; [|done]. intros E. exfalso. apply E. reflexivity. Qed.

Lemma prog_file_ok : file_ok demo_fs prog_disk 4 prog_file zeros.
Proof.
  constructor; try done.
  - intros k Hk. rewrite prog_ptr by lia. destruct (k =? 0); [|done]. intros _.
    split; [simpl; lia|]. split; [|done]. rewrite prog_is_free by lia. by rewrite demo_is_free by lia.
  - intros k j Hk Hj. rewrite !prog_ptr by lia.
    destruct (Z.eqb_spec k 0), (Z.eqb_spec j 0); try done; lia.
  - intros k _ Hk. unfold DZFS_DIRECT_BLOCKS in Hk. rewrite prog_ptr by lia.
    destruct (Z.eqb_spec k 0); [lia|done].
  - split; [|apply bytes_ok_zeros]. by apply (prog_bytes_ok 4).
Qed.

(** The file is the first inode; process 0 has the empty address space. *)
Definition prog_state : kstate DzFS.disk machine :=
  MkK demo_fs (MkInode INODE_FILE 4 3 59 1 :: replicate 63 inode_empty) prog_disk (replicate 64 None) None
    (MkMachine (pstate_boot wide_space demo_vm) ∅).

Lemma prog_holds : holds_file prog_state (Some 0) prog_bytes.
Proof.
  assert (prog_bytes = fbyte (disk prog_state) prog_file zeros <$> seqZ 0 (load32 prog_file f_size)) as -> by (vm_compute; reflexivity).
  apply (holds_file_of prog_state 0 (MkInode INODE_FILE 4 3 59 1) prog_file zeros).
  - reflexivity.
  - apply prog_fs_ok.
  - apply prog_file_on.
  - apply prog_file_ok.
  - vm_compute. congruence.
  - vm_compute. congruence.
  - intros o. unfold fbyte. destruct (read_block _ _) as [m|] eqn:Em; [|lia]. apply (prog_bytes_ok _ _ Em).
Qed.

Lemma prog_wf : pt_wf (mem_of prog_state) [] empty_root empty_tree.
Proof. exact wide_space_wf. Qed.
Lemma prog_owns : owns (mem_of prog_state) [] empty_root empty_tree ∅.
Proof. exact (wide_owns ∅ eq_refl). Qed.

Lemma prog_loadable : loadable prog_bytes 0 1 = [prog_ph].
Proof. vm_compute. reflexivity. Qed.

Lemma prog_layout : good_layout 0 wide_space empty_root [prog_ph].
Proof.
  constructor.
  - apply Forall_singleton. constructor; vm_compute; intuition congruence.
  - apply FOP_cons; [apply Forall_nil_2|constructor].
  - intros ph v ->%list_elem_of_singleton Hv. apply wide_unmapped. revert Hv.
    change (seg_first 0 prog_ph) with 1024. change (seg_pages 0 prog_ph) with 1. lia.
Qed.

Lemma wide_no_frame_0 : hhdm_offset (mem_of prog_state) ∉ avail (mem_of prog_state) [].
Proof. change (mem_of prog_state) with wide_space. rewrite wide_avail, wide_pages_elem. change (hhdm_offset wide_space) with 1048576. intros (i & ? & ?). lia. Qed.

Lemma exec_image_correct_witness : exists m', load_segments 1 empty_root (Some 0) 0 0 0 prog_state = Ret (Some 4198400, with_mem prog_state m') /\
  maps m' empty_root 4194305 (MkPerm true false true) 98 /\ maps m' empty_root 4194308 (MkPerm true false true) 0.
Proof.
  assert (good_layout 0 (mem_of prog_state) empty_root (loadable prog_bytes 0 1)) as HG
    by (rewrite prog_loadable; exact prog_layout).
  destruct (exec_image_correct prog_state [] empty_root empty_tree (Some 0) prog_bytes 0 0 1 prog_wf
    wide_no_frame_0 prog_holds ltac:(lia) ltac:(reflexivity) HG) as (r & m' & l' & T' & E1 & _ & _ & HR).
  assert (match load_segments 1 empty_root (Some 0) 0 0 0 prog_state with Ret (Some _, _) => true | _ => false end = true)
    as E2 by (vm_compute; reflexivity).
  rewrite E1 in E2. destruct r as [e|]; [|discriminate E2]. destruct HR as [-> HM]. rewrite prog_loadable in *.
  exists m'. split; [exact E1|]. assert (prog_ph ∈ [prog_ph]) as Hin by (by apply list_elem_of_singleton).
  split; [apply (HM prog_ph 4194305 Hin)|apply (HM prog_ph 4194308 Hin)];
    change (seg_va 0 prog_ph) with 4194304; change (p_memsz prog_ph) with 5; lia.
Defined.

Lemma exec_arguments_lost_witness : exists sp, build_stack empty_root [[97]; [98; 99]] wide_space = Ret (sp, wide_space) /\
  sp mod 16 = 8.
Proof.
  destruct (exec_arguments_lost wide_space [] empty_root empty_tree wide_space_wf
    ltac:(intros x Hx; apply wide_unmapped; lia) [[97]; [98; 99]]) as (sp & E1 & E2 & _).
  - repeat constructor.
  - exists sp. exact (conj E1 E2).
Defined.

(** A segment without bytes. *)
Definition empty_ph : ProgramHeader := MkPh 1 6 56 4194304 0 0 0 4096.
Lemma exec_layout_panics_witness : load_one empty_root (Some 0) 0 empty_ph prog_state = Panic "vmm_allocate: size".
Proof.
  apply (proj1 (exec_layout_panics prog_state [] empty_root empty_tree ∅ (Some 0) 0 empty_ph prog_owns)).
  - vm_compute. intuition congruence.
  - reflexivity.
  - reflexivity.
  - reflexivity.
Defined.

Lemma exec_headers_roundtrip_witness : ph_of (ph_bytes prog_ph) = prog_ph.
Proof.
  apply (proj2 exec_headers_roundtrip prog_ph). split; repeat constructor; vm_compute; congruence.
Defined.
