(* ===== verification/Nvme.v ===== *)
(** * The NVMe driver (kernel/src/drivers/drv_nvme.c, and the block callbacks
      of fs/fs.c)

    The driver talks to one controller: it writes commands of 64 bytes into a
    submission queue in memory, rings a doorbell register, and polls the
    completion queue, where the controller posts an entry of 16 bytes per
    command and marks it as new with the phase bit.

    The controller is an interface, [NvmeController]: its registers, and
    [tick], what it does to memory between two looks of the driver.  The
    registers are reached through the mapping [vmm_io_memmap] makes; an access
    at [base + offset] is an access to the register [offset] here.  A wait
    loop takes fuel.

    The driver's structure [nvme_device_data_t] is a record; the queues, the
    commands and the completions are bytes of memory. *)
From S2P Require Import Prelude Mem PhysMem Vmm KMalloc Digits Printf.
From S2P Require DzFS.

(** Widths of a register access in bytes; [tick] gets the offset of the
    direct map, since it addresses memory by physical addresses. *)
Class NvmeController (C : Type) := {
  reg_read : nat -> Z -> C -> Z;
  reg_write : nat -> Z -> Z -> C -> C;
  tick : Z -> mem -> C -> mem * C
}.

Definition NVME_CAP_OFFSET : Z := 0x0000.
Definition NVME_CC_OFFSET : Z := 0x0014.
Definition NVME_CSTS_OFFSET : Z := 0x001c.
Definition NVME_AQA_OFFSET : Z := 0x0024.
Definition NVME_ASQ_OFFSET : Z := 0x0028.
Definition NVME_ACQ_OFFSET : Z := 0x0030.
Definition NVME_ADMIN_QUEUE_SIZE : Z := 2.
Definition NVME_IO_QUEUE_SIZE : Z := 16.
Definition NVME_NAMESPACE_INDEX : Z := 1.

Definition NVME_CAP_DSTRD (x : Z) : Z := Z.shiftl 1 (2 + Z.land (Z.shiftr x 32) 0xf).
Definition NVME_SQTDBL_OFFSET (QID DSTRD : Z) : Z := wrap 32 (0x1000 + wrap 32 (2 * QID * DSTRD)).
Definition NVME_CQHDBL_OFFSET (QID DSTRD : Z) : Z :=
  wrap 32 (0x1000 + wrap 32 ((2 * QID + 1) * DSTRD)).

(** [sizeof(nvme_sq_entry_t)] and the offsets of its fields. *)
Definition SQ_ENTRY : Z := 64.
Definition sq_opc : Z := 0.
Definition sq_cid : Z := 2.
Definition sq_nsid : Z := 4.
Definition sq_prp0 : Z := 24.
Definition sq_cdw10 : Z := 40.
Definition sq_cdw11 : Z := 44.
Definition sq_cdw12 : Z := 48.

(** [sizeof(nvme_cq_entry_t)] and the offset of [flags]. *)
Definition CQ_ENTRY : Z := 16.
Definition cq_flags : Z := 14.

(** [nvme_namespace_data_t]: offsets of [nsze], [flbas] and [lba_format];
    [lbads] is the third byte of a format. *)
Definition ns_nsze : Z := 0.
Definition ns_flbas : Z := 26.
Definition ns_lba_format : Z := 128.
Definition ns_lbads (i : Z) : Z := ns_lba_format + 4 * i + 2.

(** ** State *)

Record nvme_queue := MkQueue {
  submission_queue : Z; completion_queue : Z;
  submission_queue_tail : Z; completion_queue_head : Z;
  queue_index : Z; queue_size : Z; completion_queue_current_phase : Z
}.
Definition queue_zero : nvme_queue := MkQueue 0 0 0 0 0 0 0.

Record nvme_device_data := MkNvme {
  base : Z; cap : Z; admin_queue : nvme_queue; io_queue : nvme_queue;
  nv_total_blocks : Z; block_size : Z; next_command_id : Z
}.
Definition nvme_zero : nvme_device_data := MkNvme 0 0 queue_zero queue_zero 0 0 0.
(** [sizeof(nvme_device_data_t)]. *)
Definition NVME_DATA_SIZE : Z := 112.

(** The two queues of a controller. *)
Inductive which := Admin | Io.
#[export] Instance which_eq_dec : EqDecision which.
Proof. solve_decision. Defined.
Definition get_queue (w : which) (d : nvme_device_data) : nvme_queue :=
  match w with Admin => admin_queue d | Io => io_queue d end.
Definition set_queue (w : which) (q : nvme_queue) (d : nvme_device_data) : nvme_device_data :=
  match w with
  | Admin => MkNvme (base d) (cap d) q (io_queue d) (nv_total_blocks d) (block_size d) (next_command_id d)
  | Io => MkNvme (base d) (cap d) (admin_queue d) q (nv_total_blocks d) (block_size d) (next_command_id d)
  end.
Definition set_cid (d : nvme_device_data) (cid : Z) : nvme_device_data :=
  MkNvme (base d) (cap d) (admin_queue d) (io_queue d) (nv_total_blocks d) (block_size d) cid.
Definition set_geometry (d : nvme_device_data) (total size : Z) : nvme_device_data :=
  MkNvme (base d) (cap d) (admin_queue d) (io_queue d) total size (next_command_id d).

(** The heap, the kernel's mappings, the controller, the structure of the
    device, whether [g_nvme] points to it, and [g_nvme_device_count]. *)
Record host (C : Type) := MkHost {
  heap : kheap; maps : vmm_globals; ctrl : C; nv : nvme_device_data;
  g_nvme : bool; g_nvme_device_count : Z
}.
Arguments MkHost {C}. Arguments heap {C}. Arguments maps {C}. Arguments ctrl {C}.
Arguments nv {C}. Arguments g_nvme {C}. Arguments g_nvme_device_count {C}.

Section nvme.
Context {C : Type} `{NvmeController C}.

Definition set_heap (h : kheap) (s : host C) : host C :=
  MkHost h (maps s) (ctrl s) (nv s) (g_nvme s) (g_nvme_device_count s).
Definition set_maps (v : vmm_globals) (s : host C) : host C :=
  MkHost (heap s) v (ctrl s) (nv s) (g_nvme s) (g_nvme_device_count s).
Definition set_ctrl (c : C) (s : host C) : host C :=
  MkHost (heap s) (maps s) c (nv s) (g_nvme s) (g_nvme_device_count s).
Definition set_nv (d : nvme_device_data) (s : host C) : host C :=
  MkHost (heap s) (maps s) (ctrl s) d (g_nvme s) (g_nvme_device_count s).
Definition host_mem (s : host C) : pmem := phys (heap s).
Definition set_host_mem (p : pmem) (s : host C) : host C := set_heap (set_phys (heap s) p) s.
Definition set_host_ram (m : mem) (s : host C) : host C := set_host_mem (set_ram (host_mem s) m) s.

Definition on_heap {A} (m : ST kheap A) : ST (host C) A := zoom heap set_heap m.
Definition on_mem {A} (m : ST pmem A) : ST (host C) A := zoom host_mem set_host_mem m.
Definition store (f : mem -> mem) : ST (host C) unit :=
  st_modify (fun s => set_host_ram (f (ram (host_mem s))) s).
Definition load (f : mem -> Z) : ST (host C) Z := reads (fun s => f (ram (host_mem s))).
Definition nv_modify (f : nvme_device_data -> nvme_device_data) : ST (host C) unit :=
  st_modify (fun s => set_nv (f (nv s)) s).

(** [NVME_REG4] and [NVME_REG8]. *)
Definition read_reg (n : nat) (off : Z) : ST (host C) Z := reads (fun s => reg_read n off (ctrl s)).
Definition write_reg (n : nat) (off v : Z) : ST (host C) unit :=
  st_modify (fun s => set_ctrl (reg_write n off (wrap (8 * Z.of_nat n) v) (ctrl s)) s).

(** The controller goes on while the driver waits. *)
Definition run_controller : ST (host C) unit :=
  st_modify (fun s => let '(m, c) := tick (hhdm_offset (host_mem s)) (ram (host_mem s)) (ctrl s) in
                      set_ctrl c (set_host_ram m s)).

(** ** The registers *)

(** [while ((NVME_REG4(nvme->base, NVME_CSTS_OFFSET) & 1) == v);] *)
Fixpoint wait_csts (fuel : nat) (v : Z) : ST (host C) unit :=
  match fuel with
  | O => st_nofuel
  | S fuel' =>
      csts ← read_reg 4 NVME_CSTS_OFFSET;
      if Z.land csts 1 =? v then _ ← run_controller; wait_csts fuel' v else mret tt
  end.

Definition nvme_disable_device (fuel : nat) : ST (host C) unit :=
  cc ← read_reg 4 NVME_CC_OFFSET;
  _ ← write_reg 4 NVME_CC_OFFSET (Z.land cc (wrap 64 (Z.lnot 1)));
  wait_csts fuel 1.

Definition nvme_enable_device (fuel : nat) : ST (host C) unit :=
  let cc := Z.lor (Z.lor 1 (Z.shiftl 6 16)) (Z.shiftl 4 20) in
  _ ← write_reg 4 NVME_CC_OFFSET cc;
  wait_csts fuel 0.

(** ** One command *)

(** [while ((cq->flags & 0x1) == queue->completion_queue_current_phase);] *)
Fixpoint wait_phase (fuel : nat) (cq phase : Z) : ST (host C) unit :=
  match fuel with
  | O => st_nofuel
  | S fuel' =>
      flags ← load (fun m => load16 m (cq + cq_flags));
      if Z.land flags 1 =? phase then _ ← run_controller; wait_phase fuel' cq phase else mret tt
  end.

(** The queue behind one completion. *)
Definition advance_head (q : nvme_queue) : nvme_queue :=
  let head := wrap 32 (completion_queue_head q + 1) in
  if wrap 32 (queue_size q - 1) <? head
  then MkQueue (submission_queue q) (completion_queue q) (submission_queue_tail q) 0
         (queue_index q) (queue_size q) (Z.lxor (completion_queue_current_phase q) 1)
  else MkQueue (submission_queue q) (completion_queue q) (submission_queue_tail q) head
         (queue_index q) (queue_size q) (completion_queue_current_phase q).
Definition advance_tail (q : nvme_queue) : nvme_queue :=
  let tail := wrap 32 (submission_queue_tail q + 1) in
  MkQueue (submission_queue q) (completion_queue q)
    (if wrap 32 (queue_size q - 1) <? tail then 0 else tail)
    (completion_queue_head q) (queue_index q) (queue_size q) (completion_queue_current_phase q).
Definition left_commands (q : nvme_queue) : Z :=
  if completion_queue_head q <? submission_queue_tail q
  then wrap 32 (submission_queue_tail q - completion_queue_head q)
  else wrap 32 (wrap 32 (queue_size q - completion_queue_head q) + submission_queue_tail q).

(** [while (left_commands--)]. *)
Fixpoint complete (fuel n : nat) (w : which) : ST (host C) unit :=
  match n with
  | O => mret tt
  | S n' =>
      q ← reads (fun s => get_queue w (nv s));
      _ ← wait_phase fuel (completion_queue q + CQ_ENTRY * completion_queue_head q)
            (completion_queue_current_phase q);
      _ ← nv_modify (set_queue w (advance_head q));
      complete fuel n' w
  end.

Definition nvme_do_one_cmd_synchronous (fuel : nat) (w : which) : ST (host C) unit :=
  _ ← nv_modify (fun d => set_queue w (advance_tail (get_queue w d)) d);
  d ← reads nv;
  let q := get_queue w d in
  _ ← write_reg 4 (NVME_SQTDBL_OFFSET (queue_index q) (NVME_CAP_DSTRD (cap d))) (submission_queue_tail q);
  _ ← complete fuel (Z.to_nat (left_commands q)) w;
  d ← reads nv;
  let q := get_queue w d in
  write_reg 4 (NVME_CQHDBL_OFFSET (queue_index q) (NVME_CAP_DSTRD (cap d))) (completion_queue_head q).

(** The entry at the tail of a queue, cleared. *)
Definition new_entry (w : which) : ST (host C) Z :=
  q ← reads (fun s => get_queue w (nv s));
  let sq := submission_queue q + SQ_ENTRY * submission_queue_tail q in
  _ ← store (fun m => fill m sq 0 SQ_ENTRY);
  mret sq.

(** [NEXT_CID]. *)
Definition NEXT_CID : ST (host C) Z :=
  cid ← reads (fun s => next_command_id (nv s));
  _ ← nv_modify (fun d => set_cid d (wrap 16 (next_command_id d + 1)));
  mret cid.

Definition put8 (a v : Z) : ST (host C) unit := store (fun m => store8 m a v).
Definition put16 (a v : Z) : ST (host C) unit := store (fun m => store16 m a v).
Definition put32 (a v : Z) : ST (host C) unit := store (fun m => store32 m a v).
Definition put64 (a v : Z) : ST (host C) unit := store (fun m => store64 m a v).

(** [sq->opc = opc; sq->cid = NEXT_CID(nvme);] *)
Definition start_entry (w : which) (opc : Z) : ST (host C) Z :=
  sq ← new_entry w;
  _ ← put8 (sq + sq_opc) opc;
  cid ← NEXT_CID;
  _ ← put16 (sq + sq_cid) cid;
  mret sq.

Definition host_V2P (p : Z) : ST (host C) Z := reads (fun s => V2P (host_mem s) p).

(** ** Setting a controller up *)

(** The three commands of [nvme_create_io_queue]: set features (number of
    queues), create the completion queue, create the submission queue. *)
Definition set_queue_count (fuel : nat) : ST (host C) unit :=
  sq ← start_entry Admin 9;
  _ ← put32 (sq + sq_cdw10) 7;
  _ ← put32 (sq + sq_cdw11) 0;
  nvme_do_one_cmd_synchronous fuel Admin.
Definition create_io_cq (fuel : nat) : ST (host C) unit :=
  sq ← start_entry Admin 5;
  io ← reads (fun s => io_queue (nv s));
  cq_phys ← host_V2P (completion_queue io);
  _ ← put64 (sq + sq_prp0) cq_phys;
  _ ← put32 (sq + sq_cdw11) 1;
  _ ← put32 (sq + sq_cdw10) (Z.lor (queue_index io) (Z.shiftl (NVME_IO_QUEUE_SIZE - 1) 16));
  nvme_do_one_cmd_synchronous fuel Admin.
Definition create_io_sq (fuel : nat) : ST (host C) unit :=
  sq ← start_entry Admin 1;
  io ← reads (fun s => io_queue (nv s));
  sq_phys ← host_V2P (submission_queue io);
  _ ← put64 (sq + sq_prp0) sq_phys;
  _ ← put32 (sq + sq_cdw11) (Z.lor 1 (wrap 32 (Z.shiftl (queue_index io) 16)));
  _ ← put32 (sq + sq_cdw10) (Z.lor (queue_index io) (Z.shiftl (NVME_IO_QUEUE_SIZE - 1) 16));
  nvme_do_one_cmd_synchronous fuel Admin.
Definition nvme_create_io_queue (fuel : nat) : ST (host C) unit :=
  _ ← set_queue_count fuel;
  _ ← create_io_cq fuel;
  create_io_sq fuel.

(** [2 << (lbads - 1)] on an [int]: a shift by a negative amount and one that
    leaves the type are undefined. *)
Definition block_size_of (lbads : Z) : outcome Z :=
  if (1 <=? lbads) && (lbads <=? 30) then Ret (Z.shiftl 2 (lbads - 1)) else Undef.
Definition lift {A} (o : outcome A) : ST (host C) A := fun s =>
  match o with Ret a => Ret (a, s) | Panic msg => Panic msg | Undef => Undef | NoFuel => NoFuel end.

(** The command of [nvme_identify_namespace]. *)
Definition identify (fuel : nat) (ns_data : Z) : ST (host C) unit :=
  sq ← start_entry Admin 6;
  _ ← put32 (sq + sq_cdw10) 0;
  _ ← put32 (sq + sq_nsid) NVME_NAMESPACE_INDEX;
  ns_phys ← host_V2P ns_data;
  _ ← put64 (sq + sq_prp0) ns_phys;
  nvme_do_one_cmd_synchronous fuel Admin.

Definition nvme_identify_namespace (fuel : nat) : ST (host C) unit :=
  ns_data ← on_mem (updates kalloc);
  if ns_data =? 0 then mret tt
  else
    _ ← identify fuel ns_data;
    flbas ← load (fun m => m (ns_data + ns_flbas));
    lbads ← load (fun m => m (ns_data + ns_lbads (Z.land flbas 0xf)));
    size ← lift (block_size_of lbads);
    total ← load (fun m => load64 m (ns_data + ns_nsze));
    _ ← nv_modify (fun d => set_geometry d total size);
    on_mem (effect (kfree ns_data)).

(** [nvme_init]: disable and configure the controller. *)
Definition nvme_configure (fuel : nat) : ST (host C) unit :=
  _ ← nvme_disable_device fuel;
  _ ← write_reg 4 NVME_AQA_OFFSET (Z.lor (NVME_ADMIN_QUEUE_SIZE - 1) (Z.shiftl (NVME_ADMIN_QUEUE_SIZE - 1) 16));
  d ← reads nv;
  asq_phys ← host_V2P (submission_queue (admin_queue d));
  _ ← write_reg 8 NVME_ASQ_OFFSET asq_phys;
  acq_phys ← host_V2P (completion_queue (admin_queue d));
  _ ← write_reg 8 NVME_ACQ_OFFSET acq_phys;
  nvme_enable_device fuel.

(** The part of [nvme_init] from the allocation of the queues to the
    identification of the namespace; [false] is the failure of one of the
    four allocations. *)
Definition nvme_start (fuel : nat) : ST (host C) bool :=
  asq ← on_mem (updates kcalloc);
  acq ← on_mem (updates kcalloc);
  iosq ← on_mem (updates kcalloc);
  iocq ← on_mem (updates kcalloc);
  _ ← nv_modify (fun d => MkNvme (base d) (cap d)
        (MkQueue asq acq 0 0 0 0 0) (MkQueue iosq iocq 0 0 0 0 0)
        (nv_total_blocks d) (block_size d) (next_command_id d));
  if (asq =? 0) || (acq =? 0) || (iosq =? 0) || (iocq =? 0) then mret false
  else
    _ ← nv_modify (fun d => MkNvme (base d) (cap d)
          (MkQueue asq acq 0 0 0 NVME_ADMIN_QUEUE_SIZE 0) (MkQueue iosq iocq 0 0 1 NVME_IO_QUEUE_SIZE 0)
          (nv_total_blocks d) (block_size d) (next_command_id d));
    _ ← nvme_configure fuel;
    _ ← nvme_create_io_queue fuel;
    _ ← nvme_identify_namespace fuel;
    mret true.

(** The name of a device: a string on the heap, or the literal ["nvme?"]. *)
Inductive device_name := Allocated (p : Z) | Fallback.

(** [nvme_probe] on the class, subclass and programming interface found by
    the enumeration. *)
Definition nvme_probe (class_code subclass prog_if : Z) : Z :=
  if negb (class_code =? 1) || negb (subclass =? 8) || negb (prog_if =? 2) then -1 else 0.

(** The address in the base registers 0 and 1. *)
Definition nvme_bar (bar0 bar1 : Z) : Z := Z.lor (Z.shiftl bar1 32) (Z.land bar0 0xFFFFFFF0).

(** The result and, on success, the pointers stored in [dev->driver_data]
    and [dev->name]. *)
Definition nvme_init (kfloat : pf_globals -> Z -> list Z) (g : pf_globals) (fuel : nat) (bar0 bar1 : Z)
    : ST (host C) (Z * option (Z * device_name)) :=
  nvme ← on_heap (kcmalloc fuel NVME_DATA_SIZE);
  if nvme =? 0 then mret (-1, None)
  else
    _ ← nv_modify (fun _ => nvme_zero);
    v ← reads maps;
    '(va, v) ← on_mem (vmm_io_memmap v (nvme_bar bar0 bar1) 0x2000);
    _ ← st_modify (set_maps v);
    if va =? 0 then _ ← on_heap (kmfree nvme); mret (-1, None)
    else
      c ← read_reg 8 NVME_CAP_OFFSET;
      _ ← nv_modify (fun d => MkNvme va c (admin_queue d) (io_queue d) (nv_total_blocks d) (block_size d) 0);
      ok ← nvme_start fuel;
      if negb ok then _ ← on_heap (kmfree nvme); mret (-1, None)
      else
        device_id ← reads g_nvme_device_count;
        _ ← st_modify (fun s => MkHost (heap s) (maps s) (ctrl s) (nv s) (g_nvme s)
                                 (wrap 32 (g_nvme_device_count s + 1)));
        device_name ← on_heap (kcmalloc fuel 16);
        if device_name =? 0 then mret (0, Some (nvme, Fallback))
        else
          m ← reads (fun s => ram (host_mem s));
          '(_, m) ← lift (snprintf kfloat g m device_name 16 (bytes "nvme%u") [VWord device_id]);
          _ ← st_modify (set_host_ram m);
          mret (0, Some (nvme, Allocated device_name)).

(** The two operations of the driver table are stubs; blocks are reached
    through the functions below. *)
Definition nvme_read_op (count : Z) : Z := 0.
Definition nvme_write_op (count : Z) : Z := 0.

(** [kfree] of [dev->name]. *)
Definition nvme_remove_op (literal : Z) (name : device_name) : ST (host C) Z :=
  _ ← on_mem (effect (kfree (match name with Allocated p => p | Fallback => literal end)));
  mret 0.

Definition nvme_set_global : ST (host C) unit :=
  st_modify (fun s => MkHost (heap s) (maps s) (ctrl s) (nv s) true (g_nvme_device_count s)).

(** ** Blocks *)

(** The command both transfers send: the fields are filled in the same order,
    only the opcode and the number of blocks differ. *)
Definition submit_io (fuel : nat) (opc lba cdw12 aligned_buffer : Z) : ST (host C) unit :=
  sq ← start_entry Io opc;
  _ ← put32 (sq + sq_nsid) NVME_NAMESPACE_INDEX;
  _ ← put32 (sq + sq_cdw10) lba;
  _ ← put32 (sq + sq_cdw11) (Z.shiftr lba 32);
  _ ← put32 (sq + sq_cdw12) cdw12;
  buffer_phys ← host_V2P aligned_buffer;
  _ ← put64 (sq + sq_prp0) buffer_phys;
  nvme_do_one_cmd_synchronous fuel Io.

Definition nvme_write (fuel : nat) (lba block_count buffer : Z) : ST (host C) unit :=
  bound ← reads g_nvme;
  if negb bound then mret tt
  else
    d ← reads nv;
    let n := wrap 32 (block_count * block_size d) in
    if PAGE_SIZE <? n then mret tt
    else
      aligned_buffer ← on_mem (updates kalloc);
      if (aligned_buffer =? 0) && (0 <? n) then st_undef
      else
        _ ← store (fun m => blit m aligned_buffer m buffer n);
        _ ← submit_io fuel 1 lba (Z.land (wrap 32 (block_count - 1)) 0xFFFF) aligned_buffer;
        on_mem (effect (kfree aligned_buffer)).

Definition nvme_read (fuel : nat) (lba block_count buffer : Z) : ST (host C) unit :=
  bound ← reads g_nvme;
  if negb bound then mret tt
  else
    d ← reads nv;
    let n := wrap 32 (block_count * block_size d) in
    if PAGE_SIZE <? n then mret tt
    else
      aligned_buffer ← on_mem (updates kalloc);
      _ ← submit_io fuel 2 lba (wrap 32 (block_count - 1)) aligned_buffer;
      if (aligned_buffer =? 0) && (0 <? n) then st_undef
      else
        _ ← store (fun m => blit m buffer m aligned_buffer n);
        on_mem (effect (kfree aligned_buffer)).

Definition nvme_block_size : ST (host C) Z :=
  reads (fun s => if g_nvme s then block_size (nv s) else 512).

(** ** The callbacks of the file system (fs/fs.c) *)

Definition PARTITION_OFFSET : Z := 133120.
Definition PARTITION_SIZE : Z := 204766 - PARTITION_OFFSET.

(** [DZFS_BLOCK_SIZE / nvme_block_size()]. *)
Definition blocks_per_block : ST (host C) Z :=
  size ← nvme_block_size;
  if size =? 0 then st_undef else mret (DzFS.DZFS_BLOCK_SIZE / size).

Definition fs_write_block (fuel : nat) (block_index block : Z) : ST (host C) Z :=
  k ← blocks_per_block;
  _ ← nvme_write fuel (wrap 64 (PARTITION_OFFSET + block_index * k)) k block;
  mret 0.
Definition fs_read_block (fuel : nat) (block_index block : Z) : ST (host C) Z :=
  k ← blocks_per_block;
  _ ← nvme_read fuel (wrap 64 (PARTITION_OFFSET + block_index * k)) k block;
  mret 0.
Definition fs_total_blocks : Z := PARTITION_SIZE / DzFS.DZFS_BLOCK_SIZE.

End nvme.
