(* ===== verification/NvmeFacts.v ===== *)
(** * What the NVMe driver does (about the definitions of Nvme.v)

    [NvmeLaws] states what the specification of NVMe promises of a controller,
    as far as this driver relies on it: a controller that is not enabled has
    no queues, one that is enabled has the queues it was told about, and a
    command whose doorbell is rung is performed and its completion posted
    after some time.  [nvme_read_spec] and [nvme_write_spec] are about blocks,
    [nvme_partition_correct] is the promise of [BlockDevice] to the file
    system, [nvme_start_correct] the set-up, and [nvme_empty_transfer] a
    transfer that is larger than its buffer. *)
From S2P Require Import Prelude Mem PhysMem Vmm UserPages KMalloc Nvme.
From S2P Require DzFS.

(** ** The documented behaviour of a controller *)

(** A circular queue: its physical address, its size, the next entry the
    controller reads (submission) or writes (completion). *)
Record ring := MkRing { rg_base : Z; rg_size : Z; rg_pos : Z }.

(** What the driver can know about a controller: whether it is enabled, the
    registers of the admin queues, the queues (of a completion queue also the
    phase bit of the next entry), the identify data of namespace 1 and its
    contents, byte by byte. *)
Record nvme_view := MkView {
  vw_ready : bool; vw_cap : Z; vw_aqa : Z; vw_asq : Z; vw_acq : Z;
  vw_sq : Z -> option ring; vw_cq : Z -> option (ring * bool);
  vw_ns : mem; vw_disk : mem
}.
Definition set_view_sq (v : nvme_view) (i : Z) (r : option ring) : nvme_view :=
  MkView (vw_ready v) (vw_cap v) (vw_aqa v) (vw_asq v) (vw_acq v)
    (fun j => if j =? i then r else vw_sq v j) (vw_cq v) (vw_ns v) (vw_disk v).
Definition set_view_cq (v : nvme_view) (i : Z) (r : option (ring * bool)) : nvme_view :=
  MkView (vw_ready v) (vw_cap v) (vw_aqa v) (vw_asq v) (vw_acq v)
    (vw_sq v) (fun j => if j =? i then r else vw_cq v j) (vw_ns v) (vw_disk v).
Definition set_view_disk (v : nvme_view) (d : mem) : nvme_view :=
  MkView (vw_ready v) (vw_cap v) (vw_aqa v) (vw_asq v) (vw_acq v) (vw_sq v) (vw_cq v) (vw_ns v) d.

Definition vw_nsze (v : nvme_view) : Z := load64 (vw_ns v) ns_nsze.
Definition vw_format (v : nvme_view) : Z := Z.land (vw_ns v ns_flbas) 0xf.
Definition vw_lbads (v : nvme_view) : Z := vw_ns v (ns_lbads (vw_format v)).
Definition vw_ms (v : nvme_view) : Z := load16 (vw_ns v) (ns_lba_format + 4 * vw_format v).
Definition vw_bs (v : nvme_view) : Z := 2 ^ vw_lbads v.

(** A command, as far as the driver fills it in. *)
Record command := MkCommand {
  cm_opc : Z; cm_nsid : Z; cm_prp : Z; cm_cdw10 : Z; cm_cdw11 : Z; cm_cdw12 : Z
}.
Definition fetch (m : mem) (a : Z) : command :=
  MkCommand (m (a + sq_opc)) (load32 m (a + sq_nsid)) (load64 m (a + sq_prp0))
    (load32 m (a + sq_cdw10)) (load32 m (a + sq_cdw11)) (load32 m (a + sq_cdw12)).

(** The number of blocks of a read or write: the field is zero-based. *)
Definition cm_blocks (c : command) : Z := wrap 16 (cm_cdw12 c) + 1.
Definition cm_lba (c : command) : Z := cm_cdw10 c + 2 ^ 32 * cm_cdw11 c.

(** The transfer of a read or write fits into the page of its first pointer,
    and its blocks are blocks of the namespace. *)
Definition transfer_ok (c : command) (v : nvme_view) : bool :=
  (cm_nsid c =? 1) && (vw_ms v =? 0) && (cm_lba c + cm_blocks c <=? vw_nsze v) &&
  (cm_prp c mod 4 =? 0) && (cm_prp c mod 4096 + cm_blocks c * vw_bs v <=? 4096).

(** The queue sizes a controller supports: the field MQES is zero-based. *)
Definition size_ok (v : nvme_view) (size : Z) : bool := (2 <=? size) && (size <=? wrap 16 (vw_cap v) + 1).

(** What a command does to memory and to the controller; [None]: an error, or
    a command this driver does not send. *)
Definition perform (off i : Z) (c : command) (m : mem) (v : nvme_view) : option (mem * nvme_view) :=
  if i =? 0 then
    let id := wrap 16 (cm_cdw10 c) in
    let size := Z.shiftr (cm_cdw10 c) 16 + 1 in
    if cm_opc c =? 9 then if wrap 8 (cm_cdw10 c) =? 7 then Some (m, v) else None
    else if cm_opc c =? 5 then
      if (0 <? id) && Z.testbit (cm_cdw11 c) 0 && (cm_prp c mod 4096 =? 0) && size_ok v size &&
         bool_decide (vw_cq v id = None)
      then Some (m, set_view_cq v id (Some (MkRing (cm_prp c) size 0, true))) else None
    else if cm_opc c =? 1 then
      if (0 <? id) && Z.testbit (cm_cdw11 c) 0 && (cm_prp c mod 4096 =? 0) && size_ok v size &&
         bool_decide (vw_sq v id = None) && (Z.shiftr (cm_cdw11 c) 16 =? id) &&
         bool_decide (is_Some (vw_cq v id))
      then Some (m, set_view_sq v id (Some (MkRing (cm_prp c) size 0))) else None
    else if cm_opc c =? 6 then
      if (wrap 8 (cm_cdw10 c) =? 0) && (cm_nsid c =? 1) && (cm_prp c mod 4096 =? 0)
      then Some (blit m (wrap 64 (cm_prp c + off)) (vw_ns v) 0 4096, v) else None
    else None
  else if negb (transfer_ok c v) then None
  else if cm_opc c =? 1 then
    Some (m, set_view_disk v (blit (vw_disk v) (cm_lba c * vw_bs v) m (wrap 64 (cm_prp c + off)) (cm_blocks c * vw_bs v)))
  else if cm_opc c =? 2 then
    Some (blit m (wrap 64 (cm_prp c + off)) (vw_disk v) (cm_lba c * vw_bs v) (cm_blocks c * vw_bs v), v)
  else None.

Definition next_pos (size pos : Z) : Z := if pos + 1 =? size then 0 else pos + 1.
Definition next_ring (r : ring) : ring := MkRing (rg_base r) (rg_size r) (next_pos (rg_size r) (rg_pos r)).
Definition next_cq (q : ring * bool) : ring * bool :=
  (next_ring q.1, if rg_pos q.1 + 1 =? rg_size q.1 then negb q.2 else q.2).

(** The view once the command at the head of queue [i] is done. *)
Definition served (i : Z) (s : ring) (q : ring * bool) (v : nvme_view) : nvme_view :=
  set_view_cq (set_view_sq v i (Some (next_ring s))) i (Some (next_cq q)).

Definition disabled (v : nvme_view) : nvme_view :=
  MkView false (vw_cap v) (vw_aqa v) (vw_asq v) (vw_acq v) (fun _ => None) (fun _ => None) (vw_ns v) (vw_disk v).
(** Enabling creates the admin queues. *)
Definition enabled (v : nvme_view) : nvme_view :=
  MkView true (vw_cap v) (vw_aqa v) (vw_asq v) (vw_acq v)
    (fun i => if i =? 0 then Some (MkRing (vw_asq v) (Z.land (vw_aqa v) 0xfff + 1) 0) else None)
    (fun i => if i =? 0 then Some (MkRing (vw_acq v) (Z.land (Z.shiftr (vw_aqa v) 16) 0xfff + 1) 0, true) else None)
    (vw_ns v) (vw_disk v).

(** The value of CC the driver enables with: entries of 2^6 and 2^4 bytes. *)
Definition CC_ENABLE : Z := 1 + 6 * 2 ^ 16 + 4 * 2 ^ 20.

Definition time {C} `{NvmeController C} (off : Z) (n : nat) (m : mem) (c : C) : mem * C :=
  Nat.iter n (fun p => tick off p.1 p.2) (m, c).

(** [idle]: no command is outstanding. *)
Class NvmeLaws (C : Type) `{NvmeController C} := {
  view : C -> nvme_view;
  idle : C -> Prop;
  law_cap c : reg_read 8 NVME_CAP_OFFSET c = vw_cap (view c);
  law_disable off m c v : idle c -> Z.testbit v 0 = false ->
    let c0 := reg_write 4 NVME_CC_OFFSET v c in
    exists n, (forall k, (k < n)%nat -> Z.testbit (reg_read 4 NVME_CSTS_OFFSET (time off k m c0).2) 0 = true) /\
      Z.testbit (reg_read 4 NVME_CSTS_OFFSET (time off n m c0).2) 0 = false /\
      (forall x, (time off n m c0).1 x = m x) /\
      idle (time off n m c0).2 /\ view (time off n m c0).2 = disabled (view c);
  law_aqa c v : vw_ready (view c) = false -> idle c ->
    let c' := reg_write 4 NVME_AQA_OFFSET v c in
    idle c' /\ view c' = MkView false (vw_cap (view c)) v (vw_asq (view c)) (vw_acq (view c))
                           (vw_sq (view c)) (vw_cq (view c)) (vw_ns (view c)) (vw_disk (view c));
  law_asq c v : vw_ready (view c) = false -> idle c ->
    let c' := reg_write 8 NVME_ASQ_OFFSET v c in
    idle c' /\ view c' = MkView false (vw_cap (view c)) (vw_aqa (view c)) v (vw_acq (view c))
                           (vw_sq (view c)) (vw_cq (view c)) (vw_ns (view c)) (vw_disk (view c));
  law_acq c v : vw_ready (view c) = false -> idle c ->
    let c' := reg_write 8 NVME_ACQ_OFFSET v c in
    idle c' /\ view c' = MkView false (vw_cap (view c)) (vw_aqa (view c)) (vw_asq (view c)) v
                           (vw_sq (view c)) (vw_cq (view c)) (vw_ns (view c)) (vw_disk (view c));
  law_enable off m c : idle c -> vw_ready (view c) = false ->
    vw_asq (view c) mod 4096 = 0 -> vw_acq (view c) mod 4096 = 0 ->
    1 <= Z.land (vw_aqa (view c)) 0xfff -> 1 <= Z.land (Z.shiftr (vw_aqa (view c)) 16) 0xfff ->
    let c0 := reg_write 4 NVME_CC_OFFSET CC_ENABLE c in
    exists n, (forall k, (k < n)%nat -> Z.testbit (reg_read 4 NVME_CSTS_OFFSET (time off k m c0).2) 0 = false) /\
      Z.testbit (reg_read 4 NVME_CSTS_OFFSET (time off n m c0).2) 0 = true /\
      (forall x, (time off n m c0).1 x = m x) /\
      idle (time off n m c0).2 /\ view (time off n m c0).2 = enabled (view c);
  law_serve off m c i s q m1 v1 : idle c -> vw_ready (view c) = true -> 0 <= i <= 1 ->
    vw_sq (view c) i = Some s -> vw_cq (view c) i = Some q ->
    perform off i (fetch m (wrap 64 (rg_base s + 64 * rg_pos s + off))) m (view c) = Some (m1, v1) ->
    let c0 := reg_write 4 (NVME_SQTDBL_OFFSET i (NVME_CAP_DSTRD (vw_cap (view c)))) (next_pos (rg_size s) (rg_pos s)) c in
    let e := wrap 64 (rg_base q.1 + 16 * rg_pos q.1 + off) in
    exists n, (forall k, (k < n)%nat -> Z.odd ((time off k m c0).1 (e + cq_flags)) = Z.odd (m (e + cq_flags))) /\
      Z.odd ((time off n m c0).1 (e + cq_flags)) = q.2 /\
      (forall x, x < e \/ e + 16 <= x -> (time off n m c0).1 x = m1 x) /\
      idle (time off n m c0).2 /\ view (time off n m c0).2 = served i s q v1;
  law_cqdb c i v : idle c -> vw_ready (view c) = true -> is_Some (vw_cq (view c) i) -> 0 <= i <= 1 ->
    let c' := reg_write 4 (NVME_CQHDBL_OFFSET i (NVME_CAP_DSTRD (vw_cap (view c)))) v c in
    idle c' /\ view c' = view c
}.

(** ** Addresses, bits *)

Lemma V2P_slot p a k : is_page a -> 0 <= k < 4096 ->
  wrap 64 (V2P p a + k + hhdm_offset p) = a + k.
Proof.
  intros (H0 & H1 & _) Hk. unfold V2P. rewrite <- Z.add_assoc, wrap_add_l.
  replace (a - hhdm_offset p + (k + hhdm_offset p)) with (a + k) by lia. apply wrap_small. lia.
Qed.

Lemma land_flags m a : Z.land (load16 m a) 1 = Z.b2z (Z.odd (m a)).
Proof.
  change 1 with (Z.ones 1) at 1. rewrite Z.land_ones by lia. change (2 ^ 1) with 2. rewrite Zmod_odd.
  unfold load16. cbn [load_le]. rewrite Z.odd_add, Z.odd_mul. cbn [Z.odd andb xorb].
  rewrite xorb_false_r. by destruct (Z.odd (m a)).
Qed.

Lemma land_bit0 z : Z.land z 1 = Z.b2z (Z.testbit z 0).
Proof.
  change 1 with (Z.ones 1). rewrite Z.land_ones by lia. change (2 ^ 1) with 2.
  rewrite Zmod_odd, Z.bit0_odd. by destruct (Z.odd z).
Qed.

Lemma b2z_eqb b c : (Z.b2z b =? Z.b2z c) = Bool.eqb b c.
Proof. by destruct b, c. Qed.

(** A wait loop that has been entered often enough. *)
Definition in_time {S A} (m : nat -> ST S A) (a : A) (s s' : S) : Prop :=
  exists f0, forall fuel, (f0 <= fuel)%nat -> m fuel s = Ret (a, s').

Section waiting.
Context {C : Type} `{NvmeController C}.

Definition at_time (n : nat) (c : C) (s : host C) : host C :=
  let p := time (hhdm_offset (host_mem s)) n (ram (host_mem s)) c in set_ctrl p.2 (set_host_ram p.1 s).

Lemma time_S off n m c : time off (S n) m c = time off n (tick off m c).1 (tick off m c).2.
Proof. unfold time. rewrite Nat.iter_succ_r. cbn [fst snd]. destruct (tick off m c). reflexivity. Qed.

Lemma host_eta (s : host C) : set_ctrl (ctrl s) (set_host_ram (ram (host_mem s)) s) = s.
Proof. by destruct s as [[[? ? ? ? ? ? ?] ? ? ?] ? ? ? ? ?]. Qed.

Lemma run_controller_run (s : host C) : run_controller s = Ret (tt, at_time 1 (ctrl s) s).
Proof. unfold run_controller, st_modify, at_time, time. simpl. by destruct (tick _ _ _). Qed.

Lemma at_time_S n (s : host C) : at_time (S n) (ctrl s) s = at_time n (ctrl (at_time 1 (ctrl s) s)) (at_time 1 (ctrl s) s).
Proof. unfold at_time. rewrite time_S. unfold time. reflexivity. Qed.

Lemma at_time_later k (s : host C) :
  time (hhdm_offset (host_mem (at_time 1 (ctrl s) s))) k (ram (host_mem (at_time 1 (ctrl s) s))) (ctrl (at_time 1 (ctrl s) s)) =
  time (hhdm_offset (host_mem s)) (S k) (ram (host_mem s)) (ctrl s).
Proof. rewrite time_S. unfold at_time, time. reflexivity. Qed.

Lemma wait_phase_run n : forall fuel (s : host C) cq ph, (n < fuel)%nat ->
  let at_ k := time (hhdm_offset (host_mem s)) k (ram (host_mem s)) (ctrl s) in
  (forall k, (k < n)%nat -> Z.odd ((at_ k).1 (cq + cq_flags)) = ph) ->
  Z.odd ((at_ n).1 (cq + cq_flags)) = negb ph ->
  wait_phase fuel cq (Z.b2z ph) s = Ret (tt, at_time n (ctrl s) s).
Proof.
  induction n as [|n IH]; intros [|fuel] s cq ph Hf at_ Hk Hn; try lia; cbn [wait_phase];
    unfold load; rewrite (bind_step _ _ s _ s eq_refl), land_flags, b2z_eqb.
  - unfold at_ in Hn. change (time _ 0 ?m ?c) with (m, c) in Hn. cbn [fst] in Hn. rewrite Hn.
    replace (Bool.eqb (negb ph) ph) with false by (by destruct ph). by rewrite <- (host_eta s) at 1.
  - pose proof (Hk 0%nat ltac:(lia)) as H0. unfold at_ in H0. change (time _ 0 ?m ?c) with (m, c) in H0.
    cbn [fst] in H0. rewrite H0, Bool.eqb_reflx. rewrite (bind_step _ _ s _ _ (run_controller_run s)).
    rewrite (at_time_S n). apply IH; [lia| |].
    + intros k Hk'. rewrite (at_time_later k). apply (Hk (S k)). lia.
    + rewrite (at_time_later n). exact Hn.
Qed.

Lemma wait_csts_run n : forall fuel (s : host C) b, (n < fuel)%nat ->
  let at_ k := time (hhdm_offset (host_mem s)) k (ram (host_mem s)) (ctrl s) in
  (forall k, (k < n)%nat -> Z.testbit (reg_read 4 NVME_CSTS_OFFSET (at_ k).2) 0 = b) ->
  Z.testbit (reg_read 4 NVME_CSTS_OFFSET (at_ n).2) 0 = negb b ->
  wait_csts fuel (Z.b2z b) s = Ret (tt, at_time n (ctrl s) s).
Proof.
  induction n as [|n IH]; intros [|fuel] s b Hf at_ Hk Hn; try lia; cbn [wait_csts];
    unfold read_reg; rewrite (bind_step _ _ s _ s eq_refl), land_bit0, b2z_eqb.
  - unfold at_ in Hn. change (time _ 0 ?m ?c) with (m, c) in Hn. cbn [snd] in Hn. rewrite Hn.
    replace (Bool.eqb (negb b) b) with false by (by destruct b). by rewrite <- (host_eta s) at 1.
  - pose proof (Hk 0%nat ltac:(lia)) as H0. unfold at_ in H0. change (time _ 0 ?m ?c) with (m, c) in H0.
    cbn [snd] in H0. rewrite H0, Bool.eqb_reflx. rewrite (bind_step _ _ s _ _ (run_controller_run s)).
    rewrite (at_time_S n). apply IH; [lia| |].
    + intros k Hk'. rewrite (at_time_later k). apply (Hk (S k)). lia.
    + rewrite (at_time_later n). exact Hn.
Qed.
End waiting.

(** ** The queues of the driver and those of the controller *)

(** The driver's queue [q] is queue [i] of the controller; nothing is
    outstanding; [ph] is the phase bit of entries that are not posted yet. *)
Record queue_ok (p : pmem) (l : list Z) (v : nvme_view) (i : Z) (q : nvme_queue) (ph : bool) : Prop := {
  qk_index : queue_index q = i;
  qk_size : 2 <= queue_size q <= 64;
  qk_tail : 0 <= submission_queue_tail q < queue_size q;
  qk_head : completion_queue_head q = submission_queue_tail q;
  qk_phase : completion_queue_current_phase q = Z.b2z ph;
  qk_sqp : is_page (submission_queue q);
  qk_cqp : is_page (completion_queue q);
  qk_sqa : submission_queue q ∉ avail p l;
  qk_cqa : completion_queue q ∉ avail p l;
  qk_ne : submission_queue q <> completion_queue q;
  qk_sq : vw_sq v i = Some (MkRing (V2P p (submission_queue q)) (queue_size q) (submission_queue_tail q));
  qk_cq : vw_cq v i = Some (MkRing (V2P p (completion_queue q)) (queue_size q) (submission_queue_tail q), negb ph);
  qk_bits : forall j, 0 <= j < queue_size q ->
    Z.odd (ram p (completion_queue q + 16 * j + cq_flags)) = if j <? completion_queue_head q then negb ph else ph
}.

(** The queue behind one command. *)
Definition after_command (q : nvme_queue) : nvme_queue := advance_head (advance_tail q).

Lemma after_command_fields p l v i q ph : queue_ok p l v i q ph ->
  let pos := next_pos (queue_size q) (submission_queue_tail q) in
  let wraps := submission_queue_tail q + 1 =? queue_size q in
  submission_queue (after_command q) = submission_queue q /\
  completion_queue (after_command q) = completion_queue q /\
  queue_index (after_command q) = i /\ queue_size (after_command q) = queue_size q /\
  submission_queue_tail (after_command q) = pos /\ completion_queue_head (after_command q) = pos /\
  completion_queue_current_phase (after_command q) = Z.b2z (if wraps then negb ph else ph).
Proof.
  intros []. unfold after_command, advance_head, advance_tail, next_pos. cbn [queue_size completion_queue_head].
  rewrite qk_head0, qk_phase0, !(wrap_small 32) by lia.
  destruct (Z.eqb_spec (submission_queue_tail q + 1) (queue_size q)) as [E|E],
    (Z.ltb_spec (queue_size q - 1) (submission_queue_tail q + 1)); try lia; cbn; split_and!; try done; try lia.
  by destruct ph.
Qed.

Lemma left_commands_1 p l v i q ph : queue_ok p l v i q ph -> left_commands (advance_tail q) = 1.
Proof.
  intros []. unfold left_commands, advance_tail. cbn [queue_size completion_queue_head submission_queue_tail].
  rewrite qk_head0, !(wrap_small 32) by lia.
  destruct (Z.ltb_spec (queue_size q - 1) (submission_queue_tail q + 1)).
  - destruct (Z.ltb_spec (submission_queue_tail q) 0); [lia|]. rewrite (wrap_small 32 (queue_size q - _)) by lia.
    rewrite wrap_small; lia.
  - destruct (Z.ltb_spec (submission_queue_tail q) (submission_queue_tail q + 1)); [|lia]. rewrite wrap_small; lia.
Qed.

(** What a queue looks like depends on little of the memory. *)
Lemma queue_ok_frame p l v i q ph p' l' v' : queue_ok p l v i q ph -> hhdm_offset p' = hhdm_offset p ->
  submission_queue q ∉ avail p' l' -> completion_queue q ∉ avail p' l' -> vw_sq v' i = vw_sq v i -> vw_cq v' i = vw_cq v i ->
  (forall x, completion_queue q <= x < completion_queue q + 4096 -> ram p' x = ram p x) ->
  queue_ok p' l' v' i q ph.
Proof.
  intros [] Hh Ha Ha' Es Ec Hm. constructor; try done; unfold V2P in *; rewrite ?Hh, ?Es, ?Ec; auto.
  intros j Hj. rewrite Hm by (unfold cq_flags; lia). auto.
Qed.

Lemma perform_consts off i c m v m1 v1 : perform off i c m v = Some (m1, v1) ->
  vw_ready v1 = vw_ready v /\ vw_cap v1 = vw_cap v /\ vw_ns v1 = vw_ns v.
Proof.
  unfold perform. intros E. repeat case_in E; try done; by injection E as <- <-.
Qed.

Section commands.
Context {C : Type} `{NL : NvmeLaws C}.

(** Between two commands. *)
Record quiet (s : host C) : Prop := {
  qt_idle : idle (ctrl s);
  qt_ready : vw_ready (view (ctrl s)) = true;
  qt_cap : cap (nv s) = vw_cap (view (ctrl s))
}.

(** [s'] is [s] but for memory, the controller and one queue. *)
Definition with_all (m : mem) (c : C) (d : nvme_device_data) (s : host C) : host C :=
  set_ctrl c (set_nv d (set_host_ram m s)).

Lemma get_set_queue w q d : get_queue w (set_queue w q d) = q.
Proof. by destruct w. Qed.
Lemma set_set_queue w q q' d : set_queue w q (set_queue w q' d) = set_queue w q d.
Proof. by destruct w. Qed.
Lemma cap_set_queue w q d : cap (set_queue w q d) = cap d.
Proof. by destruct w. Qed.

Lemma advance_tail_fields p l v i q ph : queue_ok p l v i q ph ->
  queue_index (advance_tail q) = i /\ completion_queue (advance_tail q) = completion_queue q /\
  submission_queue_tail (advance_tail q) = next_pos (queue_size q) (submission_queue_tail q) /\
  completion_queue_head (advance_tail q) = submission_queue_tail q /\
  completion_queue_current_phase (advance_tail q) = Z.b2z ph.
Proof.
  intros []. unfold advance_tail, next_pos. cbn. rewrite !(wrap_small 32) by lia. split_and!; try done.
  destruct (Z.eqb_spec (submission_queue_tail q + 1) (queue_size q)),
    (Z.ltb_spec (queue_size q - 1) (submission_queue_tail q + 1)); lia.
Qed.

(** The run of the driver, given when the controller answers. *)
Lemma do_command_run s w q n : q = get_queue w (nv s) -> left_commands (advance_tail q) = 1 ->
  let q1 := advance_tail q in
  let db o := reg_write 4 (o (queue_index q1) (NVME_CAP_DSTRD (cap (nv s)))) in
  let c0 := db NVME_SQTDBL_OFFSET (wrap 32 (submission_queue_tail q1)) (ctrl s) in
  let at_ k := time (hhdm_offset (host_mem s)) k (ram (host_mem s)) c0 in
  let e := completion_queue q1 + 16 * completion_queue_head q1 in
  forall ph, completion_queue_current_phase q1 = Z.b2z ph ->
  (forall k, (k < n)%nat -> Z.odd ((at_ k).1 (e + cq_flags)) = ph) ->
  Z.odd ((at_ n).1 (e + cq_flags)) = negb ph ->
  in_time (fun fuel => nvme_do_one_cmd_synchronous fuel w) tt s
    (with_all (at_ n).1 (db NVME_CQHDBL_OFFSET (wrap 32 (completion_queue_head (advance_head q1))) (at_ n).2)
       (set_queue w (advance_head q1) (nv s)) s).
Proof.
  intros Hq Hl q1 db c0 at_ e ph Hph Hk Hn. exists (S n). intros fuel Hf.
  unfold nvme_do_one_cmd_synchronous, nv_modify, write_reg.
  rewrite (bind_step _ _ s _ _ eq_refl). unfold reads at 1. rewrite (bind_step _ _ _ _ _ eq_refl). cbv zeta.
  change (nv (set_nv ?d ?s)) with d. rewrite get_set_queue, cap_set_queue, <- Hq. fold q1.
  rewrite (bind_step _ _ _ _ _ eq_refl). change (left_commands q1 = 1) in Hl. rewrite Hl. change (Z.to_nat 1) with 1%nat.
  set (s2 := set_ctrl _ _). assert (ctrl s2 = c0) as Ec by done.
  assert (get_queue w (nv s2) = q1) as Eq.
  { unfold s2. change (nv (set_ctrl ?c (set_nv ?d ?s))) with d. apply get_set_queue. }
  set (s3 := set_nv (set_queue w (advance_head q1) (nv s2)) (at_time n (ctrl s2) s2)).
  assert (complete fuel 1 w s2 = Ret (tt, s3)) as Hc.
  { cbn [complete]. unfold reads. rewrite (bind_step _ _ s2 _ s2 eq_refl), Eq, Hph.
    rewrite (bind_step _ _ s2 tt (at_time n (ctrl s2) s2)); [reflexivity|].
    apply wait_phase_run; [lia|rewrite Ec; exact Hk|rewrite Ec; exact Hn]. }
  rewrite (bind_step _ _ s2 tt s3 Hc), (bind_step _ _ s3 (nv s3) s3 eq_refl).
  assert (nv s3 = set_queue w (advance_head q1) (nv s)) as E3 by (unfold s3, s2; by destruct w).
  rewrite E3, get_set_queue, cap_set_queue.
  replace (queue_index (advance_head q1)) with (queue_index q1) by (unfold advance_head; by destruct (_ <? _)).
  unfold st_modify, with_all. unfold s3. change (nv s2) with (set_queue w q1 (nv s)).
  rewrite set_set_queue. reflexivity.
Qed.

(** One command: it is performed, its completion is seen, and the queue is
    ready for the next. *)
Lemma do_command s l w i ph m1 v1 : let q := get_queue w (nv s) in
  queue_ok (host_mem s) l (view (ctrl s)) i q ph -> 0 <= i <= 1 -> quiet s ->
  perform (hhdm_offset (host_mem s)) i (fetch (ram (host_mem s)) (submission_queue q + 64 * submission_queue_tail q))
    (ram (host_mem s)) (view (ctrl s)) = Some (m1, v1) ->
  (forall x, completion_queue q <= x < completion_queue q + 4096 -> m1 x = ram (host_mem s) x) ->
  exists m' c', in_time (fun fuel => nvme_do_one_cmd_synchronous fuel w) tt s
      (with_all m' c' (set_queue w (after_command q) (nv s)) s) /\
    (forall x, x < completion_queue q \/ completion_queue q + 4096 <= x -> m' x = m1 x) /\
    idle c' /\
    view c' = served i (MkRing (V2P (host_mem s) (submission_queue q)) (queue_size q) (submission_queue_tail q))
                (MkRing (V2P (host_mem s) (completion_queue q)) (queue_size q) (submission_queue_tail q), negb ph) v1 /\
    queue_ok (set_ram (host_mem s) m') l (view c') i (after_command q)
      (if submission_queue_tail q + 1 =? queue_size q then negb ph else ph).
Proof.
  intros q Hq Hi Hqt Hp Hm1. pose proof (advance_tail_fields _ _ _ _ _ _ Hq) as (F1 & F2 & F3 & F4 & F5).
  pose proof (after_command_fields _ _ _ _ _ _ Hq) as (A1 & A2 & A3 & A4 & A5 & A6 & A7).
  pose proof (left_commands_1 _ _ _ _ _ _ Hq) as Hl. destruct Hqt as [Qi Qr Qc].
  pose proof Hq as [_ Hsz Htl Hhd _ Hsp Hcp _ _ Hne Hsq Hcq Hbits].
  set (off := hhdm_offset (host_mem s)) in *. set (mem0 := ram (host_mem s)) in *.
  assert (0 <= 64 * submission_queue_tail q < 4096) as Hs1 by lia.
  assert (0 <= 16 * submission_queue_tail q < 4096) as Hc1 by lia.
  pose proof (V2P_slot (host_mem s) _ _ Hsp Hs1) as Es. pose proof (V2P_slot (host_mem s) _ _ Hcp Hc1) as Ec.
  fold off in Es, Ec.
  pose proof (law_serve off mem0 (ctrl s) i _ _ m1 v1 Qi Qr Hi Hsq Hcq) as HL. cbn [rg_base rg_size rg_pos fst snd] in HL.
  rewrite Es, Ec in HL. destruct (HL Hp) as (n & Hk & Hn & Hm & Hid & Hv). clear HL.
  set (e := completion_queue q + 16 * submission_queue_tail q) in *.
  assert (Z.odd (mem0 (e + cq_flags)) = ph) as Hold.
  { unfold e. rewrite (Hbits (submission_queue_tail q) Htl), Hhd, Z.ltb_irrefl. done. }
  pose proof (perform_consts _ _ _ _ _ _ _ Hp) as (P1 & P2 & P3).
  set (c0 := reg_write 4 _ _ (ctrl s)) in *.
  destruct (law_cqdb (time off n mem0 c0).2 i (wrap 32 (completion_queue_head (after_command q))) Hid) as [Hid' Hv'].
  { rewrite Hv. cbn. by rewrite P1. }
  { rewrite Hv. cbn. by rewrite Z.eqb_refl. }
  { done. }
  assert (vw_cap (view (time off n mem0 c0).2) = vw_cap (view (ctrl s))) as Ecap by (rewrite Hv; exact P2).
  rewrite Ecap in Hid', Hv'. pose proof (eq_trans Hv' Hv) as Hv2. clear Hv'.
  exists (time off n mem0 c0).1. eexists. split; [|split; [|split; [exact Hid'|split; [exact Hv2|]]]].
  - pose proof (do_command_run s w q n eq_refl Hl ph F5) as HR. cbv zeta in HR.
    rewrite F1, F2, F3, F4, Qc in HR. rewrite wrap_small in HR by (unfold next_pos; destruct (_ =? _); lia).
    fold off mem0 c0 e in HR. apply HR; [|exact Hn]. intros k Hk'. rewrite (Hk k Hk'). exact Hold.
  - intros x Hx. apply Hm. unfold e. lia.
  - rewrite Hv2. constructor; rewrite ?A1, ?A2, ?A3, ?A4, ?A5, ?A6, ?A7; try done.
    + unfold next_pos. destruct (Z.eqb_spec (submission_queue_tail q + 1) (queue_size q)); lia.
    + exact (qk_sqa _ _ _ _ _ _ Hq).
    + exact (qk_cqa _ _ _ _ _ _ Hq).
    + cbn. by rewrite Z.eqb_refl.
    + cbn. rewrite Z.eqb_refl. unfold next_cq, next_ring. cbn. by destruct (_ =? _).
    + intros j Hj. cbn [ram set_ram]. destruct (Z.eq_dec j (submission_queue_tail q)) as [->|N].
      * change (Z.odd ((time off n mem0 c0).1 (e + cq_flags)) = if submission_queue_tail q <? next_pos (queue_size q) (submission_queue_tail q)
          then negb (if submission_queue_tail q + 1 =? queue_size q then negb ph else ph)
          else if submission_queue_tail q + 1 =? queue_size q then negb ph else ph).
        rewrite Hn. unfold next_pos.
        destruct (Z.eqb_spec (submission_queue_tail q + 1) (queue_size q)), (Z.ltb_spec (submission_queue_tail q) 0),
          (Z.ltb_spec (submission_queue_tail q) (submission_queue_tail q + 1)); try lia; done.
      * rewrite Hm by (unfold e, cq_flags; lia). rewrite Hm1 by (unfold cq_flags; lia).
        rewrite (Hbits j Hj), Hhd. unfold next_pos.
        destruct (Z.eqb_spec (submission_queue_tail q + 1) (queue_size q)), (Z.ltb_spec j 0), (Z.ltb_spec j (submission_queue_tail q)),
          (Z.ltb_spec j (submission_queue_tail q + 1)); try lia; try done.
Qed.

(** *** Reads and writes *)

(** The entry of a transfer in memory. *)
Definition io_entry (m : mem) (sq opc cid lba cdw12 prp : Z) : mem :=
  store64 (store32 (store32 (store32 (store32 (store16 (store8 (fill m sq 0 SQ_ENTRY) (sq + sq_opc) opc)
    (sq + sq_cid) cid) (sq + sq_nsid) NVME_NAMESPACE_INDEX) (sq + sq_cdw10) lba)
    (sq + sq_cdw11) (Z.shiftr lba 32)) (sq + sq_cdw12) cdw12) (sq + sq_prp0) prp.
Definition io_command (opc lba cdw12 prp : Z) : command :=
  MkCommand opc 1 prp (wrap 32 lba) (wrap 32 (Z.shiftr lba 32)) (wrap 32 cdw12).

Ltac entry_simpl :=
  unfold load16, load32, load64, store16, store32, store64,
    sq_opc, sq_cid, sq_nsid, sq_prp0, sq_cdw10, sq_cdw11, sq_cdw12, SQ_ENTRY;
  repeat first [rewrite load_store_le | rewrite load_store_le_out by lia].

Lemma fetch_io_entry m sq opc cid lba cdw12 prp : 0 <= opc < 256 -> 0 <= prp < 2 ^ 64 ->
  fetch (io_entry m sq opc cid lba cdw12 prp) sq = io_command opc lba cdw12 prp.
Proof.
  intros Ho Hp. unfold fetch, io_entry, io_command. f_equal; entry_simpl.
  - rewrite !store_le_out by lia. rewrite store8_eq. by apply wrap_small.
  - done.
  - change (256 ^ Z.of_nat 8) with (2 ^ 64). by apply Z.mod_small.
  - done.
  - done.
  - done.
Qed.

Lemma io_entry_out m sq opc cid lba cdw12 prp x : x < sq \/ sq + 64 <= x ->
  io_entry m sq opc cid lba cdw12 prp x = m x.
Proof.
  intros Hx. unfold io_entry, store16, store32, store64, sq_opc, sq_cid, sq_nsid, sq_prp0, sq_cdw10, sq_cdw11, sq_cdw12, SQ_ENTRY.
  rewrite !store_le_out by lia. rewrite store8_ne by lia. by rewrite fill_out by lia.
Qed.

Lemma submit_io_prefix s opc lba cdw12 p fuel : let q := io_queue (nv s) in
  let me := io_entry (ram (host_mem s)) (submission_queue q + 64 * submission_queue_tail q) opc
              (next_command_id (nv s)) lba cdw12 (V2P (host_mem s) p) in
  submit_io fuel opc lba cdw12 p s =
  nvme_do_one_cmd_synchronous fuel Io
    (set_nv (set_cid (nv s) (wrap 16 (next_command_id (nv s) + 1))) (set_host_ram me s)).
Proof. reflexivity. Qed.

(** A command once its entry is in memory. *)
Lemma entry_command s l w i ph me cid c m1 v1 : let q := get_queue w (nv s) in
  let sq := submission_queue q + 64 * submission_queue_tail q in
  queue_ok (host_mem s) l (view (ctrl s)) i q ph -> 0 <= i <= 1 -> quiet s ->
  (forall x, x < sq \/ sq + 64 <= x -> me x = ram (host_mem s) x) -> fetch me sq = c ->
  perform (hhdm_offset (host_mem s)) i c me (view (ctrl s)) = Some (m1, v1) ->
  (forall x, completion_queue q <= x < completion_queue q + 4096 -> m1 x = me x) ->
  exists m' c' ph', in_time (fun fuel => nvme_do_one_cmd_synchronous fuel w) tt
      (set_nv (set_cid (nv s) cid) (set_host_ram me s))
      (with_all m' c' (set_queue w (after_command q) (set_cid (nv s) cid)) s) /\
    (forall x, x < completion_queue q \/ completion_queue q + 4096 <= x -> m' x = m1 x) /\
    idle c' /\
    view c' = served i (MkRing (V2P (host_mem s) (submission_queue q)) (queue_size q) (submission_queue_tail q))
                (MkRing (V2P (host_mem s) (completion_queue q)) (queue_size q) (submission_queue_tail q), negb ph) v1 /\
    queue_ok (set_ram (host_mem s) m') l (view c') i (after_command q) ph'.
Proof.
  intros q sq Hq Hi [Qi Qr Qc] Hme Hf Hp Hm1. pose proof Hq as [_ Hsz Htl _ _ Hsp Hcp _ _ Hne _ _ _].
  set (s2 := set_nv (set_cid (nv s) cid) (set_host_ram me s)).
  pose proof (pages_disjoint _ _ ltac:(apply Hsp) ltac:(apply Hcp) Hne) as Hd.
  assert (get_queue w (nv s2) = q) as Eq by (by destruct w).
  assert (queue_ok (host_mem s2) l (view (ctrl s2)) i q ph) as Hq2.
  { apply (queue_ok_frame _ _ _ _ _ _ _ _ _ Hq); try done; [exact (qk_sqa _ _ _ _ _ _ Hq)|exact (qk_cqa _ _ _ _ _ _ Hq)|].
    intros x Hx. apply Hme. unfold sq. lia. }
  pose proof (do_command s2 l w i ph m1 v1) as HD. rewrite Eq in HD.
  destruct (HD Hq2 Hi) as (m' & c' & Hrun & Hm & Hid & Hv & Hqok).
  { by constructor. }
  { fold sq. change (ram (host_mem s2)) with me. rewrite Hf. exact Hp. }
  { exact Hm1. }
  exists m', c'. eexists. split; [exact Hrun|split; [exact Hm|split; [exact Hid|split; [exact Hv|exact Hqok]]]].
Qed.

Lemma submit_io_spec s l ph opc lba cdw12 p m1 v1 : let q := io_queue (nv s) in
  let sq := submission_queue q + 64 * submission_queue_tail q in
  let me := io_entry (ram (host_mem s)) sq opc (next_command_id (nv s)) lba cdw12 (V2P (host_mem s) p) in
  queue_ok (host_mem s) l (view (ctrl s)) 1 q ph -> quiet s -> 0 <= opc < 256 ->
  perform (hhdm_offset (host_mem s)) 1 (io_command opc lba cdw12 (V2P (host_mem s) p)) me (view (ctrl s)) = Some (m1, v1) ->
  (forall x, completion_queue q <= x < completion_queue q + 4096 -> m1 x = me x) ->
  exists m' c' ph' d', in_time (fun fuel => submit_io fuel opc lba cdw12 p) tt s (with_all m' c' d' s) /\
    d' = set_queue Io (after_command q) (set_cid (nv s) (wrap 16 (next_command_id (nv s) + 1))) /\
    (forall x, x < completion_queue q \/ completion_queue q + 4096 <= x -> m' x = m1 x) /\
    idle c' /\
    view c' = served 1 (MkRing (V2P (host_mem s) (submission_queue q)) (queue_size q) (submission_queue_tail q))
                (MkRing (V2P (host_mem s) (completion_queue q)) (queue_size q) (submission_queue_tail q), negb ph) v1 /\
    queue_ok (set_ram (host_mem s) m') l (view c') 1 (after_command q) ph'.
Proof.
  intros q sq me Hq Hqt Ho Hp Hm1.
  destruct (entry_command s l Io 1 ph me (wrap 16 (next_command_id (nv s) + 1)) _ m1 v1 Hq ltac:(lia) Hqt
              ltac:(intros x Hx; by apply io_entry_out)
              (fetch_io_entry _ _ _ _ _ _ _ Ho (wrap_range 64 _ ltac:(lia))) Hp Hm1)
    as (m' & c' & ph' & [f0 Hrun] & Hm & Hid & Hv & Hqok).
  exists m', c', ph'. eexists. split; [|split; [reflexivity|split; [exact Hm|split; [exact Hid|split; [exact Hv|exact Hqok]]]]].
  exists f0. intros fuel Hf. rewrite submit_io_prefix. exact (Hrun fuel Hf).
Qed.

(** The driver is ready for transfers. *)
Record nvme_ok (s : host C) (l : list Z) : Prop := {
  no_wf : pmem_wf (host_mem s) l;
  no_quiet : quiet s;
  no_io : exists ph, queue_ok (host_mem s) l (view (ctrl s)) 1 (io_queue (nv s)) ph;
  no_size : block_size (nv s) = vw_bs (view (ctrl s));
  no_lbads : 1 <= vw_lbads (view (ctrl s)) <= 30;
  no_ms : vw_ms (view (ctrl s)) = 0
}.

(** The pages the driver may write: its queues and what the allocator has. *)
Definition driver_pages (s : host C) (l : list Z) : list Z :=
  submission_queue (io_queue (nv s)) :: completion_queue (io_queue (nv s)) :: avail (host_mem s) l.
Definition apart (s : host C) (l : list Z) (a n : Z) : Prop :=
  forall p, p ∈ driver_pages s l -> a + n <= p \/ p + 4096 <= a.

(** [s'] serves the same namespace as [s], with the same pages. *)
Record same_device (s s' : host C) (l l' : list Z) : Prop := {
  sd_pages : driver_pages s' l' ≡ₚ driver_pages s l;
  sd_off : hhdm_offset (host_mem s') = hhdm_offset (host_mem s);
  sd_size : block_size (nv s') = block_size (nv s);
  sd_ns : vw_ns (view (ctrl s')) = vw_ns (view (ctrl s));
  sd_bound : g_nvme s' = g_nvme s
}.

Lemma pmem_wf_ram p l m : pmem_wf p l ->
  (forall q x, q ∈ l -> q <= x < q + 4096 -> m x = ram p x) -> pmem_wf (set_ram p m) l.
Proof.
  intros [Hc Hp Hr Ho Hn] Hm. constructor; try done. cbn. apply (chain_ext (ram p)); [done|].
  intros q Hq. apply load_le_ext. intros x Hx. apply (Hm q x Hq). lia.
Qed.

Lemma page_apart p q : is_page p -> is_page q -> p <> q -> p + 4096 <= q \/ q + 4096 <= p.
Proof. intros (_ & _ & H1) (_ & _ & H2). by apply pages_disjoint. Qed.

Lemma driver_page s l p : nvme_ok s l -> p ∈ driver_pages s l -> is_page p.
Proof.
  intros [Hwf _ [ph Hq] _ _ _]. unfold driver_pages. rewrite !elem_of_cons. intros [-> | [-> | Hp]]; [apply Hq|apply Hq|].
  exact (avail_is_page _ _ _ Hwf Hp).
Qed.

(** A transfer through the page [p], which the driver has allocated. *)
Lemma transfer s l opc lba cdw12 p m1 v1 : let q := io_queue (nv s) in
  let me := io_entry (ram (host_mem s)) (submission_queue q + 64 * submission_queue_tail q) opc
              (next_command_id (nv s)) lba cdw12 (V2P (host_mem s) p) in
  nvme_ok s l -> is_page p -> p ∉ driver_pages s l -> 0 <= opc < 256 ->
  perform (hhdm_offset (host_mem s)) 1 (io_command opc lba cdw12 (V2P (host_mem s) p)) me (view (ctrl s)) = Some (m1, v1) ->
  (forall x, x < p \/ p + 4096 <= x -> m1 x = me x) ->
  exists s', in_time (fun fuel => submit_io fuel opc lba cdw12 p) tt s s' /\ nvme_ok s' l /\ same_device s s' l l /\
    avail (host_mem s') l = avail (host_mem s) l /\
    vw_disk (view (ctrl s')) = vw_disk v1 /\
    (forall x, p <= x < p + 4096 -> ram (host_mem s') x = m1 x) /\
    (forall x, x < p \/ p + 4096 <= x -> (forall r, r ∈ driver_pages s l -> x < r \/ r + 4096 <= x) ->
       ram (host_mem s') x = ram (host_mem s) x).
Proof.
  intros q me. subst q. intros Hok Hp Hpn Ho HP Hm1. pose proof Hok as [Hwf Hqt [ph Hq] Hbs Hlb Hms].
  pose proof Hq as [_ Hsz Htl _ _ Hsp Hcp _ _ Hne _ _ _].
  assert (p <> submission_queue (io_queue (nv s)) /\ p <> completion_queue (io_queue (nv s)) /\ p ∉ avail (host_mem s) l) as (N1 & N2 & N3).
  { unfold driver_pages in Hpn. rewrite !not_elem_of_cons in Hpn. naive_solver. }
  pose proof (page_apart _ _ Hp Hcp N2). pose proof (page_apart _ _ Hsp Hcp Hne). pose proof (page_apart _ _ Hp Hsp N1).
  destruct (submit_io_spec s l ph opc lba cdw12 p m1 v1 Hq Hqt Ho HP) as (m' & c' & ph' & d' & Hrun & Hd & Hm & Hi & Hv & Hq').
  { intros x Hx. apply Hm1. lia. }
  destruct (after_command_fields _ _ _ _ _ _ Hq) as (A1 & A2 & _).
  pose proof (perform_consts _ _ _ _ _ _ _ HP) as (P1 & P2 & P3).
  exists (with_all m' c' d' s). split; [exact Hrun|].
  assert (io_queue d' = after_command (io_queue (nv s))) as Ed by by rewrite Hd.
  assert (forall x, (forall r, r ∈ driver_pages s l -> x < r \/ r + 4096 <= x) -> x < p \/ p + 4096 <= x ->
            m' x = ram (host_mem s) x) as Hout.
  { intros x Hx Hxp. pose proof (Hx (submission_queue (io_queue (nv s))) ltac:(by left)).
    pose proof (Hx (completion_queue (io_queue (nv s))) ltac:(right; by left)).
    rewrite Hm, Hm1 by lia. apply io_entry_out. lia. }
  split_and!.
  - constructor.
    + apply pmem_wf_ram; [done|]. intros r x Hr Hx.
      assert (r ∈ avail (host_mem s) l) as Hra by (unfold avail; apply elem_of_app; by left).
      pose proof (avail_is_page _ _ _ Hwf Hra) as Hrp.
      assert (r <> p /\ r <> submission_queue (io_queue (nv s)) /\ r <> completion_queue (io_queue (nv s))) as (M1 & M2 & M3).
      { split_and!; intros ->; [done|exact (qk_sqa _ _ _ _ _ _ Hq Hra)|exact (qk_cqa _ _ _ _ _ _ Hq Hra)]. }
      pose proof (page_apart _ _ Hrp Hp M1). pose proof (page_apart _ _ Hrp Hsp M2). pose proof (page_apart _ _ Hrp Hcp M3).
      rewrite Hm, Hm1 by lia. apply io_entry_out. lia.
    + constructor; [exact Hi| |].
      * change (vw_ready (view c') = true). rewrite Hv. cbn. rewrite P1. apply Hqt.
      * change (cap d' = vw_cap (view c')). rewrite Hv, Hd. cbn. rewrite P2. apply Hqt.
    + exists ph'. change (queue_ok (set_ram (host_mem s) m') l (view c') 1 (io_queue d') ph'). by rewrite Ed.
    + change (block_size d' = vw_bs (view c')). unfold vw_bs, vw_lbads, vw_format in *. rewrite Hv, Hd. cbn. by rewrite P3.
    + change (1 <= vw_lbads (view c') <= 30). unfold vw_lbads, vw_format in *. rewrite Hv. cbn. by rewrite P3.
    + change (vw_ms (view c') = 0). unfold vw_ms, vw_format in *. rewrite Hv. cbn. by rewrite P3.
  - constructor; try done.
    + unfold driver_pages. change (nv (with_all m' c' d' s)) with d'. rewrite Ed, A1, A2. done.
    + by rewrite Hd.
    + change (vw_ns (view c') = vw_ns (view (ctrl s))). by rewrite Hv.
  - done.
  - change (vw_disk (view c') = vw_disk v1). by rewrite Hv.
  - intros x Hx. change (m' x = m1 x). apply Hm. lia.
  - intros x Hx Hr. apply Hout; auto.
Qed.

(** Another memory under the same driver and controller. *)
Lemma nvme_ok_mem s l pm l' : nvme_ok s l -> pmem_wf pm l' -> hhdm_offset pm = hhdm_offset (host_mem s) ->
  submission_queue (io_queue (nv s)) ∉ avail pm l' -> completion_queue (io_queue (nv s)) ∉ avail pm l' ->
  (forall x, completion_queue (io_queue (nv s)) <= x < completion_queue (io_queue (nv s)) + 4096 ->
     ram pm x = ram (host_mem s) x) ->
  nvme_ok (set_host_mem pm s) l'.
Proof.
  intros [Hwf Hqt [ph Hq] Hbs Hlb Hms] Hwf' Hh Ha Hb Hm. constructor; try done.
  - destruct Hqt. by constructor.
  - exists ph. by apply (queue_ok_frame _ _ _ _ _ _ _ _ _ Hq).
Qed.

Lemma alloc_step s l : nvme_ok s l -> avail (host_mem s) l <> [] ->
  exists p pm l1, on_mem (updates kalloc) s = Ret (p, set_host_mem pm s) /\ nvme_ok (set_host_mem pm s) l1 /\
    is_page p /\ p ∉ driver_pages (set_host_mem pm s) l1 /\
    driver_pages s l ≡ₚ p :: driver_pages (set_host_mem pm s) l1 /\
    hhdm_offset pm = hhdm_offset (host_mem s) /\
    (forall x, x < p \/ p + 4096 <= x -> ram pm x = ram (host_mem s) x).
Proof.
  intros Hok Ha. pose proof Hok as [Hwf _ [ph Hq] _ _ _].
  pose proof (kalloc_spec _ _ Hwf) as HK. pose proof (kalloc_consts (host_mem s)) as Hh.
  destruct (kalloc (host_mem s)) as [p pm] eqn:Ek. destruct HK as [[(_ & _ & ?)|(Hp & l1 & Hwf1 & HA & Hm)] _]; [done|].
  pose proof (avail_head_fresh _ _ _ _ _ Hwf HA) as Hf. cbn in Hh.
  pose proof (qk_sqa _ _ _ _ _ _ Hq) as Hs. pose proof (qk_cqa _ _ _ _ _ _ Hq) as Hc.
  rewrite HA, not_elem_of_cons in Hs, Hc. destruct Hs as [Hs1 Hs2], Hc as [Hc1 Hc2].
  exists p, pm, l1. split_and!; try done.
  - unfold on_mem, zoom, updates. by rewrite Ek.
  - apply (nvme_ok_mem s l pm l1 Hok Hwf1 Hh Hs2 Hc2). intros x Hx. apply Hm.
    pose proof (page_apart _ _ Hp (qk_cqp _ _ _ _ _ _ Hq) ltac:(done)). lia.
  - unfold driver_pages. rewrite !not_elem_of_cons. split_and!; try done. apply Hf.
  - unfold driver_pages. change (host_mem (set_host_mem pm s)) with pm. rewrite HA. solve_Permutation.
Qed.

Lemma free_step s l p : nvme_ok s l -> is_page p -> p ∉ driver_pages s l ->
  exists pm, on_mem (effect (kfree p)) s = Ret (tt, set_host_mem pm s) /\ nvme_ok (set_host_mem pm s) (p :: l) /\
    driver_pages (set_host_mem pm s) (p :: l) ≡ₚ p :: driver_pages s l /\
    hhdm_offset pm = hhdm_offset (host_mem s) /\
    (forall x, x < p \/ p + 4096 <= x -> ram pm x = ram (host_mem s) x).
Proof.
  intros Hok Hp Hn. pose proof Hok as [Hwf _ [ph Hq] _ _ _].
  unfold driver_pages in Hn. rewrite !not_elem_of_cons in Hn. destruct Hn as (N1 & N2 & N3).
  destruct (kfree_correct _ _ _ Hwf Hp N3) as (pm & HK & Hwf1 & HA & _ & Hm & _ & Hh).
  exists pm. split_and!; try done.
  - unfold on_mem, zoom, effect. by rewrite HK.
  - apply (nvme_ok_mem s l pm (p :: l) Hok Hwf1 Hh).
    + rewrite HA, not_elem_of_cons. split; [done|]. apply (qk_sqa _ _ _ _ _ _ Hq).
    + rewrite HA, not_elem_of_cons. split; [done|]. apply (qk_cqa _ _ _ _ _ _ Hq).
    + intros x Hx. apply Hm. pose proof (page_apart _ _ Hp (qk_cqp _ _ _ _ _ _ Hq) N2). lia.
  - unfold driver_pages. change (host_mem (set_host_mem pm s)) with pm. rewrite HA. solve_Permutation.
  - intros x Hx. apply Hm. lia.
Qed.

(** Writing a buffer that is none of the driver's pages. *)
Lemma nvme_ok_store s l m a n : nvme_ok s l -> apart s l a n ->
  (forall x, x < a \/ a + n <= x -> m x = ram (host_mem s) x) -> nvme_ok (set_host_ram m s) l.
Proof.
  intros Hok Ha Hm. pose proof Hok as [Hwf _ [ph Hq] _ _ _]. apply (nvme_ok_mem s l (set_ram (host_mem s) m) l Hok).
  - apply pmem_wf_ram; [done|]. intros q x Hq' Hx. apply Hm.
    pose proof (Ha q ltac:(right; right; unfold avail; apply elem_of_app; by left)). lia.
  - done.
  - apply (qk_sqa _ _ _ _ _ _ Hq).
  - apply (qk_cqa _ _ _ _ _ _ Hq).
  - intros x Hx. apply Hm. pose proof (Ha _ ltac:(right; by left)). lia.
Qed.

(** The transfer the driver asks for is one the controller performs. *)
Lemma io_transfer_ok s l p lba count cdw12 opc : nvme_ok s l -> is_page p ->
  1 <= count -> count * block_size (nv s) <= 4096 -> 0 <= lba < 2 ^ 64 -> lba + count <= vw_nsze (view (ctrl s)) ->
  wrap 16 (wrap 32 cdw12) = count - 1 ->
  let c := io_command opc lba cdw12 (V2P (host_mem s) p) in
  transfer_ok c (view (ctrl s)) = true /\ cm_lba c = lba /\ cm_blocks c = count /\
  wrap 64 (cm_prp c + hhdm_offset (host_mem s)) = p /\ vw_bs (view (ctrl s)) = block_size (nv s).
Proof.
  intros [Hwf _ _ Hbs Hlb Hms] Hp Hc Hcb Hl Hn Hw c.
  assert (cm_lba c = lba) as El.
  { unfold c, cm_lba, io_command. cbn [cm_cdw10 cm_cdw11]. rewrite Z.shiftr_div_pow2 by lia.
    rewrite (wrap_small 32 (lba / 2 ^ 32)) by zify_div. unfold wrap. pose proof (Z.div_mod lba (2 ^ 32)). lia. }
  assert (cm_blocks c = count) as Eb by (unfold c, cm_blocks, io_command; cbn [cm_cdw12]; lia).
  pose proof (V2P_aligned (host_mem s) p (proj2 (wf_off _ _ Hwf)) (proj2 (proj2 Hp))) as Hal.
  split_and!; try done.
  - unfold transfer_ok. rewrite El, Eb, Hms, <- Hbs. change (cm_prp c) with (V2P (host_mem s) p).
    rewrite Hal. change (cm_nsid c) with 1. rewrite !andb_true_iff, !Z.leb_le, !Z.eqb_eq. split_and!; try done; try lia.
    pose proof (V2P_slot (host_mem s) p 0 Hp). zify_div.
  - change (cm_prp c) with (V2P (host_mem s) p). rewrite <- (Z.add_0_r (V2P (host_mem s) p)), V2P_slot by (done || lia). lia.
Qed.

Lemma same_device_trans s1 s2 s3 l1 l2 l3 : same_device s1 s2 l1 l2 -> same_device s2 s3 l2 l3 -> same_device s1 s3 l1 l3.
Proof. intros [] []. constructor; [by etrans|congruence..]. Qed.

(** The counts of blocks the two transfers send. *)
Lemma count_read count : 1 <= count <= 4096 -> wrap 16 (wrap 32 (wrap 32 (count - 1))) = count - 1.
Proof. intros. rewrite !(wrap_small 32 (count - 1)) by lia. apply wrap_small. lia. Qed.
Lemma count_write count : 1 <= count <= 4096 -> wrap 16 (wrap 32 (Z.land (wrap 32 (count - 1)) 0xFFFF)) = count - 1.
Proof.
  intros. change 0xFFFF with (Z.ones 16). rewrite Z.land_ones by lia. rewrite (wrap_small 32 (count - 1)) by lia.
  rewrite Z.mod_small by lia. rewrite wrap_small; [|by rewrite wrap_small; lia]. apply wrap_small; lia.
Qed.

Lemma block_size_range s l : nvme_ok s l -> 2 <= block_size (nv s).
Proof.
  intros [_ _ _ Hbs Hlb _]. rewrite Hbs. unfold vw_bs. change 2 with (2 ^ 1) at 1. apply Z.pow_le_mono_r; lia.
Qed.

(** Reading: the buffer holds the blocks, and nothing else changed but pages
    of the driver. *)
Lemma nvme_read_spec s l lba count buf : nvme_ok s l -> g_nvme s = true -> avail (host_mem s) l <> [] ->
  1 <= count -> count * block_size (nv s) <= 4096 -> 0 <= lba < 2 ^ 64 -> lba + count <= vw_nsze (view (ctrl s)) ->
  apart s l buf (count * block_size (nv s)) ->
  exists s' l', in_time (fun fuel => nvme_read fuel lba count buf) tt s s' /\ nvme_ok s' l' /\ same_device s s' l l' /\
    (forall x, vw_disk (view (ctrl s')) x = vw_disk (view (ctrl s)) x) /\
    (forall i, 0 <= i < count * block_size (nv s) ->
       ram (host_mem s') (buf + i) = vw_disk (view (ctrl s)) (lba * block_size (nv s) + i)) /\
    (forall x, x < buf \/ buf + count * block_size (nv s) <= x ->
       (forall r, r ∈ driver_pages s l -> x < r \/ r + 4096 <= x) -> ram (host_mem s') x = ram (host_mem s) x).
Proof.
  intros Hok Hg Hav Hc Hcb Hl Hns Hap. set (n := count * block_size (nv s)) in *.
  pose proof (block_size_range s l Hok) as Hb2. assert (wrap 32 n = n) as En by (apply wrap_small; lia).
  destruct (alloc_step s l Hok Hav) as (p & pm & l1 & HA & Hok1 & Hp & Hpn & Hperm & Hh1 & Hm1).
  set (s1 := set_host_mem pm s) in *.
  pose proof (io_transfer_ok s1 l1 p lba count (wrap 32 (count - 1)) 2 Hok1 Hp Hc Hcb Hl Hns
                (count_read count ltac:(lia))) as (T1 & T2 & T3 & T4 & T5).
  set (me := io_entry (ram (host_mem s1)) (submission_queue (io_queue (nv s1)) + 64 * submission_queue_tail (io_queue (nv s1))) 2
               (next_command_id (nv s1)) lba (wrap 32 (count - 1)) (V2P (host_mem s1) p)).
  set (m2 := blit me p (vw_disk (view (ctrl s1))) (lba * block_size (nv s)) n).
  destruct (transfer s1 l1 2 lba (wrap 32 (count - 1)) p m2 (view (ctrl s1)) Hok1 Hp Hpn ltac:(lia))
    as (s2 & [f0 Hrun] & Hok2 & Hsd2 & Hav2 & Hdk2 & Hin2 & Hout2).
  { unfold perform. rewrite T1. cbn [Z.eqb negb]. change (cm_opc _ =? 1) with false. change (cm_opc _ =? 2) with true.
    cbv iota. rewrite T2, T3, T4, T5. done. }
  { intros x Hx. apply blit_out. lia. }
  set (m3 := blit (ram (host_mem s2)) buf (ram (host_mem s2)) p n). set (s3 := set_host_ram m3 s2).
  assert (apart s2 l1 buf n) as Hap2.
  { intros r Hr. apply Hap. rewrite Hperm. right. by rewrite <- (sd_pages _ _ _ _ Hsd2). }
  assert (buf + n <= p \/ p + 4096 <= buf) as Hbp by (apply Hap; rewrite Hperm; by left).
  pose proof (nvme_ok_store s2 l1 m3 buf n Hok2 Hap2 ltac:(intros x Hx; apply blit_out; lia)) as Hok3.
  assert (driver_pages s3 l1 ≡ₚ driver_pages s1 l1) as Hdp3 by exact (sd_pages _ _ _ _ Hsd2).
  destruct (free_step s3 l1 p Hok3 Hp ltac:(by rewrite Hdp3)) as (pm4 & HF & Hok4 & Hperm4 & Hh4 & Hm4).
  exists (set_host_mem pm4 s3), (p :: l1). split; [exists f0; intros fuel Hf|split; [done|split; [|split; [|split]]]].
  - unfold nvme_read, reads. rewrite (bind_step _ _ s _ s eq_refl), Hg. cbn [negb].
    rewrite (bind_step _ _ s _ s eq_refl). fold n. rewrite En. change PAGE_SIZE with 4096.
    destruct (Z.ltb_spec 4096 n); [lia|]. rewrite (bind_step _ _ s p s1 HA), (bind_step _ _ s1 tt s2 (Hrun fuel Hf)).
    destruct (Z.eqb_spec p 0) as [->|]; [by destruct Hp|]. cbn [andb].
    exact HF.
  - destruct Hsd2 as [D1 D2 D3 D4 D5]. constructor; try done.
    + rewrite Hperm4, Hdp3. by rewrite Hperm.
    + change (hhdm_offset (host_mem (set_host_mem pm4 s3))) with (hhdm_offset pm4). rewrite Hh4. transitivity (hhdm_offset pm); done.
  - intros x. change (view (ctrl (set_host_mem pm4 s3))) with (view (ctrl s2)). by rewrite Hdk2.
  - intros i Hi. change (ram pm4 (buf + i) = vw_disk (view (ctrl s)) (lba * block_size (nv s) + i)).
    rewrite Hm4 by lia. change (ram (host_mem s3)) with m3. unfold m3. rewrite blit_in, Hin2 by lia.
    unfold m2. rewrite blit_in by lia. change (view (ctrl s1)) with (view (ctrl s)). f_equal. lia.
  - intros x Hx Hr. change (ram pm4 x = ram (host_mem s) x).
    pose proof (Hr p ltac:(rewrite Hperm; by left)) as Hxp. rewrite Hm4 by lia.
    change (ram (host_mem s3)) with m3. unfold m3. rewrite blit_out by lia. rewrite Hout2; [by apply Hm1|done|].
    intros r Hr'. apply Hr. rewrite Hperm. by right.
Qed.

(** Writing: the blocks hold the buffer, and nothing else changed but pages
    of the driver. *)
Lemma nvme_write_spec s l lba count buf : nvme_ok s l -> g_nvme s = true -> avail (host_mem s) l <> [] ->
  1 <= count -> count * block_size (nv s) <= 4096 -> 0 <= lba < 2 ^ 64 -> lba + count <= vw_nsze (view (ctrl s)) ->
  apart s l buf (count * block_size (nv s)) ->
  exists s' l', in_time (fun fuel => nvme_write fuel lba count buf) tt s s' /\ nvme_ok s' l' /\ same_device s s' l l' /\
    (forall i, 0 <= i < count * block_size (nv s) ->
       vw_disk (view (ctrl s')) (lba * block_size (nv s) + i) = ram (host_mem s) (buf + i)) /\
    (forall x, x < lba * block_size (nv s) \/ lba * block_size (nv s) + count * block_size (nv s) <= x ->
       vw_disk (view (ctrl s')) x = vw_disk (view (ctrl s)) x) /\
    (forall x, (forall r, r ∈ driver_pages s l -> x < r \/ r + 4096 <= x) -> ram (host_mem s') x = ram (host_mem s) x).
Proof.
  intros Hok Hg Hav Hc Hcb Hl Hns Hap. set (n := count * block_size (nv s)) in *.
  pose proof (block_size_range s l Hok) as Hb2. assert (wrap 32 n = n) as En by (apply wrap_small; lia).
  destruct (alloc_step s l Hok Hav) as (p & pm & l1 & HA & Hok0 & Hp & Hpn & Hperm & Hh1 & Hm1).
  set (s0 := set_host_mem pm s) in *.
  assert (apart s0 l1 p n) as Hap0.
  { intros r Hr. pose proof (page_apart p r Hp (driver_page _ _ _ Hok0 Hr) ltac:(intros ->; done)). lia. }
  set (m0 := blit (ram pm) p (ram pm) buf n). set (s1 := set_host_ram m0 s0).
  pose proof (nvme_ok_store s0 l1 m0 p n Hok0 Hap0 ltac:(intros x Hx; apply blit_out; lia)) as Hok1. fold s1 in Hok1.
  set (c12 := Z.land (wrap 32 (count - 1)) 0xFFFF).
  pose proof (io_transfer_ok s1 l1 p lba count c12 1 Hok1 Hp Hc Hcb Hl Hns
                (count_write count ltac:(lia))) as (T1 & T2 & T3 & T4 & T5).
  set (me := io_entry (ram (host_mem s1)) (submission_queue (io_queue (nv s1)) + 64 * submission_queue_tail (io_queue (nv s1))) 1
               (next_command_id (nv s1)) lba c12 (V2P (host_mem s1) p)).
  destruct (transfer s1 l1 1 lba c12 p me
              (set_view_disk (view (ctrl s1)) (blit (vw_disk (view (ctrl s1))) (lba * block_size (nv s)) me p n)) Hok1 Hp Hpn ltac:(lia))
    as (s2 & [f0 Hrun] & Hok2 & Hsd2 & Hav2 & Hdk2 & Hin2 & Hout2).
  { unfold perform. rewrite T1. cbn [Z.eqb negb]. change (cm_opc _ =? 1) with true.
    cbv iota. rewrite T2, T3, T4, T5. done. }
  { done. }
  assert (driver_pages s2 l1 ≡ₚ driver_pages s1 l1) as Hdp2 by exact (sd_pages _ _ _ _ Hsd2).
  destruct (free_step s2 l1 p Hok2 Hp ltac:(by rewrite Hdp2)) as (pm4 & HF & Hok4 & Hperm4 & Hh4 & Hm4).
  assert (buf + n <= p \/ p + 4096 <= buf) as Hbp by (apply Hap; rewrite Hperm; by left).
  assert (forall i, 0 <= i < n -> me (p + i) = ram (host_mem s) (buf + i)) as Hdata.
  { intros i Hi. destruct Hok1 as [_ _ [ph Hq] _ _ _].
    assert (p <> submission_queue (io_queue (nv s1))) as N1 by (intros E'; apply Hpn; rewrite E'; by left).
    pose proof (page_apart _ _ Hp (qk_sqp _ _ _ _ _ _ Hq) N1).
    pose proof (qk_tail _ _ _ _ _ _ Hq). pose proof (qk_size _ _ _ _ _ _ Hq).
    unfold me. rewrite io_entry_out by lia. change (ram (host_mem s1)) with m0. unfold m0. rewrite blit_in by lia.
    rewrite Hm1 by lia. f_equal. lia. }
  exists (set_host_mem pm4 s2), (p :: l1). split; [exists f0; intros fuel Hf|split; [done|split; [|split; [|split]]]].
  - unfold nvme_write, reads. rewrite (bind_step _ _ s _ s eq_refl), Hg. cbn [negb].
    rewrite (bind_step _ _ s _ s eq_refl). fold n. rewrite En. change PAGE_SIZE with 4096.
    destruct (Z.ltb_spec 4096 n); [lia|]. rewrite (bind_step _ _ s p s0 HA).
    destruct (Z.eqb_spec p 0) as [->|]; [by destruct Hp|]. cbn [andb].
    change ((submit_io fuel 1 lba c12 p ≫= fun _ => on_mem (effect (kfree p))) s1 = Ret (tt, set_host_mem pm4 s2)).
    by rewrite (bind_step _ _ s1 tt s2 (Hrun fuel Hf)).
  - destruct Hsd2 as [D1 D2 D3 D4 D5]. constructor; try done.
    + rewrite Hperm4, Hdp2. by rewrite Hperm.
    + change (hhdm_offset (host_mem (set_host_mem pm4 s2))) with (hhdm_offset pm4). rewrite Hh4. transitivity (hhdm_offset pm); done.
  - intros i Hi. change (view (ctrl (set_host_mem pm4 s2))) with (view (ctrl s2)). rewrite Hdk2.
    cbn [vw_disk set_view_disk]. rewrite blit_in by lia.
    rewrite <- Hdata by lia. f_equal. lia.
  - intros x Hx. change (view (ctrl (set_host_mem pm4 s2))) with (view (ctrl s2)). rewrite Hdk2.
    cbn [vw_disk set_view_disk]. rewrite blit_out by lia. done.
  - intros x Hr. change (ram pm4 x = ram (host_mem s) x).
    pose proof (Hr p ltac:(rewrite Hperm; by left)) as Hxp. rewrite Hm4, Hout2 by (done || lia || (intros r Hr'; apply Hr; rewrite Hperm; by right)).
    change (ram (host_mem s1)) with m0. unfold m0. rewrite blit_out by lia. by apply Hm1.
Qed.

(** *** The block device of the file system *)

Section partition.
Context {D : Type} `{DzFS.BlockDeviceLaws D}.

(** The partition holds the blocks of [d]. *)
Definition on_partition (s : host C) (d : D) : Prop :=
  forall b, 0 <= b < DzFS.total_blocks d -> exists m, DzFS.read_block b d = Some m /\
    forall i, 0 <= i < 4096 ->
      m i = vw_disk (view (ctrl s)) ((PARTITION_OFFSET + b * (4096 / block_size (nv s))) * block_size (nv s) + i).

(** The file system's device: its blocks are whole blocks of the namespace,
    and it lies inside of it. *)
Record partition_ok (s : host C) (l : list Z) (d : D) : Prop := {
  po_nvme : nvme_ok s l;
  po_bound : g_nvme s = true;
  po_divides : 4096 mod block_size (nv s) = 0;
  po_inside : PARTITION_OFFSET + DzFS.total_blocks d * (4096 / block_size (nv s)) <= vw_nsze (view (ctrl s));
  po_total : DzFS.total_blocks d <= 2 ^ 32;
  po_holds : on_partition s d
}.

Lemma partition_block s l d b : partition_ok s l d -> 0 <= b < DzFS.total_blocks d ->
  let k := 4096 / block_size (nv s) in
  let lba := PARTITION_OFFSET + b * k in
  1 <= k /\ k * block_size (nv s) = 4096 /\ wrap 64 lba = lba /\ 0 <= lba < 2 ^ 64 /\ lba + k <= vw_nsze (view (ctrl s)) /\
  blocks_per_block s = Ret (k, s).
Proof.
  intros [Hok Hg Hdv Hin Ht _] Hb. pose proof (block_size_range s l Hok) as H2. set (bs := block_size (nv s)) in *.
  cbv zeta. assert (4096 / bs * bs = 4096) as Ek by (pose proof (Z.div_mod 4096 bs); lia).
  assert (1 <= 4096 / bs <= 4096) as Hk by nia. assert (b * (4096 / bs) <= 2 ^ 32 * 4096) as Hbk by nia.
  assert (0 <= b * (4096 / bs)) as Hbk0 by nia. unfold PARTITION_OFFSET in *. split_and!; try lia.
  - apply wrap_small. lia.
  - nia.
  - unfold blocks_per_block, nvme_block_size, reads. rewrite (bind_step _ _ s bs s); [|by rewrite Hg].
    destruct (Z.eqb_spec bs 0); [lia|done].
Qed.

(** C29: On a machine whose controller keeps the promises of NVMe, the two
    callbacks the file system reaches its disk with behave like a block
    device: if the partition holds the blocks of [d], reading a block returns
    the block of [d] and leaves the partition as it is, and after writing one
    the partition holds what writing it to [d] leads to.  Both calls end,
    however long the controller takes, the driver is ready for the next call,
    and nothing changes in memory but the buffer (when reading) and pages of
    the driver. *)
Theorem nvme_partition_correct s l d b block m : partition_ok s l d -> avail (host_mem s) l <> [] ->
  0 <= b < DzFS.total_blocks d -> is_page block -> block ∉ driver_pages s l ->
  (forall i, 0 <= i < 4096 -> m i = ram (host_mem s) (block + i)) ->
  (exists s' l' v, in_time (fun fuel => fs_read_block fuel b block) 0 s s' /\
     partition_ok s' l' d /\ same_device s s' l l' /\ DzFS.read_block b d = Some v /\
     (forall i, 0 <= i < 4096 -> ram (host_mem s') (block + i) = v i) /\
     (forall x, x < block \/ block + 4096 <= x -> (forall r, r ∈ driver_pages s l -> x < r \/ r + 4096 <= x) ->
        ram (host_mem s') x = ram (host_mem s) x)) /\
  (exists s' l', in_time (fun fuel => fs_write_block fuel b block) 0 s s' /\
     partition_ok s' l' (DzFS.write_block b m d).2 /\ same_device s s' l l' /\
     (forall x, (forall r, r ∈ driver_pages s l -> x < r \/ r + 4096 <= x) -> ram (host_mem s') x = ram (host_mem s) x)).
Proof.
  intros Hpo Hav Hb Hp Hpn Hm. pose proof Hpo as [Hok Hg Hdv Hin Ht Hd].
  destruct (partition_block s l d b Hpo Hb) as (K1 & K2 & K3 & K4 & K5 & K6). cbv zeta in *.
  set (k := 4096 / block_size (nv s)) in *. set (lba := PARTITION_OFFSET + b * k) in *.
  assert (apart s l block (k * block_size (nv s))) as Hap.
  { intros r Hr. rewrite K2. pose proof (page_apart block r Hp (driver_page _ _ _ Hok Hr) ltac:(intros ->; done)). lia. }
  split.
  - destruct (nvme_read_spec s l lba k block Hok Hg Hav K1 ltac:(lia) K4 K5 Hap)
      as (s' & l' & [f0 Hrun] & Hok' & Hsd & Hdk & Hbuf & Hout). rewrite K2 in *.
    destruct (Hd b Hb) as (v & Ev & Hv). exists s', l', v. split_and!; try done.
    + exists f0. intros fuel Hf. unfold fs_read_block. rewrite (bind_step _ _ s k s K6). fold lba. rewrite K3.
      by rewrite (bind_step _ _ s tt s' (Hrun fuel Hf)).
    + destruct Hsd as [_ _ S3 S4 S5]. constructor; rewrite ?S3, ?S5; try done.
      * unfold vw_nsze in *. by rewrite S4.
      * intros c Hc. destruct (Hd c Hc) as (w & Ew & Hw). exists w. split; [done|]. intros i Hi.
        rewrite Hdk, S3. by apply Hw.
    + intros i Hi. rewrite Hbuf by lia. by rewrite Hv.
  - destruct (nvme_write_spec s l lba k block Hok Hg Hav K1 ltac:(lia) K4 K5 Hap)
      as (s' & l' & [f0 Hrun] & Hok' & Hsd & Hin' & Hdk & Hout). rewrite K2 in *.
    exists s', l'. split_and!; try done.
    + exists f0. intros fuel Hf. unfold fs_write_block. rewrite (bind_step _ _ s k s K6). fold lba. rewrite K3.
      by rewrite (bind_step _ _ s tt s' (Hrun fuel Hf)).
    + destruct Hsd as [_ _ S3 S4 S5]. constructor; rewrite ?S3, ?S5, ?DzFS.write_total; try done.
      * unfold vw_nsze in *. by rewrite S4.
      * intros c Hc. rewrite DzFS.write_total in Hc. rewrite S3. fold k. destruct (Z.eq_dec c b) as [->|N].
        -- exists m. split; [by apply DzFS.read_write_eq|]. intros i Hi. fold lba. rewrite Hin' by lia. by apply Hm.
        -- destruct (Hd c Hc) as (w & Ew & Hw). exists w. split; [by rewrite DzFS.read_write_ne|]. intros i Hi.
           rewrite Hw by done. fold k. symmetry. apply Hdk. unfold lba.
           assert (c * k * block_size (nv s) = 4096 * c) by nia. assert (b * k * block_size (nv s) = 4096 * b) by nia. nia.
Qed.
End partition.
End commands.

(** ** Transfers that are larger than their buffer *)

(** The check of the two transfers against the size of a page is done on a
    32-bit product, and a count of zero passes it too.  A read of zero blocks,
    or of any multiple of 65536 blocks whose size in bytes wraps around to at
    most a page, asks the controller for 65536 blocks and gives it one page of
    memory for them. *)
Theorem nvme_read_overrun {C} `{NvmeController C} (s : host C) fuel lba count buffer : g_nvme s = true ->
  0 <= count < 2 ^ 32 -> count mod 65536 = 0 -> wrap 32 (count * block_size (nv s)) <= 4096 ->
  exists s1 rest, nvme_read fuel lba count buffer s = (nvme_do_one_cmd_synchronous fuel Io ≫= rest) s1 /\
    let c := fetch (ram (host_mem s1)) (submission_queue (io_queue (nv s1)) + 64 * submission_queue_tail (io_queue (nv s1))) in
    cm_opc c = 2 /\ cm_blocks c = 65536 /\ cm_prp c = V2P (kalloc (host_mem s)).2 (kalloc (host_mem s)).1.
Proof.
  intros Hg Hc Hm Hn. destruct (kalloc (host_mem s)) as [p pm] eqn:Ek. cbn [fst snd].
  set (s0 := set_host_mem pm s). set (c12 := wrap 32 (count - 1)).
  set (me := io_entry (ram (host_mem s0)) (submission_queue (io_queue (nv s0)) + 64 * submission_queue_tail (io_queue (nv s0))) 2
               (next_command_id (nv s0)) lba c12 (V2P (host_mem s0) p)).
  eexists (set_nv (set_cid (nv s0) (wrap 16 (next_command_id (nv s0) + 1))) (set_host_ram me s0)), _. split.
  - unfold nvme_read, reads. rewrite (bind_step _ _ s _ s eq_refl), Hg. cbn [negb].
    rewrite (bind_step _ _ s _ s eq_refl). change PAGE_SIZE with 4096.
    destruct (Z.ltb_spec 4096 (wrap 32 (count * block_size (nv s)))); [lia|].
    rewrite (bind_step _ _ s p s0) by (unfold on_mem, zoom, updates; by rewrite Ek).
    match goal with |- (_ ≫= ?f) _ = _ =>
      transitivity ((nvme_do_one_cmd_synchronous fuel Io ≫= f)
        (set_nv (set_cid (nv s0) (wrap 16 (next_command_id (nv s0) + 1))) (set_host_ram me s0))); [reflexivity|] end.
    reflexivity.
  - cbv zeta. change (ram (host_mem (set_nv _ (set_host_ram me s0)))) with me.
    change (io_queue (nv (set_nv _ (set_host_ram me s0)))) with (io_queue (nv s0)).
    unfold me. rewrite fetch_io_entry by (try (apply (wrap_range 64)); lia). split_and!; try done.
    unfold cm_blocks, io_command, c12. cbn [cm_cdw12]. rewrite wrap_wrap by lia. unfold wrap.
    destruct (Z.eq_dec count 0) as [->|]; [done|]. rewrite (Z.mod_small (count - 1)) by lia. change (2 ^ 16) with 65536. zify_div.
Qed.

(** The number of blocks [fs.c] announces: it divides a number of sectors by
    a number of bytes, and so covers less than a hundredth of the partition. *)
Lemma fs_total_blocks_short : fs_total_blocks = 17 /\ PARTITION_SIZE * 512 / DzFS.DZFS_BLOCK_SIZE = 8955.
Proof. done. Qed.

(** Removing a device whose name is on the heap stops the kernel: [kfree] is
    the function for pages. *)
Lemma nvme_remove_op_panics {C} (s : host C) literal p : p <> 0 -> p mod 4096 <> 0 ->
  nvme_remove_op literal (Allocated p) s = Panic "kfree: unaligned page".
Proof.
  intros H0 Hp. unfold nvme_remove_op, mbind, st_bind, on_mem, zoom, effect, kfree.
  destruct (Z.eqb_spec p 0); [done|]. rewrite land_4095. unfold truth. by destruct (Z.eqb_spec (p mod 4096) 0).
Qed.
