(* ===== verification/NvmeStart.v ===== *)
(** * Setting an NVMe controller up (about the definitions of Nvme.v)

    [nvme_start_correct]: the set-up leads to the state [nvme_ok] that the
    transfers of NvmeFacts.v start from. *)
From S2P Require Import Prelude Mem PhysMem Vmm UserPages KMalloc Nvme NvmeFacts.

(** Loads from two places that hold the same bytes. *)
Lemma load_le_shift m m' a b n : (forall k, 0 <= k < Z.of_nat n -> m (a + k) = m' (b + k)) ->
  load_le m a n = load_le m' b n.
Proof.
  revert a b. induction n as [|n IH]; intros a b Hm; cbn [load_le]; [done|].
  pose proof (Hm 0 ltac:(lia)) as H0. rewrite !Z.add_0_r in H0. rewrite H0. do 2 f_equal. apply IH. intros k Hk.
  rewrite <- !Z.add_assoc. apply Hm. lia.
Qed.

Lemma elem_second_fourth (a b c d r : Z) : r ∈ [b; d] -> r ∈ [a; b; c; d].
Proof. rewrite !elem_of_cons, elem_of_nil. intros [-> | [-> | []]]; auto. Qed.

Section start.
Context {C : Type} `{NL : NvmeLaws C}.

(** During the set-up: the admin queue works, the pages of the other queue
    wait to be announced. *)
Record starting (s : host C) (l : list Z) (iosq iocq : Z) : Prop := {
  sg_wf : pmem_wf (host_mem s) l;
  sg_quiet : quiet s;
  sg_admin : exists ph, queue_ok (host_mem s) l (view (ctrl s)) 0 (admin_queue (nv s)) ph;
  sg_io : io_queue (nv s) = MkQueue iosq iocq 0 0 1 NVME_IO_QUEUE_SIZE 0;
  sg_pages : is_page iosq /\ is_page iocq /\ iosq <> iocq;
  sg_free : (iosq ∉ avail (host_mem s) l) /\ (iocq ∉ avail (host_mem s) l);
  sg_sq : submission_queue (admin_queue (nv s)) <> iocq;
  sg_cq : completion_queue (admin_queue (nv s)) <> iocq;
  sg_zero : forall x, iocq <= x < iocq + 4096 -> ram (host_mem s) x = 0
}.

(** What one command of the set-up leaves as it is. *)
Record same_start (s s' : host C) : Prop := {
  ss_off : hhdm_offset (host_mem s') = hhdm_offset (host_mem s);
  ss_sq : submission_queue (admin_queue (nv s')) = submission_queue (admin_queue (nv s));
  ss_cq : completion_queue (admin_queue (nv s')) = completion_queue (admin_queue (nv s));
  ss_geometry : nv_total_blocks (nv s') = nv_total_blocks (nv s) /\ block_size (nv s') = block_size (nv s);
  ss_bound : g_nvme s' = g_nvme s
}.

(** The effect of an admin command on the view. *)
Record now (v v1 : nvme_view) : Prop := {
  nw_sq i : i <> 0 -> vw_sq v i = vw_sq v1 i;
  nw_cq i : i <> 0 -> vw_cq v i = vw_cq v1 i;
  nw_ns : vw_ns v = vw_ns v1;
  nw_cap : vw_cap v = vw_cap v1;
  nw_disk : vw_disk v = vw_disk v1
}.

Definition admin_slot (s : host C) : Z :=
  submission_queue (admin_queue (nv s)) + 64 * submission_queue_tail (admin_queue (nv s)).

Lemma admin_command s l iosq iocq me cid c m1 v1 : starting s l iosq iocq ->
  (forall x, x < admin_slot s \/ admin_slot s + 64 <= x -> me x = ram (host_mem s) x) -> fetch me (admin_slot s) = c ->
  perform (hhdm_offset (host_mem s)) 0 c me (view (ctrl s)) = Some (m1, v1) ->
  (forall r x, r ∈ completion_queue (admin_queue (nv s)) :: iocq :: avail (host_mem s) l -> r <= x < r + 4096 -> m1 x = me x) ->
  exists s', in_time (fun fuel => nvme_do_one_cmd_synchronous fuel Admin) tt
      (set_nv (set_cid (nv s) cid) (set_host_ram me s)) s' /\
    starting s' l iosq iocq /\ same_start s s' /\ now (view (ctrl s')) v1 /\
    avail (host_mem s') l = avail (host_mem s) l /\
    (forall x, x < completion_queue (admin_queue (nv s)) \/ completion_queue (admin_queue (nv s)) + 4096 <= x ->
       ram (host_mem s') x = m1 x).
Proof.
  intros [Hwf Hqt [ph Hq] Hio (P1 & P2 & P3) (F1 & F2) N1 N2 Hz] Hme Hf HP Hm1.
  destruct (entry_command s l Admin 0 ph me cid c m1 v1 Hq ltac:(lia) Hqt Hme Hf HP)
    as (m' & c' & ph' & Hrun & Hm & Hid & Hv & Hqok).
  { intros x Hx. apply (Hm1 (completion_queue (admin_queue (nv s)))); [by left|done]. }
  change (get_queue Admin (nv s)) with (admin_queue (nv s)) in *.
  pose proof (perform_consts _ _ _ _ _ _ _ HP) as (C1 & C2 & C3).
  destruct (after_command_fields _ _ _ _ _ _ Hq) as (A1 & A2 & _).
  pose proof (qk_sqp _ _ _ _ _ _ Hq) as Hsp. pose proof (qk_cqp _ _ _ _ _ _ Hq) as Hcp.
  pose proof (qk_size _ _ _ _ _ _ Hq) as Hsz. pose proof (qk_tail _ _ _ _ _ _ Hq) as Htl.
  assert (forall r x, is_page r -> r <> submission_queue (admin_queue (nv s)) -> r <> completion_queue (admin_queue (nv s)) ->
            r ∈ completion_queue (admin_queue (nv s)) :: iocq :: avail (host_mem s) l ->
            r <= x < r + 4096 -> m' x = ram (host_mem s) x) as Hkeep.
  { intros r x Hr M1 M2 Hin Hx. pose proof (page_apart _ _ Hr Hsp M1). pose proof (page_apart _ _ Hr Hcp M2).
    rewrite Hm by lia. rewrite (Hm1 r x Hin Hx). apply Hme. unfold admin_slot. lia. }
  exists (with_all m' c' (set_queue Admin (after_command (admin_queue (nv s))) (set_cid (nv s) cid)) s).
  split; [exact Hrun|]. split; [|split; [|split; [|split; [done|exact Hm]]]].
  - constructor; try done.
    + apply pmem_wf_ram; [done|]. intros r x Hr Hx.
      assert (r ∈ avail (host_mem s) l) as Hra by (unfold avail; apply elem_of_app; by left).
      apply (Hkeep r); [exact (avail_is_page _ _ _ Hwf Hra)| | |right; by right|done].
      * intros ->. exact (qk_sqa _ _ _ _ _ _ Hq Hra).
      * intros ->. exact (qk_cqa _ _ _ _ _ _ Hq Hra).
    + constructor; [exact Hid| |].
      * change (vw_ready (view c') = true). rewrite Hv. cbn. rewrite C1. apply Hqt.
      * change (cap (nv s) = vw_cap (view c')). rewrite Hv. cbn. rewrite C2. apply Hqt.
    + by exists ph'.
    + cbn. by rewrite A1.
    + cbn. by rewrite A2.
    + intros x Hx. change (m' x = 0). rewrite (Hkeep iocq) by (done || (right; by left)). by apply Hz.
  - by constructor.
  - constructor; intros; change (view (ctrl (with_all m' c' (set_queue Admin (after_command (admin_queue (nv s))) (set_cid (nv s) cid)) s)))
      with (view c'); rewrite Hv; try done; cbn; by destruct (Z.eqb_spec i 0).
Qed.

(** The start of every entry. *)
Definition entry_head (m : mem) (sq opc cid : Z) : mem :=
  store16 (store8 (fill m sq 0 SQ_ENTRY) (sq + sq_opc) opc) (sq + sq_cid) cid.

Ltac fetch_entry :=
  unfold fetch, entry_head; f_equal; unfold load16, load32, load64, store16, store32, store64,
    sq_opc, sq_cid, sq_nsid, sq_prp0, sq_cdw10, sq_cdw11, sq_cdw12, SQ_ENTRY;
  change store8 with (fun m a v => store_le m a 1 v); cbv beta;
  repeat first [rewrite load_store_le | rewrite load_store_le_out by lia | rewrite load_fill0 by lia];
  try reflexivity; try (repeat rewrite store_le_out by lia; exact (store8_eq _ _ _));
  try (change (256 ^ Z.of_nat 8) with (2 ^ 64); by apply Z.mod_small).
Ltac entry_out :=
  unfold entry_head, store16, store32, store64, sq_opc, sq_cid, sq_nsid, sq_prp0, sq_cdw10, sq_cdw11, sq_cdw12, SQ_ENTRY;
  rewrite !store_le_out by lia; rewrite store8_ne by lia; by rewrite fill_out by lia.

Definition count_entry (m : mem) (sq cid : Z) : mem :=
  store32 (store32 (entry_head m sq 9 cid) (sq + sq_cdw10) 7) (sq + sq_cdw11) 0.
Definition cq_entry (m : mem) (sq cid prp : Z) : mem :=
  store32 (store32 (store64 (entry_head m sq 5 cid) (sq + sq_prp0) prp) (sq + sq_cdw11) 1) (sq + sq_cdw10) 983041.
Definition sq_entry (m : mem) (sq cid prp : Z) : mem :=
  store32 (store32 (store64 (entry_head m sq 1 cid) (sq + sq_prp0) prp) (sq + sq_cdw11) 65537) (sq + sq_cdw10) 983041.
Definition identify_entry (m : mem) (sq cid prp : Z) : mem :=
  store64 (store32 (store32 (entry_head m sq 6 cid) (sq + sq_cdw10) 0) (sq + sq_nsid) 1) (sq + sq_prp0) prp.

Lemma fetch_entries m sq cid prp : 0 <= prp < 2 ^ 64 ->
  fetch (count_entry m sq cid) sq = MkCommand 9 0 0 7 0 0 /\
  fetch (cq_entry m sq cid prp) sq = MkCommand 5 0 prp 983041 1 0 /\
  fetch (sq_entry m sq cid prp) sq = MkCommand 1 0 prp 983041 65537 0 /\
  fetch (identify_entry m sq cid prp) sq = MkCommand 6 1 prp 0 0 0.
Proof.
  intros Hp. split_and!; [unfold count_entry|unfold cq_entry|unfold sq_entry|unfold identify_entry]; fetch_entry.
Qed.

Lemma entries_out m sq cid prp x : x < sq \/ sq + 64 <= x ->
  count_entry m sq cid x = m x /\ cq_entry m sq cid prp x = m x /\ sq_entry m sq cid prp x = m x /\
  identify_entry m sq cid prp x = m x.
Proof.
  intros Hx. split_and!; [unfold count_entry|unfold cq_entry|unfold sq_entry|unfold identify_entry]; entry_out.
Qed.

Lemma set_queue_count_spec s l iosq iocq : starting s l iosq iocq ->
  exists s', in_time set_queue_count tt s s' /\ starting s' l iosq iocq /\ same_start s s' /\
    now (view (ctrl s')) (view (ctrl s)) /\ avail (host_mem s') l = avail (host_mem s) l.
Proof.
  intros Hs. set (me := count_entry (ram (host_mem s)) (admin_slot s) (next_command_id (nv s))).
  destruct (admin_command s l iosq iocq me (wrap 16 (next_command_id (nv s) + 1)) (MkCommand 9 0 0 7 0 0) me (view (ctrl s)) Hs)
    as (s' & [f0 Hrun] & H1 & H2 & H3 & H4 & _); try done.
  - intros x Hx. apply (entries_out _ _ _ 0 x Hx).
  - exact (proj1 (fetch_entries _ _ _ 0 ltac:(lia))).
  - exists s'. split; [|done]. exists f0. exact Hrun.
Qed.

Lemma V2P_page p l a : pmem_wf p l -> is_page a ->
  V2P p a mod 4096 = 0 /\ 0 <= V2P p a < 2 ^ 64.
Proof.
  intros Hp (_ & _ & Ha). split; [|apply (wrap_range 64); lia].
  apply V2P_aligned; [|done]. apply (wf_off _ _ Hp).
Qed.

Lemma create_io_cq_spec s l iosq iocq : starting s l iosq iocq -> vw_cq (view (ctrl s)) 1 = None ->
  15 <= wrap 16 (vw_cap (view (ctrl s))) ->
  exists s', in_time create_io_cq tt s s' /\ starting s' l iosq iocq /\ same_start s s' /\
    now (view (ctrl s')) (set_view_cq (view (ctrl s)) 1 (Some (MkRing (V2P (host_mem s) iocq) 16 0, true))) /\
    avail (host_mem s') l = avail (host_mem s) l.
Proof.
  intros Hs Hn Hcap. pose proof Hs as [Hwf _ _ Hio (P1 & P2 & P3) _ _ _ _].
  destruct (V2P_page (host_mem s) l iocq Hwf P2) as [V1 V2].
  set (me := cq_entry (ram (host_mem s)) (admin_slot s) (next_command_id (nv s)) (V2P (host_mem s) iocq)).
  destruct (admin_command s l iosq iocq me (wrap 16 (next_command_id (nv s) + 1))
              (MkCommand 5 0 (V2P (host_mem s) iocq) 983041 1 0) me
              (set_view_cq (view (ctrl s)) 1 (Some (MkRing (V2P (host_mem s) iocq) 16 0, true))) Hs)
    as (s' & [f0 Hrun] & H1 & H2 & H3 & H4 & _); try done.
  - intros x Hx. apply (entries_out _ _ _ (V2P (host_mem s) iocq) x Hx).
  - apply (fetch_entries _ _ _ _ V2).
  - unfold perform, size_ok. cbn [cm_opc cm_cdw10 cm_cdw11 cm_prp]. rewrite V1. change (wrap 16 983041) with 1.
    change (Z.shiftr 983041 16 + 1) with 16. rewrite Hn, bool_decide_true by done.
    destruct (Z.leb_spec 16 (wrap 16 (vw_cap (view (ctrl s))) + 1)); [done|lia].
  - exists s'. split; [|done]. exists f0. intros fuel Hf. rewrite <- (Hrun fuel Hf).
    unfold create_io_cq, start_entry, me, cq_entry, entry_head, admin_slot.
    transitivity (nvme_do_one_cmd_synchronous fuel Admin (set_nv (set_cid (nv s) (wrap 16 (next_command_id (nv s) + 1)))
      (set_host_ram (store32 (store32 (store64 (entry_head (ram (host_mem s)) (admin_slot s) 5 (next_command_id (nv s)))
         (admin_slot s + sq_prp0) (V2P (host_mem s) (completion_queue (io_queue (nv s))))) (admin_slot s + sq_cdw11) 1)
         (admin_slot s + sq_cdw10) (Z.lor (queue_index (io_queue (nv s))) (Z.shiftl (NVME_IO_QUEUE_SIZE - 1) 16))) s)));
      [reflexivity|]. by rewrite Hio.
Qed.

Lemma create_io_sq_spec s l iosq iocq : starting s l iosq iocq -> vw_sq (view (ctrl s)) 1 = None ->
  is_Some (vw_cq (view (ctrl s)) 1) -> 15 <= wrap 16 (vw_cap (view (ctrl s))) ->
  exists s', in_time create_io_sq tt s s' /\ starting s' l iosq iocq /\ same_start s s' /\
    now (view (ctrl s')) (set_view_sq (view (ctrl s)) 1 (Some (MkRing (V2P (host_mem s) iosq) 16 0))) /\
    avail (host_mem s') l = avail (host_mem s) l.
Proof.
  intros Hs Hn Hcq Hcap. pose proof Hs as [Hwf _ _ Hio (P1 & P2 & P3) _ _ _ _].
  destruct (V2P_page (host_mem s) l iosq Hwf P1) as [V1 V2].
  set (me := sq_entry (ram (host_mem s)) (admin_slot s) (next_command_id (nv s)) (V2P (host_mem s) iosq)).
  destruct (admin_command s l iosq iocq me (wrap 16 (next_command_id (nv s) + 1))
              (MkCommand 1 0 (V2P (host_mem s) iosq) 983041 65537 0) me
              (set_view_sq (view (ctrl s)) 1 (Some (MkRing (V2P (host_mem s) iosq) 16 0))) Hs)
    as (s' & [f0 Hrun] & H1 & H2 & H3 & H4 & _); try done.
  - intros x Hx. apply (entries_out _ _ _ (V2P (host_mem s) iosq) x Hx).
  - apply (fetch_entries _ _ _ _ V2).
  - unfold perform, size_ok. cbn [cm_opc cm_cdw10 cm_cdw11 cm_prp]. rewrite V1. change (wrap 16 983041) with 1.
    change (Z.shiftr 983041 16 + 1) with 16. rewrite Hn. rewrite (bool_decide_true (None = None)) by done.
    rewrite (bool_decide_true (is_Some (vw_cq (view (ctrl s)) 1))) by done.
    destruct (Z.leb_spec 16 (wrap 16 (vw_cap (view (ctrl s))) + 1)); [done|lia].
  - exists s'. split; [|done]. exists f0. intros fuel Hf. rewrite <- (Hrun fuel Hf).
    transitivity (nvme_do_one_cmd_synchronous fuel Admin (set_nv (set_cid (nv s) (wrap 16 (next_command_id (nv s) + 1)))
      (set_host_ram (store32 (store32 (store64 (entry_head (ram (host_mem s)) (admin_slot s) 1 (next_command_id (nv s)))
         (admin_slot s + sq_prp0) (V2P (host_mem s) (submission_queue (io_queue (nv s))))) (admin_slot s + sq_cdw11)
         (Z.lor 1 (wrap 32 (Z.shiftl (queue_index (io_queue (nv s))) 16))))
         (admin_slot s + sq_cdw10) (Z.lor (queue_index (io_queue (nv s))) (Z.shiftl (NVME_IO_QUEUE_SIZE - 1) 16))) s)));
      [reflexivity|]. by rewrite Hio.
Qed.

(** Another memory during the set-up. *)
Lemma starting_mem s l iosq iocq pm l' d : starting s l iosq iocq -> pmem_wf pm l' ->
  hhdm_offset pm = hhdm_offset (host_mem s) -> admin_queue d = admin_queue (nv s) -> io_queue d = io_queue (nv s) ->
  cap d = cap (nv s) ->
  (forall r, r ∈ [submission_queue (admin_queue (nv s)); completion_queue (admin_queue (nv s)); iosq; iocq] -> r ∉ avail pm l') ->
  (forall r x, r ∈ [completion_queue (admin_queue (nv s)); iocq] -> r <= x < r + 4096 -> ram pm x = ram (host_mem s) x) ->
  starting (set_nv d (set_host_mem pm s)) l' iosq iocq.
Proof.
  intros [Hwf [Qi Qr Qc] [ph Hq] Hio HP HF N1 N2 Hz] Hwf' Hh Ea Ei Ec Hav Hm. constructor; try done.
  - constructor; try done. change (cap d = vw_cap (view (ctrl s))). by rewrite Ec.
  - exists ph. change (queue_ok pm l' (view (ctrl s)) 0 (admin_queue d) ph). rewrite Ea.
    apply (queue_ok_frame _ _ _ _ _ _ _ _ _ Hq); try done.
    + apply Hav. by left.
    + apply Hav. right. by left.
    + intros x Hx. apply (Hm (completion_queue (admin_queue (nv s)))); [by left|done].
  - change (io_queue d = MkQueue iosq iocq 0 0 1 NVME_IO_QUEUE_SIZE 0). by rewrite Ei.
  - split; apply Hav; [by do 2 right; left|by do 3 right; left].
  - change (submission_queue (admin_queue d) <> iocq). by rewrite Ea.
  - change (completion_queue (admin_queue d) <> iocq). by rewrite Ea.
  - intros x Hx. change (ram pm x = 0). rewrite (Hm iocq) by (done || by right; left). by apply Hz.
Qed.

(** The pages of the set-up are the driver's alone. *)
Lemma starting_apart s l iosq iocq r : starting s l iosq iocq ->
  r ∈ [submission_queue (admin_queue (nv s)); completion_queue (admin_queue (nv s)); iosq; iocq] ->
  is_page r /\ r ∉ avail (host_mem s) l.
Proof.
  intros [_ _ [ph Hq] _ (P1 & P2 & _) (F1 & F2) _ _ _]. rewrite !elem_of_cons, elem_of_nil.
  intros [-> | [-> | [-> | [-> | []]]]]; split; try done; apply Hq.
Qed.

Lemma block_size_of_ok x : 1 <= x <= 30 -> block_size_of x = Ret (2 ^ x).
Proof.
  intros Hx. unfold block_size_of. destruct (Z.leb_spec 1 x), (Z.leb_spec x 30); try lia. cbn [andb].
  rewrite Z.shiftl_mul_pow2 by lia. replace (2 ^ x) with (2 ^ (1 + (x - 1))) by (f_equal; lia).
  by rewrite Z.pow_add_r by lia.
Qed.

Lemma identify_spec s l iosq iocq p : starting s l iosq iocq -> is_page p -> p ∉ avail (host_mem s) l ->
  (forall r, r ∈ [submission_queue (admin_queue (nv s)); completion_queue (admin_queue (nv s)); iosq; iocq] -> r <> p) ->
  exists s', in_time (fun fuel => identify fuel p) tt s s' /\ starting s' l iosq iocq /\ same_start s s' /\
    now (view (ctrl s')) (view (ctrl s)) /\ avail (host_mem s') l = avail (host_mem s) l /\
    (forall k, 0 <= k < 4096 -> ram (host_mem s') (p + k) = vw_ns (view (ctrl s)) k).
Proof.
  intros Hs Hp Hpn Hpr. pose proof (sg_wf _ _ _ _ Hs) as Hwf.
  destruct (V2P_page (host_mem s) l p Hwf Hp) as [V1 V2].
  set (me := identify_entry (ram (host_mem s)) (admin_slot s) (next_command_id (nv s)) (V2P (host_mem s) p)).
  set (m1 := blit me p (vw_ns (view (ctrl s))) 0 4096).
  assert (completion_queue (admin_queue (nv s)) + 4096 <= p \/ p + 4096 <= completion_queue (admin_queue (nv s))) as Hcp.
  { destruct (starting_apart _ _ _ _ (completion_queue (admin_queue (nv s))) Hs) as [Hc _]; [by right; left|].
    apply (page_apart _ _ Hc Hp). apply Hpr. by right; left. }
  destruct (admin_command s l iosq iocq me (wrap 16 (next_command_id (nv s) + 1))
              (MkCommand 6 1 (V2P (host_mem s) p) 0 0 0) m1 (view (ctrl s)) Hs)
    as (s' & [f0 Hrun] & H1 & H2 & H3 & H4 & Hm); try done.
  - intros x Hx. apply (entries_out _ _ _ (V2P (host_mem s) p) x Hx).
  - apply (fetch_entries _ _ _ _ V2).
  - unfold perform. cbn [cm_opc cm_cdw10 cm_nsid cm_prp]. rewrite V1.
    change (wrap 8 0) with 0. cbn [Z.eqb andb]. do 2 f_equal. unfold m1. f_equal.
    pose proof (V2P_slot (host_mem s) p 0 Hp ltac:(lia)) as E. by rewrite !Z.add_0_r in E.
  - intros r x Hr Hx. assert (is_page r /\ r <> p) as [Hrp Hne].
    { rewrite !elem_of_cons in Hr. destruct Hr as [-> | [-> | Hr]].
      - split; [apply (starting_apart _ _ _ _ _ Hs)|apply Hpr]; by right; left.
      - split; [apply (starting_apart _ _ _ _ _ Hs)|apply Hpr]; by do 3 right; left.
      - split; [exact (avail_is_page _ _ _ Hwf Hr)|by intros ->]. }
    unfold m1. apply blit_out. pose proof (page_apart _ _ Hrp Hp Hne). lia.
  - exists s'. split_and!; try done.
    + exists f0. exact Hrun.
    + intros k Hk. rewrite Hm by lia. unfold m1. rewrite blit_in by lia. f_equal. lia.
Qed.

Lemma nvme_identify_namespace_spec s l iosq iocq : starting s l iosq iocq -> avail (host_mem s) l <> [] ->
  1 <= vw_lbads (view (ctrl s)) <= 30 ->
  exists s' l', in_time nvme_identify_namespace tt s s' /\ starting s' l' iosq iocq /\
    now (view (ctrl s')) (view (ctrl s)) /\ hhdm_offset (host_mem s') = hhdm_offset (host_mem s) /\
    avail (host_mem s') l' ≡ₚ avail (host_mem s) l /\ g_nvme s' = g_nvme s /\
    block_size (nv s') = vw_bs (view (ctrl s)) /\ nv_total_blocks (nv s') = vw_nsze (view (ctrl s)).
Proof.
  intros Hs Hav Hlb. pose proof (sg_wf _ _ _ _ Hs) as Hwf.
  pose proof (kalloc_spec _ _ Hwf) as HK. pose proof (kalloc_consts (host_mem s)) as Hh.
  destruct (kalloc (host_mem s)) as [p pm] eqn:Ek. destruct HK as [[(_ & _ & ?)|(Hp & l1 & Hwf1 & HA & Hm)] _]; [done|].
  pose proof (avail_head_fresh _ _ _ _ _ Hwf HA) as Hf. destruct Hf as [_ Hf]. cbn in Hh.
  set (qs := [submission_queue (admin_queue (nv s)); completion_queue (admin_queue (nv s)); iosq; iocq]) in *.
  assert (forall r, r ∈ qs -> is_page r /\ r <> p /\ r ∉ avail pm l1) as Hqs.
  { intros r Hr. destruct (starting_apart _ _ _ _ r Hs Hr) as [R1 R2]. rewrite HA, not_elem_of_cons in R2.
    destruct R2 as [R2 R3]. done. }
  assert (starting (set_host_mem pm s) l1 iosq iocq) as Hs1.
  { apply (starting_mem s l iosq iocq pm l1 (nv s) Hs); try done; [intros r Hr; by apply Hqs|]. intros r x Hr Hx. apply Hm.
    assert (r ∈ qs) as Hr' by by apply elem_second_fourth.
    destruct (Hqs r Hr') as (R1 & R2 & _). pose proof (page_apart _ _ R1 Hp R2). lia. }
  destruct (identify_spec _ _ _ _ p Hs1 Hp Hf ltac:(intros r Hr; by apply Hqs))
    as (s2 & [f0 Hrun] & Hs2 & [O1 O2 O3 O4 O5] & Hnow & Hav2 & Hns).
  change (view (ctrl (set_host_mem pm s))) with (view (ctrl s)) in *.
  assert (p ∉ avail (host_mem s2) l1) as Hf2 by by rewrite Hav2.
  destruct (kfree_correct _ _ _ (sg_wf _ _ _ _ Hs2) Hp Hf2) as (pm4 & HF & Hwf4 & HA4 & _ & Hm4 & _ & Hh4).
  set (d := set_geometry (nv s2) (vw_nsze (view (ctrl s))) (vw_bs (view (ctrl s)))).
  exists (set_nv d (set_host_mem pm4 s2)), (p :: l1). split_and!; try done.
  - exists f0. intros fuel Hfu. unfold nvme_identify_namespace.
    rewrite (bind_step _ _ s p (set_host_mem pm s)) by (unfold on_mem, zoom, updates; by rewrite Ek).
    destruct (Z.eqb_spec p 0) as [->|]; [by destruct Hp|].
    rewrite (bind_step _ _ _ tt s2 (Hrun fuel Hfu)). unfold load, reads.
    rewrite (bind_step _ _ s2 _ s2 eq_refl), (bind_step _ _ s2 _ s2 eq_refl).
    rewrite (Hns ns_flbas) by (unfold ns_flbas; lia).
    assert (0 <= vw_format (view (ctrl s)) < 2 ^ 4) as Hfm by (apply land_mask_range; lia).
    unfold vw_format in Hfm. rewrite Hns by (unfold ns_lbads, ns_lba_format; lia).
    change (vw_ns _ (ns_lbads _)) with (vw_lbads (view (ctrl s))).
    rewrite (bind_step _ _ s2 (vw_bs (view (ctrl s))) s2) by (unfold lift; by rewrite block_size_of_ok).
    rewrite (bind_step _ _ s2 (vw_nsze (view (ctrl s))) s2).
    2:{ do 3 f_equal. unfold load64. apply load_le_shift. intros k Hk. rewrite <- Z.add_assoc. apply Hns. unfold ns_nsze. lia. }
    change ((on_mem (effect (kfree p))) (set_nv d s2) = Ret (tt, set_nv d (set_host_mem pm4 s2))).
    unfold on_mem, zoom, effect. change (host_mem (set_nv d s2)) with (host_mem s2). by rewrite HF.
  - apply (starting_mem s2 l1 iosq iocq pm4 (p :: l1) d Hs2); try done; rewrite ?O2, ?O3; change (nv (set_host_mem pm s)) with (nv s).
    + intros r Hr. rewrite HA4, not_elem_of_cons, Hav2. split; by apply Hqs.
    + intros r x Hr Hx. apply Hm4. assert (r ∈ qs) as Hr' by by apply elem_second_fourth.
      destruct (Hqs r Hr') as (R1 & R2 & _). pose proof (page_apart _ _ R1 Hp R2). lia.
  - change (hhdm_offset pm4 = hhdm_offset (host_mem s)). rewrite Hh4, O1. exact Hh.
  - change (avail pm4 (p :: l1) ≡ₚ avail (host_mem s) l). rewrite HA4, Hav2. by rewrite HA.
Qed.

(** Enabling is disabling, the three registers, and enabling. *)
Lemma nvme_disable_run s : idle (ctrl s) ->
  exists m c, in_time nvme_disable_device tt s (set_ctrl c (set_host_ram m s)) /\
    (forall x, m x = ram (host_mem s) x) /\ idle c /\ view c = disabled (view (ctrl s)).
Proof.
  intros Hi. set (cc := reg_read 4 NVME_CC_OFFSET (ctrl s)).
  set (v := wrap 32 (Z.land cc (wrap 64 (Z.lnot 1)))).
  assert (Z.testbit v 0 = false) as Hv.
  { unfold v, wrap. rewrite Z.mod_pow2_bits_low, Z.land_spec by lia.
    change (Z.testbit (Z.lnot 1 mod 2 ^ 64) 0) with false. apply andb_false_r. }
  destruct (law_disable (hhdm_offset (host_mem s)) (ram (host_mem s)) (ctrl s) v Hi Hv) as (n & Hk & Hn & Hm & Hid & Hvw).
  set (c0 := reg_write 4 NVME_CC_OFFSET v (ctrl s)) in *.
  exists (time (hhdm_offset (host_mem s)) n (ram (host_mem s)) c0).1,
    (time (hhdm_offset (host_mem s)) n (ram (host_mem s)) c0).2. split_and!; try done.
  exists (S n). intros fuel Hf. unfold nvme_disable_device, read_reg, reads, write_reg.
  rewrite (bind_step _ _ s cc s eq_refl).
  change ((wait_csts fuel 1) (set_ctrl c0 s) = Ret (tt, at_time n c0 (set_ctrl c0 s))).
  apply (wait_csts_run n fuel (set_ctrl c0 s) true); [lia|done|done].
Qed.

Lemma nvme_enable_run s : idle (ctrl s) -> vw_ready (view (ctrl s)) = false ->
  vw_asq (view (ctrl s)) mod 4096 = 0 -> vw_acq (view (ctrl s)) mod 4096 = 0 -> vw_aqa (view (ctrl s)) = 65537 ->
  exists m c, in_time nvme_enable_device tt s (set_ctrl c (set_host_ram m s)) /\
    (forall x, m x = ram (host_mem s) x) /\ idle c /\ view c = enabled (view (ctrl s)).
Proof.
  intros Hi Hr Ha Hb Hq. pose proof (law_enable (hhdm_offset (host_mem s)) (ram (host_mem s)) (ctrl s) Hi Hr Ha Hb) as HL.
  rewrite Hq in HL. destruct (HL ltac:(done) ltac:(done)) as (n & Hk & Hn & Hm & Hid & Hvw).
  set (c0 := reg_write 4 NVME_CC_OFFSET CC_ENABLE (ctrl s)) in *.
  exists (time (hhdm_offset (host_mem s)) n (ram (host_mem s)) c0).1,
    (time (hhdm_offset (host_mem s)) n (ram (host_mem s)) c0).2. split_and!; try done.
  exists (S n). intros fuel Hf.
  change ((wait_csts fuel 0) (set_ctrl c0 s) = Ret (tt, at_time n c0 (set_ctrl c0 s))).
  apply (wait_csts_run n fuel (set_ctrl c0 s) false); [lia|done|done].
Qed.

Lemma nvme_configure_run s l : idle (ctrl s) -> pmem_wf (host_mem s) l ->
  is_page (submission_queue (admin_queue (nv s))) -> is_page (completion_queue (admin_queue (nv s))) ->
  exists m c, in_time nvme_configure tt s (set_ctrl c (set_host_ram m s)) /\
    (forall x, m x = ram (host_mem s) x) /\ idle c /\
    view c = enabled (MkView false (vw_cap (view (ctrl s))) 65537 (V2P (host_mem s) (submission_queue (admin_queue (nv s))))
                        (V2P (host_mem s) (completion_queue (admin_queue (nv s)))) (fun _ => None) (fun _ => None)
                        (vw_ns (view (ctrl s))) (vw_disk (view (ctrl s)))).
Proof.
  intros Hi Hwf Hs Hc. destruct (nvme_disable_run s Hi) as (m1 & c1 & [f1 R1] & M1 & I1 & V1).
  destruct (V2P_page _ _ _ Hwf Hs) as [As Bs]. destruct (V2P_page _ _ _ Hwf Hc) as [Ac Bc].
  set (asq := V2P (host_mem s) (submission_queue (admin_queue (nv s)))) in *.
  set (acq := V2P (host_mem s) (completion_queue (admin_queue (nv s)))) in *.
  destruct (law_aqa c1 65537 ltac:(by rewrite V1) I1) as [I2 V2]. set (c2 := reg_write 4 NVME_AQA_OFFSET 65537 c1) in *.
  destruct (law_asq c2 asq ltac:(by rewrite V2) I2) as [I3 V3]. set (c3 := reg_write 8 NVME_ASQ_OFFSET asq c2) in *.
  destruct (law_acq c3 acq ltac:(by rewrite V3) I3) as [I4 V4]. set (c4 := reg_write 8 NVME_ACQ_OFFSET acq c3) in *.
  rewrite V3, V2, V1 in V4. cbn in V4. set (s4 := set_ctrl c4 (set_host_ram m1 s)).
  assert (view (ctrl s4) = view c4) as E4 by done.
  destruct (nvme_enable_run s4 I4 ltac:(by rewrite E4, V4) ltac:(by rewrite E4, V4) ltac:(by rewrite E4, V4) ltac:(by rewrite E4, V4))
    as (m5 & c5 & [f5 R5] & M5 & I5 & V5).
  exists m5, c5. split_and!; try done.
  - exists (f1 + f5)%nat. intros fuel Hf. unfold nvme_configure.
    rewrite (bind_step _ _ s tt _ (R1 fuel ltac:(lia))).
    transitivity (nvme_enable_device fuel (set_ctrl (reg_write 8 NVME_ACQ_OFFSET (wrap 64 acq) (reg_write 8 NVME_ASQ_OFFSET (wrap 64 asq) c2))
                    (set_host_ram m1 s))); [reflexivity|].
    rewrite !(wrap_small 64) by done. exact (R5 fuel ltac:(lia)).
  - intros x. rewrite M5. apply M1.
  - by rewrite V5, E4, V4.
Qed.

Lemma kcalloc_step p l : pmem_wf p l -> avail p l <> [] ->
  exists a p' l', kcalloc p = (a, p') /\ is_page a /\ pmem_wf p' l' /\ avail p l ≡ₚ a :: avail p' l' /\
    hhdm_offset p' = hhdm_offset p /\ (forall x, a <= x < a + 4096 -> ram p' x = 0) /\
    (forall x, x < a \/ a + 4096 <= x -> ram p' x = ram p x).
Proof.
  intros Hwf Hav. pose proof (kcalloc_correct _ _ Hwf) as HK. pose proof (kcalloc_consts p) as Hh.
  destruct (kcalloc p) as [a p']. destruct HK as [[(_ & _ & ?)|(Hp & l' & Hwf' & HA & Hm)] Hz]; [done|].
  exists a, p', l'. split_and!; try done. apply Hz. intros ->. by destruct Hp.
Qed.

(** Four cleared pages. *)
Lemma four_pages p l : pmem_wf p l -> (4 <= length (avail p l))%nat ->
  exists a b c d p1 p2 p3 p4 l4, kcalloc p = (a, p1) /\ kcalloc p1 = (b, p2) /\ kcalloc p2 = (c, p3) /\ kcalloc p3 = (d, p4) /\
    pmem_wf p4 l4 /\ avail p l ≡ₚ a :: b :: c :: d :: avail p4 l4 /\ Forall is_page [a; b; c; d] /\
    hhdm_offset p4 = hhdm_offset p /\ NoDup (a :: b :: c :: d :: avail p4 l4) /\
    (forall r x, r ∈ [b; d] -> r <= x < r + 4096 -> ram p4 x = 0).
Proof.
  intros Hwf Hlen.
  destruct (kcalloc_step p l Hwf) as (a & p1 & l1 & K1 & P1 & W1 & A1 & H1 & Z1 & O1); [by intros E; rewrite E in Hlen; cbn in Hlen; lia|].
  destruct (kcalloc_step p1 l1 W1) as (b & p2 & l2 & K2 & P2 & W2 & A2 & H2 & Z2 & O2);
    [by intros E; rewrite A1, E in Hlen; cbn in Hlen; lia|].
  destruct (kcalloc_step p2 l2 W2) as (c & p3 & l3 & K3 & P3 & W3 & A3 & H3 & Z3 & O3);
    [by intros E; rewrite A1, A2, E in Hlen; cbn in Hlen; lia|].
  destruct (kcalloc_step p3 l3 W3) as (d & p4 & l4 & K4 & P4 & W4 & A4 & H4 & Z4 & O4);
    [by intros E; rewrite A1, A2, A3, E in Hlen; cbn in Hlen; lia|].
  assert (avail p l ≡ₚ a :: b :: c :: d :: avail p4 l4) as HA by (rewrite A1, A2, A3, A4; done).
  assert (NoDup (a :: b :: c :: d :: avail p4 l4)) as Hnd by (rewrite <- HA; apply (wf_nodup _ _ Hwf)).
  exists a, b, c, d, p1, p2, p3, p4, l4. split_and!; try done; [by rewrite !Forall_cons|congruence|].
  assert (b <> c /\ b <> d) as [N1 N2].
  { rewrite !NoDup_cons, !not_elem_of_cons in Hnd. tauto. }
  pose proof (page_apart _ _ P2 P3 N1). pose proof (page_apart _ _ P2 P4 N2).
  intros r x Hr Hx. rewrite !elem_of_cons, elem_of_nil in Hr. destruct Hr as [-> | [-> | []]].
  - rewrite O4, O3 by lia. by apply Z2.
  - by apply Z4.
Qed.

(** After the controller is enabled the commands can start. *)
Lemma starting_configured s l asq acq iosq iocq m c v : pmem_wf (host_mem s) l ->
  admin_queue (nv s) = MkQueue asq acq 0 0 0 NVME_ADMIN_QUEUE_SIZE 0 ->
  io_queue (nv s) = MkQueue iosq iocq 0 0 1 NVME_IO_QUEUE_SIZE 0 ->
  Forall is_page [asq; acq; iosq; iocq] -> NoDup (asq :: acq :: iosq :: iocq :: avail (host_mem s) l) ->
  (forall r x, r ∈ [acq; iocq] -> r <= x < r + 4096 -> ram (host_mem s) x = 0) ->
  (forall x, m x = ram (host_mem s) x) -> idle c -> cap (nv s) = vw_cap v ->
  view c = enabled (MkView false (vw_cap v) 65537 (V2P (host_mem s) asq) (V2P (host_mem s) acq) (fun _ => None) (fun _ => None)
                      (vw_ns v) (vw_disk v)) ->
  starting (set_ctrl c (set_host_ram m s)) l iosq iocq.
Proof.
  intros Hwf Ea Ei Hpg Hnd Hz Hm Hi Hc Hv. rewrite !Forall_cons in Hpg. destruct Hpg as (Pa & Pb & Pc & Pd & _).
  rewrite !NoDup_cons, !not_elem_of_cons in Hnd. destruct Hnd as ((N1 & N2 & N3 & N4) & (N5 & N6 & N7) & (N8 & N9) & N10 & _).
  constructor; try done.
  - apply pmem_wf_ram; [done|]. intros. apply Hm.
  - constructor; [done|change (vw_ready (view c) = true); by rewrite Hv|]. change (cap (nv s) = vw_cap (view c)). by rewrite Hv.
  - exists false. change (queue_ok (set_ram (host_mem s) m) l (view c) 0 (admin_queue (nv s)) false). rewrite Ea, Hv.
    constructor; try done. intros j Hj. cbn in Hj. unfold NVME_ADMIN_QUEUE_SIZE in Hj. cbn [completion_queue completion_queue_head].
    cbn [ram set_ram]. rewrite Hm, (Hz acq) by (by left || (unfold cq_flags; lia)).
    by destruct (Z.ltb_spec j 0); [lia|].
  - change (submission_queue (admin_queue (nv s)) <> iocq). by rewrite Ea.
  - change (completion_queue (admin_queue (nv s)) <> iocq). by rewrite Ea.
  - intros x Hx. change (m x = 0). rewrite Hm. apply (Hz iocq); [by right; left|done].
Qed.

(** The second queue is announced. *)
Lemma nvme_ok_started s l iosq iocq : starting s l iosq iocq ->
  vw_sq (view (ctrl s)) 1 = Some (MkRing (V2P (host_mem s) iosq) 16 0) ->
  vw_cq (view (ctrl s)) 1 = Some (MkRing (V2P (host_mem s) iocq) 16 0, true) ->
  block_size (nv s) = vw_bs (view (ctrl s)) -> 1 <= vw_lbads (view (ctrl s)) <= 30 -> vw_ms (view (ctrl s)) = 0 ->
  nvme_ok s l.
Proof.
  intros [Hwf Hqt _ Hio (P1 & P2 & P3) (F1 & F2) _ _ Hz] Hs Hc Hb Hl Hm. constructor; try done.
  exists false. rewrite Hio. constructor; try done.
  intros j Hj. cbn in Hj. unfold NVME_IO_QUEUE_SIZE in Hj. cbn [completion_queue completion_queue_head].
  rewrite Hz by (unfold cq_flags; lia). by destruct (Z.ltb_spec j 0); [lia|].
Qed.

Lemma now_format v v1 : now v v1 -> vw_lbads v = vw_lbads v1 /\ vw_ms v = vw_ms v1 /\ vw_bs v = vw_bs v1 /\ vw_nsze v = vw_nsze v1.
Proof. intros []. unfold vw_bs, vw_lbads, vw_ms, vw_nsze, vw_format. by rewrite nw_ns0. Qed.

(** The three commands of [nvme_create_io_queue]. *)
Lemma nvme_create_io_queue_spec s l iosq iocq : starting s l iosq iocq ->
  vw_cq (view (ctrl s)) 1 = None -> vw_sq (view (ctrl s)) 1 = None -> 15 <= wrap 16 (vw_cap (view (ctrl s))) ->
  exists s', in_time nvme_create_io_queue tt s s' /\ starting s' l iosq iocq /\ same_start s s' /\
    avail (host_mem s') l = avail (host_mem s) l /\
    now (view (ctrl s')) (set_view_sq (set_view_cq (view (ctrl s)) 1 (Some (MkRing (V2P (host_mem s) iocq) 16 0, true)))
                            1 (Some (MkRing (V2P (host_mem s) iosq) 16 0))).
Proof.
  intros Hs Hc Hq Hcap.
  destruct (set_queue_count_spec s l iosq iocq Hs) as (s1 & [f1 R1] & G1 & [O1 Q1 C1 M1 B1] & [N1 N2 N3 N4 N5] & A1).
  destruct (create_io_cq_spec s1 l iosq iocq G1) as (s2 & [f2 R2] & G2 & [O2 Q2 C2 M2 B2] & [N6 N7 N8 N9 N10] & A2);
    [by rewrite N2|by rewrite N4|].
  destruct (create_io_sq_spec s2 l iosq iocq G2) as (s3 & [f3 R3] & G3 & [O3 Q3 C3 M3 B3] & [N11 N12 N13 N14 N15] & A3).
  { rewrite N6 by done. cbn. by rewrite N1. }
  { rewrite N7 by done. by eexists. }
  { rewrite N9. cbn. by rewrite N4. }
  exists s3. split_and!; try done; [|constructor; try congruence; destruct M1, M2, M3; split; congruence|congruence|].
  - exists (f1 + (f2 + f3))%nat. intros fuel Hf. unfold nvme_create_io_queue.
    rewrite (bind_step _ _ s tt s1 (R1 fuel ltac:(lia))), (bind_step _ _ s1 tt s2 (R2 fuel ltac:(lia))). apply R3. lia.
  - cbn in *. assert (forall a, V2P (host_mem s1) a = V2P (host_mem s) a) as E1 by (intros a; unfold V2P; by rewrite O1).
    assert (forall a, V2P (host_mem s2) a = V2P (host_mem s) a) as E2 by (intros a; unfold V2P; by rewrite O2, O1).
    constructor; cbn; intros; rewrite ?N11, ?N12, ?N13, ?N14, ?N15 by done; rewrite ?E2.
    + destruct (i =? 1); [done|]. by rewrite N6, N1.
    + rewrite N7, E1 by done. destruct (i =? 1); [done|]. by rewrite N2.
    + by rewrite N8, N3.
    + by rewrite N9, N4.
    + by rewrite N10, N5.
Qed.

(** The allocations of [nvme_start] when they succeed. *)
Lemma nvme_start_run s a b c d p1 p2 p3 p4 fuel : kcalloc (host_mem s) = (a, p1) -> kcalloc p1 = (b, p2) ->
  kcalloc p2 = (c, p3) -> kcalloc p3 = (d, p4) -> Forall is_page [a; b; c; d] ->
  nvme_start fuel s =
  (nvme_configure fuel ≫= fun _ => nvme_create_io_queue fuel ≫= fun _ => nvme_identify_namespace fuel ≫= fun _ => mret true)
    (set_nv (MkNvme (base (nv s)) (cap (nv s)) (MkQueue a b 0 0 0 NVME_ADMIN_QUEUE_SIZE 0)
               (MkQueue c d 0 0 1 NVME_IO_QUEUE_SIZE 0) (nv_total_blocks (nv s)) (block_size (nv s)) (next_command_id (nv s)))
       (set_host_mem p4 s)).
Proof.
  intros K1 K2 K3 K4 HP. rewrite !Forall_cons in HP. destruct HP as ([Pa _] & [Pb _] & [Pc _] & [Pd _] & _).
  unfold nvme_start.
  rewrite (bind_step _ _ s a (set_host_mem p1 s)) by (unfold on_mem, zoom, updates; by rewrite K1).
  rewrite (bind_step _ _ _ b (set_host_mem p2 s)) by (unfold on_mem, zoom, updates; change (host_mem (set_host_mem p1 s)) with p1; by rewrite K2).
  rewrite (bind_step _ _ _ c (set_host_mem p3 s)) by (unfold on_mem, zoom, updates; change (host_mem (set_host_mem p2 s)) with p2; by rewrite K3).
  rewrite (bind_step _ _ _ d (set_host_mem p4 s)) by (unfold on_mem, zoom, updates; change (host_mem (set_host_mem p3 s)) with p3; by rewrite K4).
  unfold nv_modify. erewrite (bind_step (st_modify _)) by reflexivity.
  destruct (Z.eqb_spec a 0), (Z.eqb_spec b 0), (Z.eqb_spec c 0), (Z.eqb_spec d 0); try lia. reflexivity.
Qed.

(** C30: The set-up of the driver, for a machine with five free pages and a
    controller that keeps the promises of NVMe and has been left idle by the
    firmware, on three conditions the driver never checks: the controller's
    queues may have 16 entries (CAP.MQES is 15 or more); the namespace's blocks
    have 2 to 2^30 bytes (an LBADS of 1 to 30); and it has no metadata (MS is
    0).  Then the set-up ends, however long the controller takes, with both
    pairs of queues agreed upon, the size and number of blocks of the namespace
    read from its identify data, and the driver ready for transfers; the
    contents of the namespace have not changed. *)
Theorem nvme_start_correct s l : pmem_wf (host_mem s) l -> idle (ctrl s) -> cap (nv s) = vw_cap (view (ctrl s)) ->
  (5 <= length (avail (host_mem s) l))%nat -> 15 <= wrap 16 (vw_cap (view (ctrl s))) ->
  1 <= vw_lbads (view (ctrl s)) <= 30 -> vw_ms (view (ctrl s)) = 0 ->
  exists s' l', in_time nvme_start true s s' /\ nvme_ok s' l' /\
    block_size (nv s') = 2 ^ vw_lbads (view (ctrl s)) /\ nv_total_blocks (nv s') = vw_nsze (view (ctrl s)) /\
    vw_ns (view (ctrl s')) = vw_ns (view (ctrl s)) /\ vw_disk (view (ctrl s')) = vw_disk (view (ctrl s)) /\
    g_nvme s' = g_nvme s /\ (S (S (length (driver_pages s' l'))) = length (avail (host_mem s) l))%nat.
Proof.
  intros Hwf Hi Hc Hlen Hcap Hlb Hms.
  destruct (four_pages _ _ Hwf ltac:(lia)) as (a & b & c & d & p1 & p2 & p3 & p4 & l4 & K1 & K2 & K3 & K4 & W4 & HA & HP & H4 & Hnd & Hz).
  set (dv := MkNvme (base (nv s)) (cap (nv s)) (MkQueue a b 0 0 0 NVME_ADMIN_QUEUE_SIZE 0) (MkQueue c d 0 0 1 NVME_IO_QUEUE_SIZE 0)
               (nv_total_blocks (nv s)) (block_size (nv s)) (next_command_id (nv s))).
  set (s1 := set_nv dv (set_host_mem p4 s)). pose proof HP as HP'. rewrite !Forall_cons in HP'. destruct HP' as (Pa & Pb & Pc & Pd & _).
  destruct (nvme_configure_run s1 l4 Hi W4 Pa Pb) as (m & ct & [f1 R1] & Hm & Hid & Hv).
  set (s2 := set_ctrl ct (set_host_ram m s1)) in *.
  pose proof (starting_configured s1 l4 a b c d m ct (view (ctrl s)) W4 eq_refl eq_refl HP Hnd Hz Hm Hid Hc Hv) as G2. fold s2 in G2.
  assert (view (ctrl s2) = view ct) as E2 by done.
  destruct (nvme_create_io_queue_spec s2 l4 c d G2) as (s3 & [f3 R3] & G3 & [O3 Q3 C3 M3 B3] & A3 & N3);
    [by rewrite E2, Hv..|]. pose proof (now_format _ _ N3) as (F1 & F2 & F3 & F4).
  assert (vw_ns (view (ctrl s3)) = vw_ns (view (ctrl s))) as Ens by (rewrite (nw_ns _ _ N3), E2, Hv; done).
  assert (vw_lbads (view (ctrl s3)) = vw_lbads (view (ctrl s)) /\ vw_bs (view (ctrl s3)) = vw_bs (view (ctrl s)) /\
          vw_ms (view (ctrl s3)) = vw_ms (view (ctrl s)) /\ vw_nsze (view (ctrl s3)) = vw_nsze (view (ctrl s)))
    as (E3 & E4 & E5 & E6).
  { unfold vw_bs, vw_lbads, vw_ms, vw_nsze, vw_format. by rewrite Ens. }
  assert (avail (host_mem s3) l4 = avail p4 l4) as A3' by (rewrite A3; done).
  assert (length (avail (host_mem s) l) = (4 + length (avail p4 l4))%nat) as EL by (rewrite HA; done).
  destruct (nvme_identify_namespace_spec s3 l4 c d G3) as (s4 & l5 & [f4 R4] & G4 & N4 & O4 & A4 & B4 & S4 & T4).
  { rewrite A3'. intros E. rewrite E in EL. cbn in EL. lia. }
  { by rewrite E3. }
  pose proof (now_format _ _ N4) as (F5 & F6 & F7 & F8).
  assert (forall x, V2P (host_mem s4) x = V2P (host_mem s2) x) as EV by (intros x; unfold V2P; by rewrite O4, O3).
  exists s4, l5. split_and!.
  - exists (f1 + (f3 + f4))%nat. intros fuel Hf. rewrite (nvme_start_run s a b c d p1 p2 p3 p4 fuel K1 K2 K3 K4 HP).
    change (set_nv _ (set_host_mem p4 s)) with s1.
    rewrite (bind_step _ _ s1 tt s2 (R1 fuel ltac:(lia))), (bind_step _ _ s2 tt s3 (R3 fuel ltac:(lia))).
    by rewrite (bind_step _ _ s3 tt s4 (R4 fuel ltac:(lia))).
  - apply (nvme_ok_started s4 l5 c d G4).
    + rewrite (nw_sq _ _ N4), (nw_sq _ _ N3), EV by done. done.
    + rewrite (nw_cq _ _ N4), (nw_cq _ _ N3), EV by done. done.
    + by rewrite S4, F7.
    + by rewrite F5, E3.
    + by rewrite F6, E5.
  - by rewrite S4, E4.
  - by rewrite T4, E6.
  - by rewrite (nw_ns _ _ N4).
  - rewrite (nw_disk _ _ N4), (nw_disk _ _ N3), E2, Hv. done.
  - by rewrite B4, B3.
  - unfold driver_pages. cbn [length]. rewrite (Permutation_length A4), A3', EL. done.
Qed.
End start.
