(* ===== verification/NvmeDemo.v ===== *)
(** * A small NVMe controller

    A controller that keeps the promises of [NvmeLaws]: it takes one look of
    the driver to get enabled and one per command.  With it, the inputs at
    which the theorems of NvmeFacts.v and NvmeStart.v apply: a namespace of
    133300 sectors of 512 bytes. *)
From S2P Require Import Prelude Mem PhysMem Vmm KMalloc Nvme NvmeFacts NvmeStart.
From S2P Require DzFS.

(** What the controller is about to do. *)
Inductive pending := Nothing | Enabling | Serving (i : Z).
Record controller := MkController { ct_view : nvme_view; ct_pending : pending }.

Definition set_regs (v : nvme_view) (aqa asq acq : Z) : nvme_view :=
  MkView (vw_ready v) (vw_cap v) aqa asq acq (vw_sq v) (vw_cq v) (vw_ns v) (vw_disk v).

(** The register at an offset; [d] is the doorbell stride. *)
Inductive reg_at := RCc | RAqa | RAsq | RAcq | RSqdb (i : Z) | ROther.
Definition decode (d off : Z) : reg_at :=
  if off =? NVME_CC_OFFSET then RCc
  else if off =? NVME_AQA_OFFSET then RAqa
  else if off =? NVME_ASQ_OFFSET then RAsq
  else if off =? NVME_ACQ_OFFSET then RAcq
  else if off =? NVME_SQTDBL_OFFSET 0 d then RSqdb 0
  else if off =? NVME_SQTDBL_OFFSET 1 d then RSqdb 1
  else ROther.

Definition controller_write (off v : Z) (c : controller) : controller :=
  let w := ct_view c in
  match decode (NVME_CAP_DSTRD (vw_cap w)) off with
  | RCc => if Z.testbit v 0 then MkController w Enabling else MkController (disabled w) Nothing
  | RAqa => MkController (set_regs w v (vw_asq w) (vw_acq w)) (ct_pending c)
  | RAsq => MkController (set_regs w (vw_aqa w) v (vw_acq w)) (ct_pending c)
  | RAcq => MkController (set_regs w (vw_aqa w) (vw_asq w) v) (ct_pending c)
  | RSqdb i => MkController w (Serving i)
  | ROther => c
  end.

(** Fetch the command at the head of queue [i], perform it, post its
    completion. *)
Definition controller_serve (off i : Z) (m : mem) (w : nvme_view) : mem * nvme_view :=
  match vw_sq w i, vw_cq w i with
  | Some s, Some q =>
      match perform off i (fetch m (wrap 64 (rg_base s + 64 * rg_pos s + off))) m w with
      | Some (m1, v1) =>
          (store8 m1 (wrap 64 (rg_base q.1 + 16 * rg_pos q.1 + off) + cq_flags) (Z.b2z q.2), served i s q v1)
      | None => (m, w)
      end
  | _, _ => (m, w)
  end.

#[export] Instance controller_nvme : NvmeController controller := {
  reg_read n off c :=
    if off =? NVME_CAP_OFFSET then vw_cap (ct_view c)
    else if off =? NVME_CSTS_OFFSET then Z.b2z (vw_ready (ct_view c)) else 0;
  reg_write n off v c := controller_write off v c;
  tick off m c :=
    match ct_pending c with
    | Nothing => (m, c)
    | Enabling => (m, MkController (enabled (ct_view c)) Nothing)
    | Serving i => let '(m1, w) := controller_serve off i m (ct_view c) in (m1, MkController w Nothing)
    end
}.

Lemma stride_range x : 4 <= NVME_CAP_DSTRD x <= 2 ^ 17.
Proof.
  unfold NVME_CAP_DSTRD. assert (0 <= Z.land (Z.shiftr x 32) 0xf < 2 ^ 4) by (apply land_mask_range; lia).
  rewrite Z.shiftl_1_l. change 4 with (2 ^ 2) at 1. split; apply Z.pow_le_mono_r; lia.
Qed.

Lemma decode_doorbells d i : 4 <= d <= 2 ^ 17 -> 0 <= i <= 1 ->
  decode d (NVME_SQTDBL_OFFSET i d) = RSqdb i /\ decode d (NVME_CQHDBL_OFFSET i d) = ROther.
Proof.
  intros Hd Hi. unfold decode, NVME_SQTDBL_OFFSET, NVME_CQHDBL_OFFSET, NVME_CC_OFFSET, NVME_AQA_OFFSET, NVME_ASQ_OFFSET, NVME_ACQ_OFFSET.
  assert (i = 0 \/ i = 1) as [-> | ->] by lia; rewrite !wrap_small by (rewrite ?wrap_small; lia);
    split; repeat (zcase; try lia); try done.
Qed.

#[export] Instance controller_laws : NvmeLaws controller.
Proof.
  refine {| view := ct_view; idle c := ct_pending c = Nothing |}.
  - done.
  - intros off m c v Hi Hv. exists 0%nat. cbv zeta. cbn [reg_write reg_read controller_nvme].
    change (time off 0 m ?c) with (m, c). unfold controller_write. change (decode _ NVME_CC_OFFSET) with RCc.
    cbv iota. rewrite Hv. split_and!; try done. intros k Hk. lia.
  - intros c v Hr Hi. split; [done|]. cbn. unfold set_regs. by rewrite Hr.
  - intros c v Hr Hi. split; [done|]. cbn. unfold set_regs. by rewrite Hr.
  - intros c v Hr Hi. split; [done|]. cbn. unfold set_regs. by rewrite Hr.
  - intros off m c Hi Hr Ha Hb Hs Hc. exists 1%nat. cbv zeta. split_and!; try done.
    intros k Hk. replace k with 0%nat by lia.
    change (Z.testbit (Z.b2z (vw_ready (ct_view c))) 0 = false). by rewrite Hr.
  - intros off m c i s q m1 v1 Hi Hr Hi1 Hs Hq HP. exists 1%nat. cbv zeta.
    destruct (decode_doorbells (NVME_CAP_DSTRD (vw_cap (ct_view c))) i (stride_range _) Hi1) as [HD _].
    set (c0 := reg_write 4 _ _ c). assert (c0 = MkController (ct_view c) (Serving i)) as E0.
    { unfold c0. cbn [reg_write controller_nvme]. unfold controller_write. by rewrite HD. }
    rewrite E0. set (e := wrap 64 (rg_base q.1 + 16 * rg_pos q.1 + off)).
    assert (time off 1 m (MkController (ct_view c) (Serving i)) =
      (store8 m1 (e + cq_flags) (Z.b2z q.2), MkController (served i s q v1) Nothing)) as E1.
    { transitivity (let '(m1, w) := controller_serve off i m (ct_view c) in (m1, MkController w Nothing)); [reflexivity|].
      unfold controller_serve. by rewrite Hs, Hq, HP. }
    rewrite E1. cbn [fst snd ct_pending ct_view]. split_and!; try done.
    + intros k Hk. by replace k with 0%nat by lia.
    + rewrite store8_eq. by destruct q.2.
    + intros x Hx. apply store8_ne. unfold cq_flags. lia.
  - intros c i v Hi Hr Hq Hi1.
    destruct (decode_doorbells (NVME_CAP_DSTRD (vw_cap (ct_view c))) i (stride_range _) Hi1) as [_ HD].
    cbn [reg_write controller_nvme]. unfold controller_write. by rewrite HD.
Defined.

(** ** The machine *)

(** 133300 blocks of 2^9 bytes; MQES is 15, the doorbells are 4 bytes apart. *)
Definition demo_ns : mem := store8 (store64 zeros ns_nsze 133300) (ns_lbads 0) 9.
Definition demo_disk : mem := fun x => x mod 251.
Definition demo_off : Z := 1048576.
Definition demo_mem : pmem := MkPmem zeros 0 [MkRegion 16384 49152] 1 true demo_off 49152.
Definition demo_heap : kheap := MkHeap demo_mem 0 0 [].

Lemma demo_mem_wf : pmem_wf demo_mem [].
Proof.
  constructor; cbn.
  - constructor.
  - constructor.
  - constructor; [|constructor]. by vm_compute.
  - by vm_compute.
  - apply (bool_decide_unpack _). vm_compute. exact I.
Qed.

(** Before the set-up: the firmware left the controller disabled. *)
Definition fresh_controller : controller :=
  MkController (MkView false 15 0 0 0 (fun _ => None) (fun _ => None) demo_ns demo_disk) Nothing.
Definition fresh_host : host controller :=
  MkHost demo_heap (MkVmm 0 0) fresh_controller (MkNvme 0 15 queue_zero queue_zero 0 0 0) false 0.

Lemma nvme_start_correct_witness :
  exists s' l', in_time nvme_start true fresh_host s' /\ nvme_ok s' l' /\
    block_size (nv s') = 2 ^ 9 /\ nv_total_blocks (nv s') = 133300 /\
    vw_ns (view (ctrl s')) = vw_ns (view (ctrl fresh_host)) /\ vw_disk (view (ctrl s')) = vw_disk (view (ctrl fresh_host)) /\
    g_nvme s' = g_nvme fresh_host /\ (S (S (length (driver_pages s' l'))) = 8)%nat.
Proof.
  assert (vw_lbads (view (ctrl fresh_host)) = 9) as E1 by (vm_compute; reflexivity).
  assert (vw_nsze (view (ctrl fresh_host)) = 133300) as E2 by (vm_compute; reflexivity).
  assert (length (avail (host_mem fresh_host) []) = 8%nat) as E3 by (vm_compute; reflexivity).
  rewrite <- E1, <- E2, <- E3.
  apply (nvme_start_correct fresh_host [] demo_mem_wf).
  - reflexivity.
  - reflexivity.
  - rewrite E3. apply Nat.leb_le. vm_compute. reflexivity.
  - vm_compute. discriminate.
  - rewrite E1. split; vm_compute; discriminate.
  - vm_compute. reflexivity.
Defined.

(** After it. *)
Definition demo_sq : Z := 2097152.
Definition demo_cq : Z := 2101248.
Definition ready_controller : controller :=
  MkController (MkView true 15 0 0 0
    (fun i => if i =? 1 then Some (MkRing (demo_sq - demo_off) 16 0) else None)
    (fun i => if i =? 1 then Some (MkRing (demo_cq - demo_off) 16 0, true) else None) demo_ns demo_disk) Nothing.
Definition ready_host : host controller :=
  MkHost demo_heap (MkVmm 0 0) ready_controller
    (MkNvme 1 15 queue_zero (MkQueue demo_sq demo_cq 0 0 1 16 0) 133300 512 0) true 1.

Lemma ready_host_ok : nvme_ok ready_host [].
Proof.
  constructor.
  - exact demo_mem_wf.
  - by constructor.
  - exists false. constructor; try (by vm_compute); try (by apply (bool_decide_unpack _); vm_compute).
    intros j Hj. cbn in Hj. cbn. by destruct (Z.ltb_spec j 0); [lia|].
  - by vm_compute.
  - split; by vm_compute.
  - by vm_compute.
Qed.

#[local] Existing Instance DzFS.disk_device.
#[local] Existing Instance DzFS.disk_laws.

(** The file system's partition on the namespace: 17 blocks. *)
Definition demo_partition : DzFS.disk :=
  DzFS.MkDisk (fun b i => demo_disk ((PARTITION_OFFSET + b * 8) * 512 + i)) fs_total_blocks 0.

Lemma demo_partition_ok : partition_ok ready_host [] demo_partition.
Proof.
  constructor; [exact ready_host_ok|done|by vm_compute..|].
  intros b Hb. eexists. split; [|reflexivity]. cbn in Hb |- *.
  by destruct (Z.leb_spec 0 b), (Z.ltb_spec b fs_total_blocks); try lia.
Qed.

(** Block 3 is read into a page and written from it. *)
Lemma nvme_partition_correct_witness :
  (exists s' l' v, in_time (fun fuel => fs_read_block fuel 3 3145728) 0 ready_host s' /\
     partition_ok s' l' demo_partition /\ same_device ready_host s' [] l' /\ DzFS.read_block 3 demo_partition = Some v /\
     (forall i, 0 <= i < 4096 -> ram (host_mem s') (3145728 + i) = v i) /\
     (forall x, x < 3145728 \/ 3145728 + 4096 <= x -> (forall r, r ∈ driver_pages ready_host [] -> x < r \/ r + 4096 <= x) ->
        ram (host_mem s') x = ram (host_mem ready_host) x)) /\
  (exists s' l', in_time (fun fuel => fs_write_block fuel 3 3145728) 0 ready_host s' /\
     partition_ok s' l' (DzFS.write_block 3 zeros demo_partition).2 /\ same_device ready_host s' [] l' /\
     (forall x, (forall r, r ∈ driver_pages ready_host [] -> x < r \/ r + 4096 <= x) ->
        ram (host_mem s') x = ram (host_mem ready_host) x)).
Proof.
  apply (nvme_partition_correct ready_host [] demo_partition 3 3145728 zeros demo_partition_ok).
  - vm_compute. discriminate.
  - split; vm_compute; [discriminate|reflexivity].
  - split_and!; by vm_compute.
  - apply (bool_decide_unpack _). vm_compute. exact I.
  - intros i _. reflexivity.
Defined.

(** A count of 2^23 blocks of 512 bytes is zero bytes. *)
Lemma nvme_read_overrun_witness :
  exists s1 rest, nvme_read 5 0 8388608 3145728 ready_host = (nvme_do_one_cmd_synchronous 5 Io ≫= rest) s1 /\
    let c := fetch (ram (host_mem s1)) (submission_queue (io_queue (nv s1)) + 64 * submission_queue_tail (io_queue (nv s1))) in
    cm_opc c = 2 /\ cm_blocks c = 65536 /\ cm_prp c = V2P (kalloc demo_mem).2 (kalloc demo_mem).1.
Proof.
  apply (nvme_read_overrun ready_host 5 0 8388608 3145728).
  - reflexivity.
  - lia.
  - reflexivity.
  - vm_compute. discriminate.
Defined.
