(* ===== verification/Ports.v ===== *)
(** * Input and output instructions (kernel/src/cpu/asm.h)

    The ports and the model specific registers of the machine are interfaces;
    the interrupt flag of the core is part of the state.  The inline assembly
    of asm.h is one instruction per function, which is what is modelled. *)
From S2P Require Import Prelude.

(** Reading a port may change the device; widths are in bytes. *)
Class PortIO (P : Type) := {
  port_in : nat -> Z -> P -> Z * P;
  port_out : nat -> Z -> Z -> P -> P
}.
Class MsrIO (P : Type) := {
  msr_in : Z -> P -> Z * Z;                 (* the halves in eax and edx *)
  msr_out : Z -> Z -> Z -> P -> P
}.

Record cpu (P : Type) := MkCpuIo { io : P; if_flag : bool }.
Arguments MkCpuIo {P}. Arguments io {P}. Arguments if_flag {P}.

Section ports.
Context {P : Type} `{PortIO P}.

Definition port_read (n : nat) (port : Z) : ST (cpu P) Z :=
  updates (fun c => let '(v, p) := port_in n port (io c) in (v, MkCpuIo p (if_flag c))).
Definition port_write (n : nat) (port v : Z) : ST (cpu P) unit :=
  st_modify (fun c => MkCpuIo (port_out n port (wrap (8 * Z.of_nat n) v) (io c)) (if_flag c)).

Definition outb (port value : Z) : ST (cpu P) unit := port_write 1 port value.
Definition inb (port : Z) : ST (cpu P) Z := port_read 1 port.
Definition outw (port value : Z) : ST (cpu P) unit := port_write 2 port value.
Definition inw (port : Z) : ST (cpu P) Z := port_read 2 port.
Definition outl (port value : Z) : ST (cpu P) unit := port_write 4 port value.
Definition inl (port : Z) : ST (cpu P) Z := port_read 4 port.

Definition set_if (b : bool) : ST (cpu P) unit := st_modify (fun c => MkCpuIo (io c) b).
Definition cli : ST (cpu P) unit := set_if false.
Definition sti : ST (cpu P) unit := set_if true.

(** [FLAGS_IF] of the flags register. *)
Definition FLAGS_IF : Z := Z.shiftl 1 9.
Definition read_rflags : ST (cpu P) Z := reads (fun c => if if_flag c then FLAGS_IF else 0).
Definition is_interrupts_enabled : ST (cpu P) bool :=
  flags ← read_rflags; mret (truth (Z.land flags FLAGS_IF)).

Lemma is_interrupts_enabled_run (c : cpu P) : is_interrupts_enabled c = Ret (if_flag c, c).
Proof. unfold is_interrupts_enabled, read_rflags, reads, mbind, st_bind. by destruct (if_flag c). Qed.
End ports.

(** ** What a computation does to a device

    [view] is the state of a device behind the ports. *)
Section steps.
Context {P K : Type} `{PortIO P} (view : P -> K).

(** With the device in state [k], [m] ends with [a] and leaves it in state
    [k']; the interrupt flag is as before. *)
Definition steps_of {A} (m : ST (cpu P) A) (a : A) (k k' : K) : Prop :=
  forall c : cpu P, view (io c) = k -> exists c' : cpu P, m c = Ret (a, c') /\ view (io c') = k' /\ if_flag c' = if_flag c.

Lemma steps_bind {A B} (m : ST (cpu P) A) (f : A -> ST (cpu P) B) a b k1 k2 k3 :
  steps_of m a k1 k2 -> steps_of (f a) b k2 k3 -> steps_of (m ≫= f) b k1 k3.
Proof.
  intros Hm Hf c Hc. destruct (Hm c Hc) as (c1 & E1 & K1 & F1). destruct (Hf c1 K1) as (c2 & E2 & K2 & F2).
  exists c2. rewrite (bind_step _ _ _ _ _ E1). split; [done|]. split; [done|congruence].
Qed.
Lemma steps_ret {A} (a : A) k : steps_of (mret a) a k k.
Proof. intros c Hc. by exists c. Qed.

Lemma inb_run port c v p : port_in 1 port (io c) = (v, p) -> inb port c = Ret (v, MkCpuIo p (if_flag c)).
Proof. intros E. unfold inb, port_read, updates. by rewrite E. Qed.

Lemma steps_outb port v k k' : 0 <= v < 256 -> (forall p, view p = k -> view (port_out 1 port v p) = k') ->
  steps_of (outb port v) tt k k'.
Proof.
  intros Hv Hp c Hc. eexists. split; [reflexivity|]. cbn [io if_flag]. change (8 * Z.of_nat 1) with 8.
  rewrite wrap_small by done. split; [by apply Hp|done].
Qed.
Lemma steps_inb port v k k' : (forall p, view p = k -> exists p', port_in 1 port p = (v, p') /\ view p' = k') ->
  steps_of (inb port) v k k'.
Proof. intros Hp c Hc. destruct (Hp _ Hc) as (p' & E & K'). eexists. split; [by apply inb_run|done]. Qed.
End steps.

(** [leaves I m]: [m] preserves [I], if it ends. *)
Section leaves.
Context {P : Type} `{PortIO P} (I : P -> Prop).

Definition leaves {A} (m : ST (cpu P) A) : Prop := forall c, I (io c) -> ends m (fun _ c' => I (io c')) c.

Lemma leaves_bind {A B} (m : ST (cpu P) A) (f : A -> ST (cpu P) B) : leaves m -> (forall a, leaves (f a)) -> leaves (m ≫= f).
Proof. intros Hm Hf c Hc. apply ends_bind. eapply ends_weaken; [by apply Hm|]. intros a c'. apply Hf. Qed.
Lemma leaves_ret {A} (a : A) : leaves (mret a).
Proof. intros c Hc. by apply ends_ret. Qed.
Lemma leaves_nofuel {A} : leaves (@st_nofuel (cpu P) A).
Proof. intros c Hc a s'. done. Qed.
Lemma leaves_if {A} (b : bool) (m1 m2 : ST (cpu P) A) : leaves m1 -> leaves m2 -> leaves (if b then m1 else m2).
Proof. by destruct b. Qed.
Lemma leaves_inb_at x : (forall p, I p -> I (port_in 1 x p).2) -> leaves (inb x).
Proof.
  intros Hx c Hc v c' E. unfold inb, port_read, updates in E. pose proof (Hx (io c) Hc) as HI.
  destruct (port_in 1 x (io c)) as [v' p] eqn:Ep. by injection E as <- <-.
Qed.
Lemma leaves_outb_at x v : (forall p w, I p -> I (port_out 1 x w p)) -> leaves (outb x v).
Proof. intros Hx c Hc [] c' E. injection E as <-. by apply Hx. Qed.
End leaves.

Section msr.
Context {P : Type} `{MsrIO P}.

Definition rdmsr (msr : Z) : ST (cpu P) Z :=
  reads (fun c => let '(lo, hi) := msr_in msr (io c) in Z.lor (Z.shiftl hi 32) lo).
Definition wrmsr (msr value : Z) : ST (cpu P) unit :=
  st_modify (fun c => MkCpuIo (msr_out msr (wrap 32 value) (wrap 32 (Z.shiftr value 32)) (io c)) (if_flag c)).
End msr.
