(* ===== verification/Pci.v ===== *)
(** * Enumeration of the PCI bus (kernel/src/drivers/hw_pci.c, and
      [device_register_from_pci] of device_manager.c)

    Configuration space is reached through two ports: an address is written
    to 0xCF8, the addressed double word is read or written at 0xCFC.  A
    [pci_device_info_t] is a record; the objects [kmalloc] made room for are
    kept by address, and both allocations run the heap of KMalloc.v.  Log
    output is left out. *)
From S2P Require Import Prelude Mem PhysMem KMalloc Drivers Ports.

(** [pci_device_info_t] of hw_detect.h. *)
Record pci_device_info := MkInfo {
  pi_bus : Z; pi_device : Z; pi_function : Z; pi_vendor_id : Z; pi_device_id : Z;
  pi_class_code : Z; pi_subclass : Z; pi_prog_if : Z; pi_irq : Z; pi_irq_pin : Z;
  pi_subsystem_vendor : Z; pi_subsystem_id : Z; pi_bar : list Z; pi_bar_size : list Z
}.
(** [sizeof(pci_device_info_t)]. *)
Definition PCI_INFO_SIZE : Z := 68.

Definition PCI_VENDOR_ID : Z := 0x00.
Definition PCI_DEVICE_ID : Z := 0x02.
Definition PCI_PROG_IF : Z := 0x09.
Definition PCI_SUBCLASS : Z := 0x0A.
Definition PCI_CLASS_CODE : Z := 0x0B.
Definition PCI_HEADER_TYPE : Z := 0x0E.
Definition PCI_BAR0 : Z := 0x10.
Definition PCI_SUBSYSTEM_VENDOR_ID : Z := 0x2C.
Definition PCI_SUBSYSTEM_ID : Z := 0x2E.
Definition PCI_INTERRUPT_LINE : Z := 0x3C.
Definition PCI_INTERRUPT_PIN : Z := 0x3D.
Definition PCI_HEADER_MULTIFUNCTION : Z := 0x80.

(** The address of a register: bus, slot and function are bytes. *)
Definition pci_address (bus slot func offset : Z) : Z :=
  wrap 32 (Z.lor (Z.lor (Z.lor (Z.lor (wrap 32 (Z.shiftl bus 16)) (wrap 32 (Z.shiftl slot 11)))
    (wrap 32 (Z.shiftl func 8))) (Z.land offset 0xFC)) 0x80000000).

Definition pci_get_class_name (class_code subclass : Z) : string :=
  if class_code =? 0x01 then
    if subclass =? 0x00 then "SCSI Controller" else if subclass =? 0x01 then "IDE Controller"
    else if subclass =? 0x02 then "Floppy Controller" else if subclass =? 0x04 then "RAID Controller"
    else if subclass =? 0x05 then "ATA Controller" else if subclass =? 0x06 then "SATA Controller"
    else if subclass =? 0x07 then "SAS Controller" else if subclass =? 0x08 then "NVMe Controller"
    else "Storage Controller"
  else if class_code =? 0x02 then
    if subclass =? 0x00 then "Ethernet Controller" else if subclass =? 0x80 then "Wireless Controller"
    else "Network Controller"
  else if class_code =? 0x03 then
    if subclass =? 0x00 then "VGA Controller" else if subclass =? 0x02 then "3D Controller"
    else "Display Controller"
  else if class_code =? 0x04 then "Multimedia Device"
  else if class_code =? 0x06 then
    if subclass =? 0x00 then "Host Bridge" else if subclass =? 0x01 then "ISA Bridge"
    else if subclass =? 0x04 then "PCI Bridge" else "Bridge"
  else if class_code =? 0x0C then
    if subclass =? 0x03 then "USB Controller" else if subclass =? 0x00 then "FireWire Controller"
    else "Serial Controller"
  else "Unknown Device".

Section config.
Context {P : Type} `{PortIO P}.

(** The ports are only used with interrupts off. *)
Definition guarded {A} (body : ST (cpu P) A) : ST (cpu P) A :=
  interrupts_enabled ← is_interrupts_enabled;
  _ ← cli;
  r ← body;
  _ ← (if (interrupts_enabled : bool) then sti else mret tt);
  mret r.

Definition pci_config_read_word (bus slot func offset : Z) : ST (cpu P) Z :=
  guarded (
    _ ← outl 0xCF8 (pci_address bus slot func offset);
    v ← inl 0xCFC;
    mret (wrap 16 (Z.land (Z.shiftr v (Z.land offset 2 * 8)) 0xFFFF))).

Definition pci_config_read_dword (bus slot func offset : Z) : ST (cpu P) Z :=
  guarded (
    _ ← outl 0xCF8 (pci_address bus slot func offset);
    inl 0xCFC).

Definition pci_config_read_byte (bus slot func offset : Z) : ST (cpu P) Z :=
  word ← pci_config_read_word bus slot func (wrap 8 (Z.land offset (Z.lnot 1)));
  mret (wrap 8 (if truth (Z.land offset 1) then Z.shiftr word 8 else Z.land word 0xFF)).

Definition pci_config_write_dword (bus slot func offset value : Z) : ST (cpu P) unit :=
  guarded (
    _ ← outl 0xCF8 (pci_address bus slot func offset);
    outl 0xCFC value).

(** The size from what a register reads back after ones were written. *)
Definition bar_size_of (bar size_mask : Z) : Z :=
  if (size_mask =? 0) || (size_mask =? 0xFFFFFFFF) then 0
  else
    let size_mask := if truth (Z.land bar 1) then Z.land size_mask 0xFFFFFFFC else Z.land size_mask 0xFFFFFFF0 in
    wrap 32 (wrap 32 (Z.lnot size_mask) + 1).

Definition pci_get_bar_size (bus device func bar_offset original_bar : Z) : ST (cpu P) Z :=
  _ ← pci_config_write_dword bus device func bar_offset 0xFFFFFFFF;
  size_mask ← pci_config_read_dword bus device func bar_offset;
  _ ← pci_config_write_dword bus device func bar_offset original_bar;
  mret (bar_size_of original_bar size_mask).

(** [PCI_BAR0 + i * 4] for the six registers. *)
Definition bar_offsets : list Z := (fun i => PCI_BAR0 + i * 4) <$> seqZ 0 6.

Fixpoint read_bars (bus device func : Z) (offs : list Z) : ST (cpu P) (list Z) :=
  match offs with
  | [] => mret []
  | off :: offs' =>
      b ← pci_config_read_dword bus device func off;
      rest ← read_bars bus device func offs';
      mret (b :: rest)
  end.
Fixpoint read_bar_sizes (bus device func : Z) (offs bars : list Z) : ST (cpu P) (list Z) :=
  match offs, bars with
  | off :: offs', b :: bars' =>
      size ← pci_get_bar_size bus device func off b;
      rest ← read_bar_sizes bus device func offs' bars';
      mret (size :: rest)
  | _, _ => mret []
  end.

(** What [pci_scan_function] reads before it allocates. *)
Definition read_header (bus device func vendor : Z) : ST (cpu P) pci_device_info :=
  device_id ← pci_config_read_word bus device func PCI_DEVICE_ID;
  class_code ← pci_config_read_byte bus device func PCI_CLASS_CODE;
  subclass ← pci_config_read_byte bus device func PCI_SUBCLASS;
  prog_if ← pci_config_read_byte bus device func PCI_PROG_IF;
  irq ← pci_config_read_byte bus device func PCI_INTERRUPT_LINE;
  irq_pin ← pci_config_read_byte bus device func PCI_INTERRUPT_PIN;
  subsys_vendor ← pci_config_read_word bus device func PCI_SUBSYSTEM_VENDOR_ID;
  subsys_id ← pci_config_read_word bus device func PCI_SUBSYSTEM_ID;
  bars ← read_bars bus device func bar_offsets;
  mret (MkInfo bus device func vendor device_id class_code subclass prog_if irq irq_pin
          subsys_vendor subsys_id bars []).

(** ** The scan *)

Record pci_state := MkPci {
  pc_cpu : cpu P; pc_heap : kheap; pc_infos : gmap Z pci_device_info; pc_dm : device_manager
}.
Definition set_pc_cpu (c : cpu P) (s : pci_state) : pci_state := MkPci c (pc_heap s) (pc_infos s) (pc_dm s).
Definition set_pc_heap (h : kheap) (s : pci_state) : pci_state := MkPci (pc_cpu s) h (pc_infos s) (pc_dm s).
Definition set_pc_infos (i : gmap Z pci_device_info) (s : pci_state) : pci_state := MkPci (pc_cpu s) (pc_heap s) i (pc_dm s).
Definition on_cpu {A} (m : ST (cpu P) A) : ST pci_state A := zoom pc_cpu set_pc_cpu m.
Definition on_kheap {A} (m : ST kheap A) : ST pci_state A := zoom pc_heap set_pc_heap m.

Definition register_from_pci (fuel : nat) (hw_info : pci_device_info) : ST pci_state Z :=
  g ← reads pc_dm;
  if MAX_DEVICES <=? device_count g then mret (-1)
  else
    os_data ← on_kheap (kmalloc fuel PCI_INFO_SIZE);
    _ ← (if os_data =? 0 then mret tt
         else st_modify (fun s => set_pc_infos (<[os_data := hw_info]> (pc_infos s)) s));
    let '(r, g) := device_register_from_pci (pi_class_code hw_info) (pi_irq hw_info) os_data g in
    _ ← st_modify (fun s => MkPci (pc_cpu s) (pc_heap s) (pc_infos s) g);
    mret r.

(** [found] plus one, if there is a function and room for its data. *)
Definition pci_scan_function (fuel : nat) (bus device func found : Z) : ST pci_state Z :=
  vendor ← on_cpu (pci_config_read_word bus device func PCI_VENDOR_ID);
  if vendor =? 0xFFFF then mret found
  else
    header ← on_cpu (read_header bus device func vendor);
    info ← on_kheap (kmalloc fuel PCI_INFO_SIZE);
    if info =? 0 then mret found
    else
      sizes ← on_cpu (read_bar_sizes bus device func bar_offsets (pi_bar header));
      let hw := MkInfo bus device func (pi_vendor_id header) (pi_device_id header) (pi_class_code header)
                  (pi_subclass header) (pi_prog_if header) (pi_irq header) (pi_irq_pin header)
                  (pi_subsystem_vendor header) (pi_subsystem_id header) (pi_bar header) sizes in
      _ ← st_modify (fun s => set_pc_infos (<[info := hw]> (pc_infos s)) s);
      _ ← register_from_pci fuel hw;
      _ ← on_kheap (kmfree info);
      _ ← st_modify (fun s => set_pc_infos (delete info (pc_infos s)) s);
      mret (sgn 32 (found + 1)).

(** [for (func = 1; func < 8; func++)]. *)
Fixpoint scan_functions (fuel : nat) (bus device : Z) (funcs : list Z) (found : Z) : ST pci_state Z :=
  match funcs with
  | [] => mret found
  | func :: funcs' =>
      vendor ← on_cpu (pci_config_read_word bus device func PCI_VENDOR_ID);
      found ← (if vendor =? 0xFFFF then mret found else pci_scan_function fuel bus device func found);
      scan_functions fuel bus device funcs' found
  end.

Definition pci_scan_device (fuel : nat) (bus device found : Z) : ST pci_state Z :=
  vendor ← on_cpu (pci_config_read_word bus device 0 PCI_VENDOR_ID);
  if vendor =? 0xFFFF then mret found
  else
    found ← pci_scan_function fuel bus device 0 found;
    header_type ← on_cpu (pci_config_read_byte bus device 0 PCI_HEADER_TYPE);
    if truth (Z.land header_type PCI_HEADER_MULTIFUNCTION)
    then scan_functions fuel bus device (seqZ 1 7) found
    else mret found.

Fixpoint scan_devices (fuel : nat) (bus : Z) (devices : list Z) (found : Z) : ST pci_state Z :=
  match devices with
  | [] => mret found
  | device :: devices' => found ← pci_scan_device fuel bus device found; scan_devices fuel bus devices' found
  end.

(** Only bus 0 is scanned. *)
Definition hw_detect_pci_scan (fuel : nat) : ST pci_state Z := scan_devices fuel 0 (seqZ 0 32) 0.
End config.
Arguments pci_state P : clear implicits.
