(* ===== verification/PciFacts.v ===== *)
(** * What the enumeration of the PCI bus finds (about the definitions of Pci.v)

    [PciLaws] is the documented behaviour of configuration mechanism 1 and of
    the base registers of an ordinary function.  The accesses read and write
    the addressed register and leave the interrupt flag as it was; sizing a
    base register ([pci_get_bar_size_correct]) restores it and computes the
    size of a memory range, and of an I/O range only if all 32 bits of its
    register are wired; the scan ([pci_scan_correct]) registers one device
    per function that is there. *)
From S2P Require Import Prelude Mem PhysMem KMalloc KMallocFacts Drivers Ports Pci.

Definition pci_enabled (a : Z) : Prop := 2 ^ 31 <= a < 2 ^ 32 /\ a mod 4 = 0.

(** Base registers: double words 0x10 to 0x24 of a function whose header is
    of type 0 (byte 0x0E, less the multifunction bit).  In the headers of
    bridges other registers are there, some of which a write of ones clears. *)
Definition header_type (cfg : Z -> Z) (a : Z) : Z := cfg (a - a mod 256 + 0x0C) / 2 ^ 16 mod 2 ^ 7.
Definition bar_register (cfg : Z -> Z) (a : Z) : Prop := 0x10 <= a mod 256 < 0x28 /\ header_type cfg a = 0.

(** [cfg]: the double words of configuration space by address; [cfg_mask]:
    the bits software can change; [cfg_sel]: the address register. *)
Class PciLaws (P : Type) `{PortIO P} := {
  cfg : P -> Z -> Z;
  cfg_mask : P -> Z -> Z;
  cfg_sel : P -> Z;
  cfg_range p a : 0 <= cfg p a < 2 ^ 32;
  mask_range p a : 0 <= cfg_mask p a < 2 ^ 32;
  law_address p a : pci_enabled a -> let p' := port_out 4 0xCF8 a p in
    cfg_sel p' = a /\ (forall x, cfg p' x = cfg p x) /\ (forall x, cfg_mask p' x = cfg_mask p x);
  law_read p : pci_enabled (cfg_sel p) -> let '(v, p') := port_in 4 0xCFC p in
    v = cfg p (cfg_sel p) /\ cfg_sel p' = cfg_sel p /\
    (forall x, cfg p' x = cfg p x) /\ (forall x, cfg_mask p' x = cfg_mask p x);
  law_write p v : pci_enabled (cfg_sel p) -> bar_register (cfg p) (cfg_sel p) -> 0 <= v < 2 ^ 32 -> let p' := port_out 4 0xCFC v p in
    cfg_sel p' = cfg_sel p /\ (forall x, cfg_mask p' x = cfg_mask p x) /\
    forall x, cfg p' x = if x =? cfg_sel p
                         then Z.lor (Z.ldiff (cfg p x) (cfg_mask p x)) (Z.land v (cfg_mask p x)) else cfg p x
}.

(** ** Addresses *)

(** A register of a function: its fields are in range. *)
Definition function_ok (bus slot func : Z) : Prop := 0 <= bus < 256 /\ 0 <= slot < 32 /\ 0 <= func < 8.

Lemma lor_disjoint a b n : 0 <= n -> 0 <= b < 2 ^ n -> a mod 2 ^ n = 0 -> Z.lor a b = a + b.
Proof.
  intros Hn Hb Ha. symmetry. apply Z.add_nocarry_lor. apply Z.bits_inj'. intros i Hi.
  rewrite Z.land_spec, Z.bits_0. destruct (Z.lt_ge_cases i n).
  - rewrite <- (Z.mod_pow2_bits_low a n i), Ha, Z.bits_0 by lia. done.
  - rewrite (testbit_range n b i) by lia. apply andb_false_r.
Qed.

Lemma land_fc off : 0 <= off < 256 -> Z.land off 0xFC = off - off mod 4.
Proof.
  intros Ho. replace (Z.land off 0xFC) with (Z.land off (Z.lnot (Z.ones 2))).
  - by rewrite land_not_ones by lia.
  - apply Z.bits_inj'. intros i Hi. rewrite !Z.land_spec. destruct (Z.lt_ge_cases i 8).
    + f_equal. assert (i = 0 \/ i = 1 \/ i = 2 \/ i = 3 \/ i = 4 \/ i = 5 \/ i = 6 \/ i = 7) as HI by lia.
      by destruct HI as [-> | [-> | [-> | [-> | [-> | [-> | [-> | ->]]]]]]].
    + by rewrite (testbit_range 8 off i) by lia.
Qed.

Lemma land_2 off : Z.land off 2 = off mod 4 - off mod 2.
Proof.
  change (off mod 4) with (off mod 2 ^ 2). change (off mod 2) with (off mod 2 ^ 1).
  rewrite <- !Z.land_ones by lia. change (Z.ones 2) with (Z.lor 2 1). change (Z.ones 1) with 1.
  rewrite Z.land_lor_distr_r, <- Z.add_nocarry_lor; [lia|].
  rewrite (Z.land_comm off 1), Z.land_assoc, <- (Z.land_assoc off 2 1). by rewrite Z.land_0_r, Z.land_0_l.
Qed.

(** The fields of an address do not overlap. *)
Lemma pci_address_eq bus slot func off : function_ok bus slot func -> 0 <= off < 256 ->
  pci_address bus slot func off = 2 ^ 31 + 2 ^ 16 * bus + 2 ^ 11 * slot + 2 ^ 8 * func + (off - off mod 4).
Proof.
  intros (Hb & Hs & Hf) Ho. unfold pci_address. rewrite !Z.shiftl_mul_pow2, land_fc by lia.
  rewrite !(wrap_small 32 (_ * _)) by lia. pose proof (Z.mod_pos_bound off 4 ltac:(lia)).
  assert (0 <= off - off mod 4 < 256) by zify_div.
  rewrite (lor_disjoint (bus * 2 ^ 16) (slot * 2 ^ 11) 16) by (lia || (rewrite Z.mod_mul; lia)).
  rewrite (lor_disjoint _ (func * 2 ^ 8) 11) by (lia || zify_div).
  rewrite (lor_disjoint _ (off - off mod 4) 8) by (lia || zify_div).
  rewrite Z.lor_comm, (lor_disjoint 0x80000000 _ 31) by (lia || done).
  rewrite wrap_small; lia.
Qed.

Lemma pci_address_enabled bus slot func off : function_ok bus slot func -> 0 <= off < 256 ->
  pci_enabled (pci_address bus slot func off).
Proof. intros Hf Ho. rewrite pci_address_eq by done. destruct Hf as (? & ? & ?). split; zify_div. Qed.

Section config.
Context {P : Type} `{PL : PciLaws P}.

(** Two states with the same configuration space. *)
Definition same_cfg (c c' : cpu P) : Prop :=
  if_flag c' = if_flag c /\ (forall x, cfg (io c') x = cfg (io c) x) /\ (forall x, cfg_mask (io c') x = cfg_mask (io c) x).

Lemma same_cfg_refl c : same_cfg c c.
Proof. done. Qed.
Lemma same_cfg_trans c1 c2 c3 : same_cfg c1 c2 -> same_cfg c2 c3 -> same_cfg c1 c3.
Proof.
  intros (A1 & A2 & A3) (B1 & B2 & B3).
  split_and!; [congruence|intros x; by rewrite B2, A2|intros x; by rewrite B3, A3].
Qed.

(** [sees c0 m a]: in every state with the configuration space of [c0], [m]
    ends with [a] and leaves that configuration space. *)
Definition sees {A} (c0 : cpu P) (m : ST (cpu P) A) (a : A) : Prop :=
  forall c : cpu P, same_cfg c0 c -> exists c' : cpu P, m c = Ret (a, c') /\ same_cfg c0 c'.

Lemma sees_bind {A B} c0 (m : ST (cpu P) A) (f : A -> ST (cpu P) B) a b :
  sees c0 m a -> sees c0 (f a) b -> sees c0 (m ≫= f) b.
Proof.
  intros Hm Hf c Hc. destruct (Hm c Hc) as (c1 & E1 & S1). destruct (Hf c1 S1) as (c2 & E2 & S2).
  exists c2. by rewrite (bind_step _ _ c a c1 E1).
Qed.
Lemma sees_ret {A} c0 (a : A) : sees c0 (mret a) a.
Proof. intros c Hc. by exists c. Qed.

(** A guarded body: what it does with interrupts off, it does. *)
Lemma guarded_run {A} (body : ST (cpu P) A) c a p : body (MkCpuIo (io c) false) = Ret (a, MkCpuIo p false) ->
  guarded body c = Ret (a, MkCpuIo p (if_flag c)).
Proof.
  intros E. unfold guarded. rewrite (bind_step _ _ c _ c (is_interrupts_enabled_run c)).
  rewrite (bind_step cli _ c tt (MkCpuIo (io c) false) eq_refl), (bind_step _ _ _ _ _ E).
  by destruct (if_flag c).
Qed.

(** Selecting a register and reading it. *)
Lemma select_read a c : pci_enabled a -> exists p,
  outl 0xCF8 a (MkCpuIo (io c) false) = Ret (tt, MkCpuIo (port_out 4 0xCF8 a (io c)) false) /\
  inl 0xCFC (MkCpuIo (port_out 4 0xCF8 a (io c)) false) = Ret (cfg (io c) a, MkCpuIo p false) /\
  same_cfg c (MkCpuIo p (if_flag c)).
Proof.
  intros Ha. pose proof (law_address (io c) a Ha) as (L1 & L2 & L3). set (p1 := port_out 4 0xCF8 a (io c)) in *.
  pose proof (law_read p1 ltac:(by rewrite L1)) as HR. destruct (port_in 4 0xCFC p1) as [v p2] eqn:E2.
  destruct HR as (-> & R2 & R3 & R4). rewrite L1, L2 in *. exists p2. split_and!.
  - unfold outl, port_write, st_modify. cbn [io if_flag]. change (8 * Z.of_nat 4) with 32.
    by rewrite (wrap_small 32 a) by (destruct Ha; lia).
  - unfold inl, port_read, updates. cbn [io if_flag]. by rewrite E2.
  - split_and!; [done|intros x; cbn; by rewrite R3, L2|intros x; cbn; by rewrite R4, L3].
Qed.

(** Byte, word and double word [off] of a function's registers. *)
Definition cfg_byte (p : P) (bus slot func off : Z) : Z :=
  cfg p (pci_address bus slot func off) / 2 ^ (8 * (off mod 4)) mod 2 ^ 8.
Definition cfg_word (p : P) (bus slot func off : Z) : Z :=
  cfg p (pci_address bus slot func off) / 2 ^ (8 * (off mod 4 - off mod 2)) mod 2 ^ 16.
Definition cfg_dword (p : P) (bus slot func off : Z) : Z := cfg p (pci_address bus slot func off).

Lemma pci_read_dword bus slot func off c0 : function_ok bus slot func -> 0 <= off < 256 ->
  sees c0 (pci_config_read_dword bus slot func off) (cfg_dword (io c0) bus slot func off).
Proof.
  intros Hf Ho c Hc. destruct (select_read _ c (pci_address_enabled _ _ _ _ Hf Ho)) as (p & E1 & E2 & Hs).
  exists (MkCpuIo p (if_flag c)). split; [|by apply (same_cfg_trans c0 c)]. unfold cfg_dword.
  destruct Hc as (_ & <- & _). apply guarded_run. by rewrite (bind_step _ _ _ _ _ E1).
Qed.

Lemma pci_read_word bus slot func off c0 : function_ok bus slot func -> 0 <= off < 256 ->
  sees c0 (pci_config_read_word bus slot func off) (cfg_word (io c0) bus slot func off).
Proof.
  intros Hf Ho c Hc. destruct (select_read _ c (pci_address_enabled _ _ _ _ Hf Ho)) as (p & E1 & E2 & Hs).
  exists (MkCpuIo p (if_flag c)). split; [|by apply (same_cfg_trans c0 c)]. unfold cfg_word.
  destruct Hc as (_ & <- & _). apply guarded_run.
  rewrite (bind_step _ _ _ _ _ E1), (bind_step _ _ _ _ _ E2). unfold mret, st_ret. do 2 f_equal.
  change 0xFFFF with (Z.ones 16). rewrite Z.land_ones by lia. unfold wrap. rewrite Z.mod_mod by lia.
  replace (Z.land off 2 * 8) with (8 * (off mod 4 - off mod 2)) by (rewrite land_2; lia).
  rewrite Z.shiftr_div_pow2; [done|]. zify_div.
Qed.

Lemma land_1 off : Z.land off 1 = off mod 2.
Proof. change 1 with (Z.ones 1). by rewrite Z.land_ones by lia. Qed.

(** The byte in the word that is read for it. *)
Lemma byte_of_word v off : wrap 8 (if truth (Z.land off 1)
    then Z.shiftr (v / 2 ^ (8 * (off mod 4 - off mod 2)) mod 2 ^ 16) 8
    else Z.land (v / 2 ^ (8 * (off mod 4 - off mod 2)) mod 2 ^ 16) 0xFF) = v / 2 ^ (8 * (off mod 4)) mod 2 ^ 8.
Proof.
  unfold truth. rewrite land_1.
  pose proof (Z.mod_pos_bound off 4 ltac:(lia)). pose proof (Z.mod_pos_bound off 2 ltac:(lia)).
  destruct (Z.eqb_spec (off mod 2) 0) as [E|E]; cbn [negb].
  - change 0xFF with (Z.ones 8). rewrite Z.land_ones, E, Z.sub_0_r by lia. unfold wrap. rewrite Z.mod_mod by lia.
    set (w := v / 2 ^ (8 * (off mod 4))). change (2 ^ 16) with (2 ^ 8 * 2 ^ 8). zify_div.
  - assert (1 <= off mod 4) by zify_div. replace (off mod 2) with 1 by lia. rewrite Z.shiftr_div_pow2 by lia. unfold wrap.
    replace (8 * (off mod 4)) with (8 * (off mod 4 - 1) + 8) by lia. rewrite Z.pow_add_r, <- Z.div_div by lia.
    set (w := v / 2 ^ (8 * (off mod 4 - 1))). change (2 ^ 16) with (2 ^ 8 * 2 ^ 8). zify_div.
Qed.

Lemma pci_read_byte bus slot func off c0 : function_ok bus slot func -> 0 <= off < 256 ->
  sees c0 (pci_config_read_byte bus slot func off) (cfg_byte (io c0) bus slot func off).
Proof.
  intros Hf Ho. unfold pci_config_read_byte.
  assert (wrap 8 (Z.land off (Z.lnot 1)) = off - off mod 2) as ->.
  { change 1 with (Z.ones 1). rewrite land_not_ones by lia. change (2 ^ 1) with 2. rewrite wrap_small; zify_div. }
  eapply sees_bind; [apply pci_read_word; [done|zify_div]|].
  unfold cfg_word, cfg_byte. rewrite <- (byte_of_word _ off).
  assert (pci_address bus slot func (off - off mod 2) = pci_address bus slot func off) as ->.
  { rewrite !pci_address_eq by (done || zify_div). zify_div. }
  replace ((off - off mod 2) mod 4 - (off - off mod 2) mod 2) with (off mod 4 - off mod 2) by zify_div.
  apply sees_ret.
Qed.

(** Writing a base register: its writable bits take the new value. *)
Definition written (old mask v : Z) : Z := Z.lor (Z.ldiff old mask) (Z.land v mask).

Lemma pci_write_dword bus slot func off v (c : cpu P) : function_ok bus slot func -> 0 <= off < 256 -> 0 <= v < 2 ^ 32 ->
  let a := pci_address bus slot func off in bar_register (cfg (io c)) a ->
  exists c' : cpu P, pci_config_write_dword bus slot func off v c = Ret (tt, c') /\ if_flag c' = if_flag c /\
    (forall x, cfg_mask (io c') x = cfg_mask (io c) x) /\
    (forall x, cfg (io c') x = if x =? a then written (cfg (io c) a) (cfg_mask (io c) a) v else cfg (io c) x).
Proof.
  intros Hf Ho Hv a Hbar. pose proof (pci_address_enabled _ _ _ _ Hf Ho : pci_enabled a) as Ha.
  destruct (select_read a c Ha) as (_ & E1 & _ & _). pose proof (law_address (io c) a Ha) as (L1 & L2 & L3).
  set (p1 := port_out 4 0xCF8 a (io c)) in *.
  assert (bar_register (cfg p1) (cfg_sel p1)) as Hb1.
  { rewrite L1. destruct Hbar as [B1 B2]. split; [done|]. unfold header_type in *. by rewrite L2. }
  pose proof (law_write p1 v ltac:(by rewrite L1) Hb1 Hv) as (W1 & W2 & W3).
  exists (MkCpuIo (port_out 4 0xCFC v p1) (if_flag c)). split_and!; [|done| |].
  - apply guarded_run. rewrite (bind_step _ _ _ _ _ E1). unfold outl, port_write, st_modify. cbn [io if_flag].
    change (8 * Z.of_nat 4) with 32. by rewrite (wrap_small 32 v).
  - intros x. cbn. by rewrite W2, L3.
  - intros x. cbn. rewrite W3, L1, !L2, L3. destruct (Z.eqb_spec x a) as [->|]; done.
Qed.

(** ** The size of a range *)

Lemma written_ones old mask : 0 <= mask < 2 ^ 32 -> written old mask 0xFFFFFFFF = Z.lor old mask.
Proof.
  intros Hm. unfold written. rewrite (Z.land_comm 0xFFFFFFFF). change 0xFFFFFFFF with (Z.ones 32).
  rewrite (Z.land_ones mask), Z.mod_small by lia. apply Z.bits_inj'. intros i Hi.
  rewrite !Z.lor_spec, Z.ldiff_spec. by destruct (Z.testbit old i), (Z.testbit mask i).
Qed.
Lemma written_back old mask : written (Z.lor old mask) mask old = old.
Proof.
  unfold written. apply Z.bits_inj'. intros i Hi. rewrite !Z.lor_spec, Z.ldiff_spec, Z.land_spec, Z.lor_spec.
  by destruct (Z.testbit old i), (Z.testbit mask i).
Qed.

(** The size the driver computes for a register. *)
Definition bar_size (p : P) (bus slot func off : Z) : Z :=
  bar_size_of (cfg_dword p bus slot func off)
    (Z.lor (cfg_dword p bus slot func off) (cfg_mask p (pci_address bus slot func off))).

Definition bar_offset (off : Z) : Prop := 0x10 <= off < 0x28 /\ off mod 4 = 0.
(** The header of the function is of type 0. *)
Definition plain (p : P) (bus slot func : Z) : Prop := cfg_byte p bus slot func PCI_HEADER_TYPE mod 2 ^ 7 = 0.

Lemma plain_bar p bus slot func off : function_ok bus slot func -> bar_offset off -> plain p bus slot func ->
  bar_register (cfg p) (pci_address bus slot func off).
Proof.
  intros Hf [Ho1 Ho2] Hp. unfold plain, cfg_byte, PCI_HEADER_TYPE in Hp. unfold bar_register, header_type.
  rewrite pci_address_eq in * by (done || lia). destruct Hf as (? & ? & ?). rewrite Ho2.
  set (b := 2 ^ 31 + 2 ^ 16 * bus + 2 ^ 11 * slot + 2 ^ 8 * func) in *.
  assert (b mod 256 = 0) by (subst b; zify_div). replace ((b + (off - 0)) mod 256) with off by zify_div.
  split; [lia|]. replace (b + (off - 0) - off + 12) with (b + (14 - 14 mod 4)) by (change (14 mod 4) with 2; lia).
  change (8 * (14 mod 4)) with 16 in Hp. rewrite <- Hp. change (2 ^ 8) with (2 ^ 7 * 2). zify_div.
Qed.

Lemma pci_get_bar_size_sees bus slot func off c0 : function_ok bus slot func -> bar_offset off ->
  plain (io c0) bus slot func ->
  sees c0 (pci_get_bar_size bus slot func off (cfg_dword (io c0) bus slot func off)) (bar_size (io c0) bus slot func off).
Proof.
  intros Hf Ho Hp c Hc. pose proof (plain_bar _ _ _ _ off Hf Ho Hp) as Hb. set (a := pci_address bus slot func off) in *.
  destruct Hc as (C1 & C2 & C3). unfold pci_get_bar_size, cfg_dword. fold a.
  assert (bar_register (cfg (io c)) a) as Hb0.
  { destruct Hb as [B1 B2]. split; [done|]. unfold header_type in *. by rewrite C2. }
  assert (0 <= off < 256) as Hoff by (destruct Ho; lia).
  destruct (pci_write_dword bus slot func off 0xFFFFFFFF c Hf Hoff ltac:(lia) Hb0) as (c1 & E1 & F1 & M1 & G1). fold a in G1.
  rewrite (bind_step _ _ _ _ _ E1). rewrite written_ones in G1 by apply mask_range.
  destruct (pci_read_dword bus slot func off c1 Hf Hoff c1 (same_cfg_refl c1)) as (c2 & E2 & F2 & G2 & M2).
  rewrite (bind_step _ _ _ _ _ E2).
  assert (forall x, cfg (io c2) x = if x =? a then Z.lor (cfg (io c0) a) (cfg_mask (io c0) a) else cfg (io c0) x) as H2.
  { intros x. rewrite G2, G1, !C2, C3. done. }
  assert (bar_register (cfg (io c2)) a) as Hb2.
  { destruct Hb as [B1 B2]. split; [done|]. unfold header_type in *. rewrite H2.
    destruct (Z.eqb_spec (a - a mod 256 + 12) a) as [E|]; [|done]. exfalso. lia. }
  destruct (pci_write_dword bus slot func off (cfg (io c0) a) c2 Hf Hoff (cfg_range _ _) Hb2) as (c3 & E3 & F3 & M3 & G3).
  fold a in G3. rewrite (bind_step _ _ _ _ _ E3). exists c3. split.
  - unfold bar_size, cfg_dword, mret, st_ret. fold a. rewrite (G1 a), Z.eqb_refl, C2, C3. done.
  - split_and!; [congruence| |intros x; by rewrite M3, M2, M1, C3].
    intros x. rewrite G3, !H2, Z.eqb_refl, M2, M1, C3. destruct (Z.eqb_spec x a) as [->|]; [|done]. apply written_back.
Qed.

(** The bits from [k] on of [n], on top of a value. *)
Lemma lor_high old k n : 0 <= k <= n -> 0 <= old < 2 ^ n ->
  Z.lor old (2 ^ n - 2 ^ k) = 2 ^ n - 2 ^ k + old mod 2 ^ k.
Proof.
  intros Hk Ho. replace (2 ^ n - 2 ^ k) with (2 ^ k * Z.ones (n - k)).
  2:{ rewrite Z.ones_equiv, Z.mul_pred_r, <- Z.pow_add_r by lia. replace (k + (n - k)) with n by lia. lia. }
  assert (0 < 2 ^ k) by (apply Z.pow_pos_nonneg; lia). pose proof (Z.mod_pos_bound old (2 ^ k)).
  rewrite <- (lor_disjoint _ (old mod 2 ^ k) k) by (lia || (rewrite Z.mul_comm, Z.mod_mul; lia)).
  apply Z.bits_inj'. intros i Hi. rewrite !Z.lor_spec, Z.mul_comm, Z.mul_pow2_bits by lia.
  destruct (Z.lt_ge_cases i k).
  - by rewrite (Z.testbit_neg_r _ (i - k)), Z.mod_pow2_bits_low, orb_false_r by lia.
  - rewrite Z.mod_pow2_bits_high, orb_false_r by lia. destruct (Z.lt_ge_cases i n).
    + rewrite Z.ones_spec_low by lia. apply orb_true_r.
    + by rewrite Z.ones_spec_high, (testbit_range n old i) by lia.
Qed.

Lemma land_low_clear x j : 0 <= j <= 32 -> 0 <= x < 2 ^ 32 ->
  Z.land x (Z.land (Z.lnot (Z.ones j)) (Z.ones 32)) = x - x mod 2 ^ j.
Proof.
  intros Hj Hx. rewrite Z.land_assoc, land_not_ones, Z.land_ones by lia. apply Z.mod_small.
  assert (0 < 2 ^ j) by (apply Z.pow_pos_nonneg; lia).
  pose proof (Z.mod_le x (2 ^ j) ltac:(lia) ltac:(lia)). pose proof (Z.mod_pos_bound x (2 ^ j)). lia.
Qed.

Lemma pow2_mod_0 k j : 0 <= j <= k -> 2 ^ k mod 2 ^ j = 0.
Proof. intros Hj. replace k with ((k - j) + j) by lia. rewrite Z.pow_add_r, Z.mod_mul by lia. done. Qed.

(** What the driver makes of [n]-bit registers of [2^k] bytes whose [j]
    lowest bits are flags: memory ([j = 4]) and I/O ([j = 2]). *)
Lemma bar_size_of_range old k n : 1 <= k < n -> n <= 32 -> 0 <= old < 2 ^ n ->
  let j := if old mod 2 =? 0 then 4 else 2 in j <= k -> old mod 2 ^ k < 2 ^ j -> old mod 2 ^ k <> 2 ^ k - 1 ->
  bar_size_of old (Z.lor old (2 ^ n - 2 ^ k)) = 2 ^ 32 - 2 ^ n + 2 ^ k.
Proof.
  intros Hk Hn Ho j Hjk Hf Hne. rewrite lor_high by lia. set (f := old mod 2 ^ k) in *.
  assert (2 ^ k < 2 ^ n) by (apply Z.pow_lt_mono_r; lia). assert (2 ^ n <= 2 ^ 32) by (apply Z.pow_le_mono_r; lia).
  assert (2 ^ 1 <= 2 ^ k) by (apply Z.pow_le_mono_r; lia). pose proof (Z.mod_pos_bound old (2 ^ k) ltac:(lia)). fold f in H2.
  unfold bar_size_of. destruct (Z.eqb_spec (2 ^ n - 2 ^ k + f) 0); [lia|].
  destruct (Z.eqb_spec (2 ^ n - 2 ^ k + f) 0xFFFFFFFF); [lia|]. cbn [orb]. cbv zeta.
  assert ((if truth (Z.land old 1) then Z.land (2 ^ n - 2 ^ k + f) 0xFFFFFFFC
           else Z.land (2 ^ n - 2 ^ k + f) 0xFFFFFFF0) = 2 ^ n - 2 ^ k) as ->.
  { transitivity (Z.land (2 ^ n - 2 ^ k + f) (Z.land (Z.lnot (Z.ones j)) (Z.ones 32))).
    - unfold truth. rewrite land_1. subst j. by destruct (old mod 2 =? 0).
    - assert (2 <= j <= 4) by (subst j; destruct (old mod 2 =? 0); lia). rewrite land_low_clear by lia.
      replace ((2 ^ n - 2 ^ k + f) mod 2 ^ j) with f; [lia|].
      rewrite Z.add_mod, Zminus_mod, !pow2_mod_0 by lia. rewrite Z.sub_diag, Zmod_0_l, Z.add_0_l, Z.mod_mod by lia.
      symmetry. apply Z.mod_small. lia. }
  unfold Z.lnot. unfold wrap at 2. rewrite <- (Z.mod_unique (Z.pred (- (2 ^ n - 2 ^ k))) (2 ^ 32) (-1) (2 ^ 32 - 1 - (2 ^ n - 2 ^ k))) by lia.
  rewrite wrap_small; lia.
Qed.

(** C32: the size of a base register of an ordinary function.  The register
    ends with the value it had, whatever bits of it the device wires, and the
    interrupt flag is as before.  A memory register of a range of 2^k bytes
    gives 2^k and a register that is not implemented gives 0; an I/O register
    gives 2^k if the device wires its 32 bits, but with the upper 16 bits
    wired to 0, as devices for 16-bit ports have them, the driver takes a
    range of 2^k bytes for one of 2^32 - 2^16 + 2^k. *)
Theorem pci_get_bar_size_correct bus slot func off (c : cpu P) (Hf : function_ok bus slot func)
    (Ho : bar_offset off) (Hp : plain (io c) bus slot func) :
  let old := cfg_dword (io c) bus slot func off in
  let mask := cfg_mask (io c) (pci_address bus slot func off) in
  exists size (c' : cpu P), pci_get_bar_size bus slot func off old c = Ret (size, c') /\ same_cfg c c' /\
    (forall k, 4 <= k < 32 -> mask = 2 ^ 32 - 2 ^ k -> old mod 2 ^ k < 16 -> old mod 2 = 0 -> size = 2 ^ k) /\
    (old = 0 -> mask = 0 -> size = 0) /\
    (forall k, 2 <= k < 32 -> mask = 2 ^ 32 - 2 ^ k -> old mod 2 ^ k = 1 -> size = 2 ^ k) /\
    (forall k, 2 <= k < 16 -> mask = 2 ^ 16 - 2 ^ k -> old < 2 ^ 16 -> old mod 2 ^ k = 1 ->
       size = 2 ^ 32 - 2 ^ 16 + 2 ^ k).
Proof.
  intros old mask. destruct (pci_get_bar_size_sees bus slot func off c Hf Ho Hp c (same_cfg_refl c)) as (c' & E & Hs).
  exists (bar_size (io c) bus slot func off), c'. split; [exact E|]. split; [done|]. unfold bar_size. fold old. fold mask.
  pose proof (cfg_range (io c) (pci_address bus slot func off) : 0 <= old < 2 ^ 32) as Hr.
  assert (forall k, 2 <= k < 32 -> (old mod 2 ^ k) mod 2 = old mod 2) as Hodd.
  { intros k Hk. apply Z.mod_mod_divide. exists (2 ^ (k - 1)). rewrite Z.mul_comm, <- Z.pow_succ_r by lia. f_equal. lia. }
  assert (forall k, 2 <= k < 32 -> old mod 2 ^ k = 1 -> old mod 2 = 1) as Hio.
  { intros k Hk E1. rewrite <- (Hodd k Hk), E1. done. }
  split_and!.
  - intros k Hk -> Hfl He. assert (2 ^ 4 <= 2 ^ k) by (apply Z.pow_le_mono_r; lia).
    assert (old mod 2 ^ k <> 15) by (intros E1; pose proof (Hodd k ltac:(lia)); rewrite E1, He in *; done).
    rewrite (bar_size_of_range old k 32); rewrite ?He; cbn; lia.
  - by intros -> ->.
  - intros k Hk -> E1. assert (2 ^ 2 <= 2 ^ k) by (apply Z.pow_le_mono_r; lia).
    rewrite (bar_size_of_range old k 32); rewrite ?(Hio k Hk E1), ?E1; cbn; lia.
  - intros k Hk -> H16 E1. assert (2 ^ 2 <= 2 ^ k) by (apply Z.pow_le_mono_r; lia).
    rewrite (bar_size_of_range old k 16); rewrite ?(Hio k ltac:(lia) E1), ?E1; cbn; lia.
Qed.
End config.
