(* ===== verification/PciScan.v ===== *)
(** * What the scan of the PCI bus registers (about the definitions of Pci.v)

    [functions] lists the functions that are there, as configuration space
    shows them, and [info_of] what the driver is told about one.  The scan
    ([pci_scan_correct]) registers them in that order. *)
From S2P Require Import Prelude Mem PhysMem KMalloc KMallocFacts Drivers Ports Pci PciFacts.

Section scan.
Context {P : Type} `{PL : PciLaws P}.

(** ** What there is on bus 0 *)

Definition vendor_of (p : P) (fn : Z * Z) : Z := cfg_word p 0 fn.1 fn.2 PCI_VENDOR_ID.
Definition present (p : P) (fn : Z * Z) : bool := negb (vendor_of p fn =? 0xFFFF).
Definition multifunction (p : P) (slot : Z) : bool :=
  truth (Z.land (cfg_byte p 0 slot 0 PCI_HEADER_TYPE) PCI_HEADER_MULTIFUNCTION).

(** A device has a function 0; the others are looked for if it says so. *)
Definition slot_functions (p : P) (slot : Z) : list (Z * Z) :=
  if present p (slot, 0) then
    (slot, 0) :: (if multifunction p slot
                  then List.filter (present p) ((fun f => (slot, f)) <$> seqZ 1 7) else [])
  else [].
Definition functions (p : P) : list (Z * Z) := flat_map (slot_functions p) (seqZ 0 32).

Definition info_of (p : P) (fn : Z * Z) : pci_device_info :=
  let byte := cfg_byte p 0 fn.1 fn.2 in
  let word := cfg_word p 0 fn.1 fn.2 in
  MkInfo 0 fn.1 fn.2 (word PCI_VENDOR_ID) (word PCI_DEVICE_ID) (byte PCI_CLASS_CODE) (byte PCI_SUBCLASS)
    (byte PCI_PROG_IF) (byte PCI_INTERRUPT_LINE) (byte PCI_INTERRUPT_PIN) (word PCI_SUBSYSTEM_VENDOR_ID)
    (word PCI_SUBSYSTEM_ID) (cfg_dword p 0 fn.1 fn.2 <$> bar_offsets) (bar_size p 0 fn.1 fn.2 <$> bar_offsets).

(** ** Reading the header of a function *)

Lemma read_bars_sees c0 slot func offs : function_ok 0 slot func -> Forall (fun off => 0 <= off < 256) offs ->
  sees c0 (read_bars 0 slot func offs) (cfg_dword (io c0) 0 slot func <$> offs).
Proof.
  intros Hf Ho. induction Ho as [|off offs Hoff _ IH]; [apply sees_ret|]. cbn [read_bars].
  eapply sees_bind; [by apply pci_read_dword|]. eapply sees_bind; [exact IH|]. apply sees_ret.
Qed.

Lemma read_bar_sizes_sees c0 slot func offs : function_ok 0 slot func -> Forall bar_offset offs -> plain (io c0) 0 slot func ->
  sees c0 (read_bar_sizes 0 slot func offs (cfg_dword (io c0) 0 slot func <$> offs)) (bar_size (io c0) 0 slot func <$> offs).
Proof.
  intros Hf Ho Hp. induction Ho as [|off offs Hoff _ IH]; [apply sees_ret|]. cbn [read_bar_sizes fmap list_fmap].
  eapply sees_bind; [by apply pci_get_bar_size_sees|]. eapply sees_bind; [exact IH|]. apply sees_ret.
Qed.

Lemma bar_offsets_ok : Forall bar_offset bar_offsets.
Proof. by repeat constructor. Qed.

Lemma read_header_sees c0 slot func v : function_ok 0 slot func ->
  sees c0 (read_header 0 slot func v)
    (let i := info_of (io c0) (slot, func) in
     MkInfo 0 slot func v (pi_device_id i) (pi_class_code i) (pi_subclass i) (pi_prog_if i) (pi_irq i) (pi_irq_pin i)
       (pi_subsystem_vendor i) (pi_subsystem_id i) (pi_bar i) []).
Proof.
  intros Hf. unfold read_header.
  repeat (eapply sees_bind; [first [apply pci_read_word | apply pci_read_byte | apply read_bars_sees];
    first [done | by repeat constructor]|]).
  apply sees_ret.
Qed.

(** ** The state while scanning *)

Definition table_devices (g : device_manager) : list device_t := take (Z.to_nat (device_count g)) (dm_devices g).

(** The table entry of a function whose information is at [a]. *)
Record device_of (i : pci_device_info) (a : Z) (d : device_t) : Prop := {
  do_bus : dv_bus d = DRIVER_BUS_PCI;
  do_class : dv_class d = pci_class (pi_class_code i);
  do_irq : dv_irq d = pi_irq i;
  do_data : dv_os_data d = a;
  do_fresh : dv_drv d = None /\ dv_initialized d = false /\ dv_name d = None
}.

(** [n] blocks from [a] on, two allocations apart. *)
Fixpoint places (a : Z) (n : nat) : list Z :=
  match n with O => [] | S n' => a :: places (a + 168) n' end.
Lemma places_app a n m : places a (n + m) = places a n ++ places (a + 168 * Z.of_nat n) m.
Proof.
  revert a. induction n as [|n IH]; intros a; [by rewrite Z.add_0_r|]. cbn [places Nat.add app]. rewrite IH.
  do 3 f_equal. lia.
Qed.

(** [scanned c0 page o s fns s']: the functions [fns] have been registered
    since state [s], in which the blocks of page [page] end at [o]; [c0] has
    the configuration space. *)
Record scanned (c0 : cpu P) (page o : Z) (s : pci_state P) (fns : list (Z * Z)) (s' : pci_state P) : Prop := {
  sc_cfg : same_cfg c0 (pc_cpu s');
  sc_heap : head_at (pc_heap s') page (o + 168 * zlen fns);
  sc_len : zlen (dm_devices (pc_dm s')) = MAX_DEVICES;
  sc_count : device_count (pc_dm s') = device_count (pc_dm s) + zlen fns;
  sc_drivers : dm_drivers (pc_dm s') = dm_drivers (pc_dm s) /\ driver_count (pc_dm s') = driver_count (pc_dm s);
  sc_old a : a < page + o -> pc_infos s' !! a = pc_infos s !! a;
  sc_new : exists ds, table_devices (pc_dm s') = table_devices (pc_dm s) ++ ds /\
    Forall2 (fun fn d => device_of (info_of (io c0) fn) (dv_os_data d) d /\
      pc_infos s' !! dv_os_data d = Some (info_of (io c0) fn)) fns ds /\
    dv_os_data <$> ds = places (page + o + 88) (length fns)
}.

Lemma places_range a n x : x ∈ places a n -> a <= x <= a + 168 * (Z.of_nat n - 1).
Proof.
  revert a. induction n as [|n IH]; intros a Hx; cbn [places] in Hx; [by apply elem_of_nil in Hx|].
  apply elem_of_cons in Hx as [->|Hx]; [lia|]. specialize (IH _ Hx). lia.
Qed.

Lemma Forall2_impl_r {A B} (Q Q' : A -> B -> Prop) l k :
  Forall2 Q l k -> (forall x y, y ∈ k -> Q x y -> Q' x y) -> Forall2 Q' l k.
Proof.
  induction 1 as [|x y l k HQ _ IH]; intros HI; constructor.
  - apply HI; [by left|done].
  - apply IH. intros x' y' Hy. apply HI. by right.
Qed.

Lemma scanned_nil c0 page o s : same_cfg c0 (pc_cpu s) -> head_at (pc_heap s) page o ->
  zlen (dm_devices (pc_dm s)) = MAX_DEVICES -> scanned c0 page o s [] s.
Proof.
  intros Hc Hh Hl. split; try done; [by rewrite Z.add_0_r|unfold zlen; simpl; lia|].
  exists []. by rewrite app_nil_r.
Qed.

Lemma scanned_app c0 page o s fns1 s1 fns2 s2 : scanned c0 page o s fns1 s1 ->
  scanned c0 page (o + 168 * zlen fns1) s1 fns2 s2 -> scanned c0 page o s (fns1 ++ fns2) s2.
Proof.
  intros [A1 A2 A3 A4 A5 A6 (d1 & A7 & A8 & A9)] [B1 B2 B3 B4 B5 B6 (d2 & B7 & B8 & B9)].
  pose proof (zlen_nonneg fns1). split; rewrite ?zlen_app; try done.
  - by replace (o + 168 * (zlen fns1 + zlen fns2)) with (o + 168 * zlen fns1 + 168 * zlen fns2) by lia.
  - lia.
  - destruct A5, B5. split; congruence.
  - intros a Ha. rewrite B6 by lia. by apply A6.
  - exists (d1 ++ d2). split; [by rewrite B7, A7, app_assoc|]. split.
    + apply Forall2_app; [|done]. apply (Forall2_impl_r _ _ _ _ A8). intros fn d Hd [D1 D2]. split; [done|].
      assert (dv_os_data d ∈ places (page + o + 88) (length fns1)) as Hx by (rewrite <- A9; by apply list_elem_of_fmap_2).
      apply places_range in Hx. rewrite B6; [done|]. unfold zlen. lia.
    + rewrite fmap_app, A9, B9, length_app, places_app. do 2 f_equal. unfold zlen. lia.
Qed.

(** ** One function *)

Definition fn_ok (fn : Z * Z) : Prop := function_ok 0 fn.1 fn.2.

Lemma on_cpu_sees {A} c0 (m : ST (cpu P) A) a (s : pci_state P) : sees c0 m a -> same_cfg c0 (pc_cpu s) ->
  exists c', on_cpu m s = Ret (a, set_pc_cpu c' s) /\ same_cfg c0 c'.
Proof.
  intros Hm Hc. destruct (Hm _ Hc) as (c' & E & Hs). exists c'. split; [|done]. by apply zoom_run.
Qed.

Lemma devices_add g d : zlen (dm_devices g) = MAX_DEVICES -> 0 <= device_count g < MAX_DEVICES ->
  table_devices (add_device g d) = table_devices g ++ [d].
Proof.
  intros Hl Hc. unfold table_devices, add_device, zset, MAX_DEVICES, zlen in *. cbn [device_count dm_devices].
  destruct (Z.ltb_spec (device_count g) 0); [lia|].
  replace (Z.to_nat (device_count g + 1)) with (S (Z.to_nat (device_count g))) by lia.
  rewrite (take_S_r _ _ d) by (apply list_lookup_insert_eq; lia). by rewrite take_insert_ge by lia.
Qed.

(** What [register_from_pci] does while there is room. *)
Lemma register_from_pci_run (s : pci_state P) page o fuel i : head_at (pc_heap s) page o -> o + 84 <= 3840 ->
  zlen (dm_devices (pc_dm s)) = MAX_DEVICES -> 0 <= device_count (pc_dm s) < MAX_DEVICES ->
  exists h d, register_from_pci (S fuel) i s =
      Ret (0, MkPci (pc_cpu s) h (<[page + o + 4 := i]> (pc_infos s)) (add_device (pc_dm s) d)) /\
    head_at h page (o + 84) /\ device_of i (page + o + 4) d.
Proof.
  intros Hh Ho Hl Hc. destruct (kmalloc_head _ _ _ fuel PCI_INFO_SIZE Hh) as (h & E & Hh'); [done|lia|change (up16 (asked PCI_INFO_SIZE)) with 80; lia|].
  assert (0 < page /\ 16 <= o) as [? ?] by (destruct Hh as [(? & ? & ?) _ _ _ Hs]; unfold MIXED_PAGE_START in Hs; lia).
  exists h. eexists. unfold register_from_pci. erewrite bind_step by reflexivity.
  destruct (Z.leb_spec MAX_DEVICES (device_count (pc_dm s))); [lia|].
  rewrite (bind_step _ _ _ _ _ (zoom_run pc_heap set_pc_heap _ _ _ _ E)).
  destruct (Z.eqb_spec (page + o + 4) 0); [lia|]. rewrite (bind_step _ _ _ _ _ eq_refl). cbv beta.
  unfold device_register_from_pci. cbn [pc_dm set_pc_infos set_pc_heap].
  destruct (Z.leb_spec MAX_DEVICES (device_count (pc_dm s))); [lia|]. cbn zeta. split; [reflexivity|].
  split; [by replace (o + 84) with (o + 4 + 80) by lia|]. done.
Qed.

Lemma pci_scan_function_run c0 page o (s : pci_state P) fn fuel n : same_cfg c0 (pc_cpu s) -> head_at (pc_heap s) page o -> o + 168 <= 3840 ->
  zlen (dm_devices (pc_dm s)) = MAX_DEVICES -> 0 <= device_count (pc_dm s) < MAX_DEVICES ->
  fn_ok fn -> present (io c0) fn = true -> plain (io c0) 0 fn.1 fn.2 -> 0 <= n < 2 ^ 16 ->
  exists s', pci_scan_function (S fuel) 0 fn.1 fn.2 n s = Ret (n + 1, s') /\ scanned c0 page o s [fn] s'.
Proof.
  intros Hc Hh Ho Hl Hd Hf Hp Hpl Hn. destruct fn as [slot func]. cbn [fst snd] in *. unfold pci_scan_function.
  destruct (on_cpu_sees c0 _ _ s (pci_read_word 0 slot func PCI_VENDOR_ID c0 Hf ltac:(done)) Hc) as (c1 & E1 & S1).
  rewrite (bind_step _ _ _ _ _ E1). clear E1. unfold present, vendor_of in Hp. cbn [fst snd] in Hp. apply negb_true_iff in Hp. rewrite Hp.
  destruct (on_cpu_sees c0 _ _ (set_pc_cpu c1 s) (read_header_sees c0 slot func (cfg_word (io c0) 0 slot func PCI_VENDOR_ID) Hf) S1)
    as (c2 & E2 & S2). rewrite (bind_step _ _ _ _ _ E2). clear E2.
  destruct (kmalloc_head _ _ _ fuel PCI_INFO_SIZE Hh) as (h & E & Hh'); [done|lia|change (up16 (asked PCI_INFO_SIZE)) with 80; lia|].
  change (o + 4 + up16 (asked PCI_INFO_SIZE)) with (o + 4 + 80) in Hh'. replace (o + 4 + 80) with (o + 84) in Hh' by lia.
  rewrite (bind_step _ _ _ _ _ (zoom_run pc_heap set_pc_heap _ (set_pc_cpu c2 (set_pc_cpu c1 s)) _ _ E)). clear E.
  assert (0 < page /\ 16 <= o) as [? ?] by (destruct Hh as [(? & ? & ?) _ _ _ Hs]; unfold MIXED_PAGE_START in Hs; lia).
  destruct (Z.eqb_spec (page + o + 4) 0); [lia|]. cbn zeta. cbn [pi_bar info_of].
  destruct (on_cpu_sees c0 _ _ (set_pc_heap h (set_pc_cpu c2 (set_pc_cpu c1 s)))
    (read_bar_sizes_sees c0 slot func bar_offsets Hf bar_offsets_ok Hpl) S2) as (c3 & E3 & S3).
  rewrite (bind_step _ _ _ _ _ E3). clear E3.
  match goal with |- context [<[page + o + 4 := ?x]>] => change x with (info_of (io c0) (slot, func)) end.
  set (i := info_of (io c0) (slot, func)) in *. rewrite (bind_step _ _ _ _ _ eq_refl). cbv beta.
  set (s3 := set_pc_infos _ _).
  destruct (register_from_pci_run s3 page (o + 84) fuel i Hh' ltac:(lia) Hl Hd) as (h4 & d & E4 & Hh4 & Hdev).
  match goal with |- context [register_from_pci (S fuel) ?x] => change x with i end.
  rewrite (bind_step _ _ _ _ _ E4). clear E4. set (s4 := MkPci _ _ _ _).
  destruct (kmfree_head h4 page (o + 84 + 84) (page + o + 4) Hh4 ltac:(lia)) as (h5 & E5 & Hh5).
  rewrite (bind_step _ _ _ _ _ (zoom_run pc_heap set_pc_heap _ s4 _ _ E5)). clear E5.
  rewrite (bind_step _ _ _ _ _ eq_refl). cbv beta. eexists. split.
  { unfold mret, st_ret. rewrite sgn_small by lia. reflexivity. }
  split; cbn.
  - exact S3.
  - by replace (o + 168 * zlen [(slot, func)]) with (o + 84 + 84) by (unfold zlen; simpl; lia).
  - by rewrite zlen_zset.
  - done.
  - done.
  - intros a Ha. rewrite lookup_delete_ne, !lookup_insert_ne by lia. done.
  - exists [d]. split; [by apply devices_add|]. destruct Hdev as [D1 D2 D3 D4 D5]. split.
    + constructor; [|constructor]. split; [split; try done|].
      rewrite D4, lookup_delete_ne, lookup_insert_eq by lia. done.
    + cbn. rewrite D4. f_equal. lia.
Qed.

(** ** The whole scan *)

(** Room for [k] more functions, [n] being found so far. *)
Record ready (c0 : cpu P) (page o : Z) (s : pci_state P) (k n : Z) : Prop := {
  rd_cfg : same_cfg c0 (pc_cpu s);
  rd_heap : head_at (pc_heap s) page o;
  rd_room : o + 168 * k <= 3840;
  rd_len : zlen (dm_devices (pc_dm s)) = MAX_DEVICES;
  rd_count : 0 <= device_count (pc_dm s) /\ device_count (pc_dm s) + k <= MAX_DEVICES;
  rd_found : 0 <= n /\ n + k < 2 ^ 16
}.

Lemma ready_after c0 page o (s s1 : pci_state P) fns k n : ready c0 page o s (zlen fns + k) n ->
  scanned c0 page o s fns s1 -> ready c0 page (o + 168 * zlen fns) s1 k (n + zlen fns).
Proof. intros [R1 R2 R3 R4 R5 R6] [S1 S2 S3 S4 S5 S6 _]. pose proof (zlen_nonneg fns). split; try done; lia. Qed.

Lemma ready_less c0 page o (s : pci_state P) k k' n : ready c0 page o s k n -> 0 <= k' <= k -> ready c0 page o s k' n.
Proof. intros [R1 R2 R3 R4 R5 R6] Hk. split; try done; lia. Qed.

Lemma ready_cpu c0 page o (s : pci_state P) k n c1 : ready c0 page o s k n -> same_cfg c0 c1 ->
  ready c0 page o (set_pc_cpu c1 s) k n.
Proof. intros [R1 R2 R3 R4 R5 R6] Hc. by split. Qed.

Lemma scanned_cpu_l c0 page o (s s' : pci_state P) fns c1 :
  scanned c0 page o (set_pc_cpu c1 s) fns s' -> scanned c0 page o s fns s'.
Proof. intros [S1 S2 S3 S4 S5 S6 S7]. by split. Qed.
Lemma scanned_cpu_r c0 page o (s s' : pci_state P) fns c1 : same_cfg c0 c1 ->
  scanned c0 page o s fns s' -> scanned c0 page o s fns (set_pc_cpu c1 s').
Proof. intros Hc [S1 S2 S3 S4 S5 S6 S7]. by split. Qed.

(** The functions [fns] are ordinary ones at valid addresses. *)
Definition all_plain (c0 : cpu P) (fns : list (Z * Z)) : Prop :=
  Forall (fun fn => plain (io c0) 0 fn.1 fn.2) fns.

Lemma scan_function_ready c0 page o (s : pci_state P) fn fuel n : ready c0 page o s 1 n -> fn_ok fn ->
  present (io c0) fn = true -> plain (io c0) 0 fn.1 fn.2 ->
  exists s', pci_scan_function (S fuel) 0 fn.1 fn.2 n s = Ret (n + 1, s') /\ scanned c0 page o s [fn] s'.
Proof. intros [R1 R2 R3 R4 R5 R6] Hf Hp Hpl. apply pci_scan_function_run; done || lia. Qed.

Lemma vendor_read c0 fn (s : pci_state P) : fn_ok fn -> same_cfg c0 (pc_cpu s) ->
  exists c', on_cpu (pci_config_read_word 0 fn.1 fn.2 PCI_VENDOR_ID) s = Ret (vendor_of (io c0) fn, set_pc_cpu c' s) /\
    same_cfg c0 c'.
Proof. intros Hf Hc. apply on_cpu_sees; [|done]. by apply pci_read_word. Qed.

Lemma absent_test p fn : (vendor_of p fn =? 0xFFFF) = negb (present p fn).
Proof. unfold present. by rewrite negb_involutive. Qed.

Lemma scan_functions_run c0 page slot fuel funcs : Forall (fun f => fn_ok (slot, f)) funcs -> forall o (s : pci_state P) n,
  let fns := List.filter (present (io c0)) ((fun f => (slot, f)) <$> funcs) in
  ready c0 page o s (zlen fns) n -> all_plain c0 fns ->
  exists s', scan_functions (S fuel) 0 slot funcs n s = Ret (n + zlen fns, s') /\ scanned c0 page o s fns s'.
Proof.
  induction 1 as [|f funcs Hf _ IH]; intros o s n; cbn zeta; intros Hr Hp.
  { exists s. split; [unfold zlen; cbn; by rewrite Z.add_0_r|]. destruct Hr. by apply scanned_nil. }
  cbn [scan_functions]. destruct (vendor_read c0 (slot, f) s Hf (rd_cfg _ _ _ _ _ _ Hr)) as (c1 & E1 & S1).
  cbn [fst snd] in E1. rewrite (bind_step _ _ _ _ _ E1). clear E1.
  cbn [fmap list_fmap List.filter] in Hr, Hp |- *. rewrite absent_test.
  destruct (present (io c0) (slot, f)) eqn:EP; cbn [negb].
  - apply Forall_cons in Hp as [Hp1 Hp]. pose proof (ready_cpu _ _ _ _ _ _ _ Hr S1) as Hr1.
    rewrite zlen_cons in *.
    destruct (scan_function_ready c0 page o (set_pc_cpu c1 s) (slot, f) fuel n) as (s2 & E2 & S2);
      [eapply ready_less; [exact Hr1|]; pose proof (zlen_nonneg (List.filter (present (io c0)) ((fun f => (slot, f)) <$> funcs))); lia|done..|].
    cbn [fst snd] in E2. rewrite (bind_step _ _ _ _ _ E2). clear E2.
    destruct (IH _ _ _ (ready_after _ _ _ _ _ [(slot, f)] _ _ Hr1 S2) Hp) as (s3 & E3 & S3). exists s3.
    change (zlen [(slot, f)]) with 1 in E3. rewrite E3. split; [do 2 f_equal; lia|].
    apply (scanned_cpu_l _ _ _ _ _ _ c1). by apply (scanned_app _ _ _ _ [(slot, f)] s2).
  - rewrite (bind_step _ _ _ _ _ eq_refl). destruct (IH o (set_pc_cpu c1 s) n (ready_cpu _ _ _ _ _ _ _ Hr S1) Hp) as (s3 & E3 & S3).
    exists s3. split; [exact E3|]. by apply (scanned_cpu_l _ _ _ _ _ _ c1).
Qed.

Lemma function_range slot : 0 <= slot < 32 -> forall f, 0 <= f < 8 -> fn_ok (slot, f).
Proof. intros Hs f Hf. unfold fn_ok, function_ok. cbn. lia. Qed.

Lemma pci_scan_device_run c0 page slot fuel o (s : pci_state P) n : 0 <= slot < 32 ->
  let fns := slot_functions (io c0) slot in ready c0 page o s (zlen fns) n -> all_plain c0 fns ->
  exists s', pci_scan_device (S fuel) 0 slot n s = Ret (n + zlen fns, s') /\ scanned c0 page o s fns s'.
Proof.
  intros Hs fns Hr Hp. subst fns. pose proof (function_range slot Hs) as Hok. unfold pci_scan_device.
  destruct (vendor_read c0 (slot, 0) s (Hok 0 ltac:(lia)) (rd_cfg _ _ _ _ _ _ Hr)) as (c1 & E1 & S1).
  cbn [fst snd] in E1. rewrite (bind_step _ _ _ _ _ E1). clear E1. unfold slot_functions in *.
  rewrite absent_test. destruct (present (io c0) (slot, 0)) eqn:EP; cbn [negb].
  2:{ exists (set_pc_cpu c1 s). split; [unfold zlen; cbn; by rewrite Z.add_0_r|]. apply scanned_cpu_r; [done|]. destruct Hr. by apply scanned_nil. }
  set (more := if multifunction (io c0) slot then _ else []) in *.
  apply Forall_cons in Hp as [Hp1 Hp]. pose proof (ready_cpu _ _ _ _ _ _ _ Hr S1) as Hr1.
  rewrite zlen_cons in *.
  pose proof (zlen_nonneg more).
  destruct (scan_function_ready c0 page o (set_pc_cpu c1 s) (slot, 0) fuel n) as (s2 & E2 & S2);
    [eapply ready_less; [exact Hr1|]; lia|by apply Hok|done..|].
  cbn [fst snd] in E2. rewrite (bind_step _ _ _ _ _ E2). clear E2.
  pose proof (ready_after _ _ _ _ _ [(slot, 0)] _ _ Hr1 S2) as Hr2. change (zlen [(slot, 0)]) with 1 in Hr2.
  destruct (on_cpu_sees c0 _ _ s2 (pci_read_byte 0 slot 0 PCI_HEADER_TYPE c0 (Hok 0 ltac:(lia)) ltac:(done)) (rd_cfg _ _ _ _ _ _ Hr2))
    as (c3 & E3 & S3). rewrite (bind_step _ _ _ _ _ E3). clear E3.
  apply scanned_cpu_l in S2. unfold more in *. unfold multifunction in *.
  destruct (truth (Z.land (cfg_byte (io c0) 0 slot 0 PCI_HEADER_TYPE) PCI_HEADER_MULTIFUNCTION)).
  - destruct (scan_functions_run c0 page slot fuel (seqZ 1 7)) with (o := o + 168 * 1) (s := set_pc_cpu c3 s2) (n := n + 1)
      as (s4 & E4 & S4); [|by apply ready_cpu|done|].
    + apply Forall_forall. intros f Hfs. apply Hok. apply elem_of_seqZ in Hfs. lia.
    + exists s4. rewrite E4. split; [do 2 f_equal; lia|]. apply scanned_cpu_l in S4.
      by apply (scanned_app _ _ _ _ [(slot, 0)] s2).
  - exists (set_pc_cpu c3 s2). split; [by rewrite Z.add_0_r|]. by apply scanned_cpu_r.
Qed.

Lemma scan_devices_run c0 page fuel slots : Forall (fun slot => 0 <= slot < 32) slots -> forall o (s : pci_state P) n,
  let fns := flat_map (slot_functions (io c0)) slots in ready c0 page o s (zlen fns) n -> all_plain c0 fns ->
  exists s', scan_devices (S fuel) 0 slots n s = Ret (n + zlen fns, s') /\ scanned c0 page o s fns s'.
Proof.
  induction 1 as [|slot slots Hs _ IH]; intros o s n; cbn zeta; cbn [flat_map]; intros Hr Hp.
  { exists s. split; [unfold zlen; cbn; by rewrite Z.add_0_r|]. destruct Hr. by apply scanned_nil. }
  cbn [scan_devices]. rewrite zlen_app in *. apply Forall_app in Hp as [Hp1 Hp2].
  pose proof (zlen_nonneg (slot_functions (io c0) slot)). pose proof (zlen_nonneg (flat_map (slot_functions (io c0)) slots)).
  destruct (pci_scan_device_run c0 page slot fuel o s n Hs) as (s1 & E1 & S1); [eapply ready_less; [exact Hr|lia]|done|].
  rewrite (bind_step _ _ _ _ _ E1). destruct (IH _ _ _ (ready_after _ _ _ _ _ _ _ _ Hr S1) Hp2) as (s2 & E2 & S2).
  exists s2. rewrite E2. split; [do 2 f_equal; lia|]. by apply (scanned_app _ _ _ _ _ s1).
Qed.

Lemma hw_detect_pci_scan_run (s : pci_state P) page o fuel (fns := functions (io (pc_cpu s))) (Hh : head_at (pc_heap s) page o)
    (Hp : all_plain (pc_cpu s) fns) (Hroom : o + 168 * zlen fns <= 3840)
    (Hl : zlen (dm_devices (pc_dm s)) = MAX_DEVICES)
    (Hc : 0 <= device_count (pc_dm s) /\ device_count (pc_dm s) + zlen fns <= MAX_DEVICES) :
  exists s' : pci_state P, hw_detect_pci_scan (S fuel) s = Ret (zlen fns, s') /\ scanned (pc_cpu s) page o s fns s'.
Proof.
  pose proof (zlen_nonneg fns : 0 <= zlen (functions _)).
  destruct (scan_devices_run (pc_cpu s) page fuel (seqZ 0 32)) with (o := o) (s := s) (n := 0) as (s' & E & S').
  - apply Forall_forall. intros x Hx. apply elem_of_seqZ in Hx. lia.
  - split; try done. unfold MAX_DEVICES in *. fold (functions (io (pc_cpu s))). fold fns. lia.
  - done.
  - by exists s'.
Qed.

(** C31: the scan finds what is on bus 0.  While every function there is an
    ordinary one, the table of devices has room for them and the current page
    of the heap for their information, the scan ends with their number; it
    has added one device for each, in the order of the addresses, of the
    class its class code maps to, with its interrupt line and with a copy of
    what configuration space says about it, the sizes of its ranges
    included; configuration space, the interrupt flag, the devices that were
    in the table and the drivers are as before. *)
Theorem pci_scan_correct (s : pci_state P) page o fuel (Hh : head_at (pc_heap s) page o)
    (Hp : all_plain (pc_cpu s) (functions (io (pc_cpu s))))
    (Hroom : o + 168 * zlen (functions (io (pc_cpu s))) <= 3840)
    (Hl : zlen (dm_devices (pc_dm s)) = MAX_DEVICES)
    (Hc : 0 <= device_count (pc_dm s) /\ device_count (pc_dm s) + zlen (functions (io (pc_cpu s))) <= MAX_DEVICES) :
  let fns := functions (io (pc_cpu s)) in
  exists s' : pci_state P, hw_detect_pci_scan (S fuel) s = Ret (zlen fns, s') /\
    same_cfg (pc_cpu s) (pc_cpu s') /\ device_count (pc_dm s') = device_count (pc_dm s) + zlen fns /\
    dm_drivers (pc_dm s') = dm_drivers (pc_dm s) /\
    exists ds, table_devices (pc_dm s') = table_devices (pc_dm s) ++ ds /\
      Forall2 (fun fn d => device_of (info_of (io (pc_cpu s)) fn) (dv_os_data d) d /\
        pc_infos s' !! dv_os_data d = Some (info_of (io (pc_cpu s)) fn)) fns ds /\
      dv_os_data <$> ds = places (page + o + 88) (length fns).
Proof.
  intros fns. destruct (hw_detect_pci_scan_run s page o fuel Hh Hp Hroom Hl Hc) as (s' & E & S').
  exists s'. split; [exact E|]. destruct S'. naive_solver.
Qed.
End scan.
