(* ===== verification/PciDemo.v ===== *)
(** * A machine with two PCI functions

    A concrete configuration space for the theorems of PciFacts.v and
    PciScan.v: a host bridge in slot 0 and, in slot 3, an NVMe controller
    with a memory range of 16 KiB and an I/O range of 256 bytes. *)
From S2P Require Import Prelude Mem PhysMem KMalloc KMallocFacts Drivers Ports Pci PciFacts PciScan.

Record pci_bus := MkBus { bus_sel : Z; bus_regs : gmap Z Z }.

Definition bus_cfg (p : pci_bus) (a : Z) : Z := wrap 32 (default 0xFFFFFFFF (bus_regs p !! a)).
Definition bus_mask (p : pci_bus) (a : Z) : Z :=
  if a =? pci_address 0 3 0 0x10 then 2 ^ 32 - 2 ^ 14
  else if a =? pci_address 0 3 0 0x20 then 2 ^ 16 - 2 ^ 8 else 0.

#[export] Instance bus_ports : PortIO pci_bus := {
  port_in n port p := if port =? 0xCFC then (bus_cfg p (bus_sel p), p) else (0xFF, p);
  port_out n port v p :=
    if port =? 0xCF8 then MkBus v (bus_regs p)
    else if port =? 0xCFC
    then MkBus (bus_sel p) (<[bus_sel p := written (bus_cfg p (bus_sel p)) (bus_mask p (bus_sel p)) v]> (bus_regs p))
    else p
}.

Lemma bus_mask_range p a : 0 <= bus_mask p a < 2 ^ 32.
Proof. unfold bus_mask. destruct (a =? _); [lia|]. destruct (a =? _); lia. Qed.

Lemma written_range old m v : 0 <= old < 2 ^ 32 -> 0 <= m < 2 ^ 32 -> 0 <= written old m v < 2 ^ 32.
Proof.
  intros Ho Hm. unfold written. apply lor_range; [|by apply land_mask_range|lia].
  rewrite Z.ldiff_land, Z.land_comm. apply land_mask_range; [done|lia].
Qed.

#[export] Instance bus_laws : PciLaws pci_bus.
Proof.
  refine {| cfg := bus_cfg; cfg_mask := bus_mask; cfg_sel := bus_sel |}.
  - intros p a. apply wrap_range. lia.
  - apply bus_mask_range.
  - intros p a _. done.
  - intros p _. done.
  - intros p v _ _ Hv. cbn. split; [done|]. split; [done|]. intros x. unfold bus_cfg at 1. cbn.
    destruct (Z.eqb_spec x (bus_sel p)) as [->|N].
    + rewrite lookup_insert_eq. cbn. apply wrap_small, written_range; [apply wrap_range; lia|apply bus_mask_range].
    + by rewrite lookup_insert_ne by done.
Defined.

(** The headers: vendor and device, class, header type, ranges, interrupt. *)
Definition reg (slot off v : Z) : Z * Z := (pci_address 0 slot 0 off, v).
Definition demo_bus : pci_bus := MkBus 0 (list_to_map
  ([reg 0 0x00 0x12378086; reg 0 0x08 0x06000002; reg 0 0x0C 0x00000000; reg 0 0x2C 0; reg 0 0x3C 0] ++
   ((fun off => reg 0 off 0) <$> bar_offsets) ++
   [reg 3 0x00 0x00101B36; reg 3 0x08 0x01080202; reg 3 0x0C 0x00000000; reg 3 0x2C 0x11001AF4; reg 3 0x3C 0x0000010B;
    reg 3 0x10 0xFEBD4000; reg 3 0x14 0; reg 3 0x18 0; reg 3 0x1C 0; reg 3 0x20 0xC001; reg 3 0x24 0])).

Definition demo_page : Z := 0x5000.
Definition demo_ram : mem :=
  store32 (store32 (store32 (fun _ => 0) demo_page KM_MAGIC_MIXED) (demo_page + 4) 16) (demo_page + 8) 16.
Definition demo_heap : kheap :=
  MkHeap (MkPmem demo_ram 0 [] 0 true 0 0) demo_page 0 [].
Definition demo_pci : pci_state pci_bus := MkPci (MkCpuIo demo_bus true) demo_heap ∅ dm_zero.

Lemma demo_functions : functions (io (pc_cpu demo_pci)) = [(0, 0); (3, 0)].
Proof. vm_compute. reflexivity. Qed.

Lemma demo_head : head_at (pc_heap demo_pci) demo_page 16.
Proof. by split. Qed.

Lemma pci_scan_correct_witness : exists s' : pci_state pci_bus,
  hw_detect_pci_scan 1 demo_pci = Ret (2, s') /\ same_cfg (pc_cpu demo_pci) (pc_cpu s') /\
  dv_class <$> table_devices (pc_dm s') = [DRIVER_CLASS_MISC; DRIVER_CLASS_BLOCK].
Proof.
  destruct (pci_scan_correct demo_pci demo_page 16 0) as (s' & E & Hc & _ & _ & ds & E1 & E2 & _).
  - apply demo_head.
  - rewrite demo_functions. by repeat constructor.
  - rewrite demo_functions. by vm_compute.
  - done.
  - rewrite demo_functions. by vm_compute.
  - exists s'. rewrite demo_functions in *. split; [exact E|]. split; [exact Hc|]. rewrite E1.
    repeat match goal with H : Forall2 _ _ _ |- _ => inversion H; clear H; subst end.
    repeat match goal with H : device_of _ _ _ /\ _ |- _ => destruct H as [[_ H _ _ _] _] end.
    cbn [fmap list_fmap app table_devices]. change (table_devices (pc_dm demo_pci)) with (@nil device_t). cbn.
    repeat match goal with H : dv_class _ = _ |- _ => rewrite H; clear H end. by vm_compute.
Defined.

(** The memory range of the controller is found to be of 16 KiB. *)
Lemma pci_get_bar_size_correct_witness : exists c' : cpu pci_bus,
  pci_get_bar_size 0 3 0 0x10 0xFEBD4000 (MkCpuIo demo_bus true) = Ret (0x4000, c').
Proof.
  destruct (pci_get_bar_size_correct 0 3 0 0x10 (MkCpuIo demo_bus true)) as (size & c' & E & _ & H1 & _).
  - unfold function_ok. lia.
  - by split.
  - by vm_compute.
  - exists c'. rewrite (H1 14) in E by (lia || by vm_compute). exact E.
Defined.

(** Its 16-bit I/O range of 256 bytes is taken for one of nearly 4 GiB. *)
Example io_range_size :
  exists c' : cpu pci_bus, pci_get_bar_size 0 3 0 0x20 0xC001 (MkCpuIo demo_bus true) = Ret (0xFFFF0100, c').
Proof. eexists. vm_compute. reflexivity. Qed.
