(* ===== verification/Apic.v ===== *)
(** * Interrupt controllers (kernel/src/device/pic.c, pic.h)

    The tables of the firmware that lead to the I/O APIC, its redirection
    table and the local APIC.  What the code reaches through addresses is an
    interface, [Board]: physical memory and the registers of the two devices
    behind the mappings that the memory manager makes.  The manager's
    functions are [vmm_map_physical] and [vmm_init_lapic] of Vmm.v; the two
    fields of these names are the calls of them, and ApicVmm.v fills them
    with that code.  A read of memory where nothing is mapped is [Undef]; log
    output is left out. *)
From S2P Require Import Prelude Ports Drivers.

(** [phys_of]: what the kernel's page tables map an address to; [ram_byte]:
    physical memory; 32-bit accesses to device registers by address. *)
Class Board (P : Type) := {
  board_ports :: PortIO P;
  board_msr :: MsrIO P;
  phys_of : P -> Z -> option Z;
  ram_byte : P -> Z -> Z;
  vmm_map_physical : Z -> Z -> ST (cpu P) Z;
  vmm_init_lapic : Z -> ST (cpu P) unit;
  hhdm : Z;
  mm_read : Z -> P -> Z * P;
  mm_write : Z -> Z -> P -> P
}.

Definition IOAPIC_FALLBACK_PHYS : Z := 0xFEC00000.
Definition PIC1_DATA : Z := 0x21.
Definition PIC2_DATA : Z := 0xA1.
Definition IOAPIC_REDTBL_LOW (i : Z) : Z := 0x10 + i * 2.
Definition IOAPIC_REDTBL_HIGH (i : Z) : Z := 0x10 + i * 2 + 1.
Definition IOAPIC_REG_VER : Z := 0x01.
Definition IOAPIC_MASK_MASK : Z := Z.shiftl 1 16.
Definition IOAPIC_TRIGGER_EDGE : Z := 0.
Definition IOAPIC_POLARITY_LOW : Z := Z.shiftl 1 13.
Definition IOAPIC_DESTMODE_PHYS : Z := 0.
Definition IOAPIC_DELIVERY_FIXED : Z := 0.
Definition LAPIC_ID : Z := 0x020.
Definition LAPIC_TPR : Z := 0x080.
Definition LAPIC_EOI : Z := 0x0B0.
Definition LAPIC_SVR : Z := 0x0F0.
Definition LAPIC_ESR : Z := 0x280.
Definition LAPIC_TIMER : Z := 0x320.
Definition LAPIC_PCINT : Z := 0x340.
Definition LAPIC_LINT0 : Z := 0x350.
Definition LAPIC_LINT1 : Z := 0x360.
Definition LAPIC_ERROR : Z := 0x370.
Definition LAPIC_TICR : Z := 0x380.
Definition LAPIC_TDCR : Z := 0x3E0.
Definition LAPIC_SVR_ENABLE : Z := 0x100.
Definition LAPIC_MASKED : Z := 0x10000.
Definition LAPIC_PERIODIC : Z := 0x20000.
Definition LAPIC_X1_DIV : Z := 0xB.
Definition SPURIOUS_VECTOR : Z := 0xEF.
Definition IA32_APIC_BASE_MSR : Z := 0x1B.

(** Sizes and offsets of the packed structures of pic.h. *)
Definition SDT_HEADER_SIZE : Z := 36.
Definition SDT_LENGTH : Z := 4.
Definition MADT_LAPIC_ADDR : Z := 36.
Definition MADT_ENTRIES : Z := 44.
Definition RSDP_REVISION : Z := 15.
Definition RSDP_RSDT : Z := 16.
Definition RSDP_XSDT : Z := 24.

(** The static variables of pic.c, and the field [lapic] of the core's data. *)
Record pic (P : Type) := MkPicState {
  pic_cpu : cpu P; ioapic_mmio : Z; ioapic_gsi_base : Z; ioapic_phys : Z; madt : Z; lapic : Z
}.
Arguments MkPicState {P}. Arguments pic_cpu {P}. Arguments ioapic_mmio {P}. Arguments ioapic_gsi_base {P}.
Arguments ioapic_phys {P}. Arguments madt {P}. Arguments lapic {P}.

Section pic.
Context {P : Type} `{Board P}.

Definition set_pic_cpu (c : cpu P) (s : pic P) : pic P :=
  MkPicState c (ioapic_mmio s) (ioapic_gsi_base s) (ioapic_phys s) (madt s) (lapic s).
Definition set_ioapic_mmio (a : Z) (s : pic P) : pic P :=
  MkPicState (pic_cpu s) a (ioapic_gsi_base s) (ioapic_phys s) (madt s) (lapic s).
Definition set_ioapic_place (phys base : Z) (s : pic P) : pic P :=
  MkPicState (pic_cpu s) (ioapic_mmio s) base phys (madt s) (lapic s).
Definition set_madt (a : Z) (s : pic P) : pic P :=
  MkPicState (pic_cpu s) (ioapic_mmio s) (ioapic_gsi_base s) (ioapic_phys s) a (lapic s).
Definition set_lapic (a : Z) (s : pic P) : pic P :=
  MkPicState (pic_cpu s) (ioapic_mmio s) (ioapic_gsi_base s) (ioapic_phys s) (madt s) a.
Definition pic_io {A} (m : ST (cpu P) A) : ST (pic P) A := zoom pic_cpu set_pic_cpu m.

(** ** Device registers and mapped memory *)

Definition mmio_read (a : Z) : ST (cpu P) Z :=
  updates (fun c => let '(v, p) := mm_read a (io c) in (v, MkCpuIo p (if_flag c))).
Definition mmio_write (a v : Z) : ST (cpu P) unit :=
  st_modify (fun c => MkCpuIo (mm_write a (wrap 32 v) (io c)) (if_flag c)).

Definition peek (p : P) (a : Z) : option Z := ram_byte p <$> phys_of p a.
(** [n] little-endian bytes. *)
Fixpoint peek_le (p : P) (a : Z) (n : nat) : option Z :=
  match n with
  | O => Some 0
  | S n' => match peek p a, peek_le p (a + 1) n' with
            | Some b, Some r => Some (b + 256 * r)
            | _, _ => None
            end
  end.
Definition mem_read (a : Z) (n : nat) : ST (cpu P) Z := fun c =>
  match peek_le (io c) a n with
  | Some v => Ret (v, c)
  | None => Undef
  end.

(** ** The I/O APIC *)

Definition ioapic_read (reg : Z) : ST (pic P) Z :=
  base ← reads ioapic_mmio;
  if base =? 0 then mret 0
  else
    _ ← pic_io (mmio_write base (wrap 8 reg));
    pic_io (mmio_read (base + 16)).
Definition ioapic_read_public (reg : Z) : ST (pic P) Z := ioapic_read reg.

Definition ioapic_write (reg data : Z) : ST (pic P) unit :=
  base ← reads ioapic_mmio;
  if base =? 0 then mret tt
  else
    _ ← pic_io (mmio_write base (wrap 8 reg));
    pic_io (mmio_write (base + 16) data).

Definition ioapic_redtbl_index_for_irq (s : pic P) (irq : Z) : Z :=
  if irq <? sgn 32 (ioapic_gsi_base s) then irq else sgn 32 (irq - sgn 32 (ioapic_gsi_base s)).

(** The walk over the entries of the MADT; an entry has at least two bytes. *)
Fixpoint find_ioapic_from (fuel : nat) (p end_ : Z) : ST (pic P) unit :=
  match fuel with
  | O => st_nofuel
  | S fuel' =>
      if p + 2 <=? end_ then
        type ← pic_io (mem_read p 1);
        len ← pic_io (mem_read (p + 1) 1);
        if len <? 2 then mret tt
        else if (type =? 1) && (p + len <=? end_) then
          addr ← pic_io (mem_read (p + 4) 4);
          base ← pic_io (mem_read (p + 8) 4);
          st_modify (set_ioapic_place addr base)
        else find_ioapic_from fuel' (p + len) end_
      else mret tt
  end.
Definition find_ioapic_from_madt (fuel : nat) : ST (pic P) unit :=
  m ← reads madt;
  if m =? 0 then mret tt
  else
    len ← pic_io (mem_read (m + SDT_LENGTH) 4);
    find_ioapic_from fuel (m + MADT_ENTRIES) (m + len).

(** [memcmp] of a signature with "APIC". *)
Definition sig_apic : Z := 0x43495041.

Fixpoint find_sdt_from (n : nat) (i rsdt width : Z) : ST (pic P) Z :=
  match n with
  | O => mret 0
  | S n' =>
      entry_addr ← pic_io (mem_read (rsdt + SDT_HEADER_SIZE + width * i) (Z.to_nat width));
      hdr ← pic_io (vmm_map_physical entry_addr (wrap 64 (entry_addr + 0x1000)));
      sig ← pic_io (mem_read hdr 4);
      if sig =? sig_apic then mret hdr else find_sdt_from n' (i + 1) rsdt width
  end.
Definition find_sdt (rsdt : Z) (is_xsdt : bool) : ST (pic P) Z :=
  let width := if is_xsdt then 8 else 4 in
  len ← pic_io (mem_read (rsdt + SDT_LENGTH) 4);
  let entry_count := sgn 32 (wrap 64 (len - SDT_HEADER_SIZE) / width) in
  find_sdt_from (Z.to_nat entry_count) 0 rsdt width.

(** [rsdp_phys]: the address in the response of the boot loader. *)
Definition parse_madt (rsdp_phys : Z) : ST (pic P) Z :=
  if rsdp_phys =? 0 then mret 0
  else
    rsdp ← pic_io (vmm_map_physical rsdp_phys (wrap 64 (rsdp_phys + 0x1000)));
    rev ← pic_io (mem_read (rsdp + RSDP_REVISION) 1);
    xsdt ← (if 2 <=? rev then pic_io (mem_read (rsdp + RSDP_XSDT) 8) else mret 0);
    '(root, is_xsdt) ← (if negb (xsdt =? 0) then
                          r ← pic_io (vmm_map_physical xsdt (wrap 64 (xsdt + 0x1000)));
                          mret (r, true)
                        else
                          rsdt ← pic_io (mem_read (rsdp + RSDP_RSDT) 4);
                          r ← pic_io (vmm_map_physical rsdt (wrap 64 (rsdt + 0x1000)));
                          mret (r, false));
    found ← find_sdt root is_xsdt;
    if found =? 0 then mret 0
    else
      _ ← st_modify (set_madt found);
      pic_io (mem_read (found + MADT_LAPIC_ADDR) 4).

(** The redirection entries [i, ..., i + n - 1] are masked. *)
Fixpoint mask_entries (n : nat) (i : Z) : ST (pic P) unit :=
  match n with
  | O => mret tt
  | S n' =>
      _ ← ioapic_write (wrap 8 (IOAPIC_REDTBL_LOW i)) (Z.lor IOAPIC_MASK_MASK (T_IRQ0 + i));
      _ ← ioapic_write (wrap 8 (IOAPIC_REDTBL_HIGH i)) 0;
      mask_entries n' (i + 1)
  end.

Definition ioapic_init (fuel : nat) (rsdp_phys : Z) : ST (pic P) unit :=
  lapic_addr ← parse_madt rsdp_phys;
  if lapic_addr =? 0 then st_panic "IOAPIC: init failed: no MADT found"
  else
    _ ← find_ioapic_from_madt fuel;
    phys ← reads ioapic_phys;
    _ ← (if phys =? 0 then st_modify (set_ioapic_place IOAPIC_FALLBACK_PHYS 0) else mret tt);
    phys ← reads ioapic_phys;
    base ← pic_io (vmm_map_physical phys (wrap 64 (phys + 0x1000)));
    _ ← st_modify (set_ioapic_mmio base);
    if base =? 0 then st_panic "IOAPIC: failed to map IOAPIC MMIO"
    else
      ver ← ioapic_read IOAPIC_REG_VER;
      let maxred := Z.land (Z.shiftr ver 16) 0xFF in
      _ ← mask_entries (Z.to_nat (maxred + 1)) 0;
      _ ← pic_io (outb PIC1_DATA 0xFF);
      pic_io (outb PIC2_DATA 0xFF).

Definition ioapic_enable (irq lapic_id : Z) : ST (pic P) unit :=
  base ← reads ioapic_mmio;
  if base =? 0 then mret tt
  else
    idx ← reads (fun s => ioapic_redtbl_index_for_irq s irq);
    let vector := wrap 8 (T_IRQ0 + irq) in
    let low := Z.lor (Z.lor (Z.lor (Z.lor vector IOAPIC_DELIVERY_FIXED) IOAPIC_DESTMODE_PHYS)
                 IOAPIC_POLARITY_LOW) IOAPIC_TRIGGER_EDGE in
    let low := Z.land low (wrap 32 (Z.lnot IOAPIC_MASK_MASK)) in
    let high := wrap 32 (Z.shiftl (Z.land lapic_id 0xFF) 24) in
    _ ← ioapic_write (wrap 8 (IOAPIC_REDTBL_LOW idx)) low;
    _ ← ioapic_write (wrap 8 (IOAPIC_REDTBL_HIGH idx)) high;
    _ ← ioapic_read (wrap 8 (IOAPIC_REDTBL_LOW idx));
    _ ← ioapic_read (wrap 8 (IOAPIC_REDTBL_HIGH idx));
    mret tt.

Definition ioapic_disable (irq : Z) : ST (pic P) unit :=
  base ← reads ioapic_mmio;
  if base =? 0 then mret tt
  else
    idx ← reads (fun s => ioapic_redtbl_index_for_irq s irq);
    low ← ioapic_read (wrap 8 (IOAPIC_REDTBL_LOW idx));
    ioapic_write (wrap 8 (IOAPIC_REDTBL_LOW idx)) (Z.lor low IOAPIC_MASK_MASK).

(** ** The local APIC *)

Definition cpu_get_apic_base : ST (pic P) Z :=
  msr ← pic_io (rdmsr IA32_APIC_BASE_MSR); mret (Z.land msr 0xfffff000).

Definition lapic_write (off val : Z) : ST (pic P) unit :=
  base ← reads lapic;
  _ ← pic_io (mmio_write (base + off / 4 * 4) val);
  _ ← pic_io (mmio_read (base + LAPIC_ID / 4 * 4));
  mret tt.
Definition lapic_read (off : Z) : ST (pic P) Z :=
  base ← reads lapic; pic_io (mmio_read (base + off / 4 * 4)).
Definition lapic_send_eoi : ST (pic P) unit := lapic_write LAPIC_EOI 0.
Definition lapic_get_id : ST (pic P) Z := id ← lapic_read LAPIC_ID; mret (Z.shiftr id 24).

Definition lapic_init : ST (pic P) unit :=
  apic_msr ← cpu_get_apic_base;
  _ ← pic_io (vmm_init_lapic apic_msr);
  _ ← st_modify (set_lapic (wrap 64 (apic_msr + hhdm)));
  _ ← pic_io (wrmsr IA32_APIC_BASE_MSR (Z.lor apic_msr (Z.shiftl 1 11)));
  _ ← lapic_write LAPIC_SVR (Z.lor SPURIOUS_VECTOR LAPIC_SVR_ENABLE);
  _ ← lapic_write LAPIC_LINT0 LAPIC_MASKED;
  _ ← lapic_write LAPIC_LINT1 LAPIC_MASKED;
  _ ← lapic_write LAPIC_ERROR LAPIC_MASKED;
  _ ← lapic_write LAPIC_TIMER LAPIC_MASKED;
  _ ← lapic_write LAPIC_PCINT LAPIC_MASKED;
  _ ← lapic_write LAPIC_ESR 0;
  _ ← lapic_read LAPIC_ESR;
  _ ← lapic_write LAPIC_EOI 0;
  _ ← lapic_write LAPIC_TPR 0;
  _ ← lapic_read LAPIC_ID;
  mret tt.

(** [sched_timer_init] (userspace/scheduler.c) up to the gate of the timer:
    [tsc_freq] is what the clock driver answers. *)
Definition SCHED_TIMER_FREQ_HZ : Z := 1000.
Definition sched_timer_init (tsc_freq : Z) : ST (pic P) unit :=
  let ticks_per_interrupt := tsc_freq / SCHED_TIMER_FREQ_HZ in
  _ ← lapic_write LAPIC_TIMER LAPIC_MASKED;
  _ ← lapic_write LAPIC_TDCR LAPIC_X1_DIV;
  _ ← lapic_write LAPIC_TICR (wrap 32 ticks_per_interrupt);
  lapic_write LAPIC_TIMER (Z.lor T_IRQ0 LAPIC_PERIODIC).
End pic.
