(* ===== verification/ApicFacts.v ===== *)
(** * What the interrupt controllers are set to (about the definitions of Apic.v)

    [BoardLaws] is the documented behaviour of the two controllers, and what
    the memory manager promises (ApicVmm.v has its code keep the promise).  From the tables of the firmware
    [ioapic_init] finds the I/O APIC and masks all of it
    ([ioapic_init_correct]); [ioapic_enable] and [ioapic_disable] then change
    one entry ([ioapic_enable_correct]); the local APIC is left with its
    timer ticking ([apic_timer_correct]). *)
From S2P Require Import Prelude Ports Drivers Apic.

(** Bits software programs: of a redirection entry (two registers of the I/O
    APIC, delivery status and remote IRR being read-only), and of the
    registers of the local APIC the kernel writes. *)
Definition redtbl_mask (r : Z) : Z := if r mod 2 =? 0 then 0x1AFFF else 0xFF000000.
Definition lapic_mask (off : Z) : Z :=
  if off =? LAPIC_SVR then 0x1FF else if off =? LAPIC_TIMER then 0x700FF
  else if off =? LAPIC_LINT0 then 0x1A7FF else if off =? LAPIC_LINT1 then 0x1A7FF
  else if off =? LAPIC_ERROR then 0x100FF else if off =? LAPIC_PCINT then 0x107FF
  else if off =? LAPIC_TPR then 0xFF else if off =? LAPIC_TDCR then 0xB
  else if off =? LAPIC_TICR then 0xFFFFFFFF else 0.

Section view.
Context {P : Type} `{Board P}.

(** [n] little-endian bytes of physical memory. *)
Fixpoint phys_le (p : P) (a : Z) (n : nat) : Z :=
  match n with O => 0 | S n' => ram_byte p a + 256 * phys_le p (a + 1) n' end.
(** A page that is mapped at [va]. *)
Definition window (p : P) (va pa : Z) : Prop := forall k, 0 <= k < 4096 -> phys_of p (va + k) = Some (pa + k).
End view.

(** [ioapic_at], [lapic_at]: physical addresses of the controllers;
    [io_sel], [io_reg]: index register and registers of the I/O APIC, which
    has [io_entries] redirection entries; [lapic_reg]: registers of the local
    APIC, [eois]: the interrupts that were acknowledged there; [imr]: the mask
    of a PIC by its port; [firmware]: memory the machine keeps for its tables;
    [maps_left]: so many mappings there are pages for; [lapic_unmapped]: the
    local APIC can be mapped. *)
Class BoardLaws (P : Type) `{Board P} := {
  ioapic_at : Z; lapic_at : Z; io_entries : Z; firmware : Z -> Prop;
  io_sel : P -> Z; io_reg : P -> Z -> Z; lapic_reg : P -> Z -> Z; eois : P -> Z; imr : P -> Z -> Z;
  maps_left : P -> nat -> Prop; lapic_unmapped : P -> Prop;
  io_reg_range p r : 0 <= io_reg p r < 2 ^ 32;
  law_version p : 1 <= io_entries <= 240 /\ Z.land (Z.shiftr (io_reg p 1) 16) 0xFF = io_entries - 1;
  law_select p va v : phys_of p va = Some ioapic_at -> 0 <= v < 256 -> let p' := mm_write va v p in
    io_sel p' = v /\ (forall r, io_reg p' r = io_reg p r) /\ (forall a, phys_of p' a = phys_of p a) /\
    (forall x, imr p' x = imr p x);
  law_window_read p va : phys_of p va = Some (ioapic_at + 16) -> mm_read va p = (io_reg p (io_sel p), p);
  law_window_write p va v : phys_of p va = Some (ioapic_at + 16) -> 0 <= v < 2 ^ 32 -> let p' := mm_write va v p in
    (forall r, r <> io_sel p -> io_reg p' r = io_reg p r) /\
    (0x10 <= io_sel p < 0x10 + 2 * io_entries ->
       Z.land (io_reg p' (io_sel p)) (redtbl_mask (io_sel p)) = Z.land v (redtbl_mask (io_sel p))) /\
    (forall a, phys_of p' a = phys_of p a) /\ (forall x, imr p' x = imr p x);
  law_imr p x v : x = PIC1_DATA \/ x = PIC2_DATA -> 0 <= v < 256 -> let p' := port_out 1 x v p in
    imr p' x = v /\ (forall y, y <> x -> imr p' y = imr p y) /\ (forall r, io_reg p' r = io_reg p r) /\
    (forall a, phys_of p' a = phys_of p a);
  law_map p f s n : 0 <= s -> s + 4096 < 2 ^ 32 -> maps_left p (S n) -> exists va p',
    vmm_map_physical s (s + 4096) (MkCpuIo p f) = Ret (va, MkCpuIo p' f) /\ 0 < va /\ va + 4096 <= 2 ^ 64 /\
    window p' va s /\ (forall a x, phys_of p a = Some x -> phys_of p' a = Some x) /\
    maps_left p' n /\ (forall a, firmware a -> ram_byte p' a = ram_byte p a) /\
    (forall r, io_reg p' r = io_reg p r);
  law_map_lapic p f : 0 < lapic_at + hhdm -> lapic_unmapped p -> exists p', vmm_init_lapic lapic_at (MkCpuIo p f) = Ret (tt, MkCpuIo p' f) /\
    window p' (lapic_at + hhdm) lapic_at /\ (forall a, msr_in a p' = msr_in a p);
  law_lapic_read p va k : window p va lapic_at -> 0 <= k < 4096 -> k mod 16 = 0 -> exists v, mm_read (va + k) p = (v, p);
  law_lapic_write p va k v : window p va lapic_at -> 0 <= k < 4096 -> k mod 16 = 0 -> 0 <= v < 2 ^ 32 ->
    (k = LAPIC_SVR -> Z.testbit v 8 = true) -> let p' := mm_write (va + k) v p in
    Z.land (lapic_reg p' k) (lapic_mask k) = Z.land v (lapic_mask k) /\
    (forall k', k' <> k -> Z.land (lapic_reg p' k') (lapic_mask k') = Z.land (lapic_reg p k') (lapic_mask k')) /\
    (forall a, phys_of p' a = phys_of p a) /\ (forall a, msr_in a p' = msr_in a p) /\
    eois p' = eois p + (if k =? LAPIC_EOI then 1 else 0);
  law_apic_base p lo hi : lo mod 4096 = Z.shiftl 1 11 -> let p' := msr_out IA32_APIC_BASE_MSR lo hi p in
    msr_in IA32_APIC_BASE_MSR p' = (lo, hi) /\ (forall a, phys_of p' a = phys_of p a) /\
    (forall k, lapic_reg p' k = lapic_reg p k)
}.

Section facts.
Context {P : Type} `{BL : BoardLaws P}.
Implicit Types (p : P) (s : pic P).

Definition pic_p (s : pic P) : P := io (pic_cpu s).
Definition set_io (p : P) (s : pic P) : pic P := set_pic_cpu (MkCpuIo p (if_flag (pic_cpu s))) s.

(** ** Reading mapped memory *)

Lemma mem_read_run a n v s : peek_le (pic_p s) a n = Some v -> pic_io (mem_read a n) s = Ret (v, s).
Proof.
  intros E. unfold pic_io, zoom, mem_read. fold (pic_p s). rewrite E. unfold set_pic_cpu. by destruct s.
Qed.

Lemma peek_window p va pa o n : window p va pa -> 0 <= o -> o + Z.of_nat n <= 4096 ->
  peek_le p (va + o) n = Some (phys_le p (pa + o) n).
Proof.
  intros Hw. revert o. induction n as [|n IH]; intros o Ho Hn; [done|]. cbn [peek_le phys_le].
  unfold peek. rewrite (Hw o) by lia. cbn [fmap option_fmap option_map].
  replace (va + o + 1) with (va + (o + 1)) by lia. replace (pa + o + 1) with (pa + (o + 1)) by lia.
  by rewrite IH by lia.
Qed.

(** A page of firmware tables below 4 GiB. *)
Definition table_at (t : Z) : Prop := 0 < t /\ t + 4096 < 2 ^ 32 /\ forall k, 0 <= k < 4096 -> firmware (t + k).

(** [p'] comes after [p] in the walk over the tables. *)
Record later p p' : Prop := {
  lt_map a x : phys_of p a = Some x -> phys_of p' a = Some x;
  lt_ram a : firmware a -> ram_byte p' a = ram_byte p a;
  lt_io r : io_reg p' r = io_reg p r
}.
Lemma later_refl p : later p p.
Proof. by split. Qed.
Lemma later_trans p1 p2 p3 : later p1 p2 -> later p2 p3 -> later p1 p3.
Proof.
  intros [A1 A2 A3] [B1 B2 B3]. split; [eauto| |].
  - intros a Ha. by rewrite B2, A2.
  - intros r. by rewrite B3, A3.
Qed.

Lemma phys_le_later p p' t o n : later p p' -> table_at t -> 0 <= o -> o + Z.of_nat n <= 4096 ->
  phys_le p' (t + o) n = phys_le p (t + o) n.
Proof.
  intros Hl Ht. destruct Ht as (_ & _ & Hf). revert o. induction n as [|n IH]; intros o Ho Hn; [done|]. cbn [phys_le].
  rewrite (lt_ram _ _ Hl) by (apply Hf; lia). replace (t + o + 1) with (t + (o + 1)) by lia. by rewrite IH by lia.
Qed.

Lemma window_later p p' va pa : later p p' -> window p va pa -> window p' va pa.
Proof. intros Hl Hw k Hk. by apply (lt_map _ _ Hl), Hw. Qed.

(** A field of a mapped table. *)
Lemma table_read s p0 va t o n : window (pic_p s) va t -> table_at t -> later p0 (pic_p s) -> 0 <= o -> o + Z.of_nat n <= 4096 ->
  pic_io (mem_read (va + o) n) s = Ret (phys_le p0 (t + o) n, s).
Proof.
  intros Hw Ht Hl Ho Hn. apply mem_read_run. rewrite (peek_window _ _ t) by done. f_equal. by apply phys_le_later.
Qed.

Lemma map_run s t n : 0 <= t -> t + 4096 < 2 ^ 32 -> maps_left (pic_p s) (S n) -> exists va p',
  pic_io (vmm_map_physical t (wrap 64 (t + 0x1000))) s = Ret (va, set_io p' s) /\ 0 < va /\ window p' va t /\
  later (pic_p s) p' /\ maps_left p' n.
Proof.
  intros H0 H1 Hm. destruct (law_map (pic_p s) (if_flag (pic_cpu s)) t n H0 H1 Hm) as (va & p' & E & V1 & _ & V3 & V4 & V5 & V6 & V7).
  exists va, p'. split; [|split; [done|split; [done|split; [by split|done]]]]. change 0x1000 with 4096. rewrite wrap_small by lia. unfold set_io.
  apply zoom_run. unfold pic_p in E. by destruct (pic_cpu s).
Qed.

(** ** The tables of the firmware *)

(** The entries of the MADT between two addresses, as (type, length); those
    of an I/O APIC have the twelve bytes of their structure. *)
Fixpoint entries_at p (a end_ : Z) (es : list (Z * Z)) : Prop :=
  match es with
  | [] => a = end_
  | (type, len) :: es' =>
      phys_le p a 1 = type /\ phys_le p (a + 1) 1 = len /\ 2 <= len < 256 /\ a + len <= end_ /\
      (type = 1 -> len = 12) /\ entries_at p (a + len) end_ es'
  end.
(** Where the first entry of an I/O APIC is. *)
Fixpoint first_ioapic (a : Z) (es : list (Z * Z)) : option Z :=
  match es with
  | [] => None
  | (type, len) :: es' => if type =? 1 then Some a else first_ioapic (a + len) es'
  end.

Lemma first_ioapic_range p es : forall a end_ x, entries_at p a end_ es -> first_ioapic a es = Some x -> a <= x /\ x + 12 <= end_.
Proof.
  induction es as [|[ty len] es IH]; intros a end_ x He Hx; [done|]. cbn [entries_at first_ioapic] in *.
  destruct He as (_ & _ & Hl & Hle & H1 & He). destruct (Z.eqb_spec ty 1) as [E|_].
  - injection Hx as <-. specialize (H1 E). lia.
  - destruct (IH _ _ _ He Hx). lia.
Qed.

Definition place_of p (a : option Z) : option (Z * Z) :=
  match a with Some x => Some (phys_le p (x + 4) 4, phys_le p (x + 8) 4) | None => None end.

Lemma find_ioapic_run s p0 va t : window (pic_p s) va t -> table_at t -> later p0 (pic_p s) -> forall es a end_ fuel,
  entries_at p0 a end_ es -> t <= a -> end_ <= t + 4096 -> (length es < fuel)%nat ->
  find_ioapic_from fuel (va + (a - t)) (va + (end_ - t)) s =
  Ret (tt, match place_of p0 (first_ioapic a es) with Some (x, b) => set_ioapic_place x b s | None => s end).
Proof.
  intros Hw Ht Hl. induction es as [|[ty len] es IH]; intros a end_ [|fuel] He Ha Hend Hfuel; cbn [length] in Hfuel; try lia;
    cbn [find_ioapic_from entries_at first_ioapic] in *.
  { subst end_. destruct (Z.leb_spec (va + (a - t) + 2) (va + (a - t))); [lia|done]. }
  destruct He as (E1 & E2 & Hlen & Hle & H1 & He).
  destruct (Z.leb_spec (va + (a - t) + 2) (va + (end_ - t))); [|lia].
  assert (forall o n, 0 <= o -> a + o + Z.of_nat n <= end_ ->
    pic_io (mem_read (va + (a - t) + o) n) s = Ret (phys_le p0 (a + o) n, s)) as Hread.
  { intros o n Ho Hn. replace (va + (a - t) + o) with (va + (a - t + o)) by lia.
    rewrite (table_read s p0 va t) by (done || lia). do 3 f_equal. lia. }
  pose proof (Hread 0 1%nat) as R0. rewrite !Z.add_0_r in R0. rewrite (bind_step _ _ _ _ _ (R0 ltac:(lia) ltac:(lia))), E1.
  rewrite (bind_step _ _ _ _ _ (Hread 1 1%nat ltac:(lia) ltac:(lia))), E2.
  destruct (Z.ltb_spec len 2); [lia|]. destruct (Z.eqb_spec ty 1) as [->|N]; cbn [andb].
  - specialize (H1 eq_refl). destruct (Z.leb_spec (va + (a - t) + len) (va + (end_ - t))); [|lia].
    rewrite (bind_step _ _ _ _ _ (Hread 4 4%nat ltac:(lia) ltac:(lia))), (bind_step _ _ _ _ _ (Hread 8 4%nat ltac:(lia) ltac:(lia))).
    done.
  - replace (va + (a - t) + len) with (va + (a + len - t)) by lia. apply IH; [done|lia..].
Qed.

(** The addresses of the other tables in the root table, [w] bytes each. *)
Definition root_lists p (root w : Z) (tables : list Z) : Prop :=
  (w = 4 \/ w = 8) /\ phys_le p (root + SDT_LENGTH) 4 = SDT_HEADER_SIZE + w * zlen tables /\
  SDT_HEADER_SIZE + w * zlen tables <= 4096 /\
  (forall i t, tables !! i = Some t -> phys_le p (root + (SDT_HEADER_SIZE + w * Z.of_nat i)) (Z.to_nat w) = t) /\
  Forall table_at tables.

(** [s'] is [s] with other machine state that comes later. *)
Definition io_later s s' : Prop := exists p', s' = set_io p' s /\ later (pic_p s) p'.

Lemma set_io_io p1 p2 s : set_io p1 (set_io p2 s) = set_io p1 s.
Proof. done. Qed.

Lemma find_sdt_run p0 va root w tables madt_at post : table_at root -> root_lists p0 root w tables ->
  phys_le p0 (madt_at + 0) 4 = sig_apic ->
  forall pre i n s, window (pic_p s) va root -> later p0 (pic_p s) -> drop i tables = pre ++ madt_at :: post ->
  Forall (fun t => phys_le p0 (t + 0) 4 <> sig_apic) pre -> maps_left (pic_p s) (S (length pre + n)) ->
  exists hdr p', find_sdt_from (length tables - i) (Z.of_nat i) va w s = Ret (hdr, set_io p' s) /\ 0 < hdr /\
    window p' hdr madt_at /\ later (pic_p s) p' /\ maps_left p' n.
Proof.
  intros Hroot (Hw & _ & Hsz & Hent & Hts) Hsig. induction pre as [|t pre IH]; intros i n s Hwin Hl Hd Hpre Hm.
  all: assert (tables !! i = Some (hd 0 (drop i tables))) as Hi by (pose proof (lookup_drop tables i 0) as X; rewrite Nat.add_0_r in X; by rewrite <- X, Hd).
  all: rewrite Hd in Hi; cbn [app hd] in Hi; pose proof (lookup_lt_Some _ _ _ Hi) as Hlt.
  all: pose proof (proj1 (Forall_lookup _ _) Hts _ _ Hi) as Ht; pose proof (Hent _ _ Hi) as He.
  all: destruct (length tables - i)%nat as [|k] eqn:Ek; [lia|]; cbn [find_sdt_from].
  all: assert (va + SDT_HEADER_SIZE + w * Z.of_nat i = va + (SDT_HEADER_SIZE + w * Z.of_nat i)) as -> by lia.
  all: unfold zlen in Hsz; assert (0 <= SDT_HEADER_SIZE + w * Z.of_nat i) as Ho1 by (unfold SDT_HEADER_SIZE; destruct Hw; lia).
  all: assert (SDT_HEADER_SIZE + w * Z.of_nat i + Z.of_nat (Z.to_nat w) <= 4096) as Ho2 by (destruct Hw; subst w; lia).
  all: rewrite (bind_step _ _ _ _ _ (table_read s p0 va root _ _ Hwin Hroot Hl Ho1 Ho2)), He.
  all: destruct Ht as (Ht0 & Ht1 & Ht2); destruct (map_run s _ _ (Z.lt_le_incl _ _ Ht0) Ht1 Hm) as (hdr & p1 & E1 & V1 & W1 & L1 & M1).
  all: rewrite (bind_step _ _ _ _ _ E1); clear E1.
  all: assert (later p0 p1) as Hl1 by (by apply (later_trans p0 (pic_p s))).
  all: pose proof (table_read (set_io p1 s) p0 hdr _ 0 4 W1 (conj Ht0 (conj Ht1 Ht2)) Hl1 ltac:(lia) ltac:(lia)) as R; rewrite (Z.add_0_r hdr) in R.
  all: rewrite (bind_step _ _ _ _ _ R); clear R.
  - rewrite Hsig, Z.eqb_refl. exists hdr, p1. done.
  - apply Forall_cons in Hpre as [Hn Hpre]. destruct (Z.eqb_spec (phys_le p0 (t + 0) 4) sig_apic); [done|].
    destruct (IH (S i) n (set_io p1 s)) as (h & p' & E2 & V2 & W2 & L2 & M2).
    + by apply (window_later (pic_p s)).
    + done.
    + apply (f_equal (drop 1)) in Hd. rewrite drop_drop in Hd. by replace (S i) with (i + 1)%nat by lia.
    + done.
    + exact M1.
    + exists h, p'. replace (Z.of_nat (S i)) with (Z.of_nat i + 1) in E2 by lia.
      replace (length tables - S i)%nat with k in E2 by lia. rewrite E2. split; [done|]. split; [done|]. split; [done|].
      split; [by apply (later_trans _ p1)|done].
Qed.

(** ** What the firmware says *)

(** RSDP, root table of [w]-byte addresses, the tables it lists with the MADT
    among them, and the entries of the MADT. *)
Record acpi p (rsdp root w : Z) (tables pre : list Z) (madt_at : Z) (post : list Z) (es : list (Z * Z)) : Prop := {
  ac_rsdp : table_at rsdp;
  ac_root : table_at root;
  ac_kind : (w = 8 /\ 2 <= phys_le p (rsdp + RSDP_REVISION) 1 /\ phys_le p (rsdp + RSDP_XSDT) 8 = root) \/
            (w = 4 /\ (phys_le p (rsdp + RSDP_REVISION) 1 < 2 \/ phys_le p (rsdp + RSDP_XSDT) 8 = 0) /\
             phys_le p (rsdp + RSDP_RSDT) 4 = root);
  ac_tables : root_lists p root w tables;
  ac_split : tables = pre ++ madt_at :: post;
  ac_sig : phys_le p (madt_at + 0) 4 = sig_apic;
  ac_pre : Forall (fun t => phys_le p (t + 0) 4 <> sig_apic) pre;
  ac_entries : entries_at p (madt_at + MADT_ENTRIES) (madt_at + phys_le p (madt_at + SDT_LENGTH) 4) es;
  ac_length : phys_le p (madt_at + SDT_LENGTH) 4 <= 4096;
  ac_lapic : phys_le p (madt_at + MADT_LAPIC_ADDR) 4 <> 0
}.

Lemma acpi_madt p rsdp root w tables pre m post es : acpi p rsdp root w tables pre m post es -> table_at m.
Proof.
  intros [_ _ _ (_ & _ & _ & _ & Hts) -> _ _ _ _ _]. apply Forall_app in Hts as [_ Hts]. by apply Forall_cons in Hts as [? _].
Qed.

Lemma find_sdt_spec p0 va root w tables pre m post n s : table_at root -> root_lists p0 root w tables ->
  phys_le p0 (m + 0) 4 = sig_apic -> Forall (fun t => phys_le p0 (t + 0) 4 <> sig_apic) pre -> tables = pre ++ m :: post ->
  window (pic_p s) va root -> later p0 (pic_p s) -> maps_left (pic_p s) (S (length pre + n)) ->
  exists hdr p', find_sdt va (w =? 8) s = Ret (hdr, set_io p' s) /\ 0 < hdr /\
    window p' hdr m /\ later (pic_p s) p' /\ maps_left p' n.
Proof.
  intros Hroot Hl Hsig Hpre Hs Hw Hlt Hm. pose proof Hl as (Hw48 & Hlen & Hsz & _).
  destruct (find_sdt_run p0 va root w tables m post Hroot Hl Hsig pre 0 n s Hw Hlt Hs Hpre Hm) as (hdr & p' & E & HR).
  exists hdr, p'. split; [|exact HR]. unfold find_sdt.
  rewrite (bind_step _ _ _ _ _ (table_read s p0 va root SDT_LENGTH 4 Hw Hroot Hlt ltac:(done) ltac:(done))), Hlen.
  cbv zeta. unfold zlen, SDT_HEADER_SIZE in *. rewrite (wrap_small 64) by lia.
  replace (36 + w * Z.of_nat (length tables) - 36) with (Z.of_nat (length tables) * w) by lia.
  assert ((if w =? 8 then 8 else 4) = w) as -> by (destruct Hw48; by subst w). rewrite Z.div_mul by lia.
  rewrite sgn_small by lia. rewrite Nat2Z.id. rewrite Nat.sub_0_r in E. exact E.
Qed.

Lemma parse_madt_run s rsdp root w tables pre m post es n : acpi (pic_p s) rsdp root w tables pre m post es ->
  maps_left (pic_p s) (S (S (S (length pre + n)))) ->
  exists va p', parse_madt rsdp s = Ret (phys_le (pic_p s) (m + MADT_LAPIC_ADDR) 4, set_madt va (set_io p' s)) /\
    0 < va /\ window p' va m /\ later (pic_p s) p' /\ maps_left p' n.
Proof.
  intros HA Hm. pose proof (acpi_madt _ _ _ _ _ _ _ _ _ HA) as Hmt. destruct HA as [Ar Aq Ak At As Ag Ap Ae Al An].
  unfold parse_madt. destruct (Z.eqb_spec rsdp 0) as [->|_]; [by destruct Ar|]. pose proof Ar as (R0 & R1 & _).
  destruct (map_run s rsdp _ (Z.lt_le_incl _ _ R0) R1 Hm) as (v1 & p1 & E1 & V1 & W1 & L1 & M1).
  rewrite (bind_step _ _ _ _ _ E1). clear E1. pose proof Aq as (Q0 & Q1 & _).
  assert (forall o n, 0 <= o -> o + Z.of_nat n <= 4096 ->
    pic_io (mem_read (v1 + o) n) (set_io p1 s) = Ret (phys_le (pic_p s) (rsdp + o) n, set_io p1 s)) as Hread.
  { intros o k Ho Hk. by apply table_read. }
  rewrite (bind_step _ _ _ _ _ (Hread RSDP_REVISION 1%nat ltac:(done) ltac:(done))).
  assert (exists va p2 x, ((xsdt ← (if 2 <=? phys_le (pic_p s) (rsdp + RSDP_REVISION) 1
        then pic_io (mem_read (v1 + RSDP_XSDT) 8) else mret 0);
      if negb (xsdt =? 0) then r ← pic_io (vmm_map_physical xsdt (wrap 64 (xsdt + 0x1000))); mret (r, true)
      else rsdt ← pic_io (mem_read (v1 + RSDP_RSDT) 4);
        r ← pic_io (vmm_map_physical rsdt (wrap 64 (rsdt + 0x1000))); mret (r, false)) : ST (pic P) (Z * bool)) (set_io p1 s)
      = Ret ((va, x), set_io p2 s) /\ x = (w =? 8) /\ window p2 va root /\ later p1 p2 /\ maps_left p2 (S (length pre + n))) as Hroot.
  { destruct (map_run (set_io p1 s) root _ (Z.lt_le_incl _ _ Q0) Q1 M1)
      as (v2 & p2 & E2 & V2 & W2 & L2 & M2). exists v2, p2, (w =? 8). split; [|done].
    destruct Ak as [(-> & K1 & K2)|(-> & K1 & K2)].
    - destruct (Z.leb_spec 2 (phys_le (pic_p s) (rsdp + RSDP_REVISION) 1)); [|lia].
      rewrite (bind_step _ _ _ _ _ (Hread RSDP_XSDT 8%nat ltac:(done) ltac:(done))), K2.
      destruct (Z.eqb_spec root 0); [lia|]. cbn [negb]. by rewrite (bind_step _ _ _ _ _ E2).
    - assert (exists x, (if 2 <=? phys_le (pic_p s) (rsdp + RSDP_REVISION) 1 then pic_io (mem_read (v1 + RSDP_XSDT) 8) else mret 0)
        (set_io p1 s) = Ret (x, set_io p1 s) /\ x = 0) as (x & Ex & ->).
      { destruct (Z.leb_spec 2 (phys_le (pic_p s) (rsdp + RSDP_REVISION) 1)); [|by exists 0].
        exists (phys_le (pic_p s) (rsdp + RSDP_XSDT) 8). split; [by apply Hread|lia]. }
      rewrite (bind_step _ _ _ _ _ Ex). cbn [negb Z.eqb].
      rewrite (bind_step _ _ _ _ _ (Hread RSDP_RSDT 4%nat ltac:(done) ltac:(done))), K2.
      by rewrite (bind_step _ _ _ _ _ E2). }
  destruct Hroot as (v2 & p2 & x & E2 & -> & W2 & L2 & M2).
  assert (later (pic_p s) p2) as L02 by (by apply (later_trans _ p1)).
  destruct (find_sdt_spec (pic_p s) v2 root w tables pre m post n (set_io p2 s) Aq At Ag Ap As W2 L02 M2) as (v3 & p3 & E3 & V3 & W3 & L3 & M3).
  exists v3, p3. split; [|split; [done|split; [done|split; [by apply (later_trans _ p2)|done]]]].
  unfold mbind, st_bind in E2 |- *. revert E2. clear - E3 V3 W3 L3 L02 Hmt.
  destruct ((if 2 <=? phys_le (pic_p s) (rsdp + RSDP_REVISION) 1 then pic_io (mem_read (v1 + RSDP_XSDT) 8) else mret 0) (set_io p1 s))
    as [[xs s1]| | |]; intros E2; try done. rewrite E2. rewrite E3.
  destruct (Z.eqb_spec v3 0); [lia|]. cbn [st_modify].
  assert (later (pic_p s) p3) as L03 by (by apply (later_trans _ p2)).
  exact (table_read (set_madt v3 (set_io p3 s)) (pic_p s) v3 m MADT_LAPIC_ADDR 4 W3 Hmt L03 ltac:(done) ltac:(done)).
Qed.

(** ** The redirection table *)

Definition io_ready s : Prop := ioapic_mmio s <> 0 /\ phys_of (pic_p s) (ioapic_mmio s) = Some ioapic_at /\
  phys_of (pic_p s) (ioapic_mmio s + 16) = Some (ioapic_at + 16).

(** The registers and the mapping are the same. *)
Record same_io p p' : Prop := {
  si_reg r : io_reg p' r = io_reg p r;
  si_map a : phys_of p' a = phys_of p a;
  si_imr x : imr p' x = imr p x
}.
(** Register [r] was written. *)
Record wrote p r v p' : Prop := {
  wr_map a : phys_of p' a = phys_of p a;
  wr_imr x : imr p' x = imr p x;
  wr_other r' : r' <> r -> io_reg p' r' = io_reg p r';
  wr_reg : 0x10 <= r < 0x10 + 2 * io_entries -> Z.land (io_reg p' r) (redtbl_mask r) = Z.land v (redtbl_mask r)
}.

Lemma io_ready_map s p' : io_ready s -> (forall a, phys_of p' a = phys_of (pic_p s) a) -> io_ready (set_io p' s).
Proof. intros (R1 & R2 & R3) Hm. unfold io_ready. cbn. rewrite !Hm. done. Qed.

Lemma mmio_write_run a v s : pic_io (mmio_write a v) s = Ret (tt, set_io (mm_write a (wrap 32 v) (pic_p s)) s).
Proof. done. Qed.
Lemma mmio_read_run a s v p' : mm_read a (pic_p s) = (v, p') -> pic_io (mmio_read a) s = Ret (v, set_io p' s).
Proof. intros E. unfold pic_io, zoom, mmio_read, updates. fold (pic_p s). by rewrite E. Qed.

Lemma ioapic_read_run s r : io_ready s -> 0 <= r < 256 ->
  exists p', ioapic_read r s = Ret (io_reg (pic_p s) r, set_io p' s) /\ same_io (pic_p s) p'.
Proof.
  intros (R1 & R2 & R3) Hr. unfold ioapic_read. rewrite (bind_step _ _ _ _ _ eq_refl).
  destruct (Z.eqb_spec (ioapic_mmio s) 0); [done|]. rewrite (bind_step _ _ _ _ _ (mmio_write_run _ _ _)).
  rewrite (wrap_small 8 r), (wrap_small 32 r) by lia.
  destruct (law_select (pic_p s) _ r R2 Hr) as (L1 & L2 & L3 & L4). set (p1 := mm_write (ioapic_mmio s) r (pic_p s)) in *.
  exists p1. split; [|by split]. pose proof (law_window_read p1 (ioapic_mmio s + 16) ltac:(by rewrite L3)) as LR.
  rewrite (mmio_read_run _ (set_io p1 s) _ _ LR). by rewrite L1, L2.
Qed.

Lemma ioapic_write_run s r v : io_ready s -> 0 <= r < 256 -> 0 <= v < 2 ^ 32 ->
  exists p', ioapic_write r v s = Ret (tt, set_io p' s) /\ wrote (pic_p s) r v p'.
Proof.
  intros (R1 & R2 & R3) Hr Hv. unfold ioapic_write. rewrite (bind_step _ _ _ _ _ eq_refl).
  destruct (Z.eqb_spec (ioapic_mmio s) 0); [done|]. rewrite (bind_step _ _ _ _ _ (mmio_write_run _ _ _)).
  rewrite (wrap_small 8 r), (wrap_small 32 r) by lia.
  destruct (law_select (pic_p s) _ r R2 Hr) as (L1 & L2 & L3 & L4). set (p1 := mm_write (ioapic_mmio s) r (pic_p s)) in *.
  rewrite mmio_write_run, (wrap_small 32 v) by done. change (pic_p (set_io p1 s)) with p1.
  destruct (law_window_write p1 (ioapic_mmio s + 16) v ltac:(by rewrite L3) Hv) as (W1 & W2 & W3 & W4). rewrite L1 in *.
  exists (mm_write (ioapic_mmio s + 16) v p1). split; [done|]. split; [intros a; by rewrite W3, L3|intros x; by rewrite W4, L4| |done].
  intros r' Hr'. by rewrite W1, L2.
Qed.

(** What is programmed in entry [i]: its low and its high half. *)
Definition redirection p (i : Z) : Z * Z :=
  (Z.land (io_reg p (IOAPIC_REDTBL_LOW i)) 0x1AFFF, Z.land (io_reg p (IOAPIC_REDTBL_HIGH i)) 0xFF000000).

Lemma redtbl_masks i : redtbl_mask (IOAPIC_REDTBL_LOW i) = 0x1AFFF /\ redtbl_mask (IOAPIC_REDTBL_HIGH i) = 0xFF000000.
Proof.
  unfold redtbl_mask, IOAPIC_REDTBL_LOW, IOAPIC_REDTBL_HIGH.
  replace (0x10 + i * 2) with ((8 + i) * 2) by lia. rewrite Z.mod_mul by lia.
  replace ((8 + i) * 2 + 1) with (1 + (8 + i) * 2) by lia. by rewrite Z.mod_add by lia.
Qed.

(** Both halves of an entry written, low half first. *)
Lemma write_entry p p1 p2 i lo hi : 0 <= i < io_entries -> wrote p (IOAPIC_REDTBL_LOW i) lo p1 ->
  wrote p1 (IOAPIC_REDTBL_HIGH i) hi p2 ->
  redirection p2 i = (Z.land lo 0x1AFFF, Z.land hi 0xFF000000) /\ forall j, j <> i -> redirection p2 j = redirection p j.
Proof.
  intros Hi [_ _ A1 A2] [_ _ B1 B2]. destruct (redtbl_masks i) as [M1 M2]. rewrite M1 in A2. rewrite M2 in B2.
  unfold redirection, IOAPIC_REDTBL_LOW, IOAPIC_REDTBL_HIGH in *. split.
  - rewrite B2 by lia. rewrite B1 by lia. by rewrite A2 by lia.
  - intros j Hj. by rewrite !B1, !A1 by lia.
Qed.

Lemma entry_index i : 0 <= i < 120 ->
  wrap 8 (IOAPIC_REDTBL_LOW i) = IOAPIC_REDTBL_LOW i /\ wrap 8 (IOAPIC_REDTBL_HIGH i) = IOAPIC_REDTBL_HIGH i /\
  0 <= IOAPIC_REDTBL_LOW i < 256 /\ 0 <= IOAPIC_REDTBL_HIGH i < 256.
Proof. intros Hi. unfold IOAPIC_REDTBL_LOW, IOAPIC_REDTBL_HIGH. rewrite !wrap_small by lia. lia. Qed.

Definition mask_word (i : Z) : Z := Z.lor IOAPIC_MASK_MASK (T_IRQ0 + i).
Lemma mask_value i : 0 <= i < 120 ->
  0 <= mask_word i < 2 ^ 32 /\ (Z.land (mask_word i) 0x1AFFF, Z.land 0 0xFF000000) = (IOAPIC_MASK_MASK + (32 + i), 0).
Proof.
  intros Hi. assert (i ∈ seqZ 0 120) as Hin by (apply elem_of_seqZ; lia).
  assert (Forall (fun i => 0 <= mask_word i < 2 ^ 32 /\
    (Z.land (mask_word i) 0x1AFFF, Z.land 0 0xFF000000) = (IOAPIC_MASK_MASK + (32 + i), 0)) (seqZ 0 120)) as HF.
  { apply (bool_decide_unpack _). vm_compute. exact I. }
  rewrite Forall_forall in HF. by apply HF.
Qed.

Lemma mask_entries_run n : forall i s, io_ready s -> 0 <= i -> i + Z.of_nat n <= io_entries -> io_entries <= 120 ->
  exists p', mask_entries n i s = Ret (tt, set_io p' s) /\ (forall a, phys_of p' a = phys_of (pic_p s) a) /\
    (forall j, i <= j < i + Z.of_nat n -> redirection p' j = (IOAPIC_MASK_MASK + (32 + j), 0)) /\
    (forall j, ~ (i <= j < i + Z.of_nat n) -> redirection p' j = redirection (pic_p s) j).
Proof.
  induction n as [|n IH]; intros i s Hr Hi Hn He.
  { exists (pic_p s). split; [|split_and!; [done|intros; lia|done]].
    cbn [mask_entries]. unfold set_io, pic_p. destruct s as [[] ? ? ? ? ?]. done. }
  cbn [mask_entries]. destruct (entry_index i ltac:(lia)) as (I1 & I2 & I3 & I4). rewrite I1, I2.
  destruct (mask_value i ltac:(lia)) as [Hv Hval].
  destruct (ioapic_write_run s _ _ Hr I3 Hv) as (p1 & E1 & W1). rewrite (bind_step _ _ _ _ _ E1).
  destruct (ioapic_write_run (set_io p1 s) _ 0 (io_ready_map _ _ Hr (wr_map _ _ _ _ W1)) I4 ltac:(lia)) as (p2 & E2 & W2).
  rewrite (bind_step _ _ _ _ _ E2). change (pic_p (set_io p1 s)) with p1 in W2.
  destruct (write_entry _ _ _ i _ _ ltac:(lia) W1 W2) as [X1 X2]. rewrite Hval in X1.
  assert (forall a, phys_of p2 a = phys_of (pic_p s) a) as Hm by (intros a; by rewrite (wr_map _ _ _ _ W2), (wr_map _ _ _ _ W1)).
  destruct (IH (i + 1) (set_io p2 s) (io_ready_map _ _ Hr Hm) ltac:(lia) ltac:(lia) He) as (p3 & E3 & M3 & A3 & B3).
  change (pic_p (set_io p2 s)) with p2 in *.
  exists p3. split; [exact E3|]. split; [intros a; by rewrite M3, Hm|]. split.
  - intros j Hj. destruct (Z.eq_dec j i) as [->|N]; [rewrite B3 by lia; exact X1|apply A3; lia].
  - intros j Hj. rewrite B3 by lia. apply X2. lia.
Qed.

(** Where the firmware says the I/O APIC is, with the number of its first
    interrupt; the fallback if it does not say. *)
Definition firmware_place p (m : Z) (es : list (Z * Z)) : Z * Z :=
  match place_of p (first_ioapic (m + MADT_ENTRIES) es) with
  | Some (x, b) => if x =? 0 then (IOAPIC_FALLBACK_PHYS, 0) else (x, b)
  | None => (IOAPIC_FALLBACK_PHYS, 0)
  end.

Lemma find_place_run s va p1 m fuel rsdp root w tables pre post es : acpi (pic_p s) rsdp root w tables pre m post es ->
  0 < va -> window p1 va m -> later (pic_p s) p1 -> (length es < fuel)%nat -> ioapic_phys s = 0 ->
  exists s2, (_ ← find_ioapic_from_madt fuel; phys ← reads ioapic_phys;
      if phys =? 0 then st_modify (set_ioapic_place IOAPIC_FALLBACK_PHYS 0) else mret tt)
      (set_madt va (set_io p1 s)) = Ret (tt, s2) /\
    (ioapic_phys s2, ioapic_gsi_base s2) = firmware_place (pic_p s) m es /\ pic_cpu s2 = MkCpuIo p1 (if_flag (pic_cpu s)).
Proof.
  intros HA Hva Hw Hl Hfuel H0. pose proof (acpi_madt _ _ _ _ _ _ _ _ _ HA) as Hmt. destruct HA as [_ _ _ _ _ _ _ Ae Al _].
  set (s1 := set_madt va (set_io p1 s)). unfold firmware_place. unfold find_ioapic_from_madt.
  assert ((m ← reads madt; if m =? 0 then mret tt
     else len ← pic_io (mem_read (m + SDT_LENGTH) 4); find_ioapic_from fuel (m + MADT_ENTRIES) (m + len)) s1 =
     Ret (tt, match place_of (pic_p s) (first_ioapic (m + MADT_ENTRIES) es) with
              | Some (x, b) => set_ioapic_place x b s1 | None => s1 end)) as E.
  { rewrite (bind_step _ _ _ _ _ eq_refl). change (madt s1) with va. destruct (Z.eqb_spec va 0); [lia|].
    rewrite (bind_step _ _ _ _ _ (table_read s1 (pic_p s) va m SDT_LENGTH 4 Hw Hmt Hl ltac:(done) ltac:(done))).
    pose proof (find_ioapic_run s1 (pic_p s) va m Hw Hmt Hl es (m + MADT_ENTRIES)
      (m + phys_le (pic_p s) (m + SDT_LENGTH) 4) fuel Ae ltac:(unfold MADT_ENTRIES; lia) ltac:(lia) Hfuel) as HF.
    replace (va + (m + MADT_ENTRIES - m)) with (va + MADT_ENTRIES) in HF by lia.
    replace (va + (m + phys_le (pic_p s) (m + SDT_LENGTH) 4 - m)) with (va + phys_le (pic_p s) (m + SDT_LENGTH) 4) in HF by lia.
    exact HF. }
  rewrite (bind_step _ _ _ _ _ E), (bind_step _ _ _ _ _ eq_refl).
  destruct (place_of _ _) as [[x b]|].
  - cbn [ioapic_phys set_ioapic_place]. destruct (Z.eqb_spec x 0) as [->|N]; eexists; (split; [reflexivity|]); done.
  - change (ioapic_phys s1) with (ioapic_phys s). rewrite H0. eexists. split; [reflexivity|]. done.
Qed.

(** C33: from the tables of the firmware to a masked I/O APIC.  When the
    tables are well formed, [ioapic_init] walks from the RSDP through the
    RSDT or XSDT to the MADT and takes the address and the first interrupt of
    the first I/O APIC the MADT lists (the fixed fallback if it lists none);
    both walks end.  Afterwards every redirection entry is masked and carries
    the vector 32 + its number, and the two old interrupt controllers are
    masked.  This needs a table of at most 120 entries (of the 240 there may
    be): the index of a register is passed in 8 bits. *)
Theorem ioapic_init_correct s rsdp root w tables pre m post es gsi fuel
    (HA : acpi (pic_p s) rsdp root w tables pre m post es) (H0 : ioapic_phys s = 0)
    n (Hm : maps_left (pic_p s) n) (Hn : (length pre + 3 < n)%nat) (Hfuel : (length es < fuel)%nat)
    (Hp : firmware_place (pic_p s) m es = (ioapic_at, gsi)) (Ha : 0 <= ioapic_at /\ ioapic_at + 4096 < 2 ^ 32)
    (He : io_entries <= 120) :
  exists s', ioapic_init fuel rsdp s = Ret (tt, s') /\ ioapic_phys s' = ioapic_at /\ ioapic_gsi_base s' = gsi /\
    io_ready s' /\ (forall i, 0 <= i < io_entries -> redirection (pic_p s') i = (IOAPIC_MASK_MASK + (32 + i), 0)) /\
    imr (pic_p s') PIC1_DATA = 0xFF /\ imr (pic_p s') PIC2_DATA = 0xFF.
Proof.
  replace n with (S (S (S (length pre + S (n - 4 - length pre))))) in Hm by lia.
  destruct (parse_madt_run s rsdp root w tables pre m post es _ HA Hm) as (va & p1 & E1 & V1 & W1 & L1 & M1).
  unfold ioapic_init. rewrite (bind_step _ _ _ _ _ E1). clear E1.
  destruct (Z.eqb_spec (phys_le (pic_p s) (m + MADT_LAPIC_ADDR) 4) 0) as [N|_]; [by destruct (ac_lapic _ _ _ _ _ _ _ _ _ HA)|].
  destruct (find_place_run s va p1 m fuel _ _ _ _ _ _ _ HA V1 W1 L1 Hfuel H0) as (s2 & E2 & P2 & C2).
  rewrite Hp in P2. injection P2 as P2 G2. clear Hp.
  unfold mbind, st_bind in E2. unfold mbind at 1 2 3, st_bind at 1 2 3.
  destruct (find_ioapic_from_madt fuel (set_madt va (set_io p1 s))) as [[[] sx]| | |]; [|done..].
  cbn [reads] in E2 |- *. rewrite E2. clear E2 sx. rewrite (bind_step _ _ _ _ _ eq_refl), P2.
  assert (pic_p s2 = p1) as Hp2 by (unfold pic_p; by rewrite C2).
  destruct Ha as [Ha0 Ha1]. rewrite <- Hp2 in M1.
  destruct (map_run s2 ioapic_at _ Ha0 Ha1 M1) as (base & p3 & E3 & V3 & W3 & L3 & M3).
  rewrite (bind_step _ _ _ _ _ E3), (bind_step _ _ _ _ _ eq_refl). clear E3. cbv beta. destruct (Z.eqb_spec base 0); [lia|].
  set (s4 := set_ioapic_mmio base (set_io p3 s2)). assert (io_ready s4) as R4.
  { split; [cbn; lia|]. change (pic_p s4) with p3. change (ioapic_mmio s4) with base. rewrite <- (Z.add_0_r base) at 1.
    rewrite !W3 by lia. by rewrite Z.add_0_r. }
  destruct (ioapic_read_run s4 IOAPIC_REG_VER R4 ltac:(done)) as (p5 & E5 & S5). rewrite (bind_step _ _ _ _ _ E5). clear E5. cbv zeta.
  destruct (law_version (pic_p s4)) as [Hent Hver].
  change (io_reg (pic_p s4) IOAPIC_REG_VER) with (io_reg (pic_p s4) 1). rewrite Hver. replace (io_entries - 1 + 1) with io_entries by lia.
  pose proof (io_ready_map _ _ R4 (si_map _ _ S5)) as R5.
  destruct (mask_entries_run (Z.to_nat io_entries) 0 (set_io p5 s4) R5 ltac:(lia) ltac:(lia) He) as (p6 & E6 & M6 & A6 & _).
  rewrite (bind_step _ _ _ _ _ E6). clear E6. set (s6 := set_io p6 (set_io p5 s4)).
  destruct (law_imr p6 PIC1_DATA 0xFF ltac:(by left) ltac:(lia)) as (I1 & _ & I3 & I4). set (p7 := port_out 1 PIC1_DATA 0xFF p6) in *.
  destruct (law_imr p7 PIC2_DATA 0xFF ltac:(by right) ltac:(lia)) as (J1 & J2 & J3 & J4). set (p8 := port_out 1 PIC2_DATA 0xFF p7) in *.
  exists (set_io p8 s6). split; [reflexivity|]. split; [exact P2|]. split; [exact G2|]. split.
  { apply (io_ready_map s6); [by apply (io_ready_map (set_io p5 s4))|]. intros a. by rewrite J4, I4. }
  change (pic_p (set_io p8 s6)) with p8. split_and!; [|by rewrite J2|done].
  intros i Hi. unfold redirection. rewrite !J3, !I3. apply A6. lia.
Qed.

(** The redirection entry of an interrupt at a controller whose first
    interrupt is [base]; a number below [base] stands for the entry itself. *)
Definition entry_of (base irq : Z) : Z := if irq <? base then irq else irq - base.

Lemma redtbl_index s irq : 0 <= ioapic_gsi_base s < 2 ^ 31 -> 0 <= irq < 2 ^ 31 ->
  ioapic_redtbl_index_for_irq s irq = entry_of (ioapic_gsi_base s) irq.
Proof.
  intros Hg Hi. unfold entry_of. unfold ioapic_redtbl_index_for_irq. rewrite (sgn_small 32 (ioapic_gsi_base s)) by lia.
  destruct (Z.ltb_spec irq (ioapic_gsi_base s)); [done|]. by apply sgn_small; lia.
Qed.

(** The low half of an entry for [irq]: edge triggered, active low, unmasked. *)
Definition enable_word (irq : Z) : Z :=
  Z.land (Z.lor (Z.lor (Z.lor (Z.lor (wrap 8 (T_IRQ0 + irq)) IOAPIC_DELIVERY_FIXED) IOAPIC_DESTMODE_PHYS)
    IOAPIC_POLARITY_LOW) IOAPIC_TRIGGER_EDGE) (wrap 32 (Z.lnot IOAPIC_MASK_MASK)).
Lemma enable_value irq : 0 <= irq < 224 ->
  0 <= enable_word irq < 2 ^ 32 /\ Z.land (enable_word irq) 0x1AFFF = 32 + irq + 2 ^ 13.
Proof.
  intros Hi. assert (irq ∈ seqZ 0 224) as Hin by (apply elem_of_seqZ; lia).
  assert (Forall (fun i => 0 <= enable_word i < 2 ^ 32 /\ Z.land (enable_word i) 0x1AFFF = 32 + i + 2 ^ 13) (seqZ 0 224)) as HF.
  { apply (bool_decide_unpack _). vm_compute. exact I. }
  rewrite Forall_forall in HF. by apply HF.
Qed.
Lemma dest_value id : 0 <= id < 256 -> let hi := wrap 32 (Z.shiftl (Z.land id 0xFF) 24) in
  0 <= hi < 2 ^ 32 /\ Z.land hi 0xFF000000 = id * 2 ^ 24.
Proof.
  intros Hi. cbv zeta. change 0xFF with (Z.ones 8). rewrite Z.land_ones, Z.mod_small, Z.shiftl_mul_pow2, wrap_small by lia.
  split; [lia|]. change 0xFF000000 with (Z.ones 8 * 2 ^ 24). rewrite <- (Z.shiftl_mul_pow2 id), <- (Z.shiftl_mul_pow2 (Z.ones 8)) by lia.
  rewrite <- Z.shiftl_land, Z.land_ones, Z.mod_small, Z.shiftl_mul_pow2 by lia. done.
Qed.

(** Interrupts there is an entry for. *)
Record routable s (irq lapic_id : Z) : Prop := {
  ro_ready : io_ready s;
  ro_base : 0 <= ioapic_gsi_base s < 2 ^ 31;
  ro_irq : 0 <= irq < 224;
  ro_core : 0 <= lapic_id < 256;
  ro_few : io_entries <= 120;
  ro_entry : entry_of (ioapic_gsi_base s) irq < io_entries
}.

Lemma routable_index s irq lapic_id (idx := ioapic_redtbl_index_for_irq s irq) : routable s irq lapic_id ->
  0 <= idx < io_entries /\ wrap 8 (IOAPIC_REDTBL_LOW idx) = IOAPIC_REDTBL_LOW idx /\
  wrap 8 (IOAPIC_REDTBL_HIGH idx) = IOAPIC_REDTBL_HIGH idx /\
  0 <= IOAPIC_REDTBL_LOW idx < 256 /\ 0 <= IOAPIC_REDTBL_HIGH idx < 256.
Proof.
  intros [Hr Hg Hi Hl He Hx].
  assert (0 <= idx < io_entries).
  { subst idx. rewrite (redtbl_index s irq) by lia. split; [|done]. unfold entry_of.
    destruct (Z.ltb_spec irq (ioapic_gsi_base s)); lia. }
  split; [done|]. apply entry_index. lia.
Qed.

Lemma ioapic_enable_run s irq lapic_id (idx := ioapic_redtbl_index_for_irq s irq) (Hr : routable s irq lapic_id) :
  exists p', ioapic_enable irq lapic_id s = Ret (tt, set_io p' s) /\ io_ready (set_io p' s) /\
    redirection p' idx = (32 + irq + 2 ^ 13, lapic_id * 2 ^ 24) /\
    forall j, j <> idx -> redirection p' j = redirection (pic_p s) j.
Proof.
  destruct (routable_index _ _ _ Hr) as (Hidx & I1 & I2 & I3 & I4). destruct Hr as [Hr Hg Hi Hl He Hx]. fold idx in Hidx, I1, I2, I3, I4.
  destruct (enable_value irq Hi) as [V1 V2].
  destruct (dest_value lapic_id Hl) as [D1 D2]. set (hi := wrap 32 (Z.shiftl (Z.land lapic_id 0xFF) 24)) in *.
  destruct (ioapic_write_run s _ _ Hr I3 V1) as (p1 & E1 & W1). pose proof (io_ready_map _ _ Hr (wr_map _ _ _ _ W1)) as R1.
  destruct (ioapic_write_run (set_io p1 s) _ hi R1 I4 D1) as (p2 & E2 & W2). pose proof (io_ready_map _ _ R1 (wr_map _ _ _ _ W2)) as R2.
  destruct (write_entry _ _ _ idx _ _ Hidx W1 W2) as [X1 X2]. rewrite V2, D2 in X1.
  destruct (ioapic_read_run _ _ R2 I3) as (p3 & E3 & S3). pose proof (io_ready_map _ _ R2 (si_map _ _ S3)) as R3.
  destruct (ioapic_read_run _ _ R3 I4) as (p4 & E4 & S4). pose proof (io_ready_map _ _ R3 (si_map _ _ S4)) as R4.
  assert (forall j, redirection p4 j = redirection p2 j) as Hred.
  { intros j. unfold redirection. by rewrite !(si_reg _ _ S4), !(si_reg _ _ S3). }
  exists p4. split; [|split; [exact R4|split; [by rewrite Hred|intros j Hj; by rewrite Hred, X2]]].
  unfold ioapic_enable. rewrite (bind_step _ _ _ _ _ eq_refl). destruct (Z.eqb_spec (ioapic_mmio s) 0); [by destruct Hr|].
  rewrite (bind_step _ _ _ _ _ eq_refl). cbv zeta. fold idx. fold hi. rewrite I1, I2. fold (enable_word irq).
  rewrite (bind_step _ _ _ _ _ E1), (bind_step _ _ _ _ _ E2), (bind_step _ _ _ _ _ E3), (bind_step _ _ _ _ _ E4). done.
Qed.

Lemma ioapic_disable_run s irq lapic_id (idx := ioapic_redtbl_index_for_irq s irq) (Hr : routable s irq lapic_id) :
  redirection (pic_p s) idx = (32 + irq + 2 ^ 13, lapic_id * 2 ^ 24) ->
  exists p', ioapic_disable irq s = Ret (tt, set_io p' s) /\
    redirection p' idx = (2 ^ 16 + (32 + irq + 2 ^ 13), lapic_id * 2 ^ 24) /\
    forall j, j <> idx -> redirection p' j = redirection (pic_p s) j.
Proof.
  intros Hx4. destruct (routable_index _ _ _ Hr) as (Hidx & I1 & I2 & I3 & I4). destruct Hr as [Hr Hg Hi Hl He Hx]. fold idx in Hidx, I1, I2, I3, I4.
  destruct (ioapic_read_run s _ Hr I3) as (p5 & E5 & S5). pose proof (io_ready_map _ _ Hr (si_map _ _ S5)) as R5.
  set (low := io_reg (pic_p s) (IOAPIC_REDTBL_LOW idx)) in *.
  assert (0 <= Z.lor low IOAPIC_MASK_MASK < 2 ^ 32) as Hlow by (apply lor_range; [apply io_reg_range|done|lia]).
  destruct (ioapic_write_run (set_io p5 s) _ _ R5 I3 Hlow) as (p6 & E6 & W6). exists p6. split.
  { unfold ioapic_disable. rewrite (bind_step _ _ _ _ _ eq_refl). destruct (Z.eqb_spec (ioapic_mmio s) 0); [by destruct Hr|].
    rewrite (bind_step _ _ _ _ _ eq_refl). cbv zeta. fold idx. rewrite I1, (bind_step _ _ _ _ _ E5). exact E6. }
  destruct W6 as [_ _ A6 B6]. destruct (redtbl_masks idx) as [M1 _]. rewrite M1 in B6. change (pic_p (set_io p5 s)) with p5 in A6.
  unfold redirection in Hx4 |- *. unfold IOAPIC_REDTBL_LOW, IOAPIC_REDTBL_HIGH in *. split.
  - rewrite B6 by lia. rewrite A6, (si_reg _ _ S5) by lia. injection Hx4 as X4 ->. f_equal.
    rewrite Z.land_lor_distr_l. fold low in X4. rewrite X4. change (Z.land IOAPIC_MASK_MASK 0x1AFFF) with (2 ^ 16).
    rewrite Z.lor_comm. symmetry. rewrite <- Z.add_nocarry_lor; [done|]. rewrite <- (Z.mod_small (32 + irq + 2 ^ 13) (2 ^ 16)) by lia.
    rewrite <- Z.land_ones by lia. rewrite (Z.land_comm _ (Z.ones 16)), Z.land_assoc. by rewrite Z.land_0_l.
  - intros j Hj. by rewrite !A6, !(si_reg _ _ S5) by lia.
Qed.

(** The vector of a redirection entry, and the interrupt
    [interrupt_dispatch] makes of it. *)
Lemma entry_vector irq : 0 <= irq < 224 -> (32 + irq + 2 ^ 13) mod 2 ^ 8 = 32 + irq /\ wrap 8 ((32 + irq + 2 ^ 13) mod 2 ^ 8 - T_IRQ0) = irq.
Proof.
  intros Hi. assert ((32 + irq + 2 ^ 13) mod 2 ^ 8 = 32 + irq) as -> by zify_div. unfold T_IRQ0. rewrite wrap_small; lia.
Qed.

(** C34: one interrupt is routed and taken back.  On a controller of at most
    120 entries, [ioapic_enable] changes one redirection entry: the number of
    the interrupt less the first one of the controller, or, for an interrupt
    below that first one, the entry of the same number ([entry_of]).  It
    becomes active low, edge triggered, unmasked, for the core that is asked
    for, with the vector from which [interrupt_dispatch] gets back the number
    of the interrupt.  A following [ioapic_disable] masks that entry and
    leaves the rest of it as it is.  No other entry changes. *)
Theorem ioapic_enable_correct s irq lapic_id (Hr : routable s irq lapic_id) :
  let idx := entry_of (ioapic_gsi_base s) irq in
  exists s1 s2, ioapic_enable irq lapic_id s = Ret (tt, s1) /\ ioapic_disable irq s1 = Ret (tt, s2) /\
    redirection (pic_p s1) idx = (32 + irq + 2 ^ 13, lapic_id * 2 ^ 24) /\
    wrap 8 ((redirection (pic_p s1) idx).1 mod 2 ^ 8 - T_IRQ0) = irq /\
    redirection (pic_p s2) idx = (2 ^ 16 + (32 + irq + 2 ^ 13), lapic_id * 2 ^ 24) /\
    forall j, j <> idx -> redirection (pic_p s1) j = redirection (pic_p s) j /\
                          redirection (pic_p s2) j = redirection (pic_p s) j.
Proof.
  intros idx. destruct (ioapic_enable_run s irq lapic_id Hr) as (p1 & E1 & R1 & X1 & Y1).
  assert (ioapic_redtbl_index_for_irq s irq = idx) as Eidx by (destruct Hr; apply redtbl_index; lia).
  pose proof (X1 : redirection (pic_p (set_io p1 s)) (ioapic_redtbl_index_for_irq (set_io p1 s) irq) = _) as X1'.
  rewrite Eidx in X1, Y1.
  destruct (entry_vector irq (ro_irq _ _ _ Hr)) as [_ V].
  assert (routable (set_io p1 s) irq lapic_id) as Hr1 by (destruct Hr; by split).
  destruct (ioapic_disable_run (set_io p1 s) irq lapic_id Hr1 X1') as (p2 & E2 & X2 & Y2).
  change (ioapic_redtbl_index_for_irq (set_io p1 s) irq) with (ioapic_redtbl_index_for_irq s irq) in X2, Y2.
  rewrite Eidx in X2, Y2.
  exists (set_io p1 s), (set_io p2 s). split; [exact E1|]. split; [exact E2|]. split; [exact X1|].
  split; [change (pic_p (set_io p1 s)) with p1; by rewrite X1|]. split; [exact X2|].
  intros j Hj. split; [by apply Y1|]. change (pic_p (set_io p2 s)) with p2. rewrite Y2 by done. by apply Y1.
Qed.

(** ** The local APIC *)

(** What is programmed in a register. *)
Definition lapic_prog p (k : Z) : Z := Z.land (lapic_reg p k) (lapic_mask k).
(** The value written last, the latest write first. *)
Fixpoint last_write (k : Z) (l : list (Z * Z)) : option Z :=
  match l with [] => None | (k', v) :: l' => if k' =? k then Some v else last_write k l' end.

(** [s] is [s0] after the writes [l] to the local APIC. *)
Record lapic_after s0 (l : list (Z * Z)) s : Prop := {
  la_base : lapic s = lapic s0;
  la_window : window (pic_p s) (lapic s) lapic_at;
  la_msr a : msr_in a (pic_p s) = msr_in a (pic_p s0);
  la_prog k : lapic_prog (pic_p s) k =
    match last_write k l with Some v => Z.land v (lapic_mask k) | None => lapic_prog (pic_p s0) k end
}.

(** The end of an interrupt writes one register, which acknowledges it. *)
Lemma lapic_send_eoi_run s : window (pic_p s) (lapic s) lapic_at ->
  lapic_send_eoi s = Ret (tt, set_io (mm_write (lapic s + LAPIC_EOI) 0 (pic_p s)) s).
Proof.
  intros Hw. unfold lapic_send_eoi, lapic_write. rewrite (bind_step _ _ _ _ _ eq_refl), (bind_step _ _ _ _ _ (mmio_write_run _ _ _)).
  change (LAPIC_EOI / 4 * 4) with LAPIC_EOI. change (wrap 32 0) with 0. set (p1 := mm_write _ _ _).
  destruct (law_lapic_write (pic_p s) (lapic s) LAPIC_EOI 0 Hw ltac:(done) ltac:(done) ltac:(lia) ltac:(done)) as (_ & _ & W3 & _).
  assert (window p1 (lapic s) lapic_at) as Hw1 by (intros j Hj; rewrite <- (Hw j Hj); apply W3).
  destruct (law_lapic_read p1 (lapic s) LAPIC_ID Hw1 ltac:(done) ltac:(done)) as (x & E).
  change (LAPIC_ID / 4 * 4) with LAPIC_ID. by rewrite (bind_step _ _ _ _ _ (mmio_read_run _ (set_io p1 s) _ _ E)).
Qed.

Lemma eoi_counted s : window (pic_p s) (lapic s) lapic_at ->
  eois (mm_write (lapic s + LAPIC_EOI) 0 (pic_p s)) = eois (pic_p s) + 1.
Proof. intros Hw. by destruct (law_lapic_write (pic_p s) (lapic s) LAPIC_EOI 0 Hw) as (_ & _ & _ & _ & ->). Qed.

Lemma lapic_read_after s0 l s k : lapic_after s0 l s -> 0 <= k < 4096 -> k mod 16 = 0 ->
  exists v, lapic_read k s = Ret (v, s).
Proof.
  intros [_ A2 _ _] Hk Hm. destruct (law_lapic_read (pic_p s) (lapic s) k A2 Hk Hm) as (v & E). exists v.
  unfold lapic_read. rewrite (bind_step _ _ _ _ _ eq_refl). replace (k / 4 * 4) with k by zify_div.
  rewrite (mmio_read_run _ _ _ _ E). do 2 f_equal. by destruct s as [[]].
Qed.

Lemma lapic_write_after s0 l s k v : lapic_after s0 l s -> 0 <= k < 4096 -> k mod 16 = 0 -> 0 <= v < 2 ^ 32 ->
  (k = LAPIC_SVR -> Z.testbit v 8 = true) ->
  exists s', lapic_write k v s = Ret (tt, s') /\ lapic_after s0 ((k, v) :: l) s'.
Proof.
  intros [A1 A2 A3 A4] Hk Hm Hv Hsvr. destruct (law_lapic_write (pic_p s) (lapic s) k v A2 Hk Hm Hv Hsvr) as (W1 & W2 & W3 & W4 & _).
  set (p1 := mm_write (lapic s + k) v (pic_p s)) in *. exists (set_io p1 s).
  assert (window p1 (lapic s) lapic_at) as Hw by (intros j Hj; rewrite W3; by apply A2). split.
  - unfold lapic_write. rewrite (bind_step _ _ _ _ _ eq_refl). replace (k / 4 * 4) with k by zify_div.
    rewrite (bind_step _ _ _ _ _ (mmio_write_run _ _ _)), (wrap_small 32 v) by done. fold p1.
    destruct (law_lapic_read p1 (lapic s) LAPIC_ID Hw ltac:(done) ltac:(done)) as (x & E).
    change (LAPIC_ID / 4 * 4) with LAPIC_ID. by rewrite (bind_step _ _ _ _ _ (mmio_read_run _ (set_io p1 s) _ _ E)).
  - split; [done|done|intros a; by rewrite <- A3; apply W4|]. intros k'. change (pic_p (set_io p1 s)) with p1. cbn [last_write].
    destruct (Z.eqb_spec k k') as [<-|N]; [exact W1|]. rewrite <- A4. apply W2. congruence.
Qed.

(** Run the next access of the local APIC. *)
Ltac lapic_step :=
  match goal with
  | HA : lapic_after ?s0 ?l ?s |- context [(lapic_write ?k ?v ≫= _) ?s] =>
      let s' := fresh "s" in let E := fresh "E" in let HB := fresh "HB" in
      destruct (lapic_write_after s0 l s k v HA) as (s' & E & HB); [done|done|done|done|];
      rewrite (bind_step _ _ _ _ _ E); clear E HA
  | HA : lapic_after ?s0 ?l ?s |- context [(lapic_read ?k ≫= _) ?s] =>
      let v := fresh "v" in let E := fresh "E" in
      destruct (lapic_read_after s0 l s k HA) as (v & E); [done|done|]; rewrite (bind_step _ _ _ _ _ E); clear E
  end.

(** The writes of [lapic_init], the latest first. *)
Definition lapic_init_writes : list (Z * Z) :=
  [(LAPIC_TPR, 0); (LAPIC_EOI, 0); (LAPIC_ESR, 0); (LAPIC_PCINT, LAPIC_MASKED); (LAPIC_TIMER, LAPIC_MASKED);
   (LAPIC_ERROR, LAPIC_MASKED); (LAPIC_LINT1, LAPIC_MASKED); (LAPIC_LINT0, LAPIC_MASKED);
   (LAPIC_SVR, Z.lor SPURIOUS_VECTOR LAPIC_SVR_ENABLE)].

Lemma lapic_init_run s lo : msr_in IA32_APIC_BASE_MSR (pic_p s) = (lo, 0) -> 0 <= lo < 2 ^ 32 -> lo - lo mod 4096 = lapic_at ->
  0 < lapic_at + hhdm < 2 ^ 64 -> lapic_unmapped (pic_p s) ->
  exists s0 s', lapic_init s = Ret (tt, s') /\ lapic_after s0 lapic_init_writes s' /\
    msr_in IA32_APIC_BASE_MSR (pic_p s') = (lapic_at + 2 ^ 11, 0).
Proof.
  intros Hmsr Hlo Hat Hv Hu. unfold lapic_init.
  assert (cpu_get_apic_base s = Ret (lapic_at, s)) as E0.
  { unfold cpu_get_apic_base, pic_io, zoom, rdmsr, reads, mbind, st_bind. fold (pic_p s). rewrite Hmsr.
    cbn [Z.shiftl]. rewrite Z.lor_0_l. unfold mret, st_ret. change 0xfffff000 with (Z.land (Z.lnot (Z.ones 12)) (Z.ones 32)).
    rewrite land_hi_mask, wrap_small by lia. rewrite Hat. do 2 f_equal. by destruct s. }
  rewrite (bind_step _ _ _ _ _ E0). destruct (law_map_lapic (pic_p s) (if_flag (pic_cpu s)) (proj1 Hv) Hu) as (p1 & E1 & W1 & M1).
  assert (pic_io (vmm_init_lapic lapic_at) s = Ret (tt, set_io p1 s)) as E1'.
  { unfold set_io. apply zoom_run. unfold pic_p in E1. by destruct (pic_cpu s). }
  rewrite (bind_step _ _ _ _ _ E1'), (bind_step _ _ _ _ _ eq_refl). cbv beta. clear E0 E1 E1'.
  assert (lapic_at mod 4096 = 0) as Hal by (rewrite <- Hat; zify_div).
  rewrite (wrap_small 64) by lia. set (v := Z.lor lapic_at (Z.shiftl 1 11)).
  assert (v = lapic_at + 2 ^ 11) as Ev.
  { unfold v. change (Z.shiftl 1 11) with (2 ^ 11). symmetry. apply Z.add_nocarry_lor.
    rewrite <- (Z.mod_small (2 ^ 11) (2 ^ 12)), <- Z.land_ones, (Z.land_comm _ (Z.ones 12)), Z.land_assoc by lia.
    rewrite Z.land_ones by lia. change (2 ^ 12) with 4096. by rewrite Hal. }
  assert (0 <= lapic_at < 2 ^ 32 - 4095) as Hr by (rewrite <- Hat; zify_div).
  assert (wrap 32 v = lapic_at + 2 ^ 11) as Ew by (rewrite Ev; apply wrap_small; lia).
  assert (wrap 32 (Z.shiftr v 32) = 0) as Eh by (rewrite Z.shiftr_div_pow2 by lia; rewrite Ev, Z.div_small by lia; done).
  destruct (law_apic_base p1 (lapic_at + 2 ^ 11) 0 (ltac:(rewrite Z.add_mod by lia; by rewrite Hal) : (lapic_at + 2 ^ 11) mod 4096 = Z.shiftl 1 11)) as (B1 & B2 & B3).
  set (p2 := msr_out IA32_APIC_BASE_MSR (lapic_at + 2 ^ 11) 0 p1) in *.
  set (s2 := set_lapic (lapic_at + hhdm) (set_io p2 s)).
  assert (pic_io (wrmsr IA32_APIC_BASE_MSR v) (set_lapic (lapic_at + hhdm) (set_io p1 s)) = Ret (tt, s2)) as E2.
  { unfold pic_io, zoom, wrmsr, st_modify. rewrite Ew, Eh. done. }
  rewrite (bind_step _ _ _ _ _ E2). clear E2.
  assert (lapic_after s2 [] s2) as HA.
  { split; [done| |done|done]. intros k Hk. change (pic_p s2) with p2. rewrite B2. by apply W1. }
  exists s2. repeat lapic_step. eexists. split; [reflexivity|]. split; [done|].
  match goal with HA : lapic_after s2 _ _ |- _ => rewrite (la_msr _ _ _ HA) end. exact B1.
Qed.

(** The timer ticks and nothing else of the local APIC interrupts.
    [lapic_init] on the core's APIC base, then [sched_timer_init] with the
    clock's frequency: the APIC is enabled with spurious vector 0xEF and
    accepts every priority, its other local interrupts are masked, and its
    timer is periodic, not divided, unmasked, on vector 32, with the
    thousandth of the frequency for its initial count, which is not 0, so it
    is started. *)
Theorem apic_timer_correct s lo freq (Hmsr : msr_in IA32_APIC_BASE_MSR (pic_p s) = (lo, 0)) (Hlo : 0 <= lo < 2 ^ 32)
    (Hat : lo - lo mod 4096 = lapic_at) (Hv : 0 < lapic_at + hhdm < 2 ^ 64) (Hu : lapic_unmapped (pic_p s)) (Hf : 1000 <= freq < 1000 * 2 ^ 32) :
  exists s', (_ ← lapic_init; sched_timer_init freq) s = Ret (tt, s') /\
    msr_in IA32_APIC_BASE_MSR (pic_p s') = (lapic_at + 2 ^ 11, 0) /\
    lapic_prog (pic_p s') LAPIC_SVR = 0x1EF /\ lapic_prog (pic_p s') LAPIC_TPR = 0 /\
    Forall (fun k => lapic_prog (pic_p s') k = 0x10000) [LAPIC_LINT0; LAPIC_LINT1; LAPIC_ERROR; LAPIC_PCINT] /\
    lapic_prog (pic_p s') LAPIC_TIMER = 0x20000 + 32 /\ lapic_prog (pic_p s') LAPIC_TDCR = 0xB /\
    lapic_prog (pic_p s') LAPIC_TICR = freq / 1000 /\ 0 < freq / 1000.
Proof.
  destruct (lapic_init_run s lo Hmsr Hlo Hat Hv Hu) as (s0 & s1 & E1 & HA & M1). rewrite (bind_step _ _ _ _ _ E1). clear E1.
  pose proof (fun a => la_msr _ _ _ HA a) as HM0. unfold sched_timer_init. cbv zeta. change SCHED_TIMER_FREQ_HZ with 1000.
  assert (0 < freq / 1000 < 2 ^ 32) as Hq by zify_div. rewrite (wrap_small 32) by lia.
  do 2 lapic_step.
  destruct (lapic_write_after _ _ _ LAPIC_TICR (freq / 1000) HB0) as (s4 & E4 & HB4); [done|done|lia|done|].
  rewrite (bind_step _ _ _ _ _ E4). clear E4.
  destruct (lapic_write_after _ _ _ LAPIC_TIMER (Z.lor T_IRQ0 LAPIC_PERIODIC) HB4) as (s5 & E5 & HB5); [done|done|done|done|].
  exists s5. split; [exact E5|]. split; [by rewrite (la_msr _ _ _ HB5), <- HM0|]. pose proof (la_prog _ _ _ HB5) as HP.
  split; [by rewrite HP|]. split; [by rewrite HP|]. split; [by repeat constructor; rewrite HP|]. split; [by rewrite HP|].
  split; [by rewrite HP|]. split; [|lia]. rewrite HP. cbn [last_write Z.eqb Pos.eqb LAPIC_TIMER LAPIC_TICR lapic_mask].
  change (lapic_mask LAPIC_TICR) with (Z.ones 32). rewrite Z.land_ones by lia. apply Z.mod_small. lia.
Qed.
End facts.
