(* ===== verification/ApicDemo.v ===== *)
(** * A machine with one I/O APIC

    A concrete board for the theorems of ApicFacts.v: the tables of
    its firmware, a controller of 24 entries and a local APIC, every
    physical page being mapped at a fixed distance. *)
From S2P Require Import Prelude Mem Ports Drivers Apic ApicFacts.

Record board := MkBoard {
  bd_sel : Z; bd_regs : Z -> Z; bd_lapic : Z -> Z; bd_imr : Z -> Z; bd_base : Z * Z; bd_left : nat; bd_eois : Z
}.
Definition upd (f : Z -> Z) (k v : Z) : Z -> Z := fun x => if x =? k then v else f x.
Definition WINDOW : Z := 2 ^ 40.
Definition IOAPIC : Z := 0xFEC00000.
Definition LAPIC : Z := 0xFEE00000.

(** RSDP at 0x1000, XSDT at 0x2000 with two tables, the MADT at 0x4000. *)
Definition demo_ram : mem :=
  foldr (fun '(a, v) m => store32 m a v) zeros
    [(0x100C, 0x02000000); (0x1018, 0x2000);
     (0x2004, 52); (0x2024, 0x3000); (0x202C, 0x4000);
     (0x3000, 0x50434146);
     (0x4000, 0x43495041); (0x4004, 74); (0x4024, LAPIC);
     (0x402C, 0x00000800); (0x4034, 0x00000C01); (0x4038, IOAPIC); (0x403C, 0); (0x4040, 0x00000A02)].

Definition demo_reg (p : board) (r : Z) : Z := if r =? 1 then 0x00170011 else wrap 32 (bd_regs p r).

#[export] Instance demo_ports : PortIO board := {
  port_in n x p := (0, p);
  port_out n x v p := MkBoard (bd_sel p) (bd_regs p) (bd_lapic p) (upd (bd_imr p) x v) (bd_base p) (bd_left p) (bd_eois p)
}.
#[export] Instance demo_msr : MsrIO board := {
  msr_in a p := if a =? IA32_APIC_BASE_MSR then bd_base p else (0, 0);
  msr_out a lo hi p :=
    if a =? IA32_APIC_BASE_MSR
    then MkBoard (bd_sel p) (bd_regs p) (bd_lapic p) (bd_imr p) (lo, hi) (bd_left p) (bd_eois p) else p
}.
Definition demo_write (va v : Z) (p : board) : board :=
  let pa := va - WINDOW in
  if pa =? IOAPIC then MkBoard v (bd_regs p) (bd_lapic p) (bd_imr p) (bd_base p) (bd_left p) (bd_eois p)
  else if pa =? IOAPIC + 16 then
    MkBoard (bd_sel p) (upd (bd_regs p) (bd_sel p) v) (bd_lapic p) (bd_imr p) (bd_base p) (bd_left p) (bd_eois p)
  else MkBoard (bd_sel p) (bd_regs p) (upd (bd_lapic p) (pa - LAPIC) v) (bd_imr p) (bd_base p) (bd_left p)
    (bd_eois p + (if pa - LAPIC =? LAPIC_EOI then 1 else 0)).
Definition demo_read (va : Z) (p : board) : Z * board :=
  let pa := va - WINDOW in
  ((if pa =? IOAPIC + 16 then demo_reg p (bd_sel p) else bd_lapic p (pa - LAPIC)), p).

#[export] Instance demo_board : Board board := {
  phys_of p va := if WINDOW <=? va then Some (va - WINDOW) else None;
  ram_byte p a := demo_ram a;
  vmm_map_physical s e := fun c =>
    let p := io c in
    Ret (WINDOW + s, MkCpuIo (MkBoard (bd_sel p) (bd_regs p) (bd_lapic p) (bd_imr p) (bd_base p) (pred (bd_left p)) (bd_eois p)) (if_flag c));
  vmm_init_lapic pa := mret tt;
  hhdm := WINDOW;
  mm_read := demo_read;
  mm_write := demo_write
}.

Lemma demo_phys p va pa : phys_of p va = Some pa -> va - WINDOW = pa.
Proof. cbn. destruct (Z.leb_spec WINDOW va); [|done]. by intros [= <-]. Qed.
Lemma demo_window p pa : 0 <= pa -> window p (WINDOW + pa) pa.
Proof. intros Hpa k Hk. cbn. destruct (Z.leb_spec WINDOW (WINDOW + pa + k)); [f_equal; lia|lia]. Qed.

#[export] Instance demo_laws : BoardLaws board.
Proof.
  refine {| ioapic_at := IOAPIC; lapic_at := LAPIC; io_entries := 24; firmware := fun _ => True;
    io_sel := bd_sel; io_reg := demo_reg; lapic_reg := bd_lapic; eois := bd_eois; imr := bd_imr;
    maps_left p n := (n <= bd_left p)%nat; lapic_unmapped _ := True |}.
  - intros p r. unfold demo_reg. destruct (r =? 1); [done|]. apply wrap_range. lia.
  - intros p. done.
  - intros p va v Hva%demo_phys Hv. unfold mm_write, demo_board, demo_write. rewrite Hva. cbv zeta. rewrite Z.eqb_refl. done.
  - intros p va Hva%demo_phys. unfold mm_read, demo_board, demo_read. rewrite Hva. cbv zeta. by rewrite Z.eqb_refl.
  - intros p va v Hva%demo_phys Hv. unfold mm_write, demo_board, demo_write. rewrite Hva. cbv zeta.
    destruct (Z.eqb_spec (IOAPIC + 16) IOAPIC); [done|]. rewrite Z.eqb_refl.
    split; [|split; [|done]].
    + intros r Hr. unfold demo_reg, upd. cbn [bd_regs]. destruct (r =? 1); [done|]. by destruct (Z.eqb_spec r (bd_sel p)).
    + intros Hs. unfold demo_reg, upd. cbn [bd_sel bd_regs]. destruct (Z.eqb_spec (bd_sel p) 1); [lia|].
      rewrite Z.eqb_refl. by rewrite wrap_small.
  - intros p x v _ Hv. cbn. unfold upd. rewrite Z.eqb_refl. split; [done|]. split; [|done].
    intros y Hy. by destruct (Z.eqb_spec y x).
  - intros p f s n Hs Hs' Hl. exists (WINDOW + s). eexists. split; [reflexivity|]. split; [unfold WINDOW; lia|].
    split; [unfold WINDOW; lia|]. split; [by apply demo_window|]. split; [done|]. split; [cbn; lia|]. done.
  - intros p f _ _. exists p. split; [done|]. split; [|done]. rewrite Z.add_comm. by apply demo_window.
  - intros p va k Hw Hk _. pose proof (demo_phys _ _ _ (Hw k Hk)) as E. eexists. unfold mm_read, demo_board, demo_read. reflexivity.
  - intros p va k v Hw Hk Hm Hv _. pose proof (demo_phys _ _ _ (Hw k Hk)) as E. unfold mm_write, demo_board, demo_write.
    rewrite E. cbv zeta. destruct (Z.eqb_spec (LAPIC + k) IOAPIC); [unfold LAPIC, IOAPIC in *; lia|].
    destruct (Z.eqb_spec (LAPIC + k) (IOAPIC + 16)); [unfold LAPIC, IOAPIC in *; lia|].
    replace (LAPIC + k - LAPIC) with k by lia. cbn. unfold upd. rewrite Z.eqb_refl. split; [done|].
    split; [|done]. intros k' Hk'. by destruct (Z.eqb_spec k' k).
  - intros p lo hi _. done.
Defined.

Definition demo_pic : pic board :=
  MkPicState (MkCpuIo (MkBoard 0 (fun _ => 0) (fun _ => 0) (fun _ => 0) (0xFEE00900, 0) 8 0) false) 0 0 0 0 0.

Lemma demo_table t : 0 < t -> t + 4096 < 2 ^ 32 -> table_at t.
Proof. by repeat split. Qed.

Lemma demo_acpi : acpi (pic_p demo_pic) 0x1000 0x2000 8 [0x3000; 0x4000] [0x3000] 0x4000 [] [(0, 8); (1, 12); (2, 10)].
Proof.
  split; [by apply demo_table|by apply demo_table|left; by vm_compute| |done|by vm_compute| | |by vm_compute|by vm_compute].
  - split; [by right|]. split; [by vm_compute|]. split; [by vm_compute|]. split.
    + intros [|[|i]] t Ht; cbn in Ht; [injection Ht as <-; by vm_compute..|done].
    + by repeat constructor; apply demo_table.
  - constructor; [by vm_compute|constructor].
  - by vm_compute.
Qed.

Lemma ioapic_init_correct_witness : exists s' : pic board, ioapic_init 4 0x1000 demo_pic = Ret (tt, s') /\
  redirection (pic_p s') 23 = (IOAPIC_MASK_MASK + 55, 0).
Proof.
  destruct (ioapic_init_correct demo_pic 0x1000 0x2000 8 _ _ _ _ _ 0 4 demo_acpi eq_refl 8) as (s' & E & _ & _ & _ & R & _).
  - cbn. lia.
  - cbn. lia.
  - cbn. lia.
  - by vm_compute.
  - done.
  - done.
  - exists s'. split; [exact E|]. apply R. cbn. lia.
Defined.

(** After [ioapic_init]: the I/O APIC is mapped. *)
Definition demo_ready : pic board := set_ioapic_mmio (WINDOW + IOAPIC) demo_pic.

(** A controller that begins at interrupt 16: interrupt 20 is entry 4, and
    interrupt 12, which it does not have, goes to entry 12. *)
Definition demo_second : pic board := set_ioapic_place IOAPIC 16 demo_ready.

Lemma ioapic_enable_correct_witness :
  (exists s1 : pic board, ioapic_enable 20 0 demo_second = Ret (tt, s1) /\
     redirection (pic_p s1) 4 = (52 + 2 ^ 13, 0)) /\
  exists s1 : pic board, ioapic_enable 12 0 demo_second = Ret (tt, s1) /\
     redirection (pic_p s1) 12 = (44 + 2 ^ 13, 0).
Proof.
  split.
  - destruct (ioapic_enable_correct demo_second 20 0) as (s1 & s2 & E1 & _ & R & _);
      [by split; [by vm_compute|by vm_compute|lia|lia|done|done]|]. exists s1. split; [exact E1|exact R].
  - destruct (ioapic_enable_correct demo_second 12 0) as (s1 & s2 & E1 & _ & R & _);
      [by split; [by vm_compute|by vm_compute|lia|lia|done|done]|]. exists s1. split; [exact E1|exact R].
Defined.

Lemma apic_timer_correct_witness : exists s' : pic board,
  (_ ← lapic_init; sched_timer_init 2400000000) demo_pic = Ret (tt, s') /\
  lapic_prog (pic_p s') LAPIC_TICR = 2400000.
Proof.
  destruct (apic_timer_correct demo_pic 0xFEE00900 2400000000) as (s' & E & _ & _ & _ & _ & _ & _ & R & _); [done|lia|done|done|done|lia|].
  exists s'. split; [exact E|exact R].
Defined.
