(* ===== verification/ApicVmm.v ===== *)
(** * The interrupt controllers behind the kernel's page tables

    Apic.v and what is proved about it see memory through an interface,
    [Board].  Here the memory manager of the kernel implements it: a
    [computer] is a bus with devices, the memory of PhysMem.v and the page
    tables of Vmm.v; an address leads to a device where these tables say so,
    and [vmm_map_physical] and [vmm_init_lapic] are those of Vmm.v.  From what
    the data sheets promise of the devices, by physical address ([BusLaws]),
    and the theorems of KernelMap.v follow all laws of [BoardLaws]: the
    theorems of ApicFacts.v hold of the kernel's own page tables. *)
From S2P Require Import Prelude Mem PhysMem Vmm KernelMap Drivers Ports Apic ApicFacts.

(** Ports, model specific registers, and 32-bit accesses by physical address. *)
Class Bus (D : Type) := {
  bus_ports :: PortIO D;
  bus_msr :: MsrIO D;
  bus_read : Z -> D -> Z * D;
  bus_write : Z -> Z -> D -> D
}.

(** The documented behaviour of the two controllers, as in [BoardLaws]. *)
Class BusLaws (D : Type) `{Bus D} := {
  bus_ioapic : Z; bus_lapic : Z; bus_entries : Z;
  bus_sel : D -> Z; bus_reg : D -> Z -> Z; bus_lapic_reg : D -> Z -> Z; bus_eois : D -> Z; bus_imr : D -> Z -> Z;
  law_bus_range d r : 0 <= bus_reg d r < 2 ^ 32;
  law_bus_version d : 1 <= bus_entries <= 240 /\ Z.land (Z.shiftr (bus_reg d 1) 16) 0xFF = bus_entries - 1;
  law_bus_select d v : 0 <= v < 256 -> let d' := bus_write bus_ioapic v d in
    bus_sel d' = v /\ (forall r, bus_reg d' r = bus_reg d r) /\ (forall x, bus_imr d' x = bus_imr d x);
  law_bus_read d : bus_read (bus_ioapic + 16) d = (bus_reg d (bus_sel d), d);
  law_bus_write d v : 0 <= v < 2 ^ 32 -> let d' := bus_write (bus_ioapic + 16) v d in
    (forall r, r <> bus_sel d -> bus_reg d' r = bus_reg d r) /\
    (0x10 <= bus_sel d < 0x10 + 2 * bus_entries ->
       Z.land (bus_reg d' (bus_sel d)) (redtbl_mask (bus_sel d)) = Z.land v (redtbl_mask (bus_sel d))) /\
    (forall x, bus_imr d' x = bus_imr d x);
  law_bus_imr d x v : x = PIC1_DATA \/ x = PIC2_DATA -> 0 <= v < 256 -> let d' := port_out 1 x v d in
    bus_imr d' x = v /\ (forall y, y <> x -> bus_imr d' y = bus_imr d y) /\ (forall r, bus_reg d' r = bus_reg d r);
  law_bus_lapic_read d k : 0 <= k < 4096 -> k mod 16 = 0 -> exists v, bus_read (bus_lapic + k) d = (v, d);
  law_bus_lapic_write d k v : 0 <= k < 4096 -> k mod 16 = 0 -> 0 <= v < 2 ^ 32 ->
    (k = LAPIC_SVR -> Z.testbit v 8 = true) -> let d' := bus_write (bus_lapic + k) v d in
    Z.land (bus_lapic_reg d' k) (lapic_mask k) = Z.land v (lapic_mask k) /\
    (forall k', k' <> k -> Z.land (bus_lapic_reg d' k') (lapic_mask k') = Z.land (bus_lapic_reg d k') (lapic_mask k')) /\
    (forall a, msr_in a d' = msr_in a d) /\ bus_eois d' = bus_eois d + (if k =? LAPIC_EOI then 1 else 0);
  law_bus_base d lo hi : lo mod 4096 = Z.shiftl 1 11 -> let d' := msr_out IA32_APIC_BASE_MSR lo hi d in
    msr_in IA32_APIC_BASE_MSR d' = (lo, hi) /\ (forall k, bus_lapic_reg d' k = bus_lapic_reg d k)
}.

Record computer (D : Type) := MkComputer { co_bus : D; co_mem : pmem; co_vmm : vmm_globals }.
Arguments MkComputer {D}. Arguments co_bus {D}. Arguments co_mem {D}. Arguments co_vmm {D}.

Section computer.
Context {D : Type} `{BL : BusLaws D}.
(** The offset of the direct map, and the memory of the firmware's tables. *)
Context (direct_map : Z) (firmware_at : Z -> Prop).
Let lapic_va := bus_lapic + direct_map.
Context (Hlapic : 2 ^ 64 - 2 ^ 47 <= lapic_va /\ lapic_va + 4096 <= 2 ^ 64 /\ lapic_va mod 4096 = 0).
Context (Hframe : is_frame bus_lapic).
Abbreviation C := (computer D).
Implicit Types p : C.

Definition set_co_bus (d : D) p : C := MkComputer d (co_mem p) (co_vmm p).
Definition root_of p : Z := kernel_pagetable (co_vmm p).

(** Where devices are mapped, addresses mean what the tables say. *)
Definition mapped_area (va : Z) : bool :=
  ((IO_AREA <=? va) && (va <? 2 ^ 64)) || ((lapic_va <=? va) && (va <? lapic_va + 4096)).
Definition computer_phys p (va : Z) : option Z :=
  if mapped_area va then device_phys (co_mem p) (root_of p) va else None.

(** An operation of the memory manager. *)
Definition on_vmm {A} (m : vmm_globals -> ST pmem (A * vmm_globals)) : ST (cpu C) A := fun c =>
  match m (co_vmm (io c)) (co_mem (io c)) with
  | Ret ((a, g), mem) => Ret (a, MkCpuIo (MkComputer (co_bus (io c)) mem g) (if_flag c))
  | Panic msg => Panic msg
  | Undef => Undef
  | NoFuel => NoFuel
  end.
Definition computer_ports : PortIO C := {|
  port_in n x p := let '(v, d) := port_in n x (co_bus p) in (v, set_co_bus d p);
  port_out n x v p := set_co_bus (port_out n x v (co_bus p)) p
|}.
Definition computer_msr : MsrIO C := {|
  msr_in a p := msr_in a (co_bus p); msr_out a lo hi p := set_co_bus (msr_out a lo hi (co_bus p)) p
|}.
#[local] Instance computer_board : Board C := {|
  board_ports := computer_ports; board_msr := computer_msr;
  phys_of := computer_phys;
  ram_byte p a := ram (co_mem p) (P2V (co_mem p) a);
  vmm_map_physical s e := on_vmm (fun g => Vmm.vmm_map_physical g s e);
  vmm_init_lapic pa := on_vmm (fun g => _ ← Vmm.vmm_init_lapic g pa; mret (tt, g));
  hhdm := direct_map;
  mm_read va p := match computer_phys p va with
                  | Some pa => let '(v, d) := bus_read pa (co_bus p) in (v, set_co_bus d p)
                  | None => (0, p)
                  end;
  mm_write va v p := match computer_phys p va with Some pa => set_co_bus (bus_write pa v (co_bus p)) p | None => p end
|}.

(** [n] more ranges of a page's length can be mapped, each of which may lie
    in two pages; the firmware's tables are not where the kernel's can be. *)
Definition room p (n : nat) : Prop := exists l T, io_room lapic_va (co_mem p) l (co_vmm p) T (2 * Z.of_nat n) /\
  forall a t, firmware_at a -> t ∈ avail (co_mem p) l \/ (exists k, T !! k = Some t) -> ~ in_page t (P2V (co_mem p) a).
Definition lapic_room p : Prop := exists l T, pt_wf (R := kernel_space lapic_va) (co_mem p) l (root_of p) T /\
  hhdm_offset (co_mem p) = direct_map /\ translate (co_mem p) (root_of p) lapic_va = None /\ 3 <= zlen (avail (co_mem p) l).

Lemma mapped_area_device va : mapped_area va = true <-> device_va lapic_va va.
Proof. unfold mapped_area, device_va. rewrite orb_true_iff, !andb_true_iff, !Z.leb_le, !Z.ltb_lt. tauto. Qed.
Lemma computer_phys_Some p va x : computer_phys p va = Some x <-> device_va lapic_va va /\ device_phys (co_mem p) (root_of p) va = Some x.
Proof. unfold computer_phys. rewrite <- mapped_area_device. destruct (mapped_area va); naive_solver. Qed.

Lemma io_room_less s l g T n m : io_room lapic_va s l g T n -> m <= n -> io_room lapic_va s l g T m.
Proof. intros [H1 H2 H3 H4 H5] Hm. split; try done; lia. Qed.

(** What is mapped stays mapped while the tables grow behind the cursor. *)
Lemma mapping_kept p s' va x c :
  (forall va, c <= va < 2 ^ 64 -> translate (co_mem p) (root_of p) va = None) ->
  (forall va, device_va lapic_va va -> va < c -> translate s' (root_of p) va = translate (co_mem p) (root_of p) va) ->
  computer_phys p va = Some x -> device_va lapic_va va /\ device_phys s' (root_of p) va = Some x.
Proof.
  intros Hfree Hkept [Hva Hx]%computer_phys_Some. split; [done|]. revert Hx. unfold device_phys.
  destruct (Z.lt_ge_cases va c) as [Hlt|Hge]; [by rewrite Hkept|]. rewrite Hfree; [done|].
  split; [done|]. destruct Hva; lia.
Qed.

(** The firmware's tables are not written by taking pages from the pool. *)
Lemma firmware_kept root s l T s' l' T' : grows (R := kernel_space lapic_va) root s l T s' l' T' ->
  (forall a t, firmware_at a -> t ∈ avail s l \/ (exists k, T !! k = Some t) -> ~ in_page t (P2V s a)) ->
  (forall a t, firmware_at a -> t ∈ avail s' l' \/ (exists k, T' !! k = Some t) -> ~ in_page t (P2V s' a)) /\
  forall a, firmware_at a -> ram s' (P2V s' a) = ram s (P2V s a).
Proof.
  intros (_ & _ & [Hh Hram] & used & [Hav Hnew]) Hfw. assert (forall a, P2V s' a = P2V s a) as HP by (intros a; unfold P2V; by rewrite Hh).
  assert (forall a t, firmware_at a -> t ∈ avail s' l' \/ (exists k, T' !! k = Some t) -> ~ in_page t (P2V s' a)) as Hfw'.
  { intros a t Ha Ht. rewrite HP. apply Hfw; [done|]. setoid_rewrite Hav. rewrite elem_of_app.
    destruct Ht as [Ht|[k [Ht|Ht]%Hnew]]; eauto. }
  split; [done|]. intros a Ha. rewrite HP. apply Hram. intros k t Hk. rewrite <- HP. apply Hfw'; eauto.
Qed.

(** The promise of [vmm_map_physical] to its callers. *)
Lemma computer_map p f s n : 0 <= s -> s + 4096 < 2 ^ 32 -> room p (S n) -> exists va p',
  vmm_map_physical s (s + 4096) (MkCpuIo p f) = Ret (va, MkCpuIo p' f) /\ 0 < va /\ va + 4096 <= 2 ^ 64 /\
  window p' va s /\ (forall a x, phys_of p a = Some x -> phys_of p' a = Some x) /\
  room p' n /\ (forall a, firmware_at a -> ram_byte p' a = ram_byte p a) /\ co_bus p' = co_bus p.
Proof.
  intros Hs Hs2 (l & T & Hroom & Hfw). destruct (Z.mod_pos_bound s 4096 ltac:(lia)) as [Hm1 Hm2].
  set (k := (s mod 4096 + (s + 4096 - s) + 4095) / 4096). assert (1 <= k <= 2) as Hk by (unfold k; zify_div).
  assert (s mod 4096 + 4096 <= 4096 * k) as Hk2 by (unfold k; zify_div).
  replace (2 * Z.of_nat (S n)) with (k + (2 * Z.of_nat (S n) - k)) in Hroom by lia. pose proof Hroom as [_ [Hc1 _] Hc2 Hfree _].
  set (c := io_memmap_current_address (co_vmm p)) in *. assert (IO_AREA = 2 ^ 64 - 2 ^ 28) as EA by done.
  destruct (vmm_map_physical_correct lapic_va Hlapic (co_mem p) l (co_vmm p) T s (s + 4096) (2 * Z.of_nat (S n) - k) Hroom)
    as (s' & l' & T' & E & HG & HR & HM & HK); try lia. fold c k in E, HR, HM, HK.
  destruct (firmware_kept _ _ _ _ _ _ _ HG Hfw) as [Hfw' Hram].
  exists (c + s mod 4096), (MkComputer (co_bus p) s' (MkVmm (kernel_pagetable (co_vmm p)) (c + 4096 * k))).
  split; [by unfold vmm_map_physical, computer_board, on_vmm; cbn [io if_flag]; rewrite E|].
  split; [lia|]. split; [lia|]. split; [|split; [|split; [|done]]].
  - intros i Hi. apply computer_phys_Some. split; [left; lia|]. apply HM. lia.
  - intros a x Ha. apply computer_phys_Some. by apply (mapping_kept p s' a x c).
  - exists l', T'. split; [|done]. apply (io_room_less _ _ _ _ _ _ HR). lia.
Qed.

(** The promise of [vmm_init_lapic]. *)
Lemma computer_map_lapic p f : lapic_room p -> exists p', vmm_init_lapic bus_lapic (MkCpuIo p f) = Ret (tt, MkCpuIo p' f) /\
  window p' lapic_va bus_lapic /\ co_bus p' = co_bus p.
Proof.
  intros (l & T & Hwf & Hh & Hfree & Hp).
  destruct (vmm_init_lapic_correct lapic_va Hlapic (co_mem p) l (co_vmm p) T bus_lapic Hwf Hframe) as (s' & l' & T' & E & _ & _ & HM & _);
    [|done|done|].
  - unfold P2V. rewrite Hh. apply wrap_small. fold lapic_va. lia.
  - exists (MkComputer (co_bus p) s' (co_vmm p)). split; [|split; [|done]].
    + unfold vmm_init_lapic, computer_board, on_vmm. cbn [io if_flag]. by rewrite (bind_step _ _ _ _ _ E).
    + intros k Hk. apply computer_phys_Some. split; [right; lia|]. by apply HM.
Qed.

(** ** The laws *)

Lemma computer_write p va v pa : phys_of p va = Some pa -> mm_write va v p = set_co_bus (bus_write pa v (co_bus p)) p.
Proof. cbn. by intros ->. Qed.
Lemma computer_read p va pa : phys_of p va = Some pa -> mm_read va p = let '(v, d) := bus_read pa (co_bus p) in (v, set_co_bus d p).
Proof. cbn. by intros ->. Qed.

#[local] Instance computer_laws : BoardLaws C.
Proof.
  refine {| ioapic_at := bus_ioapic; lapic_at := bus_lapic; io_entries := bus_entries; firmware := firmware_at;
    io_sel p := bus_sel (co_bus p); io_reg p := bus_reg (co_bus p); lapic_reg p := bus_lapic_reg (co_bus p);
    eois p := bus_eois (co_bus p); imr p := bus_imr (co_bus p); maps_left := room; lapic_unmapped := lapic_room |}.
  - intros p. apply law_bus_range.
  - intros p. apply (law_bus_version (co_bus p)).
  - intros p va v Hva Hv. rewrite (computer_write _ _ _ _ Hva). by destruct (law_bus_select (co_bus p) v Hv) as (? & ? & ?).
  - intros p va Hva. rewrite (computer_read _ _ _ Hva), law_bus_read. by destruct p.
  - intros p va v Hva Hv. rewrite (computer_write _ _ _ _ Hva). by destruct (law_bus_write (co_bus p) v Hv) as (? & ? & ?).
  - intros p x v Hx Hv. by destruct (law_bus_imr (co_bus p) x v Hx Hv) as (? & ? & ?).
  - intros p f s n Hs Hs2 Hroom. destruct (computer_map p f s n Hs Hs2 Hroom) as (va & p' & E & H1 & H2 & H3 & H4 & H5 & H6 & H7).
    exists va, p'. split_and!; try done. intros r. by rewrite H7.
  - intros p f _ Hroom. destruct (computer_map_lapic p f Hroom) as (p' & E & H1 & H2).
    exists p'. split; [done|]. split; [done|]. intros a. cbn. by rewrite H2.
  - intros p va k Hw Hk Hk2. destruct (law_bus_lapic_read (co_bus p) k Hk Hk2) as [v Hv]. exists v.
    rewrite (computer_read _ _ _ (Hw k Hk)), Hv. by destruct p.
  - intros p va k v Hw Hk Hk2 Hv Hs. rewrite (computer_write _ _ _ _ (Hw k Hk)).
    by destruct (law_bus_lapic_write (co_bus p) k v Hk Hk2 Hv Hs) as (? & ? & ? & ?).
  - intros p lo hi Hlo. by destruct (law_bus_base (co_bus p) lo hi Hlo) as (? & ?).
Defined.
End computer.
