(* ===== verification/ApicVmmDemo.v ===== *)
(** * The machine of ApicDemo.v under the kernel's own page tables

    The I/O APIC, local APIC and firmware tables of ApicDemo.v on a bus, with
    physical memory in a direct map, an empty kernel page table and a pool of
    sixty pages: the laws of ApicVmm.v hold of it, there is room for the
    mappings [ioapic_init] makes, and running it here sets every entry. *)
From S2P Require Import Prelude Mem PhysMem Vmm KernelMap Drivers Ports Apic ApicFacts ApicDemo ApicVmm.

#[export] Instance demo_bus : Bus board := {
  bus_ports := demo_ports; bus_msr := demo_msr;
  bus_read pa := demo_read (WINDOW + pa); bus_write pa := demo_write (WINDOW + pa)
}.
#[export] Instance demo_bus_laws : BusLaws board.
Proof.
  assert (forall p pa, 0 <= pa -> phys_of p (WINDOW + pa) = Some pa) as W
    by (intros p pa Hpa; pose proof (demo_window p pa Hpa 0 ltac:(lia)) as E; by rewrite !Z.add_0_r in E).
  refine {| bus_ioapic := IOAPIC; bus_lapic := LAPIC; bus_entries := 24; bus_sel := bd_sel; bus_reg := demo_reg;
    bus_lapic_reg := bd_lapic; bus_eois := bd_eois; bus_imr := bd_imr |}.
  - exact (io_reg_range (P := board)).
  - exact (law_version (P := board)).
  - intros d v Hv. by destruct (law_select d _ v (W d IOAPIC ltac:(done)) Hv) as (? & ? & _ & ?).
  - intros d. exact (law_window_read d _ (W d (IOAPIC + 16) ltac:(done))).
  - intros d v Hv. by destruct (law_window_write d _ v (W d (IOAPIC + 16) ltac:(done)) Hv) as (? & ? & _ & ?).
  - intros d x v Hx Hv. by destruct (law_imr d x v Hx Hv) as (? & ? & ? & _).
  - intros d k Hk Hm. change (bus_read (LAPIC + k)) with (mm_read (P := board) (WINDOW + (LAPIC + k))).
    rewrite Z.add_assoc. apply law_lapic_read; [by apply demo_window|done|done].
  - intros d k v Hk Hm Hv Hs. change (bus_write (LAPIC + k)) with (mm_write (P := board) (WINDOW + (LAPIC + k))).
    rewrite Z.add_assoc. by destruct (law_lapic_write d _ k v (demo_window d LAPIC ltac:(done)) Hk Hm Hv Hs) as (? & ? & _ & ?).
  - intros d lo hi H. by destruct (law_apic_base d lo hi H) as (? & _ & ?).
Defined.

(** The direct map; the root page table at 2 MiB, the pool from 1 MiB on. *)
Definition DIRECT_MAP : Z := 2 ^ 64 - 2 ^ 47.
Definition low_tables (a : Z) : Prop := 0 <= a < 0x10000.
Definition demo_kram : mem := fun x => if x - DIRECT_MAP <? 0x10000 then demo_ram (x - DIRECT_MAP) else 0.
Definition demo_kmem : pmem := MkPmem demo_kram 0 [MkRegion 0x100000 0x13C000] 1 true DIRECT_MAP 0x13C000.
Definition demo_kroot : Z := DIRECT_MAP + 0x200000.
Definition demo_ktree : gmap (nat * Z) Z := {[ (3%nat, 0) := demo_kroot ]}.
Definition demo_computer : computer board := MkComputer (pic_p demo_pic) demo_kmem (MkVmm demo_kroot IO_AREA).

Lemma demo_kpages : avail demo_kmem [] = (fun i => DIRECT_MAP + 0x100000 + 4096 * i) <$> seqZ 0 60.
Proof. done. Qed.
Lemma demo_kpage t : t ∈ avail demo_kmem [] -> exists i, t = DIRECT_MAP + 0x100000 + 4096 * i /\ 0 <= i < 60.
Proof. rewrite demo_kpages, list_elem_of_fmap. intros (i & -> & Hi%elem_of_seqZ). exists i. split; [done|lia]. Qed.
Lemma demo_ktree_Some k p t : demo_ktree !! (k, p) = Some t -> k = 3%nat /\ p = 0 /\ t = demo_kroot.
Proof. unfold demo_ktree. rewrite lookup_singleton_Some. naive_solver. Qed.
Lemma demo_kroot_zero i : 0 <= i < 512 -> entry demo_kmem demo_kroot i = 0.
Proof.
  intros Hi. rewrite <- (load_zeros (demo_kroot + 8 * i) 8). apply load_le_ext. intros j Hj. unfold demo_kmem, demo_kram, zeros. unfold demo_kroot in Hj.
  cbn [ram]. rewrite (proj2 (Z.ltb_ge _ _)); [done|lia].
Qed.
Lemma demo_lapic : 2 ^ 64 - 2 ^ 47 <= bus_lapic + DIRECT_MAP /\ bus_lapic + DIRECT_MAP + 4096 <= 2 ^ 64 /\ (bus_lapic + DIRECT_MAP) mod 4096 = 0.
Proof. done. Qed.

Lemma demo_kernel_wf : pt_wf (R := kernel_space (bus_lapic + DIRECT_MAP)) demo_kmem [] demo_kroot demo_ktree.
Proof.
  assert (DIRECT_MAP = 2 ^ 64 - 2 ^ 47) as ED by done. constructor.
  - constructor; [constructor|done| |split; [cbn; lia|done]|].
    + constructor; [|done]. unfold region_ok. cbn [phys_cur phys_end hhdm_offset demo_kmem]. split_and!; try lia; done.
    + change (NoDup (avail demo_kmem [])). rewrite demo_kpages. apply NoDup_fmap; [|apply NoDup_seqZ]. intros x y. lia.
  - apply Forall_forall. intros t (i & -> & Hi)%demo_kpage. split; cbn [hhdm_offset demo_kmem]; [lia|zify_div].
  - apply lookup_singleton_eq.
  - intros k p t (-> & -> & ->)%demo_ktree_Some. split; [lia|]. split; [done|]. split.
    + intros (i & E & Hi)%demo_kpage. unfold demo_kroot in E. lia.
    + split; [lia|]. exists (low48 IO_AREA). split; [|done]. apply device_covered; [exact demo_lapic|by left].
  - intros [k p] [k' p'] t H1%demo_ktree_Some H2%demo_ktree_Some. naive_solver.
  - intros k p i t ([= ->] & -> & ->)%demo_ktree_Some Hi _. rewrite demo_kroot_zero by done.
    change (pte_is_present 0) with false. apply lookup_singleton_None. congruence.
Qed.

Lemma demo_unmapped va : translate demo_kmem demo_kroot va = None.
Proof.
  unfold translate. cbn [translate_from]. by rewrite demo_kroot_zero by apply index_range.
Qed.

(** There is room for ten mappings, and for the local APIC's page. *)
Lemma demo_room : room DIRECT_MAP low_tables demo_computer 10 /\ lapic_room DIRECT_MAP demo_computer.
Proof.
  assert (DIRECT_MAP = 2 ^ 64 - 2 ^ 47) as ED by done. split; exists [], demo_ktree.
  - split.
    + split; [exact demo_kernel_wf|done|done|intros; apply demo_unmapped|done].
    + intros a t Ha Ht. assert (0 <= a < 0x10000) as Ha' by done. unfold in_page, P2V. cbn [co_mem demo_computer hhdm_offset demo_kmem].
      rewrite wrap_small by lia. destruct Ht as [(i & -> & Hi)%demo_kpage|[[k q] (_ & _ & ->)%demo_ktree_Some]]; unfold demo_kroot; lia.
  - split; [exact demo_kernel_wf|]. split; [done|]. split; [apply demo_unmapped|done].
Qed.

(** [ioapic_init] over these page tables: every entry of the controller is
    masked, with its vector. *)
#[local] Instance demo_computer_board : Board (computer board) := computer_board DIRECT_MAP.
Definition demo_machine : pic (computer board) := MkPicState (MkCpuIo demo_computer false) 0 0 0 0 0.
Example demo_ioapic_init :
  match ioapic_init 4 0x1000 demo_machine with
  | Ret (_, s) => (fun i => demo_reg (co_bus (io (pic_cpu s))) (IOAPIC_REDTBL_LOW i)) <$> seqZ 0 24
  | _ => []
  end = (fun i => IOAPIC_MASK_MASK + 32 + i) <$> seqZ 0 24.
Proof. vm_compute. reflexivity. Qed.
