(* ===== verification/Descriptors.v ===== *)
(** * Descriptor tables, system call registers and the data of a core
      (kernel/src/cpu/gdt.c, idt.c, smp.c, fpu.c, userspace/syscall.c)

    The tables are lists of the packed structures; the addresses of the
    static variables are parameters.  [lgdt], [ltr] and [lidt] load the
    hidden registers of the core from the tables, with the meaning the
    processor gives to their fields.  Log output is left out. *)
From S2P Require Import Prelude Mem PhysMem Vmm Ports Drivers.

Definition GDT_KERNEL_CODE_SEGMENT : Z := 0x08.
Definition GDT_KERNEL_DATA_SEGMENT : Z := 0x10.
Definition GDT_USER_DATA_SEGMENT : Z := 0x18.
Definition GDT_USER_CODE_SEGMENT : Z := 0x20.
Definition GDT_TSS_SEGMENT : Z := 0x28.
Definition IST_DOUBLE_FAULT_STACK_INDEX : Z := 1.
Definition IST_NMI_STACK_INDEX : Z := 2.
Definition IST_MACHINE_CHECK_STACK_INDEX : Z := 3.
Definition IST_DEBUG_STACK_INDEX : Z := 4.

(** ** Structures *)

Record gdt_desc := MkDesc {
  gd_limit : Z; gd_base_low : Z; gd_base_mid : Z; gd_access : Z; gd_granularity : Z; gd_base_hi : Z
}.
(** [union gdt_entry]. *)
Inductive gdt_entry :=
| normal (d : gdt_desc)
| sys_desc_upper (base_very_high reserved : Z).

(** The initial contents of [gdt_entries]. *)
Definition gdt_entries_init : list gdt_entry :=
  [normal (MkDesc 0 0 0 0 0 0);
   normal (MkDesc 0 0 0 0x9A 0x20 0);
   normal (MkDesc 0 0 0 0x92 0x00 0);
   normal (MkDesc 0 0 0 0xF2 0x00 0);
   normal (MkDesc 0 0 0 0xFA 0x20 0);
   normal (MkDesc 0 0 0 0x89 0x00 0);
   sys_desc_upper 0 0].
Definition sizeof_gdt_entries : Z := 56.

Record tss_entry := MkTss { sp0 : Z; sp1 : Z; sp2 : Z; ist : list Z; io_bitmap_base : Z }.
Definition tss_zero : tss_entry := MkTss 0 0 0 (replicate 7 0) 0.
Definition sizeof_tss : Z := 104.

Record idt_entry := MkGate {
  offset_low : Z; selector : Z; gate_ist : Z; type_attr : Z; offset_mid : Z; offset_high : Z; gate_zero : Z
}.
Definition gate_none : idt_entry := MkGate 0 0 0 0 0 0 0.

(** The tables in memory, and what the core has loaded of them. *)
Record tables := MkTables {
  gdt_entries : list gdt_entry; tss : tss_entry; idt : list idt_entry; pages : pmem;
  gdtr : option (Z * Z); tr : option (Z * Z); idtr : option (Z * Z)
}.
Definition set_gdt (l : list gdt_entry) (s : tables) : tables := MkTables l (tss s) (idt s) (pages s) (gdtr s) (tr s) (idtr s).
Definition set_tss (t : tss_entry) (s : tables) : tables := MkTables (gdt_entries s) t (idt s) (pages s) (gdtr s) (tr s) (idtr s).
Definition set_idt (l : list idt_entry) (s : tables) : tables := MkTables (gdt_entries s) (tss s) l (pages s) (gdtr s) (tr s) (idtr s).
Definition set_pages (q : pmem) (s : tables) : tables := MkTables (gdt_entries s) (tss s) (idt s) q (gdtr s) (tr s) (idtr s).
Definition set_gdtr (r : Z * Z) (s : tables) : tables := MkTables (gdt_entries s) (tss s) (idt s) (pages s) (Some r) (tr s) (idtr s).
Definition set_tr (r : Z * Z) (s : tables) : tables := MkTables (gdt_entries s) (tss s) (idt s) (pages s) (gdtr s) (Some r) (idtr s).
Definition set_idtr (r : Z * Z) (s : tables) : tables := MkTables (gdt_entries s) (tss s) (idt s) (pages s) (gdtr s) (tr s) (Some r).

(** ** What the processor reads in them *)

Definition desc_present (d : gdt_desc) : bool := Z.testbit (gd_access d) 7.
Definition desc_dpl (d : gdt_desc) : Z := Z.land (Z.shiftr (gd_access d) 5) 3.
(** A segment of code or data, as opposed to a system segment. *)
Definition desc_segment (d : gdt_desc) : bool := Z.testbit (gd_access d) 4.
Definition desc_code (d : gdt_desc) : bool := Z.testbit (gd_access d) 3.
Definition desc_writable (d : gdt_desc) : bool := Z.testbit (gd_access d) 1.
Definition desc_long (d : gdt_desc) : bool := Z.testbit (gd_granularity d) 5.
Definition desc_limit (d : gdt_desc) : Z := Z.lor (gd_limit d) (Z.shiftl (Z.land (gd_granularity d) 0xF) 16).
Definition desc_base (d : gdt_desc) : Z :=
  Z.lor (Z.lor (gd_base_low d) (Z.shiftl (gd_base_mid d) 16)) (Z.shiftl (gd_base_hi d) 24).

(** [ltr]: the two entries of an available 64-bit TSS, which is marked busy;
    anything else faults. *)
Definition ltr (sel : Z) : ST tables unit := fun s =>
  match zget (gdt_entries s) (sel / 8), zget (gdt_entries s) (sel / 8 + 1) with
  | Some (normal d), Some (sys_desc_upper hi _) =>
      if desc_present d && negb (desc_segment d) && (Z.land (gd_access d) 0xF =? 9) then
        Ret (tt, set_tr (Z.lor (desc_base d) (Z.shiftl hi 32), desc_limit d)
          (set_gdt (zset (gdt_entries s) (sel / 8)
             (normal (MkDesc (gd_limit d) (gd_base_low d) (gd_base_mid d) (Z.lor (gd_access d) 2)
                (gd_granularity d) (gd_base_hi d)))) s))
      else Undef
  | _, _ => Undef
  end.

Definition gate_present (e : idt_entry) : bool := Z.testbit (type_attr e) 7.
Definition gate_dpl (e : idt_entry) : Z := Z.land (Z.shiftr (type_attr e) 5) 3.
Definition gate_type (e : idt_entry) : Z := Z.land (type_attr e) 0xF.
Definition gate_handler (e : idt_entry) : Z :=
  Z.lor (Z.lor (offset_low e) (Z.shiftl (offset_mid e) 16)) (Z.shiftl (offset_high e) 32).

(** ** gdt.c *)

Section tables.
Context (tss_address gdt_address idt_address : Z).

(** The assignments to the fields of the TSS descriptor. *)
Definition put_tss_descriptor (limit : Z) : ST tables unit := fun s =>
  match zget (gdt_entries s) (GDT_TSS_SEGMENT / 8), zget (gdt_entries s) (GDT_TSS_SEGMENT / 8 + 1) with
  | Some (normal d), Some (sys_desc_upper _ r) =>
      Ret (tt, set_gdt (zset (zset (gdt_entries s) (GDT_TSS_SEGMENT / 8)
        (normal (MkDesc (wrap 16 limit) (Z.land tss_address 0xFFFF) (Z.land (Z.shiftr tss_address 16) 0xFF) (gd_access d)
          (gd_granularity d) (Z.land (Z.shiftr tss_address 24) 0xFF))))
        (GDT_TSS_SEGMENT / 8 + 1) (sys_desc_upper (Z.land (Z.shiftr tss_address 32) 0xFFFFFFFF) r)) s)
  | _, _ => Undef
  end.

(** [tss.ist[i - 1] = (uint64_t)kalloc() + PAGE_SIZE]. *)
Definition put_ist (i : Z) : ST tables unit :=
  st_modify (fun s => let '(p, q) := kalloc (pages s) in
    let t := tss s in
    set_pages q (set_tss (MkTss (sp0 t) (sp1 t) (sp2 t) (zset (ist t) (i - 1) (wrap 64 (p + PAGE_SIZE))) (io_bitmap_base t)) s)).

Definition tss_init_and_load : ST tables unit :=
  _ ← put_ist IST_DOUBLE_FAULT_STACK_INDEX;
  _ ← put_ist IST_NMI_STACK_INDEX;
  _ ← put_ist IST_MACHINE_CHECK_STACK_INDEX;
  _ ← put_ist IST_DEBUG_STACK_INDEX;
  _ ← st_modify (fun s => set_tss (MkTss INTSTACK_VIRTUAL_ADDRESS_TOP 0 0 (ist (tss s)) 0xFFFF) s);
  _ ← put_tss_descriptor (sizeof_tss - 1);
  ltr GDT_TSS_SEGMENT.

Definition gdt_init : ST tables unit :=
  _ ← put_tss_descriptor sizeof_tss;
  st_modify (set_gdtr (sizeof_gdt_entries - 1, gdt_address)).

Definition tss_set_kernel_stack (stack_top : Z) : ST tables unit :=
  st_modify (fun s => let t := tss s in set_tss (MkTss stack_top (sp1 t) (sp2 t) (ist t) (io_bitmap_base t)) s).

(** ** idt.c *)

Definition make_gate (handler ist_ dpl attr : Z) : idt_entry :=
  MkGate (Z.land handler 0xFFFF) GDT_KERNEL_CODE_SEGMENT ist_
    (wrap 8 (Z.lor (Z.land attr 0xFF) (Z.shiftl (Z.land dpl 0x3) 5)))
    (Z.land (Z.shiftr handler 16) 0xFFFF) (Z.land (Z.shiftr handler 32) 0xFFFFFFFF) 0.

Definition idt_set_gate (vector handler dpl attr : Z) : ST tables unit :=
  st_modify (fun s => set_idt (zset (idt s) (wrap 8 vector) (make_gate handler 0 dpl attr)) s).
Definition idt_set_gate_with_ist (vector handler ist_ dpl attr : Z) : ST tables unit :=
  st_modify (fun s => set_idt (zset (idt s) (wrap 8 vector) (make_gate handler ist_ dpl attr)) s).

Definition sizeof_idt : Z := 256 * 16.
Definition idt_load : ST tables unit := st_modify (set_idtr (sizeof_idt - 1, idt_address)).
Definition idt_init : ST tables unit :=
  _ ← st_modify (set_idt (replicate 256 gate_none)); idt_load.

(** The body is commented out. *)
Definition idt_init_critical_handlers : ST tables unit := mret tt.

(** [handle_page_fault]: the kernel stack of the running process, if any. *)
Definition handle_page_fault (kernel_stack_base : option Z) (faulting_address : Z) : outcome unit :=
  match kernel_stack_base with
  | Some base =>
      let guard_page_start := wrap 64 (base - KERNEL_STACK_GUARD_SIZE) in
      if (guard_page_start <=? faulting_address) && (faulting_address <? base)
      then Panic "Stack overflow - increase KERNEL_STACK_SIZE"
      else Panic "Unhandled page fault"
  | None => Panic "Unhandled page fault"
  end.

(** The gates the drivers set: [ps2_init] (drv_ps2.c) for its two devices and
    [sched_timer_init] (scheduler.c). *)
Definition ps2_gate (irq isr_stub_33 isr_stub_44 : Z) : ST tables unit :=
  if irq =? 1 then idt_set_gate (T_IRQ0 + 1) isr_stub_33 0 0x8E
  else if irq =? 12 then idt_set_gate (T_IRQ0 + 12) isr_stub_44 0 0x8E
  else mret tt.
Definition timer_gate (isr_timer_stub : Z) : ST tables unit := idt_set_gate (T_IRQ0 + 0) isr_timer_stub 0 0x8E.
End tables.

(** ** userspace/syscall.c *)

Definition IA32_EFER : Z := 0xC0000080.
Definition IA32_STAR : Z := 0xC0000081.
Definition IA32_LSTAR : Z := 0xC0000082.
Definition IA32_FMASK : Z := 0xC0000084.
(** [FLAGS_CF | FLAGS_PF | ... | FLAGS_ID]. *)
Definition SYSCALL_FLAGS : Z :=
  foldr (fun k m => Z.lor (Z.shiftl 1 k) m) 0 [0; 2; 4; 6; 7; 8; 9; 10; 11; 12; 13; 14; 16; 18; 21].

Section registers.
Context {P : Type} `{MsrIO P}.

Definition init_syscall_table (syscall_handler_asm : Z) : ST (cpu P) unit :=
  efer ← rdmsr IA32_EFER;
  _ ← wrmsr IA32_EFER (Z.lor efer 1);
  _ ← wrmsr IA32_STAR (Z.lor (wrap 64 (Z.shiftl GDT_KERNEL_CODE_SEGMENT 32))
                             (wrap 64 (Z.shiftl (GDT_USER_DATA_SEGMENT - 8) 48)));
  _ ← wrmsr IA32_LSTAR syscall_handler_asm;
  wrmsr IA32_FMASK SYSCALL_FLAGS.

(** ** cpu/smp.c: the local data of the cores, of which [cpuid] is kept *)

Definition MSR_GS_BASE : Z := 0xC0000101.
Definition MSR_KERNEL_GS_BASE : Z := 0xC0000102.
Definition MAX_CORES : Z := 8.
Definition sizeof_cpu_local_data : Z := 576.

Record smp := MkSmp { core : cpu P; cpu_locals : list Z; next_cpuid : Z }.
Definition set_core (c : cpu P) (s : smp) : smp := MkSmp c (cpu_locals s) (next_cpuid s).

Context (cpu_locals_address : Z).

(** [cpu_locals[cpuid].cpuid = cpuid]. *)
Definition put_cpuid (cpuid : Z) : ST smp unit := fun s =>
  if cpuid <? zlen (cpu_locals s)
  then Ret (tt, MkSmp (core s) (zset (cpu_locals s) cpuid cpuid) (next_cpuid s)) else Undef.
Definition cpu_local_setup : ST smp unit :=
  cpuid ← reads next_cpuid;
  _ ← st_modify (fun s => MkSmp (core s) (cpu_locals s) (wrap 8 (next_cpuid s + 1)));
  if MAX_CORES <? cpuid then st_panic "too much cores"
  else
    _ ← put_cpuid cpuid;
    _ ← zoom core set_core (wrmsr MSR_GS_BASE (cpu_locals_address + cpuid * sizeof_cpu_local_data));
    zoom core set_core (wrmsr MSR_KERNEL_GS_BASE (cpu_locals_address + cpuid * sizeof_cpu_local_data)).

Definition cpu_local : ST smp Z := zoom core set_core (rdmsr MSR_GS_BASE).
(** [cpu->cpuid] at an address. *)
Definition read_cpuid (a : Z) : ST smp Z := fun s =>
  match zget (cpu_locals s) ((a - cpu_locals_address) / sizeof_cpu_local_data) with
  | Some id => Ret (id, s)
  | None => Undef
  end.
Definition get_processor_id : ST smp Z := a ← cpu_local; read_cpuid a.
End registers.
Arguments smp P : clear implicits.

(** ** cpu/fpu.c: the control registers *)
Definition fpu_enable (cr0 cr4 : Z) : Z * Z :=
  (Z.lor (Z.land cr0 (wrap 64 (Z.lnot (Z.shiftl 1 2)))) (Z.shiftl 1 1),
   Z.lor cr4 (Z.lor (Z.shiftl 1 9) (Z.shiftl 1 10))).
