(* ===== verification/DescriptorsFacts.v ===== *)
(** * What the descriptor tables mean (about the definitions of Descriptors.v)

    [tss_loaded_correct]: the task state segment the core ends with;
    [syscall_registers_correct]: the segments a system call enters and
    leaves with; [idt_gate_roundtrip] and [boot_gates_correct]: the interrupt
    gates; [cpu_local_setup_correct]: the identifiers of the cores. *)
From S2P Require Import Prelude Mem PhysMem Vmm Ports Drivers Descriptors.

(** ** Joining fields *)

(** [k] low bits and the bits from [k] on. *)
Lemma join_fields lo hi k : 0 <= k -> 0 <= lo < 2 ^ k -> Z.lor lo (Z.shiftl hi k) = lo + hi * 2 ^ k.
Proof.
  intros Hk Hlo. rewrite Z.shiftl_mul_pow2 by done. symmetry. apply Z.add_nocarry_lor. apply Z.bits_inj'. intros i Hi.
  rewrite Z.land_spec, Z.bits_0, Z.mul_pow2_bits by done. destruct (Z.lt_ge_cases i k).
  - by rewrite (Z.testbit_neg_r _ (i - k)), andb_false_r by lia.
  - by rewrite (testbit_range k lo i) by lia.
Qed.

Lemma split_16_16_32 h : 0 <= h < 2 ^ 64 ->
  Z.lor (Z.lor (Z.land h 0xFFFF) (Z.shiftl (Z.land (Z.shiftr h 16) 0xFFFF) 16))
    (Z.shiftl (Z.land (Z.shiftr h 32) 0xFFFFFFFF) 32) = h.
Proof.
  intros Hh. change 0xFFFF with (Z.ones 16). change 0xFFFFFFFF with (Z.ones 32).
  rewrite !Z.land_ones, !Z.shiftr_div_pow2 by lia. pose proof (Z.mod_pos_bound h (2 ^ 16)).
  pose proof (Z.mod_pos_bound (h / 2 ^ 16) (2 ^ 16)). rewrite (join_fields (h mod 2 ^ 16)) by lia.
  rewrite join_fields by lia. zify_div.
Qed.

Lemma split_16_8_8_32 h : 0 <= h < 2 ^ 64 ->
  Z.lor (Z.lor (Z.lor (Z.land h 0xFFFF) (Z.shiftl (Z.land (Z.shiftr h 16) 0xFF) 16))
    (Z.shiftl (Z.land (Z.shiftr h 24) 0xFF) 24)) (Z.shiftl (Z.land (Z.shiftr h 32) 0xFFFFFFFF) 32) = h.
Proof.
  intros Hh. change 0xFFFF with (Z.ones 16). change 0xFFFFFFFF with (Z.ones 32). change 0xFF with (Z.ones 8).
  rewrite !Z.land_ones, !Z.shiftr_div_pow2 by lia. pose proof (Z.mod_pos_bound h (2 ^ 16)).
  pose proof (Z.mod_pos_bound (h / 2 ^ 16) (2 ^ 8)). pose proof (Z.mod_pos_bound (h / 2 ^ 24) (2 ^ 8)).
  rewrite (join_fields (h mod 2 ^ 16)) by lia. rewrite (join_fields _ _ 24) by lia. rewrite join_fields by lia. zify_div.
Qed.

(** ** The task state segment *)

Section tss.
Context (tss_address gdt_address : Z).

(** [put_ist] with a page left. *)
Lemma put_ist_run i s l : pmem_wf (pages s) l -> (0 < length (avail (pages s) l))%nat ->
  exists p s' l', put_ist i s = Ret (tt, s') /\ is_page p /\ pmem_wf (pages s') l' /\
    avail (pages s) l ≡ₚ p :: avail (pages s') l' /\ gdt_entries s' = gdt_entries s /\ gdtr s' = gdtr s /\
    ist (tss s') = zset (ist (tss s)) (i - 1) (wrap 64 (p + PAGE_SIZE)).
Proof.
  intros Hwf Hlen. pose proof (kalloc_spec (pages s) l Hwf) as HK. unfold put_ist, st_modify.
  destruct (kalloc (pages s)) as [p q]. destruct HK as [[(_ & _ & HN)|(Hp & l' & Hwf' & HP & _)] _].
  { rewrite HN in Hlen. cbn in Hlen. lia. }
  exists p. eexists. exists l'. split; [reflexivity|]. done.
Qed.

(** The descriptor of the TSS after both initialisations. *)
Definition tss_descriptor : gdt_desc :=
  MkDesc (sizeof_tss - 1) (Z.land tss_address 0xFFFF) (Z.land (Z.shiftr tss_address 16) 0xFF) 0x89 0
    (Z.land (Z.shiftr tss_address 24) 0xFF).

Lemma put_tss_descriptor_run limit s d r : zget (gdt_entries s) 5 = Some (normal d) ->
  (exists h, zget (gdt_entries s) 6 = Some (sys_desc_upper h r)) ->
  put_tss_descriptor tss_address limit s = Ret (tt, set_gdt (zset (zset (gdt_entries s) 5
    (normal (MkDesc (wrap 16 limit) (Z.land tss_address 0xFFFF) (Z.land (Z.shiftr tss_address 16) 0xFF) (gd_access d)
      (gd_granularity d) (Z.land (Z.shiftr tss_address 24) 0xFF)))) 6
    (sys_desc_upper (Z.land (Z.shiftr tss_address 32) 0xFFFFFFFF) r)) s).
Proof.
  intros E5 E6. unfold put_tss_descriptor. change (GDT_TSS_SEGMENT / 8) with 5. change (5 + 1) with 6. rewrite E5.
  by destruct E6 as [h ->].
Qed.

(** The core ends with its task state segment loaded.  After [gdt_init]
    and [tss_init_and_load], in the order the kernel calls them, the task
    register holds the address of the TSS, put together from the four fields
    of its descriptor, and the limit of its 104 bytes; the stack for
    interrupts from user mode is the one every address space maps; the four
    interrupt stacks end at the ends of four distinct pages that were free and
    no longer are; the code and data segments are as they were. *)
Theorem tss_loaded_correct s l (Ha : 0 <= tss_address < 2 ^ 64) (Hg : gdt_entries s = gdt_entries_init)
    (Ht : ist (tss s) = replicate 7 0) (Hwf : pmem_wf (pages s) l) (Hl : (4 <= length (avail (pages s) l))%nat) :
  exists s' ps l', (_ ← gdt_init tss_address gdt_address; tss_init_and_load tss_address) s = Ret (tt, s') /\
    gdtr s' = Some (sizeof_gdt_entries - 1, gdt_address) /\ tr s' = Some (tss_address, sizeof_tss - 1) /\
    sp0 (tss s') = INTSTACK_VIRTUAL_ADDRESS_TOP /\
    ist (tss s') = ((fun p => wrap 64 (p + PAGE_SIZE)) <$> ps) ++ [0; 0; 0] /\ length ps = 4%nat /\ NoDup ps /\
    Forall is_page ps /\ pmem_wf (pages s') l' /\ avail (pages s) l ≡ₚ ps ++ avail (pages s') l' /\
    take 5 (gdt_entries s') = take 5 gdt_entries_init.
Proof.
  unfold gdt_init. erewrite bind_step.
  2:{ erewrite bind_step by (apply (put_tss_descriptor_run _ s (MkDesc 0 0 0 0x89 0 0) 0); rewrite Hg; [done|by eexists]). reflexivity. }
  cbv beta. set (s0 := set_gdtr _ _). unfold tss_init_and_load.
  assert (ist (tss s0) = replicate 7 0) as Ht0 by done. assert (pmem_wf (pages s0) l) as W0 by done.
  assert (avail (pages s0) l = avail (pages s) l) as A0 by done.
  destruct (put_ist_run IST_DOUBLE_FAULT_STACK_INDEX s0 l W0) as (p1 & s1 & l1 & E1 & G1 & W1 & A1 & D1 & R1 & T1); [rewrite A0; lia|].
  pose proof (Permutation_length A1) as N1. rewrite A0 in N1. cbn [length] in N1. rewrite (bind_step _ _ _ _ _ E1).
  destruct (put_ist_run IST_NMI_STACK_INDEX s1 l1 W1) as (p2 & s2 & l2 & E2 & G2 & W2 & A2 & D2 & R2 & T2); [lia|].
  pose proof (Permutation_length A2) as N2. cbn [length] in N2. rewrite (bind_step _ _ _ _ _ E2).
  destruct (put_ist_run IST_MACHINE_CHECK_STACK_INDEX s2 l2 W2) as (p3 & s3 & l3 & E3 & G3 & W3 & A3 & D3 & R3 & T3); [lia|].
  pose proof (Permutation_length A3) as N3. cbn [length] in N3. rewrite (bind_step _ _ _ _ _ E3).
  destruct (put_ist_run IST_DEBUG_STACK_INDEX s3 l3 W3) as (p4 & s4 & l4 & E4 & G4 & W4 & A4 & D4 & R4 & T4); [lia|].
  rewrite (bind_step _ _ _ _ _ E4), (bind_step _ _ _ _ _ eq_refl). cbv beta.
  assert (gdt_entries s4 = gdt_entries s0) as Hg4 by congruence. clear E1 E2 E3 E4.
  erewrite bind_step.
  2:{ apply (put_tss_descriptor_run _ _ (MkDesc (wrap 16 sizeof_tss) (Z.land tss_address 0xFFFF)
        (Z.land (Z.shiftr tss_address 16) 0xFF) 0x89 0 (Z.land (Z.shiftr tss_address 24) 0xFF)) 0);
      cbn [set_tss gdt_entries]; rewrite Hg4; unfold s0; cbn [set_gdtr set_gdt gdt_entries]; rewrite Hg; [done|by eexists]. }
  set (s5 := set_gdt _ _).
  assert (zget (gdt_entries s5) 5 = Some (normal tss_descriptor) /\
    zget (gdt_entries s5) 6 = Some (sys_desc_upper (Z.land (Z.shiftr tss_address 32) 0xFFFFFFFF) 0) /\
    take 5 (gdt_entries s5) = take 5 gdt_entries_init) as (Z5 & Z6 & Tk).
  { unfold s5. cbn [set_gdt set_tss gdt_entries]. rewrite Hg4. unfold s0. cbn [set_gdtr set_gdt gdt_entries]. rewrite Hg. done. }
  assert (exists s6, ltr GDT_TSS_SEGMENT s5 = Ret (tt, s6) /\ gdtr s6 = gdtr s5 /\ tss s6 = tss s5 /\ pages s6 = pages s5 /\
    tr s6 = Some (tss_address, sizeof_tss - 1) /\ take 5 (gdt_entries s6) = take 5 (gdt_entries s5)) as (s6 & E6 & X1 & X2 & X3 & X4 & X5).
  { unfold ltr. change (GDT_TSS_SEGMENT / 8) with 5. change (5 + 1) with 6. rewrite Z5, Z6.
    change (desc_present tss_descriptor && negb (desc_segment tss_descriptor) && (Z.land (gd_access tss_descriptor) 0xF =? 9)) with true.
    cbv iota. eexists. split; [reflexivity|]. split; [done|]. split; [done|]. split; [done|]. split.
    - cbn [set_tr tr]. do 2 f_equal. unfold desc_base, tss_descriptor. cbn [gd_base_low gd_base_mid gd_base_hi]. by apply split_16_8_8_32.
    - cbn [set_tr set_gdt gdt_entries]. unfold zset. destruct (Z.ltb_spec 5 0); [lia|]. by rewrite take_insert_ge by lia. }
  exists s6, [p1; p2; p3; p4], l4. split; [exact E6|]. split; [rewrite X1; change (gdtr s5) with (gdtr s4); by rewrite R4, R3, R2, R1|].
  split; [exact X4|]. split; [by rewrite X2|]. split.
  { rewrite X2. change (ist (tss s5)) with (ist (tss s4)). by rewrite T4, T3, T2, T1, Ht0. }
  split; [done|].
  assert (avail (pages s) l ≡ₚ [p1; p2; p3; p4] ++ avail (pages s6) l4) as HP.
  { rewrite X3. change (pages s5) with (pages s4). rewrite <- A0, A1, A2, A3, A4. done. }
  split; [|split; [by repeat (apply Forall_cons; split; [done|])|split; [by rewrite X3|split; [exact HP|by rewrite X5]]]].
  pose proof (wf_nodup _ _ Hwf) as HN. fold (avail (pages s) l) in HN. rewrite HP in HN. by apply NoDup_app in HN as [HN _].
Qed.

(** Without a page left the stack is put at the end of page 0. *)
Lemma put_ist_no_page i s l : pmem_wf (pages s) l -> avail (pages s) l = [] ->
  exists s', put_ist i s = Ret (tt, s') /\ ist (tss s') = zset (ist (tss s)) (i - 1) 4096.
Proof.
  intros Hwf Hn. pose proof (kalloc_spec (pages s) l Hwf) as HK. unfold put_ist, st_modify.
  destruct (kalloc (pages s)) as [p q]. destruct HK as [[(-> & _ & _)|(_ & l' & _ & HP & _)] _].
  - by eexists.
  - rewrite Hn in HP. by apply Permutation_nil_cons in HP.
Qed.
End tss.

(** ** System calls *)

(** A model specific register holds what was written to it. *)
Class MsrLaws (P : Type) `{MsrIO P} := {
  law_msr_eq a lo hi (p : P) : 0 <= lo < 2 ^ 32 -> 0 <= hi < 2 ^ 32 -> msr_in a (msr_out a lo hi p) = (lo, hi);
  law_msr_ne a b lo hi (p : P) : a <> b -> msr_in b (msr_out a lo hi p) = msr_in b p;
  law_msr_range a (p : P) : 0 <= (msr_in a p).1 < 2 ^ 32 /\ 0 <= (msr_in a p).2 < 2 ^ 32
}.

Section msr.
Context {P : Type} `{ML : MsrLaws P}.

Definition msr (a : Z) (p : P) : Z := let '(lo, hi) := msr_in a p in lo + hi * 2 ^ 32.

Lemma rdmsr_run a (c : cpu P) : rdmsr a c = Ret (msr a (io c), c).
Proof.
  unfold rdmsr, reads, msr. pose proof (law_msr_range a (io c)) as [H1 H2]. destruct (msr_in a (io c)) as [lo hi].
  cbn [fst snd] in *. by rewrite Z.lor_comm, join_fields.
Qed.

Lemma wrmsr_run a v (c : cpu P) : 0 <= v < 2 ^ 64 -> exists p, wrmsr a v c = Ret (tt, MkCpuIo p (if_flag c)) /\
  msr a p = v /\ forall b, b <> a -> msr b p = msr b (io c).
Proof.
  intros Hv. eexists. split; [reflexivity|]. unfold msr. rewrite law_msr_eq by (apply wrap_range; lia). split.
  - unfold wrap. rewrite Z.shiftr_div_pow2 by lia. rewrite (Z.mod_small (v / 2 ^ 32)) by zify_div. zify_div.
  - intros b Hb. by rewrite law_msr_ne by congruence.
Qed.

(** What SYSCALL and SYSRET load, with the selectors of STAR. *)
Definition syscall_cs (star : Z) : Z := Z.land (Z.shiftr star 32) 0xFFFC.
Definition syscall_ss (star : Z) : Z := Z.land (Z.shiftr star 32) 0xFFFF + 8.
Definition sysret_cs (star : Z) : Z := Z.lor (Z.land (Z.shiftr star 48) 0xFFFF + 16) 3.
Definition sysret_ss (star : Z) : Z := Z.lor (Z.land (Z.shiftr star 48) 0xFFFF + 8) 3.

(** The descriptor a selector names. *)
Definition segment (gdt : list gdt_entry) (sel : Z) : option gdt_desc :=
  match zget gdt (sel / 8) with Some (normal d) => Some d | _ => None end.
(** A present 64-bit code segment, or a present writable data segment, of a
    privilege level. *)
Definition code64 (dpl : Z) (d : gdt_desc) : Prop :=
  desc_present d = true /\ desc_segment d = true /\ desc_code d = true /\ desc_long d = true /\ desc_dpl d = dpl.
Definition data_rw (dpl : Z) (d : gdt_desc) : Prop :=
  desc_present d = true /\ desc_segment d = true /\ desc_code d = false /\ desc_writable d = true /\ desc_dpl d = dpl.

(** A system call enters the kernel and returns to the program.  After
    [init_syscall_table], with the segments of the kernel's table: SYSCALL
    jumps to the handler with the 64-bit code and the data segment of
    privilege level 0, with interrupts, single stepping and the direction
    flag off whatever the flags were; SYSRET goes back with the 64-bit code
    and the data segment of level 3, its selectors asking for level 3; both
    instructions are enabled, and no other bit of EFER changes. *)
Theorem syscall_registers_correct handler gdt (c : cpu P) (Hh : 0 <= handler < 2 ^ 64)
    (Hg : take 5 gdt = take 5 gdt_entries_init) :
  exists c' : cpu P, init_syscall_table handler c = Ret (tt, c') /\ msr IA32_LSTAR (io c') = handler /\
    msr IA32_EFER (io c') = Z.lor (msr IA32_EFER (io c)) 1 /\
    (exists d, segment gdt (syscall_cs (msr IA32_STAR (io c'))) = Some d /\ code64 0 d) /\
    (exists d, segment gdt (syscall_ss (msr IA32_STAR (io c'))) = Some d /\ data_rw 0 d) /\
    (exists d, segment gdt (sysret_cs (msr IA32_STAR (io c'))) = Some d /\ code64 3 d) /\
    (exists d, segment gdt (sysret_ss (msr IA32_STAR (io c'))) = Some d /\ data_rw 3 d) /\
    sysret_cs (msr IA32_STAR (io c')) mod 4 = 3 /\ sysret_ss (msr IA32_STAR (io c')) mod 4 = 3 /\
    forall rflags, Forall (fun k => Z.testbit (Z.ldiff rflags (msr IA32_FMASK (io c'))) k = false) [8; 9; 10; 18].
Proof.
  unfold init_syscall_table. rewrite (bind_step _ _ _ _ _ (rdmsr_run IA32_EFER c)).
  assert (forall a (p : P), 0 <= msr a p < 2 ^ 64) as Hmsr.
  { intros a p. unfold msr. pose proof (law_msr_range a p). destruct (msr_in a p). cbn [fst snd] in *. lia. }
  assert (0 <= Z.lor (msr IA32_EFER (io c)) 1 < 2 ^ 64) as He by (apply lor_range; [done|lia|lia]).
  destruct (wrmsr_run IA32_EFER _ c He) as (p1 & E1 & V1 & O1). rewrite (bind_step _ _ _ _ _ E1). clear E1.
  match goal with |- context [wrmsr IA32_STAR ?v] => change v with (0x0010000800000000) end.
  destruct (wrmsr_run IA32_STAR 0x0010000800000000 (MkCpuIo p1 (if_flag c)) ltac:(lia)) as (p2 & E2 & V2 & O2).
  rewrite (bind_step _ _ _ _ _ E2). clear E2.
  destruct (wrmsr_run IA32_LSTAR handler (MkCpuIo p2 (if_flag c)) Hh) as (p3 & E3 & V3 & O3). cbn [if_flag] in E3.
  rewrite (bind_step _ _ _ _ _ E3). clear E3.
  destruct (wrmsr_run IA32_FMASK SYSCALL_FLAGS (MkCpuIo p3 (if_flag c)) ltac:(by vm_compute)) as (p4 & E4 & V4 & O4).
  exists (MkCpuIo p4 (if_flag c)). cbn [io if_flag] in *. split; [exact E4|].
  split; [by rewrite O4, V3|]. split; [by rewrite O4, O3, O2, V1|].
  assert (msr IA32_STAR p4 = 0x0010000800000000) as -> by (by rewrite O4, O3, V2).
  assert (forall i, 0 <= i < 5 -> zget gdt i = zget gdt_entries_init i) as Hget.
  { intros i Hi. unfold zget. destruct (Z.ltb_spec i 0); [done|]. rewrite <- (lookup_take_lt gdt 5) by lia.
    rewrite Hg. by rewrite lookup_take_lt by lia. }
  assert (forall sel d, 0 <= sel / 8 < 5 -> segment gdt_entries_init sel = Some d -> segment gdt sel = Some d) as Hseg.
  { intros sel d Hs. unfold segment. by rewrite Hget. }
  split; [eexists; split; [by apply Hseg|done]|]. split; [eexists; split; [by apply Hseg|done]|].
  split; [eexists; split; [by apply Hseg|done]|]. split; [eexists; split; [by apply Hseg|done]|].
  split; [done|]. split; [done|]. intros rflags. rewrite V4.
  repeat constructor; rewrite Z.ldiff_spec; (match goal with |- context [Z.testbit SYSCALL_FLAGS ?k] =>
    change (Z.testbit SYSCALL_FLAGS k) with true end); apply andb_false_r.
Qed.
End msr.

(** ** Interrupt gates *)

Lemma make_gate_fields handler ist_ dpl attr : 0 <= handler < 2 ^ 64 -> 0 <= dpl < 4 -> 0 <= attr < 2 ^ 8 ->
  Z.land attr 0x60 = 0 -> let e := make_gate handler ist_ dpl attr in
  gate_handler e = handler /\ gate_dpl e = dpl /\ gate_present e = Z.testbit attr 7 /\ gate_type e = Z.land attr 0xF.
Proof.
  intros Hh Hd Ha H60 e. split; [by apply split_16_16_32|].
  assert (type_attr e = Z.lor attr (Z.shiftl dpl 5)) as Ht.
  { cbn [type_attr make_gate e]. change 0x3 with (Z.ones 2). change 0xFF with (Z.ones 8). rewrite !Z.land_ones by lia.
    change (2 ^ 2) with 4. rewrite !Z.mod_small by lia. apply wrap_small, lor_range; [lia| |lia].
    rewrite Z.shiftl_mul_pow2 by lia. lia. }
  assert (forall i, 0 <= i -> Z.testbit (type_attr e) i = Z.testbit attr i || Z.testbit dpl (i - 5)) as Hbit.
  { intros i Hi. by rewrite Ht, Z.lor_spec, Z.shiftl_spec. }
  assert (forall i, 0 <= i -> Z.testbit 0x60 i = true -> Z.testbit attr i = false) as H6.
  { intros i Hi Hb. pose proof (f_equal (fun z => Z.testbit z i) H60) as X. cbv beta in X.
    rewrite Z.land_spec, Hb, andb_true_r, Z.bits_0 in X. done. }
  split; [|split].
  - unfold gate_dpl. apply Z.bits_inj'. intros i Hi. change 3 with (Z.ones 2). rewrite Z.land_spec, Z.shiftr_spec, Hbit by lia.
    replace (i + 5 - 5) with i by lia. destruct (Z.lt_ge_cases i 2).
    + rewrite Z.ones_spec_low, H6 by (lia || (assert (i = 0 \/ i = 1) as [-> | ->] by lia; done)). by rewrite andb_true_r.
    + by rewrite Z.ones_spec_high, (testbit_range 2 dpl i), andb_false_r by lia.
  - unfold gate_present. rewrite Hbit by lia. rewrite (testbit_range 2 dpl (7 - 5)) by lia. apply orb_false_r.
  - unfold gate_type. apply Z.bits_inj'. intros i Hi. change 0xF with (Z.ones 4). rewrite !Z.land_spec, Hbit by lia.
    destruct (Z.lt_ge_cases i 4).
    + by rewrite (Z.testbit_neg_r dpl (i - 5)), orb_false_r by lia.
    + by rewrite Z.ones_spec_high, !andb_false_r by lia.
Qed.

(** A gate is read back as it was set.  After [idt_set_gate_with_ist]
    the processor finds in the entry of that vector the 64-bit address of the
    handler, which is stored in three pieces, the kernel's code segment, the
    interrupt stack, the privilege level, the type and the present bit that
    were asked for; every other entry is as before. *)
Theorem idt_gate_roundtrip s v handler ist_ dpl attr (Hlen : zlen (idt s) = 256) (Hv : 0 <= v < 256)
    (Hh : 0 <= handler < 2 ^ 64) (Hd : 0 <= dpl < 4) (Ha : 0 <= attr < 2 ^ 8) (H60 : Z.land attr 0x60 = 0) :
  exists s' e, idt_set_gate_with_ist v handler ist_ dpl attr s = Ret (tt, s') /\ zget (idt s') v = Some e /\
    gate_handler e = handler /\ selector e = GDT_KERNEL_CODE_SEGMENT /\ gate_ist e = ist_ /\ gate_dpl e = dpl /\
    gate_present e = Z.testbit attr 7 /\ gate_type e = Z.land attr 0xF /\
    zlen (idt s') = 256 /\ forall w, w <> v -> zget (idt s') w = zget (idt s) w.
Proof.
  destruct (make_gate_fields handler ist_ dpl attr Hh Hd Ha H60) as (F1 & F2 & F3 & F4).
  exists (set_idt (zset (idt s) v (make_gate handler ist_ dpl attr)) s), (make_gate handler ist_ dpl attr).
  split; [unfold idt_set_gate_with_ist, st_modify; by rewrite wrap_small by lia|]. cbn [set_idt idt].
  rewrite zget_zset_eq, zlen_zset by lia. split; [done|]. do 7 (split; [done|]).
  intros w Hw. by apply zget_zset_ne.
Qed.

(** The gates of the start-up: level 0, type 0x8E. *)
Lemma idt_gate_fields_set s v h : zlen (idt s) = 256 -> 0 <= v < 256 -> 0 <= h < 2 ^ 64 ->
  exists s' e, idt_set_gate v h 0 0x8E s = Ret (tt, s') /\ zget (idt s') v = Some e /\
    (gate_present e = true /\ gate_handler e = h /\ gate_dpl e = 0 /\ gate_type e = 0xE) /\
    zlen (idt s') = 256 /\ (forall w, w <> v -> zget (idt s') w = zget (idt s) w) /\ idtr s' = idtr s.
Proof.
  intros Hl Hv Hh. destruct (make_gate_fields h 0 0 0x8E Hh ltac:(lia) ltac:(lia) eq_refl) as (F1 & F2 & F3 & F4).
  exists (set_idt (zset (idt s) v (make_gate h 0 0 0x8E)) s), (make_gate h 0 0 0x8E).
  split; [unfold idt_set_gate, st_modify; by rewrite wrap_small by lia|]. cbn [set_idt idt].
  rewrite zget_zset_eq, zlen_zset by lia. split; [done|]. split; [done|]. split; [done|].
  split; [|done]. intros w Hw. by apply zget_zset_ne.
Qed.

Fixpoint ps2_gates (irqs : list Z) (isr_stub_33 isr_stub_44 : Z) : ST tables unit :=
  match irqs with [] => mret tt | irq :: irqs' => _ ← ps2_gate irq isr_stub_33 isr_stub_44; ps2_gates irqs' isr_stub_33 isr_stub_44 end.

(** The operations of the start-up on the table of interrupts, the PS/2
    devices [irqs] being initialised. *)
Definition boot_gates (idt_address : Z) (irqs : list Z) (isr_stub_33 isr_stub_44 isr_timer_stub : Z) : ST tables unit :=
  _ ← idt_init idt_address;
  _ ← idt_init_critical_handlers;
  _ ← ps2_gates irqs isr_stub_33 isr_stub_44;
  timer_gate isr_timer_stub.

(** The gate of vector [v] is an interrupt gate of level 0 for the handler
    [f v], or not present. *)
Definition gates_at (s : tables) (f : Z -> option Z) : Prop := zlen (idt s) = 256 /\
  forall v e, zget (idt s) v = Some e ->
    match f v with
    | Some h => gate_present e = true /\ gate_handler e = h /\ gate_dpl e = 0 /\ gate_type e = 0xE
    | None => gate_present e = false
    end.
Definition with_gate (f : Z -> option Z) (v h : Z) : Z -> option Z := fun w => if w =? v then Some h else f w.

Lemma gates_set s f v h : gates_at s f -> 0 <= v < 256 -> 0 <= h < 2 ^ 64 ->
  exists s', idt_set_gate v h 0 0x8E s = Ret (tt, s') /\ gates_at s' (with_gate f v h) /\ idtr s' = idtr s.
Proof.
  intros [Hl Hg] Hv Hh. destruct (idt_gate_fields_set s v h Hl Hv Hh) as (s' & e & E & Ev & HF & Hl' & Ho & Hr).
  exists s'. split; [exact E|]. split; [|done]. split; [exact Hl'|]. intros w e' Hw. unfold with_gate.
  destruct (Z.eqb_spec w v) as [->|N].
  - rewrite Ev in Hw. injection Hw as <-. exact HF.
  - rewrite Ho in Hw by done. exact (Hg w e' Hw).
Qed.

(** What [ps2_gates] leaves. *)
Definition ps2_handlers (irqs : list Z) (h33 h44 : Z) (f : Z -> option Z) (v : Z) : option Z :=
  if (v =? 33) && bool_decide (1 ∈ irqs) then Some h33
  else if (v =? 44) && bool_decide (12 ∈ irqs) then Some h44 else f v.

Lemma gates_at_ext s f g : gates_at s f -> (forall v, f v = g v) -> gates_at s g.
Proof. intros [Hl Hg] He. split; [done|]. intros v e Hv. rewrite <- He. by apply Hg. Qed.

Lemma ps2_gates_run irqs h33 h44 : 0 <= h33 < 2 ^ 64 -> 0 <= h44 < 2 ^ 64 -> forall s f, gates_at s f ->
  exists s', ps2_gates irqs h33 h44 s = Ret (tt, s') /\ gates_at s' (ps2_handlers irqs h33 h44 f) /\ idtr s' = idtr s.
Proof.
  intros H33 H44. induction irqs as [|irq irqs IH]; intros s f Hs.
  { exists s. split; [done|]. split; [|done]. apply (gates_at_ext _ f); [done|]. intros v. unfold ps2_handlers.
    rewrite !bool_decide_eq_false_2 by apply not_elem_of_nil. by rewrite !andb_false_r. }
  cbn [ps2_gates]. unfold ps2_gate.
  assert (forall v h, 0 <= v < 256 -> 0 <= h < 2 ^ 64 ->
    (forall w, ps2_handlers irqs h33 h44 (with_gate f v h) w = ps2_handlers (irq :: irqs) h33 h44 f w) ->
    exists s', (_ ← idt_set_gate v h 0 0x8E; ps2_gates irqs h33 h44) s = Ret (tt, s') /\
      gates_at s' (ps2_handlers (irq :: irqs) h33 h44 f) /\ idtr s' = idtr s) as Hset.
  { intros v h Hv Hh Hw. destruct (gates_set s f v h Hs Hv Hh) as (s1 & E1 & G1 & R1). rewrite (bind_step _ _ _ _ _ E1).
    destruct (IH s1 _ G1) as (s2 & E2 & G2 & R2). exists s2. split; [done|]. split; [by apply (gates_at_ext _ _ _ G2)|congruence]. }
  unfold ps2_handlers, with_gate in *.
  destruct (Z.eqb_spec irq 1) as [->|N1]; [|destruct (Z.eqb_spec irq 12) as [->|N12]].
  - apply Hset; [done|done|]. intros w. change (T_IRQ0 + 1) with 33. rewrite (bool_decide_eq_true_2 (1 ∈ 1 :: irqs)) by by left.
    rewrite (bool_decide_ext (12 ∈ 1 :: irqs) (12 ∈ irqs)) by (rewrite elem_of_cons; split; [intros [?|?]; [lia|done]|by right]).
    destruct (Z.eqb_spec w 33) as [->|]; cbn [andb]; [by repeat case_bool_decide|done].
  - apply Hset; [done|done|]. intros w. change (T_IRQ0 + 12) with 44. rewrite (bool_decide_eq_true_2 (12 ∈ 12 :: irqs)) by by left.
    rewrite (bool_decide_ext (1 ∈ 12 :: irqs) (1 ∈ irqs)) by (rewrite elem_of_cons; split; [intros [?|?]; [lia|done]|by right]).
    destruct (Z.eqb_spec w 44) as [->|]; cbn [andb Z.eqb Pos.eqb]; [by repeat case_bool_decide|done].
  - rewrite (bind_step _ _ _ _ _ eq_refl). destruct (IH s f Hs) as (s2 & E2 & G2 & R2). exists s2. split; [done|]. split; [|done].
    apply (gates_at_ext _ _ _ G2). intros w.
    rewrite (bool_decide_ext (1 ∈ irq :: irqs) (1 ∈ irqs)), (bool_decide_ext (12 ∈ irq :: irqs) (12 ∈ irqs))
      by (rewrite elem_of_cons; naive_solver). done.
Qed.

(** C35: which interrupts have a handler.  Whatever PS/2 devices are
    initialised, after the start-up's operations on the table the processor
    uses, a vector has a gate exactly if it is that of the timer, or of a
    keyboard or mouse that was initialised.  So no exception of the processor
    has one, page faults included, although there is a handler for them; nor
    has vector 36 of the serial port, whose interrupt its driver enables. *)
Theorem boot_gates_correct s idt_address irqs h33 h44 ht (H33 : 0 <= h33 < 2 ^ 64) (H44 : 0 <= h44 < 2 ^ 64)
    (Ht : 0 <= ht < 2 ^ 64) :
  exists s', boot_gates idt_address irqs h33 h44 ht s = Ret (tt, s') /\ idtr s' = Some (sizeof_idt - 1, idt_address) /\
    zlen (idt s') = 256 /\
    forall v e, zget (idt s') v = Some e ->
      (gate_present e = true <-> v = 32 \/ (v = 33 /\ 1 ∈ irqs) \/ (v = 44 /\ 12 ∈ irqs)) /\
      (gate_present e = true -> gate_handler e = (if v =? 32 then ht else if v =? 33 then h33 else h44) /\
         gate_dpl e = 0 /\ gate_type e = 0xE).
Proof.
  unfold boot_gates, idt_init. erewrite bind_step by (erewrite bind_step by reflexivity; reflexivity). cbv beta.
  set (s0 := set_idtr _ _). assert (gates_at s0 (fun _ => None)) as G0.
  { split; [done|]. intros v e Hv. unfold s0 in Hv. cbn [idt set_idtr set_idt] in Hv. apply zget_elem in Hv.
    by apply elem_of_replicate in Hv as [-> _]. }
  rewrite (bind_step _ _ _ _ _ eq_refl). destruct (ps2_gates_run irqs h33 h44 H33 H44 s0 _ G0) as (s1 & E1 & G1 & R1).
  rewrite (bind_step _ _ _ _ _ E1). destruct (gates_set s1 _ 32 ht G1 ltac:(lia) Ht) as (s2 & E2 & [Hl G2] & R2).
  exists s2. split; [exact E2|]. split; [by rewrite R2, R1|]. split; [done|]. intros v e Hv. specialize (G2 v e Hv). clear - G2.
  unfold with_gate, ps2_handlers in G2.
  destruct (Z.eqb_spec v 32) as [->|N]; [destruct G2 as (P1 & P2 & P3 & P4); split; [naive_solver|done]|].
  destruct (Z.eqb_spec v 33) as [->|N33].
  - destruct (bool_decide_reflect (1 ∈ irqs)); cbn [andb] in G2; [destruct G2 as (P1 & P2 & P3 & P4); naive_solver|].
    rewrite G2. naive_solver lia.
  - destruct (Z.eqb_spec v 44) as [->|N44]; cbn [andb] in G2; [|rewrite G2; naive_solver].
    destruct (bool_decide_reflect (12 ∈ irqs)); [destruct G2 as (P1 & P2 & P3 & P4); naive_solver|].
    rewrite G2. naive_solver lia.
Qed.

(** A fault in the page below a kernel stack is taken for an overflow of it:
    the stack of slot [i] begins behind its guard page. *)
Lemma page_fault_guard i a : 0 <= i < 64 -> let guard := KERNEL_STACK_BASE + i * KERNEL_STACK_TOTAL_SIZE in
  let base := guard + KERNEL_STACK_GUARD_SIZE in
  handle_page_fault (Some base) a =
    Panic (if (guard <=? a) && (a <? guard + PAGE_SIZE) then "Stack overflow - increase KERNEL_STACK_SIZE" else "Unhandled page fault").
Proof.
  intros Hi guard base. unfold handle_page_fault. replace (wrap 64 (base - KERNEL_STACK_GUARD_SIZE)) with guard.
  - unfold base, KERNEL_STACK_GUARD_SIZE. by destruct (_ && _).
  - subst base guard. unfold KERNEL_STACK_BASE, KERNEL_STACK_TOTAL_SIZE, KERNEL_STACK_SIZE, KERNEL_STACK_GUARD_SIZE, PAGE_SIZE.
    rewrite wrap_small; lia.
Qed.

(** ** Cores *)

Section cores.
Context {P : Type} `{ML : MsrLaws P} (base : Z).

Lemma zoom_wrmsr a v (s : smp P) : 0 <= v < 2 ^ 64 -> exists p, zoom core set_core (wrmsr a v) s =
    Ret (tt, set_core (MkCpuIo p (if_flag (core s))) s) /\
  msr a p = v /\ forall b, b <> a -> msr b p = msr b (io (core s)).
Proof. intros Hv. destruct (wrmsr_run a v (core s) Hv) as (p & E & HR). exists p. split; [by apply zoom_run|done]. Qed.

(** Identifiers of cores.  The first eight cores that call
    [cpu_local_setup] get the numbers 0 to 7, and [get_processor_id] answers
    that number on that core from then on.  The ninth passes the test for too
    many cores, which is for more than [MAX_CORES], and writes behind the
    array of eight; the tenth and later ones are stopped. *)
Theorem cpu_local_setup_correct (s : smp P) (Hlen : zlen (cpu_locals s) = MAX_CORES) (Hid : 0 <= next_cpuid s < 256)
    (Hb : 0 <= base /\ base + 9 * sizeof_cpu_local_data < 2 ^ 64) :
  (next_cpuid s < MAX_CORES -> exists s', cpu_local_setup base s = Ret (tt, s') /\ next_cpuid s' = next_cpuid s + 1 /\
     get_processor_id base s' = Ret (next_cpuid s, s') /\ zlen (cpu_locals s') = MAX_CORES) /\
  (next_cpuid s = MAX_CORES -> cpu_local_setup base s = Undef) /\
  (MAX_CORES < next_cpuid s -> cpu_local_setup base s = Panic "too much cores").
Proof.
  unfold MAX_CORES, sizeof_cpu_local_data in *. unfold cpu_local_setup, MAX_CORES.
  rewrite (bind_step _ _ _ _ _ eq_refl), (bind_step _ _ _ _ _ eq_refl). cbv beta. split; [|split].
  - intros Hlt. destruct (Z.ltb_spec 8 (next_cpuid s)); [lia|]. set (id := next_cpuid s) in *.
    set (s1 := MkSmp (core s) (zset (cpu_locals s) id id) (wrap 8 (id + 1))).
    assert (put_cpuid id (MkSmp (core s) (cpu_locals s) (wrap 8 (id + 1))) = Ret (tt, s1)) as E1.
    { unfold put_cpuid. cbn [cpu_locals]. rewrite Hlen. by destruct (Z.ltb_spec id 8); [|lia]. }
    rewrite (bind_step _ _ _ _ _ E1). unfold sizeof_cpu_local_data.
    destruct (zoom_wrmsr MSR_GS_BASE (base + id * 576) s1 ltac:(lia)) as (p2 & E2 & V2 & _). rewrite (bind_step _ _ _ _ _ E2).
    destruct (zoom_wrmsr MSR_KERNEL_GS_BASE (base + id * 576) (set_core (MkCpuIo p2 (if_flag (core s1))) s1) ltac:(lia))
      as (p3 & E3 & _ & O3). eexists. split; [exact E3|]. split; [cbn; by rewrite wrap_small by lia|]. split; [|cbn; by rewrite zlen_zset].
    unfold get_processor_id, cpu_local. erewrite bind_step.
    2:{ apply zoom_run. apply rdmsr_run. }
    unfold read_cpuid. cbn [core set_core io]. rewrite O3 by done. cbn [core set_core io]. rewrite V2.
    replace (base + id * 576 - base) with (id * 576) by lia. unfold sizeof_cpu_local_data. rewrite Z.div_mul by lia.
    cbn [cpu_locals s1 set_core]. by rewrite zget_zset_eq by lia.
  - intros ->. cbn. unfold mbind, st_bind, put_cpuid. cbn [cpu_locals]. by rewrite Hlen.
  - intros Hgt. by destruct (Z.ltb_spec 8 (next_cpuid s)); [|lia].
Qed.
End cores.

(** ** A core with its registers *)

Definition reg_half (o : option (Z * Z)) : Z * Z :=
  match o with Some (lo, hi) => (wrap 32 lo, wrap 32 hi) | None => (0, 0) end.
#[export] Instance demo_msrs : MsrIO (gmap Z (Z * Z)) := {
  msr_in a p := reg_half (p !! a);
  msr_out a lo hi p := <[a := (lo, hi)]> p
}.
#[export] Instance demo_msr_laws : MsrLaws (gmap Z (Z * Z)).
Proof.
  split.
  - intros a lo hi p Hlo Hhi. cbn. rewrite lookup_insert_eq. cbn. by rewrite !wrap_small.
  - intros a b lo hi p Hab. cbn. by rewrite lookup_insert_ne.
  - intros a p. cbn. destruct (p !! a) as [[lo hi]|]; cbn; [|lia]. split; apply wrap_range; lia.
Defined.

Lemma syscall_registers_correct_witness : exists c' : cpu (gmap Z (Z * Z)),
  init_syscall_table 0xffffffff80001000 (MkCpuIo ∅ false) = Ret (tt, c') /\
  exists d, segment gdt_entries_init (sysret_cs (msr IA32_STAR (io c'))) = Some d /\ code64 3 d.
Proof.
  destruct (syscall_registers_correct 0xffffffff80001000 gdt_entries_init (MkCpuIo (∅ : gmap Z (Z * Z)) false))
    as (c' & E & _ & _ & _ & _ & HR & _); [lia|done|]. by exists c'.
Defined.

Definition demo_smp (id : Z) : smp (gmap Z (Z * Z)) := MkSmp (MkCpuIo ∅ false) (replicate 8 0) id.
Lemma cpu_local_setup_correct_witness : cpu_local_setup 0xffffffff80010000 (demo_smp 8) = Undef /\
  exists s', cpu_local_setup 0xffffffff80010000 (demo_smp 7) = Ret (tt, s') /\
    get_processor_id 0xffffffff80010000 s' = Ret (7, s').
Proof.
  split.
  - destruct (cpu_local_setup_correct 0xffffffff80010000 (demo_smp 8)) as (_ & H8 & _); [done|done|done|]. by apply H8.
  - destruct (cpu_local_setup_correct 0xffffffff80010000 (demo_smp 7)) as (H7 & _); [done|done|done|].
    destruct (H7 eq_refl) as (s' & E & _ & G & _). by exists s'.
Defined.

Definition demo_tables : tables := MkTables gdt_entries_init tss_zero (replicate 256 gate_none) demo_pmem None None None.

Lemma tss_loaded_correct_witness : exists s',
  (_ ← gdt_init 0xffffffff80123460 0xffffffff80123400; tss_init_and_load 0xffffffff80123460) demo_tables = Ret (tt, s') /\
  tr s' = Some (0xffffffff80123460, 103).
Proof.
  destruct (tss_loaded_correct 0xffffffff80123460 0xffffffff80123400 demo_tables [1052672; 1056768])
    as (s' & ps & l' & E & _ & HR & _); [lia|done|done|exact demo_pmem_wf|by vm_compute; lia|].
  exists s'. split; [exact E|exact HR].
Defined.

Lemma idt_gate_roundtrip_witness : exists s' e,
  idt_set_gate_with_ist 8 0xffffffff80abcdef 1 0 0x8E demo_tables = Ret (tt, s') /\ zget (idt s') 8 = Some e /\
  gate_handler e = 0xffffffff80abcdef /\ gate_ist e = 1.
Proof.
  destruct (idt_gate_roundtrip demo_tables 8 0xffffffff80abcdef 1 0 0x8E) as (s' & e & E & Ev & H1 & _ & H3 & _);
    [done|lia|lia|lia|lia|done|]. by exists s', e.
Defined.

Lemma boot_gates_correct_witness : exists s',
  boot_gates 0xffffffff80200000 [1; 12] 0xffffffff80001021 0xffffffff8000102c 0xffffffff80001020 demo_tables = Ret (tt, s') /\
  forall e, zget (idt s') 36 = Some e -> gate_present e = false.
Proof.
  destruct (boot_gates_correct demo_tables 0xffffffff80200000 [1; 12] 0xffffffff80001021 0xffffffff8000102c 0xffffffff80001020)
    as (s' & E & _ & _ & H36); [lia|lia|lia|].
  exists s'. split; [exact E|]. intros e He. destruct (H36 36 e He) as [[H1 _] _]. destruct (gate_present e); [|done].
  exfalso. destruct (H1 eq_refl) as [?|[[? _]|[? _]]]; lia.
Defined.
