(* ===== verification/Ps2Ctl.v ===== *)
(** * The PS/2 controller (kernel/src/drivers/hw_ps2.c and the set-up in
      drv_ps2.c)

    Commands and bytes go through two ports; every access waits for the
    controller for a bounded number of polls and goes on regardless.  The
    two loops that empty its buffer have no bound in the code: [fuel] is the
    number of bytes they may take.  [ps2_init] runs the I/O APIC of Apic.v
    and the interrupt table of Descriptors.v.  Log output is left out. *)
From S2P Require Import Prelude Mem PhysMem KMalloc Drivers Ports Apic Descriptors.

Definition PS2_DATA_PORT : Z := 0x60.
Definition PS2_STATUS_PORT : Z := 0x64.
Definition PS2_COMMAND_PORT : Z := 0x64.
(** [uint32_t timeout = 100000]. *)
Definition PS2_TIMEOUT : nat := Z.to_nat 100000.

Section ports.
Context {P : Type} `{PortIO P}.

Fixpoint wait_write (timeout : nat) : ST (cpu P) unit :=
  match timeout with
  | O => mret tt
  | S timeout' => st ← inb PS2_STATUS_PORT; if truth (Z.land st 0x02) then wait_write timeout' else mret tt
  end.
Fixpoint wait_read (timeout : nat) : ST (cpu P) unit :=
  match timeout with
  | O => mret tt
  | S timeout' => st ← inb PS2_STATUS_PORT; if truth (Z.land st 0x01) then mret tt else wait_read timeout'
  end.
Definition ps2_wait_write : ST (cpu P) unit := wait_write PS2_TIMEOUT.
Definition ps2_wait_read : ST (cpu P) unit := wait_read PS2_TIMEOUT.

(** The two lines [ps2_wait_write(); outb(...)], and a waited read. *)
Definition ps2_command (c : Z) : ST (cpu P) unit := _ ← ps2_wait_write; outb PS2_COMMAND_PORT c.
Definition ps2_data (d : Z) : ST (cpu P) unit := _ ← ps2_wait_write; outb PS2_DATA_PORT d.
Definition ps2_answer : ST (cpu P) Z := _ ← ps2_wait_read; inb PS2_DATA_PORT.

(** [while (inb(PS2_STATUS_PORT) & 0x01) inb(PS2_DATA_PORT)]. *)
Fixpoint ps2_flush (fuel : nat) : ST (cpu P) unit :=
  st ← inb PS2_STATUS_PORT;
  if truth (Z.land st 0x01) then
    match fuel with
    | O => st_nofuel
    | S fuel' => _ ← inb PS2_DATA_PORT; ps2_flush fuel'
    end
  else mret tt.

(** [hw_detect_ps2_scan] up to the rewritten configuration: whether there is
    a second channel, unless the self-test fails. *)
Definition ps2_probe_controller (fuel : nat) : ST (cpu P) (option bool) :=
  _ ← ps2_command 0xAD;
  _ ← ps2_command 0xA7;
  _ ← ps2_flush fuel;
  _ ← ps2_command 0x20;
  config ← ps2_answer;
  let dual_channel := truth (Z.land config 0x20) in
  _ ← ps2_command 0xAA;
  result ← ps2_answer;
  if negb (result =? 0x55) then mret None
  else
    _ ← ps2_command 0x60;
    _ ← ps2_data config;
    mret (Some dual_channel).
(** The answer to a test of a port. *)
Definition ps2_test (c : Z) : ST (cpu P) Z := _ ← ps2_command c; ps2_answer.

(** ** Set-up in drv_ps2.c *)

Definition mouse_write (data : Z) : ST (cpu P) unit := _ ← ps2_command 0xD4; ps2_data data.
Definition mouse_read : ST (cpu P) Z := ps2_answer.

(** The value it leaves in [scancode_set]. *)
Definition detect_scancode_set : ST (cpu P) Z :=
  _ ← ps2_data 0xF0;
  _ ← ps2_answer;
  _ ← ps2_data 0x00;
  _ ← ps2_answer;
  ps2_answer.

Definition ps2_controller_init (fuel : nat) : ST (cpu P) Z :=
  _ ← ps2_command 0xAD;
  _ ← ps2_command 0xA7;
  _ ← ps2_flush fuel;
  _ ← ps2_command 0x20;
  config ← ps2_answer;
  let config := Z.lor config 0x03 in
  let config := wrap 8 (Z.land config (Z.lnot 0x40)) in
  _ ← ps2_command 0x60;
  _ ← ps2_data config;
  _ ← ps2_command 0xAE;
  _ ← ps2_command 0xA8;
  _ ← mouse_write 0xFF;
  _ ← mouse_read;
  _ ← mouse_read;
  _ ← mouse_read;
  _ ← mouse_write 0xF4;
  _ ← mouse_read;
  detect_scancode_set.
End ports.

(** ** Registration of what was found *)

(** [ps2_device_info_t]: [port], [irq], [exists]. *)
Record ps2_device_info := MkPs2Info { ps2_port : Z; ps2_irq : Z; ps2_exists : bool }.
Definition PS2_INFO_SIZE : Z := 4.

Record ps2_state (P : Type) := MkPs2 {
  p2_cpu : cpu P; p2_heap : kheap; p2_infos : gmap Z ps2_device_info; p2_dm : device_manager
}.
Arguments MkPs2 {P}. Arguments p2_cpu {P}. Arguments p2_heap {P}. Arguments p2_infos {P}. Arguments p2_dm {P}.

Section detect.
Context {P : Type} `{PortIO P}.

Definition set_p2_cpu (c : cpu P) (s : ps2_state P) : ps2_state P := MkPs2 c (p2_heap s) (p2_infos s) (p2_dm s).
Definition set_p2_heap (h : kheap) (s : ps2_state P) : ps2_state P := MkPs2 (p2_cpu s) h (p2_infos s) (p2_dm s).

(** [device_register_from_ps2] of device_manager.c with its allocation. *)
Definition register_from_ps2 (fuel : nat) (hw_info : ps2_device_info) : ST (ps2_state P) Z :=
  g ← reads p2_dm;
  if MAX_DEVICES <=? device_count g then mret (-1)
  else
    os_data ← zoom p2_heap set_p2_heap (kmalloc fuel PS2_INFO_SIZE);
    let '(r, g) := device_register_from_ps2 (ps2_irq hw_info) os_data g in
    _ ← st_modify (fun s => MkPs2 (p2_cpu s) (p2_heap s)
                              (if os_data =? 0 then p2_infos s else <[os_data := hw_info]> (p2_infos s)) g);
    mret r.

(** [device_register_from_ps2(&info)], whose result is not looked at. *)
Definition register_if (fuel : nat) (found : bool) (irq : Z) : ST (ps2_state P) Z :=
  if found then _ ← register_from_ps2 fuel (MkPs2Info 0x60 irq true); mret 1 else mret 0.

(** The two ports. *)
Definition test_ports (fuel : nat) (dual_channel : bool) : ST (ps2_state P) Z :=
  result ← zoom p2_cpu set_p2_cpu (ps2_test 0xAB);
  n ← register_if fuel (result =? 0) 1;
  m ← (if dual_channel then
         result ← zoom p2_cpu set_p2_cpu (ps2_test 0xA9);
         register_if fuel (result =? 0) 12
       else mret 0);
  mret (n + m).

Definition hw_detect_ps2_scan (fuel : nat) : ST (ps2_state P) Z :=
  r ← zoom p2_cpu set_p2_cpu (ps2_probe_controller fuel);
  match r with
  | None => mret 0
  | Some dual_channel => test_ports fuel dual_channel
  end.
End detect.

(** ** [ps2_init] *)

Record ps2_machine (P : Type) := MkPs2Machine {
  pm_pic : pic P; pm_tables : tables; pm_scancode_set : Z; controller_initialized : bool
}.
Arguments MkPs2Machine {P}. Arguments pm_pic {P}. Arguments pm_tables {P}. Arguments pm_scancode_set {P}.
Arguments controller_initialized {P}.

Section init.
Context {P : Type} `{Board P} (isr_stub_33 isr_stub_44 : Z).

Definition set_pm_pic (x : pic P) (s : ps2_machine P) : ps2_machine P :=
  MkPs2Machine x (pm_tables s) (pm_scancode_set s) (controller_initialized s).
Definition set_pm_tables (x : tables) (s : ps2_machine P) : ps2_machine P :=
  MkPs2Machine (pm_pic s) x (pm_scancode_set s) (controller_initialized s).

(** [irq] is that of the information the device was registered with. *)
Definition ps2_init (fuel : nat) (irq : Z) : ST (ps2_machine P) Z :=
  done ← reads controller_initialized;
  _ ← (if (done : bool) then mret tt
       else
         set ← zoom pm_pic set_pm_pic (pic_io (ps2_controller_init fuel));
         st_modify (fun s => MkPs2Machine (pm_pic s) (pm_tables s) set true));
  _ ← zoom pm_pic set_pm_pic (ioapic_enable irq 0);
  _ ← zoom pm_tables set_pm_tables (ps2_gate irq isr_stub_33 isr_stub_44);
  mret 0.
End init.
