(* ===== verification/Ps2CtlFacts.v ===== *)
(** * What the set-up of the PS/2 controller does (about the definitions of
      Ps2Ctl.v)

    [i8042] is the documented controller with the answers of its devices as
    parameters; [Ps2Controller] ties the two ports to it.  The scan registers
    what is there ([hw_detect_ps2_scan_correct]); the set-up enables both
    devices and learns the scan code set ([ps2_controller_init_correct]); and
    the interrupts of the devices reach their handlers
    ([ps2_init_routes]). *)
From S2P Require Import Prelude Mem PhysMem KMalloc KMallocFacts Drivers Ports Pci PciFacts PciScan Apic ApicFacts Descriptors DescriptorsFacts Ps2Ctl.

(** ** The controller *)

(** [obuf]: bytes waiting to be read; [ccb]: the configuration byte;
    [pending]: the command that takes the next data byte; [second]: whether
    there is a second channel; the results of the self-test and of the tests
    of the ports; the bytes sent to the devices, the latest first. *)
Record i8042 := MkI8042 {
  obuf : list Z; ccb : Z; pending : option Z; second : bool; selftest : Z; test1 : Z; test2 : Z;
  sent_kbd : list Z; sent_mouse : list Z
}.
Definition set_obuf (b : list Z) (k : i8042) : i8042 :=
  MkI8042 b (ccb k) (pending k) (second k) (selftest k) (test1 k) (test2 k) (sent_kbd k) (sent_mouse k).
Definition set_ccb (c : Z) (k : i8042) : i8042 :=
  MkI8042 (obuf k) c None (second k) (selftest k) (test1 k) (test2 k) (sent_kbd k) (sent_mouse k).
Definition set_pending (c : Z) (k : i8042) : i8042 :=
  MkI8042 (obuf k) (ccb k) (Some c) (second k) (selftest k) (test1 k) (test2 k) (sent_kbd k) (sent_mouse k).
Definition answer (b : Z) (k : i8042) : i8042 := set_obuf (obuf k ++ [b]) k.

(** What a device answers to the latest of the bytes sent to it, and what the
    self-test makes of the configuration byte. *)
Class Ps2Devices := {
  kbd_answer : list Z -> list Z; mouse_answer : list Z -> list Z; selftest_ccb : Z -> Z
}.

(** A command byte. *)
Definition command `{Ps2Devices} (c : Z) (k : i8042) : i8042 :=
  if c =? 0xAD then set_ccb (Z.lor (ccb k) 0x10) k
  else if c =? 0xAE then set_ccb (Z.ldiff (ccb k) 0x10) k
  else if c =? 0xA7 then (if second k then set_ccb (Z.lor (ccb k) 0x20) k else k)
  else if c =? 0xA8 then (if second k then set_ccb (Z.ldiff (ccb k) 0x20) k else k)
  else if c =? 0x20 then answer (ccb k) k
  else if c =? 0xAA then answer (selftest k) (set_ccb (selftest_ccb (ccb k)) k)
  else if c =? 0xAB then answer (test1 k) k
  else if c =? 0xA9 then (if second k then answer (test2 k) k else k)
  else if (c =? 0x60) || (c =? 0xD4) then set_pending c k
  else k.

Definition data_byte `{Ps2Devices} (d : Z) (k : i8042) : i8042 :=
  match pending k with
  | Some c =>
      if c =? 0x60 then set_ccb d k
      else let sent := d :: sent_mouse k in
           MkI8042 (obuf k ++ mouse_answer sent) (ccb k) None (second k) (selftest k) (test1 k) (test2 k) (sent_kbd k) sent
  | None =>
      let sent := d :: sent_kbd k in
      MkI8042 (obuf k ++ kbd_answer sent) (ccb k) None (second k) (selftest k) (test1 k) (test2 k) sent (sent_mouse k)
  end.

(** The ports of a controller that is never still busy when it is asked. *)
Class Ps2Controller (P : Type) `{PortIO P} `{Ps2Devices} := {
  ctl : P -> i8042;
  law_status p : let '(v, p') := port_in 1 PS2_STATUS_PORT p in
    ctl p' = ctl p /\ Z.testbit v 0 = negb (bool_decide (obuf (ctl p) = [])) /\ Z.testbit v 1 = false;
  law_read p b r : obuf (ctl p) = b :: r -> let '(v, p') := port_in 1 PS2_DATA_PORT p in
    v = b /\ ctl p' = set_obuf r (ctl p);
  law_command p c : ctl (port_out 1 PS2_COMMAND_PORT c p) = command c (ctl p);
  law_data p d : ctl (port_out 1 PS2_DATA_PORT d p) = data_byte d (ctl p)
}.

Section facts.
Context {P : Type} `{PC : Ps2Controller P}.

(** With the controller in state [k], [m] ends with [a] and leaves it in
    state [k']. *)
Local Notation steps := (steps_of ctl).

Lemma status_bit0 v : Z.testbit v 0 = truth (Z.land v 0x01).
Proof. symmetry. apply (truth_land_bit v 0). lia. Qed.
Lemma land_bit1 v : Z.testbit v 1 = truth (Z.land v 0x02).
Proof. symmetry. apply (truth_land_bit v 1). lia. Qed.

Lemma wait_write_steps n k : steps (wait_write n) tt k k.
Proof.
  destruct n as [|n]; [apply steps_ret|]. intros c Hc. cbn [wait_write]. pose proof (law_status (io c)) as HL.
  destruct (port_in 1 PS2_STATUS_PORT (io c)) as [v p] eqn:E. destruct HL as (L1 & _ & L3).
  rewrite (bind_step _ _ _ _ _ (inb_run _ _ _ _ E)). rewrite land_bit1 in L3. rewrite L3. eexists. split; [reflexivity|].
  cbn. by rewrite L1.
Qed.

Lemma wait_read_steps n k : obuf k <> [] \/ n = O -> steps (wait_read n) tt k k.
Proof.
  intros Hn. destruct n as [|n]; [apply steps_ret|]. destruct Hn as [Hk|]; [|done]. intros c Hc. cbn [wait_read].
  pose proof (law_status (io c)) as HL. destruct (port_in 1 PS2_STATUS_PORT (io c)) as [v p] eqn:E. destruct HL as (L1 & L2 & _).
  rewrite (bind_step _ _ _ _ _ (inb_run _ _ _ _ E)). rewrite status_bit0, Hc, bool_decide_eq_false_2 in L2 by done. rewrite L2.
  eexists. split; [reflexivity|]. cbn. by rewrite L1.
Qed.

Lemma ps2_command_steps x k : 0 <= x < 256 -> steps (ps2_command x) tt k (command x k).
Proof.
  intros Hx. unfold ps2_command. eapply steps_bind; [apply wait_write_steps|]. intros c Hc. eexists. split; [reflexivity|].
  cbn [io if_flag]. change (8 * Z.of_nat 1) with 8. by rewrite wrap_small, law_command, Hc.
Qed.
Lemma ps2_data_steps x k : 0 <= x < 256 -> steps (ps2_data x) tt k (data_byte x k).
Proof.
  intros Hx. unfold ps2_data. eapply steps_bind; [apply wait_write_steps|]. intros c Hc. eexists. split; [reflexivity|].
  cbn [io if_flag]. change (8 * Z.of_nat 1) with 8. by rewrite wrap_small, law_data, Hc.
Qed.
Lemma ps2_answer_steps b r k : obuf k = b :: r -> steps ps2_answer b k (set_obuf r k).
Proof.
  intros Hb. unfold ps2_answer. eapply steps_bind; [apply wait_read_steps; left; by rewrite Hb|]. intros c Hc.
  pose proof (law_read (io c) b r ltac:(by rewrite Hc)) as HL. destruct (port_in 1 PS2_DATA_PORT (io c)) as [v p] eqn:E.
  destruct HL as [-> L]. eexists. split; [by apply inb_run|]. cbn. by rewrite L, Hc.
Qed.

Lemma ps2_flush_steps fuel : forall k, (length (obuf k) <= fuel)%nat -> steps (ps2_flush fuel) tt k (set_obuf [] k).
Proof.
  induction fuel as [|fuel IH]; intros k Hk c Hc; cbn [ps2_flush]; pose proof (law_status (io c)) as HL;
    destruct (port_in 1 PS2_STATUS_PORT (io c)) as [v p] eqn:E; destruct HL as (L1 & L2 & _);
    rewrite (bind_step _ _ _ _ _ (inb_run _ _ _ _ E)); rewrite status_bit0, Hc in L2; rewrite L2;
    (destruct (obuf k) as [|b r] eqn:Ek; cbn [negb bool_decide]; [|]).
  - eexists. split; [reflexivity|]. cbn. split; [|done]. rewrite L1, Hc. destruct k; cbn in *. by subst.
  - cbn in Hk. lia.
  - rewrite bool_decide_eq_true_2 by done. eexists. split; [reflexivity|]. cbn. split; [|done].
    rewrite L1, Hc. destruct k; cbn in *. by subst.
  - rewrite bool_decide_eq_false_2 by done. cbn [negb]. pose proof (law_read p b r ltac:(by rewrite L1, Hc)) as HR.
    destruct (port_in 1 PS2_DATA_PORT p) as [v2 p2] eqn:E2. destruct HR as [_ R].
    rewrite (bind_step _ _ _ _ _ (inb_run PS2_DATA_PORT (MkCpuIo p (if_flag c)) _ _ E2)).
    destruct (IH (set_obuf r k) ltac:(cbn in Hk |- *; lia) (MkCpuIo p2 (if_flag c))) as (c' & E3 & K3 & F3).
    + cbn. by rewrite R, L1, Hc.
    + exists c'. split; [exact E3|]. by rewrite K3.
Qed.

(** ** Detection *)

(** Both channels disabled. *)
Definition disabled_ccb (k : i8042) : Z := let c := Z.lor (ccb k) 0x10 in if second k then Z.lor c 0x20 else c.

(** The configuration byte says whether there is a second channel once that
    has been disabled. *)
Definition ccb_ok (k : i8042) : Prop := 0 <= ccb k < 256 /\ (second k = false -> Z.testbit (ccb k) 5 = false).

Lemma disabled_range k : ccb_ok k -> 0 <= disabled_ccb k < 256 /\ truth (Z.land (disabled_ccb k) 0x20) = second k.
Proof.
  intros [Hr H5]. unfold disabled_ccb. cbv zeta. assert (0 <= Z.lor (ccb k) 0x10 < 256) as H1 by (apply (lor_range _ _ 8); lia).
  rewrite (truth_land_bit _ 5) by lia. destruct (second k).
  - split; [apply (lor_range _ _ 8); lia|]. rewrite Z.lor_spec. apply orb_true_r.
  - split; [done|]. by rewrite Z.lor_spec, H5.
Qed.

(** A controller that waits for nothing and holds nothing. *)
Definition idle (k : i8042) (c : Z) : i8042 :=
  MkI8042 [] c None (second k) (selftest k) (test1 k) (test2 k) (sent_kbd k) (sent_mouse k).

Ltac ps2_step := eapply steps_bind;
  [first [apply ps2_command_steps; lia | apply ps2_data_steps; lia | apply ps2_answer_steps; reflexivity]|].

(** Both set-ups begin with this. *)
Lemma disable_steps fuel k : (length (obuf k) <= fuel)%nat ->
  steps (_ ← ps2_command 0xAD; _ ← ps2_command 0xA7; ps2_flush fuel) tt k (idle k (disabled_ccb k)).
Proof.
  intros Hk. ps2_step. ps2_step. destruct k as [b c p [|] s t1 t2 sk sm]; cbn in Hk.
  - apply (ps2_flush_steps fuel (MkI8042 b (Z.lor (Z.lor c 0x10) 0x20) None true s t1 t2 sk sm) Hk).
  - apply (ps2_flush_steps fuel (MkI8042 b (Z.lor c 0x10) None false s t1 t2 sk sm) Hk).
Qed.

Lemma steps_assoc3 {A} (m1 m2 m3 : ST (cpu P) unit) (f : ST (cpu P) A) a k k' :
  steps (_ ← (_ ← m1; _ ← m2; m3); f) a k k' -> steps (_ ← m1; _ ← m2; _ ← m3; f) a k k'.
Proof.
  intros Hs c Hc. destruct (Hs c Hc) as (c' & E & HR). exists c'. split; [|done]. rewrite <- E. unfold mbind, st_bind.
  destruct (m1 c) as [[[] c1]| | |]; try done. destruct (m2 c1) as [[[] c2]| | |]; done.
Qed.

Lemma probe_steps fuel k : (length (obuf k) <= fuel)%nat -> ccb_ok k ->
  steps (ps2_probe_controller fuel) (if selftest k =? 0x55 then Some (second k) else None) k
    (idle k (if selftest k =? 0x55 then disabled_ccb k else selftest_ccb (disabled_ccb k))).
Proof.
  intros Hk Hc. destruct (disabled_range k Hc) as [Hr Hd]. unfold ps2_probe_controller. apply steps_assoc3.
  eapply steps_bind; [by apply disable_steps|]. set (d := disabled_ccb k) in *. ps2_step. ps2_step. cbv zeta. ps2_step. ps2_step.
  cbn [selftest set_obuf answer set_ccb command idle Z.eqb Pos.eqb].
  destruct (Z.eqb_spec (selftest k) 0x55); cbn [negb].
  - ps2_step. change (ccb (idle k d)) with d. rewrite Hd. ps2_step. apply steps_ret.
  - apply steps_ret.
Qed.

Lemma test_steps x k : (x = 0xAB \/ x = 0xA9 /\ second k = true) -> obuf k = [] ->
  steps (ps2_test x) (if x =? 0xAB then test1 k else test2 k) k k.
Proof.
  intros Hx Hk. destruct k as [b c p s st t1 t2 sk sm]. cbn in Hk, Hx. subst b. unfold ps2_test.
  destruct Hx as [->|[-> ->]]; ps2_step.
  - exact (ps2_answer_steps t1 [] (MkI8042 [t1] c p s st t1 t2 sk sm) eq_refl).
  - exact (ps2_answer_steps t2 [] (MkI8042 [t2] c p true st t1 t2 sk sm) eq_refl).
Qed.

Lemma bind_assoc {S A B C} (m : ST S A) (f : A -> ST S B) (g : B -> ST S C) s :
  ((m ≫= f) ≫= g) s = (m ≫= fun a => f a ≫= g) s.
Proof. unfold mbind, st_bind. by destruct (m s) as [[a s']| | |]. Qed.

Lemma on_cpu2 {A} (m : ST (cpu P) A) a k k' (s : ps2_state P) : steps m a k k' -> ctl (io (p2_cpu s)) = k ->
  exists c, zoom p2_cpu set_p2_cpu m s = Ret (a, set_p2_cpu c s) /\ ctl (io c) = k'.
Proof. intros Hm Hk. destruct (Hm _ Hk) as (c & E & Hc & _). exists c. split; [by apply zoom_run|done]. Qed.

(** The interrupts of the channels that answer, if the self-test passes. *)
Definition found (k : i8042) : list Z :=
  if selftest k =? 0x55 then
    (if test1 k =? 0 then [1] else []) ++ (if second k && (test2 k =? 0) then [12] else [])
  else [].

(** The table entry of a device on interrupt line [irq], with its
    information in [infos]. *)
Record ps2_device (infos : gmap Z ps2_device_info) (irq : Z) (d : device_t) : Prop := {
  p2d_name : dv_name d = Some (if irq =? 1 then "ps2_keyboard"%string else "ps2_mouse"%string);
  p2d_kind : dv_bus d = DRIVER_BUS_PS2 /\ dv_class d = DRIVER_CLASS_INPUT;
  p2d_irq : dv_irq d = irq;
  p2d_fresh : dv_drv d = None /\ dv_initialized d = false;
  p2d_info : infos !! dv_os_data d = Some (MkPs2Info 0x60 irq true)
}.

(** [room s page o n]: there is space in the heap, whose current page is
    [page], and in the table for [n] more devices. *)
Record room (s : ps2_state P) (page o n : Z) : Prop := {
  rm_head : head_at (p2_heap s) page o;
  rm_space : o + 20 * n <= 3840;
  rm_len : zlen (dm_devices (p2_dm s)) = MAX_DEVICES;
  rm_count : 0 <= device_count (p2_dm s) <= MAX_DEVICES - n
}.

(** [added s page o irqs s']: the lines [irqs] have been registered since
    [s], their information in blocks from offset [o] on. *)
Record added (s : ps2_state P) (page o : Z) (irqs : list Z) (s' : ps2_state P) : Prop := {
  ad_head : head_at (p2_heap s') page (o + 20 * zlen irqs);
  ad_len : zlen (dm_devices (p2_dm s')) = MAX_DEVICES;
  ad_count : device_count (p2_dm s') = device_count (p2_dm s) + zlen irqs;
  ad_drivers : dm_drivers (p2_dm s') = dm_drivers (p2_dm s) /\ driver_count (p2_dm s') = driver_count (p2_dm s);
  ad_old a : a < page + o -> p2_infos s' !! a = p2_infos s !! a;
  ad_new : exists ds, table_devices (p2_dm s') = table_devices (p2_dm s) ++ ds /\
    Forall2 (fun irq d => ps2_device (p2_infos s') irq d /\ dv_os_data d < page + o + 20 * zlen irqs) irqs ds
}.

Lemma added_nil s page o n : room s page o n -> added s page o [] s.
Proof. intros [H1 H2 H3 H4]. split; try done; [by rewrite Z.add_0_r|unfold zlen; simpl; lia|]. exists []. by rewrite app_nil_r. Qed.

Lemma added_app s1 s2 s3 page o l1 l2 : added s1 page o l1 s2 -> added s2 page (o + 20 * zlen l1) l2 s3 ->
  added s1 page o (l1 ++ l2) s3.
Proof.
  intros [A1 A2 A3 AD A4 (d1 & A5 & A6)] [B1 B2 B3 BD B4 (d2 & B5 & B6)]. pose proof (zlen_nonneg l1). pose proof (zlen_nonneg l2).
  split; rewrite ?zlen_app; try done.
  - by replace (o + 20 * (zlen l1 + zlen l2)) with (o + 20 * zlen l1 + 20 * zlen l2) by lia.
  - lia.
  - destruct AD, BD. split; congruence.
  - intros a Ha. rewrite B4 by lia. by apply A4.
  - exists (d1 ++ d2). split; [by rewrite B5, A5, app_assoc|]. apply Forall2_app.
    + eapply Forall2_impl; [exact A6|]. intros irq d [[D1 D2 D3 D4 D5] Hd]. split; [|lia]. split; try done. rewrite B4; [done|lia].
    + eapply Forall2_impl; [exact B6|]. intros irq d [D Hd]. split; [done|lia].
Qed.

Lemma room_less s page o n m : room s page o n -> 0 <= m <= n -> room s page o m.
Proof. intros [H1 H2 H3 H4] Hm. split; try done; lia. Qed.

Lemma room_after s s' page o irqs n : room s page o (zlen irqs + n) -> added s page o irqs s' ->
  room s' page (o + 20 * zlen irqs) n.
Proof. intros [H1 H2 H3 H4] [A1 A2 A3 AD A4 A5]. pose proof (zlen_nonneg irqs). split; try done; lia. Qed.

Lemma register_if_run (s : ps2_state P) page o fuel b irq : room s page o 1 ->
  exists s', register_if (S fuel) b irq s = Ret (zlen (if b then [irq] else []), s') /\
    added s page o (if b then [irq] else []) s' /\ p2_cpu s' = p2_cpu s.
Proof.
  intros Hr. destruct b; [|exists s; split; [done|]; split; [by eapply added_nil|done]]. destruct Hr as [Hh Ho Hl Hc].
  destruct (kmalloc_head _ _ _ fuel PS2_INFO_SIZE Hh) as (h & E & Hh'); [done|lia|change (up16 (asked PS2_INFO_SIZE)) with 16; lia|].
  assert (0 < page /\ 16 <= o) as [? ?] by (destruct Hh as [(? & ? & ?) _ _ _ Hs]; unfold MIXED_PAGE_START in Hs; lia).
  unfold register_if, register_from_ps2. set (i := MkPs2Info 0x60 irq true).
  rewrite bind_assoc. erewrite bind_step by reflexivity.
  destruct (Z.leb_spec MAX_DEVICES (device_count (p2_dm s))); [lia|].
  rewrite bind_assoc, (bind_step _ _ _ _ _ (zoom_run p2_heap set_p2_heap _ _ _ _ E)).
  destruct (Z.eqb_spec (page + o + 4) 0); [lia|]. unfold device_register_from_ps2.
  destruct (Z.leb_spec MAX_DEVICES (device_count (p2_dm s))); [lia|]. eexists. split; [reflexivity|]. split; [|done].
  split; cbn [p2_heap p2_dm p2_infos p2_cpu set_p2_heap].
  - change (zlen [irq]) with 1. by replace (o + 20 * 1) with (o + 4 + 16) by lia.
  - cbn [add_device dm_devices]. by rewrite zlen_zset.
  - done.
  - done.
  - intros a Ha. apply lookup_insert_ne. lia.
  - eexists. split; [apply devices_add; [done|lia]|]. constructor; [|constructor].
    split; [|cbn [dv_os_data]; change (zlen [irq]) with 1; lia]. split; try done. apply lookup_insert_eq.
Qed.

(** ** The scan *)

Lemma test_ports_run (s : ps2_state P) page o fuel k : room s page o 2 -> ctl (io (p2_cpu s)) = k -> obuf k = [] ->
  selftest k = 0x55 ->
  exists s', test_ports (S fuel) (second k) s = Ret (zlen (found k), s') /\ added s page o (found k) s' /\ ctl (io (p2_cpu s')) = k.
Proof.
  intros Hr Hk Ho Hs. unfold test_ports, found. rewrite Hs. cbn [Z.eqb Pos.eqb].
  destruct (on_cpu2 _ _ _ _ s (test_steps 0xAB k (or_introl eq_refl) Ho) Hk) as (c1 & E1 & K1).
  rewrite (bind_step _ _ _ _ _ E1). clear E1. cbn [Z.eqb Pos.eqb].
  assert (room (set_p2_cpu c1 s) page o 1) as Hr1 by (destruct Hr; split; try done; cbn; lia).
  destruct (register_if_run _ page o fuel (test1 k =? 0) 1 Hr1) as (s1 & E2 & A1 & C1). rewrite (bind_step _ _ _ _ _ E2). clear E2.
  set (l1 := if test1 k =? 0 then [1] else []) in *.
  assert (zlen l1 <= 1) by (subst l1; by destruct (test1 k =? 0)). pose proof (zlen_nonneg l1).
  assert (room s1 page (o + 20 * zlen l1) 1) as Hr2.
  { apply (room_after (set_p2_cpu c1 s)); [|done]. destruct Hr; split; try done; cbn; lia. }
  assert (added s page o l1 s1) as A1' by (destruct A1; by split).
  destruct (second k) eqn:E2.
  - destruct (on_cpu2 _ _ _ _ s1 (test_steps 0xA9 k (or_intror (conj eq_refl E2)) Ho) ltac:(by rewrite C1)) as (c2 & E3 & K2).
    assert (room (set_p2_cpu c2 s1) page (o + 20 * zlen l1) 1) as Hr3 by (destruct Hr2; by split).
    destruct (register_if_run _ page _ fuel (test2 k =? 0) 12 Hr3) as (s2 & E4 & A2 & C2).
    exists s2. rewrite bind_assoc, (bind_step _ _ _ _ _ E3). cbn [Z.eqb Pos.eqb]. rewrite (bind_step _ _ _ _ _ E4).
    cbn [andb]. rewrite zlen_app. split; [done|]. split; [|by rewrite C2].
    apply (added_app _ s1); [done|]. destruct A2; by split.
  - exists s1. cbn [andb]. erewrite bind_step by reflexivity. rewrite app_nil_r. split; [by rewrite Z.add_0_r|].
    split; [done|by rewrite C1].
Qed.

Lemma hw_detect_ps2_scan_run (s : ps2_state P) page o fuel (k := ctl (io (p2_cpu s))) (Hr : room s page o 2)
    (Hk : (length (obuf k) <= S fuel)%nat) (Hc : ccb_ok k) :
  exists s', hw_detect_ps2_scan (S fuel) s = Ret (zlen (found k), s') /\ added s page o (found k) s' /\
    obuf (ctl (io (p2_cpu s'))) = [] /\ (selftest k = 0x55 -> ctl (io (p2_cpu s')) = idle k (disabled_ccb k)).
Proof.
  unfold hw_detect_ps2_scan. destruct (on_cpu2 _ _ _ _ s (probe_steps (S fuel) k Hk Hc) eq_refl) as (c & E & K).
  rewrite (bind_step _ _ _ _ _ E). clear E. destruct (Z.eqb_spec (selftest k) 0x55) as [Es|Es].
  - assert (room (set_p2_cpu c s) page o 2) as Hr' by (destruct Hr; by split).
    destruct (test_ports_run (set_p2_cpu c s) page o fuel (idle k (disabled_ccb k)) Hr' K eq_refl Es) as (s' & E & A & K').
    change (found (idle k (disabled_ccb k))) with (found k) in *. exists s'. split; [done|]. split; [|by rewrite K'].
    destruct A; by split.
  - exists (set_p2_cpu c s). assert (found k = []) as Ef by (unfold found; by destruct (Z.eqb_spec (selftest k) 0x55)).
    rewrite Ef. split; [done|]. split; [|cbn [p2_cpu set_p2_cpu]; by rewrite K].
    destruct (added_nil s page o 2 Hr); by split.
Qed.

(** On a controller with bytes left in its buffer, the scan for PS/2
    devices registers the keyboard (line 1) when the first port passes its
    test and the mouse (line 12) when there is a second port and that passes,
    in this order behind the devices already in the table, each with a copy of
    its information on the heap, and returns their number; if the self-test
    fails it registers nothing and returns 0.  Otherwise it leaves the buffer
    empty and both ports switched off, the other bits of the configuration
    byte as they were. *)
Theorem hw_detect_ps2_scan_correct (s : ps2_state P) page o fuel (k := ctl (io (p2_cpu s))) (Hr : room s page o 2)
    (Hk : (length (obuf k) <= S fuel)%nat) (Hc : ccb_ok k) :
  exists s', hw_detect_ps2_scan (S fuel) s = Ret (zlen (found k), s') /\
    (exists ds, table_devices (p2_dm s') = table_devices (p2_dm s) ++ ds /\ Forall2 (ps2_device (p2_infos s')) (found k) ds) /\
    head_at (p2_heap s') page (o + 20 * zlen (found k)) /\
    obuf (ctl (io (p2_cpu s'))) = [] /\
    (selftest k = 0x55 -> ctl (io (p2_cpu s')) = idle k (disabled_ccb k)).
Proof.
  destruct (hw_detect_ps2_scan_run s page o fuel Hr Hk Hc) as (s' & E & A & K1 & K2).
  destruct A as [A1 A2 A3 AD A4 (ds & A5 & A6)]. exists s'. split; [exact E|]. split; [|done].
  exists ds. split; [done|]. eapply Forall2_impl; [exact A6|]. by intros ? ? [? ?].
Qed.

(** ** Set-up *)

(** A byte to the mouse and its answer. *)
Lemma mouse_write_steps x k : 0 <= x < 256 ->
  steps (mouse_write x) tt k (data_byte x (set_pending 0xD4 k)).
Proof. intros Hx. unfold mouse_write. eapply steps_bind; [apply (ps2_command_steps 0xD4); lia|]. by apply ps2_data_steps. Qed.

(** The configuration byte written by the set-up: what was there with both
    interrupts on and the translation of scan codes off. *)
Definition new_ccb (k : i8042) : Z := wrap 8 (Z.land (Z.lor (disabled_ccb k) 0x03) (Z.lnot 0x40)).

(** What the devices answer to the bytes of the set-up. *)
Record devices_answer (k : i8042) (set m1 m2 : Z) : Prop := {
  da_reset : mouse_answer (0xFF :: sent_mouse k) = [0xFA; m1; m2];
  da_report : mouse_answer (0xF4 :: 0xFF :: sent_mouse k) = [0xFA];
  da_scan : kbd_answer (0xF0 :: sent_kbd k) = [0xFA];
  da_which : kbd_answer (0x00 :: 0xF0 :: sent_kbd k) = [0xFA; set]
}.

Definition set_up (k : i8042) : i8042 :=
  MkI8042 [] (Z.ldiff (Z.ldiff (new_ccb k) 0x10) 0x20) None true (selftest k) (test1 k) (test2 k)
    (0x00 :: 0xF0 :: sent_kbd k) (0xF4 :: 0xFF :: sent_mouse k).

Lemma detect_scancode_set_steps b (k : i8042) set : obuf k = [] -> pending k = None ->
  kbd_answer (0xF0 :: sent_kbd k) = [0xFA] -> kbd_answer (0x00 :: 0xF0 :: sent_kbd k) = [0xFA; set] -> b = set ->
  steps detect_scancode_set b k (MkI8042 [] (ccb k) None (second k) (selftest k) (test1 k) (test2 k)
    (0x00 :: 0xF0 :: sent_kbd k) (sent_mouse k)).
Proof.
  intros Ho Hp H1 H2 ->. unfold detect_scancode_set. destruct k as [ob c p s st t1 t2 sk sm]. cbn in Ho, Hp, H1, H2. subst ob p.
  eapply steps_bind; [apply ps2_data_steps; lia|]. unfold data_byte. cbn. rewrite H1.
  eapply steps_bind; [apply ps2_answer_steps; reflexivity|]. cbn.
  eapply steps_bind; [apply ps2_data_steps; lia|]. unfold data_byte. cbn. rewrite H2.
  eapply steps_bind; [apply ps2_answer_steps; reflexivity|]. cbn. by apply ps2_answer_steps.
Qed.

Lemma ps2_controller_init_steps fuel k set m1 m2 : (length (obuf k) <= fuel)%nat -> second k = true -> devices_answer k set m1 m2 ->
  steps (ps2_controller_init fuel) set k (set_up k).
Proof.
  intros Hk H2 [D1 D2 D3 D4]. unfold ps2_controller_init. apply steps_assoc3.
  eapply steps_bind; [by apply disable_steps|]. unfold set_up, new_ccb. set (d := disabled_ccb k). ps2_step. ps2_step. cbv zeta.
  change (ccb (idle k d)) with d. set (n := wrap 8 (Z.land (Z.lor d 3) (Z.lnot 64))).
  assert (0 <= n < 256) as Hn by (apply (wrap_range 8); lia). clearbody n d.
  destruct k as [ob c p s st t1 t2 sk sm]. cbn in D1, D2, D3, D4, H2. subst s.
  ps2_step. ps2_step. ps2_step. ps2_step. cbn -[Z.ldiff].
  eapply steps_bind; [apply mouse_write_steps; lia|]. unfold data_byte. cbn -[Z.ldiff]. rewrite D1.
  ps2_step. ps2_step. ps2_step. cbn -[Z.ldiff].
  eapply steps_bind; [apply mouse_write_steps; lia|]. unfold data_byte. cbn -[Z.ldiff]. rewrite D2.
  ps2_step. cbn -[Z.ldiff]. by eapply (detect_scancode_set_steps set).
Qed.

Lemma set_up_bits k j : 0 <= j < 8 ->
  Z.testbit (ccb (set_up k)) j = if (j =? 0) || (j =? 1) then true
    else if (j =? 4) || (j =? 5) || (j =? 6) then false else Z.testbit (ccb k) j.
Proof.
  intros Hj. assert (j = 0 \/ j = 1 \/ j = 2 \/ j = 3 \/ j = 4 \/ j = 5 \/ j = 6 \/ j = 7) as Hs by lia.
  unfold set_up, new_ccb, disabled_ccb. cbv zeta. cbn [ccb]. rewrite !Z.ldiff_spec. unfold wrap. rewrite Z.mod_pow2_bits_low by lia.
  rewrite Z.land_spec, Z.lor_spec.
  destruct (second k); rewrite ?Z.lor_spec; (destruct Hs as [->|[->|[->|[->|[->|[->|[->| ->]]]]]]]); cbn;
    rewrite ?orb_false_r, ?andb_true_r, ?orb_true_r, ?andb_false_r; done.
Qed.

(** With a mouse on the second channel and devices that acknowledge, the
    set-up of the controller leaves nothing in its buffer, both channels
    enabled, both interrupts on, the translation of scan codes off and every
    other bit of the configuration byte as it was; it has reset the mouse and
    switched its reports on, and the scan code set it records is the byte the
    keyboard answered the question with. *)
Theorem ps2_controller_init_correct (c : cpu P) (k := ctl (io c)) fuel set m1 m2
    (Hk : (length (obuf k) <= fuel)%nat) (H2 : second k = true) (Hd : devices_answer k set m1 m2) :
  exists c', ps2_controller_init fuel c = Ret (set, c') /\ if_flag c' = if_flag c /\
    obuf (ctl (io c')) = [] /\ pending (ctl (io c')) = None /\
    (forall j, 0 <= j < 8 -> Z.testbit (ccb (ctl (io c'))) j =
      if (j =? 0) || (j =? 1) then true else if (j =? 4) || (j =? 5) || (j =? 6) then false else Z.testbit (ccb k) j) /\
    sent_mouse (ctl (io c')) = [0xF4; 0xFF] ++ sent_mouse k /\ sent_kbd (ctl (io c')) = [0x00; 0xF0] ++ sent_kbd k.
Proof.
  destruct (ps2_controller_init_steps fuel k set m1 m2 Hk H2 Hd c eq_refl) as (c' & E & K & F). exists c'. rewrite K.
  split; [done|]. split; [done|]. split; [done|]. split; [done|]. split; [|done]. apply set_up_bits.
Qed.
End facts.

(** What the ports of the PS/2 controller do not touch is left alone by the
    code that uses no other port. *)
Section leaves.
Context {P : Type} `{PC : Ps2Controller P} (I : P -> Prop).
Context (I_in : forall p x, x = PS2_DATA_PORT \/ x = PS2_STATUS_PORT -> I p -> I (port_in 1 x p).2).
Context (I_out : forall p x v, x = PS2_DATA_PORT \/ x = PS2_COMMAND_PORT -> I p -> I (port_out 1 x v p)).

Local Notation leaves := (leaves I).

Lemma leaves_inb x : x = PS2_DATA_PORT \/ x = PS2_STATUS_PORT -> leaves (inb x).
Proof. intros Hx. apply leaves_inb_at. intros p. by apply I_in. Qed.
Lemma leaves_outb x v : x = PS2_DATA_PORT \/ x = PS2_COMMAND_PORT -> leaves (outb x v).
Proof. intros Hx. apply leaves_outb_at. intros p w. by apply I_out. Qed.

Lemma leaves_wait_write n : leaves (wait_write n).
Proof.
  induction n as [|n IH]; cbn [wait_write]; [apply leaves_ret|]. apply leaves_bind; [apply leaves_inb; by right|].
  intros st. apply leaves_if; [done|apply leaves_ret].
Qed.
Lemma leaves_wait_read n : leaves (wait_read n).
Proof.
  induction n as [|n IH]; cbn [wait_read]; [apply leaves_ret|]. apply leaves_bind; [apply leaves_inb; by right|].
  intros st. apply leaves_if; [apply leaves_ret|done].
Qed.
Lemma leaves_flush n : leaves (ps2_flush n).
Proof.
  induction n as [|n IH]; cbn [ps2_flush]; (apply leaves_bind; [apply leaves_inb; by right|]); intros st;
    (apply leaves_if; [|apply leaves_ret]); [apply leaves_nofuel|]. apply leaves_bind; [apply leaves_inb; by left|done].
Qed.
Lemma leaves_command x : leaves (ps2_command x).
Proof. apply leaves_bind; [apply leaves_wait_write|intros _; apply leaves_outb; by right]. Qed.
Lemma leaves_data x : leaves (ps2_data x).
Proof. apply leaves_bind; [apply leaves_wait_write|intros _; apply leaves_outb; by left]. Qed.
Lemma leaves_answer : leaves ps2_answer.
Proof. apply leaves_bind; [apply leaves_wait_read|intros _; apply leaves_inb; by left]. Qed.

Ltac leaves_tac := repeat first [apply leaves_command | apply leaves_data | apply leaves_answer | apply leaves_flush
  | apply leaves_ret | apply leaves_if | apply leaves_bind; [|intros ?]].

Lemma leaves_controller_init fuel : leaves (ps2_controller_init fuel).
Proof. unfold ps2_controller_init, mouse_write, mouse_read, detect_scancode_set. cbv zeta. leaves_tac. Qed.
Lemma leaves_probe fuel : leaves (ps2_probe_controller fuel).
Proof. unfold ps2_probe_controller. cbv zeta. leaves_tac. Qed.
Lemma leaves_test x : leaves (ps2_test x).
Proof. unfold ps2_test. leaves_tac. Qed.

(** The scan for devices uses the processor for nothing else. *)
Definition leaves2 {A} (m : ST (ps2_state P) A) : Prop := forall s, I (io (p2_cpu s)) -> ends m (fun _ s' => I (io (p2_cpu s'))) s.
Lemma leaves2_bind {A B} (m : ST (ps2_state P) A) (f : A -> ST (ps2_state P) B) : leaves2 m -> (forall a, leaves2 (f a)) -> leaves2 (m ≫= f).
Proof. intros Hm Hf c Hc. apply ends_bind. eapply ends_weaken; [by apply Hm|]. intros a c'. apply Hf. Qed.
Lemma leaves2_ret {A} (a : A) : leaves2 (mret a).
Proof. intros c Hc. by apply ends_ret. Qed.
Lemma leaves2_cpu {A} (m : ST (cpu P) A) : leaves m -> leaves2 (zoom p2_cpu set_p2_cpu m).
Proof. intros Hm s Hs. apply ends_zoom. by apply Hm. Qed.
Lemma leaves2_heap {A} (m : ST kheap A) : leaves2 (zoom p2_heap set_p2_heap m).
Proof. intros s Hs. apply ends_zoom. by intros a h _. Qed.

Lemma leaves_register fuel i : leaves2 (register_from_ps2 fuel i).
Proof.
  unfold register_from_ps2. apply leaves2_bind; [by intros s Hs; apply ends_reads|]. intros g.
  destruct (MAX_DEVICES <=? device_count g); [apply leaves2_ret|]. apply leaves2_bind; [apply leaves2_heap|]. intros a.
  destruct (device_register_from_ps2 (ps2_irq i) a g) as [r g']. apply leaves2_bind; [|intros _; apply leaves2_ret].
  intros s Hs. by apply ends_modify.
Qed.
Lemma leaves_register_if fuel b irq : leaves2 (register_if fuel b irq).
Proof. destruct b; [|apply leaves2_ret]. apply leaves2_bind; [apply leaves_register|intros ?; apply leaves2_ret]. Qed.

Lemma leaves_scan fuel : leaves2 (hw_detect_ps2_scan fuel).
Proof.
  unfold hw_detect_ps2_scan, test_ports. apply leaves2_bind; [apply leaves2_cpu, leaves_probe|].
  intros [dual|]; [|apply leaves2_ret]. apply leaves2_bind; [apply leaves2_cpu, leaves_test|]. intros r.
  apply leaves2_bind; [apply leaves_register_if|]. intros n. apply leaves2_bind; [|intros ?; apply leaves2_ret].
  destruct dual; [|apply leaves2_ret]. apply leaves2_bind; [apply leaves2_cpu, leaves_test|]. intros r2. apply leaves_register_if.
Qed.
End leaves.

(** ** From the device to its handler *)

(** The ports of the PS/2 controller and the I/O APIC have nothing to do with
    each other. *)
Class Ps2Board (P : Type) `{BL : BoardLaws P} `{PD : Ps2Devices} := {
  pb_ctl :: Ps2Controller P;
  law_ps2_in p x : x = PS2_DATA_PORT \/ x = PS2_STATUS_PORT -> let p' := (port_in 1 x p).2 in
    (forall a, phys_of p' a = phys_of p a) /\ forall r, io_reg p' r = io_reg p r;
  law_ps2_out p x v : x = PS2_DATA_PORT \/ x = PS2_COMMAND_PORT -> let p' := port_out 1 x v p in
    (forall a, phys_of p' a = phys_of p a) /\ forall r, io_reg p' r = io_reg p r;
  law_ctl_write p a v : ctl (mm_write a v p) = ctl p
}.

Section routes.
Context {P : Type} `{PB : Ps2Board P}.

(** The same I/O APIC as in [p0]. *)
Definition apic_as (p0 p : P) : Prop := (forall a, phys_of p a = phys_of p0 a) /\ forall r, io_reg p r = io_reg p0 r.

Lemma apic_as_in p0 p x : x = PS2_DATA_PORT \/ x = PS2_STATUS_PORT -> apic_as p0 p -> apic_as p0 (port_in 1 x p).2.
Proof. intros Hx [A1 A2]. destruct (law_ps2_in p x Hx) as [L1 L2]. split; intros y; [by rewrite L1|by rewrite L2]. Qed.
Lemma apic_as_out p0 p x v : x = PS2_DATA_PORT \/ x = PS2_COMMAND_PORT -> apic_as p0 p -> apic_as p0 (port_out 1 x v p).
Proof. intros Hx [A1 A2]. destruct (law_ps2_out p x v Hx) as [L1 L2]. split; intros y; [by rewrite L1|by rewrite L2]. Qed.

(** The devices that [ps2_init] finds. *)
Definition ready_for_setup (fuel : nat) (set m1 m2 : Z) (s : ps2_machine P) : Prop :=
  let k := ctl (pic_p (pm_pic s)) in (length (obuf k) <= fuel)%nat /\ second k = true /\ devices_answer k set m1 m2.

Lemma setup_run (s : ps2_machine P) fuel set m1 m2 : controller_initialized s = true \/ ready_for_setup fuel set m1 m2 s ->
  exists p', (if controller_initialized s then mret tt
       else set ← zoom pm_pic set_pm_pic (pic_io (ps2_controller_init fuel));
            st_modify (fun s => MkPs2Machine (pm_pic s) (pm_tables s) set true)) s =
    Ret (tt, MkPs2Machine (set_io p' (pm_pic s)) (pm_tables s) (if controller_initialized s then pm_scancode_set s else set) true) /\
    apic_as (pic_p (pm_pic s)) p'.
Proof.
  destruct s as [[[p f] a1 a2 a3 a4 a5] t sc []]; cbn [controller_initialized].
  - intros _. exists p. by split.
  - intros [|(Hk & H2 & Hd)]; [done|]. change (ctl _) with (ctl p) in Hk, H2, Hd.
    destruct (ps2_controller_init_steps fuel (ctl p) set m1 m2 Hk H2 Hd (MkCpuIo p f) eq_refl) as ([p' f'] & E & _ & F).
    cbn [if_flag] in F. subst f'. exists p'. split.
    + set (pic0 := MkPicState (MkCpuIo p f) a1 a2 a3 a4 a5). set (s0 := MkPs2Machine pic0 t sc false).
      rewrite (bind_step _ _ s0 _ _ (zoom_run pm_pic set_pm_pic _ s0 _ _ (zoom_run pic_cpu set_pic_cpu _ pic0 _ _ E))). done.
    + by apply (leaves_controller_init (apic_as p) (apic_as_in p) (apic_as_out p) fuel (MkCpuIo p f) ltac:(done) _ _ E).
Qed.

(** The interrupts of the PS/2 devices reach their handlers.  Initialising
    the keyboard (line 1) or the mouse (line 12), the first time with the
    set-up of the controller and later without, leaves the redirection entry
    of that line unmasked with a vector whose gate in the interrupt table is
    present and leads to the device's stub, and which [interrupt_dispatch]
    turns back into the line; the other entries and gates stay as they were,
    and the first time the scan code set is the one the keyboard tells. *)
Theorem ps2_init_routes (s : ps2_machine P) irq h33 h44 fuel set m1 m2 (idx := ioapic_redtbl_index_for_irq (pm_pic s) irq)
    (Hi : irq = 1 \/ irq = 12) (Hc : controller_initialized s = true \/ ready_for_setup fuel set m1 m2 s)
    (Hr : routable (pm_pic s) irq 0) (Ht : zlen (idt (pm_tables s)) = 256) (H33 : 0 <= h33 < 2 ^ 64) (H44 : 0 <= h44 < 2 ^ 64) :
  exists s' e, ps2_init h33 h44 fuel irq s = Ret (0, s') /\ controller_initialized s' = true /\
    pm_scancode_set s' = (if controller_initialized s then pm_scancode_set s else set) /\
    let entry := (redirection (pic_p (pm_pic s')) idx).1 in
    let vector := entry mod 2 ^ 8 in
    Z.land entry IOAPIC_MASK_MASK = 0 /\ wrap 8 (vector - T_IRQ0) = irq /\
    zget (idt (pm_tables s')) vector = Some e /\ gate_present e = true /\ gate_handler e = (if irq =? 1 then h33 else h44) /\
    (forall j, j <> idx -> redirection (pic_p (pm_pic s')) j = redirection (pic_p (pm_pic s)) j) /\
    (forall v, v <> vector -> zget (idt (pm_tables s')) v = zget (idt (pm_tables s)) v).
Proof.
  destruct (setup_run s fuel set m1 m2 Hc) as (p1 & E1 & A1 & A2).
  assert (routable (set_io p1 (pm_pic s)) irq 0) as Hr1.
  { destruct Hr as [R1 R2 R3 R4 R5 R6]. split; try done. by apply io_ready_map. }
  destruct (ioapic_enable_run _ _ _ Hr1) as (p2 & E2 & _ & X2 & Y2).
  change (ioapic_redtbl_index_for_irq (set_io p1 (pm_pic s)) irq) with idx in X2, Y2. set (pic2 := set_io p2 (set_io p1 (pm_pic s))) in *.
  assert (0 <= (if irq =? 1 then h33 else h44) < 2 ^ 64) as Hh by by destruct (irq =? 1).
  destruct (idt_gate_fields_set (pm_tables s) (32 + irq) (if irq =? 1 then h33 else h44) Ht ltac:(lia) Hh)
    as (t' & e & E3 & G1 & (G2 & G3 & _) & _ & G4 & _).
  exists (MkPs2Machine pic2 t' (if controller_initialized s then pm_scancode_set s else set) true), e.
  cbn [pm_pic pm_tables controller_initialized pm_scancode_set]. change (pic_p pic2) with p2. rewrite X2. cbn [fst]. cbv zeta.
  destruct (entry_vector irq ltac:(lia)) as [V1 V2]. rewrite V1 in *.
  split; [|split; [done|split; [done|split; [|split; [exact V2|split; [exact G1|split; [exact G2|split; [exact G3|split]]]]]]]].
  - unfold ps2_init. rewrite (bind_step _ _ _ _ _ eq_refl), (bind_step _ _ _ _ _ E1).
    set (s1 := MkPs2Machine (set_io p1 (pm_pic s)) (pm_tables s) _ true).
    rewrite (bind_step _ _ s1 _ _ (zoom_run pm_pic set_pm_pic _ s1 _ _ E2)). set (s2 := set_pm_pic pic2 s1).
    destruct Hi as [-> | ->]; by rewrite (bind_step _ _ s2 _ _ (zoom_run pm_tables set_pm_tables _ s2 _ _ E3)).
  - destruct Hi as [-> | ->]; done.
  - intros j Hj. rewrite Y2 by done. unfold redirection. by rewrite !A2.
  - exact G4.
Qed.
End routes.
