(* ===== verification/Ps2CtlDemo.v ===== *)
(** * A board with a PS/2 controller

    Any board gets a controller with a keyboard and a mouse by putting it on
    the two ports; the board of ApicDemo.v with one is where the theorems of
    Ps2CtlFacts.v apply. *)
From S2P Require Import Prelude Mem PhysMem KMalloc KMallocFacts Drivers Ports Pci PciFacts PciScan Apic ApicFacts.
From S2P Require Import Descriptors DescriptorsFacts Ps2Ctl Ps2CtlFacts ApicDemo PciDemo.

(** A keyboard with scan code set 2 and a mouse. *)
#[export] Instance demo_devices : Ps2Devices := {
  kbd_answer sent := match sent with 0x00 :: 0xF0 :: _ => [0xFA; 2] | _ => [0xFA] end;
  mouse_answer sent := match sent with 0xFF :: _ => [0xFA; 0xAA; 0x00] | _ => [0xFA] end;
  selftest_ccb c := c
}.

Definition ps2_in (x : Z) (k : i8042) : Z * i8042 :=
  if x =? PS2_STATUS_PORT then (if bool_decide (obuf k = []) then 0 else 1, k)
  else match obuf k with b :: r => (b, set_obuf r k) | [] => (0, k) end.
Definition ps2_out (x v : Z) (k : i8042) : i8042 := if x =? PS2_COMMAND_PORT then command v k else data_byte v k.
Definition ps2_port (x : Z) : bool := (x =? PS2_DATA_PORT) || (x =? PS2_STATUS_PORT).

Section on_ports.
Context {B : Type} `{PB : PortIO B}.

Definition with_ps2_ports : PortIO (B * i8042) := {|
  port_in n x p := if ps2_port x then let '(v, k) := ps2_in x p.2 in (v, (p.1, k))
                   else let '(v, b) := port_in n x p.1 in (v, (b, p.2));
  port_out n x v p := if ps2_port x then (p.1, ps2_out x v p.2) else (port_out n x v p.1, p.2)
|}.

Definition ports_controller : @Ps2Controller (B * i8042) with_ps2_ports _.
Proof.
  refine {| ctl p := p.2 |}.
  - intros [b k]. cbn. split; [done|]. by case_bool_decide.
  - intros [b k] x r Hb. cbn in *. by rewrite Hb.
  - done.
  - done.
Defined.
End on_ports.

Section on_board.
Context {B : Type} `{BL : BoardLaws B}.
Implicit Types p : B * i8042.

Definition with_ps2_msr : MsrIO (B * i8042) := {|
  msr_in a p := msr_in a p.1; msr_out a lo hi p := (msr_out a lo hi p.1, p.2)
|}.
Definition on_fst {A} (m : ST (cpu B) A) : ST (cpu (B * i8042)) A :=
  zoom (fun c => MkCpuIo (io c).1 (if_flag c)) (fun c c' => MkCpuIo (io c, (io c').2) (if_flag c)) m.
#[export] Instance with_ps2_board : Board (B * i8042) := {
  board_ports := with_ps2_ports; board_msr := with_ps2_msr;
  phys_of p := phys_of p.1; ram_byte p := ram_byte p.1;
  vmm_map_physical s e := on_fst (vmm_map_physical s e); vmm_init_lapic pa := on_fst (vmm_init_lapic pa);
  hhdm := hhdm; mm_read a p := let '(v, b) := mm_read a p.1 in (v, (b, p.2)); mm_write a v p := (mm_write a v p.1, p.2)
}.

#[export] Instance with_ps2_laws : BoardLaws (B * i8042).
Proof.
  refine {| ioapic_at := ioapic_at; lapic_at := lapic_at; io_entries := io_entries; firmware := firmware;
    io_sel p := io_sel p.1; io_reg p := io_reg p.1; lapic_reg p := lapic_reg p.1; imr p := imr p.1; eois p := eois p.1;
    maps_left p := maps_left p.1; lapic_unmapped p := lapic_unmapped p.1 |}.
  - intros p. exact (io_reg_range p.1).
  - intros p. exact (law_version p.1).
  - intros p. exact (law_select p.1).
  - intros [b k] va Hva. cbn. by rewrite (law_window_read b va Hva).
  - intros p. exact (law_window_write p.1).
  - intros [b k] x v Hx. cbn [port_out with_ps2_board board_ports with_ps2_ports].
    assert (ps2_port x = false) as -> by (destruct Hx as [-> | ->]; done). exact (law_imr b x v Hx).
  - intros [b k] f s n H0 H1 Hl. destruct (law_map b f s n H0 H1 Hl) as (va & p' & E & V1 & V2 & V3 & V4).
    exists va, (p', k). split; [|done]. exact (zoom_run _ _ _ (MkCpuIo (b, k) f) va _ E).
  - intros [b k] f H0 Hu. destruct (law_map_lapic b f H0 Hu) as (p' & E & V). exists (p', k). split; [|done].
    exact (zoom_run _ _ _ (MkCpuIo (b, k) f) tt _ E).
  - intros [b k] va j Hw Hj Hm. destruct (law_lapic_read b va j Hw Hj Hm) as [v E]. exists v. cbn. by rewrite E.
  - intros p. exact (law_lapic_write p.1).
  - intros p. exact (law_apic_base p.1).
Defined.

#[export] Instance with_ps2_controller : Ps2Controller (B * i8042) := ports_controller.

#[export] Instance with_ps2 : Ps2Board (B * i8042).
Proof.
  refine {| pb_ctl := with_ps2_controller |}.
  - intros [b k] x [-> | ->]; cbn -[ps2_in]; by destruct (ps2_in _ k).
  - intros [b k] x v [-> | ->]; done.
  - done.
Defined.
End on_board.

(** As the firmware leaves it: one byte waiting, translation on. *)
Definition demo_ctl : i8042 := MkI8042 [0x1C] 0x45 None true 0x55 0 0 [] [].
Definition demo_machine : ps2_machine (board * i8042) :=
  MkPs2Machine (MkPicState (MkCpuIo (io (pic_cpu demo_pic), demo_ctl) false) (WINDOW + IOAPIC) 0 0 0 0) demo_tables 0 false.
Definition demo_scan : ps2_state (board * i8042) :=
  MkPs2 (pic_cpu (pm_pic demo_machine)) demo_heap ∅ dm_zero.

Lemma hw_detect_ps2_scan_correct_witness : exists s' : ps2_state (board * i8042),
  hw_detect_ps2_scan 1 demo_scan = Ret (2, s') /\ obuf (ctl (io (p2_cpu s'))) = [] /\ ccb (ctl (io (p2_cpu s'))) = 0x75.
Proof.
  destruct (hw_detect_ps2_scan_correct demo_scan demo_page 16 0) as (s' & E & _ & _ & H1 & H2).
  - split; [apply demo_head|lia|done|by vm_compute].
  - done.
  - by vm_compute.
  - exists s'. split; [exact E|]. split; [exact H1|]. by rewrite (H2 eq_refl).
Defined.

Lemma ps2_controller_init_correct_witness : exists c' : cpu (board * i8042),
  ps2_controller_init 1 (pic_cpu (pm_pic demo_machine)) = Ret (2, c') /\ Z.testbit (ccb (ctl (io c'))) 6 = false.
Proof.
  destruct (ps2_controller_init_correct (pic_cpu (pm_pic demo_machine)) 1 2 0xAA 0x00) as (c' & E & _ & _ & _ & H & _).
  - done.
  - done.
  - by split.
  - specialize (H 6 ltac:(lia)). exists c'. split; [exact E|exact H].
Defined.

Lemma ps2_init_routes_witness : exists s' : ps2_machine (board * i8042),
  ps2_init 0xffffffff80001021 0xffffffff8000102c 1 1 demo_machine = Ret (0, s') /\ pm_scancode_set s' = 2.
Proof.
  destruct (ps2_init_routes demo_machine 1 0xffffffff80001021 0xffffffff8000102c 1 2 0xAA 0x00) as (s' & e & E & _ & H & _).
  - by left.
  - right. split; [done|]. split; [done|]. by split.
  - split; [by vm_compute|by vm_compute|lia|lia|done|by vm_compute].
  - done.
  - lia.
  - lia.
  - exists s'. split; [exact E|exact H].
Defined.
