(* ===== verification/Boot.v ===== *)
(** * Start-up of the devices (device_manager.c, builtin_drivers.c and the
      part of kmain in kernel.c that picks the devices the rest uses)

    The scans of Ps2Ctl.v and Pci.v run on one processor, one heap and one
    table of devices; what a driver does to its device and to the hardware is
    a parameter, except for the probes that are one line or look at what the
    scan found.  A probe through the null pointer a failed allocation leaves
    is not represented: it answers -1.  Log output is left out. *)
From S2P Require Import Prelude Nvme Mem PhysMem KMalloc Drivers Ports Pci Apic Descriptors Ps2Ctl.

(** The hardware, with the information blocks the scans left on the heap. *)
Record hw (P : Type) := MkHw {
  hw_cpu : cpu P; hw_heap : kheap; hw_pci : gmap Z pci_device_info; hw_ps2 : gmap Z ps2_device_info
}.
Arguments MkHw {P}. Arguments hw_cpu {P}. Arguments hw_heap {P}. Arguments hw_pci {P}. Arguments hw_ps2 {P}.

(** [g_dm] and the devices chosen for the clock, the serial port, the
    framebuffer and the disk, by their places in the table. *)
Record boot (P : Type) := MkBoot {
  b_hw : hw P; b_dm : device_manager; dm_initialized : bool;
  g_rtc_dev : option Z; g_serial_dev : option Z; g_fb_dev : option Z; g_nvme : option Z
}.
Arguments MkBoot {P}. Arguments b_hw {P}. Arguments b_dm {P}. Arguments dm_initialized {P}.
Arguments g_rtc_dev {P}. Arguments g_serial_dev {P}. Arguments g_fb_dev {P}. Arguments g_nvme {P}.

Section boot.
Context {P : Type} `{PortIO P}.

Definition operation : Type := device_t -> hw P -> Z * device_t * hw P.

(** The addresses of the five driver structures, and their operations. *)
Record driver_set := MkDrivers {
  rtc_driver : Z; serial_driver : Z; fb_driver : Z; ps2_driver : Z; nvme_driver : Z;
  rtc_init : operation; serial_probe : operation; serial_init : operation; fb_init : operation; ps2_init_op : operation;
  nvme_init : operation;
  serial_irq_handler : device_t -> Z -> hw P -> device_t * hw P;
  ps2_irq_handler : device_t -> Z -> hw P -> device_t * hw P
}.
Context (D : driver_set).

(** [rtc_probe], [fb_probe] and [ps2_probe]. *)
Definition probe_ok : operation := fun d w => (0, d, w).
Definition nvme_probe_op : operation := fun d w =>
  match hw_pci w !! dv_os_data d with
  | Some i => (nvme_probe (pi_class_code i) (pi_subclass i) (pi_prog_if i), d, w)
  | None => (-1, d, w)
  end.

(** The driver structures; [p] is the address of one of them. *)
Definition driver_of (p : Z) : driver_t (hw P) :=
  if p =? rtc_driver D then MkDriver _ DRIVER_BUS_PLATFORM DRIVER_CLASS_MISC (Some probe_ok) (Some (rtc_init D)) None
  else if p =? serial_driver D then
    MkDriver _ DRIVER_BUS_PLATFORM DRIVER_CLASS_CHAR (Some (serial_probe D)) (Some (serial_init D)) (Some (serial_irq_handler D))
  else if p =? fb_driver D then MkDriver _ DRIVER_BUS_PLATFORM DRIVER_CLASS_DISPLAY (Some probe_ok) (Some (fb_init D)) None
  else if p =? ps2_driver D then
    MkDriver _ DRIVER_BUS_PS2 DRIVER_CLASS_INPUT (Some probe_ok) (Some (ps2_init_op D)) (Some (ps2_irq_handler D))
  else MkDriver _ DRIVER_BUS_PCI DRIVER_CLASS_BLOCK (Some nvme_probe_op) (Some (nvme_init D)) None.

Definition register_early_drivers (g : device_manager) : device_manager :=
  snd (driver_register_verified (rtc_driver D) g).
Definition register_builtin_drivers (g : device_manager) : device_manager :=
  let register p g := snd (driver_register_verified p g) in
  register (nvme_driver D) (register (ps2_driver D) (register (fb_driver D) (register (serial_driver D)
    (register (rtc_driver D) g)))).

(** Binding, probing and initialising the clock, whose place is [i]; the
    answer of the probe is not looked at. *)
Definition early_device (i : Z) (d : device_t) (s : boot P) : boot P :=
  let put d w r := MkBoot w (set_devices (b_dm s) (zset (dm_devices (b_dm s)) i d)) (dm_initialized s) r (g_serial_dev s) (g_fb_dev s) (g_nvme s) in
  let '(r, d) := device_driver_match_and_bind driver_of (b_dm s) d in
  if r =? 0 then
    let '(d, w) := match dv_drv d ≫= fun p => op_probe (driver_of p) with
                   | Some probe => let '(_, d, w) := probe d (b_hw s) in (d, w)
                   | None => (d, b_hw s)
                   end in
    match dv_drv d ≫= fun p => op_init (driver_of p) with
    | Some init => let '(r, d, w) := init d w in
                   if r =? 0 then put (set_initialized d) w (Some i) else put d w (g_rtc_dev s)
    | None => put d w (g_rtc_dev s)
    end
  else put d (b_hw s) (g_rtc_dev s).

Definition device_manager_early_init (s : boot P) : boot P :=
  let g := snd (hw_detect_platform_devices dm_zero) in
  let g := register_early_drivers g in
  let s := MkBoot (b_hw s) g false (g_rtc_dev s) (g_serial_dev s) (g_fb_dev s) (g_nvme s) in
  let s := match device_find_by_name "rtc" g with
           | Some (i, d) => early_device i d s
           | None => s
           end in
  MkBoot (b_hw s) (b_dm s) true (g_rtc_dev s) (g_serial_dev s) (g_fb_dev s) (g_nvme s).

(** The scans on the parts of the state they use. *)
Definition get_ps2 (s : boot P) : ps2_state P := MkPs2 (hw_cpu (b_hw s)) (hw_heap (b_hw s)) (hw_ps2 (b_hw s)) (b_dm s).
Definition put_ps2 (t : ps2_state P) (s : boot P) : boot P :=
  MkBoot (MkHw (p2_cpu t) (p2_heap t) (hw_pci (b_hw s)) (p2_infos t)) (p2_dm t) (dm_initialized s)
    (g_rtc_dev s) (g_serial_dev s) (g_fb_dev s) (g_nvme s).
Definition get_pci (s : boot P) : pci_state P := MkPci (hw_cpu (b_hw s)) (hw_heap (b_hw s)) (hw_pci (b_hw s)) (b_dm s).
Definition put_pci (t : pci_state P) (s : boot P) : boot P :=
  MkBoot (MkHw (pc_cpu t) (pc_heap t) (pc_infos t) (hw_ps2 (b_hw s))) (pc_dm t) (dm_initialized s)
    (g_rtc_dev s) (g_serial_dev s) (g_fb_dev s) (g_nvme s).

(** A change of the tables and the hardware together. *)
Definition on_tables (f : device_manager -> hw P -> device_manager * hw P) : ST (boot P) unit :=
  st_modify (fun s => let '(g, w) := f (b_dm s) (b_hw s) in
    MkBoot w g (dm_initialized s) (g_rtc_dev s) (g_serial_dev s) (g_fb_dev s) (g_nvme s)).

Fixpoint register_framebuffers (fbs : list Z) (g : device_manager) : device_manager :=
  match fbs with [] => g | fb :: fbs' => register_framebuffers fbs' (snd (device_register_framebuffer fb g)) end.

(** [fb_resp]: the addresses in the boot loader's answer, if there is one. *)
Definition device_manager_init (fuel : nat) (fb_resp : option (list Z)) : ST (boot P) unit :=
  _ ← st_modify (fun s => if dm_initialized s then s
                            else MkBoot (b_hw s) dm_zero false (g_rtc_dev s) (g_serial_dev s) (g_fb_dev s) (g_nvme s));
  _ ← zoom get_ps2 put_ps2 (hw_detect_ps2_scan fuel);
  _ ← zoom get_pci put_pci (hw_detect_pci_scan fuel);
  _ ← on_tables (fun g w => (register_framebuffers (default [] fb_resp) g, w));
  _ ← on_tables (fun g w => (register_builtin_drivers g, w));
  _ ← on_tables (device_manager_probe_all driver_of);
  on_tables (device_manager_init_all driver_of).

(** The device of that name, if it is initialised. *)
Definition initialized_device (name : string) (g : device_manager) : option Z :=
  match device_find_by_name name g with
  | Some (i, d) => if dv_initialized d then Some i else None
  | None => None
  end.

(** The devices [kmain] picks afterwards. *)
Definition set_globals (s : boot P) : boot P :=
  let pick old name := match initialized_device name (b_dm s) with Some i => Some i | None => old end in
  MkBoot (b_hw s) (b_dm s) (dm_initialized s) (g_rtc_dev s) (pick (g_serial_dev s) "serial"%string)
    (pick (g_fb_dev s) "fb0"%string) (pick (g_nvme s) "nvme0"%string).
End boot.
Arguments driver_set P : clear implicits.
Arguments operation P : clear implicits.
