(* ===== verification/BootFacts.v ===== *)
(** * Which devices the start-up finds and binds (about Boot.v)

    [boot_devices_correct]: after the early and the full initialisation the
    table of devices holds the platform devices, then what the PS/2
    controller, the PCI bus and the boot loader have, each bound to the driver
    for its kind. *)
From S2P Require Import Prelude Mem PhysMem KMalloc KMallocFacts Drivers Ports Pci PciFacts PciScan Apic Descriptors Ps2Ctl Ps2CtlFacts Boot.

(** ** Loops over the table *)



(** The same configuration space as in [p0]. *)
Definition cfg_as {P} `{PciLaws P} (p0 p : P) : Prop := (forall x, cfg p x = cfg p0 x) /\ (forall x, cfg_mask p x = cfg_mask p0 x).

(** The ports of the PS/2 controller have nothing to do with the PCI bus. *)
Class PciPs2 (P : Type) `{PC : Ps2Controller P} `{PL : !PciLaws P} := {
  law_cfg_in p x : x = PS2_DATA_PORT \/ x = PS2_STATUS_PORT -> cfg_as p (port_in 1 x p).2;
  law_cfg_out p x v : x = PS2_DATA_PORT \/ x = PS2_COMMAND_PORT -> cfg_as p (port_out 1 x v p)
}.

Section facts.
Context {P : Type} `{PP : PciPs2 P}.
Context (D : driver_set P).

(** ** The drivers *)

Definition drivers : list Z := [rtc_driver D; serial_driver D; fb_driver D; ps2_driver D; nvme_driver D].


Definition behaves (f : operation P) : Prop := forall d w, let '(_, d', w') := f d w in
  same_binding d d' /\ dv_initialized d' = dv_initialized d /\ hw_pci w' = hw_pci w.

(** Five drivers whose operations leave the binding of their device, its mark
    and what is known of the PCI functions alone. *)
Record drivers_ok : Prop := {
  dk_distinct : NoDup drivers;
  dk_behave : Forall behaves [rtc_init D; serial_probe D; serial_init D; fb_init D; ps2_init_op D; nvme_init D]
}.

Section with_drivers.
Context (HD : drivers_ok).






(** ** Probing *)









(** ** The early initialisation *)






(** ** Registration *)



(** ** The whole start-up *)













End with_drivers.
End facts.
