(* ===== verification/BootDemo.v ===== *)
(** * The start-up of one machine

    The PCI bus of PciDemo.v with the PS/2 controller of Ps2CtlDemo.v and one
    framebuffer, for the theorem of BootFacts.v. *)
From S2P Require Import Prelude Mem PhysMem KMalloc KMallocFacts Drivers Ports Pci PciFacts PciScan Apic Descriptors.
From S2P Require Import Ps2Ctl Ps2CtlFacts Boot BootFacts Ps2CtlDemo PciDemo.

#[local] Existing Instances bus_ports bus_laws demo_devices.
#[local] Instance machine_ports : PortIO (pci_bus * i8042) := with_ps2_ports.
#[local] Instance machine_controller : Ps2Controller (pci_bus * i8042) := ports_controller.

#[local] Instance machine_pci : PciLaws (pci_bus * i8042).
Proof.
  refine {| cfg p := cfg p.1; cfg_mask p := cfg_mask p.1; cfg_sel p := cfg_sel p.1 |}.
  - intros p. exact (cfg_range p.1).
  - intros p. exact (mask_range p.1).
  - intros [b k] a Ha. exact (PciFacts.law_address b a Ha).
  - intros [b k] Hs. pose proof (PciFacts.law_read b Hs) as L. cbn in L |- *. exact L.
  - intros [b k] v Hs Hb Hv. exact (PciFacts.law_write b v Hs Hb Hv).
Defined.
#[local] Instance machine_apart : PciPs2 (pci_bus * i8042).
Proof.
  split.
  - intros [b k] x [-> | ->]; cbn -[ps2_in]; by destruct (ps2_in _ k).
  - intros [b k] x v [-> | ->]; done.
Qed.




