(* ===== verification/SerialPort.v ===== *)
(** * The serial port's hardware (kernel/src/drivers/drv_serial.c, and the
      console of common/printf.c that uses it)

    The port operations behind Serial.v: set-up, probing, sending, receiving
    and the interrupt handler around the ring buffer of Serial.v, which holds the
    lock of the buffer's condition variable and wakes the processes that wait
    for it.  The loops that wait for the line have no bound in the code: [fuel]
    is the number of polls they may take.  Log output is left out. *)
From S2P Require Import Prelude Mem PhysMem KMalloc Vmm Sched SchedInv Files Proc Drivers Ports Apic Serial.

Definition PORT : Z := 0x3f8.
Definition IRQ_COM1 : Z := 4.

(** [enum output_mode]. *)
Inductive output_mode := OUTPUT_SERIAL | OUTPUT_FLANTERM | OUTPUT_FRAMEBUFFER.

Section port.
Context {P : Type} `{PortIO P}.

Definition is_transmit_empty : ST (cpu P) Z := v ← inb (PORT + 5); mret (Z.land v 0x20).
Definition serial_received : ST (cpu P) Z := v ← inb (PORT + 5); mret (Z.land v 0x01).

Fixpoint serial_putc (fuel : nat) (a : Z) : ST (cpu P) unit :=
  empty ← is_transmit_empty;
  if empty =? 0 then match fuel with O => st_nofuel | S fuel' => serial_putc fuel' a end
  else outb PORT a.
Fixpoint serial_getc (fuel : nat) : ST (cpu P) Z :=
  received ← serial_received;
  if received =? 0 then match fuel with O => st_nofuel | S fuel' => serial_getc fuel' end
  else inb PORT.

(** The loop of [serial_write_op]. *)
Fixpoint serial_puts (fuel : nat) (buf : list Z) : ST (cpu P) unit :=
  match buf with [] => mret tt | c :: buf' => _ ← serial_putc fuel c; serial_puts fuel buf' end.

Definition serial_probe : ST (cpu P) Z :=
  _ ← outb (PORT + 1) 0;
  v ← inb (PORT + 5);
  mret (if v =? 0xFF then -1 else 0).

(** Line control, rate and modem control, as both set-ups write them. *)
Definition serial_line : ST (cpu P) unit :=
  _ ← outb (PORT + 2) 0;
  _ ← outb (PORT + 3) 0x80;
  _ ← outb (PORT + 0) (115200 / 9600);
  _ ← outb (PORT + 1) 0;
  _ ← outb (PORT + 3) 0x03;
  outb (PORT + 4) 0.
Definition serial_configure : ST (cpu P) unit :=
  _ ← serial_line;
  _ ← outb (PORT + 1) 0x01;
  _ ← inb (PORT + 2);
  _ ← inb (PORT + 0);
  mret tt.

(** ** The console *)

Record console := MkConsole { co_cpu : cpu P; current_output : output_mode; serial_initialized : bool }.
Definition set_co_cpu (c : cpu P) (s : console) : console := MkConsole c (current_output s) (serial_initialized s).

Definition set_output_mode (mode : output_mode) : ST console unit :=
  _ ← st_modify (fun s => MkConsole (co_cpu s) mode (serial_initialized s));
  done ← reads serial_initialized;
  match mode with
  | OUTPUT_SERIAL =>
      if (done : bool) then mret tt
      else
        _ ← zoom co_cpu set_co_cpu serial_line;
        st_modify (fun s => MkConsole (co_cpu s) (current_output s) true)
  | _ => mret tt
  end.

(** [term_putc], which calls the terminal library, is a parameter. *)
Definition kputc (term_putc : Z -> ST console unit) (fuel : nat) (c : Z) : ST console unit :=
  mode ← reads current_output;
  match mode with
  | OUTPUT_SERIAL => zoom co_cpu set_co_cpu (serial_putc fuel c)
  | OUTPUT_FLANTERM => term_putc c
  | OUTPUT_FRAMEBUFFER => mret tt
  end.
Fixpoint kputs (term_putc : Z -> ST console unit) (fuel : nat) (s : list Z) : ST console unit :=
  match s with [] => mret tt | c :: s' => _ ← kputc term_putc fuel c; kputs term_putc fuel s' end.
End port.
Arguments console P : clear implicits.

(** ** The driver *)

(** [sizeof(serial_device_data_t)]. *)
Definition SERIAL_DATA_SIZE : Z := 144.

(** The fields of the device the driver sets are [driver_data], with what is
    there, and [irq]; [cv_locked] is the lock of the condition variable [cv]
    that lies in the driver's data, a flag as in Proc.v; [sp_ps]: the processes. *)
Record serial_port (P : Type) := MkPort {
  sp_pic : pic P; sp_heap : kheap; driver_data : Z; sp_data : option serial_device_data; sp_irq : Z;
  cv_locked : bool; sp_ps : pstate
}.
Arguments MkPort {P}. Arguments sp_pic {P}. Arguments sp_heap {P}. Arguments driver_data {P}.
Arguments sp_data {P}. Arguments sp_irq {P}. Arguments cv_locked {P}. Arguments sp_ps {P}.

Section driver.
Context {P : Type} `{Board P}.

Definition set_sp_pic (x : pic P) (s : serial_port P) : serial_port P := 
  MkPort x (sp_heap s) (driver_data s) (sp_data s) (sp_irq s) (cv_locked s) (sp_ps s).
Definition set_sp_heap (h : kheap) (s : serial_port P) : serial_port P := 
  MkPort (sp_pic s) h (driver_data s) (sp_data s) (sp_irq s) (cv_locked s) (sp_ps s).
Definition set_sp_data (d : option serial_device_data) (s : serial_port P) : serial_port P :=
  MkPort (sp_pic s) (sp_heap s) (driver_data s) d (sp_irq s) (cv_locked s) (sp_ps s).
Definition set_cv_locked (b : bool) (s : serial_port P) : serial_port P :=
  MkPort (sp_pic s) (sp_heap s) (driver_data s) (sp_data s) (sp_irq s) b (sp_ps s).
Definition set_sp_ps (t : pstate) (s : serial_port P) : serial_port P :=
  MkPort (sp_pic s) (sp_heap s) (driver_data s) (sp_data s) (sp_irq s) (cv_locked s) t.

Definition serial_init (fuel : nat) : ST (serial_port P) Z :=
  data ← zoom sp_heap set_sp_heap (kcmalloc fuel SERIAL_DATA_SIZE);
  if data =? 0 then mret (-1)
  else
    _ ← zoom sp_pic set_sp_pic (pic_io serial_configure);
    _ ← st_modify (fun s => MkPort (sp_pic s) (sp_heap s) data (Some Serial.serial_init) IRQ_COM1 false (sp_ps s));
    _ ← zoom sp_pic set_sp_pic (ioapic_enable IRQ_COM1 0);
    mret 0.

(** [condvar_lock(&data->cv)], [condvar_unlock] and [condvar_notify_all]: the
    lock lies at offset 132 of [serial_device_data_t]. *)
Definition cv_channel (s : serial_port P) : Z := driver_data s + 132.
Definition cv_lock : ST (serial_port P) unit :=
  on ← reads (fun s => spinlocks_enabled (sp_ps s));
  if negb on then mret tt
  else
    held ← reads cv_locked;
    if (held : bool) then st_panic "deadlock" else st_modify (set_cv_locked true).
Definition cv_unlock : ST (serial_port P) unit :=
  on ← reads (fun s => spinlocks_enabled (sp_ps s));
  if negb on then mret tt
  else
    held ← reads cv_locked;
    if (held : bool) then st_modify (set_cv_locked false) else st_panic "cpu not holding lock".
Definition cv_notify_all : ST (serial_port P) unit :=
  ch ← reads cv_channel; zoom sp_ps set_sp_ps (condvar_notify_all ch).

(** [serial_irq_handler]; the echo is what Serial.v's handler stored. *)
Definition serial_irq (fuel : nat) : ST (serial_port P) unit :=
  data ← reads sp_data;
  match data with
  | Some d =>
      if negb (initialized d) then zoom sp_pic set_sp_pic lapic_send_eoi
      else
        c ← zoom sp_pic set_sp_pic (pic_io (serial_getc fuel));
        _ ← cv_lock;
        let '(data, echo) := serial_irq_handler data c in
        _ ← (match echo with
             | [] => mret tt
             | _ =>
                 _ ← st_modify (set_sp_data data);
                 _ ← zoom sp_pic set_sp_pic (pic_io (serial_puts fuel echo));
                 cv_notify_all
             end);
        _ ← cv_unlock;
        zoom sp_pic set_sp_pic lapic_send_eoi
  | None => zoom sp_pic set_sp_pic lapic_send_eoi
  end.
End driver.
