(* ===== verification/SerialPortFacts.v ===== *)
(** * What the serial port's code does to the line (about SerialPort.v)

    [uart] is the documented controller, 8250 and its successors without
    FIFO; [Uart] ties the eight ports to it.  The set-up gives 9600 baud,
    eight bits, receive interrupts and a route to vector 36
    ([serial_init_correct]); the console sends the bytes it is given in order
    ([console_output_correct]); and one interrupt moves one character from the
    line through the ring buffer's handler to the echo, wakes the processes
    that wait for it and is acknowledged ([serial_irq_correct]). *)
From S2P Require Import Prelude Mem PhysMem KMalloc KMallocFacts Vmm Sched SchedInv Files Proc ProcFacts ProcInv.
From S2P Require Import Drivers Ports Pci PciFacts Apic ApicFacts Serial SerialPort.

(** Line control, divisor, interrupt enable, FIFO control, modem control;
    bytes received and not yet read; bytes sent, the latest first; the polls
    the transmitter still needs. *)
Record uart := MkUart {
  lcr : Z; dll : Z; dlm : Z; ier : Z; fcr : Z; mcr : Z; rx : list Z; sent : list Z; busy : nat
}.
Definition dlab (u : uart) : bool := Z.testbit (lcr u) 7.
Definition set_rx (l : list Z) (u : uart) : uart := MkUart (lcr u) (dll u) (dlm u) (ier u) (fcr u) (mcr u) l (sent u) (busy u).
Definition tick (u : uart) : uart :=
  MkUart (lcr u) (dll u) (dlm u) (ier u) (fcr u) (mcr u) (rx u) (sent u) (pred (busy u)).

(** A byte written to register [r]; a byte sent keeps the transmitter busy
    for [tx_time] polls. *)
Definition uart_write (tx_time : nat) (r v : Z) (u : uart) : uart :=
  if r =? 0 then
    if dlab u then MkUart (lcr u) v (dlm u) (ier u) (fcr u) (mcr u) (rx u) (sent u) (busy u)
    else MkUart (lcr u) (dll u) (dlm u) (ier u) (fcr u) (mcr u) (rx u) (v :: sent u) tx_time
  else if r =? 1 then
    if dlab u then MkUart (lcr u) (dll u) v (ier u) (fcr u) (mcr u) (rx u) (sent u) (busy u)
    else MkUart (lcr u) (dll u) (dlm u) v (fcr u) (mcr u) (rx u) (sent u) (busy u)
  else if r =? 2 then MkUart (lcr u) (dll u) (dlm u) (ier u) v (mcr u) (rx u) (sent u) (busy u)
  else if r =? 3 then MkUart v (dll u) (dlm u) (ier u) (fcr u) (mcr u) (rx u) (sent u) (busy u)
  else if r =? 4 then MkUart (lcr u) (dll u) (dlm u) (ier u) (fcr u) v (rx u) (sent u) (busy u)
  else u.

Class Uart (P : Type) `{PortIO P} := {
  line : P -> uart; tx_time : nat;
  law_uart_out p r v : 0 <= r < 8 -> line (port_out 1 (PORT + r) v p) = uart_write tx_time r v (line p);
  law_lsr p : let '(v, p') := port_in 1 (PORT + 5) p in
    line p' = tick (line p) /\ Z.testbit v 5 = (busy (line p) =? 0)%nat /\ Z.testbit v 0 = negb (bool_decide (rx (line p) = [])) /\
    Z.testbit v 7 = false;
  law_rbr p : dlab (line p) = false -> let '(v, p') := port_in 1 PORT p in
    line p' = set_rx (drop 1 (rx (line p))) (line p) /\ (forall b l, rx (line p) = b :: l -> v = b);
  law_iir p : line (port_in 1 (PORT + 2) p).2 = line p
}.

Section line.
Context {P : Type} `{U : Uart P}.

Lemma outb_steps r v u : 0 <= r < 8 -> 0 <= v < 256 -> steps_of line (outb (PORT + r) v) tt u (uart_write tx_time r v u).
Proof. intros Hr Hv. apply steps_outb; [done|]. intros p <-. by apply law_uart_out. Qed.

(** ** Sending *)

Fixpoint ticks (n : nat) (u : uart) : uart := match n with O => u | S n' => ticks n' (tick u) end.

Lemma lsr_bits v : Z.testbit v 5 = negb (Z.land v 0x20 =? 0) /\ Z.testbit v 0 = negb (Z.land v 0x01 =? 0).
Proof. split; symmetry; [apply (truth_land_bit v 5); lia|apply (truth_land_bit v 0); lia]. Qed.

Definition sent_byte (a : Z) (u : uart) : uart :=
  MkUart (lcr u) (dll u) (dlm u) (ier u) (fcr u) (mcr u) (rx u) (a :: sent u) tx_time.

Lemma serial_putc_steps a : 0 <= a < 256 -> forall fuel u, (busy u <= fuel)%nat -> dlab u = false ->
  steps_of line (serial_putc fuel a) tt u (sent_byte a u).
Proof.
  intros Ha. assert (forall (u : uart), busy u = O -> tick u = u) as Ht by (intros [] E; cbn in *; by subst).
  induction fuel as [|fuel IH]; intros u Hb Hd c Hc; cbn [serial_putc]; unfold is_transmit_empty; pose proof (law_lsr (io c)) as HL;
    destruct (port_in 1 (PORT + 5) (io c)) as [v p] eqn:E; destruct HL as (L1 & L2 & _); rewrite Hc in *; rewrite (proj1 (lsr_bits v)) in L2.
  all: erewrite bind_step by (erewrite bind_step by (by apply inb_run); reflexivity).
  - assert (busy u = O) as Hz by lia. rewrite Hz in L2. cbn in L2. destruct (Z.land v 32 =? 0); [done|].
    rewrite (Ht u Hz) in L1. destruct (outb_steps 0 a u ltac:(lia) Ha (MkCpuIo p (if_flag c)) L1) as (c' & E1 & K & F).
    exists c'. split; [exact E1|]. split; [|done]. rewrite K. unfold uart_write. by rewrite Hd.
  - destruct (busy u) as [|n] eqn:Hz; cbn in L2; destruct (Z.land v 32 =? 0); try done.
    + rewrite (Ht u Hz) in L1. destruct (outb_steps 0 a u ltac:(lia) Ha (MkCpuIo p (if_flag c)) L1) as (c' & E1 & K & F).
      exists c'. split; [exact E1|]. split; [|done]. rewrite K. unfold uart_write. by rewrite Hd.
    + destruct (IH (tick u)) with (c := MkCpuIo p (if_flag c)) as (c' & E1 & K & F); [cbn; rewrite Hz; cbn; lia|done|exact L1|].
      exists c'. split; [exact E1|]. by rewrite K.
Qed.

Lemma serial_getc_steps b l fuel u : rx u = b :: l -> dlab u = false -> steps_of line (serial_getc fuel) b u (set_rx l (tick u)).
Proof.
  intros Hr Hd c Hc. assert (serial_getc fuel c = (v ← serial_received; if v =? 0 then match fuel with O => st_nofuel | S f => serial_getc f end else inb PORT) c) as ->
    by by destruct fuel.
  unfold serial_received. pose proof (law_lsr (io c)) as HL.
  destruct (port_in 1 (PORT + 5) (io c)) as [v p] eqn:E; destruct HL as (L1 & _ & L2 & _). rewrite Hc in *. rewrite (proj2 (lsr_bits v)), Hr in L2.
  erewrite bind_step by (erewrite bind_step by (by apply inb_run); reflexivity). cbn in L2. destruct (Z.land v 1 =? 0); [done|].
  pose proof (law_rbr p) as HR. rewrite L1 in HR. specialize (HR Hd). destruct (port_in 1 PORT p) as [w q] eqn:E2. destruct HR as [R1 R2].
  rewrite (R2 b l Hr) in E2. eexists. split; [by apply inb_run|]. cbn [io if_flag]. split; [|done]. rewrite R1. cbn [tick rx]. by rewrite Hr.
Qed.

Lemma serial_puts_steps fuel cs : Forall (fun a => 0 <= a < 256) cs -> forall u, (busy u <= fuel)%nat -> (tx_time <= fuel)%nat -> dlab u = false ->
  exists u', steps_of line (serial_puts fuel cs) tt u u' /\ sent u' = rev cs ++ sent u /\ dlab u' = false /\ (busy u' <= fuel)%nat /\
    rx u' = rx u.
Proof.
  induction 1 as [|a cs Ha _ IH]; intros u Hb Ht Hd; cbn [serial_puts rev].
  - exists u. split; [apply steps_ret|done].
  - destruct (IH (sent_byte a u) ltac:(cbn; lia) Ht Hd) as (u' & S' & E1 & E2 & E3 & E4). exists u'.
    split; [eapply steps_bind; [by apply serial_putc_steps|exact S']|]. split; [|done]. rewrite E1. cbn [sent sent_byte]. by rewrite <- app_assoc.
Qed.
End line.

Section set_up.
Context {P : Type} `{U : Uart P}.

Lemma inb_any {A} x (f : Z -> ST (cpu P) A) a u k k' : (forall p, line p = u -> line (port_in 1 x p).2 = k) ->
  (forall v, steps_of line (f v) a k k') -> steps_of line (inb x ≫= f) a u k'.
Proof.
  intros Hx Hf c Hc. specialize (Hx _ Hc). destruct (port_in 1 x (io c)) as [v p] eqn:E.
  destruct (Hf v (MkCpuIo p (if_flag c)) Hx) as (c' & E' & K & F). exists c'.
  by rewrite (bind_step _ _ _ _ _ (inb_run _ _ _ _ E)).
Qed.

(** 9600 baud, eight bits, no parity, one stop bit, no FIFO, no modem
    control. *)
Definition lined (u : uart) : uart := MkUart 3 12 0 (ier u) 0 0 (rx u) (sent u) (busy u).

Lemma serial_line_steps u : steps_of line serial_line tt u (lined u).
Proof.
  unfold serial_line. destruct u as [c l h i f m r s b].
  do 5 (eapply steps_bind; [apply outb_steps; done|]; cbn -[PORT]). exact (outb_steps 4 0 _ ltac:(lia) ltac:(lia)).
Qed.

Definition configured (u : uart) : uart := MkUart 3 12 0 1 0 0 (drop 1 (rx u)) (sent u) (busy u).

Lemma serial_configure_steps u : steps_of line serial_configure tt u (configured u).
Proof.
  unfold serial_configure. eapply steps_bind; [apply serial_line_steps|].
  eapply steps_bind; [apply (outb_steps 1 1); lia|]. cbn -[PORT]. eapply inb_any.
  { intros p Hp. rewrite law_iir. exact Hp. }
  intros _. replace (PORT + 0) with PORT by lia. eapply inb_any; [|intros v; apply steps_ret].
  intros p Hp. pose proof (law_rbr p ltac:(by rewrite Hp)) as HR. destruct (port_in 1 PORT p) as [v p']. cbn [snd].
  destruct HR as [-> _]. by rewrite Hp.
Qed.

(** ** The console *)

Lemma kputs_serial term_putc fuel cs (s : console P) : current_output s = OUTPUT_SERIAL ->
  kputs term_putc fuel cs s = zoom co_cpu set_co_cpu (serial_puts fuel cs) s.
Proof.
  revert s. induction cs as [|a cs IH]; intros s Hs; cbn [kputs serial_puts]; [by destruct s|].
  unfold mbind, st_bind. unfold kputc. rewrite (bind_step _ _ _ _ _ eq_refl), Hs. unfold zoom.
  destruct (serial_putc fuel a (co_cpu s)) as [[[] c]| | |] eqn:E; try done.
  rewrite IH by done. unfold zoom. cbn [co_cpu set_co_cpu]. by destruct (serial_puts fuel cs c) as [[[] c']| | |].
Qed.

(** What is printed goes out on the line.  Once the console has been sent
    to the serial port for the first time the line runs at 9600 baud with
    eight data bits, and then any sequence of bytes is sent in its order and
    without loss, whenever the transmitter gets free within the number of
    polls allowed for; the terminal is not used. *)
Theorem console_output_correct (s : console P) term_putc cs fuel (u := line (io (co_cpu s)))
    (Hi : serial_initialized s = false) (Hcs : Forall (fun a => 0 <= a < 256) cs)
    (Hb : (busy u <= fuel)%nat) (Ht : (tx_time <= fuel)%nat) :
  exists s', (_ ← set_output_mode OUTPUT_SERIAL; kputs term_putc fuel cs) s = Ret (tt, s') /\
    let u' := line (io (co_cpu s')) in
    sent u' = rev cs ++ sent u /\ rx u' = rx u /\ dlab u' = false /\
    (forall s1, set_output_mode OUTPUT_SERIAL s = Ret (tt, s1) -> let u1 := line (io (co_cpu s1)) in
       115200 / (dll u1 + 256 * dlm u1) = 9600 /\ lcr u1 = 3 /\ ier u1 = ier u /\ sent u1 = sent u).
Proof.
  destruct (serial_line_steps u (co_cpu s) eq_refl) as (c1 & E1 & K1 & _).
  set (s1 := MkConsole c1 OUTPUT_SERIAL true).
  assert (set_output_mode OUTPUT_SERIAL s = Ret (tt, s1)) as Em.
  { unfold set_output_mode. rewrite (bind_step _ _ _ _ _ eq_refl), (bind_step _ _ _ _ _ eq_refl). cbn [serial_initialized]. rewrite Hi.
    rewrite (bind_step _ _ _ _ _ (zoom_run co_cpu set_co_cpu _ (MkConsole (co_cpu s) OUTPUT_SERIAL false) _ _ E1)). done. }
  destruct (serial_puts_steps fuel cs Hcs (lined u)) as (u' & S' & H1 & H2 & H3 & H4); [exact Hb|exact Ht|done|].
  destruct (S' c1 K1) as (c2 & E2 & K2 & _). exists (set_co_cpu c2 s1). rewrite (bind_step _ _ _ _ _ Em), kputs_serial by done.
  split; [by apply zoom_run|]. cbn [co_cpu set_co_cpu]. rewrite K2. split; [exact H1|]. split; [exact H4|]. split; [exact H2|].
  intros s2 E. rewrite Em in E. injection E as <-. cbn [s1 co_cpu]. rewrite K1. done.
Qed.
End set_up.

(** ** The driver *)

(** The ports of the serial port and the memory of the interrupt controllers
    have nothing to do with each other. *)
Class SerialBoard (P : Type) `{BL : BoardLaws P} := {
  sb_uart :: Uart P;
  law_serial_in p r : 0 <= r < 8 -> let p' := (port_in 1 (PORT + r) p).2 in
    (forall a, phys_of p' a = phys_of p a) /\ (forall x, io_reg p' x = io_reg p x) /\ eois p' = eois p;
  law_serial_out p r v : 0 <= r < 8 -> let p' := port_out 1 (PORT + r) v p in
    (forall a, phys_of p' a = phys_of p a) /\ (forall x, io_reg p' x = io_reg p x) /\ eois p' = eois p;
  law_line_read a p : line (mm_read a p).2 = line p;
  law_line_write a v p : line (mm_write a v p) = line p
}.

Section driver.
Context {P : Type} `{SB : SerialBoard P}.
Implicit Types (p : P).

(** The I/O APIC and the mappings are those of [p0]. *)
Definition board_as p0 p : Prop :=
  (forall a, phys_of p a = phys_of p0 a) /\ (forall x, io_reg p x = io_reg p0 x) /\ eois p = eois p0.

Lemma board_inb p0 r : 0 <= r < 8 -> leaves (board_as p0) (inb (PORT + r)).
Proof.
  intros Hr. apply leaves_inb_at. intros p (A1 & A2 & A3). destruct (law_serial_in p r Hr) as (L1 & L2 & L3).
  split; [|split; [|congruence]]; intros x; [by rewrite L1|by rewrite L2].
Qed.
Lemma board_outb p0 r v : 0 <= r < 8 -> leaves (board_as p0) (outb (PORT + r) v).
Proof.
  intros Hr. apply leaves_outb_at. intros p w (A1 & A2 & A3). destruct (law_serial_out p r w Hr) as (L1 & L2 & L3).
  split; [|split; [|congruence]]; intros x; [by rewrite L1|by rewrite L2].
Qed.

Ltac board_tac := repeat first [apply board_inb; lia | apply board_outb; lia | apply leaves_ret | apply leaves_nofuel
  | apply leaves_if | apply leaves_bind; [|intros ?]].

Lemma board_configure p0 : leaves (board_as p0) serial_configure.
Proof. unfold serial_configure, serial_line. board_tac. Qed.
Lemma board_putc p0 fuel a : leaves (board_as p0) (serial_putc fuel a).
Proof.
  pose proof (board_outb p0 0 a ltac:(lia) : leaves _ (outb PORT a)) as H0.
  induction fuel as [|fuel IH]; cbn [serial_putc]; unfold is_transmit_empty; board_tac; done.
Qed.
Lemma board_puts p0 fuel cs : leaves (board_as p0) (serial_puts fuel cs).
Proof. induction cs as [|a cs IH]; cbn [serial_puts]; [apply leaves_ret|]. apply leaves_bind; [apply board_putc|done]. Qed.
Lemma board_getc p0 fuel : leaves (board_as p0) (serial_getc fuel).
Proof.
  pose proof (board_inb p0 0 ltac:(lia) : leaves _ (inb PORT)) as H0.
  induction fuel as [|fuel IH]; cbn [serial_getc]; unfold serial_received; board_tac; done.
Qed.

(** What reaches registers through memory leaves the line alone. *)
Definition line_kept {A} (m : ST (pic P) A) : Prop := forall s : pic P, ends m (fun _ s' => line (pic_p s') = line (pic_p s)) s.
Lemma kept_bind {A B} (m : ST (pic P) A) (f : A -> ST (pic P) B) : line_kept m -> (forall a, line_kept (f a)) -> line_kept (m ≫= f).
Proof. intros Hm Hf s. apply ends_bind. eapply ends_weaken; [apply Hm|]. intros a s' <-. apply Hf. Qed.
Lemma kept_ret {A} (a : A) : line_kept (mret a).
Proof. intros s. by apply ends_ret. Qed.
Lemma kept_reads {A} (f : pic P -> A) : line_kept (reads f).
Proof. intros s. by apply ends_reads. Qed.
Lemma kept_write a v : line_kept (pic_io (mmio_write a v)).
Proof. intros s. apply ends_zoom, ends_modify. apply law_line_write. Qed.
Lemma kept_read a : line_kept (pic_io (mmio_read a)).
Proof.
  intros s. apply ends_zoom. intros v c' E. unfold mmio_read, updates in E. pose proof (law_line_read a (io (pic_cpu s))) as HL.
  destruct (mm_read a (io (pic_cpu s))) as [v' p] eqn:Em. injection E as <- <-. exact HL.
Qed.
Lemma kept_if {A} (b : bool) (m1 m2 : ST (pic P) A) : line_kept m1 -> line_kept m2 -> line_kept (if b then m1 else m2).
Proof. by destruct b. Qed.

Ltac kept_tac := repeat first [apply kept_ret | apply kept_reads | apply kept_write | apply kept_read | apply kept_if
  | apply kept_bind; [|intros ?]].

Lemma kept_enable irq id : line_kept (ioapic_enable irq id).
Proof. unfold ioapic_enable, ioapic_write, ioapic_read. cbv zeta. kept_tac. Qed.
(** A computation on the line from a larger state. *)
Lemma pic_line {A} (m : ST (cpu P) A) a u' (s : pic P) : (forall p0, leaves (board_as p0) m) -> steps_of line m a (line (pic_p s)) u' ->
  exists p', pic_io m s = Ret (a, set_io p' s) /\ line p' = u' /\ board_as (pic_p s) p'.
Proof.
  intros Hl Hs. destruct (Hs (pic_cpu s) eq_refl) as ([p' f] & E & K & F). cbn in F. subst f. exists p'.
  split; [exact (zoom_run pic_cpu set_pic_cpu _ _ _ _ E)|]. split; [exact K|]. by apply (Hl (pic_p s) (pic_cpu s) ltac:(done) _ _ E).
Qed.

Lemma eoi_run (s : pic P) : window (pic_p s) (lapic s) lapic_at -> exists p', lapic_send_eoi s = Ret (tt, set_io p' s) /\
  line p' = line (pic_p s) /\ eois p' = eois (pic_p s) + 1.
Proof. intros Hw. eexists. split; [by apply lapic_send_eoi_run|]. split; [apply law_line_write|by apply eoi_counted]. Qed.

(** The serial driver's initialisation.  With room on the heap and a
    redirection entry for line 4 it answers 0; the port is set to 9600 baud,
    eight data bits and receive interrupts, what is being sent is not
    disturbed, of the bytes received the first is dropped; the device gets
    line 4 and an empty buffer of its own; and the entry of line 4 is unmasked
    with vector 36. *)
Theorem serial_init_correct (s : serial_port P) page o fuel (u := line (pic_p (sp_pic s)))
    (idx := ioapic_redtbl_index_for_irq (sp_pic s) IRQ_COM1)
    (Hh : head_at (sp_heap s) page o) (Ho : o + 164 <= 3840) (Hr : routable (sp_pic s) IRQ_COM1 0) :
  exists s', serial_init (S fuel) s = Ret (0, s') /\
    driver_data s' = page + o + 4 /\ sp_irq s' = 4 /\ sp_data s' = Some (MkSerial (replicate 128 0) 0 0 true) /\
    let u' := line (pic_p (sp_pic s')) in
    115200 / (dll u' + 256 * dlm u') = 9600 /\ lcr u' = 3 /\ ier u' = 1 /\ fcr u' = 0 /\
    sent u' = sent u /\ rx u' = drop 1 (rx u) /\
    redirection (pic_p (sp_pic s')) idx = (36 + 2 ^ 13, 0) /\
    (forall j, j <> idx -> redirection (pic_p (sp_pic s')) j = redirection (pic_p (sp_pic s)) j).
Proof.
  destruct (kcmalloc_head _ _ _ fuel SERIAL_DATA_SIZE Hh) as (h & E & Hh'); [done|lia|change (up16 (asked SERIAL_DATA_SIZE)) with 144; lia|].
  assert (0 < page /\ 16 <= o) as [? ?] by (destruct Hh as [(? & ? & ?) _ _ _ Hs]; unfold MIXED_PAGE_START in Hs; lia).
  destruct (pic_line serial_configure tt _ (sp_pic s) board_configure (serial_configure_steps u)) as (p1 & E1 & K1 & A1 & A2 & _).
  set (s1 := set_sp_heap h s).
  set (s2 := MkPort (set_io p1 (sp_pic s)) h (page + o + 4) (Some Serial.serial_init) IRQ_COM1 false (sp_ps s)).
  assert (routable (set_io p1 (sp_pic s)) IRQ_COM1 0) as Hr1.
  { destruct Hr as [R1 R2 R3 R4 R5 R6]. split; try done. by apply io_ready_map. }
  destruct (ioapic_enable_run _ _ _ Hr1) as (p2 & E2 & _ & X2 & Y2). pose proof (kept_enable IRQ_COM1 0 _ _ _ E2) as K2.
  change (ioapic_redtbl_index_for_irq (set_io p1 (sp_pic s)) IRQ_COM1) with idx in X2, Y2.
  exists (set_sp_pic (set_io p2 (set_io p1 (sp_pic s))) s2). split.
  { unfold serial_init. rewrite (bind_step _ _ _ _ _ (zoom_run sp_heap set_sp_heap _ s _ _ E)).
    destruct (Z.eqb_spec (page + o + 4) 0); [lia|]. fold s1. rewrite (bind_step _ _ _ _ _ (zoom_run sp_pic set_sp_pic _ s1 _ _ E1)).
    rewrite (bind_step _ _ _ _ _ eq_refl). fold s2. by rewrite (bind_step _ _ _ _ _ (zoom_run sp_pic set_sp_pic _ s2 _ _ E2)). }
  cbn [driver_data sp_irq sp_data sp_pic set_sp_pic s2]. do 3 (split; [done|]). cbv zeta. rewrite K2.
  change (pic_p (set_io p1 (sp_pic s))) with p1 in *. change (pic_p (set_io p2 (set_io p1 (sp_pic s)))) with p2. rewrite K1.
  do 6 (split; [done|]). split; [exact X2|]. intros j Hj. rewrite Y2 by done. unfold redirection. by rewrite !A2.
Qed.

(** The lock of the condition variable around [m], which leaves it alone. *)
Lemma locked_run s s1 (m : ST (serial_port P) unit) : spinlocks_enabled (sp_ps s) = true -> cv_locked s = false ->
  m (set_cv_locked true s) = Ret (tt, s1) -> cv_locked s1 = true -> spinlocks_enabled (sp_ps s1) = true ->
  forall k : ST (serial_port P) unit, (_ ← cv_lock; _ ← m; _ ← cv_unlock; k) s = k (set_cv_locked false s1).
Proof.
  intros Hon Hl Hm Hl1 Hon1 k. rewrite (bind_step cv_lock _ _ tt (set_cv_locked true s)).
  - rewrite (bind_step _ _ _ _ _ Hm). rewrite (bind_step cv_unlock _ _ tt (set_cv_locked false s1)); [done|].
    unfold cv_unlock. rewrite (bind_step _ _ _ _ _ eq_refl), Hon1. cbn [negb]. by rewrite (bind_step _ _ _ _ _ eq_refl), Hl1.
  - unfold cv_lock. rewrite (bind_step _ _ _ _ _ eq_refl), Hon. cbn [negb]. by rewrite (bind_step _ _ _ _ _ eq_refl), Hl.
Qed.

(** The processes that wait for the buffer are made runnable. *)
Lemma notify_run L e m (s : serial_port P) : proc_inv L e m m (sp_ps s) -> sched_ok (ss (sp_ps s)) -> curr (rq (ss (sp_ps s))) = m ->
  (forall q b, pcbs (sp_ps s) !! q = Some b -> q <> m -> locked b = false) ->
  exists t, cv_notify_all s = Ret (tt, set_sp_ps t s) /\ sched_ok (ss t) /\ spinlocks_enabled t = true /\
    forall q x, procs (ss (sp_ps s)) !! q = Some x -> exists x', procs (ss t) !! q = Some x' /\
      p_state x' = if decide (sleeps_on (sp_ps s) m (cv_channel s) q) then RUNNABLE else p_state x.
Proof.
  intros Hi Hok Hc Hf. destruct (proc_wakeup_correct L e m (sp_ps s) (cv_channel s) true Hi Hok Hc Hf) as (t & E & Ht & _ & _ & HW).
  exists t. split; [|split; [done|split]].
  - unfold cv_notify_all. rewrite (bind_step _ _ _ _ _ eq_refl). exact (zoom_run sp_ps set_sp_ps _ s _ _ E).
  - exact (iv_spin _ _ _ _ _ (holds_proc_wakeup L e m _ _ _ Hi _ _ E)).
  - intros q x Hx. destruct (HW q x Hx) as (x' & E1 & E2 & _). exists x'. split; [done|]. rewrite E2.
    assert (q ∈ L) as HL by (apply (iv_procs _ _ _ _ _ Hi); by eexists).
    apply decide_ext. rewrite list_elem_of_filter. naive_solver.
Qed.

(** C37: one interrupt of the serial port, with a byte received, the driver
    initialised, the buffer in any state, its lock free and the process table
    and the run queue well formed.  The handler takes exactly that byte from
    the line and passes it to the ring buffer.  A byte for which the buffer has
    room is stored and echoed, with a carriage return turned into a new line,
    and the processes that sleep on the buffer's condition variable, all of
    them and no other, become runnable; any other byte is lost without an echo
    and wakes nobody.  Either way the lock is free again and the interrupt is
    acknowledged once. *)
Theorem serial_irq_correct L e m (s : serial_port P) d b l fuel (u := line (pic_p (sp_pic s)))
    (c := if b =? 13 then 10 else b) (next := (write_index d + 1) mod SERIAL_BUFFER_LENGTH) (full := next =? read_index d)
    (Hd : sp_data s = Some d) (Hi : initialized d = true) (Hb : rx u = b :: l) (Hbr : 0 <= b < 256) (Hdlab : dlab u = false)
    (Hf : (busy u <= fuel)%nat) (Ht : (tx_time <= fuel)%nat) (Hw : window (pic_p (sp_pic s)) (lapic (sp_pic s)) lapic_at)
    (Hl : cv_locked s = false) (Hp : proc_inv L e m m (sp_ps s)) (Hok : sched_ok (ss (sp_ps s)))
    (Hcur : curr (rq (ss (sp_ps s))) = m) (Hfree : forall q b, pcbs (sp_ps s) !! q = Some b -> q <> m -> locked b = false) :
  exists s', serial_irq fuel s = Ret (tt, s') /\
    rx (line (pic_p (sp_pic s'))) = l /\
    sent (line (pic_p (sp_pic s'))) = (if full then [] else [c]) ++ sent u /\
    sp_data s' = Some (if full then d else MkSerial (zset (input_buffer d) (write_index d) c) (read_index d) next true) /\
    (if full then sp_ps s' = sp_ps s
     else sched_ok (ss (sp_ps s')) /\ forall q x, procs (ss (sp_ps s)) !! q = Some x -> exists x', procs (ss (sp_ps s')) !! q = Some x' /\
       p_state x' = if decide (sleeps_on (sp_ps s) m (cv_channel s) q) then RUNNABLE else p_state x) /\
    cv_locked s' = false /\ eois (pic_p (sp_pic s')) = eois (pic_p (sp_pic s)) + 1.
Proof.
  destruct (pic_line (serial_getc fuel) b _ (sp_pic s) (fun p0 => board_getc p0 fuel) (serial_getc_steps b l fuel u Hb Hdlab))
    as (p1 & E1 & K1 & A1 & A2 & A3).
  set (pic1 := set_io p1 (sp_pic s)). set (s1 := set_sp_pic pic1 s).
  assert (window (pic_p pic1) (lapic pic1) lapic_at) as Hw1 by (intros j Hj; rewrite <- (Hw j Hj); apply A1).
  unfold serial_irq. rewrite (bind_step _ _ _ _ _ eq_refl), Hd, Hi. cbn [negb].
  rewrite (bind_step _ _ _ _ _ (zoom_run sp_pic set_sp_pic _ s _ _ E1)). fold pic1 s1.
  unfold serial_irq_handler. rewrite Hi. cbn [negb]. fold c next full. pose proof (iv_spin _ _ _ _ _ Hp) as Hon.
  destruct full; cbn [negb].
  - destruct (eoi_run pic1 Hw1) as (p3 & E3 & K3 & X3). rewrite (locked_run s1 (set_cv_locked true s1) _ Hon Hl eq_refl eq_refl Hon).
    eexists. split; [exact (zoom_run sp_pic set_sp_pic _ (set_cv_locked false s1) _ _ E3)|].
    cbn [sp_pic set_sp_pic sp_data set_cv_locked cv_locked sp_ps]. change (pic_p (set_io p3 pic1)) with p3. rewrite K3, X3.
    change (pic_p pic1) with p1. rewrite K1. split_and!; try done. lia.
  - assert (0 <= c < 256) as Hc by (unfold c; destruct (b =? 13); lia).
    destruct (serial_puts_steps fuel [c] ltac:(by constructor) (set_rx l (tick u))) as (u' & S' & H1 & _ & _ & H4); [cbn; lia|done|done|].
    rewrite <- K1 in S'. change p1 with (pic_p pic1) in S'.
    destruct (pic_line (serial_puts fuel [c]) tt _ pic1 (fun p0 => board_puts p0 fuel [c]) S') as (p2 & E2 & K2 & B1 & B2 & B3).
    set (pic2 := set_io p2 pic1). assert (window (pic_p pic2) (lapic pic2) lapic_at) as Hw2 by (intros j Hj; rewrite <- (Hw1 j Hj); apply B1).
    destruct (eoi_run pic2 Hw2) as (p3 & E3 & K3 & X3).
    set (dn := Some (MkSerial (zset (input_buffer d) (write_index d) c) (read_index d) next true)).
    set (s2 := set_sp_pic pic2 (set_sp_data dn (set_cv_locked true s1))).
    destruct (notify_run L e m s2 Hp Hok Hcur Hfree) as (t & En & Hokt & Hont & Hpt).
    rewrite (locked_run s1 (set_sp_ps t s2) _ Hon Hl).
    + eexists. split; [exact (zoom_run sp_pic set_sp_pic _ (set_cv_locked false (set_sp_ps t s2)) _ _ E3)|].
      cbn [sp_pic set_sp_pic sp_data set_sp_data set_cv_locked cv_locked sp_ps set_sp_ps s2]. change (pic_p (set_io p3 pic2)) with p3.
      rewrite K3, X3. change (pic_p pic2) with p2. rewrite K2. change (pic_p pic1) with p1 in B3. rewrite H1, H4, B3, A3. by split_and!.
    + rewrite (bind_step _ _ _ _ _ eq_refl). by rewrite (bind_step _ _ _ _ _ (zoom_run sp_pic set_sp_pic _ (set_sp_data dn (set_cv_locked true s1)) _ _ E2)).
    + done.
    + done.
Qed.

(** Before the driver is initialised an interrupt is only acknowledged. *)
Lemma serial_irq_early (s : serial_port P) fuel : match sp_data s with Some d => initialized d = false | None => True end ->
  window (pic_p (sp_pic s)) (lapic (sp_pic s)) lapic_at ->
  exists p, serial_irq fuel s = Ret (tt, set_sp_pic (set_io p (sp_pic s)) s) /\ line p = line (pic_p (sp_pic s)) /\
    eois p = eois (pic_p (sp_pic s)) + 1.
Proof.
  intros Hd Hw. destruct (eoi_run (sp_pic s) Hw) as (p & E & K & X). exists p. split; [|done].
  unfold serial_irq. rewrite (bind_step _ _ _ _ _ eq_refl).
  destruct (sp_data s) as [d|]; [rewrite Hd; cbn [negb]|]; exact (zoom_run sp_pic set_sp_pic _ s _ _ E).
Qed.
End driver.
