(* ===== verification/SerialPortDemo.v ===== *)
(** * A board with a serial port

    Any board gets an 8250 on its eight ports; the board of ApicDemo.v with
    one is where the theorems of SerialPortFacts.v apply. *)
From S2P Require Import Prelude Mem PhysMem KMalloc KMallocFacts Vmm Sched SchedInv Files Proc ProcFacts ProcInv ProcDemo.
From S2P Require Import Drivers Ports Apic ApicFacts Serial SerialPort SerialPortFacts ApicDemo PciDemo.

(** The transmitter takes three polls for a byte. *)
Definition DEMO_TX : nat := 3.
Definition uart_in (r : Z) (u : uart) : Z * uart :=
  if r =? 5 then
    (Z.lor (if bool_decide (rx u = []) then 0 else 1) (if (busy u =? 0)%nat then 0x20 else 0), tick u)
  else if r =? 0 then (if dlab u then (dll u, u) else (hd 0 (rx u), set_rx (drop 1 (rx u)) u))
  else (0, u).
Definition serial_range (x : Z) : bool := (PORT <=? x) && (x <? PORT + 8).

Section on_board.
Context {B : Type} `{BL : BoardLaws B}.

Definition with_uart_ports : PortIO (B * uart) := {|
  port_in n x p := if serial_range x then let '(v, u) := uart_in (x - PORT) p.2 in (v, (p.1, u))
                   else let '(v, b) := port_in n x p.1 in (v, (b, p.2));
  port_out n x v p := if serial_range x then (p.1, uart_write DEMO_TX (x - PORT) v p.2) else (port_out n x v p.1, p.2)
|}.
Definition with_uart_msr : MsrIO (B * uart) := {|
  msr_in a p := msr_in a p.1; msr_out a lo hi p := (msr_out a lo hi p.1, p.2)
|}.
Definition on_fst {A} (m : ST (cpu B) A) : ST (cpu (B * uart)) A :=
  zoom (fun c => MkCpuIo (io c).1 (if_flag c)) (fun c c' => MkCpuIo (io c, (io c').2) (if_flag c)) m.
#[export] Instance with_uart_board : Board (B * uart) := {
  board_ports := with_uart_ports; board_msr := with_uart_msr;
  phys_of p := phys_of p.1; ram_byte p := ram_byte p.1;
  vmm_map_physical s e := on_fst (vmm_map_physical s e); vmm_init_lapic pa := on_fst (vmm_init_lapic pa);
  hhdm := hhdm; mm_read a p := let '(v, b) := mm_read a p.1 in (v, (b, p.2)); mm_write a v p := (mm_write a v p.1, p.2)
}.

#[export] Instance with_uart_laws : BoardLaws (B * uart).
Proof.
  refine {| ioapic_at := ioapic_at; lapic_at := lapic_at; io_entries := io_entries; firmware := firmware;
    io_sel p := io_sel p.1; io_reg p := io_reg p.1; lapic_reg p := lapic_reg p.1; imr p := imr p.1; eois p := eois p.1;
    maps_left p := maps_left p.1; lapic_unmapped p := lapic_unmapped p.1 |}.
  - intros p. exact (io_reg_range p.1).
  - intros p. exact (law_version p.1).
  - intros p. exact (law_select p.1).
  - intros [b k] va Hva. cbn. by rewrite (law_window_read b va Hva).
  - intros p. exact (law_window_write p.1).
  - intros [b k] x v Hx. cbn [port_out with_uart_board board_ports with_uart_ports].
    assert (serial_range x = false) as -> by (destruct Hx as [-> | ->]; done). exact (law_imr b x v Hx).
  - intros [b k] f s n H0 H1 Hl. destruct (law_map b f s n H0 H1 Hl) as (va & p' & E & V1 & V2 & V3 & V4).
    exists va, (p', k). split; [|done]. exact (zoom_run _ _ _ (MkCpuIo (b, k) f) va _ E).
  - intros [b k] f H0 Hu. destruct (law_map_lapic b f H0 Hu) as (p' & E & V). exists (p', k). split; [|done].
    exact (zoom_run _ _ _ (MkCpuIo (b, k) f) tt _ E).
  - intros [b k] va j Hw Hj Hm. destruct (law_lapic_read b va j Hw Hj Hm) as [v E]. exists v. cbn. by rewrite E.
  - intros p. exact (law_lapic_write p.1).
  - intros p. exact (law_apic_base p.1).
Defined.

#[export] Instance with_uart_uart : Uart (B * uart).
Proof.
  refine {| line p := p.2; tx_time := DEMO_TX |}.
  - intros [b u] r v Hr. cbn [port_out with_uart_board board_ports with_uart_ports]. unfold serial_range.
    destruct (Z.leb_spec PORT (PORT + r)), (Z.ltb_spec (PORT + r) (PORT + 8)); try lia. cbn [andb snd].
    by replace (PORT + r - PORT) with r by lia.
  - intros [b u]. cbn. split; [done|]. destruct (bool_decide (rx u = [])), (busy u) as [|n]; done.
  - intros [b u] Hd. cbn in Hd |- *. unfold uart_in. cbn. rewrite Hd. split; [done|]. by intros x l ->.
  - intros [b u]. done.
Defined.

#[export] Instance with_uart : SerialBoard (B * uart).
Proof.
  refine {| sb_uart := with_uart_uart |}.
  all: assert (forall r, 0 <= r < 8 -> serial_range (PORT + r) = true) as HR
    by (intros r Hr; unfold serial_range; destruct (Z.leb_spec PORT (PORT + r)), (Z.ltb_spec (PORT + r) (PORT + 8)); lia || done).
  - intros [b u] r Hr. cbn [port_in with_uart_board board_ports with_uart_ports]. rewrite HR by done. cbn [fst snd].
    by destruct (uart_in _ u).
  - intros [b u] r v Hr. cbn [port_out with_uart_board board_ports with_uart_ports]. by rewrite HR.
  - intros a [b u]. cbn. by destruct (mm_read a b).
  - done.
Defined.
End on_board.

(** As the firmware leaves it: 115200 baud, one byte waiting. *)
Definition demo_uart : uart := MkUart 3 1 0 0 0 3 [65] [] 0.
Definition demo_board_pic : pic (board * uart) :=
  MkPicState (MkCpuIo (io (pic_cpu demo_pic), demo_uart) false) (WINDOW + IOAPIC) 0 0 0 (WINDOW + LAPIC).
Definition demo_port : serial_port (board * uart) := MkPort demo_board_pic demo_heap 0 None 0 false pair_state.

(** Behind the initialisation, with a process that waits for input. *)
Definition demo_ready_port : serial_port (board * uart) :=
  MkPort demo_board_pic demo_heap 0x5014 (Some Serial.serial_init) 4 false (pair_waiting (0x5014 + 132)).

Lemma serial_init_correct_witness : exists s' : serial_port (board * uart),
  serial_init 1 demo_port = Ret (0, s') /\ redirection (pic_p (sp_pic s')) 4 = (36 + 2 ^ 13, 0).
Proof.
  destruct (serial_init_correct demo_port demo_page 16 0) as (s' & E & _ & _ & _ & _ & _ & _ & _ & _ & _ & R & _).
  - apply demo_head.
  - lia.
  - split; [by vm_compute|by vm_compute|done|lia|done|by vm_compute].
  - exists s'. split; [exact E|exact R].
Defined.

Lemma console_output_correct_witness : exists s' : console (board * uart),
  (_ ← set_output_mode OUTPUT_SERIAL; kputs (fun _ => mret tt) 3 [104; 105]) (MkConsole (pic_cpu (sp_pic demo_port)) OUTPUT_FRAMEBUFFER false) =
    Ret (tt, s') /\ sent (line (io (co_cpu s'))) = [105; 104].
Proof.
  destruct (console_output_correct (MkConsole (pic_cpu (sp_pic demo_port)) OUTPUT_FRAMEBUFFER false) (fun _ => mret tt) [104; 105] 3)
    as (s' & E & HS & _); [done|repeat constructor; lia|cbn; lia|cbn; unfold DEMO_TX; lia|].
  exists s'. split; [exact E|exact HS].
Defined.

Lemma serial_irq_correct_witness : exists s' : serial_port (board * uart),
  serial_irq 3 demo_ready_port = Ret (tt, s') /\ sent (line (pic_p (sp_pic s'))) = [65] /\
  p_state <$> procs (ss (sp_ps s')) !! pair_b = Some RUNNABLE /\ eois (pic_p (sp_pic s')) = 1.
Proof.
  destruct (pair_waiting_ready (0x5014 + 132)) as (HI & HS & HL).
  assert (window (pic_p (sp_pic demo_ready_port)) (lapic (sp_pic demo_ready_port)) lapic_at) as HW.
  { intros k Hk. cbn. destruct (Z.leb_spec WINDOW (WINDOW + LAPIC + k)); [f_equal; unfold WINDOW, LAPIC; cbn; lia|unfold LAPIC in *; lia]. }
  assert (busy (line (pic_p (sp_pic demo_ready_port))) <= 3)%nat as Hb by (cbn; lia).
  assert (tx_time <= 3)%nat as Ht by done.
  destruct (serial_irq_correct [pair_a; pair_b] 0 0 demo_ready_port Serial.serial_init 65 [] 3) as (s' & E & _ & H2 & _ & [_ H3] & _ & H5);
    try done.
  exists s'. split; [exact E|]. split; [exact H2|]. split; [|exact H5].
  destruct (H3 pair_b (MkProc SLEEPING (0x5014 + 132) zero_entity) ltac:(vm_compute; reflexivity)) as (x & -> & Hx).
  cbn [fmap option_fmap option_map]. rewrite Hx. vm_compute. reflexivity.
Defined.
