(* ===== verification/Kernel.v ===== *)
(** * Odds and ends of the start-up (kernel.c, common/power.c)

    The random numbers, the self-test of the heap and the power-off.  Log
    output is left out. *)
From S2P Require Import Prelude Mem PhysMem KMalloc CLib Ports.

(** ** Random numbers: [rng_state] *)

Definition RNG_SEED : Z := 2463534242.
Definition srand_custom (seed : Z) : Z := if seed =? 0 then 1 else seed.
(** The number is the new state. *)
Definition rand_custom (x : Z) : Z :=
  let x := Z.lxor x (wrap 32 (Z.shiftl x 13)) in
  let x := Z.lxor x (Z.shiftr x 17) in
  Z.lxor x (wrap 32 (Z.shiftl x 5)).
(** [None]: a division by 0. *)
Definition rand_range (max x : Z) : option (Z * Z) :=
  let x := rand_custom x in if max =? 0 then None else Some (x mod max, x).

(** ** The self-test of the heap *)

Definition on_ram (f : mem -> outcome mem) : ST kheap unit := fun h =>
  match f (ram (phys h)) with
  | Ret m => Ret (tt, set_phys h (set_ram (phys h) m))
  | Panic msg => Panic msg
  | Undef => Undef
  | NoFuel => NoFuel
  end.

Definition km_test (fuel : nat) : ST kheap unit :=
  a ← kcmalloc fuel 10;
  b ← kcmalloc fuel 12;
  c ← kcmalloc fuel 256;
  d ← kcmalloc fuel 4096;
  _ ← on_ram (memset_type fuel 1 a 0x70 10);
  _ ← on_ram (memset_type fuel 1 b 0x47 12);
  _ ← on_ram (memset_type fuel 8 b 0x12 256);
  _ ← on_ram (memset_type fuel 1 b 0x23 4096);
  _ ← kmfree a;
  _ ← kmfree b;
  _ ← kmfree c;
  kmfree d.

(** ** Power *)

Section power.
Context {P : Type} `{PortIO P}.

Definition attempt_acpi_shutdown : ST (cpu P) unit :=
  _ ← outw 0x604 0x2000;
  _ ← outw 0xB004 0x2000;
  _ ← outw 0x4004 0x3400;
  outw 0x600 0x2000.
(** The machine halts afterwards if it is still on. *)
Definition system_shutdown : ST (cpu P) unit := _ ← cli; attempt_acpi_shutdown.
End power.

(** ** The generator *)

Lemma testbit_wrap_shl x k i : 0 <= k -> 0 <= i < 32 -> Z.testbit (wrap 32 (Z.shiftl x k)) i = Z.testbit x (i - k).
Proof. intros Hk Hi. unfold wrap. rewrite Z.mod_pow2_bits_low, Z.shiftl_spec by lia. done. Qed.

Lemma testbit_high x i : 0 <= x < 2 ^ 32 -> 32 <= i -> Z.testbit x i = false.
Proof. intros Hx Hi. destruct (Z.eq_dec x 0) as [->|]; [apply Z.bits_0|]. apply Z.bits_above_log2; [lia|]. assert (Z.log2 x < 32) by (apply Z.log2_lt_pow2; lia). lia. Qed.

Lemma bits32_inj x y : 0 <= x < 2 ^ 32 -> 0 <= y < 2 ^ 32 -> (forall i, 0 <= i < 32 -> Z.testbit x i = Z.testbit y i) -> x = y.
Proof.
  intros Hx Hy H. apply Z.bits_inj'. intros i Hi. destruct (Z.lt_ge_cases i 32); [by apply H|].
  by rewrite !testbit_high.
Qed.

Definition shl_step (k x : Z) : Z := Z.lxor x (wrap 32 (Z.shiftl x k)).
Definition shr_step (k x : Z) : Z := Z.lxor x (Z.shiftr x k).

Lemma lxor_range32 x y : 0 <= x < 2 ^ 32 -> 0 <= y < 2 ^ 32 -> 0 <= Z.lxor x y < 2 ^ 32.
Proof.
  intros Hx Hy. assert (0 <= Z.lxor x y) by (apply Z.lxor_nonneg; lia). split; [done|].
  destruct (Z.lt_ge_cases (Z.lxor x y) (2 ^ 32)) as [|G]; [done|].
  assert (32 <= Z.log2 (Z.lxor x y)) as HL by (apply Z.log2_le_pow2; lia).
  pose proof (Z.bit_log2 (Z.lxor x y) ltac:(lia)) as HB. rewrite Z.lxor_spec, !testbit_high in HB by done. done.
Qed.
Lemma shl_range k x : 0 <= x < 2 ^ 32 -> 0 <= shl_step k x < 2 ^ 32.
Proof. intros Hx. apply lxor_range32; [done|]. apply (wrap_range 32). lia. Qed.
Lemma shr_range k x : 0 <= k -> 0 <= x < 2 ^ 32 -> 0 <= shr_step k x < 2 ^ 32.
Proof.
  intros Hk Hx. apply lxor_range32; [done|]. rewrite Z.shiftr_div_pow2 by done. pose proof (Z.pow_pos_nonneg 2 k).
  split; [apply Z.div_pos; lia|]. apply Z.div_lt_upper_bound; nia.
Qed.

Lemma shl_inj k x y : 0 < k -> 0 <= x < 2 ^ 32 -> 0 <= y < 2 ^ 32 -> shl_step k x = shl_step k y -> x = y.
Proof.
  intros Hk Hx Hy HE. apply bits32_inj; [done|done|].
  assert (forall n i, 0 <= i < 32 -> i < Z.of_nat n -> Z.testbit x i = Z.testbit y i) as HI; [|intros i Hi; apply (HI 32%nat); lia].
  induction n as [|n IH]; intros i Hi Hn; [lia|].
  assert (Z.testbit (shl_step k x) i = Z.testbit (shl_step k y) i) as Hb by by rewrite HE.
  unfold shl_step in Hb. rewrite !Z.lxor_spec, !testbit_wrap_shl in Hb by lia.
  assert (Z.testbit x (i - k) = Z.testbit y (i - k)) as Hp.
  { destruct (Z.lt_ge_cases (i - k) 0); [by rewrite !Z.testbit_neg_r|]. apply IH; lia. }
  rewrite Hp in Hb. destruct (Z.testbit x i), (Z.testbit y i), (Z.testbit y (i - k)); done.
Qed.

Lemma shr_inj k x y : 0 < k -> 0 <= x < 2 ^ 32 -> 0 <= y < 2 ^ 32 -> shr_step k x = shr_step k y -> x = y.
Proof.
  intros Hk Hx Hy HE. apply bits32_inj; [done|done|].
  assert (forall n i, 0 <= i < 32 -> 32 - i <= Z.of_nat n -> Z.testbit x i = Z.testbit y i) as HI; [|intros i Hi; apply (HI 32%nat); lia].
  induction n as [|n IH]; intros i Hi Hn; [lia|].
  assert (Z.testbit (shr_step k x) i = Z.testbit (shr_step k y) i) as Hb by by rewrite HE.
  unfold shr_step in Hb. rewrite !Z.lxor_spec, !Z.shiftr_spec in Hb by lia.
  assert (Z.testbit x (i + k) = Z.testbit y (i + k)) as Hp.
  { destruct (Z.lt_ge_cases (i + k) 32); [apply IH; lia|by rewrite !testbit_high]. }
  rewrite Hp in Hb. destruct (Z.testbit x i), (Z.testbit y i), (Z.testbit y (i + k)); done.
Qed.

Lemma rand_custom_steps x : rand_custom x = shl_step 5 (shr_step 17 (shl_step 13 x)).
Proof. done. Qed.
Lemma rand_range32 x : 0 <= x < 2 ^ 32 -> 0 <= rand_custom x < 2 ^ 32.
Proof. intros Hx. rewrite rand_custom_steps. apply shl_range, shr_range, shl_range; [lia|done]. Qed.
Lemma rand_inj x y : 0 <= x < 2 ^ 32 -> 0 <= y < 2 ^ 32 -> rand_custom x = rand_custom y -> x = y.
Proof.
  intros Hx Hy. rewrite !rand_custom_steps. intros HE. apply shl_inj in HE; [|lia|apply shr_range, shl_range; [lia|done]..].
  apply shr_inj in HE; [|lia|by apply shl_range..]. by apply shl_inj in HE.
Qed.

Fixpoint rand_from (n : nat) (x : Z) : Z := match n with O => x | S n' => rand_from n' (rand_custom x) end.

(** The random numbers.  From any seed all numbers are 32-bit and never 0,
    where the generator would stay; different states have different
    successors, so no state is entered from two sides; and [rand_range] stays
    below its bound. *)
Theorem rand_custom_correct seed (Hs : 0 <= seed < 2 ^ 32) :
  (forall n, 0 < rand_from n (srand_custom seed) < 2 ^ 32) /\
  (forall x y, 0 <= x < 2 ^ 32 -> 0 <= y < 2 ^ 32 -> rand_custom x = rand_custom y -> x = y) /\
  (forall n max, 0 < max -> exists r x, rand_range max (rand_from n (srand_custom seed)) = Some (r, x) /\ 0 <= r < max /\
     x = rand_from (S n) (srand_custom seed)).
Proof.
  assert (forall x, 0 < x < 2 ^ 32 -> 0 < rand_custom x < 2 ^ 32) as Hstep.
  { intros x Hx. pose proof (rand_range32 x ltac:(lia)). assert (rand_custom x <> 0); [|lia].
    intros E. assert (x = 0) by (apply rand_inj; [lia|lia|by rewrite E]). lia. }
  assert (forall n x, rand_custom (rand_from n x) = rand_from (S n) x) as Hcomm by (induction n as [|n IH]; intros x; [done|apply IH]).
  assert (forall n x, 0 < x < 2 ^ 32 -> 0 < rand_from n x < 2 ^ 32) as Hall.
  { induction n as [|n IH]; intros x Hx; [done|]. by apply IH, Hstep. }
  split; [|split; [apply rand_inj|]].
  - intros n. apply Hall. unfold srand_custom. destruct (Z.eqb_spec seed 0); lia.
  - intros n max Hm. unfold rand_range. destruct (Z.eqb_spec max 0); [lia|]. eexists _, _. split; [reflexivity|].
    split; [apply Z.mod_pos_bound; lia|apply Hcomm].
Qed.
Lemma rand_custom_correct_witness : 0 < rand_from 3 (srand_custom RNG_SEED) < 2 ^ 32.
Proof. exact (proj1 (rand_custom_correct RNG_SEED ltac:(unfold RNG_SEED; lia)) 3%nat). Defined.

(** ** What the self-test of the heap does to it *)

(** Free pages at 1052672 and 1056768 and a region above. *)
Definition boot_listed : kheap :=
  MkHeap (MkPmem (store64 zeros 1052672 1056768) 1052672 [MkRegion 16384 28672] 1 true 1048576 28672) 0 0 (replicate 8 0).
(** A region only, as the boot loader leaves memory. *)
Definition boot_region : kheap := MkHeap (MkPmem zeros 0 [MkRegion 16384 65536] 1 true 1048576 65536) 0 0 (replicate 8 0).

Fixpoint kallocs (n : nat) (s : pmem) : list Z :=
  match n with O => [] | S n' => let '(p, s') := kalloc s in p :: kallocs n' s' end.

(** The test fills 2048 and then 4096 bytes behind the block of 12 bytes that
    starts 40 bytes into its page.  Where the next page is free, its link is
    overwritten: the fourth page handed out afterwards is
    0x2323232323232323. *)
Lemma km_test_breaks_free_list : match km_test 5 boot_listed with
  | Ret (_, h) => kallocs 4 (phys h) = [1069056; 1064960; 1056768; 0x2323232323232323]
  | _ => False
  end.
Proof. vm_compute. reflexivity. Qed.

(** Where the next page is the first of the block of 4096 bytes, the header
    of that is overwritten, so that [kmfree] gives back one of its two pages:
    the page 1073152 is lost. *)
Lemma km_test_loses_page : match km_test 5 boot_region with
  | Ret (_, h) => kallocs 11 (phys h) = 1069056 :: ((fun i => 1077248 + 4096 * i) <$> seqZ 0 9) ++ [0]
  | _ => False
  end.
Proof. vm_compute. reflexivity. Qed.
