(* ===== verification/Ps2Irq.v ===== *)
(** * Interrupts of the keyboard and the mouse (drv_ps2.c)

    The handlers of Ps2.v with the ports they read and the end of the
    interrupt.  [ps2_irq_correct]: one interrupt moves one byte from the
    controller to the handler of its device. *)
From S2P Require Import Prelude Mem Ports Drivers Apic ApicFacts Ps2 Ps2Ctl Ps2CtlFacts.

(** [pd_out]: the bytes given to the console so far. *)
Record ps2_driver (P : Type) := MkPs2Driver {
  pd_pic : pic P; pd_keyboard : keyboard; pd_mouse : mouse; pd_out : list Z
}.
Arguments MkPs2Driver {P}. Arguments pd_pic {P}. Arguments pd_keyboard {P}. Arguments pd_mouse {P}. Arguments pd_out {P}.

Section driver.
Context {P : Type} `{Board P}.

Definition set_pd_pic (x : pic P) (s : ps2_driver P) : ps2_driver P := MkPs2Driver x (pd_keyboard s) (pd_mouse s) (pd_out s).
Definition on_pic {A} (m : ST (pic P) A) : ST (ps2_driver P) A := zoom pd_pic set_pd_pic m.
Definition from_outcome {S A} (m : outcome A) : ST S A := fun s =>
  match m with Ret a => Ret (a, s) | Panic msg => Panic msg | Undef => Undef | NoFuel => NoFuel end.

Definition keyboard_interrupt : ST (ps2_driver P) unit :=
  status ← on_pic (pic_io (inb PS2_STATUS_PORT));
  if negb (truth (Z.land status 0x01)) then on_pic lapic_send_eoi
  else
    scancode ← on_pic (pic_io (inb PS2_DATA_PORT));
    _ ← on_pic lapic_send_eoi;
    k ← reads pd_keyboard;
    '(k, out) ← from_outcome (keyboard_handler k scancode);
    st_modify (fun s => MkPs2Driver (pd_pic s) k (pd_mouse s) (pd_out s ++ out)).

Definition mouse_interrupt : ST (ps2_driver P) unit :=
  status_before ← on_pic (pic_io (inb PS2_STATUS_PORT));
  if negb (truth (Z.land status_before 0x01)) then on_pic lapic_send_eoi
  else
    data ← on_pic (pic_io (inb PS2_DATA_PORT));
    m ← reads pd_mouse;
    m ← from_outcome (mouse_handler m data);
    _ ← st_modify (fun s => MkPs2Driver (pd_pic s) (pd_keyboard s) m (pd_out s));
    on_pic lapic_send_eoi.

(** [irq]: the line in the device's information block. *)
Definition ps2_irq_handler (irq : Z) : ST (ps2_driver P) unit :=
  if irq =? 1 then keyboard_interrupt else if irq =? 12 then mouse_interrupt else mret tt.
End driver.

Section facts.
Context {P : Type} `{PB : Ps2Board P}.

Definition pd_ctl (s : ps2_driver P) : i8042 := ctl (pic_p (pd_pic s)).

(** Reading the status and the data port. *)
Lemma status_run (s : ps2_driver P) : exists v p', on_pic (pic_io (inb PS2_STATUS_PORT)) s = Ret (v, set_pd_pic (set_io p' (pd_pic s)) s) /\
  truth (Z.land v 0x01) = negb (bool_decide (obuf (pd_ctl s) = [])) /\ ctl p' = pd_ctl s /\
  forall a, phys_of p' a = phys_of (pic_p (pd_pic s)) a.
Proof.
  pose proof (law_status (pic_p (pd_pic s))) as HL. destruct (law_ps2_in (pic_p (pd_pic s)) PS2_STATUS_PORT ltac:(by right)) as [L4 _].
  destruct (port_in 1 PS2_STATUS_PORT (pic_p (pd_pic s))) as [v p'] eqn:E. destruct HL as (L1 & L2 & _). cbn [snd] in L4.
  exists v, p'. split; [|split; [by rewrite <- status_bit0, L2|done]].
  exact (zoom_run pd_pic set_pd_pic _ s _ _ (zoom_run pic_cpu set_pic_cpu _ _ _ _ (inb_run _ _ _ _ E))).
Qed.
Lemma data_run (s : ps2_driver P) b r : obuf (pd_ctl s) = b :: r -> exists p',
  on_pic (pic_io (inb PS2_DATA_PORT)) s = Ret (b, set_pd_pic (set_io p' (pd_pic s)) s) /\ ctl p' = set_obuf r (pd_ctl s) /\
  forall a, phys_of p' a = phys_of (pic_p (pd_pic s)) a.
Proof.
  intros Hb. pose proof (law_read (pic_p (pd_pic s)) b r Hb) as HL. destruct (law_ps2_in (pic_p (pd_pic s)) PS2_DATA_PORT ltac:(by left)) as [L4 _].
  destruct (port_in 1 PS2_DATA_PORT (pic_p (pd_pic s))) as [v p'] eqn:E. destruct HL as [-> L]. cbn [snd] in L4. exists p'. split; [|done].
  exact (zoom_run pd_pic set_pd_pic _ s _ _ (zoom_run pic_cpu set_pic_cpu _ _ _ _ (inb_run _ _ _ _ E))).
Qed.
Lemma eoi_ps2_run (s : ps2_driver P) : window (pic_p (pd_pic s)) (lapic (pd_pic s)) lapic_at -> exists p',
  on_pic lapic_send_eoi s = Ret (tt, set_pd_pic (set_io p' (pd_pic s)) s) /\ ctl p' = pd_ctl s.
Proof.
  intros Hw. eexists. split; [apply (zoom_run pd_pic set_pd_pic), lapic_send_eoi_run, Hw|]. apply law_ctl_write.
Qed.

(** One interrupt of the keyboard or the mouse.  With no byte waiting the
    handler only acknowledges the interrupt.  Otherwise it takes the first
    byte from the controller and leaves the rest there; on line 1 the byte is
    decoded by the keyboard's state machine, whose characters go to the
    console, and on line 12 it is added to the mouse's packet, the other
    device being left alone; where the state machine indexes outside of its
    tables, so does the handler. *)
Theorem ps2_irq_correct (s : ps2_driver P) (Hw : window (pic_p (pd_pic s)) (lapic (pd_pic s)) lapic_at) :
  (obuf (pd_ctl s) = [] -> forall irq, irq = 1 \/ irq = 12 -> exists s', ps2_irq_handler irq s = Ret (tt, s') /\
     pd_keyboard s' = pd_keyboard s /\ pd_mouse s' = pd_mouse s /\ pd_out s' = pd_out s /\ pd_ctl s' = pd_ctl s) /\
  (forall b r, obuf (pd_ctl s) = b :: r ->
     match keyboard_handler (pd_keyboard s) b with
     | Ret (k, out) => exists s', ps2_irq_handler 1 s = Ret (tt, s') /\ pd_keyboard s' = k /\ pd_mouse s' = pd_mouse s /\
         pd_out s' = pd_out s ++ out /\ pd_ctl s' = set_obuf r (pd_ctl s)
     | Undef => ps2_irq_handler 1 s = Undef
     | _ => True
     end /\
     match mouse_handler (pd_mouse s) b with
     | Ret m => exists s', ps2_irq_handler 12 s = Ret (tt, s') /\ pd_keyboard s' = pd_keyboard s /\ pd_mouse s' = m /\
         pd_out s' = pd_out s /\ pd_ctl s' = set_obuf r (pd_ctl s)
     | Undef => ps2_irq_handler 12 s = Undef
     | _ => True
     end).
Proof.
  destruct (status_run s) as (v & p1 & E1 & B1 & K1 & M1). set (s1 := set_pd_pic (set_io p1 (pd_pic s)) s) in *.
  assert (window (pic_p (pd_pic s1)) (lapic (pd_pic s1)) lapic_at) as Hw1 by (intros j Hj; rewrite <- (Hw j Hj); apply M1).
  assert (pd_ctl s1 = pd_ctl s) as C1 by exact K1. split.
  - intros Hb. rewrite Hb in B1. cbn in B1. destruct (eoi_ps2_run s1 Hw1) as (p2 & E2 & K2).
    intros irq Hi. eexists. split.
    { unfold ps2_irq_handler, keyboard_interrupt, mouse_interrupt.
      destruct Hi as [-> | ->]; cbn [Z.eqb Pos.eqb]; rewrite (bind_step _ _ _ _ _ E1), B1; cbn [negb]; exact E2. }
    do 3 (split; [done|]). by rewrite <- C1.
  - intros b r Hb. rewrite Hb in B1. cbn in B1. rewrite <- C1 in Hb. destruct (data_run s1 b r Hb) as (p2 & E2 & K2 & M2).
    set (s2 := set_pd_pic (set_io p2 (pd_pic s1)) s1) in *. rewrite C1 in K2.
    assert (window (pic_p (pd_pic s2)) (lapic (pd_pic s2)) lapic_at) as Hw2 by (intros j Hj; rewrite <- (Hw1 j Hj); apply M2). split.
    + destruct (eoi_ps2_run s2 Hw2) as (p3 & E3 & K3).
      assert (ps2_irq_handler 1 s = ('(k, out) ← from_outcome (keyboard_handler (pd_keyboard s) b);
          st_modify (fun s => MkPs2Driver (pd_pic s) k (pd_mouse s) (pd_out s ++ out))) (set_pd_pic (set_io p3 (pd_pic s2)) s2)) as ->.
      { unfold ps2_irq_handler, keyboard_interrupt. cbn [Z.eqb Pos.eqb]. rewrite (bind_step _ _ _ _ _ E1), B1. cbn [negb].
        rewrite (bind_step _ _ _ _ _ E2), (bind_step _ _ _ _ _ E3). by rewrite (bind_step _ _ _ _ _ eq_refl). }
      destruct (keyboard_handler (pd_keyboard s) b) as [[k out]| | |]; try done. eexists. split; [reflexivity|].
      do 3 (split; [done|]). change (ctl p3 = set_obuf r (pd_ctl s)). rewrite K3. exact K2.
    + assert (ps2_irq_handler 12 s = (m ← from_outcome (mouse_handler (pd_mouse s) b);
          _ ← st_modify (fun s => MkPs2Driver (pd_pic s) (pd_keyboard s) m (pd_out s)); on_pic lapic_send_eoi) s2) as ->.
      { unfold ps2_irq_handler, mouse_interrupt. cbn [Z.eqb Pos.eqb]. rewrite (bind_step _ _ _ _ _ E1), B1. cbn [negb].
        rewrite (bind_step _ _ _ _ _ E2). by rewrite (bind_step _ _ _ _ _ eq_refl). }
      destruct (mouse_handler (pd_mouse s) b) as [m| | |]; try done.
      set (s3 := MkPs2Driver (pd_pic s2) (pd_keyboard s2) m (pd_out s2)).
      destruct (eoi_ps2_run s3 Hw2) as (p3 & E3 & K3). eexists. split; [exact E3|]. do 3 (split; [done|]).
      change (ctl p3 = set_obuf r (pd_ctl s)). rewrite K3. exact K2.
Qed.
End facts.
