(* ===== verification/Ps2IrqDemo.v ===== *)
(** * An interrupt of the keyboard on the board of Ps2CtlDemo.v *)
From S2P Require Import Prelude Mem Ports Drivers Apic ApicFacts Ps2 Ps2Ctl Ps2CtlFacts Ps2Irq ApicDemo PciDemo Ps2CtlDemo.

(** The controller of Ps2CtlDemo.v holds the make code of the key A. *)
Definition demo_ps2 : ps2_driver (board * i8042) :=
  MkPs2Driver (set_lapic (WINDOW + LAPIC) (pm_pic demo_machine)) (demo_keyboard 2 false) (MkMouse 0 [0; 0; 0]) [].

Lemma ps2_irq_correct_witness : exists s' : ps2_driver (board * i8042),
  ps2_irq_handler 1 demo_ps2 = Ret (tt, s') /\ pd_out s' = [97] /\ obuf (pd_ctl s') = [].
Proof.
  destruct (ps2_irq_correct demo_ps2) as [_ H].
  - intros k Hk. cbn. destruct (Z.leb_spec WINDOW (WINDOW + LAPIC + k)); [f_equal; unfold WINDOW, LAPIC; cbn; lia|unfold LAPIC in *; lia].
  - destruct (H 0x1C [] eq_refl) as [Hk _]. destruct Hk as (s' & E & _ & _ & Ho & Hc).
    exists s'. split; [exact E|]. split; [exact Ho|]. by rewrite Hc.
Defined.
