(* ===== verification/Context.v ===== *)
(** * Switching between processes (context.S, the timer stub of
      cpu/isr_stubs.S, and the structures of proc.h and scheduler.h they use)

    The two structures are words by offset, laid out as the C declarations
    say; the assembly is the list of its moves, with the offsets it writes.
    That the two agree is what the theorems are about.  The stack is only
    what the stub puts there.  Moves whose registers the C code above does
    not look at (the argument registers of the two functions) are values like
    any others. *)
From S2P Require Import Prelude.

(** ** Registers and structures *)

Inductive reg := RAX | RBX | RCX | RDX | RSI | RDI | RBP | RSP | R8 | R9 | R10 | R11 | R12 | R13 | R14 | R15.
#[export] Instance reg_eq : EqDecision reg.
Proof. solve_decision. Defined.

Inductive field := Gpr (r : reg) | Rip | Rflags | Kernel_rip | Vector | Error_code | Cs | Ss.
#[export] Instance field_eq : EqDecision field.
Proof. solve_decision. Defined.

(** [struct cpu_context] and [interrupt_frame_t]. *)
Definition cpu_context : list field :=
  [Gpr R15; Gpr R14; Gpr R13; Gpr R12; Gpr RBP; Gpr RBX; Gpr R11; Gpr R10; Gpr R9; Gpr R8;
   Gpr RSI; Gpr RDI; Gpr RDX; Gpr RCX; Gpr RAX; Gpr RSP; Rip; Rflags; Kernel_rip].
Definition interrupt_frame : list field :=
  [Gpr R15; Gpr R14; Gpr R13; Gpr R12; Gpr R11; Gpr R10; Gpr R9; Gpr R8; Gpr RBP; Gpr RDI; Gpr RSI;
   Gpr RDX; Gpr RCX; Gpr RBX; Gpr RAX; Vector; Error_code; Rip; Cs; Rflags; Gpr RSP; Ss].

(** All fields have 8 bytes. *)
Fixpoint offset_of (l : list field) (f : field) : Z :=
  match l with
  | [] => 0
  | g :: l' => if decide (g = f) then 0 else 8 + offset_of l' f
  end.

(** A structure in memory: its words by their offsets. *)
Definition words := Z -> Z.
Definition put_word (o v : Z) (w : words) : words := fun x => if x =? o then v else w x.
Definition get_field (l : list field) (f : field) (w : words) : Z := w (offset_of l f).
Definition put_field (l : list field) (f : field) (v : Z) (w : words) : words := put_word (offset_of l f) v w.

Record core := MkCore { gpr : reg -> Z; rip : Z; rflags : Z; seg_cs : Z; seg_ss : Z }.
Definition set_reg (r : reg) (v : Z) (g : reg -> Z) : reg -> Z := fun x => if decide (x = r) then v else g x.

(** [mov \[base + o\], r] and [mov r, \[base + o\]], one after the other. *)
Definition store_regs (l : list (Z * reg)) (g : reg -> Z) (w : words) : words := foldl (fun w '(o, r) => put_word o (g r) w) w l.
Definition load_regs (l : list (reg * Z)) (w : words) (g : reg -> Z) : reg -> Z := foldl (fun g '(r, o) => set_reg r (w o) g) g l.
(** Through [rax]. *)
Definition copy_words (l : list (Z * Z)) (from : words) (w : words) : words := foldl (fun w '(d, s) => put_word d (from s) w) w l.

(** ** context_switch_to_user *)

Definition kernel_saves : list (Z * reg) :=
  [(0x00, R15); (0x08, R14); (0x10, R13); (0x18, R12); (0x20, RBP); (0x28, RBX); (0x30, R11); (0x38, R10);
   (0x40, R9); (0x48, R8); (0x50, RSI); (0x58, RDI); (0x60, RDX); (0x68, RCX); (0x70, RAX); (0x78, RSP)].
Definition user_loads : list (reg * Z) :=
  [(RCX, 0x80); (R11, 0x88); (R15, 0x00); (R14, 0x08); (R13, 0x10); (R12, 0x18); (RBP, 0x20); (RBX, 0x28);
   (R10, 0x38); (R9, 0x40); (R8, 0x48); (RSI, 0x50); (RDX, 0x60); (RAX, 0x70); (RSP, 0x78); (RDI, 0x58)].

(** [sysretq] with [star] in IA32_STAR. *)
Definition sysretq (star : Z) (c : core) : core :=
  let selector := Z.shiftr star 48 in
  MkCore (gpr c) (gpr c RCX) (Z.lor (Z.land (gpr c R11) 0x3C7FD7) 2) (Z.lor (selector + 16) 3) (Z.lor (selector + 8) 3).

(** The kernel's context, [process_kstack] and the core afterwards. *)
Definition context_switch_to_user (star : Z) (to_context from_context : words) (c : core) : words * Z * core :=
  (store_regs kernel_saves (gpr c) from_context, gpr c RSP,
   sysretq star (MkCore (load_regs user_loads to_context (gpr c)) (rip c) (rflags c) (seg_cs c) (seg_ss c))).

(** ** context_switch_to_kernel *)

(** Offsets in the context and in the frame. *)
Definition frame_moves : list (Z * Z) :=
  [(0x00, 0x00); (0x08, 0x08); (0x10, 0x10); (0x18, 0x18); (0x30, 0x20); (0x38, 0x28); (0x40, 0x30); (0x48, 0x38);
   (0x20, 0x40); (0x28, 0x68); (0x50, 0x50); (0x58, 0x48); (0x60, 0x58); (0x68, 0x60); (0x70, 0x70); (0x78, 0xA0);
   (0x80, 0x88); (0x88, 0x98)].
Definition call_saves : list (Z * reg) :=
  [(0x00, R15); (0x08, R14); (0x10, R13); (0x18, R12); (0x20, RBP); (0x28, RBX); (0x30, R11); (0x38, R10);
   (0x40, R9); (0x48, R8); (0x50, RSI); (0x58, RDI); (0x60, RDX); (0x68, RCX); (0x70, RAX)].
Definition kernel_loads : list (reg * Z) :=
  [(R15, 0x00); (R14, 0x08); (R12, 0x18); (RBP, 0x20); (RBX, 0x28); (R11, 0x30); (R10, 0x38); (R9, 0x40);
   (R8, 0x48); (RSI, 0x50); (RDI, 0x58); (RDX, 0x60); (RCX, 0x68); (RAX, 0x70); (RSP, 0x78)].

(** [frame = None]: the third argument is 0.  The kernel's context [kernel]
    is at address [kernel_at]; the function returns into the code that called
    [context_switch_to_user].  The process's context and the core. *)
Definition context_switch_to_kernel (kernel : words) (kernel_at : Z) (frame : option words) (user_context : words)
    (c : core) : words * core :=
  (match frame with
   | Some f => copy_words frame_moves f user_context
   | None => store_regs call_saves (gpr c) user_context
   end,
   MkCore (load_regs kernel_loads kernel (set_reg R13 kernel_at (gpr c))) (rip c) (rflags c) (seg_cs c) (seg_ss c)).

(** ** isr_timer_stub *)

(** What the processor and then the stub push, in that order. *)
Definition pushed_regs : list reg := [RAX; RBX; RCX; RDX; RSI; RDI; RBP; R8; R9; R10; R11; R12; R13; R14; R15].
Definition pushed (c : core) : list Z :=
  [seg_ss c; gpr c RSP; rflags c; seg_cs c; rip c] ++ [0; 32] ++ (gpr c <$> pushed_regs).
(** The words above the stack pointer. *)
Definition stack_words (l : list Z) : words := fun o => default 0 (zget (rev l) (o / 8)).
Definition timer_frame (c : core) : words := stack_words (pushed c).

(** The stub after the handler: pops, and [iretq] behind the two words. *)
Definition timer_pops : list (reg * Z) :=
  [(R15, 0x00); (R14, 0x08); (R13, 0x10); (R12, 0x18); (R11, 0x20); (R10, 0x28); (R9, 0x30); (R8, 0x38);
   (RBP, 0x40); (RDI, 0x48); (RSI, 0x50); (RDX, 0x58); (RCX, 0x60); (RBX, 0x68); (RAX, 0x70)].
Definition timer_return (f : words) (c : core) : core :=
  let g := load_regs timer_pops f (gpr c) in
  MkCore (set_reg RSP (f 0xA0) g) (f 0x88) (f 0x98) (f 0x90) (f 0xA8).

(** ** The layouts agree *)

(** What the frame's fields are called. *)
Definition frame_value (c : core) (f : field) : Z :=
  match f with
  | Gpr r => gpr c r
  | Rip => rip c
  | Rflags => rflags c
  | Cs => seg_cs c
  | Ss => seg_ss c
  | Vector => 32
  | Error_code | Kernel_rip => 0
  end.

(** The stub pushes an [interrupt_frame_t]. *)
Lemma timer_frame_fields c f : f ∈ interrupt_frame -> get_field interrupt_frame f (timer_frame c) = frame_value c f.
Proof.
  unfold interrupt_frame. rewrite !elem_of_cons, elem_of_nil. intros H.
  repeat destruct H as [->|H]; try done.
Qed.

(** Interrupting and returning changes nothing. *)
Lemma timer_return_frame c c' : let d := timer_return (timer_frame c) c' in
  (forall r, gpr d r = gpr c r) /\ rip d = rip c /\ rflags d = rflags c /\ seg_cs d = seg_cs c /\ seg_ss d = seg_ss c.
Proof. cbv zeta. split; [by intros []|done]. Qed.

(** With a frame, the context is that of the interrupted process, ... *)
Lemma context_of_frame kernel at_ w c d f : f ∈ cpu_context -> f <> Kernel_rip ->
  get_field cpu_context f (context_switch_to_kernel kernel at_ (Some (timer_frame c)) w d).1 = frame_value c f.
Proof.
  unfold cpu_context. rewrite !elem_of_cons, elem_of_nil. intros H N.
  repeat destruct H as [->|H]; try done.
Qed.
(** ... without one, the stack pointer, the instruction pointer and the flags
    are what they were. *)
Lemma context_of_call kernel at_ w d f : f ∈ [Gpr RSP; Rip; Rflags] ->
  get_field cpu_context f (context_switch_to_kernel kernel at_ None w d).1 = get_field cpu_context f w.
Proof.
  rewrite !elem_of_cons, elem_of_nil. intros H. repeat destruct H as [->|H]; try done.
Qed.

(** What a process finds when a context is loaded. *)
Lemma user_of_context star w kernel c : let d := (context_switch_to_user star w kernel c).2 in
  (forall r, r <> RCX -> r <> R11 -> gpr d r = get_field cpu_context (Gpr r) w) /\
  gpr d RCX = get_field cpu_context Rip w /\ gpr d R11 = get_field cpu_context Rflags w /\
  rip d = get_field cpu_context Rip w /\ rflags d = Z.lor (Z.land (get_field cpu_context Rflags w) 0x3C7FD7) 2.
Proof. cbv zeta. split; [by intros [] ? ?|done]. Qed.

(** The registers the kernel's C code finds when it is switched back to, with
    those it had before: all but [r13], which is the address of the kernel's
    context. *)
Lemma kernel_registers star w kernel c kernel_at frame w' d :
  let k := (context_switch_to_user star w kernel c).1.1 in
  let e := (context_switch_to_kernel k kernel_at frame w' d).2 in
  (forall r, r <> R13 -> gpr e r = gpr c r) /\ gpr e R13 = kernel_at.
Proof. cbv zeta. split; [by intros [] ?|done]. Qed.

(** A context that holds the registers of [c], loaded. *)
Lemma context_resumes star c w kernel d :
  (forall f, f ∈ cpu_context -> f <> Kernel_rip -> get_field cpu_context f w = frame_value c f) ->
  let c' := (context_switch_to_user star w kernel d).2 in
  (forall r, r <> RCX -> r <> R11 -> gpr c' r = gpr c r) /\ rip c' = rip c /\
  rflags c' = Z.lor (Z.land (rflags c) 0x3C7FD7) 2 /\ gpr c' RCX = rip c /\ gpr c' R11 = rflags c.
Proof.
  intros HF. cbv zeta. destruct (user_of_context star w kernel d) as (U1 & U2 & U3 & U4 & U5).
  split; [intros r N1 N2; rewrite U1 by done; apply HF; [|done]|].
  { unfold cpu_context. rewrite !elem_of_cons. destruct r; tauto. }
  rewrite U2, U3, U4, U5, !HF by (done || unfold cpu_context; rewrite !elem_of_cons; tauto). done.
Qed.

(** A context stored by a call, loaded. *)
Lemma context_restarts star kernel kernel_at kernel' w d d' :
  let w' := (context_switch_to_kernel kernel kernel_at None w d).1 in
  let c' := (context_switch_to_user star w' kernel' d').2 in
  rip c' = get_field cpu_context Rip w /\ gpr c' RSP = get_field cpu_context (Gpr RSP) w /\
  forall r, r <> RSP -> r <> RCX -> r <> R11 -> gpr c' r = gpr d r.
Proof.
  cbv zeta. destruct (user_of_context star (context_switch_to_kernel kernel kernel_at None w d).1 kernel' d') as (U1 & _ & _ & U4 & _).
  split; [rewrite U4; apply context_of_call; rewrite !elem_of_cons; tauto|].
  split; [rewrite U1 by done; apply context_of_call; rewrite !elem_of_cons; tauto|].
  intros r N1 N2 N3. rewrite U1 by done. by destruct r.
Qed.
