(* ===== verification/Dispatch.v ===== *)
(** * The scheduler's loop on the processor (the rest of scheduler.c, and
      cpu/fpu.c)

    Proc.v and Sched.v have what the loop does to the processes; here it runs
    with the registers of the processor: the contexts of Context.v, the
    floating point unit, the page table register, the base of GS and the local
    APIC.  [scheduler_round] is one pass of the [for] loop up to the switch to
    a process, [scheduler_resumed] the part behind [resume_scheduler];
    [timer_interrupt] is the stub of the timer with the handler.

    The floating point state is one value, which [fxsave] and [fxrstor] move.
    The kernel's C code is compiled to use the unit too: what it does to the
    unit between two moves, and to the general registers, is an argument.  An interrupt while the processor halts is a step of its own. *)
From S2P Require Import Prelude PhysMem Vmm Sched SchedInv Files Proc Ports Drivers Apic Descriptors CLib Kernel Context.

(** The other fields of [struct process]: [ctx] and [additional_data]. *)
Record pdata (F : Type) := MkPdata { ctx : words; gs_base : Z; fpu_state : F }.
Arguments MkPdata {F}. Arguments ctx {F}. Arguments gs_base {F}. Arguments fpu_state {F}.

Record kernel (P F : Type) := MkKernel {
  k_ps : pstate; k_pic : pic P; k_core : core; k_fpu : F; cr3 : Z;
  k_data : gmap Z (pdata F);
  kernel_context : words; process_kstack : Z; kernel_fpu_state : F;
  rq_clock : Z; idle_time : Z
}.
Arguments MkKernel {P F}. Arguments k_ps {P F}. Arguments k_pic {P F}. Arguments k_core {P F}. Arguments k_fpu {P F}.
Arguments cr3 {P F}. Arguments k_data {P F}. Arguments kernel_context {P F}. Arguments process_kstack {P F}.
Arguments kernel_fpu_state {P F}. Arguments rq_clock {P F}. Arguments idle_time {P F}.

(** One pass of the loop: a process runs, the pass starts again, the
    processor waits for an interrupt, or the machine was told to go off. *)
Inductive round := Runs (p : Z) | Again | Halted | Off.

Section dispatch.
Context {P F : Type} `{Board P}.
(** The image of cleared memory, [cpu_local()], [&kernel_context], the
    address of the label and IA32_STAR. *)
Context (fpu_zero : F) (cpu_local kernel_context_at resume_scheduler star : Z).
Abbreviation K := (kernel P F).

Definition set_k_ps (t : pstate) (s : K) : K :=
  MkKernel t (k_pic s) (k_core s) (k_fpu s) (cr3 s) (k_data s) (kernel_context s) (process_kstack s) (kernel_fpu_state s) (rq_clock s) (idle_time s).
Definition set_k_pic (x : pic P) (s : K) : K :=
  MkKernel (k_ps s) x (k_core s) (k_fpu s) (cr3 s) (k_data s) (kernel_context s) (process_kstack s) (kernel_fpu_state s) (rq_clock s) (idle_time s).
Definition set_k_core (c : core) (s : K) : K :=
  MkKernel (k_ps s) (k_pic s) c (k_fpu s) (cr3 s) (k_data s) (kernel_context s) (process_kstack s) (kernel_fpu_state s) (rq_clock s) (idle_time s).
Definition set_k_fpu (x : F) (s : K) : K :=
  MkKernel (k_ps s) (k_pic s) (k_core s) x (cr3 s) (k_data s) (kernel_context s) (process_kstack s) (kernel_fpu_state s) (rq_clock s) (idle_time s).
Definition set_cr3 (a : Z) (s : K) : K :=
  MkKernel (k_ps s) (k_pic s) (k_core s) (k_fpu s) a (k_data s) (kernel_context s) (process_kstack s) (kernel_fpu_state s) (rq_clock s) (idle_time s).
Definition set_k_data (d : gmap Z (pdata F)) (s : K) : K :=
  MkKernel (k_ps s) (k_pic s) (k_core s) (k_fpu s) (cr3 s) d (kernel_context s) (process_kstack s) (kernel_fpu_state s) (rq_clock s) (idle_time s).
Definition set_kernel_context (w : words) (stack : Z) (s : K) : K :=
  MkKernel (k_ps s) (k_pic s) (k_core s) (k_fpu s) (cr3 s) (k_data s) w stack (kernel_fpu_state s) (rq_clock s) (idle_time s).
Definition set_kernel_fpu (x : F) (s : K) : K :=
  MkKernel (k_ps s) (k_pic s) (k_core s) (k_fpu s) (cr3 s) (k_data s) (kernel_context s) (process_kstack s) x (rq_clock s) (idle_time s).
Definition set_clock (t : Z) (s : K) : K :=
  MkKernel (k_ps s) (k_pic s) (k_core s) (k_fpu s) (cr3 s) (k_data s) (kernel_context s) (process_kstack s) (kernel_fpu_state s) t (idle_time s).
Definition add_idle (s : K) : K :=
  MkKernel (k_ps s) (k_pic s) (k_core s) (k_fpu s) (cr3 s) (k_data s) (kernel_context s) (process_kstack s) (kernel_fpu_state s) (rq_clock s)
    (wrap 64 (idle_time s + 1)).

Definition on_ps {A} (m : ST pstate A) : ST K A := zoom k_ps set_k_ps m.
Definition on_cpu {A} (m : ST (cpu P) A) : ST K A := zoom k_pic set_k_pic (pic_io m).
Definition get_data (p : Z) : ST K (pdata F) := fun s => match k_data s !! p with Some d => Ret (d, s) | None => Undef end.
Definition put_data (p : Z) (d : pdata F) : ST K unit := st_modify (fun s => set_k_data (<[p := d]> (k_data s)) s).
(** The fields of a page that was freed are gone. *)
Definition forget_freed : ST K unit :=
  st_modify (fun s => set_k_data (filter (fun x => is_Some (pcbs (k_ps s) !! x.1)) (k_data s)) s).

(** ** The floating point unit *)

Definition fpu_save (p : Z) : ST K unit :=
  x ← reads k_fpu; d ← get_data p; put_data p (MkPdata (ctx d) (gs_base d) x).
Definition fpu_load (p : Z) : ST K unit := d ← get_data p; st_modify (set_k_fpu (fpu_state d)).

Definition fpu_save_current : ST K unit :=
  p ← reads (fun s => running_process (k_ps s)); if truth p then fpu_save p else mret tt.
Definition fpu_load_current : ST K unit :=
  p ← reads (fun s => running_process (k_ps s)); if truth p then fpu_load p else mret tt.
Definition kernel_fpu_begin : ST K unit := st_modify (fun s => set_kernel_fpu (k_fpu s) s).
Definition kernel_fpu_end : ST K unit := st_modify (fun s => set_k_fpu (kernel_fpu_state s) s).

(** 0 is [NULL]. *)
Definition load_additional_data_if_needed (old new : Z) : ST K unit :=
  if new =? old then mret tt
  else
    d ← get_data new;
    _ ← on_cpu (wrmsr MSR_KERNEL_GS_BASE (gs_base d));
    _ ← (if truth old then fpu_save old else mret tt);
    fpu_load new.

(** ** New processes *)

(** [proc_allocate], which clears the page. *)
Definition new_process (fuel : nat) : ST K Z :=
  p ← on_ps (proc_allocate fuel);
  _ ← (if truth p then put_data p (MkPdata (fun _ => 0) 0 fpu_zero) else mret tt);
  mret p.
(** The end of [proc_exec]; [sched_fork] saves the floating point state. *)
Definition start_process (p : Z) : ST K Z := _ ← fpu_save p; on_ps (proc_start p).

(** ** Switches *)

Definition install_pagetable (a : Z) : ST K unit := st_modify (set_cr3 a).
Definition swapgs : ST K unit :=
  on_cpu (g ← rdmsr MSR_GS_BASE; k ← rdmsr MSR_KERNEL_GS_BASE; _ ← wrmsr MSR_GS_BASE k; wrmsr MSR_KERNEL_GS_BASE g).

Definition switch_to_user (p : Z) : ST K unit :=
  d ← get_data p;
  _ ← st_modify (fun s =>
        let '(k, stack, c) := context_switch_to_user star (ctx d) (kernel_context s) (k_core s) in
        set_k_core c (set_kernel_context k stack s));
  swapgs.
(** [frame]: the words of the interrupt frame. *)
Definition switch_to_kernel (p : Z) (frame : option words) : ST K unit :=
  d ← get_data p;
  k ← reads kernel_context;
  c ← reads k_core;
  let '(w, c) := context_switch_to_kernel k kernel_context_at frame (ctx d) c in
  _ ← put_data p (MkPdata w (gs_base d) (fpu_state d));
  st_modify (set_k_core c).

(** ** The loop *)

(** [scheduler_switch_back] with the switch. *)
Definition switch_back (frame : option words) : ST K unit :=
  _ ← on_ps scheduler_switch_back;
  p ← reads (fun s => running_process (k_ps s));
  switch_to_kernel p frame.

(** The kernel's code changes the floating point registers. *)
Definition touch_fpu (f : F -> F) : ST K unit := st_modify (fun s => set_k_fpu (f (k_fpu s)) s).

(** [g]: what the compiled code does to the floating point unit behind
    [load_additional_data_if_needed]; [c]: the kernel's general registers at
    the switch. *)
Definition scheduler_pass (fuel : nat) (now : Z) (g : F -> F) (c : core) : ST K round :=
  total ← reads (fun s => total_runnable (rq (ss (k_ps s))));
  if total =? 0 then
    r ← on_ps scheduler_idle;
    _ ← forget_freed;
    match r with
    | Continue => mret Again
    | Shutdown => _ ← st_modify add_idle; _ ← on_cpu system_shutdown; mret Off
    | Halt => _ ← st_modify add_idle; _ ← on_cpu sti; _ ← on_cpu cli; mret Halted
    end
  else
    old ← reads (fun s => last_running_process (k_ps s));
    n ← on_ps (proc_dispatch fuel now);
    if n =? 0 then mret Again
    else
      _ ← load_additional_data_if_needed old n;
      _ ← touch_fpu g;
      _ ← on_cpu (wrmsr MSR_KERNEL_GS_BASE cpu_local);
      b ← on_ps (get_pcb n);
      _ ← st_modify (fun s => set_kernel_context
            (put_field cpu_context Kernel_rip resume_scheduler
               (put_field cpu_context (Gpr RSP) (kernel_stack_top b) (kernel_context s))) (process_kstack s) s);
      m ← reads (fun s => mm (k_ps s));
      _ ← install_pagetable (V2P m (pagetable b));
      _ ← st_modify (set_k_core c);
      _ ← switch_to_user n;
      mret (Runs n).
(** [f]: what it does to the unit before. *)
Definition scheduler_round (fuel : nat) (now : Z) (f g : F -> F) (c : core) : ST K round :=
  _ ← touch_fpu f; scheduler_pass fuel now g c.

(** From the label on; [f] as before. *)
Definition scheduler_resumed (now : Z) (f : F -> F) : ST K unit :=
  _ ← touch_fpu f;
  a ← reads (fun s => V2P (mm (k_ps s)) (kernel_pagetable (vm (k_ps s))));
  _ ← install_pagetable a;
  _ ← on_ps (proc_resume now);
  forget_freed.

(** ** The timer *)

(** [true]: switched to the scheduler. *)
Definition sched_timer_handler (now now' : Z) (frame : words) : ST K bool :=
  _ ← st_modify (set_clock now);
  _ ← zoom k_pic set_k_pic lapic_send_eoi;
  expired ← on_ps (on_sched (scheduler_tick now'));
  if (expired : bool) then _ ← switch_back (Some frame); mret true else mret false.

(** [isr_timer_stub]; [f] is what the C code does to the floating point
    registers, [c] the kernel's other registers when it is done. *)
Definition timer_interrupt (now now' : Z) (f : F -> F) (c : core) : ST K bool :=
  frame ← reads (fun s => timer_frame (k_core s));
  _ ← kernel_fpu_begin;
  _ ← st_modify (fun s => set_k_fpu (f (k_fpu s)) (set_k_core c s));
  switched ← sched_timer_handler now now' frame;
  if (switched : bool) then mret true
  else
    _ ← kernel_fpu_end;
    _ ← st_modify (fun s => set_k_core (timer_return frame (k_core s)) s);
    mret false.

(** A call of [scheduler_yield], with the stub of the system calls. *)
Definition yield_call (f : F -> F) (c : core) : ST K unit :=
  _ ← kernel_fpu_begin;
  _ ← touch_fpu f;
  _ ← on_ps scheduler_yield;
  p ← reads (fun s => running_process (k_ps s));
  if truth p then _ ← st_modify (set_k_core c); switch_to_kernel p None else kernel_fpu_end.
(** A process is started in a system call. *)
Definition start_call (f : F -> F) (p : Z) : ST K Z :=
  _ ← kernel_fpu_begin; _ ← touch_fpu f; n ← start_process p; _ ← kernel_fpu_end; mret n.

(** A call of [sys_exit], of which Proc.v has [proc_exit]. *)
Definition exit_call (exit_code : Z) (f : F -> F) (c : core) : ST K unit :=
  _ ← kernel_fpu_begin;
  _ ← touch_fpu f;
  _ ← on_ps (proc_exit exit_code);
  p ← reads (fun s => running_process (k_ps s));
  _ ← st_modify (set_k_core c);
  switch_to_kernel p None.
End dispatch.
