(* ===== verification/DispatchFacts.v ===== *)
(** * Processes keep their registers (about Dispatch.v)

    [lazy_fpu_correct]: the floating point registers are saved and loaded only
    when another process runs, and still every process finds its own.
    [timer_interrupt_correct]: what one interrupt of the timer does. *)
From S2P Require Import Prelude PhysMem Vmm Sched SchedInv Files Proc ProcFacts ProcInv Ports Drivers Apic ApicFacts Descriptors CLib.
From S2P Require Import Kernel Context Dispatch.

(** ** Operations that add no process *)

(** From [s] to [t] no process is added, and the last one that ran is the same
    or, if [frees] allows to free it, none. *)
Record shrinks (frees : bool) (s t : pstate) : Prop := {
  sh_running : running_process t = running_process s;
  sh_pcbs p : is_Some (pcbs t !! p) -> is_Some (pcbs s !! p);
  sh_last : (last_running_process t = last_running_process s /\
      (is_Some (pcbs s !! last_running_process s) -> is_Some (pcbs t !! last_running_process s))) \/
    (frees = true /\ last_running_process t = 0 /\ pcbs t !! last_running_process s = None)
}.
Section shrinking.
Context (frees : bool).

Lemma shrinks_refl s : shrinks frees s s.
Proof. split; [done|done|]. by left. Qed.
Lemma shrinks_trans s t u : shrinks frees s t -> shrinks frees t u -> shrinks frees s u.
Proof.
  intros [A1 A2 A3] [B1 B2 B3]. split; [congruence|eauto|]. destruct A3 as [[A3 A4]|(A5 & A3 & A4)].
  - rewrite A3 in *. destruct B3 as [[B3 B4]|(B5 & B3 & B4)]; [left|by right]. split; [done|]. auto.
  - assert (pcbs u !! last_running_process s = None) as Hn.
    { destruct (pcbs u !! last_running_process s) eqn:E; [|done]. destruct (B2 (last_running_process s)) as [x Hx]; [by rewrite E|]. congruence. }
    right. split; [done|]. split; [|done]. rewrite A3 in B3. destruct B3 as [[B3 _]|(_ & B3 & _)]; done.
Qed.

Definition shrinking {A} (m : ST pstate A) : Prop := forall s, ends m (fun _ t => shrinks frees s t) s.

Lemma shrinking_ret {A} (a : A) : shrinking (mret a).
Proof. intros s. apply ends_ret, shrinks_refl. Qed.
Lemma shrinking_panic {A} msg : shrinking (st_panic (A := A) msg).
Proof. intros s. apply ends_panic. Qed.
Lemma shrinking_nofuel {A} : shrinking (@st_nofuel pstate A).
Proof. intros s a t E. done. Qed.
Lemma shrinking_bind {A B} (m : ST pstate A) (f : A -> ST pstate B) : shrinking m -> (forall a, shrinking (f a)) -> shrinking (m ≫= f).
Proof.
  intros Hm Hf s. apply ends_bind. eapply ends_weaken; [apply Hm|]. intros a t Ht.
  eapply ends_weaken; [apply Hf|]. intros b u Hu. exact (shrinks_trans _ _ _ Ht Hu).
Qed.
Lemma shrinking_reads {A} (f : pstate -> A) : shrinking (reads f).
Proof. intros s. apply ends_reads, shrinks_refl. Qed.
Lemma shrinking_sched {A} (m : ST sstate A) : shrinking (on_sched m).
Proof. intros s. apply ends_zoom. intros a t _. split; [done|done|by left]. Qed.
Lemma shrinking_mm {A} (m : ST pmem A) : shrinking (on_mm m).
Proof. intros s. apply ends_zoom. intros a t _. split; [done|done|by left]. Qed.
(** Reading the record of a process and changing it. *)
Lemma shrinking_get_pcb {B} (f : pcb -> ST pstate B) p :
  (forall s b, pcbs s !! p = Some b -> ends (f b) (fun _ t => shrinks frees s t) s) -> shrinking (get_pcb p ≫= f).
Proof.
  intros Hf s. apply ends_bind. intros b t E. unfold get_pcb in E. destruct (pcbs s !! p) as [c|] eqn:Ec; [|done].
  injection E as <- <-. by apply Hf.
Qed.
Lemma shrinks_put s p b : is_Some (pcbs s !! p) -> shrinks frees s (set_pcbs s (<[p := b]> (pcbs s))).
Proof.
  intros Hp. split; [done| |left; split; [done|]].
  - intros q. cbn. destruct (decide (q = p)) as [->|]; [done|]. by rewrite lookup_insert_ne.
  - intros Hl. cbn. destruct (decide (last_running_process s = p)) as [->|]; [by rewrite lookup_insert_eq|]. by rewrite lookup_insert_ne.
Qed.
Lemma shrinking_change {B} p (g : pcb -> pcb) (f : ST pstate B) : shrinking f ->
  shrinking (b ← get_pcb p; _ ← put_pcb p (g b); f).
Proof.
  intros Hf. apply shrinking_get_pcb. intros s b Eb. apply ends_bind, ends_modify. eapply ends_weaken; [apply Hf|].
  intros a t Ht. eapply shrinks_trans; [|exact Ht]. apply shrinks_put. by rewrite Eb.
Qed.
Lemma shrinking_table f g h : shrinking (st_modify (fun s => set_table s (f s) (g s) (h s))).
Proof. intros s. apply ends_modify. split; [done|done|by left]. Qed.
Lemma shrinking_if {A} (b : bool) (m m' : ST pstate A) : shrinking m -> shrinking m' -> shrinking (if b then m else m').
Proof. by destruct b. Qed.

Lemma shrinking_get p : shrinking (get_pcb p).
Proof. intros s b t E. unfold get_pcb in E. destruct (pcbs s !! p); [|done]. injection E as <- <-. apply shrinks_refl. Qed.
End shrinking.

Create HintDb shrink.
#[export] Hint Resolve shrinking_ret shrinking_panic shrinking_nofuel shrinking_reads shrinking_sched shrinking_mm shrinking_table
  shrinks_refl shrinking_get : shrink.
Ltac shrink_step :=
  match goal with
  | |- shrinking _ (_ ≫= _) => apply shrinking_bind; [|intros]
  | |- shrinking _ (if _ then _ else _) => apply shrinking_if
  | |- shrinking _ (match ?x with _ => _ end) => destruct x
  | |- shrinking _ (put_slot _ _) => apply (shrinking_table _ (fun s => _) process_count process_min_index)
  | |- shrinking _ (slot _) => apply shrinking_reads
  | |- _ => progress eauto with shrink
  end.
Ltac shrink_solve := repeat shrink_step.


Lemma shrinking_switch_back fr : shrinking fr scheduler_switch_back.
Proof. unfold scheduler_switch_back. shrink_solve. Qed.
Lemma shrinking_unlock fr p : shrinking fr (condvar_unlock p).
Proof.
  unfold condvar_unlock. apply shrinking_bind; [apply shrinking_reads|]. intros on. apply shrinking_if; [apply shrinking_ret|].
  apply shrinking_get_pcb. intros s b Eb. destruct (locked b); [|apply ends_panic]. apply ends_modify, shrinks_put. by rewrite Eb.
Qed.
Lemma shrinking_lock fr p : shrinking fr (condvar_lock p).
Proof.
  unfold condvar_lock. apply shrinking_bind; [apply shrinking_reads|]. intros on. apply shrinking_if; [apply shrinking_ret|].
  apply shrinking_get_pcb. intros s b Eb. destruct (locked b); [apply ends_panic|]. apply ends_modify, shrinks_put. by rewrite Eb.
Qed.
#[export] Hint Resolve shrinking_switch_back shrinking_unlock shrinking_lock : shrink.

Lemma shrinking_wakeup fr l me ch ev : shrinking fr (wakeup_from l me ch ev).
Proof. induction l as [|i l IH]; cbn [wakeup_from]; shrink_solve. Qed.
Lemma shrinking_exit fr code : shrinking fr (proc_exit code).
Proof.
  unfold proc_exit. apply shrinking_bind; [apply shrinking_reads|]. intros me. apply shrinking_get_pcb. intros s b Eb.
  destruct (negb (locked b)); [apply ends_panic|]. apply ends_bind, ends_modify.
  match goal with |- ends ?c _ _ => assert (shrinking fr c) as Hc end.
  { unfold condvar_notify_all, proc_wakeup. pose proof shrinking_wakeup. shrink_solve. }
  eapply ends_weaken; [apply Hc|]. intros a t Ht. eapply shrinks_trans; [apply shrinks_put; by rewrite Eb|exact Ht].
Qed.

Lemma shrinking_start fr p : shrinking fr (proc_start p).
Proof.
  unfold proc_start. apply shrinking_get_pcb. intros s b Eb.
  apply ends_bind, ends_reads, ends_bind. apply ends_zoom. intros top m _.
  apply ends_bind, ends_modify.
  assert (shrinks fr s (set_pcbs (set_mm s m) (<[p := pcb_stack b top]> (pcbs (set_mm s m))))) as H1.
  { eapply shrinks_trans; [|apply shrinks_put; cbn; by rewrite Eb]. split; [done|done|by left]. }
  revert H1. generalize (set_pcbs (set_mm s m) (<[p := pcb_stack b top]> (pcbs (set_mm s m)))). intros s1 H1.
  match goal with |- ends ?c _ _ => assert (shrinking fr c) as Hc by shrink_solve end.
  eapply ends_weaken; [apply Hc|]. intros a t Ht. exact (shrinks_trans _ _ _ _ H1 Ht).
Qed.

Lemma shrinking_coalesce fr k : forall j, shrinking fr (coalesce_from k j).
Proof.
  induction k as [|k IH]; intros j; cbn [coalesce_from]; [apply shrinking_ret|].
  apply shrinking_bind; [apply shrinking_reads|]. intros p. apply shrinking_if; [|apply shrinking_ret].
  apply shrinking_bind; [shrink_solve|]. intros _. apply shrinking_change. shrink_solve.
Qed.
Lemma shrinking_coelesce fr i : shrinking fr (coelesce_processes i).
Proof. unfold coelesce_processes. shrink_solve.
  apply shrinking_coalesce. Qed.
#[export] Hint Resolve shrinking_start shrinking_coelesce : shrink.

Lemma shrinking_reclaim p i : shrinking true (reclaim p i).
Proof.
  unfold reclaim. apply shrinking_get_pcb. intros s b Eb. apply ends_bind, ends_reads, ends_bind.
  apply ends_zoom. intros ? m1 _. apply ends_bind, ends_zoom. intros ? m2 _. apply ends_bind, ends_zoom. intros ? m3 _.
  apply ends_bind, ends_modify, ends_bind, ends_modify.
  match goal with |- ends ?c _ ?s1 => assert (shrinking true c) as Hc by shrink_solve; set (s2 := s1) end.
  assert (shrinks true s s2) as H1.
  { split; [done| |].
    - intros q. cbn. rewrite lookup_delete_is_Some. tauto.
    - cbn. destruct (Z.eqb_spec (last_running_process s) p) as [E|N].
      + right. split; [done|]. split; [done|]. rewrite E. apply lookup_delete_eq.
      + left. split; [done|]. rewrite lookup_delete_ne by done. done. }
  eapply ends_weaken; [apply Hc|]. intros r t Ht. exact (shrinks_trans _ _ _ _ H1 Ht).
Qed.
#[export] Hint Resolve shrinking_reclaim : shrink.

Lemma shrinking_sweep fuel : forall i any, shrinking true (reclaim_exited fuel i any).
Proof. induction fuel as [|fuel IH]; intros i any; cbn [reclaim_exited]; shrink_solve. Qed.
#[export] Hint Resolve shrinking_sweep : shrink.
Lemma shrinking_idle : shrinking true scheduler_idle.
Proof. unfold scheduler_idle. shrink_solve. Qed.
#[export] Hint Resolve shrinking_idle : shrink.

(** Behind the switch back no process runs. *)
Lemma resumed_shrinks now s : ends (proc_resume now) (fun _ t => running_process t = 0 /\
  (forall p, is_Some (pcbs t !! p) -> is_Some (pcbs s !! p)) /\
  ((last_running_process t = last_running_process s /\
      (is_Some (pcbs s !! last_running_process s) -> is_Some (pcbs t !! last_running_process s))) \/
   (last_running_process t = 0 /\ pcbs t !! last_running_process s = None))) s.
Proof.
  assert (shrinking true (n ← reads running_process; _ ← condvar_unlock n; _ ← on_sched (sched_resume now n);
    x ← on_sched (get_proc n);
    (if bool_decide (p_state x = EXITED) then b ← get_pcb n; reclaim n (proc_i b) else mret tt))) as Hs by shrink_solve.
  intros [] t E.
  assert (exists t1, (n ← reads running_process; _ ← condvar_unlock n; _ ← on_sched (sched_resume now n);
    x ← on_sched (get_proc n);
    (if bool_decide (p_state x = EXITED) then b ← get_pcb n; reclaim n (proc_i b) else mret tt)) s = Ret (tt, t1) /\
    t = set_running t1 0 (last_running_process t1)) as (t1 & E1 & ->).
  { revert E. unfold proc_resume, mbind, st_bind, reads. destruct (condvar_unlock _ s) as [[[] s1]| | |]; try done.
    destruct (on_sched (sched_resume _ _) s1) as [[[] s2]| | |]; try done. destruct (on_sched (get_proc _) s2) as [[x s3]| | |]; try done.
    destruct (if bool_decide _ then _ else _) as [[[] s4]| | |]; try done. intros [= <-]. by exists s4. }
  destruct (Hs s tt t1 E1) as [H1 H2 H3]. split; [done|]. split; [done|]. destruct H3 as [H3|(_ & H3)]; [by left|by right].
Qed.

Lemma dispatched_last fuel now s : ends (proc_dispatch fuel now) (fun n t =>
  (n = 0 -> shrinks false s t) /\
  (n <> 0 -> running_process t = n /\ last_running_process t = n /\ (forall p, is_Some (pcbs t !! p) -> is_Some (pcbs s !! p)))) s.
Proof.
  unfold proc_dispatch. apply ends_bind. eapply ends_weaken; [apply (shrinking_sched false)|]. intros n s1 H.
  destruct (Z.eqb_spec n 0) as [->|N]; [by apply ends_ret|].
  apply ends_bind, ends_modify, ends_bind. eapply ends_weaken; [apply (shrinking_lock false)|].
  intros [] t [L1 L2 L3]. apply ends_ret. split; [done|]. intros _. split; [exact L1|].
  split; [by destruct L3 as [[L3 _]|[L3 _]]|]. intros p Hp. by apply (sh_pcbs _ _ _ H), L2.
Qed.


(** *** A new process *)

(** Only [p] is new, or nothing is when [p] is 0. *)
Definition adds (s : pstate) (p : Z) (t : pstate) : Prop :=
  running_process t = running_process s /\ last_running_process t = last_running_process s /\
  forall q, q <> p \/ p = 0 -> pcbs t !! q = pcbs s !! q.

Lemma init_adds fuel i s : ends (is_valid_process_init fuel i) (fun p t => adds s p t) s.
Proof.
  unfold is_valid_process_init. apply ends_bind, ends_reads. destruct (truth _); [by apply ends_ret|].
  apply ends_bind, ends_zoom. intros p m1 _. destruct (Z.eqb_spec p 0) as [->|Hp]; [apply ends_undef|].
  apply ends_bind, ends_modify, ends_bind, ends_reads, ends_bind, ends_modify, ends_bind, ends_reads, ends_bind, ends_zoom.
  intros pt m2 _. apply ends_bind, ends_zoom. intros [] x _. apply ends_bind, ends_modify.
  destruct (pt =? 0); [apply ends_panic|]. apply ends_ret. split; [done|]. split; [done|]. intros q [Hq|Hq]; [|done]. cbn.
  by rewrite lookup_insert_ne.
Qed.
Lemma scan_adds fuel lo s : ends (scan_slots fuel lo) (fun p t => adds s p t) s.
Proof.
  unfold scan_slots. generalize (seqZ lo (MAX_PROCESSES - lo)). intros l. apply ends_bind.
  assert (ends (st_for (fun i => p ← is_valid_process_init fuel i; mret (if truth p then Some p else None)) l)
    (fun r t => adds s (default 0 r) t) s) as H; [|eapply ends_weaken; [exact H|]; intros r t Ht; by apply ends_ret].
  unfold st_for. revert s. induction l as [|i l IH]; intros s r t; cbn [for_ret]; [by intros [= <- <-]|].
  pose proof (init_adds fuel i s) as Ha. unfold mbind at 1, st_bind.
  destruct (is_valid_process_init fuel i s) as [[p s1]| | |] eqn:Ei; try done. specialize (Ha p s1 Ei). unfold truth.
  destruct (Z.eqb_spec p 0) as [->|N]; cbn.
  - intros E. pose proof (IH s1 r t) as IH1. unfold mbind, st_bind in E |- *. specialize (IH1 E). destruct Ha as (A1 & A2 & A3), IH1 as (B1 & B2 & B3).
    split; [congruence|]. split; [congruence|]. intros q Hq. rewrite B3 by done. apply A3. by right.
  - by intros [= <- <-].
Qed.
Lemma allocate_adds fuel s : ends (proc_allocate fuel) (fun p t => adds s p t) s.
Proof.
  unfold proc_allocate. apply ends_bind. eapply ends_weaken; [apply init_adds|]. intros p0 s1 (A1 & A2 & A3).
  apply ends_bind. assert (ends (if truth p0 then mret p0 else lo ← reads process_min_index; scan_slots fuel lo) (fun p t => adds s p t) s1) as H1.
  { unfold truth. destruct (Z.eqb_spec p0 0) as [->|N]; cbn [negb]; [|by apply ends_ret].
    apply ends_bind, ends_reads. eapply ends_weaken; [apply scan_adds|]. intros p t (B1 & B2 & B3).
    split; [congruence|]. split; [congruence|]. intros q Hq. rewrite B3 by done. apply A3. by right. }
  eapply ends_weaken; [exact H1|]. intros p s2 Ha. unfold truth. destruct (Z.eqb_spec p 0) as [->|N]; cbn [negb]; [by apply ends_ret|].
  apply ends_bind. intros b s3 E. unfold get_pcb in E. destruct (pcbs s2 !! p); [|done]. injection E as <- <-.
  apply ends_bind, ends_modify, ends_bind, ends_reads. destruct (free_slot_from _ _); [|apply ends_panic].
  apply ends_bind, ends_modify, ends_ret. destruct Ha as (B1 & B2 & B3). by destruct (_ =? _).
Qed.

(** ** The registers a process will find *)

Section views.
Context {P F : Type}.
Abbreviation K := (kernel P F).
Implicit Types s t u : K.

(** The unit holds those of the process that ran last, memory the others'. *)
Definition fpu_view s (p : Z) : option F :=
  if last_running_process (k_ps s) =? p then Some (k_fpu s) else fpu_state <$> k_data s !! p.

Record kernel_inv s : Prop := {
  ki_running : running_process (k_ps s) = 0 \/ running_process (k_ps s) = last_running_process (k_ps s);
  ki_last : last_running_process (k_ps s) = 0 \/ is_Some (pcbs (k_ps s) !! last_running_process (k_ps s))
}.

(** The processes after a step are among those before, with the registers
    [g] makes of theirs. *)
Record views (g : Z -> option F -> option F) s t : Prop := {
  vw_inv : kernel_inv t;
  vw_pcbs p : is_Some (pcbs (k_ps t) !! p) -> is_Some (pcbs (k_ps s) !! p);
  vw_view p : p <> 0 -> is_Some (pcbs (k_ps t) !! p) -> fpu_view t p = g p (fpu_view s p)
}.
Lemma views_trans g h s t u : views g s t -> views h t u -> views (fun p v => h p (g p v)) s u.
Proof.
  intros [A1 A2 A3] [B1 B2 B3]. split; [auto|auto|]. intros p Hp Hl. rewrite B3 by done. by rewrite A3 by auto.
Qed.
Lemma views_weaken g h s t : views g s t -> (forall p, p <> 0 -> g p (fpu_view s p) = h p (fpu_view s p)) -> views h s t.
Proof. intros [A1 A2 A3] H. split; [done|done|]. intros p Hp Hl. by rewrite A3, H. Qed.

(** The processes change, the registers do not. *)
Lemma views_shrinks s x : kernel_inv s -> shrinks (running_process (k_ps s) =? 0) (k_ps s) x -> views (fun _ v => v) s (set_k_ps x s).
Proof.
  intros [I1 I2] [H1 H2 H3]. split; cbn.
  - split; cbn.
    + rewrite H1. destruct I1 as [I1|I1]; [by left|]. destruct H3 as [[H3 _]|(H0 & _)]; [right; congruence|lia].
    + destruct H3 as [[H3 H4]|(_ & H3 & _)]; [|by left]. rewrite H3. destruct I2; auto.
  - exact H2.
  - intros p Hp Hl. unfold fpu_view. cbn. destruct H3 as [[-> _]|(_ & -> & H3)]; [done|].
    destruct (Z.eqb_spec 0 p) as [<-|_]; [done|]. destruct (Z.eqb_spec (last_running_process (k_ps s)) p) as [E|_]; [|done].
    rewrite <- E, H3 in Hl. by destruct Hl.
Qed.
Lemma views_same s t : kernel_inv s -> k_ps t = k_ps s -> k_fpu t = k_fpu s ->
  (forall p, is_Some (pcbs (k_ps s) !! p) -> fpu_state <$> k_data t !! p = fpu_state <$> k_data s !! p) -> views (fun _ v => v) s t.
Proof.
  intros [I1 I2] E1 E3 E2. split; rewrite ?E1; [split; by rewrite E1|done|]. intros p _ Hl. unfold fpu_view. by rewrite E1, E3, E2.
Qed.
(** The registers change. *)
Lemma views_fpu s t f : kernel_inv s -> k_ps t = k_ps s -> k_fpu t = f (k_fpu s) ->
  (forall p, fpu_state <$> k_data t !! p = fpu_state <$> k_data s !! p) ->
  views (fun p v => if last_running_process (k_ps s) =? p then f <$> v else v) s t.
Proof.
  intros [I1 I2] E1 E3 E2. split; rewrite ?E1; [split; by rewrite E1|done|]. intros p _ Hl. unfold fpu_view. rewrite E1, E3, E2.
  by destruct (_ =? _).
Qed.

Lemma forget_freed_run s : exists t, forget_freed s = Ret (tt, t) /\ k_ps t = k_ps s /\ k_fpu t = k_fpu s /\
  forall p, is_Some (pcbs (k_ps s) !! p) -> k_data t !! p = k_data s !! p.
Proof.
  eexists. split; [reflexivity|]. split; [done|]. split; [done|]. intros p Hp. cbn.
  destruct (k_data s !! p) as [d|] eqn:E; [by apply map_lookup_filter_Some|]. apply map_lookup_filter_None. by left.
Qed.
Lemma views_forget s : kernel_inv s -> ends forget_freed (fun _ t => views (fun _ v => v) s t) s.
Proof.
  intros HI [] t E. destruct (forget_freed_run s) as (t' & E' & E1 & E3 & E2). rewrite E' in E. injection E as <-.
  apply views_same; [done|done|done|]. intros p Hp. by rewrite E2.
Qed.

(** [load_additional_data_if_needed]: the new process becomes the last. *)
Lemma load_additional_run `{Board P} s0 s old n : n <> 0 -> last_running_process (k_ps s0) = old ->
  k_fpu s = k_fpu s0 -> k_data s = k_data s0 -> last_running_process (k_ps s) = n ->
  ends (load_additional_data_if_needed old n) (fun _ t => k_ps t = k_ps s /\
    forall p, p <> 0 -> fpu_view t p = fpu_view s0 p) s.
Proof.
  intros Hn Hold Ef Ed El. unfold load_additional_data_if_needed. destruct (Z.eqb_spec n old) as [->|N].
  { apply ends_ret. split; [done|]. intros p Hp. unfold fpu_view. by rewrite El, Hold, Ef, Ed. }
  apply ends_bind. intros d s1 E1. unfold get_data in E1. destruct (k_data s !! n) as [d'|] eqn:En; [|done]. injection E1 as <- <-.
  apply ends_bind, ends_zoom. intros [] pc _.
  set (s1 := set_k_pic pc s). apply ends_bind.
  assert (ends (if truth old then fpu_save old else mret tt) (fun _ t => k_ps t = k_ps s /\ k_fpu t = k_fpu s /\
    forall p, p <> 0 -> fpu_state <$> k_data t !! p = if p =? old then Some (k_fpu s) else fpu_state <$> k_data s !! p) s1) as Hsave.
  { unfold truth. destruct (Z.eqb_spec old 0) as [->|N0]; cbn [negb].
    - apply ends_ret. split; [done|]. split; [done|]. intros p Hp. by rewrite (proj2 (Z.eqb_neq _ _)).
    - unfold fpu_save. apply ends_bind, ends_reads, ends_bind. intros x s2 E2. unfold get_data in E2.
      destruct (k_data s1 !! old) as [x'|] eqn:Eo; [|done]. injection E2 as <- <-. apply ends_modify. split; [done|]. split; [done|].
      intros p Hp. cbn. destruct (Z.eqb_spec p old) as [->|Np]; [by rewrite lookup_insert_eq|]. by rewrite lookup_insert_ne. }
  eapply ends_weaken; [exact Hsave|]. intros [] s2 (A1 & A2 & A3). unfold fpu_load. apply ends_bind. intros x s3 E3.
  unfold get_data in E3. destruct (k_data s2 !! n) as [x'|] eqn:Ex; [|done]. injection E3 as <- <-. apply ends_modify.
  split; [exact A1|]. intros p Hp. unfold fpu_view. cbn. rewrite A1, El, Hold, A3 by done.
  destruct (Z.eqb_spec n p) as [<-|Np].
  - pose proof (A3 n Hn) as B. rewrite Ex, (proj2 (Z.eqb_neq _ _)), Ed in B by done. cbn in B. rewrite (proj2 (Z.eqb_neq _ _)) by done. by rewrite <- B.
  - rewrite (Z.eqb_sym old p), Ed, Ef. done.
Qed.
End views.

(** ** One step after the other *)

Section steps.
Context {P F : Type} `{Board P}.
Context (fpu_zero : F) (cpu_local kernel_context_at resume_scheduler star : Z).
Abbreviation K := (kernel P F).
Implicit Types s t u : K.

(** Operations on other parts of the processor. *)
Record kept s t : Prop := {
  kp_ps : k_ps t = k_ps s;
  kp_fpu : k_fpu t = k_fpu s;
  kp_data p : fpu_state <$> k_data t !! p = fpu_state <$> k_data s !! p
}.
Definition keeping {A} (m : ST K A) : Prop := forall s, ends m (fun _ t => kept s t) s.
Lemma kept_trans s t u : kept s t -> kept t u -> kept s u.
Proof. intros [A1 A2 A3] [B1 B2 B3]. split; [congruence|congruence|]. intros p. by rewrite B3. Qed.
Lemma keeping_bind {A B} (m : ST K A) (f : A -> ST K B) : keeping m -> (forall a, keeping (f a)) -> keeping (m ≫= f).
Proof.
  intros Hm Hf s. apply ends_bind. eapply ends_weaken; [apply Hm|]. intros a t Ht. eapply ends_weaken; [apply Hf|].
  intros b u Hu. exact (kept_trans _ _ _ Ht Hu).
Qed.
Lemma keeping_ret {A} (a : A) : keeping (mret a).
Proof. intros s. by apply ends_ret. Qed.
Lemma keeping_reads {A} (f : K -> A) : keeping (reads f).
Proof. intros s. by apply ends_reads. Qed.
Lemma keeping_cpu {A} (m : ST (cpu P) A) : keeping (on_cpu m).
Proof. intros s. apply ends_zoom. intros a x _. done. Qed.
Lemma keeping_pic {A} (m : ST (pic P) A) : keeping (zoom k_pic set_k_pic m).
Proof. intros s. apply ends_zoom. intros a x _. done. Qed.
Lemma keeping_core c : keeping (st_modify (set_k_core c)).
Proof. intros s. by apply ends_modify. Qed.
Lemma keeping_get_pcb p : keeping (on_ps (get_pcb p)).
Proof.
  intros s. apply ends_zoom. intros b x E. unfold get_pcb in E. destruct (pcbs (k_ps s) !! p); [|done]. injection E as <- <-. done.
Qed.
Lemma keeping_to_user p : keeping (switch_to_user star p).
Proof.
  unfold switch_to_user. apply keeping_bind; [|intros d; apply keeping_bind; [|intros _; apply keeping_cpu]].
  - intros s d t E. unfold get_data in E. destruct (k_data s !! p); [|done]. by injection E as <- <-.
  - intros s. by apply ends_modify.
Qed.
Lemma keeping_to_kernel p frame : keeping (switch_to_kernel kernel_context_at p frame).
Proof.
  intros s. unfold switch_to_kernel. apply ends_bind. intros d s1 E. unfold get_data in E.
  destruct (k_data s !! p) as [d'|] eqn:Ed; [|done]. injection E as <- <-. apply ends_bind, ends_reads, ends_bind, ends_reads.
  destruct (context_switch_to_kernel _ _ _ _ _) as [w c]. apply ends_bind, ends_modify, ends_modify. split; [done|done|].
  intros q. cbn. destruct (decide (q = p)) as [->|]; [by rewrite lookup_insert_eq, Ed|by rewrite lookup_insert_ne].
Qed.
Lemma views_kept g s t u : views g s t -> kept t u -> views g s u.
Proof.
  intros [A1 A2 A3] [B1 B2 B3]. split; rewrite ?B1; [destruct A1; by split; rewrite B1|done|]. intros p Hp Hl.
  rewrite <- A3 by done. unfold fpu_view. by rewrite B1, B2, B3.
Qed.
Lemma views_refl s : kernel_inv s -> views (fun _ v => v) s s.
Proof. intros HI. by apply views_same. Qed.

(** Work of the kernel on the processes. *)
Lemma views_on_ps {A} (m : ST pstate A) s : kernel_inv s -> shrinking (running_process (k_ps s) =? 0) m ->
  ends (on_ps m) (fun _ t => views (fun _ v => v) s t) s.
Proof. intros HI Hm. apply ends_zoom. eapply ends_weaken; [apply Hm|]. intros a x Hx. by apply views_shrinks. Qed.

(** The kernel's code has changed the registers of the unit by [f]. *)
Definition changed (f : F -> F) s (p : Z) (v : option F) : option F :=
  if last_running_process (k_ps s) =? p then f <$> v else v.
Lemma touch_views f s : kernel_inv s -> ends (touch_fpu f) (fun _ t => views (changed f s) s t /\ k_ps t = k_ps s) s.
Proof. intros HI. apply ends_modify. split; [by apply views_fpu|done]. Qed.

(** One pass of the loop; whoever runs finds its own registers, with what the
    kernel's code made of them. *)
Definition pass_change (g : F -> F) (r : round) (p : Z) (v : option F) : option F :=
  match r with Runs n => if n =? p then g <$> v else v | _ => v end.
Lemma pass_views fuel now g c s : kernel_inv s -> running_process (k_ps s) = 0 ->
  ends (scheduler_pass cpu_local resume_scheduler star fuel now g c) (fun r t => views (pass_change g r) s t /\
    match r with
    | Runs n => n <> 0 /\ running_process (k_ps t) = n /\ last_running_process (k_ps t) = n /\ is_Some (pcbs (k_ps s) !! n)
    | _ => running_process (k_ps t) = 0
    end) s.
Proof.
  intros HI H0. unfold scheduler_pass. apply ends_bind, ends_reads. destruct (_ =? 0).
  { apply ends_bind, ends_zoom. eapply ends_weaken; [apply shrinking_idle|]. intros r x Hx.
    assert (views (fun _ v => v) s (set_k_ps x s)) as V1 by (apply views_shrinks; [done|by rewrite H0]).
    assert (running_process x = 0) as Hr by (by rewrite (sh_running _ _ _ Hx)).
    apply ends_bind. destruct (forget_freed_run (set_k_ps x s)) as (t & Et & T1 & T2 & T3).
    intros [] t' Et'. rewrite Et in Et'. injection Et' as <-.
    assert (views (fun _ v => v) s t) as V2.
    { refine (views_trans (fun _ v => v) (fun _ v => v) s _ t V1 _). apply views_same; [apply V1|done|done|].
      intros p Hp. by rewrite T3. }
    assert (running_process (k_ps t) = 0) as Hr' by (by rewrite T1).
    destruct r.
    - by apply ends_ret.
    - apply ends_bind, ends_modify, ends_bind. eapply ends_weaken; [apply keeping_cpu|]. intros [] u [U1 U2 U3].
      apply ends_ret. split; [by eapply views_kept|by rewrite U1].
    - apply ends_bind, ends_modify, ends_bind. eapply ends_weaken; [apply keeping_cpu|]. intros [] u [U1 U2 U3].
      apply ends_bind. eapply ends_weaken; [apply keeping_cpu|]. intros [] u' [U1' U2' U3']. apply ends_ret.
      split; [|by rewrite U1', U1]. eapply views_kept; [eapply views_kept; [exact V2|by split]|by split]. }
  apply ends_bind, ends_reads, ends_bind, ends_zoom. eapply ends_weaken; [apply dispatched_last|]. intros n x [D1 D2].
  destruct (Z.eqb_spec n 0) as [->|Hn].
  { apply ends_ret. specialize (D1 eq_refl). split; [apply views_shrinks; [done|]|cbn; by rewrite (sh_running _ _ _ D1)].
    destruct D1 as [S1 S2 [S3|(? & _)]]; [|done]. split; [done|done|by left]. }
  destruct (D2 Hn) as (R1 & R2 & R3). apply ends_bind.
  eapply ends_weaken; [apply (load_additional_run s (set_k_ps x s) _ n Hn eq_refl eq_refl eq_refl R2)|].
  intros [] t0 [T1' T2]. apply ends_bind, ends_modify. set (t := set_k_fpu (g (k_fpu t0)) t0).
  assert (k_ps t = x) as T1 by exact T1'.
  apply ends_bind. eapply ends_weaken; [apply keeping_cpu|]. intros [] t1 K1.
  apply ends_bind. intros b t2 E2. pose proof (keeping_get_pcb n t1 b t2 E2) as K2.
  assert (is_Some (pcbs (k_ps t1) !! n)) as Hb.
  { unfold on_ps, zoom, get_pcb in E2. destruct (pcbs (k_ps t1) !! n); [done|]. done. }
  assert (is_Some (pcbs x !! n)) as Hb' by (rewrite (kp_ps _ _ K1), T1 in Hb; exact Hb).
  assert (views (pass_change g (Runs n)) s t) as V.
  { split; rewrite ?T1; [split; rewrite T1; cbn; [right; congruence|right; by rewrite R2]|exact R3|]. intros p Hp _.
    rewrite <- (T2 p Hp). unfold fpu_view, pass_change. rewrite T1, T1'. cbn [set_k_ps k_ps]. rewrite R2. by destruct (Z.eqb n p). }
  assert (views (pass_change g (Runs n)) s t2 /\ k_ps t2 = x) as [V2 X2].
  { split; [eapply views_kept; [eapply views_kept; [exact V|exact K1]|exact K2]|]. by rewrite (kp_ps _ _ K2), (kp_ps _ _ K1), T1. }
  apply ends_bind, ends_modify, ends_bind, ends_reads, ends_bind, ends_modify, ends_bind, ends_modify, ends_bind.
  eapply ends_weaken; [apply keeping_to_user|]. intros [] u [U1 U2 U3]. apply ends_ret.
  assert (k_ps u = x) as X3 by (rewrite U1; exact X2). rewrite X3.
  split; [eapply views_kept; [exact V2|by split]|]. split; [done|]. split; [done|]. split; [done|]. by apply R3.
Qed.

Lemma round_views fuel now f g c s : kernel_inv s -> running_process (k_ps s) = 0 ->
  ends (scheduler_round cpu_local resume_scheduler star fuel now f g c) (fun r t =>
    views (fun p v => pass_change g r p (changed f s p v)) s t /\
    match r with
    | Runs n => n <> 0 /\ running_process (k_ps t) = n /\ last_running_process (k_ps t) = n /\ is_Some (pcbs (k_ps s) !! n)
    | _ => running_process (k_ps t) = 0
    end) s.
Proof.
  intros HI H0. unfold scheduler_round. apply ends_bind. eapply ends_weaken; [by apply touch_views|]. intros [] s0 [V0 X0].
  eapply ends_weaken; [apply pass_views; [apply V0|by rewrite X0]|]. intros r t [V Hr].
  split; [by apply (views_trans (changed f s) (pass_change g r) _ s0)|]. by rewrite X0 in Hr.
Qed.

Lemma resumed_views now f s : kernel_inv s ->
  ends (scheduler_resumed now f) (fun _ t => views (changed f s) s t /\ running_process (k_ps t) = 0) s.
Proof.
  intros HI. unfold scheduler_resumed. apply ends_bind. eapply ends_weaken; [by apply (touch_views f)|]. intros [] s0 [V0 X0].
  eapply (ends_weaken _ (fun _ t => views (fun _ v => v) s0 t /\ running_process (k_ps t) = 0));
    [|intros [] t [V Hr]; split; [exact (views_trans _ (fun _ v => v) _ _ _ V0 V)|done]].
  pose proof (vw_inv _ _ _ V0) as [I1 I2]. clear V0 X0 HI s. rename s0 into s.
  apply ends_bind, ends_reads, ends_bind, ends_modify, ends_bind, ends_zoom.
  cbn [set_cr3 k_ps]. eapply ends_weaken; [apply resumed_shrinks|]. intros [] x (R1 & R2 & R3). cbn beta.
  set (s1 := set_k_ps x _). assert (views (fun _ v => v) s s1) as V1.
  { split; cbn.
    - split; cbn; [by left|]. destruct R3 as [[R3 R4]|[R3 R4]]; [|by left]. rewrite R3. destruct I2; auto.
    - exact R2.
    - intros p Hp Hl. unfold fpu_view. cbn. destruct R3 as [[-> _]|[-> R3]]; [done|].
      destruct (Z.eqb_spec 0 p) as [<-|_]; [done|]. destruct (Z.eqb_spec (last_running_process (k_ps s)) p) as [E|_]; [|done].
      rewrite <- E, R3 in Hl. by destruct Hl. }
  destruct (forget_freed_run s1) as (t & Et & T1 & T2 & T3). intros [] t' Et'. rewrite Et in Et'. injection Et' as <-.
  split; [|by rewrite T1]. refine (views_trans (fun _ v => v) (fun _ v => v) s _ t V1 _). apply views_same; [apply V1|done|done|].
  intros p Hp. by rewrite T3.
Qed.

(** The stub before and after a switch back to the scheduler. *)
Lemma switch_back_views frame s : kernel_inv s ->
  ends (switch_back kernel_context_at frame) (fun _ t => views (fun _ v => v) s t /\ running_process (k_ps t) = running_process (k_ps s)) s.
Proof.
  intros HI. unfold switch_back. apply ends_bind, ends_zoom.
  eapply ends_weaken; [apply shrinking_switch_back|]. intros [] x Hx. apply ends_bind, ends_reads.
  eapply ends_weaken; [apply keeping_to_kernel|]. intros [] t Kt. split; [|rewrite (kp_ps _ _ Kt); apply Hx].
  eapply views_kept; [|exact Kt]. by apply views_shrinks.
Qed.

Lemma timer_views now now' f c s : kernel_inv s ->
  ends (timer_interrupt kernel_context_at now now' f c) (fun switched t =>
    views (if (switched : bool) then changed f s else fun _ v => v) s t /\ running_process (k_ps t) = running_process (k_ps s) /\
    (switched = false -> k_fpu t = k_fpu s /\ k_data t = k_data s /\ (forall r, gpr (k_core t) r = gpr (k_core s) r) /\
       rip (k_core t) = rip (k_core s) /\ rflags (k_core t) = rflags (k_core s))) s.
Proof.
  intros HI. unfold timer_interrupt. apply ends_bind, ends_reads, ends_bind, ends_modify, ends_bind, ends_modify.
  apply ends_bind. unfold sched_timer_handler. apply ends_bind, ends_modify, ends_bind, ends_zoom. intros [] pc _. cbn [k_fpu set_k_core].
  match goal with |- ends _ _ ?z => set (s2 := z) end.
  assert (views (changed f s) s s2) as V2 by (by apply views_fpu).
  apply ends_bind, ends_zoom. eapply ends_weaken; [apply (shrinking_sched (running_process (k_ps s2) =? 0))|]. intros expired x Hx.
  pose proof (views_shrinks s2 x (vw_inv _ _ _ V2) Hx) as V3.
  assert (running_process x = running_process (k_ps s)) as R3 by (by rewrite (sh_running _ _ _ Hx)).
  destruct expired.
  - apply ends_bind. eapply ends_weaken; [apply switch_back_views, V3|]. intros [] t [V4 R4]. apply ends_ret.
    apply ends_ret. split; [|split; [rewrite R4; exact R3|done]].
    refine (views_trans (changed f s) (fun _ v => v) s s2 t V2 _). exact (views_trans (fun _ v => v) (fun _ v => v) s2 _ t V3 V4).
  - apply ends_ret. apply ends_bind, ends_modify, ends_bind, ends_modify, ends_ret.
    destruct (timer_return_frame (k_core s) c) as (C1 & C2 & C3 & _).
    split; [|split; [exact R3|intros _; split; [done|]; split; [done|]; split; [exact C1|by split]]].
    apply (views_kept _ s (set_k_ps x s)); [apply views_shrinks; [done|exact Hx]|by split].
Qed.

(** Giving up the processor in a call. *)
Lemma yield_views f c s : kernel_inv s -> running_process (k_ps s) <> 0 ->
  ends (yield_call kernel_context_at f c) (fun _ t => views (changed f s) s t /\ running_process (k_ps t) = running_process (k_ps s)) s.
Proof.
  intros HI Hr. unfold yield_call. apply ends_bind, ends_modify, ends_bind, ends_modify.
  match goal with |- ends _ _ ?z => set (s1 := z) end.
  assert (views (changed f s) s s1) as V1 by (by apply views_fpu). apply ends_bind, ends_zoom.
  assert (shrinking (running_process (k_ps s) =? 0) scheduler_yield) as Hy by (unfold scheduler_yield; shrink_solve).
  eapply ends_weaken; [apply Hy|]. intros [] x Hx. apply ends_bind, ends_reads. cbn [set_k_ps k_ps].
  pose proof (views_shrinks s1 x (vw_inv _ _ _ V1) Hx) as V2.
  assert (running_process x = running_process (k_ps s)) as R2 by (by rewrite (sh_running _ _ _ Hx)).
  unfold truth. rewrite R2, (proj2 (Z.eqb_neq _ _)) by done. cbn [negb].
  assert (keeping (_ ← st_modify (set_k_core c); switch_to_kernel kernel_context_at (running_process (k_ps s)) None)) as Hk
    by (apply keeping_bind; [apply keeping_core|intros _; apply keeping_to_kernel]).
  eapply ends_weaken; [apply Hk|]. intros [] t Kt. split; [|rewrite (kp_ps _ _ Kt); exact R2].
  eapply views_kept; [|exact Kt]. exact (views_trans (changed f s) (fun _ v => v) s s1 _ V1 V2).
Qed.

(** The end of a process. *)
Lemma exit_views code f c s : kernel_inv s ->
  ends (exit_call kernel_context_at code f c) (fun _ t => views (changed f s) s t /\ running_process (k_ps t) = running_process (k_ps s)) s.
Proof.
  intros HI. unfold exit_call. apply ends_bind, ends_modify, ends_bind, ends_modify.
  match goal with |- ends _ _ ?z => set (s1 := z) end.
  assert (views (changed f s) s s1) as V1 by (by apply views_fpu). apply ends_bind, ends_zoom.
  eapply ends_weaken; [apply (shrinking_exit (running_process (k_ps s) =? 0))|]. intros [] x Hx. apply ends_bind, ends_reads.
  pose proof (views_shrinks s1 x (vw_inv _ _ _ V1) Hx) as V2. cbn [set_k_ps k_ps].
  assert (keeping (_ ← st_modify (set_k_core c); switch_to_kernel kernel_context_at (running_process x) None)) as Hk
    by (apply keeping_bind; [apply keeping_core|intros _; apply keeping_to_kernel]).
  eapply ends_weaken; [apply Hk|]. intros [] t Kt. split; [|rewrite (kp_ps _ _ Kt); apply Hx].
  eapply views_kept; [|exact Kt]. exact (views_trans (changed f s) (fun _ v => v) s s1 _ V1 V2).
Qed.

(** A process that did not run yet gets the registers as they are in the
    kernel. *)
Lemma start_views f p s : kernel_inv s -> p <> 0 -> p <> last_running_process (k_ps s) ->
  ends (start_call f p) (fun _ t => views (fun q v => if q =? p then Some (f (k_fpu s)) else v) s t) s.
Proof.
  intros HI Hp Hl. unfold start_call. apply ends_bind, ends_modify, ends_bind, ends_modify, ends_bind.
  unfold start_process, fpu_save. apply ends_bind, ends_bind, ends_reads, ends_bind. intros d s1 E.
  unfold get_data in E. cbn in E. destruct (k_data s !! p) as [d'|] eqn:Ed; [|done]. injection E as <- <-. apply ends_modify, ends_zoom.
  eapply ends_weaken; [apply (shrinking_start false)|]. intros n x Hx. apply ends_bind, ends_modify, ends_ret. cbn.
  set (s1 := set_k_data (<[p := MkPdata (ctx d') (gs_base d') (f (k_fpu s))]> (k_data s)) s).
  assert (views (fun q v => if q =? p then Some (f (k_fpu s)) else v) s s1) as V1.
  { split; [by destruct HI|done|]. intros q Hq _. unfold fpu_view. cbn.
    destruct (Z.eqb_spec q p) as [->|N]; [|by rewrite lookup_insert_ne].
    rewrite lookup_insert_eq, (proj2 (Z.eqb_neq _ _)) by congruence. done. }
  assert (shrinks (running_process (k_ps s1) =? 0) (k_ps s1) x) as Hx'.
  { destruct Hx as [A1 A2 [A3|(? & _)]]; [|done]. split; [exact A1|exact A2|by left]. }
  eapply views_kept; [exact (views_trans _ (fun _ v => v) s s1 _ V1 (views_shrinks s1 x (vw_inv _ _ _ V1) Hx'))|]. by split.
Qed.

Lemma new_views fuel s : kernel_inv s -> ends (new_process fpu_zero fuel) (fun p t => pcbs (k_ps s) !! p = None -> p <> 0 ->
  kernel_inv t /\ running_process (k_ps t) = running_process (k_ps s) /\ fpu_view t p = Some fpu_zero /\
  forall q, q <> p -> is_Some (pcbs (k_ps t) !! q) -> is_Some (pcbs (k_ps s) !! q) /\ fpu_view t q = fpu_view s q) s.
Proof.
  intros [I1 I2]. unfold new_process. apply ends_bind, ends_zoom. eapply ends_weaken; [apply allocate_adds|]. intros p x (A1 & A2 & A3).
  apply ends_bind. unfold truth. destruct (Z.eqb_spec p 0) as [->|N]; cbn [negb]; [by apply ends_ret, ends_ret|].
  apply ends_modify, ends_ret. intros Hn _. cbn.
  assert (last_running_process (k_ps s) <> p) as Hlp by (intros <-; destruct I2 as [?|[? ?]]; congruence).
  split; [split; cbn; rewrite A2; [by rewrite A1|]; destruct I2 as [?|Hl]; [by left|right; rewrite A3 by (by left); exact Hl]|].
  split; [done|]. unfold fpu_view. cbn. rewrite A2. split.
  - rewrite (proj2 (Z.eqb_neq _ _)), lookup_insert_eq by done. done.
  - intros q Hq. rewrite A3 by (by left). intros Hl. split; [done|]. by rewrite lookup_insert_ne.
Qed.
End steps.

(** ** Any run of the kernel *)

(** What happened to the floating point registers: a process computed, the
    kernel's code changed those of a process before they were saved, a process
    was started or created. *)
Inductive kevent (F : Type) := EUser (p : Z) (x : F) | EChange (p : Z) (f : F -> F) | EStart (p : Z) (x : F) | ENew (p : Z).
Arguments EUser {F}. Arguments EChange {F}. Arguments EStart {F}. Arguments ENew {F}.

Section runs.
Context {P F : Type} `{Board P}.
Context (fpu_zero : F) (cpu_local kernel_context_at resume_scheduler star : Z).
Abbreviation K := (kernel P F).
Implicit Types s t u : K.

Inductive kstep : K -> list (kevent F) -> K -> Prop :=
| ks_round fuel now f g c s r t : running_process (k_ps s) = 0 ->
    scheduler_round cpu_local resume_scheduler star fuel now f g c s = Ret (r, t) ->
    kstep s (EChange (last_running_process (k_ps s)) f :: match r with Runs n => [EChange n g] | _ => [] end) t
| ks_user x c s : running_process (k_ps s) <> 0 -> kstep s [EUser (running_process (k_ps s)) x] (set_k_fpu x (set_k_core c s))
| ks_timer now now' f c s (b : bool) t : timer_interrupt kernel_context_at now now' f c s = Ret (b, t) ->
    kstep s (if b then [EChange (last_running_process (k_ps s)) f] else []) t
| ks_yield f c s t : running_process (k_ps s) <> 0 -> yield_call kernel_context_at f c s = Ret (tt, t) ->
    kstep s [EChange (running_process (k_ps s)) f] t
| ks_exit code f c s t : running_process (k_ps s) <> 0 -> exit_call kernel_context_at code f c s = Ret (tt, t) ->
    kstep s [EChange (running_process (k_ps s)) f] t
| ks_resumed now f s t : scheduler_resumed now f s = Ret (tt, t) -> kstep s [EChange (last_running_process (k_ps s)) f] t
| ks_new fuel s p t : new_process fpu_zero fuel s = Ret (p, t) -> p <> 0 -> pcbs (k_ps s) !! p = None -> kstep s [ENew p] t
| ks_start f p s n t : p <> 0 -> p <> last_running_process (k_ps s) -> start_call f p s = Ret (n, t) ->
    kstep s [EStart p (f (k_fpu s))] t.

Inductive ksteps : K -> list (kevent F) -> K -> Prop :=
| ksteps_nil s : ksteps s [] s
| ksteps_snoc s es t es' u : ksteps s es t -> kstep t es' u -> ksteps s (es ++ es') u.

(** The registers of process [p] after an event. *)
Definition after (p : Z) (v : option F) (e : kevent F) : option F :=
  match e with
  | EUser q x | EStart q x => if p =? q then Some x else v
  | EChange q f => if p =? q then f <$> v else v
  | ENew q => if p =? q then Some fpu_zero else v
  end.

Lemma changed_after f s p : changed f s p (fpu_view s p) = after p (fpu_view s p) (EChange (last_running_process (k_ps s)) f).
Proof. unfold changed. cbn. by rewrite (Z.eqb_sym p). Qed.

Lemma kstep_after s es t : kernel_inv s -> kstep s es t -> kernel_inv t /\
  forall p, p <> 0 -> is_Some (pcbs (k_ps t) !! p) -> (is_Some (pcbs (k_ps s) !! p) \/ es = [ENew p]) /\
    fpu_view t p = foldl (after p) (fpu_view s p) es.
Proof.
  assert (forall g es, views g s t -> (forall p, p <> 0 -> g p (fpu_view s p) = foldl (after p) (fpu_view s p) es) -> kernel_inv t /\
    forall p, p <> 0 -> is_Some (pcbs (k_ps t) !! p) -> (is_Some (pcbs (k_ps s) !! p) \/ es = [ENew p]) /\
    fpu_view t p = foldl (after p) (fpu_view s p) es) as Hv.
  { intros g es' [V1 V2 V3] Hg. split; [done|]. intros p Hp Hl. split; [left; auto|]. by rewrite V3, Hg. }
  intros HI Hs. destruct Hs as [fuel now f g c s r t H0 E|x c s Hr|now now' f c s b t E|f c s t Hr E|code f c s t Hr E|now f s t E|
    fuel s p t E Hp Hn|f p s n t Hp Hl E].
  - destruct (round_views _ _ _ _ _ f g _ s HI H0 _ _ E) as [V _]. apply (Hv _ _ V). intros p Hp. cbn [foldl]. rewrite <- changed_after.
    destruct r; try done. cbn. by rewrite (Z.eqb_sym p).
  - destruct HI as [[I1|I1] I2]; [done|]. apply (Hv (fun p v => if running_process (k_ps s) =? p then (fun _ => x) <$> v else v)).
    + split; [by split; [right|]|done|]. intros p Hp _. unfold fpu_view. cbn. rewrite I1. by destruct (_ =? p).
    + intros p Hp. cbn. rewrite (Z.eqb_sym p). unfold fpu_view. rewrite I1. by destruct (_ =? p).
  - destruct (timer_views _ _ _ f c s HI _ _ E) as (V & _). destruct b; [|by apply (Hv (fun _ v => v))].
    apply (Hv _ _ V). intros p Hp. apply changed_after.
  - destruct (yield_views _ f c s HI Hr _ _ E) as (V & _). apply (Hv _ _ V). intros p Hp.
    destruct (ki_running _ HI) as [?| ->]; [done|]. apply changed_after.
  - destruct (exit_views _ code f c s HI _ _ E) as (V & _). apply (Hv _ _ V). intros p Hp.
    destruct (ki_running _ HI) as [?| ->]; [done|]. apply changed_after.
  - destruct (resumed_views now f s HI _ _ E) as [V _]. apply (Hv _ _ V). intros p Hp. apply changed_after.
  - destruct (new_views fpu_zero fuel s HI _ _ E Hn Hp) as (N1 & _ & N3 & N4). split; [done|]. intros q Hq Hl. cbn.
    destruct (Z.eqb_spec q p) as [->|N]; [by split; [right|]|]. destruct (N4 q N Hl) as [L1 L2]. by split; [left|].
  - by apply (Hv _ _ (start_views f p s HI Hp Hl _ _ E)).
Qed.

Lemma ksteps_after s es t : kernel_inv s -> ksteps s es t -> kernel_inv t /\
  forall p, p <> 0 -> is_Some (pcbs (k_ps t) !! p) -> fpu_view t p = foldl (after p) (fpu_view s p) es.
Proof.
  intros HI Hs. revert HI. induction Hs as [s|s es t es' u Hs IH Hst]; intros HI; [done|]. destruct (IH HI) as [HT Hv].
  destruct (kstep_after t es' u HT Hst) as [HU Hu]. split; [done|]. intros p Hp Hl. destruct (Hu p Hp Hl) as [Ha ->].
  rewrite foldl_app. destruct Ha as [Ha| ->]; [by rewrite (Hv p Hp Ha)|]. cbn. by rewrite Z.eqb_refl.
Qed.

(** C39: the floating point registers belong to the processes, although they
    are saved and loaded only when the process to run is not the one that ran
    last.  Take any run of the scheduler, the timer, and processes that
    compute, yield, exit, are freed, created or started.  The process that then
    gets the processor finds in the unit what the events made of its own
    registers: what it last computed, changed by the kernel's code wherever
    that used the unit while these were in it ([f], [g] and those of the
    events).  Nothing comes to it from another process after its start.  At
    its start it does: a new process begins with what is in the unit then,
    the registers of the process that started it as the kernel's code left
    them ([EStart]).  What [kernel_fpu_begin] set aside does not come back
    after a switch: a preempted process gets what the kernel's code left. *)
Theorem lazy_fpu_correct s es t fuel now f g c n u (HI : kernel_inv s) (Hs : ksteps s es t) (H0 : running_process (k_ps t) = 0)
    (Hr : scheduler_round cpu_local resume_scheduler star fuel now f g c t = Ret (Runs n, u)) :
  Some (k_fpu u) = foldl (after n) (fpu_view s n) (es ++ [EChange (last_running_process (k_ps t)) f; EChange n g]).
Proof.
  destruct (ksteps_after s es t HI Hs) as [HT Hv].
  destruct (round_views _ _ _ _ _ f g _ t HT H0 _ _ Hr) as [[V1 V2 V3] (Hn & R1 & R2 & R3)].
  specialize (V3 n Hn). unfold fpu_view at 1 in V3. rewrite R2, Z.eqb_refl in V3. rewrite V3.
  - rewrite foldl_app, <- Hv by done. cbn [foldl]. rewrite <- changed_after. cbn. by rewrite Z.eqb_refl.
  - destruct (ki_last _ V1) as [?|Hl]; [congruence|]. by rewrite R2 in Hl.
Qed.
End runs.
