(* ===== verification/Preempt.v ===== *)
(** * Preemption (about Dispatch.v and Context.v)

    [timer_interrupt_correct]: an interrupt of the timer is acknowledged, and
    it returns to the process with nothing changed or, exactly when its time is
    over, leaves it runnable with its registers in its context.  [preempted_process_resumes]: what it
    finds when it runs again. *)
From S2P Require Import Prelude PhysMem Vmm Sched SchedInv Files Proc ProcFacts ProcInv Ports Drivers Apic ApicFacts Descriptors CLib.
From S2P Require Import Kernel Context Dispatch DispatchFacts.

(** ** The tick *)

(** The states of the processes and the beginnings and lengths of their time
    slices are those before. *)
Definition slice (x : process) : process_state * Z * Z := (p_state x, last_timeslice (sched x), last_ran (sched x)).
Definition same_slices (s t : sstate) : Prop := forall q, slice <$> procs t !! q = slice <$> procs s !! q.

Lemma put_same_slices s p x se r st : procs s !! p = Some x -> last_timeslice se = last_timeslice (sched x) ->
  last_ran se = last_ran (sched x) -> same_slices s (MkS (<[p := set_sched x se]> (procs s)) r st).
Proof.
  intros Hx E1 E2 q. cbn. destruct (decide (q = p)) as [->|]; [|by rewrite lookup_insert_ne].
  rewrite lookup_insert_eq, Hx. unfold slice. cbn. by rewrite E1, E2.
Qed.
Lemma get_proc_inv p s : ends (get_proc p) (fun x t => t = s /\ procs s !! p = Some x) s.
Proof. intros x t E. unfold get_proc in E. destruct (procs s !! p) as [y|] eqn:Ey; [|done]. by injection E as <- <-. Qed.

Lemma update_vruntime_slices p d s : ends (sched_update_vruntime p d) (fun _ t => same_slices s t) s.
Proof.
  unfold sched_update_vruntime. apply ends_bind. eapply ends_weaken; [apply get_proc_inv|]. intros x ? [-> Hx].
  apply ends_bind. intros w s1 E1. assert (s1 = s) as -> by (destruct (sched_entity_weight _); [by injection E1|done]).
  apply ends_bind, ends_modify, ends_bind, ends_reads. destruct (_ <? _); [apply ends_modify|apply ends_ret]; by apply put_same_slices.
Qed.
Lemma upd_sched_slices p f s : (forall se, last_timeslice (f se) = last_timeslice se /\ last_ran (f se) = last_ran se) ->
  ends (upd_sched p f) (fun _ t => same_slices s t) s.
Proof.
  intros Hf. unfold upd_sched. apply ends_bind. eapply ends_weaken; [apply get_proc_inv|]. intros x ? [-> Hx]. apply ends_modify.
  apply put_same_slices; [done|apply Hf..].
Qed.

(** Process [p] runs, and has run for at least its time slice at [now]. *)
Definition time_over (s : sstate) (p now : Z) : bool :=
  match procs s !! p with
  | Some x => bool_decide (p_state x = RUNNING) && (last_timeslice (sched x) <=? wrap 64 (now - last_ran (sched x)))
  | None => false
  end.

(** The tick finds out whether its time is over; then the process that runs is
    made runnable. *)
Lemma tick_time_over now s : ends (scheduler_tick now) (fun expired t =>
  expired = negb (curr (rq s) =? 0) && time_over s (curr (rq s)) now /\
  (expired = true -> exists y, procs t !! curr (rq s) = Some y /\ p_state y = RUNNABLE)) s.
Proof.
  unfold scheduler_tick. apply ends_bind, ends_modify, ends_bind, ends_reads. cbn [rq procs].
  match goal with |- ends _ _ ?z => set (s0 := z) end. destruct (_ =? 0); [by apply ends_ret|]. cbn [negb andb].
  apply ends_bind. eapply ends_weaken; [apply get_proc_inv|]. intros x ? [-> Hx]. change (procs s0) with (procs s) in Hx.
  unfold time_over. rewrite Hx. case_bool_decide as Hrun; cbn [negb andb]; [|by apply ends_ret]. apply ends_bind.
  eapply (ends_weaken _ (fun _ t => same_slices s0 t)).
  { destruct (0 <? _); [|by apply ends_ret]. apply ends_bind. eapply ends_weaken; [apply update_vruntime_slices|]. intros [] s1 H1.
    eapply ends_weaken; [by apply upd_sched_slices|]. intros [] s2 H2 q. by rewrite H2. }
  intros [] s1 H1. apply ends_bind. eapply ends_weaken; [apply get_proc_inv|]. intros x1 ? [-> Hx1].
  pose proof (H1 (curr (rq s))) as E1. change (procs s0) with (procs s) in E1. rewrite Hx, Hx1 in E1. injection E1 as P1 P2 P3.
  rewrite <- P2, <- P3. destruct (_ <=? _); [|by apply ends_ret]. apply ends_bind, ends_modify, ends_bind.
  eapply ends_weaken; [apply get_proc_inv|]. intros x2 ? [-> Hx2]. cbn [procs] in Hx2. rewrite Hx1 in Hx2. injection Hx2 as <-.
  apply ends_bind, ends_modify, ends_ret. split; [done|]. intros _. cbn. rewrite lookup_insert_eq. eexists. split; [reflexivity|].
  by rewrite bool_decide_true by congruence.
Qed.

Section preemption.
Context {P F : Type} `{BL : BoardLaws P}.
Context (cpu_local kernel_context_at resume_scheduler star : Z).
Abbreviation K := (kernel P F).
Implicit Types s t u : K.

(** The context of [p] is that of [c], but for the word the kernel keeps. *)
Definition context_holds (c : core) (w : words) : Prop :=
  forall f, f ∈ cpu_context -> f <> Kernel_rip -> get_field cpu_context f w = frame_value c f.

(** C40: an interrupt of the timer while process [p] runs.  The handler comes
    to an end and has acknowledged the interrupt once.  It switches exactly if
    the process is in the state of running and has run for at least its time
    slice.  Then the process is made runnable, its registers are in its
    context, the floating point unit is as the kernel's code left it, and the
    scheduler continues in its loop; otherwise the process goes on with all of
    its registers, those of the unit included. *)
Theorem timer_interrupt_correct s p b d now now' f c (switched := time_over (ss (k_ps s)) p now') (Hp : p <> 0)
    (Hok : sched_ok (ss (k_ps s))) (Hcurr : curr (rq (ss (k_ps s))) = p) (Hrun : running_process (k_ps s) = p)
    (Hb : pcbs (k_ps s) !! p = Some b) (Hlock : locked b = true) (Hd : k_data s !! p = Some d)
    (Hw : window (pic_p (k_pic s)) (lapic (k_pic s)) lapic_at) :
  exists t, timer_interrupt kernel_context_at now now' f c s = Ret (switched, t) /\ sched_ok (ss (k_ps t)) /\
    eois (pic_p (k_pic t)) = eois (pic_p (k_pic s)) + 1 /\
    if switched then
      (exists x, procs (ss (k_ps t)) !! p = Some x /\ p_state x = RUNNABLE) /\
      (exists d', k_data t !! p = Some d' /\ context_holds (k_core s) (ctx d')) /\
      k_fpu t = f (k_fpu s) /\
      (forall r, r <> R13 -> gpr (k_core t) r = get_field cpu_context (Gpr r) (kernel_context s))
    else
      k_fpu t = k_fpu s /\ k_data t = k_data s /\ (forall r, gpr (k_core t) r = gpr (k_core s) r) /\
      rip (k_core t) = rip (k_core s) /\ rflags (k_core t) = rflags (k_core s).
Proof.
  unfold timer_interrupt. rewrite (bind_step _ _ _ _ _ eq_refl), (bind_step _ _ _ _ _ eq_refl), (bind_step _ _ _ _ _ eq_refl).
  match goal with |- context [mbind _ _ ?z] => set (s1 := z) end.
  set (s2 := set_k_pic (set_io (mm_write (lapic (k_pic s) + LAPIC_EOI) 0 (pic_p (k_pic s))) (k_pic s)) (set_clock now s1)).
  assert (zoom k_pic set_k_pic lapic_send_eoi (set_clock now s1) = Ret (tt, s2)) as E2
    by (apply zoom_run; exact (lapic_send_eoi_run (k_pic s) Hw)).
  destruct (tick_ok (ss (k_ps s)) now' Hok) as (expired & x & Ex & Hx).
  set (s3 := set_k_ps (set_ss (k_ps s) x) s2).
  assert (on_ps (on_sched (scheduler_tick now')) s2 = Ret (expired, s3)) as E3 by (apply zoom_run; exact (on_sched_run _ _ _ _ Ex)).
  destruct (tick_time_over now' _ _ _ Ex) as [Hover Hy]. rewrite Hcurr, (proj2 (Z.eqb_neq _ _) Hp) in Hover. cbn [negb andb] in Hover.
  fold switched in Hover. rewrite <- Hover. clear Hover switched. pose proof (eoi_counted (k_pic s) Hw) as He.
  destruct expired.
  - destruct (Hy eq_refl) as (y & Ey & Hst). clear Hy. rename Hst into Hy. rewrite Hcurr in Ey.
    set (w := (context_switch_to_kernel (kernel_context s) kernel_context_at (Some (timer_frame (k_core s))) (ctx d) c).1).
    set (e := (context_switch_to_kernel (kernel_context s) kernel_context_at (Some (timer_frame (k_core s))) (ctx d) c).2).
    set (t := set_k_core e (set_k_data (<[p := MkPdata w (gs_base d) (fpu_state d)]> (k_data s)) s3)).
    assert (switch_back kernel_context_at (Some (timer_frame (k_core s))) s3 = Ret (tt, t)) as E4.
    { unfold switch_back.
      assert (on_ps scheduler_switch_back s3 = Ret (tt, s3)) as Eb.
      { refine (eq_trans (zoom_run k_ps set_k_ps _ s3 tt (set_ss (k_ps s) x) _) _); [|done].
        unfold scheduler_switch_back. rewrite (bind_step _ _ (set_ss (k_ps s) x) p (set_ss (k_ps s) x)) by (unfold reads; by cbn; rewrite Hrun).
        rewrite (bind_step _ _ (set_ss (k_ps s) x) b (set_ss (k_ps s) x)) by (unfold get_pcb; cbn; by rewrite Hb). rewrite Hlock. cbn [negb].
        rewrite (bind_step _ _ (set_ss (k_ps s) x) y (set_ss (k_ps s) x)) by (unfold on_sched, zoom, get_proc; cbn; by rewrite Ey).
        by rewrite Hy. }
      rewrite (bind_step _ _ _ _ _ Eb), (bind_step _ _ s3 p s3) by (unfold reads; by cbn; rewrite Hrun).
      unfold switch_to_kernel. rewrite (bind_step _ _ s3 d s3) by (unfold get_data; cbn; by rewrite Hd). done. }
    exists t. split; [|split; [exact Hx|split; [exact He|split; [by exists y|split; [|split; [done|]]]]]].
    + unfold sched_timer_handler.
      assert ((_ ← st_modify (set_clock now); _ ← zoom k_pic set_k_pic lapic_send_eoi; expired ← on_ps (on_sched (scheduler_tick now'));
        if (expired : bool) then _ ← switch_back kernel_context_at (Some (timer_frame (k_core s))); mret true else mret false) s1 = Ret (true, t)) as EH.
      { rewrite (bind_step _ _ _ _ _ eq_refl), (bind_step _ _ _ _ _ E2), (bind_step _ _ _ _ _ E3). by rewrite (bind_step _ _ _ _ _ E4). }
      by rewrite (bind_step _ _ _ _ _ EH).
    + exists (MkPdata w (gs_base d) (fpu_state d)). split; [cbn; by rewrite lookup_insert_eq|].
      intros g Hg N. by apply context_of_frame.
    + intros r Hr. by destruct r.
  - exists (set_k_core (timer_return (timer_frame (k_core s)) c) (set_k_fpu (k_fpu s) s3)). split; [|split; [exact Hx|split; [exact He|]]].
    + unfold sched_timer_handler.
      assert ((_ ← st_modify (set_clock now); _ ← zoom k_pic set_k_pic lapic_send_eoi; expired ← on_ps (on_sched (scheduler_tick now'));
        if (expired : bool) then _ ← switch_back kernel_context_at (Some (timer_frame (k_core s))); mret true else mret false) s1 = Ret (false, s3)) as EH.
      { by rewrite (bind_step _ _ _ _ _ eq_refl), (bind_step _ _ _ _ _ E2), (bind_step _ _ _ _ _ E3). }
      rewrite (bind_step _ _ _ _ _ EH). reflexivity.
    + split; [done|]. split; [done|]. destruct (timer_return_frame (k_core s) c) as (C1 & C2 & C3 & _). done.
Qed.

(** ** The switch back and the next turn *)

Lemma to_kernel_context p frame s : ends (switch_to_kernel kernel_context_at p frame) (fun _ t => exists d d',
  k_data s !! p = Some d /\ k_data t !! p = Some d' /\
  ctx d' = (context_switch_to_kernel (kernel_context s) kernel_context_at frame (ctx d) (k_core s)).1) s.
Proof.
  unfold switch_to_kernel. apply ends_bind. intros d s1 E. unfold get_data in E.
  destruct (k_data s !! p) as [d'|] eqn:Ed; [|done]. injection E as <- <-. apply ends_bind, ends_reads, ends_bind, ends_reads.
  destruct (context_switch_to_kernel _ _ _ _ _) as [w c] eqn:Ec. apply ends_bind, ends_modify, ends_modify.
  exists d', (MkPdata w (gs_base d') (fpu_state d')). split; [done|]. split; [cbn; by rewrite lookup_insert_eq|]. by rewrite Ec.
Qed.

Lemma timer_context now now' f c s : ends (timer_interrupt kernel_context_at now now' f c) (fun switched t =>
  switched = true -> exists d', k_data t !! running_process (k_ps s) = Some d' /\ context_holds (k_core s) (ctx d')) s.
Proof.
  unfold timer_interrupt. apply ends_bind, ends_reads, ends_bind, ends_modify, ends_bind, ends_modify, ends_bind.
  unfold sched_timer_handler. apply ends_bind, ends_modify, ends_bind, ends_zoom. intros [] pc _.
  apply ends_bind, ends_zoom. eapply ends_weaken; [apply (shrinking_sched true)|]. intros expired x Hx.
  destruct expired; [|by apply ends_ret, ends_bind, ends_modify, ends_bind, ends_modify, ends_ret].
  apply ends_bind. unfold switch_back. apply ends_bind, ends_zoom. eapply ends_weaken; [apply (shrinking_switch_back true)|].
  intros [] y Hy. apply ends_bind, ends_reads. cbn [set_k_ps k_ps].
  assert (running_process y = running_process (k_ps s)) as ->
    by (rewrite (sh_running _ _ _ Hy); cbn; by rewrite (sh_running _ _ _ Hx)).
  eapply ends_weaken; [apply to_kernel_context|]. intros [] t (d & d' & _ & E & Ec). apply ends_ret, ends_ret. intros _.
  exists d'. split; [done|]. intros g Hg N. rewrite Ec. by apply context_of_frame.
Qed.

(** The way of a pass to the process it picks: the contexts stay. *)
Definition same_contexts s t : Prop := forall q, ctx <$> k_data t !! q = ctx <$> k_data s !! q.
Lemma fpu_save_contexts q s : ends (fpu_save q) (fun _ t => same_contexts s t) s.
Proof.
  unfold fpu_save. apply ends_bind, ends_reads, ends_bind. intros d s1 E. unfold get_data in E.
  destruct (k_data s !! q) as [d'|] eqn:Ed; [|done]. injection E as <- <-. apply ends_modify. intros p. cbn.
  destruct (decide (p = q)) as [->|]; [by rewrite lookup_insert_eq, Ed|by rewrite lookup_insert_ne].
Qed.
Lemma load_additional_contexts old n s : ends (load_additional_data_if_needed old n) (fun _ t => same_contexts s t) s.
Proof.
  unfold load_additional_data_if_needed. destruct (n =? old); [by apply ends_ret|]. apply ends_bind. intros d s1 E.
  assert (s1 = s) as -> by (unfold get_data in E; destruct (k_data s !! n); [by injection E|done]).
  apply ends_bind, ends_zoom. intros [] pc _. apply ends_bind.
  eapply (ends_weaken _ (fun _ t => same_contexts (set_k_pic pc s) t)).
  { destruct (truth old); [apply fpu_save_contexts|by apply ends_ret]. }
  intros [] s2 H2. unfold fpu_load. apply ends_bind. intros x s3 E3.
  assert (s3 = s2) as -> by (unfold get_data in E3; destruct (k_data s2 !! n); [by injection E3|done]). by apply ends_modify.
Qed.

Lemma round_context fuel now f g c s : ends (scheduler_round cpu_local resume_scheduler star fuel now f g c) (fun r t =>
  forall n, r = Runs n -> exists d k, k_data s !! n = Some d /\ k_core t = (context_switch_to_user star (ctx d) k c).2) s.
Proof.
  unfold scheduler_round. apply ends_bind, ends_modify. unfold scheduler_pass. apply ends_bind, ends_reads. destruct (_ =? 0).
  { apply ends_bind. intros r s1 _. apply ends_bind. intros [] s2 _.
    destruct r; repeat (apply ends_ret || apply ends_bind || (intros ? ? _)); done. }
  apply ends_bind, ends_reads, ends_bind, ends_zoom. intros n x _. destruct (n =? 0); [by apply ends_ret|].
  apply ends_bind. eapply ends_weaken; [apply load_additional_contexts|]. intros [] s1 H1.
  apply ends_bind, ends_modify, ends_bind, ends_zoom. intros [] pc _. apply ends_bind, ends_zoom. intros b y _. apply ends_bind, ends_modify, ends_bind, ends_reads.
  apply ends_bind, ends_modify, ends_bind, ends_modify, ends_bind. unfold switch_to_user. apply ends_bind. intros d s2 E.
  unfold get_data in E. cbn in E. destruct (k_data s1 !! n) as [d1|] eqn:E1; [|done]. injection E as <- <-.
  apply ends_bind, ends_modify. destruct (context_switch_to_user star (ctx d1) _ _) as [[k stack] e] eqn:Ec.
  apply ends_zoom. intros [] pc' _. apply ends_ret. intros n' [= <-]. pose proof (H1 n) as Hn. rewrite E1 in Hn. cbn in Hn.
  destruct (k_data s !! n) as [d|]; [|done]. injection Hn as Hn. rewrite Hn in Ec. cbn in Ec.
  eexists d, (put_field cpu_context Kernel_rip resume_scheduler (put_field cpu_context (Gpr RSP) (kernel_stack_top b) (kernel_context s1))).
  split; [done|]. by rewrite Ec.
Qed.

(** C38: a preempted process goes on where it was.  After an interrupt that ends
    with the switch to the scheduler, whatever happens to other processes until
    a pass of the scheduler's loop picks [p] again, [p] continues at the
    instruction at which it was interrupted, with its stack and every general
    purpose register as it was, except [rcx] and [r11]: these hold the address
    it continues at and its flags, since the way back is [sysretq]. *)
Theorem preempted_process_resumes s p now now' f c t u fuel now2 f2 g2 c2 v (Hp : running_process (k_ps s) = p)
    (Ht : timer_interrupt kernel_context_at now now' f c s = Ret (true, t))
    (Hu : ctx <$> k_data u !! p = ctx <$> k_data t !! p)
    (Hv : scheduler_round cpu_local resume_scheduler star fuel now2 f2 g2 c2 u = Ret (Runs p, v)) :
  (forall r, r <> RCX -> r <> R11 -> gpr (k_core v) r = gpr (k_core s) r) /\ rip (k_core v) = rip (k_core s) /\
  rflags (k_core v) = Z.lor (Z.land (rflags (k_core s)) 0x3C7FD7) 2 /\
  gpr (k_core v) RCX = rip (k_core s) /\ gpr (k_core v) R11 = rflags (k_core s).
Proof.
  destruct (timer_context _ _ _ _ _ _ _ Ht eq_refl) as (d & Ed & Hd). rewrite Hp in Ed.
  destruct (round_context _ _ _ _ _ _ _ _ Hv p eq_refl) as (d' & k & Ed' & ->). rewrite Ed, Ed' in Hu. injection Hu as ->.
  exact (context_resumes star (k_core s) (ctx d) k c2 Hd).
Qed.

(** A process that gives up the processor in a call starts over: the switch to
    the scheduler leaves the stack pointer and the instruction pointer in the
    context as they were, those of the process's start or its last preemption,
    and stores the kernel's other registers.  (With the spin locks on, the call
    ends in a panic before it comes to that: [waiting_deadlocks].) *)
Lemma yielding_process_restarts s p f c t u fuel now2 f2 g2 c2 v d (Hp : running_process (k_ps s) = p) (Hp0 : p <> 0)
    (Hd : k_data s !! p = Some d) (Ht : yield_call kernel_context_at f c s = Ret (tt, t))
    (Hu : ctx <$> k_data u !! p = ctx <$> k_data t !! p)
    (Hv : scheduler_round cpu_local resume_scheduler star fuel now2 f2 g2 c2 u = Ret (Runs p, v)) :
  rip (k_core v) = get_field cpu_context Rip (ctx d) /\ gpr (k_core v) RSP = get_field cpu_context (Gpr RSP) (ctx d) /\
  forall r, r <> RSP -> r <> RCX -> r <> R11 -> gpr (k_core v) r = gpr c r.
Proof.
  assert (exists d' k, k_data t !! p = Some d' /\
    ctx d' = (context_switch_to_kernel k kernel_context_at None (ctx d) c).1) as (d' & k & Ed' & Ec).
  { revert Ht. unfold yield_call.
    match goal with |- ?m s = _ -> _ => apply (fun H => (H : ends m (fun _ t => exists d' k, k_data t !! p = Some d' /\
      ctx d' = (context_switch_to_kernel k kernel_context_at None (ctx d) c).1) s) tt t) end.
    apply ends_bind, ends_modify, ends_bind, ends_modify, ends_bind, ends_zoom.
    assert (shrinking true scheduler_yield) as Hy by (unfold scheduler_yield; shrink_solve).
    eapply ends_weaken; [apply Hy|]. intros [] x Hx. apply ends_bind, ends_reads. cbn [set_k_ps k_ps].
    assert (running_process x = p) as -> by (rewrite (sh_running _ _ _ Hx); exact Hp).
    unfold truth. rewrite (proj2 (Z.eqb_neq _ _)) by done. cbn [negb]. apply ends_bind, ends_modify.
    eapply ends_weaken; [apply to_kernel_context|]. intros [] t' (e & e' & Ee & Ee' & Ec). cbn in Ee.
    rewrite Hd in Ee. injection Ee as <-. by exists e', (kernel_context s). }
  destruct (round_context _ _ _ _ _ _ _ _ Hv p eq_refl) as (d2 & k2 & Ed2 & ->). rewrite Ed', Ed2 in Hu. injection Hu as ->.
  rewrite Ec. apply context_restarts.
Qed.
End preemption.
