(* ===== verification/PreemptDemo.v ===== *)
(** * One process on a small machine

    The machine of ProcDemo.v on the board of ApicDemo.v: a process is created
    and started, computes, is preempted, runs again and exits: the inputs of
    the theorems of DispatchFacts.v and Preempt.v. *)
From S2P Require Import Prelude Mem PhysMem Vmm Sched SchedInv Files Proc ProcFacts ProcInv Ports Drivers Apic ApicFacts Descriptors CLib.
From S2P Require Import Kernel Context Dispatch DispatchFacts Preempt ProcDemo ApicDemo.

(** The image in the floating point unit is a number. *)
Abbreviation demo := (kernel board Z).
(** IA32_STAR. *)
Definition STAR : Z := Z.lor (Z.shiftl GDT_KERNEL_CODE_SEGMENT 32) (Z.shiftl (GDT_USER_DATA_SEGMENT - 8) 48).
(** The kernel's code adds to the number. *)
Abbreviation round1 now s := (scheduler_round (P := board) (F := Z) 0x1000 0x3000 STAR 9 now (Z.add 1) (Z.add 2) (k_core s) s).
Abbreviation resumed1 now s := (scheduler_resumed (P := board) (F := Z) now (Z.add 100) s).
Abbreviation timer1 now s := (timer_interrupt (P := board) (F := Z) 0x2000 now now (Z.add 11) (k_core s) s).

Definition demo_core : core := MkCore (fun r => if decide (r = RSP) then 0xFFFF8000 else 0) 0x400000 0x202 0x23 0x1B.
Definition k_start : demo :=
  MkKernel boot0 (set_lapic (WINDOW + LAPIC) demo_pic) demo_core 5 0 ∅ (fun _ => 0) 0 0 0 0.
Definition k_new : Z * demo := ret_or (0, k_start) (new_process 0 5 k_start).
Definition k_ready : demo := (ret_or (0, k_start) (start_call (Z.add 3) k_new.1 k_new.2)).2.
Definition k_runs : demo := (ret_or (Again, k_start) (round1 100 k_ready)).2.
(** It computes; the timer interrupts it after its time. *)
Definition k_user : demo := set_k_fpu 7 (set_k_core demo_core k_runs).
Definition k_preempted : demo := (ret_or (false, k_start) (timer1 50000 k_user)).2.
Definition k_loop : demo := (ret_or (tt, k_start) (resumed1 50010 k_preempted)).2.
Definition k_again : demo := (ret_or (Again, k_start) (round1 50020 k_loop)).2.

Definition runs_of (r : round) : Z := match r with Runs p => p | _ => 0 end.
Definition round_is (p : Z) (o : outcome (round * demo)) : bool :=
  match o with Ret (Runs q, _) => q =? p | _ => false end.
Lemma round_is_run p o d : round_is p o = true -> o = Ret (Runs p, (ret_or d o).2).
Proof. destruct o as [[[q| | |] s]| | |]; cbn; try done. by intros ->%Z.eqb_eq. Qed.
Definition bool_is (b : bool) (o : outcome (bool * demo)) : bool := match o with Ret (b', _) => Bool.eqb b' b | _ => false end.
Lemma bool_is_run b o d : bool_is b o = true -> o = Ret (b, (ret_or d o).2).
Proof. destruct o as [[b' s]| | |]; cbn; try done. by intros ->%eqb_prop. Qed.
Lemma unit_run (o : outcome (unit * demo)) d : is_ret o = true -> o = Ret (tt, (ret_or d o).2).
Proof. by destruct o as [[[] s]| | |]. Qed.

Lemma k_new_run : new_process 0 5 k_start = Ret (k_new.1, k_new.2).
Proof. refine (ret_or_pair (0, k_start) _ _). vm_compute. reflexivity. Qed.
Lemma k_ready_run : start_call (Z.add 3) k_new.1 k_new.2 = Ret ((ret_or (0, k_start) (start_call (Z.add 3) k_new.1 k_new.2)).1, k_ready).
Proof. refine (ret_or_pair (0, k_start) _ _). vm_compute. reflexivity. Qed.
Lemma k_runs_run : round1 100 k_ready = Ret (Runs k_new.1, k_runs).
Proof. refine (round_is_run _ _ (Again, k_start) _). vm_compute. reflexivity. Qed.
Lemma k_preempted_run : timer1 50000 k_user = Ret (true, k_preempted).
Proof. refine (bool_is_run _ _ (false, k_start) _). vm_compute. reflexivity. Qed.
Lemma k_loop_run : resumed1 50010 k_preempted = Ret (tt, k_loop).
Proof. refine (unit_run _ (tt, k_start) _). vm_compute. reflexivity. Qed.
Lemma k_again_run : round1 50020 k_loop = Ret (Runs k_new.1, k_again).
Proof. refine (round_is_run _ _ (Again, k_start) _). vm_compute. reflexivity. Qed.

(** In its second turn the process exits; its memory is freed. *)
Definition k_exited : demo := (ret_or (tt, k_start) (exit_call (P := board) 0x2000 3 (Z.add 5) (k_core k_again) k_again)).2.
Definition k_freed : demo := (ret_or (tt, k_start) (resumed1 50040 k_exited)).2.
Lemma k_exited_run : exit_call (P := board) 0x2000 3 (Z.add 5) (k_core k_again) k_again = Ret (tt, k_exited).
Proof. refine (unit_run _ (tt, k_start) _). vm_compute. reflexivity. Qed.
Lemma k_freed_run : resumed1 50040 k_exited = Ret (tt, k_freed).
Proof. refine (unit_run _ (tt, k_start) _). vm_compute. reflexivity. Qed.

Abbreviation demo_step := (kstep (P := board) 0 0x1000 0x2000 0x3000 STAR).
Abbreviation demo_steps := (ksteps (P := board) 0 0x1000 0x2000 0x3000 STAR).
Lemma demo_steps_one s es t : demo_step s es t -> demo_steps s es t.
Proof. intros H. exact (ksteps_snoc _ _ _ _ _ s [] s es t (ksteps_nil _ _ _ _ _ s) H). Qed.

Definition demo_events : list (kevent Z) :=
  [ENew k_new.1; EStart k_new.1 (3 + k_fpu k_new.2)] ++ [EChange 0 (Z.add 1); EChange k_new.1 (Z.add 2)] ++
  [EUser (running_process (k_ps k_runs)) 7; EChange (last_running_process (k_ps k_user)) (Z.add 11);
   EChange (last_running_process (k_ps k_preempted)) (Z.add 100)].

Lemma demo_run : demo_steps k_start demo_events k_loop.
Proof.
  assert (k_new.1 <> 0) as Hp by (vm_compute; discriminate).
  assert (k_new.1 <> last_running_process (k_ps k_new.2)) as Hl by (vm_compute; discriminate).
  assert (last_running_process (k_ps k_ready) = 0) as L0 by (vm_compute; reflexivity).
  assert (running_process (k_ps k_ready) = 0) as H0 by (vm_compute; reflexivity).
  assert (running_process (k_ps k_runs) <> 0) as H1 by (vm_compute; discriminate).
  assert (pcbs (k_ps k_start) !! k_new.1 = None) as Hn by (vm_compute; reflexivity).
  pose proof (demo_steps_one _ _ _ (ks_new 0 0x1000 0x2000 0x3000 STAR 5 k_start k_new.1 k_new.2 k_new_run Hp Hn)) as S1.
  pose proof (ksteps_snoc _ _ _ _ _ _ _ _ _ _ S1 (ks_start 0 0x1000 0x2000 0x3000 STAR (Z.add 3) k_new.1 k_new.2 _ k_ready Hp Hl k_ready_run)) as S2.
  pose proof (ksteps_snoc _ _ _ _ _ _ _ _ _ _ S2
    (ks_round 0 0x1000 0x2000 0x3000 STAR 9 100 (Z.add 1) (Z.add 2) (k_core k_ready) k_ready (Runs k_new.1) k_runs H0 k_runs_run)) as S3.
  pose proof (ksteps_snoc _ _ _ _ _ _ _ _ _ _ S3 (ks_user 0 0x1000 0x2000 0x3000 STAR 7 demo_core k_runs H1)) as S4.
  pose proof (ksteps_snoc _ _ _ _ _ _ _ _ _ _ S4
    (ks_timer 0 0x1000 0x2000 0x3000 STAR 50000 50000 (Z.add 11) (k_core k_user) k_user true k_preempted k_preempted_run)) as S5.
  pose proof (ksteps_snoc _ _ _ _ _ _ _ _ _ _ S5 (ks_resumed 0 0x1000 0x2000 0x3000 STAR 50010 (Z.add 100) k_preempted k_loop k_loop_run)) as S6.
  rewrite L0 in S6. exact S6.
Qed.

(** A run may go on to the end of the process. *)
Lemma demo_exit : exists es, demo_steps k_start es k_freed /\ pcbs (k_ps k_freed) !! k_new.1 = None.
Proof.
  assert (running_process (k_ps k_loop) = 0) as H0 by (vm_compute; reflexivity).
  assert (running_process (k_ps k_again) <> 0) as H1 by (vm_compute; discriminate).
  pose proof (ksteps_snoc _ _ _ _ _ _ _ _ _ _ demo_run
    (ks_round 0 0x1000 0x2000 0x3000 STAR 9 50020 (Z.add 1) (Z.add 2) (k_core k_loop) k_loop (Runs k_new.1) k_again H0 k_again_run)) as S1.
  pose proof (ksteps_snoc _ _ _ _ _ _ _ _ _ _ S1
    (ks_exit 0 0x1000 0x2000 0x3000 STAR 3 (Z.add 5) (k_core k_again) k_again k_exited H1 k_exited_run)) as S2.
  pose proof (ksteps_snoc _ _ _ _ _ _ _ _ _ _ S2 (ks_resumed 0 0x1000 0x2000 0x3000 STAR 50040 (Z.add 100) k_exited k_freed k_freed_run)) as S3.
  eexists. split; [exact S3|]. vm_compute. reflexivity.
Qed.

Lemma lazy_fpu_correct_witness : k_fpu k_again = 7 + 11 + 100 + 1 + 2.
Proof.
  assert (kernel_inv k_start) as HI by (split; left; vm_compute; reflexivity).
  assert (running_process (k_ps k_loop) = 0) as H0 by (vm_compute; reflexivity).
  pose proof (lazy_fpu_correct 0 0x1000 0x2000 0x3000 STAR k_start demo_events k_loop 9 50020 (Z.add 1) (Z.add 2) (k_core k_loop) k_new.1 k_again
    HI demo_run H0 k_again_run) as H.
  assert (foldl (after 0 k_new.1) (fpu_view k_start k_new.1)
    (demo_events ++ [EChange (last_running_process (k_ps k_loop)) (Z.add 1); EChange k_new.1 (Z.add 2)]) = Some 121) as E by (vm_compute; reflexivity).
  rewrite E in H. apply (inj Some) in H. exact H.
Defined.

Lemma preempted_process_resumes_witness : gpr (k_core k_again) RSP = 0xFFFF8000 /\ rip (k_core k_again) = 0x400000.
Proof.
  assert (running_process (k_ps k_user) = k_new.1) as Hp by (vm_compute; reflexivity).
  assert (ctx <$> k_data k_loop !! k_new.1 = ctx <$> k_data k_preempted !! k_new.1) as Hu by (vm_compute; reflexivity).
  destruct (preempted_process_resumes 0x1000 0x2000 0x3000 STAR k_user k_new.1 50000 50000 (Z.add 11) (k_core k_user) k_preempted
    k_loop 9 50020 (Z.add 1) (Z.add 2) (k_core k_loop) k_again Hp k_preempted_run Hu k_again_run) as (H1 & H2 & _).
  split; [exact (H1 RSP ltac:(discriminate) ltac:(discriminate))|exact H2].
Defined.

(** One process runs. *)
Definition k_tick : demo :=
  MkKernel (MkPs demo_mm demo_vm (MkS {[4096 := MkProc RUNNING 0 (demo_entity 3 0)]} (rq_set_curr rq_empty 4096) (MkStats 0 0 0 0))
      {[4096 := MkPcb 1 0 0 8192 0 0 0 (-1) true]} (4096 :: replicate 63 0) 1 1 2 4096 4096 true)
    (set_lapic (WINDOW + LAPIC) demo_pic) demo_core 7 0 {[4096 := MkPdata (fun _ => 0) 0 5]} (fun _ => 0) 0 0 0 0.

Lemma k_tick_ok : sched_ok (ss (k_ps k_tick)).
Proof.
  assert (forall l, proc_ok l 4096 (MkProc RUNNING 0 (demo_entity 3 0)) <-> 4096 ∉ l) as Hp.
  { intros l. split; [intros [_ _ _ _ H _] Hl; by specialize (H Hl)|]. intros Hl. split; cbn; lia || done || by intros. }
  destruct (sched_ok_idle {[4096 := MkProc RUNNING 0 (demo_entity 3 0)]} (MkStats 0 0 0 0)) as (Q & HQ & _).
  { intros p x Hx. apply lookup_singleton_Some in Hx as [<- <-]. apply Hp. by apply not_elem_of_nil. }
  exists Q. split; [by apply (sched_inv_rq _ Q (rq_set_curr rq_empty 4096) (MkStats 0 0 0 0) HQ)|]. split; [|done].
  apply Hp. by apply (si_proc _ _ HQ).
Qed.

(** Its time slice began at 0: at 10 its time is not over, at 100000 it is. *)
Lemma timer_interrupt_correct_witness :
  (exists t : demo, timer1 10 k_tick = Ret (false, t) /\ eois (pic_p (k_pic t)) = 1 /\ k_fpu t = 7) /\
  (exists t : demo, timer1 100000 k_tick = Ret (true, t) /\ eois (pic_p (k_pic t)) = 1 /\ k_fpu t = 18 /\
     p_state <$> procs (ss (k_ps t)) !! 4096 = Some RUNNABLE).
Proof.
  assert (forall now, let over := time_over (ss (k_ps k_tick)) 4096 now in
    exists t, timer1 now k_tick = Ret (over, t) /\ eois (pic_p (k_pic t)) = 1 /\
      if over then (exists x, procs (ss (k_ps t)) !! 4096 = Some x /\ p_state x = RUNNABLE) /\ k_fpu t = 18 else k_fpu t = 7) as H.
  { intros now over.
    destruct (timer_interrupt_correct 0x2000 k_tick 4096 (MkPcb 1 0 0 8192 0 0 0 (-1) true) (MkPdata (fun _ => 0) 0 5) now now
      (Z.add 11) (k_core k_tick)) as (t & E & _ & He & Ht); try done; [exact k_tick_ok|by apply demo_window|].
    exists t. split; [exact E|]. split; [exact He|]. fold over in Ht. destruct over; [|by apply Ht].
    destruct Ht as (Ht & _ & Hf & _). by split. }
  split.
  - destruct (H 10) as (t & E & He & Ht). exists t. change (time_over (ss (k_ps k_tick)) 4096 10) with false in E, Ht. done.
  - destruct (H 100000) as (t & E & He & Ht). exists t. change (time_over (ss (k_ps k_tick)) 4096 100000) with true in E, Ht.
    destruct Ht as [(x & -> & <-) Hf]. done.
Defined.
